(* ===== verification/_CoqProject ===== *)
-Q . S2P
Prelude.v
Errors.v
PyDecimal.v
Money.v
Pricing.v
Enums.v
OrderState.v
Tables.v
Sql.v
Database.v
Constraints.v
Ddl.v
Models.v
Migrations.v
SchemaRows.v
Redis.v
RateLimit.v
Ledger.v
Movements.v
Users.v
Promos.v
Crypto.v
Media.v
Orders.v
Races.v
Invoices.v
Config.v
Fields.v
Tokens.v
Otp.v
Auth.v
AdminAuth.v
Chat.v
Sockets.v
Ratings.v
Receipts.v
Payments.v
Gateway.v
Clients.v
Fulfillment.v
Withdrawals.v
Schemas.v
Columns.v
AdminReads.v
Routes.v
Logging.v
Http.v
Admin.v
Dashboard.v
KeyRotation.v
Workers.v
Footprints.v
Holds.v
Bookings.v
Cutover.v
Boot.v
System.v
Locking.v
LockPlans.v
