(* ===== verification/Prelude.v ===== *)
(** * SAFE-GIFT backend: verification library

    A shallow embedding of the backend of the SAFE-GIFT market (a customer orders a
    gift, a courier buys and delivers it, the platform holds the money in escrow),
    and the theorems that make its money, orders, promos, accounts and dashboard correct.  Paths are
    relative to [src/app/].

    ** The program and the files that model it

    Layers: services ([services/]) hold the business rules, repositories
    ([repositories/]) the SQL, [models/] the tables, [core/] the pure kernels,
    [workers/] the scheduled jobs, [routers/] and [admin/] the HTTP API and the dashboard.  A request
    runs in one database transaction: it commits, or it raises and rolls back.  An operation on the
    database alone is a function of the monad [M] of Database.v, [db -> res (A * db)]; one that also
    uses redis, the clock, random values or outgoing messages is a function of the monad [T]
    of Redis.v, [world -> res A * world], where an error keeps what redis already did and [request] (the
    [get_db] dependency) commits or rolls back the database.

    - [Prelude] (this file): sums over lists and finite maps, ordering, keyset paging,
      tactics, hint databases.
    - [Errors] ([core/exceptions.py]): exceptions, codes, HTTP statuses, the result monad.
    - [PyDecimal]: the part of Python's [decimal] the code uses, with the default context
      (28 digits, ROUND_HALF_EVEN) and explicit rounding in [quantize].
    - [Money] ([core/money.py]): parsing, quantizing and printing amounts.
    - [Pricing] ([core/pricing.py]): the invoice engine and the settlement; [Module Spec] is
      the reference price on integer halalas.
    - [Enums], [OrderState] ([models/enums.py], [services/order_state.py]): enumerations and
      the order state machine.
    - [Tables], [Database] ([models/tables.py], the triggers of the baseline migration): a
      record per table, every CHECK and unique index, the row operations that enforce
      them, the transaction monad, the framing automation ([keeps], [Frame], [same_after]).
    - [Sql]: the SQL of CHECK constraints and of partial indexes: lexer, parser, three-valued evaluation.
    - [Constraints]: tables keep their CHECKs and unique indexes; bulk updates and deletes.
    - [Ddl]: schemas as data and the operations of Alembic on them, with PostgreSQL's refusals.
    - [Models] ([models/tables.py], [models/base.py]): the declaration of every mapped class.
    - [Migrations] ([migrations/versions/*.py], [migrations/env.py]): the five revisions, up and down, and the runner.
    - [SchemaRows]: the rows of [Tables] read as rows of the migrated schema.
    - [Redis]: redis with expiry and failure, the [world], the monad [T], [request].
    - [RateLimit] ([core/ratelimit.py]): both limiters with their Lua scripts.
    - [Ledger], [Movements] ([services/money_service.py], [repositories/wallet_repository.py]):
      double entry, holds, reconciliation; what each money operation moves.
    - [Users] ([repositories/user_repository.py], [courier_repository.py], [device_token_repository.py],
      [services/notification_service.py], [seed.py]).
    - [Promos] ([services/promo_service.py], [repositories/promo_repository.py]).
    - [Crypto] ([core/crypto.py]): versioned field encryption; AES-GCM is a parameter.
    - [Media] ([services/media_service.py], [integrations/storage/base.py]): upload keys; the
      storage client is a class.
    - [Orders] ([services/order_service.py], [repositories/order_repository.py],
      [repositories/message_repository.py], [core/locks.py]).
    - [Races] ([core/locks.py] and the transactions of [services/order_service.py] and [payment_service.py] that compete for an
      order): statements of concurrent requests interleave under row locks, READ COMMITTED and expiring redis locks.
    - [Invoices] ([services/invoice_service.py], [repositories/invoice_repository.py]).
    - [Config] ([core/config.py], [integrations/factory.py], [integrations/_guard.py]): settings, boot validation.
    - [Fields]: the cipher of the settings, on text fields.
    - [Tokens] ([core/jwt.py], [core/security.py]): tokens; hashing, randomness and PyJWT are a class with laws.
    - [Otp] ([services/otp_service.py]): one-time passwords.
    - [Auth] ([services/auth_service.py], [repositories/auth_repository.py], [core/deps.py],
      [routers/auth.py]): sign-in, registration, refresh rotation, authentication of requests.
    - [AdminAuth] ([services/admin_auth_service.py], [repositories/admin_session_repository.py], [admin/deps.py]):
      dashboard sessions, CSRF, step-up.
    - [Chat] ([services/chat_service.py], [repositories/chat_repository.py], [routers/chat.py]).
    - [Sockets] ([routers/chat.py]): the open websockets and the live delivery over redis, which may lose events, with a forwarding
      task per socket that may fail, as a step relation.
    - [Ratings], [Receipts] ([services/rating_service.py], [services/receipt_service.py], [workers/receipts.py] and
      their repositories).
    - [Payments] ([services/payment_service.py], [repositories/payment_repository.py],
      [integrations/streampay/base.py]): the gateway client is a class, [json.loads] and
      [repr] are arguments.
    - [Gateway] ([integrations/streampay/real.py], [fake.py]): the clients behind that class; webhook signatures.
    - [Clients] ([integrations/storage], [email], [sms], [push], [factory.py]; [_lifespan] of [main.py]): the other clients, real and
      doubles, their construction and shutdown; HTTP, AWS and the RSA library are parameters.
    - [Fulfillment] ([services/fulfillment_service.py], [repositories/dispute_repository.py]):
      PostGIS [ST_Distance] is an argument.
    - [Withdrawals] ([services/withdrawal_service.py], [repositories/withdrawal_repository.py],
      [repositories/audit_repository.py]).
    - [Schemas] ([schemas/*.py]): the inbound models of the API with their constraints and validators.
    - [Columns]: what the schemas accept against the lengths of the columns it is written to.
    - [Routes] ([routers/*.py]): every route of the public API as authentication, schema, service, answer;
      [Deployment] is what an instance is configured with and connected to.
    - [Logging] ([core/logging.py]): the scrubbing formatter and the dispatch of a record to handlers; the Unicode database of [re] is a class.
    - [Http] ([main.py], [core/middleware.py], [routers/health.py]): guards, request id, error handlers,
      security headers around a route; CORS is the framework's, as two arguments.
    - [AdminReads] ([repositories/admin_read_repository.py]), [Admin] ([services/admin_service.py]), [Dashboard]
      ([admin/router.py]): the table browser and lists, the operations, the routes.
    - [KeyRotation] ([services/key_rotation_service.py]).
    - [Workers] ([workers/expiry.py], [workers/auto_approve.py], [workers/reconciliation.py]).
    - [Footprints]: which tables the operations outside the market can touch.
    - [Holds], [Bookings]: the invariants of held funds and of promo bookings across all operations.
    - [Cutover]: the data migration of revision [b7c8d9e0f1a2] on a live database.
    - [Boot]: what a successful boot guarantees and what not; the application [create_app] assembles ([main.py]).
    - [System]: every operation and every route as a request, and the step relation of the running system.
    - [Locking], [LockPlans]: transactions that take row locks one after the other, as a step relation; the rows each operation of the
      market locks, in the order of its code ([services/*.py], [workers/expiry.py]).

    ** State

    [db] has one finite map per table from ids to rows, the clock [db_now] (seconds),
    the id generator [db_next] and the redis locks other processes hold, with whether redis answers their acquisition and
    release (an unanswered one raises [RedisError]).  Money columns are
    integers of halalas ([NUMERIC(12,2)], range-checked on write); in flight amounts are
    Decimals.  Writing a row checks its CHECKs, its unique indexes and its trigger, and
    raises [IntegrityError], [DataError] or [DBAPIError].  [SELECT ... FOR UPDATE] is a
    read: a transaction is atomic here, so the theorems are about serial executions of
    transactions, in any order; [Races] interleaves the statements of those that compete for an
    order and shows which may be taken as serial.  The ORM's pending changes are written where the code
    flushes.

    Text is ASCII: a [string] is a sequence of characters and of bytes alike ([Logging] works on code points, [Columns] says where
    the difference matters).

    [world] adds redis (keys with values and expiry times, and whether it answers), the last committed
    database, the number of random values drawn and the messages sent.

    ** What the theorems show

    - System: in every state reachable by requests of the API, the dashboard and the workers, served in any order, the
      ledger is sound, all balances sum to zero, no constrained wallet is negative and [reconcile] is
      clean; holds are covered; promo counters and caps are exact; orders that were accepted move only
      along legal transitions, keep customer and courier, and never leave a terminal status.
    - Ledger, Movements: [post_group] posts exactly its legs, once per idempotency key, keeps the
      invariant, and succeeds when it should; holds are exact; [reconcile] is exact.
    - Payments, Fulfillment, Withdrawals, Workers: each money-moving operation, on every
      successful branch, moves exactly the stated amounts between the stated wallets,
      changes exactly the stated rows, and cannot be repeated.  Sweeps always finish, and the jobs around them do all of the
      sweep or nothing.
    - Pricing, Money: the engine refines the reference price, adds up to the halala, and
      never trips its own consistency checks; round trip and rounding of amounts.
    - Tokens, Otp, Auth, Admin: tokens serve one purpose until they expire, a one-time password is used once
      and guessed at most five times, reuse of a refresh token ends the login, a ban takes effect
      at once on the HTTP API.
    - AdminAuth, Dashboard, AdminReads: sessions end in time, every form is guarded and audited, pages only
      read, sensitive columns do not reach the browser.
    - Routes, Http: every HTTP route of the API but the public ones demands a live token and a role, details of an order reach its
      two parties only, every request is answered and unexpected errors leak nothing.
    - Migrations, SchemaRows, Cutover, Columns: the revisions build exactly the declared schema and can be rolled back; the
      checks and conflicts of the row model are those of that schema; the cutover keeps balances and frees holds; accepted input
      fits its columns.
    - Races: the accept race has one winner under every interleaving; a redis lock excludes until it expires.
    - Locking, LockPlans: an operation changes only rows it locks, and the operations that follow the common lock order never
      deadlock and all finish; two schedules show the ones that do not follow it.
    - Logging, Clients: scrubbed text holds no JWT, bearer token, phone number or long number, and a log line tells nothing
      of what stands under a sensitive key; an upload is confirmed exactly when
      its object is a permitted image.
    - Chat, Sockets, Ratings, Receipts, KeyRotation, Gateway, RateLimit, Boot: delivery and unread counters (notices apart), ordered live events, one rating per
      rater, one receipt per invoice, rotation that preserves contents, signature round trip, exact
      throttling, what boot validation guarantees, and that the application keeps the environments apart.
    - Orders, Invoices, Promos, Media, Crypto, OrderState: limits, exclusivity, visibility,
      paging, authoring, caps, key allow-list, encryption round trip, escrow discipline.
    - Theorems named in no group state, on concrete runs, where the code departs from its
      documentation (a hold that nothing releases, an expired paid top-up, a late
      approval refused by a CHECK, and others); each is next to the component it is about.

    ** Bounds

    Recursion is structural; the only fuel is in PyDecimal (digit count and trailing-zero
    stripping), with fuel computed from the operand, in the batches of push messages, with fuel the number
    of tokens, in the SQL parser and in [re.sub] of Logging, with fuel the length of the text.  Hypotheses such as [small], [AMT]
    and [invoice_range] are the ranges of the columns and of a Decimal in the context: amounts below
    10^12 halalas, fewer than 1000 lines or legs.

    ** Not modelled

    Matching of paths, JSON decoding and the coercion of types: FastAPI's and pydantic's.  Templates, the arguments of the
    database engine and of the redis client, offline SQL generation of the migrations: input and output.
    The row operations do not enforce foreign keys (but for the cascades of a deleted order) or column lengths; both are part of the migrated
    schema.  Interleavings of statements are modelled for the requests of [Races], those of row locks in [Locking], without the share
    locks of foreign keys and the waits for unique keys.  Cryptographic primitives, PyJWT, PostGIS, the
    JSON decoder, HTTP and AWS are parameters with the laws they document. *)

From Stdlib Require Import ZArith Lia.
From stdpp Require Import base list gmap strings numbers option sorting.

Declare Scope giftly_scope.
Delimit Scope giftly_scope with giftly.
Open Scope giftly_scope.
Open Scope Z_scope.

(** The hint database of the development: it closes the routine
    state-transition goals ([keeps], [Frame]). *)
Create HintDb giftly.

(** ** Sums of integers over lists and finite maps *)

Fixpoint zsum (l : list Z) : Z :=
  match l with
  | [] => 0
  | x :: l => x + zsum l
  end.

Definition zsum_by {A} (f : A → Z) (l : list A) : Z := zsum (f <$> l).

Definition map_total {A} (f : A → Z) (m : gmap N A) : Z :=
  map_fold (λ _ x acc, f x + acc) 0 m.

(** [ORDER BY key]: a stable sort on an integer key. *)
Definition le_on {A} (key : A → Z) (a b : A) : Prop := key a ≤ key b.

#[export] Instance le_on_dec {A} (key : A → Z) : RelDecision (le_on key).
Proof. intros a b. unfold le_on. apply _. Defined.

Definition sort_on {A} (key : A → Z) (l : list A) : list A := merge_sort (le_on key) l.

(** ** Tactics *)

(** Case-split on a [match]/[if] scrutinee of a hypothesis or of the goal,
    keeping the equation. *)
Ltac split_match_in H :=
  match type of H with
  | context [ match ?x with _ => _ end ] => destruct x eqn:?
  end.

Ltac split_match :=
  match goal with
  | |- context [ match ?x with _ => _ end ] => destruct x eqn:?
  end.

(** Case analysis on a lookup [H : m !! k = Some x] in a concrete finite map. *)
Ltac enum_lookup H :=
  apply elem_of_map_to_list in H; revert H;
  match goal with |- _ ∈ ?t → _ => let v := eval vm_compute in t in change t with v end;
  intros H;
  repeat (apply elem_of_cons in H; destruct H as [[= -> ->]|H]);
  try (exfalso; by apply not_elem_of_nil in H).

(** ** Lemmas on sums *)

Lemma zsum_app (l k : list Z) : zsum (l ++ k) = zsum l + zsum k.
Proof. induction l as [|x l IH]; cbn; lia. Qed.

Lemma zsum_by_app {A} (f : A → Z) (l k : list A) :
  zsum_by f (l ++ k) = zsum_by f l + zsum_by f k.
Proof. unfold zsum_by. by rewrite fmap_app, zsum_app. Qed.

Lemma zsum_by_cons {A} (f : A → Z) (x : A) (l : list A) :
  zsum_by f (x :: l) = f x + zsum_by f l.
Proof. done. Qed.

Lemma zsum_perm (l k : list Z) : l ≡ₚ k → zsum l = zsum k.
Proof. induction 1; cbn; lia. Qed.

Lemma zsum_by_ext {A} (f g : A → Z) (l : list A) :
  (∀ x, x ∈ l → f x = g x) → zsum_by f l = zsum_by g l.
Proof.
  induction l as [|x l IH]; intros H; [done|].
  rewrite !zsum_by_cons. rewrite (H x) by set_solver.
  rewrite IH; [done|]. set_solver.
Qed.

Lemma zsum_by_bound {A} (f : A → Z) (B : Z) (l : list A) :
  0 ≤ B → (∀ x, x ∈ l → Z.abs (f x) ≤ B) →
  Z.abs (zsum_by f l) ≤ Z.of_nat (length l) * B.
Proof.
  intros HB. induction l as [|x l IH]; intros H; [done|].
  rewrite zsum_by_cons. specialize (IH ltac:(set_solver)).
  pose proof (H x ltac:(set_solver)). cbn [length]. lia.
Qed.

Lemma map_total_insert_new {A} (f : A → Z) (m : gmap N A) (k : N) (x : A) :
  m !! k = None → map_total f (<[k:=x]> m) = f x + map_total f m.
Proof. intros H. unfold map_total. rewrite map_fold_insert_L; [done| |done]. intros. lia. Qed.

Lemma map_total_delete {A} (f : A → Z) (m : gmap N A) (k : N) (x : A) :
  m !! k = Some x → map_total f m = f x + map_total f (delete k m).
Proof.
  intros H. rewrite <- (insert_id m k x H) at 1. rewrite <- insert_delete_eq.
  apply map_total_insert_new. apply lookup_delete_eq.
Qed.

Lemma map_total_insert {A} (f : A → Z) (m : gmap N A) (k : N) (x y : A) :
  m !! k = Some x → map_total f (<[k:=y]> m) = map_total f m - f x + f y.
Proof.
  intros H. rewrite (map_total_delete f m k x H). rewrite <- insert_delete_eq.
  rewrite map_total_insert_new by apply lookup_delete_eq. lia.
Qed.

Lemma map_total_empty {A} (f : A → Z) : map_total f (∅ : gmap N A) = 0.
Proof. done. Qed.

Lemma map_total_zero {A} (f : A → Z) (m : gmap N A) :
  (∀ k x, m !! k = Some x → f x = 0) → map_total f m = 0.
Proof.
  induction m as [|k x m Hk IH] using map_ind; [done|]. intros H.
  rewrite map_total_insert_new by done. rewrite (H k x) by apply lookup_insert_eq.
  rewrite IH; [done|]. intros k' x' Hk'. apply (H k'). rewrite lookup_insert_ne; [done|].
  intros ->. congruence.
Qed.

Lemma list_to_map_graph {A} (g : N → A) (l : list N) (k : N) :
  (list_to_map ((λ n, (n, g n)) <$> l) : gmap N A) !! k = if decide (k ∈ l) then Some (g k) else None.
Proof.
  induction l as [|n l IH]; [done|]. rewrite fmap_cons, list_to_map_cons.
  destruct (decide (k = n)) as [->|Hne].
  - rewrite lookup_insert_eq, decide_True by left. done.
  - rewrite lookup_insert_ne by done. rewrite IH.
    destruct (decide (k ∈ l)) as [H|H], (decide (k ∈ n :: l)) as [H'|H']; try done.
    + exfalso. apply H'. by right.
    + apply elem_of_cons in H' as [?|?]; done.
Qed.

Lemma map_total_list {A} (f : A → Z) (m : gmap N A) : map_total f m = zsum_by (λ p, f p.2) (map_to_list m).
Proof.
  unfold map_total, zsum_by. rewrite map_fold_foldr. induction (map_to_list m) as [|[k x] l IH]; cbn; [done|]. by rewrite IH.
Qed.

Lemma map_total_ext {A} (f g : A → Z) (m : gmap N A) : (∀ x, f x = g x) → map_total f m = map_total g m.
Proof.
  intros Hfg. rewrite !map_total_list. unfold zsum_by. f_equal. apply list_fmap_ext. intros i [k x] _. apply Hfg.
Qed.

(** Summing group by group, over a duplicate-free list of keys that covers every row. *)
Lemma zsum_by_pick (l : list N) (k : N) (z : Z) :
  NoDup l → k ∈ l → zsum_by (λ x, if bool_decide (k = x) then z else 0) l = z.
Proof.
  induction 1 as [|x l Hx _ IH]; intros Hk; [by apply not_elem_of_nil in Hk|]. unfold zsum_by in *. cbn.
  apply elem_of_cons in Hk as [<-|Hk].
  - rewrite bool_decide_eq_true_2 by done.
    assert (zsum ((λ x, if bool_decide (k = x) then z else 0) <$> l) = 0) as ->; [|lia].
    clear IH. induction l as [|y l IH]; [done|]. apply not_elem_of_cons in Hx as [Hy Hx]. cbn.
    rewrite bool_decide_eq_false_2 by done. by rewrite IH.
  - rewrite bool_decide_eq_false_2 by congruence. by rewrite IH.
Qed.

Lemma map_total_groups {A} (f : A → Z) (key : A → N) (ks : list N) (m : gmap N A) :
  NoDup ks → (∀ i x, m !! i = Some x → f x ≠ 0 → key x ∈ ks) →
  zsum_by (λ k, map_total (λ x, if bool_decide (key x = k) then f x else 0) m) ks = map_total f m.
Proof.
  intros Hks. induction m as [|i x m Hi IH] using map_ind; intros Hm.
  - rewrite map_total_empty. unfold zsum_by. clear Hks Hm. induction ks as [|k ks IHk]; [done|].
    cbn. rewrite map_total_empty. exact IHk.
  - rewrite map_total_insert_new by done. rewrite <- IH.
    2:{ intros j y Hj. apply (Hm j). rewrite lookup_insert_ne; [done|congruence]. }
    assert (zsum_by (λ k, if bool_decide (key x = k) then f x else 0) ks = f x) as Hx.
    { destruct (decide (f x = 0)) as [E|Hne].
      - rewrite E. unfold zsum_by. clear. induction ks as [|k ks IHk]; [done|]. cbn.
        destruct (bool_decide _); exact IHk.
      - apply zsum_by_pick; [done|]. apply (Hm i x); [apply lookup_insert_eq|done]. }
    rewrite <- Hx. unfold zsum_by. clear -Hi. induction ks as [|k ks IHk]; [done|]. cbn in *.
    rewrite map_total_insert_new by done. lia.
Qed.

Lemma map_total_nonneg {A} (f : A → Z) (m : gmap N A) : (∀ x, 0 ≤ f x) → 0 ≤ map_total f m.
Proof.
  intros Hf. induction m as [|k x m Hk IH] using map_ind; [done|].
  rewrite map_total_insert_new by done. pose proof (Hf x). lia.
Qed.

Lemma filter_all {A} (P : A → Prop) `{∀ x, Decision (P x)} (l : list A) :
  (∀ x, x ∈ l → P x) → filter P l = l.
Proof.
  induction l as [|x l IH]; intros HP; [done|]. rewrite filter_cons_True by (apply HP; left).
  f_equal. apply IH. intros y Hy. apply HP. by right.
Qed.

Lemma filter_none {A} (P : A → Prop) `{∀ x, Decision (P x)} (l : list A) :
  (∀ x, x ∈ l → ¬ P x) → filter P l = [].
Proof.
  induction l as [|x l IH]; intros HP; [done|]. rewrite filter_cons_False by (apply HP; left).
  apply IH. intros y Hy. apply HP. by right.
Qed.

(** ** Keyset pagination

    Rows are read in the order [R], newest first; the next page filters the rows
    that come after the anchor. *)
Section Keyset.
Context {A : Type} (key : A → N) (R : relation A) `{!RelDecision R, !Transitive R, !Total R}.

Definition keyset_rows (anchor : option A) (l : list A) : list A :=
  merge_sort R match anchor with
               | Some a => filter (λ x, R a x ∧ key x ≠ key a) l
               | None => l
               end.

Lemma keyset_after (l l1 l2 : list A) (a : A) :
  NoDup (key <$> l) → (∀ x y, x ∈ l → y ∈ l → R x y → R y x → x = y) →
  keyset_rows None l = l1 ++ a :: l2 → keyset_rows (Some a) l = l2.
Proof.
  intros Hnd Has E. unfold keyset_rows in *.
  assert (l1 ++ a :: l2 ≡ₚ l) as Hp by (rewrite <- E; apply merge_sort_Permutation).
  assert (StronglySorted R (l1 ++ a :: l2)) as Hs by (rewrite <- E; by apply StronglySorted_merge_sort).
  rewrite <- Hp in Hnd. rewrite fmap_app, fmap_cons in Hnd.
  apply NoDup_app in Hnd as (_ & _ & Hnd). apply NoDup_cons in Hnd as [Hna _].
  apply StronglySorted_app in Hs as (Hcross & _ & Hs). inversion Hs as [|? ? Hs2 Ha]; subst.
  assert (filter (λ x, R a x ∧ key x ≠ key a) l ≡ₚ l2) as Hf.
  { rewrite <- Hp, filter_app, filter_cons_False by (intros [_ []]; done).
    rewrite (filter_none _ l1), (filter_all _ l2); [done| |].
    - intros x Hx. split; [by apply (proj1 (Forall_forall _ _) Ha)|].
      intros Ek. apply Hna. rewrite <- Ek. by apply list_elem_of_fmap_2.
    - intros x Hx [Hax Hk]. apply Hk. f_equal. apply Has.
      + rewrite <- Hp. apply elem_of_app. by left.
      + rewrite <- Hp. apply elem_of_app. right. left.
      + apply Hcross; [done|left].
      + done. }
  apply (StronglySorted_unique_strong R); [|by apply StronglySorted_merge_sort|done|].
  - intros x y Hx Hy. rewrite (merge_sort_Permutation _ (filter _ _)), Hf in Hx.
    apply Has; rewrite <- Hp; apply elem_of_app; right; by right.
  - by rewrite merge_sort_Permutation.
Qed.

(** A page and the page anchored at its last row are the longer page. *)
Lemma keyset_pages (l p q : list A) (a : A) (n k : nat) :
  NoDup (key <$> l) → (∀ x y, x ∈ l → y ∈ l → R x y → R y x → x = y) →
  take n (keyset_rows None l) = p ++ [a] → take k (keyset_rows (Some a) l) = q →
  take (n + k) (keyset_rows None l) = p ++ a :: q.
Proof.
  intros Hnd Has Hp Hq. pose proof (keyset_after l p (drop n (keyset_rows None l)) a Hnd Has) as Ha.
  set (rows := keyset_rows None l) in *.
  assert (rows = p ++ a :: drop n rows) as E.
  { rewrite <- (take_drop n rows) at 1. by rewrite Hp, <- app_assoc. }
  rewrite (Ha E) in Hq. pose proof (length_take rows n) as Hlen. rewrite Hp, length_app in Hlen. cbn [length] in Hlen.
  destruct (decide (n ≤ length rows)%nat) as [Hn|Hn].
  - rewrite E, take_app_ge by lia. replace (n + k - length p)%nat with (S k) by lia. rewrite <- Hq. done.
  - rewrite (drop_ge rows n), take_nil in Hq by lia. rewrite <- Hq, take_ge by lia.
    rewrite E at 1. by rewrite drop_ge by lia.
Qed.
End Keyset.
