(* ===== verification/Errors.v ===== *)
(** * Exceptions and the result monad

    Models [app/core/exceptions.py] (the domain errors with their stable codes
    and HTTP statuses), the exceptions the other modules declare
    ([MoneyError], [PricingIntegrityError], [LedgerImbalanceError],
    [LockNotAcquiredError], [JwtError], [CryptoError]) and the ones of the language and the database
    driver that the services can meet ([InvalidOperation], [DivisionByZero],
    [KeyError], [IndexError], [LookupError], [AttributeError], [IntegrityError],
    [DataError], [DBAPIError] for an exception a trigger raises, [RedisError], [ValueError]) and the rejection of a
    request by its schema ([RequestValidationError]).  Human-readable
    messages are not modelled; [code] and [status_code] are what a client can
    branch on. *)

From stdpp Require Import base list strings option.
From Stdlib Require Import ZArith.
From S2P Require Import Prelude.
Open Scope Z_scope.

Inductive exn :=
  (* app/core/exceptions.py *)
  | NotFoundError
  | ForbiddenError
  | UnauthorizedError
  | InvalidStateTransitionError
  | ConflictError
  | OrderAlreadyAssignedError
  | BadRequestError
  | ValidationDomainError
  | InsufficientFundsError
  | InvalidWebhookSignatureError
  | PaymentAmountMismatchError
  | PayloadTooLargeError
  | RateLimitedError (retry_after_seconds : Z)
  | PromoNotFoundError
  | PromoInactiveError
  | PromoNotStartedError
  | PromoExpiredError
  | PromoMinOrderNotMetError
  | PromoUsageExceededError
  | PromoUserLimitReachedError
  (* app/core/money.py, pricing.py, locks.py, services/money_service.py *)
  | MoneyError
  | PricingIntegrityError
  | LockNotAcquiredError
  | LedgerImbalanceError
  (* Python: decimal.InvalidOperation, ZeroDivisionError, KeyError, IndexError, LookupError, AttributeError *)
  | InvalidOperation
  | DivisionByZero
  | KeyError
  | IndexError
  | LookupError
  | AttributeError
  (* sqlalchemy.exc *)
  | IntegrityError
  | DataError
  | DBAPIError
  (* app/core/jwt.py, app/core/crypto.py ([CryptoError]), redis.exceptions, ValueError *)
  | JwtError
  | CryptoExn
  | RedisError
  | ValueError
  (* app/admin/deps.py: the redirect to the login page *)
  | AdminRedirect
  (* fastapi.exceptions: the request does not satisfy its schema *)
  | RequestValidationError
  (* httpx, botocore.exceptions, RuntimeError (a [ProductionFakeError] is one) *)
  | HTTPStatusError
  | ClientError (error_code : string)
  | RuntimeError.

#[export] Instance exn_eq_dec : EqDecision exn.
Proof. solve_decision. Defined.

(** [isinstance(e, DomainError)]: the errors the global handler maps. *)
Definition is_domain_error (e : exn) : bool :=
  match e with
  | MoneyError | PricingIntegrityError | LockNotAcquiredError | LedgerImbalanceError
  | InvalidOperation | DivisionByZero | KeyError | IndexError | LookupError
  | AttributeError | IntegrityError | DataError | DBAPIError | JwtError | CryptoExn | RedisError | ValueError | AdminRedirect
  | RequestValidationError | HTTPStatusError | ClientError _ | RuntimeError => false
  | _ => true
  end.

(** The class attribute [code]; anything outside the hierarchy is rendered by
    the catch-all handler as [INTERNAL_ERROR]. *)
Definition code (e : exn) : string :=
  match e with
  | NotFoundError => "NOT_FOUND"
  | ForbiddenError => "FORBIDDEN"
  | UnauthorizedError => "UNAUTHORIZED"
  | InvalidStateTransitionError => "INVALID_STATE_TRANSITION"
  | ConflictError => "CONFLICT"
  | OrderAlreadyAssignedError => "ORDER_ALREADY_ASSIGNED"
  | BadRequestError => "BAD_REQUEST"
  | ValidationDomainError => "VALIDATION_ERROR"
  | InsufficientFundsError => "INSUFFICIENT_FUNDS"
  | InvalidWebhookSignatureError => "INVALID_SIGNATURE"
  | PaymentAmountMismatchError => "PAYMENT_AMOUNT_MISMATCH"
  | PayloadTooLargeError => "PAYLOAD_TOO_LARGE"
  | RateLimitedError _ => "RATE_LIMITED"
  | PromoNotFoundError => "PROMO_NOT_FOUND"
  | PromoInactiveError => "PROMO_INACTIVE"
  | PromoNotStartedError => "PROMO_NOT_STARTED"
  | PromoExpiredError => "PROMO_EXPIRED"
  | PromoMinOrderNotMetError => "PROMO_MIN_ORDER_NOT_MET"
  | PromoUsageExceededError => "PROMO_USAGE_EXCEEDED"
  | PromoUserLimitReachedError => "PROMO_USER_LIMIT_REACHED"
  | _ => "INTERNAL_ERROR"
  end.

(** The HTTP status the handlers emit (subclasses inherit their parent's). *)
Definition status_code (e : exn) : Z :=
  match e with
  | NotFoundError => 404
  | ForbiddenError => 403
  | UnauthorizedError | InvalidWebhookSignatureError => 401
  | InvalidStateTransitionError | ConflictError | OrderAlreadyAssignedError
  | InsufficientFundsError => 409
  | BadRequestError | PaymentAmountMismatchError => 400
  | PayloadTooLargeError => 413
  | RateLimitedError _ => 429
  | ValidationDomainError | RequestValidationError
  | PromoNotFoundError | PromoInactiveError | PromoNotStartedError | PromoExpiredError
  | PromoMinOrderNotMetError | PromoUsageExceededError | PromoUserLimitReachedError => 422
  | AdminRedirect => 303
  | _ => 500
  end.

(** ** Results: a value or a raised exception *)

Inductive res (A : Type) : Type :=
  | Ok (a : A)
  | Raise (e : exn).
Arguments Ok {A} a.
Arguments Raise {A} e.

#[export] Instance res_ret : MRet res := λ A a, Ok a.
#[export] Instance res_bind : MBind res := λ A B k m,
  match m with Ok a => k a | Raise e => Raise e end.
#[export] Instance res_fmap : FMap res := λ A B f m,
  match m with Ok a => Ok (f a) | Raise e => Raise e end.

(** [raise_if b e] is the guard [if b: raise e]. *)
Definition raise_if (b : bool) (e : exn) : res () := if b then Raise e else Ok ().

(** A list comprehension whose element expression may raise. *)
Fixpoint res_map {A B} (f : A → res B) (l : list A) : res (list B) :=
  match l with
  | [] => Ok []
  | x :: l => y ← f x; ys ← res_map f l; Ok (y :: ys)
  end.

Definition is_ok {A} (r : res A) : bool := match r with Ok _ => true | Raise _ => false end.

Lemma res_bind_ok {A B} (m : res A) (k : A → res B) (b : B) :
  (m ≫= k) = Ok b ↔ ∃ a, m = Ok a ∧ k a = Ok b.
Proof. destruct m; cbn; naive_solver. Qed.

Lemma raise_if_ok (b : bool) (e : exn) (u : ()) : raise_if b e = Ok u ↔ b = false.
Proof. destruct b, u; cbn; naive_solver. Qed.

Lemma res_map_ok {A B} (f : A → res B) (l : list A) (ys : list B) :
  res_map f l = Ok ys ↔ Forall2 (λ x y, f x = Ok y) l ys.
Proof.
  revert ys. induction l as [|x l IH]; intros ys; cbn.
  - split; [intros [= <-]; constructor | inversion 1; done].
  - split.
    + destruct (f x) eqn:E; cbn; [|done]. destruct (res_map f l) eqn:E'; cbn; [|done].
      intros [= <-]. constructor; [done|]. by apply IH.
    + inversion 1 as [|? ? ? ? H1 H2]; subst. rewrite H1. cbn.
      apply IH in H2. by rewrite H2.
Qed.

Lemma res_map_length {A B} (f : A → res B) (l : list A) (ys : list B) :
  res_map f l = Ok ys → length ys = length l.
Proof. rewrite res_map_ok. intros H. symmetry. by eapply Forall2_length. Qed.

(** Decompose a successful result computation into its successful steps. *)
Ltac inv_ok H :=
  repeat first
    [ progress cbn in H
    | match type of H with
      | Ok _ = Ok _ => injection H as H; try subst
      | Raise _ = Ok _ => discriminate H
      | (_ ≫= _) = Ok _ =>
          let a := fresh "v" in let E := fresh "E" in
          apply res_bind_ok in H as (a & E & H)
      | raise_if _ _ = Ok _ => apply raise_if_ok in H
      end ].
