(* ===== verification/PyDecimal.v ===== *)
(** * Python's [decimal.Decimal], finite values, default context

    The money code computes with [decimal.Decimal] under the default context
    (precision 28, [ROUND_HALF_EVEN], traps on [InvalidOperation] and
    [DivisionByZero]).  A finite decimal is a signed coefficient and a decimal
    exponent; every operation is the algorithm of CPython's [_pydecimal]:
    compute exactly, then [_fix] the result to 28 significant digits.
    Two things are left out: the sign of a zero (a negative zero is the zero
    with the same exponent) and the exponent limits [Emin]/[Emax] of +-999999,
    which no amount below the size limits of this program can reach.

    The second half of the file relates these operations to integer arithmetic
    on halalas ([sar z] is the two-place decimal [z/100]): sums and products of
    amounts are exact, and [quantize] after a division is the exact half-up
    rounding of the quotient. *)

From Stdlib Require Import ZArith Lia.
From stdpp Require Import base list numbers option.
From S2P Require Import Prelude Errors.
Open Scope Z_scope.

Record dec := Dec { coef : Z; dexp : Z }.

#[export] Instance dec_eq_dec : EqDecision dec.
Proof. solve_decision. Defined.

Definition prec : Z := 28.

(** [len(str(abs(n)))]: the number of decimal digits of a coefficient. *)
Fixpoint dlen_aux (fuel : nat) (n : Z) : Z :=
  match fuel with
  | O => 1
  | S f => if n <? 10 then 1 else 1 + dlen_aux f (n / 10)
  end.

Definition dlen (n : Z) : Z := dlen_aux (Z.to_nat (Z.log2 (Z.abs n))) (Z.abs n).

(** Rounding a non-negative quotient [n/d]. *)
Definition round_half_even (n d : Z) : Z :=
  let q := n / d in
  let r := n mod d in
  if (d <? 2 * r) || ((2 * r =? d) && Z.odd q) then q + 1 else q.

(** [ROUND_HALF_UP] of [n/d], [0 < d]: half away from zero. *)
Definition rhu (n d : Z) : Z := Z.sgn n * ((2 * Z.abs n + d) / (2 * d)).

(** [_fix]: round to [prec] significant digits, half even. *)
Definition dfix (a : dec) : dec :=
  let n := Z.abs (coef a) in
  let k := dlen n - prec in
  if k <=? 0 then a
  else
    let q := round_half_even n (10 ^ k) in
    if q =? 10 ^ prec then Dec (Z.sgn (coef a) * (q / 10)) (dexp a + k + 1)
    else Dec (Z.sgn (coef a) * q) (dexp a + k).

(** Write a coefficient at a smaller exponent. *)
Definition rescale_down (a : dec) (e : Z) : Z := coef a * 10 ^ (dexp a - e).

(** [Decimal.__add__]. *)
Definition dadd (a b : dec) : dec :=
  let e := Z.min (dexp a) (dexp b) in
  if (coef a =? 0) && (coef b =? 0) then Dec 0 e
  else if coef a =? 0 then
    let e' := Z.max e (dexp b - prec - 1) in dfix (Dec (rescale_down b e') e')
  else if coef b =? 0 then
    let e' := Z.max e (dexp a - prec - 1) in dfix (Dec (rescale_down a e') e')
  else dfix (Dec (rescale_down a e + rescale_down b e) e).

(** [Decimal.__neg__] rounds too. *)
Definition dneg (a : dec) : dec := dfix (Dec (- coef a) (dexp a)).

(** [Decimal.__sub__]: add the copy with the sign flipped. *)
Definition dsub (a b : dec) : dec := dadd a (Dec (- coef b) (dexp b)).

Definition dmul (a b : dec) : dec := dfix (Dec (coef a * coef b) (dexp a + dexp b)).

(** Comparison of values. *)
Definition dcmp (a b : dec) : comparison :=
  let e := Z.min (dexp a) (dexp b) in
  Z.compare (rescale_down a e) (rescale_down b e).

Definition dltb (a b : dec) : bool := match dcmp a b with Lt => true | _ => false end.
Definition dleb (a b : dec) : bool := match dcmp a b with Gt => false | _ => true end.
Definition deqb (a b : dec) : bool := match dcmp a b with Eq => true | _ => false end.

(** The built-in [min] and [max] keep their first argument on a tie. *)
Definition dmin (a b : dec) : dec := if dltb b a then b else a.
Definition dmax (a b : dec) : dec := if dltb a b then b else a.

(** Drop trailing zeros of a quotient, up to the ideal exponent. *)
Fixpoint strip (fuel : nat) (c e ideal : Z) : dec :=
  match fuel with
  | O => Dec c e
  | S f => if (e <? ideal) && (c mod 10 =? 0) then strip f (c / 10) (e + 1) ideal else Dec c e
  end.

(** [Decimal.__truediv__]. *)
Definition ddiv (a b : dec) : res dec :=
  let n := Z.abs (coef a) in
  let d := Z.abs (coef b) in
  let s := Z.sgn (coef a) * Z.sgn (coef b) in
  if d =? 0 then Raise (if n =? 0 then InvalidOperation else DivisionByZero)
  else if n =? 0 then Ok (dfix (Dec 0 (dexp a - dexp b)))
  else
    let shift := dlen d - dlen n + prec + 1 in
    let e := dexp a - dexp b - shift in
    let x := if 0 <=? shift then n * 10 ^ shift else n in
    let y := if 0 <=? shift then d else d * 10 ^ (- shift) in
    let q := x / y in
    let m :=
      if negb (x mod y =? 0) then Dec (if q mod 5 =? 0 then q + 1 else q) e
      else strip (Z.to_nat (dlen q)) q e (dexp a - dexp b) in
    Ok (dfix (Dec (s * coef m) (dexp m))).

(** [Decimal.quantize] to exponent [e] with [ROUND_HALF_UP]. *)
Definition quantize (a : dec) (e : Z) : res dec :=
  let n := Z.abs (coef a) in
  if n =? 0 then Ok (Dec 0 e)
  else if prec <? dlen n + dexp a - e then Raise InvalidOperation
  else
    let c := if e <=? dexp a then n * 10 ^ (dexp a - e) else rhu n (10 ^ (e - dexp a)) in
    if prec <? dlen c then Raise InvalidOperation
    else Ok (Dec (Z.sgn (coef a) * c) e).

(** [sum(l, start)]. *)
Definition dsum (start : dec) (l : list dec) : dec := fold_left dadd l start.

(** A Python int used as a Decimal operand. *)
Definition dint (n : Z) : dec := Dec n 0.

(** ** Amounts in halalas *)

(** The decimal with two places worth [z] halalas. *)
Definition sar (z : Z) : dec := Dec z (-2).

(** Halalas of a two-place decimal. *)
Definition halalas (d : dec) : Z := coef d.

(** [b] bounds the coefficient well inside the precision of the context. *)
Definition small (z : Z) : Prop := Z.abs z < 10 ^ 28.

(** ** Digit counts *)

Lemma dlen_aux_spec (f : nat) (n : Z) :
  1 ≤ n < 2 ^ (Z.of_nat f + 1) →
  1 ≤ dlen_aux f n ∧ 10 ^ (dlen_aux f n - 1) ≤ n < 10 ^ dlen_aux f n.
Proof.
  revert n. induction f as [|f IH]; intros n Hn; cbn [dlen_aux].
  - change (2 ^ (Z.of_nat 0 + 1)) with 2 in Hn. lia.
  - destruct (Z.ltb_spec n 10) as [Hlt|Hge]; [lia|].
    assert (1 ≤ n / 10 < 2 ^ (Z.of_nat f + 1)) as Hb.
    { split; [apply Z.div_le_lower_bound; lia|].
      apply Z.div_lt_upper_bound; [lia|].
      replace (Z.of_nat (S f) + 1) with (Z.succ (Z.of_nat f + 1)) in Hn by lia.
      rewrite Z.pow_succ_r in Hn by lia. lia. }
    destruct (IH _ Hb) as [H1 [H2 H3]]. set (d := dlen_aux f (n / 10)) in *.
    assert (10 ^ (1 + d) = 10 * 10 ^ d) as E1 by (rewrite Z.pow_add_r by lia; lia).
    assert (10 ^ d = 10 * 10 ^ (d - 1)) as E2.
    { replace d with (1 + (d - 1)) at 1 by lia. rewrite Z.pow_add_r by lia. lia. }
    replace (1 + d - 1) with d by lia. rewrite E1.
    pose proof (Z.div_mod n 10 ltac:(lia)). pose proof (Z.mod_pos_bound n 10 ltac:(lia)).
    split; [lia|]. lia.
Qed.

Lemma dlen_spec (n : Z) :
  1 ≤ n → 1 ≤ dlen n ∧ 10 ^ (dlen n - 1) ≤ n < 10 ^ dlen n.
Proof.
  intros Hn. unfold dlen. rewrite Z.abs_eq by lia. apply dlen_aux_spec.
  split; [lia|]. rewrite Z2Nat.id by apply Z.log2_nonneg.
  apply Z.log2_spec. lia.
Qed.

Lemma dlen_le (n k : Z) : 1 ≤ n → 0 ≤ k → n < 10 ^ k → dlen n ≤ k.
Proof.
  intros Hn Hk Hlt. destruct (dlen_spec n Hn) as [H1 [H2 _]].
  destruct (Z.le_gt_cases (dlen n) k) as [?|Hgt]; [done|].
  assert (10 ^ k ≤ 10 ^ (dlen n - 1)) by (apply Z.pow_le_mono_r; lia). lia.
Qed.

Lemma dlen_ge (n k : Z) : 1 ≤ n → 0 ≤ k → 10 ^ k ≤ n → k + 1 ≤ dlen n.
Proof.
  intros Hn Hk Hle. destruct (dlen_spec n Hn) as [H1 [_ H2]].
  destruct (Z.le_gt_cases (k + 1) (dlen n)) as [?|Hgt]; [done|].
  assert (10 ^ dlen n ≤ 10 ^ k) by (apply Z.pow_le_mono_r; lia). lia.
Qed.

Lemma dlen_abs_small (z : Z) : small z → dlen (Z.abs z) ≤ 28.
Proof.
  intros H. destruct (decide (z = 0)) as [->|Hz]; [done|].
  apply dlen_le; [lia|lia|done].
Qed.

(** ** The operations on small two-place amounts are exact *)

Lemma dfix_small (a : dec) : small (coef a) → dfix a = a.
Proof.
  intros H. unfold dfix. pose proof (dlen_abs_small _ H).
  destruct (Z.leb_spec (dlen (Z.abs (coef a)) - prec) 0); unfold prec in *; [done|lia].
Qed.

Lemma dadd_same (x y e : Z) :
  small x → small y → small (x + y) → dadd (Dec x e) (Dec y e) = Dec (x + y) e.
Proof.
  intros Hx Hy Hxy. unfold dadd, rescale_down. cbn [coef dexp].
  rewrite Z.min_id. replace (Z.max e (e - prec - 1)) with e by (unfold prec; lia).
  rewrite Z.sub_diag, Z.pow_0_r, !Z.mul_1_r.
  destruct (Z.eqb_spec x 0) as [->|], (Z.eqb_spec y 0) as [->|]; cbn [andb]; try done;
    rewrite dfix_small by (cbn; done); f_equal; lia.
Qed.

Lemma dadd_sar (x y : Z) :
  small x → small y → small (x + y) → dadd (sar x) (sar y) = sar (x + y).
Proof. apply dadd_same. Qed.

Lemma small_opp (z : Z) : small z → small (- z).
Proof. unfold small. lia. Qed.

Lemma dsub_sar (x y : Z) :
  small x → small y → small (x - y) → dsub (sar x) (sar y) = sar (x - y).
Proof.
  intros Hx Hy Hxy. unfold dsub, sar. cbn [coef dexp].
  rewrite dadd_same; [f_equal; lia|done|by apply small_opp|by rewrite Z.add_opp_r].
Qed.

Lemma dneg_sar (x : Z) : small x → dneg (sar x) = sar (- x).
Proof. intros H. unfold dneg. rewrite dfix_small; [done|]. by apply small_opp. Qed.

Lemma dcmp_same (x y e : Z) : dcmp (Dec x e) (Dec y e) = Z.compare x y.
Proof.
  unfold dcmp, rescale_down. cbn [coef dexp].
  by rewrite Z.min_id, Z.sub_diag, Z.pow_0_r, !Z.mul_1_r.
Qed.

Lemma dltb_sar (x y : Z) : dltb (sar x) (sar y) = (x <? y).
Proof. unfold dltb, sar. by rewrite dcmp_same. Qed.

Lemma dleb_sar (x y : Z) : dleb (sar x) (sar y) = (x <=? y).
Proof. unfold dleb, sar. by rewrite dcmp_same. Qed.

Lemma deqb_sar (x y : Z) : deqb (sar x) (sar y) = (x =? y).
Proof. unfold deqb, sar. rewrite dcmp_same. by rewrite Z.eqb_compare. Qed.

Lemma dmin_sar (x y : Z) : dmin (sar x) (sar y) = sar (Z.min x y).
Proof. unfold dmin. rewrite dltb_sar. destruct (Z.ltb_spec y x); f_equal; lia. Qed.

Lemma dmax_sar (x y : Z) : dmax (sar x) (sar y) = sar (Z.max x y).
Proof. unfold dmax. rewrite dltb_sar. destruct (Z.ltb_spec x y); f_equal; lia. Qed.

Lemma dsum_sar (zs : list Z) (z0 B : Z) :
  0 ≤ B → Z.abs z0 + Z.of_nat (length zs) * B < 10 ^ 28 →
  Forall (λ z, Z.abs z ≤ B) zs →
  dsum (sar z0) (sar <$> zs) = sar (z0 + zsum zs).
Proof.
  intros HB. unfold dsum. revert z0. induction zs as [|z zs IH]; intros z0 Hb Hall; cbn.
  - f_equal. lia.
  - apply Forall_cons_1 in Hall as [Hz Hall]. cbn [length] in Hb.
    rewrite dadd_sar; [|unfold small; nia..].
    rewrite IH; [f_equal; lia|nia|done].
Qed.

(** ** Half-up rounding of a rational *)

Lemma rhu_nonneg (n d : Z) : 0 ≤ n → 0 < d → rhu n d = (2 * n + d) / (2 * d).
Proof.
  intros Hn Hd. unfold rhu. rewrite Z.abs_eq by lia.
  destruct (decide (n = 0)) as [->|]; [|rewrite Z.sgn_pos by lia; lia].
  cbn [Z.sgn]. rewrite Z.mul_0_l. symmetry. apply Z.div_small. lia.
Qed.

Lemma rhu_opp (n d : Z) : rhu (- n) d = - rhu n d.
Proof. unfold rhu. rewrite Z.abs_opp, Z.sgn_opp. lia. Qed.

(** Characterisation: [j] is at most the rounding iff [n/d] is at least [j - 1/2]. *)
Lemma rhu_le_iff (n d j : Z) :
  0 ≤ n → 0 < d → j ≤ rhu n d ↔ (2 * j - 1) * d ≤ 2 * n.
Proof.
  intros Hn Hd. rewrite rhu_nonneg by done. split; intros H.
  - pose proof (Z.mul_div_le (2 * n + d) (2 * d) ltac:(lia)). nia.
  - apply Z.div_le_lower_bound; nia.
Qed.

Lemma rhu_unique (n d n' d' : Z) :
  0 ≤ n → 0 < d → 0 ≤ n' → 0 < d' →
  (∀ j, (2 * j - 1) * d ≤ 2 * n ↔ (2 * j - 1) * d' ≤ 2 * n') →
  rhu n d = rhu n' d'.
Proof.
  intros Hn Hd Hn' Hd' H. apply Z.le_antisymm.
  - apply rhu_le_iff; [done..|]. apply H. by apply rhu_le_iff.
  - apply rhu_le_iff; [done..|]. apply H. by apply rhu_le_iff.
Qed.

Lemma rhu_cross (n d n' d' : Z) :
  0 ≤ n → 0 < d → 0 ≤ n' → 0 < d' → n * d' = n' * d → rhu n d = rhu n' d'.
Proof.
  intros Hn Hd Hn' Hd' E. apply rhu_unique; [done..|]. intros j. split; intros H.
  - assert ((2 * j - 1) * d * d' ≤ 2 * n * d') by nia. nia.
  - assert ((2 * j - 1) * d' * d ≤ 2 * n' * d) by nia. nia.
Qed.

Lemma rhu_exact (n d : Z) : 0 < d → rhu (n * d) d = n.
Proof.
  intros Hd.
  assert (∀ m, 0 ≤ m → rhu (m * d) d = m) as Hpos.
  { intros m Hm. rewrite rhu_nonneg by nia.
    replace (2 * (m * d) + d) with (d + m * (2 * d)) by lia.
    rewrite Z.div_add by lia. rewrite Z.div_small by lia. lia. }
  destruct (Z.le_gt_cases 0 n) as [?|?]; [by apply Hpos|].
  replace (n * d) with (- ((- n) * d)) by lia. rewrite rhu_opp, Hpos; lia.
Qed.

Lemma rhu_1 (n : Z) : rhu n 1 = n.
Proof. rewrite <- (Z.mul_1_r n) at 1. by apply rhu_exact. Qed.

(** The rounding error is at most half a unit. *)
Lemma rhu_error_nonneg (n d : Z) : 0 ≤ n → 0 < d → 2 * Z.abs (rhu n d * d - n) ≤ d.
Proof.
  intros Hn Hd. rewrite rhu_nonneg by done.
  pose proof (Z.div_mod (2 * n + d) (2 * d) ltac:(lia)).
  pose proof (Z.mod_pos_bound (2 * n + d) (2 * d) ltac:(lia)). nia.
Qed.

Lemma rhu_error (n d : Z) : 0 < d → 2 * Z.abs (rhu n d * d - n) ≤ d.
Proof.
  intros Hd. destruct (Z.le_gt_cases 0 n) as [?|?]; [by apply rhu_error_nonneg|].
  pose proof (rhu_error_nonneg (- n) d ltac:(lia) Hd) as He. rewrite rhu_opp in He. lia.
Qed.

Lemma rhu_mono (n m d : Z) : 0 ≤ n ≤ m → 0 < d → rhu n d ≤ rhu m d.
Proof.
  intros Hn Hd. apply rhu_le_iff; [lia..|].
  pose proof (proj1 (rhu_le_iff n d (rhu n d) ltac:(lia) Hd) ltac:(lia)). lia.
Qed.

Lemma rhu_nonneg_ge0 (n d : Z) : 0 ≤ n → 0 < d → 0 ≤ rhu n d.
Proof. intros Hn Hd. apply rhu_le_iff; [done..|]. lia. Qed.

Lemma rhu_le (n d : Z) : 0 ≤ n → 0 < d → rhu n d ≤ n.
Proof. intros Hn Hd. pose proof (rhu_error n d Hd). nia. Qed.

Lemma rhu_le_mul (n d b : Z) : 0 ≤ n → 0 < d → n ≤ b * d → rhu n d ≤ b.
Proof.
  intros Hn Hd Hb. rewrite <- (rhu_exact b d Hd). apply rhu_mono; lia.
Qed.

Lemma rhu_abs_le (n d : Z) : 0 < d → Z.abs (rhu n d) ≤ Z.abs n.
Proof.
  intros Hd. destruct (Z.le_gt_cases 0 n) as [?|?].
  - pose proof (rhu_le n d ltac:(lia) Hd). pose proof (rhu_nonneg_ge0 n d ltac:(lia) Hd). lia.
  - pose proof (rhu_le (- n) d ltac:(lia) Hd).
    pose proof (rhu_nonneg_ge0 (- n) d ltac:(lia) Hd). rewrite rhu_opp in *. lia.
Qed.

(** ** Quantizing to two places *)

Lemma rhu_sgn_abs (n d : Z) : Z.sgn n * rhu (Z.abs n) d = rhu n d.
Proof.
  destruct (Z.lt_trichotomy n 0) as [?|[->|?]].
  - rewrite Z.sgn_neg, Z.abs_neq by lia. rewrite rhu_opp. lia.
  - done.
  - rewrite Z.sgn_pos, Z.abs_eq by lia. lia.
Qed.

Lemma quantize_fine (c e : Z) :
  e ≤ -2 → small c → quantize (Dec c e) (-2) = Ok (sar (rhu c (10 ^ (-2 - e)))).
Proof.
  intros He Hc. unfold quantize. cbn [coef dexp].
  destruct (Z.eqb_spec (Z.abs c) 0) as [E|E].
  { replace c with 0 by lia. done. }
  pose proof (dlen_abs_small _ Hc) as Hl. unfold prec.
  destruct (Z.ltb_spec 28 (dlen (Z.abs c) + e - -2)) as [?|_]; [lia|].
  assert (0 < 10 ^ (-2 - e)) as Hp by (apply Z.pow_pos_nonneg; lia).
  assert ((if -2 <=? e then Z.abs c * 10 ^ (e - -2) else rhu (Z.abs c) (10 ^ (-2 - e)))
          = rhu (Z.abs c) (10 ^ (-2 - e))) as ->.
  { destruct (Z.leb_spec (-2) e) as [?|?]; [|done].
    replace e with (-2) by lia. cbn. by rewrite rhu_1, Z.mul_1_r. }
  pose proof (rhu_le (Z.abs c) _ ltac:(lia) Hp) as H1.
  pose proof (rhu_nonneg_ge0 (Z.abs c) _ ltac:(lia) Hp) as H2.
  destruct (Z.ltb_spec 28 (dlen (rhu (Z.abs c) (10 ^ (-2 - e))))) as [Hbad|_].
  { rewrite <- (Z.abs_eq (rhu _ _)) in Hbad by done.
    pose proof (dlen_abs_small (rhu (Z.abs c) (10 ^ (-2 - e)))) as H3.
    unfold small in *. lia. }
  unfold sar. by rewrite rhu_sgn_abs.
Qed.

Lemma quantize_sar (z : Z) : small z → quantize (sar z) (-2) = Ok (sar z).
Proof. intros H. unfold sar at 1. rewrite quantize_fine by (done || lia). cbn. by rewrite rhu_1. Qed.

Lemma small_of_dlen (z : Z) : dlen (Z.abs z) ≤ 28 → small z.
Proof.
  intros H. unfold small. destruct (decide (z = 0)) as [->|Hz]; [done|].
  destruct (dlen_spec (Z.abs z)) as (H1 & H2 & H3); [lia|].
  assert (10 ^ dlen (Z.abs z) ≤ 10 ^ 28) by (apply Z.pow_le_mono_r; lia). lia.
Qed.

(** A successful quantize yields a two-place amount of at most 28 digits. *)
Lemma quantize_ok_inv (a d : dec) : quantize a (-2) = Ok d → ∃ z, d = sar z ∧ small z.
Proof.
  unfold quantize. destruct (Z.abs (coef a) =? 0) eqn:E0.
  { intros [= <-]. exists 0. split; [done|]. unfold small. lia. }
  destruct (prec <? _); [done|].
  set (c := if _ <=? _ then _ else _). destruct (Z.ltb_spec prec (dlen c)) as [|Hc]; [done|].
  intros [= <-]. exists (Z.sgn (coef a) * c). split; [done|].
  apply small_of_dlen. apply Z.eqb_neq in E0.
  assert (0 ≤ c) as Hc0.
  { unfold c. destruct (Z.leb_spec (-2) (dexp a)); [apply Z.mul_nonneg_nonneg; lia|].
    apply rhu_nonneg_ge0; [lia|]. apply Z.pow_pos_nonneg; lia. }
  replace (Z.abs (Z.sgn (coef a) * c)) with c; [done|].
  destruct (Z.lt_trichotomy (coef a) 0) as [?|[?|?]]; [|lia|].
  - rewrite Z.sgn_neg by lia. lia.
  - rewrite Z.sgn_pos by lia. lia.
Qed.

(** ** Rounding to the context's precision *)

Lemma dmul_exact (x y ex ey : Z) :
  small (x * y) → dmul (Dec x ex) (Dec y ey) = Dec (x * y) (ex + ey).
Proof. intros H. unfold dmul. by rewrite dfix_small. Qed.

Lemma pow10_half (k : Z) : 1 ≤ k → 10 ^ k = 10 * 10 ^ (k - 1).
Proof. intros H. replace k with (1 + (k - 1)) at 1 by lia. by rewrite Z.pow_add_r by lia. Qed.

Lemma pow10_pos (k : Z) : 0 ≤ k → 0 < 10 ^ k.
Proof. intros H. apply Z.pow_pos_nonneg; lia. Qed.

Lemma round_half_even_near (n d : Z) :
  0 ≤ n → 0 < d → 2 * Z.abs (round_half_even n d * d - n) ≤ d.
Proof.
  intros Hn Hd. unfold round_half_even.
  pose proof (Z.div_mod n d ltac:(lia)). pose proof (Z.mod_pos_bound n d ltac:(lia)).
  destruct ((d <? 2 * (n mod d)) || _) eqn:E; [|nia].
  assert (d ≤ 2 * (n mod d)); [|nia].
  apply orb_true_iff in E as [E|E]; [lia|]. apply andb_true_iff in E as [E _]. lia.
Qed.

Lemma round_half_even_strict (n k : Z) :
  0 ≤ n → 1 ≤ k → n mod 5 ≠ 0 →
  2 * Z.abs (round_half_even n (10 ^ k) * 10 ^ k - n) ≤ 10 ^ k - 2.
Proof.
  intros Hn Hk H5. pose proof (pow10_half k Hk) as E. pose proof (pow10_pos (k - 1) ltac:(lia)).
  pose proof (round_half_even_near n (10 ^ k) Hn ltac:(lia)) as Hnear.
  set (q := round_half_even n (10 ^ k)) in *. rewrite E in *. set (p := 10 ^ (k - 1)) in *.
  destruct (decide (2 * Z.abs (q * (10 * p) - n) = 10 * p)) as [Ht|]; [exfalso|lia].
  apply H5. destruct (Z.le_ge_cases (q * (10 * p)) n).
  - replace n with ((2 * q * p + p) * 5) by lia. by apply Z.mod_mul.
  - replace n with ((2 * q * p - p) * 5) by lia. by apply Z.mod_mul.
Qed.

Lemma round_half_even_upper (n d b : Z) :
  0 ≤ n → 0 < d → n ≤ b * d → round_half_even n d ≤ b.
Proof.
  intros Hn Hd Hb. pose proof (round_half_even_near n d Hn Hd) as H.
  unfold round_half_even in *.
  pose proof (Z.div_mod n d ltac:(lia)). pose proof (Z.mod_pos_bound n d ltac:(lia)).
  assert (n / d < b ∨ n / d = b ∧ n mod d = 0) as [?|[? Hr]] by nia.
  - destruct (_ || _); lia.
  - rewrite Hr in *. destruct (Z.ltb_spec d (2 * 0)); [lia|].
    destruct (Z.eqb_spec (2 * 0) d); [lia|]. cbn. lia.
Qed.

(** [_fix] moves a coefficient to a nearest multiple of a power of ten, and
    keeps 27 or 28 leading digits when it rounds at all. *)
Lemma dfix_near (c e : Z) :
  0 ≤ c →
  ∃ c' k, dfix (Dec c e) = Dec c' (e + k) ∧ 0 ≤ c' ∧ small c' ∧ 0 ≤ k ∧
    2 * Z.abs (c' * 10 ^ k - c) ≤ 10 ^ k ∧
    (k = 0 ∧ c' = c ∨
     1 ≤ k ∧ 10 ^ (k + 26) ≤ c ∧ (c mod 5 ≠ 0 → 2 * Z.abs (c' * 10 ^ k - c) ≤ 10 ^ k - 2)).
Proof.
  intros Hc. destruct (decide (c < 10 ^ 28)) as [Hs|Hbig].
  { exists c, 0. rewrite dfix_small by (unfold small; cbn; lia).
    rewrite Z.add_0_r, Z.pow_0_r, Z.mul_1_r. unfold small. repeat split; try lia. }
  unfold dfix. cbn [coef dexp]. rewrite Z.abs_eq by lia.
  destruct (dlen_spec c ltac:(lia)) as (_ & Hlo & Hhi). pose proof (dlen_ge c 28 ltac:(lia) ltac:(lia) ltac:(lia)).
  unfold prec. set (k := dlen c - 28). destruct (Z.leb_spec k 0) as [?|Hk]; [lia|].
  rewrite Z.sgn_pos by lia. rewrite !Z.mul_1_l.
  pose proof (pow10_pos k ltac:(lia)) as Hp.
  pose proof (round_half_even_near c (10 ^ k) Hc Hp) as Hn.
  pose proof (round_half_even_upper c (10 ^ k) (10 ^ 28) Hc Hp) as Hu.
  rewrite <- Z.pow_add_r in Hu by lia. replace (28 + k) with (dlen c) in Hu by lia.
  specialize (Hu ltac:(lia)).
  assert (0 ≤ round_half_even c (10 ^ k)) as Hq0.
  { destruct (Z.le_gt_cases 0 (round_half_even c (10 ^ k))); [done|].
    assert (round_half_even c (10 ^ k) * 10 ^ k ≤ -1 * 10 ^ k) by nia. lia. }
  assert (10 ^ (k + 27) ≤ c) as Hlo'.
  { replace (k + 27) with (dlen c - 1) by lia. done. }
  destruct (Z.eqb_spec (round_half_even c (10 ^ k)) (10 ^ 28)) as [Eq|Ne].
  - exists (10 ^ 27), (k + 1). rewrite Eq in *.
    assert (10 ^ (k + 1) = 10 * 10 ^ k) as E1 by (rewrite Z.pow_add_r by lia; lia).
    assert (10 ^ 27 * 10 ^ (k + 1) = 10 ^ 28 * 10 ^ k) as E2 by (rewrite E1; lia).
    rewrite E2. replace (k + 1 + 26) with (k + 27) by lia.
    split_and!; [f_equal; lia|lia|unfold small; lia|lia|lia|].
    right. split_and!; [lia|done|]. intros _. rewrite E1. lia.
  - exists (round_half_even c (10 ^ k)), k.
    split_and!; [done|done|unfold small; lia|lia|done|].
    right. split_and!; [lia| |by apply round_half_even_strict; lia].
    etransitivity; [|exact Hlo']. apply Z.pow_le_mono_r; lia.
Qed.

(** A sum of two amounts that survives [quantize] was exact: an inexact one
    has more digits than [quantize] accepts. *)
Lemma quantize_dadd_inv (x y : Z) (d : dec) :
  small x → small y → quantize (dadd (sar x) (sar y)) (-2) = Ok d →
  d = sar (x + y) ∧ small (x + y).
Proof.
  intros Hx Hy. destruct (decide (Z.abs (x + y) < 10 ^ 28)) as [Hs|Hbig].
  { rewrite dadd_sar by done. rewrite quantize_sar by done. by intros [= <-]. }
  intros H. exfalso. revert H.
  assert (dadd (sar x) (sar y) = dfix (Dec (x + y) (-2))) as ->.
  { unfold dadd, sar, rescale_down. cbn [coef dexp]. rewrite Z.min_id.
    unfold small in *.
    destruct (Z.eqb_spec x 0), (Z.eqb_spec y 0); [lia..|]. cbn [andb].
    change (-2 - -2) with 0. by rewrite Z.pow_0_r, !Z.mul_1_r. }
  unfold small in *. set (n := x + y) in *. unfold dfix. cbn [coef dexp].
  assert (dlen (Z.abs n) = 29) as ->.
  { apply Z.le_antisymm; [apply dlen_le; lia|apply (dlen_ge _ 28); lia]. }
  unfold prec. cbn [Z.leb Z.sub Z.compare Z.pos_sub Z.opp Z.add Pos.compare].
  change (29 - 28 <=? 0) with false. cbv iota. change (29 - 28) with 1.
  set (q := round_half_even (Z.abs n) (10 ^ 1)).
  pose proof (round_half_even_near (Z.abs n) (10 ^ 1) ltac:(lia) ltac:(lia)) as Hq. fold q in Hq.
  assert (10 ^ 27 ≤ q < 10 ^ 28) as Hqb by lia.
  destruct (Z.eqb_spec q (10 ^ 28)) as [?|_]; [lia|].
  unfold quantize, prec. cbn [coef dexp].
  assert (Z.abs (Z.sgn n * q) = q) as -> by (destruct (Z.sgn_spec n) as [[? ->]|[[? ->]|[? ->]]]; lia).
  destruct (Z.eqb_spec q 0) as [?|_]; [lia|].
  pose proof (dlen_ge q 27 ltac:(lia) ltac:(lia) ltac:(lia)).
  destruct (Z.ltb_spec 28 (dlen q + (-2 + 1) - -2)) as [_|?]; [done|lia].
Qed.

(** ** Division followed by [quantize] is exact half-up rounding *)

Lemma strip_spec (f : nat) (c e ideal : Z) :
  0 ≤ c → e ≤ ideal →
  ∃ c' j, strip f c e ideal = Dec c' (e + j) ∧ 0 ≤ j ∧ 0 ≤ c' ∧ c' * 10 ^ j = c ∧ e + j ≤ ideal.
Proof.
  revert c e. induction f as [|f IH]; intros c e Hc He; cbn.
  { exists c, 0. rewrite Z.add_0_r, Z.pow_0_r. repeat split; lia. }
  destruct ((e <? ideal) && (c mod 10 =? 0)) eqn:E.
  2: { exists c, 0. rewrite Z.add_0_r, Z.pow_0_r. repeat split; lia. }
  apply andb_true_iff in E as [E1 E2].
  destruct (IH (c / 10) (e + 1)) as (c' & j & -> & Hj & Hc' & E & Hi);
    [apply Z.div_pos; lia|lia|].
  exists c', (1 + j). split_and!; [f_equal; lia|lia|done| |lia].
  rewrite Z.pow_add_r by lia. pose proof (Z.div_mod c 10 ltac:(lia)). lia.
Qed.

(** If [c * 10^k] is nearest to [X/z] and the tie points of the coarser grid
    are too far from [n/D] to be crossed, rounding [c] half up gives the
    rounding of [n/D]. *)
Lemma rhu_of_near (X z c k t n D : Z) :
  0 ≤ n → 0 < D → 0 < z → 0 ≤ c → 0 ≤ k → 1 ≤ t →
  X * D = n * (z * 10 ^ k) * 10 ^ t → D < 10 ^ t →
  2 * Z.abs (c * 10 ^ k * z - X) ≤ 10 ^ k * z →
  rhu c (10 ^ t) = rhu n D.
Proof.
  intros Hn HD Hz Hc Hk Ht EX HDT Hnear.
  pose proof (pow10_pos k Hk) as Hpk. pose proof (pow10_pos (t - 1) ltac:(lia)) as HpT.
  pose proof (pow10_half t Ht) as ET.
  set (W := z * 10 ^ k) in *. set (T' := 5 * 10 ^ (t - 1)).
  assert (10 ^ t = 2 * T') as ET2 by lia. rewrite ET2 in *. clear ET ET2.
  assert (0 < W) as HW by (unfold W; nia).
  assert (2 * Z.abs (c * W - X) ≤ W) as Hnr.
  { unfold W. replace (c * (z * 10 ^ k)) with (c * 10 ^ k * z) by ring. lia. }
  clear Hnear. assert (0 < T') by lia.
  apply rhu_unique; [done|lia|done|done|]. intros j. set (G := (2 * j - 1) * T').
  replace ((2 * j - 1) * (2 * T')) with (2 * G) by (unfold G; ring). split; intros Hj.
  - destruct (Z.le_gt_cases ((2 * j - 1) * D) (2 * n)) as [?|Hlt]; [done|exfalso].
    assert (2 * X * D ≤ 2 * G * D * W - W * (2 * T')) as H1.
    { replace (2 * X * D) with (2 * n * (W * (2 * T'))) by lia.
      transitivity (((2 * j - 1) * D - 1) * (W * (2 * T'))); [nia|]. unfold G. lia. }
    assert (2 * G * W - W ≤ 2 * X) as H2 by nia.
    assert (2 * G * W * D - W * D ≤ 2 * X * D) as H3 by nia.
    assert (W * (2 * T') ≤ W * D) by lia. nia.
  - assert (G * W ≤ X) as H1.
    { assert (G * W * D ≤ X * D) as H2; [|nia].
      rewrite EX. unfold G.
      replace ((2 * j - 1) * T' * W * D) with (((2 * j - 1) * D) * (T' * W)) by ring.
      replace (n * W * (2 * T')) with ((2 * n) * (T' * W)) by ring. nia. }
    assert (2 * G * W - W ≤ 2 * c * W) as H2 by lia.
    assert (2 * G - 1 ≤ 2 * c) by nia. lia.
Qed.

(** The shifted integer quotient of [__truediv__] carries 29 or 30 digits. *)
Lemma div_quotient_digits (n z s : Z) :
  1 ≤ n → 0 < z → s = dlen z - dlen n + 29 → 0 ≤ s →
  10 ^ 28 ≤ n * 10 ^ s / z < 10 ^ 30.
Proof.
  intros Hn Hz Es Hs. destruct (dlen_spec n Hn) as (Hn1 & Hn2 & Hn3).
  destruct (dlen_spec z ltac:(lia)) as (Hz1 & Hz2 & Hz3). pose proof (pow10_pos s Hs).
  split.
  - apply Z.div_le_lower_bound; [done|].
    transitivity (10 ^ dlen z * 10 ^ 28); [nia|].
    transitivity (10 ^ (dlen n - 1) * 10 ^ s); [|nia].
    rewrite <- !Z.pow_add_r by lia. apply Z.pow_le_mono_r; lia.
  - apply Z.div_lt_upper_bound; [done|].
    apply Z.lt_le_trans with (10 ^ dlen n * 10 ^ s); [nia|].
    transitivity (10 ^ (dlen z - 1) * 10 ^ 30); [|nia].
    rewrite <- !Z.pow_add_r by lia. apply Z.pow_le_mono_r; lia.
Qed.

Lemma pow10_lt_inv (a b : Z) : 0 ≤ b → 10 ^ a < 10 ^ b → a < b.
Proof. intros Hb H. by apply (Z.pow_lt_mono_r_iff 10); [lia| |]. Qed.

(** The inexact branch: the sticky digit keeps the rounding nearest. *)
Lemma quantize_div_inexact (n z m s e c : Z) :
  0 ≤ n → 0 < z → 0 ≤ m → dlen z + 4 ≤ s → e = - m - 2 - s →
  10 ^ 28 ≤ c ≤ 10 ^ 30 → c mod 5 ≠ 0 → Z.abs (c * z - n * 10 ^ s) ≤ z →
  quantize (dfix (Dec c e)) (-2) = Ok (sar (rhu n (z * 10 ^ m))).
Proof.
  intros Hn Hz Hm Hs Ee Hc H5 Hcz.
  destruct (dlen_spec z ltac:(lia)) as (Hz1 & _ & Hz3).
  destruct (dfix_near c e ltac:(lia)) as (c' & k & -> & Hc' & Hsm & Hk & _ & [[-> ->]|(Hk1 & Hk2 & Hst)]).
  { unfold small in Hsm. lia. }
  specialize (Hst H5). assert (k < 5) by (assert (k + 26 < 31); [|lia]; apply pow10_lt_inv; lia).
  rewrite quantize_fine by (done || lia). do 2 f_equal.
  replace (-2 - (e + k)) with (m + s - k) by lia.
  pose proof (pow10_pos m Hm). pose proof (pow10_pos k Hk).
  apply (rhu_of_near (n * 10 ^ s) z c' k); try lia; try nia.
  - replace (n * (z * 10 ^ k) * 10 ^ (m + s - k)) with (n * z * (10 ^ k * 10 ^ (m + s - k))) by ring.
    rewrite <- Z.pow_add_r by lia. replace (k + (m + s - k)) with (s + m) by lia.
    rewrite Z.pow_add_r by lia. ring.
  - apply Z.lt_le_trans with (10 ^ dlen z * 10 ^ m); [nia|].
    rewrite <- Z.pow_add_r by lia. apply Z.pow_le_mono_r; lia.
Qed.

(** The exact branch: trailing zeros are dropped, the value is kept. *)
Lemma quantize_div_exact (n z m s e c j : Z) :
  0 ≤ n → 0 < z → 0 ≤ m → dlen z + 4 ≤ s → e = - m - 2 - s → 0 ≤ j → e + j ≤ - m - 2 →
  0 ≤ c → c * 10 ^ j < 10 ^ 30 → c * 10 ^ j * z = n * 10 ^ s →
  quantize (dfix (Dec c (e + j))) (-2) = Ok (sar (rhu n (z * 10 ^ m))).
Proof.
  intros Hn Hz Hm Hs Ee Hj Hej Hc Hcb Hcz.
  destruct (dlen_spec z ltac:(lia)) as (Hz1 & _ & Hz3).
  pose proof (pow10_pos m Hm). pose proof (pow10_pos j Hj).
  destruct (dfix_near c (e + j) Hc) as (c' & k & -> & Hc' & Hsm & Hk & Hn1 & [[-> ->]|(Hk1 & Hk2 & _)]).
  - rewrite quantize_fine by (done || lia). do 2 f_equal.
    replace (-2 - (e + j + 0)) with (m + s - j) by lia.
    pose proof (pow10_pos (m + s - j) ltac:(lia)).
    apply rhu_cross; [done|done|done|nia|].
    assert (c * (z * 10 ^ m) * 10 ^ j = n * 10 ^ (m + s - j) * 10 ^ j); [|nia].
    replace (c * (z * 10 ^ m) * 10 ^ j) with (c * 10 ^ j * z * 10 ^ m) by ring. rewrite Hcz.
    rewrite <- !Z.mul_assoc, <- !Z.pow_add_r by lia. do 2 f_equal. lia.
  - assert (k + j < 4).
    { assert (k + 26 + j < 30); [|lia]. apply pow10_lt_inv; [lia|].
      rewrite Z.pow_add_r by lia. nia. }
    rewrite quantize_fine by (done || lia). do 2 f_equal.
    replace (-2 - (e + j + k)) with (m + s - (k + j)) by lia.
    pose proof (pow10_pos k Hk).
    apply (rhu_of_near (n * 10 ^ s) z c' (k + j)); try lia; try nia.
    + replace (n * (z * 10 ^ (k + j)) * 10 ^ (m + s - (k + j)))
        with (n * z * (10 ^ (k + j) * 10 ^ (m + s - (k + j)))) by ring.
      rewrite <- Z.pow_add_r by lia. replace (k + j + (m + s - (k + j))) with (s + m) by lia.
      rewrite Z.pow_add_r by lia. ring.
    + apply Z.lt_le_trans with (10 ^ dlen z * 10 ^ m); [nia|].
      rewrite <- Z.pow_add_r by lia. apply Z.pow_le_mono_r; lia.
    + rewrite <- Hcz. rewrite Z.pow_add_r by lia.
      replace (c' * (10 ^ k * 10 ^ j) * z - c * 10 ^ j * z)
        with ((c' * 10 ^ k - c) * (10 ^ j * z)) by ring.
      rewrite Z.abs_mul, (Z.abs_eq (10 ^ j * z)) by nia. nia.
Qed.

(** [(Decimal n / Decimal z).quantize] to two places is the half-up rounding
    of the exact quotient in halalas, for every dividend below 10^25. *)
Lemma quantize_ddiv (n z en ez m : Z) :
  0 ≤ n < 10 ^ 25 → 0 < z → m = ez - en - 2 → 0 ≤ m →
  (d ← ddiv (Dec n en) (Dec z ez); quantize d (-2)) = Ok (sar (rhu n (z * 10 ^ m))).
Proof.
  intros Hn Hz Em Hm. unfold ddiv. cbn [coef dexp].
  rewrite (Z.abs_eq n), (Z.abs_eq z) by lia.
  destruct (Z.eqb_spec z 0) as [?|_]; [lia|]. destruct (Z.eqb_spec n 0) as [->|Hn0].
  { cbn. rewrite dfix_small by (unfold small; cbn; lia). unfold quantize. cbn.
    unfold rhu. by rewrite Z.mul_0_l. }
  rewrite !Z.sgn_pos by lia. unfold prec.
  set (s := dlen z - dlen n + 28 + 1).
  pose proof (dlen_le n 25 ltac:(lia) ltac:(lia) ltac:(lia)) as Hl.
  destruct (dlen_spec z ltac:(lia)) as (Hz1 & _ & _).
  destruct (Z.leb_spec 0 s) as [Hs|?]; [|lia].
  destruct (div_quotient_digits n z s ltac:(lia) Hz ltac:(unfold s; lia) Hs) as [Hq1 Hq2].
  pose proof (Z.div_mod (n * 10 ^ s) z ltac:(lia)) as Hdm.
  pose proof (Z.mod_pos_bound (n * 10 ^ s) z Hz) as Hr.
  set (q := n * 10 ^ s / z) in *. set (r := (n * 10 ^ s) mod z) in *.
  destruct (Z.eqb_spec r 0) as [Er|Er]; cbn [negb].
  - destruct (strip_spec (Z.to_nat (dlen q)) q (en - ez - s) (en - ez)) as (c & j & -> & Hj & Hc & Ec & Hi);
      [lia|lia|].
    cbn [coef dexp mbind res_bind]. rewrite Z.mul_1_l.
    apply (quantize_div_exact n z m s); lia.
  - cbn [coef dexp mbind res_bind]. rewrite Z.mul_1_l.
    apply (quantize_div_inexact n z m s); [lia..| | |];
      destruct (Z.eqb_spec (q mod 5) 0) as [E5|E5]; try lia.
    + pose proof (Z.div_mod q 5 ltac:(lia)).
      replace (q + 1) with (1 + (q / 5) * 5) by lia. rewrite Z.mod_add by lia. done.
Qed.
