(* ===== verification/Money.v ===== *)
(** * Money primitives ([app/core/money.py])

    [quantize_money], [parse_money], [parse_rate] and [money_str], over the
    decimal arithmetic of [PyDecimal].  The wire format is text, so the
    constructor [Decimal(str)] is modelled too: ASCII input, surrounding white
    space and underscores dropped, sign, digits, fraction, exponent, and the
    special values.  [parse_money] keeps the exception structure of the source:
    the [try] covers the construction only, so an [InvalidOperation] of the
    final [quantize] is not turned into a [MoneyError]. *)

From Stdlib Require Import ZArith Lia Ascii String.
From stdpp Require Import base list numbers option strings.
From S2P Require Import Prelude Errors PyDecimal.
Open Scope Z_scope.

(** ** Constants *)

Definition MONEY : dec := Dec 1 (-2).
Definition RATE : dec := Dec 1 (-4).
Definition ZERO : dec := Dec 0 (-2).

(** ** [Decimal(value)] *)

Inductive pydecimal :=
  | Finite (d : dec)
  | Infinite
  | NotANumber.

(** What callers may pass: a decimal string, a Decimal, an int, a float. *)
Inductive money_input :=
  | InStr (s : string)
  | InDec (d : pydecimal)
  | InInt (n : Z)
  | InFloat.

Definition is_digit (c : ascii) : bool :=
  (48 <=? Z.of_N (N_of_ascii c)) && (Z.of_N (N_of_ascii c) <=? 57).

Definition digit_val (c : ascii) : Z := Z.of_N (N_of_ascii c) - 48.

Definition digit_char (d : Z) : ascii := ascii_of_N (Z.to_N (48 + d)).

(** [str.strip()]'s white space, ASCII range. *)
Definition is_space (c : ascii) : bool :=
  let n := Z.of_N (N_of_ascii c) in
  ((9 <=? n) && (n <=? 13)) || ((28 <=? n) && (n <=? 32)).

Fixpoint drop_spaces (l : list ascii) : list ascii :=
  match l with
  | [] => []
  | c :: l' => if is_space c then drop_spaces l' else l
  end.

Definition strip_spaces (l : list ascii) : list ascii :=
  rev (drop_spaces (rev (drop_spaces l))).

Definition drop_underscores (l : list ascii) : list ascii :=
  List.filter (λ c, negb (Ascii.eqb c "_"%char)) l.

(** The longest prefix of digits, and the rest. *)
Fixpoint span_digits (l : list ascii) : list ascii * list ascii :=
  match l with
  | [] => ([], [])
  | c :: l' =>
      if is_digit c then let '(ds, r) := span_digits l' in (c :: ds, r) else ([], l)
  end.

(** [int(digits)]. *)
Definition digits_val (ds : list ascii) : Z :=
  fold_left (λ acc c, 10 * acc + digit_val c) ds 0.

Definition lower (c : ascii) : ascii :=
  let n := N_of_ascii c in
  if ((65 <=? n) && (n <=? 90))%N then ascii_of_N (n + 32) else c.

Definition is_word (w : string) (l : list ascii) : bool :=
  bool_decide (lower <$> l = list_ascii_of_string w).

(** An exponent part [E[+-]digits], or nothing. *)
Definition parse_exponent (l : list ascii) : option Z :=
  match l with
  | [] => Some 0
  | c :: r =>
      if Ascii.eqb (lower c) "e"%char then
        let '(neg, r) :=
          match r with
          | s :: r' => if Ascii.eqb s "-"%char then (true, r')
                       else if Ascii.eqb s "+"%char then (false, r') else (false, r)
          | [] => (false, [])
          end in
        match span_digits r with
        | ([], _) => None
        | (ds, []) => Some (if (neg : bool) then - digits_val ds else digits_val ds)
        | (_, _ :: _) => None
        end
      else None
  end.

Definition parse_unsigned (neg : bool) (l : list ascii) : option pydecimal :=
  if is_word "inf" l || is_word "infinity" l then Some Infinite
  else if is_word "nan" (take 3 l) && forallb is_digit (drop 3 l) then Some NotANumber
  else if is_word "snan" (take 4 l) && forallb is_digit (drop 4 l) then Some NotANumber
  else
    let '(ip, r) := span_digits l in
    let '(fp, r') :=
      match r with
      | c :: r' => if Ascii.eqb c "."%char then span_digits r' else ([], r)
      | [] => ([], [])
      end in
    match ip ++ fp with
    | [] => None
    | ds =>
        match parse_exponent r' with
        | None => None
        | Some e =>
            let c := digits_val ds in
            Some (Finite (Dec (if neg then - c else c) (e - Z.of_nat (length fp))))
        end
    end.

(** [Decimal(s)]; [None] is the [InvalidOperation] the constructor raises. *)
Definition decimal_of_string (s : string) : option pydecimal :=
  match drop_underscores (strip_spaces (list_ascii_of_string s)) with
  | c :: r =>
      if Ascii.eqb c "-"%char then parse_unsigned true r
      else if Ascii.eqb c "+"%char then parse_unsigned false r
      else parse_unsigned false (c :: r)
  | [] => None
  end.

Definition decimal_of (v : money_input) : option pydecimal :=
  match v with
  | InStr s => decimal_of_string s
  | InDec d => Some d
  | InInt n => Some (Finite (dint n))
  | InFloat => None
  end.

(** ** The functions of the module *)

(** [value.quantize(MONEY, rounding=ROUND_HALF_UP)]. *)
Definition quantize_money (value : dec) : res dec := quantize value (dexp MONEY).

Definition parse_money (value : money_input) : res dec :=
  match value with
  | InFloat => Raise MoneyError
  | _ =>
      match decimal_of value with
      | None => Raise MoneyError
      | Some (Finite d) => quantize_money d
      | Some _ => Raise MoneyError
      end
  end.

Definition parse_rate (value : money_input) : res dec :=
  match value with
  | InFloat => Raise MoneyError
  | _ =>
      match decimal_of value with
      | None => Raise MoneyError
      | Some (Finite d) => quantize d (dexp RATE)
      | Some _ => Raise MoneyError
      end
  end.

(** [str(n)] with a fixed number of digits. *)
Fixpoint fixed_digits (w : nat) (n : Z) : list ascii :=
  match w with
  | O => []
  | S w => fixed_digits w (n / 10) ++ [digit_char (n mod 10)]
  end.

Definition nat_str (n : Z) : list ascii := fixed_digits (Z.to_nat (dlen n)) n.

(** [f"{d:.2f}"] of a two-place decimal. *)
Definition format_2f (z : Z) : list ascii :=
  (if z <? 0 then ["-"%char] else []) ++
  nat_str (Z.abs z / 100) ++ "."%char :: fixed_digits 2 (Z.abs z mod 100).

Definition money_str (value : dec) : res string :=
  d ← quantize_money value; Ok (string_of_list_ascii (format_2f (coef d))).

(** ** Digits and their value *)

Lemma digit_char_spec (d : Z) :
  0 ≤ d < 10 → is_digit (digit_char d) = true ∧ digit_val (digit_char d) = d.
Proof.
  intros Hd. assert (d = 0 ∨ d = 1 ∨ d = 2 ∨ d = 3 ∨ d = 4 ∨ d = 5 ∨ d = 6 ∨ d = 7 ∨ d = 8 ∨ d = 9)
    as H by lia.
  repeat (destruct H as [->|H]; [done|]). by subst.
Qed.

Lemma digits_val_snoc (ds : list ascii) (c : ascii) :
  digits_val (ds ++ [c]) = 10 * digits_val ds + digit_val c.
Proof. unfold digits_val. by rewrite fold_left_app. Qed.

Lemma digits_val_app (ds es : list ascii) :
  digits_val (ds ++ es) = digits_val ds * 10 ^ Z.of_nat (length es) + digits_val es.
Proof.
  induction es as [|c es IH] using rev_ind.
  - rewrite app_nil_r. change (digits_val []) with 0. cbn. lia.
  - rewrite app_assoc, !digits_val_snoc, IH, length_app, Nat2Z.inj_add, Z.pow_add_r by lia.
    cbn [length]. change (10 ^ Z.of_nat 1) with 10. lia.
Qed.

Lemma fixed_digits_val (w : nat) (n : Z) :
  0 ≤ n < 10 ^ Z.of_nat w → digits_val (fixed_digits w n) = n.
Proof.
  revert n. induction w as [|w IH]; intros n Hn.
  - change (10 ^ Z.of_nat 0) with 1 in Hn. cbn. lia.
  - cbn [fixed_digits]. rewrite digits_val_snoc.
    pose proof (Z.div_mod n 10 ltac:(lia)). pose proof (Z.mod_pos_bound n 10 ltac:(lia)).
    rewrite IH, (proj2 (digit_char_spec (n mod 10) ltac:(lia))); [lia|].
    rewrite Nat2Z.inj_succ, Z.pow_succ_r in Hn by lia.
    split; [apply Z.div_pos; lia|]. apply Z.div_lt_upper_bound; lia.
Qed.

Lemma fixed_digits_length (w : nat) (n : Z) : length (fixed_digits w n) = w.
Proof. revert n. induction w as [|w IH]; intros n; cbn; [done|]. rewrite length_app, IH. cbn. lia. Qed.

Lemma fixed_digits_digits (w : nat) (n : Z) : Forall (λ c, is_digit c = true) (fixed_digits w n).
Proof.
  revert n. induction w as [|w IH]; intros n; cbn; [constructor|].
  apply Forall_app. split; [done|]. constructor; [|constructor].
  apply digit_char_spec. apply Z.mod_pos_bound. lia.
Qed.

Lemma digit_plain (c : ascii) :
  is_digit c = true → is_space c = false ∧ Ascii.eqb c "_"%char = false ∧
    Ascii.eqb c "-"%char = false ∧ Ascii.eqb c "+"%char = false ∧ Ascii.eqb c "."%char = false.
Proof.
  intros H. unfold is_digit in H. apply andb_true_iff in H as [H1 H2]. split_and!.
  - unfold is_space. destruct (Z.leb_spec 9 (Z.of_N (N_of_ascii c))), (Z.leb_spec (Z.of_N (N_of_ascii c)) 13),
      (Z.leb_spec 28 (Z.of_N (N_of_ascii c))), (Z.leb_spec (Z.of_N (N_of_ascii c)) 32); cbn; lia.
  - destruct (Ascii.eqb_spec c "_"%char) as [->|]; [by cbn in *|done].
  - destruct (Ascii.eqb_spec c "-"%char) as [->|]; [by cbn in *|done].
  - destruct (Ascii.eqb_spec c "+"%char) as [->|]; [by cbn in *|done].
  - destruct (Ascii.eqb_spec c "."%char) as [->|]; [by cbn in *|done].
Qed.

Lemma span_digits_app (ds r : list ascii) :
  Forall (λ c, is_digit c = true) ds → (∀ c r', r = c :: r' → is_digit c = false) →
  span_digits (ds ++ r) = (ds, r).
Proof.
  intros Hds Hr. induction Hds as [|c ds Hc Hds IH]; cbn.
  - destruct r as [|c r']; [done|]. cbn. by rewrite (Hr c r').
  - rewrite Hc, IH. done.
Qed.

Lemma drop_underscores_id (l : list ascii) :
  Forall (λ c, Ascii.eqb c "_"%char = false) l → drop_underscores l = l.
Proof. unfold drop_underscores. induction 1 as [|c l Hc Hl IH]; cbn; [done|]. rewrite Hc. cbn. by rewrite IH. Qed.

Lemma strip_spaces_id (l : list ascii) : Forall (λ c, is_space c = false) l → strip_spaces l = l.
Proof.
  assert (∀ k, Forall (λ c, is_space c = false) k → drop_spaces k = k) as Hd.
  { intros k [|c k' Hc Hk]; cbn; [done|]. by rewrite Hc. }
  intros H. unfold strip_spaces. rewrite (Hd l) by done. rewrite Hd; [apply rev_involutive|].
  by apply Forall_rev.
Qed.

(** ** Parsing what was printed *)

Lemma is_word_digit_head (w : string) (c : ascii) (l : list ascii) (a : ascii) (u : string) :
  w = String a u → is_digit a = false → is_digit c = true → lower c = c → is_word w (c :: l) = false.
Proof.
  intros -> Ha Hc Hl. unfold is_word. apply bool_decide_eq_false. cbn. rewrite Hl. congruence.
Qed.

Lemma digit_lower (c : ascii) : is_digit c = true → lower c = c.
Proof.
  intros H. unfold is_digit in H. apply andb_true_iff in H as [H1 H2].
  unfold lower. destruct (N.leb_spec 65 (N_of_ascii c)); [lia|done].
Qed.

Lemma parse_unsigned_fixed (neg : bool) (ip fp : list ascii) :
  ip ≠ [] → Forall (λ c, is_digit c = true) ip → Forall (λ c, is_digit c = true) fp →
  parse_unsigned neg (ip ++ "."%char :: fp) =
    Some (Finite (Dec (if neg then - digits_val (ip ++ fp) else digits_val (ip ++ fp))
                      (- Z.of_nat (length fp)))).
Proof.
  intros Hne Hip Hfp. destruct ip as [|c ip]; [done|].
  assert (is_digit c = true) as Hc by by inv Hip.
  pose proof (digit_lower c Hc) as Hl. unfold parse_unsigned. cbn [app take].
  rewrite !(is_word_digit_head _ c _ _ _ eq_refl) by done. cbn [andb orb].
  change (c :: ip ++ "."%char :: fp) with ((c :: ip) ++ "."%char :: fp).
  rewrite span_digits_app; [|done|by intros ? ? [= <- <-]].
  cbn [Ascii.eqb]. change (Ascii.eqb "." ".") with true. cbv iota.
  rewrite <- (app_nil_r fp) at 1. rewrite span_digits_app; [|done|done].
  cbn [app parse_exponent]. done.
Qed.

Lemma nat_str_nonempty (n : Z) : 0 ≤ n → nat_str n ≠ [].
Proof.
  intros Hn. unfold nat_str. intros E. apply (f_equal length) in E. rewrite fixed_digits_length in E.
  destruct (decide (n = 0)) as [->|]; [done|]. pose proof (dlen_spec n ltac:(lia)). cbn in E. lia.
Qed.

Lemma nat_str_val (n : Z) : 0 ≤ n → digits_val (nat_str n) = n.
Proof.
  intros Hn. unfold nat_str. destruct (decide (n = 0)) as [->|]; [done|].
  pose proof (dlen_spec n ltac:(lia)). apply fixed_digits_val. rewrite Z2Nat.id by lia. lia.
Qed.

Lemma format_2f_parse (z : Z) :
  decimal_of_string (string_of_list_ascii (format_2f z)) = Some (Finite (sar z)).
Proof.
  unfold decimal_of_string. rewrite list_ascii_of_string_of_list_ascii.
  set (ip := nat_str (Z.abs z / 100)). set (fp := fixed_digits 2 (Z.abs z mod 100)).
  assert (0 ≤ Z.abs z / 100) as Hq by (apply Z.div_pos; lia).
  pose proof (Z.mod_pos_bound (Z.abs z) 100 ltac:(lia)) as Hr.
  assert (Forall (λ c, is_digit c = true) ip) as Hip by apply fixed_digits_digits.
  assert (Forall (λ c, is_digit c = true) fp) as Hfp by apply fixed_digits_digits.
  assert (digits_val (ip ++ fp) = Z.abs z) as Hval.
  { rewrite digits_val_app. unfold ip, fp. rewrite nat_str_val, fixed_digits_length by done.
    rewrite (fixed_digits_val 2) by (change (10 ^ Z.of_nat 2) with 100; lia).
    change (10 ^ Z.of_nat 2) with 100. pose proof (Z.div_mod (Z.abs z) 100 ltac:(lia)). lia. }
  assert (∀ P : ascii → Prop, (∀ c, is_digit c = true → P c) → P "."%char → P "-"%char →
            Forall P (format_2f z)) as Hall.
  { intros P HP Hdot Hminus. unfold format_2f. apply Forall_app. split.
    - destruct (z <? 0); repeat constructor; done.
    - apply Forall_app. split; [by eapply Forall_impl|]. constructor; [done|]. by eapply Forall_impl. }
  rewrite strip_spaces_id by (apply Hall; [intros c Hc; by apply digit_plain|done|done]).
  rewrite drop_underscores_id by (apply Hall; [intros c Hc; by apply digit_plain|done|done]).
  pose proof (nat_str_nonempty _ Hq) as Hne. fold ip in Hne.
  unfold format_2f. fold ip fp. destruct (Z.ltb_spec z 0) as [Hneg|Hpos]; cbn [app].
  - change (Ascii.eqb "-" "-") with true. cbv iota.
    rewrite parse_unsigned_fixed by done. rewrite Hval. unfold fp. rewrite fixed_digits_length.
    unfold sar. do 3 f_equal. lia.
  - destruct ip as [|c ip'] eqn:Eip; [done|]. cbn [app].
    assert (is_digit c = true) as Hc by by inv Hip.
    destruct (digit_plain c Hc) as (_ & _ & -> & -> & _).
    change (c :: ip' ++ "."%char :: fp) with ((c :: ip') ++ "."%char :: fp).
    rewrite parse_unsigned_fixed by done. rewrite Hval. unfold fp. rewrite fixed_digits_length.
    unfold sar. do 3 f_equal. lia.
Qed.

Lemma quantize_money_sar (z : Z) : small z → quantize_money (sar z) = Ok (sar z).
Proof. apply quantize_sar. Qed.

Lemma quantize_money_ok_inv (a d : dec) : quantize_money a = Ok d → ∃ z, d = sar z ∧ small z.
Proof. apply quantize_ok_inv. Qed.

(** ** Properties *)

(** Printing a two-place amount with [money_str] and reading it back with
    [parse_money] gives the amount back, for every amount the context can hold. *)
Theorem money_str_parse_roundtrip (z : Z) :
  small z → (s ← money_str (sar z); parse_money (InStr s)) = Ok (sar z).
Proof.
  intros Hz. unfold money_str. rewrite quantize_money_sar by done. cbn [mbind res_bind].
  unfold parse_money. cbn [decimal_of].
  cbn [coef]. change (coef (sar z)) with z. rewrite format_2f_parse. by apply quantize_money_sar.
Qed.

Lemma money_str_parse_roundtrip_witness :
  (s ← money_str (sar (-65550)); parse_money (InStr s)) = Ok (sar (-65550)).
Proof. apply (money_str_parse_roundtrip (-65550)). unfold small. lia. Defined.

(** [quantize_money] of a decimal with at least two places is the nearest
    number of halalas, ties away from zero, and quantizing again changes
    nothing. *)
Theorem quantize_money_nearest (c e : Z) :
  e ≤ -2 → small c →
  ∃ z, quantize_money (Dec c e) = Ok (sar z) ∧ quantize_money (sar z) = Ok (sar z) ∧
    2 * Z.abs (z * 10 ^ (-2 - e) - c) ≤ 10 ^ (-2 - e) ∧
    (2 * Z.abs (z * 10 ^ (-2 - e) - c) = 10 ^ (-2 - e) → Z.abs c < Z.abs (z * 10 ^ (-2 - e))).
Proof.
  intros He Hc. exists (rhu c (10 ^ (-2 - e))).
  assert (0 < 10 ^ (-2 - e)) as Hp by (apply Z.pow_pos_nonneg; lia).
  pose proof (rhu_error c (10 ^ (-2 - e)) Hp) as Herr.
  split; [by apply quantize_fine|]. split.
  { apply quantize_money_sar. pose proof (rhu_abs_le c (10 ^ (-2 - e)) Hp). unfold small in *. lia. }
  split; [done|]. intros Ht.
  assert (0 ≤ Z.abs c) as Hn by lia.
  pose proof (proj2 (rhu_le_iff (Z.abs c) (10 ^ (-2 - e)) (rhu (Z.abs c) (10 ^ (-2 - e)) + 1) Hn Hp)) as Hup.
  rewrite <- (rhu_sgn_abs c) in *. set (p := 10 ^ (-2 - e)) in *. set (q := rhu (Z.abs c) p) in *.
  pose proof (rhu_nonneg_ge0 (Z.abs c) p Hn Hp) as Hq0. fold q in Hq0.
  assert (2 * Z.abs (q * p - Z.abs c) = p) as Ht'.
  { destruct (Z.sgn_spec c) as [[? ->]|[[? ->]|[? ->]]] in Ht; [..|]; rewrite ?Z.mul_0_l, ?Z.mul_1_l in Ht; nia. }
  assert (Z.abs c < q * p) as Hlt.
  { destruct (Z.lt_ge_cases (Z.abs c) (q * p)) as [?|Hge]; [done|exfalso].
    assert (q + 1 ≤ q); [apply Hup; nia|lia]. }
  destruct (Z.sgn_spec c) as [[? ->]|[[? ->]|[? ->]]]; nia.
Qed.

Lemma quantize_money_nearest_witness :
  ∃ z, quantize_money (Dec (-12345) (-4)) = Ok (sar z) ∧ quantize_money (sar z) = Ok (sar z) ∧
    2 * Z.abs (z * 10 ^ (-2 - -4) - -12345) ≤ 10 ^ (-2 - -4) ∧
    (2 * Z.abs (z * 10 ^ (-2 - -4) - -12345) = 10 ^ (-2 - -4) →
       Z.abs (-12345) < Z.abs (z * 10 ^ (-2 - -4))).
Proof. apply (quantize_money_nearest (-12345) (-4)); [lia|unfold small; lia]. Defined.

(** Every failure of [parse_money] is a [MoneyError], except for a
    well-formed finite number too long for the 28-digit context: there the
    [InvalidOperation] of [quantize] escapes unmapped. *)
Theorem parse_money_failures (v : money_input) (e : exn) :
  parse_money v = Raise e →
  e = MoneyError ∨
  e = InvalidOperation ∧ ∃ d, decimal_of v = Some (Finite d) ∧ quantize_money d = Raise InvalidOperation.
Proof.
  unfold parse_money. intros H.
  assert (∀ d, quantize_money d = Raise e → e = InvalidOperation) as Hq.
  { intros d. unfold quantize_money, quantize. destruct (_ =? 0); [done|].
    destruct (prec <? _); [by intros [= <-]|]. destruct (prec <? _); [by intros [= <-]|done]. }
  destruct v as [s|d|n|]; [..|injection H as <-; by left];
    (destruct (decimal_of _) as [[d'| |]|] eqn:E; [|injection H as <-; by left..]);
    right; pose proof (Hq _ H) as ->; eauto.
Qed.

Lemma parse_money_failures_witness :
  InvalidOperation = MoneyError ∨
  InvalidOperation = InvalidOperation ∧
  ∃ d, decimal_of (InStr "1E+27") = Some (Finite d) ∧ quantize_money d = Raise InvalidOperation.
Proof. apply (parse_money_failures (InStr "1E+27")). vm_compute. reflexivity. Defined.
