(* ===== verification/Pricing.v ===== *)
(** * The pricing engine ([app/core/pricing.py])

    The definitions follow the source statement by statement over the decimals
    of [PyDecimal]: line nets, clamped service fee, discount, pro-rata
    allocation with the residue given to the last component, tax per component,
    totals, and the closing integrity checks.  [breakdown], the audit copy of
    the amounts the source stores as strings, is kept as the list of its keys
    with the decimals they print.

    The second half states the same computation on integer halalas
    ([Spec.price]) and proves that the engine computes exactly that. *)

From Stdlib Require Import ZArith Lia.
From stdpp Require Import base list numbers option strings.
From S2P Require Import Prelude Errors PyDecimal Money.
Open Scope Z_scope.

Inductive PromoDiscountKind := PERCENT | FIXED.

#[export] Instance promo_discount_kind_eq_dec : EqDecision PromoDiscountKind.
Proof. solve_decision. Defined.

Record PricingItem := mk_PricingItem {
  pi_title : string;
  pi_unit_price_amount : dec;
  pi_quantity : Z;
  pi_tax_rate : dec;
  pi_description : option string;
  pi_position : Z;
}.

Record PricingPromo := mk_PricingPromo {
  pp_discount_type : PromoDiscountKind;
  pp_percent_value : option dec;
  pp_fixed_amount : option dec;
  pp_max_discount_amount : option dec;
  pp_min_order_amount : dec;
}.

Record PricingConfig := mk_PricingConfig {
  service_fee_rate : dec;
  service_fee_min_amount : dec;
  service_fee_max_amount : dec;
  default_vat_rate : dec;
  max_invoice_amount : dec;
}.

Record PricingLine := mk_PricingLine {
  pl_position : Z;
  pl_title : string;
  pl_description : option string;
  pl_unit_price_amount : dec;
  pl_quantity : Z;
  pl_tax_rate : dec;
  pl_line_net_amount : dec;
  pl_line_discount_amount : dec;
  pl_line_taxable_amount : dec;
  pl_line_tax_amount : dec;
  pl_line_total_amount : dec;
}.

Record PricingResult := mk_PricingResult {
  pr_lines : list PricingLine;
  pr_items_net_amount : dec;
  pr_courier_fee_amount : dec;
  pr_courier_fee_discount_amount : dec;
  pr_courier_fee_tax_amount : dec;
  pr_service_fee_amount : dec;
  pr_service_fee_tax_amount : dec;
  pr_discount_amount : dec;
  pr_net_after_discount_amount : dec;
  pr_tax_amount : dec;
  pr_total_amount : dec;
  pr_breakdown : list (string * list dec);
}.

Record Settlement := mk_Settlement {
  commission_amount : dec;
  courier_payout_amount : dec;
  st_tax_amount : dec;
  platform_revenue_amount : dec;
}.

Definition compute_settlement (items_net_amount courier_fee_amount tax_amount total_amount
    commission_rate : dec) : res Settlement :=
  base ← quantize_money (dadd items_net_amount courier_fee_amount);
  commission ← quantize_money (dmul base commission_rate);
  courier_payout ← quantize_money (dsub base commission);
  tax ← quantize_money tax_amount;
  total ← quantize_money total_amount;
  revenue ← quantize_money (dsub (dsub total tax) courier_payout);
  Ok (mk_Settlement commission courier_payout tax revenue).

Definition compute_service_fee (base : dec) (cfg : PricingConfig) : res dec :=
  if dleb base ZERO then Ok ZERO
  else
    raw ← quantize_money (dmul base (service_fee_rate cfg));
    Ok (dmin (dmax raw (service_fee_min_amount cfg)) (service_fee_max_amount cfg)).

Definition compute_discount (discountable : dec) (promo : option PricingPromo) : res dec :=
  match promo with
  | None => Ok ZERO
  | Some p =>
      d ← match pp_discount_type p with
          | PERCENT =>
              match pp_percent_value p with
              | None => Raise PricingIntegrityError
              | Some percent_value =>
                  ratio ← ddiv (dmul discountable percent_value) (dint 100);
                  d ← quantize_money ratio;
                  Ok match pp_max_discount_amount p with
                     | Some cap => dmin d cap
                     | None => d
                     end
              end
          | FIXED =>
              match pp_fixed_amount p with
              | None => Raise PricingIntegrityError
              | Some fixed_amount => Ok fixed_amount
              end
          end;
      Ok (dmin d discountable)
  end.

(** The public wrapper the promo engine uses. *)
Definition compute_promo_discount (discountable : dec) (promo : PricingPromo) : res dec :=
  compute_discount discountable (Some promo).

(** [max((i for i, net in enumerate(nets) if net > ZERO), default=0)]. *)
Fixpoint last_positive_from (i : nat) (best : nat) (nets : list dec) : nat :=
  match nets with
  | [] => best
  | net :: nets' => last_positive_from (S i) (if dltb ZERO net then i else best) nets'
  end.

Definition last_positive (nets : list dec) : nat := last_positive_from 0 0 nets.

Definition pro_rata (discount discountable net : dec) : res dec :=
  q ← ddiv (dmul discount net) discountable; quantize_money q.

Definition allocate_discount (line_nets : list dec) (courier_fee_net discount discountable : dec)
    : res (list dec * dec) :=
  if dleb discount ZERO || dleb discountable ZERO then
    Ok ((λ _, ZERO) <$> line_nets, ZERO)
  else
    line_alloc ← res_map (pro_rata discount discountable) line_nets;
    courier_alloc ←
      (if dltb ZERO courier_fee_net then pro_rata discount discountable courier_fee_net
       else Ok ZERO);
    let residue := dsub discount (dadd (dsum ZERO line_alloc) courier_alloc) in
    if deqb residue ZERO then Ok (line_alloc, courier_alloc)
    else if dltb ZERO courier_fee_net then Ok (line_alloc, dadd courier_alloc residue)
    else
      let last := last_positive line_nets in
      match line_alloc !! last with
      | Some a => Ok (<[last := dadd a residue]> line_alloc, courier_alloc)
      | None => Raise IndexError
      end.

(** One iteration of the tax loop: the priced line of item [idx]. *)
Definition price_line (idx : Z) (item : PricingItem) (net alloc : dec) : res PricingLine :=
  let taxable := dsub net alloc in
  line_tax ← quantize_money (dmul taxable (pi_tax_rate item));
  unit ← quantize_money (pi_unit_price_amount item);
  Ok (mk_PricingLine
        (if pi_position item =? 0 then idx + 1 else pi_position item)
        (pi_title item) (pi_description item) unit (pi_quantity item) (pi_tax_rate item)
        net alloc taxable line_tax (dadd taxable line_tax)).

(** The loop itself: the lines, and the running [tax_amount]. *)
Fixpoint price_lines (idx : Z) (tax_amount : dec) (items : list PricingItem) (nets allocs : list dec)
    : res (list PricingLine * dec) :=
  match items, nets, allocs with
  | item :: items', net :: nets', alloc :: allocs' =>
      line ← price_line idx item net alloc;
      rest ← price_lines (idx + 1) (dadd tax_amount (pl_line_tax_amount line)) items' nets' allocs';
      Ok (line :: rest.1, rest.2)
  | [], _, _ => Ok ([], tax_amount)
  | _, _, _ => Raise IndexError
  end.

Definition calculate_invoice_totals (items : list PricingItem) (courier_fee_amount : dec)
    (promo : option PricingPromo) (cfg : PricingConfig) : res PricingResult :=
  line_nets ← res_map (λ i, quantize_money (dmul (pi_unit_price_amount i) (dint (pi_quantity i)))) items;
  let items_net := dsum ZERO line_nets in
  courier_fee_net ← quantize_money courier_fee_amount;
  service_fee ← compute_service_fee (dadd items_net courier_fee_net) cfg;
  let discountable := dadd items_net courier_fee_net in
  discount ← compute_discount discountable promo;
  allocs ← allocate_discount line_nets courier_fee_net discount discountable;
  let line_alloc := allocs.1 in
  let courier_alloc := allocs.2 in
  taxed ← price_lines 0 ZERO items line_nets line_alloc;
  let lines := taxed.1 in
  let courier_taxable := dsub courier_fee_net courier_alloc in
  courier_tax ← quantize_money (dmul courier_taxable (default_vat_rate cfg));
  service_tax ← quantize_money (dmul service_fee (default_vat_rate cfg));
  let tax_amount := dadd taxed.2 (dadd courier_tax service_tax) in
  let net_after_discount := dsub (dadd (dadd items_net courier_fee_net) service_fee) discount in
  let total_amount := dadd net_after_discount tax_amount in
  let total_alloc := dadd (dsum ZERO line_alloc) courier_alloc in
  raise_if (negb (deqb total_alloc discount)) PricingIntegrityError;;
  let reconstructed :=
    dadd (dadd (dsum ZERO (pl_line_total_amount <$> lines)) (dadd courier_taxable courier_tax))
         (dadd service_fee service_tax) in
  raise_if (negb (deqb reconstructed total_amount)) PricingIntegrityError;;
  raise_if (dleb total_amount ZERO) PricingIntegrityError;;
  raise_if (dltb (max_invoice_amount cfg) total_amount) PricingIntegrityError;;
  let breakdown : list (string * list dec) :=
    [("items_net_amount", [items_net]); ("courier_fee_amount", [courier_fee_net]);
     ("service_fee_amount", [service_fee]); ("discount_amount", [discount]);
     ("net_after_discount_amount", [net_after_discount]); ("tax_amount", [tax_amount]);
     ("total_amount", [total_amount])] ++
    ((λ l, ("lines", [dint (pl_position l); pl_line_net_amount l; pl_line_discount_amount l;
                      pl_line_taxable_amount l; pl_line_tax_amount l; pl_line_total_amount l])) <$> lines) ++
    [("courier_fee_tax_amount", [courier_tax]); ("service_fee_tax_amount", [service_tax])] in
  Ok (mk_PricingResult lines items_net courier_fee_net courier_alloc courier_tax service_fee
        service_tax discount net_after_discount tax_amount total_amount breakdown).

(** ** The reference: the same price on integer halalas

    No decimal objects, no context precision, no exceptions: [rhu n d] is the
    half-up rounding of the rational [n/d], and the residue of the allocation is
    added unconditionally. *)
Module Spec.

Definition times_rate (z : Z) (rate : dec) : Z := rhu (z * coef rate) (10 ^ (- dexp rate)).

Definition net (i : PricingItem) : Z := halalas (pi_unit_price_amount i) * pi_quantity i.

Definition fee (cfg : PricingConfig) (base : Z) : Z :=
  if base <=? 0 then 0
  else Z.min (Z.max (times_rate base (service_fee_rate cfg)) (halalas (service_fee_min_amount cfg)))
             (halalas (service_fee_max_amount cfg)).

Definition discount (base : Z) (promo : option PricingPromo) : Z :=
  match promo with
  | None => 0
  | Some p =>
      Z.min base
        match pp_discount_type p with
        | PERCENT =>
            let pct := default ZERO (pp_percent_value p) in
            let d := rhu (base * coef pct) (100 * 10 ^ (- dexp pct)) in
            match pp_max_discount_amount p with Some cap => Z.min d (halalas cap) | None => d end
        | FIXED => halalas (default ZERO (pp_fixed_amount p))
        end
  end.

Fixpoint last_pos_from (i best : nat) (nets : list Z) : nat :=
  match nets with
  | [] => best
  | n :: nets' => last_pos_from (S i) (if 0 <? n then i else best) nets'
  end.

Definition share (d base net : Z) : Z := rhu (d * net) base.

Definition courier_share (d base courier : Z) : Z :=
  if 0 <? courier then share d base courier else 0.

Definition residue (nets : list Z) (courier d base : Z) : Z :=
  d - (zsum (share d base <$> nets) + courier_share d base courier).

Definition allocate (nets : list Z) (courier d base : Z) : list Z * Z :=
  if (d <=? 0) || (base <=? 0) then ((λ _, 0) <$> nets, 0)
  else if 0 <? courier then
    (share d base <$> nets, courier_share d base courier + residue nets courier d base)
  else
    (alter (λ a, a + residue nets courier d base) (last_pos_from 0 0 nets) (share d base <$> nets), 0).

Record price := mk_price {
  nets : list Z; courier : Z; service_fee : Z; discounted : Z;
  allocs : list Z; courier_alloc : Z;
  taxes : list Z; courier_tax : Z; service_tax : Z;
}.

Definition base (p : price) : Z := zsum (nets p) + courier p.
Definition tax (p : price) : Z := zsum (taxes p) + (courier_tax p + service_tax p).
Definition net_after (p : price) : Z := base p + service_fee p - discounted p.
Definition total (p : price) : Z := net_after p + tax p.

Definition price_of (items : list PricingItem) (courier_fee : Z) (promo : option PricingPromo)
    (cfg : PricingConfig) : price :=
  let ns := net <$> items in
  let b := zsum ns + courier_fee in
  let d := discount b promo in
  let al := allocate ns courier_fee d b in
  let sf := fee cfg b in
  mk_price ns courier_fee sf d al.1 al.2
    (zip_with (λ i na, times_rate (na.1 - na.2) (pi_tax_rate i)) items (zip ns al.1))
    (times_rate (courier_fee - al.2) (default_vat_rate cfg))
    (times_rate sf (default_vat_rate cfg)).

(** The priced lines and the result record, printed back as decimals. *)
Fixpoint lines (idx : Z) (items : list PricingItem) (ns als ts : list Z) : list PricingLine :=
  match items, ns, als, ts with
  | i :: items', n :: ns', a :: als', t :: ts' =>
      mk_PricingLine (if pi_position i =? 0 then idx + 1 else pi_position i)
        (pi_title i) (pi_description i) (pi_unit_price_amount i) (pi_quantity i) (pi_tax_rate i)
        (sar n) (sar a) (sar (n - a)) (sar t) (sar (n - a + t))
      :: lines (idx + 1) items' ns' als' ts'
  | _, _, _, _ => []
  end.

Definition breakdown (ls : list PricingLine) (p : price) : list (string * list dec) :=
  [("items_net_amount", [sar (zsum (nets p))]); ("courier_fee_amount", [sar (courier p)]);
   ("service_fee_amount", [sar (service_fee p)]); ("discount_amount", [sar (discounted p)]);
   ("net_after_discount_amount", [sar (net_after p)]); ("tax_amount", [sar (tax p)]);
   ("total_amount", [sar (total p)])] ++
  ((λ l, ("lines", [dint (pl_position l); pl_line_net_amount l; pl_line_discount_amount l;
                    pl_line_taxable_amount l; pl_line_tax_amount l; pl_line_total_amount l])) <$> ls) ++
  [("courier_fee_tax_amount", [sar (courier_tax p)]); ("service_fee_tax_amount", [sar (service_tax p)])].

Definition result (items : list PricingItem) (p : price) : PricingResult :=
  let ls := lines 0 items (nets p) (allocs p) (taxes p) in
  mk_PricingResult ls (sar (zsum (nets p))) (sar (courier p)) (sar (courier_alloc p))
    (sar (courier_tax p)) (sar (service_fee p)) (sar (service_tax p)) (sar (discounted p))
    (sar (net_after p)) (sar (tax p)) (sar (total p)) (breakdown ls p).

End Spec.

(** ** Well-formed inputs: what the request schemas, the settings and the
    column types guarantee *)

Definition AMT : Z := 10 ^ 12.

Definition wf_amount (d : dec) : Prop := dexp d = -2 ∧ 0 ≤ coef d < AMT.

(** A fraction between 0 and 1 with at most ten places. *)
Definition wf_rate (r : dec) : Prop := -10 ≤ dexp r ≤ 0 ∧ 0 ≤ coef r ≤ 10 ^ (- dexp r).

Definition wf_item (i : PricingItem) : Prop :=
  wf_amount (pi_unit_price_amount i) ∧ 0 ≤ pi_quantity i ∧ wf_rate (pi_tax_rate i).

Definition wf_promo (p : PricingPromo) : Prop :=
  match pp_discount_type p with
  | PERCENT => ∃ v, pp_percent_value p = Some v ∧ -10 ≤ dexp v ≤ 0 ∧ 0 ≤ coef v ≤ 100 * 10 ^ (- dexp v)
  | FIXED => ∃ v, pp_fixed_amount p = Some v ∧ wf_amount v
  end ∧ match pp_max_discount_amount p with Some c => wf_amount c | None => True end.

Definition wf_config (cfg : PricingConfig) : Prop :=
  wf_rate (service_fee_rate cfg) ∧ wf_rate (default_vat_rate cfg) ∧
  wf_amount (service_fee_min_amount cfg) ∧ wf_amount (service_fee_max_amount cfg) ∧
  wf_amount (max_invoice_amount cfg).

Record wf_inputs (items : list PricingItem) (courier_fee : Z) (promo : option PricingPromo)
    (cfg : PricingConfig) : Prop := {
  wf_items : Forall wf_item items;
  wf_count : Z.of_nat (length items) ≤ 1000;
  wf_fee : 0 ≤ courier_fee;
  wf_base : zsum (Spec.net <$> items) + courier_fee < AMT;
  wf_pr : match promo with Some p => wf_promo p | None => True end;
  wf_cfg : wf_config cfg;
}.

(** ** Rates *)

Lemma wf_amount_sar (d : dec) : wf_amount d → d = sar (halalas d) ∧ 0 ≤ halalas d < AMT.
Proof. destruct d as [c e]. unfold wf_amount, halalas. cbn. intros [-> H]. done. Qed.

Lemma wf_rate_pow (r : dec) : wf_rate r → 0 < 10 ^ (- dexp r) ≤ 10 ^ 10.
Proof.
  intros [He _]. split; [apply pow10_pos; lia|]. apply Z.pow_le_mono_r; lia.
Qed.

Lemma times_rate_quantize (z : Z) (r : dec) :
  wf_rate r → Z.abs z ≤ 10 ^ 16 →
  quantize_money (dmul (sar z) r) = Ok (sar (Spec.times_rate z r)).
Proof.
  intros Hr Hz. pose proof (wf_rate_pow r Hr). destruct Hr as [He Hc].
  destruct r as [c e]. cbn [coef dexp] in *.
  unfold sar at 1. rewrite dmul_exact by (unfold small; nia).
  unfold quantize_money. cbn [dexp MONEY].
  rewrite quantize_fine by (unfold small; nia). unfold Spec.times_rate. cbn [coef dexp].
  do 4 f_equal. lia.
Qed.

Lemma times_rate_nonneg (z : Z) (r : dec) :
  wf_rate r → 0 ≤ z → 0 ≤ Spec.times_rate z r ≤ z.
Proof.
  intros Hr Hz. pose proof (wf_rate_pow r Hr) as Hp. destruct Hr as [He Hc].
  unfold Spec.times_rate. split; [apply rhu_nonneg_ge0; nia|].
  apply rhu_le_mul; nia.
Qed.

Lemma times_rate_abs (z : Z) (r : dec) : wf_rate r → Z.abs (Spec.times_rate z r) ≤ Z.abs z.
Proof.
  intros Hr. destruct (Z.le_gt_cases 0 z).
  - pose proof (times_rate_nonneg z r Hr). lia.
  - pose proof (times_rate_nonneg (- z) r Hr) as Hn.
    unfold Spec.times_rate in *. rewrite Z.mul_opp_l, rhu_opp in Hn. lia.
Qed.

Lemma sar_0 : ZERO = sar 0. Proof. done. Qed.

(** ** Service fee and discount *)

Lemma compute_service_fee_spec (cfg : PricingConfig) (b : Z) :
  wf_config cfg → 0 ≤ b ≤ AMT →
  compute_service_fee (sar b) cfg = Ok (sar (Spec.fee cfg b)) ∧ 0 ≤ Spec.fee cfg b < AMT.
Proof.
  intros (Hr & _ & Hmin & Hmax & _) Hb. unfold compute_service_fee, Spec.fee.
  apply wf_amount_sar in Hmin as [-> Hmin]. apply wf_amount_sar in Hmax as [-> Hmax].
  rewrite sar_0, dleb_sar. destruct (Z.leb_spec b 0); [done|].
  rewrite times_rate_quantize by (done || unfold AMT in *; lia). cbn [mbind res_bind].
  rewrite dmax_sar, dmin_sar. unfold halalas, sar in *. cbn [coef] in *. split; [done|].
  pose proof (times_rate_nonneg b _ Hr ltac:(lia)). lia.
Qed.

Lemma compute_discount_spec (promo : option PricingPromo) (b : Z) :
  match promo with Some p => wf_promo p | None => True end → 0 ≤ b ≤ AMT →
  compute_discount (sar b) promo = Ok (sar (Spec.discount b promo)) ∧
  0 ≤ Spec.discount b promo ≤ b.
Proof.
  unfold AMT. destruct promo as [p|]; [|by cbn; split; [|lia]].
  unfold compute_discount, Spec.discount, wf_promo. intros [Hk Hcap] Hb.
  destruct (pp_discount_type p).
  - destruct Hk as (v & -> & He & Hv). destruct v as [c e]. cbn [coef dexp default from_option id] in *.
    assert (0 < 10 ^ (- e) ≤ 10 ^ 10) as Hp.
    { split; [apply pow10_pos; lia|]. apply Z.pow_le_mono_r; lia. }
    change (dmul (sar b)) with (dmul (Dec b (-2))). rewrite dmul_exact by (unfold small; nia).
    set (D := rhu (b * c) (100 * 10 ^ (- e))).
    assert (ddiv (Dec (b * c) (-2 + e)) (dint 100) ≫= quantize_money = Ok (sar D)) as E.
    { apply (quantize_ddiv (b * c) 100 (-2 + e) 0 (- e)); nia. }
    destruct (ddiv _ _) as [r|]; [|done]. cbn [mbind res_bind] in E |- *. rewrite E.
    assert (0 ≤ D) by (apply rhu_nonneg_ge0; nia). cbn [mbind res_bind]. clearbody D.
    destruct (pp_max_discount_amount p) as [cap|].
    + apply wf_amount_sar in Hcap as [-> Hcap]. rewrite !dmin_sar.
      unfold halalas, sar in *. cbn [coef] in *. split; [by rewrite (Z.min_comm b)|lia].
    + rewrite dmin_sar, Z.min_comm. split; [done|lia].
  - destruct Hk as (v & -> & Hv). apply wf_amount_sar in Hv as [-> Hv].
    cbn [mbind res_bind default from_option id]. rewrite dmin_sar.
    rewrite Z.min_comm. unfold halalas, sar in *. cbn [coef] in *. split; [done|lia].
Qed.

(** ** Allocation *)

Lemma share_bound (d b n : Z) : 0 ≤ d → 0 < b → 0 ≤ n ≤ b → 0 ≤ Spec.share d b n ≤ d.
Proof.
  intros Hd Hb Hn. unfold Spec.share. split; [apply rhu_nonneg_ge0; nia|].
  apply rhu_le_mul; nia.
Qed.

Lemma pro_rata_spec (d b n : Z) :
  0 ≤ d ≤ b → 0 < b ≤ AMT → 0 ≤ n ≤ b →
  pro_rata (sar d) (sar b) (sar n) = Ok (sar (Spec.share d b n)).
Proof.
  unfold AMT. intros Hd Hb Hn. unfold pro_rata.
  change (dmul (sar d) (sar n)) with (dmul (Dec d (-2)) (Dec n (-2))).
  rewrite dmul_exact by (unfold small; nia).
  etransitivity; [apply (quantize_ddiv (d * n) b (-2 + -2) (-2) 0); nia|].
  unfold Spec.share. by rewrite Z.pow_0_r, Z.mul_1_r.
Qed.

Lemma res_map_sar (f : dec → res dec) (g : Z → Z) (l : list Z) :
  (∀ z, z ∈ l → f (sar z) = Ok (sar (g z))) →
  res_map f (sar <$> l) = Ok (sar <$> (g <$> l)).
Proof.
  intros H. apply res_map_ok. apply Forall2_fmap_l, Forall2_fmap_r, Forall2_fmap_r.
  apply Forall_Forall2_diag. by apply Forall_forall.
Qed.

Lemma last_positive_from_sar (i best : nat) (l : list Z) :
  last_positive_from i best (sar <$> l) = Spec.last_pos_from i best l.
Proof.
  revert i best. induction l as [|z l IH]; intros i best; [done|].
  cbn. rewrite IH, sar_0, dltb_sar. done.
Qed.

Lemma last_pos_from_lt (i best : nat) (l : list Z) :
  (best < i + length l)%nat → (Spec.last_pos_from i best l < i + length l)%nat.
Proof.
  revert i best. induction l as [|z l IH]; intros i best H; cbn in *; [done|].
  rewrite <- Nat.add_succ_comm in *. apply IH. destruct (0 <? z); lia.
Qed.

(** The line picked to absorb the residue has a positive net whenever some line does. *)
Lemma last_pos_from_pos (i best : nat) (l : list Z) :
  0 < zsum l → Forall (λ z, 0 ≤ z) l →
  ∃ j n, Spec.last_pos_from i best l = (i + j)%nat ∧ l !! j = Some n ∧ 0 < n.
Proof.
  revert i best. induction l as [|z l IH]; intros i best H Hf; cbn in *; [lia|].
  apply Forall_cons_1 in Hf as [Hz Hf].
  destruct (Z.ltb_spec 0 (zsum l)) as [Hs|Hs].
  - destruct (IH (S i) (if 0 <? z then i else best) Hs Hf) as (j & n & -> & Hj & Hn).
    exists (S j), n. split; [lia|]. done.
  - destruct (Z.ltb_spec 0 z); [|lia]. exists 0%nat, z. split; [|done].
    assert (∀ k b, Spec.last_pos_from k b l = b) as Hl; [|rewrite Hl; lia].
    clear IH H. induction l as [|y l IHl]; [done|]. intros k b. cbn in *.
    apply Forall_cons_1 in Hf as [Hy Hf].
    assert (0 ≤ zsum l) by (clear -Hf; induction Hf; cbn; lia).
    destruct (Z.ltb_spec 0 y); [lia|]. apply IHl; [done|lia].
Qed.

Section Allocation.
Context (ns : list Z) (courier d b : Z).
Context (Hns : Forall (λ n, 0 ≤ n ≤ b) ns) (Hlen : Z.of_nat (length ns) ≤ 1000).
Context (Hc : 0 ≤ courier ≤ b) (Hd : 0 ≤ d ≤ b) (Hb : 0 ≤ b ≤ AMT).

Lemma shares_bound : 0 < b → Forall (λ a, 0 ≤ a ≤ d) (Spec.share d b <$> ns).
Proof.
  intros Hb0. apply Forall_fmap. eapply Forall_impl; [exact Hns|].
  cbn. intros n Hn. apply share_bound; lia.
Qed.

Lemma courier_share_bound : 0 < b → 0 ≤ Spec.courier_share d b courier ≤ d.
Proof.
  intros Hb0. unfold Spec.courier_share. destruct (0 <? courier); [apply share_bound; lia|lia].
Qed.

Lemma zsum_range (l : list Z) (B : Z) :
  Forall (λ a, 0 ≤ a ≤ B) l → 0 ≤ zsum l ≤ Z.of_nat (length l) * B.
Proof. induction 1; cbn [zsum length]; lia. Qed.

Lemma residue_bound : 0 < b → Z.abs (Spec.residue ns courier d b) ≤ 1001 * d.
Proof.
  intros Hb0. unfold Spec.residue. pose proof (courier_share_bound Hb0).
  pose proof (zsum_range _ _ (shares_bound Hb0)) as Hz. rewrite length_fmap in Hz. nia.
Qed.

Lemma alter_shift (l : list Z) (k : nat) (r : Z) :
  (k < length l)%nat → zsum (alter (λ a, a + r) k l) = zsum l + r.
Proof.
  revert k. induction l as [|x l IH]; intros [|k] Hk; cbn in *; [lia|lia|lia|].
  rewrite IH by lia. lia.
Qed.

Lemma last_line_lt : 0 < b → b = zsum ns + courier → courier = 0 →
  (Spec.last_pos_from 0 0 ns < length ns)%nat.
Proof.
  intros Hb0 Eb Ec. apply (last_pos_from_lt 0 0 ns).
  destruct ns as [|n l]; [cbn in Eb; lia|cbn; lia].
Qed.

(** Every allocation stays far inside the exact range of the decimals. *)
Lemma allocate_bound :
  Forall (λ a, Z.abs a ≤ 1002 * AMT) (Spec.allocate ns courier d b).1 ∧
  Z.abs (Spec.allocate ns courier d b).2 ≤ 1002 * AMT.
Proof.
  unfold Spec.allocate. destruct (Z.leb_spec d 0), (Z.leb_spec b 0); cbn [orb fst snd].
  1-3: split; [apply Forall_fmap, Forall_true; cbn; unfold AMT; lia|unfold AMT; lia].
  assert (0 < b) as Hb0 by lia. pose proof (residue_bound Hb0). pose proof (courier_share_bound Hb0).
  pose proof (shares_bound Hb0) as Hs. unfold AMT in *.
  destruct (0 <? courier); cbn [fst snd].
  - split; [|lia]. eapply Forall_impl; [exact Hs|]. cbn. lia.
  - split; [|lia]. apply Forall_alter.
    + eapply Forall_impl; [exact Hs|]. cbn. lia.
    + intros x Hx _. pose proof (proj1 (Forall_lookup _ _) Hs _ _ Hx). cbn in *. lia.
Qed.

(** The allocations always sum to the discount, to the halala. *)
Lemma allocate_sum :
  b = zsum ns + courier →
  zsum (Spec.allocate ns courier d b).1 + (Spec.allocate ns courier d b).2 = d.
Proof.
  intros Eb. unfold Spec.allocate.
  assert (∀ l : list Z, zsum ((λ _, 0) <$> l) = 0) as Hz by (intros l; induction l; cbn; lia).
  destruct (Z.leb_spec d 0), (Z.leb_spec b 0); cbn [orb fst snd]; try (rewrite Hz; lia).
  destruct (Z.ltb_spec 0 courier); cbn [fst snd].
  - unfold Spec.residue. lia.
  - rewrite alter_shift by (rewrite length_fmap; apply last_line_lt; lia).
    unfold Spec.residue, Spec.courier_share. destruct (Z.ltb_spec 0 courier); lia.
Qed.

Lemma allocate_length : length (Spec.allocate ns courier d b).1 = length ns.
Proof.
  unfold Spec.allocate. destruct (_ || _); cbn [fst]; [by rewrite length_fmap|].
  destruct (0 <? courier); cbn [fst]; [by rewrite length_fmap|].
  by rewrite length_alter, length_fmap.
Qed.

(** The decimal code computes the reference allocation. *)
Lemma allocate_discount_spec :
  b = zsum ns + courier →
  allocate_discount (sar <$> ns) (sar courier) (sar d) (sar b) =
  Ok (sar <$> (Spec.allocate ns courier d b).1, sar (Spec.allocate ns courier d b).2).
Proof.
  intros Eb. unfold allocate_discount, Spec.allocate. rewrite !sar_0, !dleb_sar, !dltb_sar.
  destruct (Z.leb_spec d 0), (Z.leb_spec b 0); cbn [orb fst snd];
    try by rewrite <- !list_fmap_compose.
  assert (0 < b) as Hb0 by lia. unfold AMT in *.
  rewrite (res_map_sar _ (Spec.share d b)).
  2:{ intros n Hn. apply pro_rata_spec; unfold AMT; try lia.
      by apply (proj1 (Forall_forall _ _) Hns). }
  cbn [mbind res_bind].
  assert ((if 0 <? courier then pro_rata (sar d) (sar b) (sar courier) else Ok (sar 0))
          = Ok (sar (Spec.courier_share d b courier))) as ->.
  { unfold Spec.courier_share. destruct (0 <? courier); [|done].
    apply pro_rata_spec; unfold AMT; lia. }
  cbn [mbind res_bind]. pose proof (residue_bound Hb0) as Hr. pose proof (courier_share_bound Hb0) as Hcs.
  pose proof (shares_bound Hb0) as Hs. pose proof (zsum_range _ _ Hs) as Hz. rewrite length_fmap in Hz.
  rewrite (dsum_sar _ 0 d); [|lia|rewrite length_fmap; nia|eapply Forall_impl; [exact Hs|]; cbn; lia].
  rewrite dadd_sar by (unfold small; nia). rewrite dsub_sar by (unfold small; nia).
  rewrite Z.add_0_l. fold (Spec.residue ns courier d b). rewrite deqb_sar.
  destruct (Z.eqb_spec (Spec.residue ns courier d b) 0) as [E0|E0].
  - rewrite E0. destruct (Z.ltb_spec 0 courier); cbn [fst snd].
    + by rewrite Z.add_0_r.
    + rewrite list_alter_id by (intros; lia).
      unfold Spec.courier_share. destruct (Z.ltb_spec 0 courier); [lia|done].
  - destruct (Z.ltb_spec 0 courier); cbn [fst snd].
    + rewrite dadd_sar by (unfold small; nia). done.
    + unfold last_positive. rewrite last_positive_from_sar, list_lookup_fmap.
      assert (is_Some ((Spec.share d b <$> ns) !! Spec.last_pos_from 0 0 ns)) as [a Ea].
      { apply lookup_lt_is_Some. rewrite length_fmap. apply last_line_lt; lia. }
      rewrite Ea. cbn. pose proof (proj1 (Forall_lookup _ _) Hs _ _ Ea) as Ha. cbn in Ha.
      rewrite dadd_sar by (unfold small; nia).
      unfold Spec.courier_share. destruct (Z.ltb_spec 0 courier); [lia|].
      do 2 f_equal. rewrite <- list_fmap_insert. f_equal.
      rewrite list_insert_alter. apply list_alter_ext; [|done].
      intros y Hy. by rewrite Ea in Hy; injection Hy as ->.
Qed.

(** ** How far an allocation is from its exact share *)

Lemma share_error (n : Z) : 0 < b → 2 * Z.abs (Spec.share d b n * b - d * n) ≤ b.
Proof. intros Hb0. by apply rhu_error. Qed.

Lemma shares_error : 0 < b →
  2 * Z.abs (zsum (Spec.share d b <$> ns) * b - d * zsum ns) ≤ Z.of_nat (length ns) * b.
Proof.
  clear Hns Hlen. intros Hb0. induction ns as [|n l IH]; [cbn; lia|].
  rewrite fmap_cons. cbn [zsum length]. pose proof (share_error n Hb0). lia.
Qed.

Lemma residue_error : 0 < b → b = zsum ns + courier →
  2 * Z.abs (Spec.residue ns courier d b) ≤ Z.of_nat (length ns) + 1.
Proof.
  intros Hb0 Eb. pose proof (shares_error Hb0) as Hse.
  assert (2 * Z.abs (Spec.courier_share d b courier * b - d * courier) ≤ b) as Hce.
  { unfold Spec.courier_share. destruct (Z.ltb_spec 0 courier); [by apply share_error|].
    replace courier with 0 by lia. lia. }
  unfold Spec.residue. set (S := zsum (Spec.share d b <$> ns)) in *.
  set (C := Spec.courier_share d b courier) in *.
  assert (2 * Z.abs ((d - (S + C)) * b) ≤ (Z.of_nat (length ns) + 1) * b) as H.
  { replace ((d - (S + C)) * b) with (- (S * b - d * zsum ns) - (C * b - d * courier)); [lia|].
    rewrite Eb. ring. }
  rewrite Z.abs_mul, (Z.abs_eq b) in H by lia. nia.
Qed.

(** The component that absorbs the residue: the courier fee when there is one,
    else the last line with a positive net. *)
Lemma allocate_error (i : nat) (n a : Z) :
  0 < d → b = zsum ns + courier → ns !! i = Some n → (Spec.allocate ns courier d b).1 !! i = Some a →
  2 * Z.abs (a * b - d * n) ≤ (Z.of_nat (length ns) + 2) * b ∧
  (0 < courier ∨ i ≠ Spec.last_pos_from 0 0 ns → 2 * Z.abs (a * b - d * n) ≤ b).
Proof.
  intros Hd0 Eb Hn. assert (0 < b) as Hb0 by lia.
  pose proof (residue_error Hb0 Eb) as Hr. pose proof (share_error n Hb0) as Hs.
  unfold Spec.allocate. destruct (Z.leb_spec d 0), (Z.leb_spec b 0); [lia..|]. cbn [orb].
  assert ((Spec.share d b <$> ns) !! i = Some (Spec.share d b n)) as Es
    by (rewrite list_lookup_fmap, Hn; done).
  destruct (Z.ltb_spec 0 courier); cbn [fst].
  - rewrite Es. intros [= <-]. split; [nia|done].
  - destruct (decide (i = Spec.last_pos_from 0 0 ns)) as [->|Hi].
    + rewrite list_lookup_alter_eq, Es. intros [= <-]. split; [|lia].
      set (r := Spec.residue ns courier d b) in *. set (x := Spec.share d b n) in *.
      replace ((x + r) * b - d * n) with ((x * b - d * n) + r * b) by ring. nia.
    + rewrite list_lookup_alter_ne by done. rewrite Es. intros [= <-]. split; [nia|done].
Qed.

Lemma courier_allocate_error :
  0 < d → b = zsum ns + courier →
  2 * Z.abs ((Spec.allocate ns courier d b).2 * b - d * courier) ≤ (Z.of_nat (length ns) + 2) * b.
Proof.
  intros Hd0 Eb. assert (0 < b) as Hb0 by lia. pose proof (residue_error Hb0 Eb) as Hr.
  pose proof (share_error courier Hb0) as Hs. unfold Spec.allocate.
  destruct (Z.leb_spec d 0), (Z.leb_spec b 0); [lia..|]. cbn [orb].
  destruct (Z.ltb_spec 0 courier) as [Hc0|]; cbn [snd].
  - unfold Spec.courier_share. destruct (Z.ltb_spec 0 courier); [|lia].
    set (r := Spec.residue ns courier d b) in *. set (x := Spec.share d b courier) in *.
    replace ((x + r) * b - d * courier) with ((x * b - d * courier) + r * b) by ring. nia.
  - replace courier with 0 by lia. nia.
Qed.
End Allocation.

(** ** The tax loop *)

Definition line_taxes (items : list PricingItem) (ns als : list Z) : list Z :=
  zip_with (λ i na, Spec.times_rate (na.1 - na.2) (pi_tax_rate i)) items (zip ns als).

Definition LB : Z := 1003 * AMT.

Lemma price_line_spec (idx : Z) (i : PricingItem) (n a : Z) :
  wf_item i → 0 ≤ n ≤ AMT → Z.abs a ≤ 1002 * AMT →
  let t := Spec.times_rate (n - a) (pi_tax_rate i) in
  price_line idx i (sar n) (sar a) =
    Ok (mk_PricingLine (if pi_position i =? 0 then idx + 1 else pi_position i)
          (pi_title i) (pi_description i) (pi_unit_price_amount i) (pi_quantity i) (pi_tax_rate i)
          (sar n) (sar a) (sar (n - a)) (sar t) (sar (n - a + t))) ∧ Z.abs t ≤ LB.
Proof.
  intros (Hu & _ & Hr) Hn Ha t. unfold LB, price_line in *.
  pose proof (times_rate_abs (n - a) _ Hr) as Ht. fold t in Ht. unfold AMT in *.
  rewrite dsub_sar by (unfold small; lia).
  rewrite times_rate_quantize by (done || lia). fold t. cbn [mbind res_bind].
  apply wf_amount_sar in Hu as [Eu Hu]. rewrite Eu, quantize_money_sar by (unfold small, AMT in *; lia).
  cbn [mbind res_bind]. rewrite dadd_sar by (unfold small; lia). split; [done|lia].
Qed.

Lemma price_lines_spec (items : list PricingItem) (idx t0 : Z) (ns als : list Z) :
  Forall wf_item items → length ns = length items → length als = length items →
  Forall (λ n, 0 ≤ n ≤ AMT) ns → Forall (λ a, Z.abs a ≤ 1002 * AMT) als →
  Z.abs t0 + Z.of_nat (length items) * LB ≤ 10 ^ 20 →
  let ts := line_taxes items ns als in
  price_lines idx (sar t0) items (sar <$> ns) (sar <$> als)
    = Ok (Spec.lines idx items ns als ts, sar (t0 + zsum ts)) ∧
  Forall (λ t, Z.abs t ≤ LB) ts ∧ length ts = length items.
Proof.
  revert idx t0 ns als. induction items as [|i items IH]; intros idx t0 [|n ns] [|a als];
    cbn [length]; try done.
  { intros. cbn. rewrite Z.add_0_r. split; [done|]. split; [constructor|done]. }
  intros Hi Hln Hla Hn Ha Hb. apply Forall_cons_1 in Hi as [Hi His].
  apply Forall_cons_1 in Hn as [Hn Hns]. apply Forall_cons_1 in Ha as [Ha Has].
  destruct (price_line_spec idx i n a Hi Hn Ha) as [E Ht].
  set (t := Spec.times_rate (n - a) (pi_tax_rate i)) in *.
  change (line_taxes (i :: items) (n :: ns) (a :: als)) with (t :: line_taxes items ns als).
  rewrite !fmap_cons. cbn [price_lines]. rewrite E. cbn [mbind res_bind pl_line_tax_amount].
  rewrite dadd_sar by (unfold small, LB, AMT in *; lia).
  destruct (IH (idx + 1) (t0 + t) ns als) as (E' & Hts & Hl); [done|lia|lia|done|done|lia|].
  rewrite E'. cbn [mbind res_bind fst snd Spec.lines zsum length]. split; [|split].
  - do 3 f_equal. lia.
  - by constructor.
  - by rewrite Hl.
Qed.

Lemma lines_totals (items : list PricingItem) (idx : Z) (ns als ts : list Z) :
  length ns = length items → length als = length items → length ts = length items →
  ∃ zs, pl_line_total_amount <$> Spec.lines idx items ns als ts = sar <$> zs ∧
    length zs = length items ∧ zsum zs = zsum ns - zsum als + zsum ts ∧
    (∀ B, Forall (λ n, 0 ≤ n ≤ AMT) ns → Forall (λ a, Z.abs a ≤ 1002 * AMT) als →
          Forall (λ t, Z.abs t ≤ LB) ts → 2 * LB ≤ B → Forall (λ z, Z.abs z ≤ B) zs).
Proof.
  revert idx ns als ts. induction items as [|i items IH]; intros idx [|n ns] [|a als] [|t ts];
    cbn [length]; try done.
  { intros. exists []. split; [done|]. split; [done|]. split; [done|]. intros; constructor. }
  intros H1 H2 H3. destruct (IH (idx + 1) ns als ts) as (zs & E & Hl & Hz & Hb); [lia..|].
  exists (n - a + t :: zs). cbn [Spec.lines length zsum].
  rewrite !fmap_cons, E. split; [done|]. split; [by rewrite Hl|]. split; [lia|].
  intros B Hn Ha Ht HB. apply Forall_cons_1 in Hn as [Hn ?]. apply Forall_cons_1 in Ha as [Ha ?].
  apply Forall_cons_1 in Ht as [Ht ?]. constructor; [unfold LB in *; lia|]. by apply Hb.
Qed.

(** ** The whole invoice *)

Record price_bounds (k : nat) (p : Spec.price) : Prop := {
  pb_nets_length : length (Spec.nets p) = k;
  pb_allocs_length : length (Spec.allocs p) = k;
  pb_taxes_length : length (Spec.taxes p) = k;
  pb_nets : Forall (λ n, 0 ≤ n ≤ AMT) (Spec.nets p);
  pb_allocs : Forall (λ a, Z.abs a ≤ 1002 * AMT) (Spec.allocs p);
  pb_courier_alloc : Z.abs (Spec.courier_alloc p) ≤ 1002 * AMT;
  pb_taxes : Forall (λ t, Z.abs t ≤ LB) (Spec.taxes p);
  pb_fee : 0 ≤ Spec.service_fee p < AMT;
  pb_discount : 0 ≤ Spec.discounted p ≤ Spec.base p;
  pb_alloc_sum : zsum (Spec.allocs p) + Spec.courier_alloc p = Spec.discounted p;
  pb_courier_tax : Z.abs (Spec.courier_tax p) ≤ LB;
  pb_service_tax : 0 ≤ Spec.service_tax p ≤ Spec.service_fee p;
}.

Section Totals.
Context (items : list PricingItem) (courier_fee : Z) (promo : option PricingPromo) (cfg : PricingConfig).
Context (W : wf_inputs items courier_fee promo cfg).
Let p := Spec.price_of items courier_fee promo cfg.
Let b := Spec.base p.

Lemma net_nonneg : Forall (λ n, 0 ≤ n) (Spec.net <$> items).
Proof.
  apply Forall_fmap. eapply Forall_impl; [apply (wf_items _ _ _ _ W)|]. cbn.
  intros i (Hu & Hq & _). apply wf_amount_sar in Hu as [_ Hu]. unfold Spec.net. nia.
Qed.

Lemma zsum_elem_le (l : list Z) (n : Z) : Forall (λ n, 0 ≤ n) l → n ∈ l → n ≤ zsum l.
Proof.
  induction 1 as [|x l Hx Hl IH]; intros Hn; [by apply not_elem_of_nil in Hn|]. cbn.
  assert (0 ≤ zsum l) by (clear -Hl; induction Hl; cbn; lia).
  apply elem_of_cons in Hn as [->|Hn]; [lia|]. specialize (IH Hn). lia.
Qed.

Lemma base_range : 0 ≤ b < AMT ∧ 0 ≤ zsum (Spec.net <$> items) ∧ 0 ≤ courier_fee.
Proof.
  pose proof net_nonneg as Hn. pose proof (wf_fee _ _ _ _ W). pose proof (wf_base _ _ _ _ W).
  assert (0 ≤ zsum (Spec.net <$> items)) by (clear -Hn; induction Hn; cbn; lia).
  unfold b, Spec.base, p, Spec.price_of. cbn. lia.
Qed.

Lemma nets_range : Forall (λ n, 0 ≤ n ≤ b) (Spec.net <$> items).
Proof.
  pose proof net_nonneg as Hn. pose proof base_range as (Hb & Hs & Hc).
  apply Forall_forall. intros n Hin. pose proof (zsum_elem_le _ _ Hn Hin).
  pose proof (proj1 (Forall_forall _ _) Hn n Hin). cbn in *.
  unfold b, Spec.base, p, Spec.price_of in *. cbn in *. lia.
Qed.

Lemma line_nets_spec :
  res_map (λ i, quantize_money (dmul (pi_unit_price_amount i) (dint (pi_quantity i)))) items
  = Ok (sar <$> (Spec.net <$> items)).
Proof.
  apply res_map_ok. rewrite <- list_fmap_compose. apply Forall2_fmap_r, Forall_Forall2_diag.
  apply Forall_forall. intros i Hi. cbn.
  destruct (proj1 (Forall_forall _ _) (wf_items _ _ _ _ W) i Hi) as (Hu & Hq & _).
  pose proof (proj1 (Forall_forall _ _) nets_range (Spec.net i)) as Hr.
  cbn in Hr. specialize (Hr ltac:(apply list_elem_of_fmap; eauto)).
  pose proof base_range as [Hb _]. apply wf_amount_sar in Hu as [Eu Hu].
  unfold Spec.net in *. rewrite Eu. unfold AMT in *.
  change (dmul _ (dint _)) with
    (dmul (Dec (halalas (pi_unit_price_amount i)) (-2)) (Dec (pi_quantity i) 0)).
  rewrite dmul_exact by (unfold small; lia).
  change (Dec _ (-2 + 0)) with (sar (halalas (pi_unit_price_amount i) * pi_quantity i)).
  rewrite quantize_money_sar by (unfold small; lia). done.
Qed.

(** Every leg of the reference price is bounded, and the allocations sum to the
    discount. *)
Lemma price_legs : price_bounds (length items) p.
Proof.
  pose proof base_range as (Hb & Hs & Hc). pose proof nets_range as Hnr.
  pose proof (wf_count _ _ _ _ W) as Hlen. pose proof (wf_cfg _ _ _ _ W) as Hcfg.
  destruct (compute_service_fee_spec cfg b Hcfg ltac:(lia)) as [_ Hfee].
  destruct (compute_discount_spec promo b (wf_pr _ _ _ _ W) ltac:(lia)) as [_ Hdisc].
  destruct Hcfg as (_ & Hvat & _). set (ns := Spec.net <$> items) in *.
  assert (length ns = length items) as Hln by apply length_fmap.
  assert (b = zsum ns + courier_fee) as Eb by done.
  assert (Forall (λ n, 0 ≤ n ≤ AMT) ns) as Hna.
  { eapply Forall_impl; [exact Hnr|]. cbn. lia. }
  destruct (allocate_bound ns courier_fee (Spec.discount b promo) b Hnr) as [Ha1 Ha2]; [lia..|].
  pose proof (allocate_length ns courier_fee (Spec.discount b promo) b) as Hla.
  destruct (price_lines_spec items 0 0 ns (Spec.allocate ns courier_fee (Spec.discount b promo) b).1
              (wf_items _ _ _ _ W) Hln ltac:(lia) Hna Ha1) as (_ & Hts & Hlt);
    [unfold LB, AMT; lia|].
  constructor; cbn [p Spec.price_of Spec.nets Spec.service_fee Spec.discounted Spec.allocs
    Spec.courier_alloc Spec.taxes Spec.courier_tax Spec.service_tax Spec.courier]; try done.
  - etransitivity; [exact Hla|done].
  - apply (allocate_sum ns courier_fee (Spec.discount b promo) b); done || lia.
  - etransitivity; [by apply times_rate_abs|].
    fold ns. rewrite <- Eb. unfold LB, AMT in *. lia.
  - apply (times_rate_nonneg (Spec.fee cfg b) _ Hvat). lia.
Qed.

Lemma zsum_abs_le (l : list Z) (B : Z) (k : nat) :
  0 ≤ B → length l = k → Forall (λ z, Z.abs z ≤ B) l → Z.abs (zsum l) ≤ Z.of_nat k * B.
Proof.
  intros HB <- Hl. pose proof (zsum_by_bound id B l HB) as Hz.
  unfold zsum_by in Hz. rewrite list_fmap_id in Hz. apply Hz.
  intros x Hx. by apply (proj1 (Forall_forall _ _) Hl).
Qed.

(** The decimal pipeline computes the reference price; the two internal
    consistency checks of step 10 cannot fire. *)
Lemma totals_spec :
  calculate_invoice_totals items (sar courier_fee) promo cfg =
  if (Spec.total p <=? 0) || (halalas (max_invoice_amount cfg) <? Spec.total p)
  then Raise PricingIntegrityError
  else Ok (Spec.result items p).
Proof.
  pose proof base_range as (Hb & Hs & Hc). pose proof nets_range as Hnr.
  pose proof (wf_count _ _ _ _ W) as Hlen. pose proof (wf_cfg _ _ _ _ W) as Hcfg.
  pose proof price_legs as [Hln Hla Hlt Hna Ha1 Ha2 Hts Hfee Hdisc Hsum Hct Hst].
  destruct (compute_service_fee_spec cfg b Hcfg ltac:(lia)) as [Efee _].
  destruct (compute_discount_spec promo b (wf_pr _ _ _ _ W) ltac:(lia)) as [Edisc _].
  destruct Hcfg as (_ & Hvat & _ & _ & Hmax). apply wf_amount_sar in Hmax as [Emax Hmax].
  change (Spec.net <$> items) with (Spec.nets p) in *.
  assert (b = zsum (Spec.nets p) + courier_fee) as Eb by done.
  destruct (lines_totals items 0 _ _ _ Hln Hla Hlt) as (zs & Ezs & Hlz & Hzs & Hzb).
  specialize (Hzb (2 * LB) Hna Ha1 Hts ltac:(lia)).
  pose proof (zsum_abs_le _ LB _ ltac:(unfold LB, AMT; lia) Hlt Hts) as Htsum.
  destruct (price_lines_spec items 0 0 _ _ (wf_items _ _ _ _ W) Hln Hla Hna Ha1) as (Elines & _);
    [unfold LB, AMT; lia|].
  unfold calculate_invoice_totals. rewrite line_nets_spec by done. cbn [mbind res_bind].
  change (Spec.net <$> items) with (Spec.nets p).
  rewrite sar_0, (dsum_sar _ 0 AMT);
    [|unfold AMT; lia|rewrite Hln; unfold AMT in *; nia|eapply Forall_impl; [exact Hna|]; cbn; lia].
  rewrite Z.add_0_l. unfold LB, AMT in *.
  rewrite quantize_money_sar by (unfold small; lia). cbn [mbind res_bind].
  rewrite dadd_sar, <- Eb by (unfold small; lia). rewrite Efee, Edisc. cbn [mbind res_bind].
  rewrite allocate_discount_spec by (unfold AMT; done || lia).
  change (Spec.allocate (Spec.nets p) courier_fee (Spec.discount b promo) b).1 with (Spec.allocs p).
  change (Spec.allocate (Spec.nets p) courier_fee (Spec.discount b promo) b).2 with (Spec.courier_alloc p).
  change (Spec.discount b promo) with (Spec.discounted p).
  change (Spec.fee cfg b) with (Spec.service_fee p).
  cbn [mbind res_bind fst snd]. rewrite Elines. cbn [mbind res_bind fst snd].
  rewrite dsub_sar by (unfold small; lia).
  rewrite !times_rate_quantize by (done || lia).
  change (Spec.times_rate (courier_fee - Spec.courier_alloc p) (default_vat_rate cfg)) with (Spec.courier_tax p).
  change (Spec.times_rate (Spec.service_fee p) (default_vat_rate cfg)) with (Spec.service_tax p).
  change (line_taxes items (Spec.nets p) (Spec.allocs p)) with (Spec.taxes p) in *.
  cbn [mbind res_bind].
  rewrite Ezs, (dsum_sar zs 0 (2 * (1003 * 10 ^ 12))) by (done || (rewrite Hlz; lia)).
  rewrite (dsum_sar (Spec.allocs p) 0 (1002 * 10 ^ 12)) by (done || (rewrite Hla; lia)).
  rewrite !Z.add_0_l.
  repeat first [rewrite dadd_sar by (unfold small; lia) | rewrite dsub_sar by (unfold small; lia)].
  rewrite Emax, !deqb_sar, !dleb_sar, !dltb_sar.
  rewrite !(proj2 (Z.eqb_eq _ _)) by lia. cbn [negb raise_if mbind res_bind].
  change (b + Spec.service_fee p - Spec.discounted p + _) with (Spec.total p).
  change (halalas (sar (halalas (max_invoice_amount cfg)))) with (halalas (max_invoice_amount cfg)).
  by destruct (Spec.total p <=? 0), (halalas (max_invoice_amount cfg) <? Spec.total p).
Qed.
End Totals.

(** ** What a returned price satisfies *)

(** One line: the arithmetic of [chk_item_line_math]. *)
Definition line_reconciles (l : PricingLine) : Prop :=
  halalas (pl_line_net_amount l) = halalas (pl_unit_price_amount l) * pl_quantity l ∧
  halalas (pl_line_taxable_amount l) = halalas (pl_line_net_amount l) - halalas (pl_line_discount_amount l) ∧
  halalas (pl_line_total_amount l) = halalas (pl_line_taxable_amount l) + halalas (pl_line_tax_amount l).

(** The whole result: the parts sum to the legs, the legs to the total. *)
Record reconciles (r : PricingResult) : Prop := {
  rc_lines : Forall line_reconciles (pr_lines r);
  rc_items_net : zsum_by (halalas ∘ pl_line_net_amount) (pr_lines r) = halalas (pr_items_net_amount r);
  rc_discount :
    zsum_by (halalas ∘ pl_line_discount_amount) (pr_lines r) + halalas (pr_courier_fee_discount_amount r)
    = halalas (pr_discount_amount r);
  rc_tax :
    zsum_by (halalas ∘ pl_line_tax_amount) (pr_lines r) + halalas (pr_courier_fee_tax_amount r)
    + halalas (pr_service_fee_tax_amount r) = halalas (pr_tax_amount r);
  rc_net_math :
    halalas (pr_net_after_discount_amount r) =
    halalas (pr_items_net_amount r) + halalas (pr_courier_fee_amount r)
    + halalas (pr_service_fee_amount r) - halalas (pr_discount_amount r);
  rc_total_math :
    halalas (pr_total_amount r) = halalas (pr_net_after_discount_amount r) + halalas (pr_tax_amount r);
  rc_discount_range :
    0 ≤ halalas (pr_discount_amount r) ≤ halalas (pr_items_net_amount r) + halalas (pr_courier_fee_amount r);
}.

Lemma lines_columns (items : list PricingItem) (idx : Z) (ns als ts : list Z) :
  length ns = length items → length als = length items → length ts = length items →
  let ls := Spec.lines idx items ns als ts in
  zsum_by (halalas ∘ pl_line_net_amount) ls = zsum ns ∧
  zsum_by (halalas ∘ pl_line_discount_amount) ls = zsum als ∧
  zsum_by (halalas ∘ pl_line_tax_amount) ls = zsum ts ∧
  (ns = Spec.net <$> items → Forall line_reconciles ls).
Proof.
  revert idx ns als ts. induction items as [|i items IH]; intros idx [|n ns] [|a als] [|t ts];
    cbn [length]; try done.
  intros H1 H2 H3. destruct (IH (idx + 1) ns als ts) as (E1 & E2 & E3 & E4); [lia..|].
  cbn [Spec.lines]. rewrite !zsum_by_cons, E1, E2, E3. cbn. do 3 (split; [done|]).
  intros [= -> ->]. constructor; [|by apply E4]. split; [done|]. split; done.
Qed.

Lemma result_reconciles (items : list PricingItem) (courier_fee : Z)
    (promo : option PricingPromo) (cfg : PricingConfig) :
  wf_inputs items courier_fee promo cfg →
  reconciles (Spec.result items (Spec.price_of items courier_fee promo cfg)).
Proof.
  intros W. pose proof (price_legs _ _ _ _ W) as [Hln Hla Hlt _ _ _ _ _ Hd Hsum _ _].
  set (p := Spec.price_of items courier_fee promo cfg) in *.
  destruct (lines_columns items 0 _ _ _ Hln Hla Hlt) as (E1 & E2 & E3 & E4).
  constructor; cbn [pr_lines pr_items_net_amount pr_courier_fee_discount_amount pr_discount_amount
    pr_courier_fee_tax_amount pr_service_fee_tax_amount pr_tax_amount pr_net_after_discount_amount
    pr_courier_fee_amount pr_service_fee_amount pr_total_amount Spec.result];
    rewrite ?E1, ?E2, ?E3; unfold halalas, sar; cbn [coef]; try done.
  - by apply E4.
  - unfold Spec.tax. lia.
Qed.

(** [Decimal(str)] literals of the examples: SAR amounts and rates. *)
Definition cfg0 : PricingConfig :=
  mk_PricingConfig (Dec 5 (-2)) (sar 500) (sar 50000) (Dec 15 (-2)) (sar 5000000).

Definition items0 : list PricingItem :=
  [ mk_PricingItem "bouquet" (sar 20000) 1 (Dec 1500 (-4)) None 0;
    mk_PricingItem "card" (sar 5000) 2 (Dec 1500 (-4)) None 0 ].

Definition promo0 : PricingPromo :=
  mk_PricingPromo PERCENT (Some (Dec 1000 (-2))) None (Some (sar 10000)) (sar 0).

Lemma wf_inputs0 : wf_inputs items0 30000 (Some promo0) cfg0.
Proof.
  constructor; [|cbn; lia|lia|vm_compute; reflexivity| |].
  - do 2 (apply Forall_cons_2; [repeat split; cbn; unfold AMT; lia|]). apply Forall_nil_2.
  - split; [exists (Dec 1000 (-2))|]; cbn; repeat split; cbn; unfold AMT; lia.
  - repeat split; cbn; unfold AMT; lia.
Qed.

(** [C10] [calculate_invoice_totals] computes exactly the reference price on integer
    halalas, for every well-formed input: the result carries the reference legs, and
    the only error is a total that is not positive or exceeds the maximum.  The
    internal consistency checks of step 10 never fire. *)
Theorem calculate_invoice_totals_refines (items : list PricingItem) (courier_fee : Z)
    (promo : option PricingPromo) (cfg : PricingConfig) :
  wf_inputs items courier_fee promo cfg →
  calculate_invoice_totals items (sar courier_fee) promo cfg =
  let p := Spec.price_of items courier_fee promo cfg in
  if (Spec.total p <=? 0) || (halalas (max_invoice_amount cfg) <? Spec.total p)
  then Raise PricingIntegrityError
  else Ok (Spec.result items p).
Proof. apply totals_spec. Qed.

Lemma calculate_invoice_totals_refines_witness :
  calculate_invoice_totals items0 (sar 30000) (Some promo0) cfg0 =
  Ok (Spec.result items0 (Spec.price_of items0 30000 (Some promo0) cfg0)) ∧
  Spec.total (Spec.price_of items0 30000 (Some promo0) cfg0) = 65550.
Proof.
  split; [|vm_compute; reflexivity].
  rewrite (calculate_invoice_totals_refines items0 30000 (Some promo0) cfg0 wf_inputs0).
  vm_compute. reflexivity.
Defined.

(** [C11] Every price the engine returns adds up to the halala: lines sum to the items
    net, line and courier allocations to the discount, line, courier and service tax
    to the tax, and the legs to the total; the discount never exceeds the base it is
    applied to, and the total is positive and within the configured maximum.  These
    are the arithmetic CHECK constraints of [invoices] and [invoice_items]. *)
Theorem priced_invoice_reconciles (items : list PricingItem) (courier_fee : Z)
    (promo : option PricingPromo) (cfg : PricingConfig) (r : PricingResult) :
  wf_inputs items courier_fee promo cfg →
  calculate_invoice_totals items (sar courier_fee) promo cfg = Ok r →
  reconciles r ∧ 0 < halalas (pr_total_amount r) ≤ halalas (max_invoice_amount cfg).
Proof.
  intros W. rewrite totals_spec by done.
  destruct (Z.leb_spec (Spec.total (Spec.price_of items courier_fee promo cfg)) 0); [done|].
  destruct (Z.ltb_spec (halalas (max_invoice_amount cfg))
              (Spec.total (Spec.price_of items courier_fee promo cfg))); [done|].
  cbn [orb]. intros [= <-]. split; [by apply result_reconciles|]. done.
Qed.

Lemma priced_invoice_reconciles_witness :
  ∃ r, calculate_invoice_totals items0 (sar 30000) (Some promo0) cfg0 = Ok r ∧
       (reconciles r ∧ 0 < halalas (pr_total_amount r) ≤ halalas (max_invoice_amount cfg0)).
Proof.
  eexists. split; [vm_compute; reflexivity|].
  apply (priced_invoice_reconciles items0 30000 (Some promo0) cfg0); [apply wf_inputs0|].
  vm_compute; reflexivity.
Defined.

(** The discount is allocated exactly and fairly: the allocations sum to the
    discount; every line that does not absorb the residue is within half a halala of
    its exact pro-rata share, and no component is off by more than
    (number of lines + 2) / 2 halalas. *)
Theorem allocate_discount_exact (ns : list Z) (courier d : Z) :
  let b := zsum ns + courier in
  Forall (λ n, 0 ≤ n ≤ b) ns → Z.of_nat (length ns) ≤ 1000 → 0 ≤ courier ≤ b → 0 < d ≤ b → b ≤ AMT →
  ∃ als ca,
    allocate_discount (sar <$> ns) (sar courier) (sar d) (sar b) = Ok (sar <$> als, sar ca) ∧
    zsum als + ca = d ∧
    2 * Z.abs (ca * b - d * courier) ≤ (Z.of_nat (length ns) + 2) * b ∧
    ∀ i n a, ns !! i = Some n → als !! i = Some a →
      2 * Z.abs (a * b - d * n) ≤ (Z.of_nat (length ns) + 2) * b ∧
      (0 < courier ∨ i ≠ Spec.last_pos_from 0 0 ns → 2 * Z.abs (a * b - d * n) ≤ b).
Proof.
  intros b Hns Hl Hc Hd Hb. exists (Spec.allocate ns courier d b).1, (Spec.allocate ns courier d b).2.
  split; [apply allocate_discount_spec; done || lia|].
  split; [apply allocate_sum; done || lia|].
  split; [apply courier_allocate_error; done || lia|].
  intros i n a Hn Ha. apply (allocate_error ns courier d b Hl); done || lia.
Qed.

Lemma allocate_discount_exact_witness :
  ∃ als ca,
    allocate_discount (sar <$> [333; 333; 334]) (sar 0) (sar 100) (sar 1000) = Ok (sar <$> als, sar ca) ∧
    zsum als + ca = 100 ∧ 2 * Z.abs (ca * 1000 - 100 * 0) ≤ 5000 ∧
    ∀ i n a, [333; 333; 334] !! i = Some n → als !! i = Some a →
      2 * Z.abs (a * 1000 - 100 * n) ≤ 5000 ∧
      (0 < 0 ∨ i ≠ 2%nat → 2 * Z.abs (a * 1000 - 100 * n) ≤ 1000).
Proof.
  apply (allocate_discount_exact [333; 333; 334] 0 100); cbn; unfold AMT; try lia.
  repeat constructor; lia.
Defined.

(** The residue can outgrow the component that absorbs it: on twenty one-halala
    lines and a 50% promo each share rounds up to a halala, and the last line
    is allocated a discount of -9 halalas, so that its taxable amount (10 halalas)
    exceeds its net (1 halala). *)
Theorem allocation_can_be_negative :
  let items := replicate 20 (mk_PricingItem "sticker" (sar 1) 1 (Dec 1500 (-4)) None 0) in
  let promo := mk_PricingPromo PERCENT (Some (Dec 5000 (-2))) None None (sar 0) in
  ∃ r l, calculate_invoice_totals items (sar 0) (Some promo) cfg0 = Ok r ∧
    last (pr_lines r) = Some l ∧ pl_line_net_amount l = sar 1 ∧
    pl_line_discount_amount l = sar (-9) ∧ pl_line_taxable_amount l = sar 10.
Proof.
  intros items promo.
  destruct (calculate_invoice_totals items (sar 0) (Some promo) cfg0) as [r|] eqn:E;
    vm_compute in E; [|done]. injection E as <-.
  eexists _, _. split; [reflexivity|]. split; [reflexivity|]. done.
Qed.

(** ** Settlement *)

Lemma compute_settlement_spec (items_net courier_fee tax total : Z) (rate : dec) :
  wf_rate rate → 0 ≤ items_net < AMT → 0 ≤ courier_fee < AMT → 0 ≤ tax < AMT → 0 ≤ total < AMT →
  let base := items_net + courier_fee in
  let commission := Spec.times_rate base rate in
  0 ≤ commission ≤ base ∧
  compute_settlement (sar items_net) (sar courier_fee) (sar tax) (sar total) rate =
  Ok (mk_Settlement (sar commission) (sar (base - commission)) (sar tax)
        (sar (total - tax - (base - commission)))).
Proof.
  intros Hr Hi Hc Ht Htot base commission. unfold AMT in *.
  pose proof (times_rate_nonneg base rate Hr ltac:(lia)) as Hcm. fold commission in Hcm.
  split; [done|]. unfold compute_settlement.
  rewrite dadd_sar by (unfold small; lia). fold base.
  rewrite (quantize_money_sar base) by (unfold small; lia). cbn [mbind res_bind].
  rewrite times_rate_quantize by (done || lia). fold commission. cbn [mbind res_bind].
  rewrite dsub_sar by (unfold small; lia).
  rewrite (quantize_money_sar (base - commission)) by (unfold small; lia). cbn [mbind res_bind].
  rewrite (quantize_money_sar tax), (quantize_money_sar total) by (unfold small; lia). cbn [mbind res_bind].
  rewrite !dsub_sar by (unfold small; lia).
  rewrite quantize_money_sar by (unfold small; lia). done.
Qed.

(** The settlement of a paid invoice conserves its total and never charges a
    promo to the courier: payout, tax and revenue sum to the total; the payout is
    the pre-discount base less the commission, whatever the discount; and the
    revenue is service fee + commission - discount. *)
Theorem settlement_conserves (items_net courier_fee service_fee discount tax : Z) (rate : dec) :
  let total := items_net + courier_fee + service_fee - discount + tax in
  wf_rate rate → 0 ≤ items_net < AMT → 0 ≤ courier_fee < AMT → 0 ≤ tax < AMT → 0 ≤ total < AMT →
  ∃ c p r,
    compute_settlement (sar items_net) (sar courier_fee) (sar tax) (sar total) rate
      = Ok (mk_Settlement (sar c) (sar p) (sar tax) (sar r)) ∧
    p + tax + r = total ∧ r = service_fee + c - discount ∧
    p = items_net + courier_fee - c ∧ 0 ≤ p ≤ items_net + courier_fee ∧
    2 * Z.abs (c * 10 ^ (- dexp rate) - (items_net + courier_fee) * coef rate) ≤ 10 ^ (- dexp rate).
Proof.
  intros total Hr Hi Hc Ht Htot.
  destruct (compute_settlement_spec items_net courier_fee tax total rate) as [Hcm E]; try done.
  eexists _, _, _. split; [exact E|]. do 4 (split; [lia|]).
  apply rhu_error. apply (wf_rate_pow rate Hr).
Qed.

Lemma settlement_conserves_witness :
  ∃ c p r,
    compute_settlement (sar 30000) (sar 30000) (sar 8550) (sar 65550) (Dec 10 (-2))
      = Ok (mk_Settlement (sar c) (sar p) (sar 8550) (sar r)) ∧
    p + 8550 + r = 65550 ∧ r = 3000 + c - 6000 ∧
    p = 30000 + 30000 - c ∧ 0 ≤ p ≤ 30000 + 30000 ∧
    2 * Z.abs (c * 10 ^ 2 - (30000 + 30000) * 10) ≤ 10 ^ 2.
Proof.
  apply (settlement_conserves 30000 30000 3000 6000 8550 (Dec 10 (-2)));
    unfold wf_rate, AMT; cbn; lia.
Defined.
