(* ===== verification/Enums.v ===== *)
(** * Domain enumerations ([app/models/enums.py])

    One module per [StrEnum] class, so that a member reads as in the source
    ([OrderStatus.NEW]); the member's string value is its own name and is what
    the native PostgreSQL enum stores. *)

From stdpp Require Import base decidable.
From S2P Require Import Prelude.

Module UserRole.
Inductive user_role := CUSTOMER | COURIER | ADMIN.
#[global] Instance user_role_eq_dec : EqDecision user_role.
Proof. solve_decision. Defined.
End UserRole.

Module UserStatus.
Inductive user_status := ACTIVE | BANNED | PENDING_VERIFICATION.
#[global] Instance user_status_eq_dec : EqDecision user_status.
Proof. solve_decision. Defined.
End UserStatus.

Module OrderStatus.
Inductive order_status := NEW | ASSIGNED | WAITING_PAYMENT | IN_PROGRESS | DELIVERED | COMPLETED | CANCELLED | DISPUTED | REFUNDED.
#[global] Instance order_status_eq_dec : EqDecision order_status.
Proof. solve_decision. Defined.
End OrderStatus.

Module InvoiceStatus.
Inductive invoice_status := DRAFT | ISSUED | PAID | CANCELLED | EXPIRED | REFUNDED.
#[global] Instance invoice_status_eq_dec : EqDecision invoice_status.
Proof. solve_decision. Defined.
End InvoiceStatus.

Module PaymentPurpose.
Inductive payment_purpose := ORDER_INVOICE | WALLET_TOPUP.
#[global] Instance payment_purpose_eq_dec : EqDecision payment_purpose.
Proof. solve_decision. Defined.
End PaymentPurpose.

Module PaymentIntentStatus.
Inductive payment_intent_status := NEW | PAID | FAILED | EXPIRED | CANCELLED.
#[global] Instance payment_intent_status_eq_dec : EqDecision payment_intent_status.
Proof. solve_decision. Defined.
End PaymentIntentStatus.

Module PaymentMethod.
Inductive payment_method := WALLET_ONLY | GATEWAY_ONLY | SPLIT.
#[global] Instance payment_method_eq_dec : EqDecision payment_method.
Proof. solve_decision. Defined.
End PaymentMethod.

Module PromoDiscountType.
Inductive promo_discount_type := PERCENT | FIXED.
#[global] Instance promo_discount_type_eq_dec : EqDecision promo_discount_type.
Proof. solve_decision. Defined.
End PromoDiscountType.

Module PromoRedemptionStatus.
Inductive promo_redemption_status := RESERVED | CONSUMED | RELEASED.
#[global] Instance promo_redemption_status_eq_dec : EqDecision promo_redemption_status.
Proof. solve_decision. Defined.
End PromoRedemptionStatus.

Module MediaType.
Inductive media_type := CUSTOMER_REQUEST | DELIVERY_PROOF.
#[global] Instance media_type_eq_dec : EqDecision media_type.
Proof. solve_decision. Defined.
End MediaType.

Module MessageType.
Inductive message_type := TEXT | IMAGE | VIDEO | SYSTEM.
#[global] Instance message_type_eq_dec : EqDecision message_type.
Proof. solve_decision. Defined.
End MessageType.

Module WalletType.
Inductive wallet_type := CUSTOMER | COURIER | SYSTEM_ESCROW | SYSTEM_REVENUE | SYSTEM_GATEWAY | SYSTEM_TAX_PAYABLE.
#[global] Instance wallet_type_eq_dec : EqDecision wallet_type.
Proof. solve_decision. Defined.
End WalletType.

Module TransactionType.
Inductive transaction_type := TOPUP | WITHDRAWAL | ESCROW_HOLD | ESCROW_RELEASE | PAYMENT | REFUND | COMMISSION | SERVICE_FEE | TAX | PROMO_SUBSIDY.
#[global] Instance transaction_type_eq_dec : EqDecision transaction_type.
Proof. solve_decision. Defined.
End TransactionType.

Module TransactionStatus.
Inductive transaction_status := PENDING | SETTLED | REVERSED.
#[global] Instance transaction_status_eq_dec : EqDecision transaction_status.
Proof. solve_decision. Defined.
End TransactionStatus.

Module DeviceOs.
Inductive device_os := IOS | ANDROID.
#[global] Instance device_os_eq_dec : EqDecision device_os.
Proof. solve_decision. Defined.
End DeviceOs.

Module WithdrawalStatus.
Inductive withdrawal_status := REQUESTED | APPROVED | PAID | REJECTED.
#[global] Instance withdrawal_status_eq_dec : EqDecision withdrawal_status.
Proof. solve_decision. Defined.
End WithdrawalStatus.

Module DisputeStatus.
Inductive dispute_status := OPEN | RESOLVED_CUSTOMER | RESOLVED_COURIER | RESOLVED_SPLIT.
#[global] Instance dispute_status_eq_dec : EqDecision dispute_status.
Proof. solve_decision. Defined.
End DisputeStatus.

(** The types under their own names; the members stay qualified. *)
Abbreviation user_role := UserRole.user_role.
Abbreviation user_status := UserStatus.user_status.
Abbreviation order_status := OrderStatus.order_status.
Abbreviation invoice_status := InvoiceStatus.invoice_status.
Abbreviation payment_purpose := PaymentPurpose.payment_purpose.
Abbreviation payment_intent_status := PaymentIntentStatus.payment_intent_status.
Abbreviation payment_method := PaymentMethod.payment_method.
Abbreviation promo_discount_type := PromoDiscountType.promo_discount_type.
Abbreviation promo_redemption_status := PromoRedemptionStatus.promo_redemption_status.
Abbreviation media_type := MediaType.media_type.
Abbreviation message_type := MessageType.message_type.
Abbreviation wallet_type := WalletType.wallet_type.
Abbreviation transaction_type := TransactionType.transaction_type.
Abbreviation transaction_status := TransactionStatus.transaction_status.
Abbreviation device_os := DeviceOs.device_os.
Abbreviation withdrawal_status := WithdrawalStatus.withdrawal_status.
Abbreviation dispute_status := DisputeStatus.dispute_status.
