(* ===== verification/OrderState.v ===== *)
(** * The order state machine ([app/services/order_state.py])

    The transition table, the two functions that consult it, the step relation
    it induces, and what follows for every run of an order from [NEW]. *)

From Stdlib Require Import Lia.
From stdpp Require Import base list relations.
From S2P Require Import Prelude Errors Enums.

Import OrderStatus.

Definition TRANSITIONS (current : order_status) : list order_status :=
  match current with
  | NEW => [ASSIGNED; CANCELLED]
  | ASSIGNED => [WAITING_PAYMENT; CANCELLED]
  | WAITING_PAYMENT => [IN_PROGRESS; ASSIGNED; CANCELLED]
  | IN_PROGRESS => [DELIVERED; DISPUTED]
  | DELIVERED => [COMPLETED; DISPUTED]
  | DISPUTED => [COMPLETED; REFUNDED]
  | COMPLETED => []
  | CANCELLED => []
  | REFUNDED => []
  end.

Definition can_transition (current target : order_status) : bool :=
  bool_decide (target ∈ TRANSITIONS current).

Definition assert_transition (current target : order_status) : res () :=
  raise_if (negb (can_transition current target)) InvalidStateTransitionError.

(** One legal move of an order. *)
Definition order_step (a b : order_status) : Prop := can_transition a b = true.

(** A run: the statuses an order goes through, each move legal. *)
Inductive order_run : list order_status → Prop :=
  | run_new : order_run [NEW]
  | run_step h a b : order_run (h ++ [a]) → order_step a b → order_run ((h ++ [a]) ++ [b]).

(** The statuses in which the invoice total sits in escrow. *)
Definition in_escrow (s : order_status) : bool :=
  match s with IN_PROGRESS | DELIVERED | DISPUTED => true | _ => false end.

Definition terminal (s : order_status) : bool :=
  match s with COMPLETED | CANCELLED | REFUNDED => true | _ => false end.

(** Settled: the escrow of the order has been paid out or returned. *)
Definition settled (s : order_status) : bool :=
  match s with COMPLETED | REFUNDED => true | _ => false end.

Lemma assert_transition_ok (a b : order_status) (u : ()) :
  assert_transition a b = Ok u ↔ order_step a b.
Proof. unfold assert_transition, order_step. rewrite raise_if_ok. by destruct (can_transition a b). Qed.

Lemma assert_transition_step (a b : order_status) :
  order_step a b → assert_transition a b = Ok ().
Proof. intros H. by apply assert_transition_ok. Qed.

Lemma step_into_settled (a b : order_status) :
  order_step a b → settled b = true → in_escrow a = true ∧ a ≠ IN_PROGRESS.
Proof. by destruct a, b. Qed.

Lemma step_into_escrow (a b : order_status) :
  order_step a b → in_escrow b = true → (a = WAITING_PAYMENT ∧ b = IN_PROGRESS) ∨ in_escrow a = true.
Proof. destruct a, b; try done; naive_solver. Qed.

Lemma terminal_no_step (a b : order_status) : terminal a = true → ¬ order_step a b.
Proof. by destruct a, b. Qed.

(** The table has no cycle other than re-issuing an invoice: the rank grows on
    every move but [WAITING_PAYMENT -> ASSIGNED]. *)
Definition rank (s : order_status) : nat :=
  match s with
  | NEW => 0 | ASSIGNED => 1 | WAITING_PAYMENT => 2 | IN_PROGRESS => 3
  | DELIVERED => 4 | DISPUTED => 5 | COMPLETED | CANCELLED | REFUNDED => 6
  end%nat.

Lemma order_step_rank (a b : order_status) :
  order_step a b → (rank a < rank b)%nat ∨ (a = WAITING_PAYMENT ∧ b = ASSIGNED).
Proof. destruct a, b; try done; cbn; intros _; first [left; lia|right; done]. Qed.

Lemma run_in_escrow (h : list order_status) :
  order_run h → ∀ h' s, h = h' ++ [s] →
  (in_escrow s = true ∨ settled s = true → IN_PROGRESS ∈ h) ∧
  (IN_PROGRESS ∈ h → in_escrow s = true ∨ settled s = true).
Proof.
  induction 1 as [|h a b Hr IH Hs]; intros h' s E.
  - symmetry in E. apply (app_eq_unit h') in E as [[-> [= ->]]|[_ ?]]; [|done].
    split; [naive_solver|]. intros Hin%list_elem_of_singleton. done.
  - apply app_inj_tail in E as [_ <-]. destruct (IH h a eq_refl) as [IH1 IH2]. split.
    + intros [Hb|Hb].
      * destruct (step_into_escrow a b Hs Hb) as [[_ ->]|Ha]; apply elem_of_app;
          [right; by apply list_elem_of_singleton|left; auto].
      * apply elem_of_app. left. apply IH1. left. by apply (step_into_settled a b).
    + intros [Hin|Hin%list_elem_of_singleton]%elem_of_app; [|subst; by left].
      destruct (IH2 Hin) as [Ha|Ha]; [by destruct a, b; auto|by destruct a, b].
Qed.

(** Escrow discipline of the state machine: along every run of legal transitions from
    [NEW], the order has been paid (it has been [IN_PROGRESS]) exactly when its
    last status holds the escrow ([IN_PROGRESS], [DELIVERED], [DISPUTED]) or has settled it ([COMPLETED],
    [REFUNDED]); in particular no run completes, refunds or disputes an unpaid
    order, and a paid order is never cancelled or re-assigned. *)
Theorem order_run_paid_iff (h : list order_status) (s : order_status) :
  order_run (h ++ [s]) →
  IN_PROGRESS ∈ h ++ [s] ↔ in_escrow s = true ∨ settled s = true.
Proof. intros Hr. destruct (run_in_escrow _ Hr h s eq_refl). tauto. Qed.

Lemma order_run_paid_iff_witness :
  IN_PROGRESS ∈ [NEW; ASSIGNED; WAITING_PAYMENT; ASSIGNED; WAITING_PAYMENT; IN_PROGRESS; DELIVERED] ++ [COMPLETED]
  ↔ in_escrow COMPLETED = true ∨ settled COMPLETED = true.
Proof.
  apply (order_run_paid_iff
    [NEW; ASSIGNED; WAITING_PAYMENT; ASSIGNED; WAITING_PAYMENT; IN_PROGRESS; DELIVERED] COMPLETED).
  apply (run_step [NEW; ASSIGNED; WAITING_PAYMENT; ASSIGNED; WAITING_PAYMENT; IN_PROGRESS] DELIVERED); [|done].
  apply (run_step [NEW; ASSIGNED; WAITING_PAYMENT; ASSIGNED; WAITING_PAYMENT] IN_PROGRESS); [|done].
  apply (run_step [NEW; ASSIGNED; WAITING_PAYMENT; ASSIGNED] WAITING_PAYMENT); [|done].
  apply (run_step [NEW; ASSIGNED; WAITING_PAYMENT] ASSIGNED); [|done].
  apply (run_step [NEW; ASSIGNED] WAITING_PAYMENT); [|done].
  apply (run_step [NEW] ASSIGNED); [|done].
  apply (run_step [] NEW); [apply run_new|done].
Defined.
