(* ===== verification/Tables.v ===== *)
(** * The tables ([app/models/tables.py], [app/models/base.py])

    One record per ORM class, with the columns of the table, and the CHECK
    constraints of its [__table_args__] as boolean functions named as in the
    source.  Conventions:
    - the primary key [id] is the key of the row in its table (Database.v), not
      a field; [courier_profiles] is keyed by [user_id];
    - [NUMERIC(12,2)] holds exactly the integers of halalas of absolute value below
      [10^12], so such a column is a [Z]; [numeric_12_2] is the conversion
      PostgreSQL applies when a Decimal is written, [sar] the Decimal read back;
      [NUMERIC(5,2)], [NUMERIC(6,4)] and [NUMERIC(2,1)] are integers of hundredths,
      ten-thousandths and tenths;
    - instants are seconds, dates are days since the epoch, both UTC;
    - [updated_at] is written by a trigger and read by no code: not modelled;
      [VARCHAR] lengths and foreign keys are not enforced on rows (Columns.v and Migrations.v have them). *)

From Stdlib Require Import ZArith Lia Ascii.
From stdpp Require Import base list gmap strings numbers option.
From S2P Require Import Prelude Errors PyDecimal Money Enums.
Open Scope Z_scope.

Abbreviation uuid := N (only parsing).
Abbreviation money := Z (only parsing).
Abbreviation instant := Z (only parsing).
Abbreviation day := Z (only parsing).
Abbreviation tenths := Z (only parsing).
Abbreviation hundredths := Z (only parsing).
Abbreviation rate4 := Z (only parsing).

(** [Geometry(POINT, 4326)]: longitude first, in micro-degrees. *)
Record point := mk_point { lng : Z; lat : Z }.

#[export] Instance point_eq_dec : EqDecision point.
Proof. solve_decision. Defined.

(** ** Functional update of one field

    [r <| f := v |>] is the assignment [r.f = v].  The instances below are
    computed from the eta-expansion of the record. *)
Class Setter {R T : Type} (proj : R → T) := upd : T → R → R.
Arguments upd {R T} proj {_} v r.

Notation "r <| p := v |>" := (upd p v r) (at level 1, left associativity, p at level 1, v at level 200) : giftly_scope.

Ltac setter eta proj :=
  let v := fresh "v" in let r := fresh "r" in intros v r;
  let b := eval cbv beta delta [eta] in (eta r) in
  let f := eval pattern (proj r) in b in
  match f with ?g _ => let b' := eval cbv beta in (g v) in exact b' end.

Record RefreshToken := mk_RefreshToken {
  rt_user_id : uuid; rt_token_hash : string; rt_family_id : uuid; rt_expires_at : instant;
  rt_used_at : option instant; rt_revoked_at : option instant; rt_created_at : instant;
}.

Record User := mk_User {
  usr_phone : string; usr_email : option string; usr_full_name : option string;
  usr_date_of_birth : option day; usr_role : user_role; usr_status : user_status; usr_rating :
  tenths; usr_rating_count : Z; usr_deleted_at : option instant; usr_created_at : instant;
}.

Record CourierProfile := mk_CourierProfile {
  cp_passport_id_encrypted : option string; cp_national_id_encrypted : option string;
  cp_identity_fingerprint : option string; cp_city_of_residence : string; cp_bio : option
  string; cp_is_verified : bool; cp_verified_at : option instant; cp_verified_by_admin_id :
  option uuid; cp_created_at : instant;
}.

Record CourierPortfolio := mk_CourierPortfolio {
  pf_courier_id : uuid; pf_storage_key : string; pf_media_type : message_type; pf_description :
  option string; pf_display_order : Z; pf_created_at : instant;
}.

Record DeviceToken := mk_DeviceToken {
  dt_user_id : uuid; dt_device_os : device_os; dt_token : string; dt_last_seen_at : instant;
  dt_created_at : instant;
}.

Record Order := mk_Order {
  ord_customer_id : uuid; ord_courier_id : option uuid; ord_description : option string;
  ord_delivery_city : string; ord_delivery_location : point; ord_delivery_address_note : option
  string; ord_delivery_date : day; ord_status : order_status; ord_total_amount : money;
  ord_commission_amount : money; ord_courier_payout_amount : money; ord_assigned_at : option
  instant; ord_delivered_at : option instant; ord_completed_at : option instant;
  ord_cancelled_reason : option string; ord_created_at : instant;
}.

Record OrderMedia := mk_OrderMedia {
  om_order_id : uuid; om_uploaded_by_user_id : uuid; om_media_type : media_type; om_storage_key
  : string; om_content_type : string; om_byte_size : Z; om_capture_location : option point;
  om_captured_at : option instant; om_created_at : instant;
}.

Record Promo := mk_Promo {
  pm_code : string; pm_description : string; pm_discount_type : promo_discount_type;
  pm_percent_value : option hundredths; pm_fixed_amount : option money; pm_max_discount_amount :
  option money; pm_min_order_amount : money; pm_max_total_usages : option Z;
  pm_max_usages_per_user : Z; pm_used_count : Z; pm_is_active : bool; pm_starts_at : option
  instant; pm_ends_at : option instant; pm_created_by_admin_id : option uuid; pm_created_at :
  instant;
}.

Record Invoice := mk_Invoice {
  inv_order_id : uuid; inv_issued_by_courier_id : uuid; inv_status : invoice_status;
  inv_currency : string; inv_items_net_amount : money; inv_courier_fee_amount : money;
  inv_service_fee_amount : money; inv_discount_amount : money; inv_net_after_discount_amount :
  money; inv_tax_amount : money; inv_total_amount : money; inv_promo_id : option uuid;
  inv_promo_code_snapshot : option string; inv_payment_method : option payment_method;
  inv_amount_from_wallet : money; inv_amount_from_gateway : money; inv_pricing_breakdown :
  option (list (string * list dec)); inv_expires_at : option instant; inv_issued_at : option
  instant; inv_paid_at : option instant; inv_receipt_email_sent_at : option instant;
  inv_created_at : instant;
}.

Record InvoiceItem := mk_InvoiceItem {
  it_invoice_id : uuid; it_position : Z; it_title : string; it_description : option string;
  it_unit_price_amount : money; it_quantity : Z; it_tax_rate : rate4; it_line_net_amount :
  money; it_line_discount_amount : money; it_line_taxable_amount : money; it_line_tax_amount :
  money; it_line_total_amount : money;
}.

Record PromoRedemption := mk_PromoRedemption {
  rd_promo_id : uuid; rd_user_id : uuid; rd_invoice_id : uuid; rd_order_id : uuid;
  rd_discount_amount : money; rd_status : promo_redemption_status; rd_released_at : option
  instant; rd_consumed_at : option instant; rd_created_at : instant;
}.

Record PaymentIntent := mk_PaymentIntent {
  pin_user_id : uuid; pin_purpose : payment_purpose; pin_amount : money; pin_currency : string;
  pin_status : payment_intent_status; pin_checkout_provider : string;
  pin_streampay_payment_link_id : option string; pin_streampay_payment_url : option string;
  pin_reference_invoice_id : option uuid; pin_expires_at : instant; pin_paid_at : option
  instant; pin_failure_reason : option string; pin_created_at : instant;
}.

Record WalletTopup := mk_WalletTopup {
  wt_user_id : uuid; wt_wallet_id : uuid; wt_payment_intent_id : uuid; wt_amount : money;
  wt_created_at : instant;
}.

Record Conversation := mk_Conversation {
  cv_order_id : uuid; cv_customer_id : uuid; cv_courier_id : uuid;
  cv_last_message_preview_encrypted : option string; cv_last_message_timestamp : instant;
  cv_customer_unread_count : Z; cv_courier_unread_count : Z; cv_is_closed : bool; cv_created_at
  : instant;
}.

Record Message := mk_Message {
  msg_conversation_id : uuid; msg_sender_id : uuid; msg_message_type : message_type;
  msg_content_encrypted : string; msg_is_read : bool; msg_read_at : option instant;
  msg_created_at : instant;
}.

Record Wallet := mk_Wallet {
  w_user_id : option uuid; w_type : wallet_type; w_balance : money; w_held_balance : money;
  w_currency : string; w_version : Z; w_created_at : instant;
}.

Record Transaction := mk_Transaction {
  txn_wallet_id : uuid; txn_amount : money; txn_type : transaction_type; txn_status :
  transaction_status; txn_reference_order_id : option uuid; txn_reference_invoice_id : option
  uuid; txn_reference_intent_id : option uuid; txn_correlation_id : uuid; txn_balance_after :
  money; txn_idempotency_key : option string; txn_description : option string; txn_created_at :
  instant;
}.

Record Withdrawal := mk_Withdrawal {
  wd_courier_id : uuid; wd_wallet_id : uuid; wd_amount : money; wd_iban_encrypted : string;
  wd_iban_last4 : string; wd_status : withdrawal_status; wd_processed_by_admin_id : option uuid;
  wd_rejection_reason : option string; wd_idempotency_key : option string; wd_created_at :
  instant;
}.

Record Rating := mk_Rating {
  ra_order_id : uuid; ra_rater_id : uuid; ra_rated_user_id : uuid; ra_score : Z; ra_comment :
  option string; ra_created_at : instant;
}.

Record Dispute := mk_Dispute {
  dis_order_id : uuid; dis_raised_by_user_id : uuid; dis_reason : string; dis_status :
  dispute_status; dis_resolution_note : option string; dis_resolved_by_admin_id : option uuid;
  dis_resolved_at : option instant; dis_created_at : instant;
}.

Record AdminSession := mk_AdminSession {
  ads_admin_user_id : uuid; ads_session_token_hash : string; ads_ip_address : option string;
  ads_user_agent : option string; ads_expires_at : instant; ads_revoked_at : option instant;
  ads_created_at : instant;
}.

Record OtpAttempt := mk_OtpAttempt {
  oa_phone_hash : string; oa_ip_address : option string; oa_was_successful : bool; oa_created_at
  : instant;
}.

Record AuditLog := mk_AuditLog {
  al_actor_user_id : option uuid; al_action : string; al_entity_type : string; al_entity_id :
  option uuid; al_ip_address : option string; al_audit_metadata : option (list (string * string));
  al_created_at : instant;
}.

(** ** Setters *)

Definition eta_RefreshToken (r : RefreshToken) : RefreshToken :=
  mk_RefreshToken (rt_user_id r) (rt_token_hash r) (rt_family_id r) (rt_expires_at r)
    (rt_used_at r) (rt_revoked_at r) (rt_created_at r).

#[export] Instance set_rt_user_id : Setter rt_user_id := ltac:(setter eta_RefreshToken rt_user_id).
#[export] Instance set_rt_token_hash : Setter rt_token_hash := ltac:(setter eta_RefreshToken rt_token_hash).
#[export] Instance set_rt_family_id : Setter rt_family_id := ltac:(setter eta_RefreshToken rt_family_id).
#[export] Instance set_rt_expires_at : Setter rt_expires_at := ltac:(setter eta_RefreshToken rt_expires_at).
#[export] Instance set_rt_used_at : Setter rt_used_at := ltac:(setter eta_RefreshToken rt_used_at).
#[export] Instance set_rt_revoked_at : Setter rt_revoked_at := ltac:(setter eta_RefreshToken rt_revoked_at).
#[export] Instance set_rt_created_at : Setter rt_created_at := ltac:(setter eta_RefreshToken rt_created_at).

Definition eta_User (r : User) : User :=
  mk_User (usr_phone r) (usr_email r) (usr_full_name r) (usr_date_of_birth r) (usr_role r)
    (usr_status r) (usr_rating r) (usr_rating_count r) (usr_deleted_at r) (usr_created_at r).

#[export] Instance set_usr_phone : Setter usr_phone := ltac:(setter eta_User usr_phone).
#[export] Instance set_usr_email : Setter usr_email := ltac:(setter eta_User usr_email).
#[export] Instance set_usr_full_name : Setter usr_full_name := ltac:(setter eta_User usr_full_name).
#[export] Instance set_usr_date_of_birth : Setter usr_date_of_birth := ltac:(setter eta_User usr_date_of_birth).
#[export] Instance set_usr_role : Setter usr_role := ltac:(setter eta_User usr_role).
#[export] Instance set_usr_status : Setter usr_status := ltac:(setter eta_User usr_status).
#[export] Instance set_usr_rating : Setter usr_rating := ltac:(setter eta_User usr_rating).
#[export] Instance set_usr_rating_count : Setter usr_rating_count := ltac:(setter eta_User usr_rating_count).
#[export] Instance set_usr_deleted_at : Setter usr_deleted_at := ltac:(setter eta_User usr_deleted_at).
#[export] Instance set_usr_created_at : Setter usr_created_at := ltac:(setter eta_User usr_created_at).

Definition eta_CourierProfile (r : CourierProfile) : CourierProfile :=
  mk_CourierProfile (cp_passport_id_encrypted r) (cp_national_id_encrypted r)
    (cp_identity_fingerprint r) (cp_city_of_residence r) (cp_bio r) (cp_is_verified r)
    (cp_verified_at r) (cp_verified_by_admin_id r) (cp_created_at r).

#[export] Instance set_cp_passport_id_encrypted : Setter cp_passport_id_encrypted := ltac:(setter eta_CourierProfile cp_passport_id_encrypted).
#[export] Instance set_cp_national_id_encrypted : Setter cp_national_id_encrypted := ltac:(setter eta_CourierProfile cp_national_id_encrypted).
#[export] Instance set_cp_identity_fingerprint : Setter cp_identity_fingerprint := ltac:(setter eta_CourierProfile cp_identity_fingerprint).
#[export] Instance set_cp_city_of_residence : Setter cp_city_of_residence := ltac:(setter eta_CourierProfile cp_city_of_residence).
#[export] Instance set_cp_bio : Setter cp_bio := ltac:(setter eta_CourierProfile cp_bio).
#[export] Instance set_cp_is_verified : Setter cp_is_verified := ltac:(setter eta_CourierProfile cp_is_verified).
#[export] Instance set_cp_verified_at : Setter cp_verified_at := ltac:(setter eta_CourierProfile cp_verified_at).
#[export] Instance set_cp_verified_by_admin_id : Setter cp_verified_by_admin_id := ltac:(setter eta_CourierProfile cp_verified_by_admin_id).
#[export] Instance set_cp_created_at : Setter cp_created_at := ltac:(setter eta_CourierProfile cp_created_at).

Definition eta_CourierPortfolio (r : CourierPortfolio) : CourierPortfolio :=
  mk_CourierPortfolio (pf_courier_id r) (pf_storage_key r) (pf_media_type r) (pf_description r)
    (pf_display_order r) (pf_created_at r).

#[export] Instance set_pf_courier_id : Setter pf_courier_id := ltac:(setter eta_CourierPortfolio pf_courier_id).
#[export] Instance set_pf_storage_key : Setter pf_storage_key := ltac:(setter eta_CourierPortfolio pf_storage_key).
#[export] Instance set_pf_media_type : Setter pf_media_type := ltac:(setter eta_CourierPortfolio pf_media_type).
#[export] Instance set_pf_description : Setter pf_description := ltac:(setter eta_CourierPortfolio pf_description).
#[export] Instance set_pf_display_order : Setter pf_display_order := ltac:(setter eta_CourierPortfolio pf_display_order).
#[export] Instance set_pf_created_at : Setter pf_created_at := ltac:(setter eta_CourierPortfolio pf_created_at).

Definition eta_DeviceToken (r : DeviceToken) : DeviceToken :=
  mk_DeviceToken (dt_user_id r) (dt_device_os r) (dt_token r) (dt_last_seen_at r) (dt_created_at
    r).

#[export] Instance set_dt_user_id : Setter dt_user_id := ltac:(setter eta_DeviceToken dt_user_id).
#[export] Instance set_dt_device_os : Setter dt_device_os := ltac:(setter eta_DeviceToken dt_device_os).
#[export] Instance set_dt_token : Setter dt_token := ltac:(setter eta_DeviceToken dt_token).
#[export] Instance set_dt_last_seen_at : Setter dt_last_seen_at := ltac:(setter eta_DeviceToken dt_last_seen_at).
#[export] Instance set_dt_created_at : Setter dt_created_at := ltac:(setter eta_DeviceToken dt_created_at).

Definition eta_Order (r : Order) : Order :=
  mk_Order (ord_customer_id r) (ord_courier_id r) (ord_description r) (ord_delivery_city r)
    (ord_delivery_location r) (ord_delivery_address_note r) (ord_delivery_date r) (ord_status r)
    (ord_total_amount r) (ord_commission_amount r) (ord_courier_payout_amount r)
    (ord_assigned_at r) (ord_delivered_at r) (ord_completed_at r) (ord_cancelled_reason r)
    (ord_created_at r).

#[export] Instance set_ord_customer_id : Setter ord_customer_id := ltac:(setter eta_Order ord_customer_id).
#[export] Instance set_ord_courier_id : Setter ord_courier_id := ltac:(setter eta_Order ord_courier_id).
#[export] Instance set_ord_description : Setter ord_description := ltac:(setter eta_Order ord_description).
#[export] Instance set_ord_delivery_city : Setter ord_delivery_city := ltac:(setter eta_Order ord_delivery_city).
#[export] Instance set_ord_delivery_location : Setter ord_delivery_location := ltac:(setter eta_Order ord_delivery_location).
#[export] Instance set_ord_delivery_address_note : Setter ord_delivery_address_note := ltac:(setter eta_Order ord_delivery_address_note).
#[export] Instance set_ord_delivery_date : Setter ord_delivery_date := ltac:(setter eta_Order ord_delivery_date).
#[export] Instance set_ord_status : Setter ord_status := ltac:(setter eta_Order ord_status).
#[export] Instance set_ord_total_amount : Setter ord_total_amount := ltac:(setter eta_Order ord_total_amount).
#[export] Instance set_ord_commission_amount : Setter ord_commission_amount := ltac:(setter eta_Order ord_commission_amount).
#[export] Instance set_ord_courier_payout_amount : Setter ord_courier_payout_amount := ltac:(setter eta_Order ord_courier_payout_amount).
#[export] Instance set_ord_assigned_at : Setter ord_assigned_at := ltac:(setter eta_Order ord_assigned_at).
#[export] Instance set_ord_delivered_at : Setter ord_delivered_at := ltac:(setter eta_Order ord_delivered_at).
#[export] Instance set_ord_completed_at : Setter ord_completed_at := ltac:(setter eta_Order ord_completed_at).
#[export] Instance set_ord_cancelled_reason : Setter ord_cancelled_reason := ltac:(setter eta_Order ord_cancelled_reason).
#[export] Instance set_ord_created_at : Setter ord_created_at := ltac:(setter eta_Order ord_created_at).

Definition eta_OrderMedia (r : OrderMedia) : OrderMedia :=
  mk_OrderMedia (om_order_id r) (om_uploaded_by_user_id r) (om_media_type r) (om_storage_key r)
    (om_content_type r) (om_byte_size r) (om_capture_location r) (om_captured_at r)
    (om_created_at r).

#[export] Instance set_om_order_id : Setter om_order_id := ltac:(setter eta_OrderMedia om_order_id).
#[export] Instance set_om_uploaded_by_user_id : Setter om_uploaded_by_user_id := ltac:(setter eta_OrderMedia om_uploaded_by_user_id).
#[export] Instance set_om_media_type : Setter om_media_type := ltac:(setter eta_OrderMedia om_media_type).
#[export] Instance set_om_storage_key : Setter om_storage_key := ltac:(setter eta_OrderMedia om_storage_key).
#[export] Instance set_om_content_type : Setter om_content_type := ltac:(setter eta_OrderMedia om_content_type).
#[export] Instance set_om_byte_size : Setter om_byte_size := ltac:(setter eta_OrderMedia om_byte_size).
#[export] Instance set_om_capture_location : Setter om_capture_location := ltac:(setter eta_OrderMedia om_capture_location).
#[export] Instance set_om_captured_at : Setter om_captured_at := ltac:(setter eta_OrderMedia om_captured_at).
#[export] Instance set_om_created_at : Setter om_created_at := ltac:(setter eta_OrderMedia om_created_at).

Definition eta_Promo (r : Promo) : Promo :=
  mk_Promo (pm_code r) (pm_description r) (pm_discount_type r) (pm_percent_value r)
    (pm_fixed_amount r) (pm_max_discount_amount r) (pm_min_order_amount r) (pm_max_total_usages
    r) (pm_max_usages_per_user r) (pm_used_count r) (pm_is_active r) (pm_starts_at r)
    (pm_ends_at r) (pm_created_by_admin_id r) (pm_created_at r).

#[export] Instance set_pm_code : Setter pm_code := ltac:(setter eta_Promo pm_code).
#[export] Instance set_pm_description : Setter pm_description := ltac:(setter eta_Promo pm_description).
#[export] Instance set_pm_discount_type : Setter pm_discount_type := ltac:(setter eta_Promo pm_discount_type).
#[export] Instance set_pm_percent_value : Setter pm_percent_value := ltac:(setter eta_Promo pm_percent_value).
#[export] Instance set_pm_fixed_amount : Setter pm_fixed_amount := ltac:(setter eta_Promo pm_fixed_amount).
#[export] Instance set_pm_max_discount_amount : Setter pm_max_discount_amount := ltac:(setter eta_Promo pm_max_discount_amount).
#[export] Instance set_pm_min_order_amount : Setter pm_min_order_amount := ltac:(setter eta_Promo pm_min_order_amount).
#[export] Instance set_pm_max_total_usages : Setter pm_max_total_usages := ltac:(setter eta_Promo pm_max_total_usages).
#[export] Instance set_pm_max_usages_per_user : Setter pm_max_usages_per_user := ltac:(setter eta_Promo pm_max_usages_per_user).
#[export] Instance set_pm_used_count : Setter pm_used_count := ltac:(setter eta_Promo pm_used_count).
#[export] Instance set_pm_is_active : Setter pm_is_active := ltac:(setter eta_Promo pm_is_active).
#[export] Instance set_pm_starts_at : Setter pm_starts_at := ltac:(setter eta_Promo pm_starts_at).
#[export] Instance set_pm_ends_at : Setter pm_ends_at := ltac:(setter eta_Promo pm_ends_at).
#[export] Instance set_pm_created_by_admin_id : Setter pm_created_by_admin_id := ltac:(setter eta_Promo pm_created_by_admin_id).
#[export] Instance set_pm_created_at : Setter pm_created_at := ltac:(setter eta_Promo pm_created_at).

Definition eta_Invoice (r : Invoice) : Invoice :=
  mk_Invoice (inv_order_id r) (inv_issued_by_courier_id r) (inv_status r) (inv_currency r)
    (inv_items_net_amount r) (inv_courier_fee_amount r) (inv_service_fee_amount r)
    (inv_discount_amount r) (inv_net_after_discount_amount r) (inv_tax_amount r)
    (inv_total_amount r) (inv_promo_id r) (inv_promo_code_snapshot r) (inv_payment_method r)
    (inv_amount_from_wallet r) (inv_amount_from_gateway r) (inv_pricing_breakdown r)
    (inv_expires_at r) (inv_issued_at r) (inv_paid_at r) (inv_receipt_email_sent_at r)
    (inv_created_at r).

#[export] Instance set_inv_order_id : Setter inv_order_id := ltac:(setter eta_Invoice inv_order_id).
#[export] Instance set_inv_issued_by_courier_id : Setter inv_issued_by_courier_id := ltac:(setter eta_Invoice inv_issued_by_courier_id).
#[export] Instance set_inv_status : Setter inv_status := ltac:(setter eta_Invoice inv_status).
#[export] Instance set_inv_currency : Setter inv_currency := ltac:(setter eta_Invoice inv_currency).
#[export] Instance set_inv_items_net_amount : Setter inv_items_net_amount := ltac:(setter eta_Invoice inv_items_net_amount).
#[export] Instance set_inv_courier_fee_amount : Setter inv_courier_fee_amount := ltac:(setter eta_Invoice inv_courier_fee_amount).
#[export] Instance set_inv_service_fee_amount : Setter inv_service_fee_amount := ltac:(setter eta_Invoice inv_service_fee_amount).
#[export] Instance set_inv_discount_amount : Setter inv_discount_amount := ltac:(setter eta_Invoice inv_discount_amount).
#[export] Instance set_inv_net_after_discount_amount : Setter inv_net_after_discount_amount := ltac:(setter eta_Invoice inv_net_after_discount_amount).
#[export] Instance set_inv_tax_amount : Setter inv_tax_amount := ltac:(setter eta_Invoice inv_tax_amount).
#[export] Instance set_inv_total_amount : Setter inv_total_amount := ltac:(setter eta_Invoice inv_total_amount).
#[export] Instance set_inv_promo_id : Setter inv_promo_id := ltac:(setter eta_Invoice inv_promo_id).
#[export] Instance set_inv_promo_code_snapshot : Setter inv_promo_code_snapshot := ltac:(setter eta_Invoice inv_promo_code_snapshot).
#[export] Instance set_inv_payment_method : Setter inv_payment_method := ltac:(setter eta_Invoice inv_payment_method).
#[export] Instance set_inv_amount_from_wallet : Setter inv_amount_from_wallet := ltac:(setter eta_Invoice inv_amount_from_wallet).
#[export] Instance set_inv_amount_from_gateway : Setter inv_amount_from_gateway := ltac:(setter eta_Invoice inv_amount_from_gateway).
#[export] Instance set_inv_pricing_breakdown : Setter inv_pricing_breakdown := ltac:(setter eta_Invoice inv_pricing_breakdown).
#[export] Instance set_inv_expires_at : Setter inv_expires_at := ltac:(setter eta_Invoice inv_expires_at).
#[export] Instance set_inv_issued_at : Setter inv_issued_at := ltac:(setter eta_Invoice inv_issued_at).
#[export] Instance set_inv_paid_at : Setter inv_paid_at := ltac:(setter eta_Invoice inv_paid_at).
#[export] Instance set_inv_receipt_email_sent_at : Setter inv_receipt_email_sent_at := ltac:(setter eta_Invoice inv_receipt_email_sent_at).
#[export] Instance set_inv_created_at : Setter inv_created_at := ltac:(setter eta_Invoice inv_created_at).

Definition eta_InvoiceItem (r : InvoiceItem) : InvoiceItem :=
  mk_InvoiceItem (it_invoice_id r) (it_position r) (it_title r) (it_description r)
    (it_unit_price_amount r) (it_quantity r) (it_tax_rate r) (it_line_net_amount r)
    (it_line_discount_amount r) (it_line_taxable_amount r) (it_line_tax_amount r)
    (it_line_total_amount r).

#[export] Instance set_it_invoice_id : Setter it_invoice_id := ltac:(setter eta_InvoiceItem it_invoice_id).
#[export] Instance set_it_position : Setter it_position := ltac:(setter eta_InvoiceItem it_position).
#[export] Instance set_it_title : Setter it_title := ltac:(setter eta_InvoiceItem it_title).
#[export] Instance set_it_description : Setter it_description := ltac:(setter eta_InvoiceItem it_description).
#[export] Instance set_it_unit_price_amount : Setter it_unit_price_amount := ltac:(setter eta_InvoiceItem it_unit_price_amount).
#[export] Instance set_it_quantity : Setter it_quantity := ltac:(setter eta_InvoiceItem it_quantity).
#[export] Instance set_it_tax_rate : Setter it_tax_rate := ltac:(setter eta_InvoiceItem it_tax_rate).
#[export] Instance set_it_line_net_amount : Setter it_line_net_amount := ltac:(setter eta_InvoiceItem it_line_net_amount).
#[export] Instance set_it_line_discount_amount : Setter it_line_discount_amount := ltac:(setter eta_InvoiceItem it_line_discount_amount).
#[export] Instance set_it_line_taxable_amount : Setter it_line_taxable_amount := ltac:(setter eta_InvoiceItem it_line_taxable_amount).
#[export] Instance set_it_line_tax_amount : Setter it_line_tax_amount := ltac:(setter eta_InvoiceItem it_line_tax_amount).
#[export] Instance set_it_line_total_amount : Setter it_line_total_amount := ltac:(setter eta_InvoiceItem it_line_total_amount).

Definition eta_PromoRedemption (r : PromoRedemption) : PromoRedemption :=
  mk_PromoRedemption (rd_promo_id r) (rd_user_id r) (rd_invoice_id r) (rd_order_id r)
    (rd_discount_amount r) (rd_status r) (rd_released_at r) (rd_consumed_at r) (rd_created_at
    r).

#[export] Instance set_rd_promo_id : Setter rd_promo_id := ltac:(setter eta_PromoRedemption rd_promo_id).
#[export] Instance set_rd_user_id : Setter rd_user_id := ltac:(setter eta_PromoRedemption rd_user_id).
#[export] Instance set_rd_invoice_id : Setter rd_invoice_id := ltac:(setter eta_PromoRedemption rd_invoice_id).
#[export] Instance set_rd_order_id : Setter rd_order_id := ltac:(setter eta_PromoRedemption rd_order_id).
#[export] Instance set_rd_discount_amount : Setter rd_discount_amount := ltac:(setter eta_PromoRedemption rd_discount_amount).
#[export] Instance set_rd_status : Setter rd_status := ltac:(setter eta_PromoRedemption rd_status).
#[export] Instance set_rd_released_at : Setter rd_released_at := ltac:(setter eta_PromoRedemption rd_released_at).
#[export] Instance set_rd_consumed_at : Setter rd_consumed_at := ltac:(setter eta_PromoRedemption rd_consumed_at).
#[export] Instance set_rd_created_at : Setter rd_created_at := ltac:(setter eta_PromoRedemption rd_created_at).

Definition eta_PaymentIntent (r : PaymentIntent) : PaymentIntent :=
  mk_PaymentIntent (pin_user_id r) (pin_purpose r) (pin_amount r) (pin_currency r) (pin_status
    r) (pin_checkout_provider r) (pin_streampay_payment_link_id r) (pin_streampay_payment_url r)
    (pin_reference_invoice_id r) (pin_expires_at r) (pin_paid_at r) (pin_failure_reason r)
    (pin_created_at r).

#[export] Instance set_pin_user_id : Setter pin_user_id := ltac:(setter eta_PaymentIntent pin_user_id).
#[export] Instance set_pin_purpose : Setter pin_purpose := ltac:(setter eta_PaymentIntent pin_purpose).
#[export] Instance set_pin_amount : Setter pin_amount := ltac:(setter eta_PaymentIntent pin_amount).
#[export] Instance set_pin_currency : Setter pin_currency := ltac:(setter eta_PaymentIntent pin_currency).
#[export] Instance set_pin_status : Setter pin_status := ltac:(setter eta_PaymentIntent pin_status).
#[export] Instance set_pin_checkout_provider : Setter pin_checkout_provider := ltac:(setter eta_PaymentIntent pin_checkout_provider).
#[export] Instance set_pin_streampay_payment_link_id : Setter pin_streampay_payment_link_id := ltac:(setter eta_PaymentIntent pin_streampay_payment_link_id).
#[export] Instance set_pin_streampay_payment_url : Setter pin_streampay_payment_url := ltac:(setter eta_PaymentIntent pin_streampay_payment_url).
#[export] Instance set_pin_reference_invoice_id : Setter pin_reference_invoice_id := ltac:(setter eta_PaymentIntent pin_reference_invoice_id).
#[export] Instance set_pin_expires_at : Setter pin_expires_at := ltac:(setter eta_PaymentIntent pin_expires_at).
#[export] Instance set_pin_paid_at : Setter pin_paid_at := ltac:(setter eta_PaymentIntent pin_paid_at).
#[export] Instance set_pin_failure_reason : Setter pin_failure_reason := ltac:(setter eta_PaymentIntent pin_failure_reason).
#[export] Instance set_pin_created_at : Setter pin_created_at := ltac:(setter eta_PaymentIntent pin_created_at).

Definition eta_WalletTopup (r : WalletTopup) : WalletTopup :=
  mk_WalletTopup (wt_user_id r) (wt_wallet_id r) (wt_payment_intent_id r) (wt_amount r)
    (wt_created_at r).

#[export] Instance set_wt_user_id : Setter wt_user_id := ltac:(setter eta_WalletTopup wt_user_id).
#[export] Instance set_wt_wallet_id : Setter wt_wallet_id := ltac:(setter eta_WalletTopup wt_wallet_id).
#[export] Instance set_wt_payment_intent_id : Setter wt_payment_intent_id := ltac:(setter eta_WalletTopup wt_payment_intent_id).
#[export] Instance set_wt_amount : Setter wt_amount := ltac:(setter eta_WalletTopup wt_amount).
#[export] Instance set_wt_created_at : Setter wt_created_at := ltac:(setter eta_WalletTopup wt_created_at).

Definition eta_Conversation (r : Conversation) : Conversation :=
  mk_Conversation (cv_order_id r) (cv_customer_id r) (cv_courier_id r)
    (cv_last_message_preview_encrypted r) (cv_last_message_timestamp r)
    (cv_customer_unread_count r) (cv_courier_unread_count r) (cv_is_closed r) (cv_created_at r).

#[export] Instance set_cv_order_id : Setter cv_order_id := ltac:(setter eta_Conversation cv_order_id).
#[export] Instance set_cv_customer_id : Setter cv_customer_id := ltac:(setter eta_Conversation cv_customer_id).
#[export] Instance set_cv_courier_id : Setter cv_courier_id := ltac:(setter eta_Conversation cv_courier_id).
#[export] Instance set_cv_last_message_preview_encrypted : Setter cv_last_message_preview_encrypted := ltac:(setter eta_Conversation cv_last_message_preview_encrypted).
#[export] Instance set_cv_last_message_timestamp : Setter cv_last_message_timestamp := ltac:(setter eta_Conversation cv_last_message_timestamp).
#[export] Instance set_cv_customer_unread_count : Setter cv_customer_unread_count := ltac:(setter eta_Conversation cv_customer_unread_count).
#[export] Instance set_cv_courier_unread_count : Setter cv_courier_unread_count := ltac:(setter eta_Conversation cv_courier_unread_count).
#[export] Instance set_cv_is_closed : Setter cv_is_closed := ltac:(setter eta_Conversation cv_is_closed).
#[export] Instance set_cv_created_at : Setter cv_created_at := ltac:(setter eta_Conversation cv_created_at).

Definition eta_Message (r : Message) : Message :=
  mk_Message (msg_conversation_id r) (msg_sender_id r) (msg_message_type r)
    (msg_content_encrypted r) (msg_is_read r) (msg_read_at r) (msg_created_at r).

#[export] Instance set_msg_conversation_id : Setter msg_conversation_id := ltac:(setter eta_Message msg_conversation_id).
#[export] Instance set_msg_sender_id : Setter msg_sender_id := ltac:(setter eta_Message msg_sender_id).
#[export] Instance set_msg_message_type : Setter msg_message_type := ltac:(setter eta_Message msg_message_type).
#[export] Instance set_msg_content_encrypted : Setter msg_content_encrypted := ltac:(setter eta_Message msg_content_encrypted).
#[export] Instance set_msg_is_read : Setter msg_is_read := ltac:(setter eta_Message msg_is_read).
#[export] Instance set_msg_read_at : Setter msg_read_at := ltac:(setter eta_Message msg_read_at).
#[export] Instance set_msg_created_at : Setter msg_created_at := ltac:(setter eta_Message msg_created_at).

Definition eta_Wallet (r : Wallet) : Wallet :=
  mk_Wallet (w_user_id r) (w_type r) (w_balance r) (w_held_balance r) (w_currency r) (w_version
    r) (w_created_at r).

#[export] Instance set_w_user_id : Setter w_user_id := ltac:(setter eta_Wallet w_user_id).
#[export] Instance set_w_type : Setter w_type := ltac:(setter eta_Wallet w_type).
#[export] Instance set_w_balance : Setter w_balance := ltac:(setter eta_Wallet w_balance).
#[export] Instance set_w_held_balance : Setter w_held_balance := ltac:(setter eta_Wallet w_held_balance).
#[export] Instance set_w_currency : Setter w_currency := ltac:(setter eta_Wallet w_currency).
#[export] Instance set_w_version : Setter w_version := ltac:(setter eta_Wallet w_version).
#[export] Instance set_w_created_at : Setter w_created_at := ltac:(setter eta_Wallet w_created_at).

Definition eta_Transaction (r : Transaction) : Transaction :=
  mk_Transaction (txn_wallet_id r) (txn_amount r) (txn_type r) (txn_status r)
    (txn_reference_order_id r) (txn_reference_invoice_id r) (txn_reference_intent_id r)
    (txn_correlation_id r) (txn_balance_after r) (txn_idempotency_key r) (txn_description r)
    (txn_created_at r).

#[export] Instance set_txn_wallet_id : Setter txn_wallet_id := ltac:(setter eta_Transaction txn_wallet_id).
#[export] Instance set_txn_amount : Setter txn_amount := ltac:(setter eta_Transaction txn_amount).
#[export] Instance set_txn_type : Setter txn_type := ltac:(setter eta_Transaction txn_type).
#[export] Instance set_txn_status : Setter txn_status := ltac:(setter eta_Transaction txn_status).
#[export] Instance set_txn_reference_order_id : Setter txn_reference_order_id := ltac:(setter eta_Transaction txn_reference_order_id).
#[export] Instance set_txn_reference_invoice_id : Setter txn_reference_invoice_id := ltac:(setter eta_Transaction txn_reference_invoice_id).
#[export] Instance set_txn_reference_intent_id : Setter txn_reference_intent_id := ltac:(setter eta_Transaction txn_reference_intent_id).
#[export] Instance set_txn_correlation_id : Setter txn_correlation_id := ltac:(setter eta_Transaction txn_correlation_id).
#[export] Instance set_txn_balance_after : Setter txn_balance_after := ltac:(setter eta_Transaction txn_balance_after).
#[export] Instance set_txn_idempotency_key : Setter txn_idempotency_key := ltac:(setter eta_Transaction txn_idempotency_key).
#[export] Instance set_txn_description : Setter txn_description := ltac:(setter eta_Transaction txn_description).
#[export] Instance set_txn_created_at : Setter txn_created_at := ltac:(setter eta_Transaction txn_created_at).

Definition eta_Withdrawal (r : Withdrawal) : Withdrawal :=
  mk_Withdrawal (wd_courier_id r) (wd_wallet_id r) (wd_amount r) (wd_iban_encrypted r)
    (wd_iban_last4 r) (wd_status r) (wd_processed_by_admin_id r) (wd_rejection_reason r)
    (wd_idempotency_key r) (wd_created_at r).

#[export] Instance set_wd_courier_id : Setter wd_courier_id := ltac:(setter eta_Withdrawal wd_courier_id).
#[export] Instance set_wd_wallet_id : Setter wd_wallet_id := ltac:(setter eta_Withdrawal wd_wallet_id).
#[export] Instance set_wd_amount : Setter wd_amount := ltac:(setter eta_Withdrawal wd_amount).
#[export] Instance set_wd_iban_encrypted : Setter wd_iban_encrypted := ltac:(setter eta_Withdrawal wd_iban_encrypted).
#[export] Instance set_wd_iban_last4 : Setter wd_iban_last4 := ltac:(setter eta_Withdrawal wd_iban_last4).
#[export] Instance set_wd_status : Setter wd_status := ltac:(setter eta_Withdrawal wd_status).
#[export] Instance set_wd_processed_by_admin_id : Setter wd_processed_by_admin_id := ltac:(setter eta_Withdrawal wd_processed_by_admin_id).
#[export] Instance set_wd_rejection_reason : Setter wd_rejection_reason := ltac:(setter eta_Withdrawal wd_rejection_reason).
#[export] Instance set_wd_idempotency_key : Setter wd_idempotency_key := ltac:(setter eta_Withdrawal wd_idempotency_key).
#[export] Instance set_wd_created_at : Setter wd_created_at := ltac:(setter eta_Withdrawal wd_created_at).

Definition eta_Rating (r : Rating) : Rating :=
  mk_Rating (ra_order_id r) (ra_rater_id r) (ra_rated_user_id r) (ra_score r) (ra_comment r)
    (ra_created_at r).

#[export] Instance set_ra_order_id : Setter ra_order_id := ltac:(setter eta_Rating ra_order_id).
#[export] Instance set_ra_rater_id : Setter ra_rater_id := ltac:(setter eta_Rating ra_rater_id).
#[export] Instance set_ra_rated_user_id : Setter ra_rated_user_id := ltac:(setter eta_Rating ra_rated_user_id).
#[export] Instance set_ra_score : Setter ra_score := ltac:(setter eta_Rating ra_score).
#[export] Instance set_ra_comment : Setter ra_comment := ltac:(setter eta_Rating ra_comment).
#[export] Instance set_ra_created_at : Setter ra_created_at := ltac:(setter eta_Rating ra_created_at).

Definition eta_Dispute (r : Dispute) : Dispute :=
  mk_Dispute (dis_order_id r) (dis_raised_by_user_id r) (dis_reason r) (dis_status r)
    (dis_resolution_note r) (dis_resolved_by_admin_id r) (dis_resolved_at r) (dis_created_at r).

#[export] Instance set_dis_order_id : Setter dis_order_id := ltac:(setter eta_Dispute dis_order_id).
#[export] Instance set_dis_raised_by_user_id : Setter dis_raised_by_user_id := ltac:(setter eta_Dispute dis_raised_by_user_id).
#[export] Instance set_dis_reason : Setter dis_reason := ltac:(setter eta_Dispute dis_reason).
#[export] Instance set_dis_status : Setter dis_status := ltac:(setter eta_Dispute dis_status).
#[export] Instance set_dis_resolution_note : Setter dis_resolution_note := ltac:(setter eta_Dispute dis_resolution_note).
#[export] Instance set_dis_resolved_by_admin_id : Setter dis_resolved_by_admin_id := ltac:(setter eta_Dispute dis_resolved_by_admin_id).
#[export] Instance set_dis_resolved_at : Setter dis_resolved_at := ltac:(setter eta_Dispute dis_resolved_at).
#[export] Instance set_dis_created_at : Setter dis_created_at := ltac:(setter eta_Dispute dis_created_at).

Definition eta_AdminSession (r : AdminSession) : AdminSession :=
  mk_AdminSession (ads_admin_user_id r) (ads_session_token_hash r) (ads_ip_address r)
    (ads_user_agent r) (ads_expires_at r) (ads_revoked_at r) (ads_created_at r).

#[export] Instance set_ads_admin_user_id : Setter ads_admin_user_id := ltac:(setter eta_AdminSession ads_admin_user_id).
#[export] Instance set_ads_session_token_hash : Setter ads_session_token_hash := ltac:(setter eta_AdminSession ads_session_token_hash).
#[export] Instance set_ads_ip_address : Setter ads_ip_address := ltac:(setter eta_AdminSession ads_ip_address).
#[export] Instance set_ads_user_agent : Setter ads_user_agent := ltac:(setter eta_AdminSession ads_user_agent).
#[export] Instance set_ads_expires_at : Setter ads_expires_at := ltac:(setter eta_AdminSession ads_expires_at).
#[export] Instance set_ads_revoked_at : Setter ads_revoked_at := ltac:(setter eta_AdminSession ads_revoked_at).
#[export] Instance set_ads_created_at : Setter ads_created_at := ltac:(setter eta_AdminSession ads_created_at).

Definition eta_OtpAttempt (r : OtpAttempt) : OtpAttempt :=
  mk_OtpAttempt (oa_phone_hash r) (oa_ip_address r) (oa_was_successful r) (oa_created_at r).

#[export] Instance set_oa_phone_hash : Setter oa_phone_hash := ltac:(setter eta_OtpAttempt oa_phone_hash).
#[export] Instance set_oa_ip_address : Setter oa_ip_address := ltac:(setter eta_OtpAttempt oa_ip_address).
#[export] Instance set_oa_was_successful : Setter oa_was_successful := ltac:(setter eta_OtpAttempt oa_was_successful).
#[export] Instance set_oa_created_at : Setter oa_created_at := ltac:(setter eta_OtpAttempt oa_created_at).

Definition eta_AuditLog (r : AuditLog) : AuditLog :=
  mk_AuditLog (al_actor_user_id r) (al_action r) (al_entity_type r) (al_entity_id r)
    (al_ip_address r) (al_audit_metadata r) (al_created_at r).

#[export] Instance set_al_actor_user_id : Setter al_actor_user_id := ltac:(setter eta_AuditLog al_actor_user_id).
#[export] Instance set_al_action : Setter al_action := ltac:(setter eta_AuditLog al_action).
#[export] Instance set_al_entity_type : Setter al_entity_type := ltac:(setter eta_AuditLog al_entity_type).
#[export] Instance set_al_entity_id : Setter al_entity_id := ltac:(setter eta_AuditLog al_entity_id).
#[export] Instance set_al_ip_address : Setter al_ip_address := ltac:(setter eta_AuditLog al_ip_address).
#[export] Instance set_al_audit_metadata : Setter al_audit_metadata := ltac:(setter eta_AuditLog al_audit_metadata).
#[export] Instance set_al_created_at : Setter al_created_at := ltac:(setter eta_AuditLog al_created_at).

(** ** Writing a Decimal to a NUMERIC column

    PostgreSQL rounds to the column's scale, half away from zero, and raises
    [numeric_value_out_of_range] (a [DataError]) when the digits do not fit. *)
Definition numeric (digits scale : Z) (d : dec) : res Z :=
  let c := Z.abs (coef d) in
  let n := if - scale <=? dexp d then c * 10 ^ (dexp d + scale) else rhu c (10 ^ (- scale - dexp d)) in
  if n <? 10 ^ digits then Ok (Z.sgn (coef d) * n) else Raise DataError.

Definition numeric_12_2 (d : dec) : res money := numeric 12 2 d.

(** The Decimals read from [NUMERIC(5,2)] and [NUMERIC(6,4)] columns. *)
Definition of_hundredths (z : hundredths) : dec := Dec z (-2).
Definition of_rate4 (z : rate4) : dec := Dec z (-4).

(** ** CHECK constraints *)

Definition not_null {A} (o : option A) : bool := match o with Some _ => true | None => false end.

(** refresh_tokens, courier_portfolios, device_tokens, messages, conversations,
    disputes, admin_sessions, otp_attempts and audit_logs have none. *)

Definition chk_rating_range (r : User) : bool := (0 <=? usr_rating r) && (usr_rating r <=? 50).

Definition chk_identity_present (r : CourierProfile) : bool :=
  not_null (cp_passport_id_encrypted r) || not_null (cp_national_id_encrypted r).

Definition chk_delivery_date_window (current_date : day) (r : Order) : bool :=
  (current_date <=? ord_delivery_date r) && (ord_delivery_date r <=? current_date + 180).

Definition chk_amounts_non_negative (r : Order) : bool :=
  (0 <=? ord_total_amount r) && (0 <=? ord_commission_amount r) && (0 <=? ord_courier_payout_amount r).

Definition chk_courier_required_after_assignment (r : Order) : bool :=
  match ord_status r with
  | OrderStatus.NEW | OrderStatus.CANCELLED => true
  | _ => not_null (ord_courier_id r)
  end.

Definition chk_proof_has_location (r : OrderMedia) : bool :=
  negb (bool_decide (om_media_type r = MediaType.DELIVERY_PROOF)) || not_null (om_capture_location r).

(** [upper] on the letters of ASCII, and [btrim], which strips spaces only. *)
Definition upper_ascii (c : ascii) : ascii :=
  let n := N_of_ascii c in if (97 <=? n)%N && (n <=? 122)%N then ascii_of_N (n - 32) else c.

Definition upper (s : string) : string :=
  String.string_of_list_ascii (upper_ascii <$> String.list_ascii_of_string s).

Fixpoint drop_blanks (l : list ascii) : list ascii :=
  match l with " "%char :: l' => drop_blanks l' | _ => l end.

Definition btrim (s : string) : string :=
  String.string_of_list_ascii
    (reverse (drop_blanks (reverse (drop_blanks (String.list_ascii_of_string s))))).

Definition chk_promo_code_upper (r : Promo) : bool :=
  bool_decide (pm_code r = upper (pm_code r)) && bool_decide (pm_code r = btrim (pm_code r)).

Definition chk_promo_code_len (r : Promo) : bool :=
  let n := String.length (pm_code r) in (3 <=? n)%nat && (n <=? 32)%nat.

Definition chk_promo_value_by_type (r : Promo) : bool :=
  match pm_discount_type r, pm_percent_value r, pm_fixed_amount r with
  | PromoDiscountType.PERCENT, Some v, None => (0 <? v) && (v <=? 10000)
  | PromoDiscountType.FIXED, None, Some a => 0 <? a
  | _, _, _ => false
  end.

Definition chk_promo_usage_bounds (r : Promo) : bool :=
  (0 <=? pm_used_count r) &&
  match pm_max_total_usages r with Some n => pm_used_count r <=? n | None => true end &&
  (1 <=? pm_max_usages_per_user r).

Definition chk_promo_window (r : Promo) : bool :=
  match pm_starts_at r, pm_ends_at r with Some s, Some e => s <? e | _, _ => true end.

Definition chk_invoice_amounts_non_negative (r : Invoice) : bool :=
  (0 <=? inv_items_net_amount r) && (0 <=? inv_courier_fee_amount r) && (0 <=? inv_service_fee_amount r) &&
  (0 <=? inv_discount_amount r) && (0 <=? inv_tax_amount r) && (0 <=? inv_total_amount r).

Definition chk_invoice_total_positive (r : Invoice) : bool :=
  bool_decide (inv_status r = InvoiceStatus.DRAFT) || (0 <? inv_total_amount r).

Definition chk_invoice_net_math (r : Invoice) : bool :=
  inv_net_after_discount_amount r =?
  inv_items_net_amount r + inv_courier_fee_amount r + inv_service_fee_amount r - inv_discount_amount r.

Definition chk_invoice_total_math (r : Invoice) : bool :=
  inv_total_amount r =? inv_net_after_discount_amount r + inv_tax_amount r.

Definition chk_invoice_promo_pairing (r : Invoice) : bool :=
  match inv_promo_id r with
  | None => inv_discount_amount r =? 0
  | Some _ => 0 <? inv_discount_amount r
  end.

Definition chk_item_quantity (r : InvoiceItem) : bool := (1 <=? it_quantity r) && (it_quantity r <=? 999).

Definition chk_item_unit_price (r : InvoiceItem) : bool := 0 <? it_unit_price_amount r.

Definition chk_item_tax_rate (r : InvoiceItem) : bool := (0 <=? it_tax_rate r) && (it_tax_rate r <=? 10000).

Definition chk_item_line_math (r : InvoiceItem) : bool :=
  (it_line_net_amount r =? it_unit_price_amount r * it_quantity r) &&
  (it_line_taxable_amount r =? it_line_net_amount r - it_line_discount_amount r) &&
  (it_line_total_amount r =? it_line_taxable_amount r + it_line_tax_amount r).

Definition chk_redemption_amount_positive (r : PromoRedemption) : bool := 0 <? rd_discount_amount r.

Definition chk_intent_amount_positive (r : PaymentIntent) : bool := 0 <? pin_amount r.

Definition chk_intent_purpose_reference (r : PaymentIntent) : bool :=
  match pin_purpose r, pin_reference_invoice_id r with
  | PaymentPurpose.ORDER_INVOICE, Some _ => true
  | PaymentPurpose.WALLET_TOPUP, None => true
  | _, _ => false
  end.

Definition chk_topup_bounds (r : WalletTopup) : bool := (10000 <=? wt_amount r) && (wt_amount r <=? 2000000).

Definition chk_user_wallet_pairing (r : Wallet) : bool :=
  match w_type r, w_user_id r with
  | (WalletType.CUSTOMER | WalletType.COURIER), Some _ => true
  | (WalletType.CUSTOMER | WalletType.COURIER), None => false
  | _, None => true
  | _, Some _ => false
  end.

Definition chk_balance_non_negative (r : Wallet) : bool :=
  match w_type r with
  | WalletType.SYSTEM_GATEWAY | WalletType.SYSTEM_REVENUE => true
  | _ => (0 <=? w_balance r) && (0 <=? w_held_balance r)
  end.

Definition chk_amount_non_zero (r : Transaction) : bool := negb (txn_amount r =? 0).

Definition chk_withdrawal_min (r : Withdrawal) : bool := 5000 <=? wd_amount r.

Definition chk_score_range (r : Rating) : bool := (1 <=? ra_score r) && (ra_score r <=? 5).

Definition chk_no_self_rating (r : Rating) : bool := negb (bool_decide (ra_rater_id r = ra_rated_user_id r)).

(** ** UNIQUE constraints and unique indexes

    [conflicts_X a b]: two different rows [a], [b] of the table cannot coexist. *)

(** What a [NUMERIC(12,2)] column can hold.  The conversion [numeric_12_2] raises
    [DataError] before a row with a larger amount is built, so as part of the row
    checks these never fire: they record the range of what is stored. *)
Definition fits (l : list money) : bool := forallb (λ z, Z.abs z <? 10 ^ 12) l.

Definition order_fits (r : Order) : bool :=
  fits [ord_total_amount r; ord_commission_amount r; ord_courier_payout_amount r].

Definition invoice_fits (r : Invoice) : bool :=
  fits [inv_items_net_amount r; inv_courier_fee_amount r; inv_service_fee_amount r; inv_discount_amount r;
        inv_net_after_discount_amount r; inv_tax_amount r; inv_total_amount r; inv_amount_from_wallet r;
        inv_amount_from_gateway r].

Definition intent_fits (r : PaymentIntent) : bool := fits [pin_amount r].

Definition withdrawal_fits (r : Withdrawal) : bool := fits [wd_amount r].

Definition same {A} `{EqDecision A} (x y : A) : bool := bool_decide (x = y).

(** A partial unique index [WHERE col IS NOT NULL]. *)
Definition same_some {A} `{EqDecision A} (x y : option A) : bool :=
  match x, y with Some a, Some b => bool_decide (a = b) | _, _ => false end.

Definition conflicts_refresh_tokens (a b : RefreshToken) : bool := same (rt_token_hash a) (rt_token_hash b).

Definition conflicts_users (a b : User) : bool :=
  same (usr_phone a) (usr_phone b) || same_some (usr_email a) (usr_email b).

Definition conflicts_courier_profiles (a b : CourierProfile) : bool :=
  same_some (cp_identity_fingerprint a) (cp_identity_fingerprint b).

Definition conflicts_device_tokens (a b : DeviceToken) : bool := same (dt_token a) (dt_token b).

Definition conflicts_promos (a b : Promo) : bool := same (pm_code a) (pm_code b).

(** [status IN ('DRAFT','ISSUED','PAID')]. *)
Definition invoice_active (r : Invoice) : bool :=
  match inv_status r with
  | InvoiceStatus.DRAFT | InvoiceStatus.ISSUED | InvoiceStatus.PAID => true
  | _ => false
  end.

Definition conflicts_invoices (a b : Invoice) : bool :=
  invoice_active a && invoice_active b && same (inv_order_id a) (inv_order_id b).

Definition conflicts_invoice_items (a b : InvoiceItem) : bool :=
  same (it_invoice_id a) (it_invoice_id b) && same (it_position a) (it_position b).

Definition conflicts_promo_redemptions (a b : PromoRedemption) : bool :=
  same (rd_promo_id a) (rd_promo_id b) && same (rd_invoice_id a) (rd_invoice_id b).

Definition conflicts_payment_intents (a b : PaymentIntent) : bool :=
  same_some (pin_streampay_payment_link_id a) (pin_streampay_payment_link_id b).

Definition conflicts_wallet_topups (a b : WalletTopup) : bool :=
  same (wt_payment_intent_id a) (wt_payment_intent_id b).

Definition conflicts_conversations (a b : Conversation) : bool := same (cv_order_id a) (cv_order_id b).

(** [uq_wallets_user] and the four [uq_wallets_one_*] partial indexes. *)
Definition conflicts_wallets (a b : Wallet) : bool :=
  same_some (w_user_id a) (w_user_id b) ||
  match w_type a with
  | WalletType.CUSTOMER | WalletType.COURIER => false
  | ty => same ty (w_type b)
  end.

Definition conflicts_transactions (a b : Transaction) : bool :=
  same_some (txn_idempotency_key a) (txn_idempotency_key b).

Definition conflicts_withdrawals (a b : Withdrawal) : bool :=
  same (wd_courier_id a) (wd_courier_id b) && same_some (wd_idempotency_key a) (wd_idempotency_key b).

Definition conflicts_ratings (a b : Rating) : bool :=
  same (ra_order_id a) (ra_order_id b) && same (ra_rater_id a) (ra_rater_id b).

Definition conflicts_disputes (a b : Dispute) : bool := same (dis_order_id a) (dis_order_id b).

Definition conflicts_admin_sessions (a b : AdminSession) : bool :=
  same (ads_session_token_hash a) (ads_session_token_hash b).

(** ** Lemmas *)

Lemma numeric_sar (z : Z) : Z.abs z < 10 ^ 12 → numeric_12_2 (sar z) = Ok z.
Proof.
  intros H. unfold numeric_12_2, numeric, sar. cbn [coef dexp].
  rewrite Z.leb_refl. change (10 ^ (-2 + 2)) with 1. rewrite Z.mul_1_r.
  destruct (Z.ltb_spec (Z.abs z) (10 ^ 12)) as [_|]; [|lia]. f_equal. lia.
Qed.

Lemma numeric_sar_inv (z z' : Z) : numeric_12_2 (sar z) = Ok z' → z' = z ∧ Z.abs z < 10 ^ 12.
Proof.
  unfold numeric_12_2, numeric, sar. cbn [coef dexp].
  rewrite Z.leb_refl. change (10 ^ (-2 + 2)) with 1. rewrite Z.mul_1_r.
  destruct (Z.ltb_spec (Z.abs z) (10 ^ 12)) as [H|]; [|done]. intros [= <-]. split; lia.
Qed.

Lemma same_true {A} `{EqDecision A} (x y : A) : same x y = true ↔ x = y.
Proof. apply bool_decide_eq_true. Qed.

Lemma same_some_true {A} `{EqDecision A} (x y : option A) :
  same_some x y = true ↔ ∃ a, x = Some a ∧ y = Some a.
Proof.
  destruct x as [a|], y as [b|]; cbn; rewrite ?bool_decide_eq_true; naive_solver.
Qed.
