(* ===== verification/Sql.v ===== *)
(** * SQL expressions of the schema

    The CHECK constraints and the [WHERE] clauses of the partial indexes are SQL text, in
    [app/models/tables.py] and again in the migrations.  This file reads that text: [sql_lex] splits it
    into tokens, [sql_parse] builds the expression PostgreSQL stores, [sql_eval] evaluates it on
    a row with three-valued logic.  The language is the fragment the schema uses: comparisons,
    [IS [NOT] NULL], [IN], [BETWEEN], [AND]/[OR]/[NOT], [+ - *], [upper], [btrim], [char_length],
    [CURRENT_DATE], [INTERVAL 'n days'], numerals and quoted strings.

    Numbers are a coefficient and a scale (as [NUMERIC] is), dates and instants integers, a
    label of a native enum its text.  An ill-typed expression has no value ([None]); the order of
    text depends on the collation, so text is compared for equality only. *)

From Stdlib Require Import ZArith Lia Ascii.
From stdpp Require Import base list gmap strings numbers option.
From S2P Require Import Prelude Tables.
Open Scope Z_scope.

(** ** Values and expressions *)

Inductive value :=
  | VNull
  | VNum (coefficient : Z) (scale : nat)
  | VText (s : string)
  | VBool (b : bool)
  | VUuid (u : N)
  | VInstant (t : Z)
  | VDate (t : Z)
  | VDays (n : Z)
  | VPoint (p : point)
  | VJson.

Inductive sql_cmp := CEq | CNe | CLt | CLe | CGt | CGe.
Inductive sql_op := OAdd | OSub | OMul.
Inductive sql_fun := FUpper | FBtrim | FCharLength.

Inductive expr :=
  | EVal (v : value)
  | ECol (c : string)
  | EToday
  | ECall (f : sql_fun) (e : expr)
  | EOp (o : sql_op) (a b : expr)
  | ECmp (c : sql_cmp) (a b : expr)
  | EIn (e : expr) (vs : list value)
  | EBetween (e lo hi : expr)
  | EIsNull (e : expr)
  | EIsNotNull (e : expr)
  | ENot (e : expr)
  | EAnd (a b : expr)
  | EOr (a b : expr).

#[export] Instance value_eq_dec : EqDecision value.
Proof. solve_decision. Defined.
#[export] Instance sql_cmp_eq_dec : EqDecision sql_cmp.
Proof. solve_decision. Defined.
#[export] Instance sql_op_eq_dec : EqDecision sql_op.
Proof. solve_decision. Defined.
#[export] Instance sql_fun_eq_dec : EqDecision sql_fun.
Proof. solve_decision. Defined.
#[export] Instance expr_eq_dec : EqDecision expr.
Proof. solve_decision. Defined.

(** ** Tokens *)

Inductive sql_token :=
  | TWord (s : string)
  | TNumber (coefficient : Z) (scale : nat)
  | TString (s : string)
  | TSymbol (s : string).

Definition in_range (lo hi : N) (c : ascii) : bool := let n := N_of_ascii c in (lo <=? n)%N && (n <=? hi)%N.
Definition is_digit_char : ascii → bool := in_range 48 57.
Definition is_word_start (c : ascii) : bool := in_range 97 122 c || in_range 65 90 c || Ascii.eqb c "_"%char.
Definition is_word_char (c : ascii) : bool := is_word_start c || is_digit_char c.

(** The longest prefix of characters satisfying [f], and the rest. *)
Fixpoint span_chars (f : ascii → bool) (l : list ascii) : list ascii * list ascii :=
  match l with
  | c :: l' => if f c then let '(a, b) := span_chars f l' in (c :: a, b) else ([], l)
  | [] => ([], [])
  end.

Definition decimal_of (l : list ascii) : Z := fold_left (λ n c, n * 10 + (Z.of_N (N_of_ascii c) - 48)) l 0.

Definition two_char_symbols : list string := ["<>"; "<="; ">="]%string.

Fixpoint sql_lex (fuel : nat) (l : list ascii) : option (list sql_token) :=
  match fuel, l with
  | _, [] => Some []
  | O, _ => None
  | S n, c :: l' =>
      if Ascii.eqb c " "%char then sql_lex n l'
      else if is_word_start c then
        let '(w, rest) := span_chars is_word_char l in
        cons (TWord (String.string_of_list_ascii w)) <$> sql_lex n rest
      else if is_digit_char c then
        let '(w, rest) := span_chars is_digit_char l in
        match rest with
        | "."%char :: rest' =>
            let '(f, rest'') := span_chars is_digit_char rest' in
            cons (TNumber (decimal_of (w ++ f)) (length f)) <$> sql_lex n rest''
        | _ => cons (TNumber (decimal_of w) 0) <$> sql_lex n rest
        end
      else if Ascii.eqb c "'"%char then
        let '(w, rest) := span_chars (λ x, negb (Ascii.eqb x "'"%char)) l' in
        match rest with
        | _ :: rest' => cons (TString (String.string_of_list_ascii w)) <$> sql_lex n rest'
        | [] => None
        end
      else match l' with
        | c' :: l'' =>
            if bool_decide (String c (String c' EmptyString) ∈ two_char_symbols)
            then cons (TSymbol (String c (String c' EmptyString))) <$> sql_lex n l''
            else cons (TSymbol (String c EmptyString)) <$> sql_lex n l'
        | [] => cons (TSymbol (String c EmptyString)) <$> sql_lex n l'
        end
  end.

(** ** Parsing

    Precedence climbing, loosest first: [OR], [AND], [NOT], the comparisons, [+ -], [*].  A mode
    ending in [T] continues a left-associative chain whose left operand is known.  [fuel] bounds
    the nesting of modes; a text of [n] characters needs at most a few per token. *)

Inductive sql_mode := POr | POrT (e : expr) | PAnd | PAndT (e : expr) | PNot | PCmp | PCmpT (e : expr)
  | PAdd | PAddT (e : expr) | PMul | PMulT (e : expr) | PAtom.

Definition keyword (k : string) (t : sql_token) : bool :=
  match t with TWord w => String.eqb (upper w) k | _ => false end.

Definition cmp_of_symbol (s : string) : option sql_cmp :=
  match s with
  | "="%string => Some CEq | "<>"%string => Some CNe | "<"%string => Some CLt
  | "<="%string => Some CLe | ">"%string => Some CGt | ">="%string => Some CGe | _ => None
  end.

Definition fun_of_word (w : string) : option sql_fun :=
  match w with
  | "upper"%string => Some FUpper | "btrim"%string => Some FBtrim
  | "char_length"%string => Some FCharLength | _ => None
  end.

(** ['n days']. *)
Definition interval_days (s : string) : option value :=
  let '(w, rest) := span_chars is_digit_char (String.list_ascii_of_string s) in
  if String.eqb (String.string_of_list_ascii rest) " days" then Some (VDays (decimal_of w)) else None.

(** The literals of an [IN] list, after its opening parenthesis. *)
Fixpoint parse_literals (ts : list sql_token) : option (list value * list sql_token) :=
  match ts with
  | TString s :: TSymbol ")" :: ts' => Some ([VText s], ts')
  | TNumber c k :: TSymbol ")" :: ts' => Some ([VNum c k], ts')
  | TString s :: TSymbol "," :: ts' => '(vs, r) ← parse_literals ts'; Some (VText s :: vs, r)
  | TNumber c k :: TSymbol "," :: ts' => '(vs, r) ← parse_literals ts'; Some (VNum c k :: vs, r)
  | _ => None
  end.

Fixpoint sql_expr (fuel : nat) (m : sql_mode) (ts : list sql_token) : option (expr * list sql_token) :=
  match fuel with
  | O => None
  | S n =>
      match m with
      | POr => '(e, r) ← sql_expr n PAnd ts; sql_expr n (POrT e) r
      | POrT e =>
          match ts with
          | t :: ts' => if keyword "OR" t then '(b, r) ← sql_expr n PAnd ts'; sql_expr n (POrT (EOr e b)) r else Some (e, ts)
          | [] => Some (e, ts)
          end
      | PAnd => '(e, r) ← sql_expr n PNot ts; sql_expr n (PAndT e) r
      | PAndT e =>
          match ts with
          | t :: ts' => if keyword "AND" t then '(b, r) ← sql_expr n PNot ts'; sql_expr n (PAndT (EAnd e b)) r else Some (e, ts)
          | [] => Some (e, ts)
          end
      | PNot =>
          match ts with
          | t :: ts' => if keyword "NOT" t then '(e, r) ← sql_expr n PNot ts'; Some (ENot e, r) else sql_expr n PCmp ts
          | [] => None
          end
      | PCmp => '(e, r) ← sql_expr n PAdd ts; sql_expr n (PCmpT e) r
      | PCmpT e =>
          match ts with
          | TSymbol s :: ts' =>
              match cmp_of_symbol s with
              | Some c => '(b, r) ← sql_expr n PAdd ts'; Some (ECmp c e b, r)
              | None => Some (e, ts)
              end
          | t :: t' :: ts' =>
              if keyword "IS" t then
                if keyword "NULL" t' then Some (EIsNull e, ts')
                else if keyword "NOT" t' then
                  match ts' with t'' :: ts'' => if keyword "NULL" t'' then Some (EIsNotNull e, ts'') else None | [] => None end
                else None
              else if keyword "IN" t then
                match t' with TSymbol "(" => '(vs, r) ← parse_literals ts'; Some (EIn e vs, r) | _ => None end
              else if keyword "BETWEEN" t then
                '(lo, r) ← sql_expr n PAdd (t' :: ts');
                match r with
                | a :: r' => if keyword "AND" a then '(hi, r'') ← sql_expr n PAdd r'; Some (EBetween e lo hi, r'') else None
                | [] => None
                end
              else Some (e, ts)
          | _ => Some (e, ts)
          end
      | PAdd => '(e, r) ← sql_expr n PMul ts; sql_expr n (PAddT e) r
      | PAddT e =>
          match ts with
          | TSymbol "+" :: ts' => '(b, r) ← sql_expr n PMul ts'; sql_expr n (PAddT (EOp OAdd e b)) r
          | TSymbol "-" :: ts' => '(b, r) ← sql_expr n PMul ts'; sql_expr n (PAddT (EOp OSub e b)) r
          | _ => Some (e, ts)
          end
      | PMul => '(e, r) ← sql_expr n PAtom ts; sql_expr n (PMulT e) r
      | PMulT e =>
          match ts with
          | TSymbol "*" :: ts' => '(b, r) ← sql_expr n PAtom ts'; sql_expr n (PMulT (EOp OMul e b)) r
          | _ => Some (e, ts)
          end
      | PAtom =>
          match ts with
          | TSymbol "(" :: ts' =>
              '(e, r) ← sql_expr n POr ts';
              match r with TSymbol ")" :: r' => Some (e, r') | _ => None end
          | TNumber c k :: ts' => Some (EVal (VNum c k), ts')
          | TString s :: ts' => Some (EVal (VText s), ts')
          | TWord w :: TSymbol "(" :: ts' =>
              f ← fun_of_word w; '(e, r) ← sql_expr n POr ts';
              match r with TSymbol ")" :: r' => Some (ECall f e, r') | _ => None end
          | TWord w :: ts' =>
              if String.eqb (upper w) "INTERVAL" then
                match ts' with TString s :: ts'' => v ← interval_days s; Some (EVal v, ts'') | _ => None end
              else if String.eqb (upper w) "CURRENT_DATE" then Some (EToday, ts')
              else if String.eqb (upper w) "NULL" then Some (EVal VNull, ts')
              else Some (ECol w, ts')
          | _ => None
          end
      end
  end.

Definition sql_parse (s : string) : option expr :=
  let l := String.list_ascii_of_string s in
  ts ← sql_lex (S (length l)) l;
  match sql_expr (16 * S (length ts)) POr ts with Some (e, []) => Some e | _ => None end.

(** ** Columns of an expression *)

Fixpoint expr_columns (e : expr) : list string :=
  match e with
  | EVal _ | EToday => []
  | ECol c => [c]
  | ECall _ e | EIn e _ | EIsNull e | EIsNotNull e | ENot e => expr_columns e
  | EOp _ a b | ECmp _ a b | EAnd a b | EOr a b => expr_columns a ++ expr_columns b
  | EBetween e lo hi => expr_columns e ++ expr_columns lo ++ expr_columns hi
  end.

Definition renamed (old new c : string) : string := if String.eqb c old then new else c.

(** [ALTER TABLE .. RENAME COLUMN]: the stored expressions follow the column. *)
Fixpoint rename_expr (old new : string) (e : expr) : expr :=
  match e with
  | EVal v => EVal v
  | EToday => EToday
  | ECol c => ECol (renamed old new c)
  | ECall f e => ECall f (rename_expr old new e)
  | EOp o a b => EOp o (rename_expr old new a) (rename_expr old new b)
  | ECmp c a b => ECmp c (rename_expr old new a) (rename_expr old new b)
  | EIn e vs => EIn (rename_expr old new e) vs
  | EBetween e lo hi => EBetween (rename_expr old new e) (rename_expr old new lo) (rename_expr old new hi)
  | EIsNull e => EIsNull (rename_expr old new e)
  | EIsNotNull e => EIsNotNull (rename_expr old new e)
  | ENot e => ENot (rename_expr old new e)
  | EAnd a b => EAnd (rename_expr old new a) (rename_expr old new b)
  | EOr a b => EOr (rename_expr old new a) (rename_expr old new b)
  end.

(** ** Evaluation *)

(** The row an expression is evaluated on: its columns, in order. *)
Definition record_value := list (string * value).

Fixpoint column_value (r : record_value) (c : string) : option value :=
  match r with
  | [] => None
  | (k, v) :: r' => if String.eqb c k then Some v else column_value r' c
  end.

(** Bring two numbers to the larger scale. *)
Fixpoint pow10 (n : nat) : Z := match n with O => 1 | S n => 10 * pow10 n end.

Definition at_scale (k : nat) (c : Z) (s : nat) : Z := c * pow10 (k - s).

Definition num_op (o : sql_op) (c1 : Z) (s1 : nat) (c2 : Z) (s2 : nat) : value :=
  let k := Nat.max s1 s2 in
  match o with
  | OAdd => VNum (at_scale k c1 s1 + at_scale k c2 s2) k
  | OSub => VNum (at_scale k c1 s1 - at_scale k c2 s2) k
  | OMul => VNum (c1 * c2) (s1 + s2)
  end.

Definition apply_op (o : sql_op) (a b : value) : option value :=
  match a, b with
  | VNum c1 s1, VNum c2 s2 => Some (num_op o c1 s1 c2 s2)
  | VDate t, VDays n => match o with OAdd => Some (VDate (t + n)) | OSub => Some (VDate (t - n)) | OMul => None end
  | VNull, _ | _, VNull => Some VNull
  | _, _ => None
  end.

Definition holds_cmp (c : sql_cmp) (x y : Z) : bool :=
  match c with
  | CEq => x =? y | CNe => negb (x =? y) | CLt => x <? y | CLe => x <=? y | CGt => y <? x | CGe => y <=? x
  end.

Definition holds_eq {A} `{EqDecision A} (c : sql_cmp) (x y : A) : option value :=
  match c with CEq => Some (VBool (bool_decide (x = y))) | CNe => Some (VBool (negb (bool_decide (x = y)))) | _ => None end.

Definition apply_cmp (c : sql_cmp) (a b : value) : option value :=
  match a, b with
  | VNull, _ | _, VNull => Some VNull
  | VNum c1 s1, VNum c2 s2 => let k := Nat.max s1 s2 in Some (VBool (holds_cmp c (at_scale k c1 s1) (at_scale k c2 s2)))
  | VDate t, VDate t' => Some (VBool (holds_cmp c t t'))
  | VInstant t, VInstant t' => Some (VBool (holds_cmp c t t'))
  | VText s, VText s' => holds_eq c s s'
  | VUuid u, VUuid u' => holds_eq c u u'
  | VBool x, VBool y => holds_eq c x y
  | _, _ => None
  end.

Definition and3 (a b : value) : option value :=
  match a, b with
  | VBool false, (VBool _ | VNull) | (VBool true | VNull), VBool false => Some (VBool false)
  | VBool true, VBool true => Some (VBool true)
  | VNull, (VBool true | VNull) | VBool true, VNull => Some VNull
  | _, _ => None
  end.

Definition not3 (a : value) : option value :=
  match a with VBool b => Some (VBool (negb b)) | VNull => Some VNull | _ => None end.

Definition or3 (a b : value) : option value :=
  x ← not3 a; y ← not3 b; z ← and3 x y; not3 z.

(** [x IN (v1, .., vn)] is [x = v1 OR .. OR x = vn]. *)
Fixpoint in3 (x : value) (vs : list value) : option value :=
  match vs with
  | [] => Some (VBool false)
  | v :: vs' => a ← apply_cmp CEq x v; b ← in3 x vs'; or3 a b
  end.

Definition is_null (v : value) : bool := match v with VNull => true | _ => false end.

Definition apply_fun (f : sql_fun) (v : value) : option value :=
  match f, v with
  | _, VNull => Some VNull
  | FUpper, VText s => Some (VText (upper s))
  | FBtrim, VText s => Some (VText (btrim s))
  | FCharLength, VText s => Some (VNum (Z.of_nat (String.length s)) 0)
  | _, _ => None
  end.

Fixpoint sql_eval (today : day) (r : record_value) (e : expr) : option value :=
  match e with
  | EVal v => Some v
  | ECol c => column_value r c
  | EToday => Some (VDate today)
  | ECall f e => v ← sql_eval today r e; apply_fun f v
  | EOp o a b => x ← sql_eval today r a; y ← sql_eval today r b; apply_op o x y
  | ECmp c a b => x ← sql_eval today r a; y ← sql_eval today r b; apply_cmp c x y
  | EIn e vs => x ← sql_eval today r e; in3 x vs
  | EBetween e lo hi =>
      x ← sql_eval today r e; l ← sql_eval today r lo; h ← sql_eval today r hi;
      a ← apply_cmp CGe x l; b ← apply_cmp CLe x h; and3 a b
  | EIsNull e => x ← sql_eval today r e; Some (VBool (is_null x))
  | EIsNotNull e => x ← sql_eval today r e; Some (VBool (negb (is_null x)))
  | ENot e => x ← sql_eval today r e; not3 x
  | EAnd a b => x ← sql_eval today r a; y ← sql_eval today r b; and3 x y
  | EOr a b => x ← sql_eval today r a; y ← sql_eval today r b; or3 x y
  end.

(** A CHECK refuses a row when it is false, and accepts it when it is true or unknown. *)
Definition check_accepts (today : day) (r : record_value) (e : expr) : bool :=
  match sql_eval today r e with Some (VBool b) => b | Some VNull => true | _ => false end.

(** A row is in a partial index when the [WHERE] is true. *)
Definition where_selects (r : record_value) (w : option expr) : bool :=
  match w with
  | None => true
  | Some e => match sql_eval 0 r e with Some (VBool true) => true | _ => false end
  end.

(** ** Lemmas *)

(** An expression looks only at its columns. *)
Lemma sql_eval_columns (today : day) (r r' : record_value) (e : expr) :
  (∀ c, c ∈ expr_columns e → column_value r c = column_value r' c) → sql_eval today r e = sql_eval today r' e.
Proof.
  induction e; cbn [expr_columns sql_eval]; intros H; try done; [by apply H; left|..];
    repeat match goal with IH : (∀ _, _) → _ = _ |- _ => rewrite IH by set_solver; clear IH end; done.
Qed.

(** Renaming a column of the row and of the expression changes nothing, when the new name is new. *)
Lemma column_value_rename (old new : string) (r : record_value) (c : string) :
  c ≠ new → new ∉ r.*1 →
  column_value ((λ p, (renamed old new p.1, p.2)) <$> r) (renamed old new c) = column_value r c.
Proof.
  intros Hc. induction r as [|[k v] r IH]; intros Hn; [done|]. cbn in *.
  apply not_elem_of_cons in Hn as [Hk Hn]. rewrite IH by done. unfold renamed.
  destruct (String.eqb_spec c old), (String.eqb_spec k old); subst;
    repeat match goal with |- context [String.eqb ?a ?b] => destruct (String.eqb_spec a b); subst; try done end.
Qed.

Lemma sql_eval_rename (today : day) (old new : string) (r : record_value) (e : expr) :
  new ∉ r.*1 → new ∉ expr_columns e →
  sql_eval today ((λ p, (renamed old new p.1, p.2)) <$> r) (rename_expr old new e) = sql_eval today r e.
Proof.
  intros Hr. induction e; cbn [expr_columns sql_eval rename_expr]; intros H; try done;
    [apply column_value_rename; [set_solver|done]|..];
    repeat match goal with IH : _ → _ = _ |- _ => rewrite IH by set_solver; clear IH end; done.
Qed.

(** The connectives on known truth values, and the two that decide with an unknown. *)
Lemma and3_bool (a b : bool) : and3 (VBool a) (VBool b) = Some (VBool (a && b)).
Proof. by destruct a, b. Qed.
Lemma or3_bool (a b : bool) : or3 (VBool a) (VBool b) = Some (VBool (a || b)).
Proof. by destruct a, b. Qed.

Lemma and3_false_null : and3 (VBool false) VNull = Some (VBool false).
Proof. done. Qed.
Lemma or3_true_null : or3 (VBool true) VNull = Some (VBool true).
Proof. done. Qed.
(** Text of the schema. *)
Example sql_parse_precedence :
  sql_parse "a = 1 OR b <> 2 AND NOT c IS NULL" =
  Some (EOr (ECmp CEq (ECol "a") (EVal (VNum 1 0)))
            (EAnd (ECmp CNe (ECol "b") (EVal (VNum 2 0))) (ENot (EIsNull (ECol "c"))))).
Proof. vm_compute. reflexivity. Qed.

Example sql_parse_arithmetic :
  sql_parse "n = a + b * c - 0.50" =
  Some (ECmp CEq (ECol "n") (EOp OSub (EOp OAdd (ECol "a") (EOp OMul (ECol "b") (ECol "c"))) (EVal (VNum 50 2)))).
Proof. vm_compute. reflexivity. Qed.
