(* ===== verification/Database.v ===== *)
(** * The database: state, transactions, constraint checking

    [db] holds one finite map per table, the id generator, the clock and the
    Redis lock keys currently held by other requests.  A service call is a
    computation [M A] on it.  An exception leaves no state behind: the session of
    a request (or of one job of a worker) is one database transaction, which
    [get_session] rolls back when the handler raises; [savepoint_catch] is the
    SAVEPOINT idiom of the services.  Transactions run one after the other: an
    execution of the system is a sequence of them.  For the operations that lock
    every row they change ([SELECT ... FOR UPDATE]) this is what the row locks
    give (Races.v); operations that read a row without locking it can interleave in
    ways a sequence does not show, of which Races.v has two.

    [uuid4()] and [gen_random_uuid()] draw from a counter; a drawn id that
    is already a key of the table is an [IntegrityError] (the primary key). *)

From Stdlib Require Import ZArith Lia.
From stdpp Require Import base list gmap strings numbers option.
From S2P Require Import Prelude Errors PyDecimal Money Enums Tables.
Open Scope Z_scope.

(** The redis behind the advisory locks: the keys other processes hold, and whether it answers the [SET] that acquires a
    lock and the [EVAL] that releases it. *)
Record lock_service := mk_lock_service { lk_keys : gset string; lk_acquire : bool; lk_release : bool }.

Record db := mk_db {
  tb_refresh_tokens : gmap uuid RefreshToken;
  tb_users : gmap uuid User;
  tb_courier_profiles : gmap uuid CourierProfile;
  tb_courier_portfolios : gmap uuid CourierPortfolio;
  tb_device_tokens : gmap uuid DeviceToken;
  tb_orders : gmap uuid Order;
  tb_order_media : gmap uuid OrderMedia;
  tb_promos : gmap uuid Promo;
  tb_invoices : gmap uuid Invoice;
  tb_invoice_items : gmap uuid InvoiceItem;
  tb_promo_redemptions : gmap uuid PromoRedemption;
  tb_payment_intents : gmap uuid PaymentIntent;
  tb_wallet_topups : gmap uuid WalletTopup;
  tb_conversations : gmap uuid Conversation;
  tb_messages : gmap uuid Message;
  tb_wallets : gmap uuid Wallet;
  tb_transactions : gmap uuid Transaction;
  tb_withdrawals : gmap uuid Withdrawal;
  tb_ratings : gmap uuid Rating;
  tb_disputes : gmap uuid Dispute;
  tb_admin_sessions : gmap uuid AdminSession;
  tb_otp_attempts : gmap uuid OtpAttempt;
  tb_audit_logs : gmap uuid AuditLog;
  db_next : uuid;
  db_now : instant;
  db_locks : lock_service;
}.

Definition eta_db (r : db) : db :=
  mk_db (tb_refresh_tokens r) (tb_users r) (tb_courier_profiles r) (tb_courier_portfolios r)
    (tb_device_tokens r) (tb_orders r) (tb_order_media r) (tb_promos r) (tb_invoices r)
    (tb_invoice_items r) (tb_promo_redemptions r) (tb_payment_intents r) (tb_wallet_topups r)
    (tb_conversations r) (tb_messages r) (tb_wallets r) (tb_transactions r) (tb_withdrawals r)
    (tb_ratings r) (tb_disputes r) (tb_admin_sessions r) (tb_otp_attempts r) (tb_audit_logs r)
    (db_next r) (db_now r) (db_locks r).

#[export] Instance set_tb_refresh_tokens : Setter tb_refresh_tokens := ltac:(setter eta_db tb_refresh_tokens).
#[export] Instance set_tb_users : Setter tb_users := ltac:(setter eta_db tb_users).
#[export] Instance set_tb_courier_profiles : Setter tb_courier_profiles := ltac:(setter eta_db tb_courier_profiles).
#[export] Instance set_tb_courier_portfolios : Setter tb_courier_portfolios := ltac:(setter eta_db tb_courier_portfolios).
#[export] Instance set_tb_device_tokens : Setter tb_device_tokens := ltac:(setter eta_db tb_device_tokens).
#[export] Instance set_tb_orders : Setter tb_orders := ltac:(setter eta_db tb_orders).
#[export] Instance set_tb_order_media : Setter tb_order_media := ltac:(setter eta_db tb_order_media).
#[export] Instance set_tb_promos : Setter tb_promos := ltac:(setter eta_db tb_promos).
#[export] Instance set_tb_invoices : Setter tb_invoices := ltac:(setter eta_db tb_invoices).
#[export] Instance set_tb_invoice_items : Setter tb_invoice_items := ltac:(setter eta_db tb_invoice_items).
#[export] Instance set_tb_promo_redemptions : Setter tb_promo_redemptions := ltac:(setter eta_db tb_promo_redemptions).
#[export] Instance set_tb_payment_intents : Setter tb_payment_intents := ltac:(setter eta_db tb_payment_intents).
#[export] Instance set_tb_wallet_topups : Setter tb_wallet_topups := ltac:(setter eta_db tb_wallet_topups).
#[export] Instance set_tb_conversations : Setter tb_conversations := ltac:(setter eta_db tb_conversations).
#[export] Instance set_tb_messages : Setter tb_messages := ltac:(setter eta_db tb_messages).
#[export] Instance set_tb_wallets : Setter tb_wallets := ltac:(setter eta_db tb_wallets).
#[export] Instance set_tb_transactions : Setter tb_transactions := ltac:(setter eta_db tb_transactions).
#[export] Instance set_tb_withdrawals : Setter tb_withdrawals := ltac:(setter eta_db tb_withdrawals).
#[export] Instance set_tb_ratings : Setter tb_ratings := ltac:(setter eta_db tb_ratings).
#[export] Instance set_tb_disputes : Setter tb_disputes := ltac:(setter eta_db tb_disputes).
#[export] Instance set_tb_admin_sessions : Setter tb_admin_sessions := ltac:(setter eta_db tb_admin_sessions).
#[export] Instance set_tb_otp_attempts : Setter tb_otp_attempts := ltac:(setter eta_db tb_otp_attempts).
#[export] Instance set_tb_audit_logs : Setter tb_audit_logs := ltac:(setter eta_db tb_audit_logs).
#[export] Instance set_db_next : Setter db_next := ltac:(setter eta_db db_next).
#[export] Instance set_db_now : Setter db_now := ltac:(setter eta_db db_now).
#[export] Instance set_db_locks : Setter db_locks := ltac:(setter eta_db db_locks).

Definition empty_db : db := mk_db ∅ ∅ ∅ ∅ ∅ ∅ ∅ ∅ ∅ ∅ ∅ ∅ ∅ ∅ ∅ ∅ ∅ ∅ ∅ ∅ ∅ ∅ ∅ 0%N 0 (mk_lock_service ∅ true true).

(** [CURRENT_DATE]. *)
Definition current_date (d : db) : day := db_now d / 86400.

(** ** Triggers of the baseline migration

    Each is a BEFORE trigger: [None] as new row is a DELETE, as old row an INSERT.
    [false] is [RAISE EXCEPTION]. *)

Definition enforce_ledger_immutability (old new : option Transaction) : bool :=
  match old, new with
  | None, _ => true
  | Some _, None => false
  | Some o, Some n =>
      bool_decide (txn_status o = TransactionStatus.PENDING) &&
      (bool_decide (txn_status n = TransactionStatus.SETTLED) ||
       bool_decide (txn_status n = TransactionStatus.REVERSED)) &&
      (txn_amount n =? txn_amount o) && bool_decide (txn_wallet_id n = txn_wallet_id o) &&
      bool_decide (txn_type n = txn_type o) && bool_decide (txn_correlation_id n = txn_correlation_id o)
  end.

Definition enforce_invoice_item_freeze (invoices : gmap uuid Invoice) (old new : option InvoiceItem) : bool :=
  match match new with Some n => Some n | None => old end with
  | None => true
  | Some r =>
      match invoices !! it_invoice_id r with
      | None => true
      | Some i => bool_decide (inv_status i = InvoiceStatus.DRAFT)
      end
  end.

Definition enforce_message_append_only (old new : option Message) : bool :=
  match old, new with
  | None, _ => true
  | Some _, None => false
  | Some o, Some n =>
      bool_decide (msg_conversation_id n = msg_conversation_id o) &&
      bool_decide (msg_sender_id n = msg_sender_id o) &&
      bool_decide (msg_message_type n = msg_message_type o) &&
      bool_decide (msg_content_encrypted n = msg_content_encrypted o) &&
      (msg_created_at n =? msg_created_at o)
  end.

(** ** What a table promises to the generic row operations *)

Class Table (row : Type) := {
  rows : db → gmap uuid row;
  set_rows : gmap uuid row → db → db;
  check_ok : day → row → bool;
  trigger_ok : db → option row → option row → bool;
  conflicts : row → row → bool;
}.

#[export] Instance table_refresh_tokens : Table RefreshToken := {|
  rows := tb_refresh_tokens;
  set_rows m d := d <| tb_refresh_tokens := m |>;
  check_ok today r := true;
  trigger_ok d old new := true;
  conflicts := conflicts_refresh_tokens
|}.

#[export] Instance table_users : Table User := {|
  rows := tb_users;
  set_rows m d := d <| tb_users := m |>;
  check_ok today r :=
    chk_rating_range r;
  trigger_ok d old new := true;
  conflicts := conflicts_users
|}.

#[export] Instance table_courier_profiles : Table CourierProfile := {|
  rows := tb_courier_profiles;
  set_rows m d := d <| tb_courier_profiles := m |>;
  check_ok today r :=
    chk_identity_present r;
  trigger_ok d old new := true;
  conflicts := conflicts_courier_profiles
|}.

#[export] Instance table_courier_portfolios : Table CourierPortfolio := {|
  rows := tb_courier_portfolios;
  set_rows m d := d <| tb_courier_portfolios := m |>;
  check_ok today r := true;
  trigger_ok d old new := true;
  conflicts a b := false
|}.

#[export] Instance table_device_tokens : Table DeviceToken := {|
  rows := tb_device_tokens;
  set_rows m d := d <| tb_device_tokens := m |>;
  check_ok today r := true;
  trigger_ok d old new := true;
  conflicts := conflicts_device_tokens
|}.

#[export] Instance table_orders : Table Order := {|
  rows := tb_orders;
  set_rows m d := d <| tb_orders := m |>;
  check_ok today r :=
    chk_delivery_date_window today r && chk_amounts_non_negative r &&
    chk_courier_required_after_assignment r && order_fits r;
  trigger_ok d old new := true;
  conflicts a b := false
|}.

#[export] Instance table_order_media : Table OrderMedia := {|
  rows := tb_order_media;
  set_rows m d := d <| tb_order_media := m |>;
  check_ok today r :=
    chk_proof_has_location r;
  trigger_ok d old new := true;
  conflicts a b := false
|}.

#[export] Instance table_promos : Table Promo := {|
  rows := tb_promos;
  set_rows m d := d <| tb_promos := m |>;
  check_ok today r :=
    chk_promo_code_upper r && chk_promo_code_len r && chk_promo_value_by_type r &&
    chk_promo_usage_bounds r && chk_promo_window r;
  trigger_ok d old new := true;
  conflicts := conflicts_promos
|}.

#[export] Instance table_invoices : Table Invoice := {|
  rows := tb_invoices;
  set_rows m d := d <| tb_invoices := m |>;
  check_ok today r :=
    chk_invoice_amounts_non_negative r && chk_invoice_total_positive r &&
    chk_invoice_net_math r && chk_invoice_total_math r && chk_invoice_promo_pairing r && invoice_fits r;
  trigger_ok d old new := true;
  conflicts := conflicts_invoices
|}.

#[export] Instance table_invoice_items : Table InvoiceItem := {|
  rows := tb_invoice_items;
  set_rows m d := d <| tb_invoice_items := m |>;
  check_ok today r :=
    chk_item_quantity r && chk_item_unit_price r && chk_item_tax_rate r && chk_item_line_math r;
  trigger_ok d := enforce_invoice_item_freeze (tb_invoices d);
  conflicts := conflicts_invoice_items
|}.

#[export] Instance table_promo_redemptions : Table PromoRedemption := {|
  rows := tb_promo_redemptions;
  set_rows m d := d <| tb_promo_redemptions := m |>;
  check_ok today r :=
    chk_redemption_amount_positive r;
  trigger_ok d old new := true;
  conflicts := conflicts_promo_redemptions
|}.

#[export] Instance table_payment_intents : Table PaymentIntent := {|
  rows := tb_payment_intents;
  set_rows m d := d <| tb_payment_intents := m |>;
  check_ok today r :=
    chk_intent_amount_positive r && chk_intent_purpose_reference r && intent_fits r;
  trigger_ok d old new := true;
  conflicts := conflicts_payment_intents
|}.

#[export] Instance table_wallet_topups : Table WalletTopup := {|
  rows := tb_wallet_topups;
  set_rows m d := d <| tb_wallet_topups := m |>;
  check_ok today r :=
    chk_topup_bounds r;
  trigger_ok d old new := true;
  conflicts := conflicts_wallet_topups
|}.

#[export] Instance table_conversations : Table Conversation := {|
  rows := tb_conversations;
  set_rows m d := d <| tb_conversations := m |>;
  check_ok today r := true;
  trigger_ok d old new := true;
  conflicts := conflicts_conversations
|}.

#[export] Instance table_messages : Table Message := {|
  rows := tb_messages;
  set_rows m d := d <| tb_messages := m |>;
  check_ok today r := true;
  trigger_ok d := enforce_message_append_only;
  conflicts a b := false
|}.

#[export] Instance table_wallets : Table Wallet := {|
  rows := tb_wallets;
  set_rows m d := d <| tb_wallets := m |>;
  check_ok today r :=
    chk_user_wallet_pairing r && chk_balance_non_negative r;
  trigger_ok d old new := true;
  conflicts := conflicts_wallets
|}.

#[export] Instance table_transactions : Table Transaction := {|
  rows := tb_transactions;
  set_rows m d := d <| tb_transactions := m |>;
  check_ok today r :=
    chk_amount_non_zero r;
  trigger_ok d := enforce_ledger_immutability;
  conflicts := conflicts_transactions
|}.

#[export] Instance table_withdrawals : Table Withdrawal := {|
  rows := tb_withdrawals;
  set_rows m d := d <| tb_withdrawals := m |>;
  check_ok today r :=
    chk_withdrawal_min r && withdrawal_fits r;
  trigger_ok d old new := true;
  conflicts := conflicts_withdrawals
|}.

#[export] Instance table_ratings : Table Rating := {|
  rows := tb_ratings;
  set_rows m d := d <| tb_ratings := m |>;
  check_ok today r :=
    chk_score_range r && chk_no_self_rating r;
  trigger_ok d old new := true;
  conflicts := conflicts_ratings
|}.

#[export] Instance table_disputes : Table Dispute := {|
  rows := tb_disputes;
  set_rows m d := d <| tb_disputes := m |>;
  check_ok today r := true;
  trigger_ok d old new := true;
  conflicts := conflicts_disputes
|}.

#[export] Instance table_admin_sessions : Table AdminSession := {|
  rows := tb_admin_sessions;
  set_rows m d := d <| tb_admin_sessions := m |>;
  check_ok today r := true;
  trigger_ok d old new := true;
  conflicts := conflicts_admin_sessions
|}.

#[export] Instance table_otp_attempts : Table OtpAttempt := {|
  rows := tb_otp_attempts;
  set_rows m d := d <| tb_otp_attempts := m |>;
  check_ok today r := true;
  trigger_ok d old new := true;
  conflicts a b := false
|}.

#[export] Instance table_audit_logs : Table AuditLog := {|
  rows := tb_audit_logs;
  set_rows m d := d <| tb_audit_logs := m |>;
  check_ok today r := true;
  trigger_ok d old new := true;
  conflicts a b := false
|}.

(** ** Computations *)

Definition M (A : Type) : Type := db → res (A * db).

#[export] Instance M_ret : MRet M := λ A a d, Ok (a, d).
#[export] Instance M_bind : MBind M := λ A B k m d,
  match m d with Ok (a, d') => k a d' | Raise e => Raise e end.
#[export] Instance M_fmap : FMap M := λ A B f m d,
  match m d with Ok (a, d') => Ok (f a, d') | Raise e => Raise e end.

Definition raise {A} (e : exn) : M A := λ _, Raise e.

(** A pure computation that may raise. *)
Definition lift {A} (r : res A) : M A := λ d, match r with Ok a => Ok (a, d) | Raise e => Raise e end.

Definition guard_ (b : bool) (e : exn) : M () := lift (raise_if b e).

(** [x = ...; if x is None: raise e]. *)
Definition unwrap {A} (o : option A) (e : exn) : M A :=
  match o with Some a => mret a | None => raise e end.

Definition when (b : bool) (m : M ()) : M () := if b then m else mret ().

Definition get_now : M instant := λ d, Ok (db_now d, d).

(** [uuid.uuid4()]. *)
Definition uuid4 : M uuid := λ d, Ok (db_next d, d <| db_next := (db_next d + 1)%N |>).

Fixpoint for_each {A} (f : A → M ()) (l : list A) : M () :=
  match l with
  | [] => mret ()
  | x :: l => f x;; for_each f l
  end.

Fixpoint map_M {A B} (f : A → M B) (l : list A) : M (list B) :=
  match l with
  | [] => mret []
  | x :: l => y ← f x; ys ← map_M f l; mret (y :: ys)
  end.

(** [try: async with session.begin_nested(): m / except IntegrityError: h]. *)
Definition savepoint_catch {A} (m : M A) (h : M A) : M A := λ d,
  match m d with
  | Raise IntegrityError => h d
  | r => r
  end.

Section RowOps.
Context {row : Type} `{Table row}.

(** [session.get(Model, id)]; also [SELECT ... WHERE id = :id FOR UPDATE]. *)
Definition get_row (id : uuid) : M (option row) := λ d, Ok (rows d !! id, d).

(** [SELECT ... WHERE f]. *)
Definition select_rows (f : uuid → row → bool) : M (list (uuid * row)) := λ d,
  Ok (filter (λ p, f p.1 p.2 = true) (map_to_list (rows d)), d).

(** [session.scalar(SELECT ... WHERE f)]: the first row, or None. *)
Definition scalar (f : uuid → row → bool) : M (option (uuid * row)) :=
  l ← select_rows f; mret (head l).

(** No other row conflicts with [r] at key [id]. *)
Definition unique_ok (d : db) (id : uuid) (r : row) : bool :=
  forallb (λ p, same p.1 id || negb (conflicts r p.2)) (map_to_list (rows d)).

Definition write_row (id : uuid) (old : option row) (r : row) : M () := λ d,
  if negb (trigger_ok d old (Some r)) then Raise DBAPIError
  else if negb (check_ok (current_date d) r) then Raise IntegrityError
  else if negb (unique_ok d id r) then Raise IntegrityError
  else Ok ((), set_rows (<[id := r]> (rows d)) d).

(** [session.add(row); flush()] with an explicit key. *)
Definition insert_row_at (id : uuid) (r : row) : M () := λ d,
  match rows d !! id with
  | Some _ => Raise IntegrityError
  | None => write_row id None r d
  end.

(** ... with the server-side default key. *)
Definition insert_row (r : row) : M uuid :=
  id ← uuid4; insert_row_at id r;; mret id.

(** Flush of a dirty row. *)
Definition update_row (id : uuid) (r : row) : M () := λ d, write_row id (rows d !! id) r d.

Definition delete_row (id : uuid) : M () := λ d,
  if negb (trigger_ok d (rows d !! id) None) then Raise DBAPIError
  else Ok ((), set_rows (delete id (rows d)) d).

(** [DELETE ... WHERE f], with the row count; [UPDATE ... SET g WHERE f]. *)
Definition delete_where (f : row → bool) : M Z :=
  l ← select_rows (λ _ r, f r);
  for_each (λ p, delete_row p.1) l;;
  mret (Z.of_nat (length l)).

Definition update_where (f : row → bool) (g : row → row) : M () :=
  l ← select_rows (λ _ r, f r);
  for_each (λ p, update_row p.1 (g p.2)) l.
End RowOps.

(** ** Reasoning about computations *)

Lemma bind_ok {A B} (m : M A) (k : A → M B) (d : db) (b : B) (d' : db) :
  (m ≫= k) d = Ok (b, d') ↔ ∃ a d1, m d = Ok (a, d1) ∧ k a d1 = Ok (b, d').
Proof.
  unfold mbind, M_bind. destruct (m d) as [[a d1]|e]; [|naive_solver].
  split; [eauto|]. by intros (? & ? & [= <- <-] & ?).
Qed.

Lemma bind_run {A B} (m : M A) (k : A → M B) (d d1 : db) (a : A) :
  m d = Ok (a, d1) → (m ≫= k) d = k a d1.
Proof. unfold mbind, M_bind. by intros ->. Qed.

Lemma bind_raise {A B} (m : M A) (k : A → M B) (d : db) (e : exn) :
  m d = Raise e → (m ≫= k) d = Raise e.
Proof. unfold mbind, M_bind. by intros ->. Qed.

Lemma lift_ok {A} (r : res A) (d : db) (a : A) (d' : db) :
  lift r d = Ok (a, d') ↔ r = Ok a ∧ d' = d.
Proof. unfold lift. destruct r; naive_solver. Qed.

Lemma guard_ok (b : bool) (e : exn) (d : db) (u : ()) (d' : db) :
  guard_ b e d = Ok (u, d') ↔ b = false ∧ d' = d.
Proof. unfold guard_. rewrite lift_ok, raise_if_ok. done. Qed.

Lemma unwrap_ok {A} (o : option A) (e : exn) (d : db) (a : A) (d' : db) :
  unwrap o e d = Ok (a, d') ↔ o = Some a ∧ d' = d.
Proof. destruct o; cbn; unfold mret, M_ret, raise; naive_solver. Qed.

Lemma savepoint_catch_ok {A} (m h : M A) (d : db) (a : A) (d' : db) :
  savepoint_catch m h d = Ok (a, d') ↔
  m d = Ok (a, d') ∨ (m d = Raise IntegrityError ∧ h d = Ok (a, d')).
Proof. unfold savepoint_catch. destruct (m d) as [[? ?]|[]]; naive_solver. Qed.

(** A property of the state that a computation keeps. *)
Definition keeps (P : db → Prop) {A} (m : M A) : Prop :=
  ∀ d a d', P d → m d = Ok (a, d') → P d'.

Lemma keeps_ret P {A} (a : A) : keeps P (mret a : M A).
Proof. intros d a' d' HP [= _ <-]. done. Qed.

Lemma keeps_bind P {A B} (m : M A) (k : A → M B) :
  keeps P m → (∀ a, keeps P (k a)) → keeps P (m ≫= k).
Proof. intros Hm Hk d b d' HP (a & d1 & H1 & H2)%bind_ok. eapply Hk; [|done]. by eapply Hm. Qed.

Lemma keeps_raise P {A} (e : exn) : keeps P (raise e : M A).
Proof. intros d a d' HP H. discriminate H. Qed.

Lemma keeps_lift P {A} (r : res A) : keeps P (lift r).
Proof. by intros d a d' HP [_ ->]%lift_ok. Qed.

Lemma keeps_guard P b e : keeps P (guard_ b e).
Proof. apply keeps_lift. Qed.

Lemma keeps_unwrap P {A} (o : option A) e : keeps P (unwrap o e).
Proof. by intros d a d' HP [_ ->]%unwrap_ok. Qed.

Lemma keeps_now P : keeps P get_now.
Proof. by intros d a d' HP [= _ <-]. Qed.

Lemma keeps_when P b m : keeps P m → keeps P (when b m).
Proof. destruct b; [done|]. intros _. apply keeps_ret. Qed.

Lemma keeps_if P {A} (b : bool) (m n : M A) : keeps P m → keeps P n → keeps P (if b then m else n).
Proof. by destruct b. Qed.

Lemma keeps_option P {A B} (o : option A) (m : A → M B) (n : M B) :
  (∀ a, keeps P (m a)) → keeps P n → keeps P (match o with Some a => m a | None => n end).
Proof. destruct o; auto. Qed.

Lemma keeps_savepoint P {A} (m h : M A) : keeps P m → keeps P h → keeps P (savepoint_catch m h).
Proof. intros Hm Hh d a d' HP [H|[_ H]]%savepoint_catch_ok; [by eapply Hm|by eapply Hh]. Qed.

Lemma keeps_for_each P {A} (f : A → M ()) (l : list A) : (∀ x, keeps P (f x)) → keeps P (for_each f l).
Proof.
  intros Hf. induction l as [|x l IH]; [apply keeps_ret|].
  apply keeps_bind; [done|]. intros _. done.
Qed.

Lemma keeps_map_M P {A B} (f : A → M B) (l : list A) : (∀ x, keeps P (f x)) → keeps P (map_M f l).
Proof.
  intros Hf. induction l as [|x l IH]; [apply keeps_ret|].
  apply keeps_bind; [done|]. intros y. apply keeps_bind; [done|]. intros ys. apply keeps_ret.
Qed.

Lemma keeps_fmap P {A B} (f : A → B) (m : M A) : keeps P m → keeps P (f <$> m).
Proof.
  intros Hm d b d' HP H. unfold fmap, M_fmap in H.
  destruct (m d) as [[a d1]|] eqn:E; [|done]. injection H as _ <-. by eapply Hm.
Qed.

Section RowLemmas.
Context {row : Type} `{Table row}.

Lemma keeps_get P id : keeps P (get_row id : M (option row)).
Proof. by intros d a d' HP [= _ <-]. Qed.

Lemma keeps_select P f : keeps P (select_rows f : M (list (uuid * row))).
Proof. by intros d a d' HP [= _ <-]. Qed.

Lemma keeps_scalar P f : keeps P (scalar f : M (option (uuid * row))).
Proof. apply keeps_bind; [apply keeps_select|]. intros. apply keeps_ret. Qed.

Lemma write_row_ok id old (r : row) d u d' :
  write_row id old r d = Ok (u, d') ↔
  trigger_ok d old (Some r) = true ∧ check_ok (current_date d) r = true ∧ unique_ok d id r = true ∧
  d' = set_rows (<[id := r]> (rows d)) d.
Proof.
  unfold write_row. destruct u.
  destruct (trigger_ok d old (Some r)), (check_ok (current_date d) r), (unique_ok d id r); cbn; naive_solver.
Qed.

Lemma update_row_ok id (r : row) d u d' :
  update_row id r d = Ok (u, d') ↔
  trigger_ok d (rows d !! id) (Some r) = true ∧ check_ok (current_date d) r = true ∧
  unique_ok d id r = true ∧ d' = set_rows (<[id := r]> (rows d)) d.
Proof. apply write_row_ok. Qed.

Lemma insert_row_at_ok id (r : row) d u d' :
  insert_row_at id r d = Ok (u, d') ↔
  rows d !! id = None ∧ trigger_ok d None (Some r) = true ∧ check_ok (current_date d) r = true ∧
  unique_ok d id r = true ∧ d' = set_rows (<[id := r]> (rows d)) d.
Proof.
  unfold insert_row_at. destruct (rows d !! id) eqn:E; [naive_solver|].
  rewrite write_row_ok. naive_solver.
Qed.

Lemma scalar_ok f d o d' :
  (scalar f : M (option (uuid * row))) d = Ok (o, d') ↔
  d' = d ∧ o = head (filter (λ p, f p.1 p.2 = true) (map_to_list (rows d))).
Proof. unfold scalar, select_rows, mbind, M_bind, mret, M_ret. naive_solver. Qed.

Lemma scalar_run f d :
  ∃ o, (scalar f : M (option (uuid * row))) d = Ok (o, d) ∧
    match o with
    | Some (id, r) => rows d !! id = Some r ∧ f id r = true
    | None => ∀ id r, rows d !! id = Some r → f id r = false
    end.
Proof.
  exists (head (filter (λ p, f p.1 p.2 = true) (map_to_list (rows d)))). split; [done|].
  destruct (filter _ _) as [|[id r] l] eqn:E; cbn.
  - intros id r Hr. apply not_true_is_false. intros Hf.
    assert ((id, r) ∈ filter (λ p, f p.1 p.2 = true) (map_to_list (rows d))) as Hin.
    { apply list_elem_of_filter. split; [done|]. by apply elem_of_map_to_list. }
    rewrite E in Hin. by apply not_elem_of_nil in Hin.
  - assert ((id, r) ∈ filter (λ p, f p.1 p.2 = true) (map_to_list (rows d))) as Hin by (rewrite E; left).
    apply list_elem_of_filter in Hin as [Hf Hin]. split; [by apply elem_of_map_to_list|done].
Qed.

Lemma scalar_some f d id (r : row) d' :
  (scalar f : M (option (uuid * row))) d = Ok (Some (id, r), d') → rows d !! id = Some r ∧ f id r = true.
Proof.
  destruct (scalar_run f d) as (o & -> & Ho). by intros [= -> <-].
Qed.

Lemma scalar_none f d d' :
  (scalar f : M (option (uuid * row))) d = Ok (None, d') →
  d' = d ∧ ∀ id r, rows d !! id = Some r → f id r = false.
Proof. destruct (scalar_run f d) as (o & -> & Ho). by intros [= -> <-]. Qed.

Lemma unique_ok_true d id (r : row) :
  unique_ok d id r = true ↔ ∀ id' r', rows d !! id' = Some r' → id' ≠ id → conflicts r r' = false.
Proof.
  unfold unique_ok. rewrite forallb_forall. split.
  - intros Hall id' r' Hr Hne. specialize (Hall (id', r')).
    rewrite <- list_elem_of_In, elem_of_map_to_list in Hall. specialize (Hall Hr). cbn [fst snd] in Hall.
    apply orb_true_iff in Hall as [Hs|Hs]; [apply (proj1 (same_true _ _)) in Hs; congruence|by apply negb_true_iff in Hs].
  - intros Hall [id' r'] Hin. apply list_elem_of_In, elem_of_map_to_list in Hin. cbn [fst snd].
    destruct (decide (id' = id)) as [->|Hne].
    + rewrite (proj2 (same_true id id)) by done. done.
    + rewrite (Hall id' r') by done. apply orb_true_r.
Qed.
End RowLemmas.

(** Decompose a successful run into the successful runs of its steps. *)
Ltac inv_run H :=
  cbn [fst snd] in H;
  lazymatch type of H with
  | Ok _ = Ok _ => injection H as H; try subst
  | Raise _ = Ok _ => discriminate H
  | (_ ≫= _) _ = Ok _ =>
      let a := fresh "v" in let d1 := fresh "d" in let E := fresh "E" in
      apply bind_ok in H as (a & d1 & E & H); inv_run E; inv_run H
  | mret _ _ = Ok _ => let E := fresh "E" in injection H as H E; try subst
  | raise _ _ = Ok _ => discriminate H
  | lift _ _ = Ok _ => let E := fresh "E" in apply lift_ok in H as [H E]; subst
  | guard_ _ _ _ = Ok _ => let E := fresh "E" in apply guard_ok in H as [H E]; subst
  | unwrap _ _ _ = Ok _ => let E := fresh "E" in apply unwrap_ok in H as [H E]; subst
  | get_now _ = Ok _ => let E := fresh "E" in injection H as H E; try subst
  | get_row _ _ = Ok _ => let E := fresh "E" in injection H as H E; try subst
  | uuid4 _ = Ok _ => let E := fresh "E" in injection H as H E; try subst
  | _ => idtac
  end.

Lemma for_each_lift_ok {A} (f : A → res ()) (l : list A) (d : db) (u : ()) (d' : db) :
  for_each (λ x, lift (f x)) l d = Ok (u, d') → d' = d ∧ Forall (λ x, is_ok (f x) = true) l.
Proof.
  revert d. induction l as [|x l IH]; intros d H; [injection H as _ <-; by split|]. cbn in H.
  apply bind_ok in H as (v & d1 & [Hf ->]%lift_ok & [-> Hl]%IH). split; [done|].
  constructor; [by rewrite Hf|done].
Qed.

(** Read off the writes of a decomposed run: checks and the new state. *)
Ltac inv_writes :=
  repeat match goal with
  | E : update_row _ _ _ = Ok (_, _) |- _ =>
      let T := fresh "Htrig" in let C := fresh "Hchk" in let U := fresh "Huniq" in
      apply update_row_ok in E as (T & C & U & E); try subst
  | E : insert_row_at _ _ _ = Ok (_, _) |- _ =>
      let N := fresh "Hnew" in let T := fresh "Htrig" in let C := fresh "Hchk" in let U := fresh "Huniq" in
      apply insert_row_at_ok in E as (N & T & C & U & E); try subst
  | E : insert_row _ _ = Ok (_, _) |- _ => unfold insert_row in E; inv_run E
  end.

(** The state reads [x] through [f]; with [f] the projection of a table, every
    write to another table keeps it. *)
Definition reads {A} (f : db → A) (x : A) (d : db) : Prop := f d = x.

(** [keeps (reads f x) m] says [m] leaves what [f] reads alone: use it on the run [E]. *)
Lemma keeps_reads {A B} (f : db → B) (m : M A) (d : db) (a : A) (d' : db) :
  keeps (reads f (f d)) m → m d = Ok (a, d') → f d' = f d.
Proof. intros Hk E. exact (Hk d a d' eq_refl E). Qed.

#[export] Hint Resolve keeps_ret keeps_bind keeps_raise keeps_lift keeps_guard keeps_unwrap keeps_now
  keeps_when keeps_if keeps_option keeps_savepoint keeps_for_each keeps_map_M keeps_fmap keeps_get
  keeps_select keeps_scalar : giftly.

(** ** Evaluating a run on a concrete state *)

Definition answer {A} (r : res (A * db)) : option A := match r with Ok (a, _) => Some a | Raise _ => None end.

Lemma answered {A} (r : res (A * db)) (a : A) : answer r = Some a → ∃ d', r = Ok (a, d').
Proof. destruct r as [[x d']|]; [|done]. intros [= ->]. by exists d'. Qed.

(** The state a request leaves behind: unchanged when it raises. *)
Definition state_after {A} (m : M A) (d : db) : db := match m d with Ok (_, d') => d' | Raise _ => d end.

Lemma keeps_state_after P {A} (m : M A) (d : db) : keeps P m → P d → P (state_after m d).
Proof. intros Hm Hd. unfold state_after. destruct (m d) as [[a d']|] eqn:E; [by eapply Hm|done]. Qed.

(** ** Framing: properties that survive the writes to a table *)

(** [P] survives every accepted write to a table: because it does not look at the
    table, or because the constraints of the table ensure it ... *)
Class Frame (P : db → Prop) (row : Type) `{Table row} : Prop := {
  frame_write : ∀ id old (r : row), keeps P (write_row id old r);
  frame_delete : ∀ id, keeps P (delete_row (row := row) id);
}.

(** ... and the id generator. *)
Class FrameNext (P : db → Prop) : Prop :=
  frame_next : ∀ n d, P d → P (d <| db_next := n |>).

Lemma frame_of_rows (P : db → Prop) (row : Type) `{Table row} :
  (∀ m d, P d → P (set_rows (row := row) m d)) → Frame P row.
Proof.
  intros HP. constructor.
  - intros id old r d u d' Hd (_ & _ & _ & ->)%write_row_ok. by apply HP.
  - intros id d u d' Hd Hr. unfold delete_row in Hr. destruct (negb _); [done|]. injection Hr as _ <-. by apply HP.
Qed.

Section Framing.
Context (P : db → Prop) {row : Type} `{Table row} `{!Frame P row}.

Lemma keeps_write id old (r : row) : keeps P (write_row id old r).
Proof. apply frame_write. Qed.

Lemma keeps_update id (r : row) : keeps P (update_row id r).
Proof. intros d u d' HP Hr. by eapply frame_write. Qed.

Lemma keeps_insert_at id (r : row) : keeps P (insert_row_at id r).
Proof.
  intros d u d' HP Hr. unfold insert_row_at in Hr. destruct (rows d !! id); [done|]. by eapply frame_write.
Qed.

Lemma keeps_delete id : keeps P (delete_row (row := row) id).
Proof. apply frame_delete. Qed.

Lemma keeps_delete_where (f : row → bool) : keeps P (delete_where f).
Proof.
  apply keeps_bind; [apply keeps_select|]. intros l.
  apply keeps_bind; [apply keeps_for_each; intros; apply keeps_delete|]. intros. apply keeps_ret.
Qed.

Lemma keeps_update_where (f : row → bool) (g : row → row) : keeps P (update_where f g).
Proof. apply keeps_bind; [apply keeps_select|]. intros l. apply keeps_for_each. intros. apply keeps_update. Qed.

Context `{!FrameNext P}.

Lemma keeps_new_uuid : keeps P uuid4.
Proof. intros d a d' HP [= _ <-]. by apply frame_next. Qed.

Lemma keeps_insert (r : row) : keeps P (insert_row r).
Proof.
  apply keeps_bind; [apply keeps_new_uuid|]. intros id. apply keeps_bind; [apply keeps_insert_at|].
  intros. apply keeps_ret.
Qed.
End Framing.

#[export] Hint Resolve keeps_write keeps_update keeps_insert_at keeps_delete keeps_delete_where keeps_update_where
  keeps_new_uuid keeps_insert : giftly.

(** A property of some tables only is framed by all the others: the instance is
    found by the frame lemma [lem] of the property. *)
Ltac frame_by lem := apply frame_of_rows; intros ? ?; apply lem; reflexivity.
Ltac frame_next_by lem := intros ? ?; apply lem; reflexivity.

#[export] Hint Extern 1 (Frame (reads _ _) _) =>
  (let E := fresh in apply frame_of_rows; intros ? ? E; exact E) : typeclass_instances.
#[export] Hint Extern 1 (FrameNext (reads _ _)) => (let E := fresh in intros ? ? E; exact E) : typeclass_instances.

(** Preservation by structure: binds, branches, and the known operations. *)
Ltac keeps_step :=
  match goal with
  | |- keeps _ (match ?x with _ => _ end) => destruct x
  | |- keeps _ (_ ≫= _) => apply keeps_bind; [|intros ?]
  | |- keeps _ (for_each _ _) => apply keeps_for_each; intros ?
  | |- keeps _ (savepoint_catch _ _) => apply keeps_savepoint
  | |- keeps _ (when _ _) => apply keeps_when
  | |- keeps _ _ => solve [auto with giftly typeclass_instances]
  | |- keeps _ (let _ := _ in _) => cbv zeta
  end.

Ltac keeps_auto := repeat keeps_step.

(** The run [E] leaves [f] alone: rewrite [f] of its final state. *)
Ltac same_after f E :=
  lazymatch type of E with
  | ?m ?d = Ok (?a, ?d') =>
      let K := fresh "K" in
      assert (f d' = f d) as K
        by (apply (keeps_reads f m d a d'); [solve [auto with giftly typeclass_instances | keeps_auto]|exact E]);
      cbn in K
  end.
