(* ===== verification/Constraints.v ===== *)
(** * Constraints as invariants

    What the row operations of Database.v guarantee about the stored rows: every
    row of a table satisfies its CHECKs and no two rows violate a unique index,
    provided the conflict relation of the table is symmetric.  [Frame (table_ok row)] holds for
    every table, so the framing lemmas of the components also show that their
    operations keep the constraints. *)

From Stdlib Require Import ZArith Lia.
From stdpp Require Import base list gmap strings numbers option sorting.
From S2P Require Import Prelude Errors Enums Tables Database.
Open Scope Z_scope.

(** What the generic operations need of a table. *)
Class TableLaws (row : Type) `{Table row} : Prop := {
  rows_set : ∀ m d, rows (set_rows m d) = m;
  set_set : ∀ m m' d, set_rows m (set_rows m' d) = set_rows m d;
  set_rows_id : ∀ d, set_rows (rows d) d = d;
  current_date_set : ∀ d m, current_date (set_rows m d) = current_date d;
  conflicts_sym : ∀ a b : row, conflicts a b = conflicts b a;
}.

Lemma same_comm {A} `{EqDecision A} (x y : A) : same x y = same y x.
Proof. unfold same. apply bool_decide_ext. done. Qed.

Lemma same_some_comm {A} `{EqDecision A} (x y : option A) : same_some x y = same_some y x.
Proof. destruct x, y; try done. apply bool_decide_ext. done. Qed.

Lemma conflicts_wallets_sym (a b : Wallet) : conflicts_wallets a b = conflicts_wallets b a.
Proof.
  unfold conflicts_wallets. rewrite (same_some_comm (w_user_id a)). f_equal.
  destruct (w_type a), (w_type b); done.
Qed.

Lemma conflicts_invoices_sym (a b : Invoice) : conflicts_invoices a b = conflicts_invoices b a.
Proof.
  unfold conflicts_invoices. rewrite (same_comm (inv_order_id a)), (andb_comm (invoice_active a)). done.
Qed.

Ltac conflicts_comm := first [apply same_comm | apply same_some_comm | apply f_equal2; conflicts_comm].

Ltac table_laws :=
  constructor; [done|done|intros []; reflexivity|done|];
  first [ done | exact conflicts_wallets_sym | exact conflicts_invoices_sym
        | let a := fresh in let b := fresh in
          intros a b; match goal with |- context [@conflicts _ ?t] => unfold conflicts, t end;
          match goal with |- ?f a b = _ => unfold f end; conflicts_comm ].

#[export] Instance laws_refresh_tokens : TableLaws RefreshToken := ltac:(table_laws).
#[export] Instance laws_users : TableLaws User := ltac:(table_laws).
#[export] Instance laws_courier_profiles : TableLaws CourierProfile := ltac:(table_laws).
#[export] Instance laws_courier_portfolios : TableLaws CourierPortfolio := ltac:(table_laws).
#[export] Instance laws_device_tokens : TableLaws DeviceToken := ltac:(table_laws).
#[export] Instance laws_orders : TableLaws Order := ltac:(table_laws).
#[export] Instance laws_order_media : TableLaws OrderMedia := ltac:(table_laws).
#[export] Instance laws_promos : TableLaws Promo := ltac:(table_laws).
#[export] Instance laws_invoices : TableLaws Invoice := ltac:(table_laws).
#[export] Instance laws_invoice_items : TableLaws InvoiceItem := ltac:(table_laws).
#[export] Instance laws_promo_redemptions : TableLaws PromoRedemption := ltac:(table_laws).
#[export] Instance laws_payment_intents : TableLaws PaymentIntent := ltac:(table_laws).
#[export] Instance laws_wallet_topups : TableLaws WalletTopup := ltac:(table_laws).
#[export] Instance laws_conversations : TableLaws Conversation := ltac:(table_laws).
#[export] Instance laws_messages : TableLaws Message := ltac:(table_laws).
#[export] Instance laws_wallets : TableLaws Wallet := ltac:(table_laws).
#[export] Instance laws_transactions : TableLaws Transaction := ltac:(table_laws).
#[export] Instance laws_withdrawals : TableLaws Withdrawal := ltac:(table_laws).
#[export] Instance laws_ratings : TableLaws Rating := ltac:(table_laws).
#[export] Instance laws_disputes : TableLaws Dispute := ltac:(table_laws).
#[export] Instance laws_admin_sessions : TableLaws AdminSession := ltac:(table_laws).
#[export] Instance laws_otp_attempts : TableLaws OtpAttempt := ltac:(table_laws).
#[export] Instance laws_audit_logs : TableLaws AuditLog := ltac:(table_laws).

(** Every row passed its CHECKs on the day it was last written ([CURRENT_DATE]
    occurs in one of them), and the unique indexes hold. *)
Record table_ok (row : Type) `{Table row} (d : db) : Prop := {
  tk_check : ∀ id r, rows d !! id = Some r → ∃ today, check_ok today r = true;
  tk_unique : ∀ i j a b, rows d !! i = Some a → rows d !! j = Some b → i ≠ j → conflicts a b = false;
}.

Section Kept.
Context {row : Type} `{TableLaws row}.

Lemma table_ok_empty (d : db) : rows d = ∅ → table_ok row d.
Proof. intros E. constructor; rewrite E; intros *; rewrite lookup_empty; done. Qed.

Lemma frame_table_ok : Frame (table_ok row) row.
Proof.
  constructor.
  - intros id old r d u d' [Hc Hu] (_ & Hck & Hun & ->)%write_row_ok. rewrite unique_ok_true in Hun.
    constructor; rewrite rows_set.
    + intros i x [[<- <-]|[_ Hx]]%lookup_insert_Some; [by exists (current_date d)|by eapply Hc].
    + intros i j a b [[<- <-]|[Hi Ha]]%lookup_insert_Some [[<- <-]|[Hj Hb]]%lookup_insert_Some Hij; [done|..].
      * by apply (Hun j b).
      * rewrite conflicts_sym. by apply (Hun i a).
      * by eapply Hu.
  - intros id d u d' [Hc Hu] Hr. unfold delete_row in Hr. destruct (negb _); [done|]. injection Hr as _ <-.
    constructor; rewrite rows_set.
    + intros i x [_ Hx]%lookup_delete_Some. by eapply Hc.
    + intros i j a b [_ Ha]%lookup_delete_Some [_ Hb]%lookup_delete_Some. by eapply Hu.
Qed.

(** ** Bulk statements

    An [UPDATE] whose assignment respects the constraints changes every selected row and
    nothing else; a [DELETE] no trigger forbids removes exactly the selected rows. *)

Definition bulk (P : uuid → Prop) `{∀ k, Decision (P k)} (g : row → option row) (m m' : gmap uuid row) : Prop :=
  ∀ k, m' !! k = if decide (P k) then m !! k ≫= g else m !! k.

Section Update.
Context (g : row → row).
Context (Htrig : ∀ d r, trigger_ok d (Some r) (Some (g r)) = true).
Context (Hconf : ∀ a b, conflicts a b = false → conflicts (g a) b = false).

Lemma for_each_update (l : list (uuid * row)) : ∀ d,
  NoDup (fst <$> l) → (∀ p, p ∈ l → rows d !! p.1 = Some p.2 ∧ check_ok (current_date d) (g p.2) = true) → table_ok row d →
  ∃ m, for_each (λ p, update_row p.1 (g p.2)) l d = Ok ((), set_rows m d) ∧ table_ok row (set_rows m d) ∧
    bulk (λ k, k ∈ l.*1) (λ r, Some (g r)) (rows d) m.
Proof.
  induction l as [|p l IH]; intros d Hnd Hl Hd.
  - exists (rows d). rewrite set_rows_id. split; [done|]. split; [done|]. intros k.
    by rewrite decide_False by apply not_elem_of_nil.
  - rewrite fmap_cons in Hnd. apply NoDup_cons in Hnd as [Hp Hnd]. destruct (Hl p ltac:(left)) as [Hr Hc].
    assert (update_row p.1 (g p.2) d = Ok ((), set_rows (<[p.1 := g p.2]> (rows d)) d)) as E.
    { apply update_row_ok. rewrite Hr, Htrig. split; [done|]. split; [done|]. split; [|done]. apply unique_ok_true.
      intros k r Hk Hne. apply Hconf. by apply (tk_unique _ _ Hd p.1 k). }
    set (d1 := set_rows (<[p.1 := g p.2]> (rows d)) d) in *.
    assert (rows d1 = <[p.1 := g p.2]> (rows d)) as E1 by apply rows_set.
    assert (table_ok row d1) as Hd1.
    { pose proof frame_table_ok as F. exact (keeps_update (table_ok row) _ _ _ _ _ Hd E). }
    assert (∀ q, q ∈ l → rows d1 !! q.1 = Some q.2 ∧ check_ok (current_date d1) (g q.2) = true) as Hl1.
    { intros q Hq. destruct (Hl q ltac:(by right)) as [Hq1 Hq2]. rewrite E1, lookup_insert_ne.
      - split; [done|]. unfold d1. by rewrite (current_date_set d).
      - intros Eq. apply Hp. rewrite Eq. by apply list_elem_of_fmap_2. }
    destruct (IH d1 Hnd Hl1 Hd1) as (m & Em & Hm & Hb). exists m. unfold d1 in Em, Hm. rewrite set_set in Em, Hm.
    split; [cbn [for_each]; erewrite bind_run by exact E; exact Em|]. split; [exact Hm|].
    intros k. rewrite (Hb k), E1, fmap_cons. destruct (decide (k = p.1)) as [->|Hne].
    + rewrite lookup_insert_eq, decide_False by done. rewrite decide_True by left. by rewrite Hr.
    + rewrite lookup_insert_ne by done. destruct (decide (k ∈ l.*1)) as [Hk|Hk].
      * by rewrite decide_True by (by right).
      * by rewrite decide_False by (rewrite elem_of_cons; intros [?|?]; done).
Qed.

Lemma update_where_run (f : row → bool) (d : db) :
  table_ok row d → (∀ k r, rows d !! k = Some r → f r = true → check_ok (current_date d) (g r) = true) →
  update_where f g d = Ok ((), set_rows ((λ r, if f r then g r else r) <$> rows d) d) ∧
  table_ok row (set_rows ((λ r, if f r then g r else r) <$> rows d) d).
Proof.
  intros Hd Hck. unfold update_where. erewrite bind_run by reflexivity.
  set (l := filter (λ p, f p.2 = true) (map_to_list (rows d))).
  assert (∀ p, p ∈ l ↔ f p.2 = true ∧ rows d !! p.1 = Some p.2) as Hl.
  { intros [k r]. unfold l. rewrite list_elem_of_filter, elem_of_map_to_list. done. }
  assert (NoDup (fst <$> l)) as Hnd.
  { apply (sublist_NoDup _ (fst <$> map_to_list (rows d))); [apply NoDup_fst_map_to_list|].
    unfold l. apply fmap_sublist, sublist_filter. }
  destruct (for_each_update l d Hnd) as (m & E & Hm & Hb); [|done|].
  { intros [k r] [Hf Hr]%Hl. split; [done|]. by apply (Hck k r). }
  assert (m = (λ r, if f r then g r else r) <$> rows d) as ->; [|done].
  apply map_eq. intros k. rewrite (Hb k), lookup_fmap. destruct (rows d !! k) as [r|] eqn:Hr; [|by destruct (decide _)].
  cbn. destruct (decide (k ∈ l.*1)) as [Hk|Hk].
  - apply list_elem_of_fmap in Hk as ([k' r'] & -> & [Hf Hr']%Hl). cbn in *. rewrite Hr in Hr'. injection Hr' as <-. by rewrite Hf.
  - destruct (f r) eqn:Hf; [|done]. exfalso. apply Hk. apply (list_elem_of_fmap_2 fst l (k, r)). by apply Hl.
Qed.
End Update.

(** A [DELETE] keeps what the removal of each selected row keeps. *)
Lemma keeps_delete_known (P : db → Prop) (f : row → bool) :
  (∀ d k r, P d → rows d !! k = Some r → f r = true → P (set_rows (delete k (rows d)) d)) → keeps P (delete_where f).
Proof.
  intros Hstep d n d' Hd Hr. unfold delete_where in Hr. erewrite bind_run in Hr by reflexivity.
  apply bind_ok in Hr as ([] & d1 & Hr & E). injection E as _ <-. revert Hr.
  set (l := filter _ _). assert (∀ p, p ∈ l → rows d !! p.1 = Some p.2 ∧ f p.2 = true) as Hl.
  { intros [k r]. unfold l. rewrite list_elem_of_filter, elem_of_map_to_list. naive_solver. }
  assert (NoDup (fst <$> l)) as Hnd.
  { apply (sublist_NoDup _ (fst <$> map_to_list (rows d))); [apply NoDup_fst_map_to_list|].
    unfold l. apply fmap_sublist, sublist_filter. }
  clearbody l. revert d Hd Hl. induction l as [|[k r] l IH]; intros d Hd Hl Hr; [by injection Hr as <-|].
  rewrite fmap_cons in Hnd. apply NoDup_cons in Hnd as [Hk Hnd]. destruct (Hl (k, r) ltac:(left)) as [Hkr Hf]. cbn in *.
  apply bind_ok in Hr as ([] & d2 & Hdel & Hr). unfold delete_row in Hdel. destruct (negb _); [done|]. injection Hdel as <-.
  apply (IH Hnd (set_rows (delete k (rows d)) d)); [by eapply Hstep| |done]. intros [j x] Hj. rewrite rows_set. cbn.
  destruct (Hl (j, x) ltac:(by right)) as [Hx Hfx]. split; [|done]. rewrite lookup_delete_ne; [done|].
  intros ->. apply Hk. apply (list_elem_of_fmap_2 fst l (j, x) Hj).
Qed.
End Kept.

(** The constraints of a table look at no other table. *)
Ltac frame_table :=
  first [ apply frame_table_ok
        | apply frame_of_rows; let C := fresh in let U := fresh in intros ? ? [C U]; constructor; [exact C|exact U] ].

#[export] Hint Extern 1 (Frame (table_ok _) _) => frame_table : typeclass_instances.
#[export] Hint Extern 1 (FrameNext (table_ok _)) =>
  (let C := fresh in let U := fresh in intros ? ? [C U]; constructor; [exact C|exact U]) : typeclass_instances.

Lemma fits_in (l : list money) (z : money) : fits l = true → z ∈ l → Z.abs z < 10 ^ 12.
Proof.
  unfold fits. rewrite forallb_forall. intros Hl Hz. apply list_elem_of_In in Hz. by apply Z.ltb_lt, Hl.
Qed.
