(* ===== verification/Ddl.v ===== *)
(** * Schemas and schema changes

    The state the migrations change: extensions, enum types, trigger functions, tables with
    their constraints and triggers, and indexes, each by name, with the rows of the database beside
    them.  [exec] is one Alembic operation or SQL statement as PostgreSQL executes it, the errors
    included: an object that exists or is missing, a column a constraint or an index names and the table
    does not have, a foreign key to columns that are not unique, an object that others depend on.

    Names follow PostgreSQL: an unnamed primary key is [<table>_pkey], an unnamed foreign key
    [<table>_<columns>_fkey]; tables, indexes and the indexes behind PRIMARY KEY and UNIQUE
    constraints share one name space.  CHECK and [WHERE] text is stored parsed (Sql.v), so renaming a column
    renames it there too, and two texts of the same expression are the same constraint. *)

From Stdlib Require Import ZArith Lia Ascii.
From stdpp Require Import base list gmap strings numbers option.
From S2P Require Import Prelude Errors Enums Tables Sql Database.
Open Scope Z_scope.

(** ** Types and columns *)

Inductive sqltype :=
  | UUID | String_ (length : nat) | Text | SmallInteger | Integer | BigInteger | Boolean
  | Date | DateTime_tz | Numeric (precision scale : nat) | INET | JSONB
  | ENUM (labels : list string) (name : string)
  | Geometry_point (srid : Z).

Inductive ondelete := NO_ACTION | CASCADE | RESTRICT.

Record column := Column { c_type : sqltype; c_nullable : bool; c_default : option string }.

(** The server defaults of SQLAlchemy, as the SQL they emit: [text(..)] verbatim, a plain string
    as a quoted literal, [func.now()]. *)
Definition sa_text (s : string) : option string := Some s.
Definition sa_literal (s : string) : option string := Some ("'" +:+ s +:+ "'").
Definition func_now : option string := Some "now()"%string.

(** ** Arguments of [op.create_table] *)

Inductive element :=
  | col (name : string) (ty : sqltype) (server_default : option string) (nullable : bool)
  | PrimaryKeyConstraint (cols : list string)
  | UniqueConstraint (cols : list string) (name : string)
  | CheckConstraint (sql name : string)
  | ForeignKeyConstraint (cols : list string) (target : string) (target_cols : list string) (on_delete : ondelete).

(** ** Stored objects *)

Inductive constraint :=
  | CPrimaryKey (cols : list string)
  | CUnique (cols : list string)
  | CCheck (e : expr)
  | CForeignKey (cols : list string) (target : string) (target_cols : list string) (on_delete : ondelete).

Inductive event := INSERT | UPDATE | DELETE.

Record trigger := Trigger { tr_events : list event; tr_function : string }.

Record table := Table_ {
  t_columns : gmap string column;
  t_constraints : gmap string constraint;
  t_triggers : gmap string trigger;
}.

Record index := Index {
  i_table : string;
  i_keys : list (string * bool);  (* column, DESC *)
  i_unique : bool;
  i_where : option expr;
  i_using : string;
}.

(** The bodies of the trigger functions: Database.v has their behaviour. *)
Inductive plpgsql := Set_updated_at | Enforce_ledger_immutability | Enforce_invoice_item_freeze | Enforce_message_append_only.

Record schema := Schema {
  s_extensions : gset string;
  s_types : gmap string (list string);
  s_functions : gmap string plpgsql;
  s_tables : gmap string table;
  s_indexes : gmap string index;
}.

Definition empty_schema : schema := Schema ∅ ∅ ∅ ∅ ∅.

#[export] Instance sqltype_eq_dec : EqDecision sqltype.
Proof. solve_decision. Defined.
#[export] Instance ondelete_eq_dec : EqDecision ondelete.
Proof. solve_decision. Defined.
#[export] Instance column_eq_dec : EqDecision column.
Proof. solve_decision. Defined.
#[export] Instance constraint_eq_dec : EqDecision constraint.
Proof. solve_decision. Defined.
#[export] Instance event_eq_dec : EqDecision event.
Proof. solve_decision. Defined.
#[export] Instance trigger_eq_dec : EqDecision trigger.
Proof. solve_decision. Defined.
#[export] Instance table_eq_dec : EqDecision table.
Proof. solve_decision. Defined.
#[export] Instance index_eq_dec : EqDecision index.
Proof. solve_decision. Defined.
#[export] Instance plpgsql_eq_dec : EqDecision plpgsql.
Proof. solve_decision. Defined.
#[export] Instance schema_eq_dec : EqDecision schema.
Proof. solve_decision. Defined.

(** ** Errors *)

Inductive ddl_error :=
  | Duplicate (name : string)
  | Undefined (name : string)
  | DependentObjects (name : string)
  | SyntaxError (sql : string)
  | InvalidForeignKey (target : string)
  | NotNullViolation (column : string)
  | Statement (e : exn).

Definition dres (A : Type) : Type := ddl_error + A.

#[export] Instance dres_ret : MRet dres := λ A a, inr a.
#[export] Instance dres_bind : MBind dres := λ A B f x, match x with inl e => inl e | inr a => f a end.

Definition require (b : bool) (e : ddl_error) : dres () := if b then inr () else inl e.

Definition find_or {A} (o : option A) (e : ddl_error) : dres A := match o with Some a => inr a | None => inl e end.

(** ** Operations *)

Inductive op :=
  | create_extension (name : string)
  | create_type (name : string) (labels : list string)
  | create_function (name : string) (body : plpgsql)
  | create_table (name : string) (elements : list element)
  | create_index (name tbl : string) (keys : list string) (unique : bool) (where_ : option string) (method : string)
  | create_trigger (name : string) (events : list event) (tbl : string) (function : string)
  | drop_index (name : string)
  | drop_table (name : string)
  | drop_function (name : string)
  | drop_type (name : string)
  | add_column (tbl name : string) (ty : sqltype) (server_default : option string) (nullable : bool)
  | drop_column (tbl name : string)
  | rename_column (tbl old new : string)
  | set_default (tbl name : string) (server_default : option string)
  | execute (uses : list (string * list string)) (statement : M ()).

(** Names taken in the name space of relations. *)
Definition owns_index (c : constraint) : bool := match c with CPrimaryKey _ | CUnique _ => true | _ => false end.

Definition relation_taken (s : schema) (name : string) : bool :=
  bool_decide (is_Some (s_tables s !! name)) || bool_decide (is_Some (s_indexes s !! name)) ||
  existsb (λ p, match t_constraints p.2 !! name with Some c => owns_index c | None => false end) (map_to_list (s_tables s)).

Definition join_names (l : list string) : string := String.concat "_" l.

(** A column type is usable: its enum type exists with these labels, PostGIS is installed. *)
Definition type_defined (s : schema) (ty : sqltype) : bool :=
  match ty with
  | ENUM labels name => bool_decide (s_types s !! name = Some labels)
  | Geometry_point _ => bool_decide ("postgis"%string ∈ s_extensions s)
  | _ => true
  end.

Definition has_columns (t : table) (l : list string) : bool := forallb (λ c, bool_decide (is_Some (t_columns t !! c))) l.

(** The columns of some primary key or unique constraint. *)
Definition unique_key (t : table) (l : list string) : bool :=
  existsb (λ p, match p.2 with CPrimaryKey k | CUnique k => bool_decide (k = l) | _ => false end) (map_to_list (t_constraints t)).

Definition parse_sql (sql : string) : dres expr := find_or (sql_parse sql) (SyntaxError sql).

Definition add_constraint (name : string) (c : constraint) (t : table) : dres table :=
  require (negb (bool_decide (is_Some (t_constraints t !! name)))) (Duplicate name) ≫= λ _,
  mret (Table_ (t_columns t) (<[name := c]> (t_constraints t)) (t_triggers t)).

(** The columns come first: constraints may name any of them. *)
Definition add_column_to (s : schema) (t : table) (name : string) (c : column) : dres table :=
  require (type_defined s (c_type c)) (Undefined name) ≫= λ _,
  require (negb (bool_decide (is_Some (t_columns t !! name)))) (Duplicate name) ≫= λ _,
  mret (Table_ (<[name := c]> (t_columns t)) (t_constraints t) (t_triggers t)).

Definition create_column (s : schema) (e : element) (t : table) : dres table :=
  match e with
  | col name ty d nullable => add_column_to s t name (Column ty nullable d)
  | _ => mret t
  end.

(** Every table a foreign key can name: those of the schema and the one being created. *)
Definition create_constraint (s : schema) (name : string) (e : element) (t : table) : dres table :=
  match e with
  | col _ _ _ _ => mret t
  | PrimaryKeyConstraint cols =>
      require (has_columns t cols) (Undefined name) ≫= λ _,
      require (negb (relation_taken s (name +:+ "_pkey"))) (Duplicate (name +:+ "_pkey")) ≫= λ _,
      add_constraint (name +:+ "_pkey") (CPrimaryKey cols) t
  | UniqueConstraint cols cname =>
      require (has_columns t cols) (Undefined cname) ≫= λ _,
      require (negb (relation_taken s cname)) (Duplicate cname) ≫= λ _,
      add_constraint cname (CUnique cols) t
  | CheckConstraint sql cname =>
      parse_sql sql ≫= λ e,
      require (has_columns t (expr_columns e)) (Undefined cname) ≫= λ _,
      add_constraint cname (CCheck e) t
  | ForeignKeyConstraint cols target target_cols del =>
      require (has_columns t cols) (Undefined target) ≫= λ _,
      find_or (<[name := t]> (s_tables s) !! target) (Undefined target) ≫= λ t',
      require (unique_key t' target_cols) (InvalidForeignKey target) ≫= λ _,
      add_constraint (name +:+ "_" +:+ join_names cols +:+ "_fkey") (CForeignKey cols target target_cols del) t
  end.

Fixpoint each {A S} (f : A → S → dres S) (l : list A) (s : S) : dres S :=
  match l with [] => mret s | x :: l' => f x s ≫= each f l' end.

Definition build_table (s : schema) (name : string) (elements : list element) : dres table :=
  each (create_column s) elements (Table_ ∅ ∅ ∅) ≫= each (create_constraint s name) elements.

(** An index key: a column, with [DESC] after it or not. *)
Definition index_key (k : string) : dres (string * bool) :=
  match sql_lex (S (String.length k)) (String.list_ascii_of_string k) with
  | Some [TWord c] => mret (c, false)
  | Some [TWord c; TWord d] => require (String.eqb d "DESC") (SyntaxError k) ≫= λ _, mret (c, true)
  | _ => inl (SyntaxError k)
  end.

Fixpoint index_keys (l : list string) : dres (list (string * bool)) :=
  match l with [] => mret [] | k :: l' => index_key k ≫= λ x, index_keys l' ≫= λ r, mret (x :: r) end.

Definition parse_where (w : option string) : dres (option expr) :=
  match w with None => mret None | Some sql => parse_sql sql ≫= λ e, mret (Some e) end.

Definition where_columns (w : option expr) : list string := match w with Some e => expr_columns e | None => [] end.

Definition build_index (s : schema) (tbl : string) (keys : list string) (unique : bool) (w : option string) (method : string) : dres index :=
  find_or (s_tables s !! tbl) (Undefined tbl) ≫= λ t,
  index_keys keys ≫= λ ks, parse_where w ≫= λ e,
  require (has_columns t (ks.*1 ++ where_columns e)) (Undefined tbl) ≫= λ _,
  mret (Index tbl ks unique e method).

Definition with_table (name : string) (t : table) (s : schema) : schema :=
  Schema (s_extensions s) (s_types s) (s_functions s) (<[name := t]> (s_tables s)) (s_indexes s).

Definition with_tables (ts : gmap string table) (s : schema) : schema :=
  Schema (s_extensions s) (s_types s) (s_functions s) ts (s_indexes s).

Definition with_indexes (ixs : gmap string index) (s : schema) : schema :=
  Schema (s_extensions s) (s_types s) (s_functions s) (s_tables s) ixs.

Definition references (target : string) (c : constraint) : bool :=
  match c with CForeignKey _ t _ _ => String.eqb t target | _ => false end.

(** Some other table has a foreign key to [name]. *)
Definition referenced (s : schema) (name : string) : bool :=
  existsb (λ p, negb (String.eqb p.1 name) && existsb (λ q, references name q.2) (map_to_list (t_constraints p.2)))
    (map_to_list (s_tables s)).

Definition uses_type (name : string) (t : table) : bool :=
  existsb (λ p, match c_type p.2 with ENUM _ n => String.eqb n name | _ => false end) (map_to_list (t_columns t)).

Definition uses_function (name : string) (t : table) : bool :=
  existsb (λ p, String.eqb (tr_function p.2) name) (map_to_list (t_triggers t)).

Definition constraint_columns (c : constraint) : list string :=
  match c with CPrimaryKey l | CUnique l => l | CCheck e => expr_columns e | CForeignKey l _ _ _ => l end.

Definition index_columns (i : index) : list string := (i_keys i).*1 ++ where_columns (i_where i).

(** A foreign key elsewhere to this column. *)
Definition column_referenced (s : schema) (tbl name : string) : bool :=
  existsb (λ p, existsb (λ q, match q.2 with CForeignKey _ t l _ => String.eqb t tbl && bool_decide (name ∈ l) | _ => false end)
    (map_to_list (t_constraints p.2))) (map_to_list (s_tables s)).

Definition rename_constraint (old new : string) (c : constraint) : constraint :=
  match c with
  | CPrimaryKey l => CPrimaryKey (renamed old new <$> l)
  | CUnique l => CUnique (renamed old new <$> l)
  | CCheck e => CCheck (rename_expr old new e)
  | CForeignKey l t l' d => CForeignKey (renamed old new <$> l) t l' d
  end.

(** The target columns of the foreign keys to [tbl]. *)
Definition retarget (tbl old new : string) (c : constraint) : constraint :=
  match c with
  | CForeignKey l t l' d => if String.eqb t tbl then CForeignKey l t (renamed old new <$> l') d else c
  | _ => c
  end.

Definition rename_index (old new : string) (i : index) : index :=
  Index (i_table i) ((λ p, (renamed old new p.1, p.2)) <$> i_keys i) (i_unique i) (rename_expr old new <$> i_where i) (i_using i).

Definition defines (s : schema) (use : string * list string) : bool :=
  match s_tables s !! use.1 with Some t => has_columns t use.2 | None => false end.

(** ** One operation on the schema *)

Definition exec_ddl (o : op) (s : schema) : dres schema :=
  match o with
  | create_extension name =>  (* IF NOT EXISTS *)
      mret (Schema ({[name]} ∪ s_extensions s) (s_types s) (s_functions s) (s_tables s) (s_indexes s))
  | create_type name labels =>  (* EXCEPTION WHEN duplicate_object THEN null *)
      match s_types s !! name with
      | Some _ => mret s
      | None => mret (Schema (s_extensions s) (<[name := labels]> (s_types s)) (s_functions s) (s_tables s) (s_indexes s))
      end
  | create_function name body =>  (* OR REPLACE *)
      mret (Schema (s_extensions s) (s_types s) (<[name := body]> (s_functions s)) (s_tables s) (s_indexes s))
  | create_table name elements =>
      require (negb (relation_taken s name)) (Duplicate name) ≫= λ _,
      build_table s name elements ≫= λ t, mret (with_table name t s)
  | create_index name tbl keys unique w method =>
      require (negb (relation_taken s name)) (Duplicate name) ≫= λ _,
      build_index s tbl keys unique w method ≫= λ i,
      mret (with_indexes (<[name := i]> (s_indexes s)) s)
  | create_trigger name events tbl function =>
      find_or (s_tables s !! tbl) (Undefined tbl) ≫= λ t,
      require (bool_decide (is_Some (s_functions s !! function))) (Undefined function) ≫= λ _,
      require (negb (bool_decide (is_Some (t_triggers t !! name)))) (Duplicate name) ≫= λ _,
      mret (with_table tbl (Table_ (t_columns t) (t_constraints t) (<[name := Trigger events function]> (t_triggers t))) s)
  | drop_index name =>
      find_or (s_indexes s !! name) (Undefined name) ≫= λ _,
      mret (with_indexes (delete name (s_indexes s)) s)
  | drop_table name =>
      find_or (s_tables s !! name) (Undefined name) ≫= λ _,
      require (negb (referenced s name)) (DependentObjects name) ≫= λ _,
      mret (with_indexes (filter (λ p, i_table p.2 ≠ name) (s_indexes s)) (with_tables (delete name (s_tables s)) s))
  | drop_function name =>  (* IF EXISTS *)
      require (negb (existsb (λ p, uses_function name p.2) (map_to_list (s_tables s)))) (DependentObjects name) ≫= λ _,
      mret (Schema (s_extensions s) (s_types s) (delete name (s_functions s)) (s_tables s) (s_indexes s))
  | drop_type name =>  (* IF EXISTS *)
      require (negb (existsb (λ p, uses_type name p.2) (map_to_list (s_tables s)))) (DependentObjects name) ≫= λ _,
      mret (Schema (s_extensions s) (delete name (s_types s)) (s_functions s) (s_tables s) (s_indexes s))
  | add_column tbl name ty d nullable =>
      find_or (s_tables s !! tbl) (Undefined tbl) ≫= λ t,
      require (nullable || bool_decide (is_Some d)) (NotNullViolation name) ≫= λ _,
      add_column_to s t name (Column ty nullable d) ≫= λ t', mret (with_table tbl t' s)
  | drop_column tbl name =>  (* the constraints and indexes of the column go with it *)
      find_or (s_tables s !! tbl) (Undefined tbl) ≫= λ t,
      require (has_columns t [name]) (Undefined name) ≫= λ _,
      require (negb (column_referenced s tbl name)) (DependentObjects name) ≫= λ _,
      mret (with_indexes (filter (λ p, ¬ (i_table p.2 = tbl ∧ name ∈ index_columns p.2)) (s_indexes s))
        (with_table tbl (Table_ (delete name (t_columns t))
          (filter (λ p, name ∉ constraint_columns p.2) (t_constraints t)) (t_triggers t)) s))
  | rename_column tbl old new =>
      find_or (s_tables s !! tbl) (Undefined tbl) ≫= λ t,
      find_or (t_columns t !! old) (Undefined old) ≫= λ c,
      require (negb (has_columns t [new])) (Duplicate new) ≫= λ _,
      let t' := Table_ (<[new := c]> (delete old (t_columns t))) (rename_constraint old new <$> t_constraints t) (t_triggers t) in
      let retargeted x := Table_ (t_columns x) (retarget tbl old new <$> t_constraints x) (t_triggers x) in
      mret (with_indexes ((λ i, if String.eqb (i_table i) tbl then rename_index old new i else i) <$> s_indexes s)
        (with_tables (retargeted <$> <[tbl := t']> (s_tables s)) s))
  | set_default tbl name d =>
      find_or (s_tables s !! tbl) (Undefined tbl) ≫= λ t,
      find_or (t_columns t !! name) (Undefined name) ≫= λ c,
      mret (with_table tbl (Table_ (<[name := Column (c_type c) (c_nullable c) d]> (t_columns t)) (t_constraints t) (t_triggers t)) s)
  | execute uses _ =>
      require (forallb (defines s) uses) (Undefined "relation") ≫= λ _, mret s
  end.

(** ** Operations on the schema and the rows *)

Definition state : Type := schema * db.

(** The text of a quoted default. *)
Definition unquote (s : string) : string :=
  String.string_of_list_ascii (filter (λ c, c ≠ "'"%char) (String.list_ascii_of_string s)).

(** ADD COLUMN gives the existing rows the default of the new column.  The rows of Tables.v have
    the columns of the current schema, so these are the columns the migrations add. *)
Definition fill_column (tbl name : string) (default_ : option string) (d : db) : db :=
  if String.eqb tbl "payment_intents" && String.eqb name "checkout_provider" then
    d <| tb_payment_intents := (λ r, r <| pin_checkout_provider := unquote (default EmptyString default_) |>) <$> tb_payment_intents d |>
  else if String.eqb tbl "withdrawals" && String.eqb name "idempotency_key" then
    d <| tb_withdrawals := (λ r, r <| wd_idempotency_key := unquote <$> default_ |>) <$> tb_withdrawals d |>
  else d.

Definition exec (o : op) (st : state) : dres state :=
  exec_ddl o st.1 ≫= λ s,
  match o with
  | add_column tbl name _ d _ => mret (s, fill_column tbl name d st.2)
  | execute _ m => match m st.2 with Ok (_, d) => mret (s, d) | Raise e => inl (Statement e) end
  | _ => mret (s, st.2)
  end.

Definition run (l : list op) (st : state) : dres state := each exec l st.

(** ** Lemmas *)

Lemma each_app {A S} (f : A → S → dres S) (l k : list A) (s : S) : each f (l ++ k) s = each f l s ≫= each f k.
Proof. revert s. induction l as [|x l IH]; intros s; cbn; [done|]. destruct (f x s); cbn; [done|]. apply IH. Qed.

(** Only these operations change rows. *)
Definition is_statement (o : op) : bool := match o with execute _ _ | add_column _ _ _ _ _ => true | _ => false end.

Lemma run_ddl (l : list op) : ∀ s d, forallb (λ o, negb (is_statement o)) l = true →
  run l (s, d) = each exec_ddl l s ≫= λ s', mret (s', d).
Proof.
  induction l as [|o l IH]; intros s d Hl; [done|]. cbn in Hl. apply andb_true_iff in Hl as [Ho Hl].
  transitivity (exec_ddl o s ≫= λ s1, run l (s1, d)).
  - change (run (o :: l) (s, d)) with (exec o (s, d) ≫= run l). unfold exec. cbn [fst snd].
    destruct (exec_ddl o s); [done|]. by destruct o.
  - cbn [each]. destruct (exec_ddl o s); [done|]. by apply IH.
Qed.
