(* ===== verification/Models.v ===== *)
(** * The declared schema ([app/models/tables.py], [app/models/base.py], [app/models/enums.py])

    [Base.metadata] as data: one [model] per ORM class, with the columns of its mixins, its own columns and
    its [__table_args__], in the order of the source.  [declared_schema] is the schema this metadata
    describes; Migrations.v shows that the migrations build it, SchemaRows.v that the row model
    of Tables.v and Database.v enforces it. *)

From Stdlib Require Import ZArith Lia Ascii.
From stdpp Require Import base list gmap strings numbers option.
From S2P Require Import Prelude Errors Enums Tables Sql Database Ddl.
Local Open Scope string_scope.

(** ** Python enumerations

    SQLAlchemy stores the name of a member, which is also its value in [app/models/enums.py]. *)

Class PyEnum (E : Type) := { members : list E; label : E → string }.

Class PyEnumLaws (E : Type) `{PyEnum E} : Prop := {
  members_all : ∀ e : E, e ∈ members;
  label_inj : ∀ a b : E, label a = label b → a = b;
}.

#[export] Instance enum_user_role : PyEnum user_role := {|
  members := [UserRole.CUSTOMER; UserRole.COURIER; UserRole.ADMIN];
  label e := match e with UserRole.CUSTOMER => "CUSTOMER" | UserRole.COURIER => "COURIER" | UserRole.ADMIN => "ADMIN" end
|}.

#[export] Instance enum_user_status : PyEnum user_status := {|
  members := [UserStatus.ACTIVE; UserStatus.BANNED; UserStatus.PENDING_VERIFICATION];
  label e := match e with UserStatus.ACTIVE => "ACTIVE" | UserStatus.BANNED => "BANNED" | UserStatus.PENDING_VERIFICATION => "PENDING_VERIFICATION" end
|}.

#[export] Instance enum_order_status : PyEnum order_status := {|
  members := [OrderStatus.NEW; OrderStatus.ASSIGNED; OrderStatus.WAITING_PAYMENT; OrderStatus.IN_PROGRESS; OrderStatus.DELIVERED; OrderStatus.COMPLETED; OrderStatus.CANCELLED; OrderStatus.DISPUTED; OrderStatus.REFUNDED];
  label e := match e with OrderStatus.NEW => "NEW" | OrderStatus.ASSIGNED => "ASSIGNED" | OrderStatus.WAITING_PAYMENT => "WAITING_PAYMENT" | OrderStatus.IN_PROGRESS => "IN_PROGRESS" | OrderStatus.DELIVERED => "DELIVERED" | OrderStatus.COMPLETED => "COMPLETED" | OrderStatus.CANCELLED => "CANCELLED" | OrderStatus.DISPUTED => "DISPUTED" | OrderStatus.REFUNDED => "REFUNDED" end
|}.

#[export] Instance enum_invoice_status : PyEnum invoice_status := {|
  members := [InvoiceStatus.DRAFT; InvoiceStatus.ISSUED; InvoiceStatus.PAID; InvoiceStatus.CANCELLED; InvoiceStatus.EXPIRED; InvoiceStatus.REFUNDED];
  label e := match e with InvoiceStatus.DRAFT => "DRAFT" | InvoiceStatus.ISSUED => "ISSUED" | InvoiceStatus.PAID => "PAID" | InvoiceStatus.CANCELLED => "CANCELLED" | InvoiceStatus.EXPIRED => "EXPIRED" | InvoiceStatus.REFUNDED => "REFUNDED" end
|}.

#[export] Instance enum_payment_purpose : PyEnum payment_purpose := {|
  members := [PaymentPurpose.ORDER_INVOICE; PaymentPurpose.WALLET_TOPUP];
  label e := match e with PaymentPurpose.ORDER_INVOICE => "ORDER_INVOICE" | PaymentPurpose.WALLET_TOPUP => "WALLET_TOPUP" end
|}.

#[export] Instance enum_payment_intent_status : PyEnum payment_intent_status := {|
  members := [PaymentIntentStatus.NEW; PaymentIntentStatus.PAID; PaymentIntentStatus.FAILED; PaymentIntentStatus.EXPIRED; PaymentIntentStatus.CANCELLED];
  label e := match e with PaymentIntentStatus.NEW => "NEW" | PaymentIntentStatus.PAID => "PAID" | PaymentIntentStatus.FAILED => "FAILED" | PaymentIntentStatus.EXPIRED => "EXPIRED" | PaymentIntentStatus.CANCELLED => "CANCELLED" end
|}.

#[export] Instance enum_payment_method : PyEnum payment_method := {|
  members := [PaymentMethod.WALLET_ONLY; PaymentMethod.GATEWAY_ONLY; PaymentMethod.SPLIT];
  label e := match e with PaymentMethod.WALLET_ONLY => "WALLET_ONLY" | PaymentMethod.GATEWAY_ONLY => "GATEWAY_ONLY" | PaymentMethod.SPLIT => "SPLIT" end
|}.

#[export] Instance enum_promo_discount_type : PyEnum promo_discount_type := {|
  members := [PromoDiscountType.PERCENT; PromoDiscountType.FIXED];
  label e := match e with PromoDiscountType.PERCENT => "PERCENT" | PromoDiscountType.FIXED => "FIXED" end
|}.

#[export] Instance enum_promo_redemption_status : PyEnum promo_redemption_status := {|
  members := [PromoRedemptionStatus.RESERVED; PromoRedemptionStatus.CONSUMED; PromoRedemptionStatus.RELEASED];
  label e := match e with PromoRedemptionStatus.RESERVED => "RESERVED" | PromoRedemptionStatus.CONSUMED => "CONSUMED" | PromoRedemptionStatus.RELEASED => "RELEASED" end
|}.

#[export] Instance enum_media_type : PyEnum media_type := {|
  members := [MediaType.CUSTOMER_REQUEST; MediaType.DELIVERY_PROOF];
  label e := match e with MediaType.CUSTOMER_REQUEST => "CUSTOMER_REQUEST" | MediaType.DELIVERY_PROOF => "DELIVERY_PROOF" end
|}.

#[export] Instance enum_message_type : PyEnum message_type := {|
  members := [MessageType.TEXT; MessageType.IMAGE; MessageType.VIDEO; MessageType.SYSTEM];
  label e := match e with MessageType.TEXT => "TEXT" | MessageType.IMAGE => "IMAGE" | MessageType.VIDEO => "VIDEO" | MessageType.SYSTEM => "SYSTEM" end
|}.

#[export] Instance enum_wallet_type : PyEnum wallet_type := {|
  members := [WalletType.CUSTOMER; WalletType.COURIER; WalletType.SYSTEM_ESCROW; WalletType.SYSTEM_REVENUE; WalletType.SYSTEM_GATEWAY; WalletType.SYSTEM_TAX_PAYABLE];
  label e := match e with WalletType.CUSTOMER => "CUSTOMER" | WalletType.COURIER => "COURIER" | WalletType.SYSTEM_ESCROW => "SYSTEM_ESCROW" | WalletType.SYSTEM_REVENUE => "SYSTEM_REVENUE" | WalletType.SYSTEM_GATEWAY => "SYSTEM_GATEWAY" | WalletType.SYSTEM_TAX_PAYABLE => "SYSTEM_TAX_PAYABLE" end
|}.

#[export] Instance enum_transaction_type : PyEnum transaction_type := {|
  members := [TransactionType.TOPUP; TransactionType.WITHDRAWAL; TransactionType.ESCROW_HOLD; TransactionType.ESCROW_RELEASE; TransactionType.PAYMENT; TransactionType.REFUND; TransactionType.COMMISSION; TransactionType.SERVICE_FEE; TransactionType.TAX; TransactionType.PROMO_SUBSIDY];
  label e := match e with TransactionType.TOPUP => "TOPUP" | TransactionType.WITHDRAWAL => "WITHDRAWAL" | TransactionType.ESCROW_HOLD => "ESCROW_HOLD" | TransactionType.ESCROW_RELEASE => "ESCROW_RELEASE" | TransactionType.PAYMENT => "PAYMENT" | TransactionType.REFUND => "REFUND" | TransactionType.COMMISSION => "COMMISSION" | TransactionType.SERVICE_FEE => "SERVICE_FEE" | TransactionType.TAX => "TAX" | TransactionType.PROMO_SUBSIDY => "PROMO_SUBSIDY" end
|}.

#[export] Instance enum_transaction_status : PyEnum transaction_status := {|
  members := [TransactionStatus.PENDING; TransactionStatus.SETTLED; TransactionStatus.REVERSED];
  label e := match e with TransactionStatus.PENDING => "PENDING" | TransactionStatus.SETTLED => "SETTLED" | TransactionStatus.REVERSED => "REVERSED" end
|}.

#[export] Instance enum_device_os : PyEnum device_os := {|
  members := [DeviceOs.IOS; DeviceOs.ANDROID];
  label e := match e with DeviceOs.IOS => "IOS" | DeviceOs.ANDROID => "ANDROID" end
|}.

#[export] Instance enum_withdrawal_status : PyEnum withdrawal_status := {|
  members := [WithdrawalStatus.REQUESTED; WithdrawalStatus.APPROVED; WithdrawalStatus.PAID; WithdrawalStatus.REJECTED];
  label e := match e with WithdrawalStatus.REQUESTED => "REQUESTED" | WithdrawalStatus.APPROVED => "APPROVED" | WithdrawalStatus.PAID => "PAID" | WithdrawalStatus.REJECTED => "REJECTED" end
|}.

#[export] Instance enum_dispute_status : PyEnum dispute_status := {|
  members := [DisputeStatus.OPEN; DisputeStatus.RESOLVED_CUSTOMER; DisputeStatus.RESOLVED_COURIER; DisputeStatus.RESOLVED_SPLIT];
  label e := match e with DisputeStatus.OPEN => "OPEN" | DisputeStatus.RESOLVED_CUSTOMER => "RESOLVED_CUSTOMER" | DisputeStatus.RESOLVED_COURIER => "RESOLVED_COURIER" | DisputeStatus.RESOLVED_SPLIT => "RESOLVED_SPLIT" end
|}.

Ltac enum_laws := constructor; [intros []; set_solver | intros [] []; done].

#[export] Instance enum_laws_user_role : PyEnumLaws user_role := ltac:(enum_laws).
#[export] Instance enum_laws_user_status : PyEnumLaws user_status := ltac:(enum_laws).
#[export] Instance enum_laws_order_status : PyEnumLaws order_status := ltac:(enum_laws).
#[export] Instance enum_laws_invoice_status : PyEnumLaws invoice_status := ltac:(enum_laws).
#[export] Instance enum_laws_payment_purpose : PyEnumLaws payment_purpose := ltac:(enum_laws).
#[export] Instance enum_laws_payment_intent_status : PyEnumLaws payment_intent_status := ltac:(enum_laws).
#[export] Instance enum_laws_payment_method : PyEnumLaws payment_method := ltac:(enum_laws).
#[export] Instance enum_laws_promo_discount_type : PyEnumLaws promo_discount_type := ltac:(enum_laws).
#[export] Instance enum_laws_promo_redemption_status : PyEnumLaws promo_redemption_status := ltac:(enum_laws).
#[export] Instance enum_laws_media_type : PyEnumLaws media_type := ltac:(enum_laws).
#[export] Instance enum_laws_message_type : PyEnumLaws message_type := ltac:(enum_laws).
#[export] Instance enum_laws_wallet_type : PyEnumLaws wallet_type := ltac:(enum_laws).
#[export] Instance enum_laws_transaction_type : PyEnumLaws transaction_type := ltac:(enum_laws).
#[export] Instance enum_laws_transaction_status : PyEnumLaws transaction_status := ltac:(enum_laws).
#[export] Instance enum_laws_device_os : PyEnumLaws device_os := ltac:(enum_laws).
#[export] Instance enum_laws_withdrawal_status : PyEnumLaws withdrawal_status := ltac:(enum_laws).
#[export] Instance enum_laws_dispute_status : PyEnumLaws dispute_status := ltac:(enum_laws).

(** [ENUM(enums.X, name=..)]. *)
Definition pg_enum (E : Type) `{PyEnum E} (name : string) : sqltype := ENUM (label <$> members (E := E)) name.

Definition pg_user_role : sqltype := pg_enum user_role "user_role".
Definition pg_user_status : sqltype := pg_enum user_status "user_status".
Definition pg_order_status : sqltype := pg_enum order_status "order_status".
Definition pg_invoice_status : sqltype := pg_enum invoice_status "invoice_status".
Definition pg_payment_purpose : sqltype := pg_enum payment_purpose "payment_purpose".
Definition pg_payment_intent_status : sqltype := pg_enum payment_intent_status "payment_intent_status".
Definition pg_payment_method : sqltype := pg_enum payment_method "payment_method".
Definition pg_promo_discount_type : sqltype := pg_enum promo_discount_type "promo_discount_type".
Definition pg_promo_redemption_status : sqltype := pg_enum promo_redemption_status "promo_redemption_status".
Definition pg_media_type : sqltype := pg_enum media_type "media_type".
Definition pg_message_type : sqltype := pg_enum message_type "message_type".
Definition pg_wallet_type : sqltype := pg_enum wallet_type "wallet_type".
Definition pg_transaction_type : sqltype := pg_enum transaction_type "transaction_type".
Definition pg_transaction_status : sqltype := pg_enum transaction_status "transaction_status".
Definition pg_device_os : sqltype := pg_enum device_os "device_os".
Definition pg_withdrawal_status : sqltype := pg_enum withdrawal_status "withdrawal_status".
Definition pg_dispute_status : sqltype := pg_enum dispute_status "dispute_status".

Definition MONEY_ : sqltype := Numeric 12 2.
Definition RATE_ : sqltype := Numeric 6 4.

(** ** Declarative models *)

Definition ForeignKey (target : string) (on_delete : ondelete) : option (string * ondelete) := Some (target, on_delete).

(** [mapped_column(type, ForeignKey(..), server_default=.., nullable=..)]. *)
Record mapped := Mapped {
  mc_name : string; mc_type : sqltype; mc_foreign_key : option (string * ondelete);
  mc_default : option string; mc_nullable : bool; mc_primary_key : bool;
}.

Definition mapped_column (name : string) (ty : sqltype) (fk : option (string * ondelete)) (d : option string) (nullable : bool) : mapped :=
  Mapped name ty fk d nullable false.

(** [primary_key=True] makes the column NOT NULL. *)
Definition primary_key_column (name : string) (ty : sqltype) (fk : option (string * ondelete)) (d : option string) : mapped :=
  Mapped name ty fk d false true.

Inductive table_arg :=
  | ArgUnique (cols : list string) (name : string)
  | ArgCheck (sql name : string)
  | ArgIndex (name : string) (keys : list string) (unique : bool) (where_ : option string) (method : string).

Record model := Model { m_table : string; m_columns : list mapped; m_args : list table_arg }.

Definition UUIDPrimaryKeyMixin : list mapped := [primary_key_column "id" UUID None (sa_text "gen_random_uuid()")].

Definition TimestampMixin : list mapped :=
  [mapped_column "created_at" DateTime_tz None func_now false;
   mapped_column "updated_at" DateTime_tz None func_now false].

(** ** The tables *)

Definition refresh_tokens_model : model := Model "refresh_tokens"
  (UUIDPrimaryKeyMixin ++
   [mapped_column "user_id" UUID (ForeignKey "users" CASCADE) None false;
    mapped_column "token_hash" (String_ 64) None None false;
    mapped_column "family_id" UUID None None false;
    mapped_column "expires_at" DateTime_tz None None false;
    mapped_column "used_at" DateTime_tz None None true;
    mapped_column "revoked_at" DateTime_tz None None true;
    mapped_column "created_at" DateTime_tz None (sa_text "now()") false])
  [ArgUnique ["token_hash"] "uq_refresh_tokens_hash";
   ArgIndex "idx_refresh_tokens_family" ["family_id"] false None "btree";
   ArgIndex "idx_refresh_tokens_user" ["user_id"] false None "btree"].

Definition users_model : model := Model "users"
  (UUIDPrimaryKeyMixin ++ TimestampMixin ++
   [mapped_column "phone" (String_ 20) None None false;
    mapped_column "email" (String_ 255) None None true;
    mapped_column "full_name" (String_ 120) None None true;
    mapped_column "date_of_birth" Date None None true;
    mapped_column "role" pg_user_role None None false;
    mapped_column "status" pg_user_status None (sa_literal (label UserStatus.ACTIVE)) false;
    mapped_column "rating" (Numeric 2 1) None (sa_text "5.0") false;
    mapped_column "rating_count" Integer None (sa_text "0") false;
    mapped_column "deleted_at" DateTime_tz None None true])
  [ArgCheck "rating BETWEEN 0.0 AND 5.0" "chk_rating_range";
   ArgUnique ["phone"] "uq_users_phone";
   ArgIndex "uq_users_email" ["email"] true (Some "email IS NOT NULL") "btree";
   ArgIndex "idx_users_role_status" ["role"; "status"] false None "btree"].

Definition courier_profiles_model : model := Model "courier_profiles"
  (TimestampMixin ++
   [primary_key_column "user_id" UUID (ForeignKey "users" CASCADE) None;
    mapped_column "passport_id_encrypted" (String_ 512) None None true;
    mapped_column "national_id_encrypted" (String_ 512) None None true;
    mapped_column "identity_fingerprint" (String_ 64) None None true;
    mapped_column "city_of_residence" (String_ 100) None None false;
    mapped_column "bio" Text None None true;
    mapped_column "is_verified" Boolean None (sa_text "false") false;
    mapped_column "verified_at" DateTime_tz None None true;
    mapped_column "verified_by_admin_id" UUID (ForeignKey "users" NO_ACTION) None true])
  [ArgCheck "passport_id_encrypted IS NOT NULL OR national_id_encrypted IS NOT NULL" "chk_identity_present";
   ArgIndex "idx_courier_profiles_city_verified" ["city_of_residence"; "is_verified"] false None "btree";
   ArgIndex "uq_courier_identity_fingerprint" ["identity_fingerprint"] true (Some "identity_fingerprint IS NOT NULL") "btree"].

Definition courier_portfolios_model : model := Model "courier_portfolios"
  (UUIDPrimaryKeyMixin ++ TimestampMixin ++
   [mapped_column "courier_id" UUID (ForeignKey "users" CASCADE) None false;
    mapped_column "storage_key" (String_ 512) None None false;
    mapped_column "media_type" pg_message_type None (sa_literal (label MessageType.IMAGE)) false;
    mapped_column "description" (String_ 500) None None true;
    mapped_column "display_order" Integer None (sa_text "0") false])
  [ArgIndex "idx_courier_portfolios_courier" ["courier_id"; "display_order"] false None "btree"].

Definition device_tokens_model : model := Model "device_tokens"
  (UUIDPrimaryKeyMixin ++ TimestampMixin ++
   [mapped_column "user_id" UUID (ForeignKey "users" CASCADE) None false;
    mapped_column "device_os" pg_device_os None None false;
    mapped_column "token" (String_ 512) None None false;
    mapped_column "last_seen_at" DateTime_tz None (sa_text "now()") false])
  [ArgUnique ["token"] "uq_device_tokens_token";
   ArgIndex "idx_device_tokens_user" ["user_id"] false None "btree"].

Definition orders_model : model := Model "orders"
  (UUIDPrimaryKeyMixin ++ TimestampMixin ++
   [mapped_column "customer_id" UUID (ForeignKey "users" RESTRICT) None false;
    mapped_column "courier_id" UUID (ForeignKey "users" RESTRICT) None true;
    mapped_column "description" Text None None true;
    mapped_column "delivery_city" (String_ 100) None None false;
    mapped_column "delivery_location" (Geometry_point 4326) None None false;
    mapped_column "delivery_address_note" (String_ 255) None None true;
    mapped_column "delivery_date" Date None None false;
    mapped_column "status" pg_order_status None (sa_literal (label OrderStatus.NEW)) false;
    mapped_column "total_amount" MONEY_ None (sa_text "0.00") false;
    mapped_column "commission_amount" MONEY_ None (sa_text "0.00") false;
    mapped_column "courier_payout_amount" MONEY_ None (sa_text "0.00") false;
    mapped_column "assigned_at" DateTime_tz None None true;
    mapped_column "delivered_at" DateTime_tz None None true;
    mapped_column "completed_at" DateTime_tz None None true;
    mapped_column "cancelled_reason" (String_ 255) None None true])
  [ArgCheck "delivery_date >= CURRENT_DATE AND delivery_date <= CURRENT_DATE + INTERVAL '180 days'" "chk_delivery_date_window";
   ArgCheck "total_amount >= 0 AND commission_amount >= 0 AND courier_payout_amount >= 0" "chk_amounts_non_negative";
   ArgCheck "status IN ('NEW','CANCELLED') OR courier_id IS NOT NULL" "chk_courier_required_after_assignment";
   ArgIndex "idx_orders_city_status" ["delivery_city"; "status"] false None "btree";
   ArgIndex "idx_orders_customer_created" ["customer_id"; "created_at DESC"] false None "btree";
   ArgIndex "idx_orders_courier_created" ["courier_id"; "created_at DESC"] false (Some "courier_id IS NOT NULL") "btree";
   ArgIndex "idx_orders_status_delivered_at" ["status"; "delivered_at"] false (Some "status = 'DELIVERED'") "btree";
   ArgIndex "idx_orders_location_gist" ["delivery_location"] false None "gist"].

Definition order_media_model : model := Model "order_media"
  (UUIDPrimaryKeyMixin ++ TimestampMixin ++
   [mapped_column "order_id" UUID (ForeignKey "orders" CASCADE) None false;
    mapped_column "uploaded_by_user_id" UUID (ForeignKey "users" NO_ACTION) None false;
    mapped_column "media_type" pg_media_type None None false;
    mapped_column "storage_key" (String_ 512) None None false;
    mapped_column "content_type" (String_ 50) None None false;
    mapped_column "byte_size" BigInteger None None false;
    mapped_column "capture_location" (Geometry_point 4326) None None true;
    mapped_column "captured_at" DateTime_tz None None true])
  [ArgCheck "media_type <> 'DELIVERY_PROOF' OR capture_location IS NOT NULL" "chk_proof_has_location";
   ArgIndex "idx_order_media_order_type" ["order_id"; "media_type"] false None "btree"].

Definition promos_model : model := Model "promos"
  (UUIDPrimaryKeyMixin ++ TimestampMixin ++
   [mapped_column "code" (String_ 32) None None false;
    mapped_column "description" (String_ 255) None None false;
    mapped_column "discount_type" pg_promo_discount_type None None false;
    mapped_column "percent_value" (Numeric 5 2) None None true;
    mapped_column "fixed_amount" MONEY_ None None true;
    mapped_column "max_discount_amount" MONEY_ None None true;
    mapped_column "min_order_amount" MONEY_ None (sa_text "0.00") false;
    mapped_column "max_total_usages" Integer None None true;
    mapped_column "max_usages_per_user" Integer None (sa_text "1") false;
    mapped_column "used_count" Integer None (sa_text "0") false;
    mapped_column "is_active" Boolean None (sa_text "true") false;
    mapped_column "starts_at" DateTime_tz None None true;
    mapped_column "ends_at" DateTime_tz None None true;
    mapped_column "created_by_admin_id" UUID (ForeignKey "users" NO_ACTION) None true])
  [ArgCheck "code = upper(code) AND code = btrim(code)" "chk_promo_code_upper";
   ArgCheck "char_length(code) BETWEEN 3 AND 32" "chk_promo_code_len";
   ArgCheck "(discount_type='PERCENT' AND percent_value IS NOT NULL AND fixed_amount IS NULL AND percent_value > 0 AND percent_value <= 100) OR (discount_type='FIXED' AND fixed_amount IS NOT NULL AND percent_value IS NULL AND fixed_amount > 0)" "chk_promo_value_by_type";
   ArgCheck "used_count >= 0 AND (max_total_usages IS NULL OR used_count <= max_total_usages) AND max_usages_per_user >= 1" "chk_promo_usage_bounds";
   ArgCheck "starts_at IS NULL OR ends_at IS NULL OR ends_at > starts_at" "chk_promo_window";
   ArgUnique ["code"] "uq_promos_code";
   ArgIndex "idx_promos_active_window" ["is_active"; "starts_at"; "ends_at"] false None "btree"].

Definition invoices_model : model := Model "invoices"
  (UUIDPrimaryKeyMixin ++ TimestampMixin ++
   [mapped_column "order_id" UUID (ForeignKey "orders" CASCADE) None false;
    mapped_column "issued_by_courier_id" UUID (ForeignKey "users" NO_ACTION) None false;
    mapped_column "status" pg_invoice_status None (sa_literal (label InvoiceStatus.DRAFT)) false;
    mapped_column "currency" (String_ 3) None (sa_text "'SAR'") false;
    mapped_column "items_net_amount" MONEY_ None (sa_text "0.00") false;
    mapped_column "courier_fee_amount" MONEY_ None (sa_text "0.00") false;
    mapped_column "service_fee_amount" MONEY_ None (sa_text "0.00") false;
    mapped_column "discount_amount" MONEY_ None (sa_text "0.00") false;
    mapped_column "net_after_discount_amount" MONEY_ None (sa_text "0.00") false;
    mapped_column "tax_amount" MONEY_ None (sa_text "0.00") false;
    mapped_column "total_amount" MONEY_ None (sa_text "0.00") false;
    mapped_column "promo_id" UUID (ForeignKey "promos" RESTRICT) None true;
    mapped_column "promo_code_snapshot" (String_ 32) None None true;
    mapped_column "payment_method" pg_payment_method None None true;
    mapped_column "amount_from_wallet" MONEY_ None (sa_text "0.00") false;
    mapped_column "amount_from_gateway" MONEY_ None (sa_text "0.00") false;
    mapped_column "pricing_breakdown" JSONB None None true;
    mapped_column "expires_at" DateTime_tz None None true;
    mapped_column "issued_at" DateTime_tz None None true;
    mapped_column "paid_at" DateTime_tz None None true;
    mapped_column "receipt_email_sent_at" DateTime_tz None None true])
  [ArgCheck "items_net_amount >= 0 AND courier_fee_amount >= 0 AND service_fee_amount >= 0 AND discount_amount >= 0 AND tax_amount >= 0 AND total_amount >= 0" "chk_invoice_amounts_non_negative";
   ArgCheck "status = 'DRAFT' OR total_amount > 0" "chk_invoice_total_positive";
   ArgCheck "net_after_discount_amount = items_net_amount + courier_fee_amount + service_fee_amount - discount_amount" "chk_invoice_net_math";
   ArgCheck "total_amount = net_after_discount_amount + tax_amount" "chk_invoice_total_math";
   ArgCheck "(promo_id IS NULL AND discount_amount = 0) OR (promo_id IS NOT NULL AND discount_amount > 0)" "chk_invoice_promo_pairing";
   ArgIndex "idx_invoices_order" ["order_id"] false None "btree";
   ArgIndex "uq_invoices_one_active_per_order" ["order_id"] true (Some "status IN ('DRAFT','ISSUED','PAID')") "btree";
   ArgIndex "idx_invoices_receipt_pending" ["id"] false (Some "status='PAID' AND receipt_email_sent_at IS NULL") "btree";
   ArgIndex "idx_invoices_status_expires" ["status"; "expires_at"] false (Some "status='ISSUED'") "btree";
   ArgIndex "idx_invoices_promo" ["promo_id"] false (Some "promo_id IS NOT NULL") "btree"].

Definition invoice_items_model : model := Model "invoice_items"
  (UUIDPrimaryKeyMixin ++ TimestampMixin ++
   [mapped_column "invoice_id" UUID (ForeignKey "invoices" CASCADE) None false;
    mapped_column "position" SmallInteger None None false;
    mapped_column "title" (String_ 120) None None false;
    mapped_column "description" (String_ 500) None None true;
    mapped_column "unit_price_amount" MONEY_ None None false;
    mapped_column "quantity" Integer None None false;
    mapped_column "tax_rate" RATE_ None None false;
    mapped_column "line_net_amount" MONEY_ None None false;
    mapped_column "line_discount_amount" MONEY_ None (sa_text "0.00") false;
    mapped_column "line_taxable_amount" MONEY_ None None false;
    mapped_column "line_tax_amount" MONEY_ None None false;
    mapped_column "line_total_amount" MONEY_ None None false])
  [ArgUnique ["invoice_id"; "position"] "uq_invoice_item_position";
   ArgCheck "quantity BETWEEN 1 AND 999" "chk_item_quantity";
   ArgCheck "unit_price_amount > 0" "chk_item_unit_price";
   ArgCheck "tax_rate >= 0 AND tax_rate <= 1" "chk_item_tax_rate";
   ArgCheck "line_net_amount = unit_price_amount * quantity AND line_taxable_amount = line_net_amount - line_discount_amount AND line_total_amount = line_taxable_amount + line_tax_amount" "chk_item_line_math";
   ArgIndex "idx_invoice_items_invoice" ["invoice_id"; "position"] false None "btree"].

Definition promo_redemptions_model : model := Model "promo_redemptions"
  (UUIDPrimaryKeyMixin ++ TimestampMixin ++
   [mapped_column "promo_id" UUID (ForeignKey "promos" RESTRICT) None false;
    mapped_column "user_id" UUID (ForeignKey "users" NO_ACTION) None false;
    mapped_column "invoice_id" UUID (ForeignKey "invoices" CASCADE) None false;
    mapped_column "order_id" UUID (ForeignKey "orders" NO_ACTION) None false;
    mapped_column "discount_amount" MONEY_ None None false;
    mapped_column "status" pg_promo_redemption_status None (sa_literal (label PromoRedemptionStatus.RESERVED)) false;
    mapped_column "released_at" DateTime_tz None None true;
    mapped_column "consumed_at" DateTime_tz None None true])
  [ArgUnique ["promo_id"; "invoice_id"] "uq_promo_redemption_invoice";
   ArgCheck "discount_amount > 0" "chk_redemption_amount_positive";
   ArgIndex "idx_promo_redemptions_promo_user" ["promo_id"; "user_id"; "status"] false None "btree";
   ArgIndex "idx_promo_redemptions_invoice" ["invoice_id"] false None "btree"].

Definition payment_intents_model : model := Model "payment_intents"
  (UUIDPrimaryKeyMixin ++ TimestampMixin ++
   [mapped_column "user_id" UUID (ForeignKey "users" NO_ACTION) None false;
    mapped_column "purpose" pg_payment_purpose None None false;
    mapped_column "amount" MONEY_ None None false;
    mapped_column "currency" (String_ 3) None (sa_text "'SAR'") false;
    mapped_column "status" pg_payment_intent_status None (sa_literal (label PaymentIntentStatus.NEW)) false;
    mapped_column "checkout_provider" (String_ 20) None (sa_text "'STREAMPAY'") false;
    mapped_column "streampay_payment_link_id" (String_ 100) None None true;
    mapped_column "streampay_payment_url" (String_ 512) None None true;
    mapped_column "reference_invoice_id" UUID (ForeignKey "invoices" NO_ACTION) None true;
    mapped_column "expires_at" DateTime_tz None None false;
    mapped_column "paid_at" DateTime_tz None None true;
    mapped_column "failure_reason" (String_ 255) None None true])
  [ArgCheck "amount > 0" "chk_intent_amount_positive";
   ArgCheck "(purpose='ORDER_INVOICE' AND reference_invoice_id IS NOT NULL) OR (purpose='WALLET_TOPUP' AND reference_invoice_id IS NULL)" "chk_intent_purpose_reference";
   ArgIndex "uq_payment_intents_streampay_link" ["streampay_payment_link_id"] true (Some "streampay_payment_link_id IS NOT NULL") "btree";
   ArgIndex "idx_payment_intents_user_created" ["user_id"; "created_at DESC"] false None "btree";
   ArgIndex "idx_payment_intents_status_expires" ["status"; "expires_at"] false (Some "status='NEW'") "btree";
   ArgIndex "idx_payment_intents_invoice" ["reference_invoice_id"] false (Some "reference_invoice_id IS NOT NULL") "btree"].

Definition wallet_topups_model : model := Model "wallet_topups"
  (UUIDPrimaryKeyMixin ++ TimestampMixin ++
   [mapped_column "user_id" UUID (ForeignKey "users" NO_ACTION) None false;
    mapped_column "wallet_id" UUID (ForeignKey "wallets" NO_ACTION) None false;
    mapped_column "payment_intent_id" UUID (ForeignKey "payment_intents" NO_ACTION) None false;
    mapped_column "amount" MONEY_ None None false])
  [ArgCheck "amount >= 100.00 AND amount <= 20000.00" "chk_topup_bounds";
   ArgUnique ["payment_intent_id"] "uq_wallet_topups_intent";
   ArgIndex "idx_wallet_topups_user_created" ["user_id"; "created_at DESC"] false None "btree"].

Definition conversations_model : model := Model "conversations"
  (UUIDPrimaryKeyMixin ++ TimestampMixin ++
   [mapped_column "order_id" UUID (ForeignKey "orders" CASCADE) None false;
    mapped_column "customer_id" UUID (ForeignKey "users" NO_ACTION) None false;
    mapped_column "courier_id" UUID (ForeignKey "users" NO_ACTION) None false;
    mapped_column "last_message_preview_encrypted" (String_ 512) None None true;
    mapped_column "last_message_timestamp" DateTime_tz None (sa_text "now()") false;
    mapped_column "customer_unread_count" Integer None (sa_text "0") false;
    mapped_column "courier_unread_count" Integer None (sa_text "0") false;
    mapped_column "is_closed" Boolean None (sa_text "false") false])
  [ArgUnique ["order_id"] "uq_conversations_order";
   ArgIndex "idx_conversations_customer_inbox" ["customer_id"; "last_message_timestamp DESC"] false None "btree";
   ArgIndex "idx_conversations_courier_inbox" ["courier_id"; "last_message_timestamp DESC"] false None "btree"].

Definition messages_model : model := Model "messages"
  (UUIDPrimaryKeyMixin ++ TimestampMixin ++
   [mapped_column "conversation_id" UUID (ForeignKey "conversations" CASCADE) None false;
    mapped_column "sender_id" UUID (ForeignKey "users" NO_ACTION) None false;
    mapped_column "message_type" pg_message_type None (sa_literal (label MessageType.TEXT)) false;
    mapped_column "content_encrypted" Text None None false;
    mapped_column "is_read" Boolean None (sa_text "false") false;
    mapped_column "read_at" DateTime_tz None None true])
  [ArgIndex "idx_messages_conversation_keyset" ["conversation_id"; "created_at DESC"; "id DESC"] false None "btree"].

Definition wallets_model : model := Model "wallets"
  (UUIDPrimaryKeyMixin ++ TimestampMixin ++
   [mapped_column "user_id" UUID (ForeignKey "users" RESTRICT) None true;
    mapped_column "type" pg_wallet_type None None false;
    mapped_column "balance" MONEY_ None (sa_text "0.00") false;
    mapped_column "held_balance" MONEY_ None (sa_text "0.00") false;
    mapped_column "currency" (String_ 3) None (sa_text "'SAR'") false;
    mapped_column "version" Integer None (sa_text "0") false])
  [ArgCheck "(type IN ('CUSTOMER','COURIER') AND user_id IS NOT NULL) OR (type IN ('SYSTEM_ESCROW','SYSTEM_REVENUE','SYSTEM_GATEWAY','SYSTEM_TAX_PAYABLE') AND user_id IS NULL)" "chk_user_wallet_pairing";
   ArgCheck "type IN ('SYSTEM_GATEWAY','SYSTEM_REVENUE') OR (balance >= 0 AND held_balance >= 0)" "chk_balance_non_negative";
   ArgIndex "uq_wallets_user" ["user_id"] true (Some "user_id IS NOT NULL") "btree";
   ArgIndex "uq_wallets_one_escrow" ["type"] true (Some "type='SYSTEM_ESCROW'") "btree";
   ArgIndex "uq_wallets_one_revenue" ["type"] true (Some "type='SYSTEM_REVENUE'") "btree";
   ArgIndex "uq_wallets_one_gateway" ["type"] true (Some "type='SYSTEM_GATEWAY'") "btree";
   ArgIndex "uq_wallets_one_tax" ["type"] true (Some "type='SYSTEM_TAX_PAYABLE'") "btree"].

Definition transactions_model : model := Model "transactions"
  (UUIDPrimaryKeyMixin ++ TimestampMixin ++
   [mapped_column "wallet_id" UUID (ForeignKey "wallets" RESTRICT) None false;
    mapped_column "amount" MONEY_ None None false;
    mapped_column "type" pg_transaction_type None None false;
    mapped_column "status" pg_transaction_status None (sa_literal (label TransactionStatus.SETTLED)) false;
    mapped_column "reference_order_id" UUID (ForeignKey "orders" RESTRICT) None true;
    mapped_column "reference_invoice_id" UUID (ForeignKey "invoices" RESTRICT) None true;
    mapped_column "reference_intent_id" UUID (ForeignKey "payment_intents" RESTRICT) None true;
    mapped_column "correlation_id" UUID None None false;
    mapped_column "balance_after" MONEY_ None None false;
    mapped_column "idempotency_key" (String_ 128) None None true;
    mapped_column "description" (String_ 255) None None true])
  [ArgCheck "amount <> 0" "chk_amount_non_zero";
   ArgIndex "idx_transactions_wallet_created" ["wallet_id"; "created_at DESC"; "id DESC"] false None "btree";
   ArgIndex "idx_transactions_correlation" ["correlation_id"] false None "btree";
   ArgIndex "idx_transactions_order" ["reference_order_id"] false (Some "reference_order_id IS NOT NULL") "btree";
   ArgIndex "uq_transactions_idempotency" ["idempotency_key"] true (Some "idempotency_key IS NOT NULL") "btree"].

Definition withdrawals_model : model := Model "withdrawals"
  (UUIDPrimaryKeyMixin ++ TimestampMixin ++
   [mapped_column "courier_id" UUID (ForeignKey "users" NO_ACTION) None false;
    mapped_column "wallet_id" UUID (ForeignKey "wallets" NO_ACTION) None false;
    mapped_column "amount" MONEY_ None None false;
    mapped_column "iban_encrypted" (String_ 512) None None false;
    mapped_column "iban_last4" (String_ 4) None None false;
    mapped_column "status" pg_withdrawal_status None (sa_literal (label WithdrawalStatus.REQUESTED)) false;
    mapped_column "processed_by_admin_id" UUID (ForeignKey "users" NO_ACTION) None true;
    mapped_column "rejection_reason" (String_ 255) None None true;
    mapped_column "idempotency_key" (String_ 128) None None true])
  [ArgCheck "amount >= 50.00" "chk_withdrawal_min";
   ArgIndex "idx_withdrawals_courier_status" ["courier_id"; "status"] false None "btree";
   ArgIndex "idx_withdrawals_status_created" ["status"; "created_at"] false None "btree";
   ArgIndex "uq_withdrawals_courier_idempotency" ["courier_id"; "idempotency_key"] true (Some "idempotency_key IS NOT NULL") "btree"].

Definition ratings_model : model := Model "ratings"
  (UUIDPrimaryKeyMixin ++ TimestampMixin ++
   [mapped_column "order_id" UUID (ForeignKey "orders" CASCADE) None false;
    mapped_column "rater_id" UUID (ForeignKey "users" NO_ACTION) None false;
    mapped_column "rated_user_id" UUID (ForeignKey "users" NO_ACTION) None false;
    mapped_column "score" SmallInteger None None false;
    mapped_column "comment" (String_ 500) None None true])
  [ArgCheck "score BETWEEN 1 AND 5" "chk_score_range";
   ArgCheck "rater_id <> rated_user_id" "chk_no_self_rating";
   ArgUnique ["order_id"; "rater_id"] "uq_ratings_order_rater";
   ArgIndex "idx_ratings_rated_user" ["rated_user_id"] false None "btree"].

Definition disputes_model : model := Model "disputes"
  (UUIDPrimaryKeyMixin ++ TimestampMixin ++
   [mapped_column "order_id" UUID (ForeignKey "orders" NO_ACTION) None false;
    mapped_column "raised_by_user_id" UUID (ForeignKey "users" NO_ACTION) None false;
    mapped_column "reason" (String_ 1000) None None false;
    mapped_column "status" pg_dispute_status None (sa_literal (label DisputeStatus.OPEN)) false;
    mapped_column "resolution_note" Text None None true;
    mapped_column "resolved_by_admin_id" UUID (ForeignKey "users" NO_ACTION) None true;
    mapped_column "resolved_at" DateTime_tz None None true])
  [ArgUnique ["order_id"] "uq_disputes_order";
   ArgIndex "idx_disputes_status_created" ["status"; "created_at"] false None "btree"].

Definition admin_sessions_model : model := Model "admin_sessions"
  (UUIDPrimaryKeyMixin ++ TimestampMixin ++
   [mapped_column "admin_user_id" UUID (ForeignKey "users" CASCADE) None false;
    mapped_column "session_token_hash" (String_ 64) None None false;
    mapped_column "ip_address" INET None None true;
    mapped_column "user_agent" (String_ 255) None None true;
    mapped_column "expires_at" DateTime_tz None None false;
    mapped_column "revoked_at" DateTime_tz None None true])
  [ArgUnique ["session_token_hash"] "uq_admin_sessions_token_hash";
   ArgIndex "idx_admin_sessions_admin_expires" ["admin_user_id"; "expires_at"] false None "btree"].

Definition otp_attempts_model : model := Model "otp_attempts"
  (UUIDPrimaryKeyMixin ++ TimestampMixin ++
   [mapped_column "phone_hash" (String_ 64) None None false;
    mapped_column "ip_address" INET None None true;
    mapped_column "was_successful" Boolean None None false])
  [].

Definition audit_logs_model : model := Model "audit_logs"
  (UUIDPrimaryKeyMixin ++ TimestampMixin ++
   [mapped_column "actor_user_id" UUID (ForeignKey "users" NO_ACTION) None true;
    mapped_column "action" (String_ 100) None None false;
    mapped_column "entity_type" (String_ 50) None None false;
    mapped_column "entity_id" UUID None None true;
    mapped_column "ip_address" INET None None true;
    mapped_column "metadata" JSONB None None true])
  [ArgIndex "idx_audit_logs_actor_created" ["actor_user_id"; "created_at DESC"] false None "btree";
   ArgIndex "idx_audit_logs_entity" ["entity_type"; "entity_id"] false None "btree"].

Definition metadata : list model :=
  [refresh_tokens_model; users_model; courier_profiles_model; courier_portfolios_model;
   device_tokens_model; orders_model; order_media_model; promos_model;
   invoices_model; invoice_items_model; promo_redemptions_model; payment_intents_model;
   wallet_topups_model; conversations_model; messages_model; wallets_model;
   transactions_model; withdrawals_model; ratings_model; disputes_model;
   admin_sessions_model; otp_attempts_model; audit_logs_model].

(** ** The schema the metadata describes *)

Definition mapped_element (c : mapped) : element := col (mc_name c) (mc_type c) (mc_default c) (mc_nullable c).

Definition fk_elements (c : mapped) : list element :=
  match mc_foreign_key c with Some (t, d) => [ForeignKeyConstraint [mc_name c] t ["id"] d] | None => [] end.

Definition arg_elements (a : table_arg) : list element :=
  match a with
  | ArgUnique cols name => [UniqueConstraint cols name]
  | ArgCheck sql name => [CheckConstraint sql name]
  | ArgIndex _ _ _ _ _ => []
  end.

(** The arguments of the [CREATE TABLE] SQLAlchemy derives from a model. *)
Definition model_elements (m : model) : list element :=
  (mapped_element <$> m_columns m) ++ (m_columns m ≫= fk_elements) ++
  [PrimaryKeyConstraint (mc_name <$> filter (λ c, mc_primary_key c = true) (m_columns m))] ++ (m_args m ≫= arg_elements).

(** The constraint an element declares; [None] for a column or for text that is not an expression. *)
Definition declared_constraint (name : string) (e : element) : option (string * constraint) :=
  match e with
  | col _ _ _ _ => None
  | PrimaryKeyConstraint cols => Some (name +:+ "_pkey", CPrimaryKey cols)
  | UniqueConstraint cols cname => Some (cname, CUnique cols)
  | CheckConstraint sql cname => e ← sql_parse sql; Some (cname, CCheck e)
  | ForeignKeyConstraint cols t tc d => Some (name +:+ "_" +:+ join_names cols +:+ "_fkey", CForeignKey cols t tc d)
  end.

Definition declared_table (m : model) : table :=
  Table_ (list_to_map ((λ c, (mc_name c, Column (mc_type c) (mc_nullable c) (mc_default c))) <$> m_columns m))
    (list_to_map (omap (declared_constraint (m_table m)) (model_elements m))) ∅.

Definition declared_index (m : model) (a : table_arg) : option (string * index) :=
  match a with
  | ArgIndex name keys unique w method =>
      match index_keys keys, parse_where w with
      | inr ks, inr e => Some (name, Index (m_table m) ks unique e method)
      | _, _ => None
      end
  | _ => None
  end.

Definition declared_types (m : model) : list (string * list string) :=
  omap (λ c, match mc_type c with ENUM labels name => Some (name, labels) | _ => None end) (m_columns m).

(** Tables (without triggers), indexes and enum types. *)
Definition declared_schema (ms : list model) : schema :=
  Schema ∅ (list_to_map (ms ≫= declared_types)) ∅ (list_to_map ((λ m, (m_table m, declared_table m)) <$> ms))
    (list_to_map (ms ≫= λ m, omap (declared_index m) (m_args m))).
