(* ===== verification/Migrations.v ===== *)
(** * The migrations ([app/migrations])

    The five revisions as lists of operations, in the order of the source, one definition per table of
    the baseline; [upgrade_to] and [downgrade_to] run the chain the way [app/migrations/env.py] asks Alembic
    to, in one transaction.  The statements that change rows are computations on the
    database of Database.v. *)

From Stdlib Require Import ZArith Lia Ascii.
From stdpp Require Import base list gmap strings numbers option.
From S2P Require Import Prelude Errors Enums Tables Sql Database Constraints Ddl Models.
Local Open Scope string_scope.

(** ** Statements *)

(** The four rows of the [INSERT] of the baseline. *)
Definition insert_system_wallets : M () :=
  now ← get_now;
  for_each (λ ty, insert_row (mk_Wallet None ty 0 0 "SAR" 0 now);; mret ())
    [WalletType.SYSTEM_ESCROW; WalletType.SYSTEM_REVENUE; WalletType.SYSTEM_GATEWAY; WalletType.SYSTEM_TAX_PAYABLE].

(** [status = 'NEW' AND checkout_provider = 'LEGACY']. *)
Definition legacy_open (i : PaymentIntent) : bool :=
  same (pin_status i) PaymentIntentStatus.NEW && String.eqb (pin_checkout_provider i) "LEGACY".

(** The wallet parts of the invoices the user's open legacy intents pay: the inner query, whose
    [GROUP BY] has no row for a user without such an intent. *)
Definition legacy_amounts (d : db) (user_id : uuid) : list money :=
  omap (λ p, if legacy_open p.2 && same (pin_purpose p.2) PaymentPurpose.ORDER_INVOICE && same (pin_user_id p.2) user_id
             then inv_amount_from_wallet <$> (pin_reference_invoice_id p.2 ≫= λ k, tb_invoices d !! k) else None)
    (map_to_list (tb_payment_intents d)).

Definition sum_Z (l : list Z) : Z := foldr Z.add 0%Z l.

Definition legacy_hold (d : db) (user_id : uuid) : option money :=
  match legacy_amounts d user_id with [] => None | l => Some (sum_Z l) end.

Definition release_legacy_holds : M () := λ d,
  let hold w := w_user_id w ≫= legacy_hold d in
  update_where (λ w, not_null (hold w))
    (λ w, w <| w_held_balance := Z.max 0 (w_held_balance w - default 0%Z (hold w)) |>) d.

Definition cancel_intent (i : PaymentIntent) : PaymentIntent :=
  i <| pin_status := PaymentIntentStatus.CANCELLED |>
    <| pin_failure_reason := Some "Legacy payment link replaced by StreamPay" |>
    <| pin_streampay_payment_link_id := None |> <| pin_streampay_payment_url := None |>.

Definition cancel_legacy_intents : M () := update_where legacy_open cancel_intent.

(** ** The revisions *)

Definition baseline_types : list op :=
  [create_extension "postgis";
   create_extension "pgcrypto";
   create_type "user_role" ["CUSTOMER"; "COURIER"; "ADMIN"];
   create_type "user_status" ["ACTIVE"; "BANNED"; "PENDING_VERIFICATION"];
   create_type "order_status" ["NEW"; "ASSIGNED"; "WAITING_PAYMENT"; "IN_PROGRESS"; "DELIVERED"; "COMPLETED"; "CANCELLED"; "DISPUTED"; "REFUNDED"];
   create_type "invoice_status" ["DRAFT"; "ISSUED"; "PAID"; "CANCELLED"; "EXPIRED"; "REFUNDED"];
   create_type "payment_purpose" ["ORDER_INVOICE"; "WALLET_TOPUP"];
   create_type "payment_intent_status" ["NEW"; "PAID"; "FAILED"; "EXPIRED"; "CANCELLED"];
   create_type "payment_method" ["WALLET_ONLY"; "GATEWAY_ONLY"; "SPLIT"];
   create_type "promo_discount_type" ["PERCENT"; "FIXED"];
   create_type "promo_redemption_status" ["RESERVED"; "CONSUMED"; "RELEASED"];
   create_type "media_type" ["CUSTOMER_REQUEST"; "DELIVERY_PROOF"];
   create_type "message_type" ["TEXT"; "IMAGE"; "VIDEO"; "SYSTEM"];
   create_type "wallet_type" ["CUSTOMER"; "COURIER"; "SYSTEM_ESCROW"; "SYSTEM_REVENUE"; "SYSTEM_GATEWAY"; "SYSTEM_TAX_PAYABLE"];
   create_type "transaction_type" ["TOPUP"; "WITHDRAWAL"; "ESCROW_HOLD"; "ESCROW_RELEASE"; "PAYMENT"; "REFUND"; "COMMISSION"; "SERVICE_FEE"; "TAX"; "PROMO_SUBSIDY"];
   create_type "transaction_status" ["PENDING"; "SETTLED"; "REVERSED"];
   create_type "device_os" ["IOS"; "ANDROID"];
   create_type "withdrawal_status" ["REQUESTED"; "APPROVED"; "PAID"; "REJECTED"];
   create_type "dispute_status" ["OPEN"; "RESOLVED_CUSTOMER"; "RESOLVED_COURIER"; "RESOLVED_SPLIT"]].

Definition baseline_functions : list op :=
  [create_function "set_updated_at" Set_updated_at;
   create_function "enforce_ledger_immutability" Enforce_ledger_immutability;
   create_function "enforce_invoice_item_freeze" Enforce_invoice_item_freeze;
   create_function "enforce_message_append_only" Enforce_message_append_only].

Definition baseline_otp_attempts : list op :=
  [create_table "otp_attempts"
    [col "phone_hash" (String_ 64) None false;
     col "ip_address" INET None true;
     col "was_successful" Boolean None false;
     col "id" UUID (sa_text "gen_random_uuid()") false;
     col "created_at" DateTime_tz (sa_text "now()") false;
     col "updated_at" DateTime_tz (sa_text "now()") false;
     PrimaryKeyConstraint ["id"]]].

Definition baseline_users : list op :=
  [create_table "users"
    [col "phone" (String_ 20) None false;
     col "email" (String_ 255) None true;
     col "full_name" (String_ 120) None true;
     col "date_of_birth" Date None true;
     col "role" (ENUM ["CUSTOMER"; "COURIER"; "ADMIN"] "user_role") None false;
     col "status" (ENUM ["ACTIVE"; "BANNED"; "PENDING_VERIFICATION"] "user_status") (sa_literal "ACTIVE") false;
     col "rating" (Numeric 2 1) (sa_text "5.0") false;
     col "rating_count" Integer (sa_text "0") false;
     col "deleted_at" DateTime_tz None true;
     col "id" UUID (sa_text "gen_random_uuid()") false;
     col "created_at" DateTime_tz (sa_text "now()") false;
     col "updated_at" DateTime_tz (sa_text "now()") false;
     CheckConstraint "rating BETWEEN 0.0 AND 5.0" "chk_rating_range";
     PrimaryKeyConstraint ["id"];
     UniqueConstraint ["phone"] "uq_users_phone"];
   create_index "idx_users_role_status" "users" ["role"; "status"] false None "btree";
   create_index "uq_users_email" "users" ["email"] true (Some "email IS NOT NULL") "btree"].

Definition baseline_admin_sessions : list op :=
  [create_table "admin_sessions"
    [col "admin_user_id" UUID None false;
     col "session_token_hash" (String_ 64) None false;
     col "ip_address" INET None true;
     col "user_agent" (String_ 255) None true;
     col "expires_at" DateTime_tz None false;
     col "revoked_at" DateTime_tz None true;
     col "id" UUID (sa_text "gen_random_uuid()") false;
     col "created_at" DateTime_tz (sa_text "now()") false;
     col "updated_at" DateTime_tz (sa_text "now()") false;
     ForeignKeyConstraint ["admin_user_id"] "users" ["id"] CASCADE;
     PrimaryKeyConstraint ["id"];
     UniqueConstraint ["session_token_hash"] "uq_admin_sessions_token_hash"];
   create_index "idx_admin_sessions_admin_expires" "admin_sessions" ["admin_user_id"; "expires_at"] false None "btree"].

Definition baseline_audit_logs : list op :=
  [create_table "audit_logs"
    [col "actor_user_id" UUID None true;
     col "action" (String_ 100) None false;
     col "entity_type" (String_ 50) None false;
     col "entity_id" UUID None true;
     col "ip_address" INET None true;
     col "metadata" JSONB None true;
     col "id" UUID (sa_text "gen_random_uuid()") false;
     col "created_at" DateTime_tz (sa_text "now()") false;
     col "updated_at" DateTime_tz (sa_text "now()") false;
     ForeignKeyConstraint ["actor_user_id"] "users" ["id"] NO_ACTION;
     PrimaryKeyConstraint ["id"]];
   create_index "idx_audit_logs_actor_created" "audit_logs" ["actor_user_id"; "created_at DESC"] false None "btree";
   create_index "idx_audit_logs_entity" "audit_logs" ["entity_type"; "entity_id"] false None "btree"].

Definition baseline_courier_portfolios : list op :=
  [create_table "courier_portfolios"
    [col "courier_id" UUID None false;
     col "storage_key" (String_ 512) None false;
     col "media_type" (ENUM ["TEXT"; "IMAGE"; "VIDEO"; "SYSTEM"] "message_type") (sa_literal "IMAGE") false;
     col "description" (String_ 500) None true;
     col "display_order" Integer (sa_text "0") false;
     col "id" UUID (sa_text "gen_random_uuid()") false;
     col "created_at" DateTime_tz (sa_text "now()") false;
     col "updated_at" DateTime_tz (sa_text "now()") false;
     ForeignKeyConstraint ["courier_id"] "users" ["id"] CASCADE;
     PrimaryKeyConstraint ["id"]];
   create_index "idx_courier_portfolios_courier" "courier_portfolios" ["courier_id"; "display_order"] false None "btree"].

Definition baseline_courier_profiles : list op :=
  [create_table "courier_profiles"
    [col "user_id" UUID None false;
     col "passport_id_encrypted" (String_ 512) None true;
     col "national_id_encrypted" (String_ 512) None true;
     col "identity_fingerprint" (String_ 64) None true;
     col "city_of_residence" (String_ 100) None false;
     col "bio" Text None true;
     col "is_verified" Boolean (sa_text "false") false;
     col "verified_at" DateTime_tz None true;
     col "verified_by_admin_id" UUID None true;
     col "created_at" DateTime_tz (sa_text "now()") false;
     col "updated_at" DateTime_tz (sa_text "now()") false;
     CheckConstraint "passport_id_encrypted IS NOT NULL OR national_id_encrypted IS NOT NULL" "chk_identity_present";
     ForeignKeyConstraint ["user_id"] "users" ["id"] CASCADE;
     ForeignKeyConstraint ["verified_by_admin_id"] "users" ["id"] NO_ACTION;
     PrimaryKeyConstraint ["user_id"]];
   create_index "idx_courier_profiles_city_verified" "courier_profiles" ["city_of_residence"; "is_verified"] false None "btree";
   create_index "uq_courier_identity_fingerprint" "courier_profiles" ["identity_fingerprint"] true (Some "identity_fingerprint IS NOT NULL") "btree"].

Definition baseline_device_tokens : list op :=
  [create_table "device_tokens"
    [col "user_id" UUID None false;
     col "device_os" (ENUM ["IOS"; "ANDROID"] "device_os") None false;
     col "token" (String_ 512) None false;
     col "last_seen_at" DateTime_tz (sa_text "now()") false;
     col "id" UUID (sa_text "gen_random_uuid()") false;
     col "created_at" DateTime_tz (sa_text "now()") false;
     col "updated_at" DateTime_tz (sa_text "now()") false;
     ForeignKeyConstraint ["user_id"] "users" ["id"] CASCADE;
     PrimaryKeyConstraint ["id"];
     UniqueConstraint ["token"] "uq_device_tokens_token"];
   create_index "idx_device_tokens_user" "device_tokens" ["user_id"] false None "btree"].

Definition baseline_orders : list op :=
  [create_table "orders"
    [col "customer_id" UUID None false;
     col "courier_id" UUID None true;
     col "description" Text None true;
     col "delivery_city" (String_ 100) None false;
     col "delivery_location" (Geometry_point 4326) None false;
     col "delivery_address_note" (String_ 255) None true;
     col "delivery_date" Date None false;
     col "status" (ENUM ["NEW"; "ASSIGNED"; "WAITING_PAYMENT"; "IN_PROGRESS"; "DELIVERED"; "COMPLETED"; "CANCELLED"; "DISPUTED"; "REFUNDED"] "order_status") (sa_literal "NEW") false;
     col "total_amount" (Numeric 12 2) (sa_text "0.00") false;
     col "commission_amount" (Numeric 12 2) (sa_text "0.00") false;
     col "courier_payout_amount" (Numeric 12 2) (sa_text "0.00") false;
     col "assigned_at" DateTime_tz None true;
     col "delivered_at" DateTime_tz None true;
     col "completed_at" DateTime_tz None true;
     col "cancelled_reason" (String_ 255) None true;
     col "id" UUID (sa_text "gen_random_uuid()") false;
     col "created_at" DateTime_tz (sa_text "now()") false;
     col "updated_at" DateTime_tz (sa_text "now()") false;
     CheckConstraint "delivery_date >= CURRENT_DATE AND delivery_date <= CURRENT_DATE + INTERVAL '180 days'" "chk_delivery_date_window";
     CheckConstraint "status IN ('NEW','CANCELLED') OR courier_id IS NOT NULL" "chk_courier_required_after_assignment";
     CheckConstraint "total_amount >= 0 AND commission_amount >= 0 AND courier_payout_amount >= 0" "chk_amounts_non_negative";
     ForeignKeyConstraint ["courier_id"] "users" ["id"] RESTRICT;
     ForeignKeyConstraint ["customer_id"] "users" ["id"] RESTRICT;
     PrimaryKeyConstraint ["id"]];
   create_index "idx_orders_city_status" "orders" ["delivery_city"; "status"] false None "btree";
   create_index "idx_orders_courier_created" "orders" ["courier_id"; "created_at DESC"] false (Some "courier_id IS NOT NULL") "btree";
   create_index "idx_orders_customer_created" "orders" ["customer_id"; "created_at DESC"] false None "btree";
   create_index "idx_orders_location_gist" "orders" ["delivery_location"] false None "gist";
   create_index "idx_orders_status_delivered_at" "orders" ["status"; "delivered_at"] false (Some "status = 'DELIVERED'") "btree"].

Definition baseline_promos : list op :=
  [create_table "promos"
    [col "code" (String_ 32) None false;
     col "description" (String_ 255) None false;
     col "discount_type" (ENUM ["PERCENT"; "FIXED"] "promo_discount_type") None false;
     col "percent_value" (Numeric 5 2) None true;
     col "fixed_amount" (Numeric 12 2) None true;
     col "max_discount_amount" (Numeric 12 2) None true;
     col "min_order_amount" (Numeric 12 2) (sa_text "0.00") false;
     col "max_total_usages" Integer None true;
     col "max_usages_per_user" Integer (sa_text "1") false;
     col "used_count" Integer (sa_text "0") false;
     col "is_active" Boolean (sa_text "true") false;
     col "starts_at" DateTime_tz None true;
     col "ends_at" DateTime_tz None true;
     col "created_by_admin_id" UUID None true;
     col "id" UUID (sa_text "gen_random_uuid()") false;
     col "created_at" DateTime_tz (sa_text "now()") false;
     col "updated_at" DateTime_tz (sa_text "now()") false;
     CheckConstraint "(discount_type='PERCENT' AND percent_value IS NOT NULL AND fixed_amount IS NULL AND percent_value > 0 AND percent_value <= 100) OR (discount_type='FIXED' AND fixed_amount IS NOT NULL AND percent_value IS NULL AND fixed_amount > 0)" "chk_promo_value_by_type";
     CheckConstraint "char_length(code) BETWEEN 3 AND 32" "chk_promo_code_len";
     CheckConstraint "code = upper(code) AND code = btrim(code)" "chk_promo_code_upper";
     CheckConstraint "starts_at IS NULL OR ends_at IS NULL OR ends_at > starts_at" "chk_promo_window";
     CheckConstraint "used_count >= 0 AND (max_total_usages IS NULL OR used_count <= max_total_usages) AND max_usages_per_user >= 1" "chk_promo_usage_bounds";
     ForeignKeyConstraint ["created_by_admin_id"] "users" ["id"] NO_ACTION;
     PrimaryKeyConstraint ["id"];
     UniqueConstraint ["code"] "uq_promos_code"];
   create_index "idx_promos_active_window" "promos" ["is_active"; "starts_at"; "ends_at"] false None "btree"].

Definition baseline_wallets : list op :=
  [create_table "wallets"
    [col "user_id" UUID None true;
     col "type" (ENUM ["CUSTOMER"; "COURIER"; "SYSTEM_ESCROW"; "SYSTEM_REVENUE"; "SYSTEM_GATEWAY"; "SYSTEM_TAX_PAYABLE"] "wallet_type") None false;
     col "balance" (Numeric 12 2) (sa_text "0.00") false;
     col "held_balance" (Numeric 12 2) (sa_text "0.00") false;
     col "currency" (String_ 3) (sa_text "'SAR'") false;
     col "version" Integer (sa_text "0") false;
     col "id" UUID (sa_text "gen_random_uuid()") false;
     col "created_at" DateTime_tz (sa_text "now()") false;
     col "updated_at" DateTime_tz (sa_text "now()") false;
     CheckConstraint "(type IN ('CUSTOMER','COURIER') AND user_id IS NOT NULL) OR (type IN ('SYSTEM_ESCROW','SYSTEM_REVENUE','SYSTEM_GATEWAY','SYSTEM_TAX_PAYABLE') AND user_id IS NULL)" "chk_user_wallet_pairing";
     CheckConstraint "type IN ('SYSTEM_GATEWAY','SYSTEM_REVENUE') OR (balance >= 0 AND held_balance >= 0)" "chk_balance_non_negative";
     ForeignKeyConstraint ["user_id"] "users" ["id"] RESTRICT;
     PrimaryKeyConstraint ["id"]];
   create_index "uq_wallets_one_escrow" "wallets" ["type"] true (Some "type='SYSTEM_ESCROW'") "btree";
   create_index "uq_wallets_one_gateway" "wallets" ["type"] true (Some "type='SYSTEM_GATEWAY'") "btree";
   create_index "uq_wallets_one_revenue" "wallets" ["type"] true (Some "type='SYSTEM_REVENUE'") "btree";
   create_index "uq_wallets_one_tax" "wallets" ["type"] true (Some "type='SYSTEM_TAX_PAYABLE'") "btree";
   create_index "uq_wallets_user" "wallets" ["user_id"] true (Some "user_id IS NOT NULL") "btree"].

Definition baseline_conversations : list op :=
  [create_table "conversations"
    [col "order_id" UUID None false;
     col "customer_id" UUID None false;
     col "courier_id" UUID None false;
     col "last_message_preview_encrypted" (String_ 512) None true;
     col "last_message_timestamp" DateTime_tz (sa_text "now()") false;
     col "customer_unread_count" Integer (sa_text "0") false;
     col "courier_unread_count" Integer (sa_text "0") false;
     col "is_closed" Boolean (sa_text "false") false;
     col "id" UUID (sa_text "gen_random_uuid()") false;
     col "created_at" DateTime_tz (sa_text "now()") false;
     col "updated_at" DateTime_tz (sa_text "now()") false;
     ForeignKeyConstraint ["courier_id"] "users" ["id"] NO_ACTION;
     ForeignKeyConstraint ["customer_id"] "users" ["id"] NO_ACTION;
     ForeignKeyConstraint ["order_id"] "orders" ["id"] CASCADE;
     PrimaryKeyConstraint ["id"];
     UniqueConstraint ["order_id"] "uq_conversations_order"];
   create_index "idx_conversations_courier_inbox" "conversations" ["courier_id"; "last_message_timestamp DESC"] false None "btree";
   create_index "idx_conversations_customer_inbox" "conversations" ["customer_id"; "last_message_timestamp DESC"] false None "btree"].

Definition baseline_disputes : list op :=
  [create_table "disputes"
    [col "order_id" UUID None false;
     col "raised_by_user_id" UUID None false;
     col "reason" (String_ 1000) None false;
     col "status" (ENUM ["OPEN"; "RESOLVED_CUSTOMER"; "RESOLVED_COURIER"; "RESOLVED_SPLIT"] "dispute_status") (sa_literal "OPEN") false;
     col "resolution_note" Text None true;
     col "resolved_by_admin_id" UUID None true;
     col "resolved_at" DateTime_tz None true;
     col "id" UUID (sa_text "gen_random_uuid()") false;
     col "created_at" DateTime_tz (sa_text "now()") false;
     col "updated_at" DateTime_tz (sa_text "now()") false;
     ForeignKeyConstraint ["order_id"] "orders" ["id"] NO_ACTION;
     ForeignKeyConstraint ["raised_by_user_id"] "users" ["id"] NO_ACTION;
     ForeignKeyConstraint ["resolved_by_admin_id"] "users" ["id"] NO_ACTION;
     PrimaryKeyConstraint ["id"];
     UniqueConstraint ["order_id"] "uq_disputes_order"];
   create_index "idx_disputes_status_created" "disputes" ["status"; "created_at"] false None "btree"].

Definition baseline_invoices : list op :=
  [create_table "invoices"
    [col "order_id" UUID None false;
     col "issued_by_courier_id" UUID None false;
     col "status" (ENUM ["DRAFT"; "ISSUED"; "PAID"; "CANCELLED"; "EXPIRED"; "REFUNDED"] "invoice_status") (sa_literal "DRAFT") false;
     col "currency" (String_ 3) (sa_text "'SAR'") false;
     col "items_net_amount" (Numeric 12 2) (sa_text "0.00") false;
     col "courier_fee_amount" (Numeric 12 2) (sa_text "0.00") false;
     col "service_fee_amount" (Numeric 12 2) (sa_text "0.00") false;
     col "discount_amount" (Numeric 12 2) (sa_text "0.00") false;
     col "net_after_discount_amount" (Numeric 12 2) (sa_text "0.00") false;
     col "tax_amount" (Numeric 12 2) (sa_text "0.00") false;
     col "total_amount" (Numeric 12 2) (sa_text "0.00") false;
     col "promo_id" UUID None true;
     col "promo_code_snapshot" (String_ 32) None true;
     col "payment_method" (ENUM ["WALLET_ONLY"; "GATEWAY_ONLY"; "SPLIT"] "payment_method") None true;
     col "amount_from_wallet" (Numeric 12 2) (sa_text "0.00") false;
     col "amount_from_gateway" (Numeric 12 2) (sa_text "0.00") false;
     col "pricing_breakdown" JSONB None true;
     col "expires_at" DateTime_tz None true;
     col "issued_at" DateTime_tz None true;
     col "paid_at" DateTime_tz None true;
     col "receipt_email_sent_at" DateTime_tz None true;
     col "id" UUID (sa_text "gen_random_uuid()") false;
     col "created_at" DateTime_tz (sa_text "now()") false;
     col "updated_at" DateTime_tz (sa_text "now()") false;
     CheckConstraint "status = 'DRAFT' OR total_amount > 0" "chk_invoice_total_positive";
     CheckConstraint "(promo_id IS NULL AND discount_amount = 0) OR (promo_id IS NOT NULL AND discount_amount > 0)" "chk_invoice_promo_pairing";
     CheckConstraint "items_net_amount >= 0 AND courier_fee_amount >= 0 AND service_fee_amount >= 0 AND discount_amount >= 0 AND tax_amount >= 0 AND total_amount >= 0" "chk_invoice_amounts_non_negative";
     CheckConstraint "net_after_discount_amount = items_net_amount + courier_fee_amount + service_fee_amount - discount_amount" "chk_invoice_net_math";
     CheckConstraint "total_amount = net_after_discount_amount + tax_amount" "chk_invoice_total_math";
     ForeignKeyConstraint ["issued_by_courier_id"] "users" ["id"] NO_ACTION;
     ForeignKeyConstraint ["order_id"] "orders" ["id"] CASCADE;
     ForeignKeyConstraint ["promo_id"] "promos" ["id"] RESTRICT;
     PrimaryKeyConstraint ["id"]];
   create_index "idx_invoices_order" "invoices" ["order_id"] false None "btree";
   create_index "idx_invoices_promo" "invoices" ["promo_id"] false (Some "promo_id IS NOT NULL") "btree";
   create_index "idx_invoices_receipt_pending" "invoices" ["id"] false (Some "status='PAID' AND receipt_email_sent_at IS NULL") "btree";
   create_index "idx_invoices_status_expires" "invoices" ["status"; "expires_at"] false (Some "status='ISSUED'") "btree";
   create_index "uq_invoices_one_active_per_order" "invoices" ["order_id"] true (Some "status IN ('DRAFT','ISSUED','PAID')") "btree"].

Definition baseline_order_media : list op :=
  [create_table "order_media"
    [col "order_id" UUID None false;
     col "uploaded_by_user_id" UUID None false;
     col "media_type" (ENUM ["CUSTOMER_REQUEST"; "DELIVERY_PROOF"] "media_type") None false;
     col "storage_key" (String_ 512) None false;
     col "content_type" (String_ 50) None false;
     col "byte_size" BigInteger None false;
     col "capture_location" (Geometry_point 4326) None true;
     col "captured_at" DateTime_tz None true;
     col "id" UUID (sa_text "gen_random_uuid()") false;
     col "created_at" DateTime_tz (sa_text "now()") false;
     col "updated_at" DateTime_tz (sa_text "now()") false;
     CheckConstraint "media_type <> 'DELIVERY_PROOF' OR capture_location IS NOT NULL" "chk_proof_has_location";
     ForeignKeyConstraint ["order_id"] "orders" ["id"] CASCADE;
     ForeignKeyConstraint ["uploaded_by_user_id"] "users" ["id"] NO_ACTION;
     PrimaryKeyConstraint ["id"]];
   create_index "idx_order_media_order_type" "order_media" ["order_id"; "media_type"] false None "btree"].

Definition baseline_ratings : list op :=
  [create_table "ratings"
    [col "order_id" UUID None false;
     col "rater_id" UUID None false;
     col "rated_user_id" UUID None false;
     col "score" SmallInteger None false;
     col "comment" (String_ 500) None true;
     col "id" UUID (sa_text "gen_random_uuid()") false;
     col "created_at" DateTime_tz (sa_text "now()") false;
     col "updated_at" DateTime_tz (sa_text "now()") false;
     CheckConstraint "rater_id <> rated_user_id" "chk_no_self_rating";
     CheckConstraint "score BETWEEN 1 AND 5" "chk_score_range";
     ForeignKeyConstraint ["order_id"] "orders" ["id"] CASCADE;
     ForeignKeyConstraint ["rated_user_id"] "users" ["id"] NO_ACTION;
     ForeignKeyConstraint ["rater_id"] "users" ["id"] NO_ACTION;
     PrimaryKeyConstraint ["id"];
     UniqueConstraint ["order_id"; "rater_id"] "uq_ratings_order_rater"];
   create_index "idx_ratings_rated_user" "ratings" ["rated_user_id"] false None "btree"].

Definition baseline_withdrawals : list op :=
  [create_table "withdrawals"
    [col "courier_id" UUID None false;
     col "wallet_id" UUID None false;
     col "amount" (Numeric 12 2) None false;
     col "iban_encrypted" (String_ 512) None false;
     col "iban_last4" (String_ 4) None false;
     col "status" (ENUM ["REQUESTED"; "APPROVED"; "PAID"; "REJECTED"] "withdrawal_status") (sa_literal "REQUESTED") false;
     col "processed_by_admin_id" UUID None true;
     col "rejection_reason" (String_ 255) None true;
     col "id" UUID (sa_text "gen_random_uuid()") false;
     col "created_at" DateTime_tz (sa_text "now()") false;
     col "updated_at" DateTime_tz (sa_text "now()") false;
     CheckConstraint "amount >= 50.00" "chk_withdrawal_min";
     ForeignKeyConstraint ["courier_id"] "users" ["id"] NO_ACTION;
     ForeignKeyConstraint ["processed_by_admin_id"] "users" ["id"] NO_ACTION;
     ForeignKeyConstraint ["wallet_id"] "wallets" ["id"] NO_ACTION;
     PrimaryKeyConstraint ["id"]];
   create_index "idx_withdrawals_courier_status" "withdrawals" ["courier_id"; "status"] false None "btree";
   create_index "idx_withdrawals_status_created" "withdrawals" ["status"; "created_at"] false None "btree"].

Definition baseline_invoice_items : list op :=
  [create_table "invoice_items"
    [col "invoice_id" UUID None false;
     col "position" SmallInteger None false;
     col "title" (String_ 120) None false;
     col "description" (String_ 500) None true;
     col "unit_price_amount" (Numeric 12 2) None false;
     col "quantity" Integer None false;
     col "tax_rate" (Numeric 6 4) None false;
     col "line_net_amount" (Numeric 12 2) None false;
     col "line_discount_amount" (Numeric 12 2) (sa_text "0.00") false;
     col "line_taxable_amount" (Numeric 12 2) None false;
     col "line_tax_amount" (Numeric 12 2) None false;
     col "line_total_amount" (Numeric 12 2) None false;
     col "id" UUID (sa_text "gen_random_uuid()") false;
     col "created_at" DateTime_tz (sa_text "now()") false;
     col "updated_at" DateTime_tz (sa_text "now()") false;
     CheckConstraint "line_net_amount = unit_price_amount * quantity AND line_taxable_amount = line_net_amount - line_discount_amount AND line_total_amount = line_taxable_amount + line_tax_amount" "chk_item_line_math";
     CheckConstraint "quantity BETWEEN 1 AND 999" "chk_item_quantity";
     CheckConstraint "tax_rate >= 0 AND tax_rate <= 1" "chk_item_tax_rate";
     CheckConstraint "unit_price_amount > 0" "chk_item_unit_price";
     ForeignKeyConstraint ["invoice_id"] "invoices" ["id"] CASCADE;
     PrimaryKeyConstraint ["id"];
     UniqueConstraint ["invoice_id"; "position"] "uq_invoice_item_position"];
   create_index "idx_invoice_items_invoice" "invoice_items" ["invoice_id"; "position"] false None "btree"].

Definition baseline_messages : list op :=
  [create_table "messages"
    [col "conversation_id" UUID None false;
     col "sender_id" UUID None false;
     col "message_type" (ENUM ["TEXT"; "IMAGE"; "VIDEO"; "SYSTEM"] "message_type") (sa_literal "TEXT") false;
     col "content_encrypted" Text None false;
     col "is_read" Boolean (sa_text "false") false;
     col "read_at" DateTime_tz None true;
     col "id" UUID (sa_text "gen_random_uuid()") false;
     col "created_at" DateTime_tz (sa_text "now()") false;
     col "updated_at" DateTime_tz (sa_text "now()") false;
     ForeignKeyConstraint ["conversation_id"] "conversations" ["id"] CASCADE;
     ForeignKeyConstraint ["sender_id"] "users" ["id"] NO_ACTION;
     PrimaryKeyConstraint ["id"]];
   create_index "idx_messages_conversation_keyset" "messages" ["conversation_id"; "created_at DESC"; "id DESC"] false None "btree"].

Definition baseline_payment_intents : list op :=
  [create_table "payment_intents"
    [col "user_id" UUID None false;
     col "purpose" (ENUM ["ORDER_INVOICE"; "WALLET_TOPUP"] "payment_purpose") None false;
     col "amount" (Numeric 12 2) None false;
     col "currency" (String_ 3) (sa_text "'SAR'") false;
     col "status" (ENUM ["NEW"; "PAID"; "FAILED"; "EXPIRED"; "CANCELLED"] "payment_intent_status") (sa_literal "NEW") false;
     col "paylink_transaction_no" (String_ 100) None true;
     col "paylink_url" (String_ 512) None true;
     col "reference_invoice_id" UUID None true;
     col "expires_at" DateTime_tz None false;
     col "paid_at" DateTime_tz None true;
     col "failure_reason" (String_ 255) None true;
     col "id" UUID (sa_text "gen_random_uuid()") false;
     col "created_at" DateTime_tz (sa_text "now()") false;
     col "updated_at" DateTime_tz (sa_text "now()") false;
     CheckConstraint "(purpose='ORDER_INVOICE' AND reference_invoice_id IS NOT NULL) OR (purpose='WALLET_TOPUP' AND reference_invoice_id IS NULL)" "chk_intent_purpose_reference";
     CheckConstraint "amount > 0" "chk_intent_amount_positive";
     ForeignKeyConstraint ["reference_invoice_id"] "invoices" ["id"] NO_ACTION;
     ForeignKeyConstraint ["user_id"] "users" ["id"] NO_ACTION;
     PrimaryKeyConstraint ["id"]];
   create_index "idx_payment_intents_invoice" "payment_intents" ["reference_invoice_id"] false (Some "reference_invoice_id IS NOT NULL") "btree";
   create_index "idx_payment_intents_status_expires" "payment_intents" ["status"; "expires_at"] false (Some "status='NEW'") "btree";
   create_index "idx_payment_intents_user_created" "payment_intents" ["user_id"; "created_at DESC"] false None "btree";
   create_index "uq_payment_intents_paylink_txn" "payment_intents" ["paylink_transaction_no"] true (Some "paylink_transaction_no IS NOT NULL") "btree"].

Definition baseline_promo_redemptions : list op :=
  [create_table "promo_redemptions"
    [col "promo_id" UUID None false;
     col "user_id" UUID None false;
     col "invoice_id" UUID None false;
     col "order_id" UUID None false;
     col "discount_amount" (Numeric 12 2) None false;
     col "status" (ENUM ["RESERVED"; "CONSUMED"; "RELEASED"] "promo_redemption_status") (sa_literal "RESERVED") false;
     col "released_at" DateTime_tz None true;
     col "consumed_at" DateTime_tz None true;
     col "id" UUID (sa_text "gen_random_uuid()") false;
     col "created_at" DateTime_tz (sa_text "now()") false;
     col "updated_at" DateTime_tz (sa_text "now()") false;
     CheckConstraint "discount_amount > 0" "chk_redemption_amount_positive";
     ForeignKeyConstraint ["invoice_id"] "invoices" ["id"] CASCADE;
     ForeignKeyConstraint ["order_id"] "orders" ["id"] NO_ACTION;
     ForeignKeyConstraint ["promo_id"] "promos" ["id"] RESTRICT;
     ForeignKeyConstraint ["user_id"] "users" ["id"] NO_ACTION;
     PrimaryKeyConstraint ["id"];
     UniqueConstraint ["promo_id"; "invoice_id"] "uq_promo_redemption_invoice"];
   create_index "idx_promo_redemptions_invoice" "promo_redemptions" ["invoice_id"] false None "btree";
   create_index "idx_promo_redemptions_promo_user" "promo_redemptions" ["promo_id"; "user_id"; "status"] false None "btree"].

Definition baseline_transactions : list op :=
  [create_table "transactions"
    [col "wallet_id" UUID None false;
     col "amount" (Numeric 12 2) None false;
     col "type" (ENUM ["TOPUP"; "WITHDRAWAL"; "ESCROW_HOLD"; "ESCROW_RELEASE"; "PAYMENT"; "REFUND"; "COMMISSION"; "SERVICE_FEE"; "TAX"; "PROMO_SUBSIDY"] "transaction_type") None false;
     col "status" (ENUM ["PENDING"; "SETTLED"; "REVERSED"] "transaction_status") (sa_literal "SETTLED") false;
     col "reference_order_id" UUID None true;
     col "reference_invoice_id" UUID None true;
     col "reference_intent_id" UUID None true;
     col "correlation_id" UUID None false;
     col "balance_after" (Numeric 12 2) None false;
     col "idempotency_key" (String_ 128) None true;
     col "description" (String_ 255) None true;
     col "id" UUID (sa_text "gen_random_uuid()") false;
     col "created_at" DateTime_tz (sa_text "now()") false;
     col "updated_at" DateTime_tz (sa_text "now()") false;
     CheckConstraint "amount <> 0" "chk_amount_non_zero";
     ForeignKeyConstraint ["reference_intent_id"] "payment_intents" ["id"] RESTRICT;
     ForeignKeyConstraint ["reference_invoice_id"] "invoices" ["id"] RESTRICT;
     ForeignKeyConstraint ["reference_order_id"] "orders" ["id"] RESTRICT;
     ForeignKeyConstraint ["wallet_id"] "wallets" ["id"] RESTRICT;
     PrimaryKeyConstraint ["id"]];
   create_index "idx_transactions_correlation" "transactions" ["correlation_id"] false None "btree";
   create_index "idx_transactions_order" "transactions" ["reference_order_id"] false (Some "reference_order_id IS NOT NULL") "btree";
   create_index "idx_transactions_wallet_created" "transactions" ["wallet_id"; "created_at DESC"; "id DESC"] false None "btree";
   create_index "uq_transactions_idempotency" "transactions" ["idempotency_key"] true (Some "idempotency_key IS NOT NULL") "btree"].

Definition baseline_wallet_topups : list op :=
  [create_table "wallet_topups"
    [col "user_id" UUID None false;
     col "wallet_id" UUID None false;
     col "payment_intent_id" UUID None false;
     col "amount" (Numeric 12 2) None false;
     col "id" UUID (sa_text "gen_random_uuid()") false;
     col "created_at" DateTime_tz (sa_text "now()") false;
     col "updated_at" DateTime_tz (sa_text "now()") false;
     CheckConstraint "amount >= 100.00 AND amount <= 20000.00" "chk_topup_bounds";
     ForeignKeyConstraint ["payment_intent_id"] "payment_intents" ["id"] NO_ACTION;
     ForeignKeyConstraint ["user_id"] "users" ["id"] NO_ACTION;
     ForeignKeyConstraint ["wallet_id"] "wallets" ["id"] NO_ACTION;
     PrimaryKeyConstraint ["id"];
     UniqueConstraint ["payment_intent_id"] "uq_wallet_topups_intent"];
   create_index "idx_wallet_topups_user_created" "wallet_topups" ["user_id"; "created_at DESC"] false None "btree"].

Definition baseline_triggers : list op :=
  [create_trigger "trg_users_updated_at" [UPDATE] "users" "set_updated_at";
   create_trigger "trg_courier_profiles_updated_at" [UPDATE] "courier_profiles" "set_updated_at";
   create_trigger "trg_courier_portfolios_updated_at" [UPDATE] "courier_portfolios" "set_updated_at";
   create_trigger "trg_device_tokens_updated_at" [UPDATE] "device_tokens" "set_updated_at";
   create_trigger "trg_orders_updated_at" [UPDATE] "orders" "set_updated_at";
   create_trigger "trg_order_media_updated_at" [UPDATE] "order_media" "set_updated_at";
   create_trigger "trg_promos_updated_at" [UPDATE] "promos" "set_updated_at";
   create_trigger "trg_invoices_updated_at" [UPDATE] "invoices" "set_updated_at";
   create_trigger "trg_invoice_items_updated_at" [UPDATE] "invoice_items" "set_updated_at";
   create_trigger "trg_promo_redemptions_updated_at" [UPDATE] "promo_redemptions" "set_updated_at";
   create_trigger "trg_payment_intents_updated_at" [UPDATE] "payment_intents" "set_updated_at";
   create_trigger "trg_wallet_topups_updated_at" [UPDATE] "wallet_topups" "set_updated_at";
   create_trigger "trg_conversations_updated_at" [UPDATE] "conversations" "set_updated_at";
   create_trigger "trg_messages_updated_at" [UPDATE] "messages" "set_updated_at";
   create_trigger "trg_wallets_updated_at" [UPDATE] "wallets" "set_updated_at";
   create_trigger "trg_transactions_updated_at" [UPDATE] "transactions" "set_updated_at";
   create_trigger "trg_withdrawals_updated_at" [UPDATE] "withdrawals" "set_updated_at";
   create_trigger "trg_ratings_updated_at" [UPDATE] "ratings" "set_updated_at";
   create_trigger "trg_disputes_updated_at" [UPDATE] "disputes" "set_updated_at";
   create_trigger "trg_admin_sessions_updated_at" [UPDATE] "admin_sessions" "set_updated_at";
   create_trigger "trg_otp_attempts_updated_at" [UPDATE] "otp_attempts" "set_updated_at";
   create_trigger "trg_audit_logs_updated_at" [UPDATE] "audit_logs" "set_updated_at";
   create_trigger "trg_transactions_immutable" [UPDATE; DELETE] "transactions" "enforce_ledger_immutability";
   create_trigger "trg_invoice_items_freeze" [INSERT; UPDATE; DELETE] "invoice_items" "enforce_invoice_item_freeze";
   create_trigger "trg_messages_append_only" [UPDATE; DELETE] "messages" "enforce_message_append_only"].

Definition baseline_seed : list op :=
  [execute [("wallets", ["id"; "type"; "user_id"; "balance"; "held_balance"; "currency"; "version"])] insert_system_wallets].

Definition baseline_upgrade : list op :=
  baseline_types ++ baseline_functions ++ baseline_otp_attempts ++ baseline_users ++
  baseline_admin_sessions ++ baseline_audit_logs ++ baseline_courier_portfolios ++ baseline_courier_profiles ++
  baseline_device_tokens ++ baseline_orders ++ baseline_promos ++ baseline_wallets ++
  baseline_conversations ++ baseline_disputes ++ baseline_invoices ++ baseline_order_media ++
  baseline_ratings ++ baseline_withdrawals ++ baseline_invoice_items ++ baseline_messages ++
  baseline_payment_intents ++ baseline_promo_redemptions ++ baseline_transactions ++ baseline_wallet_topups ++
  baseline_triggers ++ baseline_seed.

Definition baseline_drop_tables : list op :=
  [drop_index "idx_wallet_topups_user_created";
   drop_table "wallet_topups";
   drop_index "uq_transactions_idempotency";
   drop_index "idx_transactions_wallet_created";
   drop_index "idx_transactions_order";
   drop_index "idx_transactions_correlation";
   drop_table "transactions";
   drop_index "idx_promo_redemptions_promo_user";
   drop_index "idx_promo_redemptions_invoice";
   drop_table "promo_redemptions";
   drop_index "uq_payment_intents_paylink_txn";
   drop_index "idx_payment_intents_user_created";
   drop_index "idx_payment_intents_status_expires";
   drop_index "idx_payment_intents_invoice";
   drop_table "payment_intents";
   drop_index "idx_messages_conversation_keyset";
   drop_table "messages";
   drop_index "idx_invoice_items_invoice";
   drop_table "invoice_items";
   drop_index "idx_withdrawals_status_created";
   drop_index "idx_withdrawals_courier_status";
   drop_table "withdrawals";
   drop_index "idx_ratings_rated_user";
   drop_table "ratings";
   drop_index "idx_order_media_order_type";
   drop_table "order_media";
   drop_index "uq_invoices_one_active_per_order";
   drop_index "idx_invoices_status_expires";
   drop_index "idx_invoices_receipt_pending";
   drop_index "idx_invoices_promo";
   drop_index "idx_invoices_order";
   drop_table "invoices";
   drop_index "idx_disputes_status_created";
   drop_table "disputes";
   drop_index "idx_conversations_customer_inbox";
   drop_index "idx_conversations_courier_inbox";
   drop_table "conversations";
   drop_index "uq_wallets_user";
   drop_index "uq_wallets_one_tax";
   drop_index "uq_wallets_one_revenue";
   drop_index "uq_wallets_one_gateway";
   drop_index "uq_wallets_one_escrow";
   drop_table "wallets";
   drop_index "idx_promos_active_window";
   drop_table "promos";
   drop_index "idx_orders_status_delivered_at";
   drop_index "idx_orders_location_gist";
   drop_index "idx_orders_customer_created";
   drop_index "idx_orders_courier_created";
   drop_index "idx_orders_city_status";
   drop_table "orders";
   drop_index "idx_device_tokens_user";
   drop_table "device_tokens";
   drop_index "uq_courier_identity_fingerprint";
   drop_index "idx_courier_profiles_city_verified";
   drop_table "courier_profiles";
   drop_index "idx_courier_portfolios_courier";
   drop_table "courier_portfolios";
   drop_index "idx_audit_logs_entity";
   drop_index "idx_audit_logs_actor_created";
   drop_table "audit_logs";
   drop_index "idx_admin_sessions_admin_expires";
   drop_table "admin_sessions";
   drop_index "uq_users_email";
   drop_index "idx_users_role_status";
   drop_table "users";
   drop_table "otp_attempts"].

Definition baseline_drop_types : list op :=
  [drop_function "set_updated_at";
   drop_function "enforce_ledger_immutability";
   drop_function "enforce_invoice_item_freeze";
   drop_function "enforce_message_append_only";
   drop_type "user_role";
   drop_type "user_status";
   drop_type "order_status";
   drop_type "invoice_status";
   drop_type "payment_purpose";
   drop_type "payment_intent_status";
   drop_type "payment_method";
   drop_type "promo_discount_type";
   drop_type "promo_redemption_status";
   drop_type "media_type";
   drop_type "message_type";
   drop_type "wallet_type";
   drop_type "transaction_type";
   drop_type "transaction_status";
   drop_type "device_os";
   drop_type "withdrawal_status";
   drop_type "dispute_status"].

Definition baseline_downgrade : list op := baseline_drop_tables ++ baseline_drop_types.

Definition refresh_tokens_upgrade : list op :=
  [create_table "refresh_tokens"
    [col "user_id" UUID None false;
     col "token_hash" (String_ 64) None false;
     col "family_id" UUID None false;
     col "expires_at" DateTime_tz None false;
     col "used_at" DateTime_tz None true;
     col "revoked_at" DateTime_tz None true;
     col "created_at" DateTime_tz (sa_text "now()") false;
     col "id" UUID (sa_text "gen_random_uuid()") false;
     ForeignKeyConstraint ["user_id"] "users" ["id"] CASCADE;
     PrimaryKeyConstraint ["id"];
     UniqueConstraint ["token_hash"] "uq_refresh_tokens_hash"];
   create_index "idx_refresh_tokens_family" "refresh_tokens" ["family_id"] false None "btree";
   create_index "idx_refresh_tokens_user" "refresh_tokens" ["user_id"] false None "btree"].

Definition refresh_tokens_downgrade : list op :=
  [drop_index "idx_refresh_tokens_user";
   drop_index "idx_refresh_tokens_family";
   drop_table "refresh_tokens"].

Definition withdrawal_idempotency_upgrade : list op :=
  [add_column "withdrawals" "idempotency_key" (String_ 128) None true;
   create_index "uq_withdrawals_courier_idempotency" "withdrawals" ["courier_id"; "idempotency_key"] true (Some "idempotency_key IS NOT NULL") "btree"].

Definition withdrawal_idempotency_downgrade : list op :=
  [drop_index "uq_withdrawals_courier_idempotency";
   drop_column "withdrawals" "idempotency_key"].

Definition streampay_upgrade : list op :=
  [drop_index "uq_payment_intents_paylink_txn";
   rename_column "payment_intents" "paylink_transaction_no" "streampay_payment_link_id";
   rename_column "payment_intents" "paylink_url" "streampay_payment_url";
   create_index "uq_payment_intents_streampay_link" "payment_intents" ["streampay_payment_link_id"] true (Some "streampay_payment_link_id IS NOT NULL") "btree"].

Definition streampay_downgrade : list op :=
  [drop_index "uq_payment_intents_streampay_link";
   rename_column "payment_intents" "streampay_payment_link_id" "paylink_transaction_no";
   rename_column "payment_intents" "streampay_payment_url" "paylink_url";
   create_index "uq_payment_intents_paylink_txn" "payment_intents" ["paylink_transaction_no"] true (Some "paylink_transaction_no IS NOT NULL") "btree"].

Definition cutover_upgrade : list op :=
  [add_column "payment_intents" "checkout_provider" (String_ 20) (sa_literal "LEGACY") false;
   execute [("wallets", ["user_id"; "held_balance"]);
           ("payment_intents", ["user_id"; "reference_invoice_id"; "status"; "purpose"; "checkout_provider"]);
           ("invoices", ["id"; "amount_from_wallet"])] release_legacy_holds;
   execute [("payment_intents", ["status"; "failure_reason"; "streampay_payment_link_id"; "streampay_payment_url"; "checkout_provider"])] cancel_legacy_intents;
   set_default "payment_intents" "checkout_provider" (sa_literal "STREAMPAY")].

Definition cutover_downgrade : list op :=
  [drop_column "payment_intents" "checkout_provider"].

Record revision := Revision {
  rev_id : string; down_revision : option string; rev_upgrade : list op; rev_downgrade : list op;
}.

Definition r_baseline : revision := Revision "0013a70d0480" None baseline_upgrade baseline_downgrade.
Definition r_refresh_tokens : revision := Revision "dadcdbda923c" (Some "0013a70d0480") refresh_tokens_upgrade refresh_tokens_downgrade.
Definition r_withdrawals : revision := Revision "8c9d1e2f3a4b" (Some "dadcdbda923c") withdrawal_idempotency_upgrade withdrawal_idempotency_downgrade.
Definition r_streampay : revision := Revision "f1c2a3b4d5e6" (Some "8c9d1e2f3a4b") streampay_upgrade streampay_downgrade.
Definition r_cutover : revision := Revision "b7c8d9e0f1a2" (Some "f1c2a3b4d5e6") cutover_upgrade cutover_downgrade.

(** The files of [migrations/versions], by name. *)
Definition versions : list revision := [r_baseline; r_withdrawals; r_cutover; r_refresh_tokens; r_streampay].

(** ** Running them

    The revision a database is at is the row of [alembic_version]; [None] is an empty table.  The scripts to run
    are found by following [down_revision]; [fuel] bounds the length of the chain. *)

Fixpoint upgrade_path (fuel : nat) (scripts : list revision) (current : option string) : list revision :=
  match fuel with
  | O => []
  | S n =>
      match list_find (λ r, down_revision r = current) scripts with
      | Some (_, r) => r :: upgrade_path n scripts (Some (rev_id r))
      | None => []
      end
  end.


Definition versioned : Type := option string * state.

Definition apply_upgrade (r : revision) (v : versioned) : dres versioned :=
  run (rev_upgrade r) v.2 ≫= λ st, mret (Some (rev_id r), st).


(** [with context.begin_transaction(): context.run_migrations()]: an error rolls everything back. *)
Definition do_run_migrations (steps : list revision) (step : revision → versioned → dres versioned) (v : versioned) : versioned * option ddl_error :=
  match each step steps v with inr v' => (v', None) | inl e => (v, Some e) end.

(** [alembic upgrade head] and [alembic downgrade base]. *)
Definition upgrade_head (v : versioned) : versioned * option ddl_error :=
  do_run_migrations (upgrade_path (length versions) versions v.1) apply_upgrade v.


(** [_include_object]: tables PostGIS manages are left out of autogenerate. *)
Definition include_object (name : option string) (type_ : string) (reflected : bool) : bool :=
  negb (String.eqb type_ "table" && reflected &&
        match name with Some n => negb (existsb (λ m, String.eqb (m_table m) n) metadata) | None => true end).

(** ** The schema each revision leaves *)

Definition dres_or {A} (a : A) (x : dres A) : A := match x with inr b => b | inl _ => a end.

Definition chain : list revision := [r_baseline; r_refresh_tokens; r_withdrawals; r_streampay; r_cutover].

Definition schema_after (n : nat) : schema :=
  dres_or empty_schema (each exec_ddl (take n chain ≫= rev_upgrade) empty_schema).

Definition schema_at_head : schema := schema_after 5.

(** What the metadata speaks about: no triggers, functions or extensions. *)
Definition declared_part (s : schema) : schema :=
  Schema ∅ (s_types s) ∅ ((λ t, Table_ (t_columns t) (t_constraints t) ∅) <$> s_tables s) (s_indexes s).

(** The trigger functions of a table that run before the event. *)
Definition functions_before (e : event) (t : table) : list string :=
  omap (λ p, if bool_decide (e ∈ tr_events p.2) then Some (tr_function p.2) else None) (map_to_list (t_triggers t)).

(** [updated_at] is maintained: [set_updated_at] runs before every UPDATE of a table that has it. *)
Definition stamps_updates (t : table) : bool :=
  implb (bool_decide (is_Some (t_columns t !! "updated_at"))) (bool_decide ("set_updated_at" ∈ functions_before UPDATE t)).

(** The functions other than [set_updated_at] that guard the table. *)
Definition guards (s : schema) (e : event) (tbl : string) : list plpgsql :=
  match s_tables s !! tbl with
  | Some t => filter (λ f, f ≠ Set_updated_at) (omap (λ f, s_functions s !! f) (functions_before e t))
  | None => []
  end.

(** ** Lemmas: schema and rows separately *)

(** What an operation does to the rows. *)
Definition row_effect (o : op) : option (M ()) :=
  match o with
  | execute _ m => Some m
  | add_column tbl name _ d _ => Some (λ x, Ok ((), fill_column tbl name d x))
  | _ => None
  end.

Definition run_rows (l : list op) : M () := for_each id (omap row_effect l).

Lemma run_split (l : list op) : ∀ s d s' u d',
  each exec_ddl l s = inr s' → run_rows l d = Ok (u, d') → run l (s, d) = inr (s', d').
Proof.
  induction l as [|o l IH]; intros s d s' u d' Hs Hd; [by inversion Hs; inversion Hd|].
  cbn [each] in Hs. change (run (o :: l) (s, d)) with (exec o (s, d) ≫= run l). unfold exec. cbn [fst snd].
  destruct (exec_ddl o s) as [|s1]; [done|]. unfold run_rows in Hd. cbn [omap list_omap] in Hd.
  destruct o; cbn [row_effect] in Hd; try (by eapply IH).
  cbn [for_each] in Hd. apply bind_ok in Hd as ([] & d1 & E & Hd). unfold id in E. cbn. rewrite E. by eapply IH.
Qed.

Lemma run_rows_app (l k : list op) (d d' : db) (u : ()) :
  run_rows (l ++ k) d = Ok (u, d') ↔ ∃ d1, run_rows l d = Ok ((), d1) ∧ run_rows k d1 = Ok (u, d').
Proof.
  unfold run_rows. rewrite omap_app. generalize (omap row_effect l). intros ms. revert d.
  induction ms as [|m ms IH]; intros d; cbn [app for_each].
  - split; [by exists d|]. by intros (d1 & [= <-] & ?).
  - rewrite bind_ok. setoid_rewrite bind_ok. setoid_rewrite IH. naive_solver.
Qed.

Lemma upgrades_split (rs : list revision) : ∀ v s d s' u d',
  each exec_ddl (rs ≫= rev_upgrade) s = inr s' → run_rows (rs ≫= rev_upgrade) d = Ok (u, d') →
  each apply_upgrade rs (v, (s, d)) = inr (default v (Some <$> head (reverse (rev_id <$> rs))), (s', d')).
Proof.
  induction rs as [|r rs IH]; intros v s d s' u d' Hs Hd; [by inversion Hs; inversion Hd|].
  cbn [mbind list_bind] in Hs, Hd. rewrite each_app in Hs. destruct (each exec_ddl (rev_upgrade r) s) as [|s1] eqn:E1; [done|].
  apply run_rows_app in Hd as (d1 & H1 & H2).
  assert (apply_upgrade r (v, (s, d)) = inr (Some (rev_id r), (s1, d1))) as Ea.
  { unfold apply_upgrade. cbn [fst snd]. by rewrite (run_split _ _ _ _ _ _ E1 H1). }
  change (each apply_upgrade (r :: rs) (v, (s, d))) with (apply_upgrade r (v, (s, d)) ≫= each apply_upgrade rs). rewrite Ea. cbn [mbind dres_bind].
  rewrite (IH _ _ _ _ _ _ Hs H2). f_equal. f_equal. rewrite fmap_cons, reverse_cons. by destruct (reverse _).
Qed.


(** ** The rows of a new database *)

(** An empty database: its clock, and the next id the generator draws. *)
Definition fresh_db (now : instant) (next : uuid) : db := empty_db <| db_now := now |> <| db_next := next |>.

Definition system_row (now : instant) (ty : wallet_type) : Wallet := mk_Wallet None ty 0 0 "SAR" 0 now.

(** The ledger accounts of the platform, empty. *)
Definition seeded_db (now : instant) (next : uuid) : db :=
  (fresh_db now (next + 4)%N) <| tb_wallets :=
    <[(next + 3)%N := system_row now WalletType.SYSTEM_TAX_PAYABLE]> (<[(next + 2)%N := system_row now WalletType.SYSTEM_GATEWAY]>
    (<[(next + 1)%N := system_row now WalletType.SYSTEM_REVENUE]> {[next := system_row now WalletType.SYSTEM_ESCROW]})) |>.

Lemma insert_system_row (now : instant) (ty : wallet_type) (next : uuid) (m : gmap uuid Wallet) :
  ty ≠ WalletType.CUSTOMER → ty ≠ WalletType.COURIER →
  (∀ k w, m !! k = Some w → (k < next)%N ∧ w_user_id w = None ∧ w_type w ≠ ty) →
  (insert_row (system_row now ty);; mret ()) ((fresh_db now next) <| tb_wallets := m |>) =
    Ok ((), (fresh_db now (next + 1)%N) <| tb_wallets := <[next := system_row now ty]> m |>).
Proof.
  intros Hc Hr Hm. erewrite (bind_run _ _ _ _ next); [reflexivity|]. unfold insert_row. erewrite bind_run by reflexivity.
  assert (m !! next = None) as Hn by (destruct (m !! next) eqn:E; [apply Hm in E; lia|done]).
  rewrite (bind_run _ _ _ ((fresh_db now (next + 1)%N) <| tb_wallets := <[next := system_row now ty]> m |>) ()); [done|].
  apply insert_row_at_ok. split; [done|]. split; [done|]. split; [by destruct ty|]. split; [|done].
  apply unique_ok_true. intros k w Hk _. apply Hm in Hk as (_ & Hu & Ht). cbn. unfold conflicts_wallets. cbn.
  destruct ty; try done; by apply bool_decide_eq_false.
Qed.

Lemma for_each_step {A} (f : A → M ()) (x : A) (l : list A) (d d1 : db) :
  f x d = Ok ((), d1) → for_each f (x :: l) d = for_each f l d1.
Proof. intros E. cbn [for_each]. by erewrite bind_run by exact E. Qed.

Ltac earlier_rows :=
  let H := fresh in intros ? ? H; rewrite ?lookup_insert_Some, lookup_empty in H;
  repeat match goal with
  | H : _ ∨ _ |- _ => destruct H as [H|H]
  | H : _ ∧ _ |- _ => destruct H
  | H : None = Some _ |- _ => done
  end; subst; (split; [lia|done]).

Lemma insert_system_wallets_run (now : instant) (next : uuid) :
  insert_system_wallets (fresh_db now next) = Ok ((), seeded_db now next).
Proof.
  unfold insert_system_wallets. erewrite bind_run by reflexivity. cbv beta.
  change (db_now (fresh_db now next)) with now. change (fresh_db now next) with ((fresh_db now next) <| tb_wallets := ∅ |>).
  do 4 (erewrite for_each_step; [|apply insert_system_row; [done|done|earlier_rows]]).
  unfold seeded_db. rewrite insert_empty, <- !N.add_assoc. reflexivity.
Qed.

Lemma update_where_none {row} `{Table row} (f : row → bool) (g : row → row) (d : db) :
  (∀ k r, rows d !! k = Some r → f r = false) → update_where f g d = Ok ((), d).
Proof.
  intros Hf. unfold update_where. erewrite bind_run by reflexivity.
  set (l := filter _ _). assert (l = []) as ->; [|done].
  apply elem_of_nil_inv. intros [k r] [Hr Hk]%list_elem_of_filter. apply elem_of_map_to_list, Hf in Hk. cbn in Hr. congruence.
Qed.

(** Only the baseline writes rows of a new database. *)
Lemma chain_rows (now : instant) (next : uuid) :
  run_rows (chain ≫= rev_upgrade) (fresh_db now next) = Ok ((), seeded_db now next).
Proof.
  change (run_rows (chain ≫= rev_upgrade)) with
    (for_each id [insert_system_wallets; λ x, Ok ((), fill_column "withdrawals" "idempotency_key" None x);
       λ x, Ok ((), fill_column "payment_intents" "checkout_provider" (sa_literal "LEGACY") x);
       release_legacy_holds; cancel_legacy_intents]).
  rewrite (for_each_step _ _ _ _ (seeded_db now next)) by apply insert_system_wallets_run.
  assert (∀ tbl name v, fill_column tbl name v (seeded_db now next) = seeded_db now next) as Hf.
  { intros tbl name v. unfold fill_column. destruct (_ && _); [reflexivity|]. by destruct (_ && _). }
  do 2 (rewrite (for_each_step _ _ _ _ (seeded_db now next)) by (unfold id; by rewrite Hf)).
  rewrite (for_each_step _ _ _ _ (seeded_db now next)), (for_each_step _ _ _ _ (seeded_db now next)); [reflexivity|..]; unfold id.
  - apply update_where_none. intros k i Hk. change ((∅ : gmap uuid PaymentIntent) !! k = Some i) in Hk. by rewrite lookup_empty in Hk.
  - unfold release_legacy_holds. apply update_where_none. intros k w _. by destruct (w_user_id w).
Qed.

(** ** Reading the schemas *)

Lemma chain_is_path : upgrade_path (length versions) versions None = chain.
Proof. reflexivity. Qed.

(** Schemas are compared by computation. *)
Definition yields_schema (x : dres schema) (s : schema) : bool := match x with inr s' => bool_decide (s' = s) | inl _ => false end.

Lemma yields_schema_true (x : dres schema) (s : schema) : yields_schema x s = true → x = inr s.
Proof. destruct x; [done|]. cbn. intros H%bool_decide_eq_true. by subst. Qed.

Ltac compute_schema := apply yields_schema_true; vm_compute; reflexivity.

Lemma chain_schema : each exec_ddl (chain ≫= rev_upgrade) empty_schema = inr schema_at_head.
Proof. compute_schema. Qed.

(** The guard triggers the source writes down, by table and event. *)
Definition guarded_by (e : event) (tbl : string) : list plpgsql :=
  match e, tbl with
  | (UPDATE | DELETE), "transactions" => [Enforce_ledger_immutability]
  | _, "invoice_items" => [Enforce_invoice_item_freeze]
  | (UPDATE | DELETE), "messages" => [Enforce_message_append_only]
  | _, _ => []
  end.

(** ** Properties *)

(** [C16] The migrations build the schema the models declare.  From an empty database [alembic upgrade head] runs
    all five revisions without an error, leaves the database at [b7c8d9e0f1a2], and its tables, columns, types, defaults,
    primary, unique and foreign keys, checks, indexes and enum types are exactly those of [Base.metadata]; the only rows are
    the four empty system wallets; a second run changes nothing; [set_updated_at] runs before the UPDATE of every table with
    an [updated_at]; and the ledger, the invoice items and the messages, and no other table, have guard triggers. *)
Theorem migrations_build_models (now : instant) (next : uuid) :
  let head_ := (Some "b7c8d9e0f1a2", (schema_at_head, seeded_db now next)) in
  upgrade_head (None, (empty_schema, fresh_db now next)) = (head_, None) ∧
  upgrade_head head_ = (head_, None) ∧
  declared_part schema_at_head = declared_schema metadata ∧
  map_Forall (λ _ t, stamps_updates t = true) (s_tables schema_at_head) ∧
  (∀ e, Forall (λ m, guards schema_at_head e (m_table m) = guarded_by e (m_table m)) metadata).
Proof.
  intros head_. split; [|split; [reflexivity|split; [|split]]].
  - unfold upgrade_head, do_run_migrations. cbn [fst]. rewrite chain_is_path.
    by rewrite (upgrades_split _ _ _ _ _ _ _ chain_schema (chain_rows now next)).
  - apply (bool_decide_eq_true_1 (declared_part schema_at_head = declared_schema metadata)). vm_compute. reflexivity.
  - apply (bool_decide_eq_true_1 (map_Forall (λ _ t, stamps_updates t = true) _)). vm_compute. reflexivity.
  - intros e. apply (bool_decide_eq_true_1 (Forall (λ m, guards schema_at_head e (m_table m) = guarded_by e (m_table m)) metadata)).
    destruct e; vm_compute; reflexivity.
Qed.

