(* ===== verification/SchemaRows.v ===== *)
(** * The row model enforces the schema

    Tables.v states the CHECKs and unique indexes of each table as functions on its rows, translated by hand.  Here
    they are related to the text of the schema: a row, seen as the values of its columns, is accepted by the CHECK expressions
    of the migrated database exactly when the row model accepts it, and two rows collide in one of its unique indexes
    exactly when the row model says they conflict. *)

From Stdlib Require Import ZArith Lia Ascii ZifyBool.
From stdpp Require Import base list gmap strings numbers option.
From S2P Require Import Prelude Errors Enums Tables Sql Database Constraints Ddl Models Migrations.
Local Open Scope string_scope.

(** ** Rows as records of values *)

Definition v_money (z : Z) : value := VNum z 2.
Definition v_tenths (z : Z) : value := VNum z 1.
Definition v_rate (z : Z) : value := VNum z 4.
Definition v_int (z : Z) : value := VNum z 0.
Definition v_label {E} `{PyEnum E} (e : E) : value := VText (label e).
Definition v_json {A} (_ : A) : value := VJson.
Definition v_opt {A} (f : A → value) (o : option A) : value := match o with Some a => f a | None => VNull end.

Class Relation (row : Type) := { relation : string; record_of : uuid → row → record_value }.
Arguments relation row {_}.

#[export] Instance relation_refresh_tokens : Relation RefreshToken := {|
  relation := "refresh_tokens";
  record_of id r :=
    [("id", VUuid id); ("user_id", VUuid (rt_user_id r)); ("token_hash", VText (rt_token_hash r));
     ("family_id", VUuid (rt_family_id r)); ("expires_at", VInstant (rt_expires_at r));
     ("used_at", v_opt VInstant (rt_used_at r)); ("revoked_at", v_opt VInstant (rt_revoked_at r));
     ("created_at", VInstant (rt_created_at r))]
|}.

#[export] Instance relation_users : Relation User := {|
  relation := "users";
  record_of id r :=
    [("id", VUuid id); ("phone", VText (usr_phone r)); ("email", v_opt VText (usr_email r));
     ("full_name", v_opt VText (usr_full_name r)); ("date_of_birth", v_opt VDate (usr_date_of_birth r));
     ("role", v_label (usr_role r)); ("status", v_label (usr_status r)); ("rating", v_tenths (usr_rating r));
     ("rating_count", v_int (usr_rating_count r)); ("deleted_at", v_opt VInstant (usr_deleted_at r));
     ("created_at", VInstant (usr_created_at r))]
|}.

#[export] Instance relation_courier_profiles : Relation CourierProfile := {|
  relation := "courier_profiles";
  record_of id r :=
    [("user_id", VUuid id); ("passport_id_encrypted", v_opt VText (cp_passport_id_encrypted r));
     ("national_id_encrypted", v_opt VText (cp_national_id_encrypted r));
     ("identity_fingerprint", v_opt VText (cp_identity_fingerprint r));
     ("city_of_residence", VText (cp_city_of_residence r)); ("bio", v_opt VText (cp_bio r));
     ("is_verified", VBool (cp_is_verified r)); ("verified_at", v_opt VInstant (cp_verified_at r));
     ("verified_by_admin_id", v_opt VUuid (cp_verified_by_admin_id r)); ("created_at", VInstant (cp_created_at r))]
|}.

#[export] Instance relation_courier_portfolios : Relation CourierPortfolio := {|
  relation := "courier_portfolios";
  record_of id r :=
    [("id", VUuid id); ("courier_id", VUuid (pf_courier_id r)); ("storage_key", VText (pf_storage_key r));
     ("media_type", v_label (pf_media_type r)); ("description", v_opt VText (pf_description r));
     ("display_order", v_int (pf_display_order r)); ("created_at", VInstant (pf_created_at r))]
|}.

#[export] Instance relation_device_tokens : Relation DeviceToken := {|
  relation := "device_tokens";
  record_of id r :=
    [("id", VUuid id); ("user_id", VUuid (dt_user_id r)); ("device_os", v_label (dt_device_os r));
     ("token", VText (dt_token r)); ("last_seen_at", VInstant (dt_last_seen_at r));
     ("created_at", VInstant (dt_created_at r))]
|}.

#[export] Instance relation_orders : Relation Order := {|
  relation := "orders";
  record_of id r :=
    [("id", VUuid id); ("customer_id", VUuid (ord_customer_id r)); ("courier_id", v_opt VUuid (ord_courier_id r));
     ("description", v_opt VText (ord_description r)); ("delivery_city", VText (ord_delivery_city r));
     ("delivery_location", VPoint (ord_delivery_location r));
     ("delivery_address_note", v_opt VText (ord_delivery_address_note r));
     ("delivery_date", VDate (ord_delivery_date r)); ("status", v_label (ord_status r));
     ("total_amount", v_money (ord_total_amount r)); ("commission_amount", v_money (ord_commission_amount r));
     ("courier_payout_amount", v_money (ord_courier_payout_amount r));
     ("assigned_at", v_opt VInstant (ord_assigned_at r)); ("delivered_at", v_opt VInstant (ord_delivered_at r));
     ("completed_at", v_opt VInstant (ord_completed_at r));
     ("cancelled_reason", v_opt VText (ord_cancelled_reason r)); ("created_at", VInstant (ord_created_at r))]
|}.

#[export] Instance relation_order_media : Relation OrderMedia := {|
  relation := "order_media";
  record_of id r :=
    [("id", VUuid id); ("order_id", VUuid (om_order_id r));
     ("uploaded_by_user_id", VUuid (om_uploaded_by_user_id r)); ("media_type", v_label (om_media_type r));
     ("storage_key", VText (om_storage_key r)); ("content_type", VText (om_content_type r));
     ("byte_size", v_int (om_byte_size r)); ("capture_location", v_opt VPoint (om_capture_location r));
     ("captured_at", v_opt VInstant (om_captured_at r)); ("created_at", VInstant (om_created_at r))]
|}.

#[export] Instance relation_promos : Relation Promo := {|
  relation := "promos";
  record_of id r :=
    [("id", VUuid id); ("code", VText (pm_code r)); ("description", VText (pm_description r));
     ("discount_type", v_label (pm_discount_type r)); ("percent_value", v_opt v_money (pm_percent_value r));
     ("fixed_amount", v_opt v_money (pm_fixed_amount r));
     ("max_discount_amount", v_opt v_money (pm_max_discount_amount r));
     ("min_order_amount", v_money (pm_min_order_amount r));
     ("max_total_usages", v_opt v_int (pm_max_total_usages r));
     ("max_usages_per_user", v_int (pm_max_usages_per_user r)); ("used_count", v_int (pm_used_count r));
     ("is_active", VBool (pm_is_active r)); ("starts_at", v_opt VInstant (pm_starts_at r));
     ("ends_at", v_opt VInstant (pm_ends_at r)); ("created_by_admin_id", v_opt VUuid (pm_created_by_admin_id r));
     ("created_at", VInstant (pm_created_at r))]
|}.

#[export] Instance relation_invoices : Relation Invoice := {|
  relation := "invoices";
  record_of id r :=
    [("id", VUuid id); ("order_id", VUuid (inv_order_id r));
     ("issued_by_courier_id", VUuid (inv_issued_by_courier_id r)); ("status", v_label (inv_status r));
     ("currency", VText (inv_currency r)); ("items_net_amount", v_money (inv_items_net_amount r));
     ("courier_fee_amount", v_money (inv_courier_fee_amount r));
     ("service_fee_amount", v_money (inv_service_fee_amount r));
     ("discount_amount", v_money (inv_discount_amount r));
     ("net_after_discount_amount", v_money (inv_net_after_discount_amount r));
     ("tax_amount", v_money (inv_tax_amount r)); ("total_amount", v_money (inv_total_amount r));
     ("promo_id", v_opt VUuid (inv_promo_id r)); ("promo_code_snapshot", v_opt VText (inv_promo_code_snapshot r));
     ("payment_method", v_opt v_label (inv_payment_method r));
     ("amount_from_wallet", v_money (inv_amount_from_wallet r));
     ("amount_from_gateway", v_money (inv_amount_from_gateway r));
     ("pricing_breakdown", v_opt v_json (inv_pricing_breakdown r));
     ("expires_at", v_opt VInstant (inv_expires_at r)); ("issued_at", v_opt VInstant (inv_issued_at r));
     ("paid_at", v_opt VInstant (inv_paid_at r));
     ("receipt_email_sent_at", v_opt VInstant (inv_receipt_email_sent_at r));
     ("created_at", VInstant (inv_created_at r))]
|}.

#[export] Instance relation_invoice_items : Relation InvoiceItem := {|
  relation := "invoice_items";
  record_of id r :=
    [("id", VUuid id); ("invoice_id", VUuid (it_invoice_id r)); ("position", v_int (it_position r));
     ("title", VText (it_title r)); ("description", v_opt VText (it_description r));
     ("unit_price_amount", v_money (it_unit_price_amount r)); ("quantity", v_int (it_quantity r));
     ("tax_rate", v_rate (it_tax_rate r)); ("line_net_amount", v_money (it_line_net_amount r));
     ("line_discount_amount", v_money (it_line_discount_amount r));
     ("line_taxable_amount", v_money (it_line_taxable_amount r));
     ("line_tax_amount", v_money (it_line_tax_amount r)); ("line_total_amount", v_money (it_line_total_amount r))]
|}.

#[export] Instance relation_promo_redemptions : Relation PromoRedemption := {|
  relation := "promo_redemptions";
  record_of id r :=
    [("id", VUuid id); ("promo_id", VUuid (rd_promo_id r)); ("user_id", VUuid (rd_user_id r));
     ("invoice_id", VUuid (rd_invoice_id r)); ("order_id", VUuid (rd_order_id r));
     ("discount_amount", v_money (rd_discount_amount r)); ("status", v_label (rd_status r));
     ("released_at", v_opt VInstant (rd_released_at r)); ("consumed_at", v_opt VInstant (rd_consumed_at r));
     ("created_at", VInstant (rd_created_at r))]
|}.

#[export] Instance relation_payment_intents : Relation PaymentIntent := {|
  relation := "payment_intents";
  record_of id r :=
    [("id", VUuid id); ("user_id", VUuid (pin_user_id r)); ("purpose", v_label (pin_purpose r));
     ("amount", v_money (pin_amount r)); ("currency", VText (pin_currency r)); ("status", v_label (pin_status r));
     ("checkout_provider", VText (pin_checkout_provider r));
     ("streampay_payment_link_id", v_opt VText (pin_streampay_payment_link_id r));
     ("streampay_payment_url", v_opt VText (pin_streampay_payment_url r));
     ("reference_invoice_id", v_opt VUuid (pin_reference_invoice_id r));
     ("expires_at", VInstant (pin_expires_at r)); ("paid_at", v_opt VInstant (pin_paid_at r));
     ("failure_reason", v_opt VText (pin_failure_reason r)); ("created_at", VInstant (pin_created_at r))]
|}.

#[export] Instance relation_wallet_topups : Relation WalletTopup := {|
  relation := "wallet_topups";
  record_of id r :=
    [("id", VUuid id); ("user_id", VUuid (wt_user_id r)); ("wallet_id", VUuid (wt_wallet_id r));
     ("payment_intent_id", VUuid (wt_payment_intent_id r)); ("amount", v_money (wt_amount r));
     ("created_at", VInstant (wt_created_at r))]
|}.

#[export] Instance relation_conversations : Relation Conversation := {|
  relation := "conversations";
  record_of id r :=
    [("id", VUuid id); ("order_id", VUuid (cv_order_id r)); ("customer_id", VUuid (cv_customer_id r));
     ("courier_id", VUuid (cv_courier_id r));
     ("last_message_preview_encrypted", v_opt VText (cv_last_message_preview_encrypted r));
     ("last_message_timestamp", VInstant (cv_last_message_timestamp r));
     ("customer_unread_count", v_int (cv_customer_unread_count r));
     ("courier_unread_count", v_int (cv_courier_unread_count r)); ("is_closed", VBool (cv_is_closed r));
     ("created_at", VInstant (cv_created_at r))]
|}.

#[export] Instance relation_messages : Relation Message := {|
  relation := "messages";
  record_of id r :=
    [("id", VUuid id); ("conversation_id", VUuid (msg_conversation_id r)); ("sender_id", VUuid (msg_sender_id r));
     ("message_type", v_label (msg_message_type r)); ("content_encrypted", VText (msg_content_encrypted r));
     ("is_read", VBool (msg_is_read r)); ("read_at", v_opt VInstant (msg_read_at r));
     ("created_at", VInstant (msg_created_at r))]
|}.

#[export] Instance relation_wallets : Relation Wallet := {|
  relation := "wallets";
  record_of id r :=
    [("id", VUuid id); ("user_id", v_opt VUuid (w_user_id r)); ("type", v_label (w_type r));
     ("balance", v_money (w_balance r)); ("held_balance", v_money (w_held_balance r));
     ("currency", VText (w_currency r)); ("version", v_int (w_version r)); ("created_at", VInstant (w_created_at r))]
|}.

#[export] Instance relation_transactions : Relation Transaction := {|
  relation := "transactions";
  record_of id r :=
    [("id", VUuid id); ("wallet_id", VUuid (txn_wallet_id r)); ("amount", v_money (txn_amount r));
     ("type", v_label (txn_type r)); ("status", v_label (txn_status r));
     ("reference_order_id", v_opt VUuid (txn_reference_order_id r));
     ("reference_invoice_id", v_opt VUuid (txn_reference_invoice_id r));
     ("reference_intent_id", v_opt VUuid (txn_reference_intent_id r));
     ("correlation_id", VUuid (txn_correlation_id r)); ("balance_after", v_money (txn_balance_after r));
     ("idempotency_key", v_opt VText (txn_idempotency_key r)); ("description", v_opt VText (txn_description r));
     ("created_at", VInstant (txn_created_at r))]
|}.

#[export] Instance relation_withdrawals : Relation Withdrawal := {|
  relation := "withdrawals";
  record_of id r :=
    [("id", VUuid id); ("courier_id", VUuid (wd_courier_id r)); ("wallet_id", VUuid (wd_wallet_id r));
     ("amount", v_money (wd_amount r)); ("iban_encrypted", VText (wd_iban_encrypted r));
     ("iban_last4", VText (wd_iban_last4 r)); ("status", v_label (wd_status r));
     ("processed_by_admin_id", v_opt VUuid (wd_processed_by_admin_id r));
     ("rejection_reason", v_opt VText (wd_rejection_reason r));
     ("idempotency_key", v_opt VText (wd_idempotency_key r)); ("created_at", VInstant (wd_created_at r))]
|}.

#[export] Instance relation_ratings : Relation Rating := {|
  relation := "ratings";
  record_of id r :=
    [("id", VUuid id); ("order_id", VUuid (ra_order_id r)); ("rater_id", VUuid (ra_rater_id r));
     ("rated_user_id", VUuid (ra_rated_user_id r)); ("score", v_int (ra_score r));
     ("comment", v_opt VText (ra_comment r)); ("created_at", VInstant (ra_created_at r))]
|}.

#[export] Instance relation_disputes : Relation Dispute := {|
  relation := "disputes";
  record_of id r :=
    [("id", VUuid id); ("order_id", VUuid (dis_order_id r)); ("raised_by_user_id", VUuid (dis_raised_by_user_id r));
     ("reason", VText (dis_reason r)); ("status", v_label (dis_status r));
     ("resolution_note", v_opt VText (dis_resolution_note r));
     ("resolved_by_admin_id", v_opt VUuid (dis_resolved_by_admin_id r));
     ("resolved_at", v_opt VInstant (dis_resolved_at r)); ("created_at", VInstant (dis_created_at r))]
|}.

#[export] Instance relation_admin_sessions : Relation AdminSession := {|
  relation := "admin_sessions";
  record_of id r :=
    [("id", VUuid id); ("admin_user_id", VUuid (ads_admin_user_id r));
     ("session_token_hash", VText (ads_session_token_hash r)); ("ip_address", v_opt VText (ads_ip_address r));
     ("user_agent", v_opt VText (ads_user_agent r)); ("expires_at", VInstant (ads_expires_at r));
     ("revoked_at", v_opt VInstant (ads_revoked_at r)); ("created_at", VInstant (ads_created_at r))]
|}.

#[export] Instance relation_otp_attempts : Relation OtpAttempt := {|
  relation := "otp_attempts";
  record_of id r :=
    [("id", VUuid id); ("phone_hash", VText (oa_phone_hash r)); ("ip_address", v_opt VText (oa_ip_address r));
     ("was_successful", VBool (oa_was_successful r)); ("created_at", VInstant (oa_created_at r))]
|}.

#[export] Instance relation_audit_logs : Relation AuditLog := {|
  relation := "audit_logs";
  record_of id r :=
    [("id", VUuid id); ("actor_user_id", v_opt VUuid (al_actor_user_id r)); ("action", VText (al_action r));
     ("entity_type", VText (al_entity_type r)); ("entity_id", v_opt VUuid (al_entity_id r));
     ("ip_address", v_opt VText (al_ip_address r)); ("metadata", v_opt v_json (al_audit_metadata r));
     ("created_at", VInstant (al_created_at r))]
|}.

(** ** What the schema says of a table *)

Definition check_list (s : schema) (tbl : string) : list expr :=
  match s_tables s !! tbl with
  | Some t => omap (λ p, match p.2 with CCheck e => Some e | _ => None end) (map_to_list (t_constraints t))
  | None => []
  end.

(** The keys and the predicate of each UNIQUE constraint and unique index. *)
Definition unique_list (s : schema) (tbl : string) : list (list string * option expr) :=
  match s_tables s !! tbl with
  | Some t => omap (λ p, match p.2 with CUnique cols => Some (cols, None) | _ => None end) (map_to_list (t_constraints t))
  | None => []
  end ++
  omap (λ p, if String.eqb (i_table p.2) tbl && i_unique p.2 then Some ((i_keys p.2).*1, i_where p.2) else None) (map_to_list (s_indexes s)).

(** A value a column of the type can hold: the range of a number, the length of a text, a label of the enum. *)
Definition value_fits (ty : sqltype) (nullable : bool) (v : value) : bool :=
  match ty, v with
  | _, VNull => nullable
  | UUID, VUuid _ | (Text | INET), VText _ | Boolean, VBool _ | Date, VDate _ | DateTime_tz, VInstant _
  | JSONB, VJson | Geometry_point _, VPoint _ => true
  | String_ n, VText s => (String.length s <=? n)%nat
  | Numeric p k, VNum c k' => (k =? k')%nat && (Z.abs c <? 10 ^ Z.of_nat p)%Z
  | SmallInteger, VNum c 0 => ((- 2 ^ 15 <=? c) && (c <? 2 ^ 15))%Z
  | Integer, VNum c 0 => ((- 2 ^ 31 <=? c) && (c <? 2 ^ 31))%Z
  | BigInteger, VNum c 0 => ((- 2 ^ 63 <=? c) && (c <? 2 ^ 63))%Z
  | ENUM labels _, VText s => existsb (String.eqb s) labels
  | _, _ => false
  end.

Definition record_fits (s : schema) (tbl : string) (r : record_value) : bool :=
  match s_tables s !! tbl with
  | Some t => forallb (λ p, match t_columns t !! p.1 with Some c => value_fits (c_type c) (c_nullable c) p.2 | None => false end) r
  | None => false
  end.

Definition collide (a b : record_value) (u : list string * option expr) : bool :=
  where_selects a u.2 && where_selects b u.2 &&
  forallb (λ c, match column_value a c, column_value b c with
                | Some x, Some y => match apply_cmp CEq x y with Some (VBool e) => e | _ => false end
                | _, _ => false
                end) u.1.

Section Enforced.
Context (row : Type) `{Relation row, Table row}.

Definition sql_accepts (s : schema) (today : day) (id : uuid) (r : row) : bool :=
  forallb (check_accepts today (record_of id r)) (check_list s (relation row)).

Definition sql_conflict (s : schema) (i : uuid) (a : row) (j : uuid) (b : row) : bool :=
  existsb (collide (record_of i a) (record_of j b)) (unique_list s (relation row)).

Definition sql_fits (s : schema) (id : uuid) (r : row) : bool := record_fits s (relation row) (record_of id r).

(** The schema and the row model agree on this table. *)
Definition enforced (s : schema) : Prop :=
  (∀ today id r, sql_fits s id r = true → sql_accepts s today id r = check_ok today r) ∧
  (∀ i a j b, sql_conflict s i a j b = conflicts a b).
End Enforced.

(** ** Lemmas *)

Lemma bool_decide_Z (x y : Z) `{!Decision (x = y)} : bool_decide (x = y) = (x =? y)%Z.
Proof. apply eq_iff_eq_true. rewrite bool_decide_eq_true, Z.eqb_eq. done. Qed.

(** The column is [Numeric(12, 2)]. *)
Definition is_money (s : schema) (tbl name : string) : bool :=
  match s_tables s !! tbl ≫= λ t, t_columns t !! name with Some c => bool_decide (c_type c = MONEY_) | None => false end.

Lemma fits_money (s : schema) (tbl : string) (r : record_value) (names : list string) (zs : list Z) :
  record_fits s tbl r = true → forallb (is_money s tbl) names = true → Forall2 (λ n z, (n, v_money z) ∈ r) names zs → fits zs = true.
Proof.
  unfold record_fits. intros H Hn. induction 1 as [|n z names zs Hin _ IH]; [done|]. cbn in Hn. apply andb_true_iff in Hn as [Hm Hn].
  unfold fits in *. cbn [forallb]. rewrite IH, andb_true_r by done. unfold is_money in Hm.
  destruct (s_tables s !! tbl) as [t|]; [|done]. rewrite forallb_forall in H. apply list_elem_of_In, H in Hin. cbn [fst snd] in Hin.
  cbn [mbind option_bind] in Hm. destruct (t_columns t !! n) as [c|]; [|done]. apply bool_decide_eq_true in Hm. rewrite Hm in Hin. exact Hin.
Qed.

Ltac in_record := first [apply list_elem_of_here | apply list_elem_of_further; in_record].
Ltac members := cbn [record_of]; repeat (apply Forall2_cons; [in_record|]); apply Forall2_nil.
Ltac money_fits H names := refine (fits_money schema_at_head _ _ names _ H _ _); [vm_compute; reflexivity|members].

Lemma order_fits_sql id r : sql_fits Order schema_at_head id r = true → order_fits r = true.
Proof. intros H. money_fits H ["total_amount"; "commission_amount"; "courier_payout_amount"]. Qed.

Lemma invoice_fits_sql id r : sql_fits Invoice schema_at_head id r = true → invoice_fits r = true.
Proof. intros H. money_fits H ["items_net_amount"; "courier_fee_amount"; "service_fee_amount"; "discount_amount";
  "net_after_discount_amount"; "tax_amount"; "total_amount"; "amount_from_wallet"; "amount_from_gateway"]. Qed.

Lemma intent_fits_sql id r : sql_fits PaymentIntent schema_at_head id r = true → intent_fits r = true.
Proof. intros H. money_fits H ["amount"]. Qed.

Lemma withdrawal_fits_sql id r : sql_fits Withdrawal schema_at_head id r = true → withdrawal_fits r = true.
Proof. intros H. money_fits H ["amount"]. Qed.

(** Replace a closed term by its value. *)
Ltac known t := let v := eval vm_compute in t in replace t with v by (vm_compute; reflexivity).

(** Decide the equations between labels. *)
Ltac closed_texts := repeat match goal with
  | |- context [@bool_decide (?a = ?b) ?d] =>
    first [is_constructor a; is_constructor b | match a with String _ _ => match b with String _ _ => idtac end end];
    let v := eval vm_compute in (@bool_decide (a = b) d) in
    lazymatch v with true => change (@bool_decide (a = b) d) with true | false => change (@bool_decide (a = b) d) with false end
  end.

Ltac logic3 := repeat (progress (rewrite ?and3_bool, ?or3_bool, ?and3_false_null, ?or3_true_null; cbn [negb andb orb]; cbv beta iota)).

(** Evaluate the expressions on the row, case by case on the fields they inspect. *)
Ltac sql_step :=
  cbv -[and3 or3 Z.leb Z.ltb Z.eqb Z.abs Z.add Z.sub Z.mul Z.opp Z.max Z.of_nat String.length Nat.leb upper btrim
      andb orb negb bool_decide order_fits invoice_fits intent_fits withdrawal_fits];
  logic3.
Ltac sql_cases := sql_step; 
  repeat (match goal with |- context [match ?x with _ => _ end] => is_var x; destruct x; sql_step end); closed_texts; logic3.

Ltac settle :=
  cbn [negb andb orb]; rewrite ?bool_decide_Z; repeat match goal with |- context [@bool_decide ?P ?d] => generalize (@bool_decide P d); intro end; lia.

Ltac enforce row :=
  split;
  [ let today := fresh in let id := fresh in let r := fresh in let H := fresh in
    intros today id r H; unfold sql_accepts; known (check_list schema_at_head (relation row));
    lazymatch row with
    | Order => apply order_fits_sql in H | Invoice => apply invoice_fits_sql in H
    | PaymentIntent => apply intent_fits_sql in H | Withdrawal => apply withdrawal_fits_sql in H | _ => clear H; pose proof I as H
    end;
    revert H; destruct r; sql_cases; try (intros ->); try (intros _); closed_texts; settle
  | let i := fresh in let a := fresh in let j := fresh in let b := fresh in
    intros i a j b; unfold sql_conflict; known (unique_list schema_at_head (relation row)); try done; destruct a, b; sql_cases; settle ].

(** Every column of the table is in the row, but for the timestamps no code reads. *)
Definition columns_match (row : Type) `{Relation row} (s : schema) : Prop :=
  ∀ id (r : row), ∃ t, s_tables s !! relation row = Some t ∧
    dom (t_columns t) ∖ {["created_at"; "updated_at"]} = list_to_set (record_of id r).*1 ∖ {["created_at"]}.

Ltac match_columns row :=
  intros ? r; eexists; split; [vm_compute; reflexivity|]; destruct r; cbn [record_of fmap list_fmap fst];
  apply (bool_decide_eq_true_1 (@eq (gset string) _ _)); vm_compute; reflexivity.

(** Both, for one table. *)
Definition agrees (row : Type) `{Relation row, Table row} : Prop :=
  columns_match row schema_at_head ∧ enforced row schema_at_head.

Lemma agrees_RefreshToken : agrees RefreshToken.
Proof. split; [match_columns RefreshToken|enforce RefreshToken]. Qed.

Lemma agrees_User : agrees User.
Proof. split; [match_columns User|enforce User]. Qed.

Lemma agrees_CourierProfile : agrees CourierProfile.
Proof. split; [match_columns CourierProfile|enforce CourierProfile]. Qed.

Lemma agrees_CourierPortfolio : agrees CourierPortfolio.
Proof. split; [match_columns CourierPortfolio|enforce CourierPortfolio]. Qed.

Lemma agrees_DeviceToken : agrees DeviceToken.
Proof. split; [match_columns DeviceToken|enforce DeviceToken]. Qed.

Lemma agrees_Order : agrees Order.
Proof. split; [match_columns Order|enforce Order]. Qed.

Lemma agrees_OrderMedia : agrees OrderMedia.
Proof. split; [match_columns OrderMedia|enforce OrderMedia]. Qed.

Lemma agrees_Promo : agrees Promo.
Proof. split; [match_columns Promo|enforce Promo]. Qed.

Lemma agrees_Invoice : agrees Invoice.
Proof. split; [match_columns Invoice|enforce Invoice]. Qed.

Lemma agrees_InvoiceItem : agrees InvoiceItem.
Proof. split; [match_columns InvoiceItem|enforce InvoiceItem]. Qed.

Lemma agrees_PromoRedemption : agrees PromoRedemption.
Proof. split; [match_columns PromoRedemption|enforce PromoRedemption]. Qed.

Lemma agrees_PaymentIntent : agrees PaymentIntent.
Proof. split; [match_columns PaymentIntent|enforce PaymentIntent]. Qed.

Lemma agrees_WalletTopup : agrees WalletTopup.
Proof. split; [match_columns WalletTopup|enforce WalletTopup]. Qed.

Lemma agrees_Conversation : agrees Conversation.
Proof. split; [match_columns Conversation|enforce Conversation]. Qed.

Lemma agrees_Message : agrees Message.
Proof. split; [match_columns Message|enforce Message]. Qed.

Lemma agrees_Wallet : agrees Wallet.
Proof. split; [match_columns Wallet|enforce Wallet]. Qed.

Lemma agrees_Transaction : agrees Transaction.
Proof. split; [match_columns Transaction|enforce Transaction]. Qed.

Lemma agrees_Withdrawal : agrees Withdrawal.
Proof. split; [match_columns Withdrawal|enforce Withdrawal]. Qed.

Lemma agrees_Rating : agrees Rating.
Proof. split; [match_columns Rating|enforce Rating]. Qed.

Lemma agrees_Dispute : agrees Dispute.
Proof. split; [match_columns Dispute|enforce Dispute]. Qed.

Lemma agrees_AdminSession : agrees AdminSession.
Proof. split; [match_columns AdminSession|enforce AdminSession]. Qed.

Lemma agrees_OtpAttempt : agrees OtpAttempt.
Proof. split; [match_columns OtpAttempt|enforce OtpAttempt]. Qed.

Lemma agrees_AuditLog : agrees AuditLog.
Proof. split; [match_columns AuditLog|enforce AuditLog]. Qed.

(** ** Properties *)

(** [C33] The row model enforces the migrated schema, all of it and nothing else.  For each of the 23 tables: the fields of a
    row are the columns of the table; on a row whose values fit the column types, the conjunction of the CHECK expressions of the
    database, parsed and evaluated with SQL's three-valued logic, is the row check of the model; and two rows violate one of the
    UNIQUE constraints or unique (partial) indexes exactly when the model says they conflict. *)
Theorem schema_enforced :
  agrees RefreshToken ∧ agrees User ∧ agrees CourierProfile ∧ agrees CourierPortfolio ∧ agrees DeviceToken ∧
  agrees Order ∧ agrees OrderMedia ∧ agrees Promo ∧ agrees Invoice ∧ agrees InvoiceItem ∧
  agrees PromoRedemption ∧ agrees PaymentIntent ∧ agrees WalletTopup ∧ agrees Conversation ∧ agrees Message ∧
  agrees Wallet ∧ agrees Transaction ∧ agrees Withdrawal ∧ agrees Rating ∧ agrees Dispute ∧
  agrees AdminSession ∧ agrees OtpAttempt ∧ agrees AuditLog.
Proof.
  exact (conj agrees_RefreshToken (conj agrees_User (conj agrees_CourierProfile (conj agrees_CourierPortfolio 
    (conj agrees_DeviceToken (conj agrees_Order (conj agrees_OrderMedia (conj agrees_Promo 
    (conj agrees_Invoice (conj agrees_InvoiceItem (conj agrees_PromoRedemption (conj agrees_PaymentIntent 
    (conj agrees_WalletTopup (conj agrees_Conversation (conj agrees_Message (conj agrees_Wallet 
    (conj agrees_Transaction (conj agrees_Withdrawal (conj agrees_Rating (conj agrees_Dispute 
    (conj agrees_AdminSession (conj agrees_OtpAttempt agrees_AuditLog)))))))))))))))))))))).
Qed.
