(* ===== verification/Redis.v ===== *)
(** * Redis and the request ([app/core/redis.py], [get_db] of [app/core/deps.py])

    What a request touches besides its database session: the Redis store (keys with an
    optional expiry, the commands the services use), the CSPRNG and the messages handed to
    other systems.  A computation of [T] runs on a [world].  Unlike the session, none
    of this is rolled back when the handler raises, so an exception keeps the world;
    [request] is the dependency [get_db]: commit on success, roll back otherwise.
    [session.commit()] inside a handler saves the session's state for good.

    Redis may be down ([w_up = false]): every command then raises [RedisError].  A key
    whose expiry has passed is absent.  Counters are kept as numbers, everything else
    as text; [INCR] of a text value is an error, as no key is used both ways. *)

From Stdlib Require Import ZArith Lia.
From stdpp Require Import base list gmap strings numbers option.
From S2P Require Import Prelude Errors PyDecimal Money Enums Tables Database.
Open Scope Z_scope.

Inductive rvalue := RText (s : string) | RNum (n : Z).

Record entry := mk_entry { en_value : rvalue; en_expires : option instant }.

(** A message handed to another system. *)
Inductive outbound :=
  | Sms (phone code : string)
  | Push (tokens : list string) (title body : string)
  | Publish (channel : string) (payload : list (string * string))
  | Email (to template_key : string) (variables : list (string * string)).

Record world := mk_world {
  w_db : db;
  w_saved : db;
  w_redis : gmap string entry;
  w_up : bool;
  w_draws : N;
  w_out : list outbound;
}.

Definition eta_world (w : world) : world :=
  mk_world (w_db w) (w_saved w) (w_redis w) (w_up w) (w_draws w) (w_out w).

#[export] Instance set_w_db : Setter w_db := ltac:(setter eta_world w_db).
#[export] Instance set_w_saved : Setter w_saved := ltac:(setter eta_world w_saved).
#[export] Instance set_w_redis : Setter w_redis := ltac:(setter eta_world w_redis).
#[export] Instance set_w_up : Setter w_up := ltac:(setter eta_world w_up).
#[export] Instance set_w_draws : Setter w_draws := ltac:(setter eta_world w_draws).
#[export] Instance set_w_out : Setter w_out := ltac:(setter eta_world w_out).

Definition w_now (w : world) : instant := db_now (w_db w).

(** ** Computations *)

Definition T (A : Type) : Type := world → res A * world.

#[export] Instance T_ret : MRet T := λ A a w, (Ok a, w).
#[export] Instance T_bind : MBind T := λ A B k m w,
  match m w with
  | (Ok a, w') => k a w'
  | (Raise e, w') => (Raise e, w')
  end.

Definition throw {A} (e : exn) : T A := λ w, (Raise e, w).

Definition pure {A} (r : res A) : T A := λ w, (r, w).

Definition assert_ (b : bool) (e : exn) : T () := pure (raise_if b e).

Definition required {A} (o : option A) (e : exn) : T A :=
  match o with Some a => mret a | None => throw e end.

(** [try: m / except Exception as e: h e]. *)
Definition catch {A} (m : T A) (h : exn → T A) : T A := λ w,
  match m w with
  | (Ok a, w') => (Ok a, w')
  | (Raise e, w') => h e w'
  end.

(** A statement on the session. *)
Definition on_db {A} (m : M A) : T A := λ w,
  match m (w_db w) with
  | Ok (a, d) => (Ok a, w <| w_db := d |>)
  | Raise e => (Raise e, w)
  end.

(** [datetime.now(UTC)]. *)
Definition clock : T instant := λ w, (Ok (w_now w), w).

Definition emit (x : outbound) : T () := λ w, (Ok (), w <| w_out := w_out w ++ [x] |>).

(** One more value from [secrets]. *)
Definition draw : T N := λ w, (Ok (w_draws w), w <| w_draws := (w_draws w + 1)%N |>).

Definition session_commit : T () := λ w, (Ok (), w <| w_saved := w_db w |>).

(** [get_db] around a handler. *)
Definition request {A} (m : T A) : T A := λ w,
  match m (w <| w_saved := w_db w |>) with
  | (Ok a, w') => (Ok a, w' <| w_saved := w_db w' |>)
  | (Raise e, w') => (Raise e, w' <| w_db := w_saved w' |>)
  end.

(** ** Commands *)

Definition live (now : instant) (e : entry) : bool :=
  match en_expires e with Some x => now <? x | None => true end.

(** The unexpired entry of a key. *)
Definition peek (key : string) (w : world) : option entry :=
  e ← w_redis w !! key; if live (w_now w) e then Some e else None.

Definition command {A} (f : world → res A * world) : T A := λ w,
  if w_up w then f w else (Raise RedisError, w).

Definition put (key : string) (e : entry) (w : world) : world := w <| w_redis := <[key := e]> (w_redis w) |>.

Definition redis_get (key : string) : T (option rvalue) := command (λ w, (Ok (en_value <$> peek key w), w)).

(** [bool(await redis.get(key))]: a non-empty value. *)
Definition truthy (v : option rvalue) : bool :=
  match v with
  | None => false
  | Some (RText EmptyString) => false
  | Some _ => true
  end.

(** [SET key value EX ttl]; Redis rejects a ttl that is not positive. *)
Definition redis_set (key value : string) (ttl : Z) : T () := command (λ w,
  if ttl <=? 0 then (Raise RedisError, w)
  else (Ok (), put key (mk_entry (RText value) (Some (w_now w + ttl))) w)).

Definition redis_delete (key : string) : T () := command (λ w, (Ok (), w <| w_redis := delete key (w_redis w) |>)).

(** [INCR]: an absent key counts from 0, without an expiry. *)
Definition redis_incr (key : string) : T Z := command (λ w,
  match peek key w with
  | None => (Ok 1, put key (mk_entry (RNum 1) None) w)
  | Some (mk_entry (RNum n) x) => (Ok (n + 1), put key (mk_entry (RNum (n + 1)) x) w)
  | Some (mk_entry (RText _) _) => (Raise RedisError, w)
  end).

(** [TTL]: -2 without the key, -1 without an expiry. *)
Definition redis_ttl (key : string) : T Z := command (λ w,
  (Ok match peek key w with
      | None => -2
      | Some (mk_entry _ None) => -1
      | Some (mk_entry _ (Some x)) => x - w_now w
      end, w)).

(** [EXPIRE]: nothing happens without the key. *)
Definition redis_expire (key : string) (seconds : Z) : T () := command (λ w,
  (Ok (), match peek key w with
          | None => w
          | Some e => put key (mk_entry (en_value e) (Some (w_now w + seconds))) w
          end)).

(** [EXISTS]. *)
Definition redis_exists (key : string) : T bool := command (λ w, (Ok (bool_decide (is_Some (peek key w))), w)).

Definition redis_mget (k1 k2 : string) : T (option rvalue * option rvalue) :=
  a ← redis_get k1; b ← redis_get k2; mret (a, b).

(** [INCR] and set or repair of the window, as every throttle does it; [ttl] is evaluated
    only when the count is not 1. *)
Definition count_hit (key : string) (window : Z) : T Z :=
  count ← redis_incr key;
  first ← (if count =? 1 then mret true else t ← redis_ttl key; mret (t <? 0));
  (if (first : bool) then redis_expire key window else mret ());;
  mret count.

(** ** Reasoning *)

Lemma tbind_ok {A B} (m : T A) (k : A → T B) (w w1 : world) (a : A) :
  m w = (Ok a, w1) → (m ≫= k) w = k a w1.
Proof. unfold mbind, T_bind. by intros ->. Qed.

Lemma tbind_raise {A B} (m : T A) (k : A → T B) (w w1 : world) (e : exn) :
  m w = (Raise e, w1) → (m ≫= k) w = (Raise e, w1).
Proof. unfold mbind, T_bind. by intros ->. Qed.

Lemma tbind_inv {A B} (m : T A) (k : A → T B) (w w' : world) (b : B) :
  (m ≫= k) w = (Ok b, w') ↔ ∃ a w1, m w = (Ok a, w1) ∧ k a w1 = (Ok b, w').
Proof. unfold mbind, T_bind. destruct (m w) as [[a|e] w1]; naive_solver. Qed.

Lemma on_db_ok {A} (m : M A) (w w' : world) (a : A) :
  on_db m w = (Ok a, w') ↔ ∃ d, m (w_db w) = Ok (a, d) ∧ w' = w <| w_db := d |>.
Proof. unfold on_db. destruct (m (w_db w)) as [[x d]|e]; naive_solver. Qed.

Lemma assert_ok (b : bool) (e : exn) (w w' : world) (u : ()) :
  assert_ b e w = (Ok u, w') ↔ b = false ∧ w' = w.
Proof. unfold assert_, pure. destruct b, u; cbn; naive_solver. Qed.

Lemma required_ok {A} (o : option A) (e : exn) (w w' : world) (a : A) :
  required o e w = (Ok a, w') ↔ o = Some a ∧ w' = w.
Proof. destruct o; cbn; unfold mret, T_ret, throw; naive_solver. Qed.

Lemma pure_ok {A} (r : res A) (w w' : world) (a : A) : pure r w = (Ok a, w') ↔ r = Ok a ∧ w' = w.
Proof. unfold pure. naive_solver. Qed.

(** What happens to the database: [P] of the session's state survives, and so does [P] of the
    saved one. *)
Definition preserves (P : db → Prop) {A} (m : T A) : Prop :=
  ∀ w, P (w_db w) → P (w_db (m w).2) ∧ (P (w_saved w) → P (w_saved (m w).2)).

Section Preserves.
Context (P : db → Prop).

(** A step that leaves the session alone. *)
Lemma preserves_pure {A} (m : T A) : (∀ w, w_db (m w).2 = w_db w ∧ w_saved (m w).2 = w_saved w) → preserves P m.
Proof. intros Hm w H1. by destruct (Hm w) as [-> ->]. Qed.

Lemma preserves_ret {A} (a : A) : preserves P (mret a : T A).
Proof. by apply preserves_pure. Qed.

Lemma preserves_bind {A B} (m : T A) (k : A → T B) :
  preserves P m → (∀ a, preserves P (k a)) → preserves P (m ≫= k).
Proof.
  intros Hm Hk w H1. destruct (Hm w H1) as [H3 H4]. unfold mbind, T_bind.
  destruct (m w) as [[a|e] w1]; [|done]. destruct (Hk a w1 H3) as [H5 H6]. auto.
Qed.

Lemma preserves_catch {A} (m : T A) (h : exn → T A) :
  preserves P m → (∀ e, preserves P (h e)) → preserves P (catch m h).
Proof.
  intros Hm Hh w H1. destruct (Hm w H1) as [H3 H4]. unfold catch.
  destruct (m w) as [[a|e] w1]; [done|]. destruct (Hh e w1 H3) as [H5 H6]. auto.
Qed.

Lemma preserves_on_db {A} (m : M A) : keeps P m → preserves P (on_db m).
Proof.
  intros Hm w H1. unfold on_db. destruct (m (w_db w)) as [[a d]|e] eqn:E; [|done].
  split; [exact (Hm _ _ _ H1 E)|done].
Qed.

Lemma preserves_commit : preserves P session_commit.
Proof. intros w H1. done. Qed.

Lemma preserves_if {A} (b : bool) (m n : T A) : preserves P m → preserves P n → preserves P (if b then m else n).
Proof. by destruct b. Qed.

Lemma preserves_option {A B} (o : option A) (m : A → T B) (n : T B) :
  (∀ a, preserves P (m a)) → preserves P n → preserves P (match o with Some a => m a | None => n end).
Proof. destruct o; auto. Qed.

Lemma preserves_throw {A} e : preserves P (throw e : T A).
Proof. by apply preserves_pure. Qed.

Lemma preserves_res {A} (r : res A) : preserves P (pure r).
Proof. by apply preserves_pure. Qed.

Lemma preserves_assert b e : preserves P (assert_ b e).
Proof. by apply preserves_pure. Qed.

Lemma preserves_required {A} (o : option A) e : preserves P (required o e).
Proof. by apply preserves_pure; destruct o. Qed.

Lemma preserves_clock : preserves P clock.
Proof. by apply preserves_pure. Qed.

Lemma preserves_emit x : preserves P (emit x).
Proof. by apply preserves_pure. Qed.

Lemma preserves_draw : preserves P draw.
Proof. by apply preserves_pure. Qed.

(** What a request commits. *)
Lemma preserves_request {A} (m : T A) (w : world) :
  preserves P m → P (w_db w) → P (w_db (request m w).2).
Proof.
  intros Hm H1. unfold request. pose proof (Hm (w <| w_saved := w_db w |>)) as H. cbn in H.
  destruct (H H1) as [H3 H4]. specialize (H4 H1).
  destruct (m _) as [[a|e] w1]; cbn in *; done.
Qed.
End Preserves.

(** A request that ends in an error leaves the state of the last commit. *)
Lemma request_raise {A} (m : T A) (w : world) (e : exn) (w' : world) :
  m (w <| w_saved := w_db w |>) = (Raise e, w') → request m w = (Raise e, w' <| w_db := w_saved w' |>).
Proof. intros E. unfold request. by rewrite E. Qed.

Lemma request_done {A} (m : T A) (w w' : world) (a : A) :
  m (w <| w_saved := w_db w |>) = (Ok a, w') → request m w = (Ok a, w' <| w_saved := w_db w' |>).
Proof. intros E. unfold request. by rewrite E. Qed.

(** A computation that raises without having committed. *)
Definition uncommitted {A} (m : T A) : Prop := ∀ w, w_saved (m w).2 = w_saved w.

Lemma uncommitted_bind {A B} (m : T A) (k : A → T B) :
  uncommitted m → (∀ a, uncommitted (k a)) → uncommitted (m ≫= k).
Proof.
  intros Hm Hk w. specialize (Hm w). unfold mbind, T_bind. destruct (m w) as [[a|e] w1]; [|done].
  by rewrite (Hk a w1).
Qed.

Lemma uncommitted_on_db {A} (m : M A) : uncommitted (on_db m).
Proof. intros w. unfold on_db. by destruct (m (w_db w)) as [[? ?]|?]. Qed.

Lemma uncommitted_pure {A} (r : res A) : uncommitted (pure r).
Proof. done. Qed.

Lemma uncommitted_required {A} (o : option A) e : uncommitted (required o e).
Proof. by destruct o. Qed.

(** A request that commits only at its end keeps what its successful runs keep. *)
Lemma request_keeps {A} (P : db → Prop) (m : T A) (w : world) :
  uncommitted m → P (w_db w) → (∀ a w', m (w <| w_saved := w_db w |>) = (Ok a, w') → P (w_db w')) →
  P (w_db (request m w).2).
Proof.
  intros Hu Hw Hm. unfold request. specialize (Hu (w <| w_saved := w_db w |>)).
  destruct (m _) as [[a|e] w'] eqn:E; cbn; [by eapply Hm|]. cbn in Hu. by rewrite Hu.
Qed.

Lemma uncommitted_catch {A} (m : T A) (h : exn → T A) :
  uncommitted m → (∀ e, uncommitted (h e)) → uncommitted (catch m h).
Proof.
  intros Hm Hh w. specialize (Hm w). unfold catch. destruct (m w) as [[a|e] w1]; [done|]. by rewrite (Hh e w1).
Qed.

Lemma uncommitted_command {A} (f : T A) : uncommitted f → uncommitted (command f).
Proof. intros Hf w. unfold command. destruct (w_up w); [apply Hf|done]. Qed.

Ltac uncommitted_step :=
  match goal with
  | |- uncommitted (match ?x with _ => _ end) => destruct x
  | |- uncommitted (_ ≫= _) => apply uncommitted_bind; [|intros ?]
  | |- uncommitted (on_db _) => apply uncommitted_on_db
  | |- uncommitted (pure _) => apply uncommitted_pure
  | |- uncommitted (assert_ _ _) => apply uncommitted_pure
  | |- uncommitted (required _ _) => apply uncommitted_required
  | |- uncommitted (catch _ _) => apply uncommitted_catch; [|intros ?]
  | |- uncommitted (let _ := _ in _) => cbv zeta
  | |- uncommitted (command _) => apply uncommitted_command; intros ?; repeat case_match; reflexivity
  | |- uncommitted _ => solve [auto with giftly | intros ?; reflexivity]
  end.

Ltac uncommitted_auto := repeat uncommitted_step.

#[export] Hint Resolve preserves_ret preserves_bind preserves_catch preserves_on_db preserves_commit preserves_if
  preserves_option preserves_throw preserves_res preserves_assert preserves_required preserves_clock preserves_emit
  preserves_draw : giftly.

Lemma command_session {A} (f : T A) :
  (∀ w, w_db (f w).2 = w_db w ∧ w_saved (f w).2 = w_saved w) →
  ∀ w, w_db (command f w).2 = w_db w ∧ w_saved (command f w).2 = w_saved w.
Proof. intros Hf w. unfold command. by destruct (w_up w). Qed.

Ltac redis_only :=
  apply preserves_pure; apply command_session; intros ?; cbn;
  repeat match goal with |- context [match ?x with _ => _ end] => destruct x end; done.

Lemma preserves_get P k : preserves P (redis_get k).
Proof. redis_only. Qed.

Lemma preserves_set P k v t : preserves P (redis_set k v t).
Proof. redis_only. Qed.

Lemma preserves_delete P k : preserves P (redis_delete k).
Proof. redis_only. Qed.

Lemma preserves_incr P k : preserves P (redis_incr k).
Proof. redis_only. Qed.

Lemma preserves_ttl P k : preserves P (redis_ttl k).
Proof. redis_only. Qed.

Lemma preserves_expire P k s : preserves P (redis_expire k s).
Proof. redis_only. Qed.

Lemma preserves_exists P k : preserves P (redis_exists k).
Proof. redis_only. Qed.

#[export] Hint Resolve preserves_get preserves_set preserves_delete preserves_incr preserves_ttl preserves_expire
  preserves_exists : giftly.

(** Preservation by structure. *)
Ltac preserves_step :=
  match goal with
  | |- preserves _ (match ?x with _ => _ end) => destruct x
  | |- preserves _ (_ ≫= _) => apply preserves_bind; [|intros ?]
  | |- preserves _ (catch _ _) => apply preserves_catch; [|intros ?]
  | |- preserves _ (on_db _) => apply preserves_on_db
  | |- preserves _ _ => solve [auto with giftly typeclass_instances]
  | |- keeps _ _ => keeps_step
  | |- preserves _ (let _ := _ in _) => cbv zeta
  end.

Ltac preserves_auto := repeat preserves_step.

Lemma preserves_mget P a b : preserves P (redis_mget a b).
Proof. unfold redis_mget. preserves_auto. Qed.

Lemma preserves_count_hit P k n : preserves P (count_hit k n).
Proof. unfold count_hit. preserves_auto. Qed.

#[export] Hint Resolve preserves_mget preserves_count_hit : giftly.

Lemma uncommitted_redis :
  (∀ k, uncommitted (redis_get k)) ∧ (∀ k v t, uncommitted (redis_set k v t)) ∧ (∀ k, uncommitted (redis_delete k)) ∧
  (∀ k n, uncommitted (count_hit k n)).
Proof.
  split; [|split; [|split]]; intros *; unfold count_hit, redis_get, redis_set, redis_delete, redis_incr, redis_ttl, redis_expire;
    uncommitted_auto.
Qed.

#[export] Hint Extern 1 (uncommitted (redis_get _)) => apply uncommitted_redis : giftly.
#[export] Hint Extern 1 (uncommitted (redis_set _ _ _)) => apply uncommitted_redis : giftly.
#[export] Hint Extern 1 (uncommitted (redis_delete _)) => apply uncommitted_redis : giftly.
#[export] Hint Extern 1 (uncommitted (count_hit _ _)) => apply uncommitted_redis : giftly.

(** The effect of [count_hit] when Redis answers: the counter of the window. *)
Definition hits (key : string) (w : world) : Z :=
  match peek key w with Some (mk_entry (RNum n) _) => n | _ => 0 end.

(** A key used as a counter. *)
Definition counter (key : string) (w : world) : Prop :=
  match peek key w with
  | Some (mk_entry (RText _) _) => False
  | Some (mk_entry (RNum n) _) => 1 ≤ n
  | None => True
  end.

(** When the window of a key ends, after a hit at [w]: the running one, or a new one. *)
Definition window_end (key : string) (window : Z) (w : world) : instant :=
  match peek key w with
  | Some (mk_entry _ (Some x)) => x
  | _ => w_now w + window
  end.

Lemma peek_put (key k : string) (e : entry) (w : world) :
  peek k (put key e w) = if decide (k = key) then (if live (w_now w) e then Some e else None) else peek k w.
Proof.
  unfold peek, put. cbn. destruct (decide (k = key)) as [->|Hne].
  - by rewrite lookup_insert_eq.
  - by rewrite lookup_insert_ne.
Qed.

Lemma peek_live (key : string) (w : world) (e : entry) : peek key w = Some e → live (w_now w) e = true.
Proof.
  unfold peek. destruct (w_redis w !! key) as [e'|]; cbn; [|done]. destruct (live _ e') eqn:E; [|done].
  intros [= ->]. done.
Qed.

Lemma put_put (key : string) (e e' : entry) (w : world) : put key e (put key e' w) = put key e w.
Proof. unfold put. cbn. by rewrite insert_insert_eq. Qed.

Lemma count_hit_run (key : string) (window : Z) (w : world) :
  w_up w = true → counter key w →
  count_hit key window w =
  (Ok (hits key w + 1), put key (mk_entry (RNum (hits key w + 1)) (Some (window_end key window w))) w).
Proof.
  intros Hup Hc. unfold count_hit, redis_incr, redis_ttl, redis_expire, command, mbind, T_bind, counter, hits, window_end in *.
  rewrite Hup. destruct (peek key w) as [[[s|n] x]|] eqn:E; [done|..].
  - destruct (Z.eqb_spec (n + 1) 1) as [|_]; [lia|]. cbn [w_up put upd set_w_redis]. rewrite Hup, peek_put, decide_True by done.
    apply peek_live in E. unfold live in *. cbn [en_expires] in *. rewrite E. destruct x as [x|].
    + cbn [mret T_ret w_now]. unfold w_now in *. cbn. destruct (Z.ltb_spec (x - db_now (w_db w)) 0); [lia|]. done.
    + cbn. rewrite Hup. rewrite peek_put, decide_True by done. cbn. by rewrite put_put.
  - cbn. rewrite Hup. rewrite peek_put, decide_True by done. cbn. by rewrite put_put.
Qed.

(** Commands on one key leave the others, the clock and the connection alone. *)
Definition touches_only {A} (key : string) (m : T A) : Prop :=
  ∀ w k, k ≠ key → w_redis (m w).2 !! k = w_redis w !! k.

Definition same_clock {A} (m : T A) : Prop := ∀ w, w_now (m w).2 = w_now w ∧ w_up (m w).2 = w_up w.

Lemma touches_bind {A B} key (m : T A) (k : A → T B) :
  touches_only key m → (∀ a, touches_only key (k a)) → touches_only key (m ≫= k).
Proof.
  intros Hm Hk w j Hj. unfold mbind, T_bind. pose proof (Hm w j Hj) as E. destruct (m w) as [[a|e] w1]; [|done].
  cbn in E. by rewrite Hk.
Qed.

Lemma same_clock_bind {A B} (m : T A) (k : A → T B) :
  same_clock m → (∀ a, same_clock (k a)) → same_clock (m ≫= k).
Proof.
  intros Hm Hk w. unfold mbind, T_bind. pose proof (Hm w) as [E1 E2]. destruct (m w) as [[a|e] w1]; [|done].
  cbn in E1, E2. rewrite <- E1, <- E2. apply Hk.
Qed.

Ltac command_cases :=
  unfold command; intros; destruct (w_up _) eqn:?; cbn;
  repeat match goal with |- context [match ?x with _ => _ end] => destruct x end; cbn;
  rewrite ?lookup_insert_ne, ?lookup_delete_ne by congruence; auto.

Lemma touches_count_hit key window : touches_only key (count_hit key window).
Proof.
  unfold count_hit. apply touches_bind; [intros w k Hk; unfold redis_incr; command_cases|]. intros n.
  apply touches_bind.
  - destruct (_ =? _); [intros ?; done|]. apply touches_bind; [intros w k Hk; unfold redis_ttl; command_cases|intros ?; intros ?; done].
  - intros []; (apply touches_bind; [|intros ?; intros ?; done]); [intros w k Hk; unfold redis_expire; command_cases|intros ?; done].
Qed.

Lemma same_clock_count_hit key window : same_clock (count_hit key window).
Proof.
  unfold count_hit. apply same_clock_bind; [intros w; unfold redis_incr; command_cases|]. intros n.
  apply same_clock_bind.
  - destruct (_ =? _); [intros ?; done|]. apply same_clock_bind; [intros w; unfold redis_ttl; command_cases|intros ?; intros ?; done].
  - intros []; (apply same_clock_bind; [|intros ?; intros ?; done]); [intros w; unfold redis_expire; command_cases|intros ?; done].
Qed.
