(* ===== verification/RateLimit.v ===== *)
(** * The request throttle ([app/core/ratelimit.py])

    A fixed-window counter per identity, advanced by one Lua script per request.  Redis
    runs a script atomically, so a script is a computation of Redis.v.  [check]
    fails open, [check_guarded] fails closed. *)

From Stdlib Require Import ZArith Lia.
From stdpp Require Import base list gmap strings numbers option.
From S2P Require Import Prelude Errors PyDecimal Money Enums Tables Database Redis.
Open Scope Z_scope.

Record RateLimitDecision := mk_RateLimitDecision {
  allowed : bool;
  retry_after_seconds : Z;
  blocked : bool;
}.

Definition allow : RateLimitDecision := mk_RateLimitDecision true 0 false.
Definition deny (retry : Z) : RateLimitDecision := mk_RateLimitDecision false retry false.
Definition deny_blocked : RateLimitDecision := mk_RateLimitDecision false 0 true.

(** [_WINDOW_LUA]: the seconds to wait when over the ceiling, else 0. *)
Definition window_lua (key : string) (window max : Z) : T Z :=
  count ← count_hit key window;
  if max <? count then
    ttl ← redis_ttl key;
    mret (if 0 <? ttl then ttl else window)
  else mret 0.

(** [_GUARDED_WINDOW_LUA]: -1 when the flag of the identity is set. *)
Definition guarded_window_lua (key blocked_key : string) (window max : Z) : T Z :=
  flag ← redis_exists blocked_key;
  if (flag : bool) then mret (-1) else window_lua key window max.

Section RateLimiter.
Context (max_requests window_seconds : Z).

Definition limit_key (identity : string) : string := "ratelimit:" +:+ identity.

Definition check (identity : string) : T RateLimitDecision :=
  catch
    (retry_after ← window_lua (limit_key identity) window_seconds max_requests;
     mret (if 0 <? retry_after then deny retry_after else allow))
    (λ _, mret allow).

Definition check_guarded (identity blocked_key : string) : T RateLimitDecision :=
  r ← catch (n ← guarded_window_lua (limit_key identity) blocked_key window_seconds max_requests; mret (Some n))
        (λ _, mret None);
  mret match r with
       | None => deny_blocked
       | Some n => if n =? -1 then deny_blocked else if 0 <? n then deny n else allow
       end.
End RateLimiter.

(** ** Lemmas *)

Lemma window_lua_run (key : string) (window max : Z) (w : world) :
  w_up w = true → counter key w → w_now w < window_end key window w →
  window_lua key window max w =
  (Ok (if max <? hits key w + 1 then window_end key window w - w_now w else 0),
   put key (mk_entry (RNum (hits key w + 1)) (Some (window_end key window w))) w).
Proof.
  intros Hup Hc Hx. unfold window_lua. erewrite tbind_ok by (by apply count_hit_run).
  destruct (max <? _); [|done]. unfold redis_ttl, command, mbind, T_bind. cbn [w_up put upd set_w_redis]. rewrite Hup.
  rewrite peek_put, decide_True by done. unfold live. cbn [en_expires]. unfold w_now in *. cbn.
  destruct (Z.ltb_spec (db_now (w_db w)) (window_end key window w)); [|lia].
  destruct (Z.ltb_spec 0 (window_end key window w - db_now (w_db w))); [done|lia].
Qed.

Lemma check_run (max window : Z) (id : string) (w : world) :
  w_up w = true → counter (limit_key id) w → w_now w < window_end (limit_key id) window w →
  check max window id w =
  (Ok (if max <? hits (limit_key id) w + 1 then deny (window_end (limit_key id) window w - w_now w) else allow),
   put (limit_key id) (mk_entry (RNum (hits (limit_key id) w + 1)) (Some (window_end (limit_key id) window w))) w).
Proof.
  intros Hup Hc Hx. unfold check, catch. erewrite tbind_ok by (by apply window_lua_run).
  cbn [mret T_ret]. destruct (max <? _); [|done]. destruct (Z.ltb_spec 0 (window_end (limit_key id) window w - w_now w)); [done|lia].
Qed.

(** The clock moves on between two requests. *)
Definition advance (t : instant) : T () := λ w,
  (Ok (), w <| w_db := (w_db w) <| db_now := t |> |> <| w_saved := (w_saved w) <| db_now := t |> |>).

(** The decisions on requests of one identity at the given times. *)
Fixpoint checks (max window : Z) (id : string) (times : list instant) : T (list bool) :=
  match times with
  | [] => mret []
  | t :: times =>
      advance t;;
      r ← check max window id;
      l ← checks max window id times;
      mret (allowed r :: l)
  end.

(** Inside the window that ends at [x], after [n] hits. *)
Lemma checks_window (max window : Z) (id : string) (times : list instant) : ∀ (n : Z) (x : instant) (w : world),
  w_up w = true → 1 ≤ n → w_redis w !! limit_key id = Some (mk_entry (RNum n) (Some x)) →
  Forall (λ t, t < x) times →
  ∃ w', checks max window id times w =
    (Ok (imap (λ i _, n + Z.of_nat i + 1 <=? max) times), w').
Proof.
  induction times as [|t times IH]; intros n x w Hup Hn Hr Ht; [by eexists|]. inversion Ht as [|? ? Htx Ht']; subst.
  cbn [checks]. erewrite tbind_ok by reflexivity. set (w1 := w <| w_db := _ |> <| w_saved := _ |>).
  assert (peek (limit_key id) w1 = Some (mk_entry (RNum n) (Some x))) as Hp.
  { unfold peek. cbn. rewrite Hr. cbn. destruct (Z.ltb_spec t x); [done|lia]. }
  erewrite tbind_ok.
  2:{ apply check_run; [done|unfold counter; rewrite Hp; lia|unfold window_end; rewrite Hp; exact Htx]. }
  unfold hits at 2, window_end at 2. rewrite Hp.
  destruct (IH (n + 1) x (put (limit_key id) (mk_entry (RNum (n + 1)) (Some x)) w1)) as [w' E]; [done|lia| |done|].
  { cbn. by rewrite lookup_insert_eq. }
  exists w'. erewrite tbind_ok by exact E. unfold mret, T_ret. f_equal. f_equal. cbn [imap]. f_equal.
  - unfold hits. rewrite Hp. change (Z.of_nat 0) with 0. destruct (Z.ltb_spec max (n + 1)), (Z.leb_spec (n + 0 + 1) max); cbn; lia || done.
  - apply imap_ext. intros i ? _. unfold compose. destruct (Z.leb_spec (n + 1 + Z.of_nat i + 1) max), (Z.leb_spec (n + Z.of_nat (S i) + 1) max); lia || done.
Qed.

(** ** Properties *)

(** The throttle admits exactly the configured number of requests per window: of the
    requests of one identity whose window has not started before, the first [max] up to
    the end of the window are allowed and every later one is refused, whatever the times in
    between. *)
Theorem rate_limit_window (max window : Z) (id : string) (t0 : instant) (times : list instant) (w : world) :
  w_up w = true → 0 < window → peek (limit_key id) (w <| w_db := (w_db w) <| db_now := t0 |> |>) = None →
  Forall (λ t, t < t0 + window) times →
  ∃ w', checks max window id (t0 :: times) w = (Ok (imap (λ i _, Z.of_nat i <? max) (t0 :: times)), w').
Proof.
  intros Hup Hw Hp Ht. cbn [checks]. erewrite tbind_ok by reflexivity. set (w1 := w <| w_db := _ |> <| w_saved := _ |>).
  assert (peek (limit_key id) w1 = None) as Hp1 by exact Hp.
  erewrite tbind_ok.
  2:{ apply check_run; [done|unfold counter; by rewrite Hp1|]. unfold window_end. rewrite Hp1. unfold w_now. cbn. lia. }
  unfold hits at 2, window_end at 2. rewrite Hp1.
  edestruct (checks_window max window id times 1 (t0 + window)) as [w' E]; [| | | |].
  5:{ exists w'. erewrite tbind_ok by exact E. unfold mret, T_ret. f_equal. f_equal. cbn [imap]. f_equal.
      - unfold hits. rewrite Hp1. change (Z.of_nat 0) with 0. destruct (Z.ltb_spec max (0 + 1)), (Z.ltb_spec 0 max); cbn; lia || done.
      - apply imap_ext. intros i ? _. unfold compose. destruct (Z.leb_spec (1 + Z.of_nat i + 1) max), (Z.ltb_spec (Z.of_nat (S i)) max); lia || done. }
  - done.
  - lia.
  - cbn. by rewrite lookup_insert_eq.
  - done.
Qed.

Definition world_empty : world := mk_world empty_db empty_db ∅ true 0 [].

Lemma rate_limit_window_witness :
  ∃ w', checks 2 60 "ip:10.0.0.1" [100; 110; 120; 159] world_empty = (Ok [true; true; false; false], w').
Proof.
  apply (rate_limit_window 2 60 "ip:10.0.0.1" 100 [110; 120; 159] world_empty).
  - reflexivity.
  - lia.
  - vm_compute. reflexivity.
  - repeat constructor.
Defined.

(** What the two limiters do without Redis, and with the flag of the identity set. *)
Lemma limiter_failure_modes (max window : Z) (id flag : string) (w : world) :
  (w_up w = false → check max window id w = (Ok allow, w) ∧ check_guarded max window id flag w = (Ok deny_blocked, w)) ∧
  (w_up w = true → is_Some (peek flag w) → check_guarded max window id flag w = (Ok deny_blocked, w)).
Proof.
  unfold check, check_guarded, window_lua, guarded_window_lua, count_hit, redis_incr, redis_exists, command, catch, mbind, T_bind.
  split; [intros ->; done|]. intros -> Hf. rewrite bool_decide_eq_true_2 by done. done.
Qed.
