(* ===== verification/Ledger.v ===== *)
(** * Wallets, the ledger and the money service
    ([app/repositories/wallet_repository.py], [app/services/money_service.py])

    Every movement of money is a group of legs posted by [post_group]: the legs
    are validated, a replay is recognised by its idempotency key, the wallets are
    locked, the new balances are computed in memory over the locked rows, and one
    flush writes wallets and ledger rows under the CHECKs and unique indexes.

    [ledger_ok] is the invariant [reconcile] looks for.  The second half proves
    that a posted group moves exactly its legs, that every operation of the service
    keeps the invariant, and that [reconcile] reports no drift exactly then. *)

From Stdlib Require Import ZArith Lia.
From stdpp Require Import base list gmap strings pretty numbers option sorting.
From S2P Require Import Prelude Errors PyDecimal Money Enums Tables Database.
Open Scope Z_scope.

(** ** [WalletRepository] *)

Definition get_by_user (user_id : uuid) : M (option (uuid * Wallet)) :=
  scalar (λ _ w, same (w_user_id w) (Some user_id)).

Definition get_system (wallet_type : wallet_type) : M (uuid * Wallet) :=
  w ← scalar (λ _ w, same (w_type w) wallet_type && same (w_user_id w) None);
  unwrap w LookupError.

(** [sorted(set(wallet_ids))]: the order in which the rows are locked. *)
Definition lock_order (wallet_ids : list uuid) : list uuid := merge_sort N.le (remove_dups wallet_ids).

(** The locked rows by id; an unknown id is simply absent from the dict. *)
Fixpoint lock_rows (ids : list uuid) : M (gmap uuid Wallet) :=
  match ids with
  | [] => mret ∅
  | id :: ids =>
      o ← get_row id;
      m ← lock_rows ids;
      mret match o with Some w => <[id := w]> m | None => m end
  end.

Definition lock_wallets (wallet_ids : list uuid) : M (gmap uuid Wallet) :=
  lock_rows (lock_order wallet_ids).

(** Every row inserted here has status SETTLED or the status given. *)
Definition append_transaction (wallet_id : uuid) (amount : dec) (txn_type : transaction_type)
    (status : transaction_status) (correlation_id : uuid) (balance_after : dec)
    (idempotency_key : option string)
    (reference_order_id reference_invoice_id reference_intent_id : option uuid)
    (description : option string) : M () :=
  amount ← lift (numeric_12_2 amount);
  balance_after ← lift (numeric_12_2 balance_after);
  now ← get_now;
  insert_row (mk_Transaction wallet_id amount txn_type status reference_order_id reference_invoice_id
    reference_intent_id correlation_id balance_after idempotency_key description now);;
  mret ().

Definition idempotency_key_exists (key : string) : M bool :=
  found ← scalar (λ _ t, same (txn_idempotency_key t) (Some key));
  mret match found with Some _ => true | None => false end.

(** [SUM(amount) WHERE wallet_id = :w AND status = 'SETTLED'], exact in SQL. *)
Definition is_settled (t : Transaction) : bool := same (txn_status t) TransactionStatus.SETTLED.

Definition settled_sum (txns : gmap uuid Transaction) (wallet_id : uuid) : Z :=
  map_total (λ t, if is_settled t && same (txn_wallet_id t) wallet_id then txn_amount t else 0) txns.

Definition corr_sum (txns : gmap uuid Transaction) (correlation_id : uuid) : Z :=
  map_total (λ t, if is_settled t && same (txn_correlation_id t) correlation_id then txn_amount t else 0) txns.

Definition settled_balance (wallet_id : uuid) : M dec := λ d,
  Ok (sar (settled_sum (tb_transactions d) wallet_id), d).

Definition all_wallets : M (list (uuid * Wallet)) := select_rows (λ _ _, true).

Definition settled_txns (d : db) : list Transaction :=
  filter (λ t, is_settled t = true) (map_to_list (tb_transactions d)).*2.

(** [GROUP BY wallet_id]: one row per wallet that has settled entries. *)
Definition settled_sums_by_wallet : M (gmap uuid dec) := λ d,
  Ok (list_to_map ((λ w, (w, sar (settled_sum (tb_transactions d) w)))
        <$> remove_dups (txn_wallet_id <$> settled_txns d)), d).

(** [GROUP BY correlation_id HAVING SUM(amount) != 0]. *)
Definition correlation_drift_sums : M (list (uuid * dec)) := λ d,
  Ok (filter (λ p, negb (coef p.2 =? 0) = true)
        ((λ c, (c, sar (corr_sum (tb_transactions d) c)))
        <$> remove_dups (txn_correlation_id <$> settled_txns d)), d).

Definition correlation_count : M Z := λ d,
  Ok (Z.of_nat (length (remove_dups (txn_correlation_id <$> settled_txns d))), d).

(** ** Keyset pagination of a wallet's ledger, newest first *)

(** [(created_at, id)] descending. *)
Definition txn_after (a b : uuid * Transaction) : Prop :=
  txn_created_at b.2 < txn_created_at a.2 ∨
  (txn_created_at a.2 = txn_created_at b.2 ∧ (b.1 ≤ a.1)%N).

#[export] Instance txn_after_dec : RelDecision txn_after.
Proof. intros a b. unfold txn_after. apply _. Defined.

Definition list_transactions (wallet_id : uuid) (limit : nat) (before_id : option uuid)
    : M (list (uuid * Transaction)) := λ d,
  let mine := filter (λ p, txn_wallet_id p.2 = wallet_id) (map_to_list (tb_transactions d)) in
  let anchor := id ← before_id; t ← tb_transactions d !! id; Some (id, t) in
  Ok (take limit (keyset_rows fst txn_after anchor mine), d).

(** ** [MoneyService] *)

Record Leg := mk_Leg {
  leg_wallet_id : uuid;
  leg_amount : dec;
  leg_txn_type : transaction_type;
  leg_idempotency_key : option string;
  leg_reference_order_id : option uuid;
  leg_reference_invoice_id : option uuid;
  leg_reference_intent_id : option uuid;
  leg_description : option string;
}.

Record ReconcileReport := mk_ReconcileReport {
  wallets_checked : Z;
  correlations_checked : Z;
  drifts : list (sum uuid uuid);  (* a wallet that drifted, or a correlation group *)
}.

Definition report_ok (r : ReconcileReport) : bool := match drifts r with [] => true | _ => false end.

Fixpoint validate_nonzero (legs : list Leg) : res () :=
  match legs with
  | [] => Ok ()
  | leg :: legs =>
      q ← quantize_money (leg_amount leg);
      raise_if (deqb q ZERO) LedgerImbalanceError;;
      validate_nonzero legs
  end.

Definition validate_legs (legs : list Leg) : res () :=
  raise_if (length legs <? 2)%nat LedgerImbalanceError;;
  let total := dsum ZERO (leg_amount <$> legs) in
  q ← quantize_money total;
  raise_if (negb (deqb q ZERO)) LedgerImbalanceError;;
  validate_nonzero legs.

(** Truthiness of [idempotency_key]: [None] and the empty string are false. *)
Definition key_of (leg : Leg) : option string :=
  match leg_idempotency_key leg with Some EmptyString => None | k => k end.

Fixpoint any_key_exists (legs : list Leg) : M bool :=
  match legs with
  | [] => mret false
  | leg :: legs =>
      match key_of leg with
      | Some key => e ← idempotency_key_exists key; if (e : bool) then mret true else any_key_exists legs
      | None => any_key_exists legs
      end
  end.

(** The locked wallets as the loop mutates them: in-memory balance and version. *)
Abbreviation memory := (gmap uuid (dec * Z)).

(** A ledger row added to the session, with its (quantized) amount and balance. *)
Record pending := mk_pending { pd_leg : Leg; pd_amount : dec; pd_balance_after : dec }.

Fixpoint apply_legs (mem : memory) (legs : list Leg) : res (memory * list pending) :=
  match legs with
  | [] => Ok (mem, [])
  | leg :: legs =>
      match mem !! leg_wallet_id leg with
      | None => Raise KeyError
      | Some (balance, version) =>
          balance ← quantize_money (dadd balance (leg_amount leg));
          amount ← quantize_money (leg_amount leg);
          rest ← apply_legs (<[leg_wallet_id leg := (balance, version + 1)]> mem) legs;
          Ok (rest.1, mk_pending leg amount balance :: rest.2)
      end
  end.

(** The flush: UPDATE of the dirty wallets, INSERT of the pending rows. *)
Definition flush_wallet (locked : gmap uuid Wallet) (mem : memory) (id : uuid) : M () :=
  match locked !! id, mem !! id with
  | Some w, Some (balance, version) =>
      b ← lift (numeric_12_2 balance);
      update_row id (w <| w_balance := b |> <| w_version := version |>)
  | _, _ => mret ()
  end.

Definition flush_pending (correlation_id : uuid) (p : pending) : M () :=
  let leg := pd_leg p in
  append_transaction (leg_wallet_id leg) (pd_amount p) (leg_txn_type leg) TransactionStatus.SETTLED
    correlation_id (pd_balance_after p) (leg_idempotency_key leg) (leg_reference_order_id leg)
    (leg_reference_invoice_id leg) (leg_reference_intent_id leg) (leg_description leg).

Definition post_locked (legs : list Leg) (correlation_id : uuid) : M bool :=
  let ids := leg_wallet_id <$> legs in
  locked ← lock_wallets ids;
  let mem := (λ w, (sar (w_balance w), w_version w)) <$> locked in
  applied ← lift (apply_legs mem legs);
  for_each (flush_wallet locked applied.1) (lock_order ids);;
  for_each (flush_pending correlation_id) applied.2;;
  mret true.

Definition post_group (legs : list Leg) (correlation_id : uuid) : M bool :=
  lift (validate_legs legs);;
  replay ← any_key_exists legs;
  if (replay : bool) then mret false
  else
    savepoint_catch (post_locked legs correlation_id)
      (replay ← any_key_exists legs; if (replay : bool) then mret false else raise IntegrityError).

(** [str(uuid)]: ids print injectively. *)
Definition uuid_str (id : uuid) : string := pretty id.

Definition topup_key (intent_id : uuid) : string := "intent:" +:+ uuid_str intent_id +:+ ":topup".
Definition release_key (order_id : uuid) : string := "order:" +:+ uuid_str order_id +:+ ":release".
Definition refund_key (order_id : uuid) : string := "order:" +:+ uuid_str order_id +:+ ":refund".
Definition split_key (order_id : uuid) : string := "order:" +:+ uuid_str order_id +:+ ":split".
Definition withdrawal_key (withdrawal_id : uuid) : string := "withdrawal:" +:+ uuid_str withdrawal_id +:+ ":paid".
Definition escrow_key (invoice_id : uuid) : string := "invoice:" +:+ uuid_str invoice_id +:+ ":escrow".

Definition credit_topup (user_wallet_id : uuid) (amount : dec) (intent_id : uuid) : M bool :=
  gateway ← get_system WalletType.SYSTEM_GATEWAY;
  correlation ← uuid4;
  credit ← lift (quantize_money amount);
  debit ← lift (quantize_money (dneg amount));
  post_group
    [ mk_Leg user_wallet_id credit TransactionType.TOPUP (Some (topup_key intent_id))
        None None (Some intent_id) None;
      mk_Leg gateway.1 debit TransactionType.TOPUP None None None (Some intent_id) None ]
    correlation.

Definition release_escrow_on_completion (order_id invoice_id courier_wallet_id : uuid)
    (courier_payout_amount tax_amount platform_revenue_amount : dec) : M bool :=
  courier_payout ← lift (quantize_money courier_payout_amount);
  tax ← lift (quantize_money tax_amount);
  revenue ← lift (quantize_money platform_revenue_amount);
  total ← lift (quantize_money (dadd (dadd courier_payout tax) revenue));
  escrow ← get_system WalletType.SYSTEM_ESCROW;
  tax_wallet ← get_system WalletType.SYSTEM_TAX_PAYABLE;
  revenue_wallet ← get_system WalletType.SYSTEM_REVENUE;
  correlation ← uuid4;
  let legs :=
    [ mk_Leg escrow.1 (dneg total) TransactionType.ESCROW_RELEASE (Some (release_key order_id))
        (Some order_id) (Some invoice_id) None None;
      mk_Leg courier_wallet_id courier_payout TransactionType.ESCROW_RELEASE None
        (Some order_id) (Some invoice_id) None None ] ++
    (if negb (deqb tax ZERO) then
       [ mk_Leg tax_wallet.1 tax TransactionType.TAX None (Some order_id) (Some invoice_id) None None ]
     else []) ++
    (if negb (deqb revenue ZERO) then
       [ mk_Leg revenue_wallet.1 revenue TransactionType.COMMISSION None
           (Some order_id) (Some invoice_id) None None ]
     else []) in
  post_group legs correlation.

Definition refund_escrow (order_id invoice_id customer_wallet_id : uuid) (amount : dec) : M bool :=
  amount ← lift (quantize_money amount);
  escrow ← get_system WalletType.SYSTEM_ESCROW;
  correlation ← uuid4;
  post_group
    [ mk_Leg escrow.1 (dneg amount) TransactionType.REFUND (Some (refund_key order_id))
        (Some order_id) (Some invoice_id) None None;
      mk_Leg customer_wallet_id amount TransactionType.REFUND None
        (Some order_id) (Some invoice_id) None None ]
    correlation.

Definition split_escrow (order_id invoice_id courier_wallet_id customer_wallet_id : uuid)
    (courier_amount refund_amount : dec) : M bool :=
  courier_amount ← lift (quantize_money courier_amount);
  refund_amount ← lift (quantize_money refund_amount);
  total ← lift (quantize_money (dadd courier_amount refund_amount));
  escrow ← get_system WalletType.SYSTEM_ESCROW;
  let legs :=
    [ mk_Leg escrow.1 (dneg total) TransactionType.ESCROW_RELEASE (Some (split_key order_id))
        (Some order_id) (Some invoice_id) None None ] ++
    (if negb (deqb courier_amount ZERO) then
       [ mk_Leg courier_wallet_id courier_amount TransactionType.ESCROW_RELEASE None
           (Some order_id) (Some invoice_id) None None ]
     else []) ++
    (if negb (deqb refund_amount ZERO) then
       [ mk_Leg customer_wallet_id refund_amount TransactionType.REFUND None
           (Some order_id) (Some invoice_id) None None ]
     else []) in
  correlation ← uuid4;
  post_group legs correlation.

Definition available_balance (user_id : uuid) : M dec :=
  wallet ← get_by_user user_id;
  match wallet with
  | None => mret ZERO
  | Some (_, w) => lift (quantize_money (dsub (sar (w_balance w)) (sar (w_held_balance w))))
  end.

(** [locked = lock_wallets([id]); wallet = locked[id]]. *)
Definition lock_one (wallet_id : uuid) : M Wallet :=
  locked ← lock_wallets [wallet_id];
  unwrap (locked !! wallet_id) KeyError.

Definition hold_funds (wallet_id : uuid) (amount : dec) : M () :=
  amount ← lift (quantize_money amount);
  wallet ← lock_one wallet_id;
  available ← lift (quantize_money (dsub (sar (w_balance wallet)) (sar (w_held_balance wallet))));
  guard_ (dltb available amount) InsufficientFundsError;;
  held ← lift (quantize_money (dadd (sar (w_held_balance wallet)) amount));
  h ← lift (numeric_12_2 held);
  update_row wallet_id (wallet <| w_held_balance := h |> <| w_version := w_version wallet + 1 |>).

(** The over-release branch only logs. *)
Definition release_hold (wallet_id : uuid) (amount : dec) : M () :=
  amount ← lift (quantize_money amount);
  wallet ← lock_one wallet_id;
  held ← lift (quantize_money (dmax ZERO (dsub (sar (w_held_balance wallet)) amount)));
  h ← lift (numeric_12_2 held);
  update_row wallet_id (wallet <| w_held_balance := h |> <| w_version := w_version wallet + 1 |>).

Definition pay_withdrawal (courier_wallet_id : uuid) (amount : dec) (withdrawal_id : uuid) : M bool :=
  amount ← lift (quantize_money amount);
  gateway ← get_system WalletType.SYSTEM_GATEWAY;
  correlation ← uuid4;
  let note := Some ("Courier withdrawal " +:+ uuid_str withdrawal_id) in
  posted ← post_group
    [ mk_Leg courier_wallet_id (dneg amount) TransactionType.WITHDRAWAL
        (Some (withdrawal_key withdrawal_id)) None None None note;
      mk_Leg gateway.1 amount TransactionType.WITHDRAWAL None None None None note ]
    correlation;
  when posted (release_hold courier_wallet_id amount);;
  mret posted.

Definition fund_escrow_for_invoice (customer_wallet_id : uuid) (wallet_amount gateway_amount : dec)
    (invoice_id order_id : uuid) (intent_id : option uuid) (was_held : bool) : M bool :=
  wallet_amount ← lift (quantize_money wallet_amount);
  gateway_amount ← lift (quantize_money gateway_amount);
  total ← lift (quantize_money (dadd wallet_amount gateway_amount));
  escrow ← get_system WalletType.SYSTEM_ESCROW;
  gateway ← get_system WalletType.SYSTEM_GATEWAY;
  correlation ← uuid4;
  let legs :=
    (if dltb ZERO wallet_amount then
       [ mk_Leg customer_wallet_id (dneg wallet_amount) TransactionType.PAYMENT None
           (Some order_id) (Some invoice_id) intent_id None ]
     else []) ++
    (if dltb ZERO gateway_amount then
       [ mk_Leg gateway.1 (dneg gateway_amount) TransactionType.PAYMENT None
           (Some order_id) (Some invoice_id) intent_id None ]
     else []) ++
    [ mk_Leg escrow.1 total TransactionType.ESCROW_HOLD (Some (escrow_key invoice_id))
        (Some order_id) (Some invoice_id) intent_id None ] in
  posted ← post_group legs correlation;
  when (posted && was_held && dltb ZERO wallet_amount)
    (release_hold customer_wallet_id wallet_amount);;
  mret posted.

(** The loop of [reconcile] over the wallets. *)
Fixpoint wallet_drifts (settled_sums : gmap uuid dec) (wallets : list (uuid * Wallet)) : res (list (sum uuid uuid)) :=
  match wallets with
  | [] => Ok []
  | (id, w) :: wallets =>
      let settled := default ZERO (settled_sums !! id) in
      s ← quantize_money settled;
      b ← quantize_money (sar (w_balance w));
      rest ← wallet_drifts settled_sums wallets;
      Ok (if deqb s b then rest else inl id :: rest)
  end.

Definition reconcile : M ReconcileReport :=
  wallets ← all_wallets;
  settled_sums ← settled_sums_by_wallet;
  drifts ← lift (wallet_drifts settled_sums wallets);
  corr ← correlation_drift_sums;
  n ← correlation_count;
  mret (mk_ReconcileReport (Z.of_nat (length wallets)) n (drifts ++ ((λ p, inr p.1) <$> corr))).

(** ** The invariant and the effect of a posted group *)

Record ledger_ok (d : db) : Prop := {
  lk_balance : ∀ wid w, tb_wallets d !! wid = Some w →
    w_balance w = settled_sum (tb_transactions d) wid;
  lk_zero : ∀ c, corr_sum (tb_transactions d) c = 0;
  lk_wallet : ∀ tid t, tb_transactions d !! tid = Some t → is_Some (tb_wallets d !! txn_wallet_id t);
  lk_unique : ∀ i j a b, tb_transactions d !! i = Some a → tb_transactions d !! j = Some b →
    i ≠ j → conflicts_transactions a b = false;
  lk_range : ∀ wid w, tb_wallets d !! wid = Some w →
    Z.abs (w_balance w) < 10 ^ 12 ∧ Z.abs (w_held_balance w) < 10 ^ 12 ∧
    chk_balance_non_negative w = true;
  lk_pairing : ∀ wid w, tb_wallets d !! wid = Some w → chk_user_wallet_pairing w = true;
  lk_wunique : ∀ i j a b, tb_wallets d !! i = Some a → tb_wallets d !! j = Some b →
    i ≠ j → conflicts_wallets a b = false;
}.

(** Legs as every caller builds them: two-place amounts, a handful per group. *)
Definition two_place (legs : list Leg) : Prop :=
  Forall (λ l, dexp (leg_amount l) = -2) legs ∧ Z.of_nat (length legs) ≤ 1000.

Definition leg_z (l : Leg) : Z := halalas (leg_amount l).

(** What a group adds to a wallet, and how many of its legs touch it. *)
Definition legs_for (wid : uuid) (legs : list Leg) : Z :=
  zsum_by (λ l, if same (leg_wallet_id l) wid then leg_z l else 0) legs.

Definition legs_on (wid : uuid) (legs : list Leg) : Z :=
  zsum_by (λ l, if same (leg_wallet_id l) wid then 1 else 0) legs.

(** The ledger row of a leg; [ba] is the wallet's balance after it. *)
Definition leg_row (correlation_id : uuid) (now : instant) (leg : Leg) (ba : Z) : Transaction :=
  mk_Transaction (leg_wallet_id leg) (leg_z leg) (leg_txn_type leg) TransactionStatus.SETTLED
    (leg_reference_order_id leg) (leg_reference_invoice_id leg) (leg_reference_intent_id leg)
    correlation_id ba (leg_idempotency_key leg) (leg_description leg) now.

(** The rows of a group in the order its legs are posted, each with the balance its
    wallet has after that leg; [bal] is the balance of every wallet before. *)
Fixpoint running_rows (correlation_id : uuid) (now : instant) (bal : uuid → Z) (legs : list Leg) : list Transaction :=
  match legs with
  | [] => []
  | l :: legs =>
      let b := bal (leg_wallet_id l) + leg_z l in
      leg_row correlation_id now l b
        :: running_rows correlation_id now (λ w, if same w (leg_wallet_id l) then b else bal w) legs
  end.

Definition balance_of (d : db) (wid : uuid) : Z := from_option w_balance 0 (tb_wallets d !! wid).

(** The ledger grows by exactly one row per leg, each under an id of its own that no row had. *)
Definition rows_appended (legs : list Leg) (correlation_id : uuid) (d d' : db) : Prop :=
  ∃ ids, length ids = length legs ∧ NoDup ids ∧ Forall (λ id, tb_transactions d !! id = None) ids ∧
    tb_transactions d' =
      list_to_map (zip ids (running_rows correlation_id (db_now d) (balance_of d) legs)) ∪ tb_transactions d ∧
    size (tb_transactions d') = (size (tb_transactions d) + length legs)%nat.

Record posted (legs : list Leg) (correlation_id : uuid) (d d' : db) : Prop := {
  po_wallets : ∀ wid, tb_wallets d' !! wid =
    (λ w, w <| w_balance := w_balance w + legs_for wid legs |>
            <| w_version := w_version w + legs_on wid legs |>) <$> tb_wallets d !! wid;
  po_known : Forall (λ l, is_Some (tb_wallets d !! leg_wallet_id l)) legs;
  po_checked : ∀ wid w, tb_wallets d' !! wid = Some w → legs_on wid legs ≠ 0 →
    Z.abs (w_balance w) < 10 ^ 12 ∧ chk_balance_non_negative w = true;
  po_rows : ∃ bas, length bas = length legs ∧
    ∀ f, map_total f (tb_transactions d') =
         map_total f (tb_transactions d) + zsum (zip_with (λ l ba, f (leg_row correlation_id (db_now d) l ba)) legs bas);
  po_kept : tb_transactions d ⊆ tb_transactions d';
  po_new : ∀ tid t, tb_transactions d' !! tid = Some t →
    tb_transactions d !! tid = Some t ∨ ∃ l ba, l ∈ legs ∧ t = leg_row correlation_id (db_now d) l ba;
  po_all : Forall (λ l, ∃ tid ba, tb_transactions d' !! tid = Some (leg_row correlation_id (db_now d) l ba)) legs;
  po_unique : (∀ i j a b, tb_transactions d !! i = Some a → tb_transactions d !! j = Some b →
      i ≠ j → conflicts_transactions a b = false) →
    ∀ i j a b, tb_transactions d' !! i = Some a → tb_transactions d' !! j = Some b →
      i ≠ j → conflicts_transactions a b = false;
  po_zero : zsum_by leg_z legs = 0;
  po_nonzero : Forall (λ l, leg_z l ≠ 0) legs;
  po_frame : ∃ ws ts n, d' = d <| tb_wallets := ws |> <| tb_transactions := ts |> <| db_next := n |>;
}.

(** ** Locking *)

Lemma lock_order_elem (ids : list uuid) (id : uuid) : id ∈ lock_order ids ↔ id ∈ ids.
Proof. unfold lock_order. rewrite merge_sort_Permutation. apply elem_of_remove_dups. Qed.

Lemma lock_order_NoDup (ids : list uuid) : NoDup (lock_order ids).
Proof. unfold lock_order. rewrite merge_sort_Permutation. apply NoDup_remove_dups. Qed.

Lemma lock_rows_run (ids : list uuid) (d : db) :
  ∃ m, lock_rows ids d = Ok (m, d) ∧
    ∀ id, m !! id = if decide (id ∈ ids) then tb_wallets d !! id else None.
Proof.
  induction ids as [|i ids IH].
  - exists ∅. split; [done|]. intros id. by rewrite lookup_empty.
  - destruct IH as (m & E & Hm). cbn. erewrite bind_run by reflexivity. erewrite bind_run by exact E.
    eexists. split; [reflexivity|]. intros id.
    destruct (decide (id = i)) as [->|Hne].
    + rewrite decide_True by left. cbn. destruct (tb_wallets d !! i) as [w|] eqn:Ew.
      * by rewrite lookup_insert_eq.
      * rewrite Hm. by destruct (decide _).
    + assert ((match tb_wallets d !! i with Some w => <[i:=w]> m | None => m end) !! id = m !! id) as E'.
      { destruct (tb_wallets d !! i); [by rewrite lookup_insert_ne|done]. }
      cbn. rewrite E', Hm. destruct (decide (id ∈ ids)) as [Hin|Hin], (decide (id ∈ i :: ids)) as [Hin'|Hin'];
        try done; [exfalso; apply Hin'; by right|apply elem_of_cons in Hin' as [?|?]; done].
Qed.

Lemma lock_wallets_run (ids : list uuid) (d : db) :
  ∃ m, lock_wallets ids d = Ok (m, d) ∧
    ∀ id, m !! id = if decide (id ∈ ids) then tb_wallets d !! id else None.
Proof.
  destruct (lock_rows_run (lock_order ids) d) as (m & E & Hm). exists m. split; [done|].
  intros id. rewrite Hm. destruct (decide (id ∈ ids)) as [H|H], (decide (id ∈ lock_order ids)) as [H'|H'];
    try done; by rewrite lock_order_elem in H'.
Qed.

Lemma lock_one_ok (wid : uuid) (d : db) (w : Wallet) (d' : db) :
  lock_one wid d = Ok (w, d') ↔ d' = d ∧ tb_wallets d !! wid = Some w.
Proof.
  unfold lock_one. destruct (lock_wallets_run [wid] d) as (m & E & Hm).
  erewrite bind_run by exact E. rewrite unwrap_ok, Hm.
  rewrite decide_True by (by apply list_elem_of_singleton). naive_solver.
Qed.

(** ** Applying the legs in memory *)

Lemma quantize_money_two_place (a q : dec) : dexp a = -2 → quantize_money a = Ok q → q = a ∧ small (coef a).
Proof.
  destruct a as [z e]. cbn. intros -> H. fold (sar z) in *.
  destruct (quantize_money_ok_inv _ _ H) as (z' & -> & Hz').
  unfold quantize_money, quantize, sar in H. cbn [dexp MONEY coef] in H.
  destruct (Z.eqb_spec (Z.abs z) 0) as [E|E].
  { injection H as <-. replace z with 0 by lia. split; [done|]. unfold small. lia. }
  destruct (Z.ltb_spec prec (dlen (Z.abs z) + -2 - -2)) as [|Hl]; [done|].
  assert (small z) as Hs by (apply small_of_dlen; unfold prec in Hl; lia).
  rewrite Z.leb_refl in H. change (10 ^ (-2 - -2)) with 1 in H. rewrite Z.mul_1_r in H.
  destruct (prec <? dlen (Z.abs z)); [done|]. injection H as <-. split; [|done].
  unfold sar. f_equal. lia.
Qed.

Definition mem_ok (mem : memory) : Prop :=
  ∀ id b v, mem !! id = Some (b, v) → ∃ z, b = sar z ∧ small z.

Lemma legs_for_cons (wid : uuid) (l : Leg) (legs : list Leg) :
  legs_for wid (l :: legs) = (if same (leg_wallet_id l) wid then leg_z l else 0) + legs_for wid legs.
Proof. done. Qed.

Lemma legs_on_cons (wid : uuid) (l : Leg) (legs : list Leg) :
  legs_on wid (l :: legs) = (if same (leg_wallet_id l) wid then 1 else 0) + legs_on wid legs.
Proof. done. Qed.

Lemma legs_on_0 (wid : uuid) (legs : list Leg) : wid ∉ leg_wallet_id <$> legs → legs_on wid legs = 0 ∧ legs_for wid legs = 0.
Proof.
  induction legs as [|l legs IH]; [done|]. rewrite fmap_cons, not_elem_of_cons. intros [Hne Hn].
  rewrite legs_on_cons, legs_for_cons. destruct (IH Hn) as [-> ->].
  unfold same. rewrite bool_decide_eq_false_2 by congruence. done.
Qed.

Lemma apply_legs_ok (legs : list Leg) (mem mem' : memory) (ps : list pending) :
  Forall (λ l, dexp (leg_amount l) = -2) legs → mem_ok mem →
  apply_legs mem legs = Ok (mem', ps) →
  mem_ok mem' ∧
  (∀ id z v, mem !! id = Some (sar z, v) →
     mem' !! id = Some (sar (z + legs_for id legs), v + legs_on id legs)) ∧
  (∀ id, mem !! id = None → mem' !! id = None) ∧
  Forall (λ l, is_Some (mem !! leg_wallet_id l)) legs ∧
  Forall2 (λ l p, pd_leg p = l ∧ pd_amount p = leg_amount l ∧ ∃ z, pd_balance_after p = sar z) legs ps.
Proof.
  revert mem mem' ps. induction legs as [|l legs IH]; intros mem mem' ps Ht Hm H.
  - injection H as <- <-. split; [done|]. split; [|repeat split; try constructor; done].
    intros id z v E. rewrite E. unfold legs_for, legs_on, zsum_by. cbn. by rewrite !Z.add_0_r.
  - apply Forall_cons_1 in Ht as [Hl Ht]. cbn in H.
    destruct (mem !! leg_wallet_id l) as [[b v]|] eqn:El; [|done].
    destruct (Hm _ _ _ El) as (z0 & -> & Hz0).
    apply res_bind_ok in H as (bal & Eb & H). apply res_bind_ok in H as (amt & Ea & H).
    apply res_bind_ok in H as ([mem1 ps1] & E1 & H). injection H as <- <-.
    destruct (quantize_money_two_place _ _ Hl Ea) as [-> Hza].
    assert (leg_amount l = sar (leg_z l)) as Eleg.
    { destruct (leg_amount l) as [c e] eqn:E. unfold leg_z, halalas. rewrite E. cbn in *. by subst. }
    rewrite Eleg in Eb. apply quantize_dadd_inv in Eb as [-> Hs]; [|done|by rewrite <- Eleg in Hza || (unfold leg_z, halalas)].
    assert (mem_ok (<[leg_wallet_id l := (sar (z0 + leg_z l), v + 1)]> mem)) as Hm'.
    { intros id b' v' Hid. destruct (decide (id = leg_wallet_id l)) as [->|Hne].
      - rewrite lookup_insert_eq in Hid. injection Hid as <- <-. eauto.
      - rewrite lookup_insert_ne in Hid by done. eauto. }
    destruct (IH _ _ _ Ht Hm' E1) as (I1 & I2 & I3 & I4 & I5).
    split; [done|]. split; [|split; [|split]].
    + intros id z v' Hid. rewrite legs_for_cons, legs_on_cons.
      destruct (decide (id = leg_wallet_id l)) as [->|Hne].
      * rewrite El in Hid. injection Hid as E' <-.
        rewrite (proj2 (same_true _ _)) by done.
        erewrite I2 by apply lookup_insert_eq.
        rewrite <- !Z.add_assoc. by subst.
      * unfold same. rewrite bool_decide_eq_false_2 by done. rewrite !Z.add_0_l.
        apply I2. by rewrite lookup_insert_ne.
    + intros id Hid. apply I3. destruct (decide (id = leg_wallet_id l)) as [->|Hne]; [by rewrite El in Hid|].
      by rewrite lookup_insert_ne.
    + constructor; [by rewrite El|]. eapply Forall_impl; [exact I4|]. cbn. intros l' Hl'.
      destruct (decide (leg_wallet_id l' = leg_wallet_id l)) as [->|Hne]; [by rewrite El|].
      by rewrite lookup_insert_ne in Hl'.
    + constructor; [|done]. cbn. split; [done|]. split; [done|]. eauto.
Qed.

(** ** Flushing *)

Lemma flush_wallets_ok (locked : gmap uuid Wallet) (mem : memory) (ids : list uuid) (d : db) (u : ()) (d' : db) :
  NoDup ids → mem_ok mem →
  for_each (flush_wallet locked mem) ids d = Ok (u, d') →
  ∃ ws, d' = d <| tb_wallets := ws |> ∧
    (∀ id, id ∉ ids → ws !! id = tb_wallets d !! id) ∧
    (∀ id w z v, id ∈ ids → locked !! id = Some w → mem !! id = Some (sar z, v) →
       ws !! id = Some (w <| w_balance := z |> <| w_version := v |>) ∧ Z.abs z < 10 ^ 12 ∧
       chk_balance_non_negative (w <| w_balance := z |> <| w_version := v |>) = true) ∧
    (∀ id, id ∈ ids → locked !! id = None ∨ mem !! id = None → ws !! id = tb_wallets d !! id).
Proof.
  intros Hnd Hm. revert d. induction Hnd as [|i ids Hi Hnd IH]; intros d H.
  - injection H as _ <-. exists (tb_wallets d). split; [by destruct d|].
    split; [done|]. split; intros id; intros; by (exfalso; eapply not_elem_of_nil).
  - cbn in H. apply bind_ok in H as (u1 & d1 & H1 & H2). destruct (IH d1 H2) as (ws & -> & W1 & W2 & W3).
    exists ws. unfold flush_wallet in H1.
    destruct (locked !! i) as [w|] eqn:El; [destruct (mem !! i) as [[b v]|] eqn:Em|].
    2-3: injection H1 as _ <-; split; [done|]; split; [intros id Hid; apply W1; set_solver|];
      split; [intros id w' z v Hid Hl Hm'; apply elem_of_cons in Hid as [->|Hid]; [congruence|eauto]|];
      intros id Hid Hn; apply elem_of_cons in Hid as [->|Hid]; [by apply W1|by apply W3].
    apply bind_ok in H1 as (z & d2 & Ez & H1). apply lift_ok in Ez as [Ez ->].
    destruct (Hm _ _ _ Em) as (z' & -> & _). apply numeric_sar_inv in Ez as [-> Hz].
    apply update_row_ok in H1 as (_ & Hck & _ & ->). cbn in Hck. apply andb_true_iff in Hck as [_ Hck].
    split; [done|]. split; [|split].
    + intros id Hid. rewrite W1 by set_solver. cbn. apply lookup_insert_ne. set_solver.
    + intros id w' z v' Hid Hl Hm'. apply elem_of_cons in Hid as [->|Hid]; [|by apply W2].
      rewrite Hl in El. injection El as <-. rewrite Hm' in Em. injection Em as <- <-.
      rewrite W1 by done. cbn. rewrite lookup_insert_eq. done.
    + intros id Hid Hn. apply elem_of_cons in Hid as [->|Hid]; [destruct Hn; congruence|].
      rewrite W3 by done. cbn. apply lookup_insert_ne. intros ->. done.
Qed.

Lemma conflicts_transactions_sym (a b : Transaction) :
  conflicts_transactions a b = conflicts_transactions b a.
Proof.
  unfold conflicts_transactions, same_some.
  destruct (txn_idempotency_key a), (txn_idempotency_key b); try done.
  apply bool_decide_ext. done.
Qed.

Definition txns_unique (ts : gmap uuid Transaction) : Prop :=
  ∀ i j a b, ts !! i = Some a → ts !! j = Some b → i ≠ j → conflicts_transactions a b = false.

Lemma txns_unique_insert (ts : gmap uuid Transaction) (id : uuid) (t : Transaction) :
  (∀ id' r', ts !! id' = Some r' → id' ≠ id → conflicts_transactions t r' = false) →
  txns_unique ts → txns_unique (<[id := t]> ts).
Proof.
  intros Hn Hu i j a b Hi Hj Hij.
  apply lookup_insert_Some in Hi as [[-> <-]|[Hi' Hi]], Hj as [[-> <-]|[Hj' Hj]];
    [done|by eapply Hn| |by eapply (Hu i j)].
  rewrite conflicts_transactions_sym. by eapply Hn.
Qed.

(** The rows a flush appends, in order. *)
Lemma flush_pendings_ok (corr : uuid) (legs : list Leg) (ps : list pending) (d : db) (u : ()) (d' : db) :
  Forall (λ l, dexp (leg_amount l) = -2) legs →
  Forall2 (λ l p, pd_leg p = l ∧ pd_amount p = leg_amount l ∧ ∃ z, pd_balance_after p = sar z) legs ps →
  for_each (flush_pending corr) ps d = Ok (u, d') →
  (∃ bas, length bas = length legs ∧
    ∀ f, map_total f (tb_transactions d') =
         map_total f (tb_transactions d) + zsum (zip_with (λ l ba, f (leg_row corr (db_now d) l ba)) legs bas)) ∧
  tb_transactions d ⊆ tb_transactions d' ∧
  (∀ tid t, tb_transactions d' !! tid = Some t →
     tb_transactions d !! tid = Some t ∨ ∃ l ba, l ∈ legs ∧ t = leg_row corr (db_now d) l ba) ∧
  Forall (λ l, ∃ tid ba, tb_transactions d' !! tid = Some (leg_row corr (db_now d) l ba)) legs ∧
  (txns_unique (tb_transactions d) → txns_unique (tb_transactions d')) ∧
  Forall (λ l, Z.abs (leg_z l) < 10 ^ 12) legs ∧
  ∃ ts n, d' = d <| tb_transactions := ts |> <| db_next := n |>.
Proof.
  intros Ht HF. revert d. induction HF as [|l p legs ps (E1 & E2 & z & E3) HF IH]; intros d H.
  - injection H as _ <-. split; [exists []; split; [done|]; intros f; cbn; lia|].
    split; [done|]. split; [by left|]. split; [constructor|]. split; [done|]. split; [constructor|].
    exists (tb_transactions d), (db_next d). by destruct d.
  - apply Forall_cons_1 in Ht as [Hl Ht]. cbn in H. apply bind_ok in H as (u1 & d1 & H1 & H2).
    unfold flush_pending, append_transaction in H1. rewrite E1, E2, E3 in H1.
    apply bind_ok in H1 as (a & da & Ea & H1). apply lift_ok in Ea as [Ea ->].
    apply bind_ok in H1 as (ba & db_ & Eb & H1). apply lift_ok in Eb as [Eb ->].
    assert (leg_amount l = sar (leg_z l)) as Eleg.
    { destruct (leg_amount l) as [c e] eqn:E. unfold leg_z, halalas. rewrite E. cbn in *. by subst. }
    rewrite Eleg in Ea. apply numeric_sar_inv in Ea as [-> Hz]. apply numeric_sar_inv in Eb as [-> _].
    apply bind_ok in H1 as (nw & dn & En & H1). injection En as <- <-.
    apply bind_ok in H1 as (id & di & Hins & H1). injection H1 as _ <-.
    unfold insert_row in Hins. apply bind_ok in Hins as (id0 & d0 & Eid & Hins). injection Eid as <- <-.
    apply bind_ok in Hins as (u2 & d3 & Hins & Hret). injection Hret as <- <-.
    apply insert_row_at_ok in Hins as (Hnone & _ & _ & Huniq & ->).
    fold (leg_row corr (db_now d) l z) in *. cbn [rows table_transactions] in *. cbn in Hnone.
    destruct (IH Ht _ H2) as ((bas & Hlen & Hsum) & Hsub & Hnew & Hall & Hun & Hr & (ts & n & ->)).
    cbn in Hsum, Hsub, Hnew, Hall, Hun.
    assert (tb_transactions d ⊆ <[db_next d := leg_row corr (db_now d) l z]> (tb_transactions d)) as Hs1
      by by apply insert_subseteq.
    split; [|split; [|split; [|split; [|split; [|split]]]]].
    + exists (z :: bas). split; [by cbn; rewrite Hlen|]. intros f. cbn. cbn in Hsum. rewrite Hsum.
      rewrite map_total_insert_new by done. lia.
    + cbn. by etransitivity.
    + cbn. intros tid t Hti. destruct (Hnew tid t Hti) as [Hi|(l' & ba & Hin & ->)].
      * destruct (decide (tid = db_next d)) as [->|Hne].
        -- rewrite lookup_insert_eq in Hi. injection Hi as <-. right. exists l, z. split; [left|done].
        -- rewrite lookup_insert_ne in Hi by done. by left.
      * right. exists l', ba. split; [by right|done].
    + constructor; [|done]. exists (db_next d), z. cbn.
      eapply lookup_weaken; [|exact Hsub]. apply lookup_insert_eq.
    + intros Hu. apply Hun. apply txns_unique_insert; [|done].
      pose proof (proj1 (unique_ok_true _ _ _) Huniq) as Hq. cbn in Hq. exact Hq.
    + by constructor.
    + eexists _, _. reflexivity.
Qed.

(** ** A posted group *)

Lemma leg_amount_sar (l : Leg) : dexp (leg_amount l) = -2 → leg_amount l = sar (leg_z l).
Proof. unfold leg_z, halalas. destruct (leg_amount l) as [c e]. cbn. by intros ->. Qed.

Lemma leg_amounts_sar (legs : list Leg) :
  Forall (λ l, dexp (leg_amount l) = -2) legs → leg_amount <$> legs = sar <$> (leg_z <$> legs).
Proof.
  induction 1 as [|l legs Hl H IH]; [done|]. rewrite !fmap_cons, IH, leg_amount_sar by done. done.
Qed.

Lemma validate_legs_ok (legs : list Leg) (u : ()) :
  two_place legs → Forall (λ l, Z.abs (leg_z l) < 10 ^ 12) legs →
  validate_legs legs = Ok u → zsum_by leg_z legs = 0 ∧ Forall (λ l, leg_z l ≠ 0) legs.
Proof.
  intros [Ht Hn] Hr H. unfold validate_legs in H.
  apply res_bind_ok in H as (u1 & _ & H). apply res_bind_ok in H as (q & Eq & H).
  apply res_bind_ok in H as (u2 & Hz & H). apply raise_if_ok in Hz.
  rewrite leg_amounts_sar in Eq by done. rewrite (dsum_sar _ 0 (10 ^ 12)) in Eq; [|lia| |].
  2:{ rewrite length_fmap. lia. }
  2:{ apply Forall_fmap. eapply Forall_impl; [exact Hr|]. cbn. lia. }
  apply quantize_money_two_place in Eq as [-> _]; [|done]. unfold ZERO in Hz.
  split.
  - apply negb_false_iff in Hz. change (Dec 0 (-2)) with (sar 0) in Hz. rewrite deqb_sar in Hz.
    unfold zsum_by. lia.
  - clear Hz Hn Hr. revert H Ht. induction legs as [|l legs IH]; [constructor|].
    intros H Ht. apply Forall_cons_1 in Ht as [Hl Ht]. cbn in H.
    apply res_bind_ok in H as (q & Eq & H). apply res_bind_ok in H as (u3 & Hz & H).
    apply raise_if_ok in Hz. constructor; [|by apply IH].
    apply quantize_money_two_place in Eq as [-> _]; [|done].
    rewrite leg_amount_sar in Hz by done. change ZERO with (sar 0) in Hz. rewrite deqb_sar in Hz. lia.
Qed.

Lemma legs_on_pos (wid : uuid) (legs : list Leg) : legs_on wid legs ≠ 0 → wid ∈ leg_wallet_id <$> legs.
Proof.
  intros H. destruct (decide (wid ∈ leg_wallet_id <$> legs)) as [?|Hn]; [done|].
  destruct (legs_on_0 _ _ Hn). done.
Qed.

Lemma wallet_eta (w : Wallet) : w <| w_balance := w_balance w + 0 |> <| w_version := w_version w + 0 |> = w.
Proof. destruct w. unfold upd; cbn. by rewrite !Z.add_0_r. Qed.

Lemma post_locked_ok (legs : list Leg) (corr : uuid) (d : db) (b : bool) (d' : db) (u : ()) :
  two_place legs → (∀ wid w, tb_wallets d !! wid = Some w → Z.abs (w_balance w) < 10 ^ 12) →
  validate_legs legs = Ok u → post_locked legs corr d = Ok (b, d') → b = true ∧ posted legs corr d d'.
Proof.
  intros Htp Hrange Hval H. assert (Htp' := Htp). destruct Htp' as [Ht Hlen].
  unfold post_locked in H. destruct (lock_wallets_run (leg_wallet_id <$> legs) d) as (locked & El & Hlk).
  erewrite bind_run in H by exact El. apply bind_ok in H as ([mem' ps] & d1 & Ea & H).
  apply lift_ok in Ea as [Ea ->]. cbn [fst snd] in H.
  apply bind_ok in H as (u1 & d1 & Hw & H). apply bind_ok in H as (u2 & d2 & Hp & H). injection H as <- <-.
  split; [done|].
  set (mem := (λ w, (sar (w_balance w), w_version w)) <$> locked) in *.
  assert (mem_ok mem) as Hm.
  { intros id b v Hid. unfold mem in Hid. rewrite lookup_fmap, Hlk in Hid.
    destruct (decide _); [|done]. destruct (tb_wallets d !! id) as [w|] eqn:E; [|done].
    injection Hid as <- <-. eexists. split; [done|]. pose proof (Hrange _ _ E). unfold small. lia. }
  destruct (apply_legs_ok legs mem mem' ps Ht Hm Ea) as (Hm' & A1 & A2 & A3 & A4).
  destruct (flush_wallets_ok locked mem' _ d u1 d1 (lock_order_NoDup _) Hm' Hw) as (ws & -> & W1 & W2 & W3).
  destruct (flush_pendings_ok corr legs ps _ u2 d2 Ht A4 Hp) as (R1 & R2 & R3 & R4 & R5 & R6 & (ts & n & ->)).
  destruct (validate_legs_ok legs u Htp R6 Hval) as [Z1 Z2].
  assert (∀ id w, id ∈ leg_wallet_id <$> legs → tb_wallets d !! id = Some w →
    ws !! id = Some (w <| w_balance := w_balance w + legs_for id legs |> <| w_version := w_version w + legs_on id legs |>)
    ∧ Z.abs (w_balance w + legs_for id legs) < 10 ^ 12
    ∧ chk_balance_non_negative (w <| w_balance := w_balance w + legs_for id legs |> <| w_version := w_version w + legs_on id legs |>) = true) as Hin.
  { intros id w Hid E. apply W2; [by apply lock_order_elem| |].
    - rewrite Hlk, decide_True by done. done.
    - apply A1. unfold mem. rewrite lookup_fmap, Hlk, decide_True, E by done. done. }
  constructor; try done.
  - intros wid. cbn. destruct (decide (wid ∈ leg_wallet_id <$> legs)) as [Hid|Hid].
    + destruct (tb_wallets d !! wid) as [w|] eqn:E; [by apply Hin|]. cbn.
      rewrite W3; [done|by apply lock_order_elem|]. left. rewrite Hlk, decide_True by done. done.
    + rewrite W1 by (by rewrite lock_order_elem). destruct (legs_on_0 _ _ Hid) as [-> ->].
      destruct (tb_wallets d !! wid); cbn; [|done]. by rewrite wallet_eta.
  - eapply Forall_impl; [exact A3|]. cbn. intros l [x Hx]. unfold mem in Hx.
    rewrite lookup_fmap, Hlk in Hx. destruct (decide _); [|done].
    destruct (tb_wallets d !! leg_wallet_id l); [eauto|done].
  - cbn. intros wid w Hw' Hon. apply legs_on_pos in Hon.
    destruct (tb_wallets d !! wid) as [w0|] eqn:E.
    + destruct (Hin wid w0 Hon E) as (E' & Hb & Hc). rewrite E' in Hw'. injection Hw' as <-. done.
    + rewrite W3 in Hw'; [by rewrite E in Hw'|by apply lock_order_elem|].
      left. rewrite Hlk, decide_True by done. done.
  - by eexists _, _, _.
Qed.

Lemma keeps_uuid4 (P : db → Prop) :
  (∀ d n, P d → P (d <| db_next := n |>)) → keeps P uuid4.
Proof. intros HP d a d' Hd [= _ <-]. by apply HP. Qed.

(** Some leg's (non-empty) key is already in the ledger. *)
Definition key_taken (d : db) (legs : list Leg) : Prop :=
  ∃ l key tid t, l ∈ legs ∧ key_of l = Some key ∧ tb_transactions d !! tid = Some t ∧
    txn_idempotency_key t = Some key.

Lemma idempotency_key_exists_run (key : string) (d : db) :
  ∃ b, idempotency_key_exists key d = Ok (b, d) ∧
    (b = true ↔ ∃ tid t, tb_transactions d !! tid = Some t ∧ txn_idempotency_key t = Some key).
Proof.
  unfold idempotency_key_exists.
  destruct (scalar_run (λ _ t, same (txn_idempotency_key t) (Some key)) d) as ([[tid t]|] & E & Ho);
    erewrite bind_run by exact E; eexists; (split; [reflexivity|]).
  - destruct Ho as [Hl Hs]. apply (proj1 (same_true _ _)) in Hs. naive_solver.
  - split; [done|]. intros (tid & t & Hl & Hk). specialize (Ho tid t Hl).
    rewrite (proj2 (same_true _ _)) in Ho by done. done.
Qed.

Lemma any_key_exists_run (legs : list Leg) (d : db) :
  ∃ b, any_key_exists legs d = Ok (b, d) ∧ (b = true ↔ key_taken d legs).
Proof.
  induction legs as [|l legs (b & E & Hb)].
  - exists false. split; [done|]. split; [done|]. intros (l & ? & ? & ? & Hl & _).
    by apply not_elem_of_nil in Hl.
  - cbn. destruct (key_of l) as [key|] eqn:Ek.
    + destruct (idempotency_key_exists_run key d) as (b1 & E1 & Hb1). erewrite bind_run by exact E1.
      destruct b1.
      * exists true. split; [done|]. split; [|done]. intros _.
        destruct (proj1 Hb1 eq_refl) as (tid & t & Ht & Hk). exists l, key, tid, t. split; [left|done].
      * exists b. split; [done|]. rewrite Hb. split.
        -- intros (l' & k & tid & t & Hl & H). exists l', k, tid, t. split; [by right|done].
        -- intros (l' & k & tid & t & Hl & Hk & Ht & Htk).
           apply elem_of_cons in Hl as [->|Hl]; [|by exists l', k, tid, t].
           rewrite Ek in Hk. injection Hk as ->. discriminate (proj2 Hb1). eauto.
    + exists b. split; [done|]. rewrite Hb. split.
      * intros (l' & k & tid & t & Hl & H). exists l', k, tid, t. split; [by right|done].
      * intros (l' & k & tid & t & Hl & Hk & H).
        apply elem_of_cons in Hl as [->|Hl]; [congruence|by exists l', k, tid, t].
Qed.

(** The two outcomes of [post_group]. *)
Lemma post_group_ok (legs : list Leg) (corr : uuid) (d : db) (b : bool) (d' : db) :
  two_place legs → (∀ wid w, tb_wallets d !! wid = Some w → Z.abs (w_balance w) < 10 ^ 12) →
  post_group legs corr d = Ok (b, d') →
  (b = false ∧ d' = d ∧ key_taken d legs) ∨
  (b = true ∧ ¬ key_taken d legs ∧ posted legs corr d d').
Proof.
  intros Htp Hr H. unfold post_group in H. apply bind_ok in H as (u & d1 & Ev & H).
  apply lift_ok in Ev as [Ev ->]. destruct (any_key_exists_run legs d) as (e & Ee & He).
  erewrite bind_run in H by exact Ee. destruct e.
  - injection H as <- <-. left. split; [done|]. split; [done|]. by apply He.
  - assert (¬ key_taken d legs) as Hn by (rewrite <- He; done).
    apply savepoint_catch_ok in H as [H|[_ H]].
    + destruct (post_locked_ok _ _ _ _ _ _ Htp Hr Ev H) as [-> Hp]. right. done.
    + erewrite bind_run in H by exact Ee. cbn in H. discriminate H.
Qed.

(** ** The rows a group appends *)

Lemma running_rows_length (corr : uuid) (now : instant) (bal : uuid → Z) (legs : list Leg) :
  length (running_rows corr now bal legs) = length legs.
Proof. revert bal. induction legs as [|l legs IH]; intros bal; [done|]. cbn. by rewrite IH. Qed.

Definition row_of (corr : uuid) (now : instant) (p : pending) (t : Transaction) : Prop :=
  ∃ z, pd_amount p = sar (leg_z (pd_leg p)) ∧ pd_balance_after p = sar z ∧ t = leg_row corr now (pd_leg p) z.

Lemma apply_legs_rows (corr : uuid) (now : instant) (legs : list Leg) (mem mem' : memory) (ps : list pending) (bal : uuid → Z) :
  Forall (λ l, dexp (leg_amount l) = -2) legs →
  (∀ id b v, mem !! id = Some (b, v) → b = sar (bal id) ∧ small (bal id)) →
  apply_legs mem legs = Ok (mem', ps) →
  Forall2 (row_of corr now) ps (running_rows corr now bal legs).
Proof.
  revert mem mem' ps bal. induction legs as [|l legs IH]; intros mem mem' ps bal Ht Hm H.
  { injection H as <- <-. constructor. }
  apply Forall_cons_1 in Ht as [Hl Ht]. cbn in H.
  destruct (mem !! leg_wallet_id l) as [[b v]|] eqn:El; [|done].
  destruct (Hm _ _ _ El) as [-> Hz0].
  apply res_bind_ok in H as (bl & Eb & H). apply res_bind_ok in H as (amt & Ea & H).
  apply res_bind_ok in H as ([mem1 ps1] & E1 & H). injection H as <- <-.
  destruct (quantize_money_two_place _ _ Hl Ea) as [-> Hza].
  pose proof (leg_amount_sar _ Hl) as Eleg.
  rewrite Eleg in Eb. apply quantize_dadd_inv in Eb as [-> Hs]; [|done|by rewrite Eleg in Hza].
  cbn. constructor; [by exists (bal (leg_wallet_id l) + leg_z l)|].
  eapply IH; [done| |exact E1]. intros id b' v' Hid. cbn. unfold same.
  destruct (decide (id = leg_wallet_id l)) as [->|Hne].
  - rewrite bool_decide_eq_true_2 by done. rewrite lookup_insert_eq in Hid. by injection Hid as <- <-.
  - rewrite bool_decide_eq_false_2 by done. rewrite lookup_insert_ne in Hid by done. eauto.
Qed.

Lemma flush_pendings_rows (corr : uuid) (ps : list pending) (ts : list Transaction) (d : db) (u : ()) (d' : db) :
  Forall2 (row_of corr (db_now d)) ps ts →
  for_each (flush_pending corr) ps d = Ok (u, d') →
  ∃ ids, length ids = length ts ∧ NoDup ids ∧ Forall (λ id, tb_transactions d !! id = None) ids ∧
    tb_transactions d' = list_to_map (zip ids ts) ∪ tb_transactions d ∧
    size (tb_transactions d') = (size (tb_transactions d) + length ts)%nat.
Proof.
  intros HF. remember (db_now d) as now eqn:Enow. revert d Enow.
  induction HF as [|p t ps ts (z & E2 & E3 & ->) HF IH]; intros d -> H.
  { injection H as _ <-. exists []. cbn. rewrite (left_id_L ∅ (∪)). repeat split; [constructor|done|lia]. }
  cbn in H. apply bind_ok in H as (u1 & d1 & H1 & H2).
  unfold flush_pending, append_transaction in H1. rewrite E2, E3 in H1.
  apply bind_ok in H1 as (a & da & Ea & H1). apply lift_ok in Ea as [Ea ->].
  apply bind_ok in H1 as (ba & db_ & Eb & H1). apply lift_ok in Eb as [Eb ->].
  apply numeric_sar_inv in Ea as [-> _]. apply numeric_sar_inv in Eb as [-> _].
  apply bind_ok in H1 as (nw & dn & En & H1). injection En as <- <-.
  apply bind_ok in H1 as (id & di & Hins & H1). injection H1 as _ <-.
  unfold insert_row in Hins. apply bind_ok in Hins as (id0 & d0 & Eid & Hins). injection Eid as <- <-.
  apply bind_ok in Hins as (u2 & d3 & Hins & Hret). injection Hret as <- <-.
  apply insert_row_at_ok in Hins as (Hnone & _ & _ & _ & ->).
  fold (leg_row corr (db_now d) (pd_leg p) z) in *. cbn in Hnone.
  destruct ((λ E, IH _ E H2) eq_refl) as (ids & Hlen & Hnd & Hfr & Htx & Hsz). cbn in Hfr, Htx, Hsz.
  assert (db_next d ∉ ids) as Hni.
  { intros Hin. pose proof (proj1 (Forall_forall _ _) Hfr _ Hin) as E. cbn in E. by rewrite lookup_insert_eq in E. }
  exists (db_next d :: ids). cbn. split; [by rewrite Hlen|]. split; [by constructor|]. split; [|split].
  - constructor; [done|]. eapply Forall_impl; [exact Hfr|]. cbn. intros i Hi.
    by apply lookup_insert_None in Hi as [? _].
  - rewrite Htx. rewrite <- insert_union_r, insert_union_l; [done|].
    apply not_elem_of_list_to_map_1. rewrite fst_zip by lia. done.
  - rewrite Hsz, map_size_insert_None by done. lia.
Qed.

Lemma post_locked_rows (legs : list Leg) (corr : uuid) (d : db) (b : bool) (d' : db) :
  two_place legs → (∀ wid w, tb_wallets d !! wid = Some w → Z.abs (w_balance w) < 10 ^ 12) →
  post_locked legs corr d = Ok (b, d') → rows_appended legs corr d d'.
Proof.
  intros [Ht _] Hrange H.
  unfold post_locked in H. destruct (lock_wallets_run (leg_wallet_id <$> legs) d) as (locked & El & Hlk).
  erewrite bind_run in H by exact El. apply bind_ok in H as ([mem' ps] & d1 & Ea & H).
  apply lift_ok in Ea as [Ea ->]. cbn [fst snd] in H.
  apply bind_ok in H as (u1 & d1 & Hw & H). apply bind_ok in H as (u2 & d2 & Hp & H). injection H as <- <-.
  assert (tb_transactions d1 = tb_transactions d ∧ db_now d1 = db_now d) as [Et En].
  { eapply (keeps_for_each (λ x, tb_transactions x = tb_transactions d ∧ db_now x = db_now d)); [|done|exact Hw].
    intros id x u x' Hx Hf. unfold flush_wallet in Hf.
    destruct (locked !! id) as [w|]; [destruct (mem' !! id) as [[bb v]|]|]; [|by injection Hf as _ <-..].
    apply bind_ok in Hf as (zz & dz & Ez & Hf). apply lift_ok in Ez as [_ ->].
    by apply update_row_ok in Hf as (_ & _ & _ & ->). }
  assert (Forall2 (row_of corr (db_now d)) ps (running_rows corr (db_now d) (balance_of d) legs)) as HR.
  { eapply apply_legs_rows; [done| |exact Ea]. intros id bb v Hid. rewrite lookup_fmap, Hlk in Hid.
    destruct (decide _); [|done]. unfold balance_of. destruct (tb_wallets d !! id) as [w|] eqn:E; [|done].
    injection Hid as <- <-. split; [done|]. pose proof (Hrange _ _ E). unfold small. cbn. lia. }
  rewrite <- En in HR at 1. destruct (flush_pendings_rows _ _ _ _ _ _ HR Hp) as (ids & F1 & F2 & F3 & F4 & F5).
  rewrite running_rows_length in F1, F5. rewrite Et in F3, F4, F5. by exists ids.
Qed.

Lemma post_group_rows (legs : list Leg) (corr : uuid) (d d' : db) :
  two_place legs → (∀ wid w, tb_wallets d !! wid = Some w → Z.abs (w_balance w) < 10 ^ 12) →
  post_group legs corr d = Ok (true, d') → rows_appended legs corr d d'.
Proof.
  intros Htp Hr H. unfold post_group in H. apply bind_ok in H as (u & d1 & Ev & H).
  apply lift_ok in Ev as [Ev ->]. destruct (any_key_exists_run legs d) as (e & Ee & He).
  erewrite bind_run in H by exact Ee. destruct e; [done|].
  apply savepoint_catch_ok in H as [H|[_ H]]; [by eapply post_locked_rows|].
  erewrite bind_run in H by exact Ee. discriminate H.
Qed.

(** ** The invariant is kept *)

Lemma zsum_zip_const {A B} (f : A → B → Z) (g : A → Z) (l : list A) (k : list B) :
  length k = length l → (∀ a b, f a b = g a) → zsum (zip_with f l k) = zsum_by g l.
Proof.
  revert k. induction l as [|a l IH]; intros [|b k] Hl Hf; try done. cbn [zip_with zsum].
  rewrite zsum_by_cons, Hf, IH by (done || by injection Hl). done.
Qed.

Lemma legs_on_zero (wid : uuid) (legs : list Leg) : legs_on wid legs = 0 → legs_for wid legs = 0.
Proof.
  assert (∀ k, 0 ≤ legs_on wid k) as Hpos.
  { intros k. induction k as [|x k IH]; [done|]. rewrite legs_on_cons. destruct (same _ _); lia. }
  induction legs as [|l legs IH]; [done|]. rewrite legs_on_cons, legs_for_cons.
  pose proof (Hpos legs). destruct (same _ _); [lia|]. intros H0. rewrite IH; lia.
Qed.

Lemma posted_sum (legs : list Leg) (corr : uuid) (d d' : db) (f : Transaction → Z) (g : Leg → Z) :
  posted legs corr d d' → (∀ l ba, f (leg_row corr (db_now d) l ba) = g l) →
  map_total f (tb_transactions d') = map_total f (tb_transactions d) + zsum_by g legs.
Proof.
  intros Hp Hf. destruct (po_rows _ _ _ _ Hp) as (bas & Hlen & Hsum). rewrite Hsum. f_equal.
  by apply zsum_zip_const.
Qed.

Lemma posted_settled_sum (legs : list Leg) (corr wid : uuid) (d d' : db) :
  posted legs corr d d' →
  settled_sum (tb_transactions d') wid = settled_sum (tb_transactions d) wid + legs_for wid legs.
Proof. intros Hp. by apply (posted_sum legs corr d d'). Qed.

Lemma posted_corr_sum (legs : list Leg) (corr c : uuid) (d d' : db) :
  posted legs corr d d' → corr_sum (tb_transactions d') c = corr_sum (tb_transactions d) c.
Proof.
  intros Hp. unfold corr_sum.
  rewrite (posted_sum legs corr d d' _ (λ l, if same corr c then leg_z l else 0)) by done.
  destruct (same corr c).
  - change (zsum_by (λ l, leg_z l) legs) with (zsum_by leg_z legs).
    rewrite (po_zero _ _ _ _ Hp). lia.
  - assert (zsum_by (λ _ : Leg, 0) legs = 0) as ->; [|lia]. clear. induction legs; [done|].
    rewrite zsum_by_cons. lia.
Qed.

Lemma posted_ledger_ok (legs : list Leg) (corr : uuid) (d d' : db) :
  posted legs corr d d' → ledger_ok d → ledger_ok d'.
Proof.
  intros Hp [L1 L2 L3 L4 L5 L6 L7]. constructor.
  - intros wid w Hw. rewrite (po_wallets _ _ _ _ Hp) in Hw. rewrite (posted_settled_sum _ _ _ _ _ Hp).
    destruct (tb_wallets d !! wid) as [w0|] eqn:E; [|done]. injection Hw as <-. unfold upd; cbn.
    by rewrite (L1 _ _ E).
  - intros c. by rewrite (posted_corr_sum _ _ _ _ _ Hp).
  - intros tid t Ht. rewrite (po_wallets _ _ _ _ Hp).
    destruct (po_new _ _ _ _ Hp tid t Ht) as [Ho|(l & ba & Hl & ->)].
    + destruct (L3 _ _ Ho) as [w Hw]. rewrite Hw. eauto.
    + destruct (proj1 (Forall_forall _ _) (po_known _ _ _ _ Hp) l Hl) as [w Hw]. cbn. rewrite Hw. eauto.
  - apply (po_unique _ _ _ _ Hp L4).
  - intros wid w Hw. assert (Hw' := Hw). rewrite (po_wallets _ _ _ _ Hp) in Hw'.
    destruct (tb_wallets d !! wid) as [w0|] eqn:E; [|done]. injection Hw' as Ew.
    destruct (L5 _ _ E) as (R1 & R2 & R3).
    destruct (decide (legs_on wid legs = 0)) as [H0|H0].
    + rewrite H0, (legs_on_zero _ _ H0), wallet_eta in Ew. by subst.
    + destruct (po_checked _ _ _ _ Hp wid w Hw H0). subst w. done.
  - intros wid w Hw. rewrite (po_wallets _ _ _ _ Hp) in Hw.
    destruct (tb_wallets d !! wid) as [w0|] eqn:E; [|done]. injection Hw as <-. by apply (L6 wid w0).
  - intros i j a b Ha Hb Hij. rewrite (po_wallets _ _ _ _ Hp) in Ha, Hb.
    destruct (tb_wallets d !! i) as [a0|] eqn:Ea; [|done]. destruct (tb_wallets d !! j) as [b0|] eqn:Eb; [|done].
    injection Ha as <-. injection Hb as <-. by apply (L7 i j a0 b0).
Qed.

Lemma ledger_frame (d d' : db) :
  tb_wallets d' = tb_wallets d → tb_transactions d' = tb_transactions d → ledger_ok d → ledger_ok d'.
Proof. intros E1 E2 [L1 L2 L3 L4 L5 L6 L7]. constructor; rewrite ?E1, ?E2; done. Qed.

Lemma keeps_post_group (legs : list Leg) (corr : uuid) :
  two_place legs → keeps ledger_ok (post_group legs corr).
Proof.
  intros Htp d b d' Hd H. apply post_group_ok in H as [(_ & -> & _)|(_ & _ & Hp)]; [done| |done|].
  - by eapply posted_ledger_ok.
  - intros wid w Hw. by apply (lk_range _ Hd wid w).
Qed.

Lemma keeps_ledger_uuid4 : keeps ledger_ok uuid4.
Proof. apply keeps_uuid4. intros d n Hd. by apply (ledger_frame d). Qed.

Lemma get_system_ok (ty : wallet_type) (d : db) (p : uuid * Wallet) (d' : db) :
  get_system ty d = Ok (p, d') →
  d' = d ∧ tb_wallets d !! p.1 = Some p.2 ∧ w_type p.2 = ty ∧ w_user_id p.2 = None.
Proof.
  unfold get_system. intros (o & d1 & Es & H)%bind_ok. apply unwrap_ok in H as [-> ->].
  destruct p as [id w]. assert (E' := Es). apply scalar_ok in E' as [-> _].
  apply scalar_some in Es as [Hl [H1 H2]%andb_true_iff].
  apply (proj1 (same_true _ _)) in H1, H2. done.
Qed.

Lemma keeps_get_system (P : db → Prop) (ty : wallet_type) : keeps P (get_system ty).
Proof. apply keeps_bind; [apply keeps_scalar|]. intros. apply keeps_unwrap. Qed.

(** Replacing a wallet row by one with the same balance. *)
Lemma ledger_wallet_update (d : db) (wid : uuid) (w w' : Wallet) :
  tb_wallets d !! wid = Some w → w_balance w' = w_balance w → Z.abs (w_held_balance w') < 10 ^ 12 →
  chk_balance_non_negative w' = true → w_user_id w' = w_user_id w → w_type w' = w_type w → ledger_ok d →
  ledger_ok (d <| tb_wallets := <[wid := w']> (tb_wallets d) |>).
Proof.
  intros Hw Eb Hh Hc Eu Et [L1 L2 L3 L4 L5 L6 L7]. constructor; cbn; try done.
  - intros i x [[-> <-]|[_ Hx]]%lookup_insert_Some; [|by apply L1]. rewrite Eb. by apply L1.
  - intros tid t Ht. rewrite lookup_insert_is_Some'. right. by apply (L3 tid).
  - intros i x [[-> <-]|[_ Hx]]%lookup_insert_Some; [|by apply (L5 i)].
    rewrite Eb. destruct (L5 _ _ Hw) as (R1 & _ & _). done.
  - intros i x [[-> <-]|[_ Hx]]%lookup_insert_Some; [|by apply (L6 i)].
    unfold chk_user_wallet_pairing. rewrite Eu, Et. by apply (L6 i w).
  - assert (∀ b, conflicts_wallets w' b = conflicts_wallets w b) as E1
      by (intros b; unfold conflicts_wallets; by rewrite Eu, Et).
    assert (∀ a, conflicts_wallets a w' = conflicts_wallets a w) as E2
      by (intros a; unfold conflicts_wallets; by rewrite Eu, Et).
    intros i j a b [[-> <-]|[Hi Ha]]%lookup_insert_Some [[-> <-]|[Hj Hb]]%lookup_insert_Some Hij;
      rewrite ?E1, ?E2; [done|by apply (L7 i j)..].
Qed.

Lemma keeps_lock_one (P : db → Prop) (wid : uuid) : keeps P (lock_one wid).
Proof. by intros d w d' HP [-> _]%lock_one_ok. Qed.

(** A write of a wallet that changes only its hold and version. *)
Lemma update_held_ok (wid : uuid) (w : Wallet) (held : dec) (h : Z) (v : Z) (d d' : db) (u : ()) :
  tb_wallets d !! wid = Some w → numeric_12_2 held = Ok h → dexp held = -2 →
  update_row wid (w <| w_held_balance := h |> <| w_version := v |>) d = Ok (u, d') →
  d' = d <| tb_wallets := <[wid := w <| w_held_balance := h |> <| w_version := v |>]> (tb_wallets d) |> ∧
  held = sar h ∧ (ledger_ok d → ledger_ok d').
Proof.
  intros Hw Hn He H. apply update_row_ok in H as (_ & Hc & _ & ->). cbn in Hc.
  apply andb_true_iff in Hc as [_ Hc]. destruct held as [c e]. cbn in He. subst e.
  fold (sar c) in *. apply numeric_sar_inv in Hn as [-> Hr]. split; [done|]. split; [done|].
  by apply (ledger_wallet_update d wid w).
Qed.

Lemma keeps_hold_funds (wid : uuid) (amount : dec) : keeps ledger_ok (hold_funds wid amount).
Proof.
  intros d u d' Hd H. unfold hold_funds in H. inv_run H.
  apply lock_one_ok in E0 as [-> Hw].
  destruct (quantize_money_ok_inv _ _ E3) as (z & -> & _).
  eapply update_held_ok in H as (_ & _ & Hk); [by apply Hk|done|done|done].
Qed.

Lemma keeps_release_hold (wid : uuid) (amount : dec) : keeps ledger_ok (release_hold wid amount).
Proof.
  intros d u d' Hd H. unfold release_hold in H. inv_run H.
  apply lock_one_ok in E0 as [-> Hw].
  destruct (quantize_money_ok_inv _ _ E1) as (z & -> & _).
  eapply update_held_ok in H as (_ & _ & Hk); [by apply Hk|done|done|done].
Qed.

(** Two-place amounts are closed under negation. *)
Lemma dneg_two_place (a q : dec) : quantize_money q = Ok a → dexp a = -2 ∧ dexp (dneg a) = -2 ∧
  halalas (dneg a) = - halalas a.
Proof.
  intros H. destruct (quantize_money_ok_inv _ _ H) as (z & -> & Hz). rewrite dneg_sar by done. done.
Qed.

Ltac two_place_legs :=
  split; [|cbn; repeat match goal with |- context [if ?b then _ else _] => destruct b end; cbn; lia];
  repeat first
    [ apply Forall_app_2 | apply Forall_cons_2 | apply Forall_nil_2
    | match goal with |- Forall _ (if ?b then _ else _) => destruct b end
    | match goal with
      | E : quantize_money _ = Ok ?a |- dexp (leg_amount _) = -2 =>
          destruct (dneg_two_place _ _ E) as (?T & ?T & _); cbn; assumption
      end ].

Lemma ledger_next (d : db) (n : uuid) : ledger_ok d → ledger_ok (d <| db_next := n |>).
Proof. by apply ledger_frame. Qed.

#[export] Hint Resolve keeps_post_group keeps_ledger_uuid4 keeps_get_system keeps_lock_one
  keeps_hold_funds keeps_release_hold ledger_next : giftly.

(** The compound operations post groups of two-place legs and change holds: they keep
    whatever these keep. *)
Section MoneyKeeps.
Context (P : db → Prop) `{!FrameNext P}.
Context (Hpost : ∀ legs corr, two_place legs → keeps P (post_group legs corr))
  (Hrel : ∀ w a, keeps P (release_hold w a)).

Lemma money_credit_topup (wid : uuid) (amount : dec) (intent_id : uuid) : keeps P (credit_topup wid amount intent_id).
Proof.
  intros d b d' Hd H. unfold credit_topup in H. inv_run H. apply get_system_ok in E as (-> & _).
  eapply Hpost; [|by apply frame_next|exact H]. two_place_legs.
Qed.

Lemma money_release_escrow (oid iid cw : uuid) (payout tax revenue : dec) :
  keeps P (release_escrow_on_completion oid iid cw payout tax revenue).
Proof.
  intros d b d' Hd H. unfold release_escrow_on_completion in H. inv_run H.
  apply get_system_ok in E3 as (-> & _), E4 as (-> & _), E5 as (-> & _).
  eapply Hpost; [|by apply frame_next|exact H]. two_place_legs.
Qed.

Lemma money_refund_escrow (oid iid cw : uuid) (amount : dec) : keeps P (refund_escrow oid iid cw amount).
Proof.
  intros d b d' Hd H. unfold refund_escrow in H. inv_run H. apply get_system_ok in E0 as (-> & _).
  eapply Hpost; [|by apply frame_next|exact H]. two_place_legs.
Qed.

Lemma money_split_escrow (oid iid cw uw : uuid) (ca ra : dec) : keeps P (split_escrow oid iid cw uw ca ra).
Proof.
  intros d b d' Hd H. unfold split_escrow in H. inv_run H. apply get_system_ok in E2 as (-> & _).
  eapply Hpost; [|by apply frame_next|exact H]. two_place_legs.
Qed.

Lemma money_pay_withdrawal (cw : uuid) (amount : dec) (wid : uuid) : keeps P (pay_withdrawal cw amount wid).
Proof.
  intros d b d' Hd H. unfold pay_withdrawal in H. inv_run H. apply get_system_ok in E0 as (-> & _).
  eapply (keeps_when P); [apply Hrel| |exact E2 || exact E1].
  eapply Hpost; [|by apply frame_next|eassumption]. two_place_legs.
Qed.

Lemma money_fund_escrow (cw : uuid) (wa ga : dec) (iid oid : uuid) (intent : option uuid) (held : bool) :
  keeps P (fund_escrow_for_invoice cw wa ga iid oid intent held).
Proof.
  intros d b d' Hd H. unfold fund_escrow_for_invoice in H. inv_run H.
  apply get_system_ok in E2 as (-> & _), E3 as (-> & _).
  eapply (keeps_when P); [apply Hrel| |eassumption].
  eapply Hpost; [|by apply frame_next|eassumption]. two_place_legs.
Qed.
End MoneyKeeps.

#[export] Hint Extern 1 (Frame ledger_ok _) => frame_by ledger_frame : typeclass_instances.
#[export] Hint Extern 1 (FrameNext ledger_ok) => frame_next_by ledger_frame : typeclass_instances.

Lemma keeps_credit_topup w a i : keeps ledger_ok (credit_topup w a i).
Proof. apply money_credit_topup; [apply _|apply keeps_post_group]. Qed.

Lemma keeps_release_escrow o i w p t r : keeps ledger_ok (release_escrow_on_completion o i w p t r).
Proof. apply money_release_escrow; [apply _|apply keeps_post_group]. Qed.

Lemma keeps_refund_escrow o i w a : keeps ledger_ok (refund_escrow o i w a).
Proof. apply money_refund_escrow; [apply _|apply keeps_post_group]. Qed.

Lemma keeps_split_escrow o i w u a b : keeps ledger_ok (split_escrow o i w u a b).
Proof. apply money_split_escrow; [apply _|apply keeps_post_group]. Qed.

Lemma keeps_pay_withdrawal w a i : keeps ledger_ok (pay_withdrawal w a i).
Proof. apply money_pay_withdrawal; [apply _|apply keeps_post_group|apply keeps_release_hold]. Qed.

Lemma keeps_fund_escrow cw wa ga i o n h : keeps ledger_ok (fund_escrow_for_invoice cw wa ga i o n h).
Proof. apply money_fund_escrow; [apply _|apply keeps_post_group|apply keeps_release_hold]. Qed.

#[export] Hint Resolve keeps_credit_topup keeps_release_escrow keeps_refund_escrow keeps_split_escrow
  keeps_pay_withdrawal keeps_fund_escrow : giftly.

(** The money service writes wallets and ledger rows only: whatever does not look
    at these two tables is kept by every operation. *)
Section MoneyFrame.
Context (P : db → Prop) `{!Frame P Wallet} `{!Frame P Transaction} `{!FrameNext P}.

Lemma frame_get_by_user uid : keeps P (get_by_user uid).
Proof. apply keeps_scalar. Qed.

Lemma frame_any_key legs : keeps P (any_key_exists legs).
Proof.
  intros d b d' HP H. destruct (any_key_exists_run legs d) as (b' & E & _).
  rewrite E in H. injection H as _ <-. done.
Qed.

Lemma frame_lock_wallets ids : keeps P (lock_wallets ids).
Proof.
  intros d m d' HP H. destruct (lock_wallets_run ids d) as (m' & E & _).
  rewrite E in H. injection H as _ <-. done.
Qed.

Lemma frame_append wid amount ty st corr ba key o i n desc :
  keeps P (append_transaction wid amount ty st corr ba key o i n desc).
Proof. unfold append_transaction. keeps_auto. Qed.

Lemma frame_post_group legs corr : keeps P (post_group legs corr).
Proof.
  pose proof frame_any_key. pose proof frame_append. pose proof frame_lock_wallets.
  unfold post_group, post_locked, flush_wallet, flush_pending. keeps_auto.
Qed.

Lemma frame_hold_funds wid amount : keeps P (hold_funds wid amount).
Proof. unfold hold_funds. keeps_auto. Qed.

Lemma frame_release_hold wid amount : keeps P (release_hold wid amount).
Proof. unfold release_hold. keeps_auto. Qed.

Lemma frame_available_balance uid : keeps P (available_balance uid).
Proof. pose proof frame_get_by_user. unfold available_balance. keeps_auto. Qed.

Lemma frame_credit_topup wid amount iid : keeps P (credit_topup wid amount iid).
Proof. pose proof frame_post_group. unfold credit_topup. keeps_auto. Qed.

Lemma frame_release_escrow oid iid cw p t r : keeps P (release_escrow_on_completion oid iid cw p t r).
Proof. pose proof frame_post_group. unfold release_escrow_on_completion. keeps_auto. Qed.

Lemma frame_refund_escrow oid iid cw a : keeps P (refund_escrow oid iid cw a).
Proof. pose proof frame_post_group. unfold refund_escrow. keeps_auto. Qed.

Lemma frame_split_escrow oid iid cw uw a b : keeps P (split_escrow oid iid cw uw a b).
Proof. pose proof frame_post_group. unfold split_escrow. keeps_auto. Qed.

Lemma frame_pay_withdrawal cw a wid : keeps P (pay_withdrawal cw a wid).
Proof. pose proof frame_post_group. pose proof frame_release_hold. unfold pay_withdrawal. keeps_auto. Qed.

Lemma frame_fund_escrow cw wa ga iid oid intent held :
  keeps P (fund_escrow_for_invoice cw wa ga iid oid intent held).
Proof. pose proof frame_post_group. pose proof frame_release_hold. unfold fund_escrow_for_invoice. keeps_auto. Qed.
End MoneyFrame.

#[export] Hint Resolve frame_get_by_user frame_available_balance frame_hold_funds frame_release_hold
  frame_credit_topup frame_release_escrow frame_refund_escrow frame_split_escrow frame_pay_withdrawal
  frame_fund_escrow : giftly.

(** ** Reconciliation *)

Lemma settled_txns_elem (d : db) (t : Transaction) :
  t ∈ settled_txns d ↔ is_settled t = true ∧ ∃ tid, tb_transactions d !! tid = Some t.
Proof.
  unfold settled_txns. rewrite list_elem_of_filter, list_elem_of_fmap. split.
  - intros (Hs & [tid t'] & -> & Hin). split; [done|]. exists tid. by apply elem_of_map_to_list.
  - intros (Hs & tid & Ht). split; [done|]. exists (tid, t). split; [done|]. by apply elem_of_map_to_list.
Qed.

(** A sum over no matching row is zero. *)
Lemma group_sum_0 (d : db) (key : Transaction → uuid) (k : uuid) :
  k ∉ key <$> settled_txns d →
  map_total (λ t, if is_settled t && same (key t) k then txn_amount t else 0) (tb_transactions d) = 0.
Proof.
  intros Hn. apply map_total_zero. intros tid t Ht.
  destruct (is_settled t) eqn:Es; [|done]. cbn. destruct (same (key t) k) eqn:Ek; [|done].
  exfalso. apply Hn. apply (proj1 (same_true _ _)) in Ek. subst k. apply list_elem_of_fmap.
  exists t. split; [done|]. apply settled_txns_elem. eauto.
Qed.

Lemma settled_sums_run (d : db) :
  ∃ m, settled_sums_by_wallet d = Ok (m, d) ∧
    ∀ id, default ZERO (m !! id) = sar (settled_sum (tb_transactions d) id).
Proof.
  eexists. split; [reflexivity|]. intros id. rewrite list_to_map_graph.
  destruct (decide _) as [|Hn]; [done|]. rewrite elem_of_remove_dups in Hn.
  unfold settled_sum. rewrite (group_sum_0 d txn_wallet_id id Hn). done.
Qed.

Lemma drift_sums_nil (d : db) (l : list (uuid * dec)) :
  correlation_drift_sums d = Ok (l, d) → l = [] ↔ ∀ c, corr_sum (tb_transactions d) c = 0.
Proof.
  intros [= <-]. split.
  - intros Hnil c. destruct (decide (c ∈ txn_correlation_id <$> settled_txns d)) as [Hin|Hn];
      [|by apply (group_sum_0 d txn_correlation_id)].
    destruct (decide (corr_sum (tb_transactions d) c = 0)) as [|Hz]; [done|]. exfalso.
    assert ((c, sar (corr_sum (tb_transactions d) c)) ∈ @nil (uuid * dec)) as Hb;
      [|by apply not_elem_of_nil in Hb].
    rewrite <- Hnil. apply list_elem_of_filter. split; [cbn; lia|].
    apply list_elem_of_fmap. exists c. split; [done|]. by apply elem_of_remove_dups.
  - intros Hz. destruct (filter _ _) as [|p l] eqn:E; [done|]. exfalso.
    assert (p ∈ p :: l) as Hp by left. rewrite <- E in Hp.
    apply list_elem_of_filter in Hp as [Hp Hin]. apply list_elem_of_fmap in Hin as (c & -> & _).
    cbn in Hp. rewrite Hz in Hp. done.
Qed.

Lemma wallet_drifts_nil (sums : gmap uuid dec) (f : uuid → Z) (ws : list (uuid * Wallet)) (l : list (sum uuid uuid)) :
  (∀ id, default ZERO (sums !! id) = sar (f id)) → wallet_drifts sums ws = Ok l →
  l = [] ↔ Forall (λ p, w_balance p.2 = f p.1) ws.
Proof.
  intros Hf. revert l. induction ws as [|[id w] ws IH]; intros l H.
  - injection H as <-. split; [constructor|done].
  - cbn in H. rewrite Hf in H. apply res_bind_ok in H as (s & Es & H).
    apply res_bind_ok in H as (b & Eb & H). apply res_bind_ok in H as (rest & Er & H). injection H as <-.
    apply quantize_money_two_place in Es as [-> _]; [|done].
    apply quantize_money_two_place in Eb as [-> _]; [|done]. rewrite deqb_sar, Forall_cons. cbn.
    destruct (Z.eqb_spec (f id) (w_balance w)) as [E|E]; [|naive_solver].
    rewrite (IH _ Er). naive_solver.
Qed.

Lemma wallet_drifts_run (sums : gmap uuid dec) (f : uuid → Z) (ws : list (uuid * Wallet)) :
  (∀ id, default ZERO (sums !! id) = sar (f id)) →
  Forall (λ p, w_balance p.2 = f p.1 ∧ Z.abs (w_balance p.2) < 10 ^ 12) ws →
  wallet_drifts sums ws = Ok [].
Proof.
  intros Hf. induction 1 as [|[id w] ws [E Hr] Hw IH]; [done|]. cbn in *. rewrite Hf, <- E.
  rewrite !quantize_money_sar by (unfold small; lia). cbn [mbind res_bind]. rewrite IH. cbn.
  by rewrite deqb_sar, Z.eqb_refl.
Qed.

(** ** Writes that succeed *)

(** The constraints of the wallets table itself. *)
Definition wallets_wf (ws : gmap uuid Wallet) : Prop :=
  (∀ wid w, ws !! wid = Some w → chk_user_wallet_pairing w = true) ∧
  (∀ i j a b, ws !! i = Some a → ws !! j = Some b → i ≠ j → conflicts_wallets a b = false).

Lemma ledger_wallets_wf (d : db) : ledger_ok d → wallets_wf (tb_wallets d).
Proof. intros Hd. split; [apply (lk_pairing _ Hd)|apply (lk_wunique _ Hd)]. Qed.

(** A wallet row can be rewritten, keeping its owner and type, whenever the
    non-negativity CHECK holds. *)
Lemma update_wallet_run (d : db) (wid : uuid) (w w' : Wallet) :
  wallets_wf (tb_wallets d) → tb_wallets d !! wid = Some w → w_user_id w' = w_user_id w →
  w_type w' = w_type w → chk_balance_non_negative w' = true →
  update_row wid w' d = Ok ((), d <| tb_wallets := <[wid := w']> (tb_wallets d) |>).
Proof.
  intros [Hp Hu] Hw Eu Et Hc. apply update_row_ok. split; [done|]. split; [|split; [|done]].
  - cbn. rewrite Hc, andb_true_r. unfold chk_user_wallet_pairing. rewrite Eu, Et. by apply (Hp wid w).
  - apply unique_ok_true. cbn. intros i b Hb Hne. unfold conflicts_wallets. rewrite Eu, Et.
    by apply (Hu wid i w b).
Qed.

Lemma wallets_wf_update (ws : gmap uuid Wallet) (wid : uuid) (w w' : Wallet) :
  wallets_wf ws → ws !! wid = Some w → w_user_id w' = w_user_id w → w_type w' = w_type w →
  wallets_wf (<[wid := w']> ws).
Proof.
  intros [Hp Hu] Hw Eu Et.
  assert (∀ b, conflicts_wallets w' b = conflicts_wallets w b) as E1
    by (intros b; unfold conflicts_wallets; by rewrite Eu, Et).
  assert (∀ a, conflicts_wallets a w' = conflicts_wallets a w) as E2
    by (intros a; unfold conflicts_wallets; by rewrite Eu, Et).
  split.
  - intros i x [[-> <-]|[_ Hx]]%lookup_insert_Some; [|by apply (Hp i)].
    unfold chk_user_wallet_pairing. rewrite Eu, Et. by apply (Hp i w).
  - intros i j a b [[-> <-]|[Hi Ha]]%lookup_insert_Some [[-> <-]|[Hj Hb]]%lookup_insert_Some Hij;
      rewrite ?E1, ?E2; [done|by apply (Hu i j)..].
Qed.

Lemma update_wallet_runs (d : db) (wid : uuid) (w w' : Wallet) :
  ledger_ok d → tb_wallets d !! wid = Some w → w_user_id w' = w_user_id w → w_type w' = w_type w →
  chk_balance_non_negative w' = true →
  update_row wid w' d = Ok ((), d <| tb_wallets := <[wid := w']> (tb_wallets d) |>).
Proof. intros Hd. apply update_wallet_run. by apply ledger_wallets_wf. Qed.

Lemma lock_one_run (d : db) (wid : uuid) (w : Wallet) :
  tb_wallets d !! wid = Some w → lock_one wid d = Ok (w, d).
Proof. intros Hw. by apply lock_one_ok. Qed.

Definition with_held (w : Wallet) (h : Z) : Wallet :=
  w <| w_held_balance := h |> <| w_version := w_version w + 1 |>.

Lemma hold_funds_run (d : db) (wid : uuid) (w : Wallet) (a : Z) :
  ledger_ok d → tb_wallets d !! wid = Some w → 0 ≤ a < 10 ^ 12 →
  hold_funds wid (sar a) d =
  if w_balance w - w_held_balance w <? a then Raise InsufficientFundsError
  else Ok ((), d <| tb_wallets := <[wid := with_held w (w_held_balance w + a)]> (tb_wallets d) |>).
Proof.
  intros Hd Hw Ha. destruct (lk_range _ Hd wid w Hw) as (Hb & Hh & Hc). unfold hold_funds.
  rewrite quantize_money_sar by (unfold small; lia). erewrite bind_run by reflexivity.
  erewrite bind_run by (by apply lock_one_run). rewrite dsub_sar by (unfold small; lia).
  rewrite quantize_money_sar by (unfold small; lia). erewrite bind_run by reflexivity.
  rewrite dltb_sar. destruct (Z.ltb_spec (w_balance w - w_held_balance w) a); [done|].
  erewrite bind_run by reflexivity. rewrite dadd_sar by (unfold small; lia).
  rewrite quantize_money_sar by (unfold small; lia). erewrite bind_run by reflexivity.
  rewrite numeric_sar by lia. erewrite bind_run by reflexivity.
  eapply update_wallet_runs; [done|exact Hw|done|done|].
  unfold chk_balance_non_negative in *. unfold upd; cbn. destruct (w_type w); lia.
Qed.

Lemma release_hold_run (d : db) (wid : uuid) (w : Wallet) (a : Z) :
  ledger_ok d → tb_wallets d !! wid = Some w → 0 ≤ a < 10 ^ 12 →
  release_hold wid (sar a) d =
  Ok ((), d <| tb_wallets := <[wid := with_held w (Z.max 0 (w_held_balance w - a))]> (tb_wallets d) |>).
Proof.
  intros Hd Hw Ha. destruct (lk_range _ Hd wid w Hw) as (Hb & Hh & Hc). unfold release_hold.
  rewrite quantize_money_sar by (unfold small; lia). erewrite bind_run by reflexivity.
  erewrite bind_run by (by apply lock_one_run). rewrite dsub_sar by (unfold small; lia).
  change ZERO with (sar 0). rewrite dmax_sar.
  rewrite quantize_money_sar by (unfold small; lia). erewrite bind_run by reflexivity.
  rewrite numeric_sar by lia. erewrite bind_run by reflexivity.
  eapply update_wallet_runs; [done|exact Hw|done|done|].
  unfold chk_balance_non_negative in *. unfold upd; cbn. destruct (w_type w); lia.
Qed.

(** ** When a group is posted *)

(** Preconditions under which [post_group] posts: a balanced group of non-zero
    two-place legs on distinct existing wallets whose new balances fit and respect
    the CHECK, with fresh keys. *)
Record postable (legs : list Leg) (d : db) : Prop := {
  pb_two_place : two_place legs;
  pb_two : (2 ≤ length legs)%nat;
  pb_sum : zsum_by leg_z legs = 0;
  pb_legs : Forall (λ l, leg_z l ≠ 0 ∧ Z.abs (leg_z l) < 10 ^ 12 ∧
    ∃ w, tb_wallets d !! leg_wallet_id l = Some w ∧ Z.abs (w_balance w + leg_z l) < 10 ^ 12 ∧
      chk_balance_non_negative (w <| w_balance := w_balance w + leg_z l |>) = true) legs;
  pb_distinct : NoDup (leg_wallet_id <$> legs);
  pb_keys : NoDup (omap leg_idempotency_key legs);
  pb_fresh_keys : ∀ key tid t, key ∈ omap leg_idempotency_key legs →
    tb_transactions d !! tid = Some t → txn_idempotency_key t ≠ Some key;
  pb_fresh_ids : ∀ k, (db_next d ≤ k)%N → tb_transactions d !! k = None;
}.

Lemma validate_legs_run (legs : list Leg) :
  two_place legs → Forall (λ l, Z.abs (leg_z l) < 10 ^ 12) legs →
  validate_legs legs =
  if (2 <=? length legs)%nat && (zsum_by leg_z legs =? 0) && forallb (λ l, negb (leg_z l =? 0)) legs
  then Ok () else Raise LedgerImbalanceError.
Proof.
  intros [Ht Hn] Hr. unfold validate_legs.
  destruct (Nat.leb_spec 2 (length legs)) as [H2|H2].
  2:{ rewrite (proj2 (Nat.ltb_lt _ _)) by done. done. }
  rewrite (proj2 (Nat.ltb_ge _ _)) by done. cbn [raise_if mbind res_bind andb].
  rewrite leg_amounts_sar by done. change ZERO with (sar 0).
  rewrite (dsum_sar _ 0 (10 ^ 12)); [|lia|rewrite length_fmap; lia|].
  2:{ apply Forall_fmap. eapply Forall_impl; [exact Hr|]. cbn. lia. }
  rewrite quantize_money_sar.
  2:{ pose proof (zsum_by_bound leg_z (10 ^ 12) legs ltac:(lia)) as Hb. unfold small, zsum_by in *.
      assert (∀ x, x ∈ legs → Z.abs (leg_z x) ≤ 10 ^ 12) as Hx.
      { intros x Hx. pose proof (proj1 (Forall_forall _ _) Hr x Hx). cbn in *. lia. }
      specialize (Hb Hx). lia. }
  cbn [mbind res_bind]. rewrite deqb_sar, Z.add_0_l. fold (zsum_by leg_z legs).
  destruct (zsum_by leg_z legs =? 0); [|done]. cbn [negb raise_if mbind res_bind andb].
  clear H2 Hn. induction legs as [|l legs IH]; [done|].
  apply Forall_cons_1 in Ht as [Hl Ht]. apply Forall_cons_1 in Hr as [Hz Hr].
  cbn [validate_nonzero forallb]. rewrite leg_amount_sar by done.
  rewrite quantize_money_sar by (unfold small; lia). cbn [mbind res_bind]. change ZERO with (sar 0).
  rewrite deqb_sar. destruct (leg_z l =? 0); [done|]. cbn [raise_if mbind res_bind negb andb]. by apply IH.
Qed.

Lemma apply_legs_run (legs : list Leg) (mem : memory) (f : uuid → Z) :
  Forall (λ l, dexp (leg_amount l) = -2 ∧ Z.abs (leg_z l) < 10 ^ 12 ∧
    ∃ v, mem !! leg_wallet_id l = Some (sar (f (leg_wallet_id l)), v) ∧
      Z.abs (f (leg_wallet_id l)) < 10 ^ 12 ∧ Z.abs (f (leg_wallet_id l) + leg_z l) < 10 ^ 12) legs →
  NoDup (leg_wallet_id <$> legs) →
  ∃ mem' ps, apply_legs mem legs = Ok (mem', ps) ∧
    Forall2 (λ l p, pd_leg p = l ∧ pd_amount p = leg_amount l ∧
      pd_balance_after p = sar (f (leg_wallet_id l) + leg_z l)) legs ps.
Proof.
  revert mem. induction legs as [|l legs IH]; intros mem HF Hnd.
  - exists mem, []. split; [done|]. constructor.
  - apply Forall_cons_1 in HF as [(He & Hz & v & Hv & Hf & Hs) HF].
    rewrite fmap_cons in Hnd. apply NoDup_cons in Hnd as [Hni Hnd].
    destruct (IH (<[leg_wallet_id l := (sar (f (leg_wallet_id l) + leg_z l), v + 1)]> mem)) as (mem' & ps & E & H2).
    { apply Forall_forall. intros l' Hl'.
      destruct (proj1 (Forall_forall _ _) HF l' Hl') as (A1 & A2 & v' & A3 & A4).
      split; [done|]. split; [done|]. exists v'. rewrite lookup_insert_ne; [done|].
      intros Heq. apply Hni. rewrite Heq. by apply list_elem_of_fmap_2. }
    { done. }
    exists mem', (mk_pending l (leg_amount l) (sar (f (leg_wallet_id l) + leg_z l)) :: ps). split.
    + cbn. rewrite Hv. rewrite leg_amount_sar by done.
      rewrite dadd_sar by (unfold small; lia). rewrite !quantize_money_sar by (unfold small; lia).
      cbn [mbind res_bind]. rewrite E. done.
    + constructor; done.
Qed.

Lemma flush_wallets_run (locked : gmap uuid Wallet) (mem : memory) (ids : list uuid) (d : db) :
  NoDup ids → wallets_wf (tb_wallets d) →
  (∀ id w, id ∈ ids → locked !! id = Some w → tb_wallets d !! id = Some w ∧
     ∃ z v, mem !! id = Some (sar z, v) ∧ Z.abs z < 10 ^ 12 ∧
       chk_balance_non_negative (w <| w_balance := z |> <| w_version := v |>) = true) →
  ∃ d', for_each (flush_wallet locked mem) ids d = Ok ((), d') ∧
    db_next d' = db_next d ∧ tb_transactions d' = tb_transactions d ∧ db_now d' = db_now d.
Proof.
  intros Hnd. revert d. induction Hnd as [|i ids Hi Hnd IH]; intros d Hwf Hall.
  - exists d. done.
  - cbn [for_each]. destruct (locked !! i) as [w|] eqn:El.
    + destruct (Hall i w) as (Hw & z & v & Em & Hz & Hc); [left|done|].
      set (w' := w <| w_balance := z |> <| w_version := v |>) in *.
      assert (flush_wallet locked mem i d = Ok ((), d <| tb_wallets := <[i := w']> (tb_wallets d) |>)) as Ef.
      { unfold flush_wallet. rewrite El, Em, numeric_sar by done. erewrite bind_run by reflexivity.
        by eapply update_wallet_run. }
      erewrite bind_run by exact Ef.
      destruct (IH (d <| tb_wallets := <[i := w']> (tb_wallets d) |>)) as (d' & E & Hd');
        [by eapply wallets_wf_update| |by exists d'].
      intros id x Hid Hl. destruct (Hall id x) as (Hx & Hx'); [by right|done|]. split; [|done].
      cbn. rewrite lookup_insert_ne; [done|]. intros ->. done.
    + assert (flush_wallet locked mem i d = Ok ((), d)) as Ef by (unfold flush_wallet; by rewrite El).
      erewrite bind_run by exact Ef. apply IH; [done|]. intros id w' Hid. apply Hall. by right.
Qed.

Lemma flush_pendings_run (corr : uuid) (legs : list Leg) (ps : list pending) (d : db) :
  Forall2 (λ l p, pd_leg p = l ∧ pd_amount p = sar (leg_z l) ∧ leg_z l ≠ 0 ∧ Z.abs (leg_z l) < 10 ^ 12 ∧
    ∃ z, pd_balance_after p = sar z ∧ Z.abs z < 10 ^ 12) legs ps →
  NoDup (omap leg_idempotency_key legs) →
  (∀ key tid t, key ∈ omap leg_idempotency_key legs → tb_transactions d !! tid = Some t →
     txn_idempotency_key t ≠ Some key) →
  (∀ k, (db_next d ≤ k)%N → tb_transactions d !! k = None) →
  ∃ d', for_each (flush_pending corr) ps d = Ok ((), d').
Proof.
  intros HF. revert d. induction HF as [|l p legs ps (E1 & E2 & Hnz & Hr & z & E3 & Hz) HF IH]; intros d Hnd Hk Hid.
  - exists d. done.
  - set (t := leg_row corr (db_now d) l z).
    assert (flush_pending corr p d =
      Ok ((), d <| db_next := (db_next d + 1)%N |> <| tb_transactions := <[db_next d := t]> (tb_transactions d) |>)) as Ef.
    { unfold flush_pending, append_transaction. rewrite E1, E2, E3, !numeric_sar by done.
      do 3 erewrite bind_run by reflexivity. erewrite bind_run; [reflexivity|].
      unfold insert_row. erewrite bind_run by reflexivity. erewrite bind_run; [reflexivity|].
      apply (insert_row_at_ok _ _ _ ()). split; [apply Hid; lia|]. split; [done|]. split; [by apply negb_true_iff, Z.eqb_neq|]. split; [|done].
      apply unique_ok_true. cbn. intros id' t' Ht' _. unfold conflicts_transactions, same_some. cbn.
      destruct (leg_idempotency_key l) as [key|] eqn:Ek; [|done].
      destruct (txn_idempotency_key t') as [key'|] eqn:Ek'; [|done].
      apply bool_decide_eq_false. intros <-. apply (Hk key id' t'); [|done|done].
      cbn. rewrite Ek. left. }
    cbn. erewrite bind_run by exact Ef. apply IH.
    + cbn in Hnd. destruct (leg_idempotency_key l); [by apply NoDup_cons in Hnd as [_ Hnd]|done].
    + cbn. intros key tid t' Hkey [[<- <-]|[_ Ht']]%lookup_insert_Some.
      * cbn. intros Hl. cbn in Hnd. rewrite Hl in Hnd. apply NoDup_cons in Hnd as [Hnd _]. done.
      * apply (Hk key tid t'); [|done]. cbn. destruct (leg_idempotency_key l); [by right|done].
    + cbn. intros k Hle. rewrite lookup_insert_ne by lia. apply Hid. lia.
Qed.

Lemma legs_for_distinct (legs : list Leg) (l : Leg) :
  NoDup (leg_wallet_id <$> legs) → l ∈ legs → legs_for (leg_wallet_id l) legs = leg_z l ∧ legs_on (leg_wallet_id l) legs = 1.
Proof.
  induction legs as [|x legs IH]; intros Hnd Hl; [by apply not_elem_of_nil in Hl|].
  rewrite fmap_cons in Hnd. apply NoDup_cons in Hnd as [Hni Hnd]. rewrite legs_for_cons, legs_on_cons.
  apply elem_of_cons in Hl as [->|Hl].
  - rewrite (proj2 (same_true _ _)) by done. destruct (legs_on_0 _ _ Hni) as [-> ->]. lia.
  - unfold same. rewrite bool_decide_eq_false_2; [by apply IH|].
    intros Heq. apply Hni. rewrite Heq. by apply list_elem_of_fmap_2.
Qed.

Lemma postable_not_taken (legs : list Leg) (d : db) : postable legs d → ¬ key_taken d legs.
Proof.
  intros Hp (l & key & tid & t & Hl & Hk & Ht & Htk). apply (pb_fresh_keys _ _ Hp key tid t); [|done|done].
  apply list_elem_of_omap. exists l. split; [done|]. unfold key_of in Hk.
  by destruct (leg_idempotency_key l) as [[|]|].
Qed.

Lemma post_locked_runs (legs : list Leg) (corr : uuid) (d : db) :
  ledger_ok d → postable legs d → ∃ d', post_locked legs corr d = Ok (true, d').
Proof.
  intros Hd Hp. destruct (pb_two_place _ _ Hp) as [Ht _]. pose proof (pb_legs _ _ Hp) as Hlegs.
  pose proof (pb_distinct _ _ Hp) as Hnd.
  destruct (lock_wallets_run (leg_wallet_id <$> legs) d) as (locked & El & Hlk).
  set (f := λ wid, match tb_wallets d !! wid with Some w => w_balance w | None => 0 end).
  set (mem := (λ w, (sar (w_balance w), w_version w)) <$> locked).
  assert (∀ id w, id ∈ leg_wallet_id <$> legs → tb_wallets d !! id = Some w →
    mem !! id = Some (sar (w_balance w), w_version w) ∧ f id = w_balance w) as Hmem.
  { intros id w Hid Hw. unfold mem, f. rewrite lookup_fmap, Hlk, decide_True, Hw by done. done. }
  destruct (apply_legs_run legs mem f) as (mem' & ps & Ea & H2); [|done|].
  { apply Forall_forall. intros l Hl. destruct (proj1 (Forall_forall _ _) Hlegs l Hl) as (_ & Hz & w & Hw & Hb & _).
    split; [by apply (proj1 (Forall_forall _ _) Ht)|]. split; [done|].
    destruct (Hmem (leg_wallet_id l) w) as [Em ->]; [by apply list_elem_of_fmap_2|done|].
    exists (w_version w). split; [done|]. split; [by eapply (lk_range _ Hd)|done]. }
  assert (mem_ok mem) as Hmok.
  { intros id b v Hid. unfold mem in Hid. rewrite lookup_fmap, Hlk in Hid. destruct (decide _); [|done].
    destruct (tb_wallets d !! id) as [w|] eqn:E; [|done]. injection Hid as <- <-. eexists. split; [done|].
    pose proof (lk_range _ Hd id w E). unfold small. lia. }
  destruct (apply_legs_ok legs mem mem' ps Ht Hmok Ea) as (_ & A1 & _).
  destruct (flush_wallets_run locked mem' (lock_order (leg_wallet_id <$> legs)) d) as (d1 & Ew & N1 & N2 & N3);
    [apply lock_order_NoDup|by apply ledger_wallets_wf| |].
  { intros id w Hid Hl. rewrite lock_order_elem in Hid. rewrite Hlk, decide_True in Hl by done. split; [done|].
    destruct (Hmem id w Hid Hl) as [Em _]. specialize (A1 _ _ _ Em).
    apply list_elem_of_fmap in Hid as (l & -> & Hl').
    destruct (legs_for_distinct legs l Hnd Hl') as [Ez Eo]. rewrite Ez, Eo in A1.
    destruct (proj1 (Forall_forall _ _) Hlegs l Hl') as (_ & _ & w0 & Hw0 & Hb & Hc).
    rewrite Hl in Hw0. injection Hw0 as <-. eauto. }
  destruct (flush_pendings_run corr legs ps d1) as (d2 & E2).
  { clear -H2 Hlegs Ht Hd. revert Hlegs Ht. induction H2 as [|l p legs ps (P1 & P2 & P3) H2 IH]; [constructor|].
    intros Hlegs Ht. apply Forall_cons_1 in Hlegs as [(Q1 & Q2 & w & Q3 & Q4 & _) Hlegs].
    apply Forall_cons_1 in Ht as [Hl Ht]. constructor; [|by apply IH].
    rewrite P2, leg_amount_sar by done. repeat (split; [done|]). eexists. split; [exact P3|].
    unfold f. by rewrite Q3. }
  { apply (pb_keys _ _ Hp). }
  { rewrite N2. apply (pb_fresh_keys _ _ Hp). }
  { rewrite N1, N2. apply (pb_fresh_ids _ _ Hp). }
  exists d2. unfold post_locked. erewrite bind_run by exact El. fold mem.
  erewrite bind_run; [|unfold lift; by rewrite Ea]. cbn [fst snd].
  erewrite bind_run by exact Ew. by erewrite bind_run by exact E2.
Qed.

Lemma post_group_runs (legs : list Leg) (corr : uuid) (d : db) :
  ledger_ok d → postable legs d →
  ∃ d', post_group legs corr d = Ok (true, d') ∧ posted legs corr d d'.
Proof.
  intros Hd Hp. destruct (post_locked_runs legs corr d Hd Hp) as (d' & E). exists d'.
  assert (validate_legs legs = Ok ()) as Ev.
  { rewrite validate_legs_run; [|apply (pb_two_place _ _ Hp)|].
    2:{ eapply Forall_impl; [apply (pb_legs _ _ Hp)|]. cbn. tauto. }
    rewrite (proj2 (Nat.leb_le _ _)) by apply (pb_two _ _ Hp). rewrite (pb_sum _ _ Hp). cbn [andb Z.eqb].
    rewrite (proj2 (forallb_forall _ _)); [done|]. intros l Hl. apply list_elem_of_In in Hl.
    destruct (proj1 (Forall_forall _ _) (pb_legs _ _ Hp) l Hl) as [Hnz _]. lia. }
  assert (post_group legs corr d = Ok (true, d')) as Epg.
  { unfold post_group. erewrite bind_run; [|unfold lift; by rewrite Ev].
    destruct (any_key_exists_run legs d) as (e & Ee & He). erewrite bind_run by exact Ee.
    destruct e; [exfalso; apply (postable_not_taken _ _ Hp); by apply He|].
    apply savepoint_catch_ok. by left. }
  split; [done|]. apply post_group_ok in Epg as [[? _]|(_ & _ & Hpo)]; [done|done|apply (pb_two_place _ _ Hp)|].
  intros wid w Hw. by apply (lk_range _ Hd wid w).
Qed.

(** ** Example data: a seeded ledger with one customer *)

Definition seed_wallet (user : option uuid) (ty : wallet_type) (balance : Z) : Wallet :=
  mk_Wallet user ty balance 0 "SAR" 0 0.

Definition seed_topup (tid wid : uuid) (z : Z) : Transaction :=
  mk_Transaction wid z TransactionType.TOPUP TransactionStatus.SETTLED None None (Some 50%N) 60%N z
    (if (tid =? 10)%N then Some (topup_key 50%N) else None) None 0.

(** Wallets 1-4 are the system wallets, 5 a customer with 300.00, 6 a courier. *)
Definition db0 : db :=
  empty_db
  <| tb_wallets :=
      {[ 1%N := seed_wallet None WalletType.SYSTEM_ESCROW 0;
         2%N := seed_wallet None WalletType.SYSTEM_REVENUE 0;
         3%N := seed_wallet None WalletType.SYSTEM_GATEWAY (-30000);
         4%N := seed_wallet None WalletType.SYSTEM_TAX_PAYABLE 0;
         5%N := seed_wallet (Some 70%N) WalletType.CUSTOMER 30000;
         6%N := seed_wallet (Some 71%N) WalletType.COURIER 0 ]} |>
  <| tb_transactions := {[ 10%N := seed_topup 10 5 30000; 11%N := seed_topup 11 3 (-30000) ]} |>
  <| db_next := 1000%N |>.

Lemma ledger_ok_db0 : ledger_ok db0.
Proof.
  constructor.
  - intros wid w Hw. enum_lookup Hw; vm_compute; reflexivity.
  - intros c. destruct (decide (c = 60%N)) as [->|Hc]; [vm_compute; reflexivity|].
    apply map_total_zero. intros tid t Ht.
    assert (txn_correlation_id t = 60%N) as -> by (enum_lookup Ht; done).
    unfold same. rewrite bool_decide_eq_false_2, andb_false_r by congruence. done.
  - intros tid t Ht. enum_lookup Ht; vm_compute; eauto.
  - intros i j a b Ha Hb Hij. enum_lookup Ha; enum_lookup Hb; done.
  - intros wid w Hw. enum_lookup Hw; vm_compute; done.
  - intros wid w Hw. enum_lookup Hw; done.
  - intros i j a b Ha Hb Hij. enum_lookup Ha; enum_lookup Hb; done.
Qed.

Lemma balance_range (d : db) (wid : uuid) (w : Wallet) :
  ledger_ok d → tb_wallets d !! wid = Some w → Z.abs (w_balance w) < 10 ^ 12.
Proof. intros Hd Hw. by apply (lk_range _ Hd wid w). Qed.

Definition transfer (src dst : uuid) (z : Z) (key : option string) : list Leg :=
  [ mk_Leg src (sar (- z)) TransactionType.PAYMENT key None None None None;
    mk_Leg dst (sar z) TransactionType.PAYMENT None None None None None ].

Lemma two_place_transfer (src dst : uuid) (z : Z) (key : option string) : two_place (transfer src dst z key).
Proof. split; [repeat constructor|cbn; lia]. Qed.

(** [post_group] keeps the ledger sound: from a state in which every wallet
    balance is the sum of its settled entries and every correlation group sums to
    zero, any group of two-place legs leads to such a state again, whether it is
    posted or recognised as a replay; balances of the constrained wallets stay
    non-negative and idempotency keys stay unique. *)
Theorem post_group_keeps_ledger (legs : list Leg) (corr : uuid) (d : db) (b : bool) (d' : db) :
  two_place legs → ledger_ok d → post_group legs corr d = Ok (b, d') → ledger_ok d'.
Proof. intros Htp Hd H. by eapply keeps_post_group. Qed.

Lemma post_group_keeps_ledger_witness :
  ∃ d', post_group (transfer 5 1 20000 None) 900 db0 = Ok (true, d') ∧ ledger_ok d'.
Proof.
  eexists. split; [vm_compute; reflexivity|].
  apply (post_group_keeps_ledger (transfer 5 1 20000 None) 900 db0 true);
    [apply two_place_transfer|apply ledger_ok_db0|vm_compute; reflexivity].
Defined.

(** [C2] What a posted group does, exactly: either some leg's idempotency key was
    already in the ledger and the state is unchanged, or each wallet's balance moves
    by the sum of the legs on it (and its version by their number); the ledger grows
    by exactly one SETTLED row per leg, each under a fresh id of its own, with that
    leg's amount, type, key and references and, as balance_after, the wallet's balance
    after that leg and the legs before it; no row is altered or removed and no other
    table changes. *)
Theorem post_group_effect (legs : list Leg) (corr : uuid) (d : db) (b : bool) (d' : db) :
  two_place legs → ledger_ok d → post_group legs corr d = Ok (b, d') →
  (b = false ∧ d' = d ∧ key_taken d legs) ∨
  (b = true ∧ ¬ key_taken d legs ∧ zsum_by leg_z legs = 0 ∧
   (∀ wid, tb_wallets d' !! wid =
      (λ w, w <| w_balance := w_balance w + legs_for wid legs |>
              <| w_version := w_version w + legs_on wid legs |>) <$> tb_wallets d !! wid) ∧
   tb_transactions d ⊆ tb_transactions d' ∧ rows_appended legs corr d d' ∧
   ∃ ws ts n, d' = d <| tb_wallets := ws |> <| tb_transactions := ts |> <| db_next := n |>).
Proof.
  intros Htp Hd H. pose proof (λ wid w, balance_range d wid w Hd) as Hr. pose proof H as H0.
  apply post_group_ok in H as [H|(-> & Hk & Hp)]; [by left| |done..].
  right. split_and!; [done..|apply Hp|apply Hp|apply Hp|by apply post_group_rows|apply Hp].
Qed.

Lemma post_group_effect_witness :
  ∃ d', post_group (transfer 5 1 20000 None) 900 db0 = Ok (true, d') ∧
  ((true = false ∧ d' = db0 ∧ key_taken db0 (transfer 5 1 20000 None)) ∨
   (true = true ∧ ¬ key_taken db0 (transfer 5 1 20000 None) ∧ zsum_by leg_z (transfer 5 1 20000 None) = 0 ∧
    (∀ wid, tb_wallets d' !! wid =
       (λ w, w <| w_balance := w_balance w + legs_for wid (transfer 5 1 20000 None) |>
               <| w_version := w_version w + legs_on wid (transfer 5 1 20000 None) |>) <$> tb_wallets db0 !! wid) ∧
    tb_transactions db0 ⊆ tb_transactions d' ∧ rows_appended (transfer 5 1 20000 None) 900 db0 d' ∧
    ∃ ws ts n, d' = db0 <| tb_wallets := ws |> <| tb_transactions := ts |> <| db_next := n |>)).
Proof.
  eexists. split; [vm_compute; reflexivity|].
  apply (post_group_effect (transfer 5 1 20000 None) 900 db0 true);
    [apply two_place_transfer|apply ledger_ok_db0|vm_compute; reflexivity].
Defined.

(** Replays are no-ops: once a group with a (non-empty) idempotency key has been
    posted, any later well-formed group that carries the same key, in any later state of
    the append-only ledger, posts nothing, changes nothing and returns False. *)
Theorem post_group_replay_noop (legs legs' : list Leg) (corr corr' : uuid) (d d1 d2 : db) (key : string) :
  two_place legs → ledger_ok d → post_group legs corr d = Ok (true, d1) →
  tb_transactions d1 ⊆ tb_transactions d2 →
  (∃ l, l ∈ legs ∧ key_of l = Some key) → (∃ l, l ∈ legs' ∧ key_of l = Some key) →
  validate_legs legs' = Ok () → post_group legs' corr' d2 = Ok (false, d2).
Proof.
  intros Htp Hd H Hsub (l & Hl & Hk) (l' & Hl' & Hk') Hv.
  apply post_group_ok in H as [[? _]|(_ & _ & Hp)]; [done| |done|intros wid w; by apply balance_range].
  destruct (proj1 (Forall_forall _ _) (po_all _ _ _ _ Hp) l Hl) as (tid & ba & Ht). unfold post_group.
  erewrite bind_run; [|unfold lift; by rewrite Hv].
  destruct (any_key_exists_run legs' d2) as (e & Ee & He). erewrite bind_run by exact Ee.
  replace e with true; [done|]. symmetry. apply He. exists l', key, tid, (leg_row corr (db_now d) l ba).
  split; [done|]. split; [done|]. split; [by eapply lookup_weaken|]. cbn.
  unfold key_of in Hk. by destruct (leg_idempotency_key l) as [[|]|].
Qed.

Lemma post_group_replay_noop_witness :
  ∃ d1, post_group (transfer 5 1 20000 (Some (escrow_key 40))) 900 db0 = Ok (true, d1) ∧
        post_group (transfer 5 1 700 (Some (escrow_key 40))) 901 d1 = Ok (false, d1).
Proof.
  eexists. split; [vm_compute; reflexivity|].
  eapply (post_group_replay_noop (transfer 5 1 20000 (Some (escrow_key 40)))
    (transfer 5 1 700 (Some (escrow_key 40))) 900 901 db0 _ _ (escrow_key 40));
    [apply two_place_transfer|apply ledger_ok_db0|vm_compute; reflexivity|done|..].
  - eexists. split; [left|done].
  - eexists. split; [left|done].
  - vm_compute; reflexivity.
Defined.

Lemma reconcile_clean (d : db) : ledger_ok d → ∃ r, reconcile d = Ok (r, d) ∧ report_ok r = true.
Proof.
  intros Hd. destruct (settled_sums_run d) as (m & Em & Hm). unfold reconcile.
  erewrite bind_run by reflexivity. erewrite bind_run by exact Em. erewrite bind_run.
  2:{ unfold lift. rewrite (wallet_drifts_run m (settled_sum (tb_transactions d))); [reflexivity|done|].
      apply Forall_forall. intros [id w] Hin. apply list_elem_of_filter in Hin as [_ Hin].
      apply elem_of_map_to_list in Hin. split; [by apply (lk_balance _ Hd)|by apply (lk_range _ Hd id)]. }
  erewrite bind_run by reflexivity. erewrite bind_run by reflexivity.
  eexists. split; [reflexivity|]. unfold report_ok. cbn [drifts app].
  rewrite (proj2 (drift_sums_nil d _ eq_refl)); [done|]. apply (lk_zero _ Hd).
Qed.

(** A sound ledger neither creates nor destroys money: the balances of all wallets
    sum to zero. *)
Lemma ledger_total (d : db) : ledger_ok d → map_total w_balance (tb_wallets d) = 0.
Proof.
  intros Hd. set (f := λ t, if is_settled t then txn_amount t else 0).
  assert (∀ (key : Transaction → N) k, map_total (λ t, if is_settled t && same (key t) k then txn_amount t else 0) (tb_transactions d)
    = map_total (λ t, if bool_decide (key t = k) then f t else 0) (tb_transactions d)) as Hf.
  { intros key k. apply map_total_ext. intros t. unfold f, same. by destruct (is_settled t), (bool_decide _). }
  transitivity (map_total f (tb_transactions d)).
  - rewrite map_total_list.
    rewrite <- (map_total_groups f txn_wallet_id (fst <$> map_to_list (tb_wallets d))); [|apply NoDup_fst_map_to_list|].
    + unfold zsum_by. rewrite <- list_fmap_compose. f_equal. apply list_fmap_ext. intros i [wid w] Hin%list_elem_of_lookup_2.
      cbn. apply elem_of_map_to_list in Hin. rewrite (lk_balance _ Hd _ _ Hin). apply Hf.
    + intros i t Ht _. destruct (lk_wallet _ Hd _ _ Ht) as [w Hw]. apply list_elem_of_fmap.
      exists (txn_wallet_id t, w). split; [done|]. by apply elem_of_map_to_list.
  - rewrite <- (map_total_groups f txn_correlation_id (remove_dups (txn_correlation_id ∘ snd <$> map_to_list (tb_transactions d)))).
    + induction (remove_dups _) as [|c l IH]; [done|]. rewrite zsum_by_cons, IH, <- Hf.
      change (corr_sum (tb_transactions d) c + 0 = 0). rewrite (lk_zero _ Hd). done.
    + apply NoDup_remove_dups.
    + intros i t Ht _. apply elem_of_remove_dups, list_elem_of_fmap. exists (i, t). split; [done|]. by apply elem_of_map_to_list.
Qed.

(** [C31] [reconcile] is exact: on a sound ledger it returns a clean report (and
    never raises), and a clean report implies that every balance is the sum of the
    wallet's settled entries and every correlation group sums to zero. *)
Theorem reconcile_exact (d : db) :
  (ledger_ok d → ∃ r, reconcile d = Ok (r, d) ∧ report_ok r = true) ∧
  (∀ r d', reconcile d = Ok (r, d') → report_ok r = true →
     d' = d ∧ (∀ wid w, tb_wallets d !! wid = Some w → w_balance w = settled_sum (tb_transactions d) wid) ∧
     (∀ c, corr_sum (tb_transactions d) c = 0)).
Proof.
  destruct (settled_sums_run d) as (m & Em & Hm). split; [apply reconcile_clean|].
  intros r d' H Hr. unfold reconcile in H. erewrite bind_run in H by reflexivity.
    erewrite bind_run in H by exact Em. apply bind_ok in H as (l & d1 & El & H). apply lift_ok in El as [El ->].
    erewrite bind_run in H by reflexivity. erewrite bind_run in H by reflexivity. injection H as <- <-.
    unfold report_ok in Hr. cbn [drifts] in Hr.
    destruct (l ++ _) eqn:E; [|done]. apply app_eq_nil in E as [-> E]. apply fmap_nil_inv in E.
    split; [done|]. split; [|by apply (drift_sums_nil d _ eq_refl)].
    intros wid w Hw. pose proof (proj1 (wallet_drifts_nil m _ _ _ Hm El) eq_refl) as Hall.
    apply (proj1 (Forall_forall _ _) Hall (wid, w)). apply list_elem_of_filter.
    split; [done|]. by apply elem_of_map_to_list.
Qed.

Lemma reconcile_exact_witness : ∃ r, reconcile db0 = Ok (r, db0) ∧ report_ok r = true.
Proof. apply (reconcile_exact db0). apply ledger_ok_db0. Defined.

(** [hold_funds] and [release_hold] on a sound ledger, exactly: a hold succeeds
    if and only if the available balance covers it, raises [InsufficientFundsError]
    otherwise, and changes only [held_balance] (and the version); after it the available
    balance is still non-negative.  Releasing what was held restores the
    hold, and an over-release is clamped at zero. *)
Theorem hold_release_exact (d : db) (wid : uuid) (w : Wallet) (a r : Z) :
  ledger_ok d → tb_wallets d !! wid = Some w → 0 ≤ a < 10 ^ 12 → 0 ≤ r < 10 ^ 12 →
  let held := with_held w (w_held_balance w + a) in
  let d1 := d <| tb_wallets := <[wid := held]> (tb_wallets d) |> in
  (w_balance w - w_held_balance w < a → hold_funds wid (sar a) d = Raise InsufficientFundsError) ∧
  (a ≤ w_balance w - w_held_balance w →
     hold_funds wid (sar a) d = Ok ((), d1) ∧
     0 ≤ w_balance held - w_held_balance held ∧
     release_hold wid (sar r) d1 =
       Ok ((), d <| tb_wallets := <[wid := with_held held (Z.max 0 (w_held_balance w + a - r))]> (tb_wallets d) |>)).
Proof.
  intros Hd Hw Ha Hr held d1. pose proof (hold_funds_run d wid w a Hd Hw Ha) as E. split.
  - intros Hlt. rewrite E. by rewrite (proj2 (Z.ltb_lt _ _)).
  - intros Hge. rewrite (proj2 (Z.ltb_ge _ _)) in E by done. split; [done|]. split; [cbn; lia|].
    rewrite (release_hold_run d1 wid held r); [|by eapply keeps_hold_funds|apply lookup_insert_eq|done].
    unfold d1 at 2. cbn. unfold d1. do 2 f_equal. destruct d. cbn. unfold upd, set_tb_wallets. cbn.
    by rewrite insert_insert_eq.
Qed.

Lemma hold_release_exact_witness :
  let w := seed_wallet (Some 70%N) WalletType.CUSTOMER 30000 in
  let held := with_held w 20000 in
  let d1 := db0 <| tb_wallets := <[5%N := held]> (tb_wallets db0) |> in
  (30000 < 20000 → hold_funds 5 (sar 20000) db0 = Raise InsufficientFundsError) ∧
  (20000 ≤ 30000 →
     hold_funds 5 (sar 20000) db0 = Ok ((), d1) ∧ 0 ≤ w_balance held - w_held_balance held ∧
     release_hold 5 (sar 20000) d1 =
       Ok ((), db0 <| tb_wallets := <[5%N := with_held held 0]> (tb_wallets db0) |>)).
Proof.
  apply (hold_release_exact db0 5 (seed_wallet (Some 70%N) WalletType.CUSTOMER 30000) 20000 20000);
    [apply ledger_ok_db0|vm_compute; reflexivity|lia|lia].
Defined.

Lemma postable_transfer : postable (transfer 5 1 20000 (Some (escrow_key 40))) db0.
Proof.
  constructor.
  - apply two_place_transfer.
  - cbn. lia.
  - done.
  - repeat apply Forall_cons_2; [..|apply Forall_nil_2]; (split; [done|]; split; [cbn; lia|]);
      eexists; (split; [vm_compute; reflexivity|]); split; done.
  - cbn. apply NoDup_cons. split; [|apply NoDup_singleton]. by intros ?%list_elem_of_singleton.
  - apply NoDup_singleton.
  - intros key tid t Hkey Ht. apply list_elem_of_singleton in Hkey as ->. enum_lookup Ht; done.
  - intros k Hk. apply eq_None_not_Some. intros [t Ht].
    enum_lookup Ht; cbn in Hk; lia.
Qed.

(** [C30] [post_group] terminates with the posting: from a sound ledger, every
    balanced group of non-zero legs on distinct existing wallets, whose new balances fit the column and
    respect the non-negativity CHECK and whose keys are new, is posted and reported as
    posted. *)
Theorem post_group_succeeds (legs : list Leg) (corr : uuid) (d : db) :
  ledger_ok d → postable legs d →
  ∃ d', post_group legs corr d = Ok (true, d') ∧
    ∀ wid, w_balance <$> tb_wallets d' !! wid = (λ w, w_balance w + legs_for wid legs) <$> tb_wallets d !! wid.
Proof.
  intros Hd Hp. destruct (post_group_runs legs corr d Hd Hp) as (d' & E & Hpo). exists d'. split; [done|].
  intros wid. rewrite (po_wallets _ _ _ _ Hpo). by destruct (tb_wallets d !! wid).
Qed.

Lemma post_group_succeeds_witness :
  ∃ d', post_group (transfer 5 1 20000 (Some (escrow_key 40))) 900 db0 = Ok (true, d') ∧
    ∀ wid, w_balance <$> tb_wallets d' !! wid =
      (λ w, w_balance w + legs_for wid (transfer 5 1 20000 (Some (escrow_key 40)))) <$> tb_wallets db0 !! wid.
Proof. apply (post_group_succeeds _ 900 db0); [apply ledger_ok_db0|apply postable_transfer]. Defined.

(** [_validate_legs] accepts exactly the double entries: on two-place legs it returns if
    there are at least two, they sum to zero and none is zero, and raises
    [LedgerImbalanceError] in every other case. *)
Theorem validate_legs_exact (legs : list Leg) :
  two_place legs → Forall (λ l, Z.abs (leg_z l) < 10 ^ 12) legs →
  validate_legs legs =
  if (2 <=? length legs)%nat && (zsum_by leg_z legs =? 0) && forallb (λ l, negb (leg_z l =? 0)) legs
  then Ok () else Raise LedgerImbalanceError.
Proof. apply validate_legs_run. Qed.

Lemma validate_legs_exact_witness :
  validate_legs [mk_Leg 5 (sar (-100)) TransactionType.PAYMENT None None None None None;
                 mk_Leg 1 (sar 90) TransactionType.PAYMENT None None None None None] = Raise LedgerImbalanceError.
Proof.
  rewrite (validate_legs_exact [_; _]); [reflexivity| |].
  - split; [repeat constructor|cbn; lia].
  - repeat constructor; cbn; lia.
Defined.

(** Finer than a halala, the zero-sum check and the stored rows disagree:
    legs of 0.005, 0.005 and -0.01 pass [_validate_legs], are stored as 0.01, 0.01
    and -0.01, and leave a correlation group that sums to 0.01, which [reconcile]
    reports.  (Every caller quantizes its amounts first.) *)
Theorem sub_halala_legs_drift :
  let leg w a k := mk_Leg w a TransactionType.PAYMENT k None None None None in
  let legs := [leg 5%N (Dec 5 (-3)) None; leg 6%N (Dec 5 (-3)) None; leg 3%N (Dec (-10) (-3)) None] in
  ∃ d', post_group legs 900 db0 = Ok (true, d') ∧ corr_sum (tb_transactions d') 900 = 1 ∧
    ∃ r, reconcile d' = Ok (r, d') ∧ report_ok r = false.
Proof.
  intros leg legs. eexists. split; [vm_compute; reflexivity|]. split; [vm_compute; reflexivity|].
  eexists. split; vm_compute; reflexivity.
Qed.
