(* ===== verification/Movements.v ===== *)
(** * What the money service's operations move

    The operations of [app/services/money_service.py] as transfers between
    wallets: each either moves exactly its legs and marks its idempotency key, or
    finds the key already used and moves nothing. *)

From Stdlib Require Import ZArith Lia.
From stdpp Require Import base list gmap strings numbers option sorting.
From S2P Require Import Prelude Errors PyDecimal Money Enums Tables Database Ledger.
Open Scope Z_scope.

(** The balance of a wallet, and the change a list of movements makes to it. *)
Definition bal (d : db) (wid : uuid) : Z := from_option w_balance 0 (tb_wallets d !! wid).

Definition delta (ms : list (uuid * Z)) (wid : uuid) : Z :=
  zsum_by (λ m, if same m.1 wid then m.2 else 0) ms.

Definition moved (d d' : db) (ms : list (uuid * Z)) : Prop := ∀ wid, bal d' wid = bal d wid + delta ms wid.

(** The funds on hold in a wallet. *)
Definition held (d : db) (wid : uuid) : Z := from_option w_held_balance 0 (tb_wallets d !! wid).

Definition key_used (d : db) (key : string) : Prop :=
  ∃ tid t, tb_transactions d !! tid = Some t ∧ txn_idempotency_key t = Some key.

(** A transfer [ms] made under [key]: once, or recognised as a replay. *)
Definition transferred (key : string) (ms : list (uuid * Z)) (b : bool) (d d' : db) : Prop :=
  if b then ¬ key_used d key ∧ key_used d' key ∧ moved d d' ms
  else key_used d key ∧ tb_wallets d' = tb_wallets d ∧ tb_transactions d' = tb_transactions d.

Definition system_wallet (d : db) (ty : wallet_type) (wid : uuid) : Prop :=
  ∃ w, tb_wallets d !! wid = Some w ∧ w_type w = ty ∧ w_user_id w = None.

Definition user_wallet (d : db) (uid wid : uuid) : Prop :=
  ∃ w, tb_wallets d !! wid = Some w ∧ w_user_id w = Some uid.

Definition leg_moves (legs : list Leg) : list (uuid * Z) := (λ l, (leg_wallet_id l, leg_z l)) <$> legs.

(** ** Lemmas *)

Lemma delta_cons (m : uuid * Z) (ms : list (uuid * Z)) (wid : uuid) :
  delta (m :: ms) wid = (if same m.1 wid then m.2 else 0) + delta ms wid.
Proof. done. Qed.

Lemma delta_app (ms ms' : list (uuid * Z)) (wid : uuid) : delta (ms ++ ms') wid = delta ms wid + delta ms' wid.
Proof. apply zsum_by_app. Qed.

Lemma moved_ext (d d' : db) (ms ms' : list (uuid * Z)) :
  (∀ wid, delta ms wid = delta ms' wid) → moved d d' ms → moved d d' ms'.
Proof. intros E H wid. by rewrite <- E. Qed.

Lemma transferred_ext (key : string) (ms ms' : list (uuid * Z)) (b : bool) (d d' : db) :
  (∀ wid, delta ms wid = delta ms' wid) → transferred key ms b d d' → transferred key ms' b d d'.
Proof. intros E. destruct b; [|done]. intros (H1 & H2 & H3). split; [done|]. split; [done|]. by eapply moved_ext. Qed.

Lemma delta_legs (legs : list Leg) (wid : uuid) : delta (leg_moves legs) wid = legs_for wid legs.
Proof. unfold delta, legs_for, leg_moves, zsum_by. by rewrite <- list_fmap_compose. Qed.

Lemma posted_moved (legs : list Leg) (corr : uuid) (d d' : db) : posted legs corr d d' → moved d d' (leg_moves legs).
Proof.
  intros Hp wid. rewrite delta_legs. unfold bal. rewrite (po_wallets _ _ _ _ Hp).
  destruct (tb_wallets d !! wid) as [w|] eqn:E; [done|]. cbn.
  destruct (decide (wid ∈ leg_wallet_id <$> legs)) as [Hin|Hin]; [|by destruct (legs_on_0 _ _ Hin) as [_ ->]].
  apply list_elem_of_fmap in Hin as (l & -> & Hl).
  destruct (proj1 (Forall_forall _ _) (po_known _ _ _ _ Hp) l Hl) as [w Hw]. by rewrite E in Hw.
Qed.

Lemma key_taken_used (d : db) (legs : list Leg) (key : string) :
  omap key_of legs = [key] → key_taken d legs ↔ key_used d key.
Proof.
  intros Hk. split.
  - intros (l & k & tid & t & Hl & Hlk & Ht & Htk). exists tid, t. split; [done|].
    assert (k ∈ omap key_of legs) as Hin by (apply list_elem_of_omap; eauto).
    rewrite Hk in Hin. apply list_elem_of_singleton in Hin as ->. done.
  - intros (tid & t & Ht & Htk). assert (key ∈ omap key_of legs) as Hin by (rewrite Hk; left).
    apply list_elem_of_omap in Hin as (l & Hl & Hlk). by exists l, key, tid, t.
Qed.

Lemma ledger_balance_range (d : db) : ledger_ok d →
  ∀ wid w, tb_wallets d !! wid = Some w → Z.abs (w_balance w) < 10 ^ 12.
Proof. intros Hd wid w Hw. by apply (lk_range _ Hd wid w). Qed.

(** A group with one key is a transfer. *)
Lemma post_transferred (legs : list Leg) (corr : uuid) (key : string) (d : db) (b : bool) (d' : db) :
  ledger_ok d → two_place legs → omap key_of legs = [key] → post_group legs corr d = Ok (b, d') →
  transferred key (leg_moves legs) b d d'.
Proof.
  intros Hd Htp Hk H. apply post_group_ok in H as [(-> & -> & Ht)|(-> & Hn & Hp)]; [| |done|by apply ledger_balance_range].
  - cbn. split; [|done]. by apply (key_taken_used d legs).
  - cbn. rewrite <- (key_taken_used d legs key Hk). split; [done|]. split; [|by eapply posted_moved].
    assert (key ∈ omap key_of legs) as Hin by (rewrite Hk; left).
    apply list_elem_of_omap in Hin as (l & Hl & Hlk).
    destruct (proj1 (Forall_forall _ _) (po_all _ _ _ _ Hp) l Hl) as (tid & ba & Ht). eexists tid, _. split; [exact Ht|].
    cbn. unfold key_of in Hlk. destruct (leg_idempotency_key l) as [[|c s]|]; [done|by injection Hlk as <-|done].
Qed.

(** Changing the id generator before, or a hold after, a transfer is neutral. *)
Lemma transferred_next (key : string) (ms : list (uuid * Z)) (b : bool) (d d' : db) (n : uuid) :
  transferred key ms b (d <| db_next := n |>) d' → transferred key ms b d d'.
Proof. done. Qed.

Lemma release_hold_ok (wid : uuid) (z : Z) (d : db) (u : ()) (d' : db) :
  ledger_ok d → 0 ≤ z < 10 ^ 12 → release_hold wid (sar z) d = Ok (u, d') →
  ∃ w, tb_wallets d !! wid = Some w ∧
    d' = d <| tb_wallets := <[wid := with_held w (Z.max 0 (w_held_balance w - z))]> (tb_wallets d) |>.
Proof.
  intros Hd Hz H. unfold release_hold in H. rewrite (bind_run _ _ d d (sar z)) in H
    by (unfold lift; by rewrite quantize_money_sar by (unfold small; lia)).
  apply bind_ok in H as (w & d1 & [-> Hw]%lock_one_ok & H). exists w. split; [done|].
  pose proof (lk_range _ Hd wid w Hw) as (_ & Hh & _).
  rewrite dsub_sar in H by (unfold small; lia). change ZERO with (sar 0) in H. rewrite dmax_sar in H.
  rewrite (bind_run _ _ d d (sar (Z.max 0 (w_held_balance w - z)))) in H
    by (unfold lift; by rewrite quantize_money_sar by (unfold small; lia)).
  rewrite (bind_run _ _ d d (Z.max 0 (w_held_balance w - z))) in H by (unfold lift; by rewrite numeric_sar by lia).
  by apply update_row_ok in H as (_ & _ & _ & ->).
Qed.

Lemma release_hold_neutral (wid : uuid) (z : Z) (d : db) (u : ()) (d' : db) :
  ledger_ok d → 0 ≤ z < 10 ^ 12 → release_hold wid (sar z) d = Ok (u, d') →
  tb_transactions d' = tb_transactions d ∧ ∀ i, bal d' i = bal d i.
Proof.
  intros Hd Hz H. apply release_hold_ok in H as (w & Hw & ->); [|done..]. split; [done|]. intros i. unfold bal. cbn.
  destruct (decide (i = wid)) as [->|Hne]; [by rewrite lookup_insert_eq, Hw|by rewrite lookup_insert_ne].
Qed.

Lemma transferred_neutral (key : string) (ms : list (uuid * Z)) (d d1 d' : db) :
  transferred key ms true d d1 → tb_transactions d' = tb_transactions d1 → (∀ i, bal d' i = bal d1 i) →
  transferred key ms true d d'.
Proof.
  intros (H1 & (tid & t & Ht) & H3) Et Eb. split; [done|]. split; [exists tid, t; by rewrite Et|].
  intros wid. by rewrite Eb.
Qed.

Lemma get_system_wallet (ty : wallet_type) (d : db) (p : uuid * Wallet) (d' : db) :
  get_system ty d = Ok (p, d') → d' = d ∧ system_wallet d ty p.1.
Proof. intros H. apply get_system_ok in H as (-> & Hl & Ht & Hu). split; [done|]. by exists p.2. Qed.

Lemma get_by_user_ok (uid : uuid) (d : db) (o : option (uuid * Wallet)) (d' : db) :
  get_by_user uid d = Ok (o, d') →
  d' = d ∧ match o with
           | Some p => tb_wallets d !! p.1 = Some p.2 ∧ w_user_id p.2 = Some uid
           | None => ∀ wid w, tb_wallets d !! wid = Some w → w_user_id w ≠ Some uid
           end.
Proof.
  unfold get_by_user. intros Hr.
  destruct (scalar_run (λ _ w, same (w_user_id w) (Some uid)) d) as (x & E & Hx).
  rewrite E in Hr. injection Hr as <- <-. split; [done|]. destruct x as [[wid w]|].
  - destruct Hx as [Hl Hs]. by apply (proj1 (same_true _ _)) in Hs.
  - intros wid w Hw Hu. specialize (Hx _ _ Hw). by rewrite (proj2 (same_true _ _)) in Hx.
Qed.

Lemma system_user_ne (d : db) (ty : wallet_type) (uid a b : uuid) :
  system_wallet d ty a → user_wallet d uid b → a ≠ b.
Proof. intros (w & Hw & _ & Hu) (w' & Hw' & Hu') ->. congruence. Qed.

Lemma system_system_ne (d : db) (ty ty' : wallet_type) (a b : uuid) :
  system_wallet d ty a → system_wallet d ty' b → ty ≠ ty' → a ≠ b.
Proof. intros (w & Hw & Ht & _) (w' & Hw' & Ht' & _) Hne ->. congruence. Qed.

Lemma post_group_held (legs : list Leg) (corr : uuid) (d : db) (b : bool) (d' : db) :
  ledger_ok d → two_place legs → post_group legs corr d = Ok (b, d') → ∀ i, held d' i = held d i.
Proof.
  intros Hd Htp H i. apply post_group_ok in H as [(_ & -> & _)|(_ & _ & Hp)]; [done| |done|by apply ledger_balance_range].
  unfold held. rewrite (po_wallets _ _ _ _ Hp). by destruct (tb_wallets d !! i).
Qed.

Lemma post_group_ledger (legs : list Leg) (corr : uuid) (d : db) (b : bool) (d' : db) :
  ledger_ok d → two_place legs → post_group legs corr d = Ok (b, d') → ledger_ok d'.
Proof. intros Hd Htp. by apply keeps_post_group. Qed.

Lemma release_hold_held (wid : uuid) (z : Z) (d : db) (u : ()) (d' : db) :
  ledger_ok d → 0 ≤ z < 10 ^ 12 → release_hold wid (sar z) d = Ok (u, d') →
  ∀ i, held d' i = if same i wid then Z.max 0 (held d i - z) else held d i.
Proof.
  intros Hd Hz H i. apply release_hold_ok in H as (w & Hw & ->); [|done..]. unfold held. cbn.
  destruct (same i wid) eqn:E.
  - apply (proj1 (same_true _ _)) in E as ->. by rewrite lookup_insert_eq, Hw.
  - apply bool_decide_eq_false in E. by rewrite lookup_insert_ne.
Qed.

Lemma hold_funds_ok (wid : uuid) (z : Z) (d : db) (u : ()) (d' : db) :
  ledger_ok d → 0 ≤ z < 10 ^ 12 → hold_funds wid (sar z) d = Ok (u, d') →
  tb_transactions d' = tb_transactions d ∧ (∀ i, bal d' i = bal d i) ∧ z ≤ bal d wid - held d wid ∧
  ∀ i, held d' i = if same i wid then held d i + z else held d i.
Proof.
  intros Hd Hz H. assert (∃ w, tb_wallets d !! wid = Some w) as [w Hw].
  { assert (H' := H). unfold hold_funds in H'. inv_run H'. apply lock_one_ok in E0 as [-> Hw]. eauto. }
  rewrite (hold_funds_run d wid w z Hd Hw Hz) in H.
  destruct (Z.ltb_spec (w_balance w - w_held_balance w) z) as [|Hle]; [done|]. injection H as _ <-.
  split; [done|]. unfold bal, held. cbn. rewrite Hw. cbn. split; [|split; [lia|]]; intros i.
  - destruct (decide (i = wid)) as [->|Hne]; [by rewrite lookup_insert_eq, Hw|by rewrite lookup_insert_ne].
  - destruct (same i wid) eqn:E.
    + apply (proj1 (same_true _ _)) in E as ->. by rewrite lookup_insert_eq, Hw.
    + apply bool_decide_eq_false in E. by rewrite lookup_insert_ne.
Qed.

(** ** The operations *)

(** Legs whose amounts are two-place literals. *)
Ltac two_place_lit := split; [cbn [app]; repeat (apply Forall_cons_2; [done|]); apply Forall_nil_2|cbn; lia].

(** Amounts are two-place literals, one leg carries the key; movements of zero
    may be dropped. *)
Ltac transfer_by key H :=
  eapply transferred_ext; cycle 1;
  [ apply (post_transferred _ _ key) in H;
    [exact H|by apply ledger_next|two_place_lit|done]
  | intros ?wid; cbn; rewrite ?delta_cons; cbn; repeat (destruct (same _ _)); unfold leg_z, halalas; cbn; lia ].

Section Effects.
Context (d : db) (Hd : ledger_ok d).

Lemma credit_topup_transferred (wid : uuid) (z : Z) (intent : uuid) (b : bool) (d' : db) :
  Z.abs z < 10 ^ 12 → credit_topup wid (sar z) intent d = Ok (b, d') →
  ∃ gw, system_wallet d WalletType.SYSTEM_GATEWAY gw ∧ transferred (topup_key intent) [(wid, z); (gw, - z)] b d d'.
Proof.
  intros Hz H. unfold credit_topup in H. apply bind_ok in H as (gw & d1 & [-> Hg]%get_system_wallet & H).
  inv_run H. rewrite quantize_money_sar in E by (unfold small; lia). injection E as <-.
  rewrite dneg_sar, quantize_money_sar in E0 by (unfold small; lia). injection E0 as <-.
  exists gw.1. split; [done|]. transfer_by (topup_key intent) H.
Qed.

Lemma refund_transferred (oid iid cw : uuid) (z : Z) (b : bool) (d' : db) :
  Z.abs z < 10 ^ 12 → refund_escrow oid iid cw (sar z) d = Ok (b, d') →
  ∃ ew, system_wallet d WalletType.SYSTEM_ESCROW ew ∧ transferred (refund_key oid) [(ew, - z); (cw, z)] b d d'.
Proof.
  intros Hz H. unfold refund_escrow in H. rewrite quantize_money_sar in H by (unfold small; lia).
  erewrite bind_run in H by reflexivity. apply bind_ok in H as (ew & d1 & [-> He]%get_system_wallet & H).
  inv_run H. rewrite dneg_sar in H by (unfold small; lia).
  exists ew.1. split; [done|]. transfer_by (refund_key oid) H.
Qed.

Lemma release_transferred (oid iid cw : uuid) (p t r : Z) (b : bool) (d' : db) :
  Z.abs p < 10 ^ 13 → Z.abs t < 10 ^ 13 → Z.abs r < 10 ^ 13 →
  release_escrow_on_completion oid iid cw (sar p) (sar t) (sar r) d = Ok (b, d') →
  ∃ ew tw rw, system_wallet d WalletType.SYSTEM_ESCROW ew ∧ system_wallet d WalletType.SYSTEM_TAX_PAYABLE tw ∧
    system_wallet d WalletType.SYSTEM_REVENUE rw ∧
    transferred (release_key oid) [(ew, - (p + t + r)); (cw, p); (tw, t); (rw, r)] b d d'.
Proof.
  intros Hp Ht Hr H. unfold release_escrow_on_completion in H.
  rewrite !quantize_money_sar in H by (unfold small; lia). do 3 erewrite bind_run in H by reflexivity.
  rewrite !dadd_sar, quantize_money_sar in H by (unfold small; lia). erewrite bind_run in H by reflexivity.
  apply bind_ok in H as (ew & d1 & [-> He]%get_system_wallet & H).
  apply bind_ok in H as (tw & d1 & [-> Htw]%get_system_wallet & H).
  apply bind_ok in H as (rw & d1 & [-> Hrw]%get_system_wallet & H).
  inv_run H. rewrite dneg_sar in H by (unfold small; lia). change ZERO with (sar 0) in H.
  exists ew.1, tw.1, rw.1. do 3 (split; [done|]). rewrite !deqb_sar in H.
  destruct (Z.eqb_spec t 0) as [->|Ht0], (Z.eqb_spec r 0) as [->|Hr0]; transfer_by (release_key oid) H.
Qed.

Lemma split_transferred (oid iid cw uw : uuid) (c r : Z) (b : bool) (d' : db) :
  Z.abs c < 10 ^ 13 → Z.abs r < 10 ^ 13 → split_escrow oid iid cw uw (sar c) (sar r) d = Ok (b, d') →
  ∃ ew, system_wallet d WalletType.SYSTEM_ESCROW ew ∧
    transferred (split_key oid) [(ew, - (c + r)); (cw, c); (uw, r)] b d d'.
Proof.
  intros Hc Hr H. unfold split_escrow in H.
  rewrite !quantize_money_sar in H by (unfold small; lia). do 2 erewrite bind_run in H by reflexivity.
  rewrite !dadd_sar, quantize_money_sar in H by (unfold small; lia). erewrite bind_run in H by reflexivity.
  apply bind_ok in H as (ew & d1 & [-> He]%get_system_wallet & H).
  inv_run H. rewrite dneg_sar in H by (unfold small; lia). change ZERO with (sar 0) in H.
  exists ew.1. split; [done|]. rewrite !deqb_sar in H.
  destruct (Z.eqb_spec c 0) as [->|Hc0], (Z.eqb_spec r 0) as [->|Hr0]; transfer_by (split_key oid) H.
Qed.

(** Paying into escrow; the part that was on hold leaves the hold. *)
Lemma fund_transferred (cw : uuid) (wz gz : Z) (iid oid : uuid) (intent : option uuid) (was_held : bool)
    (b : bool) (d' : db) :
  0 ≤ wz < 10 ^ 12 → 0 ≤ gz < 10 ^ 12 →
  fund_escrow_for_invoice cw (sar wz) (sar gz) iid oid intent was_held d = Ok (b, d') →
  ∃ ew gw, system_wallet d WalletType.SYSTEM_ESCROW ew ∧ system_wallet d WalletType.SYSTEM_GATEWAY gw ∧
    transferred (escrow_key iid) [(cw, - wz); (gw, - gz); (ew, wz + gz)] b d d' ∧
    ∀ i, held d' i = if same i cw && (b && was_held && (0 <? wz)) then Z.max 0 (held d i - wz) else held d i.
Proof.
  intros Hw Hg H. unfold fund_escrow_for_invoice in H.
  rewrite !quantize_money_sar in H by (unfold small; lia). do 2 erewrite bind_run in H by reflexivity.
  rewrite !dadd_sar, quantize_money_sar in H by (unfold small; lia). erewrite bind_run in H by reflexivity.
  apply bind_ok in H as (ew & d1 & [-> He]%get_system_wallet & H).
  apply bind_ok in H as (gw & d1 & [-> Hgw]%get_system_wallet & H).
  apply bind_ok in H as (corr & d1 & Hu & H). injection Hu as <- <-.
  change ZERO with (sar 0) in H. rewrite !dltb_sar, !dneg_sar in H by (unfold small; lia).
  apply bind_ok in H as (b' & d2 & Hpost & H). apply bind_ok in H as ([] & d3 & Hrel & H). injection H as -> ->.
  exists ew.1, gw.1. do 2 (split; [done|]).
  assert (transferred (escrow_key iid) [(cw, - wz); (gw.1, - gz); (ew.1, wz + gz)] b d d2 ∧
          (∀ i, held d2 i = held d i) ∧ ledger_ok d2) as (Ht & Hh & Hd2).
  { destruct (Z.ltb_spec 0 wz) as [Hw0|Hw0], (Z.ltb_spec 0 gz) as [Hg0|Hg0];
      (split; [assert (Hp := Hpost); transfer_by (escrow_key iid) Hp|]);
      (split; [eapply (post_group_held _ _ _ _ _ (ledger_next _ _ Hd)); [|exact Hpost]
              |eapply (post_group_ledger _ _ _ _ _ (ledger_next _ _ Hd)); [|exact Hpost]]); two_place_lit. }
  destruct (b && was_held && (0 <? wz)) eqn:Eb; cbn in Hrel.
  - split.
    + destruct b; [|done]. eapply transferred_neutral; [exact Ht|..];
        apply (release_hold_neutral cw wz d2 () d'); done.
    + intros i. rewrite (release_hold_held cw wz d2 () d') by done. rewrite Hh, andb_true_r. done.
  - injection Hrel as ->. split; [done|]. intros i. by rewrite andb_false_r, Hh.
Qed.

(** A paid withdrawal leaves the wallet and its hold together. *)
Lemma pay_withdrawal_transferred (cw : uuid) (z : Z) (wid : uuid) (b : bool) (d' : db) :
  0 ≤ z < 10 ^ 12 → pay_withdrawal cw (sar z) wid d = Ok (b, d') →
  ∃ gw, system_wallet d WalletType.SYSTEM_GATEWAY gw ∧
    transferred (withdrawal_key wid) [(cw, - z); (gw, z)] b d d' ∧
    ∀ i, held d' i = if same i cw && b then Z.max 0 (held d i - z) else held d i.
Proof.
  intros Hz H. unfold pay_withdrawal in H. rewrite quantize_money_sar in H by (unfold small; lia).
  erewrite bind_run in H by reflexivity. apply bind_ok in H as (gw & d1 & [-> Hg]%get_system_wallet & H).
  apply bind_ok in H as (corr & d1 & Hu & H). injection Hu as <- <-. rewrite dneg_sar in H by (unfold small; lia).
  apply bind_ok in H as (b' & d2 & Hpost & H). apply bind_ok in H as ([] & d3 & Hrel & H). injection H as -> ->.
  exists gw.1. split; [done|].
  assert (transferred (withdrawal_key wid) [(cw, - z); (gw.1, z)] b d d2) as Ht
    by (assert (Hp := Hpost); transfer_by (withdrawal_key wid) Hp).
  assert (∀ i, held d2 i = held d i) as Hh by (eapply (post_group_held _ _ _ _ _ (ledger_next _ _ Hd)); [|exact Hpost]; two_place_lit).
  assert (ledger_ok d2) as Hd2 by (eapply (post_group_ledger _ _ _ _ _ (ledger_next _ _ Hd)); [|exact Hpost]; two_place_lit).
  destruct b; cbn in Hrel.
  - split.
    + eapply transferred_neutral; [exact Ht|..]; apply (release_hold_neutral cw z d2 () d'); done.
    + intros i. rewrite (release_hold_held cw z d2 () d') by done. rewrite Hh, andb_true_r. done.
  - injection Hrel as ->. split; [done|]. intros i. by rewrite andb_false_r, Hh.
Qed.
End Effects.
