(* ===== verification/Users.v ===== *)
(** * Accounts ([app/repositories/user_repository.py], [courier_repository.py],
      [device_token_repository.py], [app/services/notification_service.py])

    Users, courier profiles (keyed by the user's id), push tokens, and the best-effort
    notifications.  Opening a wallet ([AuthRepository], [app/seed.py]) is here too, with
    what it means for the ledger. *)

From Stdlib Require Import ZArith Lia Ascii.
From stdpp Require Import base list gmap strings numbers option sorting.
From S2P Require Import Prelude Errors PyDecimal Money Enums Tables Database Constraints Redis Ledger.
Open Scope Z_scope.

Definition role_value (r : user_role) : string :=
  match r with UserRole.CUSTOMER => "CUSTOMER" | UserRole.COURIER => "COURIER" | UserRole.ADMIN => "ADMIN" end.

Definition parse_role (s : string) : option user_role :=
  if bool_decide (s = "CUSTOMER"%string) then Some UserRole.CUSTOMER
  else if bool_decide (s = "COURIER"%string) then Some UserRole.COURIER
  else if bool_decide (s = "ADMIN"%string) then Some UserRole.ADMIN else None.

(** ** [UserRepository] *)

Definition get_user (user_id : uuid) : M (option User) := get_row user_id.

Definition get_by_phone (phone : string) : M (option (uuid * User)) := scalar (λ _ u, same (usr_phone u) phone).

Definition get_by_email (email : string) : M (option (uuid * User)) :=
  scalar (λ _ u, same (usr_email u) (Some email)).

(** A row with the server defaults: rating 5.0, count 0. *)
Definition new_user (phone : string) (email full_name : option string) (dob : option day) (role : user_role)
    (status : user_status) (now : instant) : User :=
  mk_User phone email full_name dob role status 50 0 None now.

Definition create_admin_user (phone : string) (full_name email : option string) (role : user_role) : M uuid :=
  now ← get_now;
  insert_row (new_user phone email full_name None role UserStatus.ACTIVE now).

(** [INSERT ... ON CONFLICT DO NOTHING], then the row with that id. [uuid5] of the name and the
    truncated hash are given. *)
Definition ensure_dashboard_admin (admin_id : uuid) (internal_phone : string) : M (option User) :=
  now ← get_now;
  let row := new_user internal_phone None (Some "Dashboard administrator"%string) None UserRole.ADMIN UserStatus.ACTIVE now in
  savepoint_catch (insert_row_at admin_id row) (mret ());;
  get_user admin_id.

Definition update_user_profile_row (user_id : uuid) (user : User) (phone full_name email : option string) : M () :=
  let user := match phone with Some p => user <| usr_phone := p |> | None => user end in
  update_row user_id (user <| usr_full_name := full_name |> <| usr_email := email |>).

Definition soft_delete (user_id : uuid) (user : User) : M () :=
  now ← get_now;
  update_row user_id (user <| usr_status := UserStatus.BANNED |> <| usr_deleted_at := Some now |>).

Definition set_user_status (user_id : uuid) (user : User) (status : user_status) : M () :=
  update_row user_id (user <| usr_status := status |>).

(** ** [CourierRepository] *)

Definition get_courier (user_id : uuid) : M (option CourierProfile) := get_row user_id.

Definition list_pending_couriers (limit : nat) : M (list (uuid * CourierProfile)) :=
  l ← select_rows (λ _ p, negb (cp_is_verified p));
  mret (take limit (sort_on (λ p, - cp_created_at p.2) l)).

Definition set_verified (user_id : uuid) (profile : CourierProfile) (is_verified : bool) (admin_id : uuid)
    (when_ : instant) : M CourierProfile :=
  let profile' := profile <| cp_is_verified := is_verified |>
    <| cp_verified_at := (if is_verified then Some when_ else None) |> <| cp_verified_by_admin_id := Some admin_id |> in
  update_row user_id profile';;
  mret profile'.

Definition update_courier_row (user_id : uuid) (profile : CourierProfile) (city : string) (bio : option string) : M () :=
  update_row user_id (profile <| cp_city_of_residence := city |> <| cp_bio := bio |>).

Definition create_courier_row (user_id : uuid) (city : string) (bio national passport : option string)
    (fingerprint : string) : M CourierProfile :=
  now ← get_now;
  let profile := mk_CourierProfile passport national (Some fingerprint) city bio false None None now in
  insert_row_at user_id profile;;
  mret profile.

Definition fingerprint_exists (fingerprint : string) : M bool :=
  p ← scalar (λ _ p, same (cp_identity_fingerprint p) (Some fingerprint));
  mret (not_null p).

Definition delete_courier (user_id : uuid) : M () := delete_row (row := CourierProfile) user_id.

(** ** [DeviceTokenRepository] *)

Definition register_device (user_id : uuid) (token : string) (os : device_os) : M DeviceToken :=
  now ← get_now;
  existing ← scalar (λ _ t, same (dt_token t) token);
  match existing with
  | Some (id, t) =>
      let t' := t <| dt_user_id := user_id |> <| dt_device_os := os |> <| dt_last_seen_at := now |> in
      update_row id t';; mret t'
  | None =>
      let t' := mk_DeviceToken user_id os token now now in
      insert_row t';; mret t'
  end.

Definition remove_device (user_id : uuid) (token : string) : M () :=
  delete_where (λ t, same (dt_token t) token && same (dt_user_id t) user_id);; mret ().

Definition tokens_for_user (user_id : uuid) : M (list string) :=
  l ← select_rows (λ _ t, same (dt_user_id t) user_id);
  mret ((λ p, dt_token p.2) <$> l).

(** The join of devices, users and courier profiles. *)
Definition city_courier (d : db) (city : string) (t : DeviceToken) : bool :=
  match tb_users d !! dt_user_id t, tb_courier_profiles d !! dt_user_id t with
  | Some u, Some p =>
      same (usr_role u) UserRole.COURIER && same (usr_status u) UserStatus.ACTIVE &&
      cp_is_verified p && same (cp_city_of_residence p) city
  | _, _ => false
  end.

Definition tokens_for_city_couriers (city : string) : M (list string) := λ d,
  (l ← select_rows (λ _ t, city_courier d city t); mret ((λ p, dt_token p.2) <$> l)) d.

(** ** [NotificationService] *)

(** The push client; [Raise] is swallowed per batch. *)
Class PushClient := { send_push : list string → string → string → res () }.

Definition PUSH_BATCH_SIZE : nat := 500.

Section Push.
Context `{PushClient}.

(** [range(0, len(tokens), 500)]; [fuel] is a bound on the number of batches. *)
Fixpoint send_batches (fuel : nat) (tokens : list string) (title body : string) : T () :=
  match fuel, tokens with
  | _, [] => mret ()
  | O, _ => mret ()
  | S fuel, _ =>
      let batch := take PUSH_BATCH_SIZE tokens in
      catch (pure (send_push batch title body);; emit (Push batch title body)) (λ _, mret ());;
      send_batches fuel (drop PUSH_BATCH_SIZE tokens) title body
  end.

Definition send_all (tokens : list string) (title body : string) : T () :=
  send_batches (length tokens) tokens title body.

Definition notify_user (user_id : uuid) (title body : string) : T Z :=
  tokens ← on_db (tokens_for_user user_id);
  send_all tokens title body;;
  mret (Z.of_nat (length tokens)).

Definition notify_city_couriers (city title body : string) : T Z :=
  tokens ← on_db (tokens_for_city_couriers city);
  send_all tokens title body;;
  mret (Z.of_nat (length tokens)).
End Push.

(** ** Opening a wallet *)

(** [Wallet(user_id=..., type=...)] with its server defaults. *)
Definition open_wallet (user_id : option uuid) (ty : wallet_type) : M uuid :=
  now ← get_now;
  insert_row (mk_Wallet user_id ty 0 0 "SAR" 0 now).

(** [seed_system_wallets]: the ones that are missing. *)
Definition SYSTEM_WALLETS : list wallet_type :=
  [WalletType.SYSTEM_ESCROW; WalletType.SYSTEM_REVENUE; WalletType.SYSTEM_GATEWAY; WalletType.SYSTEM_TAX_PAYABLE].

Fixpoint seed_wallets (l : list wallet_type) : M Z :=
  match l with
  | [] => mret 0
  | ty :: l =>
      existing ← scalar (λ _ w, same (w_type w) ty);
      n ← match existing with
          | Some _ => mret 0
          | None => open_wallet None ty;; mret 1
          end;
      m ← seed_wallets l;
      mret (n + m)
  end.

Definition seed_system_wallets : M Z := seed_wallets SYSTEM_WALLETS.

(** ** Framing *)

Section UsersFrame.
Context (P : db → Prop) `{!FrameNext P}.

Lemma keeps_by_phone p : keeps P (get_by_phone p).
Proof. apply keeps_scalar. Qed.

Lemma keeps_by_email e : keeps P (get_by_email e).
Proof. apply keeps_scalar. Qed.

Lemma keeps_fingerprint f : keeps P (fingerprint_exists f).
Proof. unfold fingerprint_exists. keeps_auto. Qed.

Lemma frame_create_admin_user `{!Frame P User} p n e r : keeps P (create_admin_user p n e r).
Proof. unfold create_admin_user. keeps_auto. Qed.

Lemma frame_ensure_admin `{!Frame P User} i p : keeps P (ensure_dashboard_admin i p).
Proof. unfold ensure_dashboard_admin, get_user. keeps_auto. Qed.

Lemma frame_update_user_row `{!Frame P User} i u p n e : keeps P (update_user_profile_row i u p n e).
Proof. unfold update_user_profile_row. keeps_auto. Qed.

Lemma frame_soft_delete `{!Frame P User} i u : keeps P (soft_delete i u).
Proof. unfold soft_delete. keeps_auto. Qed.

Lemma frame_set_user_status `{!Frame P User} i u st : keeps P (set_user_status i u st).
Proof. unfold set_user_status. keeps_auto. Qed.

Lemma frame_set_verified `{!Frame P CourierProfile} i p b a t : keeps P (set_verified i p b a t).
Proof. unfold set_verified. keeps_auto. Qed.

Lemma frame_update_courier_row `{!Frame P CourierProfile} i p c b : keeps P (update_courier_row i p c b).
Proof. unfold update_courier_row. keeps_auto. Qed.

Lemma frame_create_courier_row `{!Frame P CourierProfile} i c b n p f : keeps P (create_courier_row i c b n p f).
Proof. unfold create_courier_row. keeps_auto. Qed.

Lemma frame_delete_courier `{!Frame P CourierProfile} i : keeps P (delete_courier i).
Proof. unfold delete_courier. keeps_auto. Qed.

Lemma frame_register_device `{!Frame P DeviceToken} u t o : keeps P (register_device u t o).
Proof. unfold register_device. keeps_auto. Qed.

Lemma frame_remove_device `{!Frame P DeviceToken} u t : keeps P (remove_device u t).
Proof. unfold remove_device. apply keeps_bind; [apply keeps_delete_where; apply _|]. auto with giftly. Qed.
End UsersFrame.

#[export] Hint Resolve keeps_by_phone keeps_by_email keeps_fingerprint
  frame_create_admin_user frame_ensure_admin frame_update_user_row frame_soft_delete frame_set_user_status
  frame_set_verified frame_update_courier_row frame_create_courier_row frame_delete_courier frame_register_device
  frame_remove_device : giftly.
#[export] Hint Extern 1 (keeps _ (get_user _)) => apply keeps_get : giftly.
#[export] Hint Extern 1 (keeps _ (get_courier _)) => apply keeps_get : giftly.

(** Notifications only read. *)
Section PushFrame.
Context (P : db → Prop) `{PushClient}.

Lemma preserves_send_batches fuel : ∀ tokens t b, preserves P (send_batches fuel tokens t b).
Proof. induction fuel as [|n IH]; intros [|x l] t b; cbn [send_batches]; preserves_auto. Qed.

Hint Resolve preserves_send_batches : giftly.

Lemma preserves_notify_user u t b : preserves P (notify_user u t b).
Proof. unfold notify_user, send_all, tokens_for_user. preserves_auto. Qed.

Lemma preserves_notify_city c t b : preserves P (notify_city_couriers c t b).
Proof.
  unfold notify_city_couriers, send_all. preserves_auto. intros d a d' Hd Hr. unfold tokens_for_city_couriers in Hr.
  by apply (keeps_bind P) in Hr; auto with giftly.
Qed.
End PushFrame.

#[export] Hint Resolve preserves_send_batches preserves_notify_user preserves_notify_city : giftly.

(** ** A new wallet is an empty account *)

Lemma settled_sum_absent (d : db) (wid : uuid) :
  ledger_ok d → tb_wallets d !! wid = None → settled_sum (tb_transactions d) wid = 0.
Proof.
  intros Hd Hw. unfold settled_sum. apply map_total_zero. intros tid t Ht.
  destruct (lk_wallet _ Hd _ _ Ht) as [w Hw']. destruct (same (txn_wallet_id t) wid) eqn:E.
  - apply (proj1 (same_true _ _)) in E. congruence.
  - by rewrite ?andb_false_r.
Qed.

Lemma open_wallet_ok (u : option uuid) (ty : wallet_type) (d : db) (wid : uuid) (d' : db) :
  open_wallet u ty d = Ok (wid, d') →
  tb_wallets d !! wid = None ∧ chk_user_wallet_pairing (mk_Wallet u ty 0 0 "SAR" 0 (db_now d)) = true ∧
  (∀ i w, tb_wallets d !! i = Some w → conflicts_wallets (mk_Wallet u ty 0 0 "SAR" 0 (db_now d)) w = false) ∧
  d' = d <| db_next := (db_next d + 1)%N |>
         <| tb_wallets := <[wid := mk_Wallet u ty 0 0 "SAR" 0 (db_now d)]> (tb_wallets d) |>.
Proof.
  intros Hr. unfold open_wallet in Hr. erewrite bind_run in Hr by reflexivity. unfold insert_row in Hr.
  apply bind_ok in Hr as (id & d1 & Hid & Hr). injection Hid as <- <-.
  apply bind_ok in Hr as ([] & d2 & (Hn & _ & Hc & Hu & ->)%insert_row_at_ok & Hr). injection Hr as <- <-.
  cbn in Hn, Hc. split; [done|]. rewrite andb_true_iff in Hc. split; [apply Hc|]. split; [|done].
  rewrite unique_ok_true in Hu. intros i w Hi. apply (Hu i w Hi). intros ->. cbn in Hi. congruence.
Qed.

Lemma keeps_open_wallet (u : option uuid) (ty : wallet_type) : keeps ledger_ok (open_wallet u ty).
Proof.
  intros d wid d' Hd (Hw & Hp & Hu & ->)%open_wallet_ok. pose proof (settled_sum_absent d wid Hd Hw) as Hz.
  destruct Hd as [L1 L2 L3 L4 L5 L6 L7]. constructor; cbn; [|done| |done|..].
  - intros i w [[<- <-]|[_ Hi]]%lookup_insert_Some; [by rewrite Hz|by apply L1].
  - intros tid t Ht. destruct (L3 _ _ Ht) as [w Hi]. destruct (decide (txn_wallet_id t = wid)) as [->|Hne].
    + rewrite lookup_insert_eq. eauto.
    + rewrite lookup_insert_ne by done. eauto.
  - intros i w [[<- <-]|[_ Hi]]%lookup_insert_Some; [|by apply (L5 i)]. split; [cbn; lia|]. split; [cbn; lia|].
    unfold chk_balance_non_negative. cbn. by destruct ty.
  - intros i w [[<- <-]|[_ Hi]]%lookup_insert_Some; [done|by apply (L6 i)].
  - intros i j a b [[<- <-]|[Hi Ha]]%lookup_insert_Some [[<- <-]|[Hj Hb]]%lookup_insert_Some Hij; [done|..].
    + by apply (Hu j).
    + rewrite conflicts_wallets_sym. by apply (Hu i).
    + by apply (L7 i j).
Qed.

#[export] Hint Resolve keeps_open_wallet : giftly.

(** Properties of other tables. *)
Lemma frame_open_wallet (P : db → Prop) `{!FrameNext P} `{!Frame P Wallet} u ty : keeps P (open_wallet u ty).
Proof. unfold open_wallet. keeps_auto. Qed.

#[export] Hint Resolve frame_open_wallet : giftly.

Lemma keeps_seed_wallets (P : db → Prop) (l : list wallet_type) :
  (∀ u ty, keeps P (open_wallet u ty)) → keeps P (seed_wallets l).
Proof. intros HP. induction l as [|ty l IH]; cbn [seed_wallets]; keeps_auto. Qed.
