(* ===== verification/Promos.v ===== *)
(** * The promo engine ([app/services/promo_service.py], [app/repositories/promo_repository.py])

    Validation of a code against a base, and the reserve / consume / release
    cycle with the atomic conditional UPDATE of the usage counter.  [promo_ok] is
    the meaning of the denormalised counter: it counts the redemptions that are
    RESERVED or CONSUMED, stays under the global cap, and no user holds more
    than the per-user cap. *)

From Stdlib Require Import ZArith Lia Ascii.
From stdpp Require Import base list gmap strings numbers option.
From S2P Require Import Prelude Errors PyDecimal Money Pricing Enums Tables Database Ledger.
Open Scope Z_scope.

Import PromoRedemptionStatus.

(** ** [PromoRepository] *)

(** [code.strip().upper()]. *)
Definition normalize_code (code : string) : string :=
  upper (String.string_of_list_ascii (strip_spaces (String.list_ascii_of_string code))).

Definition get_promo (promo_id : uuid) : M (option Promo) := get_row promo_id.

Definition get_by_code (code : string) : M (option (uuid * Promo)) :=
  scalar (λ _ p, same (pm_code p) (normalize_code code)).

Definition create_promo (code description : string) (discount_type : promo_discount_type)
    (percent_value fixed_amount max_discount_amount : option dec) (min_order_amount : dec)
    (max_total_usages : option Z) (max_usages_per_user : Z) (created_by_admin_id : uuid) : M uuid :=
  percent ← match percent_value with
            | Some v => z ← lift (numeric 5 2 v); mret (Some z)
            | None => mret None
            end;
  fixed ← match fixed_amount with
          | Some v => z ← lift (numeric_12_2 v); mret (Some z)
          | None => mret None
          end;
  cap ← match max_discount_amount with
        | Some v => z ← lift (numeric_12_2 v); mret (Some z)
        | None => mret None
        end;
  min_order ← lift (numeric_12_2 min_order_amount);
  now ← get_now;
  insert_row (mk_Promo (normalize_code code) description discount_type percent fixed cap min_order
    max_total_usages max_usages_per_user 0 true None None (Some created_by_admin_id) now).

Definition set_active (promo_id : uuid) (p : Promo) (is_active : bool) : M () :=
  update_row promo_id (p <| pm_is_active := is_active |>).

(** The WHERE clause of the conditional UPDATE. *)
Definition reservable (now : instant) (p : Promo) : bool :=
  pm_is_active p &&
  match pm_starts_at p with None => true | Some s => s <=? now end &&
  match pm_ends_at p with None => true | Some e => now <? e end &&
  match pm_max_total_usages p with None => true | Some n => pm_used_count p <? n end.

Definition atomic_reserve (promo_id : uuid) : M (option Z) :=
  now ← get_now;
  o ← get_row promo_id;
  match o with
  | Some p =>
      if reservable now p then
        update_row promo_id (p <| pm_used_count := pm_used_count p + 1 |>);;
        mret (Some (pm_used_count p + 1))
      else mret None
  | None => mret None
  end.

Definition atomic_release (promo_id : uuid) : M () :=
  o ← get_row promo_id;
  match o with
  | Some p =>
      when (0 <? pm_used_count p) (update_row promo_id (p <| pm_used_count := pm_used_count p - 1 |>))
  | None => mret ()
  end.

(** A redemption that occupies a slot: any status but RELEASED. *)
Definition occupies (r : PromoRedemption) : bool := negb (same (rd_status r) RELEASED).

(** [SELECT count() WHERE promo_id AND status <> 'RELEASED'], for one user and for all. *)
Definition user_uses (rs : gmap uuid PromoRedemption) (promo_id user_id : uuid) : Z :=
  map_total (λ r, if same (rd_promo_id r) promo_id && same (rd_user_id r) user_id && occupies r
                  then 1 else 0) rs.

Definition slots_used (rs : gmap uuid PromoRedemption) (promo_id : uuid) : Z :=
  map_total (λ r, if same (rd_promo_id r) promo_id && occupies r then 1 else 0) rs.

Definition count_user_redemptions (promo_id user_id : uuid) : M Z := λ d,
  Ok (user_uses (tb_promo_redemptions d) promo_id user_id, d).

Definition insert_redemption (promo_id user_id invoice_id order_id : uuid) (discount_amount : dec) : M uuid :=
  amount ← lift (numeric_12_2 discount_amount);
  now ← get_now;
  insert_row (mk_PromoRedemption promo_id user_id invoice_id order_id amount RESERVED None None now).

Definition get_redemption_by_invoice (invoice_id : uuid) : M (option (uuid * PromoRedemption)) :=
  scalar (λ _ r, same (rd_invoice_id r) invoice_id).

Definition set_redemption_status (id : uuid) (r : PromoRedemption) (status : promo_redemption_status)
    (when_ : instant) : M () :=
  update_row id
    match status with
    | CONSUMED => r <| rd_status := status |> <| rd_consumed_at := Some when_ |>
    | RELEASED => r <| rd_status := status |> <| rd_released_at := Some when_ |>
    | RESERVED => r <| rd_status := status |>
    end.

(** ** [PromoService] *)

Definition to_pricing_promo (p : Promo) : PricingPromo :=
  mk_PricingPromo
    (if same (pm_discount_type p) PromoDiscountType.PERCENT then PERCENT else FIXED)
    (of_hundredths <$> pm_percent_value p) (sar <$> pm_fixed_amount p)
    (sar <$> pm_max_discount_amount p) (sar (pm_min_order_amount p)).

Record PromoValidation := mk_PromoValidation {
  pv_promo_id : uuid;
  pv_promo : Promo;
  pv_discount_amount : dec;
}.

Definition validate (code : string) (discountable_base : dec) (user_id : uuid) : M PromoValidation :=
  promo ← get_by_code code;
  now ← get_now;
  pp ← unwrap promo PromoNotFoundError;
  let p := pp.2 in
  guard_ (negb (pm_is_active p)) PromoInactiveError;;
  guard_ match pm_starts_at p with Some s => now <? s | None => false end PromoNotStartedError;;
  guard_ match pm_ends_at p with Some e => e <=? now | None => false end PromoExpiredError;;
  guard_ (dltb discountable_base (sar (pm_min_order_amount p))) PromoMinOrderNotMetError;;
  guard_ match pm_max_total_usages p with Some n => n <=? pm_used_count p | None => false end
    PromoUsageExceededError;;
  user_uses ← count_user_redemptions pp.1 user_id;
  guard_ (pm_max_usages_per_user p <=? user_uses) PromoUserLimitReachedError;;
  discount ← lift (compute_promo_discount discountable_base (to_pricing_promo p));
  mret (mk_PromoValidation pp.1 p discount).

Definition reserve (promo_id : uuid) (p : Promo) (user_id invoice_id order_id : uuid)
    (discount_amount : dec) : M () :=
  new_count ← atomic_reserve promo_id;
  guard_ match new_count with None => true | Some _ => false end PromoUsageExceededError;;
  user_uses ← count_user_redemptions promo_id user_id;
  guard_ (pm_max_usages_per_user p <=? user_uses) PromoUserLimitReachedError;;
  insert_redemption promo_id user_id invoice_id order_id discount_amount;;
  mret ().

Definition consume (invoice_id : uuid) : M () :=
  redemption ← get_redemption_by_invoice invoice_id;
  match redemption with
  | Some (id, r) =>
      if same (rd_status r) RESERVED then
        now ← get_now; set_redemption_status id r CONSUMED now
      else mret ()
  | None => mret ()
  end.

Definition release (invoice_id : uuid) : M () :=
  redemption ← get_redemption_by_invoice invoice_id;
  match redemption with
  | Some (id, r) =>
      if same (rd_status r) RESERVED then
        now ← get_now;
        set_redemption_status id r RELEASED now;;
        atomic_release (rd_promo_id r)
      else mret ()
  | None => mret ()
  end.

(** ** The counter invariant *)

Record promo_ok (d : db) : Prop := {
  pk_count : ∀ pid p, tb_promos d !! pid = Some p → pm_used_count p = slots_used (tb_promo_redemptions d) pid;
  pk_cap : ∀ pid p, tb_promos d !! pid = Some p → chk_promo_usage_bounds p = true;
  pk_user : ∀ pid p uid, tb_promos d !! pid = Some p →
    user_uses (tb_promo_redemptions d) pid uid ≤ pm_max_usages_per_user p;
  pk_known : ∀ rid r, tb_promo_redemptions d !! rid = Some r → is_Some (tb_promos d !! rd_promo_id r);
}.

(** ** How the counts move *)

Lemma slots_used_new (rs : gmap uuid PromoRedemption) (rid pid : uuid) (r : PromoRedemption) :
  rs !! rid = None → rd_status r = RESERVED →
  slots_used (<[rid := r]> rs) pid = slots_used rs pid + (if same (rd_promo_id r) pid then 1 else 0).
Proof.
  intros Hn Hs. unfold slots_used. rewrite map_total_insert_new by done. unfold occupies. rewrite Hs.
  cbn. rewrite andb_true_r. lia.
Qed.

Lemma user_uses_new (rs : gmap uuid PromoRedemption) (rid pid uid : uuid) (r : PromoRedemption) :
  rs !! rid = None → rd_status r = RESERVED →
  user_uses (<[rid := r]> rs) pid uid =
  user_uses rs pid uid + (if same (rd_promo_id r) pid && same (rd_user_id r) uid then 1 else 0).
Proof.
  intros Hn Hs. unfold user_uses. rewrite map_total_insert_new by done. unfold occupies. rewrite Hs.
  cbn. rewrite andb_true_r. lia.
Qed.

(** Changing the status of a redemption: one slot less when it is released. *)
Lemma slots_used_status (rs : gmap uuid PromoRedemption) (rid pid : uuid) (r r' : PromoRedemption) :
  rs !! rid = Some r → rd_promo_id r' = rd_promo_id r →
  slots_used (<[rid := r']> rs) pid =
  slots_used rs pid + (if same (rd_promo_id r) pid
                       then (if occupies r' then 1 else 0) - (if occupies r then 1 else 0) else 0).
Proof.
  intros Hr Hp. unfold slots_used. rewrite (map_total_insert _ _ _ r) by done. rewrite Hp.
  destruct (same (rd_promo_id r) pid), (occupies r), (occupies r'); cbn; lia.
Qed.

Lemma user_uses_status (rs : gmap uuid PromoRedemption) (rid pid uid : uuid) (r r' : PromoRedemption) :
  rs !! rid = Some r → rd_promo_id r' = rd_promo_id r → rd_user_id r' = rd_user_id r →
  (occupies r' = true → occupies r = true) →
  user_uses (<[rid := r']> rs) pid uid ≤ user_uses rs pid uid.
Proof.
  intros Hr Hp Hu Ho. unfold user_uses. rewrite (map_total_insert _ _ _ r) by done. rewrite Hp, Hu.
  destruct (same (rd_promo_id r) pid), (same (rd_user_id r) uid), (occupies r), (occupies r'); cbn; try lia;
    by specialize (Ho eq_refl).
Qed.

Lemma promo_frame (d d' : db) :
  tb_promos d' = tb_promos d → tb_promo_redemptions d' = tb_promo_redemptions d → promo_ok d → promo_ok d'.
Proof. intros E1 E2 [P1 P2 P3 P4]. constructor; rewrite ?E1, ?E2; done. Qed.

(** The state after a successful reservation. *)
Lemma reserve_ok (pid : uuid) (p : Promo) (uid iid oid : uuid) (amount : dec) (d : db) (u : ()) (d' : db) :
  tb_promos d !! pid = Some p → reserve pid p uid iid oid amount d = Ok (u, d') →
  reservable (db_now d) p = true ∧
  user_uses (tb_promo_redemptions d) pid uid < pm_max_usages_per_user p ∧
  ∃ rid z n, numeric_12_2 amount = Ok z ∧ tb_promo_redemptions d !! rid = None ∧
    chk_promo_usage_bounds (p <| pm_used_count := pm_used_count p + 1 |>) = true ∧
    d' = d <| tb_promos := <[pid := p <| pm_used_count := pm_used_count p + 1 |>]> (tb_promos d) |>
           <| db_next := n |>
           <| tb_promo_redemptions := <[rid := mk_PromoRedemption pid uid iid oid z RESERVED None None (db_now d)]>
                (tb_promo_redemptions d) |>.
Proof.
  intros Hp H. unfold reserve in H. apply bind_ok in H as (nc & d1 & Ha & H).
  unfold atomic_reserve in Ha. erewrite bind_run in Ha by reflexivity. erewrite bind_run in Ha by reflexivity.
  cbn [rows table_promos] in Ha. rewrite Hp in Ha.
  destruct (reservable (db_now d) p) eqn:Er.
  2:{ injection Ha as <- <-. apply bind_ok in H as (? & ? & [? _]%guard_ok & _). done. }
  inv_run Ha. apply update_row_ok in E as (_ & Hck & _ & ->). apply bind_ok in H as (? & ? & [_ ->]%guard_ok & H).
  erewrite bind_run in H by reflexivity. apply bind_ok in H as (? & ? & [Hlim ->]%guard_ok & H).
  apply bind_ok in H as (rid & d2 & Hi & H). injection H as <- <-.
  unfold insert_redemption in Hi. apply bind_ok in Hi as (z & dz & [Ez ->]%lift_ok & Hi).
  erewrite bind_run in Hi by reflexivity. unfold insert_row in Hi. erewrite bind_run in Hi by reflexivity.
  apply bind_ok in Hi as (? & d3 & Hi & Hr). injection Hr as <- <-.
  apply insert_row_at_ok in Hi as (Hn & _ & _ & _ & ->). split; [done|]. cbn in Hlim. split; [lia|].
  eexists _, z, _. split; [done|]. split; [exact Hn|]. split; [|reflexivity].
  unfold check_ok, table_promos in Hck. apply andb_true_iff in Hck as [Hck _].
  by apply andb_true_iff in Hck as [_ Hck].
Qed.

Lemma reserve_keeps (pid : uuid) (p : Promo) (uid iid oid : uuid) (amount : dec) (d : db) (u : ()) (d' : db) :
  tb_promos d !! pid = Some p → promo_ok d → reserve pid p uid iid oid amount d = Ok (u, d') → promo_ok d'.
Proof.
  intros Hp [P1 P2 P3 P4] H. apply reserve_ok in H as (_ & Hlim & rid & z & n & _ & Hn & Hck & ->); [|done].
  constructor; cbn.
  - intros pid' p' [[<- <-]|[Hne Hp']]%lookup_insert_Some; rewrite slots_used_new by done; cbn.
    + rewrite (proj2 (same_true _ _)) by done. by rewrite (P1 _ _ Hp).
    + unfold same. rewrite bool_decide_eq_false_2 by done. rewrite (P1 _ _ Hp'). lia.
  - intros pid' p' [[<- <-]|[Hne Hp']]%lookup_insert_Some; [done|by eapply P2].
  - intros pid' p' uid' [[<- <-]|[Hne Hp']]%lookup_insert_Some; rewrite user_uses_new by done; cbn.
    + pose proof (P3 _ _ uid' Hp). destruct (same uid uid') eqn:E.
      * apply (proj1 (same_true _ _)) in E as ->. rewrite andb_true_r. destruct (same pid pid); lia.
      * rewrite andb_false_r. lia.
    + unfold same at 1. rewrite bool_decide_eq_false_2 by done. pose proof (P3 _ _ uid' Hp'). cbn. lia.
  - intros rid' r' [[<- <-]|[Hne Hr']]%lookup_insert_Some; cbn.
    + rewrite lookup_insert_eq. eauto.
    + rewrite lookup_insert_is_Some'. right. by eapply P4.
Qed.

(** Rewriting the status of a redemption whose slot count does not change. *)
Lemma redemption_update_keeps (d : db) (rid : uuid) (r r' : PromoRedemption) :
  tb_promo_redemptions d !! rid = Some r → rd_promo_id r' = rd_promo_id r → rd_user_id r' = rd_user_id r →
  occupies r' = occupies r → promo_ok d →
  promo_ok (d <| tb_promo_redemptions := <[rid := r']> (tb_promo_redemptions d) |>).
Proof.
  intros Hr Ep Eu Eo [P1 P2 P3 P4]. constructor; cbn; try done.
  - intros pid p Hp. rewrite (slots_used_status _ _ _ r) by done. rewrite Eo, (P1 _ _ Hp).
    destruct (same _ _), (occupies r); lia.
  - intros pid p uid Hp. pose proof (P3 _ _ uid Hp).
    pose proof (user_uses_status (tb_promo_redemptions d) rid pid uid r r' Hr Ep Eu) as Hle.
    rewrite Eo in Hle. specialize (Hle ltac:(done)). lia.
  - intros rid' x [[<- <-]|[_ Hx]]%lookup_insert_Some; [rewrite Ep|]; by eapply P4.
Qed.

Lemma consume_ok (iid : uuid) (d : db) (u : ()) (d' : db) :
  consume iid d = Ok (u, d') →
  d' = d ∨ ∃ rid r, tb_promo_redemptions d !! rid = Some r ∧ rd_invoice_id r = iid ∧ rd_status r = RESERVED ∧
    d' = d <| tb_promo_redemptions := <[rid := r <| rd_status := CONSUMED |> <| rd_consumed_at := Some (db_now d) |>]>
                (tb_promo_redemptions d) |>.
Proof.
  unfold consume. intros (o & d1 & Es & H)%bind_ok. assert (E' := Es). apply scalar_ok in E' as [-> _].
  destruct o as [[rid r]|]; [|injection H as _ <-; by left].
  apply scalar_some in Es as [Hr Hi]. apply (proj1 (same_true _ _)) in Hi.
  destruct (same (rd_status r) RESERVED) eqn:E; [|injection H as _ <-; by left].
  apply (proj1 (same_true _ _)) in E. erewrite bind_run in H by reflexivity.
  apply update_row_ok in H as (_ & _ & _ & ->). right. by exists rid, r.
Qed.

Lemma keeps_consume (iid : uuid) : keeps promo_ok (consume iid).
Proof.
  intros d u d' Hd H. apply consume_ok in H as [->|(rid & r & Hr & _ & Hs & ->)]; [done|].
  apply (redemption_update_keeps d rid r); [done..| |done]. unfold occupies. by rewrite Hs.
Qed.

(** A release of a RESERVED redemption frees exactly its slot. *)
(** The counter includes every slot that is reserved. *)
Lemma reserved_counted (d : db) (rid : uuid) (r : PromoRedemption) (p : Promo) :
  promo_ok d → tb_promo_redemptions d !! rid = Some r → rd_status r = RESERVED → tb_promos d !! rd_promo_id r = Some p →
  0 < pm_used_count p.
Proof.
  intros Hd Hr E Hp. rewrite (pk_count _ Hd _ _ Hp). unfold slots_used.
  set (f := λ r0 : PromoRedemption, if same (rd_promo_id r0) (rd_promo_id r) && occupies r0 then 1 else 0).
  rewrite (map_total_delete f _ rid r) by done.
  assert (f r = 1) by (unfold f, occupies; by rewrite E, (proj2 (same_true _ _))).
  assert (∀ x, 0 ≤ f x) as Hf by (intros x; unfold f; destruct (_ && _); lia).
  pose proof (map_total_nonneg f (delete rid (tb_promo_redemptions d)) Hf). lia.
Qed.

Lemma release_ok (iid : uuid) (d : db) (u : ()) (d' : db) :
  promo_ok d → release iid d = Ok (u, d') →
  d' = d ∨ ∃ rid r p, tb_promo_redemptions d !! rid = Some r ∧ rd_invoice_id r = iid ∧ rd_status r = RESERVED ∧
    tb_promos d !! rd_promo_id r = Some p ∧ 0 < pm_used_count p ∧
    chk_promo_usage_bounds (p <| pm_used_count := pm_used_count p - 1 |>) = true ∧
    d' = d <| tb_promo_redemptions := <[rid := r <| rd_status := RELEASED |> <| rd_released_at := Some (db_now d) |>]>
                (tb_promo_redemptions d) |>
           <| tb_promos := <[rd_promo_id r := p <| pm_used_count := pm_used_count p - 1 |>]> (tb_promos d) |>.
Proof.
  intros Hd. unfold release. intros (o & d1 & Es & H)%bind_ok. assert (E' := Es). apply scalar_ok in E' as [-> _].
  destruct o as [[rid r]|]; [|injection H as _ <-; by left].
  apply scalar_some in Es as [Hr Hi]. apply (proj1 (same_true _ _)) in Hi.
  destruct (same (rd_status r) RESERVED) eqn:E; [|injection H as _ <-; by left].
  apply (proj1 (same_true _ _)) in E. erewrite bind_run in H by reflexivity.
  apply bind_ok in H as (u1 & d1 & H1 & H). apply update_row_ok in H1 as (_ & _ & _ & ->).
  destruct (pk_known _ Hd rid r Hr) as [p Hp]. unfold atomic_release in H.
  erewrite bind_run in H by reflexivity. cbn in H. rewrite Hp in H.
  pose proof (reserved_counted d rid r p Hd Hr E Hp) as Hpos.
  rewrite (proj2 (Z.ltb_lt _ _)) in H by done. apply update_row_ok in H as (_ & Hck & _ & ->).
  right. exists rid, r, p. repeat (split; [done|]). split; [|done].
  unfold check_ok, table_promos in Hck. apply andb_true_iff in Hck as [Hck _].
  by apply andb_true_iff in Hck as [_ Hck].
Qed.

(** The redemption of an invoice: one of its rows, or there is none. *)
Definition redemption_of (iid : uuid) (rs : gmap uuid PromoRedemption) (x : option (uuid * PromoRedemption)) : Prop :=
  match x with
  | Some (rid, r) => rs !! rid = Some r ∧ rd_invoice_id r = iid
  | None => ∀ rid r, rs !! rid = Some r → rd_invoice_id r ≠ iid
  end.

(** The slot an invoice had reserved is free again; a redemption in another state, or none, changes nothing. *)
Definition slot_returned (iid : uuid) (d d' : db) : Prop :=
  ∃ x, redemption_of iid (tb_promo_redemptions d) x ∧
  match x with
  | Some (rid, r) =>
      if same (rd_status r) RESERVED then
        ∃ p, tb_promos d !! rd_promo_id r = Some p ∧ 0 < pm_used_count p ∧
          tb_promo_redemptions d' = <[rid := r <| rd_status := RELEASED |> <| rd_released_at := Some (db_now d) |>]>
                                      (tb_promo_redemptions d) ∧
          tb_promos d' = <[rd_promo_id r := p <| pm_used_count := pm_used_count p - 1 |>]> (tb_promos d)
      else tb_promo_redemptions d' = tb_promo_redemptions d ∧ tb_promos d' = tb_promos d
  | None => tb_promo_redemptions d' = tb_promo_redemptions d ∧ tb_promos d' = tb_promos d
  end.

Lemma release_returns (iid : uuid) (d : db) (u : ()) (d' : db) : promo_ok d → release iid d = Ok (u, d') → slot_returned iid d d'.
Proof.
  intros Hd Hrel. assert (H := Hrel). unfold release, get_redemption_by_invoice in H.
  destruct (scalar_run (λ _ r, same (rd_invoice_id r) iid) d) as (x & E & Hx). erewrite bind_run in H by exact E.
  exists x. destruct x as [[rid r]|].
  2:{ injection H as _ <-. split; [|done]. intros rid r Hr Hi. specialize (Hx _ _ Hr). by rewrite (proj2 (same_true _ _)) in Hx. }
  destruct Hx as [Hr Hi]. apply (proj1 (same_true _ _)) in Hi. split; [done|].
  destruct (same (rd_status r) RESERVED) eqn:Es; [|by injection H as _ <-].
  apply (proj1 (same_true _ _)) in Es. erewrite bind_run in H by reflexivity.
  apply bind_ok in H as (u1 & d1 & H1 & H). apply update_row_ok in H1 as (_ & _ & _ & ->).
  destruct (pk_known _ Hd rid r Hr) as [p Hp]. pose proof (reserved_counted d rid r p Hd Hr Es Hp) as Hpos.
  unfold atomic_release in H. erewrite bind_run in H by reflexivity. cbn in H. rewrite Hp in H.
  rewrite (proj2 (Z.ltb_lt _ _)) in H by done. apply update_row_ok in H as (_ & _ & _ & ->). by exists p.
Qed.

Lemma keeps_release (iid : uuid) : keeps promo_ok (release iid).
Proof.
  intros d u d' Hd H. apply release_ok in H as [->|(rid & r & p & Hr & _ & Hs & Hp & Hpos & Hck & ->)]; [done| |done].
  destruct Hd as [P1 P2 P3 P4]. constructor; cbn.
  - intros pid x [[<- <-]|[Hne Hx]]%lookup_insert_Some; rewrite (slots_used_status _ _ _ r) by done;
      unfold occupies at 1 2; rewrite Hs; cbn.
    + rewrite (proj2 (same_true _ _)) by done. rewrite <- (P1 _ _ Hp). change (same RELEASED RELEASED) with true. change (same RESERVED RELEASED) with false. cbn. lia.
    + unfold same at 1. rewrite bool_decide_eq_false_2 by done. rewrite (P1 _ _ Hx). lia.
  - intros pid x [[<- <-]|[_ Hx]]%lookup_insert_Some; [done|by eapply P2].
  - intros pid x uid Hx.
    set (r' := r <| rd_status := RELEASED |> <| rd_released_at := Some (db_now d) |>).
    pose proof (user_uses_status (tb_promo_redemptions d) rid pid uid r r' Hr eq_refl eq_refl ltac:(done)) as Hle.
    apply lookup_insert_Some in Hx as [[<- <-]|[_ Hx]].
    + etransitivity; [exact Hle|]. by apply (P3 _ _ uid Hp).
    + etransitivity; [exact Hle|]. by apply (P3 _ _ uid Hx).
  - intros rid' x [[<- <-]|[_ Hx]]%lookup_insert_Some; rewrite lookup_insert_is_Some'; right;
      [exact (P4 rid r Hr)|exact (P4 _ _ Hx)].
Qed.

#[export] Hint Extern 1 (Frame promo_ok _) => frame_by promo_frame : typeclass_instances.
#[export] Hint Extern 1 (FrameNext promo_ok) => frame_next_by promo_frame : typeclass_instances.
#[export] Hint Resolve keeps_consume keeps_release : giftly.

(** The promo service writes promos and redemptions only. *)
Section PromoFrame.
Context (P : db → Prop) `{!Frame P Promo} `{!Frame P PromoRedemption} `{!FrameNext P}.

Lemma frame_count_user pid uid : keeps P (count_user_redemptions pid uid).
Proof. by intros d n d' HP [= _ <-]. Qed.

Lemma frame_validate code base uid : keeps P (validate code base uid).
Proof. pose proof frame_count_user. unfold validate, get_by_code. keeps_auto. Qed.

Lemma frame_reserve pid p uid iid oid amount : keeps P (reserve pid p uid iid oid amount).
Proof. pose proof frame_count_user. unfold reserve, atomic_reserve, insert_redemption. keeps_auto. Qed.

Lemma frame_consume iid : keeps P (consume iid).
Proof. unfold consume, get_redemption_by_invoice, set_redemption_status. keeps_auto. Qed.

Lemma frame_release iid : keeps P (release iid).
Proof. unfold release, get_redemption_by_invoice, set_redemption_status, atomic_release. keeps_auto. Qed.
End PromoFrame.

#[export] Hint Resolve frame_validate frame_reserve frame_consume frame_release : giftly.

(** A successful validation returns the stored row. *)
Lemma validate_ok (code : string) (base : dec) (uid : uuid) (d : db) (v : PromoValidation) (d' : db) :
  validate code base uid d = Ok (v, d') →
  d' = d ∧ tb_promos d !! pv_promo_id v = Some (pv_promo v) ∧ pm_code (pv_promo v) = normalize_code code.
Proof.
  unfold validate. intros (o & d1 & Es & H)%bind_ok. assert (E' := Es). apply scalar_ok in E' as [-> _].
  inv_run H. destruct v0 as [pid p]. apply scalar_some in Es as [Hp Hc]. apply (proj1 (same_true _ _)) in Hc. by injection E4 as _ <-.
Qed.

(** ** Properties *)

Definition promo_row : Promo :=
  mk_Promo "FIRST20" "launch" PromoDiscountType.PERCENT (Some 1000) None None 0 (Some 20) 1 0 true None None None 0.

(** One promo, no redemption yet. *)
Definition db_promo : db := db0 <| tb_promos := {[ 80%N := promo_row ]} |>.

Lemma promo_ok_db_promo : promo_ok db_promo.
Proof.
  constructor.
  - intros pid p Hp. enum_lookup Hp. done.
  - intros pid p Hp. enum_lookup Hp. done.
  - intros pid p uid Hp. enum_lookup Hp. done.
  - intros rid r Hr. done.
Qed.

(** "First N" cannot be overshot: when the global cap is reached [reserve] raises
    the documented error, when the user already holds the per-user maximum it does
    not succeed (and a raised error rolls everything back), and when it succeeds it has
    claimed exactly one slot, for this user and this invoice, of a promo that was active,
    inside its window and under both caps. *)
Theorem reserve_respects_caps (d : db) (pid : uuid) (p : Promo) (uid iid oid : uuid) (amount : dec) :
  promo_ok d → tb_promos d !! pid = Some p →
  (∀ n, pm_max_total_usages p = Some n → n ≤ slots_used (tb_promo_redemptions d) pid →
     reserve pid p uid iid oid amount d = Raise PromoUsageExceededError) ∧
  (pm_max_usages_per_user p ≤ user_uses (tb_promo_redemptions d) pid uid →
     ∀ u d', reserve pid p uid iid oid amount d ≠ Ok (u, d')) ∧
  (∀ u d', reserve pid p uid iid oid amount d = Ok (u, d') →
     reservable (db_now d) p = true ∧
     slots_used (tb_promo_redemptions d') pid = slots_used (tb_promo_redemptions d) pid + 1 ∧
     user_uses (tb_promo_redemptions d') pid uid = user_uses (tb_promo_redemptions d) pid uid + 1 ∧
     user_uses (tb_promo_redemptions d') pid uid ≤ pm_max_usages_per_user p ∧
     ∃ rid r, tb_promo_redemptions d' !! rid = Some r ∧ rd_promo_id r = pid ∧ rd_user_id r = uid ∧
       rd_invoice_id r = iid ∧ rd_status r = RESERVED).
Proof.
  intros Hd Hp. split; [|split].
  - intros n Hn Hfull. unfold reserve. rewrite (bind_run _ _ d d None); [reflexivity|].
    unfold atomic_reserve. erewrite bind_run by reflexivity. erewrite bind_run by reflexivity.
    cbn [rows table_promos]. rewrite Hp.
    assert (reservable (db_now d) p = false) as ->; [|done].
    unfold reservable. rewrite Hn, (pk_count _ Hd _ _ Hp), (proj2 (Z.ltb_ge _ _)) by done.
    apply andb_false_r.
  - intros Hlim u d' H. apply reserve_ok in H as (_ & Hlt & _); [lia|done].
  - intros u d' H. apply reserve_ok in H as (Hres & Hlt & rid & z & n & _ & Hn & _ & ->); [|done]. cbn.
    rewrite slots_used_new, user_uses_new by done. cbn. rewrite !(proj2 (same_true _ _)) by done. cbn.
    split; [done|]. do 2 (split; [done|]). split; [lia|]. eexists rid, _. rewrite lookup_insert_eq. done.
Qed.

Definition promo_full : Promo := promo_row <| pm_max_total_usages := Some 0 |>.

Lemma reserve_respects_caps_witness :
  (∀ u d', reserve 80 promo_row 70 41 42 (sar 500) db_promo = Ok (u, d') →
     slots_used (tb_promo_redemptions d') 80 = slots_used (tb_promo_redemptions db_promo) 80 + 1) ∧
  reserve 80 promo_full 70 41 42 (sar 500) (db_promo <| tb_promos := {[ 80%N := promo_full ]} |>)
    = Raise PromoUsageExceededError.
Proof.
  split.
  - intros u d' Hr.
    assert (tb_promos db_promo !! 80%N = Some promo_row) as Hp by (vm_compute; reflexivity).
    by destruct (reserve_respects_caps db_promo 80 promo_row 70 41 42 (sar 500) promo_ok_db_promo Hp) as (_ & _ & Hok);
      destruct (Hok u d' Hr) as (_ & E & _).
  - destruct (reserve_respects_caps (db_promo <| tb_promos := {[ 80%N := promo_full ]} |>) 80 promo_full 70 41 42 (sar 500))
      as (Hfull & _); [|vm_compute; reflexivity|apply (Hfull 0); [reflexivity|vm_compute; discriminate]].
    constructor.
    + intros pid p Hp. enum_lookup Hp. done.
    + intros pid p Hp. enum_lookup Hp. done.
    + intros pid p uid Hp. enum_lookup Hp. done.
    + intros rid r Hr. done.
Defined.
