(* ===== verification/Crypto.v ===== *)
(** * Field-level encryption ([app/core/crypto.py])

    [FieldCipher] wraps AES-256-GCM: base64 of [version || iv || ciphertext || tag],
    with a key map indexed by version and an AAD naming table, column and entity.
    AES-GCM itself belongs to the [cryptography] package: it is a pair of
    functions of the section, with the documented behaviour the module
    relies on as hypotheses.  Byte strings (and UTF-8 text) are [list ascii];
    [os.urandom(12)] is an argument.

    Base64 is modelled as Python's [base64] does it, and proved to round-trip. *)

From Stdlib Require Import ZArith Lia Ascii.
From stdpp Require Import base list gmap strings numbers option.
From S2P Require Import Prelude Errors.
Open Scope Z_scope.

Abbreviation bytes := (list ascii) (only parsing).

Definition byte_val (c : ascii) : Z := Z.of_N (N_of_ascii c).
Definition val_byte (n : Z) : ascii := ascii_of_N (Z.to_N n).

(** ** Base64 *)

(** The alphabet, [A-Za-z0-9+/]. *)
Definition b64_char (i : Z) : ascii :=
  if i <? 26 then val_byte (65 + i)
  else if i <? 52 then val_byte (97 + (i - 26))
  else if i <? 62 then val_byte (48 + (i - 52))
  else if i =? 62 then "+"%char else "/"%char.

Definition b64_val (c : ascii) : option Z :=
  let n := byte_val c in
  if (65 <=? n) && (n <=? 90) then Some (n - 65)
  else if (97 <=? n) && (n <=? 122) then Some (n - 97 + 26)
  else if (48 <=? n) && (n <=? 57) then Some (n - 48 + 52)
  else if n =? 43 then Some 62 else if n =? 47 then Some 63 else None.

Definition pad : ascii := "="%char.

Fixpoint b64encode (l : bytes) : bytes :=
  match l with
  | a :: b :: c :: l' =>
      let n := byte_val a * 65536 + byte_val b * 256 + byte_val c in
      b64_char (n / 262144) :: b64_char (n / 4096 mod 64) :: b64_char (n / 64 mod 64)
        :: b64_char (n mod 64) :: b64encode l'
  | [a; b] =>
      let n := byte_val a * 65536 + byte_val b * 256 in
      [b64_char (n / 262144); b64_char (n / 4096 mod 64); b64_char (n / 64 mod 64); pad]
  | [a] =>
      let n := byte_val a * 65536 in
      [b64_char (n / 262144); b64_char (n / 4096 mod 64); pad; pad]
  | [] => []
  end.

(** [b64decode(s, validate=True)]: anything but groups of four alphabet characters,
    the last one possibly padded, is an error. *)
Fixpoint b64decode (l : bytes) : option bytes :=
  match l with
  | [] => Some []
  | [w; x; y; z] =>
      i ← b64_val w; j ← b64_val x;
      if Ascii.eqb y pad then
        if Ascii.eqb z pad then Some [val_byte ((i * 64 + j) / 16)] else None
      else
        k ← b64_val y;
        if Ascii.eqb z pad then
          let n := (i * 64 + j) * 64 + k in
          Some [val_byte (n / 1024); val_byte (n / 4 mod 256)]
        else
          m ← b64_val z;
          let n := ((i * 64 + j) * 64 + k) * 64 + m in
          Some [val_byte (n / 65536); val_byte (n / 256 mod 256); val_byte (n mod 256)]
  | w :: x :: y :: z :: l' =>
      i ← b64_val w; j ← b64_val x; k ← b64_val y; m ← b64_val z;
      let n := ((i * 64 + j) * 64 + k) * 64 + m in
      rest ← b64decode l';
      Some (val_byte (n / 65536) :: val_byte (n / 256 mod 256) :: val_byte (n mod 256) :: rest)
  | _ => None
  end.

(** ** [FieldCipher] *)

Record FieldCipher := mk_FieldCipher { fc_keys : gmap Z bytes; fc_active_version : Z }.

Inductive crypto A := CryptoOk (a : A) | CryptoError.
Arguments CryptoOk {A} a.
Arguments CryptoError {A}.

(** [FieldCipher.__init__]. *)
Definition build_cipher (keys : gmap Z bytes) (active_version : Z) : crypto FieldCipher :=
  if forallb (λ p, (length p.2 =? 32)%nat && (0 <=? p.1) && (p.1 <=? 255)) (map_to_list keys) then
    match keys !! active_version with
    | Some _ => CryptoOk (mk_FieldCipher keys active_version)
    | None => CryptoError
    end
  else CryptoError.

Definition build_aad (table column entity_id : bytes) : bytes :=
  table ++ [":"%char] ++ column ++ [":"%char] ++ entity_id.

Definition blob_version (blob_b64 : bytes) : crypto Z :=
  match b64decode blob_b64 with
  | None => CryptoError
  | Some [] => CryptoError
  | Some (v :: _) => CryptoOk (byte_val v)
  end.

Section Cipher.
(** [AESGCM(key).encrypt(iv, data, aad)] and [.decrypt]; [None] is [InvalidTag]. *)
Variable gcm_encrypt : bytes → bytes → bytes → bytes → bytes.
Variable gcm_decrypt : bytes → bytes → bytes → bytes → option bytes.

Definition encrypt (c : FieldCipher) (iv plaintext aad : bytes) : option bytes :=
  key ← fc_keys c !! fc_active_version c;
  Some (b64encode (val_byte (fc_active_version c) :: iv ++ gcm_encrypt key iv plaintext aad)).

Definition decrypt (c : FieldCipher) (blob_b64 aad : bytes) : crypto bytes :=
  match b64decode blob_b64 with
  | None => CryptoError
  | Some blob =>
      if (length blob <? 29)%nat then CryptoError
      else
        match blob with
        | [] => CryptoError
        | v :: rest =>
            let iv := take 12 rest in
            let ct := drop 12 rest in
            match fc_keys c !! byte_val v with
            | None => CryptoError
            | Some key =>
                match gcm_decrypt key iv ct aad with
                | Some pt => CryptoOk pt
                | None => CryptoError
                end
            end
        end
  end.
End Cipher.

(** ** Lemmas *)

Lemma byte_val_range (c : ascii) : 0 ≤ byte_val c < 256.
Proof.
  unfold byte_val. pose proof (N_ascii_bounded c). lia.
Qed.

Lemma val_byte_val (c : ascii) : val_byte (byte_val c) = c.
Proof. unfold val_byte, byte_val. rewrite N2Z.id. apply ascii_N_embedding. Qed.

Lemma byte_val_byte (n : Z) : 0 ≤ n < 256 → byte_val (val_byte n) = n.
Proof. intros H. unfold val_byte, byte_val. rewrite N_ascii_embedding by lia. lia. Qed.

(** Decided over the 64 digits. *)
Lemma b64_val_char (i : Z) : 0 ≤ i < 64 → b64_val (b64_char i) = Some i ∧ Ascii.eqb (b64_char i) pad = false.
Proof.
  intros Hi.
  assert (forallb (λ n, match b64_val (b64_char (Z.of_nat n)) with Some j => j =? Z.of_nat n | None => false end
    && negb (Ascii.eqb (b64_char (Z.of_nat n)) pad)) (seq 0 64) = true) as H by (vm_compute; reflexivity).
  rewrite forallb_forall in H. specialize (H (Z.to_nat i)). rewrite in_seq, Z2Nat.id in H by lia.
  specialize (H ltac:(lia)). apply andb_true_iff in H as [H1 H2]. split; [|by apply negb_true_iff].
  destruct (b64_val (b64_char i)); [|done]. f_equal. lia.
Qed.

Lemma b64_digits (n : Z) : 0 ≤ n < 16777216 →
  0 ≤ n / 262144 < 64 ∧ 0 ≤ n / 4096 mod 64 < 64 ∧ 0 ≤ n / 64 mod 64 < 64 ∧ 0 ≤ n mod 64 < 64 ∧
  ((n / 262144 * 64 + n / 4096 mod 64) * 64 + n / 64 mod 64) * 64 + n mod 64 = n.
Proof. intros H. Z.div_mod_to_equations. lia. Qed.

Lemma b64_quad (w x y z : Z) (l : bytes) :
  0 ≤ w < 64 → 0 ≤ x < 64 → 0 ≤ y < 64 → 0 ≤ z < 64 →
  b64decode (b64_char w :: b64_char x :: b64_char y :: b64_char z :: l) =
  (rest ← b64decode l;
   let n := ((w * 64 + x) * 64 + y) * 64 + z in
   Some (val_byte (n / 65536) :: val_byte (n / 256 mod 256) :: val_byte (n mod 256) :: rest)).
Proof.
  intros Hw Hx Hy Hz. destruct (b64_val_char w Hw) as [Ew _], (b64_val_char x Hx) as [Ex _],
    (b64_val_char y Hy) as [Ey Py], (b64_val_char z Hz) as [Ez Pz].
  destruct l as [|c l]; cbn -[b64decode]; unfold b64decode; fold b64decode;
    rewrite Ew, Ex; cbn [mbind option_bind]; rewrite ?Py, Ey; cbn [mbind option_bind];
    rewrite ?Pz, Ez; cbn [mbind option_bind]; done.
Qed.

Lemma b64_roundtrip_fuel (k : nat) (l : bytes) : (length l ≤ k)%nat → b64decode (b64encode l) = Some l.
Proof.
  revert l. induction k as [|k IH]; intros l Hk; [by destruct l; cbn in *; [|lia]|].
  destruct l as [|a [|b [|c l]]]; [done|..]; cbn [b64encode].
  - set (n := byte_val a * 65536). pose proof (byte_val_range a).
    destruct (b64_digits n ltac:(unfold n; lia)) as (D1 & D2 & D3 & D4 & E).
    destruct (b64_val_char _ D1) as [E1 _], (b64_val_char _ D2) as [E2 _]. cbn [b64decode].
    rewrite E1, E2. cbn [mbind option_bind]. rewrite Ascii.eqb_refl.
    assert ((n / 262144 * 64 + n / 4096 mod 64) / 16 = byte_val a) as ->.
    { unfold n in *. Z.div_mod_to_equations. lia. }
    by rewrite val_byte_val.
  - set (n := byte_val a * 65536 + byte_val b * 256).
    pose proof (byte_val_range a). pose proof (byte_val_range b).
    destruct (b64_digits n ltac:(unfold n; lia)) as (D1 & D2 & D3 & D4 & E).
    destruct (b64_val_char _ D1) as [E1 _], (b64_val_char _ D2) as [E2 _], (b64_val_char _ D3) as [E3 P3].
    cbn [b64decode]. rewrite E1, E2. cbn [mbind option_bind]. rewrite P3, E3. cbn [mbind option_bind].
    rewrite Ascii.eqb_refl. set (m := (n / 262144 * 64 + n / 4096 mod 64) * 64 + n / 64 mod 64).
    assert (m / 1024 = byte_val a ∧ m / 4 mod 256 = byte_val b) as [-> ->].
    { unfold m, n in *. clear E1 E2 E3 P3. Z.div_mod_to_equations. lia. }
    by rewrite !val_byte_val.
  - set (n := byte_val a * 65536 + byte_val b * 256 + byte_val c).
    pose proof (byte_val_range a). pose proof (byte_val_range b). pose proof (byte_val_range c).
    destruct (b64_digits n ltac:(unfold n; lia)) as (D1 & D2 & D3 & D4 & E).
    rewrite b64_quad by done. rewrite IH by (cbn in Hk; lia). cbn [mbind option_bind]. rewrite E.
    assert (n / 65536 = byte_val a ∧ n / 256 mod 256 = byte_val b ∧ n mod 256 = byte_val c) as (-> & -> & ->).
    { unfold n. clear. pose proof (byte_val_range a). pose proof (byte_val_range b).
      pose proof (byte_val_range c). Z.div_mod_to_equations. lia. }
    by rewrite !val_byte_val.
Qed.

Lemma b64_roundtrip (l : bytes) : b64decode (b64encode l) = Some l.
Proof. by apply (b64_roundtrip_fuel (length l)). Qed.

Lemma build_cipher_ok (keys : gmap Z bytes) (v : Z) (c : FieldCipher) :
  build_cipher keys v = CryptoOk c →
  c = mk_FieldCipher keys v ∧ 0 ≤ v ≤ 255 ∧ ∃ key, keys !! v = Some key ∧ length key = 32%nat.
Proof.
  unfold build_cipher. destruct (forallb _ _) eqn:Hall; [|done].
  destruct (keys !! v) as [key|] eqn:Ek; [|done]. intros [= <-]. split; [done|].
  rewrite forallb_forall in Hall. specialize (Hall (v, key)).
  rewrite <- list_elem_of_In, elem_of_map_to_list in Hall. specialize (Hall Ek). cbn in Hall.
  apply andb_true_iff in Hall as [Hall H3]. apply andb_true_iff in Hall as [H1 H2].
  split; [lia|]. exists key. split; [done|]. by apply Nat.eqb_eq.
Qed.

(** Two AADs of the same table and column differ as soon as the entities do. *)
Lemma build_aad_inj (table column e e' : bytes) :
  build_aad table column e = build_aad table column e' → e = e'.
Proof. unfold build_aad. intros H. by repeat apply app_inv_head in H. Qed.

Section CipherLemmas.
Variable gcm_encrypt : bytes → bytes → bytes → bytes → bytes.
Variable gcm_decrypt : bytes → bytes → bytes → bytes → option bytes.

Lemma decrypt_encrypt (c c' : FieldCipher) (iv pt aad aad' key blob : bytes) :
  0 ≤ fc_active_version c ≤ 255 → length iv = 12%nat →
  fc_keys c !! fc_active_version c = Some key → fc_keys c' !! fc_active_version c = Some key →
  (16 ≤ length (gcm_encrypt key iv pt aad))%nat →
  encrypt gcm_encrypt c iv pt aad = Some blob →
  decrypt gcm_decrypt c' blob aad' =
  match gcm_decrypt key iv (gcm_encrypt key iv pt aad) aad' with Some p => CryptoOk p | None => CryptoError end.
Proof.
  intros Hv Hiv Hk Hk' Hct He. unfold encrypt in He. rewrite Hk in He. 
  assert (b64encode (val_byte (fc_active_version c) :: iv ++ gcm_encrypt key iv pt aad) = blob) as <- by by injection He.
  unfold decrypt. rewrite b64_roundtrip. cbn [length].
  rewrite (proj2 (Nat.ltb_ge _ _)) by (rewrite length_app; lia).
  rewrite byte_val_byte by lia. rewrite Hk'.
  rewrite take_app_length' by done. by rewrite drop_app_length' by done.
Qed.
End CipherLemmas.

(** [C40] Encrypted fields read back, also across a key rotation, and only in their
    own row: for a cipher that [build_cipher] accepted, what [encrypt] writes is
    decrypted by every cipher that still holds the key of that version, records
    its key version in the blob, and fails to decrypt under the AAD of any other
    entity of the same table and column. *)
Theorem field_encryption_roundtrip
    (gcm_encrypt : bytes → bytes → bytes → bytes → bytes)
    (gcm_decrypt : bytes → bytes → bytes → bytes → option bytes)
    (keys keys' : gmap Z bytes) (v v' : Z) (c c' : FieldCipher) (iv pt table column e e' : bytes) :
  (∀ k iv pt aad, gcm_decrypt k iv (gcm_encrypt k iv pt aad) aad = Some pt) →
  (∀ k iv pt aad, (16 ≤ length (gcm_encrypt k iv pt aad))%nat) →
  (∀ k iv pt aad aad', aad' ≠ aad → gcm_decrypt k iv (gcm_encrypt k iv pt aad) aad' = None) →
  build_cipher keys v = CryptoOk c → build_cipher keys' v' = CryptoOk c' → keys ⊆ keys' →
  length iv = 12%nat → e' ≠ e →
  ∃ blob, encrypt gcm_encrypt c iv pt (build_aad table column e) = Some blob ∧
    decrypt gcm_decrypt c' blob (build_aad table column e) = CryptoOk pt ∧
    decrypt gcm_decrypt c' blob (build_aad table column e') = CryptoError ∧
    blob_version blob = CryptoOk v.
Proof.
  intros G1 G2 G3 Hc Hc' Hsub Hiv He.
  apply build_cipher_ok in Hc as (-> & Hv & key & Hk & _). apply build_cipher_ok in Hc' as (-> & _).
  assert (keys' !! v = Some key) as Hk' by by eapply lookup_weaken.
  set (aad := build_aad table column e).
  assert (encrypt gcm_encrypt (mk_FieldCipher keys v) iv pt aad =
    Some (b64encode (val_byte v :: iv ++ gcm_encrypt key iv pt aad))) as E by (unfold encrypt; cbn; by rewrite Hk).
  eexists. split; [exact E|]. split; [|split].
  - rewrite (decrypt_encrypt _ _ (mk_FieldCipher keys v) (mk_FieldCipher keys' v') _ _ _ aad key _ Hv Hiv Hk Hk' (G2 _ _ _ _) E).
    by rewrite G1.
  - rewrite (decrypt_encrypt _ _ (mk_FieldCipher keys v) (mk_FieldCipher keys' v') _ _ _ _ key _ Hv Hiv Hk Hk' (G2 _ _ _ _) E).
    rewrite G3; [done|]. intros Heq. apply He. by eapply build_aad_inj.
  - unfold blob_version. by rewrite b64_roundtrip, byte_val_byte by lia.
Qed.

(** A transparent "cipher" that meets the hypotheses: the length of the plaintext in
    unary, the plaintext, the AAD, and sixteen bytes of tag. *)
Definition toy_encrypt (_ _ pt aad : bytes) : bytes :=
  replicate 16 "0"%char ++ replicate (length pt) "x"%char ++ "|"%char :: pt ++ aad.

Fixpoint count_x (l : bytes) : nat * bytes :=
  match l with
  | "x"%char :: l' => let '(n, r) := count_x l' in (S n, r)
  | _ :: l' => (0%nat, l')
  | [] => (0%nat, [])
  end.

Definition toy_decrypt (_ _ ct aad : bytes) : option bytes :=
  let '(n, r) := count_x (drop 16 ct) in
  if decide (drop n r = aad) then Some (take n r) else None.

Lemma toy_decrypt_encrypt (k iv pt aad aad' : bytes) :
  toy_decrypt k iv (toy_encrypt k iv pt aad) aad' = if decide (aad = aad') then Some pt else None.
Proof.
  unfold toy_decrypt, toy_encrypt. rewrite drop_app_length' by done.
  assert (∀ n r, count_x (replicate n "x"%char ++ "|"%char :: r) = (n, r)) as Hc.
  { intros n r. induction n as [|n IH]; [done|]. cbn. by rewrite IH. }
  rewrite Hc, drop_app_length, take_app_length. done.
Qed.

Definition keys1 : gmap Z bytes := {[ 1 := replicate 32 "k"%char ]}.
Definition keys2 : gmap Z bytes := {[ 1 := replicate 32 "k"%char; 2 := replicate 32 "n"%char ]}.

Lemma field_encryption_roundtrip_witness :
  ∃ blob, encrypt toy_encrypt (mk_FieldCipher keys1 1) (replicate 12 "i"%char)
      (String.list_ascii_of_string "SA0380000000608010167519") (build_aad ["w"%char] ["i"%char] ["1"%char]) = Some blob ∧
    decrypt toy_decrypt (mk_FieldCipher keys2 2) blob (build_aad ["w"%char] ["i"%char] ["1"%char])
      = CryptoOk (String.list_ascii_of_string "SA0380000000608010167519") ∧
    decrypt toy_decrypt (mk_FieldCipher keys2 2) blob (build_aad ["w"%char] ["i"%char] ["2"%char]) = CryptoError ∧
    blob_version blob = CryptoOk 1.
Proof.
  apply (field_encryption_roundtrip toy_encrypt toy_decrypt keys1 keys2 1 2).
  - intros. rewrite toy_decrypt_encrypt. by rewrite decide_True.
  - intros. unfold toy_encrypt. rewrite length_app, length_replicate. lia.
  - intros. rewrite toy_decrypt_encrypt. rewrite decide_False by congruence. done.
  - vm_compute. reflexivity.
  - vm_compute. reflexivity.
  - apply map_subseteq_spec. intros i x Hx. unfold keys1 in Hx. apply lookup_singleton_Some in Hx as [<- <-]. vm_compute. reflexivity.
  - done.
  - done.
Defined.
