(* ===== verification/Media.v ===== *)
(** * Media uploads ([app/services/media_service.py], [app/integrations/storage/base.py])

    The storage service is an interface: [StorageClient] lists what the media service asks of it.
    [validate_key] is the allow-list regular expression with Python's semantics of
    [match] and [$]. *)

From Stdlib Require Import ZArith Lia Ascii.
From stdpp Require Import base list gmap strings numbers option.
From S2P Require Import Prelude Errors PyDecimal Money Enums Tables Database Ledger.
Open Scope Z_scope.

Record ObjectHead := mk_ObjectHead { oh_exists : bool; oh_byte_size : Z; oh_content_type : string }.

(** The port; the S3 and the in-memory clients of Clients.v implement it.  A call may fail. *)
Class StorageClient := {
  create_upload_url : string → string → Z → Z → res string;
  head_object : string → res (option ObjectHead);
  verify_image_magic_bytes : string → res bool;
}.

Definition allowed_image_type (t : string) : bool := same t "image/jpeg" || same t "image/png".

Definition UPLOAD_TTL_SECONDS : Z := 300.

Definition prefix_by_purpose (purpose : string) : option string :=
  if same purpose "ORDER_REQUEST" then Some "orders/pending"
  else if same purpose "DELIVERY_PROOF" then Some "orders/proof"
  else None.

(** ** The key allow-list *)

Definition newline : ascii := ascii_of_N 10.
Definition nul : ascii := ascii_of_N 0.

Definition is_key_char (c : ascii) : bool :=
  let n := N_of_ascii c in
  ((48 <=? n) && (n <=? 57))%N || ((97 <=? n) && (n <=? 102))%N || (n =? 45)%N.

(** [String.prefix] on lists: the rest after a literal. *)
Fixpoint after (lit l : list ascii) : option (list ascii) :=
  match lit, l with
  | [], _ => Some l
  | a :: lit', b :: l' => if Ascii.eqb a b then after lit' l' else None
  | _, [] => None
  end.

Definition chars (s : string) : list ascii := String.list_ascii_of_string s.

(** [$]: the end of the string, or just before a newline that ends it. *)
Definition at_end (l : list ascii) : bool := match l with [] => true | [c] => Ascii.eqb c newline | _ => false end.

Definition match_suffix (l : list ascii) : bool :=
  match after (chars ".jpg") l with
  | Some r => at_end r
  | None => match after (chars ".png") l with Some r => at_end r | None => false end
  end.

(** [[0-9a-f-]{36}\.(jpg|png)$]. *)
Definition match_name (l : list ascii) : bool :=
  (length (take 36 l) =? 36)%nat && forallb is_key_char (take 36 l) && match_suffix (drop 36 l).

Definition key_re (l : list ascii) : bool :=
  match after (chars "orders/pending/") l with
  | Some r => match_name r
  | None => match after (chars "orders/proof/") l with Some r => match_name r | None => false end
  end.

Fixpoint has_dotdot (l : list ascii) : bool :=
  match l with
  | "."%char :: (("."%char :: _) as l') => true
  | _ :: l' => has_dotdot l'
  | [] => false
  end.

Definition validate_key (storage_key : string) : res () :=
  let l := chars storage_key in
  raise_if (existsb (Ascii.eqb nul) l || has_dotdot l || negb (key_re l)) BadRequestError.

(** ** The service *)

Section Service.
Context `{StorageClient} (MAX_UPLOAD_BYTES : Z).

Definition request_upload_url (purpose content_type : string) (byte_size : Z) : M (string * string * Z) :=
  prefix ← unwrap (prefix_by_purpose purpose) BadRequestError;
  guard_ (negb (allowed_image_type content_type)) BadRequestError;;
  guard_ (negb ((0 <? byte_size) && (byte_size <=? MAX_UPLOAD_BYTES))) BadRequestError;;
  let ext := if same content_type "image/jpeg" then "jpg" else "png" in
  id ← uuid4;
  let storage_key := prefix +:+ "/" +:+ uuid_str id +:+ "." +:+ ext in
  url ← lift (create_upload_url storage_key content_type byte_size UPLOAD_TTL_SECONDS);
  mret (url, storage_key, UPLOAD_TTL_SECONDS).

Definition confirm (storage_key : string) : res () :=
  validate_key storage_key;;
  object_head ← head_object storage_key;
  match object_head with
  | None => Raise BadRequestError
  | Some head =>
      raise_if (negb (oh_exists head)) BadRequestError;;
      raise_if (MAX_UPLOAD_BYTES <? oh_byte_size head) BadRequestError;;
      raise_if (negb (allowed_image_type (oh_content_type head))) BadRequestError;;
      valid ← verify_image_magic_bytes storage_key;
      raise_if (negb valid) BadRequestError
  end.
End Service.

(** ** What a confirmed key looks like *)

Lemma after_spec (lit l r : list ascii) : after lit l = Some r → l = lit ++ r.
Proof.
  revert l. induction lit as [|a lit IH]; intros [|b l]; cbn; try done; try (by intros [= ->]).
  destruct (Ascii.eqb_spec a b) as [->|]; [|done]. intros Hr%IH. by subst.
Qed.

Lemma match_suffix_spec (l : list ascii) :
  match_suffix l = true → ∃ s, (s = ".jpg" ∨ s = ".png") ∧ (l = chars s ∨ l = chars s ++ [newline]).
Proof.
  unfold match_suffix. intros H.
  assert (∀ r, at_end r = true → r = [] ∨ r = [newline]) as He.
  { intros [|c [|]]; cbn; [by left| |done]. intros Hc%Ascii.eqb_eq. subst. by right. }
  destruct (after (chars ".jpg") l) as [r|] eqn:E1.
  - apply after_spec in E1. exists ".jpg". split; [by left|].
    destruct (He r H) as [-> | ->]; [left; by rewrite app_nil_r in E1|by right].
  - destruct (after (chars ".png") l) as [r|] eqn:E2; [|done]. apply after_spec in E2.
    exists ".png". split; [by right|]. destruct (He r H) as [-> | ->]; [left; by rewrite app_nil_r in E2|by right].
Qed.

(** The allow-list leaves no room for traversal: a key that [confirm] accepts
    is one of the two prefixes, 36 characters of [0-9a-f-], and [.jpg] or [.png] (up to
    one final newline), so it contains no slash beyond the prefix, and its object exists, is
    within the size limit, has an image content type and passed the magic-byte
    check. *)
Theorem confirm_sound `{StorageClient} (max_bytes : Z) (key : string) :
  confirm max_bytes key = Ok () →
  (∃ prefix name suffix,
     (prefix = "orders/pending/" ∨ prefix = "orders/proof/") ∧ length name = 36%nat ∧
     Forall (λ c, is_key_char c = true) name ∧ (suffix = ".jpg" ∨ suffix = ".png") ∧
     (chars key = chars prefix ++ name ++ chars suffix ∨
      chars key = chars prefix ++ name ++ chars suffix ++ [newline])) ∧
  ∃ head, head_object key = Ok (Some head) ∧ oh_exists head = true ∧ oh_byte_size head ≤ max_bytes ∧
    allowed_image_type (oh_content_type head) = true ∧ verify_image_magic_bytes key = Ok true.
Proof.
  unfold confirm. intros (u & Hk & Hh)%res_bind_ok. split.
  - unfold validate_key in Hk. apply raise_if_ok in Hk. apply orb_false_iff in Hk as [_ Hk].
    apply negb_false_iff in Hk. unfold key_re in Hk.
    assert (∃ prefix r, (prefix = "orders/pending/" ∨ prefix = "orders/proof/") ∧
              chars key = chars prefix ++ r ∧ match_name r = true) as (prefix & r & Hp & E & Hm).
    { destruct (after (chars "orders/pending/") (chars key)) as [r|] eqn:E1.
      - apply after_spec in E1. eauto 10.
      - destruct (after (chars "orders/proof/") (chars key)) as [r|] eqn:E2; [|done].
        apply after_spec in E2. eauto 10. }
    unfold match_name in Hm. apply andb_true_iff in Hm as [Hm Hs]. apply andb_true_iff in Hm as [Hl Hf].
    destruct (match_suffix_spec _ Hs) as (suffix & Hsuf & Hr).
    exists prefix, (take 36 r), suffix. split; [done|]. split; [by apply Nat.eqb_eq|].
    split; [apply Forall_forall; intros c Hc; rewrite forallb_forall in Hf; by apply Hf|].
    split; [done|]. rewrite E. destruct Hr as [Hr|Hr]; [left|right]; rewrite <- (take_drop 36 r) at 1; by rewrite Hr.
  - apply res_bind_ok in Hh as (o & Ho & Hh). destruct o as [head|]; [|done].
    apply res_bind_ok in Hh as (u1 & H1 & Hh). apply res_bind_ok in Hh as (u2 & H2 & Hh).
    apply res_bind_ok in Hh as (u3 & H3 & Hh). apply res_bind_ok in Hh as (valid & Hv & H4). apply raise_if_ok in H1, H2, H3, H4.
    apply negb_false_iff in H1, H3, H4. subst valid. exists head. repeat split; try done. lia.
Qed.

Definition one_object : StorageClient := {|
  create_upload_url k _ _ _ := Ok k;
  head_object k := Ok (Some (mk_ObjectHead true 1024 "image/png"));
  verify_image_magic_bytes k := Ok true |}.

Definition good_key : string := "orders/proof/01234567-89ab-cdef-0123-456789abcdef.png".

Lemma confirm_sound_witness :
  (∃ prefix name suffix,
     (prefix = "orders/pending/" ∨ prefix = "orders/proof/") ∧ length name = 36%nat ∧
     Forall (λ c, is_key_char c = true) name ∧ (suffix = ".jpg" ∨ suffix = ".png") ∧
     (chars good_key = chars prefix ++ name ++ chars suffix ∨
      chars good_key = chars prefix ++ name ++ chars suffix ++ [newline])) ∧
  ∃ head, @head_object one_object good_key = Ok (Some head) ∧ oh_exists head = true ∧ oh_byte_size head ≤ 4096 ∧
    allowed_image_type (oh_content_type head) = true ∧ @verify_image_magic_bytes one_object good_key = Ok true.
Proof. apply (@confirm_sound one_object 4096 good_key). vm_compute. reflexivity. Defined.

(** The [$] of the allow-list admits a final newline: the key with a trailing
    line feed is accepted although the pattern names nothing after the
    extension. *)
Theorem validate_key_accepts_newline :
  validate_key (good_key +:+ String newline EmptyString) = Ok ().
Proof. vm_compute. reflexivity. Qed.
