(* ===== verification/Orders.v ===== *)
(** * Orders ([app/services/order_service.py], [app/repositories/order_repository.py],
      [app/repositories/message_repository.py])

    Creation with its limits, the accept race (Redis lock and row lock),
    cancellation, and the keyset-paged reads.  Coordinates are micro-degrees. *)

From Stdlib Require Import ZArith Lia Ascii.
From stdpp Require Import base list gmap strings numbers option sorting.
From S2P Require Import Prelude Errors PyDecimal Money Enums OrderState Tables Database Ledger Crypto Media.
Open Scope Z_scope.

(** ** [OrderRepository] *)

Definition CUSTOMER_ACTIVE (s : order_status) : bool :=
  match s with
  | OrderStatus.NEW | OrderStatus.ASSIGNED | OrderStatus.WAITING_PAYMENT
  | OrderStatus.IN_PROGRESS | OrderStatus.DELIVERED | OrderStatus.DISPUTED => true
  | _ => false
  end.

Definition COURIER_ACTIVE (s : order_status) : bool :=
  match s with
  | OrderStatus.ASSIGNED | OrderStatus.WAITING_PAYMENT | OrderStatus.IN_PROGRESS => true
  | _ => false
  end.

Definition create_order_row (customer_id : uuid) (description : option string) (delivery_city : string)
    (longitude latitude : Z) (delivery_date : day) (address_note : option string) : M uuid :=
  now ← get_now;
  insert_row (mk_Order customer_id None description delivery_city (mk_point longitude latitude) address_note
    delivery_date OrderStatus.NEW 0 0 0 None None None None now).

Definition add_media (order_id uploaded_by_user_id : uuid) (ty : media_type) (storage_key content_type : string)
    (byte_size : Z) (capture_longitude capture_latitude : option Z) (captured_at : option instant) : M () :=
  let location :=
    match capture_longitude, capture_latitude with
    | Some x, Some y => Some (mk_point x y)
    | _, _ => None
    end in
  now ← get_now;
  insert_row (mk_OrderMedia order_id uploaded_by_user_id ty storage_key content_type byte_size location
    captured_at now);;
  mret ().

(** Ownership is part of the query. *)
Definition participant (actor_id : uuid) (o : Order) : bool :=
  same (ord_customer_id o) actor_id || same (ord_courier_id o) (Some actor_id).

Definition order_for_actor (order_id actor_id : uuid) : M (option Order) :=
  o ← scalar (λ id o, same id order_id && participant actor_id o);
  mret (snd <$> o).

Definition lock_order_row (order_id : uuid) : M (option Order) := get_row order_id.

Definition count_orders (f : Order → bool) (d : db) : Z := map_total (λ o, if f o then 1 else 0) (tb_orders d).

Definition count_customer_active (customer_id : uuid) : M Z := λ d,
  Ok (count_orders (λ o, same (ord_customer_id o) customer_id && CUSTOMER_ACTIVE (ord_status o)) d, d).

Definition count_courier_active (courier_id : uuid) : M Z := λ d,
  Ok (count_orders (λ o, same (ord_courier_id o) (Some courier_id) && COURIER_ACTIVE (ord_status o)) d, d).

(** [ORDER BY created_at DESC, id DESC], and the keyset anchor. *)
Definition order_after (a b : uuid * Order) : Prop :=
  ord_created_at b.2 < ord_created_at a.2 ∨
  (ord_created_at a.2 = ord_created_at b.2 ∧ (b.1 ≤ a.1)%N).

#[export] Instance order_after_dec : RelDecision order_after.
Proof. intros a b. unfold order_after. apply _. Defined.

Definition page (f : uuid → Order → bool) (limit : nat) (before_id : option uuid) : M (list (uuid * Order)) := λ d,
  let mine := filter (λ p, f p.1 p.2 = true) (map_to_list (tb_orders d)) in
  let anchor := id ← before_id; o ← tb_orders d !! id; Some (id, o) in
  Ok (take limit (keyset_rows fst order_after anchor mine), d).

Definition list_for_customer (customer_id : uuid) (status : option order_status) (limit : nat)
    (before_id : option uuid) : M (list (uuid * Order)) :=
  page (λ _ o, same (ord_customer_id o) customer_id &&
               match status with Some s => same (ord_status o) s | None => true end) limit before_id.

Definition list_available (city : string) (limit : nat) (before_id : option uuid) : M (list (uuid * Order)) :=
  page (λ _ o, same (ord_delivery_city o) city && same (ord_status o) OrderStatus.NEW) limit before_id.

Definition create_conversation (order_id customer_id courier_id : uuid) : M uuid :=
  now ← get_now;
  insert_row (mk_Conversation order_id customer_id courier_id None now 0 0 false now).

(** The message row is not flushed when the timestamp is read, so [created_at]
    is still unset and the conversation keeps its own. *)
Definition add_system_message (conversation_id sender_id : uuid) (content_encrypted : string)
    (ty : message_type) : M uuid :=
  now ← get_now;
  c ← get_row conversation_id;
  match c with
  | Some c =>
      update_row conversation_id (c <| cv_last_message_timestamp := cv_last_message_timestamp c |>)
  | None => mret ()
  end;;
  insert_row (mk_Message conversation_id sender_id ty content_encrypted false None now).

Definition update_admin_details (order_id : uuid) (o : Order) (description : option string)
    (delivery_city : string) (delivery_date : day) (delivery_address_note : option string) : M () :=
  update_row order_id
    (o <| ord_description := description |> <| ord_delivery_city := delivery_city |>
       <| ord_delivery_date := delivery_date |> <| ord_delivery_address_note := delivery_address_note |>).

Definition list_auto_approve_due (cutoff : instant) (limit : nat) : M (list (uuid * Order)) := λ d,
  let due := filter (λ p, same (ord_status p.2) OrderStatus.DELIVERED &&
      match ord_delivered_at p.2 with Some t => t <=? cutoff | None => false end = true)
    (map_to_list (tb_orders d)) in
  Ok (take limit (sort_on (λ p, default 0 (ord_delivered_at p.2)) due), d).

(** ** [OrderService] *)

Definition SA_LAT : Z * Z := (16000000, 33000000).
Definition SA_LNG : Z * Z := (34000000, 56000000).
Definition MAX_CUSTOMER_ACTIVE : Z := 5.
Definition MAX_COURIER_ACTIVE : Z := 3.
Definition MAX_REQUEST_MEDIA : nat := 3.

Record NewOrderInput := mk_NewOrderInput {
  no_description : option string;
  no_delivery_city : string;
  no_latitude : Z;
  no_longitude : Z;
  no_delivery_date : day;
  no_request_media_keys : list string;
}.

Section Service.
Context `{StorageClient} (MAX_UPLOAD_BYTES : Z).
(** The field cipher of the settings, as used for system messages: [encrypt text aad]. *)
Context (encrypt_text : string → string → res string).

Definition create_order (customer_id : uuid) (data : NewOrderInput) : M uuid :=
  guard_ (negb ((SA_LAT.1 <=? no_latitude data) && (no_latitude data <=? SA_LAT.2))) ValidationDomainError;;
  guard_ (negb ((SA_LNG.1 <=? no_longitude data) && (no_longitude data <=? SA_LNG.2))) ValidationDomainError;;
  guard_ (MAX_REQUEST_MEDIA <? length (no_request_media_keys data))%nat ValidationDomainError;;
  active ← count_customer_active customer_id;
  guard_ (MAX_CUSTOMER_ACTIVE <=? active) ConflictError;;
  for_each (λ key, lift (confirm MAX_UPLOAD_BYTES key)) (no_request_media_keys data);;
  order_id ← create_order_row customer_id (no_description data) (no_delivery_city data)
    (no_longitude data) (no_latitude data) (no_delivery_date data) None;
  for_each (λ key, add_media order_id customer_id MediaType.CUSTOMER_REQUEST key "image/jpeg" 0 None None None)
    (no_request_media_keys data);;
  mret order_id.

Definition require_active_verified_courier (courier_id : uuid) : M () :=
  user ← get_row courier_id;
  guard_ match user with
         | None => true
         | Some u => negb (same (usr_role u) UserRole.COURIER) || negb (same (usr_status u) UserStatus.ACTIVE)
         end ForbiddenError;;
  profile ← get_row courier_id;
  guard_ match profile with None => true | Some p => negb (cp_is_verified p) end ForbiddenError.

Definition write_system_message (conversation_id sender_id : uuid) (text : string) : M () :=
  content ← lift (encrypt_text text ("messages:content:" +:+ uuid_str conversation_id));
  add_system_message conversation_id sender_id content MessageType.SYSTEM;;
  mret ().

Definition assign_locked (order_id courier_id : uuid) : M Order :=
  o ← lock_order_row order_id;
  order ← unwrap o NotFoundError;
  guard_ (negb (same (ord_status order) OrderStatus.NEW)) OrderAlreadyAssignedError;;
  lift (assert_transition (ord_status order) OrderStatus.ASSIGNED);;
  now ← get_now;
  let order' := order <| ord_courier_id := Some courier_id |> <| ord_status := OrderStatus.ASSIGNED |>
                      <| ord_assigned_at := Some now |> in
  update_row order_id order';;
  conversation ← create_conversation order_id (ord_customer_id order) courier_id;
  write_system_message conversation courier_id "A courier accepted your order.";;
  mret order'.

Definition accept_lock_key (order_id : uuid) : string := "lock:order_accept:" +:+ uuid_str order_id.

(** [redis_lock] around a transaction: raises when redis does not answer or another request holds the key; released on exit, where
    a redis that does not answer makes the request fail, whatever its outcome was. *)
Definition with_lock {A} (key : string) (m : M A) : M A := λ d,
  if negb (lk_acquire (db_locks d)) then Raise RedisError
  else if bool_decide (key ∈ lk_keys (db_locks d)) then Raise LockNotAcquiredError
  else if lk_release (db_locks d) then m d else Raise RedisError.

(** The lock can be taken and given back. *)
Definition lock_free (key : string) (d : db) : Prop :=
  lk_acquire (db_locks d) = true ∧ key ∉ lk_keys (db_locks d) ∧ lk_release (db_locks d) = true.

(** [except LockNotAcquiredError: raise OrderAlreadyAssignedError()]. *)
Definition lock_or_assigned {A} (m : M A) : M A := λ d,
  match m d with
  | Raise LockNotAcquiredError => Raise OrderAlreadyAssignedError
  | r => r
  end.

Definition accept_order (order_id courier_id : uuid) : M Order :=
  require_active_verified_courier courier_id;;
  active ← count_courier_active courier_id;
  guard_ (MAX_COURIER_ACTIVE <=? active) ForbiddenError;;
  lock_or_assigned (with_lock (accept_lock_key order_id) (assign_locked order_id courier_id)).
End Service.

Definition cancel_order (order_id actor_id : uuid) (reason : option string) : M Order :=
  o ← order_for_actor order_id actor_id;
  order ← unwrap o NotFoundError;
  lift (assert_transition (ord_status order) OrderStatus.CANCELLED);;
  let order' := order <| ord_status := OrderStatus.CANCELLED |> <| ord_cancelled_reason := reason |> in
  update_row order_id order';;
  mret order'.

Definition get_order_for_actor (order_id actor_id : uuid) : M Order :=
  o ← order_for_actor order_id actor_id; unwrap o NotFoundError.

(** ** What a transaction may do to the orders

    Every order keeps its customer, the courier changes only when the order leaves
    NEW, the status only moves along legal transitions, and an order that appears
    starts at NEW. *)
Record order_evolves (o o' : Order) : Prop := {
  ov_status : rtc order_step (ord_status o) (ord_status o');
  ov_customer : ord_customer_id o' = ord_customer_id o;
  ov_courier : ord_courier_id o' = ord_courier_id o ∨
    (ord_status o = OrderStatus.NEW ∧ ord_status o' ≠ OrderStatus.NEW);
}.

Record orders_evolve (d d' : db) : Prop := {
  oe_kept : ∀ oid o, tb_orders d !! oid = Some o →
    ∃ o', tb_orders d' !! oid = Some o' ∧ order_evolves o o';
  oe_new : ∀ oid o', tb_orders d' !! oid = Some o' → tb_orders d !! oid = None →
    rtc order_step OrderStatus.NEW (ord_status o');
}.

(** No transition leads back to NEW. *)
Lemma steps_to_new (a b : order_status) : rtc order_step a b → b = OrderStatus.NEW → a = OrderStatus.NEW.
Proof. induction 1 as [|a b c Hs _ IH]; [done|]. intros Hc. specialize (IH Hc). subst b. by destruct a. Qed.

#[export] Instance order_evolves_preorder : PreOrder order_evolves.
Proof.
  split.
  - intros o. constructor; [done|done|by left].
  - intros a b c [S1 C1 K1] [S2 C2 K2]. constructor; [by etransitivity|congruence|].
    destruct K1 as [K1|[A1 B1]], K2 as [K2|[A2 B2]].
    + left. congruence.
    + right. split; [by apply (steps_to_new _ (ord_status b))|done].
    + right. split; [done|]. intros Hn. apply B1. by eapply steps_to_new.
    + right. done.
Qed.

#[export] Instance orders_evolve_preorder : PreOrder orders_evolve.
Proof.
  split.
  - intros d. constructor; [|congruence]. intros oid o Ho. exists o. by split.
  - intros d1 d2 d3 [K1 N1] [K2 N2]. constructor.
    + intros oid o Ho. destruct (K1 _ _ Ho) as (o2 & Ho2 & E12). destruct (K2 _ _ Ho2) as (o3 & Ho3 & E23).
      exists o3. split; [done|]. by transitivity o2.
    + intros oid o3 Ho3 Hn. destruct (tb_orders d2 !! oid) as [o2|] eqn:E2; [|by eapply N2].
      destruct (K2 _ _ E2) as (o3' & Ho3' & Ev). rewrite Ho3 in Ho3'. injection Ho3' as <-.
      transitivity (ord_status o2); [by eapply N1|apply Ev].
Qed.

(** Nothing happened to the orders. *)
Lemma evolve_same (d d' : db) : tb_orders d' = tb_orders d → orders_evolve d d'.
Proof. intros E. constructor; rewrite E; [|congruence]. intros oid o Ho. exists o. by split. Qed.

(** One order was rewritten. *)
Lemma evolve_update (d d' : db) (oid : uuid) (o o' : Order) :
  tb_orders d !! oid = Some o → order_evolves o o' → tb_orders d' = <[oid := o']> (tb_orders d) →
  orders_evolve d d'.
Proof.
  intros Ho Ev E. constructor; rewrite E.
  - intros i x Hx. destruct (decide (i = oid)) as [->|Hne].
    + rewrite lookup_insert_eq. exists o'. split; [done|]. congruence.
    + rewrite lookup_insert_ne by done. by exists x.
  - intros i x [[<- <-]|[Hne Hx]]%lookup_insert_Some Hn; congruence.
Qed.

(** Writing back an order with a new status, reached by a legal move. *)
Lemma evolve_move (d d' : db) (oid : uuid) (o o' : Order) :
  tb_orders d !! oid = Some o → order_step (ord_status o) (ord_status o') →
  ord_customer_id o' = ord_customer_id o → ord_courier_id o' = ord_courier_id o →
  tb_orders d' = <[oid := o']> (tb_orders d) → orders_evolve d d'.
Proof.
  intros Ho Hs Hc Hk. apply (evolve_update d d' oid o o' Ho). constructor; [by apply rtc_once|done|by left].
Qed.

(** ** Framing *)

Lemma keeps_with_lock P {A} key (m : M A) : keeps P m → keeps P (with_lock key m).
Proof. intros Hm d a d' HP H. unfold with_lock in H. repeat case_match; try done. by eapply Hm. Qed.

Lemma keeps_lock_or_assigned P {A} (m : M A) : keeps P m → keeps P (lock_or_assigned m).
Proof.
  intros Hm d a d' HP H. unfold lock_or_assigned in H.
  destruct (m d) as [[x d1]|[]] eqn:E; try done. injection H as <- <-. by eapply Hm.
Qed.

Lemma with_lock_ok {A} key (m : M A) (d : db) (a : A) (d' : db) :
  with_lock key m d = Ok (a, d') ↔ lock_free key d ∧ m d = Ok (a, d').
Proof.
  unfold with_lock, lock_free. destruct (lk_acquire _); cbn; [|naive_solver]. case_bool_decide; [naive_solver|].
  destruct (lk_release _); naive_solver.
Qed.

Lemma lock_or_assigned_ok {A} (m : M A) (d : db) (a : A) (d' : db) :
  lock_or_assigned m d = Ok (a, d') ↔ m d = Ok (a, d').
Proof. unfold lock_or_assigned. destruct (m d) as [[? ?]|[]]; naive_solver. Qed.

Lemma keeps_count_customer P c : keeps P (count_customer_active c).
Proof. by intros d n d' HP [= _ <-]. Qed.

Lemma keeps_count_courier P c : keeps P (count_courier_active c).
Proof. by intros d n d' HP [= _ <-]. Qed.

Lemma keeps_order_for_actor P oid actor : keeps P (order_for_actor oid actor).
Proof. unfold order_for_actor. keeps_auto. Qed.

#[export] Hint Resolve keeps_with_lock keeps_lock_or_assigned keeps_count_customer keeps_count_courier
  keeps_order_for_actor : giftly.
#[export] Hint Extern 1 (keeps _ (lock_order_row _)) => apply keeps_get : giftly.

Section OrderFrame.
Context (P : db → Prop) `{!Frame P OrderMedia} `{!Frame P Conversation} `{!Frame P Message} `{!FrameNext P}.

Lemma frame_add_media oid u ty key ct size x y at_ : keeps P (add_media oid u ty key ct size x y at_).
Proof. unfold add_media. keeps_auto. Qed.

Lemma frame_create_conversation oid c k : keeps P (create_conversation oid c k).
Proof. unfold create_conversation. keeps_auto. Qed.

Lemma frame_system_message enc c s text : keeps P (write_system_message enc c s text).
Proof. unfold write_system_message, add_system_message. keeps_auto. Qed.

Hint Resolve frame_add_media frame_create_conversation frame_system_message : giftly.

Context `{!Frame P Order}.

Lemma frame_create_order `{StorageClient} n c data : keeps P (create_order n c data).
Proof. unfold create_order, create_order_row. keeps_auto. Qed.

Lemma frame_accept_order enc oid c : keeps P (accept_order enc oid c).
Proof.
  unfold accept_order, require_active_verified_courier, assign_locked. keeps_auto.
  apply keeps_lock_or_assigned, keeps_with_lock. keeps_auto.
Qed.

Lemma frame_cancel_order oid a reason : keeps P (cancel_order oid a reason).
Proof. unfold cancel_order. keeps_auto. Qed.
End OrderFrame.

#[export] Hint Resolve frame_add_media frame_create_conversation frame_system_message
  frame_create_order frame_accept_order frame_cancel_order : giftly.

(** ** The operations, successful runs *)

Lemma order_for_actor_run (oid actor : uuid) (d : db) :
  order_for_actor oid actor d =
  Ok (match tb_orders d !! oid with
      | Some o => if participant actor o then Some o else None
      | None => None
      end, d).
Proof.
  unfold order_for_actor.
  destruct (scalar_run (λ id o, same id oid && participant actor o) d) as (x & E & Hx).
  erewrite bind_run by exact E. unfold mret, M_ret. f_equal. f_equal. cbn in Hx.
  destruct x as [[i o]|]; cbn.
  - destruct Hx as [Hl [Hs Hp]%andb_true_iff]. apply (proj1 (same_true _ _)) in Hs as ->. by rewrite Hl, Hp.
  - destruct (tb_orders d !! oid) as [o|] eqn:Ho; [|done]. specialize (Hx _ _ Ho).
    rewrite (proj2 (same_true _ _)) in Hx by done. cbn in Hx. by rewrite Hx.
Qed.

Lemma create_conversation_ok (oid c k : uuid) (d : db) (id : uuid) (d' : db) :
  create_conversation oid c k d = Ok (id, d') →
  (∀ i x, tb_conversations d !! i = Some x → cv_order_id x ≠ oid) ∧
  tb_conversations d' = <[id := mk_Conversation oid c k None (db_now d) 0 0 false (db_now d)]> (tb_conversations d).
Proof.
  intros H. unfold create_conversation in H. inv_run H. inv_writes. split; [|done].
  intros i x Hx Heq. pose proof (proj1 (unique_ok_true _ _ _) Huniq i x Hx) as Hc.
  destruct (decide (i = db_next d0)) as [->|Hne]; [cbn in Hnew; congruence|]. specialize (Hc Hne).
  cbn in Hc. unfold conflicts_conversations in Hc. cbn in Hc.
  rewrite Heq, (proj2 (same_true _ _)) in Hc; done.
Qed.

(** The system message leaves every conversation as it is. *)
Lemma system_message_conversations enc (c s : uuid) (text : string) (d : db) (u : ()) (d' : db) :
  write_system_message enc c s text d = Ok (u, d') → tb_conversations d' = tb_conversations d.
Proof.
  intros H. unfold write_system_message, add_system_message in H. inv_run H.
  destruct (tb_conversations _ !! c) as [x|] eqn:Hx; inv_run E1; inv_writes; [|done]. cbn.
  apply insert_id. rewrite Hx. f_equal. by destruct x.
Qed.

Section Ok.
Context (enc : string → string → res string).

(** What an assignment does to the tables it writes. *)
Lemma assign_locked_ok (oid cid : uuid) (d : db) (o' : Order) (d' : db) :
  assign_locked enc oid cid d = Ok (o', d') →
  ∃ o, tb_orders d !! oid = Some o ∧ ord_status o = OrderStatus.NEW ∧
    o' = o <| ord_courier_id := Some cid |> <| ord_status := OrderStatus.ASSIGNED |>
           <| ord_assigned_at := Some (db_now d) |> ∧
    tb_orders d' = <[oid := o']> (tb_orders d) ∧
    (∀ i x, tb_conversations d !! i = Some x → cv_order_id x ≠ oid) ∧
    ∃ id x, tb_conversations d' !! id = Some x ∧ cv_order_id x = oid ∧
      cv_customer_id x = ord_customer_id o ∧ cv_courier_id x = cid.
Proof.
  intros H. unfold assign_locked, lock_order_row in H. inv_run H. inv_writes.
  match goal with E : negb (same (ord_status ?x) _) = _, L : tb_orders _ !! oid = Some ?x |- _ =>
    apply negb_false_iff, (proj1 (same_true _ _)) in E; exists x; split; [exact L|]; split; [exact E|] end.
  split; [done|].
  same_after tb_orders E4. rewrite (system_message_conversations _ _ _ _ _ _ _ E4).
  same_after tb_orders E3. rewrite K, K0. apply create_conversation_ok in E3 as [Hn ->].
  split; [done|]. split; [exact Hn|]. eexists _, _. split; [apply lookup_insert_eq|done].
Qed.

Lemma accept_order_ok (oid cid : uuid) (d : db) (o' : Order) (d' : db) :
  accept_order enc oid cid d = Ok (o', d') →
  assign_locked enc oid cid d = Ok (o', d') ∧ lock_free (accept_lock_key oid) d ∧
  count_orders (λ o, same (ord_courier_id o) (Some cid) && COURIER_ACTIVE (ord_status o)) d < MAX_COURIER_ACTIVE ∧
  (∃ u, tb_users d !! cid = Some u ∧ usr_role u = UserRole.COURIER ∧ usr_status u = UserStatus.ACTIVE) ∧
  (∃ p, tb_courier_profiles d !! cid = Some p ∧ cp_is_verified p = true).
Proof.
  intros H. unfold accept_order, require_active_verified_courier, count_courier_active in H. inv_run H.
  apply lock_or_assigned_ok, with_lock_ok in H as [Hl H].
  split; [done|]. split; [done|]. split; [lia|].
  destruct (tb_users _ !! cid) as [u|]; [|done]. destruct (tb_courier_profiles _ !! cid) as [p|]; [|done].
  apply orb_false_iff in E0 as [E2 E3]. rewrite negb_false_iff in E, E2, E3.
  apply (proj1 (same_true _ _)) in E2, E3. eauto 8.
Qed.

Lemma accept_order_evolve (oid cid : uuid) (d : db) (o' : Order) (d' : db) :
  accept_order enc oid cid d = Ok (o', d') → orders_evolve d d'.
Proof.
  intros H. apply accept_order_ok in H as [H _]. apply assign_locked_ok in H as (o & Ho & Hs & -> & Eo & _).
  eapply evolve_update; [exact Ho| |exact Eo]. constructor; [|done|by right]. unfold upd; cbn. rewrite Hs. by apply rtc_once.
Qed.
End Ok.

Lemma count_orders_insert (f : Order → bool) (d d' : db) (oid : uuid) (o o' : Order) :
  tb_orders d !! oid = Some o → tb_orders d' = <[oid := o']> (tb_orders d) → f o = false → f o' = true →
  count_orders f d' = count_orders f d + 1.
Proof.
  intros Ho E Hf Hf'. unfold count_orders. rewrite E, (map_total_insert _ _ _ o) by done. rewrite Hf, Hf'. lia.
Qed.

(** Every further attempt on an order that is no longer NEW is refused. *)
Lemma accept_taken (enc : string → string → res string) (oid cid : uuid) (d : db) (o : Order) :
  tb_orders d !! oid = Some o → ord_status o ≠ OrderStatus.NEW →
  ∃ e, accept_order enc oid cid d = Raise e ∧ e ∈ [OrderAlreadyAssignedError; ForbiddenError; RedisError].
Proof.
  intros Ho Hs. unfold accept_order, require_active_verified_courier.
  unfold get_row, count_courier_active, guard_, lift, raise_if, mbind, M_bind. cbn [rows table_users table_courier_profiles].
  destruct match tb_users d !! cid with Some _ => _ | None => _ end; [exists ForbiddenError; split; [done|set_solver]|].
  destruct match tb_courier_profiles d !! cid with Some _ => _ | None => _ end; [exists ForbiddenError; split; [done|set_solver]|].
  destruct (MAX_COURIER_ACTIVE <=? _); [exists ForbiddenError; split; [done|set_solver]|].
  unfold lock_or_assigned, with_lock. destruct (lk_acquire _); [cbn [negb]|exists RedisError; split; [done|set_solver]].
  destruct (bool_decide _); [exists OrderAlreadyAssignedError; split; [done|set_solver]|].
  destruct (lk_release _); [|exists RedisError; split; [done|set_solver]].
  exists OrderAlreadyAssignedError. split; [|set_solver].
  unfold assign_locked, lock_order_row. erewrite bind_run by reflexivity. cbn [rows table_orders]. rewrite Ho.
  erewrite bind_run by reflexivity. unfold guard_.
  assert (same (ord_status o) OrderStatus.NEW = false) as -> by (by apply bool_decide_eq_false_2). done.
Qed.

Lemma create_order_ok `{StorageClient} (n : Z) (cid : uuid) (data : NewOrderInput) (d : db) (oid : uuid) (d' : db) :
  create_order n cid data d = Ok (oid, d') →
  count_orders (λ o, same (ord_customer_id o) cid && CUSTOMER_ACTIVE (ord_status o)) d < MAX_CUSTOMER_ACTIVE ∧
  tb_orders d !! oid = None ∧
  tb_orders d' = <[oid := mk_Order cid None (no_description data) (no_delivery_city data)
      (mk_point (no_longitude data) (no_latitude data)) None (no_delivery_date data) OrderStatus.NEW 0 0 0
      None None None None (db_now d)]> (tb_orders d).
Proof.
  intros Hr. unfold create_order, create_order_row, count_customer_active in Hr. inv_run Hr.
  same_after (λ x : db, x) E3. subst. same_after tb_orders E5. rewrite K. inv_writes. split; [lia|]. done.
Qed.

Lemma create_order_evolve `{StorageClient} (n : Z) (cid : uuid) (data : NewOrderInput) (d : db) (oid : uuid) (d' : db) :
  create_order n cid data d = Ok (oid, d') → orders_evolve d d'.
Proof.
  intros Hr. apply create_order_ok in Hr as (_ & Hn & E). constructor; rewrite E.
  - intros i o Ho. rewrite lookup_insert_ne by congruence. by exists o.
  - intros i o [[<- <-]|[_ Ho]]%lookup_insert_Some Hi; [done|congruence].
Qed.

Lemma cancel_order_ok (oid actor : uuid) (reason : option string) (d : db) (o' : Order) (d' : db) :
  cancel_order oid actor reason d = Ok (o', d') →
  ∃ o, tb_orders d !! oid = Some o ∧ participant actor o = true ∧
    order_step (ord_status o) OrderStatus.CANCELLED ∧
    o' = o <| ord_status := OrderStatus.CANCELLED |> <| ord_cancelled_reason := reason |> ∧
    d' = d <| tb_orders := <[oid := o']> (tb_orders d) |>.
Proof.
  intros Hr. unfold cancel_order in Hr. erewrite bind_run in Hr by apply order_for_actor_run. inv_run Hr. inv_writes.
  destruct (tb_orders _ !! oid) as [o|] eqn:Ho; [|done]. destruct (participant actor o) eqn:Hp; [|done].
  injection E as <-. apply assert_transition_ok in E0. exists o. done.
Qed.

Lemma cancel_order_evolve (oid actor : uuid) (reason : option string) (d : db) (o' : Order) (d' : db) :
  cancel_order oid actor reason d = Ok (o', d') → orders_evolve d d'.
Proof.
  intros Hr. apply cancel_order_ok in Hr as (o & Ho & _ & Hs & -> & ->).
  by eapply evolve_move; [exact Ho|..|reflexivity].
Qed.

(** ** Properties *)

(** A customer (70), two verified couriers (71, 72) and an open order (50). *)
Definition user_row (phone : string) (role : user_role) : User :=
  mk_User phone None None None role UserStatus.ACTIVE 0 0 None 0.

Definition courier_row : CourierProfile :=
  mk_CourierProfile None (Some "cipher"%string) None "Riyadh" None true (Some 0) None 0.

Definition order_row : Order :=
  mk_Order 70 None None "Riyadh" (mk_point 46675300 24713600) None 10 OrderStatus.NEW 0 0 0 None None None None 0.

Definition db_market : db :=
  db0 <| tb_users := {[ 70%N := user_row "+966500000070" UserRole.CUSTOMER;
                        71%N := user_row "+966500000071" UserRole.COURIER;
                        72%N := user_row "+966500000072" UserRole.COURIER ]} |>
      <| tb_courier_profiles := {[ 71%N := courier_row; 72%N := courier_row ]} |>
      <| tb_orders := {[ 50%N := order_row ]} |>.

Definition courier_active (cid : uuid) (o : Order) : bool :=
  same (ord_courier_id o) (Some cid) && COURIER_ACTIVE (ord_status o).

Definition customer_active (cid : uuid) (o : Order) : bool :=
  same (ord_customer_id o) cid && CUSTOMER_ACTIVE (ord_status o).

(** First acceptance wins: a successful [accept_order] took a NEW order for an
    ACTIVE verified courier who stays within the limit of three active orders,
    assigned it, opened its one conversation and touched no other order; and in the
    resulting state every further attempt, by any courier, is refused. *)
Theorem accept_order_exclusive (enc : string → string → res string) (oid cid : uuid) (d : db) (o' : Order) (d' : db) :
  accept_order enc oid cid d = Ok (o', d') →
  (∃ o u p, tb_orders d !! oid = Some o ∧ ord_status o = OrderStatus.NEW ∧
    tb_users d !! cid = Some u ∧ usr_role u = UserRole.COURIER ∧ usr_status u = UserStatus.ACTIVE ∧
    tb_courier_profiles d !! cid = Some p ∧ cp_is_verified p = true ∧
    o' = o <| ord_courier_id := Some cid |> <| ord_status := OrderStatus.ASSIGNED |>
           <| ord_assigned_at := Some (db_now d) |>) ∧
  tb_orders d' = <[oid := o']> (tb_orders d) ∧
  (∃ id x, tb_conversations d' !! id = Some x ∧ cv_order_id x = oid ∧ cv_courier_id x = cid ∧
    cv_customer_id x = ord_customer_id o') ∧
  count_orders (courier_active cid) d' = count_orders (courier_active cid) d + 1 ∧
  count_orders (courier_active cid) d' ≤ 3 ∧
  ∀ cid2, ∃ e, accept_order enc oid cid2 d' = Raise e ∧ e ∈ [OrderAlreadyAssignedError; ForbiddenError; RedisError].
Proof.
  intros H. apply accept_order_ok in H as (H & _ & Hlt & (u & Hu & Hr & Hst) & (p & Hp & Hv)).
  apply assign_locked_ok in H as (o & Ho & Hs & -> & Eo & _ & (id & x & Hx & E1 & E2 & E3)).
  split; [by exists o, u, p|]. split; [done|]. split; [by exists id, x|].
  assert (count_orders (courier_active cid) d' = count_orders (courier_active cid) d + 1) as Ec.
  { eapply count_orders_insert; [exact Ho|exact Eo| |].
    - unfold courier_active. rewrite Hs. apply andb_false_r.
    - unfold courier_active, upd; cbn. by rewrite (proj2 (same_true _ _)). }
  split; [done|]. split; [rewrite Ec; fold (courier_active cid) in Hlt; unfold MAX_COURIER_ACTIVE in Hlt; lia|].
  intros cid2. eapply accept_taken; [rewrite Eo; apply lookup_insert_eq|done].
Qed.

Definition enc0 (text aad : string) : res string := Ok text.

Lemma accept_order_exclusive_witness :
  ∃ o' d', accept_order enc0 50 71 db_market = Ok (o', d') ∧
    count_orders (courier_active 71) d' = 1 ∧
    ∃ e, accept_order enc0 50 72 d' = Raise e ∧ e ∈ [OrderAlreadyAssignedError; ForbiddenError; RedisError].
Proof.
  destruct (accept_order enc0 50 71 db_market) as [[o' d']|e] eqn:E; [|vm_compute in E; discriminate E].
  exists o', d'. split; [done|]. destruct (accept_order_exclusive enc0 50 71 db_market o' d' E) as (_ & _ & _ & -> & _ & H).
  split; [vm_compute; reflexivity|exact (H 72%N)].
Defined.

(** A new order respects every limit: [create_order] succeeds only for a drop-off
    inside the Saudi bounding box with at most three confirmed photos, adds exactly
    one order, NEW and without courier, and keeps the customer at five active orders
    or fewer; other customers' counts do not change. *)
Theorem create_order_limits `{StorageClient} (n : Z) (cid : uuid) (data : NewOrderInput) (d : db) (oid : uuid) (d' : db) :
  create_order n cid data d = Ok (oid, d') →
  16000000 ≤ no_latitude data ≤ 33000000 ∧ 34000000 ≤ no_longitude data ≤ 56000000 ∧
  (length (no_request_media_keys data) ≤ 3)%nat ∧
  Forall (λ key, is_ok (confirm n key) = true) (no_request_media_keys data) ∧
  (∃ o, tb_orders d !! oid = None ∧ tb_orders d' = <[oid := o]> (tb_orders d) ∧
    ord_customer_id o = cid ∧ ord_courier_id o = None ∧ ord_status o = OrderStatus.NEW) ∧
  count_orders (customer_active cid) d' = count_orders (customer_active cid) d + 1 ∧
  count_orders (customer_active cid) d' ≤ 5 ∧
  ∀ c, c ≠ cid → count_orders (customer_active c) d' = count_orders (customer_active c) d.
Proof.
  intros Hr. assert (Hr' := Hr). apply create_order_ok in Hr' as (Hlt & Hn & Eo).
  unfold create_order in Hr. inv_run Hr. apply negb_false_iff in E, E0. unfold SA_LAT, SA_LNG in *. cbn in E, E0.
  apply andb_true_iff in E as [L1 L2], E0 as [L3 L4]. rewrite Z.leb_le in L1, L2, L3, L4.
  apply Nat.ltb_ge in E1. unfold MAX_REQUEST_MEDIA in E1.
  split; [done|]. split; [done|]. split; [done|]. split.
  { by apply for_each_lift_ok in E4 as [_ HF]. }
  split; [eexists; split; [exact Hn|]; split; [exact Eo|done]|].
  fold (customer_active cid) in Hlt. unfold MAX_CUSTOMER_ACTIVE in Hlt.
  assert (∀ c, count_orders (customer_active c) d' = count_orders (customer_active c) d + if same cid c then 1 else 0) as Ec.
  { intros c. unfold count_orders. rewrite Eo, map_total_insert_new by done. unfold customer_active at 1. cbn.
    rewrite andb_true_r. lia. }
  split; [by rewrite Ec, (proj2 (same_true _ _))|]. split; [rewrite Ec; destruct (same cid cid); lia|].
  intros c Hc. rewrite Ec. unfold same. rewrite bool_decide_eq_false_2 by done. lia.
Qed.

Definition order_data : NewOrderInput := mk_NewOrderInput None "Riyadh" 24713600 46675300 12 [good_key].

Lemma create_order_limits_witness :
  ∃ oid d', create_order (H := one_object) 4096 70 order_data db_market = Ok (oid, d') ∧
    count_orders (customer_active 70) d' = count_orders (customer_active 70) db_market + 1.
Proof.
  destruct (create_order (H := one_object) 4096 70 order_data db_market) as [[oid d']|e] eqn:E;
    [|vm_compute in E; discriminate E].
  exists oid, d'. split; [done|].
  by destruct (create_order_limits (H := one_object) 4096 70 order_data db_market oid d' E) as (_ & _ & _ & _ & _ & -> & _).
Defined.

(** Ownership without an existence oracle: reading or cancelling an order as someone
    who is neither its customer nor its courier fails with the same NotFoundError
    as for an order that does not exist, and a participant reads exactly the stored
    row. *)
Theorem order_visibility (oid actor : uuid) (reason : option string) (d : db) :
  (∀ o, tb_orders d !! oid = Some o → participant actor o = true → get_order_for_actor oid actor d = Ok (o, d)) ∧
  ((∀ o, tb_orders d !! oid = Some o → participant actor o = false) →
   get_order_for_actor oid actor d = Raise NotFoundError ∧ cancel_order oid actor reason d = Raise NotFoundError).
Proof.
  unfold get_order_for_actor, cancel_order. split.
  - intros o Ho Hp. rewrite (bind_run _ _ _ _ _ (order_for_actor_run _ _ _)), Ho, Hp. done.
  - intros Hnp. rewrite !(bind_run _ _ _ _ _ (order_for_actor_run _ _ _)).
    destruct (tb_orders d !! oid) as [o|] eqn:Ho; [|done]. by rewrite (Hnp o eq_refl).
Qed.

Lemma order_visibility_witness :
  get_order_for_actor 50 70 db_market = Ok (order_row, db_market) ∧
  get_order_for_actor 50 72 db_market = Raise NotFoundError ∧ cancel_order 50 72 None db_market = Raise NotFoundError.
Proof.
  split.
  - apply (order_visibility 50 70 None db_market); vm_compute; reflexivity.
  - apply (order_visibility 50 72 None db_market). intros o Ho. vm_compute in Ho. injection Ho as <-. vm_compute. reflexivity.
Defined.

(** ** Keyset pages *)

#[export] Instance order_after_transitive : Transitive order_after.
Proof. intros a b c. unfold order_after. lia. Qed.

#[export] Instance order_after_total : Total order_after.
Proof. intros a b. unfold order_after. lia. Qed.

Lemma page_rows_nodup (f : uuid → Order → bool) (d : db) :
  NoDup (fst <$> filter (λ p, f p.1 p.2 = true) (map_to_list (tb_orders d))).
Proof.
  eapply sublist_NoDup; [apply (NoDup_fst_map_to_list (tb_orders d))|].
  apply fmap_sublist, sublist_filter.
Qed.

Lemma page_rows_antisym (f : uuid → Order → bool) (d : db) (x y : uuid * Order) :
  x ∈ filter (λ p, f p.1 p.2 = true) (map_to_list (tb_orders d)) →
  y ∈ filter (λ p, f p.1 p.2 = true) (map_to_list (tb_orders d)) →
  order_after x y → order_after y x → x = y.
Proof.
  destruct x as [i o], y as [j q]. rewrite !list_elem_of_filter, !elem_of_map_to_list.
  intros [_ Hi] [_ Hj] H1 H2. unfold order_after in *. cbn in *. assert (i = j) as -> by lia. congruence.
Qed.

(** Walking the pages misses and repeats nothing: a page followed by the page
    anchored at its last order is exactly the page of their combined length, for
    every filter (a customer's orders, the available orders of a city); the rows
    come newest first. *)
Theorem keyset_pages_concatenate (f : uuid → Order → bool) (n k : nat) (d : db) (p q : list (uuid * Order))
    (id : uuid) (o : Order) :
  page f n None d = Ok (p ++ [(id, o)], d) → page f k (Some id) d = Ok (q, d) →
  page f (n + k) None d = Ok (p ++ (id, o) :: q, d) ∧ StronglySorted order_after (p ++ (id, o) :: q).
Proof.
  unfold page. cbn. intros [= Hp] [= Hq].
  set (mine := filter _ (map_to_list (tb_orders d))) in *.
  assert ((id, o) ∈ mine) as Hin.
  { rewrite <- (merge_sort_Permutation order_after mine).
    rewrite <- (take_drop n (merge_sort _ _)). unfold keyset_rows in Hp. rewrite Hp, !elem_of_app. left. right. left. }
  assert (tb_orders d !! id = Some o) as Ho.
  { unfold mine in Hin. apply list_elem_of_filter in Hin as [_ Hin]. by apply elem_of_map_to_list in Hin. }
  rewrite Ho in Hq. cbn in Hq.
  pose proof (keyset_pages fst order_after mine p q (id, o) n k (page_rows_nodup f d) (page_rows_antisym f d) Hp Hq) as E.
  unfold keyset_rows in E. split; [by rewrite E|]. rewrite <- E.
  eapply StronglySorted_app_1_l. rewrite take_drop. apply StronglySorted_merge_sort; apply _.
Qed.

Lemma keyset_pages_concatenate_witness :
  let d := db_market <| tb_orders := {[ 50%N := order_row; 51%N := order_row; 52%N := order_row ]} |> in
  let f := λ (_ : uuid) (o : Order), same (ord_customer_id o) 70%N in
  page f (1 + 5) None d = Ok ([] ++ (52%N, order_row) :: [(51%N, order_row); (50%N, order_row)], d) ∧
  StronglySorted order_after ([] ++ (52%N, order_row) :: [(51%N, order_row); (50%N, order_row)]).
Proof. intros d f. apply (keyset_pages_concatenate f 1 5 d); vm_compute; reflexivity. Defined.
