(* ===== verification/Races.v ===== *)
(** * Concurrent requests ([app/core/locks.py], [get_db], the accept race)

    Database.v runs transactions one after the other.  This file interleaves them, statement by statement, for the order
    rows: a transaction is a program [txn] of SELECTs, SELECTs FOR UPDATE, UPDATEs and Redis lock commands that ends in the commit or
    the rollback of [get_db]; [advance] is one statement of one of them, as PostgreSQL executes it under READ COMMITTED (a
    plain SELECT sees the last committed version, a row lock is held until the end of the transaction and waited for, an UPDATE
    assigns its columns to the latest version).  Time passes between any two statements, so Redis locks may expire while
    they are held.

    The first group of lemmas is about any transactions that update only rows they have locked: their commits are
    a sequence of legal changes, as if they had run one after the other.  [redis_lock] gives less: exclusion until it
    expires.  Then come the requests themselves: accepting ([OrderService.accept_order]) and settling a payment
    ([PaymentService._settle_invoice]) lock the row, cancelling ([OrderService.cancel_order]) does not. *)

From Stdlib Require Import ZArith Lia.
From stdpp Require Import base list gmap strings numbers option relations.
From S2P Require Import Prelude Errors Enums OrderState Tables Database Orders.
Open Scope Z_scope.

(** ** Transactions *)

Inductive txn :=
  | Return
  | Throw (e : exn)
  | Select (k : uuid) (f : option Order → txn)
  | SelectForUpdate (k : uuid) (f : option Order → txn)
  | Update (k : uuid) (g : Order → Order) (next : txn)
  | CountRows (p : Order → bool) (f : Z → txn)
  | SetNx (key : string) (ttl : Z) (f : option N → txn)  (* the token, when it was set *)
  | CompareDelete (key : string) (token : N) (next : txn).

(** [finally: rel], on return and on exception. *)
Fixpoint finally_ (rel : txn → txn) (t : txn) : txn :=
  match t with
  | Return => rel Return
  | Throw e => rel (Throw e)
  | Select k f => Select k (λ o, finally_ rel (f o))
  | SelectForUpdate k f => SelectForUpdate k (λ o, finally_ rel (f o))
  | Update k g n => Update k g (finally_ rel n)
  | CountRows p f => CountRows p (λ z, finally_ rel (f z))
  | SetNx key ttl f => SetNx key ttl (λ o, finally_ rel (f o))
  | CompareDelete key tok n => CompareDelete key tok (finally_ rel n)
  end.

(** [redis_lock]: a random token, [SET key token NX EX ttl], and the Lua compare-and-delete on the way out. *)
Definition redis_lock (key : string) (ttl : Z) (busy : exn) (body : txn) : txn :=
  SetNx key ttl (λ acquired,
    match acquired with
    | None => Throw busy
    | Some token => finally_ (CompareDelete key token) body
    end).

(** ** The machine *)

Abbreviation pid := N (only parsing).

Record proc := mk_proc { pc : txn; own : gmap uuid Order }.

Record change := mk_change { ch_pid : pid; ch_order : uuid; ch_old : Order; ch_new : Order }.

(** [m_log] lists the committed changes and [m_issued] who drew which token; no statement reads them. *)
Record mach := mk_mach {
  m_rows : gmap uuid Order;
  m_held : gmap uuid pid;
  m_redis : gmap string (N * Z);
  m_clock : Z;
  m_tokens : N;
  m_procs : gmap pid proc;
  m_done : gmap pid (res ());
  m_log : list change;
  m_issued : gmap N pid;
}.

(** What a transaction sees of a row: its own version, else the committed one. *)
Definition visible (m : mach) (o : gmap uuid Order) (k : uuid) : option Order :=
  match o !! k with Some r => Some r | None => m_rows m !! k end.

(** No other transaction holds the lock on the row. *)
Definition lock_free (m : mach) (p : pid) (k : uuid) : bool :=
  match m_held m !! k with Some q => bool_decide (q = p) | None => true end.

Definition key_live (m : mach) (key : string) : option N :=
  match m_redis m !! key with Some (n, e) => if m_clock m <? e then Some n else None | None => None end.

Definition goto (p : pid) (t : txn) (o : gmap uuid Order) (m : mach) : mach :=
  mk_mach (m_rows m) (m_held m) (m_redis m) (m_clock m) (m_tokens m) (<[p := mk_proc t o]> (m_procs m)) (m_done m) (m_log m) (m_issued m).

Definition hold_row (p : pid) (k : uuid) (m : mach) : mach :=
  mk_mach (m_rows m) (<[k := p]> (m_held m)) (m_redis m) (m_clock m) (m_tokens m) (m_procs m) (m_done m) (m_log m) (m_issued m).

Definition with_redis (r : gmap string (N * Z)) (m : mach) : mach :=
  mk_mach (m_rows m) (m_held m) r (m_clock m) (m_tokens m) (m_procs m) (m_done m) (m_log m) (m_issued m).

Definition issue_token (p : pid) (m : mach) : mach :=
  mk_mach (m_rows m) (m_held m) (m_redis m) (m_clock m) (m_tokens m + 1) (m_procs m) (m_done m) (m_log m) (<[m_tokens m := p]> (m_issued m)).

Definition changes (p : pid) (rows : gmap uuid Order) (l : list (uuid * Order)) : list change :=
  omap (λ x, (λ old, mk_change p x.1 old x.2) <$> rows !! x.1) l.

(** The end of a transaction: its versions become the committed ones, or vanish; its row locks are released. *)
Definition finish (p : pid) (r : res ()) (o : gmap uuid Order) (m : mach) : mach :=
  mk_mach (o ∪ m_rows m) (filter (λ x, x.2 ≠ p) (m_held m)) (m_redis m) (m_clock m) (m_tokens m) (delete p (m_procs m))
    (<[p := r]> (m_done m)) (m_log m ++ changes p (m_rows m) (map_to_list o)) (m_issued m).

(** One statement of transaction [p]; [None] when there is no such transaction or it waits for a row lock. *)
Definition advance (p : pid) (m : mach) : option mach :=
  match m_procs m !! p with
  | None => None
  | Some (mk_proc t o) =>
      match t with
      | Return => Some (finish p (Ok ()) o m)
      | Throw e => Some (finish p (Raise e) ∅ m)
      | Select k f => Some (goto p (f (visible m o k)) o m)
      | SelectForUpdate k f =>
          match visible m o k with
          | None => Some (goto p (f None) o m)
          | Some r => if lock_free m p k then Some (goto p (f (Some r)) o (hold_row p k m)) else None
          end
      | Update k g n =>
          match visible m o k with
          | None => Some (goto p n o m)
          | Some r => if lock_free m p k then Some (goto p n (<[k := g r]> o) (hold_row p k m)) else None
          end
      | CountRows f c => Some (goto p (c (Z.of_nat (length (List.filter (λ x, f x.2) (map_to_list (o ∪ m_rows m)))))) o m)
      | SetNx key ttl f =>
          match key_live m key with
          | Some _ => Some (goto p (f None) o (issue_token p m))
          | None => Some (goto p (f (Some (m_tokens m))) o
                      (issue_token p (with_redis (<[key := (m_tokens m, m_clock m + ttl)]> (m_redis m)) m)))
          end
      | CompareDelete key tok n =>
          Some (goto p n o (if bool_decide (key_live m key = Some tok) then with_redis (delete key (m_redis m)) m else m))
      end
  end.

Inductive mstep : mach → mach → Prop :=
  | mstep_proc p m m' : advance p m = Some m' → mstep m m'
  | mstep_tick n m : 0 ≤ n →
      mstep m (mk_mach (m_rows m) (m_held m) (m_redis m) (m_clock m + n) (m_tokens m) (m_procs m) (m_done m) (m_log m) (m_issued m)).

(** The start: requests that have not run yet. *)
Definition initial (rows : gmap uuid Order) (now : Z) (ps : gmap pid txn) : mach :=
  mk_mach rows ∅ ∅ now 0 ((λ t, mk_proc t ∅) <$> ps) ∅ [] ∅.

(** A schedule: which transaction runs its next statement; a transaction that waits is skipped. *)
Definition schedule (l : list pid) (m : mach) : mach := foldl (λ m p, default m (advance p m)) m l.

(** ** Transactions that lock what they change

    [guarded R Q have o toks t]: holding the locks of [have] (with the versions it found), with versions [o] of its own and knowing the tokens
    [toks], [t] updates only rows it has locked, each from the version found to one related by [R]; it releases
    only with tokens it drew; and it returns only with versions satisfying [Q]. *)

Section Guarded.
Context (R : uuid → Order → Order → Prop) (Q : gmap uuid Order → Prop).

Fixpoint guarded (have o : gmap uuid Order) (toks : gset N) (t : txn) : Prop :=
  match t with
  | Return => Q o
  | Throw _ => True
  | Select _ f => ∀ x, guarded have o toks (f x)
  | SelectForUpdate k f =>
      match have !! k with
      | Some r => guarded have o toks (f (Some (default r (o !! k))))
      | None => guarded have o toks (f None) ∧ ∀ r, guarded (<[k := r]> have) o toks (f (Some r))
      end
  | Update k g n =>
      match have !! k with
      | Some r => let new := g (default r (o !! k)) in R k r new ∧ guarded have (<[k := new]> o) toks n
      | None => False
      end
  | CountRows _ f => ∀ z, guarded have o toks (f z)
  | SetNx _ _ f => guarded have o toks (f None) ∧ ∀ n, guarded have o ({[n]} ∪ toks) (f (Some n))
  | CompareDelete _ n t' => n ∈ toks ∧ guarded have o toks t'
  end.
End Guarded.

(** What a running transaction is entitled to: its locks with their committed versions, its own versions of locked
    rows, its tokens. *)
Record entitled (R : uuid → Order → Order → Prop) (m : mach) (p : pid) (have o : gmap uuid Order) (toks : gset N) : Prop := {
  en_locks : ∀ k r, have !! k = Some r → m_held m !! k = Some p ∧ m_rows m !! k = Some r;
  en_own : ∀ k r', o !! k = Some r' → ∃ r, have !! k = Some r ∧ R k r r';
  en_tokens : ∀ n, n ∈ toks → m_issued m !! n = Some p;
}.

(** The committed rows come from the first ones by the logged changes, one at a time. *)
Inductive chain (rows0 : gmap uuid Order) : list change → gmap uuid Order → Prop :=
  | chain_nil : chain rows0 [] rows0
  | chain_snoc l rows c : chain rows0 l rows → rows !! ch_order c = Some (ch_old c) →
      chain rows0 (l ++ [c]) (<[ch_order c := ch_new c]> rows).

Section Machine.
Context (R : pid → uuid → Order → Order → Prop) (Q : pid → gmap uuid Order → Prop) (rows0 : gmap uuid Order).

Record serial (m : mach) : Prop := {
  sr_procs : ∀ p t o, m_procs m !! p = Some (mk_proc t o) →
    ∃ have toks, guarded (R p) (Q p) have o toks t ∧ entitled (R p) m p have o toks;
  sr_held : ∀ k p, m_held m !! k = Some p → is_Some (m_procs m !! p);
  sr_chain : chain rows0 (m_log m) (m_rows m);
  sr_log : Forall (λ c, R (ch_pid c) (ch_order c) (ch_old c) (ch_new c)) (m_log m);
  sr_done : ∀ p, m_done m !! p = Some (Ok ()) → ∃ o, Q p o ∧
    ∀ k r, o !! k = Some r → ∃ old, mk_change p k old r ∈ m_log m;
  sr_tokens : ∀ n, is_Some (m_issued m !! n) → (n < m_tokens m)%N;
}.

(** Committing the versions of rows that are locked. *)
Lemma chain_commit (p : pid) (l : list (uuid * Order)) : ∀ log rows,
  NoDup l.*1 → (∀ x, x ∈ l → is_Some (rows !! x.1)) → chain rows0 log rows →
  chain rows0 (log ++ changes p rows l) (list_to_map l ∪ rows).
Proof.
  induction l as [|[k r] l IH] using rev_ind; intros log rows Hnd Hl Hc.
  - cbn. rewrite app_nil_r. by rewrite (left_id_L ∅ (∪)).
  - rewrite fmap_app in Hnd. apply NoDup_app in Hnd as (Hnd & Hk & _). cbn in Hk.
    assert (k ∉ l.*1) as Hkl by set_solver.
    destruct (Hl (k, r) ltac:(set_solver)) as [old Hold]. cbn in Hold.
    unfold changes. rewrite omap_app, app_assoc. cbn [omap list_omap fst snd]. rewrite Hold. cbn [fmap option_fmap option_map].
    assert (list_to_map (l ++ [(k, r)]) ∪ rows = <[k := r]> (list_to_map l ∪ rows)) as ->.
    { rewrite list_to_map_snoc by done. by rewrite insert_union_l. }
    apply (chain_snoc rows0 _ _ (mk_change p k old r)).
    + apply IH; [done| |done]. intros x Hx. apply Hl. set_solver.
    + cbn. rewrite lookup_union_r; [done|]. by apply not_elem_of_list_to_map_1.
Qed.

(** A step of [q] that leaves the rows and locks of [p] alone keeps what [p] is entitled to. *)
Lemma entitled_frame (m m' : mach) (p : pid) (have o : gmap uuid Order) (toks : gset N) :
  (∀ k, m_held m !! k = Some p → m_held m' !! k = Some p ∧ m_rows m' !! k = m_rows m !! k) →
  (∀ n, m_issued m !! n = Some p → m_issued m' !! n = Some p) →
  entitled (R p) m p have o toks → entitled (R p) m' p have o toks.
Proof.
  intros Hh Hi [E1 E2 E3]. constructor; [|done|by intros n Hn; apply Hi, E3].
  intros k r Hk. destruct (E1 k r Hk) as [H1 H2]. destruct (Hh k H1) as [H3 H4]. split; [done|congruence].
Qed.

Lemma guarded_visible (m : mach) (p : pid) (have o : gmap uuid Order) (toks : gset N) (k : uuid) (r : Order) :
  entitled (R p) m p have o toks → have !! k = Some r → visible m o k = Some (default r (o !! k)).
Proof. intros [E1 _ _] Hk. unfold visible. destruct (o !! k); [done|]. by apply E1. Qed.

Lemma visible_committed (m : mach) (p : pid) (have o : gmap uuid Order) (toks : gset N) (k : uuid) :
  entitled (R p) m p have o toks → have !! k = None → visible m o k = m_rows m !! k.
Proof.
  intros [_ E2 _] Hk. unfold visible. destruct (o !! k) as [r|] eqn:Ho; [|done]. destruct (E2 k r Ho) as (x & Hx & _). congruence.
Qed.

(** A statement of [p] that commits nothing. *)
Lemma serial_local (m m' : mach) (p : pid) (x : proc) (t : txn) (have o : gmap uuid Order) (toks : gset N) :
  serial m → m_procs m !! p = Some x →
  m_rows m' = m_rows m → m_log m' = m_log m → m_done m' = m_done m → m_procs m' = <[p := mk_proc t o]> (m_procs m) →
  (∀ k q, q ≠ p → m_held m !! k = Some q → m_held m' !! k = Some q) →
  (∀ k q, m_held m' !! k = Some q → q = p ∨ m_held m !! k = Some q) →
  (∀ n q, m_issued m !! n = Some q → m_issued m' !! n = Some q) →
  (∀ n, is_Some (m_issued m' !! n) → (n < m_tokens m')%N) →
  guarded (R p) (Q p) have o toks t → entitled (R p) m' p have o toks → serial m'.
Proof.
  intros [S1 S2 S3 S4 S5 S6] Hp Er El Ed Ep Hh Hh' Hi Ht Hg He.
  constructor; rewrite ?Er, ?El, ?Ed, ?Ep; try done.
  - intros q t' o' [[<- [= <- <-]]|[Hq Hx]]%lookup_insert_Some; [by exists have, toks|].
    destruct (S1 q t' o' Hx) as (h & tk & Hg' & He'). exists h, tk. split; [done|]. eapply entitled_frame; [| |exact He'].
    + intros k Hk. split; [by apply Hh|by rewrite Er].
    + intros n. apply Hi.
  - intros k q [->|Hk]%Hh'; [by rewrite lookup_insert_eq|].
    destruct (decide (q = p)) as [->|]; [by rewrite lookup_insert_eq|]. rewrite lookup_insert_ne by done. by eapply S2.
Qed.

Lemma changes_in (p : pid) (rows : gmap uuid Order) (l : list (uuid * Order)) (c : change) :
  c ∈ changes p rows l ↔ ch_pid c = p ∧ (ch_order c, ch_new c) ∈ l ∧ rows !! ch_order c = Some (ch_old c).
Proof.
  unfold changes. rewrite list_elem_of_omap. split.
  - intros ([k r] & Hx & Hc). cbn in Hc. destruct (rows !! k) as [old|] eqn:E; [|done]. injection Hc as <-. done.
  - intros (<- & Hx & Hr). exists (ch_order c, ch_new c). split; [done|]. cbn. rewrite Hr. by destruct c.
Qed.

(** The end of a transaction that committed [o] ([∅] when it rolled back). *)
Lemma serial_finish (m : mach) (p : pid) (x : proc) (r : res ()) (have o : gmap uuid Order) (toks : gset N) :
  serial m → m_procs m !! p = Some x → entitled (R p) m p have o toks → (r = Ok () → Q p o) → serial (finish p r o m).
Proof.
  intros [S1 S2 S3 S4 S5 S6] Hp He Hq. pose proof He as [E1 E2 E3].
  constructor; cbn; try done.
  - intros q t o' [Hqp Hx]%lookup_delete_Some. destruct (S1 q t o' Hx) as (h & tk & Hg' & He'). exists h, tk. split; [done|].
    eapply entitled_frame; [| |exact He']; [|done]. intros k Hk. cbn. split.
    + apply map_lookup_filter_Some. done.
    + rewrite lookup_union_r; [done|]. destruct (o !! k) as [y|] eqn:Ho; [|done].
      destruct (E2 k y Ho) as (z & Hz & _). destruct (E1 k z Hz) as [Hk' _]. congruence.
  - intros k q [Hk Hq']%map_lookup_filter_Some. cbn in Hq'. rewrite lookup_delete_ne by done. by eapply S2.
  - rewrite <- (list_to_map_to_list o) at 2. apply chain_commit; [apply NoDup_fst_map_to_list| |done].
    intros [k y] Hy. apply elem_of_map_to_list in Hy. destruct (E2 k y Hy) as (z & Hz & _). destruct (E1 k z Hz) as [_ Hz']. cbn. rewrite Hz'. by eexists.
  - apply Forall_app. split; [done|]. apply Forall_forall. intros c (<- & Hc & Hr)%changes_in.
    apply elem_of_map_to_list in Hc. destruct (E2 _ _ Hc) as (z & Hz & Hrel). destruct (E1 _ _ Hz) as [_ Hz']. congruence.
  - intros q [[<- Er]|[_ Hd]]%lookup_insert_Some.
    + exists o. split; [by apply Hq|]. intros k y Hy. destruct (E2 k y Hy) as (z & Hz & _). destruct (E1 k z Hz) as [_ Hz'].
      exists z. apply elem_of_app. right. apply changes_in. cbn. by rewrite elem_of_map_to_list.
    + destruct (S5 q Hd) as (o' & Hq' & Ho'). exists o'. split; [done|]. intros k y Hy. destruct (Ho' k y Hy) as [old Hin].
      exists old. apply elem_of_app. by left.
Qed.

Lemma lock_free_other (m : mach) (p q : pid) (k : uuid) : lock_free m p k = true → m_held m !! k = Some q → q = p.
Proof. unfold lock_free. intros H E. rewrite E in H. by apply bool_decide_eq_true in H. Qed.

(** What changes when [p] takes a row lock that is free. *)
Lemma hold_row_facts (m : mach) (p : pid) (k : uuid) : lock_free m p k = true →
  (∀ j q, q ≠ p → m_held m !! j = Some q → m_held (hold_row p k m) !! j = Some q) ∧
  (∀ j q, m_held (hold_row p k m) !! j = Some q → q = p ∨ m_held m !! j = Some q).
Proof.
  intros Hf. cbn. split.
  - intros j q Hq Hj. rewrite lookup_insert_ne; [done|]. intros ->. by eapply Hq, lock_free_other.
  - intros j q [[_ <-]|[_ Hj]]%lookup_insert_Some; auto.
Qed.

(** Statements that touch neither locks nor tokens. *)
Ltac local_step Hs Hp := eapply (serial_local _ _ _ _ _ _ _ _ Hs Hp); [reflexivity|reflexivity|reflexivity|reflexivity|by auto|by auto|by auto|exact (sr_tokens _ Hs)|..].

Lemma entitled_hold (m : mach) (p : pid) (have o : gmap uuid Order) (toks : gset N) (k : uuid) (r : Order) (t : txn) (o' : gmap uuid Order) :
  entitled (R p) m p have o toks → m_rows m !! k = Some r → (∀ j y, o' !! j = Some y → ∃ z, <[k := r]> have !! j = Some z ∧ R p j z y) →
  entitled (R p) (goto p t o' (hold_row p k m)) p (<[k := r]> have) o' toks.
Proof.
  intros [E1 E2 E3] Hr Ho. constructor; cbn; [|done|done].
  intros j y [[<- <-]|[Hj Hy]]%lookup_insert_Some; [by rewrite lookup_insert_eq|]. rewrite lookup_insert_ne by done. by apply E1.
Qed.

Lemma serial_lock (m : mach) (p : pid) (x : proc) (k : uuid) (r : Order) (t : txn) (have o o' : gmap uuid Order) (toks : gset N) :
  serial m → m_procs m !! p = Some x → entitled (R p) m p have o toks → lock_free m p k = true → m_rows m !! k = Some r →
  (∀ j y, o' !! j = Some y → ∃ z, <[k := r]> have !! j = Some z ∧ R p j z y) →
  guarded (R p) (Q p) (<[k := r]> have) o' toks t → serial (goto p t o' (hold_row p k m)).
Proof.
  intros Hs Hp He Hf Hr Ho Hg. destruct (hold_row_facts m p k Hf) as [H1 H2].
  eapply (serial_local m _ p x t (<[k := r]> have) o' toks Hs Hp);
    [reflexivity|reflexivity|reflexivity|reflexivity|exact H1|exact H2|by auto|exact (sr_tokens _ Hs)|exact Hg|].
  by apply (entitled_hold _ _ _ o).
Qed.

Lemma serial_advance (m m' : mach) (p : pid) : serial m → advance p m = Some m' → serial m'.
Proof.
  intros Hs Ha. unfold advance in Ha. destruct (m_procs m !! p) as [[t o]|] eqn:Hp; [|done].
  destruct (sr_procs _ Hs p t o Hp) as (have & toks & Hg & He). destruct t as [|e|k f|k f|k g n|c f|key ttl f|key tok n]; cbn [guarded] in Hg.
  - injection Ha as <-. by eapply serial_finish.
  - injection Ha as <-. eapply (serial_finish _ _ _ _ have ∅ toks); [done|done| |done]. destruct He as [E1 _ E3]. by constructor.
  - injection Ha as <-. local_step Hs Hp; [apply Hg|]. by destruct He; constructor.
  - destruct (have !! k) as [r|] eqn:Hk.
    + rewrite (guarded_visible _ _ _ _ _ _ _ He Hk) in Ha. destruct (lock_free m p k) eqn:Hf; [|done]. injection Ha as <-.
      destruct (en_locks _ _ _ _ _ _ He k r Hk) as [_ Hr]. eapply serial_lock; [done|done|exact He|done|exact Hr|..].
      * intros j y Hy. rewrite insert_id by done. by apply (en_own _ _ _ _ _ _ He).
      * by rewrite insert_id.
    + rewrite (visible_committed _ _ _ _ _ _ He Hk) in Ha. destruct (m_rows m !! k) as [r|] eqn:Hr.
      * destruct (lock_free m p k) eqn:Hf; [|done]. injection Ha as <-. eapply serial_lock; [done|done|exact He|done|exact Hr| |apply Hg].
        intros j y Hy. destruct (en_own _ _ _ _ _ _ He j y Hy) as (z & Hz & Hrel). exists z. split; [|done].
        rewrite lookup_insert_ne; [done|congruence].
      * injection Ha as <-. local_step Hs Hp; [apply Hg|]. by destruct He; constructor.
  - destruct (have !! k) as [r|] eqn:Hk; [|done]. cbv zeta in Hg. destruct Hg as [Hrel Hg].
    rewrite (guarded_visible _ _ _ _ _ _ _ He Hk) in Ha. destruct (lock_free m p k) eqn:Hf; [|done]. injection Ha as <-.
    destruct (en_locks _ _ _ _ _ _ He k r Hk) as [_ Hr]. eapply serial_lock; [done|done|exact He|done|exact Hr|..].
    + rewrite (insert_id have k r Hk). intros j y [[<- <-]|[_ Hy]]%lookup_insert_Some; [by exists r|by apply (en_own _ _ _ _ _ _ He)].
    + by rewrite (insert_id have k r Hk).
  - injection Ha as <-. local_step Hs Hp; [apply Hg|]. by destruct He; constructor.
  - assert (∀ n q, m_issued m !! n = Some q → <[m_tokens m := p]> (m_issued m) !! n = Some q) as Hi.
    { intros n q Hn. rewrite lookup_insert_ne; [done|]. intros <-. pose proof (sr_tokens _ Hs (m_tokens m) ltac:(by eexists)). lia. }
    assert (∀ n, is_Some (<[m_tokens m := p]> (m_issued m) !! n) → (n < m_tokens m + 1)%N) as Ht.
    { intros n. destruct (decide (n = m_tokens m)) as [->|Hn]; [lia|]. rewrite lookup_insert_ne by done. intros H%(sr_tokens _ Hs). lia. }
    destruct Hg as [Hg1 Hg2]. destruct (key_live m key); injection Ha as <-.
    + eapply (serial_local m _ p _ _ have o toks Hs Hp);
        [reflexivity|reflexivity|reflexivity|reflexivity|by auto|by auto|exact Hi|exact Ht|exact Hg1|]. destruct He as [E1 E2 E3]. constructor; [done|done|].
      intros i Hn. cbn. apply Hi, E3, Hn.
    + eapply (serial_local m _ p _ _ have o ({[m_tokens m]} ∪ toks) Hs Hp);
        [reflexivity|reflexivity|reflexivity|reflexivity|by auto|by auto|exact Hi|exact Ht|apply Hg2|].
      destruct He as [E1 E2 E3]. constructor; [done|done|]. intros i [->%elem_of_singleton|Hn]%elem_of_union; cbn.
      * by rewrite lookup_insert_eq.
      * apply Hi, E3, Hn.
  - destruct Hg as [_ Hg]. injection Ha as <-. destruct (bool_decide _); local_step Hs Hp; try exact Hg; by destruct He; constructor.
Qed.

Lemma serial_reachable (m m' : mach) : serial m → rtc mstep m m' → serial m'.
Proof.
  intros Hs Hr. induction Hr as [|m m1 m' Hstep _ IH]; [done|]. apply IH. destruct Hstep as [p m m1 Ha|n m Hn]; [by eapply serial_advance|].
  destruct Hs as [S1 S2 S3 S4 S5 S6]. constructor; try done. intros p t o Hp. destruct (S1 p t o Hp) as (h & tk & Hg & [E1 E2 E3]).
  exists h, tk. split; [done|]. by constructor.
Qed.

Lemma serial_initial (now : Z) (ps : gmap pid txn) :
  (∀ p t, ps !! p = Some t → guarded (R p) (Q p) ∅ ∅ ∅ t) → serial (initial rows0 now ps).
Proof.
  intros Hg. constructor; cbn; try done.
  - intros p t o. rewrite lookup_fmap, fmap_Some. intros (t' & Ht & [= -> ->]). exists ∅, ∅. split; [by apply Hg|]. constructor; done.
  - constructor.
  - intros n [q Hq]. by rewrite lookup_empty in Hq.
Qed.

(** [redis_lock] excludes until it expires: an unexpired lock of [p] survives every statement of the others and the passage of time. *)
Lemma lock_survives (m m' : mach) (key : string) (n : N) (e : Z) (p : pid) :
  serial m → m_redis m !! key = Some (n, e) → m_issued m !! n = Some p → m_clock m < e → mstep m m' →
  m_redis m' !! key = Some (n, e) ∨ advance p m = Some m'.
Proof.
  intros Hs Hk Hn He Hst. destruct Hst as [q m1 m1' Ha|j m1 Hj]; [|left; exact Hk]. destruct (decide (q = p)) as [->|Hq]; [by right|]. left.
  assert (key_live m1 key = Some n) as Hl by (unfold key_live; rewrite Hk; by destruct (Z.ltb_spec (m_clock m1) e); [|lia]).
  unfold advance in Ha. destruct (m_procs m1 !! q) as [[t o]|] eqn:Hp; [|done].
  destruct (sr_procs _ Hs q t o Hp) as (have & toks & Hg & Hen).
  destruct t as [|ex|k f|k f|k g t'|c f|key' ttl f|key' tok t']; cbn [guarded] in Hg;
    try (injection Ha as <-; exact Hk); try (by destruct (visible m1 o k); [destruct (lock_free m1 q k)|]; simplify_eq).
  - destruct (decide (key' = key)) as [->|Hne].
    + rewrite Hl in Ha. injection Ha as <-. exact Hk.
    + destruct (key_live m1 key'); injection Ha as <-; cbn; [exact Hk|]. by rewrite lookup_insert_ne.
  - injection Ha as <-. case_bool_decide as Hd; [|exact Hk]. cbn. rewrite lookup_delete_ne; [exact Hk|]. intros ->.
    rewrite Hl in Hd. injection Hd as ->. destruct Hg as [Ht _]. apply (en_tokens _ _ _ _ _ _ Hen) in Ht. congruence.
Qed.
End Machine.

(** ** The requests *)

Definition ACCEPT_LOCK_TTL : Z := 10.

Definition assigned_row (courier_id : uuid) (order : Order) : Order :=
  order <| ord_courier_id := Some courier_id |> <| ord_status := OrderStatus.ASSIGNED |>.

(** [accept_order] after the checks on the courier's profile; of [_assign_locked], what it does to the order row. *)
Definition accept_txn (order_id courier_id : uuid) : txn :=
  CountRows (λ o, same (ord_courier_id o) (Some courier_id) && COURIER_ACTIVE (ord_status o)) (λ active,
    if MAX_COURIER_ACTIVE <=? active then Throw ForbiddenError
    else redis_lock (accept_lock_key order_id) ACCEPT_LOCK_TTL OrderAlreadyAssignedError
      (SelectForUpdate order_id (λ o,
        match o with
        | None => Throw NotFoundError
        | Some order =>
            if negb (same (ord_status order) OrderStatus.NEW) then Throw OrderAlreadyAssignedError
            else Update order_id (assigned_row courier_id) Return
        end))).

(** Of [_settle_invoice], what it does to the order row, under its FOR UPDATE. *)
Definition settle_txn (order_id : uuid) : txn :=
  SelectForUpdate order_id (λ o,
    match o with
    | None => Throw NotFoundError
    | Some order =>
        if can_transition (ord_status order) OrderStatus.IN_PROGRESS
        then Update order_id (λ r, r <| ord_status := OrderStatus.IN_PROGRESS |>) Return
        else Throw InvalidStateTransitionError
    end).

(** [cancel_order]: a plain SELECT, then the UPDATE of the two columns it changed. *)
Definition cancel_txn (order_id actor_id : uuid) (reason : option string) : txn :=
  Select order_id (λ o,
    match o with
    | Some order =>
        if participant actor_id order then
          if can_transition (ord_status order) OrderStatus.CANCELLED
          then Update order_id (λ r, r <| ord_status := OrderStatus.CANCELLED |> <| ord_cancelled_reason := reason |>) Return
          else Throw InvalidStateTransitionError
        else Throw NotFoundError
    | None => Throw NotFoundError
    end).

Inductive locking_request := Accept (order_id courier_id : uuid) | Settle (order_id : uuid).

Definition program (q : locking_request) : txn :=
  match q with Accept o c => accept_txn o c | Settle o => settle_txn o end.

(** What each is allowed to do to an order, and what it has done when it returns. *)
Definition allowed (q : locking_request) (k : uuid) (old new : Order) : Prop :=
  match q with
  | Accept o c => k = o ∧ ord_status old = OrderStatus.NEW ∧ new = assigned_row c old
  | Settle o => k = o ∧ ord_status old = OrderStatus.WAITING_PAYMENT ∧ new = old <| ord_status := OrderStatus.IN_PROGRESS |>
  end.

Definition achieved (q : locking_request) (o : gmap uuid Order) : Prop :=
  match q with Accept k c => ∃ r, o !! k = Some r ∧ ord_courier_id r = Some c | Settle k => is_Some (o !! k) end.

Lemma accept_guarded (k c : uuid) (q := Accept k c) : guarded (allowed q) (achieved q) ∅ ∅ ∅ (accept_txn k c).
Proof.
  cbn. intros z. destruct (_ <=? _); [done|]. cbn. split; [done|]. intros n. rewrite lookup_empty. split; [set_solver|]. intros r.
  destruct (same (ord_status r) OrderStatus.NEW) eqn:E; cbn; [|set_solver]. apply (proj1 (same_true _ _)) in E.
  rewrite lookup_insert_eq, lookup_empty. cbn. split; [done|]. split; [set_solver|]. exists (assigned_row c r). by rewrite lookup_insert_eq.
Qed.

Lemma into_progress (s : order_status) : can_transition s OrderStatus.IN_PROGRESS = true → s = OrderStatus.WAITING_PAYMENT.
Proof. by destruct s; vm_compute. Qed.

Lemma settle_guarded (k : uuid) (q := Settle k) : guarded (allowed q) (achieved q) ∅ ∅ ∅ (settle_txn k).
Proof.
  cbn. rewrite lookup_empty. split; [done|]. intros r. destruct (can_transition _ _) eqn:E; [|done]. apply into_progress in E. cbn.
  rewrite lookup_insert_eq, lookup_empty. cbn. split; [done|]. rewrite lookup_insert_eq. by eexists.
Qed.

(** ** What the log says *)

Definition lawful (c : change) : Prop :=
  can_transition (ord_status (ch_old c)) (ord_status (ch_new c)) = true ∧ ord_status (ch_new c) ≠ OrderStatus.NEW ∧
  (ord_status (ch_old c) ≠ OrderStatus.NEW → ord_courier_id (ch_new c) = ord_courier_id (ch_old c)).

Lemma allowed_lawful (q : locking_request) (c : change) : allowed q (ch_order c) (ch_old c) (ch_new c) → lawful c.
Proof. unfold lawful. destruct q; cbn; intros (_ & -> & ->); cbn; done. Qed.

(** An order leaves NEW once, and keeps the courier it left with. *)
Lemma chain_lawful (rows0 rows : gmap uuid Order) (l : list change) : chain rows0 l rows → Forall lawful l →
  (∀ c, c ∈ l → ∃ r, rows !! ch_order c = Some r ∧ ord_status r ≠ OrderStatus.NEW ∧
     (ord_status (ch_old c) = OrderStatus.NEW → ord_courier_id r = ord_courier_id (ch_new c))) ∧
  (∀ c c', c ∈ l → c' ∈ l → ch_order c = ch_order c' → ord_status (ch_old c) = OrderStatus.NEW → ord_status (ch_old c') = OrderStatus.NEW → c = c').
Proof.
  induction 1 as [|l rows c Hc IH Hold]; intros Hl; [split; set_solver|].
  apply Forall_app in Hl as [Hl [(_ & Hn & Hk) _]%Forall_cons]. destruct (IH Hl) as [IH1 IH2]. clear IH. split.
  - intros d [Hd| ->%list_elem_of_singleton]%elem_of_app; [|exists (ch_new c); by rewrite lookup_insert_eq].
    destruct (IH1 d Hd) as (r & Hr & Hrn & Hrc). destruct (decide (ch_order c = ch_order d)) as [E|Hne].
    + rewrite <- E, lookup_insert_eq. rewrite <- E, Hold in Hr. injection Hr as <-. exists (ch_new c). split; [done|]. split; [done|].
      intros Hdn. rewrite Hk by done. by apply Hrc.
    + rewrite lookup_insert_ne by done. by exists r.
  - assert (∀ d, d ∈ l → ch_order d = ch_order c → ord_status (ch_old c) ≠ OrderStatus.NEW) as Hno.
    { intros d Hd E. destruct (IH1 d Hd) as (r & Hr & Hrn & _). rewrite E, Hold in Hr. by injection Hr as <-. }
    intros d d' [Hd| ->%list_elem_of_singleton]%elem_of_app [Hd'| ->%list_elem_of_singleton]%elem_of_app E N N'; [by apply IH2|..|done].
    + by destruct (Hno d Hd E).
    + by destruct (Hno d' Hd' (eq_sym E)).
Qed.

Section Requests.
Context (rows : gmap uuid Order) (now : Z) (qs : gmap pid locking_request).

Definition rel_of (p : pid) (k : uuid) (old new : Order) : Prop := match qs !! p with Some q => allowed q k old new | None => False end.
Definition end_of (p : pid) (o : gmap uuid Order) : Prop := match qs !! p with Some q => achieved q o | None => False end.

Lemma requests_serial (m : mach) : rtc mstep (initial rows now (program <$> qs)) m → serial rel_of end_of rows m.
Proof.
  apply serial_reachable, serial_initial. intros p t. rewrite lookup_fmap, fmap_Some. intros (q & Hq & ->).
  assert (∀ t, guarded (allowed q) (achieved q) ∅ ∅ ∅ t → guarded (rel_of p) (end_of p) ∅ ∅ ∅ t) as Hg.
  { intros t. unfold rel_of, end_of. by rewrite Hq. }
  apply Hg. destruct q; [apply accept_guarded|apply settle_guarded].
Qed.

Lemma requests_lawful (m : mach) : serial rel_of end_of rows m → Forall lawful (m_log m).
Proof.
  intros Hs. eapply Forall_impl; [exact (sr_log _ _ _ _ Hs)|]. intros c. unfold rel_of. destruct (qs !! ch_pid c) as [q|]; [|done].
  apply allowed_lawful.
Qed.

(** A successful accept is in the log, from NEW. *)
Lemma accept_logged (m : mach) (p k c : uuid) : serial rel_of end_of rows m → qs !! p = Some (Accept k c) → m_done m !! p = Some (Ok ()) →
  ∃ ch, ch ∈ m_log m ∧ ch_pid ch = p ∧ ch_order ch = k ∧ ord_status (ch_old ch) = OrderStatus.NEW ∧ ord_courier_id (ch_new ch) = Some c.
Proof.
  intros Hs Hq Hd. destruct (sr_done _ _ _ _ Hs p Hd) as (o & Ho & Hl). unfold end_of in Ho. rewrite Hq in Ho. cbn in Ho.
  destruct Ho as (r & Hr & Hc). destruct (Hl k r Hr) as [old Hin]. eexists. split; [exact Hin|]. split; [done|]. split; [done|]. split; [|done].
  pose proof (sr_log _ _ _ _ Hs) as HF. rewrite Forall_forall in HF. specialize (HF _ Hin). cbn in HF. unfold rel_of in HF. rewrite Hq in HF. cbn in HF. cbn. tauto.
Qed.
End Requests.

Lemma schedule_reachable (l : list pid) : ∀ m, rtc mstep m (schedule l m).
Proof.
  induction l as [|p l IH]; intros m; [apply rtc_refl|]. cbn. destruct (advance p m) as [m1|] eqn:E; cbn; [|apply IH].
  eapply rtc_l; [by apply (mstep_proc p)|apply IH].
Qed.

(** ** Properties *)

(** [C18] The accept race has one winner.  However the statements of any number of accept and payment-settlement requests interleave, whatever Redis
    locks expire on the way: the committed changes of the orders are a sequence, each from the version the previous one left,
    each a legal transition; of all accepts of an order at most one succeeds; and its courier is the one the order then
    has, whatever the other requests do. *)
Theorem accept_race_exclusive (rows : gmap uuid Order) (now : Z) (qs : gmap pid locking_request) (m : mach) :
  rtc mstep (initial rows now (program <$> qs)) m →
  chain rows (m_log m) (m_rows m) ∧ Forall lawful (m_log m) ∧
  (∀ p p' k c c', qs !! p = Some (Accept k c) → qs !! p' = Some (Accept k c') →
     m_done m !! p = Some (Ok ()) → m_done m !! p' = Some (Ok ()) → p = p') ∧
  (∀ p k c, qs !! p = Some (Accept k c) → m_done m !! p = Some (Ok ()) →
     ∃ r, m_rows m !! k = Some r ∧ ord_status r ≠ OrderStatus.NEW ∧ ord_courier_id r = Some c).
Proof.
  intros Hr. apply requests_serial in Hr as Hs. pose proof (sr_chain _ _ _ _ Hs) as Hc. pose proof (requests_lawful _ _ _ Hs) as Hl.
  destruct (chain_lawful _ _ _ Hc Hl) as [H1 H2]. split; [done|]. split; [done|]. split.
  - intros p p' k c c' Hp Hp' Hd Hd'. destruct (accept_logged _ _ _ _ _ _ Hs Hp Hd) as (x & Hx & <- & Ex & Nx & _).
    destruct (accept_logged _ _ _ _ _ _ Hs Hp' Hd') as (y & Hy & <- & Ey & Ny & _). by rewrite (H2 x y Hx Hy (eq_trans Ex (eq_sym Ey)) Nx Ny).
  - intros p k c Hp Hd. destruct (accept_logged _ _ _ _ _ _ Hs Hp Hd) as (x & Hx & _ & <- & Nx & Cx).
    destruct (H1 x Hx) as (r & Hr' & Hn & Hk). exists r. split; [done|]. split; [done|]. by rewrite Hk.
Qed.

(** A Redis lock excludes the others until it expires.  While the key holds an unexpired token drawn by request [p], no statement of another
    request and no passage of time removes or replaces it: a second [SET NX] fails and a late release, whose token is not
    the stored one, deletes nothing; only [p] itself gives the lock up. *)
Theorem redis_lock_exclusive (rows : gmap uuid Order) (now : Z) (qs : gmap pid locking_request) (m m' : mach) (key : string) (n : N) (e : Z) (p : pid) :
  rtc mstep (initial rows now (program <$> qs)) m →
  m_redis m !! key = Some (n, e) → m_issued m !! n = Some p → m_clock m < e → mstep m m' →
  m_redis m' !! key = Some (n, e) ∨ advance p m = Some m'.
Proof. intros Hr. apply requests_serial in Hr as Hs. by apply (lock_survives _ _ _ _ _ _ _ _ _ Hs). Qed.

(** *** Example data *)

Definition race_order (status : order_status) (courier : option uuid) : Order :=
  mk_Order 70 courier None "Riyadh" (mk_point 0 0) None 100 status 0 0 0 None None None None 0.

(** Couriers 71 and 72 go for order 1: both pass the limit check, the second tries the Redis lock while the first holds it. *)
Definition race_requests : gmap pid locking_request := {[ 11%N := Accept 1 71; 12%N := Accept 1 72 ]}.
Definition race_start : mach := initial {[ 1%N := race_order OrderStatus.NEW None ]} 0 (program <$> race_requests).
Definition race_end : mach := schedule [12; 11; 11; 11; 12; 12; 11; 11; 11; 12; 12; 12; 12]%N race_start.

Lemma accept_race_exclusive_witness :
  m_done race_end !! 11%N = Some (Ok ()) ∧ m_done race_end !! 12%N = Some (Raise OrderAlreadyAssignedError) ∧
  ∃ r, m_rows race_end !! 1%N = Some r ∧ ord_courier_id r = Some 71%N.
Proof.
  assert (m_done race_end !! 11%N = Some (Ok ())) as Hd by (vm_compute; reflexivity).
  split; [exact Hd|]. split; [vm_compute; reflexivity|].
  destruct (accept_race_exclusive {[ 1%N := race_order OrderStatus.NEW None ]} 0 race_requests race_end (schedule_reachable _ race_start))
    as (_ & _ & _ & Hw).
  destruct (Hw 11%N 1%N 71%N eq_refl Hd) as (r & Hr & _ & Hc). exists r. split; [exact Hr|exact Hc].
Defined.

Lemma redis_lock_exclusive_witness :
  let m := schedule [11; 11]%N race_start in
  ∀ m', mstep m m' → m_redis m' !! accept_lock_key 1 = Some (0%N, 10) ∨ advance 11 m = Some m'.
Proof.
  intros m m' Hs.
  exact (redis_lock_exclusive {[ 1%N := race_order OrderStatus.NEW None ]} 0 race_requests m m' (accept_lock_key 1) 0 10 11
    (schedule_reachable [11; 11]%N race_start) eq_refl eq_refl eq_refl Hs).
Defined.

(** *** What the locks do not cover *)

(** [cancel_order] reads the order without locking it: a payment that settles between its SELECT and its UPDATE is overwritten.  Both requests
    succeed, and the order goes from IN_PROGRESS to CANCELLED, which the state machine forbids, with its escrow funded. *)
Definition cancel_race : mach :=
  schedule [21; 22; 22; 22; 21; 21]%N
    (initial {[ 1%N := race_order OrderStatus.WAITING_PAYMENT (Some 71%N) ]} 0
       {[ 21%N := cancel_txn 1 70 None; 22%N := settle_txn 1 ]}).

Lemma cancel_overwrites_payment :
  m_done cancel_race !! 21%N = Some (Ok ()) ∧ m_done cancel_race !! 22%N = Some (Ok ()) ∧
  (ord_status <$> m_rows cancel_race !! 1%N) = Some OrderStatus.CANCELLED ∧
  (λ c, (ord_status (ch_old c), ord_status (ch_new c))) <$> m_log cancel_race =
    [(OrderStatus.WAITING_PAYMENT, OrderStatus.IN_PROGRESS); (OrderStatus.IN_PROGRESS, OrderStatus.CANCELLED)] ∧
  can_transition OrderStatus.IN_PROGRESS OrderStatus.CANCELLED = false.
Proof. vm_compute. repeat split. Qed.

(** The limit of three active assignments is counted before any lock: a courier with two accepts two more at once. *)
Definition limit_race : mach :=
  schedule [31; 32; 31; 31; 31; 31; 31; 32; 32; 32; 32; 32]%N
    (initial {[ 1%N := race_order OrderStatus.NEW None; 2%N := race_order OrderStatus.NEW None;
                3%N := race_order OrderStatus.IN_PROGRESS (Some 71%N); 4%N := race_order OrderStatus.IN_PROGRESS (Some 71%N) ]} 0
       {[ 31%N := accept_txn 1 71; 32%N := accept_txn 2 71 ]}).

Lemma courier_limit_race :
  m_done limit_race !! 31%N = Some (Ok ()) ∧ m_done limit_race !! 32%N = Some (Ok ()) ∧
  MAX_COURIER_ACTIVE <
    Z.of_nat (length (List.filter (λ x, same (ord_courier_id x.2) (Some 71%N) && COURIER_ACTIVE (ord_status x.2)) (map_to_list (m_rows limit_race)))).
Proof. vm_compute. repeat split. Qed.
