(* ===== verification/Invoices.v ===== *)
(** * Invoices ([app/services/invoice_service.py], [app/repositories/invoice_repository.py])

    Authoring an invoice prices it, stores the engine's output as a DRAFT with
    its items, reserves the promo, issues the invoice and moves the order to
    WAITING_PAYMENT; cancelling reverses the promo and the order. *)

From Stdlib Require Import ZArith Lia.
From stdpp Require Import base list gmap strings numbers option sorting.
From S2P Require Import Prelude Errors PyDecimal Money Pricing Enums OrderState Tables Database Ledger Promos.
From S2P Require Import Crypto Media Orders.
Open Scope Z_scope.

(** ** Settings the invoice, payment and fulfilment services read *)

Record Settings := mk_Settings {
  SERVICE_FEE_RATE : dec;
  SERVICE_FEE_MIN_AMOUNT : dec;
  SERVICE_FEE_MAX_AMOUNT : dec;
  DEFAULT_VAT_RATE : dec;
  MAX_INVOICE_AMOUNT : dec;
  MAX_ITEM_UNIT_PRICE : dec;
  MAX_INVOICE_ITEMS : nat;
  PAYMENT_EXPIRY_HOURS : Z;
  PLATFORM_COMMISSION_RATE : dec;
  MIN_TOPUP_AMOUNT : dec;
  MAX_TOPUP_AMOUNT : dec;
  MIN_WITHDRAWAL_AMOUNT : dec;
  MAX_WITHDRAWAL_AMOUNT : dec;
  AUTO_APPROVE_HOURS : Z;
  MAX_DELIVERY_RADIUS_METERS : Z;
}.

(** ** [InvoiceRepository] *)

Definition create_draft (order_id courier_id : uuid) (result : PricingResult) (promo_id : option uuid)
    (promo_code_snapshot : option string) : M uuid :=
  items_net ← lift (numeric_12_2 (pr_items_net_amount result));
  courier_fee ← lift (numeric_12_2 (pr_courier_fee_amount result));
  service_fee ← lift (numeric_12_2 (pr_service_fee_amount result));
  discount ← lift (numeric_12_2 (pr_discount_amount result));
  net_after ← lift (numeric_12_2 (pr_net_after_discount_amount result));
  tax ← lift (numeric_12_2 (pr_tax_amount result));
  total ← lift (numeric_12_2 (pr_total_amount result));
  now ← get_now;
  insert_row (mk_Invoice order_id courier_id InvoiceStatus.DRAFT "SAR" items_net courier_fee service_fee discount
    net_after tax total promo_id promo_code_snapshot None 0 0 (Some (pr_breakdown result)) None None None None now).

Definition issue (invoice_id : uuid) (issued_at expires_at : instant) : M () :=
  i ← get_row invoice_id;
  invoice ← unwrap i NotFoundError;
  update_row invoice_id
    (invoice <| inv_status := InvoiceStatus.ISSUED |> <| inv_issued_at := Some issued_at |>
             <| inv_expires_at := Some expires_at |>).

Definition add_item (invoice_id : uuid) (line : PricingLine) : M () :=
  unit ← lift (numeric_12_2 (pl_unit_price_amount line));
  rate ← lift (numeric 6 4 (pl_tax_rate line));
  net ← lift (numeric_12_2 (pl_line_net_amount line));
  discount ← lift (numeric_12_2 (pl_line_discount_amount line));
  taxable ← lift (numeric_12_2 (pl_line_taxable_amount line));
  tax ← lift (numeric_12_2 (pl_line_tax_amount line));
  total ← lift (numeric_12_2 (pl_line_total_amount line));
  insert_row (mk_InvoiceItem invoice_id (pl_position line) (pl_title line) (pl_description line) unit
    (pl_quantity line) rate net discount taxable tax total);;
  mret ().

(** [JOIN orders ... WHERE customer_id = :actor OR courier_id = :actor]. *)
Definition actor_of_invoice (d : db) (actor_id : uuid) (i : Invoice) : bool :=
  match tb_orders d !! inv_order_id i with Some o => participant actor_id o | None => false end.

Definition invoice_for_actor (invoice_id actor_id : uuid) : M (option (uuid * Invoice)) := λ d,
  scalar (λ id i, same id invoice_id && actor_of_invoice d actor_id i) d.

Definition get_active_for_order (order_id : uuid) : M (option (uuid * Invoice)) :=
  scalar (λ _ i, same (inv_order_id i) order_id && invoice_active i).

Definition get_active_for_order_for_actor (order_id actor_id : uuid) : M (option (uuid * Invoice)) := λ d,
  scalar (λ _ i, same (inv_order_id i) order_id && invoice_active i && actor_of_invoice d actor_id i) d.

Definition lock_invoice (invoice_id : uuid) : M (option Invoice) := get_row invoice_id.

Definition lock_for_courier (invoice_id courier_id : uuid) : M (option (uuid * Invoice)) :=
  scalar (λ id i, same id invoice_id && same (inv_issued_by_courier_id i) courier_id).

Definition list_items (invoice_id : uuid) : M (list (uuid * InvoiceItem)) :=
  items ← select_rows (λ _ it, same (it_invoice_id it) invoice_id);
  mret (sort_on (λ p, it_position p.2) items).

Definition list_expired_issued (now : instant) (limit : nat) : M (list (uuid * Invoice)) :=
  l ← select_rows (λ _ i, same (inv_status i) InvoiceStatus.ISSUED &&
        match inv_expires_at i with Some e => e <? now | None => false end);
  mret (take limit (sort_on (λ p, default 0 (inv_expires_at p.2)) l)).

Definition list_receipt_pending (limit : nat) : M (list (uuid * Invoice)) :=
  l ← select_rows (λ _ i, same (inv_status i) InvoiceStatus.PAID && negb (not_null (inv_receipt_email_sent_at i)));
  mret (take limit (sort_on (λ p, default 0 (inv_paid_at p.2)) l)).

Definition mark_receipt_sent (invoice_id : uuid) (i : Invoice) (when_ : instant) : M () :=
  update_row invoice_id (i <| inv_receipt_email_sent_at := Some when_ |>).

(** ** [InvoiceService] *)

Record InvoiceLineInput := mk_InvoiceLineInput {
  li_title : string;
  li_unit_price_amount : dec;
  li_quantity : Z;
  li_tax_rate : dec;
  li_description : option string;
}.

Record NewInvoiceInput := mk_NewInvoiceInput {
  ni_items : list InvoiceLineInput;
  ni_courier_fee_amount : dec;
  ni_promo_code : option string;
}.

Record PromoPreview := mk_PromoPreview {
  pp_code : string;
  pp_discount_amount : dec;
  pp_original_total_amount : dec;
  pp_total_amount : dec;
}.

(** Enumerate with 1-based positions. *)
Fixpoint pricing_items_from (idx : Z) (items : list InvoiceLineInput) : list PricingItem :=
  match items with
  | [] => []
  | l :: items =>
      mk_PricingItem (li_title l) (li_unit_price_amount l) (li_quantity l) (li_tax_rate l) (li_description l) (idx + 1)
      :: pricing_items_from (idx + 1) items
  end.

Definition discountable_base (items : list PricingItem) (courier_fee_amount : dec) : res dec :=
  nets ← res_map (λ i, quantize_money (dmul (pi_unit_price_amount i) (dint (pi_quantity i)))) items;
  fee ← quantize_money courier_fee_amount;
  Ok (dadd (dsum ZERO nets) fee).

(** Truthiness of the optional promo code. *)
Definition promo_code_of (data : NewInvoiceInput) : option string :=
  match ni_promo_code data with Some EmptyString => None | c => c end.

Section Service.
Context (settings : Settings).

Definition pricing_config : PricingConfig :=
  mk_PricingConfig (SERVICE_FEE_RATE settings) (SERVICE_FEE_MIN_AMOUNT settings)
    (SERVICE_FEE_MAX_AMOUNT settings) (DEFAULT_VAT_RATE settings) (MAX_INVOICE_AMOUNT settings).

Fixpoint validate_lines (items : list InvoiceLineInput) : res () :=
  match items with
  | [] => Ok ()
  | line :: items =>
      raise_if (dleb (li_unit_price_amount line) ZERO) ValidationDomainError;;
      raise_if (dltb (MAX_ITEM_UNIT_PRICE settings) (li_unit_price_amount line)) ValidationDomainError;;
      raise_if (negb ((1 <=? li_quantity line) && (li_quantity line <=? 999))) ValidationDomainError;;
      raise_if (negb (dleb ZERO (li_tax_rate line) && dleb (li_tax_rate line) (dint 1))) ValidationDomainError;;
      validate_lines items
  end.

Definition validate_items (items : list InvoiceLineInput) : res () :=
  raise_if (match items with [] => true | _ => false end) ValidationDomainError;;
  raise_if (MAX_INVOICE_ITEMS settings <? length items)%nat ValidationDomainError;;
  validate_lines items.

Definition create_invoice (order_id courier_id : uuid) (data : NewInvoiceInput) : M uuid :=
  o ← order_for_actor order_id courier_id;
  order ← unwrap o NotFoundError;
  lift (assert_transition (ord_status order) OrderStatus.WAITING_PAYMENT);;
  active ← get_active_for_order order_id;
  guard_ (not_null active) ConflictError;;
  lift (validate_items (ni_items data));;
  let pricing_items := pricing_items_from 0 (ni_items data) in
  promo ← match promo_code_of data with
          | Some code =>
              base ← lift (discountable_base pricing_items (ni_courier_fee_amount data));
              validation ← validate code base (ord_customer_id order);
              mret (Some (pv_promo_id validation, pv_promo validation))
          | None => mret None
          end;
  result ← lift (calculate_invoice_totals pricing_items (ni_courier_fee_amount data)
                   (to_pricing_promo ∘ snd <$> promo) pricing_config);
  guard_ (not_null promo && dleb (pr_discount_amount result) ZERO) ValidationDomainError;;
  invoice_id ← create_draft order_id courier_id result (fst <$> promo) (pm_code ∘ snd <$> promo);
  for_each (add_item invoice_id) (pr_lines result);;
  match promo with
  | Some (pid, p) => reserve pid p (ord_customer_id order) invoice_id order_id (pr_discount_amount result)
  | None => mret ()
  end;;
  now ← get_now;
  issue invoice_id now (now + PAYMENT_EXPIRY_HOURS settings * 3600);;
  total ← lift (numeric_12_2 (pr_total_amount result));
  update_row order_id (order <| ord_status := OrderStatus.WAITING_PAYMENT |> <| ord_total_amount := total |>);;
  mret invoice_id.

Definition preview_promo (order_id : uuid) (code : string) (customer_id : uuid) : M PromoPreview :=
  i ← get_active_for_order_for_actor order_id customer_id;
  invoice ← unwrap i NotFoundError;
  items ← list_items invoice.1;
  let pricing_items :=
    (λ p, let it := p.2 in
       mk_PricingItem (it_title it) (sar (it_unit_price_amount it)) (it_quantity it) (of_rate4 (it_tax_rate it))
         (it_description it) (it_position it)) <$> items in
  base ← lift (discountable_base pricing_items (sar (inv_courier_fee_amount invoice.2)));
  validation ← validate code base customer_id;
  result ← lift (calculate_invoice_totals pricing_items (sar (inv_courier_fee_amount invoice.2))
                   (Some (to_pricing_promo (pv_promo validation))) pricing_config);
  mret (mk_PromoPreview (pm_code (pv_promo validation)) (pr_discount_amount result)
          (sar (inv_total_amount invoice.2)) (pr_total_amount result)).
End Service.

Definition cancel_invoice (invoice_id courier_id : uuid) : M Invoice :=
  i ← lock_for_courier invoice_id courier_id;
  p ← unwrap i NotFoundError;
  let invoice := p.2 in
  guard_ (negb (same (inv_status invoice) InvoiceStatus.ISSUED)) InvalidStateTransitionError;;
  o ← lock_order_row (inv_order_id invoice);
  order ← unwrap o NotFoundError;
  release invoice_id;;
  lift (assert_transition (ord_status order) OrderStatus.ASSIGNED);;
  let invoice' := invoice <| inv_status := InvoiceStatus.CANCELLED |> in
  update_row invoice_id invoice';;
  update_row (inv_order_id invoice)
    (order <| ord_status := OrderStatus.ASSIGNED |> <| ord_total_amount := 0 |>);;
  mret invoice'.

Definition get_invoice_for_actor (invoice_id actor_id : uuid) : M (Invoice * list (uuid * InvoiceItem)) :=
  i ← invoice_for_actor invoice_id actor_id;
  p ← unwrap i NotFoundError;
  items ← list_items p.1;
  mret (p.2, items).

Definition get_active_invoice_for_order (order_id actor_id : uuid) : M (Invoice * list (uuid * InvoiceItem)) :=
  i ← get_active_for_order_for_actor order_id actor_id;
  p ← unwrap i NotFoundError;
  items ← list_items p.1;
  mret (p.2, items).

(** ** Framing *)

Lemma keeps_scalar_at P {row} `{Table row} (f : db → uuid → row → bool) :
  keeps P (λ d, scalar (f d) d).
Proof. intros d o d' HP Hr. by eapply (keeps_scalar P). Qed.

Lemma keeps_invoice_for_actor P i a : keeps P (invoice_for_actor i a).
Proof. apply (keeps_scalar_at P (λ d id x, same id i && actor_of_invoice d a x)). Qed.

Lemma keeps_active_for_order P o : keeps P (get_active_for_order o).
Proof. apply keeps_scalar. Qed.

Lemma keeps_list_items P i : keeps P (list_items i).
Proof. unfold list_items. keeps_auto. Qed.

#[export] Hint Resolve keeps_invoice_for_actor keeps_active_for_order keeps_list_items : giftly.
#[export] Hint Extern 1 (keeps _ (lock_invoice _)) => apply keeps_get : giftly.
#[export] Hint Extern 1 (keeps _ (lock_for_courier _ _)) => apply keeps_scalar : giftly.

Section InvoiceFrame.
Context (P : db → Prop) `{!Frame P InvoiceItem} `{!FrameNext P}.

Lemma frame_add_item i l : keeps P (add_item i l).
Proof. unfold add_item. keeps_auto. Qed.

Lemma frame_add_items i ls : keeps P (for_each (add_item i) ls).
Proof. apply keeps_for_each. intros. apply frame_add_item. Qed.

Context `{!Frame P Invoice}.

Lemma frame_create_draft o c r p s : keeps P (create_draft o c r p s).
Proof. unfold create_draft. keeps_auto. Qed.

Lemma frame_issue i a b : keeps P (issue i a b).
Proof. unfold issue. keeps_auto. Qed.

Context `{!Frame P Order} `{!Frame P Promo} `{!Frame P PromoRedemption}.
Hint Resolve frame_add_item frame_create_draft frame_issue : giftly.

Lemma frame_create_invoice s o c data : keeps P (create_invoice s o c data).
Proof. unfold create_invoice. keeps_auto. Qed.

Lemma frame_cancel_invoice i c : keeps P (cancel_invoice i c).
Proof. unfold cancel_invoice. keeps_auto. Qed.
End InvoiceFrame.

#[export] Hint Resolve frame_add_item frame_add_items frame_create_draft frame_issue frame_create_invoice
  frame_cancel_invoice : giftly.

(** ** The stored rows *)

(** The columns of an invoice hold the engine's amounts, and the CHECKs accept it. *)
Record stores (result : PricingResult) (i : Invoice) : Prop := {
  so_items_net : numeric_12_2 (pr_items_net_amount result) = Ok (inv_items_net_amount i);
  so_courier_fee : numeric_12_2 (pr_courier_fee_amount result) = Ok (inv_courier_fee_amount i);
  so_service_fee : numeric_12_2 (pr_service_fee_amount result) = Ok (inv_service_fee_amount i);
  so_discount : numeric_12_2 (pr_discount_amount result) = Ok (inv_discount_amount i);
  so_net_after : numeric_12_2 (pr_net_after_discount_amount result) = Ok (inv_net_after_discount_amount i);
  so_tax : numeric_12_2 (pr_tax_amount result) = Ok (inv_tax_amount i);
  so_total : numeric_12_2 (pr_total_amount result) = Ok (inv_total_amount i);
}.

Lemma create_draft_ok (oid cid : uuid) (result : PricingResult) (pid : option uuid) (code : option string)
    (d : db) (id : uuid) (d' : db) :
  create_draft oid cid result pid code d = Ok (id, d') →
  tb_invoices d !! id = None ∧
  ∃ i, stores result i ∧ inv_order_id i = oid ∧ inv_issued_by_courier_id i = cid ∧ inv_promo_id i = pid ∧
    inv_status i = InvoiceStatus.DRAFT ∧ inv_payment_method i = None ∧ inv_amount_from_wallet i = 0 ∧
    check_ok (current_date d) i = true ∧ unique_ok d id i = true ∧
    tb_invoices d' = <[id := i]> (tb_invoices d).
Proof.
  intros Hr. unfold create_draft in Hr. inv_run Hr. inv_writes. split; [done|].
  match goal with C : check_ok _ ?i = true |- _ => exists i end. split; [by constructor|].
  by repeat (split; [first [reflexivity|eassumption]|]).
Qed.

(** The row of a priced line. *)
Definition item_stores (iid : uuid) (l : PricingLine) (it : InvoiceItem) : Prop :=
  it_invoice_id it = iid ∧ it_position it = pl_position l ∧ it_title it = pl_title l ∧
  it_quantity it = pl_quantity l ∧
  numeric_12_2 (pl_unit_price_amount l) = Ok (it_unit_price_amount it) ∧
  numeric_12_2 (pl_line_discount_amount l) = Ok (it_line_discount_amount it) ∧
  numeric_12_2 (pl_line_total_amount l) = Ok (it_line_total_amount it).

Lemma add_item_ok (iid : uuid) (l : PricingLine) (d : db) (u : ()) (d' : db) :
  add_item iid l d = Ok (u, d') →
  ∃ id it, item_stores iid l it ∧ tb_invoice_items d !! id = None ∧ check_ok (current_date d) it = true ∧
    tb_invoice_items d' = <[id := it]> (tb_invoice_items d).
Proof.
  intros Hr. unfold add_item in Hr. inv_run Hr. inv_writes.
  match goal with C : check_ok _ ?it = true, N : rows _ !! ?id = None |- _ => exists id, it end.
  split; [by repeat (split; [first [reflexivity|eassumption]|])|]. done.
Qed.

(** One row per line, nothing else added, nothing lost. *)
Lemma add_items_ok (iid : uuid) (ls : list PricingLine) (d : db) (u : ()) (d' : db) :
  for_each (add_item iid) ls d = Ok (u, d') →
  tb_invoice_items d ⊆ tb_invoice_items d' ∧
  Forall (λ l, ∃ id it, tb_invoice_items d' !! id = Some it ∧ item_stores iid l it) ls ∧
  size (tb_invoice_items d') = (size (tb_invoice_items d) + length ls)%nat.
Proof.
  revert d. induction ls as [|l ls IH]; intros d Hr; cbn in Hr.
  - injection Hr as _ <-. split; [done|]. split; [constructor|]. cbn. lia.
  - apply bind_ok in Hr as (v & d1 & H1 & H2). apply add_item_ok in H1 as (id & it & Hst & Hn & _ & E).
    destruct (IH _ H2) as (Hsub & Hall & Hsz). rewrite E in Hsub, Hsz.
    split; [etransitivity; [by apply insert_subseteq|exact Hsub]|]. split.
    + constructor; [|done]. exists id, it. split; [|done]. eapply lookup_weaken; [|exact Hsub]. apply lookup_insert_eq.
    + rewrite Hsz, map_size_insert_None by done. cbn. lia.
Qed.

Lemma issue_ok (iid : uuid) (a b : instant) (d : db) (u : ()) (d' : db) (i : Invoice) :
  tb_invoices d !! iid = Some i → issue iid a b d = Ok (u, d') →
  tb_invoices d' = <[iid := i <| inv_status := InvoiceStatus.ISSUED |> <| inv_issued_at := Some a |>
                              <| inv_expires_at := Some b |>]> (tb_invoices d) ∧
  check_ok (current_date d) (i <| inv_status := InvoiceStatus.ISSUED |> <| inv_issued_at := Some a |>
                              <| inv_expires_at := Some b |>) = true ∧
  tb_orders d' = tb_orders d.
Proof.
  intros Hi Hr. unfold issue in Hr. inv_run Hr. inv_writes.
  match goal with E : tb_invoices _ !! iid = Some _ |- _ => rewrite Hi in E; injection E as <- end. done.
Qed.

Lemma get_active_for_order_ok (oid : uuid) (d : db) (o : option (uuid * Invoice)) (d' : db) :
  get_active_for_order oid d = Ok (o, d') →
  d' = d ∧ match o with
           | Some (iid, i) => tb_invoices d !! iid = Some i ∧ inv_order_id i = oid ∧ invoice_active i = true
           | None => ∀ iid i, tb_invoices d !! iid = Some i → inv_order_id i = oid → invoice_active i = false
           end.
Proof.
  unfold get_active_for_order. intros Hr.
  destruct (scalar_run (λ _ i, same (inv_order_id i) oid && invoice_active i) d) as (x & E & Hx).
  rewrite E in Hr. injection Hr as <- <-. split; [done|]. destruct x as [[iid i]|].
  - destruct Hx as [Hl [Hs Ha]%andb_true_iff]. by apply (proj1 (same_true _ _)) in Hs.
  - intros iid i Hi Ho. specialize (Hx _ _ Hi). rewrite (proj2 (same_true _ _)) in Hx by done. done.
Qed.

(** Drafting and adding the items leaves orders and promos alone. *)
Lemma draft_frame {A} (f : db → A) (oid cid : uuid) (result : PricingResult) (pid : option uuid) (code : option string)
    (iid : uuid) (ls : list PricingLine) (d d1 d2 : db) (u : ()) :
  (∀ x, Frame (reads f x) Invoice) → (∀ x, Frame (reads f x) InvoiceItem) → (∀ x, FrameNext (reads f x)) →
  create_draft oid cid result pid code d = Ok (iid, d1) → for_each (add_item iid) ls d1 = Ok (u, d2) →
  f d2 = f d.
Proof.
  intros F1 F2 F3 H1 H2. transitivity (f d1).
  - eapply keeps_reads; [|exact H2]. by apply frame_add_items.
  - eapply keeps_reads; [|exact H1]. by apply frame_create_draft.
Qed.

Lemma draft_items (oid cid : uuid) (result : PricingResult) (pid : option uuid) (code : option string) (d : db) (iid : uuid) (d1 : db) :
  create_draft oid cid result pid code d = Ok (iid, d1) → tb_invoice_items d1 = tb_invoice_items d.
Proof. intros Hr. by same_after tb_invoice_items Hr. Qed.

(** Drafting and adding the items leaves the promos, their redemptions and the clock alone. *)
Lemma draft_promos (oid cid : uuid) (result : PricingResult) (pid : option uuid) (code : option string)
    (iid : uuid) (ls : list PricingLine) (d d1 d2 : db) (u : ()) :
  create_draft oid cid result pid code d = Ok (iid, d1) → for_each (add_item iid) ls d1 = Ok (u, d2) →
  tb_promos d2 = tb_promos d ∧ tb_promo_redemptions d2 = tb_promo_redemptions d ∧ db_now d2 = db_now d.
Proof.
  intros H1 H2. split; [|split].
  - exact (draft_frame tb_promos _ _ _ _ _ _ _ _ _ _ _ _ _ _ H1 H2).
  - exact (draft_frame tb_promo_redemptions _ _ _ _ _ _ _ _ _ _ _ _ _ _ H1 H2).
  - exact (draft_frame db_now _ _ _ _ _ _ _ _ _ _ _ _ _ _ H1 H2).
Qed.

(** Every step of a successful [create_invoice], in order. *)
Lemma create_invoice_ok (s : Settings) (oid cid : uuid) (data : NewInvoiceInput) (d : db) (iid : uuid) (d' : db) :
  create_invoice s oid cid data d = Ok (iid, d') →
  ∃ o promo result i d1 d2 d3 u1 u2 u3,
    tb_orders d !! oid = Some o ∧ participant cid o = true ∧ order_step (ord_status o) OrderStatus.WAITING_PAYMENT ∧
    (∀ k x, tb_invoices d !! k = Some x → inv_order_id x = oid → invoice_active x = false) ∧
    validate_items s (ni_items data) = Ok () ∧
    match promo with
    | Some (pid, p) => (normalize_code <$> promo_code_of data) = Some (pm_code p) ∧ tb_promos d !! pid = Some p ∧ dleb (pr_discount_amount result) ZERO = false
    | None => promo_code_of data = None
    end ∧
    calculate_invoice_totals (pricing_items_from 0 (ni_items data)) (ni_courier_fee_amount data)
      (to_pricing_promo ∘ snd <$> promo) (pricing_config s) = Ok result ∧
    create_draft oid cid result (fst <$> promo) (pm_code ∘ snd <$> promo) d = Ok (iid, d1) ∧
    for_each (add_item iid) (pr_lines result) d1 = Ok (u1, d2) ∧
    match promo with
    | Some (pid, p) => reserve pid p (ord_customer_id o) iid oid (pr_discount_amount result) d2 = Ok (u2, d3)
    | None => d3 = d2
    end ∧
    tb_invoices d3 !! iid = Some i ∧ stores result i ∧
    ∃ d4, issue iid (db_now d3) (db_now d3 + PAYMENT_EXPIRY_HOURS s * 3600) d3 = Ok (u3, d4) ∧
    d' = d4 <| tb_orders := <[oid := o <| ord_status := OrderStatus.WAITING_PAYMENT |>
                                      <| ord_total_amount := inv_total_amount i |>]> (tb_orders d) |>.
Proof.
  intros Hr. unfold create_invoice in Hr. erewrite bind_run in Hr by apply order_for_actor_run.
  apply bind_ok in Hr as (o & d0 & [Ho ->]%unwrap_ok & Hr).
  destruct (tb_orders d !! oid) as [o'|] eqn:Eo; [|done]. destruct (participant cid o') eqn:Hp; [|done].
  injection Ho as ->. apply bind_ok in Hr as (u0 & d0 & [Hst%assert_transition_ok ->]%lift_ok & Hr).
  apply bind_ok in Hr as (act & d0 & [-> Hact]%get_active_for_order_ok & Hr).
  apply bind_ok in Hr as (u & d0 & [Hg ->]%guard_ok & Hr). destruct act; [done|]. clear Hg.
  apply bind_ok in Hr as ([] & d0 & [Hval ->]%lift_ok & Hr).
  apply bind_ok in Hr as (promo & d0 & Hpromo & Hr).
  assert (d0 = d ∧ match promo with
    | Some (pid, p) => (normalize_code <$> promo_code_of data) = Some (pm_code p) ∧ tb_promos d !! pid = Some p
    | None => promo_code_of data = None end) as [-> Hpr].
  { destruct (promo_code_of data) as [code|]; [|by injection Hpromo as <- <-].
    apply bind_ok in Hpromo as (base & dx & [_ ->]%lift_ok & Hpromo).
    apply bind_ok in Hpromo as (v & dx & [-> [Hv Hvc]]%validate_ok & Hpromo). injection Hpromo as <- <-. cbn. by rewrite Hvc. }
  apply bind_ok in Hr as (result & d0 & [Hcalc ->]%lift_ok & Hr).
  apply bind_ok in Hr as (? & d0 & [Hdisc ->]%guard_ok & Hr).
  apply bind_ok in Hr as (iid' & d1 & Hdraft & Hr). apply bind_ok in Hr as (u1 & d2 & Hitems & Hr).
  apply bind_ok in Hr as (u2 & d3 & Hres & Hr). erewrite bind_run in Hr by reflexivity.
  apply bind_ok in Hr as (u3 & d4 & Hiss & Hr). apply bind_ok in Hr as (total & d5 & [Htot ->]%lift_ok & Hr).
  inv_run Hr. inv_writes.
  destruct (create_draft_ok _ _ _ _ _ _ _ _ Hdraft) as (_ & i & Hstore & _ & _ & _ & _ & _ & _ & _ & _ & Ei).
  same_after tb_invoices Hitems.
  assert (tb_invoices d3 !! iid = Some i) as Hi.
  { destruct promo as [[pid p]|]; [same_after tb_invoices Hres|injection Hres as _ <-];
      rewrite ?K0, K, Ei; apply lookup_insert_eq. }
  rewrite (so_total _ _ Hstore) in Htot. injection Htot as <-.
  exists o, promo, result, i, d1, d2, d3, u1, u2, u3. repeat (split; [done|]). split.
  { destruct promo as [[pid p]|]; [|done]. destruct Hpr. done. }
  split; [done|]. split; [done|]. split; [done|]. split.
  { destruct promo as [[pid p]|]; [done|]. by injection Hres as _ <-. }
  split; [done|]. split; [done|]. exists d4. split; [done|]. cbn.
  assert (tb_orders d4 = tb_orders d) as ->; [|done]. destruct (issue_ok _ _ _ _ _ _ _ Hi Hiss) as (_ & _ & ->).
  rewrite <- (draft_frame tb_orders _ _ _ _ _ _ _ _ _ _ _ _ _ _ Hdraft Hitems).
  destruct promo as [[pid p]|]; [by same_after tb_orders Hres|by injection Hres as _ <-].
Qed.

Lemma keeps_promo_create_invoice (s : Settings) (oid cid : uuid) (data : NewInvoiceInput) :
  keeps promo_ok (create_invoice s oid cid data).
Proof.
  intros d iid d' Hd Hr.
  apply create_invoice_ok in Hr as (o & promo & result & i & d1 & d2 & d3 & u1 & u2 & u3 & _ & _ & _ & _ & _ & Hpr
    & _ & Hdraft & Hitems & Hres & _ & _ & d4 & Hiss & ->).
  assert (promo_ok d2) as H2 by (eapply frame_add_items; [..|eapply frame_create_draft; [..|exact Hdraft]|exact Hitems];
    done || apply _).
  apply (promo_frame d4); [done..|]. eapply (frame_issue promo_ok); [|exact Hiss].
  destruct promo as [[pid p]|]; [|by subst]. destruct Hpr as (_ & Hp & _).
  eapply reserve_keeps; [|exact H2|exact Hres].
  rewrite (draft_frame tb_promos _ _ _ _ _ _ _ _ _ _ _ _ _ _ Hdraft Hitems). done.
Qed.

Lemma create_invoice_orders (s : Settings) (oid cid : uuid) (data : NewInvoiceInput) (d : db) (iid : uuid) (d' : db) :
  create_invoice s oid cid data d = Ok (iid, d') →
  ∃ o i, tb_orders d !! oid = Some o ∧ participant cid o = true ∧
    order_step (ord_status o) OrderStatus.WAITING_PAYMENT ∧
    tb_orders d' = <[oid := o <| ord_status := OrderStatus.WAITING_PAYMENT |>
                              <| ord_total_amount := inv_total_amount i |>]> (tb_orders d).
Proof.
  intros Hr.
  apply create_invoice_ok in Hr as (o & promo & result & i & d1 & d2 & d3 & u1 & u2 & u3 & Ho & Hp & Hs & _ & _ & _
    & _ & Hdraft & Hitems & Hres & Hi & _ & d4 & Hiss & ->).
  by exists o, i.
Qed.

Lemma create_invoice_evolve (s : Settings) (oid cid : uuid) (data : NewInvoiceInput) (d : db) (iid : uuid) (d' : db) :
  create_invoice s oid cid data d = Ok (iid, d') → orders_evolve d d'.
Proof.
  intros Hr. apply create_invoice_orders in Hr as (o & i & Ho & _ & Hs & E).
  by eapply evolve_move; [exact Ho|..|exact E].
Qed.

Lemma cancel_invoice_ok (iid cid : uuid) (d : db) (i' : Invoice) (d' : db) :
  cancel_invoice iid cid d = Ok (i', d') →
  ∃ i o u d1, tb_invoices d !! iid = Some i ∧ inv_issued_by_courier_id i = cid ∧
    inv_status i = InvoiceStatus.ISSUED ∧ tb_orders d !! inv_order_id i = Some o ∧
    order_step (ord_status o) OrderStatus.ASSIGNED ∧ release iid d = Ok (u, d1) ∧
    i' = i <| inv_status := InvoiceStatus.CANCELLED |> ∧
    d' = d1 <| tb_invoices := <[iid := i']> (tb_invoices d1) |>
            <| tb_orders := <[inv_order_id i := o <| ord_status := OrderStatus.ASSIGNED |> <| ord_total_amount := 0 |>]>
                 (tb_orders d1) |>.
Proof.
  intros Hr. unfold cancel_invoice, lock_for_courier, lock_order_row in Hr.
  apply bind_ok in Hr as (x & d0 & Hs & Hr). assert (Hs' := Hs). apply scalar_ok in Hs' as [-> _].
  apply bind_ok in Hr as ([k i] & d0 & [-> ->]%unwrap_ok & Hr).
  apply scalar_some in Hs as [Hi [Hk Hc]%andb_true_iff]. apply (proj1 (same_true _ _)) in Hk, Hc. subst k.
  inv_run Hr. inv_writes. rewrite negb_false_iff in E. apply (proj1 (same_true _ _)) in E.
  match goal with T : assert_transition _ _ = Ok _ |- _ => apply assert_transition_ok in T end.
  match goal with R : release iid _ = Ok (?u, ?d1), L : tb_orders _ !! _ = Some ?o |- _ => exists i, o, u, d1 end. done.
Qed.

Lemma cancel_invoice_evolve (iid cid : uuid) (d : db) (i' : Invoice) (d' : db) :
  cancel_invoice iid cid d = Ok (i', d') → orders_evolve d d'.
Proof.
  intros Hr. apply cancel_invoice_ok in Hr as (i & o & u & d1 & _ & _ & _ & Ho & Hs & Hrel & _ & ->).
  same_after tb_orders Hrel. by eapply evolve_move; [exact Ho|..|cbn; rewrite K; reflexivity].
Qed.

Lemma keeps_promo_cancel_invoice (iid cid : uuid) : keeps promo_ok (cancel_invoice iid cid).
Proof.
  intros d i' d' Hd Hr. apply cancel_invoice_ok in Hr as (i & o & u & d1 & _ & _ & _ & _ & _ & Hrel & _ & ->).
  apply (promo_frame d1); [done..|]. by eapply keeps_release.
Qed.

#[export] Hint Resolve keeps_promo_create_invoice keeps_promo_cancel_invoice : giftly.

(** ** Properties *)

Definition settings0 : Settings :=
  mk_Settings (Dec 5 (-2)) (sar 500) (sar 50000) (Dec 15 (-2)) (sar 5000000) (sar 1000000) 50 24 (Dec 10 (-2))
    (sar 1000) (sar 1000000) (sar 5000) (sar 2000000) 48 200.

Definition invoice_data : NewInvoiceInput :=
  mk_NewInvoiceInput [mk_InvoiceLineInput "bouquet" (sar 10000) 1 (Dec 15 (-2)) None] (sar 2000) (Some "first20"%string).

Definition order_assigned : Order :=
  order_row <| ord_courier_id := Some 71%N |> <| ord_status := OrderStatus.ASSIGNED |>.

(** Order 50 assigned to courier 71; a promo of 10 percent. *)
Definition db_assigned : db :=
  db_market <| tb_orders := {[ 50%N := order_assigned ]} |> <| tb_promos := {[ 80%N := promo_row ]} |>.

(** What the CHECKs of [invoices] say of an invoice that left DRAFT. *)
Record invoice_math (i : Invoice) : Prop := {
  im_net : inv_net_after_discount_amount i =
    inv_items_net_amount i + inv_courier_fee_amount i + inv_service_fee_amount i - inv_discount_amount i;
  im_total : inv_total_amount i = inv_net_after_discount_amount i + inv_tax_amount i;
  im_positive : 0 < inv_total_amount i;
  im_nonneg : 0 ≤ inv_items_net_amount i ∧ 0 ≤ inv_courier_fee_amount i ∧ 0 ≤ inv_service_fee_amount i ∧
    0 ≤ inv_discount_amount i ∧ 0 ≤ inv_tax_amount i;
  im_promo : inv_promo_id i = None ∧ inv_discount_amount i = 0 ∨ inv_promo_id i ≠ None ∧ 0 < inv_discount_amount i;
}.

Lemma invoice_checks (today : day) (i : Invoice) :
  check_ok today i = true → inv_status i ≠ InvoiceStatus.DRAFT → invoice_math i.
Proof.
  cbn. rewrite !andb_true_iff. intros [[[[[Hn Hpos] Hnet] Htot] Hpr] _] Hs.
  unfold chk_invoice_amounts_non_negative in Hn. rewrite !andb_true_iff in Hn.
  destruct Hn as [[[[[N1 N2] N3] N4] N5] N6].
  unfold chk_invoice_total_positive in Hpos. rewrite bool_decide_eq_false_2 in Hpos by done. cbn in Hpos.
  unfold chk_invoice_net_math in Hnet. unfold chk_invoice_total_math in Htot. unfold chk_invoice_promo_pairing in Hpr.
  constructor; [lia|lia|lia|lia|]. destruct (inv_promo_id i); [right; split; [done|lia]|left; split; [done|lia]].
Qed.

(** The authored invoice [i] of order [o], priced as [result] under [promo]. *)
Record authored (s : Settings) (oid cid : uuid) (data : NewInvoiceInput) (d : db) (iid : uuid) (d' : db)
    (o : Order) (promo : option (uuid * Promo)) (result : PricingResult) (i : Invoice) : Prop := {
  au_order : tb_orders d !! oid = Some o;
  au_actor : participant cid o = true;
  au_step : order_step (ord_status o) OrderStatus.WAITING_PAYMENT;
  au_first : ∀ k x, tb_invoices d !! k = Some x → inv_order_id x = oid → invoice_active x = false;
  au_promo : match promo with
             | Some (pid, p) => (normalize_code <$> promo_code_of data) = Some (pm_code p) ∧ tb_promos d !! pid = Some p
             | None => promo_code_of data = None
             end;
  au_priced : calculate_invoice_totals (pricing_items_from 0 (ni_items data)) (ni_courier_fee_amount data)
    (to_pricing_promo ∘ snd <$> promo) (pricing_config s) = Ok result;
  au_invoice : tb_invoices d !! iid = None ∧ tb_invoices d' = <[iid := i]> (tb_invoices d);
  au_fields : inv_order_id i = oid ∧ inv_issued_by_courier_id i = cid ∧ inv_status i = InvoiceStatus.ISSUED ∧
    inv_expires_at i = Some (db_now d + PAYMENT_EXPIRY_HOURS s * 3600) ∧ inv_promo_id i = (fst <$> promo);
  au_amounts : stores result i;
  au_math : invoice_math i;
  au_items : tb_invoice_items d ⊆ tb_invoice_items d' ∧
    size (tb_invoice_items d') = (size (tb_invoice_items d) + length (pr_lines result))%nat ∧
    Forall (λ l, ∃ k it, tb_invoice_items d' !! k = Some it ∧ item_stores iid l it) (pr_lines result);
  au_reserved : match promo with
                | Some (pid, p) =>
                    reservable (db_now d) p = true ∧
                    user_uses (tb_promo_redemptions d) pid (ord_customer_id o) < pm_max_usages_per_user p ∧
                    tb_promos d' = <[pid := p <| pm_used_count := pm_used_count p + 1 |>]> (tb_promos d) ∧
                    ∃ rid, tb_promo_redemptions d !! rid = None ∧
                      tb_promo_redemptions d' =
                        <[rid := mk_PromoRedemption pid (ord_customer_id o) iid oid (inv_discount_amount i)
                                   PromoRedemptionStatus.RESERVED None None (db_now d)]> (tb_promo_redemptions d)
                | None => tb_promos d' = tb_promos d ∧ tb_promo_redemptions d' = tb_promo_redemptions d
                end;
  au_moved : tb_orders d' = <[oid := o <| ord_status := OrderStatus.WAITING_PAYMENT |>
                                      <| ord_total_amount := inv_total_amount i |>]> (tb_orders d);
}.

(** [C17] Authoring an invoice is atomic and complete: when [create_invoice] succeeds, the
    courier was a participant of an order that could move to WAITING_PAYMENT and had
    no active invoice; the stored invoice is ISSUED with a payment window, holds
    the engine's amounts and passes the arithmetic CHECKs; one item row is added per
    priced line. With a promo code, the promo of that code was still usable, its counter
    goes up by one and one RESERVED redemption of it is stored for the order's
    customer, this invoice and the discount given, which is positive; without a code no
    promo and no redemption changes. The order is WAITING_PAYMENT for exactly the invoice
    total. *)
Theorem create_invoice_effect (s : Settings) (oid cid : uuid) (data : NewInvoiceInput) (d : db) (iid : uuid) (d' : db) :
  create_invoice s oid cid data d = Ok (iid, d') →
  ∃ o promo result i, authored s oid cid data d iid d' o promo result i.
Proof.
  intros Hr. assert (db_now d' = db_now d) as Enow by (same_after db_now Hr; done).
  apply create_invoice_ok in Hr as (o & promo & result & i & d1 & d2 & d3 & u1 & u2 & u3 & Ho & Hp & Hs & Hact & _ & Hpr
    & Hcalc & Hdraft & Hitems & Hres & Hi & Hst & d4 & Hiss & ->).
  destruct (create_draft_ok _ _ _ _ _ _ _ _ Hdraft) as (Hfresh & i0 & _ & Eo & Ec & Epr & _ & _ & _ & _ & _ & Ei).
  same_after tb_invoice_items Hiss. same_after db_now Hiss.
  destruct (issue_ok _ _ _ _ _ _ _ Hi Hiss) as (Einv & Hck & _). apply invoice_checks in Hck; [|done].
  assert (tb_invoices d3 = tb_invoices d2 ∧ tb_invoice_items d3 = tb_invoice_items d2) as [E1 E2].
  { destruct promo as [[pid p]|]; [|by subst].
    same_after tb_invoices Hres. same_after tb_invoice_items Hres. done. }
  same_after tb_invoices Hitems. rewrite E1, K1, Ei, lookup_insert_eq in Hi. injection Hi as ->.
  set (i' := i <| inv_status := _ |> <| inv_issued_at := _ |> <| inv_expires_at := _ |>) in *.
  exists o, promo, result, i'.
  constructor; [done..| |done| | |by destruct Hst|exact Hck| | |done].
  - destruct promo as [[pid p]|]; [|done]. by destruct Hpr as (? & ? & _).
  - split; [done|]. cbn. by rewrite Einv, E1, K1, Ei, insert_insert_eq.
  - cbn in Enow. rewrite K0 in Enow. unfold i', upd; cbn. by rewrite Enow, Epr.
  - cbn. rewrite K, E2. apply add_items_ok in Hitems as (HF1 & HF2 & HF3).
    by rewrite <- (draft_items _ _ _ _ _ _ _ _ Hdraft).
  - destruct (draft_promos _ _ _ _ _ _ _ _ _ _ _ Hdraft Hitems) as (Q1 & Q2 & Q3).
    same_after tb_promos Hiss. same_after tb_promo_redemptions Hiss. cbn. rewrite K2, K3.
    destruct promo as [[pid p]|]; [|by subst d3]. destruct Hpr as (_ & Hp' & _).
    apply reserve_ok in Hres as (R1 & R2 & rid & z & n & Ez & Rn & _ & ->); [|by rewrite Q1]. cbn.
    rewrite Q1, Q2, Q3 in *. rewrite (so_discount _ _ Hst) in Ez. injection Ez as <-. do 3 (split; [done|]). by exists rid.
Qed.

Lemma create_invoice_effect_witness :
  ∃ iid d', create_invoice settings0 50 71 invoice_data db_assigned = Ok (iid, d') ∧
    ∃ o promo result i, authored settings0 50 71 invoice_data db_assigned iid d' o promo result i.
Proof.
  destruct (create_invoice settings0 50 71 invoice_data db_assigned) as [[iid d']|e] eqn:E;
    [|vm_compute in E; discriminate E].
  exists iid, d'. split; [done|]. exact (create_invoice_effect settings0 50 71 invoice_data db_assigned iid d' E).
Defined.
