(* ===== verification/Config.v ===== *)
(** * Settings and boot validation ([app/core/config.py])

    The settings the services read ([Settings] of Invoices.v holds the business rules) and
    the model validator that refuses to boot.  A [SecretStr] is told apart from a plain
    string, because the code compares both with the empty string.  The key map is the
    result of [encryption_keys()] ([json.loads] and [base64] of the variable, [None] when they
    raise). *)

From Stdlib Require Import ZArith Lia Ascii.
From stdpp Require Import base list gmap strings numbers option sorting.
From S2P Require Import Prelude Errors PyDecimal Money Pricing Enums OrderState Tables Database Ledger Promos.
From S2P Require Import Crypto Media Orders Invoices.
Open Scope Z_scope.

Inductive Environment := DEVELOPMENT | TEST | PRODUCTION.

#[export] Instance environment_eq_dec : EqDecision Environment.
Proof. solve_decision. Defined.

Inductive jwt_algorithm := HS256 | RS256.

#[export] Instance jwt_algorithm_eq_dec : EqDecision jwt_algorithm.
Proof. solve_decision. Defined.

(** [SecretStr]. *)
Inductive secret := SecretStr (value : string).

Definition get_secret_value (s : secret) : string := match s with SecretStr v => v end.

Record AppSettings := mk_AppSettings {
  business : Settings;
  ENVIRONMENT : Environment;
  DEBUG : bool;
  JWT_SECRET : option secret;
  JWT_PRIVATE_KEY : option secret;
  JWT_PUBLIC_KEY : option secret;
  JWT_ALGORITHM : jwt_algorithm;
  JWT_ACCESS_TTL_MINUTES : Z;
  JWT_REFRESH_TTL_DAYS : Z;
  JWT_ISSUER : string;
  JWT_AUDIENCE : string;
  encryption_keys : option (gmap Z (list ascii));
  FIELD_ENCRYPTION_KEY_VERSION : Z;
  IDENTITY_FINGERPRINT_PEPPER : secret;
  AWS_REGION : option string;
  AWS_ACCESS_KEY_ID : option secret;
  AWS_SECRET_ACCESS_KEY : option secret;
  S3_BUCKET_NAME : option string;
  CLOUDFRONT_DOMAIN : option string;
  CLOUDFRONT_KEY_PAIR_ID : option string;
  CLOUDFRONT_PRIVATE_KEY : option secret;
  STREAMPAY_API_KEY : option secret;
  STREAMPAY_API_SECRET : option secret;
  STREAMPAY_WEBHOOK_SECRET : option secret;
  SNDR_API_KEY : option secret;
  SNDR_BASE_URL : option string;
  SNDR_FROM_EMAIL : option string;
  SNDR_FROM_NAME : option string;
  SNDR_INVOICE_PAID_TEMPLATE_KEY : option string;
  SMS_PROVIDER_KEY : option secret;
  SUPABASE_URL : option string;
  SUPABASE_SERVICE_KEY : option secret;
  ADMIN_USERNAME : option string;
  ADMIN_PASSWORD : option secret;
  ADMIN_SESSION_SECRET : option secret;
  ADMIN_SESSION_TTL_MINUTES : Z;
  ADMIN_DASHBOARD_ENABLED : bool;
  CORS_ALLOWED_ORIGINS : string;
  RATE_LIMIT_ENABLED : bool;
  RATE_LIMIT_MAX_REQUESTS : Z;
  RATE_LIMIT_WINDOW_SECONDS : Z;
  MAX_REQUEST_BODY_BYTES : Z;
  OTP_HMAC_KEY : option secret;
  REFRESH_TOKEN_RETENTION_DAYS : Z;
  OTP_TTL_SECONDS : Z;
  OTP_MAX_PER_WINDOW : Z;
  OTP_WINDOW_SECONDS : Z;
  OTP_BLOCK_SECONDS : Z;
  WS_MAX_FRAME_BYTES : Z;
  WS_RATE_LIMIT_MAX_MESSAGES : Z;
  WS_RATE_LIMIT_WINDOW_SECONDS : Z;
}.

Section Validate.
Context (self : AppSettings).

Definition is_production : bool := bool_decide (ENVIRONMENT self = PRODUCTION).
Definition docs_enabled : bool := bool_decide (ENVIRONMENT self = DEVELOPMENT).

(** [s.split(",")] on characters. *)
Fixpoint split_on (sep : ascii) (l : list ascii) : list (list ascii) :=
  match l with
  | [] => [[]]
  | c :: l =>
      if Ascii.eqb c sep then [] :: split_on sep l
      else match split_on sep l with
           | x :: xs => (c :: x) :: xs
           | [] => [[c]]
           end
  end.

Definition cors_origins : list (list ascii) :=
  filter (λ o, o ≠ []) (strip_spaces <$> split_on ","%char (String.list_ascii_of_string (CORS_ALLOWED_ORIGINS self))).

(** [if b: raise ValueError(name)]; the validators run in sequence. *)
Definition refuse_if (b : bool) (name : string) : option string := if b then Some name else None.

Fixpoint first_refusal (l : list (option string)) : option string :=
  match l with
  | [] => None
  | Some e :: _ => Some e
  | None :: l => first_refusal l
  end.

Definition utf8_length (s : string) : nat := String.length s.

Definition validate_encryption_keys : option string :=
  match encryption_keys self with
  | None => Some "FIELD_ENCRYPTION_KEYS"
  | Some keys =>
      let pepper := String.list_ascii_of_string (get_secret_value (IDENTITY_FINGERPRINT_PEPPER self)) in
      first_refusal
        [ refuse_if (existsb (λ p, negb (length p.2 =? 32)%nat) (map_to_list keys)) "FIELD_ENCRYPTION_KEYS";
          refuse_if (negb (not_null (keys !! FIELD_ENCRYPTION_KEY_VERSION self))) "FIELD_ENCRYPTION_KEY_VERSION";
          refuse_if (existsb (λ p, bool_decide (p.2 = pepper)) (map_to_list keys)) "IDENTITY_FINGERPRINT_PEPPER";
          refuse_if (length pepper <? 32)%nat "IDENTITY_FINGERPRINT_PEPPER" ]
  end.

Definition validate_jwt : option string :=
  match JWT_ALGORITHM self with
  | HS256 =>
      match JWT_SECRET self with
      | None => Some "JWT_SECRET"
      | Some s => refuse_if (utf8_length (get_secret_value s) <? 32)%nat "JWT_SECRET"
      end
  | RS256 =>
      refuse_if (negb (not_null (JWT_PRIVATE_KEY self)) || negb (not_null (JWT_PUBLIC_KEY self))) "JWT_PRIVATE_KEY"
  end.

Definition outside_unit (r : dec) : bool := negb (dleb (dint 0) r && dleb r (dint 1)).

Definition validate_rates : option string :=
  first_refusal
    [ refuse_if (outside_unit (SERVICE_FEE_RATE (business self))) "SERVICE_FEE_RATE";
      refuse_if (outside_unit (DEFAULT_VAT_RATE (business self))) "DEFAULT_VAT_RATE";
      refuse_if (outside_unit (PLATFORM_COMMISSION_RATE (business self))) "PLATFORM_COMMISSION_RATE";
      refuse_if (dltb (MIN_WITHDRAWAL_AMOUNT (business self)) (sar 5000)) "MIN_WITHDRAWAL_AMOUNT";
      refuse_if (dltb (MAX_WITHDRAWAL_AMOUNT (business self)) (MIN_WITHDRAWAL_AMOUNT (business self)))
        "MAX_WITHDRAWAL_AMOUNT" ].

Definition validate_admin : option string :=
  if negb (ADMIN_DASHBOARD_ENABLED self) then None
  else
    match ADMIN_USERNAME self, ADMIN_PASSWORD self with
    | Some (String _ _ as username), Some pw =>
        let password := get_secret_value pw in
        first_refusal
          [ refuse_if (bool_decide (password = EmptyString)) "ADMIN_PASSWORD";
            match ADMIN_SESSION_SECRET self with
            | None => Some "ADMIN_SESSION_SECRET"
            | Some s => refuse_if (utf8_length (get_secret_value s) <? 32)%nat "ADMIN_SESSION_SECRET"
            end;
            refuse_if (is_production &&
                (bool_decide (username = "admin") && bool_decide (password = username) ||
                 (String.length password <? 12)%nat)) "ADMIN_PASSWORD" ]
    | _, _ => Some "ADMIN_USERNAME"
    end.

(** [getattr(self, name) in (None, "")]: a [SecretStr] is never equal to a string. *)
Definition empty_str (s : option string) : bool :=
  match s with None => true | Some EmptyString => true | Some _ => false end.

Definition empty_secret (s : option secret) : bool := match s with None => true | Some _ => false end.

Definition require_production_fields : option string :=
  first_refusal
    [ refuse_if (empty_secret (STREAMPAY_API_KEY self)) "STREAMPAY_API_KEY";
      refuse_if (empty_secret (STREAMPAY_API_SECRET self)) "STREAMPAY_API_SECRET";
      refuse_if (empty_secret (STREAMPAY_WEBHOOK_SECRET self)) "STREAMPAY_WEBHOOK_SECRET";
      refuse_if (empty_str (AWS_REGION self)) "AWS_REGION";
      refuse_if (empty_secret (AWS_ACCESS_KEY_ID self)) "AWS_ACCESS_KEY_ID";
      refuse_if (empty_secret (AWS_SECRET_ACCESS_KEY self)) "AWS_SECRET_ACCESS_KEY";
      refuse_if (empty_str (S3_BUCKET_NAME self)) "S3_BUCKET_NAME";
      refuse_if (empty_str (CLOUDFRONT_DOMAIN self)) "CLOUDFRONT_DOMAIN";
      refuse_if (empty_str (CLOUDFRONT_KEY_PAIR_ID self)) "CLOUDFRONT_KEY_PAIR_ID";
      refuse_if (empty_secret (CLOUDFRONT_PRIVATE_KEY self)) "CLOUDFRONT_PRIVATE_KEY";
      refuse_if (empty_secret (SMS_PROVIDER_KEY self)) "SMS_PROVIDER_KEY";
      refuse_if (empty_str (SUPABASE_URL self)) "SUPABASE_URL";
      refuse_if (empty_secret (SUPABASE_SERVICE_KEY self)) "SUPABASE_SERVICE_KEY";
      refuse_if (empty_secret (SNDR_API_KEY self)) "SNDR_API_KEY";
      refuse_if (empty_str (SNDR_BASE_URL self)) "SNDR_BASE_URL";
      refuse_if (empty_str (SNDR_FROM_EMAIL self)) "SNDR_FROM_EMAIL";
      refuse_if (empty_str (SNDR_FROM_NAME self)) "SNDR_FROM_NAME";
      refuse_if (empty_str (SNDR_INVOICE_PAID_TEMPLATE_KEY self)) "SNDR_INVOICE_PAID_TEMPLATE_KEY" ].

Definition validate_production_interlock : option string :=
  first_refusal
    [ refuse_if (DEBUG self) "DEBUG";
      refuse_if docs_enabled "docs";
      refuse_if (match cors_origins with [] => true | _ => false end) "CORS_ALLOWED_ORIGINS";
      refuse_if (bool_decide (["*"%char] ∈ cors_origins)) "CORS_ALLOWED_ORIGINS";
      require_production_fields ].

(** [None]: the process boots; otherwise the variable the error names. *)
Definition validate_boot : option string :=
  first_refusal
    [ validate_encryption_keys; validate_jwt; validate_rates; validate_admin;
      if is_production then validate_production_interlock else None ].
End Validate.

(** ** The clients a process runs with ([app/integrations/factory.py], [_guard.py]) *)

Inductive client_kind := Real | Fake.

(** [forbid_in_production], called by the constructor of every fake. *)
Definition forbid_in_production (e : Environment) : bool := bool_decide (e = PRODUCTION).

(** [None]: a [RuntimeError] at boot. *)
Definition build_clients (s : AppSettings) : option client_kind :=
  if is_production s then
    if empty_secret (STREAMPAY_API_KEY s) || empty_secret (STREAMPAY_API_SECRET s) ||
       empty_secret (STREAMPAY_WEBHOOK_SECRET s) || empty_secret (SNDR_API_KEY s) ||
       empty_secret (AWS_ACCESS_KEY_ID s) || empty_secret (AWS_SECRET_ACCESS_KEY s) ||
       empty_secret (CLOUDFRONT_PRIVATE_KEY s)
    then None else Some Real
  else if forbid_in_production (ENVIRONMENT s) then None else Some Fake.

(** ** A configuration *)

Definition secret32 : secret := SecretStr "0123456789abcdef0123456789abcdef".

Definition app0 : AppSettings :=
  mk_AppSettings settings0 DEVELOPMENT false (Some secret32) None None HS256 30 30 "safe-gift" "safe-gift"
    (Some keys1) 1 (SecretStr "pepper-pepper-pepper-pepper-pepper")
    None None None None None None None None None None None None None None None None None None
    (Some "operator") (Some (SecretStr "correct horse battery")) (Some secret32) 60 true EmptyString
    true 120 60 1048576 None 30 180 3 300 1800 4096 30 60.

Example app0_boots : validate_boot app0 = None.
Proof. vm_compute. reflexivity. Qed.
