(* ===== verification/Fields.v ===== *)
(** * Encrypted fields

    The cipher of Crypto.v as the services build and use it: [build_cipher] on the keys of
    the settings, [encrypt] with a fresh IV ([os.urandom]) and [decrypt], under the AAD of a
    table, a column and an entity.  AES-GCM is the interface [AesGcm]; [AesGcmLaws] states
    what authenticated encryption promises. *)

From Stdlib Require Import ZArith Lia Ascii.
From stdpp Require Import base list gmap strings numbers option pretty.
From S2P Require Import Prelude Errors PyDecimal Money Pricing Enums Tables Database Redis Crypto Invoices Config.
Open Scope Z_scope.

(** [AESGCM(key).encrypt], [.decrypt] ([None] is [InvalidTag]) and the [n]-th [os.urandom(12)]. *)
Class AesGcm := {
  gcm_encrypt : bytes → bytes → bytes → bytes → bytes;
  gcm_decrypt : bytes → bytes → bytes → bytes → option bytes;
  random_iv : N → bytes;
}.

Class AesGcmLaws `{AesGcm} : Prop := {
  gcm_opens : ∀ k iv pt aad, gcm_decrypt k iv (gcm_encrypt k iv pt aad) aad = Some pt;
  gcm_tag : ∀ k iv pt aad, (16 ≤ length (gcm_encrypt k iv pt aad))%nat;
  gcm_bound : ∀ k iv pt aad aad', aad' ≠ aad → gcm_decrypt k iv (gcm_encrypt k iv pt aad) aad' = None;
  iv_length : ∀ n, length (random_iv n) = 12%nat;
}.

Definition of_text (s : string) : bytes := String.list_ascii_of_string s.
Definition to_text (b : bytes) : string := String.string_of_list_ascii b.

Definition aad_of (table column entity : string) : bytes := build_aad (of_text table) (of_text column) (of_text entity).

Section Fields.
Context `{AesGcm}.

(** [build_cipher(settings.encryption_keys(), settings.FIELD_ENCRYPTION_KEY_VERSION)]. *)
Definition settings_cipher (settings : AppSettings) : res FieldCipher :=
  match encryption_keys settings with
  | None => Raise ValueError
  | Some keys =>
      match build_cipher keys (FIELD_ENCRYPTION_KEY_VERSION settings) with
      | CryptoOk c => Ok c
      | CryptoError => Raise CryptoExn
      end
  end.

(** [cipher.encrypt(text, build_aad(table, column, entity))]. *)
Definition seal (cipher : FieldCipher) (text table column entity : string) : T string :=
  n ← draw;
  blob ← required (encrypt gcm_encrypt cipher (random_iv n) (of_text text) (aad_of table column entity)) KeyError;
  mret (to_text blob).

(** [cipher.decrypt(blob, build_aad(table, column, entity))]. *)
Definition unseal (cipher : FieldCipher) (blob table column entity : string) : res string :=
  match decrypt gcm_decrypt cipher (of_text blob) (aad_of table column entity) with
  | CryptoOk pt => Ok (to_text pt)
  | CryptoError => Raise CryptoExn
  end.
End Fields.

(** ** Lemmas *)

Lemma of_to_text (b : bytes) : of_text (to_text b) = b.
Proof. apply String.list_ascii_of_string_of_list_ascii. Qed.

Lemma to_of_text (s : string) : to_text (of_text s) = s.
Proof. apply String.string_of_list_ascii_of_string. Qed.

Lemma aad_of_inj (table column e e' : string) : aad_of table column e = aad_of table column e' → e = e'.
Proof. intros E%build_aad_inj. rewrite <- (to_of_text e), E. apply to_of_text. Qed.

(** A cipher that [build_cipher] returned. *)
Definition built (c : FieldCipher) : Prop := build_cipher (fc_keys c) (fc_active_version c) = CryptoOk c.

Lemma settings_cipher_built (s : AppSettings) (c : FieldCipher) : settings_cipher s = Ok c →
  built c ∧ encryption_keys s = Some (fc_keys c) ∧ fc_active_version c = FIELD_ENCRYPTION_KEY_VERSION s.
Proof.
  unfold settings_cipher. destruct (encryption_keys s) as [keys|]; [|done].
  destruct (build_cipher _ _) as [c'|] eqn:E; [|done]. intros [= ->].
  pose proof (build_cipher_ok _ _ _ E) as (-> & _ & _). done.
Qed.

Section FieldLemmas.
Context `{AesGcm} `{!AesGcmLaws}.

(** What a cipher seals at draw [n]. *)
Definition sealed (c : FieldCipher) (key : bytes) (n : N) (text table column entity : string) : string :=
  to_text (b64encode (val_byte (fc_active_version c) :: random_iv n ++
    gcm_encrypt key (random_iv n) (of_text text) (aad_of table column entity))).

Lemma seal_run (c : FieldCipher) (text table column entity : string) (w : world) : built c →
  ∃ key, fc_keys c !! fc_active_version c = Some key ∧
    seal c text table column entity w =
      (Ok (sealed c key (w_draws w) text table column entity), w <| w_draws := (w_draws w + 1)%N |>).
Proof.
  intros (Ec & _ & key & Hk & _)%build_cipher_ok. exists key. split; [done|].
  unfold seal, encrypt. erewrite tbind_ok by reflexivity. by rewrite Hk.
Qed.

Lemma unseal_sealed (c c' : FieldCipher) (key : bytes) (n : N) (text table column e e' : string) :
  built c → fc_keys c !! fc_active_version c = Some key → fc_keys c ⊆ fc_keys c' →
  unseal c' (sealed c key n text table column e) table column e' = if decide (e = e') then Ok text else Raise CryptoExn.
Proof.
  intros (_ & Hv & _)%build_cipher_ok Hk Hsub. unfold unseal, sealed. rewrite of_to_text.
  erewrite (decrypt_encrypt gcm_encrypt gcm_decrypt c c' (random_iv n) (of_text text) (aad_of table column e)); [|lia|apply iv_length|exact Hk| |apply gcm_tag|].
  - destruct (decide (e = e')) as [<-|He]; [by rewrite gcm_opens, to_of_text|].
    rewrite gcm_bound; [done|]. intros E%aad_of_inj. congruence.
  - by eapply lookup_weaken.
  - unfold encrypt. by rewrite Hk.
Qed.

Lemma sealed_version (c : FieldCipher) (key : bytes) (n : N) (text table column e : string) :
  built c → blob_version (of_text (sealed c key n text table column e)) = CryptoOk (fc_active_version c).
Proof.
  intros (_ & Hv & _)%build_cipher_ok. unfold sealed, blob_version. rewrite of_to_text, b64_roundtrip, byte_val_byte by lia. done.
Qed.
End FieldLemmas.

Lemma preserves_seal `{AesGcm} (P : db → Prop) c text t col e : preserves P (seal c text t col e).
Proof. unfold seal. preserves_auto. Qed.
#[export] Hint Resolve preserves_seal : giftly.

(** The transparent cipher of Crypto.v. *)
Definition toy_gcm : AesGcm := {|
  gcm_encrypt := toy_encrypt; gcm_decrypt := toy_decrypt; random_iv _ := replicate 12 "i"%char |}.

#[export] Instance toy_gcm_laws : @AesGcmLaws toy_gcm.
Proof.
  constructor; unfold gcm_encrypt, gcm_decrypt, random_iv, toy_gcm; intros *.
  - rewrite toy_decrypt_encrypt. by rewrite decide_True.
  - unfold toy_encrypt. rewrite length_app, length_replicate. lia.
  - intros Ha. rewrite toy_decrypt_encrypt, decide_False by congruence. done.
  - done.
Qed.
