(* ===== verification/Tokens.v ===== *)
(** * Secrets and tokens ([app/core/security.py], [app/core/jwt.py])

    [hashlib], [hmac], [secrets] and PyJWT enter through the class [SecurityLib]; what the
    module relies on is in [JwtLaws]: PyJWT gives back the payload it signed when the
    key and the algorithm match and the registered claims are valid at that time,
    and rejects the token otherwise.  A payload is a finite map from claim names to
    texts and integers. *)

From Stdlib Require Import ZArith Lia Ascii.
From stdpp Require Import base list gmap strings numbers option pretty.
From S2P Require Import Prelude Errors PyDecimal Money Pricing Enums OrderState Tables Database Redis RateLimit Ledger Promos.
From S2P Require Import Crypto Media Orders Invoices Config.
Open Scope Z_scope.

Inductive claim := CText (s : string) | CInt (n : Z).

#[export] Instance claim_eq_dec : EqDecision claim.
Proof. solve_decision. Defined.

Abbreviation payload := (gmap string claim) (only parsing).

Class SecurityLib := {
  sha256_hex : string → string;
  hmac_hex : string → string → string;              (* value, key *)
  randbelow : N → Z → Z;                            (* the n-th draw, the bound *)
  token_urlsafe : N → string;                       (* the n-th draw *)
  jwt_encode : payload → string → jwt_algorithm → string;
  jwt_decode : string → string → jwt_algorithm → string → string → list string → instant → option payload;
  jwt_pair : jwt_algorithm → string → string → bool;  (* signing key, verification key *)
}.

(** The registered claims as PyJWT verifies them: the required ones are present, the token is
    neither expired nor issued in the future, issuer and audience are the expected ones. *)
Definition claims_valid (p : payload) (issuer audience : string) (required : list string) (now : instant) : bool :=
  forallb (λ c, not_null (p !! c)) required &&
  match p !! "exp" with Some (CInt e) => now <? e | Some _ => false | None => true end &&
  match p !! "iat" with Some (CInt i) => i <=? now | Some _ => false | None => true end &&
  bool_decide (p !! "iss" = Some (CText issuer)) && bool_decide (p !! "aud" = Some (CText audience)).

Class JwtLaws `{SecurityLib} : Prop := {
  jwt_decode_encode : ∀ p k k' a issuer audience required now, jwt_pair a k k' = true →
    jwt_decode (jwt_encode p k a) k' a issuer audience required now =
    if claims_valid p issuer audience required now then Some p else None;
  jwt_pair_hmac : ∀ k, jwt_pair HS256 k k = true;
}.

(** ** [uuid.UUID(text)], for the texts [str(uuid)] gives *)

Definition digit_val (c : ascii) : option N :=
  let n := N_of_ascii c in if (48 <=? n)%N && (n <=? 57)%N then Some (n - 48)%N else None.

Fixpoint digits_val (acc : N) (s : string) : option N :=
  match s with
  | EmptyString => Some acc
  | String c s => match digit_val c with Some d => digits_val (acc * 10 + d) s | None => None end
  end.

Definition parse_uuid (s : string) : option uuid :=
  match s with EmptyString => None | _ => digits_val 0 s end.

Lemma digit_val_char (x : N) : (x < 10)%N → digit_val (pretty_N_char x) = Some x.
Proof.
  intros Hx. assert (forallb (λ n, bool_decide (digit_val (pretty_N_char (N.of_nat n)) = Some (N.of_nat n))) (seq 0 10) = true) as H
    by (vm_compute; reflexivity).
  rewrite forallb_forall in H. specialize (H (N.to_nat x)). rewrite in_seq, N2Nat.id in H. 
  specialize (H ltac:(lia)). by apply bool_decide_eq_true in H.
Qed.

Lemma digits_val_go (x : N) : ∀ s, digits_val 0 (pretty_N_go x s) = digits_val x s.
Proof.
  induction (N.lt_wf_0 x) as [x _ IH]. intros s. destruct (decide (x = 0)%N) as [->|Hx].
  - by rewrite pretty_N_go_0.
  - rewrite pretty_N_go_step by lia. rewrite IH by (apply N.div_lt; lia). cbn [digits_val].
    rewrite digit_val_char by (apply N.mod_lt; lia). f_equal. rewrite N.mul_comm. symmetry. apply N.div_mod. lia.
Qed.

Lemma parse_uuid_str (u : uuid) : parse_uuid (uuid_str u) = Some u.
Proof.
  unfold parse_uuid, uuid_str. destruct (pretty u) eqn:E.
  - exfalso. destruct (decide (u = 0)%N) as [->|Hu]; [discriminate E|].
    assert (digits_val 0 (pretty_N_go u EmptyString) = Some u) as H by (rewrite digits_val_go; done).
    assert (pretty u = pretty_N_go u EmptyString) as E' by (unfold pretty, pretty_N; by rewrite decide_False).
    rewrite <- E', E in H. cbn in H. congruence.
  - rewrite <- E. destruct (decide (u = 0)%N) as [->|Hu]; [done|].
    assert (pretty u = pretty_N_go u EmptyString) as -> by (unfold pretty, pretty_N; by rewrite decide_False).
    by rewrite digits_val_go.
Qed.

Section Security.
Context `{SecurityLib}.

(** [f"{n:06d}"]. *)
Definition OTP_DIGITS : nat := 6.

Definition zero_pad (width : nat) (s : string) : string :=
  String.string_of_list_ascii (replicate (width - String.length s) "0"%char) +:+ s.

Definition generate_otp : T string :=
  n ← draw;
  mret (zero_pad OTP_DIGITS (pretty (randbelow n (10 ^ Z.of_nat OTP_DIGITS)))).

Definition generate_session_token : T string := n ← draw; mret (token_urlsafe n).

(** [hmac.compare_digest] of ASCII texts (it takes no others). *)
Definition constant_time_equals (a b : string) : bool := bool_decide (a = b).

Definition make_csrf_token (session_token_hash secret : string) : string := hmac_hex session_token_hash secret.

Definition verify_csrf_token (token session_token_hash secret : string) : bool :=
  constant_time_equals token (make_csrf_token session_token_hash secret).

(** ** JSON web tokens *)

Record AccessClaims := mk_AccessClaims { ac_sub : string; ac_role : string; ac_jti : string; ac_exp : Z }.

Definition REGISTRATION_TTL : Z := 600.

Section Jwt.
Context (settings : AppSettings).

Definition signing_key : res string :=
  match JWT_ALGORITHM settings with
  | HS256 => match JWT_SECRET settings with Some s => Ok (get_secret_value s) | None => Raise JwtError end
  | RS256 => match JWT_PRIVATE_KEY settings with Some s => Ok (get_secret_value s) | None => Raise JwtError end
  end.

Definition verify_key : res string :=
  match JWT_ALGORITHM settings with
  | HS256 => match JWT_SECRET settings with Some s => Ok (get_secret_value s) | None => Raise JwtError end
  | RS256 => match JWT_PUBLIC_KEY settings with Some s => Ok (get_secret_value s) | None => Raise JwtError end
  end.

Definition access_payload (user_id : uuid) (role jti : string) (now : instant) : payload :=
  {[ "sub" := CText (uuid_str user_id); "role" := CText role; "jti" := CText jti; "iat" := CInt now;
     "exp" := CInt (now + JWT_ACCESS_TTL_MINUTES settings * 60);
     "iss" := CText (JWT_ISSUER settings); "aud" := CText (JWT_AUDIENCE settings) ]}.

(** The [jti] is a fresh [uuid4()]. *)
Definition create_access_token (user_id : uuid) (role : string) : T (string * string * Z) :=
  now ← clock;
  id ← on_db uuid4;
  let jti := uuid_str id in
  key ← pure signing_key;
  mret (jwt_encode (access_payload user_id role jti now) key (JWT_ALGORITHM settings), jti,
        JWT_ACCESS_TTL_MINUTES settings * 60).

Definition text_of (c : option claim) : option string := match c with Some (CText s) => Some s | _ => None end.
Definition int_of (c : option claim) : option Z := match c with Some (CInt n) => Some n | _ => None end.

Definition ACCESS_CLAIMS : list string := ["sub"; "role"; "jti"; "exp"; "iss"; "aud"].

(** A claim of another JSON type would be passed on by the code; none is ever signed. *)
Definition decode_access_token (token : string) (now : instant) : res AccessClaims :=
  key ← verify_key;
  match jwt_decode token key (JWT_ALGORITHM settings) (JWT_ISSUER settings) (JWT_AUDIENCE settings) ACCESS_CLAIMS now with
  | None => Raise JwtError
  | Some p =>
      raise_if (not_null (p !! "purpose")) JwtError;;
      match text_of (p !! "sub"), text_of (p !! "role"), text_of (p !! "jti"), int_of (p !! "exp") with
      | Some s, Some r, Some j, Some e => Ok (mk_AccessClaims s r j e)
      | _, _, _, _ => Raise JwtError
      end
  end.

Definition registration_payload (phone : string) (now : instant) : payload :=
  {[ "sub" := CText phone; "purpose" := CText "registration"; "iat" := CInt now;
     "exp" := CInt (now + REGISTRATION_TTL); "iss" := CText (JWT_ISSUER settings);
     "aud" := CText (JWT_AUDIENCE settings) ]}.

Definition create_registration_token (phone : string) : T string :=
  now ← clock;
  key ← pure signing_key;
  mret (jwt_encode (registration_payload phone now) key (JWT_ALGORITHM settings)).

Definition decode_registration_token (token : string) (now : instant) : res string :=
  key ← verify_key;
  match jwt_decode token key (JWT_ALGORITHM settings) (JWT_ISSUER settings) (JWT_AUDIENCE settings) [] now with
  | None => Raise JwtError
  | Some p =>
      raise_if (negb (bool_decide (p !! "purpose" = Some (CText "registration")))) JwtError;;
      match text_of (p !! "sub") with Some s => Ok s | None => Raise JwtError end
  end.
End Jwt.
End Security.

(** ** Lemmas *)

Section TokenLemmas.
Context `{SecurityLib} `{!JwtLaws} (settings : AppSettings).

(** The configured keys belong together. *)
Definition key_pair_ok : Prop :=
  ∃ k k', signing_key settings = Ok k ∧ verify_key settings = Ok k' ∧ jwt_pair (JWT_ALGORITHM settings) k k' = true.

(** With HS256 every configuration that boots has them. *)
Lemma hmac_keys_ok : JWT_ALGORITHM settings = HS256 → validate_jwt settings = None → key_pair_ok.
Proof.
  intros Ha Hv. unfold validate_jwt in Hv. unfold key_pair_ok, signing_key, verify_key. rewrite Ha in *.
  destruct (JWT_SECRET settings) as [s|]; [|done]. exists (get_secret_value s), (get_secret_value s).
  split; [done|]. split; [done|]. apply jwt_pair_hmac.
Qed.

Lemma claims_valid_access (u : uuid) (role jti : string) (t0 t : instant) (req : list string) :
  (∀ c, c ∈ req → c ∈ ACCESS_CLAIMS) →
  claims_valid (access_payload settings u role jti t0) (JWT_ISSUER settings) (JWT_AUDIENCE settings) req t =
  (t <? t0 + JWT_ACCESS_TTL_MINUTES settings * 60) && (t0 <=? t).
Proof.
  intros Hreq. unfold claims_valid.
  assert (forallb (λ c, not_null (access_payload settings u role jti t0 !! c)) req = true) as ->.
  { apply forallb_forall. intros c Hc%list_elem_of_In%Hreq. unfold ACCESS_CLAIMS in Hc.
    repeat (apply elem_of_cons in Hc as [->|Hc]; [done|]). by apply not_elem_of_nil in Hc. }
  unfold access_payload. change (?m !! "exp") with (Some (CInt (t0 + JWT_ACCESS_TTL_MINUTES settings * 60))).
  change (?m !! "iat") with (Some (CInt t0)). change (?m !! "iss") with (Some (CText (JWT_ISSUER settings))).
  change (?m !! "aud") with (Some (CText (JWT_AUDIENCE settings))).
  rewrite !bool_decide_eq_true_2 by done. by rewrite !andb_true_r.
Qed.

Lemma claims_valid_registration (phone : string) (t0 t : instant) (req : list string) :
  claims_valid (registration_payload settings phone t0) (JWT_ISSUER settings) (JWT_AUDIENCE settings) req t =
  forallb (λ c, not_null (registration_payload settings phone t0 !! c)) req && (t <? t0 + REGISTRATION_TTL) && (t0 <=? t).
Proof.
  unfold claims_valid. unfold registration_payload at 2 3 4 5. change (?m !! "exp") with (Some (CInt (t0 + REGISTRATION_TTL))).
  change (?m !! "iat") with (Some (CInt t0)). change (?m !! "iss") with (Some (CText (JWT_ISSUER settings))).
  change (?m !! "aud") with (Some (CText (JWT_AUDIENCE settings))).
  rewrite !bool_decide_eq_true_2 by done. by rewrite !andb_true_r.
Qed.

Lemma create_access_token_run (u : uuid) (role : string) (w w' : world) (tok jti : string) (ttl : Z) :
  create_access_token settings u role w = (Ok (tok, jti, ttl), w') →
  ∃ key, signing_key settings = Ok key ∧ jti = uuid_str (db_next (w_db w)) ∧
    tok = jwt_encode (access_payload settings u role jti (w_now w)) key (JWT_ALGORITHM settings) ∧
    ttl = JWT_ACCESS_TTL_MINUTES settings * 60.
Proof.
  unfold create_access_token. intros Hr. erewrite tbind_ok in Hr by reflexivity. erewrite tbind_ok in Hr by reflexivity.
  apply tbind_inv in Hr as (key & w1 & [Hk ->]%pure_ok & Hr). injection Hr as <- <- <- _. by exists key.
Qed.

Lemma access_token_decodes (u : uuid) (role jti k k' : string) (t0 t : instant) :
  verify_key settings = Ok k' → jwt_pair (JWT_ALGORITHM settings) k k' = true →
  decode_access_token settings (jwt_encode (access_payload settings u role jti t0) k (JWT_ALGORITHM settings)) t =
  if (t <? t0 + JWT_ACCESS_TTL_MINUTES settings * 60) && (t0 <=? t)
  then Ok (mk_AccessClaims (uuid_str u) role jti (t0 + JWT_ACCESS_TTL_MINUTES settings * 60))
  else Raise JwtError.
Proof.
  intros Hv Hp. unfold decode_access_token. rewrite Hv. cbn [mbind res_bind].
  rewrite jwt_decode_encode by exact Hp. rewrite claims_valid_access by done.
  by destruct (_ && _).
Qed.
End TokenLemmas.

(** ** Properties *)

(** [C32] Tokens read back as what they were issued for, only in time, and only for their own
    purpose: an access token of a user decodes to that user, role and id from its issue
    until its expiry and is rejected from then on; a registration token decodes to its phone for ten
    minutes; and neither is ever accepted in place of the other, although
    both carry the same issuer, audience and signing key. *)
Theorem token_purposes_disjoint `{SecurityLib} `{!JwtLaws} (s : AppSettings) (u : uuid) (role phone : string)
    (w w1 w2 w3 : world) (tok jti reg : string) (ttl t : Z) :
  key_pair_ok s → 
  create_access_token s u role w = (Ok (tok, jti, ttl), w1) → create_registration_token s phone w2 = (Ok reg, w3) →
  decode_access_token s tok t =
    (if (w_now w <=? t) && (t <? w_now w + ttl) then Ok (mk_AccessClaims (uuid_str u) role jti (w_now w + ttl)) else Raise JwtError) ∧
  decode_registration_token s reg t =
    (if (w_now w2 <=? t) && (t <? w_now w2 + 600) then Ok phone else Raise JwtError) ∧
  decode_registration_token s tok t = Raise JwtError ∧ decode_access_token s reg t = Raise JwtError.
Proof.
  intros (k & k' & Hk & Hk' & Hp) Ha Hr. apply create_access_token_run in Ha as (k1 & Hk1 & _ & -> & ->).
  rewrite Hk in Hk1. injection Hk1 as <-. unfold create_registration_token in Hr. erewrite tbind_ok in Hr by reflexivity.
  rewrite Hk in Hr. injection Hr as <- _. split.
  { rewrite (access_token_decodes s _ _ _ k k' _ _ Hk' Hp). by rewrite andb_comm. }
  unfold decode_registration_token, decode_access_token. rewrite Hk'. cbn [mbind res_bind].
  rewrite !jwt_decode_encode by exact Hp. rewrite !claims_valid_registration, claims_valid_access by (intros c Hc; by apply not_elem_of_nil in Hc).
  split; [|split; [by destruct (_ && _)|done]]. cbn [forallb andb]. change 600 with REGISTRATION_TTL. by destruct (t <? _), (_ <=? t).
Qed.

(** A transparent library that meets the laws: a token is the printed key, algorithm and
    claims. *)
#[export] Instance claim_countable : Countable claim.
Proof.
  refine (inj_countable' (λ c, match c with CText s => inl s | CInt n => inr n end)
    (λ c, match c with inl s => CText s | inr n => CInt n end) _). by intros [].
Defined.

#[export] Instance jwt_algorithm_countable : Countable jwt_algorithm.
Proof.
  refine (inj_countable' (λ a, bool_decide (a = HS256)) (λ b : bool, if b then HS256 else RS256) _). by intros [].
Defined.

Definition toy_token (p : payload) (key : string) (a : jwt_algorithm) : string := uuid_str (N.pos (encode (p, key, a))).

Definition toy_claims (token : string) : option (payload * string * jwt_algorithm) :=
  n ← parse_uuid token;
  match n with N0 => None | N.pos q => decode q end.

Definition toy_lib : SecurityLib := {|
  sha256_hex s := "sha256:" +:+ s;
  hmac_hex v k := "hmac:" +:+ k +:+ ":" +:+ v;
  randbelow n k := Z.of_N n mod k;
  token_urlsafe n := "token-" +:+ uuid_str n;
  jwt_encode := toy_token;
  jwt_decode token key a issuer audience required now :=
    x ← toy_claims token;
    let '(p, k, a') := x in
    if bool_decide (k = key) && bool_decide (a' = a) && claims_valid p issuer audience required now then Some p else None;
  jwt_pair a k k' := bool_decide (k = k')
|}.

Lemma toy_claims_token (p : payload) (key : string) (a : jwt_algorithm) : toy_claims (toy_token p key a) = Some (p, key, a).
Proof. unfold toy_claims, toy_token. rewrite parse_uuid_str. cbn. apply decode_encode. Qed.

#[export] Instance toy_laws : @JwtLaws toy_lib.
Proof.
  constructor.
  - intros p k k' a issuer audience required now E%bool_decide_eq_true. subst k'. cbn. rewrite toy_claims_token. cbn.
    by rewrite !bool_decide_eq_true_2.
  - intros k. cbn. by apply bool_decide_eq_true_2.
Qed.

Lemma token_purposes_disjoint_witness :
  ∃ tok jti ttl reg w1 w3, @create_access_token toy_lib app0 70 "CUSTOMER" world_empty = (Ok (tok, jti, ttl), w1) ∧
    @create_registration_token toy_lib app0 "+966500000099" world_empty = (Ok reg, w3) ∧
    @decode_access_token toy_lib app0 reg 0 = Raise JwtError.
Proof.
  assert (@key_pair_ok toy_lib app0) as Hk by (by apply hmac_keys_ok).
  destruct (@create_access_token toy_lib app0 70 "CUSTOMER" world_empty) as [[[[tok jti] ttl]|e] w1] eqn:Ha; [|discriminate Ha].
  destruct (@create_registration_token toy_lib app0 "+966500000099" world_empty) as [[reg|e] w3] eqn:Hr; [|discriminate Hr].
  exists tok, jti, ttl, reg, w1, w3. split; [reflexivity|]. split; [reflexivity|].
  apply (@token_purposes_disjoint toy_lib toy_laws app0 70 "CUSTOMER" "+966500000099" world_empty w1 world_empty w3 tok jti reg ttl 0 Hk Ha Hr).
Defined.
