(* ===== verification/Otp.v ===== *)
(** * One-time passwords ([app/services/otp_service.py])

    Codes live in Redis only, as an HMAC, next to the counters that limit requests and
    guesses.  The SMS client is an interface. *)

From Stdlib Require Import ZArith Lia Ascii.
From stdpp Require Import base list gmap strings numbers option pretty sorting.
From S2P Require Import Prelude Errors PyDecimal Money Pricing Enums OrderState Tables Database Redis RateLimit Ledger Promos.
From S2P Require Import Crypto Media Orders Invoices Config Tokens.
Open Scope Z_scope.

(** [app/integrations/sms/base.py]; [Raise] is an exception of the provider's client. *)
Class SmsClient := { send_otp_sms : string → string → res () }.

Definition MAX_VERIFY_ATTEMPTS : Z := 5.

Section Otp.
Context `{SecurityLib} `{SmsClient} (settings : AppSettings).

(** [OtpService.__init__]. *)
Definition otp_hmac_key : string :=
  match OTP_HMAC_KEY settings with
  | Some k => get_secret_value k
  | None =>
      match JWT_SECRET settings with
      | Some k => get_secret_value k
      | None => get_secret_value (IDENTITY_FINGERPRINT_PEPPER settings)
      end
  end.

Definition code_key (phone : string) : string := "otp:code:" +:+ phone.
Definition attempts_key (phone : string) : string := "otp:attempts:" +:+ phone.
Definition rate_key (phone : string) : string := "otp:rate:" +:+ phone.
Definition block_key (phone : string) : string := "otp:block:" +:+ phone.

Definition request_otp (phone : string) : T (option string) :=
  b ← redis_get (block_key phone);
  assert_ (truthy b) (RateLimitedError (OTP_BLOCK_SECONDS settings));;
  count ← count_hit (rate_key phone) (OTP_WINDOW_SECONDS settings);
  (if OTP_MAX_PER_WINDOW settings <? count then
     redis_set (block_key phone) "1" (OTP_BLOCK_SECONDS settings);;
     throw (RateLimitedError (OTP_BLOCK_SECONDS settings))
   else mret ());;
  code ← generate_otp;
  redis_set (code_key phone) (hmac_hex code otp_hmac_key) (OTP_TTL_SECONDS settings);;
  redis_delete (attempts_key phone);;
  pure (send_otp_sms phone code);;
  emit (Sms phone code);;
  mret (if bool_decide (ENVIRONMENT settings = DEVELOPMENT) then Some code else None).

Definition verify_otp (phone code : string) : T bool :=
  attempts ← count_hit (attempts_key phone) (OTP_TTL_SECONDS settings);
  if MAX_VERIFY_ATTEMPTS <? attempts then
    redis_delete (code_key phone);;
    throw (RateLimitedError (OTP_TTL_SECONDS settings))
  else
    raw ← redis_get (code_key phone);
    match raw with
    | None => mret false
    | Some (RNum _) => mret false
    | Some (RText stored) =>
        if negb (constant_time_equals stored (hmac_hex code otp_hmac_key)) then mret false
        else
          redis_delete (code_key phone);; redis_delete (attempts_key phone);;
          redis_delete (rate_key phone);;
          mret true
    end.
End Otp.

(** ** Guessing a code *)

(** Each guess is a request of its own, at its own time. *)
Fixpoint guesses `{SecurityLib} (s : AppSettings) (phone : string) (l : list (instant * string)) (w : world)
    : list (res bool) :=
  match l with
  | [] => []
  | (t, g) :: l =>
      let r := verify_otp s phone g (advance t w).2 in
      r.1 :: guesses s phone l r.2
  end.

Lemma keys_differ (p q : string) : code_key p ≠ attempts_key q ∧ code_key p ≠ rate_key q ∧ attempts_key p ≠ rate_key q.
Proof. repeat split; intros E; discriminate E. Qed.

Section Guess.
Context `{SecurityLib} (s : AppSettings) (phone : string).

(** No code can be accepted any more: it is gone, or its time is over. *)
Definition spent (w : world) : Prop :=
  match w_redis w !! code_key phone with
  | Some (mk_entry _ (Some x)) => x ≤ w_now w
  | Some (mk_entry _ None) => False
  | None => True
  end.

Lemma spent_peek (w : world) : spent w → peek (code_key phone) w = None.
Proof.
  unfold spent, peek. destruct (w_redis w !! code_key phone) as [[v [x|]]|]; cbn; [|done..].
  intros Hx. destruct (Z.ltb_spec (w_now w) x); [lia|done].
Qed.

Lemma verify_spent (g : string) (w : world) :
  spent w → (verify_otp s phone g w).1 ≠ Ok true ∧ spent (verify_otp s phone g w).2 ∧
    w_now (verify_otp s phone g w).2 = w_now w.
Proof.
  intros Hs. unfold verify_otp.
  destruct (count_hit (attempts_key phone) (OTP_TTL_SECONDS s) w) as [r w1] eqn:E.
  assert (w_redis w1 !! code_key phone = w_redis w !! code_key phone) as Er.
  { rewrite <- (touches_count_hit (attempts_key phone) (OTP_TTL_SECONDS s) w (code_key phone)); [by rewrite E|].
    apply keys_differ. }
  destruct (same_clock_count_hit (attempts_key phone) (OTP_TTL_SECONDS s) w) as [Ew _]. rewrite E in Ew. cbn in Ew.
  assert (spent w1) as Hs1 by (unfold spent; by rewrite Er, Ew).
  destruct r as [n|e]; [|erewrite tbind_raise by exact E; done]. erewrite tbind_ok by exact E.
  destruct (_ <? n).
  - unfold redis_delete, command, mbind, T_bind. destruct (w_up w1) eqn:Eu; [|done]. cbn. split; [done|]. split; [|done].
    unfold spent. cbn. by rewrite lookup_delete_eq.
  - unfold redis_get, command, mbind, T_bind. destruct (w_up w1); [|done]. rewrite spent_peek by done. done.
Qed.

Lemma spent_advance (w : world) (t : instant) : spent w → w_now w ≤ t → spent (advance t w).2.
Proof.
  unfold spent. cbn. destruct (w_redis w !! code_key phone) as [[v [x|]]|]; [|done..]. unfold w_now. cbn. lia.
Qed.

Lemma guesses_spent (l : list (instant * string)) : ∀ w,
  spent w → StronglySorted Z.le (w_now w :: (fst <$> l)) → Forall (λ r, r ≠ Ok true) (guesses s phone l w).
Proof.
  induction l as [|[t g] l IH]; intros w Hs Ht; [constructor|]. cbn [guesses].
  apply StronglySorted_inv in Ht as [Ht Hle]. inversion Hle as [|? ? Htw _]; subst.
  apply (spent_advance _ t) in Hs; [|done]. apply (verify_spent g) in Hs as (H1 & H2 & H3).
  constructor; [exact H1|]. apply IH; [exact H2|]. rewrite H3. exact Ht.
Qed.

(** A code stored until [xc], after [n] wrong guesses. *)
Record pending_code (h : string) (xc : instant) (n : Z) (w : world) : Prop := {
  pc_up : w_up w = true;
  pc_code : w_redis w !! code_key phone = Some (mk_entry (RText h) (Some xc));
  pc_attempts : (n = 0 ∧ w_redis w !! attempts_key phone = None) ∨
    (1 ≤ n ∧ ∃ xa, xc ≤ xa ∧ w_redis w !! attempts_key phone = Some (mk_entry (RNum n) (Some xa)));
}.

Lemma verify_pending (h : string) (xc : instant) (n : Z) (g : string) (w : world) :
  0 ≤ n ≤ MAX_VERIFY_ATTEMPTS → pending_code h xc n w → w_now w < xc → xc ≤ w_now w + OTP_TTL_SECONDS s →
  let r := verify_otp s phone g w in
  w_now r.2 = w_now w ∧
  (r.1 = Ok true ∧ n < MAX_VERIFY_ATTEMPTS ∧ hmac_hex g (otp_hmac_key s) = h ∧ spent r.2 ∨
   r.1 ≠ Ok true ∧ (spent r.2 ∨ n < MAX_VERIFY_ATTEMPTS ∧ pending_code h xc (n + 1) r.2)).
Proof.
  intros Hn [Hup Hc Ha] Hx Hxc r. unfold r, verify_otp.
  destruct (keys_differ phone phone) as (K1 & K2 & K3).
  assert (counter (attempts_key phone) w ∧ hits (attempts_key phone) w = n ∧
    xc ≤ window_end (attempts_key phone) (OTP_TTL_SECONDS s) w) as (Hcnt & Hhit & Hwe).
  { unfold counter, hits, window_end, peek. destruct Ha as [[-> Ha]|(Hn1 & xa & Hxa & Ha)]; rewrite Ha; cbn; [done|].
    destruct (Z.ltb_spec (w_now w) xa); [done|lia]. }
  erewrite tbind_ok by (by apply count_hit_run). rewrite Hhit.
  set (xa := window_end _ _ w) in *. set (w1 := put _ _ w).
  assert (w_redis w1 !! code_key phone = Some (mk_entry (RText h) (Some xc))) as Hc1.
  { unfold w1, put. cbn. by rewrite lookup_insert_ne. }
  assert (w_up w1 = true) as Hup1 by done. unfold MAX_VERIFY_ATTEMPTS in *. destruct (Z.ltb_spec 5 (n + 1)).
  - unfold redis_delete, command, mbind, T_bind. rewrite Hup1. cbn. split; [done|]. right. split; [done|]. left.
    unfold spent. cbn. by rewrite lookup_delete_eq.
  - unfold redis_get, command. erewrite tbind_ok by (cbn beta; rewrite Hup1; reflexivity).
    assert (peek (code_key phone) w1 = Some (mk_entry (RText h) (Some xc))) as ->.
    { unfold peek. rewrite Hc1. cbn. destruct (Z.ltb_spec (w_now w1) xc); [done|]. unfold w1, w_now, put in *. cbn in *. lia. }
    cbn [fmap option_fmap option_map en_value]. unfold constant_time_equals.
    destruct (bool_decide_reflect (h = hmac_hex g (otp_hmac_key s))) as [->|Hne]; cbn [negb].
    + unfold redis_delete, command, mbind, T_bind. rewrite Hup1. cbn. rewrite Hup. cbn. rewrite Hup. cbn.
      split; [done|]. left. split; [done|]. split; [lia|]. split; [done|]. unfold spent. cbn.
      rewrite lookup_delete_ne by congruence. rewrite lookup_delete_ne by congruence. by rewrite lookup_delete_eq.
    + split; [done|]. right. split; [done|]. right. split; [lia|]. constructor; [done|exact Hc1|]. right. split; [lia|].
      exists xa. split; [done|]. unfold w1, put. cbn. by rewrite lookup_insert_eq.
Qed.

Definition accepted (l : list (instant * string)) (w : world) (i : nat) : Prop := guesses s phone l w !! i = Some (Ok true).

Lemma spent_not_accepted l w i : spent w → StronglySorted Z.le (w_now w :: (fst <$> l)) → ¬ accepted l w i.
Proof. intros Hs Ht Hi. by apply (proj1 (Forall_lookup _ _) (guesses_spent _ _ Hs Ht)) in Hi. Qed.

Lemma guesses_pending (h : string) (xc t0 : instant) (l : list (instant * string)) : ∀ (n : Z) (w : world),
  0 ≤ n ≤ MAX_VERIFY_ATTEMPTS → pending_code h xc n w → t0 ≤ w_now w → xc = t0 + OTP_TTL_SECONDS s →
  StronglySorted Z.le (w_now w :: (fst <$> l)) → ∀ i, accepted l w i →
  Z.of_nat i + n < MAX_VERIFY_ATTEMPTS ∧ (∃ g, (snd <$> l) !! i = Some g ∧ hmac_hex g (otp_hmac_key s) = h) ∧
  ∀ j, accepted l w j → j = i.
Proof.
  induction l as [|[t g] l IH]; intros n w Hn Hp Hle Hxc Ht i Hi; [done|].
  apply StronglySorted_inv in Ht as [Ht Hall]. inversion Hall as [|? ? Htw _]; subst.
  set (w1 := (advance t w).2) in *. assert (w_now w1 = t) as Ew1 by done. unfold accepted in *. cbn [guesses] in *. fold w1 in Hi |- *.
  destruct (decide (t < t0 + OTP_TTL_SECONDS s)) as [Hlt|Hge].
  2:{ assert (spent w1) as Hs.
      { unfold spent. destruct Hp as [_ Hc _]. change (w_redis w1) with (w_redis w). rewrite Hc. lia. }
      destruct (verify_spent g _ Hs) as (H1 & H2 & H3). exfalso. destruct i as [|i]; [by injection Hi|].
      cbn in Hi. eapply (spent_not_accepted l _ i H2); [|exact Hi]. rewrite H3, Ew1. exact Ht. }
  assert (pending_code h (t0 + OTP_TTL_SECONDS s) n w1) as Hp1 by (by destruct Hp as [P1 P2 P3]).
  destruct (verify_pending _ _ _ g w1 Hn Hp1) as [Hnow Hcase]; [lia|lia|]. rewrite Ew1 in Hnow.
  assert (StronglySorted Z.le (w_now (verify_otp s phone g w1).2 :: (fst <$> l))) as Ht1 by (by rewrite Hnow).
  destruct Hcase as [(H1 & H2 & H3 & Hs)|(H1 & Hcase)].
  - assert (∀ j, (((verify_otp s phone g w1).1 :: guesses s phone l (verify_otp s phone g w1).2) : list (res bool)) !! j = Some (Ok true) → j = 0%nat) as Hz.
    { intros [|j] Hj; [done|]. by destruct (spent_not_accepted l _ j Hs Ht1). }
    rewrite (Hz i Hi). split; [lia|]. split; [by exists g|]. intros j Hj. by apply Hz.
  - destruct i as [|i]; [by injection Hi|]. cbn [lookup list_lookup] in Hi. destruct Hcase as [Hs|[Hlt5 Hp2]].
    { by destruct (spent_not_accepted l _ i Hs Ht1). }
    destruct (IH (n + 1) _ ltac:(lia) Hp2 ltac:(lia) eq_refl Ht1 i Hi) as (B1 & B2 & B3). split; [lia|]. split; [exact B2|].
    intros [|j] Hj; [by injection Hj|]. f_equal. by apply B3.
Qed.
End Guess.

(** ** Properties *)

(** [C23] A one-time password can be used once and guessed at most five times: after a code
    was issued, of all later attempts on that phone (with whatever codes, at whatever later
    times, until the next code is requested) at most one is accepted; it is among the
    first five, and it presented a code with the HMAC of the one that was sent. *)
Theorem otp_guess_bound `{SecurityLib} `{SmsClient} (s : AppSettings) (phone : string) (w w1 : world)
    (dev : option string) (l : list (instant * string)) :
  request_otp s phone w = (Ok dev, w1) → StronglySorted Z.le (w_now w :: (fst <$> l)) →
  ∃ code, last (w_out w1) = Some (Sms phone code) ∧
  ∀ i, guesses s phone l w1 !! i = Some (Ok true) →
    (i < 5)%nat ∧ (∃ g, (snd <$> l) !! i = Some g ∧ hmac_hex g (otp_hmac_key s) = hmac_hex code (otp_hmac_key s)) ∧
    ∀ j, guesses s phone l w1 !! j = Some (Ok true) → j = i.
Proof.
  intros Hr Ht. unfold request_otp in Hr. apply tbind_inv in Hr as (b & u1 & Hb & Hr).
  assert (u1 = w ∧ w_up w = true) as [-> Hup].
  { unfold redis_get, command in Hb. destruct (w_up w) eqn:E; [|done]. by injection Hb as _ ->. }
  apply tbind_inv in Hr as (? & u1 & [_ ->]%assert_ok & Hr). apply tbind_inv in Hr as (n & u1 & Hn & Hr).
  destruct (same_clock_count_hit (rate_key phone) (OTP_WINDOW_SECONDS s) w) as [Ew Eu]. rewrite Hn in Ew, Eu. cbn in Ew, Eu.
  apply tbind_inv in Hr as (? & u2 & Hg & Hr).
  assert (u2 = u1) as ->.
  { destruct (_ <? n); [|by injection Hg as _ ->]. apply tbind_inv in Hg as (? & ? & _ & Hg). discriminate Hg. }
  apply tbind_inv in Hr as (code & u2 & Hc & Hr).
  assert (w_redis u2 = w_redis u1 ∧ w_db u2 = w_db u1 ∧ w_up u2 = true) as (E1 & E2 & E3).
  { unfold generate_otp in Hc. apply tbind_inv in Hc as (k & u3 & Hd & Hc). injection Hc as _ <-. injection Hd as _ <-.
    cbn. by rewrite Eu. }
  apply tbind_inv in Hr as (? & u3 & Hs & Hr). unfold redis_set, command in Hs. rewrite E3 in Hs.
  destruct (Z.leb_spec (OTP_TTL_SECONDS s) 0) as [|Httl]; [done|]. injection Hs as _ <-.
  apply tbind_inv in Hr as (? & u3 & Hd & Hr). unfold redis_delete, command in Hd.
  rewrite (eq_refl : w_up (put _ _ u2) = w_up u2), E3 in Hd. injection Hd as _ <-.
  apply tbind_inv in Hr as (? & u3 & [_ ->]%pure_ok & Hr). apply tbind_inv in Hr as (? & u3 & Hem & Hr).
  injection Hem as _ <-. injection Hr as _ <-. exists code. split; [cbn; by rewrite last_snoc|].
  assert (w_now u2 = w_now w) as Enow by (unfold w_now in *; congruence). rewrite <- Enow in Ht. intros i Hi.
  match type of Hi with guesses _ _ _ ?x !! _ = _ => set (w1 := x) in * end.
  assert (pending_code phone (hmac_hex code (otp_hmac_key s)) (w_now u2 + OTP_TTL_SECONDS s) 0 w1) as Hp.
  { destruct (keys_differ phone phone) as (K1 & _ & _). constructor; [exact E3| |left; split; [done|]]; cbn.
    - rewrite lookup_delete_ne by congruence. by rewrite lookup_insert_eq.
    - by rewrite lookup_delete_eq. }
  destruct (guesses_pending _ _ _ _ (w_now u2) l 0 w1 ltac:(done) Hp ltac:(done) eq_refl Ht i Hi) as (B1 & B2 & B3).
  unfold MAX_VERIFY_ATTEMPTS in B1. split; [lia|]. split; [exact B2|exact B3].
Qed.

(** A provider that delivers everything. *)
Definition sms0 : SmsClient := {| send_otp_sms _ _ := Ok () |}.

Definition issue_and_guess : list (res bool) :=
  guesses (H := toy_lib) app0 "+966500000070" [(10, "000001"%string); (20, "000000"%string); (30, "000000"%string)]
    (@request_otp toy_lib sms0 app0 "+966500000070" world_empty).2.

Example otp_flow : issue_and_guess = [Ok false; Ok true; Ok false].
Proof. vm_compute. reflexivity. Qed.

Lemma otp_guess_bound_witness :
  ∃ code w1, last (w_out w1) = Some (Sms "+966500000070" code) ∧
    guesses (H := toy_lib) app0 "+966500000070" [(10, "000001"%string); (20, "000000"%string)] w1 !! 1%nat = Some (Ok true) ∧
    (1 < 5)%nat ∧
    ∀ j, guesses (H := toy_lib) app0 "+966500000070" [(10, "000001"%string); (20, "000000"%string)] w1 !! j = Some (Ok true) → j = 1%nat.
Proof.
  set (m := @request_otp toy_lib sms0 app0 "+966500000070" world_empty).
  assert (m = (Ok (Some "000000"%string), m.2)) as E by (vm_compute; reflexivity).
  destruct (@otp_guess_bound toy_lib sms0 app0 "+966500000070" world_empty m.2 (Some "000000"%string)
    [(10, "000001"%string); (20, "000000"%string)] E) as (code & Hl & Hi).
  { repeat constructor; vm_compute; discriminate. }
  exists code, m.2. split; [exact Hl|].
  assert (guesses (H := toy_lib) app0 "+966500000070" [(10, "000001"%string); (20, "000000"%string)] m.2 !! 1%nat = Some (Ok true)) as H1
    by (vm_compute; reflexivity).
  destruct (Hi 1%nat H1) as (B1 & _ & B3). split; [exact H1|]. split; [exact B1|exact B3].
Defined.
