(* ===== verification/Auth.v ===== *)
(** * Authentication ([app/services/auth_service.py], [app/repositories/auth_repository.py],
      [require_auth] and [require_role] of [app/core/deps.py], the token purge of
      [app/workers/expiry.py])

    OTP login, registration, refresh-token rotation with reuse detection, logout and
    the checks every authenticated request passes. *)

From Stdlib Require Import ZArith Lia Ascii.
From stdpp Require Import base list gmap strings numbers option pretty sorting.
From S2P Require Import Prelude Errors PyDecimal Money Pricing Enums OrderState Tables Database Constraints Redis RateLimit.
From S2P Require Import Ledger Users Promos Crypto Media Orders Invoices Config Fields Tokens Otp.
Open Scope Z_scope.

(** ** [AuthRepository] *)

Definition create_customer (phone : string) (full_name email : option string) (dob : option day) : M (uuid * User) :=
  now ← get_now;
  let user := new_user phone email full_name dob UserRole.CUSTOMER UserStatus.ACTIVE now in
  id ← insert_row user;
  open_wallet (Some id) WalletType.CUSTOMER;;
  mret (id, user).

Definition create_courier_user (phone : string) (full_name email : option string) (dob : option day) : M (uuid * User) :=
  now ← get_now;
  let user := new_user phone email full_name dob UserRole.COURIER UserStatus.PENDING_VERIFICATION now in
  id ← insert_row user;
  mret (id, user).

Definition add_courier_wallet_and_profile (user_id : uuid) (city : string) (national passport : option string)
    (fingerprint : string) : M () :=
  open_wallet (Some user_id) WalletType.COURIER;;
  now ← get_now;
  insert_row_at user_id (mk_CourierProfile passport national (Some fingerprint) city None false None None now).

Definition add_refresh_token (user_id : uuid) (token_hash : string) (family_id : uuid) (expires_at : instant) : M () :=
  now ← get_now;
  insert_row (mk_RefreshToken user_id token_hash family_id expires_at None None now);;
  mret ().

Definition get_refresh_token (token_hash : string) : M (option (uuid * RefreshToken)) :=
  scalar (λ _ t, same (rt_token_hash t) token_hash).

Definition mark_refresh_used (id : uuid) (row : RefreshToken) (now : instant) : M () :=
  update_row id (row <| rt_used_at := Some now |>).

Definition revoke_family (family_id : uuid) (now : instant) : M () :=
  update_where (λ t, same (rt_family_id t) family_id && negb (not_null (rt_revoked_at t)))
    (λ t, t <| rt_revoked_at := Some now |>).

Definition revoke_all_for_user (user_id : uuid) (now : instant) : M () :=
  update_where (λ t, same (rt_user_id t) user_id && negb (not_null (rt_revoked_at t)))
    (λ t, t <| rt_revoked_at := Some now |>).

Definition purge_expired (before : instant) : M Z := delete_where (λ t, rt_expires_at t <? before).

(** ** [AuthService] *)

Record TokenPair := mk_TokenPair { access_token : string; refresh_token : string; tp_role : string }.

Record VerifyResult := mk_VerifyResult {
  is_new_user : bool;
  vr_tokens : option TokenPair;
  registration_token : option string;
}.

(** [not x] for an optional string. *)
Definition blank (s : option string) : bool := empty_str s.

(** [s.strip()]. *)
Definition strip (s : string) : string :=
  String.string_of_list_ascii (strip_spaces (String.list_ascii_of_string s)).

Record RegisterInput := mk_RegisterInput {
  rg_role : user_role;
  rg_full_name : option string;
  rg_email : option string;
  rg_dob : option day;
  rg_city : option string;
  rg_national_id : option string;
  rg_passport_id : option string;
}.

Section Service.
Context `{SecurityLib} `{SmsClient} `{AesGcm} (settings : AppSettings).

Definition new_refresh (user_id family_id : uuid) : T string :=
  raw ← generate_session_token;
  now ← clock;
  on_db (add_refresh_token user_id (sha256_hex raw) family_id (now + JWT_REFRESH_TTL_DAYS settings * 86400));;
  mret raw.

Definition issue_tokens (user_id : uuid) (role : string) : T TokenPair :=
  a ← create_access_token settings user_id role;
  family ← on_db uuid4;
  r ← new_refresh user_id family;
  mret (mk_TokenPair a.1.1 r role).

Definition send_otp (phone : string) : T (Z * option string) :=
  code ← request_otp settings phone;
  mret (OTP_TTL_SECONDS settings, code).

Definition auth_verify_otp (phone code : string) : T VerifyResult :=
  ok ← verify_otp settings phone code;
  assert_ (negb ok) UnauthorizedError;;
  u ← on_db (get_by_phone phone);
  match u with
  | None =>
      token ← create_registration_token settings phone;
      mret (mk_VerifyResult true None (Some token))
  | Some (id, user) =>
      assert_ (same (usr_status user) UserStatus.BANNED) UnauthorizedError;;
      tokens ← issue_tokens id (role_value (usr_role user));
      mret (mk_VerifyResult false (Some tokens) None)
  end.

(** [cipher.encrypt(x.strip(), build_aad("courier_profiles", column, ...)) if x else None]. *)
Definition encrypt_identity (cipher : FieldCipher) (column : string) (user_id : uuid) (x : option string) : T (option string) :=
  match x with
  | Some (String _ _ as v) =>
      blob ← seal cipher (strip v) "courier_profiles" column (uuid_str user_id);
      mret (Some blob)
  | _ => mret None
  end.

Definition register_courier (phone : string) (data : RegisterInput) : T TokenPair :=
  assert_ (blank (rg_city data)) ValidationDomainError;;
  assert_ (blank (rg_national_id data) && blank (rg_passport_id data)) ValidationDomainError;;
  let raw_id := strip (default EmptyString (if blank (rg_national_id data) then rg_passport_id data else rg_national_id data)) in
  let fingerprint := hmac_hex raw_id (get_secret_value (IDENTITY_FINGERPRINT_PEPPER settings)) in
  dup ← on_db (fingerprint_exists fingerprint);
  assert_ dup ConflictError;;
  u ← on_db (create_courier_user phone (rg_full_name data) (rg_email data) (rg_dob data));
  cipher ← pure (settings_cipher settings);
  national_enc ← encrypt_identity cipher "national_id" u.1 (rg_national_id data);
  passport_enc ← encrypt_identity cipher "passport_id" u.1 (rg_passport_id data);
  on_db (add_courier_wallet_and_profile u.1 (default EmptyString (rg_city data)) national_enc passport_enc fingerprint);;
  issue_tokens u.1 (role_value (usr_role u.2)).

Definition register (token : string) (data : RegisterInput) : T TokenPair :=
  now ← clock;
  phone ← pure (decode_registration_token settings token now);
  existing ← on_db (get_by_phone phone);
  assert_ (not_null existing) ConflictError;;
  match rg_role data with
  | UserRole.CUSTOMER =>
      u ← on_db (create_customer phone (rg_full_name data) (rg_email data) (rg_dob data));
      issue_tokens u.1 (role_value (usr_role u.2))
  | UserRole.COURIER => register_courier phone data
  | UserRole.ADMIN => throw ValidationDomainError
  end.

Definition refresh (raw_refresh : string) : T TokenPair :=
  row ← on_db (get_refresh_token (sha256_hex raw_refresh));
  now ← clock;
  match row with
  | None => throw UnauthorizedError
  | Some (id, row) =>
      if not_null (rt_revoked_at row) || not_null (rt_used_at row) then
        on_db (revoke_family (rt_family_id row) now);;
        session_commit;;
        throw UnauthorizedError
      else
        assert_ (rt_expires_at row <=? now) UnauthorizedError;;
        on_db (mark_refresh_used id row now);;
        u ← on_db (get_user (rt_user_id row));
        user ← required u UnauthorizedError;
        assert_ (same (usr_status user) UserStatus.BANNED) UnauthorizedError;;
        a ← create_access_token settings (rt_user_id row) (role_value (usr_role user));
        new ← new_refresh (rt_user_id row) (rt_family_id row);
        mret (mk_TokenPair a.1.1 new (role_value (usr_role user)))
  end.

Definition denylist_key (jti : string) : string := "jwt:denylist:" +:+ jti.
Definition banned_key (user_id : string) : string := "auth:banned:" +:+ user_id.

Definition logout (jti : string) (remaining_ttl_seconds : Z) : T () :=
  redis_set (denylist_key jti) "1" (Z.max remaining_ttl_seconds 1).

Definition is_denylisted (jti : string) : T bool := v ← redis_get (denylist_key jti); mret (truthy v).

(** ** The checks of an authenticated request *)

Record Actor := mk_Actor { actor_id : uuid; actor_role : user_role; actor_jti : string }.

(** [header.startswith(prefix)], and what follows. *)
Fixpoint after_prefix (prefix s : string) : option string :=
  match prefix, s with
  | EmptyString, _ => Some s
  | String a prefix, String b s => if Ascii.eqb a b then after_prefix prefix s else None
  | String _ _, EmptyString => None
  end.

(** [header] is the Authorization header, empty when it is absent. *)
Definition require_auth (header : string) : T Actor :=
  rest ← required (after_prefix "Bearer " header) UnauthorizedError;
  let token := strip rest in
  now ← clock;
  claims ← match decode_access_token settings token now with
           | Ok c => mret c
           | Raise _ => throw UnauthorizedError
           end;
  flags ← redis_mget (denylist_key (ac_jti claims)) (banned_key (ac_sub claims));
  assert_ (truthy flags.1) UnauthorizedError;;
  assert_ (truthy flags.2) UnauthorizedError;;
  role ← required (parse_role (ac_role claims)) UnauthorizedError;
  id ← required (parse_uuid (ac_sub claims)) ValueError;
  mret (mk_Actor id role (ac_jti claims)).

(** [POST /auth/logout]: the caller's token is denylisted for the rest of its life. *)
Definition logout_handler (header : string) : T () :=
  actor ← require_auth header;
  now ← clock;
  claims ← pure (decode_access_token settings (strip (default EmptyString (after_prefix "Bearer " header))) now);
  logout (actor_jti actor) (ac_exp claims - now).

Definition require_role (allowed : list user_role) (actor : Actor) : res Actor :=
  raise_if (negb (bool_decide (actor_role actor ∈ allowed))) ForbiddenError;;
  Ok actor.

(** ** The purge *)

Definition purge_refresh_tokens : M Z :=
  now ← get_now;
  purge_expired (now - REFRESH_TOKEN_RETENTION_DAYS settings * 86400).
End Service.

(** ** Refresh tokens as a state machine *)

(** [t] was rotated or revoked. *)
Definition burnt (t : RefreshToken) : bool := not_null (rt_revoked_at t) || not_null (rt_used_at t).

Definition revoke (family : uuid) (now : instant) (t : RefreshToken) : RefreshToken :=
  if same (rt_family_id t) family && negb (not_null (rt_revoked_at t)) then t <| rt_revoked_at := Some now |> else t.

(** What presenting a token with hash [h] does to the table. *)
Inductive presented `{SecurityLib} (h : string) (now : instant) (m : gmap uuid RefreshToken) :
    res TokenPair → gmap uuid RefreshToken → Prop :=
  | presented_refused e :
      (∀ id t, m !! id = Some t → rt_token_hash t = h → burnt t = false) →
      presented h now m (Raise e) m
  | presented_reused id t :
      m !! id = Some t → rt_token_hash t = h → burnt t = true →
      presented h now m (Raise UnauthorizedError) (revoke (rt_family_id t) now <$> m)
  | presented_rotated id t new t' p :
      m !! id = Some t → rt_token_hash t = h → burnt t = false → now < rt_expires_at t →
      m !! new = None → rt_family_id t' = rt_family_id t → rt_user_id t' = rt_user_id t → burnt t' = false →
      rt_token_hash t' = sha256_hex (refresh_token p) →
      presented h now m (Ok p) (<[new := t']> (<[id := t <| rt_used_at := Some now |>]> m)).

Lemma token_hash_unique (d : db) (i j : uuid) (a b : RefreshToken) :
  table_ok RefreshToken d → tb_refresh_tokens d !! i = Some a → tb_refresh_tokens d !! j = Some b →
  rt_token_hash a = rt_token_hash b → i = j ∧ a = b.
Proof.
  intros [_ Hu] Ha Hb E. destruct (decide (i = j)) as [<-|Hne]; [by simplify_eq|].
  specialize (Hu i j a b Ha Hb Hne). cbn in Hu. unfold conflicts_refresh_tokens in Hu.
  exfalso. rewrite E in Hu. by rewrite (proj2 (same_true _ _)) in Hu by done.
Qed.

Lemma revoke_family_run (family : uuid) (now : instant) (d : db) : table_ok RefreshToken d →
  revoke_family family now d = Ok ((), d <| tb_refresh_tokens := revoke family now <$> tb_refresh_tokens d |>) ∧
  table_ok RefreshToken (d <| tb_refresh_tokens := revoke family now <$> tb_refresh_tokens d |>).
Proof.
  intros Hd. pose (g := λ t : RefreshToken, t <| rt_revoked_at := Some now |>).
  by apply (update_where_run g ltac:(done) ltac:(done)
    (λ t, same (rt_family_id t) family && negb (not_null (rt_revoked_at t)))).
Qed.

(** ** Access tokens *)

Section AccessLemmas.
Context `{SecurityLib} (s : AppSettings).

(** Whether a key of Redis holds a flag. *)
Definition flagged (key : string) (w : world) : bool := truthy (en_value <$> peek key w).

Lemma require_auth_refused (header rest : string) (w : world) :
  after_prefix "Bearer " header = Some rest → w_up w = true →
  (∀ c, decode_access_token s (strip rest) (w_now w) = Ok c →
     flagged (denylist_key (ac_jti c)) w = true ∨ flagged (banned_key (ac_sub c)) w = true) →
  (require_auth s header w).1 = Raise UnauthorizedError.
Proof.
  intros Hh Hup Hf. unfold require_auth. rewrite Hh. erewrite tbind_ok by reflexivity. cbv zeta. erewrite tbind_ok by reflexivity.
  destruct (decode_access_token s (strip rest) (w_now w)) as [c|e] eqn:Ed; [|done]. erewrite tbind_ok by reflexivity.
  unfold redis_mget, redis_get, command. erewrite tbind_ok.
  2:{ erewrite tbind_ok by (cbn beta; rewrite Hup; reflexivity). erewrite tbind_ok by (cbn beta; rewrite Hup; reflexivity). reflexivity. }
  cbn [fst snd]. destruct (Hf c eq_refl) as [F|F]; unfold flagged in F; unfold mbind, T_bind, assert_, pure.
  - by rewrite F.
  - destruct (truthy (en_value <$> peek (denylist_key (ac_jti c)) w)); [done|]. cbn. by rewrite F.
Qed.

Lemma flag_lives (key : string) (w : world) (x t : Z) :
  w_redis w !! key = Some (mk_entry (RText "1") (Some x)) → t < x → flagged key (advance t w).2 = true.
Proof.
  intros Hk Ht. unfold flagged, peek. change (w_redis (advance t w).2) with (w_redis w). rewrite Hk. cbn.
  change (w_now (advance t w).2) with t. destruct (Z.ltb_spec t x); [done|lia].
Qed.
End AccessLemmas.

Section RefreshLemmas.
Context `{SecurityLib} (s : AppSettings).

Lemma frame_new_refresh (P : db → Prop) `{!FrameNext P} `{!Frame P RefreshToken} u f : preserves P (new_refresh s u f).
Proof. unfold new_refresh, generate_session_token, add_refresh_token. preserves_auto. Qed.

Lemma preserves_access_token (P : db → Prop) `{!FrameNext P} u r : preserves P (create_access_token s u r).
Proof. unfold create_access_token. preserves_auto. Qed.

Lemma frame_refresh (P : db → Prop) `{!FrameNext P} `{!Frame P RefreshToken} raw : preserves P (refresh s raw).
Proof.
  unfold refresh, get_refresh_token, revoke_family, mark_refresh_used, get_user. preserves_auto.
  all: auto using frame_new_refresh, preserves_access_token with giftly.
Qed.

Lemma access_token_db (u : uuid) (r : string) (w w' : world) x :
  create_access_token s u r w = (Ok x, w') →
  tb_refresh_tokens (w_db w') = tb_refresh_tokens (w_db w) ∧ w_now w' = w_now w ∧ w_saved w' = w_saved w.
Proof.
  unfold create_access_token. intros Hr. erewrite tbind_ok in Hr by reflexivity. erewrite tbind_ok in Hr by reflexivity.
  apply tbind_inv in Hr as (key & w1 & [Hk ->]%pure_ok & Hr). by injection Hr as _ <-.
Qed.

Lemma new_refresh_db (u f : uuid) (w w' : world) raw : new_refresh s u f w = (Ok raw, w') →
  ∃ id, tb_refresh_tokens (w_db w) !! id = None ∧
    tb_refresh_tokens (w_db w') = <[id := mk_RefreshToken u (sha256_hex raw) f
      (w_now w + JWT_REFRESH_TTL_DAYS s * 86400) None None (w_now w)]> (tb_refresh_tokens (w_db w)).
Proof.
  unfold new_refresh. intros Hr. apply tbind_inv in Hr as (x & w1 & Hg & Hr).
  unfold generate_session_token in Hg. erewrite tbind_ok in Hg by reflexivity. injection Hg as <- <-.
  erewrite tbind_ok in Hr by reflexivity. apply tbind_inv in Hr as (y & w2 & (d & Hd & ->)%on_db_ok & Hr).
  injection Hr as <- <-. unfold add_refresh_token in Hd. inv_run Hd. inv_writes. eexists. split; [exact Hnew|done].
Qed.
Lemma uncommitted_rotation (id : uuid) (t : RefreshToken) (now : instant) :
  uncommitted (on_db (mark_refresh_used id t now);;
    u ← on_db (get_user (rt_user_id t));
    user ← required u UnauthorizedError;
    assert_ (same (usr_status user) UserStatus.BANNED) UnauthorizedError;;
    a ← create_access_token s (rt_user_id t) (role_value (usr_role user));
    new ← new_refresh s (rt_user_id t) (rt_family_id t);
    mret (mk_TokenPair a.1.1 new (role_value (usr_role user)))).
Proof. unfold create_access_token, new_refresh, generate_session_token, clock, draw. uncommitted_auto. Qed.

Lemma refresh_presented (raw : string) (w w' : world) (r : res TokenPair) : table_ok RefreshToken (w_db w) →
  request (refresh s raw) w = (r, w') →
  presented (sha256_hex raw) (w_now w) (tb_refresh_tokens (w_db w)) r (tb_refresh_tokens (w_db w')).
Proof.
  intros Hd Hr. set (w0 := w <| w_saved := w_db w |>).
  destruct (scalar_run (row := RefreshToken) (λ _ t, same (rt_token_hash t) (sha256_hex raw)) (w_db w)) as (o & Eo & Ho).
  assert (refresh s raw w0 = match o with
    | None => throw UnauthorizedError
    | Some (id, row) =>
        if burnt row then
          on_db (revoke_family (rt_family_id row) (w_now w));; session_commit;; throw UnauthorizedError
        else
          assert_ (rt_expires_at row <=? w_now w) UnauthorizedError;;
          on_db (mark_refresh_used id row (w_now w));;
          u ← on_db (get_user (rt_user_id row));
          user ← required u UnauthorizedError;
          assert_ (same (usr_status user) UserStatus.BANNED) UnauthorizedError;;
          a ← create_access_token s (rt_user_id row) (role_value (usr_role user));
          new ← new_refresh s (rt_user_id row) (rt_family_id row);
          mret (mk_TokenPair a.1.1 new (role_value (usr_role user)))
    end w0) as E.
  { unfold refresh, get_refresh_token. erewrite tbind_ok by (unfold on_db; change (w_db w0) with (w_db w); rewrite Eo; reflexivity).
    erewrite tbind_ok by reflexivity. destruct o as [[id t]|]; done. }
  destruct o as [[id t]|].
  2:{ erewrite request_raise in Hr by (exact E). injection Hr as <- <-. cbn. apply presented_refused.
      intros i x Hx Eh. specialize (Ho i x Hx). cbn in Ho. by rewrite (proj2 (same_true _ _) Eh) in Ho. }
  destruct Ho as [Ht Hh]. apply (proj1 (same_true _ _)) in Hh. destruct (burnt t) eqn:Hb.
  { destruct (revoke_family_run (rt_family_id t) (w_now w) (w_db w) Hd) as [Ev _].
    erewrite tbind_ok in E by (unfold on_db; change (w_db w0) with (w_db w); rewrite Ev; reflexivity).
    erewrite request_raise in Hr by (exact E). injection Hr as <- <-. exact (presented_reused _ _ _ id t Ht Hh Hb). }
  assert (∀ e, request (refresh s raw) w = (Raise e, w') → w_db w' = w_db w → r = Raise e →
    presented (sha256_hex raw) (w_now w) (tb_refresh_tokens (w_db w)) r (tb_refresh_tokens (w_db w'))) as Hrefused.
  { intros e _ -> ->. apply presented_refused. intros i x Hx Eh.
    destruct (token_hash_unique _ _ _ _ _ Hd Hx Ht) as [-> ->]; [congruence|done]. }
  destruct (Z.leb_spec (rt_expires_at t) (w_now w)) as [Hx|Hx].
  { erewrite request_raise in Hr by (exact E). injection Hr as <- <-. apply (Hrefused UnauthorizedError); [|done|done].
    by erewrite request_raise by (exact E). }
  erewrite tbind_ok in E by reflexivity. pose proof (uncommitted_rotation id t (w_now w) w0) as Hun. rewrite <- E in Hun.
  destruct (refresh s raw w0) as [[p|e] w1] eqn:Ew.
  2:{ pose proof (request_raise _ _ _ _ Ew) as Hq. rewrite Hq in Hr. injection Hr as <- <-. apply (Hrefused e); [exact Hq|exact Hun|done]. }
  erewrite request_done in Hr by (exact Ew). injection Hr as <- <-. symmetry in E. cbn [w_db].
  apply tbind_inv in E as (? & w2 & (d2 & Hm & ->)%on_db_ok & E). unfold mark_refresh_used in Hm. inv_writes.
  apply tbind_inv in E as (o & w3 & (d3 & Hg & ->)%on_db_ok & E). injection Hg as _ <-.
  apply tbind_inv in E as (user & w4 & [_ ->]%required_ok & E). apply tbind_inv in E as (? & w4 & [_ ->]%assert_ok & E).
  apply tbind_inv in E as (a & w4 & (E1 & E2 & _)%access_token_db & E).
  apply tbind_inv in E as (new & w5 & (nid & Hnone & Enew)%new_refresh_db & E). injection E as <- <-.
  cbn. rewrite Enew, E1. rewrite E1 in Hnone. cbn in Hnone |- *.
  eapply presented_rotated; [exact Ht|done|done|lia| |done|done|done|done].
  by apply lookup_insert_None in Hnone as [? _].
Qed.
End RefreshLemmas.

(** Every token of the family is revoked. *)
Definition dead (family : uuid) (m : gmap uuid RefreshToken) : Prop :=
  ∀ i t, m !! i = Some t → rt_family_id t = family → not_null (rt_revoked_at t) = true.

Definition belongs (h : string) (family : uuid) (m : gmap uuid RefreshToken) : Prop :=
  ∃ i t, m !! i = Some t ∧ rt_token_hash t = h ∧ rt_family_id t = family.

(** The token with hash [h], of [family], was rotated or revoked. *)
Definition spent_token (h : string) (family : uuid) (m : gmap uuid RefreshToken) : Prop :=
  ∃ i t, m !! i = Some t ∧ rt_token_hash t = h ∧ rt_family_id t = family ∧ burnt t = true.

Lemma revoke_kept (f : uuid) (now : instant) (t : RefreshToken) :
  rt_token_hash (revoke f now t) = rt_token_hash t ∧ rt_family_id (revoke f now t) = rt_family_id t ∧
  (burnt t = true → burnt (revoke f now t) = true) ∧
  (not_null (rt_revoked_at t) = true ∨ rt_family_id t = f → not_null (rt_revoked_at (revoke f now t)) = true).
Proof.
  unfold revoke, burnt. destruct t as [u h f0 x used [r|] c]; cbn; [rewrite andb_false_r; naive_solver|].
  destruct (same f0 f) eqn:E; cbn; [naive_solver|]. split; [done|]. split; [done|]. split; [done|].
  intros [?| ->]; [done|]. by rewrite (proj2 (same_true _ _) eq_refl) in E.
Qed.

Section Family.
Context `{SecurityLib}.

Lemma spent_token_kept (h0 h : string) (f : uuid) (now : instant) (m m' : gmap uuid RefreshToken) (r : res TokenPair) :
  spent_token h0 f m → presented h now m r m' → spent_token h0 f m'.
Proof.
  intros (i & t & Hi & Hh & Hf & Hb) Hp. destruct Hp as [| |id x new t' p Hid Hx Hbx _ Hnew].
  - by exists i, t.
  - match goal with |- context [revoke ?f ?n <$> _] => destruct (revoke_kept f n t) as (E1 & E2 & E3 & _) end.
    eexists i, _. rewrite lookup_fmap, Hi. split; [done|]. by rewrite E1, E2, E3.
  - exists i, t. rewrite lookup_insert_ne by congruence. rewrite lookup_insert_ne by congruence. done.
Qed.

Lemma dead_kept (f : uuid) (h : string) (now : instant) (m m' : gmap uuid RefreshToken) (r : res TokenPair) :
  dead f m → presented h now m r m' → dead f m'.
Proof.
  intros Hd Hp. destruct Hp as [| |id x new t' p Hid Hx Hbx _ Hnew Hf]; [done|..].
  - intros i y Hy Hfy. apply lookup_fmap_Some in Hy as (y0 & <- & Hy0).
    match goal with |- context [revoke ?f ?n y0] => destruct (revoke_kept f n y0) as (_ & E2 & _ & E4) end.
    apply E4. left. apply (Hd i); [done|]. by rewrite <- E2.
  - assert (rt_family_id x ≠ f) as Hne.
    { intros E. specialize (Hd _ _ Hid E). unfold burnt in Hbx. by rewrite Hd in Hbx. }
    intros i y [[<- <-]|[_ [[<- <-]|[_ Hy]]%lookup_insert_Some]]%lookup_insert_Some; [congruence|done|by apply (Hd i)].
Qed.

(** Presenting a spent token is refused and revokes its family. *)
Lemma spent_presented (h : string) (f : uuid) (now : instant) (d : db) (m' : gmap uuid RefreshToken) (r : res TokenPair) :
  table_ok RefreshToken d → spent_token h f (tb_refresh_tokens d) → presented h now (tb_refresh_tokens d) r m' →
  r = Raise UnauthorizedError ∧ dead f m'.
Proof.
  intros Hd (i & t & Hi & Hh & Hf & Hb) Hp. destruct Hp as [e Hno|id x Hid Hx Hbx|id x new t' p Hid Hx Hbx].
  - by rewrite (Hno i t Hi Hh) in Hb.
  - split; [done|]. destruct (token_hash_unique _ _ _ _ _ Hd Hi Hid) as [-> ->]; [congruence|]. subst f.
    intros j y (y0 & <- & Hy0)%lookup_fmap_Some Hfy.
    destruct (revoke_kept (rt_family_id x) now y0) as (_ & E2 & _ & E4). apply E4. right. congruence.
  - destruct (token_hash_unique _ _ _ _ _ Hd Hi Hid) as [-> ->]; [congruence|]. by rewrite Hb in Hbx.
Qed.

Lemma dead_spent (h : string) (f : uuid) (m : gmap uuid RefreshToken) : dead f m → belongs h f m → spent_token h f m.
Proof.
  intros Hd (i & t & Hi & Hh & Hf). exists i, t. unfold burnt. by rewrite (Hd i t Hi Hf).
Qed.
End Family.

(** ** Properties *)

(** Tokens presented at the given times, each in its own request. *)
Fixpoint presentations `{SecurityLib} (s : AppSettings) (l : list (instant * string)) (w : world) : world :=
  match l with
  | [] => w
  | (t, raw) :: l => presentations s l (request (refresh s raw) (advance t w).2).2
  end.

Lemma presentations_keep `{SecurityLib} (s : AppSettings) (P : gmap uuid RefreshToken → Prop) (l : list (instant * string)) : 
  (∀ h now m r m', P m → presented h now m r m' → P m') → ∀ w,
  table_ok RefreshToken (w_db w) → P (tb_refresh_tokens (w_db w)) →
  table_ok RefreshToken (w_db (presentations s l w)) ∧ P (tb_refresh_tokens (w_db (presentations s l w))).
Proof.
  intros HP. induction l as [|[t raw] l IH]; intros w Hd Hw; [done|]. cbn [presentations]. set (w1 := (advance t w).2).
  assert (table_ok RefreshToken (w_db w1)) as Hd1 by (destruct Hd as [Hc Hu]; constructor; [exact Hc|exact Hu]).
  apply IH; [by apply (preserves_request _ _ _ (frame_refresh s _ raw))|].
  destruct (request (refresh s raw) w1) as [r w2] eqn:E. exact (HP _ _ _ _ _ Hw (refresh_presented s raw w1 w2 r Hd1 E)).
Qed.

(** [C20] Refresh tokens rotate, and reuse is detected for good: after a token was exchanged for a new
    pair, presenting it again is refused at any time, whatever tokens were presented in
    between; and from then on every token of the same login (the exchanged one, its
    successor and every later one) is refused too, although the request that detects the reuse
    ends in an error. *)
Theorem refresh_reuse_detected `{SecurityLib} (s : AppSettings) (raw : string) (w w1 : world) (p : TokenPair)
    (l : list (instant * string)) (t : instant) :
  table_ok RefreshToken (w_db w) → request (refresh s raw) w = (Ok p, w1) →
  ∃ family w3,
    belongs (sha256_hex raw) family (tb_refresh_tokens (w_db w)) ∧
    belongs (sha256_hex (refresh_token p)) family (tb_refresh_tokens (w_db w1)) ∧
    request (refresh s raw) (advance t (presentations s l w1)).2 = (Raise UnauthorizedError, w3) ∧
    ∀ l' t' raw', let w4 := (advance t' (presentations s l' w3)).2 in
      belongs (sha256_hex raw') family (tb_refresh_tokens (w_db w4)) →
      (request (refresh s raw') w4).1 = Raise UnauthorizedError.
Proof.
  intros Hd Hr. pose proof (preserves_request _ _ _ (frame_refresh s (table_ok RefreshToken) raw) Hd) as Hd1.
  rewrite Hr in Hd1. pose proof (refresh_presented s raw w w1 _ Hd Hr) as Hp.
  inversion Hp as [| |id x new t' ? Hid Hx Hbx _ Hnew Hf _ _ Hh E1 E2]; subst.
  assert (spent_token (sha256_hex raw) (rt_family_id x) (tb_refresh_tokens (w_db w1))) as Hs.
  { rewrite <- E2. exists id, (x <| rt_used_at := Some (w_now w) |>). rewrite lookup_insert_ne by congruence.
    rewrite lookup_insert_eq. unfold burnt. cbn. by rewrite orb_true_r. }
  assert (belongs (sha256_hex (refresh_token p)) (rt_family_id x) (tb_refresh_tokens (w_db w1))) as Hb1.
  { rewrite <- E2. exists new, t'. by rewrite lookup_insert_eq. }
  destruct (presentations_keep s (spent_token (sha256_hex raw) (rt_family_id x)) l
    (λ h now m r m', spent_token_kept _ h _ now m m' r) w1 Hd1 Hs) as [Hd2 Hs2].
  set (w2 := (advance t (presentations s l w1)).2).
  assert (∀ w t, table_ok RefreshToken (w_db w) → table_ok RefreshToken (w_db (advance t w).2)) as Hadv.
  { intros v u [Hc Hu]. constructor; [exact Hc|exact Hu]. }
  destruct (request (refresh s raw) w2) as [r w3] eqn:E3.
  pose proof (preserves_request _ _ _ (frame_refresh s (table_ok RefreshToken) raw) (Hadv _ t Hd2)) as Hd3.
  fold w2 in Hd3. rewrite E3 in Hd3.
  destruct (spent_presented _ _ _ _ _ _ (Hadv _ t Hd2) Hs2 (refresh_presented s raw w2 w3 r (Hadv _ t Hd2) E3)) as [-> Hdead].
  exists (rt_family_id x), w3. split; [by exists id, x|]. split; [by rewrite E2|].
  split; [done|]. intros l' u raw' w4 Hb.
  destruct (presentations_keep s (dead (rt_family_id x)) l' (λ h now m r m', dead_kept _ h now m m' r) w3 Hd3 Hdead) as [Hd4 Hdead4].
  destruct (request (refresh s raw') w4) as [r w5] eqn:E5.
  eapply (spent_presented _ _ _ (w_db w4)); [by apply Hadv|by apply dead_spent|].
  exact (refresh_presented s raw' w4 w5 r (Hadv _ u Hd4) E5).
Qed.

Lemma frame_issue_tokens `{SecurityLib} (s : AppSettings) (P : db → Prop) `{!FrameNext P} `{!Frame P RefreshToken} u r :
  preserves P (issue_tokens s u r).
Proof.
  unfold issue_tokens. preserves_auto.
  all: auto using frame_new_refresh, preserves_access_token with giftly typeclass_instances.
Qed.

(** A library whose access tokens are opaque. *)
Definition opaque_lib : SecurityLib := {|
  sha256_hex s := "sha256:" +:+ s;
  hmac_hex v k := "hmac:" +:+ k +:+ ":" +:+ v;
  randbelow n k := Z.of_N n mod k;
  token_urlsafe n := "token-" +:+ uuid_str n;
  jwt_encode _ _ _ := "jwt";
  jwt_decode _ _ _ _ _ _ _ := None;
  jwt_pair a k k' := bool_decide (k = k')
|}.

(** A customer who has just signed in. *)
Definition sign_in : T TokenPair :=
  u ← on_db (create_customer "+966500000071" None None None);
  @issue_tokens opaque_lib app0 u.1 "CUSTOMER".

Definition world_login : world := (request sign_in world_empty).2.

Lemma refresh_reuse_detected_witness :
  ∃ p w1 w3, request (@refresh opaque_lib app0 "token-0") world_login = (Ok p, w1) ∧
    request (@refresh opaque_lib app0 "token-0") (advance 20 (presentations (H := opaque_lib) app0 [(10, refresh_token p)] w1)).2
      = (Raise UnauthorizedError, w3).
Proof.
  set (m := request (@refresh opaque_lib app0 "token-0") world_login).
  assert (m.1 = Ok (mk_TokenPair "jwt" "token-1" "CUSTOMER")) as E
    by (vm_compute; reflexivity).
  set (p := mk_TokenPair _ _ _) in E.
  assert (table_ok RefreshToken (w_db world_login)) as Hd.
  { apply (preserves_request _ sign_in); [|by apply table_ok_empty]. unfold sign_in, create_customer. preserves_auto.
    apply frame_issue_tokens; auto with typeclass_instances. }
  destruct (@refresh_reuse_detected opaque_lib app0 "token-0" world_login m.2 p [(10, refresh_token p)] 20 Hd) as (f & w3 & _ & _ & H3 & _).
  { rewrite <- E. apply surjective_pairing. }
  exists p, m.2, w3. split; [|exact H3]. rewrite <- E. apply surjective_pairing.
Defined.
