(* ===== verification/AdminAuth.v ===== *)
(** * Dashboard sign-in ([app/services/admin_auth_service.py],
      [app/repositories/admin_session_repository.py], [app/admin/deps.py])

    Environment credentials behind a throttle by user name and address, server-side
    sessions with a sliding expiry under an absolute cap, the CSRF token bound to the
    session, and the short-lived step-up grant. *)

From Stdlib Require Import ZArith Lia Ascii.
From stdpp Require Import base list gmap strings numbers option pretty sorting.
From S2P Require Import Prelude Errors PyDecimal Money Pricing Enums OrderState Tables Database Constraints Redis RateLimit.
From S2P Require Import Ledger Users Promos Crypto Media Orders Invoices Config Fields Tokens Otp Auth.
Open Scope Z_scope.

(** ** [AdminSessionRepository] *)

Definition create_admin_session (admin_user_id : uuid) (token_hash : string) (expires_at : instant)
    (ip_address user_agent : option string) : M uuid :=
  now ← get_now;
  insert_row (mk_AdminSession admin_user_id token_hash ip_address user_agent expires_at None now).

(** The unexpired, unrevoked session of a token hash. *)
Definition session_active (token_hash : string) (now : instant) (r : AdminSession) : bool :=
  same (ads_session_token_hash r) token_hash && negb (not_null (ads_revoked_at r)) && (now <? ads_expires_at r).

Definition get_active (token_hash : string) (now : instant) : M (option (uuid * AdminSession)) :=
  scalar (λ _ r, session_active token_hash now r).

Definition touch (id : uuid) (row : AdminSession) (expires_at : instant) : M AdminSession :=
  let row := row <| ads_expires_at := expires_at |> in
  update_row id row;;
  mret row.

Definition revoke_session (id : uuid) (row : AdminSession) (now : instant) : M () :=
  update_row id (row <| ads_revoked_at := Some now |>).

(** ** [AdminAuthService] *)

Definition ABSOLUTE_CAP : Z := 12 * 3600.
Definition STEPUP_TTL_SECONDS : Z := 300.
Definition LOGIN_WINDOW_SECONDS : Z := 300.
Definition LOGIN_MAX_ATTEMPTS : Z := 5.

(** [_LOGIN_THROTTLE_LUA]: every key counts, until one is over the ceiling. *)
Fixpoint login_throttle_lua (keys : list string) (window max : Z) : T bool :=
  match keys with
  | [] => mret true
  | key :: keys =>
      count ← count_hit key window;
      if max <? count then mret false else login_throttle_lua keys window max
  end.

(** [s.casefold()] on ASCII. *)
Definition casefold_char (c : ascii) : ascii :=
  let n := N_of_ascii c in if (65 <=? n)%N && (n <=? 90)%N then ascii_of_N (n + 32) else c.

Fixpoint casefold (s : string) : string :=
  match s with EmptyString => EmptyString | String c s => String (casefold_char c) (casefold s) end.

Record AdminLogin := mk_AdminLogin { raw_session_token : string; login_csrf_token : string; login_admin : User }.

Section Service.
Context `{SecurityLib} (settings : AppSettings).
(** [uuid.uuid5(_DASHBOARD_ADMIN_NAMESPACE, username)]. *)
Context (uuid5 : string → uuid).

Definition session_secret : res string :=
  match ADMIN_SESSION_SECRET settings with
  | None => Raise UnauthorizedError
  | Some s => Ok (get_secret_value s)
  end.

Definition csrf_token_for (session_token_hash : string) : res string :=
  secret ← session_secret; Ok (make_csrf_token session_token_hash secret).

Definition credentials_match (username password : string) : bool :=
  let expected_username := default EmptyString (ADMIN_USERNAME settings) in
  let expected_password := match ADMIN_PASSWORD settings with Some s => get_secret_value s | None => EmptyString end in
  constant_time_equals username expected_username && constant_time_equals password expected_password.

Definition login_user_key (username : string) : string := "admin:login:user:" +:+ sha256_hex (casefold username).
Definition login_ip_key (ip : option string) : string :=
  "admin:login:ip:" +:+ sha256_hex (match ip with Some (String _ _ as a) => a | _ => "unknown"%string end).

Definition check_login_throttle (username : string) (ip : option string) : T () :=
  ok ← catch (login_throttle_lua [login_user_key username; login_ip_key ip] LOGIN_WINDOW_SECONDS LOGIN_MAX_ATTEMPTS)
         (λ _, throw (RateLimitedError LOGIN_WINDOW_SECONDS));
  assert_ (negb ok) (RateLimitedError LOGIN_WINDOW_SECONDS).

Definition clear_login_throttle (username : string) (ip : option string) : T () :=
  redis_delete (login_user_key username);; redis_delete (login_ip_key ip).

(** [ensure_dashboard_admin(username)]: the actor's id and internal phone. *)
Definition dashboard_phone (username : string) : string := "admin:" +:+ String.substring 0 14 (sha256_hex username).

Definition active_admin (user : User) : bool :=
  same (usr_role user) UserRole.ADMIN && same (usr_status user) UserStatus.ACTIVE.

Definition complete_login (username password : string) (ip user_agent : option string) : T AdminLogin :=
  check_login_throttle username ip;;
  assert_ (negb (credentials_match username password)) UnauthorizedError;;
  u ← on_db (ensure_dashboard_admin (uuid5 username) (dashboard_phone username));
  user ← required u UnauthorizedError;
  assert_ (negb (active_admin user)) UnauthorizedError;;
  clear_login_throttle username ip;;
  raw ← generate_session_token;
  let token_hash := sha256_hex raw in
  now ← clock;
  on_db (create_admin_session (uuid5 username) token_hash (now + ADMIN_SESSION_TTL_MINUTES settings * 60) ip user_agent);;
  csrf ← pure (csrf_token_for token_hash);
  mret (mk_AdminLogin raw csrf user).

Definition load_session (raw_token : string) : T (uuid * AdminSession * User) :=
  now ← clock;
  r ← on_db (get_active (sha256_hex raw_token) now);
  row ← required r UnauthorizedError;
  u ← on_db (get_user (ads_admin_user_id row.2));
  admin ← required u UnauthorizedError;
  assert_ (negb (active_admin admin)) UnauthorizedError;;
  let cap := ads_created_at row.2 + ABSOLUTE_CAP in
  let new_expiry := Z.min (now + ADMIN_SESSION_TTL_MINUTES settings * 60) cap in
  row' ← on_db (touch row.1 row.2 new_expiry);
  mret (row.1, row', admin).

Definition admin_logout (raw_token : string) : T () :=
  now ← clock;
  r ← on_db (get_active (sha256_hex raw_token) now);
  match r with
  | None => mret ()
  | Some (id, row) => on_db (revoke_session id row now)
  end.

Definition stepup_key (session_token_hash : string) : string := "admin:stepup:" +:+ session_token_hash.

Definition grant_step_up (password session_token_hash : string) (ip : option string) : T () :=
  let username := default EmptyString (ADMIN_USERNAME settings) in
  check_login_throttle username ip;;
  assert_ (negb (credentials_match username password)) ForbiddenError;;
  clear_login_throttle username ip;;
  redis_set (stepup_key session_token_hash) "1" STEPUP_TTL_SECONDS.

Definition has_step_up (session_token_hash : string) : T bool :=
  v ← redis_get (stepup_key session_token_hash); mret (truthy v).

(** ** [app/admin/deps.py] *)

Record AdminContext := mk_AdminContext { ctx_session : AdminSession; ctx_admin_id : uuid; ctx_csrf_token : string }.

(** [cookie]: the session cookie, if the browser sent one. *)
Definition require_admin (cookie : option string) : T AdminContext :=
  raw ← required (match cookie with Some (String _ _ as raw) => Some raw | _ => None end) AdminRedirect;
  s ← catch (load_session raw) (λ _, throw AdminRedirect);
  csrf ← pure (csrf_token_for (ads_session_token_hash s.1.2));
  mret (mk_AdminContext s.1.2 (ads_admin_user_id s.1.2) csrf).

Definition verify_csrf (ctx : AdminContext) (submitted_token : string) : res () :=
  match ADMIN_SESSION_SECRET settings with
  | None => Raise ForbiddenError
  | Some secret =>
      raise_if (bool_decide (submitted_token = EmptyString)) ForbiddenError;;
      raise_if (negb (verify_csrf_token submitted_token (ads_session_token_hash (ctx_session ctx)) (get_secret_value secret)))
        ForbiddenError
  end.

Definition require_step_up (ctx : AdminContext) : T () :=
  ok ← has_step_up (ads_session_token_hash (ctx_session ctx));
  assert_ (negb ok) ForbiddenError.
End Service.

(** ** Sessions over time *)

(** The sessions of a token hash: the one with key [id], opened at [t0], that expires within
    [ttl] of the last visit and within the cap. *)
Definition bounded_session (h : string) (id : uuid) (t0 last ttl : Z) (d : db) : Prop :=
  ∀ i r, tb_admin_sessions d !! i = Some r → ads_session_token_hash r = h →
    i = id ∧ ads_created_at r = t0 ∧ ads_expires_at r ≤ last + ttl ∧ ads_expires_at r ≤ t0 + ABSOLUTE_CAP.

(** No session of the hash is active from [t] on. *)
Definition session_over (h : string) (t : instant) (d : db) : Prop :=
  ∀ i r, tb_admin_sessions d !! i = Some r → ads_session_token_hash r = h →
    not_null (ads_revoked_at r) = true ∨ ads_expires_at r ≤ t.

Lemma session_active_true (h : string) (now : instant) (r : AdminSession) :
  session_active h now r = true ↔
  ads_session_token_hash r = h ∧ not_null (ads_revoked_at r) = false ∧ now < ads_expires_at r.
Proof.
  unfold session_active. rewrite !andb_true_iff, negb_true_iff, Z.ltb_lt.
  rewrite (same_true (ads_session_token_hash r) h). tauto.
Qed.

Section Visits.
Context `{SecurityLib} (s : AppSettings).

(** A request that passes [require_admin] carries the cookie of an active session of an active
    administrator, whose expiry slides. *)
Lemma require_admin_ok (cookie : option string) (w w' : world) (ctx : AdminContext) :
  require_admin s cookie w = (Ok ctx, w') →
  ∃ raw id row admin,
    cookie = Some raw ∧ tb_admin_sessions (w_db w) !! id = Some row ∧
    session_active (sha256_hex raw) (w_now w) row = true ∧
    tb_users (w_db w) !! ads_admin_user_id row = Some admin ∧ active_admin admin = true ∧
    ctx_admin_id ctx = ads_admin_user_id row ∧ ads_session_token_hash (ctx_session ctx) = sha256_hex raw ∧
    w' = w <| w_db := (w_db w) <| tb_admin_sessions := <[id := row <| ads_expires_at :=
       Z.min (w_now w + ADMIN_SESSION_TTL_MINUTES s * 60) (ads_created_at row + ABSOLUTE_CAP) |>]> (tb_admin_sessions (w_db w)) |> |>.
Proof.
  intros E. unfold require_admin in E. apply tbind_inv in E as (raw & w2 & [Hr ->]%required_ok & E).
  assert (cookie = Some raw) as -> by (destruct cookie as [[]|]; [done|by injection Hr as <-|done]).
  apply tbind_inv in E as (x & w2 & Hl & E). apply tbind_inv in E as (csrf & w3 & [_ ->]%pure_ok & E). injection E as <- <-.
  unfold catch in Hl. destruct (load_session s raw w) as [[y|?] w4] eqn:El; [|done]. injection Hl as <- <-.
  unfold load_session in El. erewrite tbind_ok in El by reflexivity.
  apply tbind_inv in El as (o & w5 & (d5 & Hg & ->)%on_db_ok & El). unfold get_active in Hg.
  apply tbind_inv in El as ([id row] & w6 & [-> ->]%required_ok & El).
  assert (d5 = w_db w) as -> by (apply scalar_ok in Hg as [-> _]; done). apply scalar_some in Hg as [Hrow Hact].
  apply tbind_inv in El as (u & w6 & (d6 & Hu & ->)%on_db_ok & El). injection Hu as Hu <-.
  apply tbind_inv in El as (admin & w6 & [-> ->]%required_ok & El).
  apply tbind_inv in El as (? & w6 & [Had%negb_false_iff ->]%assert_ok & El).
  apply tbind_inv in El as (row' & w6 & (d6 & Ht & ->)%on_db_ok & El). injection El as <- <-.
  unfold touch in Ht. inv_run Ht. inv_writes. exists raw, id, row, admin. split; [done|]. split; [exact Hrow|]. split; [exact Hact|].
  split; [exact Hu|]. split; [exact Had|]. split; [done|]. split; [by apply session_active_true in Hact as (? & _)|]. by destruct w.
Qed.

Lemma uncommitted_require_admin (cookie : option string) : uncommitted (require_admin s cookie).
Proof.
  unfold require_admin, load_session, clock. uncommitted_auto.
Qed.

(** What a page load does: refused, or the session slides. *)
Lemma require_admin_effect (raw : string) (w : world) :
  let r := request (require_admin s (Some raw)) w in
  (∃ e, r.1 = Raise e ∧ w_db r.2 = w_db w) ∨
  (∃ ctx id row, r.1 = Ok ctx ∧ tb_admin_sessions (w_db w) !! id = Some row ∧
     session_active (sha256_hex raw) (w_now w) row = true ∧ w_now r.2 = w_now w ∧
     tb_admin_sessions (w_db r.2) = <[id := row <| ads_expires_at :=
       Z.min (w_now w + ADMIN_SESSION_TTL_MINUTES s * 60) (ads_created_at row + ABSOLUTE_CAP) |>]> (tb_admin_sessions (w_db w))).
Proof.
  cbv zeta. set (w0 := w <| w_saved := w_db w |>). pose proof (uncommitted_require_admin (Some raw) w0) as Hun.
  destruct (require_admin s (Some raw) w0) as [[ctx|e] w1] eqn:E.
  - right. rewrite (request_done _ _ _ _ E).
    apply require_admin_ok in E as (raw' & id & row & admin & [= <-] & Hrow & Hact & _ & _ & _ & _ & ->). by exists ctx, id, row.
  - left. exists e. by rewrite (request_raise _ _ _ _ E).
Qed.

(** The page loads of one cookie at the given times: which are let in. *)
Fixpoint visits (raw : string) (times : list instant) (w : world) : list bool :=
  match times with
  | [] => []
  | t :: times =>
      let r := request (require_admin s (Some raw)) (advance t w).2 in
      match r.1 with Ok _ => true | Raise _ => false end :: visits raw times r.2
  end.

(** The world after these page loads. *)
Fixpoint visited (raw : string) (times : list instant) (w : world) : world :=
  match times with
  | [] => w
  | t :: times => visited raw times (request (require_admin s (Some raw)) (advance t w).2).2
  end.

Lemma visited_one_session (raw : string) (id : uuid) (times : list instant) : ∀ w,
  (∀ i r, tb_admin_sessions (w_db w) !! i = Some r → ads_session_token_hash r = sha256_hex raw → i = id) →
  ∀ i r, tb_admin_sessions (w_db (visited raw times w)) !! i = Some r → ads_session_token_hash r = sha256_hex raw → i = id.
Proof.
  induction times as [|t times IH]; intros w Hw; [exact Hw|]. cbn [visited]. apply IH. set (w1 := (advance t w).2).
  destruct (require_admin_effect raw w1) as [(e & _ & E2)|(ctx & k & row & _ & Hrow & (Hh & _ & _)%session_active_true & _ & E2)]; rewrite E2.
  - exact Hw.
  - intros i r [[<- <-]|[_ Hr]]%lookup_insert_Some Hi; [exact (Hw k row Hrow Hh)|exact (Hw i r Hr Hi)].
Qed.

Lemma visits_bounded (raw : string) (id : uuid) (t0 : instant) (times : list instant) : ∀ last w,
  bounded_session (sha256_hex raw) id t0 last (ADMIN_SESSION_TTL_MINUTES s * 60) (w_db w) →
  StronglySorted Z.le (last :: times) →
  ∀ i prev t, (last :: times) !! i = Some prev → times !! i = Some t → visits raw times w !! i = Some true →
  t < t0 + ABSOLUTE_CAP ∧ t < prev + ADMIN_SESSION_TTL_MINUTES s * 60.
Proof.
  induction times as [|t times IH]; intros last w Hb Hs i prev u Hp Hu Hv; [done|].
  apply StronglySorted_inv in Hs as [Hs Hall]. inversion Hall as [|? ? Hlt _]; subst.
  cbn [visits] in Hv. set (w1 := (advance t w).2) in *.
  assert (bounded_session (sha256_hex raw) id t0 last (ADMIN_SESSION_TTL_MINUTES s * 60) (w_db w1)) as Hb1 by exact Hb.
  destruct (require_admin_effect raw w1) as [(e & E1 & E2)|(ctx & k & row & E1 & Hrow & (Hh & _ & Hx)%session_active_true & En & E2)]; rewrite E1 in Hv.
  - destruct i as [|i]; [done|]. cbn [lookup list_lookup] in Hp, Hu, Hv. eapply (IH t); [|exact Hs|exact Hp|exact Hu|exact Hv].
    rewrite E2. intros j r Hr Hh. destruct (Hb1 j r Hr Hh) as (B1 & B2 & B3 & B4). split; [done|]. split; [done|]. lia.
  - destruct i as [|i].
    + injection Hp as <-. injection Hu as <-. destruct (Hb1 k row Hrow Hh) as (_ & _ & B3 & B4). change (w_now w1) with t in Hx. lia.
    + cbn [lookup list_lookup] in Hp, Hu, Hv. eapply (IH t); [|exact Hs|exact Hp|exact Hu|exact Hv]. unfold bounded_session. rewrite E2.
      intros j r [[<- <-]|[_ Hr]]%lookup_insert_Some Hh'.
      * destruct (Hb1 k row Hrow Hh) as (B1 & B2 & _ & _). cbn. change (w_now w1) with t. split; [done|]. split; [done|]. lia.
      * destruct (Hb1 j r Hr Hh') as (B1 & B2 & B3 & B4). split; [done|]. split; [done|]. lia.
Qed.

Lemma visits_over (raw : string) (t0 : instant) (times : list instant) : ∀ w,
  session_over (sha256_hex raw) t0 (w_db w) → Forall (λ t, t0 ≤ t) times → Forall (λ b, b = false) (visits raw times w).
Proof.
  induction times as [|t times IH]; intros w Ho Ht; [constructor|]. inversion Ht; subst. cbn [visits]. set (w1 := (advance t w).2).
  assert (session_over (sha256_hex raw) t0 (w_db w1)) as Ho1 by exact Ho.
  destruct (require_admin_effect raw w1) as [(e & E1 & E2)|(ctx & k & row & E1 & Hrow & (Hh & Hrev & Hx)%session_active_true & _)].
  - rewrite E1. constructor; [done|]. apply IH; [by rewrite E2|done].
  - exfalso. change (w_now w1) with t in Hx. destruct (Ho1 k row Hrow Hh); [congruence|lia].
Qed.
End Visits.

Lemma preserves_lua (P : db → Prop) (keys : list string) (window max : Z) : preserves P (login_throttle_lua keys window max).
Proof. induction keys as [|k keys IH]; cbn [login_throttle_lua]; preserves_auto. Qed.

Lemma uncommitted_lua (keys : list string) (window max : Z) : uncommitted (login_throttle_lua keys window max).
Proof. induction keys as [|k keys IH]; cbn [login_throttle_lua]; uncommitted_auto. Qed.

#[export] Hint Resolve preserves_lua uncommitted_lua : giftly.

Section Login.
Context `{SecurityLib} (s : AppSettings) (uuid5 : string → uuid).

Lemma same_clock_lua (keys : list string) (window max : Z) : same_clock (login_throttle_lua keys window max).
Proof.
  induction keys as [|k keys IH]; [intros ?; done|]. cbn [login_throttle_lua].
  apply same_clock_bind; [apply same_clock_count_hit|]. intros n. destruct (max <? n); [intros ?; done|exact IH].
Qed.

Lemma same_clock_throttle (username : string) (ip : option string) : same_clock (check_login_throttle username ip).
Proof.
  unfold check_login_throttle. apply same_clock_bind; [|intros ? ?; done]. intros w. unfold catch.
  pose proof (same_clock_lua [login_user_key username; login_ip_key ip] LOGIN_WINDOW_SECONDS LOGIN_MAX_ATTEMPTS w) as E.
  destruct (login_throttle_lua _ _ _ _) as [[?|?] ?]; exact E.
Qed.

Lemma same_clock_clear (username : string) (ip : option string) : same_clock (clear_login_throttle username ip).
Proof.
  unfold clear_login_throttle, redis_delete. apply same_clock_bind; [|intros ?]; intros w; command_cases.
Qed.

Lemma ensure_admin_now (i : uuid) (phone : string) (d : db) (u : option User) (d' : db) :
  ensure_dashboard_admin i phone d = Ok (u, d') → db_now d' = db_now d.
Proof.
  intros Hr. assert (keeps (reads db_now (db_now d)) (ensure_dashboard_admin i phone)) as K by (apply frame_ensure_admin; auto with typeclass_instances).
  exact (K _ _ _ eq_refl Hr).
Qed.

(** What the tables hold after a sign-in: the new session is the only one of its token. *)
Lemma login_session (username password : string) (ip ua : option string) (w w1 : world) (l : AdminLogin) :
  complete_login s uuid5 username password ip ua w = (Ok l, w1) →
  credentials_match s username password = true ∧ w_now w1 = w_now w ∧
  ∃ id, ∀ i r, tb_admin_sessions (w_db w1) !! i = Some r → ads_session_token_hash r = sha256_hex (raw_session_token l) →
    i = id ∧ ads_created_at r = w_now w ∧ ads_expires_at r = w_now w + ADMIN_SESSION_TTL_MINUTES s * 60.
Proof.
  intros Hr. unfold complete_login in Hr.
  apply tbind_inv in Hr as (? & w2 & Ht & Hr). assert (w_now w2 = w_now w) as Ew2.
  { pose proof (same_clock_throttle username ip w) as [E _]. by rewrite Ht in E. }
  apply tbind_inv in Hr as (? & w3 & [Hc%negb_false_iff ->]%assert_ok & Hr).
  apply tbind_inv in Hr as (u & w3 & (d3 & Hu & ->)%on_db_ok & Hr).
  assert (db_now d3 = w_now w2) as Ed3 by (exact (ensure_admin_now _ _ _ _ _ Hu)).
  apply tbind_inv in Hr as (user & w3 & [_ ->]%required_ok & Hr). apply tbind_inv in Hr as (? & w3 & [_ ->]%assert_ok & Hr).
  apply tbind_inv in Hr as (? & w4 & Hcl & Hr). pose proof (same_clock_clear username ip (w2 <| w_db := d3 |>)) as [E4 _].
  rewrite Hcl in E4. cbn in E4. apply tbind_inv in Hr as (raw & w5 & Hg & Hr).
  unfold generate_session_token in Hg. erewrite tbind_ok in Hg by reflexivity. injection Hg as <- <-.
  erewrite tbind_ok in Hr by reflexivity. apply tbind_inv in Hr as (sid & w6 & (d6 & Hn & ->)%on_db_ok & Hr).
  apply tbind_inv in Hr as (csrf & w7 & [_ ->]%pure_ok & Hr). injection Hr as <- <-.
  assert (w_now w4 = w_now w) as Ew4 by (unfold w_now in *; cbn in *; congruence).
  split; [done|]. unfold create_admin_session in Hn. inv_run Hn. inv_writes. split; [exact Ew4|]. eexists. cbn.
  intros i r [[<- <-]|[Hne Hi]]%lookup_insert_Some Hh; [cbn; split; [done|]; split; [exact Ew4|]; unfold w_now in *; cbn in *; lia|].
  exfalso. rewrite unique_ok_true in Huniq. specialize (Huniq i r Hi (not_eq_sym Hne)). cbn in Huniq.
  unfold conflicts_admin_sessions in Huniq. cbn in Huniq. by rewrite (proj2 (same_true _ _) (eq_sym Hh)) in Huniq.
Qed.

(** After a logout the session is over. *)
Lemma logout_over (raw : string) (id : uuid) (t : instant) (w : world) :
  (∀ i r, tb_admin_sessions (w_db w) !! i = Some r → ads_session_token_hash r = sha256_hex raw → i = id) →
  session_over (sha256_hex raw) t (w_db (request (admin_logout raw) (advance t w).2).2).
Proof.
  intros Hu. set (w0 := (advance t w).2).
  destruct (scalar_run (row := AdminSession) (λ _ r, session_active (sha256_hex raw) t r) (w_db w0)) as (o & Eo & Ho).
  unfold request, admin_logout. erewrite tbind_ok by reflexivity. unfold get_active, mbind, T_bind, on_db.
  change (w_now (w0 <| w_saved := w_db w0 |>)) with t. change (w_db (w0 <| w_saved := w_db w0 |>)) with (w_db w0). rewrite Eo.
  destruct o as [[k row]|]; cbn [fst snd].
  - destruct Ho as [Hrow Hact]. apply session_active_true in Hact as (Hh & _ & _).
    assert (∃ d', revoke_session k row t (w_db w0) = Ok ((), d') ∧
      d' = (w_db w0) <| tb_admin_sessions := <[k := row <| ads_revoked_at := Some t |>]> (tb_admin_sessions (w_db w0)) |>) as (d' & E & ->).
    { eexists. split; [|reflexivity]. apply update_row_ok. split; [done|]. split; [done|]. split; [|done].
      apply unique_ok_true. intros i r Hr Hne. cbn. unfold conflicts_admin_sessions. cbn. apply not_true_iff_false.
      intros Hsame%(proj1 (same_true _ _)). apply Hne. rewrite (Hu k row Hrow Hh). apply (Hu i r Hr). congruence. }
    match goal with |- context [revoke_session k row t ?d] => change d with (w_db w0) end. rewrite E. intros i r Hi Hr'. cbn in Hi.
    apply lookup_insert_Some in Hi as [[<- <-]|[Hne Hr]]; [by left|]. exfalso.
    apply Hne. by rewrite (Hu k row Hrow Hh), (Hu i r Hr Hr').
  - intros i r Hr Hh. specialize (Ho i r Hr). cbn in Ho. destruct (not_null (ads_revoked_at r)) eqn:Hn; [by left|right].
    destruct (Z.leb_spec (ads_expires_at r) t); [done|]. exfalso.
    by rewrite (proj2 (session_active_true (sha256_hex raw) t r)) in Ho.
Qed.
End Login.

(** ** Properties *)

(** [C24] Dashboard sessions end in time.  When the configured session length is at most twelve hours (nothing at boot
    enforces it), a page load with the session's cookie is let in only within twelve hours of the sign-in and only within
    the session length of the previous load (or of the sign-in), however often the page is loaded; and after a logout,
    whatever loads came before it, no later load is let in. *)
Theorem admin_session_ends `{SecurityLib} (s : AppSettings) (uuid5 : string → uuid) (username password : string)
    (ip ua : option string) (w w1 : world) (l : AdminLogin) (times : list instant) :
  complete_login s uuid5 username password ip ua w = (Ok l, w1) →
  ADMIN_SESSION_TTL_MINUTES s * 60 ≤ ABSOLUTE_CAP → StronglySorted Z.le (w_now w :: times) →
  (∀ i prev t, (w_now w :: times) !! i = Some prev → times !! i = Some t →
     visits s (raw_session_token l) times w1 !! i = Some true →
     t < w_now w + 12 * 3600 ∧ t < prev + ADMIN_SESSION_TTL_MINUTES s * 60) ∧
  (∀ t later, Forall (λ u, t ≤ u) later →
     Forall (λ b, b = false)
       (visits s (raw_session_token l) later
          (request (admin_logout (raw_session_token l)) (advance t (visited s (raw_session_token l) times w1)).2).2)).
Proof.
  intros Hl Httl Hs. apply login_session in Hl as (_ & _ & id & Hrows). split.
  - intros i prev t Hp Ht Hv. refine (visits_bounded s (raw_session_token l) id (w_now w) times (w_now w) w1 _ Hs i prev t Hp Ht Hv).
    intros j r Hr Hh. destruct (Hrows j r Hr Hh) as (-> & -> & ->). split; [done|]. split; [done|]. lia.
  - intros t later Hlater. apply visits_over with (t0 := t); [|done]. apply (logout_over _ id).
    apply visited_one_session. intros i r Hi Hh. by destruct (Hrows i r Hi Hh).
Qed.

(** The transparent library signs the operator in. *)
Definition operator_login : res AdminLogin * world :=
  @complete_login opaque_lib app0 (λ _, 99%N) "operator" "correct horse battery" (Some "10.0.0.1"%string) None world_empty.

Example operator_visits :
  visits (H := opaque_lib) app0 "token-0" [100; 3600; 7199; 10799; 20000; 43000] operator_login.2
  = [true; true; true; false; false; false].
Proof. vm_compute. reflexivity. Qed.

Lemma admin_session_ends_witness :
  ∃ l w1, operator_login = (Ok l, w1) ∧
    Forall (λ b, b = false) (visits (H := opaque_lib) app0 (raw_session_token l) [200; 300]
      (request (@admin_logout opaque_lib (raw_session_token l))
         (advance 100 (visited (H := opaque_lib) app0 (raw_session_token l) [50; 90] w1)).2).2).
Proof.
  assert (operator_login.1 = Ok (mk_AdminLogin "token-0" (match operator_login.1 with Ok l => login_csrf_token l | _ => EmptyString end)
    (match operator_login.1 with Ok l => login_admin l | _ => user_row EmptyString UserRole.ADMIN end))) as E by (vm_compute; reflexivity).
  set (l := mk_AdminLogin _ _ _) in E. exists l, operator_login.2.
  assert (operator_login = (Ok l, operator_login.2)) as El by (rewrite <- E; apply surjective_pairing).
  split; [exact El|].
  refine (proj2 (@admin_session_ends opaque_lib app0 (λ _, 99%N) _ _ _ _ world_empty operator_login.2 l [50; 90] El _ _) 100 [200; 300] _).
  - vm_compute. discriminate.
  - repeat constructor; vm_compute; discriminate.
  - repeat constructor; vm_compute; discriminate.
Defined.
