(* ===== verification/Chat.v ===== *)
(** * Chat ([app/services/chat_service.py], [app/repositories/chat_repository.py],
      [app/routers/chat.py])

    Messages encrypted at rest under the AAD of their conversation, the encrypted
    preview and unread counters of the inbox, and the live socket with its guards.  A
    string is a sequence of one-byte characters. *)

From Stdlib Require Import ZArith Lia Ascii.
From stdpp Require Import base list gmap strings numbers option pretty sorting.
From S2P Require Import Prelude Errors PyDecimal Money Pricing Enums OrderState Tables Database Constraints Redis RateLimit.
From S2P Require Import Ledger Users Promos Crypto Media Orders Invoices Config Fields Tokens Otp Auth.
Open Scope Z_scope.

(** ** [ChatRepository] *)

Definition member (actor_id : uuid) (c : Conversation) : bool :=
  same (cv_customer_id c) actor_id || same (cv_courier_id c) actor_id.

Definition conversation_for_actor (conversation_id actor_id : uuid) : M (option Conversation) :=
  p ← scalar (λ id c, same id conversation_id && member actor_id c);
  mret (snd <$> p).

(** [ORDER BY last_message_timestamp DESC, id DESC]. *)
Definition conversation_after (a b : uuid * Conversation) : Prop :=
  cv_last_message_timestamp b.2 < cv_last_message_timestamp a.2 ∨
  (cv_last_message_timestamp a.2 = cv_last_message_timestamp b.2 ∧ (b.1 ≤ a.1)%N).

#[export] Instance conversation_after_dec : RelDecision conversation_after.
Proof. intros a b. unfold conversation_after. apply _. Defined.

(** [(last_message_timestamp, id) < before]. *)
Definition before_cursor (before : option (instant * uuid)) (p : uuid * Conversation) : bool :=
  match before with
  | None => true
  | Some (t, id) =>
      (cv_last_message_timestamp p.2 <? t) || ((cv_last_message_timestamp p.2 =? t) && (p.1 <? id)%N)
  end.

Definition list_for_user (user_id : uuid) (limit : nat) (before : option (instant * uuid)) : M (list (uuid * Conversation)) :=
  l ← select_rows (λ id c, member user_id c && before_cursor before (id, c));
  mret (take limit (merge_sort conversation_after l)).

Definition add_message (conversation_id : uuid) (conversation : Conversation) (sender_id : uuid)
    (content_encrypted preview_encrypted : string) (sender_is_customer : bool) : M (uuid * Message) :=
  now ← get_now;
  let message := mk_Message conversation_id sender_id MessageType.TEXT content_encrypted false None now in
  id ← insert_row message;
  let c := conversation <| cv_last_message_preview_encrypted := Some preview_encrypted |>
                        <| cv_last_message_timestamp := now |> in
  update_row conversation_id
    (if sender_is_customer then c <| cv_courier_unread_count := cv_courier_unread_count c + 1 |>
     else c <| cv_customer_unread_count := cv_customer_unread_count c + 1 |>);;
  mret (id, message).

(** [ORDER BY created_at DESC, id DESC], and the keyset anchor. *)
Definition message_after (a b : uuid * Message) : Prop :=
  msg_created_at b.2 < msg_created_at a.2 ∨ (msg_created_at a.2 = msg_created_at b.2 ∧ (b.1 ≤ a.1)%N).

#[export] Instance message_after_dec : RelDecision message_after.
Proof. intros a b. unfold message_after. apply _. Defined.

Definition list_message_rows (conversation_id : uuid) (limit : nat) (before_id : option uuid) : M (list (uuid * Message)) := λ d,
  let mine := filter (λ p, same (msg_conversation_id p.2) conversation_id = true) (map_to_list (tb_messages d)) in
  let anchor := id ← before_id; m ← tb_messages d !! id; Some (id, m) in
  Ok (take limit (keyset_rows fst message_after anchor mine), d).

Definition mark_read_rows (conversation_id : uuid) (conversation : Conversation) (reader_is_customer : bool) : M () :=
  let other_id := if reader_is_customer then cv_courier_id conversation else cv_customer_id conversation in
  now ← get_now;
  update_row conversation_id
    (if reader_is_customer then conversation <| cv_customer_unread_count := 0 |>
     else conversation <| cv_courier_unread_count := 0 |>);;
  update_where (λ m, same (msg_conversation_id m) conversation_id && same (msg_sender_id m) other_id && negb (msg_is_read m))
    (λ m, m <| msg_is_read := true |> <| msg_read_at := Some now |>).

(** ** [ChatService] *)

Definition PREVIEW_CHARS : nat := 100.

Definition conversation_channel (conversation_id : uuid) : string := "chat:conversation:" +:+ uuid_str conversation_id.

(** [created_at] is rendered with [isoformat]. *)
Record ChatMessage := mk_ChatMessage {
  chm_id : uuid;
  chm_conversation_id : uuid;
  chm_sender_id : uuid;
  chm_message_type : message_type;
  chm_content : string;
  chm_is_read : bool;
  chm_created_at : instant;
}.

Record InboxItem := mk_InboxItem {
  ibx_conversation_id : uuid;
  ibx_order_id : uuid;
  ibx_other_user_id : uuid;
  ibx_last_message_preview : option string;
  ibx_unread_count : Z;
  ibx_last_message_timestamp : instant;
}.

Definition to_dto (id : uuid) (message : Message) (content : string) : ChatMessage :=
  mk_ChatMessage id (msg_conversation_id message) (msg_sender_id message) (msg_message_type message) content
    (msg_is_read message) (msg_created_at message).

Section Service.
Context `{AesGcm} (settings : AppSettings).

Definition encrypt_content (conversation_id : uuid) (text : string) : T string :=
  c ← pure (settings_cipher settings); seal c text "messages" "content" (uuid_str conversation_id).

Definition decrypt_content (conversation_id : uuid) (blob : string) : res string :=
  c ← settings_cipher settings; unseal c blob "messages" "content" (uuid_str conversation_id).

Definition encrypt_preview (conversation_id : uuid) (text : string) : T string :=
  c ← pure (settings_cipher settings);
  seal c (String.substring 0 PREVIEW_CHARS text) "conversations" "last_message_preview" (uuid_str conversation_id).

Definition decrypt_preview (conversation_id : uuid) (blob : string) : res string :=
  c ← settings_cipher settings; unseal c blob "conversations" "last_message_preview" (uuid_str conversation_id).

Definition require_conversation (conversation_id actor_id : uuid) : T Conversation :=
  c ← on_db (conversation_for_actor conversation_id actor_id); required c NotFoundError.

Definition send_message (conversation_id sender_id : uuid) (text : string) : T ChatMessage :=
  conversation ← require_conversation conversation_id sender_id;
  content ← encrypt_content conversation_id text;
  preview ← encrypt_preview conversation_id text;
  m ← on_db (add_message conversation_id conversation sender_id content preview (same sender_id (cv_customer_id conversation)));
  mret (to_dto m.1 m.2 text).

Definition list_messages (conversation_id actor_id : uuid) (limit : nat) (before_id : option uuid) : T (list ChatMessage) :=
  require_conversation conversation_id actor_id;;
  rows ← on_db (list_message_rows conversation_id limit before_id);
  pure (res_map (λ p : uuid * Message,
    text ← decrypt_content conversation_id (msg_content_encrypted p.2); Ok (to_dto p.1 p.2 text)) rows).

Definition mark_read (conversation_id actor_id : uuid) : T () :=
  conversation ← require_conversation conversation_id actor_id;
  on_db (mark_read_rows conversation_id conversation (same actor_id (cv_customer_id conversation))).

Definition inbox_item (user_id : uuid) (p : uuid * Conversation) : res InboxItem :=
  let '(id, conv) := p in
  let is_customer := same (cv_customer_id conv) user_id in
  preview ← match cv_last_message_preview_encrypted conv with
            | Some blob => t ← decrypt_preview id blob; Ok (Some t)
            | None => Ok None
            end;
  Ok (mk_InboxItem id (cv_order_id conv) (if is_customer then cv_courier_id conv else cv_customer_id conv) preview
        (if is_customer then cv_customer_unread_count conv else cv_courier_unread_count conv) (cv_last_message_timestamp conv)).

Definition list_inbox (user_id : uuid) (limit : nat) (before : option (instant * uuid)) : T (list InboxItem) :=
  conversations ← on_db (list_for_user user_id limit before);
  pure (res_map (inbox_item user_id) conversations).
End Service.

(** ** Live delivery *)

Section Live.
Context `{SecurityLib} `{AesGcm} `{PushClient} (settings : AppSettings).
(** [datetime.isoformat] and the names of the message types. *)
Context (isoformat : instant → string) (type_name : message_type → string).
(** [json.loads]: the text of the ["text"] field when the frame is a JSON object (empty without the
    field), [None] otherwise. *)
Context (json_text : string → option string).

(** [PUBLISH]; [json.dumps] renders the pairs. *)
Definition publish_message (m : ChatMessage) : T () :=
  command (λ w, (Ok (), w));;
  emit (Publish (conversation_channel (chm_conversation_id m))
    [("id", uuid_str (chm_id m)); ("conversation_id", uuid_str (chm_conversation_id m));
     ("sender_id", uuid_str (chm_sender_id m)); ("message_type", type_name (chm_message_type m));
     ("content", chm_content m); ("is_read", if chm_is_read m then "true" else "false");
     ("created_at", isoformat (chm_created_at m))]%string).

Definition PUSH_TITLE : string := "New message".
Definition PUSH_BODY : string := "You have a new message about your order.".

Definition recipient_of (actor_id : uuid) (c : Conversation) : uuid :=
  if same actor_id (cv_customer_id c) then cv_courier_id c else cv_customer_id c.

(** [POST /conversations/{id}/messages]: commit, then push, then the live event. *)
Definition post_message (conversation_id : uuid) (actor : Actor) (text : string) : T ChatMessage :=
  dto ← send_message settings conversation_id (actor_id actor) text;
  session_commit;;
  c ← on_db (conversation_for_actor conversation_id (actor_id actor));
  match c with
  | Some c => notify_user (recipient_of (actor_id actor) c) PUSH_TITLE PUSH_BODY;; mret ()
  | None => mret ()
  end;;
  publish_message dto;;
  mret dto.

(** [_authenticate_ws]. *)
Definition authenticate_ws (token : string) : T (option Actor) :=
  now ← clock;
  match token, decode_access_token settings token now with
  | EmptyString, _ | _, Raise _ => mret None
  | _, Ok claims =>
      denied ← redis_get (denylist_key (ac_jti claims));
      if truthy denied then mret None
      else
        match parse_role (ac_role claims) with
        | Some (UserRole.CUSTOMER as role) | Some (UserRole.COURIER as role) =>
            id ← required (parse_uuid (ac_sub claims)) ValueError;
            mret (Some (mk_Actor id role (ac_jti claims)))
        | _ => mret None
        end
  end.

(** How the socket opens: the close code, or the actor and the recipient. *)
Definition open_socket (token : string) (conversation_id : uuid) : T (Z + Actor * uuid) :=
  a ← authenticate_ws token;
  match a with
  | None => mret (inl 4401)
  | Some actor =>
      c ← on_db (conversation_for_actor conversation_id (actor_id actor));
      mret match c with
           | None => inl 4403
           | Some c => inr (actor, recipient_of (actor_id actor) c)
           end
  end.

Definition extract_text (raw : string) : string :=
  match json_text raw with Some t => strip t | None => EmptyString end.

Inductive frame_outcome := FrameDropped | FrameSent (m : ChatMessage) | SocketClosed (close_code : Z).

(** One turn of [_pump_socket_to_chat]: each message is its own session. *)
Definition handle_frame (conversation_id : uuid) (actor : Actor) (recipient_id : uuid) (raw : string) : T frame_outcome :=
  if WS_MAX_FRAME_BYTES settings <? Z.of_nat (String.length raw) then mret FrameDropped
  else
    decision ← check_guarded (WS_RATE_LIMIT_MAX_MESSAGES settings) (WS_RATE_LIMIT_WINDOW_SECONDS settings)
                 ("ws:" +:+ uuid_str (actor_id actor)) (banned_key (uuid_str (actor_id actor)));
    if blocked decision then mret (SocketClosed 4401)
    else if negb (allowed decision) then mret FrameDropped
    else
      match extract_text raw with
      | EmptyString => mret FrameDropped
      | text =>
          dto ← send_message settings conversation_id (actor_id actor) text;
          session_commit;;
          notify_user recipient_id PUSH_TITLE PUSH_BODY;;
          publish_message dto;;
          mret (FrameSent dto)
      end.
End Live.

(** ** The unread counters *)

(** A message of [sender] that is not marked read. *)
Definition pending (conversation_id sender_id : uuid) (m : Message) : bool :=
  same (msg_conversation_id m) conversation_id && same (msg_sender_id m) sender_id && negb (msg_is_read m).

(** How many there are, and how many of them are the notices that accepting an order leaves ([SYSTEM], in the name of the courier). *)
Definition unread_all (d : db) (conversation_id sender_id : uuid) : Z :=
  map_total (λ m, if pending conversation_id sender_id m then 1 else 0) (tb_messages d).

Definition unread_notices (d : db) (conversation_id sender_id : uuid) : Z :=
  map_total (λ m, if pending conversation_id sender_id m && same (msg_message_type m) MessageType.SYSTEM then 1 else 0) (tb_messages d).

(** One for an unread message of [sender] that is not such a notice. *)
Definition counted (conversation_id sender_id : uuid) (m : Message) : Z :=
  if same (msg_conversation_id m) conversation_id && same (msg_sender_id m) sender_id && negb (msg_is_read m) &&
     negb (same (msg_message_type m) MessageType.SYSTEM) then 1 else 0.

Definition unread (d : db) (conversation_id sender_id : uuid) : Z := map_total (counted conversation_id sender_id) (tb_messages d).

(** Every message belongs to a conversation, and each counter is the number of unread
    messages of the other side, without the notices. *)
Record unread_ok (d : db) : Prop := {
  uo_ref : ∀ i m, tb_messages d !! i = Some m → is_Some (tb_conversations d !! msg_conversation_id m);
  uo_count : ∀ k c, tb_conversations d !! k = Some c → cv_customer_id c ≠ cv_courier_id c →
    cv_customer_unread_count c = unread d k (cv_courier_id c) ∧ cv_courier_unread_count c = unread d k (cv_customer_id c);
}.

Lemma counted_other (k k' s : uuid) (m : Message) : msg_conversation_id m = k' → k' ≠ k → counted k s m = 0.
Proof. intros <- Hne. unfold counted. destruct (same (msg_conversation_id m) k) eqn:E; [|done]. by apply (proj1 (same_true _ _)) in E. Qed.

Lemma counted_sender (k s s' : uuid) (m : Message) : msg_sender_id m = s' → s' ≠ s → counted k s m = 0.
Proof.
  intros <- Hne. unfold counted. destruct (same (msg_sender_id m) s) eqn:E; [|by rewrite andb_false_r].
  by apply (proj1 (same_true _ _)) in E.
Qed.

Lemma counted_system (k s : uuid) (m : Message) : msg_message_type m = MessageType.SYSTEM → counted k s m = 0.
Proof. intros E. unfold counted. rewrite E. by rewrite andb_false_r. Qed.

(** A new message and a new row of its conversation. *)
Lemma unread_ok_message (d d' : db) (k id : uuid) (m : Message) (c c' : Conversation) :
  unread_ok d → tb_conversations d !! k = Some c → tb_messages d !! id = None → msg_conversation_id m = k →
  tb_messages d' = <[id := m]> (tb_messages d) → tb_conversations d' = <[k := c']> (tb_conversations d) →
  cv_customer_id c' = cv_customer_id c → cv_courier_id c' = cv_courier_id c →
  (cv_customer_id c ≠ cv_courier_id c →
     cv_customer_unread_count c' = cv_customer_unread_count c + counted k (cv_courier_id c) m ∧
     cv_courier_unread_count c' = cv_courier_unread_count c + counted k (cv_customer_id c) m) →
  unread_ok d'.
Proof.
  intros [Hr Hc] Hk Hid Hm Em Ec E1 E2 Hcount. constructor; rewrite Ec.
  - rewrite Em. intros i x [[_ <-]|[_ Hx]]%lookup_insert_Some; [rewrite Hm, lookup_insert_eq; by eexists|].
    destruct (decide (msg_conversation_id x = k)) as [->|Hne]; [rewrite lookup_insert_eq; by eexists|].
    rewrite lookup_insert_ne by congruence. by apply (Hr i).
  - unfold unread. rewrite Em. intros j x [[<- <-]|[Hne Hx]]%lookup_insert_Some Hd; rewrite !map_total_insert_new by done.
    + rewrite E1, E2 in *. destruct (Hc _ _ Hk Hd) as [C1 C2]. destruct (Hcount Hd) as [-> ->]. unfold unread in C1, C2. lia.
    + rewrite !(counted_other j k) by congruence. destruct (Hc _ _ Hx Hd) as [C1 C2]. unfold unread in C1, C2. lia.
Qed.

Lemma unread_ok_add_message (k sender : uuid) (c : Conversation) (content preview : string) (d : db) r (d' : db) :
  unread_ok d → tb_conversations d !! k = Some c → member sender c = true →
  add_message k c sender content preview (same sender (cv_customer_id c)) d = Ok (r, d') → unread_ok d'.
Proof.
  intros Hd Hk Hmem Hr. unfold add_message in Hr. inv_run Hr. inv_writes.
  eapply (unread_ok_message _ _ k); [exact Hd|exact Hk|exact Hnew| | | | | |]; [|reflexivity|reflexivity|..]; [done|..].
  - by destruct (same sender _).
  - by destruct (same sender _).
  - intros Hne. unfold member in Hmem. destruct (same sender (cv_customer_id c)) eqn:Es; cbn.
    + apply (proj1 (same_true _ _)) in Es as ->. rewrite (counted_sender _ (cv_courier_id c) (cv_customer_id c)) by done.
      unfold counted. cbn. rewrite !(proj2 (same_true _ _)) by done. change (same MessageType.TEXT MessageType.SYSTEM) with false. cbn. lia.
    + apply orb_true_iff in Hmem as [Hm|Hm]; apply (proj1 (same_true _ _)) in Hm; subst.
      { by rewrite (proj2 (same_true _ _) eq_refl) in Es. }
      rewrite (counted_sender _ (cv_customer_id c) (cv_courier_id c)) by done.
      unfold counted. cbn. rewrite !(proj2 (same_true _ _)) by done. change (same MessageType.TEXT MessageType.SYSTEM) with false. cbn. lia.
Qed.

Lemma map_total_fmap {A} (f : A → Z) (g : A → A) (m : gmap N A) : map_total f (g <$> m) = map_total (λ x, f (g x)) m.
Proof.
  induction m as [|k x m Hk IH] using map_ind; [by rewrite fmap_empty, !map_total_empty|].
  rewrite fmap_insert, !map_total_insert_new; [by rewrite IH|done|by rewrite lookup_fmap, Hk].
Qed.

(** What marking a conversation read does. *)
Lemma mark_read_rows_run (k : uuid) (c : Conversation) (b : bool) (d : db) : table_ok Conversation d → tb_conversations d !! k = Some c →
  let other := if b then cv_courier_id c else cv_customer_id c in
  let seen m := if same (msg_conversation_id m) k && same (msg_sender_id m) other && negb (msg_is_read m)
                then m <| msg_is_read := true |> <| msg_read_at := Some (db_now d) |> else m in
  mark_read_rows k c b d = Ok ((), d <| tb_conversations := <[k := if b then c <| cv_customer_unread_count := 0 |>
      else c <| cv_courier_unread_count := 0 |>]> (tb_conversations d) |> <| tb_messages := seen <$> tb_messages d |>).
Proof.
  intros Hd Hk other seen. unfold mark_read_rows. erewrite bind_run by reflexivity. fold other.
  set (c' := if b then c <| cv_customer_unread_count := 0 |> else c <| cv_courier_unread_count := 0 |>).
  set (d1 := d <| tb_conversations := <[k := c']> (tb_conversations d) |>).
  assert (update_row k c' d = Ok ((), d1)) as E.
  { apply update_row_ok. split; [done|]. split; [done|]. split; [|done]. apply unique_ok_true. intros i x Hx Hne.
    pose proof (tk_unique _ _ Hd k i c x Hk Hx (not_eq_sym Hne)) as Hc. by destruct b. }
  erewrite bind_run by exact E.
  pose (g := λ m : Message, m <| msg_is_read := true |> <| msg_read_at := Some (db_now d) |>).
  pose (f := λ m : Message, same (msg_conversation_id m) k && same (msg_sender_id m) other && negb (msg_is_read m)).
  assert (table_ok Message d1) as Hm by (constructor; [by exists 0|done]).
  refine (proj1 (update_where_run g _ _ f d1 Hm _)).
  - intros d0 r. cbn. rewrite !bool_decide_true by done. by rewrite Z.eqb_refl.
  - done.
  - done.
Qed.

Lemma unread_ok_mark_read (k : uuid) (c : Conversation) (b : bool) (d : db) (u : ()) (d' : db) :
  unread_ok d → table_ok Conversation d → tb_conversations d !! k = Some c →
  mark_read_rows k c b d = Ok (u, d') → unread_ok d'.
Proof.
  intros [Hr Hc] Ht Hk E. rewrite (mark_read_rows_run k c b d Ht Hk) in E. injection E as _ <-.
  set (other := if b then cv_courier_id c else cv_customer_id c).
  constructor.
  - cbn. intros i m (m0 & <- & Hm0)%lookup_fmap_Some. destruct (Hr i m0 Hm0) as [x Hx].
    assert (∀ v : bool, msg_conversation_id (if v then m0 <| msg_is_read := true |> <| msg_read_at := Some (db_now d) |> else m0)
      = msg_conversation_id m0) as E by (by intros []). rewrite E.
    destruct (decide (msg_conversation_id m0 = k)) as [->|Hne]; [rewrite lookup_insert_eq; by eexists|].
    rewrite lookup_insert_ne by congruence. by eexists.
  - intros j x Hj Hne. unfold unread. cbn in Hj |- *. rewrite !map_total_fmap.
    assert (∀ s, (j ≠ k ∨ s ≠ other) → map_total (λ m, counted j s (if same (msg_conversation_id m) k && same (msg_sender_id m) other && negb (msg_is_read m)
      then m <| msg_is_read := true |> <| msg_read_at := Some (db_now d) |> else m)) (tb_messages d) = unread d j s) as Hkeep.
    { intros s Hs. apply map_total_ext. intros m. destruct (same (msg_conversation_id m) k && same (msg_sender_id m) other) eqn:Es; [|done].
      apply andb_true_iff in Es as [E1%(proj1 (same_true _ _)) E2%(proj1 (same_true _ _))]. destruct (negb (msg_is_read m)); [|done].
      destruct Hs as [Hs|Hs]; [rewrite !(counted_other j k) by (done || congruence); done|].
      rewrite !(counted_sender j s other) by (done || congruence). done. }
    assert (j = k → map_total (λ m, counted j other (if same (msg_conversation_id m) k && same (msg_sender_id m) other && negb (msg_is_read m)
      then m <| msg_is_read := true |> <| msg_read_at := Some (db_now d) |> else m)) (tb_messages d) = 0) as Hzero.
    { intros ->. apply map_total_zero. intros i m _.
      destruct (same (msg_conversation_id m) k && same (msg_sender_id m) other && negb (msg_is_read m)) eqn:E; unfold counted.
      - cbn. by rewrite andb_false_r.
      - by rewrite E. }
    fold other in Hj |- *. apply lookup_insert_Some in Hj as [[<- <-]|[Hjk Hx]].
    + assert (cv_customer_id c ≠ cv_courier_id c) as Hcc by (by destruct b). destruct (Hc _ _ Hk Hcc) as [C1 C2].
      destruct b; cbn; unfold other in *.
      * by rewrite Hzero, Hkeep by auto.
      * by rewrite Hzero, Hkeep by auto.
    + destruct (Hc _ _ Hx Hne) as [C1 C2]. by rewrite !Hkeep by auto.
Qed.

(** The counters look at conversations and messages only. *)
#[export] Hint Extern 1 (Frame unread_ok _) =>
  (apply frame_of_rows; let R := fresh in let C := fresh in intros ? ? [R C]; constructor; [exact R|exact C]) : typeclass_instances.
#[export] Hint Extern 1 (FrameNext unread_ok) =>
  (let R := fresh in let C := fresh in intros ? ? [R C]; constructor; [exact R|exact C]) : typeclass_instances.

Lemma unread_ok_new_conversation (oid customer courier : uuid) (d : db) (id : uuid) (d' : db) :
  unread_ok d → create_conversation oid customer courier d = Ok (id, d') →
  unread_ok d' ∧ is_Some (tb_conversations d' !! id).
Proof.
  intros [Hr Hc] E. unfold create_conversation in E. inv_run E. inv_writes. cbn in Hnew.
  assert (∀ i m, tb_messages d0 !! i = Some m → msg_conversation_id m ≠ db_next d0) as Hfresh.
  { intros i m Hm Heq. destruct (Hr i m Hm) as [x Hx]. congruence. }
  split; [|cbn; rewrite lookup_insert_eq; by eexists]. constructor; cbn.
  - intros i m Hm. rewrite lookup_insert_ne by (intros Heq; by apply (Hfresh i m Hm)). by apply (Hr i).
  - intros k c [[<- <-]|[Hne Hx]]%lookup_insert_Some Hd; [|by apply Hc]. cbn. unfold unread. cbn.
    rewrite !map_total_zero; [done|..]; intros i m Hm; apply (counted_other _ (msg_conversation_id m)); eauto.
Qed.

Lemma unread_ok_system_message enc (k sender : uuid) (text : string) (d : db) (u : ()) (d' : db) :
  unread_ok d → is_Some (tb_conversations d !! k) → write_system_message enc k sender text d = Ok (u, d') → unread_ok d'.
Proof.
  intros Hd [c Hk] E. unfold write_system_message, add_system_message in E. inv_run E.
  rewrite Hk in E2. inv_writes.
  eapply (unread_ok_message _ _ k); [exact Hd|exact Hk|exact Hnew| | | | | |]; [|reflexivity|reflexivity|..]; [done|done|done|].
  intros _. rewrite !counted_system by done. cbn. lia.
Qed.

Lemma unread_ok_accept enc (oid cid : uuid) : keeps unread_ok (accept_order enc oid cid).
Proof.
  intros d o d' Hd (E & _)%accept_order_ok. unfold assign_locked, lock_order_row in E. inv_run E.
  match goal with E1 : update_row oid _ _ = Ok _, E2 : create_conversation _ _ _ _ = Ok _, E3 : write_system_message _ _ _ _ _ = Ok _ |- _ =>
    apply (keeps_update unread_ok) in E1; [|exact Hd]; apply unread_ok_new_conversation in E2 as [E2 Hs]; [|exact E1];
    exact (unread_ok_system_message _ _ _ _ _ _ _ E2 Hs E3) end.
Qed.

(** ** Sending *)

Lemma conversation_for_actor_ok (k a : uuid) (d : db) (o : option Conversation) (d' : db) :
  conversation_for_actor k a d = Ok (o, d') → d' = d ∧ o = (c ← tb_conversations d !! k; if member a c then Some c else None).
Proof.
  unfold conversation_for_actor. destruct (scalar_run (λ id c, same id k && member a c) d) as (x & E & Hx).
  erewrite bind_run by exact E. intros [= <- <-]. split; [done|]. destruct x as [[i c]|]; cbn.
  - destruct Hx as [Hl Hs]. apply andb_true_iff in Hs as [Hs Hm]. apply (proj1 (same_true _ _)) in Hs as ->.
    change (tb_conversations d !! k = Some c) in Hl. rewrite Hl. cbn. by rewrite Hm.
  - destruct (tb_conversations d !! k) as [c|] eqn:Ek; [|done]. specialize (Hx k c Ek). cbn in *.
    rewrite (proj2 (same_true _ _) eq_refl) in Hx. cbn in Hx. by rewrite Hx.
Qed.

Lemma require_conversation_ok (k a : uuid) (w w' : world) (c : Conversation) :
  require_conversation k a w = (Ok c, w') ↔ w' = w ∧ tb_conversations (w_db w) !! k = Some c ∧ member a c = true.
Proof.
  unfold require_conversation. unfold mbind, T_bind, on_db.
  destruct (conversation_for_actor k a (w_db w)) as [[o d]|e] eqn:E.
  - apply conversation_for_actor_ok in E as [-> ->]. destruct (tb_conversations (w_db w) !! k) as [x|]; cbn; [|split; [done|intros (_ & ? & _); done]].
    destruct (member a x) eqn:Hm; cbn; [|split; [done|intros (_ & [= ->] & ?); congruence]].
    unfold mret, T_ret. destruct w; cbn. split; [by intros [= <- <-]|by intros (-> & [= ->] & _)].
  - unfold conversation_for_actor in E. destruct (scalar_run (row := Conversation) (λ id c, same id k && member a c) (w_db w)) as (o & Eo & _).
    erewrite bind_run in E by exact Eo. done.
Qed.

Section Sending.
Context `{AesGcm} (s : AppSettings).

(** What sending writes, with the ciphertexts it drew. *)
Lemma send_message_ok (k u : uuid) (text : string) (w w' : world) (m : ChatMessage) :
  send_message s k u text w = (Ok m, w') →
  ∃ c cipher w1 w2 content preview,
    tb_conversations (w_db w) !! k = Some c ∧ member u c = true ∧ settings_cipher s = Ok cipher ∧
    seal cipher text "messages" "content" (uuid_str k) w = (Ok content, w1) ∧
    seal cipher (String.substring 0 PREVIEW_CHARS text) "conversations" "last_message_preview" (uuid_str k) w1 = (Ok preview, w2) ∧
    w_db w2 = w_db w ∧
    ∃ x, add_message k c u content preview (same u (cv_customer_id c)) (w_db w) = Ok (x, w_db w') ∧ m = to_dto x.1 x.2 text.
Proof.
  unfold send_message. intros (c & w1 & (-> & Hk & Hm)%require_conversation_ok & E)%tbind_inv.
  apply tbind_inv in E as (content & w1 & Hc & E). apply tbind_inv in Hc as (cipher & ? & [Hs ->]%pure_ok & Hc).
  apply tbind_inv in E as (preview & w2 & Hp & E). apply tbind_inv in Hp as (cipher' & ? & [Hs' ->]%pure_ok & Hp).
  rewrite Hs in Hs'. injection Hs' as <-. assert (w_db w2 = w_db w) as Ed.
  { destruct (preserves_seal (λ d, d = w_db w) cipher text "messages" "content" (uuid_str k) w eq_refl) as [E1 _]. rewrite Hc in E1.
    destruct (preserves_seal (λ d, d = w_db w) cipher (String.substring 0 PREVIEW_CHARS text) "conversations" "last_message_preview" (uuid_str k) w1 E1) as [E2 _].
    by rewrite Hp in E2. }
  apply tbind_inv in E as (x & w3 & (d3 & Ha & ->)%on_db_ok & E). injection E as <- <-. rewrite Ed in Ha.
  exists c, cipher, w1, w2, content, preview. repeat (split; [done|]). by exists x.
Qed.

Lemma uncommitted_send (k u : uuid) (text : string) : uncommitted (send_message s k u text).
Proof. unfold send_message, require_conversation, encrypt_content, encrypt_preview, seal, draw. uncommitted_auto. Qed.

Lemma uncommitted_mark_read (k u : uuid) : uncommitted (mark_read k u).
Proof. unfold mark_read, require_conversation. uncommitted_auto. Qed.

Lemma send_keeps_unread (k u : uuid) (text : string) (w : world) :
  unread_ok (w_db w) → unread_ok (w_db (request (send_message s k u text) w).2).
Proof.
  intros Hw. apply request_keeps; [apply uncommitted_send|exact Hw|].
  intros m w' (c & cipher & w1 & w2 & ct & pv & Hk & Hm & _ & _ & _ & _ & x & Ha & _)%send_message_ok.
  exact (unread_ok_add_message _ _ _ _ _ _ _ _ Hw Hk Hm Ha).
Qed.

Lemma mark_read_keeps_unread (k u : uuid) (w : world) :
  unread_ok (w_db w) → table_ok Conversation (w_db w) → unread_ok (w_db (request (mark_read k u) w).2).
Proof.
  intros Hw Ht. apply request_keeps; [apply uncommitted_mark_read|exact Hw|].
  intros m w' (c & w1 & (-> & Hk & Hm)%require_conversation_ok & (d & Hd & ->)%on_db_ok)%tbind_inv.
  exact (unread_ok_mark_read _ _ _ _ _ _ Hw Ht Hk Hd).
Qed.
End Sending.

(** The counters do not show the notices. *)
Lemma unread_split (d : db) (k sender : uuid) : unread d k sender = unread_all d k sender - unread_notices d k sender.
Proof.
  unfold unread, unread_all, unread_notices. induction (tb_messages d) as [|i m ms Hi IH] using map_ind; [by rewrite !map_total_empty|].
  rewrite !map_total_insert_new by done. rewrite IH. unfold counted. fold (pending k sender m).
  destruct (pending k sender m), (same (msg_message_type m) MessageType.SYSTEM); cbn; lia.
Qed.

Lemma system_message_row enc (k sender : uuid) (text : string) (d : db) (u : ()) (d' : db) : write_system_message enc k sender text d = Ok (u, d') →
  ∃ id m, tb_messages d !! id = None ∧ tb_messages d' = <[id := m]> (tb_messages d) ∧ pending k sender m = true ∧
    msg_message_type m = MessageType.SYSTEM.
Proof.
  intros Hr. unfold write_system_message, add_system_message in Hr. inv_run Hr.
  match goal with E : match ?o with Some _ => _ | None => _ end _ = Ok _ |- _ => destruct o; [|inv_run E] end; inv_writes; cbn in Hnew;
    (eexists _, _; split; [exact Hnew|]; split; [reflexivity|]; split; [|reflexivity]; unfold pending; cbn;
     by rewrite !(proj2 (same_true _ _) eq_refl)).
Qed.

(** An accepted order has a new conversation with one unread notice. *)
Lemma accept_notice enc (oid cid : uuid) (d : db) (o : Order) (d' : db) : unread_ok d → accept_order enc oid cid d = Ok (o, d') →
  ∃ k c, tb_conversations d' !! k = Some c ∧ cv_order_id c = oid ∧ cv_courier_id c = cid ∧ cv_customer_id c = ord_customer_id o ∧
    cv_customer_unread_count c = 0 ∧ cv_courier_unread_count c = 0 ∧ unread_all d' k cid = 1 ∧ unread_notices d' k cid = 1.
Proof.
  intros [Hr _] (E & _)%accept_order_ok. unfold assign_locked, lock_order_row in E. inv_run E.
  match goal with U : update_row oid _ _ = Ok _, C : create_conversation _ _ _ _ = Ok _, W : write_system_message _ _ _ _ _ = Ok _ |- _ =>
    rename U into Hu; rename C into Hc; rename W into Hw end.
  pose proof (system_message_conversations _ _ _ _ _ _ _ Hw) as Ec. apply system_message_row in Hw as (id & m & Hid & Em & Hp & Hty).
  unfold create_conversation in Hc. inv_run Hc. inv_writes. cbn in Hnew, Ec, Hid, Em.
  assert (∀ i x, tb_messages d !! i = Some x → pending (db_next d) cid x = false) as Hold.
  { intros i x Hx. unfold pending. destruct (same (msg_conversation_id x) (db_next d)) eqn:Es; [|done]. apply (proj1 (same_true _ _)) in Es.
    destruct (Hr i x Hx) as [y Hy]. congruence. }
  eexists (db_next d), _. split; [rewrite Ec; apply lookup_insert_eq|]. do 5 (split; [done|]).
  unfold unread_all, unread_notices. rewrite Em, !map_total_insert_new by done. rewrite Hp, Hty.
  rewrite !map_total_zero; [done|..]; intros i x Hx; by rewrite (Hold i x Hx).
Qed.

(** ** Properties *)

(** [C35] The unread counters are exact: whatever is sent, read and accepted, each side's counter is the number of messages
    the other side sent that are not marked read, without the notices ([unread_ok], [unread_split]: all unread less unread
    notices).  Accepting an order opens its conversation with both counters at zero and exactly one unread message, the notice, which the
    customer's counter does not show; a member who reads a conversation leaves no message of the other side unread, notices included,
    and a counter of zero. *)
Theorem chat_unread_exact `{AesGcm} (s : AppSettings) (enc : string → string → res string) (w : world) (k u : uuid) :
  unread_ok (w_db w) → table_ok Conversation (w_db w) →
  (∀ j c, tb_conversations (w_db w) !! j = Some c → cv_customer_id c ≠ cv_courier_id c →
     cv_customer_unread_count c = unread_all (w_db w) j (cv_courier_id c) - unread_notices (w_db w) j (cv_courier_id c) ∧
     cv_courier_unread_count c = unread_all (w_db w) j (cv_customer_id c) - unread_notices (w_db w) j (cv_customer_id c)) ∧
  (∀ text, unread_ok (w_db (request (send_message s k u text) w).2)) ∧
  (∀ order_id, unread_ok (w_db (request (on_db (accept_order enc order_id u)) w).2)) ∧
  (∀ order_id o w', request (on_db (accept_order enc order_id u)) w = (Ok o, w') →
     ∃ j c, tb_conversations (w_db w') !! j = Some c ∧ cv_order_id c = order_id ∧ cv_courier_id c = u ∧ cv_customer_id c = ord_customer_id o ∧
       cv_customer_unread_count c = 0 ∧ cv_courier_unread_count c = 0 ∧ unread_all (w_db w') j u = 1 ∧ unread_notices (w_db w') j u = 1) ∧
  unread_ok (w_db (request (mark_read k u) w).2) ∧
  ∀ c, tb_conversations (w_db w) !! k = Some c → cv_customer_id c ≠ cv_courier_id c → member u c = true →
    ∃ w' c', request (mark_read k u) w = (Ok (), w') ∧ tb_conversations (w_db w') !! k = Some c' ∧
      unread_all (w_db w') k (if same u (cv_customer_id c) then cv_courier_id c else cv_customer_id c) = 0 ∧
      (if same u (cv_customer_id c) then cv_customer_unread_count c' else cv_courier_unread_count c') = 0.
Proof.
  intros Hw Ht. split; [|split; [|split; [|split; [|split]]]].
  - intros j c Hj Hne. rewrite <- !unread_split. by apply (uo_count _ Hw).
  - intros text. by apply send_keeps_unread.
  - intros oid. apply preserves_request; [|exact Hw]. apply preserves_on_db, unread_ok_accept.
  - intros oid o w' Hr. unfold request, on_db in Hr. cbn in Hr. destruct (accept_order enc oid u (w_db w)) as [[o1 d1]|] eqn:E; [|done].
    injection Hr as <- <-. cbn. by eapply accept_notice.
  - by apply mark_read_keeps_unread.
  - intros c Hk Hne Hm. eexists _, _. split; [|split; [|split]].
    + apply request_done. unfold mark_read.
      erewrite tbind_ok by (apply require_conversation_ok; split; [reflexivity|]; split; [exact Hk|exact Hm]).
      unfold on_db. rewrite (mark_read_rows_run k c _ _ Ht Hk). reflexivity.
    + cbn. apply lookup_insert_eq.
    + unfold unread_all. cbn. rewrite map_total_fmap. apply map_total_zero. intros i m _.
      match goal with |- context [if ?b then upd _ _ _ else m] => destruct b eqn:E; unfold pending end.
      { cbn. by rewrite andb_false_r. } by rewrite E.
    + by destruct (same u (cv_customer_id c)).
Qed.

(** A conversation between users 1 and 2. *)
Definition conversation_row : Conversation := mk_Conversation 3 1 2 None 0 0 0 false 0.

Definition world_chat : world := world_empty <| w_db := empty_db <| tb_conversations := {[ 7%N := conversation_row ]} |> |>.

Lemma world_chat_ok : unread_ok (w_db world_chat) ∧ table_ok Conversation (w_db world_chat).
Proof.
  split; constructor.
  - intros i m. cbn. by rewrite lookup_empty.
  - intros k c. cbn. intros [<- <-]%lookup_singleton_Some _. done.
  - intros k c _. by exists 0.
  - intros i j a b. cbn. intros [<- <-]%lookup_singleton_Some [<- <-]%lookup_singleton_Some. done.
Qed.

Lemma chat_unread_exact_witness :
  ∃ w', request (mark_read 7 1) world_chat = (Ok (), w') ∧ unread_all (w_db w') 7 2 = 0.
Proof.
  destruct world_chat_ok as [H1 H2].
  destruct (proj2 (proj2 (proj2 (proj2 (proj2 (@chat_unread_exact toy_gcm app0 enc0 world_chat 7 1 H1 H2))))) conversation_row) as (w' & c' & E & _ & Hu & _).
  - vm_compute. reflexivity.
  - vm_compute. discriminate.
  - vm_compute. reflexivity.
  - exists w'. split; [exact E|]. exact Hu.
Defined.

(** Every message of the conversation decrypts. *)
Definition readable `{AesGcm} (s : AppSettings) (k : uuid) (d : db) : Prop :=
  ∀ i m, tb_messages d !! i = Some m → msg_conversation_id m = k → is_ok (decrypt_content s k (msg_content_encrypted m)) = true.

Section Delivery.
Context `{AesGcm} `{!AesGcmLaws} (s : AppSettings).

Lemma list_messages_all (k v : uuid) (c : Conversation) (limit : nat) (w : world) :
  readable s k (w_db w) → tb_conversations (w_db w) !! k = Some c → member v c = true →
  (size (tb_messages (w_db w)) ≤ limit)%nat →
  ∃ l, list_messages s k v limit None w = (Ok l, w) ∧
    ∀ i m text, tb_messages (w_db w) !! i = Some m → msg_conversation_id m = k →
      decrypt_content s k (msg_content_encrypted m) = Ok text → to_dto i m text ∈ l.
Proof.
  intros Hr Hk Hm Hlim. unfold list_messages.
  erewrite tbind_ok by (apply require_conversation_ok; split; [reflexivity|]; split; [exact Hk|exact Hm]).
  erewrite tbind_ok by (unfold on_db; cbn; destruct w; reflexivity). unfold pure.
  set (mine := filter (λ p, same (msg_conversation_id p.2) k = true) (map_to_list (tb_messages (w_db w)))).
  set (f := λ p : uuid * Message, text ← decrypt_content s k (msg_content_encrypted p.2); Ok (to_dto p.1 p.2 text)).
  assert (take limit (keyset_rows fst message_after None mine) ≡ₚ mine) as Hp.
  { unfold keyset_rows. rewrite take_ge; [apply merge_sort_Permutation|]. rewrite (Permutation_length (merge_sort_Permutation _ _)).
    unfold mine. etransitivity; [apply length_filter|]. by rewrite length_map_to_list. }
  assert (∀ p, p ∈ mine → ∃ y, f p = Ok y) as Hf.
  { intros [i m] [Hs Hi%elem_of_map_to_list]%list_elem_of_filter. apply (proj1 (same_true _ _)) in Hs.
    pose proof (Hr i m Hi Hs) as Hok. unfold f. cbn in *. destruct (decrypt_content s k (msg_content_encrypted m)) as [t|e]; [|done].
    by eexists. }
  assert (∃ l, res_map f (take limit (keyset_rows fst message_after None mine)) = Ok l) as [l El].
  { set (rows := take limit _) in *. assert (∀ p, p ∈ rows → ∃ y, f p = Ok y) as Hrows by (intros p Hin; apply Hf; by rewrite <- Hp).
    clearbody rows. clear Hp. induction rows as [|p rows IH]; [by exists []|]. destruct (Hrows p ltac:(left)) as [y Hy].
    destruct IH as [l Hl]; [intros q Hq; apply Hrows; by right|]. exists (y :: l). cbn [res_map]. rewrite Hy. cbn. by rewrite Hl. }
  assert (w <| w_db := w_db w |> = w) as Ew by (by destruct w).
  exists l. split; [f_equal; [exact El|exact Ew]|]. intros i m text Hi Hc Hd. apply res_map_ok in El.
  assert ((i, m) ∈ take limit (keyset_rows fst message_after None mine)) as Hin.
  { rewrite Hp. apply list_elem_of_filter. split; [by apply same_true|by apply elem_of_map_to_list]. }
  apply list_elem_of_lookup in Hin as [j Hj]. destruct (Forall2_lookup_l _ _ _ _ _ El Hj) as (y & Hy & Ey).
  unfold f in Ey. cbn in Ey. rewrite Hd in Ey. injection Ey as <-. by eapply list_elem_of_lookup_2.
Qed.

(** What the sender's ciphertexts decrypt to. *)
Lemma sent_decrypts (cipher : FieldCipher) (text table column e blob : string) (w w1 : world) :
  settings_cipher s = Ok cipher → seal cipher text table column e w = (Ok blob, w1) → unseal cipher blob table column e = Ok text.
Proof.
  intros Hs Hb. destruct (settings_cipher_built s cipher Hs) as (Hbuilt & _ & _).
  destruct (seal_run cipher text table column e w Hbuilt) as (key & Hkey & E). rewrite E in Hb. injection Hb as <- _.
  rewrite (unseal_sealed cipher cipher key _ text table column e e Hbuilt Hkey) by done. by rewrite decide_True.
Qed.

Lemma add_message_ok (k u : uuid) (c : Conversation) (content preview : string) (b : bool) (d : db) (x : uuid * Message) (d' : db) :
  add_message k c u content preview b d = Ok (x, d') →
  tb_messages d !! x.1 = None ∧ tb_messages d' = <[x.1 := x.2]> (tb_messages d) ∧
  x.2 = mk_Message k u MessageType.TEXT content false None (db_now d) ∧
  ∃ c', tb_conversations d' = <[k := c']> (tb_conversations d) ∧
    cv_customer_id c' = cv_customer_id c ∧ cv_courier_id c' = cv_courier_id c ∧
    cv_last_message_preview_encrypted c' = Some preview ∧
    cv_customer_unread_count c' = cv_customer_unread_count c + (if b then 0 else 1) ∧
    cv_courier_unread_count c' = cv_courier_unread_count c + (if b then 1 else 0).
Proof.
  intros E. unfold add_message in E. inv_run E. inv_writes. cbn. split; [exact Hnew|]. split; [done|]. split; [done|].
  eexists. split; [reflexivity|]. destruct b; cbn; repeat (split; [done || lia|]); done || lia.
Qed.
End Delivery.

(** Messages arrive as they were written: after a member of a conversation sent a text,
    both members list it with that text and sender, and the inbox of each
    shows its first hundred characters and the right unread count. *)
Theorem chat_message_delivered `{AesGcm} `{!AesGcmLaws} (s : AppSettings) (k u v : uuid) (text : string) (w w' : world)
    (m : ChatMessage) (c : Conversation) (limit : nat) :
  readable s k (w_db w) → send_message s k u text w = (Ok m, w') →
  tb_conversations (w_db w) !! k = Some c → cv_customer_id c ≠ cv_courier_id c → member v c = true →
  (size (tb_messages (w_db w)) < limit)%nat →
  chm_content m = text ∧ chm_sender_id m = u ∧
  (∃ l, list_messages s k v limit None w' = (Ok l, w') ∧ m ∈ l) ∧
  ∃ c' item, tb_conversations (w_db w') !! k = Some c' ∧ inbox_item s v (k, c') = Ok item ∧
    ibx_last_message_preview item = Some (String.substring 0 100 text) ∧
    ibx_unread_count item =
      (if same v (cv_customer_id c) then cv_customer_unread_count c else cv_courier_unread_count c) + (if decide (v = u) then 0 else 1).
Proof.
  intros Hread Hsend Hc Hne Hv Hlim.
  apply send_message_ok in Hsend as (c0 & cipher & w1 & w2 & content & preview & Hk & Hu & Hs & H1 & H2 & _ & [i x] & Ha & ->).
  rewrite Hc in Hk. injection Hk as <-.
  apply add_message_ok in Ha as (Hnew & Em & Ex & c' & Ec & E1 & E2 & E3 & E4 & E5). cbn [fst snd] in *.
  assert (decrypt_content s k (msg_content_encrypted x) = Ok text) as Hdec.
  { unfold decrypt_content. rewrite Hs, Ex. exact (sent_decrypts s cipher text _ _ _ _ _ _ Hs H1). }
  split; [done|]. split; [by rewrite Ex|]. split.
  - destruct (list_messages_all s k v c' limit w') as (l & El & Hl).
    + intros j y. rewrite Em. intros [[<- <-]|[_ Hy]]%lookup_insert_Some Hyk; [by rewrite Hdec|by apply (Hread j)].
    + rewrite Ec. apply lookup_insert_eq.
    + unfold member in *. by rewrite E1, E2.
    + rewrite Em, map_size_insert_None by done. lia.
    + exists l. split; [exact El|]. apply Hl; [rewrite Em; apply lookup_insert_eq|by rewrite Ex|exact Hdec].
  - exists c'. unfold inbox_item. rewrite E3. unfold decrypt_preview. rewrite Hs. cbn.
    rewrite (sent_decrypts s cipher _ _ _ _ _ _ _ Hs H2). cbn. eexists. split; [rewrite Ec; apply lookup_insert_eq|].
    split; [reflexivity|]. split; [done|]. cbn. rewrite E1, E4, E5.
    assert (∀ a b : uuid, same a b = bool_decide (a = b)) as Hsame by done. unfold member in Hu, Hv. rewrite !Hsame in *.
    repeat case_bool_decide; repeat case_decide; subst; cbn in *; try lia; try congruence.
Qed.

Lemma chat_message_delivered_witness :
  ∃ m w' l, @send_message toy_gcm app0 7 1 "on my way" world_chat = (Ok m, w') ∧
    @list_messages toy_gcm app0 7 2 5 None w' = (Ok l, w') ∧ m ∈ l.
Proof.
  set (r := @send_message toy_gcm app0 7 1 "on my way" world_chat).
  assert (r = (Ok (mk_ChatMessage 0 7 1 MessageType.TEXT "on my way" false 0), r.2)) as E by (vm_compute; reflexivity).
  destruct (@chat_message_delivered toy_gcm toy_gcm_laws app0 7 1 2 "on my way" world_chat r.2
    (mk_ChatMessage 0 7 1 MessageType.TEXT "on my way" false 0) conversation_row 5) as (_ & _ & (l & El & Hl) & _).
  - intros i m. cbn. by rewrite lookup_empty.
  - exact E.
  - vm_compute. reflexivity.
  - vm_compute. discriminate.
  - vm_compute. reflexivity.
  - vm_compute. lia.
  - exists (mk_ChatMessage 0 7 1 MessageType.TEXT "on my way" false 0), r.2, l. split; [exact E|]. split; [exact El|exact Hl].
Defined.

(** The socket checks a ban on what is sent, not on who listens: setting the flag changes nothing
    for the socket that opens, while every frame the banned user sends closes it. *)
Theorem socket_ban_checked_on_send_only `{SecurityLib} `{AesGcm} `{PushClient} (s : AppSettings) iso ty js (token raw : string)
    (k u recipient : uuid) (e : entry) (w : world) (actor : Actor) :
  let wb := put (banned_key (uuid_str u)) e w in
  (open_socket s token k wb).1 = (open_socket s token k w).1 ∧
  (w_up w = true → live (w_now w) e = true → actor_id actor = u → Z.of_nat (String.length raw) ≤ WS_MAX_FRAME_BYTES s →
   handle_frame s iso ty js k actor recipient raw wb = (Ok (SocketClosed 4401), wb)).
Proof.
  intros wb. split.
  - assert (∀ jti, redis_get (denylist_key jti) wb = ((redis_get (denylist_key jti) w).1, wb)) as Hg.
    { intros jti. unfold redis_get, command. change (w_up wb) with (w_up w). destruct (w_up w); [|done]. cbn.
      unfold wb. rewrite peek_put, decide_False by done. done. }
    assert (∀ jti, (redis_get (denylist_key jti) w).2 = w) as Hg2.
    { intros jti. unfold redis_get, command. by destruct (w_up w). }
    unfold open_socket, authenticate_ws. unfold mbind, T_bind, clock. change (w_now wb) with (w_now w).
    destruct token as [|a token]; [done|]. destruct (decode_access_token s (String a token) (w_now w)) as [c|x]; [|done].
    rewrite Hg. specialize (Hg2 (ac_jti c)). destruct (redis_get (denylist_key (ac_jti c)) w) as [[v|x] w1]; cbn in Hg2; subst w1; cbn; [|done].
    destruct (truthy v); [done|]. destruct (parse_role (ac_role c)) as [[]|]; try done;
      (destruct (parse_uuid (ac_sub c)) as [i|]; [|done]); cbn; unfold on_db; cbn;
      (destruct (conversation_for_actor k i (w_db w)) as [[o d]|x]; [|done]); by destruct o.
  - intros Hup Hl Ha Hraw. unfold handle_frame. destruct (Z.ltb_spec (WS_MAX_FRAME_BYTES s) (Z.of_nat (String.length raw))); [lia|].
    unfold check_guarded, guarded_window_lua, redis_exists, command, catch, mbind, T_bind. change (w_up wb) with (w_up w). rewrite Hup, Ha.
    unfold wb. rewrite peek_put, decide_True by done. rewrite Hl. done.
Qed.
