(* ===== verification/Sockets.v ===== *)
(** * The live sockets ([conversation_ws], [_pump_pubsub_to_socket], [_pump_socket_to_chat] of [app/routers/chat.py])

    A server is the world and its open sockets.  A socket subscribes to the channel of its conversation; of what is published on the
    channel redis hands each subscriber some events and may lose others (its delivery is at-most-once), and a task per socket
    forwards what arrived to the client, one event at a time, until it ends or fails: the socket then stays open and forwards nothing
    more.  Frames, forwarding, failures, other requests, openings and disconnections follow one another in any order. *)

From Stdlib Require Import ZArith Lia Ascii.
From stdpp Require Import base list gmap strings numbers option pretty relations.
From S2P Require Import Prelude Errors PyDecimal Money Pricing Enums OrderState Tables Database Constraints Redis RateLimit.
From S2P Require Import Ledger Users Promos Crypto Media Orders Invoices Config Fields Tokens Otp Auth Chat.
Local Open Scope Z_scope.

Abbreviation chat_event := (list (string * string)).

(** [sk_backlog]: arrived, not yet forwarded; [sk_forwarded]: sent to the client, oldest first; [sk_from]: how much had been sent
    out when the socket subscribed; [sk_lost]: how many events of the channel never arrived; [sk_reader]: the forwarding task runs. *)
Record socket := mk_socket {
  sk_conversation : uuid;
  sk_actor : Actor;
  sk_recipient : uuid;
  sk_backlog : list chat_event;
  sk_forwarded : list chat_event;
  sk_from : nat;
  sk_lost : nat;
  sk_reader : bool;
}.

Record server := mk_server { sv_world : world; sv_sockets : gmap N socket }.

(** What [out] holds for a channel. *)
Definition on_channel (channel : string) (x : outbound) : option chat_event :=
  match x with Publish c p => if same c channel then Some p else None | _ => None end.

Definition events (channel : string) (out : list outbound) : list chat_event := omap (on_channel channel) out.

(** The events that arrive: [net] says for each whether it does; those it does not mention do. *)
Fixpoint arrive {A} (net : list bool) (l : list A) : list A :=
  match net, l with
  | true :: net, x :: l => x :: arrive net l
  | false :: net, _ :: l => arrive net l
  | _, l => l
  end.

(** [PUBLISH] reaches the sockets subscribed at that moment, at most once. *)
Definition receive (net : list bool) (published : list outbound) (s : socket) : socket :=
  let sent := events (conversation_channel (sk_conversation s)) published in
  let got := arrive net sent in
  mk_socket (sk_conversation s) (sk_actor s) (sk_recipient s) (sk_backlog s ++ got) (sk_forwarded s) (sk_from s)
    (sk_lost s + (length sent - length got)) (sk_reader s).

(** The server after the world moved to [w']; [net] is what the network does for each socket. *)
Definition world_moves (net : N → list bool) (v : server) (w' : world) : server :=
  mk_server w' (map_imap (λ id s, Some (receive (net id) (drop (length (w_out (sv_world v))) (w_out w')) s)) (sv_sockets v)).

Section Live.
Context `{SecurityLib} `{AesGcm} `{PushClient} (settings : AppSettings).
Context (isoformat : instant → string) (type_name : message_type → string) (json_text : string → option string).

(** The opening of [conversation_ws]; the session only reads, and [pubsub.subscribe] needs redis. *)
Definition connect (token : string) (conversation_id : uuid) : T (Z + Actor * uuid) :=
  r ← open_socket settings token conversation_id;
  match r with
  | inl code => mret (inl code)
  | inr ar => command (λ w, (Ok (), w));; mret (inr ar)
  end.

(** The socket [id] is new when the handshake succeeds. *)
Definition accept_socket (net : N → list bool) (id : N) (token : string) (conversation_id : uuid) (v : server) : server :=
  let '(r, w') := connect token conversation_id (sv_world v) in
  let v' := world_moves net v w' in
  match r with
  | Ok (inr (actor, recipient)) =>
      mk_server w' (<[id := mk_socket conversation_id actor recipient [] [] (length (w_out w')) 0 true]> (sv_sockets v'))
  | _ => v'
  end.

(** A frame from the client: a close or an exception ends the socket and its subscription. *)
Definition take_frame (net : N → list bool) (id : N) (raw : string) (v : server) : server :=
  match sv_sockets v !! id with
  | None => v
  | Some s =>
      let '(r, w') := request (handle_frame settings isoformat type_name json_text (sk_conversation s) (sk_actor s) (sk_recipient s) raw) (sv_world v) in
      let v' := world_moves net v w' in
      match r with
      | Ok FrameDropped | Ok (FrameSent _) => v'
      | Ok (SocketClosed _) | Raise _ => mk_server w' (delete id (sv_sockets v'))
      end
  end.

(** One turn of [_pump_pubsub_to_socket], while it runs. *)
Definition forward (s : socket) : socket :=
  if sk_reader s then
    match sk_backlog s with
    | [] => s
    | p :: rest =>
        mk_socket (sk_conversation s) (sk_actor s) (sk_recipient s) rest (sk_forwarded s ++ [p]) (sk_from s) (sk_lost s) true
    end
  else s.

(** An exception of [listen], [decode] or [send_text] ends the task; nobody awaits it before the socket closes. *)
Definition reader_fails (s : socket) : socket :=
  mk_socket (sk_conversation s) (sk_actor s) (sk_recipient s) (sk_backlog s) (sk_forwarded s) (sk_from s) (sk_lost s) false.

Inductive sstep : server → server → Prop :=
  | step_accept net id token k v : sv_sockets v !! id = None → sstep v (accept_socket net id token k v)
  | step_frame net id raw v : sstep v (take_frame net id raw v)
  | step_forward id v : sstep v (mk_server (sv_world v) (alter forward id (sv_sockets v)))
  | step_reader_fails id v : sstep v (mk_server (sv_world v) (alter reader_fails id (sv_sockets v)))
  | step_disconnect id v : sstep v (mk_server (sv_world v) (delete id (sv_sockets v)))
  | step_other net w' v : w_out (sv_world v) `prefix_of` w_out w' → sstep v (world_moves net v w').

(** ** What is sent stays sent *)

Definition grows {A} (m : T A) : Prop := ∀ w, w_out w `prefix_of` w_out (m w).2.

Lemma grows_same {A} (m : T A) : (∀ w, w_out (m w).2 = w_out w) → grows m.
Proof. intros E w. by rewrite E. Qed.

Lemma grows_bind {A B} (m : T A) (k : A → T B) : grows m → (∀ a, grows (k a)) → grows (m ≫= k).
Proof.
  intros Hm Hk w. unfold mbind, T_bind. specialize (Hm w). destruct (m w) as [[a|e] w1]; [|done]. etrans; [exact Hm|apply Hk].
Qed.

Lemma grows_catch {A} (m : T A) (h : exn → T A) : grows m → (∀ e, grows (h e)) → grows (catch m h).
Proof.
  intros Hm Hk w. unfold catch. specialize (Hm w). destruct (m w) as [[a|e] w1]; [done|]. etrans; [exact Hm|apply Hk].
Qed.

Lemma grows_request {A} (m : T A) : grows m → grows (request m).
Proof. intros Hm w. unfold request. specialize (Hm (w <| w_saved := w_db w |>)). by destruct (m _) as [[a|e] w1]. Qed.

Lemma grows_on_db {A} (m : M A) : grows (on_db m).
Proof. apply grows_same. intros w. unfold on_db. by destruct (m (w_db w)) as [[a d]|e]. Qed.

Lemma grows_emit (x : outbound) : grows (emit x).
Proof. intros w. by eexists. Qed.

Lemma grows_command {A} (f : T A) : grows f → grows (command f).
Proof. intros Hf w. unfold command. by destruct (w_up w). Qed.

Lemma grows_required {A} (o : option A) (e : exn) : grows (required o e).
Proof. by destruct o; apply grows_same. Qed.

Lemma grown {A} (m : T A) (w w' : world) (r : res A) : grows m → m w = (r, w') → w_out w `prefix_of` w_out w'.
Proof. intros Hm E. specialize (Hm w). by rewrite E in Hm. Qed.

Ltac grow :=
  repeat match goal with
  | |- grows (match ?x with _ => _ end) => destruct x
  | |- grows (_ ≫= _) => apply grows_bind; [|intros ?]
  | |- grows (catch _ _) => apply grows_catch; [|intros ?]
  | |- grows (request _) => apply grows_request
  | |- grows (on_db _) => apply grows_on_db
  | |- grows (emit _) => apply grows_emit
  | |- grows (command _) => apply grows_command
  | |- grows (required _ _) => apply grows_required
  | |- grows (λ w, _) => intros w; cbn; repeat case_match; done
  | |- grows _ => by apply grows_same
  end.

Lemma grows_batches (n : nat) (tokens : list string) (title body : string) : grows (send_batches n tokens title body).
Proof. revert tokens. induction n as [|n IH]; intros [|t ts]; cbn -[take drop]; grow. apply IH. Qed.

Lemma grows_seal `{AesGcm} (c : FieldCipher) (text table column entity : string) : grows (seal c text table column entity).
Proof. unfold seal. grow. Qed.

Lemma grows_guarded (max window : Z) (identity flag : string) : grows (check_guarded max window identity flag).
Proof. unfold check_guarded, guarded_window_lua, window_lua, count_hit, redis_exists, redis_incr, redis_ttl, redis_expire. grow. Qed.

Lemma grows_send (k u : uuid) (text : string) : grows (send_message settings k u text).
Proof. unfold send_message, require_conversation, encrypt_content, encrypt_preview. grow; apply grows_seal. Qed.

Lemma grows_notify (u : uuid) (title body : string) : grows (notify_user u title body).
Proof. unfold notify_user, send_all. grow. apply grows_batches. Qed.

Lemma grows_frame (k : uuid) (actor : Actor) (recipient : uuid) (raw : string) :
  grows (handle_frame settings isoformat type_name json_text k actor recipient raw).
Proof.
  unfold handle_frame, publish_message. grow; first [apply grows_guarded|apply grows_send|apply grows_notify].
Qed.

Lemma grows_connect (token : string) (k : uuid) : grows (connect token k).
Proof. unfold connect, open_socket, authenticate_ws, redis_get. grow. Qed.

(** ** Delivery *)

Lemma arrive_sublist {A} (net : list bool) (l : list A) : arrive net l `sublist_of` l.
Proof. revert l. induction net as [|[] net IH]; intros [|x l]; cbn; try done; by constructor. Qed.

Lemma sublist_whole {A} (l k : list A) : l `sublist_of` k → length l = length k → l = k.
Proof.
  induction 1 as [|x l k _ IH|x l k Hs IH]; cbn; intros E; [done|f_equal; apply IH; lia|].
  apply sublist_length in Hs. lia.
Qed.

(** What a socket forwarded and has in its backlog is what its channel carried since it subscribed, less what was lost. *)
Definition in_order (w : world) (s : socket) : Prop :=
  let sent := events (conversation_channel (sk_conversation s)) (drop (sk_from s) (w_out w)) in
  (sk_from s ≤ length (w_out w))%nat ∧
  (sk_forwarded s ++ sk_backlog s) `sublist_of` sent ∧
  (length (sk_forwarded s ++ sk_backlog s) + sk_lost s = length sent)%nat.

Definition delivery (v : server) : Prop := map_Forall (λ _ s, in_order (sv_world v) s) (sv_sockets v).

Lemma in_order_lossless (w : world) (s : socket) : in_order w s → sk_lost s = 0%nat →
  sk_forwarded s ++ sk_backlog s = events (conversation_channel (sk_conversation s)) (drop (sk_from s) (w_out w)).
Proof. intros (_ & Hs & Hl) E. rewrite E, Nat.add_0_r in Hl. by apply sublist_whole. Qed.

Lemma receive_in_order (net : list bool) (w w' : world) (s : socket) : w_out w `prefix_of` w_out w' → in_order w s →
  in_order w' (receive net (drop (length (w_out w)) (w_out w')) s).
Proof.
  intros [l El] (Hf & Hs & Hn). unfold in_order, receive. cbn. rewrite El, drop_app_length, length_app. split; [lia|].
  rewrite drop_app_le by lia. unfold events in *. rewrite omap_app, app_assoc.
  set (es := omap _ l). pose proof (arrive_sublist net es) as Ha. split; [by apply sublist_app|].
  apply sublist_length in Ha. rewrite length_app, (length_app (omap _ _)). lia.
Qed.

Lemma world_moves_delivery (net : N → list bool) (v : server) (w' : world) :
  w_out (sv_world v) `prefix_of` w_out w' → delivery v → delivery (world_moves net v w').
Proof.
  intros Hw Hv id s. cbn. rewrite map_lookup_imap. destruct (sv_sockets v !! id) as [s0|] eqn:Hs; [|done].
  intros [= <-]. by apply receive_in_order, (Hv id).
Qed.

Lemma accept_delivery (net : N → list bool) (id : N) (token : string) (k : uuid) (v : server) :
  delivery v → delivery (accept_socket net id token k v).
Proof.
  intros Hv. unfold accept_socket. pose proof (grows_connect token k (sv_world v)) as Hg.
  destruct (connect token k (sv_world v)) as [r w']. cbn [snd] in Hg. pose proof (world_moves_delivery net v w' Hg Hv) as Hm.
  destruct r as [[code|[actor recipient]]|e]; [done| |done]. apply map_Forall_insert_2; [|done].
  unfold in_order. cbn. by rewrite drop_all.
Qed.

Lemma frame_delivery (net : N → list bool) (id : N) (raw : string) (v : server) : delivery v → delivery (take_frame net id raw v).
Proof.
  intros Hv. unfold take_frame. destruct (sv_sockets v !! id) as [s|]; [|done].
  pose proof (grows_request _ (grows_frame (sk_conversation s) (sk_actor s) (sk_recipient s) raw) (sv_world v)) as Hg.
  destruct (request _ _) as [r w']. cbn [snd] in Hg. pose proof (world_moves_delivery net v w' Hg Hv) as Hm.
  destruct r as [[| |]|]; [done|done|by apply map_Forall_delete..].
Qed.

Lemma forward_in_order (w : world) (s : socket) : in_order w s → in_order w (forward s).
Proof.
  unfold in_order, forward. destruct s as [k a r [|p l] f n lost []]; cbn; try done. by rewrite <- app_assoc.
Qed.

Lemma alter_delivery (f : socket → socket) (id : N) (v : server) :
  (∀ w s, in_order w s → in_order w (f s)) → delivery v → delivery (mk_server (sv_world v) (alter f id (sv_sockets v))).
Proof.
  intros Hf Hv j s. cbn. rewrite lookup_alter. case_decide as E; [subst|apply Hv].
  rewrite fmap_Some. intros (s0 & Hs & ->). by apply Hf, (Hv j).
Qed.

Lemma sstep_delivery (v v' : server) : sstep v v' → delivery v → delivery v'.
Proof.
  intros [net id token k u _|net id raw u|id u|id u|id u|net w' u Hw] Hu.
  - by apply accept_delivery.
  - by apply frame_delivery.
  - apply alter_delivery; [apply forward_in_order|done].
  - by apply alter_delivery.
  - by apply map_Forall_delete.
  - by apply world_moves_delivery.
Qed.

(** ** What was forwarded stays, and a failed reader forwards nothing more *)

(** [s'] is [s] a step later. *)
Definition follows (s s' : socket) : Prop :=
  sk_conversation s' = sk_conversation s ∧ sk_forwarded s `prefix_of` sk_forwarded s' ∧
  (sk_reader s = false → sk_reader s' = false ∧ sk_forwarded s' = sk_forwarded s).

Lemma follows_refl (s : socket) : follows s s.
Proof. done. Qed.

Lemma follows_receive (net : list bool) (published : list outbound) (s : socket) : follows s (receive net published s).
Proof. done. Qed.

Lemma follows_forward (s : socket) : follows s (forward s).
Proof.
  unfold follows, forward. destruct (sk_reader s) eqn:E; [|done]. destruct (sk_backlog s) as [|p l]; [done|].
  cbn. split; [done|]. split; [by eexists|done].
Qed.

Lemma world_moves_follows (net : N → list bool) (v : server) (w' : world) (id : N) (s s' : socket) :
  sv_sockets v !! id = Some s → sv_sockets (world_moves net v w') !! id = Some s' → follows s s'.
Proof. intros Hs. cbn. rewrite map_lookup_imap, Hs. intros [= <-]. apply follows_receive. Qed.

Lemma alter_follows (f : socket → socket) (m : gmap N socket) (id j : N) (s s' : socket) :
  (∀ s, follows s (f s)) → m !! j = Some s → alter f id m !! j = Some s' → follows s s'.
Proof.
  intros Hf Hs. rewrite lookup_alter. case_decide as E; [subst|]; rewrite Hs; cbn; intros [= <-]; [apply Hf|apply follows_refl].
Qed.

Lemma delete_follows (m : gmap N socket) (id j : N) (s s' : socket) :
  delete id m !! j = Some s' → (m !! j = Some s' → follows s s') → follows s s'.
Proof. intros [_ Hd]%lookup_delete_Some Hf. by apply Hf. Qed.

Lemma sstep_follows (v v' : server) (j : N) (s s' : socket) :
  sstep v v' → sv_sockets v !! j = Some s → sv_sockets v' !! j = Some s' → follows s s'.
Proof.
  intros [net id token k u Hn|net id raw u|id u|id u|id u|net w' u Hw] Hs Hs'.
  - unfold accept_socket in Hs'. destruct (connect token k (sv_world u)) as [r w'].
    destruct r as [[code|[actor recipient]]|e]; [by eapply world_moves_follows| |by eapply world_moves_follows].
    cbn [sv_sockets] in Hs'. rewrite lookup_insert_ne in Hs' by congruence. by eapply world_moves_follows.
  - unfold take_frame in Hs'. destruct (sv_sockets u !! id) as [s0|]; [|by simplify_eq; apply follows_refl].
    destruct (request _ _) as [r w']. destruct r as [[| |]|]; try (by eapply world_moves_follows);
      (eapply delete_follows; [exact Hs'|]); by eapply world_moves_follows.
  - by eapply alter_follows; [apply follows_forward|..].
  - by eapply alter_follows; [|exact Hs|exact Hs'].
  - eapply delete_follows; [exact Hs'|]. intros. by simplify_eq; apply follows_refl.
  - by eapply world_moves_follows.
Qed.

(** The caller of the handshake: a token that decodes at this time, is not on the denylist, and names the actor as a customer or a
    courier.  The ban flag is not read. *)
Definition holds_token (w : world) (token : string) (actor : Actor) (claims : AccessClaims) : Prop :=
  decode_access_token settings token (w_now w) = Ok claims ∧ parse_uuid (ac_sub claims) = Some (actor_id actor) ∧
  parse_role (ac_role claims) = Some (actor_role actor) ∧ actor_role actor ∈ [UserRole.CUSTOMER; UserRole.COURIER] ∧
  ∃ denied, redis_get (denylist_key (ac_jti claims)) w = (Ok denied, w) ∧ truthy denied = false.

(** A socket opens for a member of its conversation who presents a live access token. *)
Lemma connect_member (token : string) (k : uuid) (w w' : world) (actor : Actor) (recipient : uuid) :
  connect token k w = (Ok (inr (actor, recipient)), w') →
  ∃ c claims, tb_conversations (w_db w) !! k = Some c ∧ member (actor_id actor) c = true ∧ recipient = recipient_of (actor_id actor) c ∧
    holds_token w token actor claims.
Proof.
  unfold connect, open_socket, authenticate_ws, holds_token. intros H2. apply tbind_inv in H2 as (r & w1 & H3 & H2). apply tbind_inv in H3 as (a & w2 & Ha & Hc).
  apply tbind_inv in Ha as (now & w3 & [= <- <-] & Ha).
  destruct token as [|ch token]; [by injection Ha as <- <-; injection Hc as <- <-|].
  destruct (decode_access_token settings (String ch token) (w_now w)) as [claims|e]; [|by injection Ha as <- <-; injection Hc as <- <-].
  apply tbind_inv in Ha as (denied & w4 & Hg & Ha).
  assert (w4 = w) as -> by (unfold redis_get, command in Hg; destruct (w_up w); by injection Hg).
  assert (∀ x : T (option Actor), x = mret None → x w = (Ok a, w2) → a = None) as Hnone by (intros x -> [= <- _]; done).
  destruct a as [actor'|]; [|by injection Hc as <- <-]. destruct (truthy denied) eqn:Hden; [by injection Ha|].
  assert (∃ id role, parse_uuid (ac_sub claims) = Some id ∧ actor' = mk_Actor id role (ac_jti claims) ∧ w2 = w ∧
    parse_role (ac_role claims) = Some role ∧ role ∈ [UserRole.CUSTOMER; UserRole.COURIER]) as (id & role & Hid & -> & -> & Hrole & Hin).
  { destruct (parse_role (ac_role claims)) as [[| |]|]; try (by injection Ha);
      apply tbind_inv in Ha as (id & w5 & Hq & [= <- <-]); apply required_ok in Hq as [-> ->]; (eexists _, _; split_and!; [done..|first [by left|by right; left]]). }
  apply tbind_inv in Hc as (oc & w6 & Hd & Hc). apply on_db_ok in Hd as (d' & Hd & ->).
  apply conversation_for_actor_ok in Hd as [-> ->]. cbn [actor_id] in *.
  destruct (tb_conversations (w_db w) !! k) as [c|] eqn:Ek; [|by injection Hc as <- <-]. cbn [mbind option_bind] in Hc.
  destruct (member id c) eqn:Em; [|by injection Hc as <- <-]. injection Hc as <- <-.
  apply tbind_inv in H2 as (u & w7 & _ & [= <- <- _]). exists c, claims. do 7 (split; [done|]). by exists denied.
Qed.

(** The event of a message. *)
Definition event_of (m : ChatMessage) : chat_event :=
  [("id", uuid_str (chm_id m)); ("conversation_id", uuid_str (chm_conversation_id m));
   ("sender_id", uuid_str (chm_sender_id m)); ("message_type", type_name (chm_message_type m));
   ("content", chm_content m); ("is_read", if chm_is_read m then "true" else "false");
   ("created_at", isoformat (chm_created_at m))]%string.

(** A frame that was sent ends with the publication of its message. *)
Lemma frame_published (k : uuid) (actor : Actor) (recipient : uuid) (raw : string) (w w' : world) (m : ChatMessage) :
  handle_frame settings isoformat type_name json_text k actor recipient raw w = (Ok (FrameSent m), w') →
  ∃ l, w_out w `prefix_of` l ∧ w_out w' = l ++ [Publish (conversation_channel (chm_conversation_id m)) (event_of m)] ∧
    chm_conversation_id m = k ∧ chm_sender_id m = actor_id actor.
Proof.
  unfold handle_frame. destruct (_ <? _); [by intros [=]|]. intros E. apply tbind_inv in E as (dec & w1 & H2 & E).
  apply (grown _ _ _ _ (grows_guarded _ _ _ _)) in H2 as G1.
  destruct (blocked dec); [by injection E|]. destruct (negb (allowed dec)); [by injection E|].
  destruct (extract_text json_text raw) as [|ch text]; [by injection E|].
  apply tbind_inv in E as (dto & w2 & Hs & E). apply tbind_inv in E as ([] & w3 & [= <-] & E). apply tbind_inv in E as (n & w4 & Hn & E).
  apply tbind_inv in E as ([] & w5 & Hp & E). injection E as <- <-.
  apply (grown _ _ _ _ (grows_send _ _ _)) in Hs as G2. apply (grown _ _ _ _ (grows_notify _ _ _)) in Hn as G3.
  apply send_message_ok in Hs as (c & cipher & x1 & x2 & content & preview & _ & _ & _ & _ & _ & _ & x & Hx & ->).
  apply add_message_ok in Hx as (_ & _ & Hx & _).
  unfold publish_message, command in Hp. apply tbind_inv in Hp as ([] & w6 & Hu & [= <-]). destruct (w_up w4); [|done]. injection Hu as <-.
  exists (w_out w4). split; [etrans; [exact G1|]; etrans; [exact G2|exact G3]|]. split; [done|]. unfold to_dto. cbn. by rewrite Hx.
Qed.

Lemma request_out {A} (m : T A) (w w' : world) (a : A) : request m w = (Ok a, w') →
  ∃ w1, m (w <| w_saved := w_db w |>) = (Ok a, w1) ∧ w_out w' = w_out w1.
Proof. unfold request. destruct (m _) as [[b|e] w1]; [|done]. intros [= <- <-]. by exists w1. Qed.

(** The message of a frame is the newest event of its channel, and of every socket of the conversation that lost nothing. *)
Lemma sent_reaches_all (net : N → list bool) (v : server) (id : N) (raw : string) (s : socket) (m : ChatMessage) (w' : world) :
  delivery v → sv_sockets v !! id = Some s →
  request (handle_frame settings isoformat type_name json_text (sk_conversation s) (sk_actor s) (sk_recipient s) raw) (sv_world v) = (Ok (FrameSent m), w') →
  last (events (conversation_channel (sk_conversation s)) (w_out w')) = Some (event_of m) ∧
  ∀ id' s', sv_sockets (take_frame net id raw v) !! id' = Some s' → sk_conversation s' = sk_conversation s → sk_lost s' = 0%nat →
    last (sk_forwarded s' ++ sk_backlog s') = Some (event_of m).
Proof.
  intros Hv Hs Hr. assert (Hq := Hr). apply request_out in Hq as (w1 & Hq & Ho).
  apply frame_published in Hq as (l & Hl & El & Hc & _). apply prefix_length in Hl.
  change (w_out ((sv_world v) <| w_saved := w_db (sv_world v) |>)) with (w_out (sv_world v)) in Hl.
  assert (∀ n, (n ≤ length l)%nat →
    last (events (conversation_channel (sk_conversation s)) (drop n (w_out w'))) = Some (event_of m)) as Hlast.
  { intros n Hn. rewrite Ho, El, drop_app_le by done. unfold events. rewrite omap_app, <- Hc. cbn.
    rewrite (proj2 (same_true _ _) eq_refl). by rewrite last_snoc. }
  split; [apply (Hlast 0%nat); lia|]. intros id' s' Hs' Hk Hlost.
  pose proof (frame_delivery net id raw v Hv id' s' Hs') as Hd. apply in_order_lossless in Hd; [|done]. rewrite Hd, Hk.
  unfold take_frame in Hs' |- *. rewrite Hs, Hr in Hs' |- *. cbn in Hs' |- *. rewrite map_lookup_imap in Hs'.
  destruct (sv_sockets v !! id') as [s0|] eqn:Hs0; [|done]. injection Hs' as <-. apply Hlast.
  destruct (Hv id' s0 Hs0) as [Hf0 _]. cbn. lia.
Qed.
End Live.

(** ** Property *)

(** [C12] Live chat is ordered and for members only.  In every state the sockets can reach, whatever frames, losses, failures, other
    requests, openings and disconnections happened before: what a socket has forwarded, followed by what waits in its backlog, is the
    sequence of events published on its conversation's channel since it subscribed less the events redis lost on the way, so nothing
    is repeated, reordered or leaked from another conversation, and nothing is missing when nothing was lost; what was forwarded is
    never taken back, and once its reader task has failed an open socket forwards nothing more; a message that a member
    sends is published as the newest event of the channel and is the newest event of every open socket of the conversation that
    lost nothing, the sender's too; and a new socket belongs to a member of the
    conversation who presents a live access token, not on the denylist, of a customer or courier (the handshake reads no ban flag). *)
Theorem live_chat_ordered `{SecurityLib} `{AesGcm} `{PushClient} (settings : AppSettings) isoformat type_name json_text (w : world) (v : server) :
  rtc (sstep settings isoformat type_name json_text) (mk_server w ∅) v →
  (∀ id s, sv_sockets v !! id = Some s →
     let sent := events (conversation_channel (sk_conversation s)) (drop (sk_from s) (w_out (sv_world v))) in
     (sk_forwarded s ++ sk_backlog s) `sublist_of` sent ∧
     (length (sk_forwarded s ++ sk_backlog s) + sk_lost s = length sent)%nat ∧
     (sk_lost s = 0%nat → sk_forwarded s ++ sk_backlog s = sent)) ∧
  (∀ v' id s s', sstep settings isoformat type_name json_text v v' → sv_sockets v !! id = Some s → sv_sockets v' !! id = Some s' →
     sk_conversation s' = sk_conversation s ∧ sk_forwarded s `prefix_of` sk_forwarded s' ∧
     (sk_reader s = false → sk_reader s' = false ∧ sk_forwarded s' = sk_forwarded s)) ∧
  (∀ net id raw s m w', sv_sockets v !! id = Some s →
     request (handle_frame settings isoformat type_name json_text (sk_conversation s) (sk_actor s) (sk_recipient s) raw) (sv_world v) = (Ok (FrameSent m), w') →
     last (events (conversation_channel (sk_conversation s)) (w_out w')) = Some (event_of isoformat type_name m) ∧
     ∀ id' s', sv_sockets (take_frame settings isoformat type_name json_text net id raw v) !! id' = Some s' →
       sk_conversation s' = sk_conversation s → sk_lost s' = 0%nat →
       last (sk_forwarded s' ++ sk_backlog s') = Some (event_of isoformat type_name m)) ∧
  (∀ net id token k s, sv_sockets v !! id = None → sv_sockets (accept_socket settings net id token k v) !! id = Some s →
     sk_conversation s = k ∧ ∃ c claims, tb_conversations (w_db (sv_world v)) !! k = Some c ∧ member (actor_id (sk_actor s)) c = true ∧
       holds_token settings (sv_world v) token (sk_actor s) claims).
Proof.
  intros Hr. assert (delivery v) as Hv.
  { assert (delivery (mk_server w ∅)) as H0v by apply map_Forall_empty. revert H0v. induction Hr as [|x y z Hxy _ IH]; [done|].
    intros Hx. apply IH. by eapply sstep_delivery. }
  split; [|split; [|split]].
  - intros id s Hs. destruct (Hv id s Hs) as (Hf & Hsub & Hlen). split; [done|]. split; [done|]. by apply in_order_lossless.
  - intros v' id s s' Hst Hs Hs'. by eapply sstep_follows.
  - intros net id raw s m w' Hs Hq. by eapply sent_reaches_all.
  - intros net id token k s Hn. unfold accept_socket. destruct (connect settings token k (sv_world v)) as [r w'] eqn:E.
    destruct r as [[code|[actor recipient]]|e]; cbn; rewrite ?map_lookup_imap, ?Hn; try done.
    rewrite lookup_insert_eq. intros [= <-]. split; [done|]. apply connect_member in E as (c & claims & Hc & Hm & _ & Hd). by exists c, claims.
Qed.

(** *** Two devices in one conversation *)

Definition chat_lib : SecurityLib := {|
  sha256_hex s := "sha256:" +:+ s;
  hmac_hex v k := "hmac:" +:+ k +:+ ":" +:+ v;
  randbelow n k := Z.of_N n mod k;
  token_urlsafe n := "token-" +:+ uuid_str n;
  jwt_encode _ _ _ := "jwt-1";
  jwt_decode token _ _ _ _ _ now :=
    let claims (sub role : string) : payload :=
      {[ "sub" := CText sub; "role" := CText role; "jti" := CText sub; "exp" := CInt 3600 ]} in
    if same token "jwt-1" then Some (claims "1" "CUSTOMER") else if same token "jwt-2" then Some (claims "2" "COURIER") else None;
  jwt_pair a k k' := bool_decide (k = k')
|}%string.

Definition silent_push : PushClient := {| send_push _ _ _ := Ok () |}.

(** Customer 1 and courier 2 open a socket each; the customer sends a frame, which the courier's socket forwards, and a second one,
    which redis loses on the way to the courier. *)
Definition lossless : N → list bool := λ _, [].
Definition two_open : server :=
  accept_socket (H := chat_lib) app0 lossless 2 "jwt-2" 7 (accept_socket (H := chat_lib) app0 lossless 1 "jwt-1" 7 (mk_server world_chat ∅)).
Definition frame_in (net : N → list bool) (raw : string) : server → server :=
  take_frame (H0 := toy_gcm) (H1 := silent_push) app0 (λ _, EmptyString) (λ _, EmptyString) Some net 1 raw.
Definition one_sent : server := frame_in lossless "on my way" two_open.
Definition one_forwarded : server := mk_server (sv_world one_sent) (alter forward 2%N (sv_sockets one_sent)).
Definition one_lost : server := frame_in (λ id, if same id 2%N then [false] else []) "are you there?" one_forwarded.

Lemma live_chat_ordered_witness :
  ∃ s, sv_sockets one_lost !! 2%N = Some s ∧ length (sk_forwarded s) = 1%nat ∧ sk_backlog s = [] ∧ sk_lost s = 1%nat ∧
    let sent := events (conversation_channel 7) (drop (sk_from s) (w_out (sv_world one_lost))) in
    (sk_forwarded s ++ sk_backlog s) `sublist_of` sent ∧ (length (sk_forwarded s ++ sk_backlog s) + sk_lost s = length sent)%nat.
Proof.
  assert (rtc (sstep (H := chat_lib) (H0 := toy_gcm) (H1 := silent_push) app0 (λ _, EmptyString) (λ _, EmptyString) Some)
    (mk_server world_chat ∅) one_lost) as Hr.
  { eapply rtc_l; [apply (step_accept _ _ _ _ lossless 1%N "jwt-1" 7%N); reflexivity|].
    eapply rtc_l; [apply (step_accept _ _ _ _ lossless 2%N "jwt-2" 7%N); vm_compute; reflexivity|].
    eapply rtc_l; [apply (step_frame _ _ _ _ lossless 1%N "on my way")|]. eapply rtc_l; [apply (step_forward _ _ _ _ 2%N)|].
    apply rtc_once, step_frame. }
  pose proof (proj1 (live_chat_ordered app0 _ _ _ world_chat one_lost Hr) 2%N) as Ho.
  assert ((λ s, (length (sk_forwarded s), sk_backlog s, sk_lost s, sk_conversation s)) <$> sv_sockets one_lost !! 2%N = Some (1%nat, [], 1%nat, 7%N)) as E
    by (vm_compute; reflexivity).
  destruct (sv_sockets one_lost !! 2%N) as [s|]; [|discriminate E]. specialize (Ho s eq_refl).
  cbn in E. injection E as E1 E2 E4 E3. rewrite E3 in Ho. cbv zeta in Ho. destruct Ho as (Ho1 & Ho2 & _). by exists s.
Defined.
