(* ===== verification/Ratings.v ===== *)
(** * Ratings ([app/services/rating_service.py], [app/repositories/rating_repository.py])

    A participant of a completed order rates the other one, once. *)

From Stdlib Require Import ZArith Lia.
From stdpp Require Import base list gmap strings numbers option sorting.
From S2P Require Import Prelude Errors PyDecimal Money Pricing Enums OrderState Tables Database Constraints.
From S2P Require Import Ledger Promos Crypto Media Orders.
Open Scope Z_scope.

(** ** [RatingRepository] *)

Definition create_rating (order_id rater_id rated_user_id : uuid) (score : Z) (comment : option string) : M (uuid * Rating) :=
  now ← get_now;
  let rating := mk_Rating order_id rater_id rated_user_id score comment now in
  id ← insert_row rating;
  mret (id, rating).

Definition exists_for_rater (order_id rater_id : uuid) : M bool :=
  r ← scalar (λ _ r, same (ra_order_id r) order_id && same (ra_rater_id r) rater_id);
  mret (not_null r).

(** [(avg(score) to two places, count)]: hundredths, rounded half to even. *)
Definition summary_for_user (user_id : uuid) : M (hundredths * Z) := λ d,
  let count := map_total (λ r, if same (ra_rated_user_id r) user_id then 1 else 0) (tb_ratings d) in
  let total := map_total (λ r, if same (ra_rated_user_id r) user_id then ra_score r else 0) (tb_ratings d) in
  Ok (if count =? 0 then (0, 0) else (round_half_even (100 * total) count, count), d).

(** ** [RatingService.rate] *)

Definition rate (order_id rater_id : uuid) (score : Z) (comment : option string) : M (uuid * Rating) :=
  o ← order_for_actor order_id rater_id;
  order ← unwrap o NotFoundError;
  guard_ (negb (same (ord_status order) OrderStatus.COMPLETED)) ConflictError;;
  rated_user_id ← unwrap (if same rater_id (ord_customer_id order) then ord_courier_id order else Some (ord_customer_id order))
    ConflictError;
  seen ← exists_for_rater order_id rater_id;
  guard_ seen ConflictError;;
  create_rating order_id rater_id rated_user_id score comment.

(** ** Lemmas *)

Lemma exists_for_rater_run (oid rater : uuid) (d : db) :
  ∃ b, exists_for_rater oid rater d = Ok (b, d) ∧
    (b = true ↔ ∃ i r, tb_ratings d !! i = Some r ∧ ra_order_id r = oid ∧ ra_rater_id r = rater).
Proof.
  unfold exists_for_rater. destruct (scalar_run (λ _ r, same (ra_order_id r) oid && same (ra_rater_id r) rater) d) as (x & E & Hx).
  erewrite bind_run by exact E. eexists. split; [reflexivity|]. destruct x as [[i r]|]; cbn.
  - split; [|done]. intros _. destruct Hx as [Hl Hs]. apply andb_true_iff in Hs as [H1 H2].
    apply (proj1 (same_true _ _)) in H1, H2. by exists i, r.
  - split; [done|]. intros (i & r & Hr & <- & <-). specialize (Hx i r Hr). cbn in Hx.
    by rewrite !(proj2 (same_true _ _) eq_refl) in Hx.
Qed.

Lemma round_half_even_bounds (n d lo hi : Z) : 0 < d → 0 ≤ n → lo * d ≤ n ≤ hi * d → lo ≤ round_half_even n d ≤ hi.
Proof.
  intros Hd Hn Hb. pose proof (round_half_even_near n d Hn Hd) as Hr. split.
  - destruct (Z.le_gt_cases lo (round_half_even n d)); [done|]. exfalso. nia.
  - destruct (Z.le_gt_cases (round_half_even n d) hi); [done|]. exfalso. nia.
Qed.

Lemma map_total_le {A} (f g : A → Z) (m : gmap N A) : (∀ k x, m !! k = Some x → f x ≤ g x) → map_total f m ≤ map_total g m.
Proof.
  induction m as [|k x m Hk IH] using map_ind; [done|]. intros H. rewrite !map_total_insert_new by done.
  pose proof (H k x (lookup_insert_eq _ _ _)) as H1. assert (map_total f m ≤ map_total g m) as H2; [|lia].
  apply IH. intros k' x' Hk'. apply (H k'). rewrite lookup_insert_ne; [done|]. congruence.
Qed.

Lemma map_total_scale {A} (c : Z) (f : A → Z) (m : gmap N A) : map_total (λ x, c * f x) m = c * map_total f m.
Proof.
  induction m as [|k x m Hk IH] using map_ind; [rewrite !map_total_empty; lia|]. rewrite !map_total_insert_new by done. lia.
Qed.

Lemma summary_bounds (user : uuid) (d : db) : table_ok Rating d →
  ∃ avg n, summary_for_user user d = Ok ((avg, n), d) ∧ (0 < n → 100 ≤ avg ≤ 500).
Proof.
  intros Hd. unfold summary_for_user.
  set (count := map_total (λ r, if same (ra_rated_user_id r) user then 1 else 0) (tb_ratings d)).
  set (total := map_total (λ r, if same (ra_rated_user_id r) user then ra_score r else 0) (tb_ratings d)).
  assert (0 ≤ count ∧ count ≤ total ≤ 5 * count) as [Hc Ht].
  { assert (∀ i r, tb_ratings d !! i = Some r → 1 ≤ ra_score r ≤ 5) as Hs.
    { intros i r Hr. destruct (tk_check _ _ Hd i r Hr) as [t Hk]. cbn in Hk. unfold chk_score_range in Hk. lia. }
    split; [|split]; unfold count, total; rewrite <- ?map_total_scale.
    - etransitivity; [|apply (map_total_le (λ _, 0))]; [by rewrite map_total_zero|]. intros i r _. destruct (same _ _); lia.
    - apply map_total_le. intros i r Hr. specialize (Hs i r Hr). destruct (same _ _); lia.
    - apply map_total_le. intros i r Hr. specialize (Hs i r Hr). destruct (same _ _); lia. }
  destruct (Z.eqb_spec count 0) as [E|E]; eexists _, _; (split; [reflexivity|]); [lia|]. intros _.
  apply round_half_even_bounds; lia.
Qed.

(** Once the rater's row is there, the call conflicts. *)
Lemma rate_again (oid rater : uuid) (o : Order) (i : uuid) (r : Rating) (score : Z) (comment : option string) (d : db) :
  tb_orders d !! oid = Some o → participant rater o = true → ord_status o = OrderStatus.COMPLETED →
  tb_ratings d !! i = Some r → ra_order_id r = oid → ra_rater_id r = rater →
  rate oid rater score comment d = Raise ConflictError.
Proof.
  intros Ho Hp Hst Hi E1 E2. unfold rate. erewrite bind_run by (rewrite order_for_actor_run, Ho, Hp; reflexivity).
  erewrite bind_run by reflexivity. rewrite Hst. erewrite bind_run by reflexivity.
  destruct (if same rater (ord_customer_id o) then ord_courier_id o else Some (ord_customer_id o)) as [u|]; [|done].
  erewrite bind_run by reflexivity. destruct (exists_for_rater_run oid rater d) as (b & Eb & Hb).
  erewrite bind_run by exact Eb. rewrite (proj2 Hb) by (by exists i, r). done.
Qed.

(** ** Property *)

(** A rating is given once, about the other side, on a finished order: a successful call was made
    by a participant of a COMPLETED order, stores one row about the other participant
    with a score from 1 to 5, and every later attempt by the same rater on that order conflicts;
    the average anyone has received lies between 1.00 and 5.00. *)
Theorem rating_once (oid rater : uuid) (score : Z) (comment : option string) (d : db) (x : uuid * Rating) (d' : db) :
  table_ok Rating d → rate oid rater score comment d = Ok (x, d') →
  (∃ o, tb_orders d !! oid = Some o ∧ ord_status o = OrderStatus.COMPLETED ∧
     (rater = ord_customer_id o ∧ ord_courier_id o = Some (ra_rated_user_id x.2) ∨
      ord_courier_id o = Some rater ∧ ra_rated_user_id x.2 = ord_customer_id o) ∧
     ra_rated_user_id x.2 ≠ rater ∧ 1 ≤ score ≤ 5) ∧
  tb_ratings d !! x.1 = None ∧ d' = d <| db_next := db_next d' |> <| tb_ratings := <[x.1 := x.2]> (tb_ratings d) |> ∧
  (∀ score' comment', rate oid rater score' comment' d' = Raise ConflictError) ∧
  ∀ user, ∃ avg n, summary_for_user user d' = Ok ((avg, n), d') ∧ (0 < n → 100 ≤ avg ≤ 500).
Proof.
  intros Hd Hr. pose proof Hr as Hr0. unfold rate in Hr. 
  apply bind_ok in Hr as (o & d1 & Ho & Hr). rewrite order_for_actor_run in Ho. injection Ho as Ho <-.
  apply bind_ok in Hr as (order & d1 & [Eo ->]%unwrap_ok & Hr). subst o.
  apply bind_ok in Hr as (? & d1 & [Hst ->]%guard_ok & Hr). apply negb_false_iff, (proj1 (same_true _ _)) in Hst.
  apply bind_ok in Hr as (rated & d1 & [Erated ->]%unwrap_ok & Hr).
  destruct (exists_for_rater_run oid rater d) as (b & Eb & Hb). apply bind_ok in Hr as (b' & d1 & Eb' & Hr).
  rewrite Eb in Eb'. injection Eb' as <- <-. apply bind_ok in Hr as (? & d1 & [Hseen ->]%guard_ok & Hr).
  assert (table_ok Rating d') as Hd'.
  { assert (keeps (table_ok Rating) (create_rating oid rater rated score comment)) as K by (unfold create_rating; keeps_auto).
    exact (K _ _ _ Hd Hr). }
  destruct (tb_orders d !! oid) as [o|] eqn:Hoid; [|done]. destruct (participant rater o) eqn:Hpart; [|done]. injection Eo as ->.
  clear Hr0.
  unfold create_rating in Hr. inv_run Hr. inv_writes. cbn [fst snd] in *.
  cbn in Hchk. apply andb_true_iff in Hchk as [Hscore Hself].
  unfold chk_score_range, chk_no_self_rating in *. cbn in Hscore, Hself. apply negb_true_iff, bool_decide_eq_false in Hself.
  split; [|split; [exact Hnew|]].
  { exists order. split; [done|]. split; [done|]. split; [|split; [cbn; congruence|lia]]. cbn.
    destruct (same rater (ord_customer_id order)) eqn:Es; [left; apply (proj1 (same_true _ _)) in Es; done|right].
    injection Erated as <-. split; [|done]. unfold participant in Hpart.
    apply orb_true_iff in Hpart as [Hp|Hp]; apply (proj1 (same_true _ _)) in Hp; [|done]. subst.
    by rewrite (proj2 (same_true _ _) eq_refl) in Es. }
  split; [done|]. split; [|intros user; by apply summary_bounds].
  intros score' comment'. eapply rate_again; [exact Hoid|exact Hpart|exact Hst|cbn; apply lookup_insert_eq|reflexivity|reflexivity].
Qed.

(** A completed order between customer 1 and courier 2. *)
Definition db_rated : db :=
  empty_db <| db_next := 20%N |> <| tb_orders := {[ 3%N := order_row <| ord_customer_id := 1%N |> <| ord_courier_id := Some 2%N |>
    <| ord_status := OrderStatus.COMPLETED |> ]} |>.

Lemma rating_once_witness :
  ∃ x d', rate 3 1 5 None db_rated = Ok (x, d') ∧ rate 3 1 4 None d' = Raise ConflictError.
Proof.
  destruct (answered (rate 3 1 5 None db_rated) (20%N, mk_Rating 3 1 2 5 None 0)) as [d' E]; [vm_compute; reflexivity|].
  exists (20%N, mk_Rating 3 1 2 5 None 0), d'. split; [exact E|].
  assert (table_ok Rating db_rated) as Hd by (by apply table_ok_empty).
  destruct (rating_once 3 1 5 None db_rated _ d' Hd E) as (_ & _ & _ & H & _). apply H.
Defined.
