(* ===== verification/Receipts.v ===== *)
(** * Receipts ([app/services/receipt_service.py], [app/workers/receipts.py])

    The one email of the system: the receipt of a paid invoice.  A sweep drains the
    invoices without a receipt, each in its own transaction. *)

From Stdlib Require Import ZArith Lia.
From stdpp Require Import base list gmap strings numbers option pretty sorting.
From S2P Require Import Prelude Errors PyDecimal Money Pricing Enums OrderState Tables Database Constraints Redis RateLimit.
From S2P Require Import Ledger Users Promos Crypto Media Orders Invoices Config.
Open Scope Z_scope.

(** The transactional email provider: recipient, template, variables. *)
Class EmailClient := { send_transactional : string → string → list (string * string) → res () }.

Section Service.
Context `{EmailClient} (settings : AppSettings).
(** [datetime.isoformat]. *)
Context (isoformat : instant → string).

Definition DEFAULT_TEMPLATE_KEY : string := "invoice_paid_receipt".

Definition template_key : string :=
  match SNDR_INVOICE_PAID_TEMPLATE_KEY settings with Some (String _ _ as k) => k | _ => DEFAULT_TEMPLATE_KEY end.

Definition receipt_variables (invoice_id : uuid) (i : Invoice) : res (list (string * string)) :=
  items ← money_str (sar (inv_items_net_amount i));
  courier ← money_str (sar (inv_courier_fee_amount i));
  service ← money_str (sar (inv_service_fee_amount i));
  discount ← money_str (sar (inv_discount_amount i));
  tax ← money_str (sar (inv_tax_amount i));
  total ← money_str (sar (inv_total_amount i));
  Ok [("invoice_id", uuid_str invoice_id); ("order_id", uuid_str (inv_order_id i)); ("currency", inv_currency i);
      ("items_net_amount", items); ("courier_fee_amount", courier); ("service_fee_amount", service);
      ("discount_amount", discount); ("tax_amount", tax); ("total_amount", total);
      ("promo_code", default EmptyString (inv_promo_code_snapshot i));
      ("paid_at", match inv_paid_at i with Some t => isoformat t | None => EmptyString end)]%string.

(** The invoice awaits its receipt. *)
Definition receipt_pending (i : Invoice) : bool :=
  same (inv_status i) InvoiceStatus.PAID && negb (not_null (inv_receipt_email_sent_at i)).

(** The customer's address, if there is one. *)
Definition receipt_address (i : Invoice) : M (option string) :=
  order ← get_row (inv_order_id i);
  match order with
  | None => mret None
  | Some o =>
      customer ← get_user (ord_customer_id o);
      mret match customer with
           | Some c => match usr_email c with Some (String _ _ as e) => Some e | _ => None end
           | None => None
           end
  end.

Definition send_receipt (invoice_id : uuid) : T bool :=
  o ← on_db (lock_invoice invoice_id);
  match o with
  | None => mret false
  | Some invoice =>
      if negb (receipt_pending invoice) then mret false
      else
        address ← on_db (receipt_address invoice);
        now ← clock;
        match address with
        | None => on_db (mark_receipt_sent invoice_id invoice now);; mret false
        | Some email =>
            variables ← pure (receipt_variables invoice_id invoice);
            pure (send_transactional email template_key variables);;
            emit (Email email template_key variables);;
            on_db (mark_receipt_sent invoice_id invoice now);;
            mret true
        end
  end.

(** One session per invoice; a failure is rolled back and does not stop the sweep. *)
Fixpoint receipt_sweep (ids : list uuid) : T Z :=
  match ids with
  | [] => mret 0
  | id :: ids =>
      sent ← catch (request (send_receipt id)) (λ _, mret false);
      n ← receipt_sweep ids;
      mret ((if (sent : bool) then 1 else 0) + n)
  end.

Definition send_pending_receipts (limit : nat) : T Z :=
  pending ← on_db (list_receipt_pending limit);
  receipt_sweep (fst <$> pending).
End Service.

(** ** Lemmas *)

Section Receipt.
Context `{EmailClient} (s : AppSettings) (iso : instant → string).

Lemma uncommitted_receipt (iid : uuid) : uncommitted (send_receipt s iso iid).
Proof. unfold send_receipt, clock, emit. uncommitted_auto. Qed.

(** What one run does. *)
Inductive receipt_outcome (iid : uuid) (w : world) : res bool → world → Prop :=
  | receipt_skipped w' : w_db w' = w_db w → w_out w' = w_out w →
      (∀ i, tb_invoices (w_db w) !! iid = Some i → receipt_pending i = false) → receipt_outcome iid w (Ok false) w'
  | receipt_no_address i w' : tb_invoices (w_db w) !! iid = Some i → receipt_pending i = true →
      receipt_address i (w_db w) = Ok (None, w_db w) → w_out w' = w_out w →
      tb_invoices (w_db w') = <[iid := i <| inv_receipt_email_sent_at := Some (w_now w) |>]> (tb_invoices (w_db w)) →
      receipt_outcome iid w (Ok false) w'
  | receipt_sent i e vars w' : tb_invoices (w_db w) !! iid = Some i → receipt_pending i = true →
      receipt_address i (w_db w) = Ok (Some e, w_db w) → receipt_variables iso iid i = Ok vars →
      w_out w' = w_out w ++ [Email e (template_key s) vars] →
      tb_invoices (w_db w') = <[iid := i <| inv_receipt_email_sent_at := Some (w_now w) |>]> (tb_invoices (w_db w)) →
      receipt_outcome iid w (Ok true) w'
  | receipt_failed e w' : w_db w' = w_db w → receipt_outcome iid w (Raise e) w'.

Lemma receipt_address_run (i : Invoice) (d : db) : ∃ o, receipt_address i d = Ok (o, d).
Proof.
  unfold receipt_address. erewrite bind_run by reflexivity. destruct (rows d !! inv_order_id i) as [o|]; [|by eexists].
  erewrite bind_run by reflexivity. by eexists.
Qed.

Lemma send_receipt_outcome (iid : uuid) (w : world) :
  receipt_outcome iid w (request (send_receipt s iso iid) w).1 (request (send_receipt s iso iid) w).2.
Proof.
  set (w0 := w <| w_saved := w_db w |>). pose proof (uncommitted_receipt iid w0) as Hun.
  destruct (send_receipt s iso iid w0) as [[b|e] w1] eqn:E.
  2:{ rewrite (request_raise _ _ _ _ E). cbn. by apply receipt_failed. }
  rewrite (request_done _ _ _ _ E). cbn [fst snd]. unfold send_receipt in E.
  erewrite tbind_ok in E by (unfold on_db; cbn; reflexivity). cbn in E.
  destruct (tb_invoices (w_db w) !! iid) as [i|] eqn:Hi.
  2:{ injection E as <- <-. apply receipt_skipped; [done|done|]. intros i Hx. congruence. }
  destruct (receipt_pending i) eqn:Hp; cbn [negb] in E.
  2:{ injection E as <- <-. apply receipt_skipped; [done|done|]. intros x Hx. congruence. }
  destruct (receipt_address_run i (w_db w)) as [o Ho].
  erewrite tbind_ok in E by (unfold on_db; cbn; rewrite Ho; reflexivity). erewrite tbind_ok in E by reflexivity.
  destruct o as [email|].
  - apply tbind_inv in E as (vars & w2 & [Hv ->]%pure_ok & E). apply tbind_inv in E as (? & w2 & [Hs ->]%pure_ok & E).
    erewrite tbind_ok in E by reflexivity. apply tbind_inv in E as (? & w2 & (d2 & Hm & ->)%on_db_ok & E). injection E as <- <-.
    unfold mark_receipt_sent in Hm. inv_writes. by eapply receipt_sent.
  - apply tbind_inv in E as (? & w2 & (d2 & Hm & ->)%on_db_ok & E). injection E as <- <-.
    unfold mark_receipt_sent in Hm. inv_writes. by eapply receipt_no_address.
Qed.

(** An invoice that is not pending is skipped. *)
Lemma send_receipt_skips (iid : uuid) (i : Invoice) (w : world) :
  tb_invoices (w_db w) !! iid = Some i → receipt_pending i = false →
  (request (send_receipt s iso iid) w).1 = Ok false ∧ w_out (request (send_receipt s iso iid) w).2 = w_out w ∧
  w_db (request (send_receipt s iso iid) w).2 = w_db w.
Proof.
  intros Hi Hp. unfold request, send_receipt. erewrite tbind_ok by (unfold on_db; cbn; reflexivity). cbn. rewrite Hi, Hp. done.
Qed.

Lemma receipt_sweep_total (ids : list uuid) : ∀ w, ∃ n w', receipt_sweep s iso ids w = (Ok n, w') ∧ 0 ≤ n ≤ Z.of_nat (length ids).
Proof.
  induction ids as [|id ids IH]; intros w; [by exists 0, w|]. cbn [receipt_sweep].
  assert (∃ b w1, catch (request (send_receipt s iso id)) (λ _, mret false) w = (Ok b, w1)) as (b & w1 & E).
  { unfold catch. destruct (request (send_receipt s iso id) w) as [[b|e] w1]; by eexists _, _. }
  destruct (IH w1) as (n & w2 & E2 & Hn). eexists _, w2. split.
  - erewrite tbind_ok by exact E. erewrite tbind_ok by exact E2. reflexivity.
  - cbn [length]. destruct b; lia.
Qed.
End Receipt.

(** ** Property *)

(** A paid invoice is receipted once, and never lost: a run that answers True mailed the
    invoice's amounts to its customer exactly once and stamped it, one that answers False mailed
    nothing, one that fails leaves the invoice pending; after any run that stamped it, every later run
    mails nothing; and a sweep always finishes, whatever the mail provider does. *)
Theorem receipt_once `{EmailClient} (s : AppSettings) (iso : instant → string) (iid : uuid) (w : world) (limit : nat) :
  let r := request (send_receipt s iso iid) w in
  receipt_outcome s iso iid w r.1 r.2 ∧
  (∀ b i, r.1 = Ok b → tb_invoices (w_db w) !! iid = Some i → receipt_pending i = true → ∀ t,
     let later := request (send_receipt s iso iid) (advance t r.2).2 in
     later.1 = Ok false ∧ w_out later.2 = w_out r.2) ∧
  ∃ n w', send_pending_receipts s iso limit w = (Ok n, w') ∧ 0 ≤ n ≤ Z.of_nat limit.
Proof.
  intros r. pose proof (send_receipt_outcome s iso iid w) as Ho. fold r in Ho. split; [exact Ho|]. split.
  - intros b i Hr Hi Hp t. cbv zeta.
    assert (∃ i', tb_invoices (w_db r.2) !! iid = Some i' ∧ receipt_pending i' = false) as (i' & Hi' & Hp').
    { rewrite Hr in Ho. inversion Ho as [? ? ? Hno|? ? ? ? ? ? Et|? ? ? ? ? ? ? ? ? Et|]; subst.
      - by rewrite (Hno i Hi) in Hp.
      - eexists. rewrite Et, lookup_insert_eq. split; [done|]. unfold receipt_pending. cbn. by rewrite andb_false_r.
      - eexists. rewrite Et, lookup_insert_eq. split; [done|]. unfold receipt_pending. cbn. by rewrite andb_false_r. }
    destruct (send_receipt_skips s iso iid i' (advance t r.2).2 Hi' Hp') as (E1 & E2 & _). by split.
  - destruct (list_receipt_pending limit (w_db w)) as [[l d]|e] eqn:El; [|discriminate El].
    assert (d = w_db w ∧ (length l ≤ limit)%nat) as [-> Hl].
    { injection El as <- <-. split; [done|]. rewrite length_take. lia. }
    destruct (receipt_sweep_total s iso (fst <$> l) w) as (n & w' & E & Hn).
    exists n, w'. split; [unfold send_pending_receipts; erewrite tbind_ok; [exact E|]; unfold on_db; rewrite El; by destruct w|].
    rewrite length_fmap in Hn. lia.
Qed.

