(* ===== verification/Payments.v ===== *)
(** * Payments ([app/services/payment_service.py], [app/repositories/payment_repository.py],
      [app/integrations/streampay/base.py])

    Top-ups, paying an invoice from wallet and gateway, and the webhook that
    settles an intent.  The StreamPay client is an interface; [json.loads] is a
    function of the section (the decoded value is inspected here). *)

From Stdlib Require Import ZArith Lia Ascii.
From stdpp Require Import base list gmap strings pretty numbers option sorting.
From S2P Require Import Prelude Errors PyDecimal Money Pricing Enums OrderState Tables Database Ledger Movements Promos.
From S2P Require Import Crypto Media Orders Invoices.
Open Scope Z_scope.

(** ** [PaymentRepository] *)

Definition create_intent (user_id : uuid) (purpose : payment_purpose) (amount : dec)
    (reference_invoice_id : option uuid) (expires_at : instant) : M uuid :=
  z ← lift (numeric_12_2 amount);
  now ← get_now;
  insert_row (mk_PaymentIntent user_id purpose z "SAR" PaymentIntentStatus.NEW "STREAMPAY" None None
    reference_invoice_id expires_at None None now).

Definition attach_streampay (intent_id : uuid) (payment_link_id url : string) : M () :=
  i ← get_row intent_id;
  intent ← unwrap i NotFoundError;
  update_row intent_id
    (intent <| pin_checkout_provider := "STREAMPAY" |>
            <| pin_streampay_payment_link_id := Some payment_link_id |>
            <| pin_streampay_payment_url := Some url |>).

Definition create_topup_row (user_id wallet_id payment_intent_id : uuid) (amount : dec) : M uuid :=
  z ← lift (numeric_12_2 amount);
  now ← get_now;
  insert_row (mk_WalletTopup user_id wallet_id payment_intent_id z now).

Definition lock_intent_by_payment_link (payment_link_id : string) : M (option (uuid * PaymentIntent)) :=
  scalar (λ _ i, same (pin_streampay_payment_link_id i) (Some payment_link_id)).

Definition get_open_intent_for_invoice (invoice_id : uuid) : M (option (uuid * PaymentIntent)) :=
  scalar (λ _ i, same (pin_reference_invoice_id i) (Some invoice_id) &&
                 same (pin_status i) PaymentIntentStatus.NEW).

Definition list_expired_new (now : instant) (limit : nat) : M (list (uuid * PaymentIntent)) :=
  l ← select_rows (λ _ i, same (pin_status i) PaymentIntentStatus.NEW && (pin_expires_at i <? now));
  mret (take limit (sort_on (λ p, pin_expires_at p.2) l)).

Definition lock_intent (intent_id : uuid) : M (option PaymentIntent) := get_row intent_id.

Definition mark_expired (intent_id : uuid) (i : PaymentIntent) : M () :=
  update_row intent_id (i <| pin_status := PaymentIntentStatus.EXPIRED |>).

Definition mark_paid (intent_id : uuid) (i : PaymentIntent) (paid_at : instant) : M () :=
  update_row intent_id (i <| pin_status := PaymentIntentStatus.PAID |> <| pin_paid_at := Some paid_at |>).

(** [reason[:255]]. *)
Definition mark_failed (intent_id : uuid) (i : PaymentIntent) (reason : string) : M () :=
  update_row intent_id
    (i <| pin_status := PaymentIntentStatus.FAILED |>
       <| pin_failure_reason := Some (String.substring 0 255 reason) |>).

(** ** The gateway port *)

Record StreamPayCustomer := mk_StreamPayCustomer {
  sc_external_id : string; sc_name : string; sc_phone_number : string; sc_email : option string }.

Record StreamPayItem := mk_StreamPayItem { si_name : string; si_description : option string; si_amount : dec }.

Record StreamPayCheckout := mk_StreamPayCheckout { co_payment_link_id : string; co_payment_url : string }.

Class StreamPayClient := {
  create_payment_link : string → StreamPayCustomer → list StreamPayItem → res StreamPayCheckout;
  verify_webhook_signature : string → string → bool;
}.

(** ** Checkout items *)

Definition ONE_SAR : dec := Dec 100 (-2).

(** [f"Quantity: {q}. {d or ''}".strip()]. *)
Definition item_description (it : InvoiceItem) : string :=
  String.string_of_list_ascii (strip_spaces (String.list_ascii_of_string
    ("Quantity: " +:+ pretty (it_quantity it) +:+ ". " +:+ default EmptyString (it_description it)))).

Definition invoice_checkout_items (invoice_id : uuid) (payment_amount : dec) (invoice_items : list InvoiceItem)
    : res (list StreamPayItem) :=
  totals ← res_map (λ it, quantize_money (sar (it_line_total_amount it))) invoice_items;
  let source_total := dsum ZERO totals in
  if match invoice_items with [] => true | _ => false end || dltb payment_amount source_total ||
     existsb (λ it, dltb (sar (it_line_total_amount it)) ONE_SAR) invoice_items
  then
    Ok [mk_StreamPayItem ("SAFE-GIFT invoice " +:+ uuid_str invoice_id) (Some "Outstanding invoice balance")
          payment_amount]
  else
    let items := zip_with (λ it t, mk_StreamPayItem (it_title it) (Some (item_description it)) t)
                   invoice_items totals in
    adjustment ← quantize_money (dsub payment_amount source_total);
    if dleb ONE_SAR adjustment then
      Ok (items ++ [mk_StreamPayItem "Invoice adjustment"
                      (Some "Delivery, service fees, tax, and discounts") adjustment])
    else if dltb ZERO adjustment then
      match last items with
      | Some l =>
          a ← quantize_money (dadd (si_amount l) adjustment);
          Ok (take (length items - 1) items ++ [mk_StreamPayItem (si_name l) (si_description l) a])
      | None => Raise IndexError
      end
    else Ok items.

(** ** The webhook payload *)

Inductive json :=
  | JNull
  | JBool (b : bool)
  | JNum (text : string)  (* [str] of the decoded number *)
  | JStr (s : string)
  | JList (l : list json)
  | JObj (fields : list (string * json)).

Record WebhookEvent := mk_WebhookEvent {
  ev_payment_link_id : string;
  ev_status : string;
  ev_amount : option dec;
}.

Inductive WebhookResult := processed | already_processed | failed.

(** [d.get(k)]: in a decoded object the last occurrence of a key wins. *)
Definition obj_get (k : string) (fields : list (string * json)) : option json :=
  snd <$> last (filter (λ p, p.1 = k) fields).

Definition is_obj (j : json) : bool := match j with JObj _ => true | _ => false end.

Definition upper_string (s : string) : string := upper s.

Section Parse.
(** [repr] of a list or an object, and the JSON decoder. *)
Context (repr : json → string) (json_loads : string → option json).

Definition py_str (j : json) : string :=
  match j with
  | JNull => "None"
  | JBool true => "True"
  | JBool false => "False"
  | JNum t => t
  | JStr s => s
  | _ => repr j
  end.

(** A MoneyError is a ValueError, hence caught; InvalidOperation is not. *)
Definition parse_amount (amount : option json) : res (option dec) :=
  match amount with
  | None | Some JNull => Ok None
  | Some a =>
      match parse_money (InStr (py_str a)) with
      | Ok d => Ok (Some d)
      | Raise MoneyError => Raise ValidationDomainError
      | Raise e => Raise e
      end
  end.

Definition parse (raw_body : string) : res WebhookEvent :=
  match json_loads raw_body with
  | None => Raise ValidationDomainError
  | Some (JObj data) =>
      match default (JObj []) (obj_get "data" data) with
      | JObj details =>
          match default (JObj []) (obj_get "payment_link" details), default (JObj []) (obj_get "payment" details) with
          | JObj payment_link, JObj payment =>
              let amount :=
                match obj_get "amount" payment with
                | Some a => Some a
                | None =>
                    match default (JObj []) (obj_get "invoice" details) with
                    | JObj invoice => obj_get "amount" invoice
                    | _ => None
                    end
                end in
              let event_type := match obj_get "event_type" data with Some j => py_str j | None => EmptyString end in
              match obj_get "id" payment_link with
              | None => Raise ValidationDomainError
              | Some id =>
                  status ← (if same (upper_string event_type) "PAYMENT_SUCCEEDED" then Ok "PAID"
                            else match obj_get "status" payment with
                                 | Some s => Ok (py_str s)
                                 | None => Raise ValidationDomainError
                                 end);
                  amount ← parse_amount amount;
                  Ok (mk_WebhookEvent (py_str id) status amount)
              end
          | _, _ => Raise ValidationDomainError
          end
      | _ => Raise ValidationDomainError
      end
  | Some _ => Raise AttributeError
  end.
End Parse.

(** ** [PaymentService] *)

Record TopupResult := mk_TopupResult { tr_intent_id : uuid; tr_amount : dec; tr_payment_url : string }.

Inductive pay_status := PAY_PAID | PAY_PENDING.

Record PayResult := mk_PayResult {
  py_invoice_id : uuid;
  py_status : pay_status;
  py_amount_from_wallet : dec;
  py_amount_from_gateway : dec;
  py_payment_url : option string;
}.

Section Service.
Context `{StreamPayClient} (settings : Settings).

Definition streampay_customer (user_id : uuid) (u : User) : StreamPayCustomer :=
  mk_StreamPayCustomer (uuid_str user_id)
    match usr_full_name u with Some EmptyString | None => "SAFE-GIFT customer" | Some n => n end
    (usr_phone u) (usr_email u).

Definition create_checkout (intent_id user_id : uuid) (items : list StreamPayItem) : M StreamPayCheckout :=
  u ← get_row user_id;
  user ← unwrap u NotFoundError;
  lift (create_payment_link (uuid_str intent_id) (streampay_customer user_id user) items).

Definition expiry : M instant :=
  now ← get_now; mret (now + PAYMENT_EXPIRY_HOURS settings * 3600).

Definition create_topup (user_id : uuid) (amount : dec) : M TopupResult :=
  amount ← lift (quantize_money amount);
  guard_ (negb (dleb (MIN_TOPUP_AMOUNT settings) amount && dleb amount (MAX_TOPUP_AMOUNT settings)))
    ValidationDomainError;;
  w ← get_by_user user_id;
  wallet ← unwrap w NotFoundError;
  e ← expiry;
  intent_id ← create_intent user_id PaymentPurpose.WALLET_TOPUP amount None e;
  create_topup_row user_id wallet.1 intent_id amount;;
  checkout ← create_checkout intent_id user_id
    [mk_StreamPayItem "SAFE-GIFT wallet top-up" (Some "Wallet credit") amount];
  attach_streampay intent_id (co_payment_link_id checkout) (co_payment_url checkout);;
  mret (mk_TopupResult intent_id amount (co_payment_url checkout)).

(** [invoice], [order] are the locked rows, written back here. *)
Definition settle_invoice_record (invoice_id : uuid) (invoice : Invoice) (order : Order)
    (method : payment_method) (wallet_amount gateway_amount : dec) : M () :=
  now ← get_now;
  wa ← lift (quantize_money wallet_amount);
  ga ← lift (quantize_money gateway_amount);
  lift (assert_transition (ord_status order) OrderStatus.IN_PROGRESS);;
  wz ← lift (numeric_12_2 wa);
  gz ← lift (numeric_12_2 ga);
  update_row invoice_id
    (invoice <| inv_status := InvoiceStatus.PAID |> <| inv_paid_at := Some now |>
             <| inv_payment_method := Some method |> <| inv_amount_from_wallet := wz |>
             <| inv_amount_from_gateway := gz |>);;
  update_row (inv_order_id invoice) (order <| ord_status := OrderStatus.IN_PROGRESS |>);;
  consume invoice_id.

Definition pay_invoice (invoice_id customer_id : uuid) : M PayResult :=
  i ← invoice_for_actor invoice_id customer_id;
  p ← unwrap i NotFoundError;
  let invoice := p.2 in
  guard_ (negb (same (inv_status invoice) InvoiceStatus.ISSUED)) ConflictError;;
  now ← get_now;
  guard_ match inv_expires_at invoice with Some e => e <? now | None => false end ConflictError;;
  o ← lock_order_row (inv_order_id invoice);
  order ← unwrap o NotFoundError;
  guard_ (negb (same (ord_status order) OrderStatus.WAITING_PAYMENT)) InvalidStateTransitionError;;
  w ← get_by_user customer_id;
  wallet ← unwrap w NotFoundError;
  total ← lift (quantize_money (sar (inv_total_amount invoice)));
  available ← available_balance customer_id;
  let wallet_amount := dmin available total in
  gateway_amount ← lift (quantize_money (dsub total wallet_amount));
  if dleb gateway_amount ZERO then
    fund_escrow_for_invoice wallet.1 total ZERO invoice_id (inv_order_id invoice) None false;;
    settle_invoice_record invoice_id invoice order PaymentMethod.WALLET_ONLY total ZERO;;
    mret (mk_PayResult invoice_id PAY_PAID total ZERO None)
  else
    existing ← get_open_intent_for_invoice invoice_id;
    match (e ← existing; url ← pin_streampay_payment_url e.2; Some (e.2, url)) with
    | Some (e, url) =>
        mret (mk_PayResult invoice_id PAY_PENDING (sar (inv_amount_from_wallet invoice)) (sar (pin_amount e)) (Some url))
    | None =>
        let split := dltb ZERO wallet_amount in
        when split (hold_funds wallet.1 wallet_amount);;
        wz ← lift (numeric_12_2 wallet_amount);
        gz ← lift (numeric_12_2 gateway_amount);
        update_row invoice_id
          (invoice <| inv_amount_from_wallet := wz |> <| inv_amount_from_gateway := gz |>
                   <| inv_payment_method := Some (if split then PaymentMethod.SPLIT else PaymentMethod.GATEWAY_ONLY) |>);;
        e ← expiry;
        intent_id ← create_intent customer_id PaymentPurpose.ORDER_INVOICE gateway_amount (Some invoice_id) e;
        items ← list_items invoice_id;
        lines ← lift (invoice_checkout_items invoice_id gateway_amount (snd <$> items));
        checkout ← create_checkout intent_id customer_id lines;
        attach_streampay intent_id (co_payment_link_id checkout) (co_payment_url checkout);;
        mret (mk_PayResult invoice_id PAY_PENDING wallet_amount gateway_amount (Some (co_payment_url checkout)))
    end.

Definition settle_topup (intent_id : uuid) (intent : PaymentIntent) : M () :=
  w ← get_by_user (pin_user_id intent);
  wallet ← unwrap w NotFoundError;
  credit_topup wallet.1 (sar (pin_amount intent)) intent_id;;
  mret ().

Definition settle_invoice (intent_id : uuid) (intent : PaymentIntent) : M () :=
  invoice_id ← unwrap (pin_reference_invoice_id intent) ConflictError;
  i ← lock_invoice invoice_id;
  invoice ← unwrap i NotFoundError;
  if same (inv_status invoice) InvoiceStatus.PAID then mret ()
  else
    o ← lock_order_row (inv_order_id invoice);
    order ← unwrap o NotFoundError;
    w ← get_by_user (pin_user_id intent);
    wallet ← unwrap w NotFoundError;
    fund_escrow_for_invoice wallet.1 (sar (inv_amount_from_wallet invoice)) (sar (pin_amount intent))
      invoice_id (inv_order_id invoice) (Some intent_id) (dltb ZERO (sar (inv_amount_from_wallet invoice)));;
    settle_invoice_record invoice_id invoice order
      (default PaymentMethod.GATEWAY_ONLY (inv_payment_method invoice))
      (sar (inv_amount_from_wallet invoice)) (sar (pin_amount intent)).

Definition settle_locked (event : WebhookEvent) : M WebhookResult :=
  i ← lock_intent_by_payment_link (ev_payment_link_id event);
  p ← unwrap i NotFoundError;
  let intent := p.2 in
  if negb (same (pin_status intent) PaymentIntentStatus.NEW) then mret already_processed
  else if negb (same (upper_string (ev_status event)) "PAID") then
    mark_failed p.1 intent (ev_status event);; mret failed
  else
    mismatch ← match ev_amount event with
               | None => mret true
               | Some a =>
                   a ← lift (quantize_money a);
                   b ← lift (quantize_money (sar (pin_amount intent)));
                   mret (negb (deqb a b))
               end;
    guard_ mismatch PaymentAmountMismatchError;;
    (if same (pin_purpose intent) PaymentPurpose.WALLET_TOPUP then settle_topup p.1 intent
     else settle_invoice p.1 intent);;
    now ← get_now;
    mark_paid p.1 intent now;;
    mret processed.

Definition handle_webhook (repr : json → string) (json_loads : string → option json)
    (raw_body signature : string) : M WebhookResult :=
  guard_ (negb (verify_webhook_signature raw_body signature)) InvalidWebhookSignatureError;;
  event ← lift (parse repr json_loads raw_body);
  with_lock ("lock:webhook:" +:+ ev_payment_link_id event) (settle_locked event).
End Service.

(** ** Framing *)

Lemma keeps_open_intent P i : keeps P (get_open_intent_for_invoice i).
Proof. apply keeps_scalar. Qed.

Lemma keeps_intent_by_link P l : keeps P (lock_intent_by_payment_link l).
Proof. apply keeps_scalar. Qed.

Lemma keeps_expiry P s : keeps P (expiry s).
Proof. unfold expiry. keeps_auto. Qed.

Lemma keeps_create_checkout P `{StreamPayClient} i u items : keeps P (create_checkout i u items).
Proof. unfold create_checkout. keeps_auto. Qed.

#[export] Hint Resolve keeps_open_intent keeps_intent_by_link keeps_expiry keeps_create_checkout : giftly.

Section IntentFrame.
Context (P : db → Prop) `{!Frame P PaymentIntent} `{!FrameNext P}.

Lemma frame_create_intent u p a r e : keeps P (create_intent u p a r e).
Proof. unfold create_intent. keeps_auto. Qed.

Lemma frame_attach i l u : keeps P (attach_streampay i l u).
Proof. unfold attach_streampay. keeps_auto. Qed.

Lemma frame_mark_expired id i : keeps P (mark_expired id i).
Proof. apply keeps_update. apply _. Qed.

Lemma frame_mark_paid id i t : keeps P (mark_paid id i t).
Proof. apply keeps_update. apply _. Qed.

Lemma frame_mark_failed id i r : keeps P (mark_failed id i r).
Proof. apply keeps_update. apply _. Qed.
End IntentFrame.

#[export] Hint Resolve frame_create_intent frame_attach frame_mark_expired frame_mark_paid frame_mark_failed : giftly.

Section PayFrame.
Context `{StreamPayClient} (settings : Settings) (P : db → Prop) `{!FrameNext P}.

Lemma frame_create_topup_row `{!Frame P WalletTopup} u w i a : keeps P (create_topup_row u w i a).
Proof. unfold create_topup_row. keeps_auto. Qed.

Hint Resolve frame_create_topup_row : giftly.

(** A top-up request writes no money. *)
Lemma frame_create_topup `{!Frame P WalletTopup} `{!Frame P PaymentIntent} u a : keeps P (create_topup settings u a).
Proof. unfold create_topup. keeps_auto. Qed.

Context (Hconsume : ∀ i, keeps P (consume i)) (Hfund : ∀ cw w g i o n h, keeps P (fund_escrow_for_invoice cw w g i o n h))
  (Hhold : ∀ w a, keeps P (hold_funds w a)) (Hcredit : ∀ w a i, keeps P (credit_topup w a i)).
Context `{!Frame P Invoice} `{!Frame P Order} `{!Frame P PaymentIntent}.

Lemma frame_settle_record i inv o m w g : keeps P (settle_invoice_record i inv o m w g).
Proof. unfold settle_invoice_record. keeps_auto. Qed.

Hint Resolve frame_settle_record : giftly.

Lemma frame_pay_invoice i c : keeps P (pay_invoice settings i c).
Proof. unfold pay_invoice. keeps_auto. Qed.

Lemma frame_settle_topup i n : keeps P (settle_topup i n).
Proof. unfold settle_topup. keeps_auto. Qed.

Lemma frame_settle_invoice i n : keeps P (settle_invoice i n).
Proof. unfold settle_invoice. keeps_auto. Qed.

Hint Resolve frame_settle_topup frame_settle_invoice : giftly.

Lemma frame_handle_webhook repr loads body sg : keeps P (handle_webhook repr loads body sg).
Proof.
  unfold handle_webhook, settle_locked. keeps_auto. apply keeps_with_lock. keeps_auto.
Qed.
End PayFrame.

Lemma keeps_ledger_pay `{StreamPayClient} s i c : keeps ledger_ok (pay_invoice s i c).
Proof. apply frame_pay_invoice; auto with giftly typeclass_instances. Qed.

Lemma keeps_ledger_webhook `{StreamPayClient} repr loads body sg : keeps ledger_ok (handle_webhook repr loads body sg).
Proof. apply frame_handle_webhook; auto with giftly typeclass_instances. Qed.

Lemma keeps_promo_pay `{StreamPayClient} s i c : keeps promo_ok (pay_invoice s i c).
Proof. apply frame_pay_invoice; auto with giftly typeclass_instances. Qed.

Lemma keeps_promo_webhook `{StreamPayClient} repr loads body sg : keeps promo_ok (handle_webhook repr loads body sg).
Proof. apply frame_handle_webhook; auto with giftly typeclass_instances. Qed.

(** ** Settlement of an invoice *)

Definition paid_invoice_row (i : Invoice) (now : instant) (method : payment_method) (wz gz : Z) : Invoice :=
  i <| inv_status := InvoiceStatus.PAID |> <| inv_paid_at := Some now |> <| inv_payment_method := Some method |>
    <| inv_amount_from_wallet := wz |> <| inv_amount_from_gateway := gz |>.

Lemma settle_invoice_record_ok (iid : uuid) (i : Invoice) (o : Order) (method : payment_method) (wz gz : Z)
    (d : db) (u : ()) (d' : db) :
  Z.abs wz < 10 ^ 12 → Z.abs gz < 10 ^ 12 →
  settle_invoice_record iid i o method (sar wz) (sar gz) d = Ok (u, d') →
  order_step (ord_status o) OrderStatus.IN_PROGRESS ∧
  tb_invoices d' = <[iid := paid_invoice_row i (db_now d) method wz gz]> (tb_invoices d) ∧
  tb_orders d' = <[inv_order_id i := o <| ord_status := OrderStatus.IN_PROGRESS |>]> (tb_orders d) ∧
  tb_wallets d' = tb_wallets d ∧ tb_transactions d' = tb_transactions d ∧
  tb_payment_intents d' = tb_payment_intents d.
Proof.
  intros Hw Hg Hr. unfold settle_invoice_record in Hr. erewrite bind_run in Hr by reflexivity.
  rewrite !quantize_money_sar in Hr by (unfold small; lia). do 2 erewrite bind_run in Hr by reflexivity.
  apply bind_ok in Hr as (u0 & d0 & [Hs%assert_transition_ok ->]%lift_ok & Hr).
  rewrite !numeric_sar in Hr by lia. do 2 erewrite bind_run in Hr by reflexivity. inv_run Hr. inv_writes.
  same_after tb_invoices Hr. same_after tb_orders Hr. same_after tb_wallets Hr. same_after tb_transactions Hr.
  same_after tb_payment_intents Hr. done.
Qed.

(** An invoice as stored: in range and non-negative. *)
Definition invoice_range (i : Invoice) : Prop :=
  0 ≤ inv_total_amount i < 10 ^ 12 ∧ 0 ≤ inv_amount_from_wallet i < 10 ^ 12 ∧ 0 ≤ inv_amount_from_gateway i < 10 ^ 12.

Lemma invoice_for_actor_ok (iid actor : uuid) (d : db) (x : option (uuid * Invoice)) (d' : db) :
  invoice_for_actor iid actor d = Ok (x, d') →
  d' = d ∧ match x with
           | Some (k, i) => k = iid ∧ tb_invoices d !! iid = Some i ∧
               ∃ o, tb_orders d !! inv_order_id i = Some o ∧ participant actor o = true
           | None => True
           end.
Proof.
  unfold invoice_for_actor. intros Hr. assert (Hr' := Hr). apply scalar_ok in Hr' as [-> _]. split; [done|].
  destruct x as [[k i]|]; [|done]. apply scalar_some in Hr as [Hl [Hs Ha]%andb_true_iff].
  apply (proj1 (same_true _ _)) in Hs as ->. unfold actor_of_invoice in Ha.
  destruct (tb_orders d !! inv_order_id i) as [o|] eqn:Ho; [|done]. split; [done|]. split; [done|]. by exists o.
Qed.

Section PayOk.
Context `{StreamPayClient} (s : Settings).

(** The two outcomes of [pay_invoice]: settled from the wallet, or pending at the gateway. *)
Lemma pay_invoice_ok (iid cid : uuid) (d : db) (r : PayResult) (d' : db) :
  pay_invoice s iid cid d = Ok (r, d') →
  ∃ i o cw w total available,
    tb_invoices d !! iid = Some i ∧ inv_status i = InvoiceStatus.ISSUED ∧
    tb_orders d !! inv_order_id i = Some o ∧ ord_status o = OrderStatus.WAITING_PAYMENT ∧
    tb_wallets d !! cw = Some w ∧ w_user_id w = Some cid ∧
    quantize_money (sar (inv_total_amount i)) = Ok total ∧
    available_balance cid d = Ok (available, d) ∧
    ((py_status r = PAY_PAID ∧ ∃ g b d1 u,
        quantize_money (dsub total (dmin available total)) = Ok g ∧ dleb g ZERO = true ∧
        fund_escrow_for_invoice cw total ZERO iid (inv_order_id i) None false d = Ok (b, d1) ∧
        settle_invoice_record iid i o PaymentMethod.WALLET_ONLY total ZERO d1 = Ok (u, d')) ∨
     (py_status r = PAY_PENDING ∧ tb_orders d' = tb_orders d)).
Proof.
  intros Hr. unfold pay_invoice, lock_order_row in Hr.
  apply bind_ok in Hr as (x & d0 & [-> Hx]%invoice_for_actor_ok & Hr).
  apply bind_ok in Hr as ([k i] & d0 & [-> ->]%unwrap_ok & Hr). destruct Hx as (-> & Hi & _).
  apply bind_ok in Hr as (? & d0 & [Hst ->]%guard_ok & Hr). erewrite bind_run in Hr by reflexivity.
  apply bind_ok in Hr as (? & d0 & [_ ->]%guard_ok & Hr). erewrite bind_run in Hr by reflexivity.
  apply bind_ok in Hr as (o & d0 & [Ho ->]%unwrap_ok & Hr).
  apply bind_ok in Hr as (? & d0 & [Hos ->]%guard_ok & Hr).
  apply bind_ok in Hr as (wo & d0 & [-> Hw]%get_by_user_ok & Hr).
  apply bind_ok in Hr as ([cw w] & d0 & [-> ->]%unwrap_ok & Hr). destruct Hw as [Hw Hu].
  apply bind_ok in Hr as (total & d0 & [Htot ->]%lift_ok & Hr).
  apply bind_ok in Hr as (available & d0 & Hav & Hr).
  assert (d0 = d) as -> by (by same_after (λ x : db, x) Hav).
  apply bind_ok in Hr as (gw & d0 & [Hgw ->]%lift_ok & Hr).
  rewrite negb_false_iff in Hst, Hos. apply (proj1 (same_true _ _)) in Hst, Hos.
  exists i, o, cw, w, total, available. repeat (split; [done|]).
  destruct (dleb gw ZERO) eqn:Hle.
  - left. inv_run Hr. split; [done|]. eauto 8.
  - right. apply bind_ok in Hr as (ex & d0 & Hex & Hr). same_after tb_orders Hex.
    same_after tb_orders Hr. split; [|congruence].
    destruct (_ ≫= _) as [[e url]|]; [by injection Hr as <- _|]. by inv_run Hr.
Qed.

Lemma available_balance_ok (cid cw : uuid) (w : Wallet) (d : db) (a : dec) :
  ledger_ok d → tb_wallets d !! cw = Some w → w_user_id w = Some cid → available_balance cid d = Ok (a, d) →
  a = sar (w_balance w - w_held_balance w).
Proof.
  intros Hd Hw Hu Hr. unfold available_balance in Hr.
  apply bind_ok in Hr as (x & d0 & [-> Hx]%get_by_user_ok & Hr). destruct x as [[k w']|].
  2:{ by destruct (Hx _ _ Hw). }
  destruct Hx as [Hk Hu']. cbn in Hk, Hu'. assert (k = cw ∧ w' = w) as [-> ->].
  { destruct (decide (k = cw)) as [->|Hne]; [split; [done|congruence]|].
    pose proof (lk_wunique _ Hd _ _ _ _ Hk Hw Hne) as Hc. unfold conflicts_wallets in Hc.
    rewrite Hu, Hu' in Hc. unfold same_some, same in Hc. by rewrite bool_decide_eq_true_2 in Hc. }
  apply lift_ok in Hr as [Hq _]. destruct (lk_range _ Hd _ _ Hw) as (Hb & Hh & _).
  rewrite dsub_sar, quantize_money_sar in Hq by (unfold small; lia). by injection Hq as <-.
Qed.

Lemma available_balance_run (cid cw : uuid) (w : Wallet) (d : db) :
  ledger_ok d → tb_wallets d !! cw = Some w → w_user_id w = Some cid →
  available_balance cid d = Ok (sar (w_balance w - w_held_balance w), d).
Proof.
  intros Hd Hw Hu. assert (∃ a, available_balance cid d = Ok (a, d)) as [a E].
  { unfold available_balance, get_by_user. destruct (scalar_run (λ _ x, same (w_user_id x) (Some cid)) d) as (o & E & Ho).
    erewrite bind_run by exact E. destruct o as [[k y]|]; [|by exists ZERO]. destruct Ho as [Hy _].
    destruct (lk_range _ Hd _ _ Hy) as (Hb & Hh & _). rewrite dsub_sar, quantize_money_sar by (unfold small; lia). by eexists. }
  rewrite E. by rewrite (available_balance_ok cid cw w d a Hd Hw Hu E).
Qed.
End PayOk.

(** ** What payments do to the orders *)

Lemma settle_record_evolve (iid : uuid) (i : Invoice) (o : Order) (method : payment_method) (wa ga : dec)
    (d : db) (u : ()) (d' : db) :
  tb_orders d !! inv_order_id i = Some o → settle_invoice_record iid i o method wa ga d = Ok (u, d') → orders_evolve d d'.
Proof.
  intros Ho Hr. unfold settle_invoice_record in Hr. inv_run Hr. inv_writes. same_after tb_orders Hr.
  match goal with E : assert_transition _ _ = Ok _ |- _ => apply assert_transition_ok in E end.
  by eapply evolve_move; [exact Ho|..|exact K].
Qed.

Lemma pay_invoice_evolve `{StreamPayClient} (s : Settings) (iid cid : uuid) (d : db) (r : PayResult) (d' : db) :
  pay_invoice s iid cid d = Ok (r, d') → orders_evolve d d'.
Proof.
  intros Hr. apply pay_invoice_ok in Hr as (i & o & cw & w & total & av & _ & _ & Ho & _ & _ & _ & _ & _
    & [(_ & g & b & d1 & u & _ & _ & Hf & Hs)|[_ E]]); [|by apply evolve_same].
  same_after tb_orders Hf. transitivity d1; [by apply evolve_same|]. rewrite <- K in Ho. by eapply settle_record_evolve.
Qed.

Lemma settle_invoice_evolve (k : uuid) (i : PaymentIntent) (d : db) (u : ()) (d' : db) :
  settle_invoice k i d = Ok (u, d') → orders_evolve d d'.
Proof.
  intros Hr. unfold settle_invoice, lock_invoice, lock_order_row in Hr.
  apply bind_ok in Hr as (iid & d0 & [_ ->]%unwrap_ok & Hr). erewrite bind_run in Hr by reflexivity.
  apply bind_ok in Hr as (inv & d0 & [_ ->]%unwrap_ok & Hr).
  destruct (same _ _); [injection Hr as _ <-; reflexivity|]. erewrite bind_run in Hr by reflexivity.
  apply bind_ok in Hr as (o & d0 & [Ho ->]%unwrap_ok & Hr).
  apply bind_ok in Hr as (x & d0 & [-> _]%get_by_user_ok & Hr).
  apply bind_ok in Hr as (p & d0 & [_ ->]%unwrap_ok & Hr).
  apply bind_ok in Hr as (b & d1 & Hf & Hr). same_after tb_orders Hf.
  transitivity d1; [by apply evolve_same|]. cbn in Ho. rewrite <- K in Ho. by eapply settle_record_evolve.
Qed.

(** ** Properties *)

(** [C5] Paying an invoice from the wallet is one atomic settlement: it uses only
    funds that are not on hold, moves exactly the invoice total from the customer's
    wallet to escrow and nothing anywhere else, keeps every hold, and leaves the
    invoice PAID and the order IN_PROGRESS. *)
Theorem pay_from_wallet_effect `{StreamPayClient} (s : Settings) (iid cid : uuid) (d : db) (r : PayResult) (d' : db) :
  ledger_ok d → (∀ i, tb_invoices d !! iid = Some i → invoice_range i) → ¬ key_used d (escrow_key iid) →
  pay_invoice s iid cid d = Ok (r, d') → py_status r = PAY_PAID →
  ∃ i o cw ew,
    tb_invoices d !! iid = Some i ∧ inv_status i = InvoiceStatus.ISSUED ∧
    tb_orders d !! inv_order_id i = Some o ∧ ord_status o = OrderStatus.WAITING_PAYMENT ∧
    user_wallet d cid cw ∧ system_wallet d WalletType.SYSTEM_ESCROW ew ∧
    inv_total_amount i ≤ bal d cw - held d cw ∧
    moved d d' [(cw, - inv_total_amount i); (ew, inv_total_amount i)] ∧ (∀ k, held d' k = held d k) ∧
    key_used d' (escrow_key iid) ∧
    tb_invoices d' = <[iid := paid_invoice_row i (db_now d) PaymentMethod.WALLET_ONLY (inv_total_amount i) 0]> (tb_invoices d) ∧
    tb_orders d' = <[inv_order_id i := o <| ord_status := OrderStatus.IN_PROGRESS |>]> (tb_orders d).
Proof.
  intros Hd Hrange Hkey Hr Hpaid.
  apply pay_invoice_ok in Hr as (i & o & cw & w & total & av & Hi & Hst & Ho & Hos & Hw & Hu & Htot & Hav
    & [(_ & g & b & d1 & u & Hg & Hg0 & Hfund & Hset)|[Hp _]]); [|congruence].
  destruct (Hrange i Hi) as (Hti & _). rewrite quantize_money_sar in Htot by (unfold small; lia). injection Htot as <-.
  pose proof (available_balance_ok _ _ _ _ _ Hd Hw Hu Hav) as ->.
  destruct (lk_range _ Hd _ _ Hw) as (Hb & Hh & _). change ZERO with (sar 0) in *.
  rewrite dmin_sar, dsub_sar, quantize_money_sar in Hg by (unfold small; lia). injection Hg as <-.
  rewrite dleb_sar, Z.leb_le in Hg0.
  destruct (fund_transferred d Hd cw (inv_total_amount i) 0 iid (inv_order_id i) None false b d1)
    as (ew & gw & He & _ & Ht & Hheld); [lia|lia|done|].
  destruct b; [|by destruct Ht]. destruct Ht as (_ & Hk & Hm). cbn in Hheld.
  apply settle_invoice_record_ok in Hset as (_ & Einv & Eord & Ew & Et & _); [|lia..].
  assert (tb_invoices d1 = tb_invoices d ∧ tb_orders d1 = tb_orders d ∧ db_now d1 = db_now d) as (E1 & E2 & E3).
  { same_after tb_invoices Hfund. same_after tb_orders Hfund. same_after db_now Hfund. done. }
  rewrite E1, E3 in Einv. rewrite E2 in Eord.
  exists i, o, cw, ew. do 4 (split; [done|]). split; [by exists w|]. split; [done|].
  split; [unfold bal, held; rewrite Hw; cbn; lia|]. split; [|split; [|split; [|done]]].
  - intros k. unfold bal at 1. rewrite Ew. fold (bal d1 k). rewrite (Hm k), !delta_cons. cbn.
    repeat destruct (same _ _); lia.
  - intros k. unfold held at 1. rewrite Ew. fold (held d1 k). rewrite Hheld, andb_false_r. done.
  - unfold key_used. by rewrite Et.
Qed.

(** A priced invoice (40) of order 50 waiting for its payment of 144.90. *)
Definition invoice_issued : Invoice :=
  mk_Invoice 50 71 InvoiceStatus.ISSUED "SAR" 10000 2000 600 0 12600 1890 14490 None None None 0 0 None
    (Some 86400) (Some 0) None None 0.

Definition db_waiting : db :=
  db_assigned
  <| tb_orders := {[ 50%N := order_assigned <| ord_status := OrderStatus.WAITING_PAYMENT |> <| ord_total_amount := 14490 |> ]} |>
  <| tb_invoices := {[ 40%N := invoice_issued ]} |>.

Lemma ledger_ok_waiting : ledger_ok db_waiting.
Proof. by apply (ledger_frame db0), ledger_ok_db0. Qed.

(** A gateway that accepts every checkout; the only valid signature is "ok". *)
Definition gateway0 : StreamPayClient := {|
  create_payment_link ref customer items := Ok (mk_StreamPayCheckout ("pl_" +:+ ref) "https://pay.example");
  verify_webhook_signature body sg := same sg "ok"%string |}.

Lemma escrow_unused_waiting : ¬ key_used db_waiting (escrow_key 40).
Proof. intros (tid & t & Ht & Hk). enum_lookup Ht; discriminate Hk. Qed.

Lemma pay_from_wallet_effect_witness :
  ∃ r d', @pay_invoice gateway0 settings0 40 70 db_waiting = Ok (r, d') ∧
    ∃ i o cw ew,
      tb_invoices db_waiting !! 40%N = Some i ∧ inv_status i = InvoiceStatus.ISSUED ∧
      tb_orders db_waiting !! inv_order_id i = Some o ∧ ord_status o = OrderStatus.WAITING_PAYMENT ∧
      user_wallet db_waiting 70 cw ∧ system_wallet db_waiting WalletType.SYSTEM_ESCROW ew ∧
      inv_total_amount i ≤ bal db_waiting cw - held db_waiting cw ∧
      moved db_waiting d' [(cw, - inv_total_amount i); (ew, inv_total_amount i)] ∧ (∀ k, held d' k = held db_waiting k) ∧
      key_used d' (escrow_key 40) ∧
      tb_invoices d' = <[40%N := paid_invoice_row i (db_now db_waiting) PaymentMethod.WALLET_ONLY (inv_total_amount i) 0]>
        (tb_invoices db_waiting) ∧
      tb_orders d' = <[inv_order_id i := o <| ord_status := OrderStatus.IN_PROGRESS |>]> (tb_orders db_waiting).
Proof.
  destruct (answered (@pay_invoice gateway0 settings0 40 70 db_waiting)
              (mk_PayResult 40 PAY_PAID (sar 14490) ZERO None)) as [d' E]; [vm_compute; reflexivity|].
  eexists _, d'. split; [exact E|].
  apply (@pay_from_wallet_effect gateway0 settings0 40 70 db_waiting (mk_PayResult 40 PAY_PAID (sar 14490) ZERO None) d');
    [apply ledger_ok_waiting| |apply escrow_unused_waiting|exact E|reflexivity].
  intros i Hi. vm_compute in Hi. injection Hi as <-. unfold invoice_range. cbn. lia.
Defined.

(** ** The webhook *)

Definition intents_unique (d : db) : Prop :=
  ∀ i j a b, tb_payment_intents d !! i = Some a → tb_payment_intents d !! j = Some b → i ≠ j →
    conflicts_payment_intents a b = false.

Lemma intent_by_link_ok (link : string) (d : db) (x : option (uuid * PaymentIntent)) (d' : db) :
  lock_intent_by_payment_link link d = Ok (x, d') →
  d' = d ∧ match x with
           | Some (k, i) => tb_payment_intents d !! k = Some i ∧ pin_streampay_payment_link_id i = Some link
           | None => True
           end.
Proof.
  unfold lock_intent_by_payment_link. intros Hr. assert (Hr' := Hr). apply scalar_ok in Hr' as [-> _]. split; [done|].
  destruct x as [[k i]|]; [|done]. apply scalar_some in Hr as [Hl Hs]. by apply (proj1 (same_true _ _)) in Hs.
Qed.

Lemma intent_by_link_run (link : string) (k : uuid) (i : PaymentIntent) (d : db) :
  intents_unique d → tb_payment_intents d !! k = Some i → pin_streampay_payment_link_id i = Some link →
  lock_intent_by_payment_link link d = Ok (Some (k, i), d).
Proof.
  intros Hu Hk Hl. unfold lock_intent_by_payment_link.
  destruct (scalar_run (λ _ i, same (pin_streampay_payment_link_id i) (Some link)) d) as (x & -> & Hx).
  destruct x as [[k' i']|].
  - destruct Hx as [Hk' Hs]. apply (proj1 (same_true _ _)) in Hs. cbn in Hk'.
    destruct (decide (k = k')) as [<-|Hne]; [congruence|].
    pose proof (Hu _ _ _ _ Hk Hk' Hne) as Hc. unfold conflicts_payment_intents in Hc. rewrite Hl, Hs in Hc.
    unfold same_some, same in Hc. by rewrite bool_decide_eq_true_2 in Hc.
  - specialize (Hx _ _ Hk). by rewrite (proj2 (same_true _ _)) in Hx.
Qed.

Lemma link_unique (d : db) (link : string) (k k' : uuid) (i i' : PaymentIntent) :
  intents_unique d → tb_payment_intents d !! k = Some i → pin_streampay_payment_link_id i = Some link →
  tb_payment_intents d !! k' = Some i' → pin_streampay_payment_link_id i' = Some link → k' = k.
Proof.
  intros Hu Hk Hl Hk' Hl'. pose proof (intent_by_link_run link k i d Hu Hk Hl) as E.
  rewrite (intent_by_link_run link k' i' d Hu Hk' Hl') in E. by injection E.
Qed.

(** Closing an intent: same link, no longer NEW. *)
Definition closes (i i' : PaymentIntent) : Prop :=
  pin_streampay_payment_link_id i' = pin_streampay_payment_link_id i ∧ pin_status i' ≠ PaymentIntentStatus.NEW.

Lemma settle_locked_ok (ev : WebhookEvent) (d : db) (r : WebhookResult) (d' : db) :
  settle_locked ev d = Ok (r, d') →
  ∃ k i, tb_payment_intents d !! k = Some i ∧ pin_streampay_payment_link_id i = Some (ev_payment_link_id ev) ∧
    ((pin_status i ≠ PaymentIntentStatus.NEW ∧ r = already_processed ∧ d' = d) ∨
     (pin_status i = PaymentIntentStatus.NEW ∧ r = failed ∧ upper_string (ev_status ev) ≠ "PAID"%string ∧
      d' = d <| tb_payment_intents := <[k := i <| pin_status := PaymentIntentStatus.FAILED |>
             <| pin_failure_reason := Some (String.substring 0 255 (ev_status ev)) |>]> (tb_payment_intents d) |>) ∨
     (pin_status i = PaymentIntentStatus.NEW ∧ r = processed ∧ upper_string (ev_status ev) = "PAID"%string ∧
      (∃ a q, ev_amount ev = Some a ∧ quantize_money a = Ok q ∧ quantize_money (sar (pin_amount i)) = Ok q) ∧
      ∃ u d1,
        (if same (pin_purpose i) PaymentPurpose.WALLET_TOPUP then settle_topup k i else settle_invoice k i) d = Ok (u, d1) ∧
        d' = d1 <| tb_payment_intents := <[k := i <| pin_status := PaymentIntentStatus.PAID |>
             <| pin_paid_at := Some (db_now d1) |>]> (tb_payment_intents d1) |>)).
Proof.
  intros Hr. unfold settle_locked in Hr. apply bind_ok in Hr as (x & d0 & [-> Hx]%intent_by_link_ok & Hr).
  apply bind_ok in Hr as ([k i] & d0 & [-> ->]%unwrap_ok & Hr). destruct Hx as [Hk Hl]. cbn [fst snd] in Hr.
  exists k, i. split; [done|]. split; [done|].
  destruct (same (pin_status i) PaymentIntentStatus.NEW) eqn:Es; cbn in Hr.
  2:{ left. apply bool_decide_eq_false in Es. by injection Hr as <- <-. }
  right. apply (proj1 (same_true _ _)) in Es.
  destruct (same (upper_string (ev_status ev)) "PAID"%string) eqn:Ep; cbn in Hr.
  - right. apply (proj1 (same_true _ _)) in Ep. apply bind_ok in Hr as (mm & d0 & Hmm & Hr).
    destruct (ev_amount ev) as [a|].
    2:{ injection Hmm as <- <-. apply bind_ok in Hr as (? & ? & [? _]%guard_ok & _). done. }
    inv_run Hmm. apply bind_ok in Hr as (? & d2 & [Hg ->]%guard_ok & Hr).
    apply bind_ok in Hr as (u & d1 & Hs & Hr). unfold mark_paid in Hr. inv_run Hr. inv_writes.
    split; [done|]. split; [done|]. split; [done|]. split; [|by eexists u, _].
    apply negb_false_iff in Hg.
    destruct (quantize_money_ok_inv _ _ E) as (z1 & -> & _), (quantize_money_ok_inv _ _ E0) as (z2 & -> & _).
    rewrite deqb_sar, Z.eqb_eq in Hg. subst z2. by exists a, (sar z1).
  - left. apply bool_decide_eq_false in Ep. unfold mark_failed in Hr. inv_run Hr. inv_writes. done.
Qed.

Lemma settle_intents (k : uuid) (i : PaymentIntent) (d : db) (u : ()) (d' : db) :
  (if same (pin_purpose i) PaymentPurpose.WALLET_TOPUP then settle_topup k i else settle_invoice k i) d = Ok (u, d') →
  tb_payment_intents d' = tb_payment_intents d.
Proof.
  intros Hr. unfold settle_topup, settle_invoice, settle_invoice_record in Hr. same_after tb_payment_intents Hr. done.
Qed.

Lemma unique_closed (d : db) (k : uuid) (i i' : PaymentIntent) (d' : db) :
  intents_unique d → tb_payment_intents d !! k = Some i → closes i i' →
  tb_payment_intents d' = <[k := i']> (tb_payment_intents d) → intents_unique d'.
Proof.
  intros Hu Hk [El _] E a b x y. rewrite E.
  assert (∀ z, conflicts_payment_intents i' z = conflicts_payment_intents i z) as C1
    by (intros z; unfold conflicts_payment_intents; by rewrite El).
  assert (∀ z, conflicts_payment_intents z i' = conflicts_payment_intents z i) as C2
    by (intros z; unfold conflicts_payment_intents; by rewrite El).
  intros [[<- <-]|[Ha Hx]]%lookup_insert_Some [[<- <-]|[Hb Hy]]%lookup_insert_Some Hab; rewrite ?C1, ?C2; [done|..];
    by eapply Hu.
Qed.

Lemma handle_webhook_ok `{StreamPayClient} repr loads (body sg : string) (d : db) (r : WebhookResult) (d' : db) :
  handle_webhook repr loads body sg d = Ok (r, d') ↔
  verify_webhook_signature body sg = true ∧ ∃ ev, parse repr loads body = Ok ev ∧
    lock_free ("lock:webhook:" +:+ ev_payment_link_id ev)%string d ∧ settle_locked ev d = Ok (r, d').
Proof.
  unfold handle_webhook. split.
  - intros (? & ? & [Hv ->]%guard_ok & Hr)%bind_ok. apply bind_ok in Hr as (ev & ? & [Hp ->]%lift_ok & Hr).
    apply with_lock_ok in Hr as [Hl Hs]. apply negb_false_iff in Hv. split; [done|]. by exists ev.
  - intros (Hv & ev & Hp & Hl & Hs). apply bind_ok. exists (), d. rewrite Hv. split; [done|].
    apply bind_ok. exists ev, d. split; [by apply lift_ok|]. by apply with_lock_ok.
Qed.

Lemma handle_webhook_evolve `{StreamPayClient} repr loads (body sg : string) (d : db) (r : WebhookResult) (d' : db) :
  handle_webhook repr loads body sg d = Ok (r, d') → orders_evolve d d'.
Proof.
  intros Hr. apply handle_webhook_ok in Hr as (_ & ev & _ & _ & Hs).
  apply settle_locked_ok in Hs as (k & i & _ & _
    & [(_ & _ & ->)|[(_ & _ & _ & ->)|(_ & _ & _ & _ & u & d1 & Hs & ->)]]); [reflexivity|by apply evolve_same|].
  transitivity d1; [|by apply evolve_same]. destruct (same _ _); [|by eapply settle_invoice_evolve].
  unfold settle_topup in Hs. same_after tb_orders Hs. by apply evolve_same.
Qed.

(** [C4] Webhooks are idempotent: whatever the first delivery did (settled, failed, or
    found the intent closed), delivering the same body again changes nothing and
    answers [already_processed]. *)
Theorem webhook_redelivery_noop `{StreamPayClient} repr loads (body sg : string) (d : db) (r : WebhookResult) (d' : db) :
  intents_unique d → handle_webhook repr loads body sg d = Ok (r, d') →
  handle_webhook repr loads body sg d' = Ok (already_processed, d').
Proof.
  intros Hu Hr. assert (db_locks d' = db_locks d) as El.
  { eapply keeps_reads; [|exact Hr]. apply frame_handle_webhook; auto with giftly typeclass_instances. }
  apply handle_webhook_ok in Hr as (Hv & ev & Hp & Hl & Hs). apply handle_webhook_ok.
  split; [done|]. exists ev. split; [done|]. unfold lock_free. rewrite El. split; [done|].
  assert (∃ k i, intents_unique d' ∧ tb_payment_intents d' !! k = Some i ∧
    pin_streampay_payment_link_id i = Some (ev_payment_link_id ev) ∧ pin_status i ≠ PaymentIntentStatus.NEW)
    as (k & i & Hu' & Hk & Hlink & Hst).
  { apply settle_locked_ok in Hs as (k & i & Hk & Hlink
      & [(Hst & _ & ->)|[(_ & _ & _ & ->)|(_ & _ & _ & _ & u & d1 & Hs & ->)]]); [by exists k, i| |].
    - eexists k, _. split; [eapply unique_closed; [exact Hu|exact Hk| |reflexivity]; done|].
      split; [apply lookup_insert_eq|]. done.
    - apply settle_intents in Hs. eexists k, _.
      split; [eapply unique_closed; [exact Hu|exact Hk| |cbn; rewrite Hs; reflexivity]; done|].
      split; [apply lookup_insert_eq|]. done. }
  unfold settle_locked. erewrite bind_run by (by apply (intent_by_link_run _ k i)).
  erewrite bind_run by reflexivity. cbn [fst snd].
  assert (same (pin_status i) PaymentIntentStatus.NEW = false) as -> by (by apply bool_decide_eq_false_2). done.
Qed.

(** A stored intent. *)
Definition intent_range (i : PaymentIntent) : Prop := 0 < pin_amount i < 10 ^ 12.

(** What settling a top-up and settling an unpaid invoice move; [b] is false when the
    ledger key was already used. *)
Definition topup_settled (k : uuid) (i : PaymentIntent) (b : bool) (d d' : db) : Prop :=
  ∃ wid gw, user_wallet d (pin_user_id i) wid ∧ system_wallet d WalletType.SYSTEM_GATEWAY gw ∧
    transferred (topup_key k) [(wid, pin_amount i); (gw, - pin_amount i)] b d d' ∧
    tb_invoices d' = tb_invoices d ∧ tb_orders d' = tb_orders d.

Definition invoice_settled (i : PaymentIntent) (iid : uuid) (inv : Invoice) (b : bool) (d d' : db) : Prop :=
  ∃ o cw ew gw,
    tb_orders d !! inv_order_id inv = Some o ∧ order_step (ord_status o) OrderStatus.IN_PROGRESS ∧
    user_wallet d (pin_user_id i) cw ∧ system_wallet d WalletType.SYSTEM_ESCROW ew ∧
    system_wallet d WalletType.SYSTEM_GATEWAY gw ∧
    transferred (escrow_key iid)
      [(cw, - inv_amount_from_wallet inv); (gw, - pin_amount i); (ew, inv_amount_from_wallet inv + pin_amount i)] b d d' ∧
    (b = true → ∀ j, held d' j = if same j cw && (0 <? inv_amount_from_wallet inv)
                               then Z.max 0 (held d j - inv_amount_from_wallet inv) else held d j) ∧
    tb_invoices d' = <[iid := paid_invoice_row inv (db_now d) (default PaymentMethod.GATEWAY_ONLY (inv_payment_method inv))
                                (inv_amount_from_wallet inv) (pin_amount i)]> (tb_invoices d) ∧
    tb_orders d' = <[inv_order_id inv := o <| ord_status := OrderStatus.IN_PROGRESS |>]> (tb_orders d).

(** What is still owed has no ledger group yet: the keys of NEW intents and of unpaid
    invoices are unused. *)
Record unsettled_keys_fresh (d : db) : Prop := {
  uk_topup : ∀ k i, tb_payment_intents d !! k = Some i → pin_status i = PaymentIntentStatus.NEW →
    ¬ key_used d (topup_key k);
  uk_escrow : ∀ iid inv, tb_invoices d !! iid = Some inv → inv_status inv ≠ InvoiceStatus.PAID →
    ¬ key_used d (escrow_key iid);
}.

Lemma settle_topup_ok (k : uuid) (i : PaymentIntent) (d : db) (u : ()) (d' : db) :
  ledger_ok d → intent_range i → settle_topup k i d = Ok (u, d') → ∃ b, topup_settled k i b d d'.
Proof.
  intros Hd Hi Hr. unfold intent_range in Hi. unfold settle_topup in Hr.
  same_after tb_invoices Hr. same_after tb_orders Hr.
  apply bind_ok in Hr as (x & d0 & [-> Hx]%get_by_user_ok & Hr).
  apply bind_ok in Hr as (p & d0 & [-> ->]%unwrap_ok & Hr). destruct Hx as [Hw Hu].
  apply bind_ok in Hr as (b & d0 & Hc & Hr). injection Hr as _ <-.
  apply (credit_topup_transferred d Hd) in Hc as (gw & Hg & Ht); [|lia].
  exists b, p.1, gw. split; [by exists p.2|]. done.
Qed.

Lemma transferred_unused (key : string) (ms : list (uuid * Z)) (b : bool) (d d' : db) :
  transferred key ms b d d' → ¬ key_used d key → b = true.
Proof. destruct b; [done|]. by intros [? _] ?. Qed.

Lemma transferred_frame (key : string) (ms : list (uuid * Z)) (b : bool) (d d1 d' : db) :
  tb_wallets d' = tb_wallets d1 → tb_transactions d' = tb_transactions d1 →
  transferred key ms b d d1 → transferred key ms b d d'.
Proof.
  intros Ew Et. unfold transferred, key_used, moved, bal. rewrite Ew, Et. done.
Qed.

Lemma settle_invoice_ok (k : uuid) (i : PaymentIntent) (d : db) (u : ()) (d' : db) :
  ledger_ok d → intent_range i → (∀ j x, tb_invoices d !! j = Some x → invoice_range x) →
  settle_invoice k i d = Ok (u, d') →
  ∃ iid inv, pin_reference_invoice_id i = Some iid ∧ tb_invoices d !! iid = Some inv ∧
    ((inv_status inv = InvoiceStatus.PAID ∧ d' = d) ∨
     (inv_status inv ≠ InvoiceStatus.PAID ∧ ∃ b, invoice_settled i iid inv b d d')).
Proof.
  intros Hd Hi Hinv Hr. unfold intent_range in Hi. unfold settle_invoice, lock_invoice, lock_order_row in Hr.
  apply bind_ok in Hr as (iid & d0 & [Hiid ->]%unwrap_ok & Hr). erewrite bind_run in Hr by reflexivity.
  apply bind_ok in Hr as (inv & d0 & [Hl ->]%unwrap_ok & Hr). destruct (Hinv iid inv Hl) as (_ & Hw & _).
  exists iid, inv. split; [done|]. split; [done|].
  destruct (same (inv_status inv) InvoiceStatus.PAID) eqn:Es.
  { left. apply (proj1 (same_true _ _)) in Es. by injection Hr as _ <-. }
  right. apply bool_decide_eq_false in Es. split; [done|]. erewrite bind_run in Hr by reflexivity.
  apply bind_ok in Hr as (o & d0 & [Ho ->]%unwrap_ok & Hr).
  apply bind_ok in Hr as (x & d0 & [-> Hx]%get_by_user_ok & Hr).
  apply bind_ok in Hr as (p & d0 & [-> ->]%unwrap_ok & Hr). destruct Hx as [Hpw Hu].
  apply bind_ok in Hr as (b & d1 & Hf & Hr).
  apply settle_invoice_record_ok in Hr as (Hs & Einv & Eord & Ew & Et & _); [|lia..].
  assert (tb_invoices d1 = tb_invoices d ∧ tb_orders d1 = tb_orders d ∧ db_now d1 = db_now d) as (E1 & E2 & E3).
  { same_after tb_invoices Hf. same_after tb_orders Hf. same_after db_now Hf. done. }
  rewrite E1, E3 in Einv. rewrite E2 in Eord. change ZERO with (sar 0) in Hf. rewrite dltb_sar in Hf.
  apply (fund_transferred d Hd) in Hf as (ew & gw & He & Hg & Ht & Hh); [|lia..].
  exists b, o, p.1, ew, gw. do 2 (split; [done|]). split; [by exists p.2|]. do 2 (split; [done|]).
  split; [by eapply transferred_frame|]. split; [|done]. intros -> j. unfold held at 1. rewrite Ew.
  fold (held d1 j). rewrite Hh. cbn. by destruct (0 <? inv_amount_from_wallet inv).
Qed.

(** [C3] A processed payment is settled exactly once and for the right amount: its link
    names one intent and no other, that intent was NEW, the amount the delivery carries
    is the intent's, and the intent is PAID afterwards. A top-up moves its amount from
    the gateway wallet to the user's wallet under the intent's ledger key. The payment of
    an unpaid invoice moves the held wallet part and the gateway part into escrow
    under the invoice's key, releases the hold, and leaves the invoice PAID and its order
    IN_PROGRESS. The payment of an invoice that is already PAID changes nothing but the
    intent. The keys of NEW intents and unpaid invoices are taken to be unused. *)
Theorem webhook_processed_effect `{StreamPayClient} repr loads (body sg : string) (d d' : db) :
  ledger_ok d → intents_unique d → unsettled_keys_fresh d →
  (∀ j x, tb_payment_intents d !! j = Some x → intent_range x) →
  (∀ j x, tb_invoices d !! j = Some x → invoice_range x) →
  handle_webhook repr loads body sg d = Ok (processed, d') →
  ∃ ev k i d1, parse repr loads body = Ok ev ∧ tb_payment_intents d !! k = Some i ∧
    pin_streampay_payment_link_id i = Some (ev_payment_link_id ev) ∧
    (∀ k' i', tb_payment_intents d !! k' = Some i' →
       pin_streampay_payment_link_id i' = Some (ev_payment_link_id ev) → k' = k) ∧
    pin_status i = PaymentIntentStatus.NEW ∧
    (∃ a, ev_amount ev = Some a ∧ quantize_money a = Ok (sar (pin_amount i))) ∧
    (if same (pin_purpose i) PaymentPurpose.WALLET_TOPUP then topup_settled k i true d d1
     else ∃ iid inv, pin_reference_invoice_id i = Some iid ∧ tb_invoices d !! iid = Some inv ∧
       if same (inv_status inv) InvoiceStatus.PAID then d1 = d else invoice_settled i iid inv true d d1) ∧
    d' = d1 <| tb_payment_intents := <[k := i <| pin_status := PaymentIntentStatus.PAID |>
                                              <| pin_paid_at := Some (db_now d1) |>]> (tb_payment_intents d) |>.
Proof.
  intros Hd Hu [Ht Hes] Hint Hinv Hr. apply handle_webhook_ok in Hr as (_ & ev & Hp & _ & Hs).
  apply settle_locked_ok in Hs as (k & i & Hk & Hl
    & [(_ & Hc & _)|[(_ & Hc & _)|(Hst & _ & _ & (a & q & Ha & Hq1 & Hq2) & u & d1 & Hs & ->)]]); [discriminate Hc..|].
  pose proof (Hint _ _ Hk) as Hi. assert (Hr := Hi). unfold intent_range in Hr.
  rewrite quantize_money_sar in Hq2 by (unfold small; lia). injection Hq2 as <-.
  exists ev, k, i, d1. do 3 (split; [done|]). split; [intros k' i'; by eapply link_unique|].
  split; [done|]. split; [by exists a|]. rewrite (settle_intents _ _ _ _ _ Hs). split; [|done].
  destruct (same (pin_purpose i) _).
  - apply settle_topup_ok in Hs as (b & Hb); [|done..]. assert (Hb' := Hb).
    destruct Hb' as (wid & gw & _ & _ & Htr & _).
    rewrite (transferred_unused _ _ _ _ _ Htr) in Hb by by eapply Ht. done.
  - apply settle_invoice_ok in Hs as (iid & inv & Hiid & Hl' & Hc); [|done..].
    exists iid, inv. do 2 (split; [done|]). destruct Hc as [[Hpd ->]|[Hpd (b & Hb)]].
    { by rewrite (proj2 (same_true _ _) Hpd). }
    unfold same at 1. rewrite bool_decide_eq_false_2 by done. assert (Hb' := Hb).
    destruct Hb' as (o & cw & ew & gw & _ & _ & _ & _ & _ & Htr & _).
    rewrite (transferred_unused _ _ _ _ _ Htr) in Hb by by eapply Hes. done.
Qed.

(** An open top-up of 50.00 by the customer, and the delivery that pays it. *)
Definition topup_intent : PaymentIntent :=
  mk_PaymentIntent 70 PaymentPurpose.WALLET_TOPUP 5000 "SAR" PaymentIntentStatus.NEW "STREAMPAY"
    (Some "pl_45"%string) (Some "https://pay.example"%string) None 3600 None None 0.

Definition db_topup : db := db_waiting <| tb_payment_intents := {[ 45%N := topup_intent ]} |>.

Definition event_json (event_type link status amount : string) : json :=
  JObj [("event_type", JStr event_type);
        ("data", JObj [("payment_link", JObj [("id", JStr link)]);
                       ("payment", JObj [("status", JStr status); ("amount", JStr amount)])])].

Definition loads0 (body : string) : option json :=
  Some (if same body "paid"%string then event_json "PAYMENT_SUCCEEDED" "pl_45" "PAID" "50.00"
        else event_json "PAYMENT_FAILED" body "FAILED" "50.00").

Definition repr0 (j : json) : string := EmptyString.

Lemma webhook_redelivery_noop_witness :
  ∃ d', @handle_webhook gateway0 repr0 loads0 "paid" "ok" db_topup = Ok (processed, d') ∧
        @handle_webhook gateway0 repr0 loads0 "paid" "ok" d' = Ok (already_processed, d').
Proof.
  destruct (answered (@handle_webhook gateway0 repr0 loads0 "paid" "ok" db_topup) processed) as [d' E];
    [vm_compute; reflexivity|].
  exists d'. split; [exact E|].
  apply (@webhook_redelivery_noop gateway0 repr0 loads0 "paid" "ok" db_topup processed d'); [|exact E].
  intros i j a b Ha Hb Hij. enum_lookup Ha. enum_lookup Hb. by destruct (Hij eq_refl).
Defined.

Lemma db_topup_unique : intents_unique db_topup.
Proof. intros i j a b Ha Hb Hij. enum_lookup Ha. enum_lookup Hb. by destruct (Hij eq_refl). Qed.

Lemma db_topup_fresh : unsettled_keys_fresh db_topup.
Proof.
  split; intros k x Hx _ (tid & t & Ht & Hk); enum_lookup Hx; enum_lookup Ht; discriminate Hk.
Qed.

Lemma webhook_processed_effect_witness :
  ∃ d', @handle_webhook gateway0 repr0 loads0 "paid" "ok" db_topup = Ok (processed, d') ∧
  ∃ ev k i d1, parse repr0 loads0 "paid" = Ok ev ∧ tb_payment_intents db_topup !! k = Some i ∧
    pin_streampay_payment_link_id i = Some (ev_payment_link_id ev) ∧
    (∀ k' i', tb_payment_intents db_topup !! k' = Some i' →
       pin_streampay_payment_link_id i' = Some (ev_payment_link_id ev) → k' = k) ∧
    pin_status i = PaymentIntentStatus.NEW ∧
    (∃ a, ev_amount ev = Some a ∧ quantize_money a = Ok (sar (pin_amount i))) ∧
    (if same (pin_purpose i) PaymentPurpose.WALLET_TOPUP then topup_settled k i true db_topup d1
     else ∃ iid inv, pin_reference_invoice_id i = Some iid ∧ tb_invoices db_topup !! iid = Some inv ∧
       if same (inv_status inv) InvoiceStatus.PAID then d1 = db_topup else invoice_settled i iid inv true db_topup d1) ∧
    d' = d1 <| tb_payment_intents := <[k := i <| pin_status := PaymentIntentStatus.PAID |>
                                              <| pin_paid_at := Some (db_now d1) |>]> (tb_payment_intents db_topup) |>.
Proof.
  destruct (answered (@handle_webhook gateway0 repr0 loads0 "paid" "ok" db_topup) processed) as [d' E];
    [vm_compute; reflexivity|].
  exists d'. split; [exact E|].
  apply (@webhook_processed_effect gateway0 repr0 loads0 "paid" "ok" db_topup d');
    [by apply (ledger_frame db0), ledger_ok_db0|apply db_topup_unique|apply db_topup_fresh| | |exact E].
  - intros j x Hx. enum_lookup Hx. unfold intent_range. cbn. lia.
  - intros j x Hx. enum_lookup Hx. unfold invoice_range. cbn. lia.
Defined.

(** ** Checkout lines *)

Definition items_total (items : list StreamPayItem) : Z := zsum_by (λ i, halalas (si_amount i)) items.

Lemma items_total_app (l k : list StreamPayItem) : items_total (l ++ k) = items_total l + items_total k.
Proof. apply zsum_by_app. Qed.

Definition stored_line (it : InvoiceItem) : Prop := Z.abs (it_line_total_amount it) < 10 ^ 12.

Lemma line_totals_run (items : list InvoiceItem) : Forall stored_line items →
  res_map (λ it, quantize_money (sar (it_line_total_amount it))) items = Ok (sar ∘ it_line_total_amount <$> items).
Proof.
  induction 1 as [|it items Hit _ IH]; [done|]. cbn. unfold stored_line in Hit.
  rewrite quantize_money_sar by (unfold small; lia). cbn. by rewrite IH.
Qed.

Lemma checkout_lines_total (items : list InvoiceItem) :
  items_total (zip_with (λ it t, mk_StreamPayItem (it_title it) (Some (item_description it)) t) items
    (sar ∘ it_line_total_amount <$> items)) = zsum_by it_line_total_amount items.
Proof. induction items as [|it items IH]; [done|]. unfold items_total, zsum_by in *. cbn in *. lia. Qed.

Lemma checkout_lines_min (items : list InvoiceItem) :
  existsb (λ it, dltb (sar (it_line_total_amount it)) ONE_SAR) items = false →
  Forall (λ i, 100 ≤ halalas (si_amount i))
    (zip_with (λ it t, mk_StreamPayItem (it_title it) (Some (item_description it)) t) items
      (sar ∘ it_line_total_amount <$> items)).
Proof.
  induction items as [|it items IH]; intros He; [constructor|]. cbn in He. apply orb_false_iff in He as [H1 H2].
  change ONE_SAR with (sar 100) in H1. rewrite dltb_sar in H1. constructor; [cbn; lia|by apply IH].
Qed.

Lemma checkout_lines_form (items : list InvoiceItem) : Forall stored_line items →
  Forall (λ i, ∃ a, si_amount i = sar a ∧ Z.abs a < 10 ^ 12)
    (zip_with (λ it t, mk_StreamPayItem (it_title it) (Some (item_description it)) t) items
      (sar ∘ it_line_total_amount <$> items)).
Proof. induction 1 as [|it items Hit _ IH]; [constructor|]. constructor; [|done]. by eexists. Qed.

(** The gateway is asked for exactly the amount due: the checkout lines always exist,
    are never empty, sum to the payment amount to the halala, whatever part of the
    invoice the wallet covered, and no line is below the gateway's minimum of one
    riyal unless the payment itself is. *)
Theorem checkout_items_cover_payment (iid : uuid) (z : Z) (items : list InvoiceItem) :
  Forall stored_line items → Z.of_nat (length items) ≤ 1000 → 0 < z < 10 ^ 12 →
  ∃ ls, invoice_checkout_items iid (sar z) items = Ok ls ∧ ls ≠ [] ∧ items_total ls = z ∧
    Forall (λ i, Z.min 100 z ≤ halalas (si_amount i)) ls.
Proof.
  intros Hst Hlen Hz. unfold invoice_checkout_items. rewrite line_totals_run by done. cbn [mbind res_bind].
  assert (Forall (λ z, Z.abs z ≤ 10 ^ 12) (it_line_total_amount <$> items)) as Hb.
  { apply Forall_fmap. eapply Forall_impl; [exact Hst|]. unfold stored_line. cbn. lia. }
  assert (dsum ZERO (sar ∘ it_line_total_amount <$> items) = sar (zsum_by it_line_total_amount items)) as ->.
  { change ZERO with (sar 0). rewrite list_fmap_compose, (dsum_sar _ 0 (10 ^ 12)); [done|lia| |done].
    rewrite length_fmap. lia. }
  rewrite dltb_sar. destruct (_ || _ || _) eqn:Eb.
  - eexists. split; [done|]. split; [done|]. unfold items_total, zsum_by. cbn. split; [lia|].
    constructor; [cbn; lia|constructor].
  - apply orb_false_iff in Eb as [Eb He]. apply orb_false_iff in Eb as [Hne Hle]. apply Z.ltb_ge in Hle.
    pose proof (checkout_lines_min _ He) as Hmin. pose proof (checkout_lines_total items) as Htot.
    set (ls := zip_with _ _ _) in *. set (total := zsum_by it_line_total_amount items) in *.
    assert (ls ≠ []) as Hls by (unfold ls; by destruct items).
    assert (0 ≤ items_total ls) as Hnn.
    { clear -Hmin. unfold items_total. induction Hmin as [|x l Hx _ IH]; [done|]. rewrite zsum_by_cons. lia. }
    assert (Forall (λ i, Z.min 100 z ≤ halalas (si_amount i)) ls) as Hmin'
      by (eapply Forall_impl; [exact Hmin|]; cbn; lia).
    rewrite dsub_sar, quantize_money_sar by (unfold small; lia). cbn [mbind res_bind].
    change ONE_SAR with (sar 100). change ZERO with (sar 0). rewrite dleb_sar, dltb_sar.
    destruct (Z.leb_spec 100 (z - total)).
    + eexists. split; [done|]. split; [by destruct ls|]. rewrite items_total_app. unfold items_total at 2, zsum_by. cbn.
      split; [lia|]. apply Forall_app_2; [done|]. constructor; [cbn; lia|constructor].
    + destruct (Z.ltb_spec 0 (z - total)); [|exists ls; split; [done|]; split; [done|]; split; [lia|done]].
      assert (Forall (λ i, ∃ a, si_amount i = sar a ∧ Z.abs a < 10 ^ 12) ls) as Hform by (by apply checkout_lines_form).
      clearbody ls. destruct (exists_last Hls) as (init & l & ->). rewrite last_snoc, length_app, Nat.add_sub.
      rewrite take_app_length. rewrite items_total_app in Htot. unfold items_total at 2, zsum_by in Htot. cbn in Htot.
      apply Forall_app in Hform as [_ (a & Ea & Ha)%Forall_singleton], Hmin' as [Hi Hl]. apply Forall_cons_1 in Hl as [Hl _].
      rewrite Ea in Htot, Hl |- *. rewrite dadd_sar, quantize_money_sar by (unfold small; lia). cbn [mbind res_bind].
      eexists. split; [done|]. split; [by destruct init|]. rewrite items_total_app. unfold items_total at 2, zsum_by. cbn in *.
      split; [lia|]. apply Forall_app_2; [done|]. constructor; [cbn; lia|constructor].
Qed.

Lemma checkout_items_cover_payment_witness :
  ∃ ls, invoice_checkout_items 40 (sar 14490)
          [mk_InvoiceItem 40 1 "bouquet" None 10000 1 1500 10000 0 10000 1500 11500] = Ok ls ∧
    ls ≠ [] ∧ items_total ls = 14490 ∧ Forall (λ i, Z.min 100 14490 ≤ halalas (si_amount i)) ls.
Proof.
  apply checkout_items_cover_payment; [|cbn; lia|lia]. constructor; [unfold stored_line; cbn; lia|constructor].
Defined.

(** ** Runs that strand money

    Each of the next three theorems runs a concrete sequence of requests on an invoice
    of 507.15 whose customer has 300.00: the wallet part is put on hold and the
    rest, 207.15, is requested from the gateway. *)

Definition invoice_large : Invoice :=
  mk_Invoice 50 71 InvoiceStatus.ISSUED "SAR" 40000 2000 2100 0 44100 6615 50715 None None None 0 0 None
    (Some 86400) (Some 0) None None 0.

Definition db_split : db := db_waiting <| tb_invoices := {[ 40%N := invoice_large ]} |>.

Definition start_payment : M PayResult := @pay_invoice gateway0 settings0 40 70.

Definition deliver (event_type status : string) : M WebhookResult :=
  @handle_webhook gateway0 repr0 (λ _, Some (event_json event_type "pl_1000" status "207.15")) EmptyString "ok".

(** What the customer has in the wallet and on hold, and the wallet part the
    invoice remembers. *)
Definition exposure {A} (r : res (A * db)) : option (Z * Z * option Z) :=
  match r with
  | Ok (_, d) => Some (bal d 5, held d 5, inv_amount_from_wallet <$> tb_invoices d !! 40%N)
  | Raise _ => None
  end.

Theorem pending_payment_holds : exposure (start_payment db_split) = Some (30000, 30000, Some 30000).
Proof. vm_compute. reflexivity. Qed.

(** A failed gateway payment leaves the hold in place, and paying again forgets
    it: the invoice then records no wallet part, so nothing releases the 300.00. *)
Theorem failed_payment_strands_hold :
  exposure ((start_payment;; deliver "PAYMENT_FAILED" "FAILED";; start_payment) db_split) = Some (30000, 30000, Some 0).
Proof. vm_compute. reflexivity. Qed.

(** Cancelling the invoice does not release the hold. *)
Theorem cancelled_invoice_strands_hold :
  exposure ((start_payment;; cancel_invoice 40 71) db_split) = Some (30000, 30000, Some 30000).
Proof. vm_compute. reflexivity. Qed.

(** Settling from the wallet while a gateway link is open: the later gateway payment
    is answered [processed] but credited nowhere, and the hold stays. *)
Theorem second_payment_swallowed :
  let run := start_payment;; credit_topup 5 (sar 60000) 46;; start_payment;; deliver "PAYMENT_SUCCEEDED" "PAID" in
  answer (run db_split) = Some processed ∧
  exposure (run db_split) = Some (30000 + 60000 - 50715, 30000, Some 50715) ∧
  match run db_split with Ok (_, d) => bal d 3 = - 30000 - 60000 ∧ bal d 1 = 50715 | Raise _ => False end.
Proof. vm_compute. repeat split; reflexivity. Qed.
