(* ===== verification/Gateway.v ===== *)
(** * The payment gateway ([app/integrations/streampay/real.py], [fake.py])

    The clients behind the interface [StreamPayClient] of Payments.v: the requests the real one
    makes to create a payment link, the signature header of webhooks, and the
    deterministic double of the other environments. *)

From Stdlib Require Import ZArith Lia Ascii.
From stdpp Require Import base list gmap strings numbers option pretty.
From S2P Require Import Prelude Errors PyDecimal Money Pricing Enums OrderState Tables Database Redis.
From S2P Require Import Ledger Promos Crypto Media Orders Invoices Config Fields Tokens Payments.
Open Scope Z_scope.

(** ** The signature header *)

(** [part.partition("=")]: the key, whether the separator occurs, the value. *)
Fixpoint partition_at (sep : ascii) (l : list ascii) : list ascii * bool * list ascii :=
  match l with
  | [] => ([], false, [])
  | c :: l =>
      if Ascii.eqb c sep then ([], true, l)
      else let '(k, found, v) := partition_at sep l in (c :: k, found, v)
  end.

(** One turn of the loop over the parts. *)
Definition add_part (values : gmap string string) (part : list ascii) : gmap string string :=
  let '(key, found, value) := partition_at "="%char (strip_spaces part) in
  match found, key, value with
  | true, _ :: _, _ :: _ => <[to_text key := to_text value]> values
  | _, _, _ => values
  end.

Definition signature_values (signature : string) : gmap string string :=
  fold_left add_part (split_on ","%char (of_text signature)) ∅.

Definition signature_parts (signature : string) : option string * option string :=
  (signature_values signature !! "t"%string, signature_values signature !! "v1"%string).

Section Signature.
Context `{SecurityLib} (webhook_secret : string).

(** The digest of [timestamp.raw_body]. *)
Definition webhook_digest (timestamp raw_body : string) : string := hmac_hex (timestamp +:+ "." +:+ raw_body) webhook_secret.

(** [RealStreamPayClient.verify_webhook_signature], of an ASCII header ([hmac.compare_digest] takes no
    other text). *)
Definition real_verify (raw_body signature : string) : bool :=
  match signature_parts signature with
  | (Some timestamp, Some provided) => constant_time_equals (webhook_digest timestamp raw_body) provided
  | _ => false
  end.

(** [FakeStreamPayClient.sign]. *)
Definition sign (timestamp raw_body : string) : string := "t=" +:+ timestamp +:+ ",v1=" +:+ webhook_digest timestamp raw_body.

(** [text.split("v1=", maxsplit=1)[1]]. *)
Fixpoint after_marker (l : list ascii) : list ascii :=
  match l with
  | "v"%char :: ("1"%char :: "="%char :: rest) as tail => rest
  | _ :: l => after_marker l
  | [] => []
  end.

(** [FakeStreamPayClient.verify_webhook_signature]. *)
Definition fake_verify (raw_body signature : string) : bool :=
  match signature_parts signature with
  | (Some timestamp, Some provided) =>
      constant_time_equals (to_text (after_marker (of_text (sign timestamp raw_body)))) provided
  | _ => false
  end.
End Signature.

(** ** Creating a payment link *)

(** [f"{amount:.2f}"] of a decimal: two places, half to even. *)
Definition format_amount (amount : dec) : string :=
  let n := Z.abs (coef amount) in
  let cents := if -2 <=? dexp amount then n * 10 ^ (dexp amount + 2) else round_half_even n (10 ^ (-2 - dexp amount)) in
  to_text (format_2f (Z.sgn (coef amount) * cents)).

Section Links.
(** [_post]: the JSON object StreamPay answers, or an error of the transport. *)
Context (post : string → json → res (list (string * json))).
Context (repr : json → string).

Definition required_value (data : list (string * json)) (key : string) : res string :=
  match obj_get key data with
  | None | Some JNull => Raise ValueError
  | Some j => match py_str repr j with EmptyString => Raise ValueError | v => Ok v end
  end.

Definition create_consumer (c : StreamPayCustomer) : res string :=
  data ← post "/consumers"
    (JObj ([("external_id", JStr (sc_external_id c)); ("name", JStr (sc_name c)); ("phone_number", JStr (sc_phone_number c))]%string ++
           match sc_email c with Some (String _ _ as e) => [("email"%string, JStr e)] | _ => [] end));
  required_value data "id".

Definition create_product (reference : string) (item : StreamPayItem) : res string :=
  data ← post "/products"
    (JObj ([("name", JStr (String.substring 0 160 (si_name item))); ("type", JStr "ONE_OFF"); ("is_one_time", JBool true);
            ("prices", JList [JObj [("amount", JStr (format_amount (si_amount item))); ("currency", JStr "SAR"); ("is_price_inclusive_of_vat", JBool true);
                                    ("is_price_exempt_from_vat", JBool false)]]);
            ("external_metadata", JObj [("payment_intent_id", JStr reference)])]%string ++
           match si_description item with
           | Some (String _ _ as d) => [("description"%string, JStr (String.substring 0 512 d))]
           | _ => []
           end));
  required_value data "id".

(** [if url: payload[key] = url]. *)
Definition redirect (key : string) (url : option string) : list (string * json) :=
  match url with Some (String _ _ as u) => [(key, JStr u)] | _ => [] end.

Definition real_payment_link (success_redirect_url failure_redirect_url : option string) (reference : string)
    (customer : StreamPayCustomer) (items : list StreamPayItem) : res StreamPayCheckout :=
  consumer_id ← create_consumer customer;
  product_ids ← res_map (create_product reference) items;
  data ← post "/payment_links"
    (JObj ([("name", JStr ("SAFE-GIFT invoice " +:+ reference)); ("currency", JStr "SAR");
           ("items", JList ((λ p, JObj [("product_id", JStr p); ("quantity", JNum "1")]) <$> product_ids));
           ("max_number_of_payments", JNum "1"); ("organization_consumer_id", JStr consumer_id);
           ("contact_information_type", JStr "PHONE"); ("custom_metadata", JObj [("payment_intent_id", JStr reference)])]%string ++
           redirect "success_redirect_url" success_redirect_url ++ redirect "failure_redirect_url" failure_redirect_url));
  link ← required_value data "id";
  url ← required_value data "url";
  Ok (mk_StreamPayCheckout link url).
End Links.

(** [FakeStreamPayClient.create_payment_link]: the [n]-th link of a process. *)
Definition fake_payment_link (prefix : string) (n : Z) : StreamPayCheckout :=
  let id := "FAKE-STREAM-LINK-" +:+ prefix +:+ "-" +:+ zero_pad 8 (pretty n) in
  mk_StreamPayCheckout id ("http://localhost:8000/api/dev/streampay/simulate?payment_link_id=" +:+ id).

(** ** The real client behind the interface of the payment service *)

Definition real_client `{SecurityLib} (post : string → json → res (list (string * json))) (repr : json → string)
    (success failure : option string) (secret : string) : StreamPayClient := {|
  create_payment_link := real_payment_link post repr success failure;
  verify_webhook_signature := real_verify secret
|}.

(** ** Lemmas *)

(** Characters that survive the parsing of a header value: no separator, no white space. *)
Definition plain_char (c : ascii) : Prop := is_space c = false ∧ c ≠ ","%char.

Lemma split_on_plain (l : list ascii) : Forall plain_char l → split_on ","%char l = [l].
Proof.
  induction 1 as [|c l [_ Hc] _ IH]; [done|]. cbn. rewrite (proj2 (Ascii.eqb_neq _ _)) by done. by rewrite IH.
Qed.

Lemma split_on_app (a b : list ascii) : Forall plain_char a → split_on ","%char (a ++ ","%char :: b) = a :: split_on ","%char b.
Proof.
  induction 1 as [|c l [_ Hc] _ IH]; [done|]. cbn. rewrite (proj2 (Ascii.eqb_neq _ _)) by done. by rewrite IH.
Qed.

(** The marker cannot start inside a string without the character [v]. *)
Lemma after_marker_skip (l rest : list ascii) : "v"%char ∉ l → after_marker (l ++ ["v"; "1"; "="]%char ++ rest) = rest.
Proof.
  induction l as [|c l IH]; intros Hv; [done|]. apply not_elem_of_cons in Hv as [Hc Hl]. specialize (IH Hl).
  cbn [app]. change (c :: l ++ ["v"; "1"; "="]%char ++ rest) with (c :: (l ++ ["v"; "1"; "="]%char ++ rest)).
  destruct c as [[] [] [] [] [] [] [] []]; try exact IH. by destruct Hc.
Qed.

Lemma of_text_app (a b : string) : of_text (a +:+ b) = of_text a ++ of_text b.
Proof.
  induction a as [|c a IH]; [done|]. change (of_text (String c a +:+ b)) with (c :: of_text (a +:+ b)). by rewrite IH.
Qed.

(** The decimal digits of a number: plain characters, at least one. *)
Definition digit (c : ascii) : Prop := is_digit c = true.

Lemma digit_plain_char (c : ascii) : digit c → plain_char c ∧ c ≠ "v"%char.
Proof. unfold digit, plain_char. destruct c as [[] [] [] [] [] [] [] []]; done. Qed.

Lemma pretty_N_char_digit (x : N) : digit (pretty_N_char x).
Proof. unfold digit, pretty_N_char. by repeat case_match. Qed.

Lemma pretty_go_digits (x : N) : ∀ s, Forall digit (of_text s) → (x ≠ 0%N ∨ s ≠ EmptyString) →
  Forall digit (of_text (pretty_N_go x s)) ∧ pretty_N_go x s ≠ EmptyString.
Proof.
  induction (N.lt_wf_0 x) as [x _ IH]. intros s Hs Hne. destruct (decide (x = 0%N)) as [->|Hx].
  - rewrite pretty_N_go_0. destruct Hne; done.
  - rewrite pretty_N_go_step by lia. apply IH; [apply N.div_lt; lia| |right; done].
    change (Forall digit (pretty_N_char (x `mod` 10) :: of_text s)). constructor; [apply pretty_N_char_digit|done].
Qed.

Lemma pretty_digits (x : N) :
  Forall plain_char (of_text (pretty x)) ∧ pretty x ≠ EmptyString ∧ "v"%char ∉ of_text (pretty x).
Proof.
  assert (Forall digit (of_text (pretty x)) ∧ pretty x ≠ EmptyString) as [Hd Hne].
  { unfold pretty, pretty_N. destruct (decide (x = 0%N)) as [->|Hx]; [split; [repeat constructor|done]|].
    apply pretty_go_digits; [constructor|by left]. }
  split; [eapply Forall_impl; [exact Hd|]; intros c Hc; by apply digit_plain_char|]. split; [done|].
  intros Hv. rewrite Forall_forall in Hd. by apply Hd, digit_plain_char in Hv as [_ []].
Qed.

Section SignatureLemmas.
Context `{SecurityLib} (secret : string).

(** A header in the format of [sign] parses into its two values. *)
Lemma signature_parts_of (ts digest : string) :
  Forall plain_char (of_text ts) → Forall plain_char (of_text digest) → ts ≠ EmptyString → digest ≠ EmptyString →
  signature_parts ("t=" +:+ ts +:+ ",v1=" +:+ digest) = (Some ts, Some digest).
Proof.
  intros Hts Hd Nts Nd. destruct ts as [|t0 ts]; [done|]. destruct digest as [|d0 dg]; [done|].
  assert (signature_values ("t=" +:+ String t0 ts +:+ ",v1=" +:+ String d0 dg) =
    <["v1"%string := String d0 dg]> (<["t"%string := String t0 ts]> ∅)) as E.
  { unfold signature_values. rewrite !of_text_app.
    change (of_text "t=" ++ of_text (String t0 ts) ++ of_text ",v1=" ++ of_text (String d0 dg)) with
      (["t"; "="]%char ++ of_text (String t0 ts) ++ ","%char :: ["v"; "1"; "="]%char ++ of_text (String d0 dg)).
    rewrite app_assoc. rewrite split_on_app by (apply Forall_app; split; [repeat constructor; done|exact Hts]).
    rewrite split_on_plain by (apply Forall_app; split; [repeat constructor; done|exact Hd]).
    cbn [fold_left]. unfold add_part. rewrite !strip_spaces_id.
    2:{ apply Forall_app. split; [repeat constructor|]. eapply Forall_impl; [exact Hts|]. by intros c [? _]. }
    2:{ apply Forall_app. split; [repeat constructor|]. eapply Forall_impl; [exact Hd|]. by intros c [? _]. }
    cbn. unfold to_text. cbn. by rewrite !String.string_of_list_ascii_of_string. }
  unfold signature_parts. rewrite E, lookup_insert_eq. by rewrite lookup_insert_ne, lookup_insert_eq.
Qed.

Lemma real_verify_iff (body sg : string) :
  real_verify secret body sg = true ↔ ∃ ts, signature_parts sg = (Some ts, Some (webhook_digest secret ts body)).
Proof.
  unfold real_verify, constant_time_equals. destruct (signature_parts sg) as [[ts|] [p|]]; try naive_solver.
  rewrite bool_decide_eq_true. naive_solver.
Qed.
End SignatureLemmas.

(** ** Property *)

(** [C37] Webhook signatures: the header the gateway's double signs for a body is accepted, by the real
    client and by the double, for every timestamp of digits; the real client accepts a header only if it carries the digest of
    its own timestamp and this body under the webhook secret; and a webhook whose header is not
    accepted is refused before anything is read from it. *)
Theorem webhook_signature_roundtrip `{SecurityLib} (secret body sg : string) (ts : N) post repr (success failure : option string)
    (loads : string → option json) (d : db) :
  (∀ v k, Forall plain_char (of_text (hmac_hex v k)) ∧ hmac_hex v k ≠ EmptyString) →
  real_verify secret body (sign secret (pretty ts) body) = true ∧
  fake_verify secret body (sign secret (pretty ts) body) = true ∧
  (real_verify secret body sg = true →
     ∃ t, signature_values sg !! "t"%string = Some t ∧ signature_values sg !! "v1"%string = Some (hmac_hex (t +:+ "." +:+ body) secret)) ∧
  (real_verify secret body sg = false →
     @handle_webhook (real_client post repr success failure secret) repr loads body sg d = Raise InvalidWebhookSignatureError).
Proof.
  intros Hh. destruct (Hh (pretty ts +:+ "." +:+ body) secret) as [Hp Hne].
  pose proof (pretty_digits ts) as (Hts & Htne & Hv).
  assert (signature_parts (sign secret (pretty ts) body) = (Some (pretty ts), Some (webhook_digest secret (pretty ts) body))) as E
    by (by apply signature_parts_of).
  split; [apply real_verify_iff; by exists (pretty ts)|]. split; [|split].
  - unfold fake_verify. rewrite E. unfold constant_time_equals, sign. apply bool_decide_eq_true.
    rewrite !of_text_app. rewrite app_assoc.
    change (of_text ",v1=") with ([","]%char ++ ["v"; "1"; "="]%char). rewrite <- (app_assoc [","]%char), (app_assoc _ [","]%char).
    rewrite after_marker_skip; [apply to_of_text|]. rewrite !not_elem_of_app. split; [split; [|exact Hv]|].
    + change (of_text "t=") with ["t"; "="]%char. set_solver.
    + set_solver.
  - intros (t & Et)%real_verify_iff. exists t. unfold signature_parts in Et. by injection Et as -> ->.
  - intros Hf. unfold handle_webhook. cbn [verify_webhook_signature real_client]. by rewrite Hf.
Qed.

(** A gateway of which only the keyed digest matters. *)
Definition digest_lib : SecurityLib := {|
  sha256_hex := λ v, v;
  hmac_hex := λ v _, "5f" +:+ pretty (N.of_nat (String.length v));
  randbelow := λ _ _, 0;
  token_urlsafe := λ _, "token"%string;
  jwt_encode := λ _ _ _, "jwt"%string;
  jwt_decode := λ _ _ _ _ _ _ _, None;
  jwt_pair := λ _ _ _, true
|}.

Lemma digest_plain (v k : string) : Forall plain_char (of_text (@hmac_hex digest_lib v k)) ∧ @hmac_hex digest_lib v k ≠ EmptyString.
Proof.
  split; [|done]. change (@hmac_hex digest_lib v k) with ("5f" +:+ pretty (N.of_nat (String.length v))).
  rewrite of_text_app. apply Forall_app. split; [repeat constructor; done|]. apply pretty_digits.
Qed.

(** The same body signed, altered, and unsigned. *)
Lemma webhook_signature_roundtrip_witness :
  @real_verify digest_lib "whsec" "{}" (@sign digest_lib "whsec" "1700000000" "{}") = true ∧
  @real_verify digest_lib "whsec" "{ }" (@sign digest_lib "whsec" "1700000000" "{}") = false ∧
  @handle_webhook (@real_client digest_lib (λ _ _, Raise ValueError) (λ _, EmptyString) None None "whsec") (λ _, EmptyString) (λ _, None)
    "{}" "v1=5f13" empty_db = Raise InvalidWebhookSignatureError.
Proof.
  destruct (@webhook_signature_roundtrip digest_lib "whsec" "{}" "v1=5f13" 1700000000 (λ _ _, Raise ValueError) (λ _, EmptyString)
    None None (λ _, None) empty_db digest_plain) as (H1 & _ & _ & H4).
  split; [exact H1|]. split; [vm_compute; reflexivity|]. apply H4. vm_compute. reflexivity.
Defined.
