(* ===== verification/Clients.v ===== *)
(** * The other external clients ([app/integrations/storage], [email], [sms], [push], [factory.py])

    The requests the real clients make and what they do with the answers, and the in-memory doubles of the other
    environments.  HTTP, AWS and the RSA library are parameters: a POST answers a status, S3 answers a HEAD or a ranged GET
    with metadata, bytes or an error code.  [Bucket] states what S3 documents of these answers for a bucket that holds
    given objects; the media service is then proved against the objects themselves. *)

From Stdlib Require Import ZArith Lia Ascii.
From stdpp Require Import base list gmap strings numbers option pretty.
From S2P Require Import Prelude Errors PyDecimal Money Pricing Enums OrderState Tables Database Redis RateLimit.
From S2P Require Import Ledger Users Promos Crypto Media Orders Invoices Config Fields Tokens Otp Receipts Payments Gateway.
Local Open Scope Z_scope.

(** ** HTTP providers *)

(** [text.rstrip("/")]. *)
Fixpoint rstrip_slash_rev (l : list ascii) : list ascii :=
  match l with "/"%char :: l' => rstrip_slash_rev l' | _ => l end.
Definition rstrip_slash (s : string) : string := to_text (reverse (rstrip_slash_rev (reverse (of_text s)))).

(** [response.raise_for_status()]: everything but a success raises. *)
Definition raise_for_status (status : Z) : res () := raise_if (negb ((200 <=? status) && (status <=? 299))) HTTPStatusError.

Definition bearer (key : string) : list (string * string) := [("Authorization", "Bearer " +:+ key)]%string.

Record SndrEmailClient := mk_SndrEmailClient { se_base_url : string; se_api_key : string; se_from_email : string; se_from_name : string }.
Record RealSmsClient := mk_RealSmsClient { rs_provider_key : string; rs_base_url : string }.
Record RealPushClient := mk_RealPushClient { rp_url : string; rp_service_key : string }.

Definition new_SndrEmailClient (base_url api_key from_email from_name : string) : SndrEmailClient :=
  mk_SndrEmailClient (rstrip_slash base_url) api_key from_email from_name.
Definition new_RealSmsClient (provider_key base_url : string) : RealSmsClient := mk_RealSmsClient provider_key (rstrip_slash base_url).
Definition new_RealPushClient (supabase_url service_key : string) : RealPushClient := mk_RealPushClient (rstrip_slash supabase_url) service_key.

Section Providers.
(** [httpx.AsyncClient.post]: URL, headers, JSON body; the status, or an error of the transport. *)
Context (post : string → list (string * string) → json → res Z).

Definition sndr_send_transactional (self : SndrEmailClient) (to_email template_key : string) (variables : list (string * string)) : res () :=
  let payload := JObj
    [("from", JObj [("email", JStr (se_from_email self)); ("name", JStr (se_from_name self))]);
     ("to", JList [JObj [("email", JStr to_email)]]);
     ("template", JStr template_key);
     ("variables", JObj ((λ kv, (kv.1, JStr kv.2)) <$> variables))]%string in
  status ← post (se_base_url self +:+ "/v1/transactional") (bearer (se_api_key self)) payload;
  raise_for_status status.

Definition real_send_otp (self : RealSmsClient) (phone code : string) : res () :=
  status ← post (rs_base_url self +:+ "/send") (bearer (rs_provider_key self))
    (JObj [("to", JStr phone); ("message", JStr ("Your SAFE-GIFT code is " +:+ code))]%string);
  raise_for_status status.

Definition real_send_push (self : RealPushClient) (tokens : list string) (title body : string) : res () :=
  status ← post (rp_url self +:+ "/functions/v1/push") (bearer (rp_service_key self))
    (JObj [("tokens", JList (JStr <$> tokens)); ("title", JStr title); ("body", JStr body)]%string);
  raise_for_status status.

(** Behind the interfaces of the services. *)
Definition sndr_email (self : SndrEmailClient) : EmailClient := {| send_transactional := sndr_send_transactional self |}.
Definition real_sms (self : RealSmsClient) : SmsClient := {| send_otp_sms := real_send_otp self |}.
Definition real_push (self : RealPushClient) : PushClient := {| send_push := real_send_push self |}.
End Providers.

(** ** Object storage *)

(** The answer to a HEAD: [resp.get] of the two fields. *)
Record head_response := mk_head_response { ContentLength : option Z; ContentType : option string }.

(** What [load_pem_private_key] returns. *)
Inductive private_key := RSAPrivateKey (pem : string) | OtherKey (pem : string).

(** AWS and the signing library.  The credentials of the session are fixed in it. *)
Class Aws := {
  generate_presigned_url : string → string → string → Z → Z → res string;  (* bucket, key, type, length, expiry *)
  s3_head_object : string → string → res head_response;
  s3_get_range : string → string → Z → Z → res (list ascii);
  load_pem_private_key : string → res private_key;
  rsa_sign : private_key → list ascii → list ascii;  (* PKCS1v15 over SHA-256 *)
  cloudfront_presign : string → (list ascii → list ascii) → string → instant → string;
}.

Record S3StorageClient := mk_S3StorageClient {
  s3_bucket : string;
  s3_region : string;
  s3_access_key_id : string;
  s3_secret_access_key : string;
  s3_cloudfront_domain : string;
  s3_cloudfront_key_pair_id : string;
  s3_cloudfront_private_key : private_key;
}.

(** [text.replace("\\n", "\n")]. *)
Fixpoint unescape_newlines (l : list ascii) : list ascii :=
  match l with
  | "\"%char :: ("n"%char :: l') => newline :: unescape_newlines l'
  | c :: l' => c :: unescape_newlines l'
  | [] => []
  end.

Definition IMAGE_MAGIC : list (list ascii) :=
  [ascii_of_N <$> [255; 216; 255]%N; ascii_of_N <$> [137; 80; 78; 71; 13; 10; 26; 10]%N].

Definition bytes_start (sig head : list ascii) : bool := match after sig head with Some _ => true | None => false end.

Definition is_image (bytes : list ascii) : bool := existsb (λ sig, bytes_start sig bytes) IMAGE_MAGIC.

Section S3.
Context `{Aws}.

Definition new_S3StorageClient (bucket region access_key_id secret_access_key cloudfront_domain cloudfront_key_pair_id cloudfront_private_key : string)
    : res S3StorageClient :=
  key ← load_pem_private_key (to_text (unescape_newlines (of_text cloudfront_private_key)));
  match key with
  | RSAPrivateKey _ => Ok (mk_S3StorageClient bucket region access_key_id secret_access_key cloudfront_domain cloudfront_key_pair_id key)
  | OtherKey _ => Raise ValueError
  end.

Context (self : S3StorageClient).

Definition s3_create_upload_url (storage_key content_type : string) (byte_size ttl_seconds : Z) : res string :=
  generate_presigned_url (s3_bucket self) storage_key content_type byte_size ttl_seconds.

Definition missing_code (code : string) : bool := bool_decide (code ∈ ["404"; "NoSuchKey"; "NotFound"]%string).

(** [head_object]: a missing object is an answer, any other [ClientError] is raised on. *)
Definition s3_head (storage_key : string) : res (option ObjectHead) :=
  match s3_head_object (s3_bucket self) storage_key with
  | Ok resp => Ok (Some (mk_ObjectHead true (default 0 (ContentLength resp)) (default EmptyString (ContentType resp))))
  | Raise (ClientError code) => if missing_code code then Ok None else Raise (ClientError code)
  | Raise e => Raise e
  end.

(** [verify_image_magic_bytes]: [Range="bytes=0-15"]. *)
Definition s3_verify (storage_key : string) : res bool :=
  head ← s3_get_range (s3_bucket self) storage_key 0 15;
  Ok (is_image head).

Definition sign_cloudfront_policy (message : list ascii) : list ascii := rsa_sign (s3_cloudfront_private_key self) message.

Definition signed_read_url (now : instant) (storage_key : string) (ttl_seconds : Z) : string :=
  cloudfront_presign (s3_cloudfront_key_pair_id self) sign_cloudfront_policy
    ("https://" +:+ s3_cloudfront_domain self +:+ "/" +:+ storage_key) (now + ttl_seconds) +:+ "&Hash-Algorithm=SHA256".

Definition s3_storage : StorageClient := {|
  create_upload_url := s3_create_upload_url;
  head_object := s3_head;
  verify_image_magic_bytes := s3_verify;
|}.
End S3.

(** ** The doubles

    Each records what it is asked; only the constructor can fail. *)

Definition construct_fake {A} (environment : Environment) (initial : A) : res A :=
  if forbid_in_production environment then Raise RuntimeError else Ok initial.

(** [FakeStorageClient._objects]. *)
Abbreviation fake_objects := (gmap string ObjectHead).

Definition fake_create_upload_url (storage_key content_type : string) (byte_size : Z) (objects : fake_objects) : string * fake_objects :=
  ("http://localhost:8000/dev/upload/" +:+ storage_key, <[storage_key := mk_ObjectHead true byte_size content_type]> objects).
Definition fake_head_object (objects : fake_objects) (storage_key : string) : option ObjectHead := objects !! storage_key.
Definition fake_verify_image_magic_bytes (objects : fake_objects) (storage_key : string) : bool := bool_decide (is_Some (objects !! storage_key)).
Definition fake_signed_read_url (storage_key : string) (ttl_seconds : Z) : string :=
  "http://localhost:8000/dev/cdn/" +:+ storage_key +:+ "?ttl=" +:+ pretty ttl_seconds.

(** The double as the media service sees it between two uploads. *)
Definition fake_storage (objects : fake_objects) : StorageClient := {|
  create_upload_url k t n _ := Ok (fake_create_upload_url k t n objects).1;
  head_object k := Ok (fake_head_object objects k);
  verify_image_magic_bytes k := Ok (fake_verify_image_magic_bytes objects k);
|}.

Record RecordedEmail := mk_RecordedEmail { re_to_email : string; re_template_key : string; re_variables : list (string * string) }.
Record RecordedPush := mk_RecordedPush { rp_tokens : list string; rp_title : string; rp_body : string }.

Definition fake_send_transactional (to_email template_key : string) (variables : list (string * string)) (sent : list RecordedEmail) : list RecordedEmail :=
  sent ++ [mk_RecordedEmail to_email template_key variables].
Definition fake_send_push (tokens : list string) (title body : string) (sent : list RecordedPush) : list RecordedPush :=
  sent ++ [mk_RecordedPush tokens title body].
Definition fake_send_otp (phone code : string) (last_otp : gmap string string) : gmap string string := <[phone := code]> last_otp.

(** ** The factory ([build_clients]) *)

Record RealStreamPayClient := mk_RealStreamPayClient { rg_credential : string; rg_webhook_secret : string; rg_base_url : string }.

Definition STREAMPAY_BASE_URL : string := "https://stream-app-service.streampay.sa/api/v2".

Record RealClients := mk_RealClients {
  cl_gateway : RealStreamPayClient;
  cl_email : SndrEmailClient;
  cl_sms : RealSmsClient;
  cl_push : RealPushClient;
  cl_storage : S3StorageClient;
}.

(** The doubles' initial state: the number of the next link, and what was recorded. *)
Record FakeClients := mk_FakeClients {
  fc_gateway : Z;
  fc_email : list RecordedEmail;
  fc_sms : gmap string string;
  fc_push : list RecordedPush;
  fc_storage : fake_objects;
}.

Definition required_secret (value : option secret) : res string :=
  match value with None => Raise RuntimeError | Some v => Ok (get_secret_value v) end.

Section Factory.
Context `{Aws} (b64encode : string → string).

Definition new_RealStreamPayClient (api_key api_secret webhook_secret : string) : RealStreamPayClient :=
  mk_RealStreamPayClient (b64encode (api_key +:+ ":" +:+ api_secret)) webhook_secret (rstrip_slash STREAMPAY_BASE_URL).

(** [RealStreamPayClient._post]: a body that is not JSON, or not an object, is a [ValueError]. *)
Definition streampay_post (http : string → list (string * string) → json → res (Z * option json)) (self : RealStreamPayClient)
    (path : string) (payload : json) : res (list (string * json)) :=
  response ← http (rg_base_url self +:+ path) [("x-api-key", rg_credential self); ("Accept", "application/json")]%string payload;
  raise_for_status response.1;;
  match response.2 with Some (JObj data) => Ok data | _ => Raise ValueError end.

(** [settings.X or ...] and [settings.X.get_secret_value() if settings.X else ...]. *)
Definition or_empty (s : option string) : string := default EmptyString s.
Definition secret_or_empty (s : option secret) : string := from_option get_secret_value EmptyString s.

Definition build_production_clients (settings : AppSettings) : res RealClients :=
  api_key ← required_secret (STREAMPAY_API_KEY settings);
  api_secret ← required_secret (STREAMPAY_API_SECRET settings);
  webhook_secret ← required_secret (STREAMPAY_WEBHOOK_SECRET settings);
  let gateway := new_RealStreamPayClient api_key api_secret webhook_secret in
  sndr_key ← required_secret (SNDR_API_KEY settings);
  let email := new_SndrEmailClient (or_empty (SNDR_BASE_URL settings)) sndr_key (or_empty (SNDR_FROM_EMAIL settings)) (or_empty (SNDR_FROM_NAME settings)) in
  let sms := new_RealSmsClient (secret_or_empty (SMS_PROVIDER_KEY settings)) (or_empty (SUPABASE_URL settings)) in
  let push := new_RealPushClient (or_empty (SUPABASE_URL settings)) (secret_or_empty (SUPABASE_SERVICE_KEY settings)) in
  access_key_id ← required_secret (AWS_ACCESS_KEY_ID settings);
  secret_access_key ← required_secret (AWS_SECRET_ACCESS_KEY settings);
  private_key ← required_secret (CLOUDFRONT_PRIVATE_KEY settings);
  storage ← new_S3StorageClient (or_empty (S3_BUCKET_NAME settings)) (or_empty (AWS_REGION settings)) access_key_id secret_access_key
    (or_empty (CLOUDFRONT_DOMAIN settings)) (or_empty (CLOUDFRONT_KEY_PAIR_ID settings)) private_key;
  Ok (mk_RealClients gateway email sms push storage).

Definition build_fake_clients (environment : Environment) : res FakeClients :=
  gateway ← construct_fake environment 1;
  email ← construct_fake environment [];
  sms ← construct_fake environment ∅;
  push ← construct_fake environment [];
  storage ← construct_fake environment ∅;
  Ok (mk_FakeClients gateway email sms push storage).

(** [build_clients] with the clients it builds; [Config.build_clients] says which kind. *)
Definition construct_clients (settings : AppSettings) : res (RealClients + FakeClients) :=
  if is_production settings then inl <$> build_production_clients settings else inr <$> build_fake_clients (ENVIRONMENT settings).
End Factory.

(** ** Shutdown ([main.py], [_lifespan]) *)

Inductive pool := GatewayPool | EmailPool | SmsPool | PushPool | RedisPool | EnginePool.

(** The pools in the order they are closed: a double has no [aclose]. *)
Definition shutdown_order (real : bool) : list pool :=
  (if real then [GatewayPool; EmailPool; SmsPool; PushPool] else []) ++ [RedisPool; EnginePool].

(** The first failure ends the shutdown. *)
Fixpoint close_all (close : pool → res ()) (l : list pool) : list pool * res () :=
  match l with
  | [] => ([], Ok ())
  | p :: l' =>
      match close p with
      | Ok _ => let '(closed, r) := close_all close l' in (p :: closed, r)
      | Raise e => ([], Raise e)
      end
  end.

Definition lifespan_shutdown (close : pool → res ()) (clients : RealClients + FakeClients) : list pool * res () :=
  close_all close (shutdown_order (match clients with inl _ => true | inr _ => false end)).

(** ** What S3 documents *)

(** The bucket [name] holds [objects]: bytes and content type.  A range of an empty object cannot be satisfied. *)
Class Bucket `{Aws} (name : string) (objects : gmap string (list ascii * string)) : Prop := {
  bucket_head k : s3_head_object name k =
    match objects !! k with
    | Some (bytes, type) => Ok (mk_head_response (Some (Z.of_nat (length bytes))) (Some type))
    | None => Raise (ClientError "404")
    end;
  bucket_range k hi : 0 ≤ hi → s3_get_range name k 0 hi =
    match objects !! k with
    | Some ([], _) => Raise (ClientError "InvalidRange")
    | Some (bytes, _) => Ok (take (Z.to_nat (hi + 1)) bytes)
    | None => Raise (ClientError "NoSuchKey")
    end;
}.

(** ** Lemmas *)

Lemma bytes_start_take (sig bytes : list ascii) (n : nat) : (length sig ≤ n)%nat → bytes_start sig (take n bytes) = bytes_start sig bytes.
Proof.
  unfold bytes_start. revert bytes n. induction sig as [|a sig IH]; intros bytes n Hn; [done|]. cbn in Hn.
  destruct n as [|n]; [lia|]. destruct bytes as [|b bytes]; [done|]. cbn. destruct (Ascii.eqb a b); [|done]. apply IH. lia.
Qed.

(** Sixteen bytes decide. *)
Lemma is_image_take (bytes : list ascii) : is_image (take 16 bytes) = is_image bytes.
Proof. unfold is_image, IMAGE_MAGIC. cbn [existsb]. by rewrite !bytes_start_take by (cbn; lia). Qed.

Lemma is_image_nonempty (bytes : list ascii) : is_image bytes = true → bytes ≠ [].
Proof. by intros H ->. Qed.

Section OnBucket.
Context `{Aws} (self : S3StorageClient) (objects : gmap string (list ascii * string)) `{!Bucket (s3_bucket self) objects}.

Lemma s3_head_spec (k : string) : s3_head self k =
  Ok (match objects !! k with Some (bytes, type) => Some (mk_ObjectHead true (Z.of_nat (length bytes)) type) | None => None end).
Proof. unfold s3_head. rewrite bucket_head. by destruct (objects !! k) as [[bytes type]|]. Qed.

Lemma s3_verify_spec (k type : string) (bytes : list ascii) : objects !! k = Some (bytes, type) →
  s3_verify self k = if bool_decide (bytes = []) then Raise (ClientError "InvalidRange") else Ok (is_image bytes).
Proof.
  intros Hk. unfold s3_verify. rewrite bucket_range, Hk by done. destruct bytes as [|b bytes]; [done|].
  rewrite <- (is_image_take (b :: bytes)). done.
Qed.

(** [confirm] over the client, as a function of the bucket. *)
Lemma confirm_on_bucket (max_bytes : Z) (key : string) : confirm (H := s3_storage self) max_bytes key =
  (validate_key key;;
   match objects !! key with
   | None => Raise BadRequestError
   | Some (bytes, type) =>
       raise_if (max_bytes <? Z.of_nat (length bytes)) BadRequestError;;
       raise_if (negb (allowed_image_type type)) BadRequestError;;
       raise_if (bool_decide (bytes = [])) (ClientError "InvalidRange");;
       raise_if (negb (is_image bytes)) BadRequestError
   end).
Proof.
  unfold confirm. destruct (validate_key key) as [[]|e]; [|done]. cbn [mbind res_bind]. cbn [head_object s3_storage].
  rewrite s3_head_spec. cbn [mbind res_bind]. destruct (objects !! key) as [[bytes type]|] eqn:E; [|done].
  cbn [oh_exists oh_byte_size oh_content_type negb raise_if mbind res_bind].
  destruct (max_bytes <? _); [done|]. cbn [raise_if mbind res_bind]. destruct (allowed_image_type type); [|done].
  cbn [negb raise_if mbind res_bind verify_image_magic_bytes s3_storage]. rewrite (s3_verify_spec key type bytes E).
  by destruct (bool_decide (bytes = [])).
Qed.
End OnBucket.

Lemma fake_confirm (objects : fake_objects) (max_bytes n : Z) (key type : string) : n ≤ max_bytes → allowed_image_type type = true →
  confirm (H := fake_storage (fake_create_upload_url key type n objects).2) max_bytes key = validate_key key.
Proof.
  intros Hn Ht. unfold confirm. cbn [head_object verify_image_magic_bytes fake_storage fake_create_upload_url snd].
  unfold fake_head_object, fake_verify_image_magic_bytes. rewrite lookup_insert_eq. destruct (validate_key key) as [[]|]; [|done].
  cbn [mbind res_bind oh_exists oh_byte_size oh_content_type negb raise_if]. rewrite (proj2 (Z.ltb_ge _ _) Hn).
  cbn [mbind res_bind negb raise_if]. by rewrite Ht.
Qed.

(** ** Properties *)

(** [C38] Confirming an upload through the S3 client, said of the objects in the bucket: [confirm] succeeds exactly on a key of the
    allow-list whose object is there, within the size limit, declared as JPEG or PNG and beginning with the signature of one of
    them (the first sixteen bytes decide); every refusal is a [BadRequestError], except that an empty object of an allowed
    type makes the ranged read fail with S3's own error.  The in-memory double confirms what was requested from it whenever
    the key is on the allow-list. *)
Theorem media_confirm_exact `{Aws} (self : S3StorageClient) (objects : gmap string (list ascii * string)) (max_bytes : Z) (key : string) :
  Bucket (s3_bucket self) objects →
  (confirm (H := s3_storage self) max_bytes key = Ok () ↔
     validate_key key = Ok () ∧ ∃ bytes type, objects !! key = Some (bytes, type) ∧ Z.of_nat (length bytes) ≤ max_bytes ∧
       allowed_image_type type = true ∧ is_image bytes = true) ∧
  (∀ e, confirm (H := s3_storage self) max_bytes key = Raise e →
     e = BadRequestError ∨ e = ClientError "InvalidRange" ∧ ∃ type, objects !! key = Some ([], type)) ∧
  (∀ fakes type n, n ≤ max_bytes → allowed_image_type type = true →
     confirm (H := fake_storage (fake_create_upload_url key type n fakes).2) max_bytes key = validate_key key).
Proof.
  intros HB. rewrite (confirm_on_bucket self objects). split; [|split; [|intros; by apply fake_confirm]].
  - split.
    + intros ([] & Hv & Hr)%res_bind_ok. split; [done|]. destruct (objects !! key) as [[bytes type]|] eqn:E; [|done].
      apply res_bind_ok in Hr as (u1 & H1 & Hr). apply res_bind_ok in Hr as (u2 & H2 & Hr). apply res_bind_ok in Hr as (u3 & H3 & H4).
      apply raise_if_ok in H1, H2, H4. apply negb_false_iff in H2, H4. exists bytes, type. repeat split; try done. lia.
    + intros (Hv & bytes & type & E & Hs & Ht & Hi). rewrite Hv, E. cbn [mbind res_bind].
      rewrite (proj2 (Z.ltb_ge _ _) Hs), Ht, Hi. rewrite bool_decide_false by (by apply is_image_nonempty). done.
  - intros e. unfold validate_key. destruct (raise_if _ BadRequestError) as [[]|e'] eqn:Ev; cbn [mbind res_bind].
    + destruct (objects !! key) as [[bytes type]|]; [|intros [= <-]; by left].
      destruct (max_bytes <? _); [intros [= <-]; by left|]. destruct (allowed_image_type type); [|intros [= <-]; by left].
      cbn [negb raise_if mbind res_bind]. case_bool_decide as Hb; [intros [= <-]; subst; right; eauto|].
      destruct (is_image bytes); [done|]. intros [= <-]. by left.
    + unfold raise_if in Ev. destruct (_ || _); [|done]. intros [= <-]. injection Ev as <-. by left.
Qed.

(** *** A bucket with one photo *)

Definition photo : list ascii := (ascii_of_N <$> [137; 80; 78; 71; 13; 10; 26; 10]%N) ++ replicate 24 "x"%char.
Definition photos : gmap string (list ascii * string) := {[ good_key := (photo, "image/png"%string) ]}.

Definition aws_with (objects : gmap string (list ascii * string)) : Aws := {|
  generate_presigned_url bucket key type length ttl := Ok ("https://" +:+ bucket +:+ "/" +:+ key);
  s3_head_object _ k :=
    match objects !! k with
    | Some (bytes, type) => Ok (mk_head_response (Some (Z.of_nat (length bytes))) (Some type))
    | None => Raise (ClientError "404")
    end;
  s3_get_range _ k lo hi :=
    match objects !! k with
    | Some ([], _) => Raise (ClientError "InvalidRange")
    | Some (bytes, _) => Ok (take (Z.to_nat (hi + 1)) bytes)
    | None => Raise (ClientError "NoSuchKey")
    end;
  load_pem_private_key pem := Ok (RSAPrivateKey pem);
  rsa_sign _ m := m;
  cloudfront_presign _ _ url _ := url;
|}.

Lemma aws_with_bucket (objects : gmap string (list ascii * string)) (name : string) : Bucket (H := aws_with objects) name objects.
Proof. by split. Qed.

Definition client0 : S3StorageClient := mk_S3StorageClient "gifts" "me-south-1" "id" "secret" "cdn.example" "pair" (RSAPrivateKey "pem").

Lemma media_confirm_exact_witness :
  confirm (H := @s3_storage (aws_with photos) client0) 4096 good_key = Ok () ∧
  (∀ e, confirm (H := @s3_storage (aws_with photos) client0) 8 good_key = Raise e → e = BadRequestError ∨
     e = ClientError "InvalidRange" ∧ ∃ type, photos !! good_key = Some ([], type)).
Proof.
  split.
  - apply (proj1 (@media_confirm_exact (aws_with photos) client0 photos 4096 good_key (aws_with_bucket photos _))).
    split; [by vm_compute|]. exists photo, "image/png"%string. split; [by vm_compute|]. split; [by vm_compute|]. by split; vm_compute.
  - exact (proj1 (proj2 (@media_confirm_exact (aws_with photos) client0 photos 8 good_key (aws_with_bucket photos _)))).
Defined.

(** ** Construction and shutdown *)

Lemma construct_doubles `{Aws} (b64encode : string → string) (s : AppSettings) : is_production s = false →
  construct_clients b64encode s = Ok (inr (mk_FakeClients 1 [] ∅ [] ∅)).
Proof.
  intros Hp. unfold construct_clients. rewrite Hp. unfold build_fake_clients, construct_fake, forbid_in_production.
  unfold is_production in Hp. by rewrite Hp.
Qed.

(** The double's constructors are a second guard. *)
Lemma doubles_refuse_production `{Aws} : build_fake_clients PRODUCTION = Raise RuntimeError.
Proof. done. Qed.

Lemma construct_real `{Aws} (b64encode : string → string) (s : AppSettings) :
  is_production s = true → Config.build_clients s = Some Real →
  (∃ c, construct_clients b64encode s = Ok (inl c)) ↔
  ∃ k pem, CLOUDFRONT_PRIVATE_KEY s = Some k ∧
    load_pem_private_key (to_text (unescape_newlines (of_text (get_secret_value k)))) = Ok (RSAPrivateKey pem).
Proof.
  intros Hp Hb. unfold construct_clients, build_production_clients, Config.build_clients in *. rewrite Hp in *.
  destruct (STREAMPAY_API_KEY s), (STREAMPAY_API_SECRET s), (STREAMPAY_WEBHOOK_SECRET s), (SNDR_API_KEY s), (AWS_ACCESS_KEY_ID s),
    (AWS_SECRET_ACCESS_KEY s), (CLOUDFRONT_PRIVATE_KEY s) as [k|]; try done. clear Hb. cbn [required_secret mbind res_bind].
  unfold new_S3StorageClient. destruct (load_pem_private_key _) as [[pem|pem]|e] eqn:E; cbn; split.
  1: intros _; by exists k, pem.
  1: intros _; by eexists.
  1,3: by intros [c Hc].
  all: intros (k' & pem' & [= <-] & E'); congruence.
Qed.

(** A pool that does not close keeps those after it open. *)
Lemma close_all_spec (close : pool → res ()) (l : list pool) :
  (close_all close l).2 = Ok () ∧ (close_all close l).1 = l ∨
  ∃ a p b e, l = a ++ p :: b ∧ close p = Raise e ∧ close_all close l = (a, Raise e).
Proof.
  induction l as [|p l IH]; [by left|]. cbn. destruct (close p) as [[]|e] eqn:E.
  - destruct (close_all close l) as [closed r]. cbn in IH.
    destruct IH as [[-> ->]|(a & q & b & e & -> & Hq & [= -> ->])]; [by left|]. right. by exists (p :: a), q, b, e.
  - right. by exists [], p, l, e.
Qed.

(** The redis pool and the engine stay open when the gateway client does not close. *)
Lemma shutdown_leaks (c : RealClients) :
  lifespan_shutdown (λ p, match p with GatewayPool => Raise RuntimeError | _ => Ok () end) (inl c) = ([], Raise RuntimeError).
Proof. done. Qed.

(** An empty upload of an allowed type is answered with S3's error, not refused. *)
Lemma empty_upload_fails :
  confirm (H := @s3_storage (aws_with {[ good_key := ([], "image/png"%string) ]}) client0) 4096 good_key = Raise (ClientError "InvalidRange").
Proof. by vm_compute. Qed.
