(* ===== verification/Fulfillment.v ===== *)
(** * Fulfilment ([app/services/fulfillment_service.py], [app/repositories/dispute_repository.py])

    Delivery inside the geofence, approval (by the customer or by the sweep) with
    the release of the escrow, and disputes with their three outcomes. *)

From Stdlib Require Import ZArith QArith Lia.
From stdpp Require Import base list gmap strings numbers option sorting.
From S2P Require Import Prelude Errors PyDecimal Money Pricing Enums OrderState Tables Database Ledger Movements Promos.
From S2P Require Import Crypto Media Orders Invoices Payments.
Open Scope Z_scope.

(** ** [DisputeRepository] *)

Definition create_dispute (order_id raised_by_user_id : uuid) (reason : string) : M uuid :=
  now ← get_now;
  insert_row (mk_Dispute order_id raised_by_user_id reason DisputeStatus.OPEN None None None now).

Definition get_dispute_for_order (order_id : uuid) : M (option (uuid * Dispute)) :=
  scalar (λ _ x, same (dis_order_id x) order_id).

Definition lock_dispute (dispute_id : uuid) : M (option Dispute) := get_row dispute_id.

Definition resolve (dispute_id : uuid) (x : Dispute) (status : dispute_status) (admin_id : uuid)
    (note : option string) (when_ : instant) : M Dispute :=
  let x' := x <| dis_status := status |> <| dis_resolved_by_admin_id := Some admin_id |>
              <| dis_resolution_note := note |> <| dis_resolved_at := Some when_ |> in
  update_row dispute_id x';;
  mret x'.

(** ** [FulfillmentService] *)

Record DeliveryInput := mk_DeliveryInput {
  de_latitude : Z;
  de_longitude : Z;
  de_proof_media_keys : list string;
  de_note : option string;
}.

Definition MAX_PROOF_MEDIA : nat := 5.

Section Service.
Context `{StorageClient} (MAX_UPLOAD_BYTES : Z) (settings : Settings).
(** PostGIS [ST_Distance] on geographies, in metres. *)
Context (st_distance : point → point → Q).

Definition distance_to_delivery (order_id : uuid) (longitude latitude : Z) : M (option Q) :=
  o ← get_row order_id;
  mret ((λ x, st_distance (ord_delivery_location x) (mk_point longitude latitude)) <$> o).

Definition submit_delivery (order_id courier_id : uuid) (data : DeliveryInput) : M Order :=
  mine ← order_for_actor order_id courier_id;
  unwrap mine NotFoundError;;
  o ← lock_order_row order_id;
  order ← unwrap o NotFoundError;
  lift (assert_transition (ord_status order) OrderStatus.DELIVERED);;
  guard_ match de_proof_media_keys data with [] => true | _ => false end ValidationDomainError;;
  guard_ (MAX_PROOF_MEDIA <? length (de_proof_media_keys data))%nat ValidationDomainError;;
  distance ← distance_to_delivery order_id (de_longitude data) (de_latitude data);
  guard_ match distance with
         | None => true
         | Some q => negb (Qle_bool q (inject_Z (MAX_DELIVERY_RADIUS_METERS settings)))
         end ValidationDomainError;;
  for_each (λ key, lift (confirm MAX_UPLOAD_BYTES key)) (de_proof_media_keys data);;
  captured_at ← get_now;
  for_each (λ key, add_media order_id courier_id MediaType.DELIVERY_PROOF key "image/jpeg" 0
              (Some (de_longitude data)) (Some (de_latitude data)) (Some captured_at))
    (de_proof_media_keys data);;
  now ← get_now;
  let order' := order <| ord_status := OrderStatus.DELIVERED |> <| ord_delivered_at := Some now |> in
  update_row order_id order';;
  mret order'.
End Service.

Section Escrow.
Context (settings : Settings).

Definition settlement_of (invoice : Invoice) : res Settlement :=
  compute_settlement (sar (inv_items_net_amount invoice)) (sar (inv_courier_fee_amount invoice))
    (sar (inv_tax_amount invoice)) (sar (inv_total_amount invoice)) (PLATFORM_COMMISSION_RATE settings).

(** The active invoice of the order, which must be PAID. *)
Definition paid_invoice (order_id : uuid) : M (uuid * Invoice) :=
  i ← get_active_for_order order_id;
  p ← unwrap i ConflictError;
  guard_ (negb (same (inv_status p.2) InvoiceStatus.PAID)) ConflictError;;
  mret p.

Definition release_payout (order_id : uuid) (p : uuid * Invoice) (courier_wallet_id : uuid) : M Settlement :=
  settlement ← lift (settlement_of p.2);
  release_escrow_on_completion order_id p.1 courier_wallet_id
    (courier_payout_amount settlement) (st_tax_amount settlement) (platform_revenue_amount settlement);;
  mret settlement.

Definition complete_and_release (order_id : uuid) (order : Order) : M Order :=
  lift (assert_transition (ord_status order) OrderStatus.COMPLETED);;
  p ← paid_invoice order_id;
  courier_id ← unwrap (ord_courier_id order) ConflictError;
  w ← get_by_user courier_id;
  courier_wallet ← unwrap w NotFoundError;
  settlement ← release_payout order_id p courier_wallet.1;
  now ← get_now;
  commission ← lift (numeric_12_2 (commission_amount settlement));
  payout ← lift (numeric_12_2 (courier_payout_amount settlement));
  let order' := order <| ord_status := OrderStatus.COMPLETED |> <| ord_completed_at := Some now |>
                      <| ord_commission_amount := commission |> <| ord_courier_payout_amount := payout |> in
  update_row order_id order';;
  mret order'.

Definition approve_order (order_id customer_id : uuid) : M Order :=
  mine ← order_for_actor order_id customer_id;
  unwrap mine NotFoundError;;
  o ← lock_order_row order_id;
  order ← unwrap o NotFoundError;
  complete_and_release order_id order.

Definition auto_approve (order_id : uuid) : M bool :=
  o ← lock_order_row order_id;
  match o with
  | None => mret false
  | Some order =>
      if negb (same (ord_status order) OrderStatus.DELIVERED) then mret false
      else complete_and_release order_id order;; mret true
  end.

Definition raise_dispute (order_id actor_id : uuid) (reason : string) : M uuid :=
  mine ← order_for_actor order_id actor_id;
  unwrap mine NotFoundError;;
  o ← lock_order_row order_id;
  order ← unwrap o NotFoundError;
  existing ← get_dispute_for_order order_id;
  guard_ (not_null existing) ConflictError;;
  lift (assert_transition (ord_status order) OrderStatus.DISPUTED);;
  update_row order_id (order <| ord_status := OrderStatus.DISPUTED |>);;
  create_dispute order_id actor_id reason.

(** The escrow movement of an outcome; returns the order with the fields the
    outcome sets and its target status. *)
Definition apply_dispute_outcome (order_id : uuid) (order : Order) (p : uuid * Invoice)
    (outcome : dispute_status) (courier_amount : option dec) : M (Order * order_status) :=
  courier_id ← unwrap (ord_courier_id order) ConflictError;
  cw ← get_by_user courier_id;
  uw ← get_by_user (ord_customer_id order);
  courier_wallet ← unwrap cw NotFoundError;
  customer_wallet ← unwrap uw NotFoundError;
  let total := sar (inv_total_amount p.2) in
  match outcome with
  | DisputeStatus.RESOLVED_CUSTOMER =>
      refund_escrow order_id p.1 customer_wallet.1 total;;
      mret (order, OrderStatus.REFUNDED)
  | DisputeStatus.RESOLVED_COURIER =>
      settlement ← release_payout order_id p courier_wallet.1;
      commission ← lift (numeric_12_2 (commission_amount settlement));
      payout ← lift (numeric_12_2 (courier_payout_amount settlement));
      mret (order <| ord_commission_amount := commission |> <| ord_courier_payout_amount := payout |>,
            OrderStatus.COMPLETED)
  | DisputeStatus.RESOLVED_SPLIT =>
      amount ← unwrap courier_amount ValidationDomainError;
      courier_share ← lift (quantize_money amount);
      quantized_total ← lift (quantize_money total);
      guard_ (dltb courier_share ZERO || dltb quantized_total courier_share) ValidationDomainError;;
      split_escrow order_id p.1 courier_wallet.1 customer_wallet.1 courier_share (dsub total courier_share);;
      payout ← lift (numeric_12_2 courier_share);
      mret (order <| ord_courier_payout_amount := payout |>, OrderStatus.COMPLETED)
  | DisputeStatus.OPEN => raise ValidationDomainError
  end.

Definition resolve_dispute (dispute_id admin_id : uuid) (outcome : dispute_status) (note : option string)
    (courier_amount : option dec) : M Dispute :=
  x ← lock_dispute dispute_id;
  dispute ← unwrap x NotFoundError;
  guard_ (negb (same (dis_status dispute) DisputeStatus.OPEN)) ConflictError;;
  let order_id := dis_order_id dispute in
  o ← lock_order_row order_id;
  order ← unwrap o NotFoundError;
  p ← paid_invoice order_id;
  applied ← apply_dispute_outcome order_id order p outcome courier_amount;
  let target := applied.2 in
  lift (assert_transition (ord_status order) target);;
  now ← get_now;
  let order' := applied.1 <| ord_status := target |> in
  update_row order_id
    (if same target OrderStatus.COMPLETED then order' <| ord_completed_at := Some now |> else order');;
  resolve dispute_id dispute outcome admin_id note now.

Definition auto_approve_cutoff : M instant :=
  now ← get_now; mret (now - AUTO_APPROVE_HOURS settings * 3600).
End Escrow.

(** ** Framing *)

Lemma keeps_dispute_for_order P o : keeps P (get_dispute_for_order o).
Proof. apply keeps_scalar. Qed.

Lemma keeps_paid_invoice P o : keeps P (paid_invoice o).
Proof. unfold paid_invoice. keeps_auto. Qed.

Lemma keeps_distance P f o x y : keeps P (distance_to_delivery f o x y).
Proof. unfold distance_to_delivery. keeps_auto. Qed.

#[export] Hint Resolve keeps_dispute_for_order keeps_paid_invoice keeps_distance : giftly.
#[export] Hint Extern 1 (keeps _ (lock_dispute _)) => apply keeps_get : giftly.

Section FulfillmentFrame.
Context (P : db → Prop) `{!FrameNext P} `{!Frame P Order}.

Lemma frame_submit_delivery `{StorageClient} `{!Frame P OrderMedia} n s f o c data :
  keeps P (submit_delivery n s f o c data).
Proof. unfold submit_delivery. keeps_auto. Qed.

Context `{!Frame P Dispute}.

Lemma frame_create_dispute o u r : keeps P (create_dispute o u r).
Proof. unfold create_dispute. keeps_auto. Qed.

Hint Resolve frame_create_dispute : giftly.

Lemma frame_raise_dispute o a r : keeps P (raise_dispute o a r).
Proof. unfold raise_dispute. keeps_auto. Qed.

Context (Hrel : ∀ o i w p t r, keeps P (release_escrow_on_completion o i w p t r))
  (Href : ∀ o i w a, keeps P (refund_escrow o i w a)) (Hsplit : ∀ o i w u a b, keeps P (split_escrow o i w u a b)).

Lemma frame_release_payout s o p w : keeps P (release_payout s o p w).
Proof. unfold release_payout. keeps_auto. Qed.

Hint Resolve frame_release_payout : giftly.

Lemma frame_complete s o x : keeps P (complete_and_release s o x).
Proof. unfold complete_and_release. keeps_auto. Qed.

Hint Resolve frame_complete : giftly.

Lemma frame_approve s o c : keeps P (approve_order s o c).
Proof. unfold approve_order. keeps_auto. Qed.

Lemma frame_auto_approve s o : keeps P (auto_approve s o).
Proof. unfold auto_approve. keeps_auto. Qed.

Lemma frame_apply_outcome s oid o p out a : keeps P (apply_dispute_outcome s oid o p out a).
Proof. unfold apply_dispute_outcome. keeps_auto. Qed.

Hint Resolve frame_apply_outcome : giftly.

Lemma frame_resolve_dispute s x a out note c : keeps P (resolve_dispute s x a out note c).
Proof. unfold resolve_dispute, resolve. keeps_auto. Qed.
End FulfillmentFrame.

#[export] Hint Resolve frame_submit_delivery frame_create_dispute frame_raise_dispute frame_release_payout
  frame_complete frame_approve frame_auto_approve frame_apply_outcome frame_resolve_dispute : giftly.

(** ** Release of the escrow *)

(** An issued invoice as the table stores it. *)
Record invoice_stored (i : Invoice) : Prop := {
  is_math : invoice_math i;
  is_bounds : inv_items_net_amount i < AMT ∧ inv_courier_fee_amount i < AMT ∧ inv_tax_amount i < AMT ∧
    inv_total_amount i < AMT;
}.

Definition commission_of (s : Settings) (i : Invoice) : Z :=
  Spec.times_rate (inv_items_net_amount i + inv_courier_fee_amount i) (PLATFORM_COMMISSION_RATE s).

Lemma settlement_of_run (s : Settings) (i : Invoice) :
  wf_rate (PLATFORM_COMMISSION_RATE s) → invoice_stored i →
  let c := commission_of s i in
  0 ≤ c ≤ inv_items_net_amount i + inv_courier_fee_amount i ∧
  settlement_of s i = Ok (mk_Settlement (sar c) (sar (inv_items_net_amount i + inv_courier_fee_amount i - c))
    (sar (inv_tax_amount i)) (sar (inv_service_fee_amount i + c - inv_discount_amount i))).
Proof.
  intros Hr [[Hn Ht Hp Hnn _] Hb] c. unfold settlement_of.
  destruct (compute_settlement_spec (inv_items_net_amount i) (inv_courier_fee_amount i) (inv_tax_amount i)
    (inv_total_amount i) (PLATFORM_COMMISSION_RATE s)) as [Hc E]; [done|lia..|].
  split; [exact Hc|]. rewrite E. unfold c, commission_of. do 2 f_equal. f_equal. lia.
Qed.

Lemma paid_invoice_ok (oid : uuid) (d : db) (p : uuid * Invoice) (d' : db) :
  paid_invoice oid d = Ok (p, d') →
  d' = d ∧ tb_invoices d !! p.1 = Some p.2 ∧ inv_order_id p.2 = oid ∧ inv_status p.2 = InvoiceStatus.PAID.
Proof.
  intros Hr. unfold paid_invoice in Hr. apply bind_ok in Hr as (x & d0 & [-> Hx]%get_active_for_order_ok & Hr).
  inv_run Hr. rewrite negb_false_iff in E. apply (proj1 (same_true _ _)) in E. destruct p as [k i]. by destruct Hx as (? & ? & ?).
Qed.

(** The four legs of a release: what the courier, the tax authority and the
    platform get of the invoice total, for a commission [c]. *)
Definition release_moves (i : Invoice) (c : Z) (ew cw tw rw : uuid) : list (uuid * Z) :=
  [(ew, - inv_total_amount i); (cw, inv_items_net_amount i + inv_courier_fee_amount i - c);
   (tw, inv_tax_amount i); (rw, inv_service_fee_amount i + c - inv_discount_amount i)].

Section Release.
Context (s : Settings) (Hrate : wf_rate (PLATFORM_COMMISSION_RATE s)).

(** The released amounts of invoice [i] of order [oid], or a recognised replay. *)
Definition released (oid : uuid) (i : Invoice) (cw : uuid) (b : bool) (d d' : db) : Prop :=
  ∃ ew tw rw, system_wallet d WalletType.SYSTEM_ESCROW ew ∧ system_wallet d WalletType.SYSTEM_TAX_PAYABLE tw ∧
    system_wallet d WalletType.SYSTEM_REVENUE rw ∧
    transferred (release_key oid) (release_moves i (commission_of s i) ew cw tw rw) b d d'.

Lemma release_payout_ok (oid : uuid) (p : uuid * Invoice) (cw : uuid) (d : db) (st : Settlement) (d' : db) :
  ledger_ok d → invoice_stored p.2 → release_payout s oid p cw d = Ok (st, d') →
  commission_amount st = sar (commission_of s p.2) ∧
  courier_payout_amount st = sar (inv_items_net_amount p.2 + inv_courier_fee_amount p.2 - commission_of s p.2) ∧
  ∃ b, released oid p.2 cw b d d'.
Proof.
  intros Hd Hi Hr. destruct (settlement_of_run s p.2 Hrate Hi) as [Hc E]. unfold release_payout in Hr.
  rewrite E in Hr. erewrite bind_run in Hr by reflexivity. inv_run Hr. split; [done|]. split; [done|].
  destruct Hi as [[Hn Ht Hp Hnn _] Hb]. unfold AMT in *.
  match goal with R : release_escrow_on_completion _ _ _ _ _ _ _ = Ok (?b, _) |- _ =>
    apply (release_transferred _ Hd) in R as (ew & tw & rw & He & Htw & Hrw & R); [exists b, ew, tw, rw|lia..] end.
  do 3 (split; [done|]). eapply transferred_ext; [|eassumption]. intros wid. unfold release_moves. rewrite !delta_cons. cbn.
  repeat destruct (same _ _); lia.
Qed.

Lemma complete_and_release_ok (oid : uuid) (o o' : Order) (d d' : db) :
  ledger_ok d → (∀ k i, tb_invoices d !! k = Some i → inv_status i = InvoiceStatus.PAID → invoice_stored i) →
  complete_and_release s oid o d = Ok (o', d') →
  ∃ iid i cid cw w b, order_step (ord_status o) OrderStatus.COMPLETED ∧
    tb_invoices d !! iid = Some i ∧ inv_order_id i = oid ∧ inv_status i = InvoiceStatus.PAID ∧
    ord_courier_id o = Some cid ∧ tb_wallets d !! cw = Some w ∧ w_user_id w = Some cid ∧
    released oid i cw b d d' ∧
    o' = o <| ord_status := OrderStatus.COMPLETED |> <| ord_completed_at := Some (db_now d) |>
           <| ord_commission_amount := commission_of s i |>
           <| ord_courier_payout_amount := inv_items_net_amount i + inv_courier_fee_amount i - commission_of s i |> ∧
    tb_orders d' = <[oid := o']> (tb_orders d).
Proof.
  intros Hd Hinv Hr. unfold complete_and_release in Hr.
  apply bind_ok in Hr as (u & d0 & [Hs%assert_transition_ok ->]%lift_ok & Hr).
  apply bind_ok in Hr as (p & d0 & (-> & Hi & Ho & Hp)%paid_invoice_ok & Hr).
  apply bind_ok in Hr as (cid & d0 & [Hc ->]%unwrap_ok & Hr).
  apply bind_ok in Hr as (x & d0 & [-> Hx]%get_by_user_ok & Hr).
  apply bind_ok in Hr as ([cw w] & d0 & [-> ->]%unwrap_ok & Hr). destruct Hx as [Hw Hu].
  apply bind_ok in Hr as (st & d1 & Hrel & Hr). assert (Hst := Hinv _ _ Hi Hp).
  same_after tb_orders Hrel. same_after db_now Hrel.
  destruct (release_payout_ok _ _ _ _ _ _ Hd Hst Hrel) as (Ec & Ep & b & Hb).
  destruct (settlement_of_run s p.2 Hrate Hst) as [Hcm _]. destruct Hst as [[_ _ _ Hnn _] Hbd]. unfold AMT in Hbd.
  erewrite bind_run in Hr by reflexivity. rewrite Ec, Ep in Hr. inv_run Hr. inv_writes.
  repeat match goal with N : numeric_12_2 (sar _) = Ok _ |- _ => apply numeric_sar_inv in N as [-> _] end.
  exists p.1, p.2, cid, cw, w, b. do 7 (split; [done|]). split; [exact Hb|].
  split; [by rewrite K0|]. cbn. by rewrite K.
Qed.

End Release.

(** What completion does to the orders, whatever happens to the money. *)
Lemma complete_row (s : Settings) (oid : uuid) (o o' : Order) (d d' : db) :
  complete_and_release s oid o d = Ok (o', d') →
  order_step (ord_status o) OrderStatus.COMPLETED ∧ ord_status o' = OrderStatus.COMPLETED ∧
  ord_customer_id o' = ord_customer_id o ∧ ord_courier_id o' = ord_courier_id o ∧
  tb_orders d' = <[oid := o']> (tb_orders d).
Proof.
  intros Hr. unfold complete_and_release in Hr.
  apply bind_ok in Hr as (u & d0 & [Hs%assert_transition_ok ->]%lift_ok & Hr).
  apply bind_ok in Hr as (p & d0 & (-> & _)%paid_invoice_ok & Hr).
  apply bind_ok in Hr as (cid & d0 & [_ ->]%unwrap_ok & Hr).
  apply bind_ok in Hr as (x & d0 & [-> _]%get_by_user_ok & Hr). apply bind_ok in Hr as (w & d0 & [_ ->]%unwrap_ok & Hr).
  apply bind_ok in Hr as (st & d1 & Hrel & Hr). same_after tb_orders Hrel. inv_run Hr. inv_writes.
  do 4 (split; [done|]). cbn. by rewrite K.
Qed.

Lemma complete_evolve (s : Settings) (oid : uuid) (o o' : Order) (d d' : db) :
  tb_orders d !! oid = Some o → complete_and_release s oid o d = Ok (o', d') → orders_evolve d d'.
Proof.
  intros Ho (Hs & E & E1 & E2 & Et)%complete_row. eapply evolve_move; [exact Ho|..|exact Et]; [by rewrite E|done|done].
Qed.

Lemma approve_order_ok (s : Settings) (oid cid : uuid) (d : db) (o' : Order) (d' : db) :
  approve_order s oid cid d = Ok (o', d') →
  ∃ o, tb_orders d !! oid = Some o ∧ participant cid o = true ∧ complete_and_release s oid o d = Ok (o', d').
Proof.
  intros Hr. unfold approve_order, lock_order_row in Hr. erewrite bind_run in Hr by apply order_for_actor_run.
  apply bind_ok in Hr as (x & d0 & [Hx ->]%unwrap_ok & Hr). erewrite bind_run in Hr by reflexivity.
  apply bind_ok in Hr as (o & d0 & [Ho ->]%unwrap_ok & Hr). cbn in Ho. rewrite Ho in Hx.
  destruct (participant cid o) eqn:Hp; [|done]. by exists o.
Qed.

Lemma approve_evolve (s : Settings) (oid cid : uuid) (d : db) (o' : Order) (d' : db) :
  approve_order s oid cid d = Ok (o', d') → orders_evolve d d'.
Proof. intros Hr. apply approve_order_ok in Hr as (o & Ho & _ & Hr). by eapply complete_evolve. Qed.

Lemma auto_approve_evolve (s : Settings) (oid : uuid) (d : db) (b : bool) (d' : db) :
  auto_approve s oid d = Ok (b, d') → orders_evolve d d'.
Proof.
  intros Hr. unfold auto_approve, lock_order_row in Hr. erewrite bind_run in Hr by reflexivity. cbn in Hr.
  destruct (tb_orders d !! oid) as [o|] eqn:Ho; [|injection Hr as _ <-; reflexivity].
  destruct (negb _); [injection Hr as _ <-; reflexivity|]. inv_run Hr. by eapply complete_evolve.
Qed.

(** ** Properties *)

(** Order 50 paid from the wallet and delivered: 144.90 in escrow. *)
Definition db_delivered : db :=
  (state_after (@pay_invoice gateway0 settings0 40 70) db_waiting)
  <| tb_orders := {[ 50%N := order_assigned <| ord_status := OrderStatus.DELIVERED |> <| ord_total_amount := 14490 |> ]} |>.

Lemma ledger_ok_delivered : ledger_ok db_delivered.
Proof.
  unfold db_delivered. generalize (keeps_state_after ledger_ok _ _ (@keeps_ledger_pay gateway0 settings0 40 70) ledger_ok_waiting).
  generalize (state_after (@pay_invoice gateway0 settings0 40 70) db_waiting). intros d. by apply ledger_frame.
Qed.

Definition paid_stored (d : db) : Prop :=
  ∀ k i, tb_invoices d !! k = Some i → inv_status i = InvoiceStatus.PAID → invoice_stored i.

Lemma paid_stored_delivered : paid_stored db_delivered.
Proof.
  intros k i Hi _. enum_lookup Hi. constructor; [constructor|]; cbn; unfold AMT; try lia. by left.
Qed.

Lemma settings0_rate : wf_rate (PLATFORM_COMMISSION_RATE settings0).
Proof. unfold wf_rate. cbn. lia. Qed.

(** Only DELIVERED and DISPUTED orders can be completed: no approval succeeds on another. *)
Lemma undelivered_not_approved (s : Settings) (oid cid : uuid) (d : db) (o : Order) :
  tb_orders d !! oid = Some o → ord_status o ≠ OrderStatus.DELIVERED → ord_status o ≠ OrderStatus.DISPUTED →
  (approve_order s oid cid d = Raise NotFoundError ∨ approve_order s oid cid d = Raise InvalidStateTransitionError) ∧
  auto_approve s oid d = Ok (false, d).
Proof.
  intros Ho Hs Hs'. split.
  - unfold approve_order, lock_order_row. rewrite (bind_run _ _ _ _ _ (order_for_actor_run _ _ _)), Ho.
    destruct (participant cid o); [|by left]. right. erewrite !bind_run by reflexivity. cbn. rewrite Ho.
    erewrite bind_run by reflexivity. unfold complete_and_release. by destruct (ord_status o).
  - unfold auto_approve, lock_order_row. erewrite bind_run by reflexivity. cbn. rewrite Ho.
    by destruct (ord_status o).
Qed.

(** [C6] Approving a delivery pays out the escrow exactly once. Of an order that is not in a
    dispute, only a DELIVERED one with a PAID invoice is approved, every other status is
    refused (and so is the caller who is no party to it); the escrow gives up exactly the invoice total, of which the
    courier receives the undiscounted base less the commission, the tax wallet the
    tax, and the platform the rest (so a promo is paid by the platform); the order
    is COMPLETED with these amounts recorded, and neither a second approval nor the
    auto-approve sweep can pay again. *)
Theorem approve_releases_escrow (s : Settings) (oid cid : uuid) (d : db) (o : Order) :
  wf_rate (PLATFORM_COMMISSION_RATE s) → ledger_ok d → paid_stored d → ¬ key_used d (release_key oid) →
  tb_orders d !! oid = Some o → ord_status o ≠ OrderStatus.DISPUTED →
  (ord_status o ≠ OrderStatus.DELIVERED →
     approve_order s oid cid d = Raise NotFoundError ∨ approve_order s oid cid d = Raise InvalidStateTransitionError) ∧
  ∀ o' d', approve_order s oid cid d = Ok (o', d') →
  ∃ iid i courier cw ew tw rw,
    participant cid o = true ∧ ord_status o = OrderStatus.DELIVERED ∧
    tb_invoices d !! iid = Some i ∧ inv_order_id i = oid ∧ inv_status i = InvoiceStatus.PAID ∧
    ord_courier_id o = Some courier ∧ user_wallet d courier cw ∧
    system_wallet d WalletType.SYSTEM_ESCROW ew ∧ system_wallet d WalletType.SYSTEM_TAX_PAYABLE tw ∧
    system_wallet d WalletType.SYSTEM_REVENUE rw ∧
    moved d d' (release_moves i (commission_of s i) ew cw tw rw) ∧
    zsum_by snd (release_moves i (commission_of s i) ew cw tw rw) = 0 ∧
    0 ≤ commission_of s i ≤ inv_items_net_amount i + inv_courier_fee_amount i ∧
    ord_status o' = OrderStatus.COMPLETED ∧ ord_commission_amount o' = commission_of s i ∧
    ord_courier_payout_amount o' = inv_items_net_amount i + inv_courier_fee_amount i - commission_of s i ∧
    tb_orders d' = <[oid := o']> (tb_orders d) ∧
    ∀ actor, (approve_order s oid actor d' = Raise NotFoundError ∨
              approve_order s oid actor d' = Raise InvalidStateTransitionError) ∧
             auto_approve s oid d' = Ok (false, d').
Proof.
  intros Hrate Hd Hst Hkey Ho0 Hdis. split; [intros Hdel; by eapply undelivered_not_approved|].
  intros o' d' Hr. apply approve_order_ok in Hr as (o1 & Ho & Hp & Hr).
  assert (o1 = o) as -> by congruence. clear Ho0.
  apply (complete_and_release_ok s Hrate) in Hr as (iid & i & courier & cw & w & b & Hs & Hi & Hio & Hip & Hc & Hw & Hu
    & (ew & tw & rw & He & Ht & Hrw & Htr) & -> & E); [|done..].
  destruct b; [|by destruct Htr]. destruct Htr as (_ & _ & Hm).
  destruct (settlement_of_run s i Hrate (Hst _ _ Hi Hip)) as [Hcm _].
  destruct (is_math _ (Hst _ _ Hi Hip)) as [Hnet Htot _ _ _].
  exists iid, i, courier, cw, ew, tw, rw. split; [done|]. split; [by destruct (ord_status o)|].
  do 4 (split; [done|]). split; [by exists w|]. do 4 (split; [done|]).
  split; [unfold release_moves, zsum_by; cbn; lia|]. do 5 (split; [done|]).
  intros actor. eapply undelivered_not_approved; [rewrite E; apply lookup_insert_eq|done..].
Qed.

Lemma approve_releases_escrow_witness :
  ∃ o' d', approve_order settings0 50 70 db_delivered = Ok (o', d') ∧
    (∀ actor, (approve_order settings0 50 actor d' = Raise NotFoundError ∨
               approve_order settings0 50 actor d' = Raise InvalidStateTransitionError) ∧
              auto_approve settings0 50 d' = Ok (false, d')).
Proof.
  destruct (approve_order settings0 50 70 db_delivered) as [[o' d']|e] eqn:E.
  2:{ assert (is_ok (approve_order settings0 50 70 db_delivered) = true) as H by (vm_compute; reflexivity).
      rewrite E in H. discriminate H. }
  exists o', d'. split; [done|].
  assert (ord_status <$> tb_orders db_delivered !! 50%N = Some OrderStatus.DELIVERED) as Es by (vm_compute; reflexivity).
  apply fmap_Some in Es as (o & Eo & Es).
  destruct (approve_releases_escrow settings0 50 70 db_delivered o settings0_rate ledger_ok_delivered
    paid_stored_delivered) as [_ H]; [|exact Eo| |].
  - intros (tid & t & Ht & Hk). enum_lookup Ht; discriminate Hk.
  - by rewrite <- Es.
  - destruct (H o' d' E) as (iid & i & courier & cw & ew & tw & rw & H'). apply H'.
Defined.

(** ** Disputes *)

(** How an outcome distributes the escrow of invoice [i] between courier wallet
    [cw] and customer wallet [uw]. *)
Definition dispute_settled (s : Settings) (oid : uuid) (i : Invoice) (outcome : dispute_status)
    (courier_amount : option dec) (cw uw : uuid) (b : bool) (d d' : db) : Prop :=
  match outcome with
  | DisputeStatus.RESOLVED_CUSTOMER =>
      ∃ ew, system_wallet d WalletType.SYSTEM_ESCROW ew ∧
        transferred (refund_key oid) [(ew, - inv_total_amount i); (uw, inv_total_amount i)] b d d'
  | DisputeStatus.RESOLVED_COURIER => released s oid i cw b d d'
  | DisputeStatus.RESOLVED_SPLIT =>
      ∃ ew a z, system_wallet d WalletType.SYSTEM_ESCROW ew ∧ courier_amount = Some a ∧ quantize_money a = Ok (sar z) ∧
        0 ≤ z ≤ inv_total_amount i ∧
        transferred (split_key oid) [(ew, - inv_total_amount i); (cw, z); (uw, inv_total_amount i - z)] b d d'
  | DisputeStatus.OPEN => False
  end.

(** The order status of an outcome. *)
Definition dispute_target (outcome : dispute_status) : order_status :=
  if same outcome DisputeStatus.RESOLVED_CUSTOMER then OrderStatus.REFUNDED else OrderStatus.COMPLETED.

Lemma apply_dispute_outcome_ok (s : Settings) (oid : uuid) (o : Order) (p : uuid * Invoice) (outcome : dispute_status)
    (courier_amount : option dec) (d : db) (r : Order * order_status) (d' : db) :
  wf_rate (PLATFORM_COMMISSION_RATE s) → ledger_ok d → invoice_stored p.2 →
  apply_dispute_outcome s oid o p outcome courier_amount d = Ok (r, d') →
  ∃ courier cw uw b, ord_courier_id o = Some courier ∧ user_wallet d courier cw ∧
    user_wallet d (ord_customer_id o) uw ∧ dispute_settled s oid p.2 outcome courier_amount cw uw b d d' ∧
    r.2 = dispute_target outcome ∧ ord_status r.1 = ord_status o ∧ ord_customer_id r.1 = ord_customer_id o ∧
    ord_courier_id r.1 = ord_courier_id o.
Proof.
  intros Hrate Hd Hst Hr. unfold apply_dispute_outcome in Hr.
  apply bind_ok in Hr as (courier & d0 & [Hc ->]%unwrap_ok & Hr).
  apply bind_ok in Hr as (x & d0 & [-> Hx]%get_by_user_ok & Hr). apply bind_ok in Hr as (y & d0 & [-> Hy]%get_by_user_ok & Hr).
  apply bind_ok in Hr as ([cw w] & d0 & [-> ->]%unwrap_ok & Hr). apply bind_ok in Hr as ([uw w'] & d0 & [-> ->]%unwrap_ok & Hr).
  assert (inv_total_amount p.2 < 10 ^ 12 ∧ 0 < inv_total_amount p.2) as [Hb Hpos] by (destruct Hst as [[] (_ & _ & _ & ?)]; done).
  assert (user_wallet d courier cw ∧ user_wallet d (ord_customer_id o) uw) as [Hcw Huw] by (split; [by exists w|by exists w']).
  destruct outcome; cbn in Hr.
  - discriminate Hr.
  - inv_run Hr. apply (refund_transferred d Hd) in E as (ew & He & Ht); [|lia]. eexists courier, cw, uw, _. do 3 (split; [done|]).
    split; [exists ew; split; [done|exact Ht]|done].
  - apply bind_ok in Hr as (st & d1 & Hrel & Hr). apply (release_payout_ok s Hrate) in Hrel as (_ & _ & b & Hrel); [|done..].
    inv_run Hr. exists courier, cw, uw, b. done.
  - apply bind_ok in Hr as (a & d0 & [Ha ->]%unwrap_ok & Hr). apply bind_ok in Hr as (share & d0 & [Hq ->]%lift_ok & Hr).
    destruct (quantize_money_ok_inv _ _ Hq) as (z & -> & _). rewrite quantize_money_sar in Hr by (unfold small; lia).
    erewrite bind_run in Hr by reflexivity. apply bind_ok in Hr as (u & d0 & [Hg ->]%guard_ok & Hr).
    change ZERO with (sar 0) in Hg. rewrite !dltb_sar, orb_false_iff in Hg. destruct Hg as [Hg1 Hg2].
    rewrite dsub_sar in Hr by (unfold small; lia). inv_run Hr.
    apply (split_transferred d Hd) in E as (ew & He & Ht); [|lia..]. exists courier, cw, uw, v. do 3 (split; [done|]).
    split; [|done]. exists ew, a, z. do 3 (split; [done|]). split; [lia|]. by replace (z + (inv_total_amount p.2 - z)) with (inv_total_amount p.2) in Ht by lia.
Qed.

Lemma resolve_dispute_ok (s : Settings) (did admin : uuid) (outcome : dispute_status) (note : option string)
    (courier_amount : option dec) (d : db) (x' : Dispute) (d' : db) :
  wf_rate (PLATFORM_COMMISSION_RATE s) → ledger_ok d → paid_stored d →
  resolve_dispute s did admin outcome note courier_amount d = Ok (x', d') →
  ∃ x o o' iid i courier cw uw b,
    tb_disputes d !! did = Some x ∧ dis_status x = DisputeStatus.OPEN ∧
    tb_orders d !! dis_order_id x = Some o ∧ order_step (ord_status o) (dispute_target outcome) ∧
    tb_invoices d !! iid = Some i ∧ inv_order_id i = dis_order_id x ∧ inv_status i = InvoiceStatus.PAID ∧
    ord_courier_id o = Some courier ∧ user_wallet d courier cw ∧ user_wallet d (ord_customer_id o) uw ∧
    dispute_settled s (dis_order_id x) i outcome courier_amount cw uw b d d' ∧
    ord_status o' = dispute_target outcome ∧ ord_customer_id o' = ord_customer_id o ∧ ord_courier_id o' = ord_courier_id o ∧
    tb_orders d' = <[dis_order_id x := o']> (tb_orders d) ∧
    dis_status x' = outcome ∧ dis_resolved_by_admin_id x' = Some admin ∧
    tb_disputes d' = <[did := x']> (tb_disputes d).
Proof.
  intros Hrate Hd Hst Hr. unfold resolve_dispute, lock_dispute, lock_order_row in Hr.
  erewrite bind_run in Hr by reflexivity. apply bind_ok in Hr as (x & d0 & [Hx ->]%unwrap_ok & Hr).
  apply bind_ok in Hr as (u & d0 & [Hopen ->]%guard_ok & Hr). erewrite bind_run in Hr by reflexivity.
  apply bind_ok in Hr as (o & d0 & [Ho ->]%unwrap_ok & Hr).
  apply bind_ok in Hr as (p & d0 & (-> & Hi & Hio & Hip)%paid_invoice_ok & Hr).
  apply bind_ok in Hr as (r & d1 & Happ & Hr). same_after tb_orders Happ. same_after tb_disputes Happ.
  apply apply_dispute_outcome_ok in Happ as (courier & cw & uw & b & Hc & Hcw & Huw & Hset & Et & Es & Eu & Ek);
    [|done|done|by eapply Hst].
  apply bind_ok in Hr as (u1 & d0 & [Hstep%assert_transition_ok ->]%lift_ok & Hr). erewrite bind_run in Hr by reflexivity.
  unfold resolve in Hr. inv_run Hr. inv_writes. rewrite negb_false_iff in Hopen. apply (proj1 (same_true _ _)) in Hopen.
  rewrite Et in *.
  set (o' := if same (dispute_target outcome) OrderStatus.COMPLETED then _ else _) in *.
  assert (ord_status o' = dispute_target outcome ∧ ord_customer_id o' = ord_customer_id o ∧ ord_courier_id o' = ord_courier_id o)
    as (E1 & E2 & E3) by (unfold o'; destruct (same _ _); done).
  exists x, o, o', p.1, p.2, courier, cw, uw, b. repeat (split; [done|]).
  cbn. rewrite K, K0. done.
Qed.

Lemma outcome_order (s : Settings) (oid : uuid) (o : Order) (p : uuid * Invoice) (outcome : dispute_status)
    (courier_amount : option dec) (d : db) (r : Order * order_status) (d' : db) :
  apply_dispute_outcome s oid o p outcome courier_amount d = Ok (r, d') →
  ord_status r.1 = ord_status o ∧ ord_customer_id r.1 = ord_customer_id o ∧ ord_courier_id r.1 = ord_courier_id o.
Proof.
  intros Hr. unfold apply_dispute_outcome in Hr. inv_run Hr. destruct outcome; inv_run Hr; done.
Qed.

Lemma resolve_dispute_evolve (s : Settings) (did admin : uuid) (outcome : dispute_status) (note : option string)
    (courier_amount : option dec) (d : db) (x' : Dispute) (d' : db) :
  resolve_dispute s did admin outcome note courier_amount d = Ok (x', d') → orders_evolve d d'.
Proof.
  intros Hr. unfold resolve_dispute, lock_dispute, lock_order_row in Hr. erewrite bind_run in Hr by reflexivity.
  apply bind_ok in Hr as (x & d0 & [Hx ->]%unwrap_ok & Hr).
  apply bind_ok in Hr as (u & d0 & [_ ->]%guard_ok & Hr). erewrite bind_run in Hr by reflexivity.
  apply bind_ok in Hr as (o & d0 & [Ho ->]%unwrap_ok & Hr).
  apply bind_ok in Hr as (p & d0 & (-> & _)%paid_invoice_ok & Hr).
  apply bind_ok in Hr as (r & d1 & Happ & Hr). same_after tb_orders Happ. apply outcome_order in Happ as (Es & Eu & Ek).
  apply bind_ok in Hr as (u1 & d0 & [Hstep%assert_transition_ok ->]%lift_ok & Hr).
  unfold resolve in Hr. inv_run Hr. inv_writes.
  eapply evolve_move; [exact Ho|..|cbn; rewrite K; reflexivity]; destruct (same _ _); done.
Qed.

Lemma raise_dispute_ok (oid actor : uuid) (reason : string) (d : db) (did : uuid) (d' : db) :
  raise_dispute oid actor reason d = Ok (did, d') →
  ∃ o, tb_orders d !! oid = Some o ∧ participant actor o = true ∧ order_step (ord_status o) OrderStatus.DISPUTED ∧
    tb_orders d' = <[oid := o <| ord_status := OrderStatus.DISPUTED |>]> (tb_orders d) ∧
    (∀ k x, tb_disputes d !! k = Some x → dis_order_id x ≠ oid) ∧
    tb_disputes d' = <[did := mk_Dispute oid actor reason DisputeStatus.OPEN None None None (db_now d)]> (tb_disputes d).
Proof.
  intros Hr. unfold raise_dispute, lock_order_row in Hr. erewrite bind_run in Hr by apply order_for_actor_run.
  apply bind_ok in Hr as (y & d0 & [Hy ->]%unwrap_ok & Hr). erewrite bind_run in Hr by reflexivity.
  apply bind_ok in Hr as (o & d0 & [Ho ->]%unwrap_ok & Hr). cbn in Ho. rewrite Ho in Hy.
  destruct (participant actor o) eqn:Hp; [|done].
  apply bind_ok in Hr as (ex & d0 & Hex & Hr). assert (E' := Hex). apply scalar_ok in E' as [-> _].
  apply bind_ok in Hr as (u & d0 & [Hg ->]%guard_ok & Hr). destruct ex; [done|].
  apply scalar_none in Hex as [_ Hno].
  apply bind_ok in Hr as (u1 & d0 & [Hs%assert_transition_ok ->]%lift_ok & Hr). unfold create_dispute in Hr.
  inv_run Hr. inv_writes. exists o. do 4 (split; [done|]). split; [|done].
  intros k x Hx Heq. specialize (Hno k x Hx). cbn in Hno. by rewrite (proj2 (same_true _ _)) in Hno.
Qed.

Lemma raise_dispute_evolve (oid actor : uuid) (reason : string) (d : db) (did : uuid) (d' : db) :
  raise_dispute oid actor reason d = Ok (did, d') → orders_evolve d d'.
Proof.
  intros Hr. apply raise_dispute_ok in Hr as (o & Ho & _ & Hs & E & _). by eapply evolve_move; [exact Ho|..|exact E].
Qed.

Lemma submit_delivery_ok `{StorageClient} n s f (oid cid : uuid) (data : DeliveryInput) (d : db) (o' : Order) (d' : db) :
  submit_delivery n s f oid cid data d = Ok (o', d') →
  ∃ o, tb_orders d !! oid = Some o ∧ participant cid o = true ∧ order_step (ord_status o) OrderStatus.DELIVERED ∧
    (1 ≤ length (de_proof_media_keys data) ≤ 5)%nat ∧
    Forall (λ key, is_ok (confirm n key) = true) (de_proof_media_keys data) ∧
    Qle (f (ord_delivery_location o) (mk_point (de_longitude data) (de_latitude data)))
        (inject_Z (MAX_DELIVERY_RADIUS_METERS s)) ∧
    o' = o <| ord_status := OrderStatus.DELIVERED |> <| ord_delivered_at := Some (db_now d) |> ∧
    tb_orders d' = <[oid := o']> (tb_orders d).
Proof.
  intros Hr. unfold submit_delivery, lock_order_row in Hr. erewrite bind_run in Hr by apply order_for_actor_run.
  apply bind_ok in Hr as (y & d0 & [Hy ->]%unwrap_ok & Hr). erewrite bind_run in Hr by reflexivity.
  apply bind_ok in Hr as (o & d0 & [Ho ->]%unwrap_ok & Hr). cbn in Ho. rewrite Ho in Hy.
  destruct (participant cid o) eqn:Hp; [|done].
  apply bind_ok in Hr as (u1 & d0 & [Hs%assert_transition_ok ->]%lift_ok & Hr).
  apply bind_ok in Hr as (u2 & d0 & [G1 ->]%guard_ok & Hr). apply bind_ok in Hr as (u3 & d0 & [G2 ->]%guard_ok & Hr).
  apply Nat.ltb_ge in G2. unfold MAX_PROOF_MEDIA in G2.
  unfold distance_to_delivery in Hr. erewrite bind_run in Hr by (erewrite bind_run by reflexivity; reflexivity).
  cbn in Hr. rewrite Ho in Hr. cbn in Hr.
  apply bind_ok in Hr as (u4 & d0 & [G3 ->]%guard_ok & Hr). apply negb_false_iff, Qle_bool_iff in G3.
  apply bind_ok in Hr as (u5 & d0 & [-> HF]%for_each_lift_ok & Hr). erewrite bind_run in Hr by reflexivity.
  apply bind_ok in Hr as (u6 & d1 & Hmedia & Hr). same_after tb_orders Hmedia. same_after db_now Hmedia.
  inv_run Hr. inv_writes. exists o. do 3 (split; [done|]). split; [|split; [done|]; split; [done|]; split; [by rewrite K0|cbn; by rewrite K]].
  destruct (de_proof_media_keys data); [done|]. cbn in *. lia.
Qed.

Lemma submit_delivery_evolve `{StorageClient} n s f (oid cid : uuid) (data : DeliveryInput) (d : db) (o' : Order) (d' : db) :
  submit_delivery n s f oid cid data d = Ok (o', d') → orders_evolve d d'.
Proof.
  intros Hr. apply submit_delivery_ok in Hr as (o & Ho & _ & Hs & _ & _ & _ & -> & E).
  by eapply evolve_move; [exact Ho|..|exact E].
Qed.

Definition dispute_key (outcome : dispute_status) (oid : uuid) : string :=
  match outcome with
  | DisputeStatus.RESOLVED_CUSTOMER => refund_key oid
  | DisputeStatus.RESOLVED_COURIER => release_key oid
  | _ => split_key oid
  end.

(** [C7] Resolving a dispute distributes the frozen escrow exactly and once: the dispute was
    OPEN on a DISPUTED (or DELIVERED) order with a PAID invoice; the customer is refunded the
    total, or the courier, tax and platform get the normal release, or courier and
    customer split the total at the requested (two-place) amount between zero and the total; the
    order ends REFUNDED or COMPLETED accordingly, and resolving again is refused. *)
Theorem dispute_resolution_exact (s : Settings) (did admin : uuid) (outcome : dispute_status) (note : option string)
    (courier_amount : option dec) (d : db) (x' : Dispute) (d' : db) :
  wf_rate (PLATFORM_COMMISSION_RATE s) → ledger_ok d → paid_stored d →
  (∀ x, tb_disputes d !! did = Some x → ¬ key_used d (dispute_key outcome (dis_order_id x))) →
  resolve_dispute s did admin outcome note courier_amount d = Ok (x', d') →
  (∃ x o o' iid i courier cw uw,
    tb_disputes d !! did = Some x ∧ dis_status x = DisputeStatus.OPEN ∧
    tb_orders d !! dis_order_id x = Some o ∧ order_step (ord_status o) (dispute_target outcome) ∧
    tb_invoices d !! iid = Some i ∧ inv_order_id i = dis_order_id x ∧ inv_status i = InvoiceStatus.PAID ∧
    ord_courier_id o = Some courier ∧ user_wallet d courier cw ∧ user_wallet d (ord_customer_id o) uw ∧
    dispute_settled s (dis_order_id x) i outcome courier_amount cw uw true d d' ∧
    ord_status o' = dispute_target outcome ∧ tb_orders d' = <[dis_order_id x := o']> (tb_orders d)) ∧
  ∀ admin2 outcome2 note2 amount2, resolve_dispute s did admin2 outcome2 note2 amount2 d' = Raise ConflictError.
Proof.
  intros Hrate Hd Hst Hkey Hr. apply resolve_dispute_ok in Hr as (x & o & o' & iid & i & courier & cw & uw & b & Hx & Hopen & Ho & Hs
    & Hi & Hio & Hip & Hc & Hcw & Huw & Hset & E1 & _ & _ & E & Ex & _ & Edis); [|done..]. specialize (Hkey x Hx).
  assert (b = true ∧ outcome ≠ DisputeStatus.OPEN) as [-> Hne].
  { destruct b; [split; [done|]; by destruct outcome|]. exfalso. apply Hkey. destruct outcome; cbn in Hset; [done|..].
    - by destruct Hset as (ew & _ & Hk & _).
    - by destruct Hset as (ew & tw & rw & _ & _ & _ & Hk & _).
    - by destruct Hset as (ew & a & z & _ & _ & _ & _ & Hk & _). }
  split; [by exists x, o, o', iid, i, courier, cw, uw|]. intros. unfold resolve_dispute, lock_dispute.
  erewrite bind_run by reflexivity. cbn. rewrite Edis, lookup_insert_eq. erewrite bind_run by reflexivity.
  assert (same (dis_status x') DisputeStatus.OPEN = false) as -> by (apply bool_decide_eq_false_2; by rewrite Ex). done.
Qed.

(** A dispute (60) raised on the delivered order. *)
Definition db_disputed : db :=
  db_delivered
  <| tb_orders := {[ 50%N := order_assigned <| ord_status := OrderStatus.DISPUTED |> <| ord_total_amount := 14490 |> ]} |>
  <| tb_disputes := {[ 60%N := mk_Dispute 50 70 "late" DisputeStatus.OPEN None None None 0 ]} |>.

Lemma ledger_ok_disputed : ledger_ok db_disputed.
Proof. unfold db_disputed. generalize ledger_ok_delivered. generalize db_delivered. intros d. by apply ledger_frame. Qed.

Lemma paid_stored_update (d : db) (os : gmap uuid Order) (xs : gmap uuid Dispute) :
  paid_stored d → paid_stored (d <| tb_orders := os |> <| tb_disputes := xs |>).
Proof. intros Hd. exact Hd. Qed.

Lemma paid_stored_disputed : paid_stored db_disputed.
Proof. unfold db_disputed. apply paid_stored_update. exact paid_stored_delivered. Qed.

Lemma dispute_resolution_exact_witness :
  ∃ x' d', resolve_dispute settings0 60 99 DisputeStatus.RESOLVED_SPLIT None (Some (Dec 100 0)) db_disputed = Ok (x', d') ∧
    (∃ x o o' iid i courier cw uw,
      tb_disputes db_disputed !! 60%N = Some x ∧ dis_status x = DisputeStatus.OPEN ∧
      tb_orders db_disputed !! dis_order_id x = Some o ∧ order_step (ord_status o) (dispute_target DisputeStatus.RESOLVED_SPLIT) ∧
      tb_invoices db_disputed !! iid = Some i ∧ inv_order_id i = dis_order_id x ∧ inv_status i = InvoiceStatus.PAID ∧
      ord_courier_id o = Some courier ∧ user_wallet db_disputed courier cw ∧ user_wallet db_disputed (ord_customer_id o) uw ∧
      dispute_settled settings0 (dis_order_id x) i DisputeStatus.RESOLVED_SPLIT (Some (Dec 100 0)) cw uw true db_disputed d' ∧
      ord_status o' = dispute_target DisputeStatus.RESOLVED_SPLIT ∧ tb_orders d' = <[dis_order_id x := o']> (tb_orders db_disputed)) ∧
    ∀ admin2 outcome2 note2 amount2, resolve_dispute settings0 60 admin2 outcome2 note2 amount2 d' = Raise ConflictError.
Proof.
  destruct (resolve_dispute settings0 60 99 DisputeStatus.RESOLVED_SPLIT None (Some (Dec 100 0)) db_disputed)
    as [[x' d']|e] eqn:E.
  2:{ assert (is_ok (resolve_dispute settings0 60 99 DisputeStatus.RESOLVED_SPLIT None (Some (Dec 100 0)) db_disputed) = true) as H
        by (vm_compute; reflexivity). rewrite E in H. discriminate H. }
  exists x', d'. split; [done|].
  apply (dispute_resolution_exact settings0 60 99 DisputeStatus.RESOLVED_SPLIT None (Some (Dec 100 0)) db_disputed x' d');
    [apply settings0_rate|apply ledger_ok_disputed|apply paid_stored_disputed| |exact E].
  - intros x Hx (tid & t & Ht & Hk). assert (dis_order_id x = 50%N) as Eo by (vm_compute in Hx; by injection Hx as <-).
    rewrite Eo in Hk. clear E. enum_lookup Ht; discriminate Hk.
Defined.

(** Delivery is proved on the spot: [submit_delivery] moves an IN_PROGRESS order to
    DELIVERED only for a participant within the configured radius of the drop-off, with one
    to five photos that all passed the media checks, and stamps the delivery time. *)
Theorem delivery_inside_geofence `{StorageClient} (n : Z) (s : Settings) (f : point → point → Q) (oid cid : uuid)
    (data : DeliveryInput) (d : db) (o' : Order) (d' : db) :
  submit_delivery n s f oid cid data d = Ok (o', d') →
  ∃ o, tb_orders d !! oid = Some o ∧ participant cid o = true ∧ ord_status o = OrderStatus.IN_PROGRESS ∧
    (1 ≤ length (de_proof_media_keys data) ≤ 5)%nat ∧
    Forall (λ key, is_ok (confirm n key) = true) (de_proof_media_keys data) ∧
    Qle (f (ord_delivery_location o) (mk_point (de_longitude data) (de_latitude data)))
        (inject_Z (MAX_DELIVERY_RADIUS_METERS s)) ∧
    ord_status o' = OrderStatus.DELIVERED ∧ ord_delivered_at o' = Some (db_now d) ∧
    tb_orders d' = <[oid := o']> (tb_orders d).
Proof.
  intros Hr. apply submit_delivery_ok in Hr as (o & Ho & Hp & Hs & Hl & HF & Hq & -> & E). exists o.
  do 2 (split; [done|]). split; [by destruct (ord_status o)|]. done.
Qed.

Definition db_progress : db :=
  db_delivered
  <| tb_orders := {[ 50%N := order_assigned <| ord_status := OrderStatus.IN_PROGRESS |> <| ord_total_amount := 14490 |> ]} |>.

Lemma delivery_inside_geofence_witness :
  let data := mk_DeliveryInput 24713600 46675300 [good_key] None in
  let f := λ _ _ : point, inject_Z 20 in
  ∃ o' d', submit_delivery (H := one_object) 4096 settings0 f 50 71 data db_progress = Ok (o', d') ∧
  ∃ o, tb_orders db_progress !! 50%N = Some o ∧ participant 71 o = true ∧ ord_status o = OrderStatus.IN_PROGRESS ∧
    (1 ≤ length (de_proof_media_keys data) ≤ 5)%nat ∧
    Forall (λ key, is_ok (confirm (H := one_object) 4096 key) = true) (de_proof_media_keys data) ∧
    Qle (f (ord_delivery_location o) (mk_point (de_longitude data) (de_latitude data)))
        (inject_Z (MAX_DELIVERY_RADIUS_METERS settings0)) ∧
    ord_status o' = OrderStatus.DELIVERED ∧ ord_delivered_at o' = Some (db_now db_progress) ∧
    tb_orders d' = <[50%N := o']> (tb_orders db_progress).
Proof.
  intros data f. destruct (submit_delivery (H := one_object) 4096 settings0 f 50 71 data db_progress) as [[o' d']|e] eqn:E.
  2:{ assert (is_ok (submit_delivery (H := one_object) 4096 settings0 f 50 71 data db_progress) = true) as Hok
        by (vm_compute; reflexivity). rewrite E in Hok. discriminate Hok. }
  exists o', d'. split; [done|]. exact (delivery_inside_geofence (H := one_object) 4096 settings0 f 50 71 data db_progress o' d' E).
Defined.

(** ** Two consequences of the tables as they are *)

(** The escrow of a DISPUTED order is released by an ordinary approval, although the
    dispute is still OPEN. *)
Theorem disputed_order_approvable :
  match approve_order settings0 50 70 db_disputed with
  | Ok (o, d) => ord_status o = OrderStatus.COMPLETED ∧ bal d 1 = 0 ∧ (dis_status <$> tb_disputes d !! 60%N) = Some DisputeStatus.OPEN
  | Raise _ => False
  end.
Proof. vm_compute. repeat split; reflexivity. Qed.

(** Once the delivery date has passed, [chk_delivery_date_window] rejects the update
    that completes the order: neither approval nor the sweep can release the escrow. *)
Theorem late_approval_rejected :
  let late := db_delivered <| db_now := 11 * 86400 |> in
  approve_order settings0 50 70 late = Raise IntegrityError ∧ auto_approve settings0 50 late = Raise IntegrityError.
Proof. vm_compute. split; reflexivity. Qed.
