(* ===== verification/Withdrawals.v ===== *)
(** * Withdrawals ([app/services/withdrawal_service.py], [app/repositories/withdrawal_repository.py],
      [app/repositories/audit_repository.py])

    A request reserves the courier's funds; an admin approves, rejects (releasing
    the hold) or settles it through the ledger.  Requests are idempotent per
    courier and key, decisions per row. *)

From Stdlib Require Import ZArith Lia.
From stdpp Require Import base list gmap strings numbers option sorting.
From S2P Require Import Prelude Errors PyDecimal Money Pricing Enums OrderState Tables Database Ledger Movements Promos.
From S2P Require Import Crypto Media Orders Invoices.
Open Scope Z_scope.

(** ** [AuditRepository] *)

Definition record (actor_user_id : option uuid) (action entity_type : string) (entity_id : option uuid)
    (ip_address : option string) (metadata : option (list (string * string))) : M uuid :=
  now ← get_now;
  insert_row (mk_AuditLog actor_user_id action entity_type entity_id ip_address metadata now).

Definition opt_same {A} `{EqDecision A} (want : option A) (x : A) : bool :=
  match want with Some a => same x a | None => true end.

Definition list_recent (actor_user_id : option uuid) (action entity_type : option string) (limit : nat)
    : M (list (uuid * AuditLog)) :=
  l ← select_rows (λ _ a,
        match actor_user_id with Some u => same (al_actor_user_id a) (Some u) | None => true end &&
        opt_same action (al_action a) && opt_same entity_type (al_entity_type a));
  mret (take limit (sort_on (λ p, - al_created_at p.2) l)).

(** ** [WithdrawalRepository] *)

Definition create_withdrawal (withdrawal_id courier_id wallet_id : uuid) (amount : dec)
    (iban_encrypted iban_last4 idempotency_key : string) : M Withdrawal :=
  z ← lift (numeric_12_2 amount);
  now ← get_now;
  let row := mk_Withdrawal courier_id wallet_id z iban_encrypted iban_last4 WithdrawalStatus.REQUESTED
               None None (Some idempotency_key) now in
  insert_row_at withdrawal_id row;;
  mret row.

Definition get_by_idempotency (courier_id : uuid) (idempotency_key : string) : M (option (uuid * Withdrawal)) :=
  scalar (λ _ w, same (wd_courier_id w) courier_id && same (wd_idempotency_key w) (Some idempotency_key)).

Definition get_for_update (withdrawal_id : uuid) : M (option Withdrawal) := get_row withdrawal_id.

Definition set_status (withdrawal_id : uuid) (row : Withdrawal) (status : withdrawal_status)
    (admin_id : uuid) (rejection_reason : option string) : M Withdrawal :=
  let row' := row <| wd_status := status |> <| wd_processed_by_admin_id := Some admin_id |>
                  <| wd_rejection_reason := rejection_reason |> in
  update_row withdrawal_id row';;
  mret row'.

(** ** [WithdrawalService] *)

(** [iban[-4:]]. *)
Definition last4 (s : string) : string := String.substring (String.length s - 4) 4 s.

Definition get_locked (withdrawal_id : uuid) : M Withdrawal :=
  r ← get_for_update withdrawal_id; unwrap r NotFoundError.

Definition record_decision (admin_id withdrawal_id : uuid) (action : string) (ip : option string) : M () :=
  record (Some admin_id) action "withdrawals" (Some withdrawal_id) ip None;; mret ().

Section Service.
Context (settings : Settings).
(** The field cipher of the settings: [encrypt text aad]. *)
Context (encrypt_field : string → string → res string).

Definition iban_aad (withdrawal_id : uuid) : string := "withdrawals:iban:" +:+ uuid_str withdrawal_id.

Definition request_withdrawal (courier_id : uuid) (amount : dec) (iban idempotency_key : string)
    : M (uuid * Withdrawal) :=
  existing ← get_by_idempotency courier_id idempotency_key;
  match existing with
  | Some row => mret row
  | None =>
      amount ← lift (quantize_money amount);
      guard_ (negb (dleb (MIN_WITHDRAWAL_AMOUNT settings) amount && dleb amount (MAX_WITHDRAWAL_AMOUNT settings)))
        ValidationDomainError;;
      w ← get_by_user courier_id;
      wallet ← unwrap w NotFoundError;
      withdrawal_id ← uuid4;
      encrypted ← lift (encrypt_field iban (iban_aad withdrawal_id));
      savepoint_catch
        (hold_funds wallet.1 amount;;
         row ← create_withdrawal withdrawal_id courier_id wallet.1 amount encrypted (last4 iban) idempotency_key;
         mret (withdrawal_id, row))
        (replay ← get_by_idempotency courier_id idempotency_key;
         unwrap replay IntegrityError)
  end.
End Service.

Definition approve (withdrawal_id admin_id : uuid) (ip : option string) : M Withdrawal :=
  row ← get_locked withdrawal_id;
  if same (wd_status row) WithdrawalStatus.APPROVED then mret row
  else
    guard_ (negb (same (wd_status row) WithdrawalStatus.REQUESTED)) InvalidStateTransitionError;;
    row' ← set_status withdrawal_id row WithdrawalStatus.APPROVED admin_id None;
    record_decision admin_id withdrawal_id "WITHDRAWAL_APPROVE" ip;;
    mret row'.

Definition reject (withdrawal_id admin_id : uuid) (reason : string) (ip : option string) : M Withdrawal :=
  row ← get_locked withdrawal_id;
  if same (wd_status row) WithdrawalStatus.REJECTED then mret row
  else
    guard_ (negb (same (wd_status row) WithdrawalStatus.REQUESTED ||
                  same (wd_status row) WithdrawalStatus.APPROVED)) InvalidStateTransitionError;;
    release_hold (wd_wallet_id row) (sar (wd_amount row));;
    row' ← set_status withdrawal_id row WithdrawalStatus.REJECTED admin_id (Some reason);
    record_decision admin_id withdrawal_id "WITHDRAWAL_REJECT" ip;;
    mret row'.

Definition mark_withdrawal_paid (withdrawal_id admin_id : uuid) (ip : option string) : M Withdrawal :=
  row ← get_locked withdrawal_id;
  if same (wd_status row) WithdrawalStatus.PAID then mret row
  else
    guard_ (negb (same (wd_status row) WithdrawalStatus.APPROVED)) InvalidStateTransitionError;;
    posted ← pay_withdrawal (wd_wallet_id row) (sar (wd_amount row)) withdrawal_id;
    guard_ (negb posted) InvalidStateTransitionError;;
    row' ← set_status withdrawal_id row WithdrawalStatus.PAID admin_id None;
    record_decision admin_id withdrawal_id "WITHDRAWAL_PAID" ip;;
    mret row'.

(** ** Framing *)

Lemma keeps_by_idempotency P c k : keeps P (get_by_idempotency c k).
Proof. apply keeps_scalar. Qed.

Lemma keeps_get_locked P w : keeps P (get_locked w).
Proof. unfold get_locked, get_for_update. keeps_auto. Qed.

#[export] Hint Resolve keeps_by_idempotency keeps_get_locked : giftly.

Section WithdrawalFrame.
Context (P : db → Prop) `{!FrameNext P} `{!Frame P AuditLog} `{!Frame P Withdrawal}.
Context (Hhold : ∀ w a, keeps P (hold_funds w a)) (Hrel : ∀ w a, keeps P (release_hold w a))
  (Hpay : ∀ w a i, keeps P (pay_withdrawal w a i)).

Lemma frame_record_decision a w s ip : keeps P (record_decision a w s ip).
Proof. unfold record_decision, record. keeps_auto. Qed.

Lemma frame_set_status w r s a x : keeps P (set_status w r s a x).
Proof. unfold set_status. keeps_auto. Qed.

Lemma frame_create_withdrawal w c i a e l k : keeps P (create_withdrawal w c i a e l k).
Proof. unfold create_withdrawal. keeps_auto. Qed.

Hint Resolve frame_record_decision frame_set_status frame_create_withdrawal : giftly.

Lemma frame_request s enc c a iban k : keeps P (request_withdrawal s enc c a iban k).
Proof. unfold request_withdrawal. keeps_auto. Qed.

Lemma frame_approve_withdrawal w a ip : keeps P (approve w a ip).
Proof. unfold approve. keeps_auto. Qed.

Lemma frame_reject w a r ip : keeps P (reject w a r ip).
Proof. unfold reject. keeps_auto. Qed.

Lemma frame_mark_withdrawal_paid w a ip : keeps P (mark_withdrawal_paid w a ip).
Proof. unfold mark_withdrawal_paid. keeps_auto. Qed.
End WithdrawalFrame.

#[export] Hint Resolve frame_record_decision frame_set_status frame_create_withdrawal frame_request
  frame_approve_withdrawal frame_reject frame_mark_withdrawal_paid : giftly.

(** ** The operations, successful runs *)

Lemma get_by_idempotency_ok (cid : uuid) (key : string) (d : db) (x : option (uuid * Withdrawal)) (d' : db) :
  get_by_idempotency cid key d = Ok (x, d') →
  d' = d ∧ match x with
           | Some p => tb_withdrawals d !! p.1 = Some p.2 ∧ wd_courier_id p.2 = cid ∧ wd_idempotency_key p.2 = Some key
           | None => ∀ k w, tb_withdrawals d !! k = Some w → wd_courier_id w = cid → wd_idempotency_key w ≠ Some key
           end.
Proof.
  unfold get_by_idempotency. intros Hr.
  destruct (scalar_run (λ _ w, same (wd_courier_id w) cid && same (wd_idempotency_key w) (Some key)) d) as (y & E & Hy).
  rewrite E in Hr. injection Hr as <- <-. split; [done|]. destruct y as [[k w]|].
  - destruct Hy as [Hl [H1 H2]%andb_true_iff]. apply (proj1 (same_true _ _)) in H1, H2. done.
  - intros k w Hw Hc Hk. specialize (Hy _ _ Hw). by rewrite !(proj2 (same_true _ _)) in Hy.
Qed.

Lemma get_locked_ok (wid : uuid) (d : db) (row : Withdrawal) (d' : db) :
  get_locked wid d = Ok (row, d') → d' = d ∧ tb_withdrawals d !! wid = Some row.
Proof. intros Hr. unfold get_locked, get_for_update in Hr. inv_run Hr. done. Qed.

Lemma set_status_ok (wid : uuid) (row : Withdrawal) (st : withdrawal_status) (admin : uuid) (reason : option string)
    (d : db) (row' : Withdrawal) (d' : db) :
  set_status wid row st admin reason d = Ok (row', d') →
  row' = row <| wd_status := st |> <| wd_processed_by_admin_id := Some admin |> <| wd_rejection_reason := reason |> ∧
  d' = d <| tb_withdrawals := <[wid := row']> (tb_withdrawals d) |>.
Proof. intros Hr. unfold set_status in Hr. inv_run Hr. inv_writes. done. Qed.

Lemma record_decision_tables (admin wid : uuid) (action : string) (ip : option string) (d : db) (u : ()) (d' : db) :
  record_decision admin wid action ip d = Ok (u, d') →
  tb_withdrawals d' = tb_withdrawals d ∧ tb_wallets d' = tb_wallets d ∧ tb_transactions d' = tb_transactions d.
Proof.
  intros Hr. same_after tb_withdrawals Hr. same_after tb_wallets Hr. same_after tb_transactions Hr. done.
Qed.

(** A request that finds no earlier one with its key. *)
Lemma request_withdrawal_ok (s : Settings) enc (cid : uuid) (amount : dec) (iban key : string) (d : db)
    (r : uuid * Withdrawal) (d' : db) :
  ledger_ok d → (∀ a, quantize_money amount = Ok a → 0 ≤ halalas a < 10 ^ 12) →
  request_withdrawal s enc cid amount iban key d = Ok (r, d') →
  (d' = d ∧ tb_withdrawals d !! r.1 = Some r.2 ∧ wd_courier_id r.2 = cid ∧ wd_idempotency_key r.2 = Some key) ∨
  ((∀ k w, tb_withdrawals d !! k = Some w → wd_courier_id w = cid → wd_idempotency_key w ≠ Some key) ∧
   ∃ z cw e, quantize_money amount = Ok (sar z) ∧ dleb (MIN_WITHDRAWAL_AMOUNT s) (sar z) = true ∧
     dleb (sar z) (MAX_WITHDRAWAL_AMOUNT s) = true ∧ user_wallet d cid cw ∧ enc iban (iban_aad r.1) = Ok e ∧
     r.2 = mk_Withdrawal cid cw z e (last4 iban) WithdrawalStatus.REQUESTED None None (Some key) (db_now d) ∧
     tb_withdrawals d !! r.1 = None ∧ tb_withdrawals d' = <[r.1 := r.2]> (tb_withdrawals d) ∧
     z ≤ bal d cw - held d cw ∧ (∀ i, bal d' i = bal d i) ∧
     (∀ i, held d' i = if same i cw then held d i + z else held d i)).
Proof.
  intros Hd Hz Hr. unfold request_withdrawal in Hr.
  apply bind_ok in Hr as (ex & d0 & [-> Hex]%get_by_idempotency_ok & Hr). destruct ex as [row|].
  { left. injection Hr as <- <-. by destruct Hex as (? & ? & ?). }
  right. split; [done|]. apply bind_ok in Hr as (a & d0 & [Ha ->]%lift_ok & Hr). specialize (Hz a Ha).
  destruct (quantize_money_ok_inv _ _ Ha) as (z & -> & _). cbn in Hz.
  apply bind_ok in Hr as (u & d0 & [Hg ->]%guard_ok & Hr). apply negb_false_iff, andb_true_iff in Hg as [G1 G2].
  apply bind_ok in Hr as (x & d0 & [-> Hx]%get_by_user_ok & Hr).
  apply bind_ok in Hr as ([cw w] & d0 & [-> ->]%unwrap_ok & Hr). apply bind_ok in Hr as (wid & d0 & Hu & Hr).
  injection Hu as <- <-. apply bind_ok in Hr as (e & d0 & [He ->]%lift_ok & Hr). cbn [fst snd] in *. destruct Hx as [Hw Huid].
  apply savepoint_catch_ok in Hr as [Hr|[_ Hr]].
  - apply bind_ok in Hr as (u1 & d1 & Hh & Hr). assert (Hh' := Hh).
    apply hold_funds_ok in Hh as (_ & Hbal & Hav & Hheld); [|by apply ledger_next|done].
    same_after tb_withdrawals Hh'. same_after db_now Hh'. unfold create_withdrawal in Hr. rewrite numeric_sar in Hr by lia.
    apply bind_ok in Hr as (row & d2 & Hc & Hr). erewrite bind_run in Hc by reflexivity. inv_run Hc. inv_writes. injection Hr as <- <-.
    cbn in Hnew. rewrite K in Hnew. exists z, cw, e. do 3 (split; [done|]). split; [by exists w|]. rewrite K0.
    do 2 (split; [done|]). split; [exact Hnew|]. split; [cbn; by rewrite K|]. split; [exact Hav|]. split; [exact Hbal|exact Hheld].
  - apply bind_ok in Hr as (y & d1 & [-> Hy]%get_by_idempotency_ok & Hr). apply unwrap_ok in Hr as [-> ->].
    destruct Hy as (Hl & Hc & Hk). by destruct (Hex _ _ Hl Hc).
Qed.

(** ** Properties *)

(** Courier 71 (wallet 6) has 120.00; the gateway wallet is debited accordingly. *)
Definition db_courier : db := state_after (credit_topup 6 (sar 12000) 47) db_market.

Lemma ledger_ok_courier : ledger_ok db_courier.
Proof.
  unfold db_courier. apply keeps_state_after; [apply keeps_credit_topup|]. apply (ledger_frame db0); [done..|].
  apply ledger_ok_db0.
Qed.

(** [C13] A withdrawal request reserves exactly its amount and is idempotent: a successful
    request either found a row of the same courier under the same key, answered that row and
    changed nothing; or this courier had none under the key, and it stored a REQUESTED row of the courier, with the key,
    an amount inside the configured bounds and the encrypted IBAN, put that amount of unreserved funds of the courier's wallet on hold, and moved
    no money; and repeating the request with the key, whatever its amount and IBAN, answers the stored row without any change. *)
Theorem withdrawal_request_idempotent (s : Settings) (enc : string → string → res string) (cid : uuid) (amount : dec)
    (iban key : string) (d : db) (r : uuid * Withdrawal) (d' : db) :
  ledger_ok d → (∀ a, quantize_money amount = Ok a → 0 ≤ halalas a < 10 ^ 12) →
  (∀ i j a b, tb_withdrawals d !! i = Some a → tb_withdrawals d !! j = Some b → i ≠ j → conflicts_withdrawals a b = false) →
  request_withdrawal s enc cid amount iban key d = Ok (r, d') →
  ((d' = d ∧ tb_withdrawals d !! r.1 = Some r.2 ∧ wd_courier_id r.2 = cid ∧ wd_idempotency_key r.2 = Some key) ∨
   ((∀ k w, tb_withdrawals d !! k = Some w → wd_courier_id w = cid → wd_idempotency_key w ≠ Some key) ∧
    ∃ z cw e, quantize_money amount = Ok (sar z) ∧ dleb (MIN_WITHDRAWAL_AMOUNT s) (sar z) = true ∧
     dleb (sar z) (MAX_WITHDRAWAL_AMOUNT s) = true ∧ user_wallet d cid cw ∧ enc iban (iban_aad r.1) = Ok e ∧
     r.2 = mk_Withdrawal cid cw z e (last4 iban) WithdrawalStatus.REQUESTED None None (Some key) (db_now d) ∧
     tb_withdrawals d !! r.1 = None ∧ tb_withdrawals d' = <[r.1 := r.2]> (tb_withdrawals d) ∧
     z ≤ bal d cw - held d cw ∧ (∀ i, bal d' i = bal d i) ∧
     (∀ i, held d' i = if same i cw then held d i + z else held d i))) ∧
  ∀ amount' iban', request_withdrawal s enc cid amount' iban' key d' = Ok (r, d').
Proof.
  intros Hd Hz Hu Hr. apply request_withdrawal_ok in Hr; [|done..].
  assert (∃ m, tb_withdrawals d' = m ∧ m !! r.1 = Some r.2 ∧ wd_courier_id r.2 = cid ∧ wd_idempotency_key r.2 = Some key ∧
    ∀ k w, m !! k = Some w → wd_courier_id w = cid → wd_idempotency_key w = Some key → (k, w) = r) as (m & Em & Hm & Hc & Hk & Huniq).
  { destruct Hr as [(-> & Hl & Hc & Hk)|(Hno & z & cw & e & _ & _ & _ & _ & _ & Er & _ & Ew & _)]; eexists; (split; [reflexivity|]).
    - split; [done|]. split; [done|]. split; [done|]. intros k w Hw Hwc Hwk. destruct r as [k' w'].
      destruct (decide (k = k')) as [->|Hne]; [f_equal; cbn in Hl; congruence|].
      cbn in Hl, Hc, Hk. pose proof (Hu _ _ _ _ Hw Hl Hne) as Hcf. unfold conflicts_withdrawals in Hcf.
      rewrite Hwc, Hwk, Hc, Hk in Hcf. unfold same_some, same in Hcf. by rewrite !bool_decide_eq_true_2 in Hcf.
    - rewrite Ew, lookup_insert_eq. split; [done|]. rewrite Er. split; [done|]. split; [done|].
      intros k w [[<- <-]|[_ Hw]]%lookup_insert_Some Hwc Hwk; [rewrite <- Er; by destruct r|]. by destruct (Hno k w Hw Hwc). }
  split.
  - exact Hr.
  - intros amount' iban'. unfold request_withdrawal.
    destruct (get_by_idempotency cid key d') as [[x d0]|e] eqn:E.
    2:{ unfold get_by_idempotency in E. destruct (scalar_run (λ _ w, same (wd_courier_id w) cid && same (wd_idempotency_key w) (Some key)) d')
          as (y & E' & _). by rewrite E' in E. }
    erewrite bind_run by exact E. apply get_by_idempotency_ok in E as [-> Hx]. destruct x as [[k w]|].
    + destruct Hx as (Hl & Hwc & Hwk). cbn in *. rewrite Em in Hl. by rewrite (Huniq k w Hl Hwc Hwk).
    + exfalso. rewrite Em in Hx. by apply (Hx _ _ Hm Hc).
Qed.

Lemma no_withdrawals_conflict : ∀ i j a b, tb_withdrawals db_courier !! i = Some a →
  tb_withdrawals db_courier !! j = Some b → i ≠ j → conflicts_withdrawals a b = false.
Proof. intros i j a b Ha. enum_lookup Ha. Qed.

Lemma withdrawal_request_idempotent_witness :
  ∃ r d', request_withdrawal settings0 enc0 71 (sar 6000) "SA0380000000608010167519" "k1" db_courier = Ok (r, d') ∧
    ∀ amount' iban', request_withdrawal settings0 enc0 71 amount' iban' "k1" d' = Ok (r, d').
Proof.
  destruct (request_withdrawal settings0 enc0 71 (sar 6000) "SA0380000000608010167519" "k1" db_courier) as [[r d']|e] eqn:E.
  2:{ assert (is_ok (request_withdrawal settings0 enc0 71 (sar 6000) "SA0380000000608010167519" "k1" db_courier) = true) as H
        by (vm_compute; reflexivity). rewrite E in H. discriminate H. }
  exists r, d'. split; [done|].
  apply (withdrawal_request_idempotent settings0 enc0 71 (sar 6000) "SA0380000000608010167519" "k1" db_courier r d');
    [apply ledger_ok_courier| |apply no_withdrawals_conflict|exact E].
  intros a Ha. assert (a = sar 6000) as -> by (rewrite quantize_money_sar in Ha by (unfold small; lia); congruence).
  cbn. lia.
Defined.

(** The life of a withdrawal. *)
Inductive withdrawal_step : withdrawal_status → withdrawal_status → Prop :=
  | step_approve : withdrawal_step WithdrawalStatus.REQUESTED WithdrawalStatus.APPROVED
  | step_reject_requested : withdrawal_step WithdrawalStatus.REQUESTED WithdrawalStatus.REJECTED
  | step_reject_approved : withdrawal_step WithdrawalStatus.APPROVED WithdrawalStatus.REJECTED
  | step_pay : withdrawal_step WithdrawalStatus.APPROVED WithdrawalStatus.PAID.

(** A decision: repeated on a row that already has the status, or a legal move of
    the row together with a movement of balances [ms] and a change of the hold. *)
Definition decided (wid : uuid) (st : withdrawal_status) (row : Withdrawal) (freed : Z) (ms : list (uuid * Z))
    (d : db) (row' : Withdrawal) (d' : db) : Prop :=
  (wd_status row = st ∧ row' = row ∧ d' = d) ∨
  (withdrawal_step (wd_status row) st ∧ wd_status row' = st ∧ wd_amount row' = wd_amount row ∧
   tb_withdrawals d' = <[wid := row']> (tb_withdrawals d) ∧ moved d d' ms ∧
   ∀ i, held d' i = if same i (wd_wallet_id row) then Z.max 0 (held d i - freed) else held d i).

Lemma held_nonneg (d : db) (wid : uuid) (w : Wallet) :
  ledger_ok d → tb_wallets d !! wid = Some w → w_user_id w ≠ None → 0 ≤ w_held_balance w.
Proof.
  intros Hd Hw Hu. destruct (lk_range _ Hd _ _ Hw) as (_ & _ & Hc). pose proof (lk_pairing _ Hd _ _ Hw) as Hp.
  unfold chk_user_wallet_pairing, chk_balance_non_negative in *. destruct (w_type w), (w_user_id w); cbn in *; try done; lia.
Qed.

Lemma decision_tables (wid admin : uuid) (row row' : Withdrawal) (st : withdrawal_status) (reason : option string)
    (action : string) (ip : option string) (d d1 d' : db) (u : ()) :
  set_status wid row st admin reason d = Ok (row', d1) → record_decision admin wid action ip d1 = Ok (u, d') →
  wd_status row' = st ∧ wd_amount row' = wd_amount row ∧ tb_withdrawals d' = <[wid := row']> (tb_withdrawals d) ∧
  tb_wallets d' = tb_wallets d.
Proof.
  intros [-> ->]%set_status_ok (E1 & E2 & _)%record_decision_tables. rewrite E1, E2. done.
Qed.

Lemma bal_frame (d d' : db) : tb_wallets d' = tb_wallets d → ∀ i, bal d' i = bal d i ∧ held d' i = held d i.
Proof. intros E i. unfold bal, held. by rewrite E. Qed.

Section Decisions.
Context (wid admin : uuid) (ip : option string) (d : db) (row : Withdrawal).
Context (Hd : ledger_ok d) (Hrow : tb_withdrawals d !! wid = Some row) (Hamt : 0 < wd_amount row < 10 ^ 12).

Lemma approve_decided (row' : Withdrawal) (d' : db) :
  user_wallet d (wd_courier_id row) (wd_wallet_id row) →
  approve wid admin ip d = Ok (row', d') → decided wid WithdrawalStatus.APPROVED row 0 [] d row' d'.
Proof.
  intros (w & Hw & Huw) Hr. unfold approve in Hr.
  apply bind_ok in Hr as (x & d0 & [-> Hx]%get_locked_ok & Hr). rewrite Hrow in Hx. injection Hx as <-.
  destruct (same (wd_status row) WithdrawalStatus.APPROVED) eqn:E.
  { left. apply (proj1 (same_true _ _)) in E. by injection Hr as <- <-. }
  right. inv_run Hr. rewrite negb_false_iff in E0. apply (proj1 (same_true _ _)) in E0. rewrite E0.
  destruct (decision_tables _ _ _ _ _ _ _ _ _ _ _ _ E1 E2) as (S1 & S2 & S3 & S4).
  split; [constructor|]. do 3 (split; [done|]). split; [intros i; cbn; rewrite (proj1 (bal_frame _ _ S4 i)); lia|].
  intros i. rewrite (proj2 (bal_frame _ _ S4 i)). destruct (same i _) eqn:Ei; [|done].
  apply (proj1 (same_true _ _)) in Ei as ->. pose proof (held_nonneg _ _ _ Hd Hw ltac:(by rewrite Huw)).
  unfold held. rewrite Hw. cbn. lia.
Qed.

Lemma reject_decided (reason : string) (row' : Withdrawal) (d' : db) :
  reject wid admin reason ip d = Ok (row', d') →
  decided wid WithdrawalStatus.REJECTED row (wd_amount row) [] d row' d'.
Proof.
  intros Hr. unfold reject in Hr.
  apply bind_ok in Hr as (x & d0 & [-> Hx]%get_locked_ok & Hr). rewrite Hrow in Hx. injection Hx as <-.
  destruct (same (wd_status row) WithdrawalStatus.REJECTED) eqn:E.
  { left. apply (proj1 (same_true _ _)) in E. by injection Hr as <- <-. }
  right. apply bind_ok in Hr as (u & d0 & [Hg ->]%guard_ok & Hr). apply negb_false_iff, orb_true_iff in Hg.
  rewrite !(same_true _ _) in Hg. apply bind_ok in Hr as (u1 & d1 & Hrel & Hr). inv_run Hr.
  destruct (decision_tables _ _ _ _ _ _ _ _ _ _ _ _ E0 E1) as (S1 & S2 & S3 & S4).
  same_after tb_withdrawals Hrel. rewrite K in S3.
  destruct (release_hold_neutral _ (wd_amount row) _ _ _ Hd ltac:(lia) Hrel) as [_ Hb].
  pose proof (release_hold_held _ (wd_amount row) _ _ _ Hd ltac:(lia) Hrel) as Hh.
  split; [destruct Hg as [->| ->]; constructor|]. do 3 (split; [done|]). split; intros i.
  - rewrite (proj1 (bal_frame _ _ S4 i)), Hb. change (delta [] i) with 0. lia.
  - by rewrite (proj2 (bal_frame _ _ S4 i)), Hh.
Qed.

Lemma paid_decided (row' : Withdrawal) (d' : db) :
  mark_withdrawal_paid wid admin ip d = Ok (row', d') →
  ∃ gw, (wd_status row ≠ WithdrawalStatus.PAID → system_wallet d WalletType.SYSTEM_GATEWAY gw) ∧
    decided wid WithdrawalStatus.PAID row (wd_amount row) [(wd_wallet_id row, - wd_amount row); (gw, wd_amount row)] d row' d'.
Proof.
  intros Hr. unfold mark_withdrawal_paid in Hr.
  apply bind_ok in Hr as (x & d0 & [-> Hx]%get_locked_ok & Hr). rewrite Hrow in Hx. injection Hx as <-.
  destruct (same (wd_status row) WithdrawalStatus.PAID) eqn:E.
  { exists 0%N. apply (proj1 (same_true _ _)) in E. injection Hr as <- <-. split; [done|]. by left. }
  apply bind_ok in Hr as (u & d0 & [Hg ->]%guard_ok & Hr). rewrite negb_false_iff in Hg. apply (proj1 (same_true _ _)) in Hg.
  apply bind_ok in Hr as (b & d1 & Hpay & Hr). apply bind_ok in Hr as (u1 & d0 & [Hb ->]%guard_ok & Hr).
  apply negb_false_iff in Hb as ->. inv_run Hr.
  destruct (decision_tables _ _ _ _ _ _ _ _ _ _ _ _ E0 E1) as (S1 & S2 & S3 & S4).
  same_after tb_withdrawals Hpay. rewrite K in S3.
  apply (pay_withdrawal_transferred d Hd) in Hpay as (gw & Hgw & (_ & _ & Hm) & Hh); [|lia].
  exists gw. split; [done|]. right. rewrite Hg. split; [constructor|]. do 3 (split; [done|]). split; intros i.
  - by rewrite (proj1 (bal_frame _ _ S4 i)), Hm.
  - by rewrite (proj2 (bal_frame _ _ S4 i)), Hh, andb_true_r.
Qed.
End Decisions.

(** [C14] Decisions follow the life cycle and keep the funds and the hold in step: approving
    moves nothing; rejecting releases exactly the hold; paying takes the amount out of
    the wallet and out of the hold, to the gateway; a repeated decision changes
    nothing; and no other transition happens (a PAID or REJECTED withdrawal is
    final). *)
Theorem withdrawal_decisions (wid admin : uuid) (ip : option string) (reason : string) (d : db) (row row' : Withdrawal) (d' : db) :
  ledger_ok d → tb_withdrawals d !! wid = Some row → 0 < wd_amount row < 10 ^ 12 →
  user_wallet d (wd_courier_id row) (wd_wallet_id row) →
  (approve wid admin ip d = Ok (row', d') → decided wid WithdrawalStatus.APPROVED row 0 [] d row' d') ∧
  (reject wid admin reason ip d = Ok (row', d') → decided wid WithdrawalStatus.REJECTED row (wd_amount row) [] d row' d') ∧
  (mark_withdrawal_paid wid admin ip d = Ok (row', d') →
   ∃ gw, (wd_status row ≠ WithdrawalStatus.PAID → system_wallet d WalletType.SYSTEM_GATEWAY gw) ∧
     decided wid WithdrawalStatus.PAID row (wd_amount row) [(wd_wallet_id row, - wd_amount row); (gw, wd_amount row)] d row' d').
Proof.
  intros Hd Hrow Hamt Hw. split; [by apply approve_decided|]. split; [by apply reject_decided|by apply paid_decided].
Qed.

(** An approved withdrawal of 60.00, on hold. *)
Definition withdrawal_row : Withdrawal :=
  mk_Withdrawal 71 6 6000 "cipher" "7519" WithdrawalStatus.APPROVED None None (Some "k1"%string) 0.

Definition db_approved : db :=
  (state_after (hold_funds 6 (sar 6000)) db_courier) <| tb_withdrawals := {[ 48%N := withdrawal_row ]} |>.

Lemma ledger_ok_approved : ledger_ok db_approved.
Proof.
  unfold db_approved. generalize (keeps_state_after ledger_ok _ _ (keeps_hold_funds 6 (sar 6000)) ledger_ok_courier).
  generalize (state_after (hold_funds 6 (sar 6000)) db_courier). intros d. by apply ledger_frame.
Qed.

Lemma withdrawal_decisions_witness :
  ∃ row' d', mark_withdrawal_paid 48 99 None db_approved = Ok (row', d') ∧
   ∃ gw, (wd_status withdrawal_row ≠ WithdrawalStatus.PAID → system_wallet db_approved WalletType.SYSTEM_GATEWAY gw) ∧
     decided 48 WithdrawalStatus.PAID withdrawal_row 6000 [(6%N, - 6000); (gw, 6000)] db_approved row' d'.
Proof.
  destruct (mark_withdrawal_paid 48 99 None db_approved) as [[row' d']|e] eqn:E.
  2:{ assert (is_ok (mark_withdrawal_paid 48 99 None db_approved) = true) as H by (vm_compute; reflexivity).
      rewrite E in H. discriminate H. }
  exists row', d'. split; [done|].
  apply (withdrawal_decisions 48 99 None EmptyString db_approved withdrawal_row row' d');
    [apply ledger_ok_approved|vm_compute; reflexivity|cbn; lia| |exact E].
  eexists. split; vm_compute; reflexivity.
Defined.
