(* ===== verification/Schemas.v ===== *)
(** * Request schemas ([app/schemas/*.py])

    The inbound models of the public API: the fields a body has once JSON is decoded, and the
    constraints on them.  Pydantic checks every field of a model and rejects the body when one
    is wrong ([RequestValidationError]); a field validator that raises anything but a
    [ValueError] is not caught ([decimal.InvalidOperation] of an amount with too many digits).
    Latitudes and longitudes are in microdegrees, dates are days.  A field with a default is
    an [option] where its validator skips the default.  Unknown keys of a body are not part of
    the model. *)

From Stdlib Require Import ZArith Lia Ascii.
From stdpp Require Import base list gmap strings numbers option.
From S2P Require Import Prelude Errors PyDecimal Money Pricing Enums Tables Database Redis Media Orders Invoices Users Auth Fulfillment.
Open Scope Z_scope.

(** ** Constraints *)

(** The outcome of the checks of a model: all of them run. *)
Fixpoint fields (checks : list (res bool)) : res bool :=
  match checks with
  | [] => Ok true
  | c :: checks => b ← c; rest ← fields checks; Ok (b && rest)
  end.

Definition reject_unless (checks : list (res bool)) : res () :=
  ok ← fields checks; raise_if (negb ok) RequestValidationError.

(** [StringConstraints(min_length, max_length)]. *)
Definition length_in (lo hi : nat) (s : string) : bool := (lo <=? String.length s)%nat && (String.length s <=? hi)%nat.

Definition opt {A} (f : A → bool) (o : option A) : bool := match o with Some a => f a | None => true end.

Definition within (lo hi z : Z) : bool := (lo <=? z) && (z <=? hi).

Definition all_digits (n : nat) (l : list ascii) : bool := (length l =? n)%nat && forallb is_digit l.

(** [^\+9665\d{8}$] and [^\d{6}$]. *)
Definition is_phone (s : string) : bool :=
  match after (chars "+9665") (chars s) with Some rest => all_digits 8 rest | None => false end.

Definition is_otp (s : string) : bool := all_digits 6 (chars s).

(** A character of [[^@\s]]. *)
Definition email_char (c : ascii) : bool :=
  let n := Z.of_N (N_of_ascii c) in
  negb (Ascii.eqb c "@"%char || within 9 13 n || (n =? 32)).

(** [[^@\s]+\.[^@\s]+$]: some character, a dot, some character. *)
Fixpoint dotted (l : list ascii) : bool :=
  match l with
  | c :: (("."%char :: _ :: _) as rest) => email_char c && forallb email_char rest
  | c :: rest => email_char c && dotted rest
  | [] => false
  end.

(** [^[^@\s]+@[^@\s]+\.[^@\s]+$]. *)
Fixpoint local_then_domain (l : list ascii) : bool :=
  match l with
  | c :: "@"%char :: rest => email_char c && dotted rest
  | c :: rest => email_char c && local_then_domain rest
  | [] => false
  end.

Definition is_email (s : string) : bool := local_then_domain (chars s).

(** A money field: its length, then its validator. *)
Definition money_field (hi : nat) (bad : dec → bool) (s : string) : res bool :=
  if length_in 1 hi s then
    match parse_money (InStr s) with
    | Ok d => Ok (negb (bad d))
    | Raise MoneyError => Ok false
    | Raise e => Raise e
    end
  else Ok false.

Definition nothing_bad (d : dec) : bool := false.
Definition negative (d : dec) : bool := dltb d (dint 0).
Definition not_positive (d : dec) : bool := dleb d (dint 0).

Class Schema (A : Type) := parse_body : A → res A.

(** ** [schemas/auth.py] *)

Record SendOtpRequest := mk_SendOtpRequest { so_phone : string }.

#[export] Instance send_otp_schema : Schema SendOtpRequest := λ b,
  reject_unless [Ok (is_phone (so_phone b))];; Ok b.

Record VerifyOtpRequest := mk_VerifyOtpRequest { vo_phone : string; vo_otp : string }.

#[export] Instance verify_otp_schema : Schema VerifyOtpRequest := λ b,
  reject_unless [Ok (is_phone (vo_phone b)); Ok (is_otp (vo_otp b))];; Ok b.

Record RegisterRequest := mk_RegisterRequest {
  rq_registration_token : string;
  rq_role : string;
  rq_full_name : option string;
  rq_email : option string;
  rq_dob : option day;
  rq_city : option string;
  rq_national_id : option string;
  rq_passport_id : option string;
}.

Definition email_field (s : string) : bool := length_in 0 255 s && is_email s.

#[export] Instance register_schema : Schema RegisterRequest := λ b,
  reject_unless
    [Ok (same (rq_role b) "CUSTOMER" || same (rq_role b) "COURIER");
     Ok (opt (length_in 0 120) (rq_full_name b)); Ok (opt email_field (rq_email b));
     Ok (opt (length_in 0 100) (rq_city b)); Ok (opt (length_in 0 64) (rq_national_id b));
     Ok (opt (length_in 0 64) (rq_passport_id b))];; Ok b.

Record RefreshRequest := mk_RefreshRequest { rf_refresh_token : string }.

#[export] Instance refresh_schema : Schema RefreshRequest := λ b, Ok b.

(** ** [schemas/users.py] *)

Record UserUpdateRequest := mk_UserUpdateRequest { uu_full_name : option string; uu_email : option string; uu_dob : option day }.

#[export] Instance user_update_schema : Schema UserUpdateRequest := λ b,
  reject_unless [Ok (opt (length_in 0 120) (uu_full_name b)); Ok (opt email_field (uu_email b))];; Ok b.

(** ** [schemas/orders.py] *)

Definition latitude_ok (z : Z) : bool := within (-90000000) 90000000 z.
Definition longitude_ok (z : Z) : bool := within (-180000000) 180000000 z.

Record CreateOrderRequest := mk_CreateOrderRequest {
  co_description : option string;
  co_delivery_city : string;
  co_latitude : Z;
  co_longitude : Z;
  co_delivery_date : day;
  co_request_media_keys : list string;
}.

#[export] Instance create_order_schema : Schema CreateOrderRequest := λ b,
  reject_unless
    [Ok (opt (length_in 0 2000) (co_description b)); Ok (length_in 0 100 (co_delivery_city b));
     Ok (latitude_ok (co_latitude b)); Ok (longitude_ok (co_longitude b));
     Ok (length (co_request_media_keys b) <=? 3)%nat];; Ok b.

Record CancelOrderRequest := mk_CancelOrderRequest { ca_reason : option string }.

#[export] Instance cancel_order_schema : Schema CancelOrderRequest := λ b,
  reject_unless [Ok (opt (length_in 0 255) (ca_reason b))];; Ok b.

(** ** [schemas/fulfillment.py] *)

Record DeliverRequest := mk_DeliverRequest {
  dl_latitude : Z; dl_longitude : Z; dl_proof_media_keys : list string; dl_note : option string }.

#[export] Instance deliver_schema : Schema DeliverRequest := λ b,
  reject_unless
    [Ok (latitude_ok (dl_latitude b)); Ok (longitude_ok (dl_longitude b));
     Ok ((1 <=? length (dl_proof_media_keys b)) && (length (dl_proof_media_keys b) <=? 5))%nat;
     Ok (opt (length_in 0 500) (dl_note b))];; Ok b.

Record DisputeRequest := mk_DisputeRequest { dq_reason : string }.

#[export] Instance dispute_schema : Schema DisputeRequest := λ b,
  reject_unless [Ok (length_in 3 1000 (dq_reason b))];; Ok b.

Record ResolveDisputeRequest := mk_ResolveDisputeRequest {
  rs_outcome : string; rs_note : option string; rs_courier_amount : option string }.

#[export] Instance resolve_dispute_schema : Schema ResolveDisputeRequest := λ b,
  reject_unless
    [Ok (opt (length_in 0 1000) (rs_note b));
     match rs_courier_amount b with Some s => money_field 20 negative s | None => Ok true end];; Ok b.

Record RatingRequest := mk_RatingRequest { rt_score : Z; rt_comment : option string }.

#[export] Instance rating_schema : Schema RatingRequest := λ b,
  reject_unless [Ok (within 1 5 (rt_score b)); Ok (opt (length_in 0 500) (rt_comment b))];; Ok b.

(** ** [schemas/invoices.py] *)

Record InvoiceLineRequest := mk_InvoiceLineRequest {
  ln_title : string;
  ln_description : option string;
  ln_unit_price_amount : string;
  ln_quantity : Z;
  ln_tax_rate : option string;
}.

(** [_valid_rate]. *)
Definition rate_field (s : string) : res bool :=
  if length_in 1 8 s then
    match parse_rate (InStr s) with
    | Ok rate => Ok (dleb (dint 0) rate && dleb rate (dint 1))
    | Raise MoneyError => Ok false
    | Raise e => Raise e
    end
  else Ok false.

Definition line_checks (l : InvoiceLineRequest) : res bool :=
  fields
    [Ok (length_in 1 120 (ln_title l)); Ok (opt (length_in 0 500) (ln_description l));
     money_field 20 nothing_bad (ln_unit_price_amount l); Ok (within 1 999 (ln_quantity l));
     match ln_tax_rate l with Some s => rate_field s | None => Ok true end].

Record CreateInvoiceRequest := mk_CreateInvoiceRequest {
  ci_items : list InvoiceLineRequest;
  ci_courier_fee_amount : option string;
  ci_promo_code : option string;
}.

(** A list that is too long is given up at its twenty-first item. *)
#[export] Instance create_invoice_schema : Schema CreateInvoiceRequest := λ b,
  reject_unless
    [fields (line_checks <$> take 20 (ci_items b));
     Ok ((1 <=? length (ci_items b)) && (length (ci_items b) <=? 20))%nat;
     match ci_courier_fee_amount b with Some s => money_field 20 negative s | None => Ok true end;
     Ok (opt (length_in 1 32) (ci_promo_code b))];; Ok b.

Record PromoValidateRequest := mk_PromoValidateRequest { pq_code : string; pq_order_id : string }.

#[export] Instance promo_validate_schema : Schema PromoValidateRequest := λ b,
  reject_unless [Ok (length_in 1 32 (pq_code b))];; Ok b.

(** ** [schemas/payments.py], [schemas/wallets.py] *)

Record TopupRequest := mk_TopupRequest { tq_amount : string }.

#[export] Instance topup_schema : Schema TopupRequest := λ b,
  reject_unless [money_field 20 not_positive (tq_amount b)];; Ok b.

Record SimulatePaymentRequest := mk_SimulatePaymentRequest { sm_payment_link_id : string; sm_status : string }.

#[export] Instance simulate_schema : Schema SimulatePaymentRequest := λ b,
  reject_unless [Ok (length_in 1 100 (sm_payment_link_id b)); Ok (length_in 1 32 (sm_status b))];; Ok b.

Record WithdrawalRequest := mk_WithdrawalRequest { wq_amount : string; wq_iban : string }.

(** [normalize_iban]: spaces dropped, upper case, [^SA\d{22}$]. *)
Definition normalize_iban (value : string) : option string :=
  let raw := upper (String.string_of_list_ascii (List.filter (λ c, negb (Ascii.eqb c " "%char)) (chars value))) in
  match after (chars "SA") (chars raw) with
  | Some rest => if all_digits 22 rest then Some raw else None
  | None => None
  end.

#[export] Instance withdrawal_schema : Schema WithdrawalRequest := λ b,
  match normalize_iban (wq_iban b) with
  | Some raw => Ok (mk_WithdrawalRequest (wq_amount b) raw)
  | None => Raise RequestValidationError
  end.

Record RejectWithdrawalRequest := mk_RejectWithdrawalRequest { rw_reason : string }.

#[export] Instance reject_withdrawal_schema : Schema RejectWithdrawalRequest := λ b,
  reject_unless [Ok (length_in 1 255 (rw_reason b))];; Ok b.

(** ** [schemas/media.py], [schemas/devices.py], [schemas/chat.py] *)

Record UploadUrlRequest := mk_UploadUrlRequest { up_purpose : string; up_content_type : string; up_byte_size : Z }.

#[export] Instance upload_url_schema : Schema UploadUrlRequest := λ b,
  reject_unless
    [Ok (same (up_purpose b) "ORDER_REQUEST" || same (up_purpose b) "DELIVERY_PROOF");
     Ok (same (up_content_type b) "image/jpeg" || same (up_content_type b) "image/png");
     Ok (0 <? up_byte_size b)];; Ok b.

Record ConfirmRequest := mk_ConfirmRequest { cf_storage_key : string }.

#[export] Instance confirm_schema : Schema ConfirmRequest := λ b, Ok b.

Record RegisterDeviceRequest := mk_RegisterDeviceRequest { rd_token : string; rd_device_os : string }.

#[export] Instance register_device_schema : Schema RegisterDeviceRequest := λ b,
  reject_unless [Ok (length_in 1 512 (rd_token b))];; Ok b.

Record UnregisterDeviceRequest := mk_UnregisterDeviceRequest { ud_token : string }.

#[export] Instance unregister_device_schema : Schema UnregisterDeviceRequest := λ b,
  reject_unless [Ok (length_in 1 512 (ud_token b))];; Ok b.

Record SendMessageRequest := mk_SendMessageRequest { sq_text : string }.

#[export] Instance send_message_schema : Schema SendMessageRequest := λ b,
  reject_unless [Ok (length_in 1 4000 (sq_text b))];; Ok b.
