(* ===== verification/Columns.v ===== *)
(** * Accepted input fits its columns

    The row model does not enforce [VARCHAR] lengths (Tables.v).  Here is why it may do without: what the
    request schemas accept fits the columns of the migrated schema it is written to, and what the services encrypt fits
    its ciphertext column as long as its UTF-8 form does not exceed 355 bytes. *)

From Stdlib Require Import ZArith Lia Ascii.
From stdpp Require Import base list gmap strings numbers option pretty.
From S2P Require Import Prelude Errors PyDecimal Money Pricing Enums Tables Sql Database Ddl Models Migrations SchemaRows.
From S2P Require Import Redis Crypto Media Invoices Config Fields Chat Schemas.
Open Scope Z_scope.

(** ** What a body is stored as *)

(** A text on its way to a column. *)
Record cell := Cell { ce_table : string; ce_column : string; ce_text : string }.

Definition optional (tbl c : string) (o : option string) : list cell := match o with Some s => [Cell tbl c s] | None => [] end.

(** The texts of a request body the services write as they are, with their columns. *)
Class Stored (A : Type) := stored : A → list cell.

#[export] Instance stored_send_otp : Stored SendOtpRequest := λ b, [Cell "users" "phone" (so_phone b)].

#[export] Instance stored_register : Stored RegisterRequest := λ b,
  optional "users" "full_name" (rq_full_name b) ++ optional "users" "email" (rq_email b) ++
  optional "courier_profiles" "city_of_residence" (rq_city b).

#[export] Instance stored_user_update : Stored UserUpdateRequest := λ b,
  optional "users" "full_name" (uu_full_name b) ++ optional "users" "email" (uu_email b).

#[export] Instance stored_create_order : Stored CreateOrderRequest := λ b,
  optional "orders" "description" (co_description b) ++ [Cell "orders" "delivery_city" (co_delivery_city b)].

#[export] Instance stored_cancel : Stored CancelOrderRequest := λ b, optional "orders" "cancelled_reason" (ca_reason b).

#[export] Instance stored_dispute : Stored DisputeRequest := λ b, [Cell "disputes" "reason" (dq_reason b)].

#[export] Instance stored_resolution : Stored ResolveDisputeRequest := λ b, optional "disputes" "resolution_note" (rs_note b).

#[export] Instance stored_rating : Stored RatingRequest := λ b, optional "ratings" "comment" (rt_comment b).

Definition stored_line (l : InvoiceLineRequest) : list cell :=
  Cell "invoice_items" "title" (ln_title l) :: optional "invoice_items" "description" (ln_description l).

#[export] Instance stored_invoice : Stored CreateInvoiceRequest := λ b,
  (ci_items b ≫= stored_line) ++ optional "invoices" "promo_code_snapshot" (ci_promo_code b).

#[export] Instance stored_rejection : Stored RejectWithdrawalRequest := λ b, [Cell "withdrawals" "rejection_reason" (rw_reason b)].

#[export] Instance stored_device : Stored RegisterDeviceRequest := λ b, [Cell "device_tokens" "token" (rd_token b)].

(** The longest text a column takes; [None] has no limit. *)
Definition text_limit (s : schema) (tbl c : string) : option (option nat) :=
  match s_tables s !! tbl ≫= λ t, t_columns t !! c with
  | Some k => match c_type k with String_ n => Some (Some n) | Text => Some None | _ => None end
  | None => None
  end.

Definition cell_fits (s : schema) (c : cell) : bool :=
  match text_limit s (ce_table c) (ce_column c) with
  | Some (Some n) => (String.length (ce_text c) <=? n)%nat
  | Some None => true
  | None => false
  end.

(** Whatever the schema accepts fits. *)
Definition body_fits (A : Type) `{Schema A, Stored A} : Prop :=
  ∀ b b' : A, parse_body b = Ok b' → Forall (λ c, cell_fits schema_at_head c = true) (stored b').

(** ** Lemmas *)

Lemma fields_true (l : list (res bool)) : fields l = Ok true → Forall (λ c, c = Ok true) l.
Proof.
  induction l as [|[b|e] l IH]; [done|..|done]. intros E. cbn in E. destruct (fields l) as [rest|]; [|done]. cbn in E.
  destruct b, rest; try done. constructor; [done|by apply IH].
Qed.

Lemma accepted (l : list (res bool)) : reject_unless l = Ok () → Forall (λ c, c = Ok true) l.
Proof.
  unfold reject_unless. destruct (fields l) as [b|] eqn:E; [|done]. intros H. apply fields_true. rewrite E. cbn in H. by destruct b.
Qed.

Lemma reject_bind {A} (l : list (res bool)) (b b' : A) :
  (reject_unless l ≫= λ _, Ok b) = Ok b' → b' = b ∧ Forall (λ c, c = Ok true) l.
Proof. destruct (reject_unless l) as [[]|] eqn:E; [|done]. intros [= <-]. split; [done|by apply accepted]. Qed.

Lemma length_in_le (lo hi : nat) (s : string) : Ok (length_in lo hi s) = Ok true → (String.length s ≤ hi)%nat.
Proof. unfold length_in. intros [= [_ H%Nat.leb_le]%andb_true_iff]. done. Qed.

Lemma cell_fits_within (tbl c s : string) (n hi : nat) :
  text_limit schema_at_head tbl c = Some (Some n) → (hi ≤ n)%nat → (String.length s ≤ hi)%nat →
  cell_fits schema_at_head (Cell tbl c s) = true.
Proof. intros E Hn Hs. unfold cell_fits. cbn. rewrite E. apply Nat.leb_le. lia. Qed.

Lemma optional_fits (tbl c : string) (o : option string) (lo hi n : nat) :
  text_limit schema_at_head tbl c = Some (Some n) → (hi ≤ n)%nat → Ok (opt (length_in lo hi) o) = Ok true →
  Forall (λ c, cell_fits schema_at_head c = true) (optional tbl c o).
Proof.
  intros E Hn Ho. destruct o as [s|]; [|constructor]. constructor; [|constructor]. eapply cell_fits_within; [exact E|exact Hn|].
  by apply (length_in_le lo).
Qed.

Lemma email_optional_fits (o : option string) : Ok (opt email_field o) = Ok true →
  Forall (λ c, cell_fits schema_at_head c = true) (optional "users" "email" o).
Proof.
  intros Ho. destruct o as [s|]; [|constructor]. constructor; [|constructor]. unfold opt, email_field in Ho. injection Ho as Ho.
  apply andb_true_iff in Ho as [Ho _]. eapply (cell_fits_within _ _ _ 255 255); [vm_compute; reflexivity|lia|].
  apply (length_in_le 0). by rewrite Ho.
Qed.

Lemma text_fits (tbl c : string) (o : option string) : text_limit schema_at_head tbl c = Some None →
  Forall (λ c, cell_fits schema_at_head c = true) (optional tbl c o).
Proof. intros E. destruct o; constructor; [|constructor]. unfold cell_fits. cbn. by rewrite E. Qed.

Lemma after_length (p l rest : list ascii) : after p l = Some rest → length l = (length p + length rest)%nat.
Proof.
  revert l. induction p as [|x p IH]; intros l; cbn; [by intros [= ->]|]. destruct l as [|y l]; [done|].
  destruct (Ascii.eqb x y); [|done]. intros H%IH. cbn. lia.
Qed.

Lemma length_chars (s : string) : length (chars s) = String.length s.
Proof. unfold chars. induction s as [|c s IH]; cbn; [done|by rewrite <- IH]. Qed.

Lemma phone_length (s : string) : is_phone s = true → String.length s = 13%nat.
Proof.
  unfold is_phone. destruct (after (chars "+9665") (chars s)) as [rest|] eqn:E; [|done]. unfold all_digits.
  intros [Hl%Nat.eqb_eq _]%andb_true_iff. apply after_length in E. rewrite Hl in E. cbn in E.
  by rewrite length_chars in E.
Qed.

(** The limits of the schema, computed. *)
Ltac limit := vm_compute; reflexivity.

Ltac body_checks :=
  let b := fresh "b" in let H := fresh "H" in
  intros b ? H; apply reject_bind in H as [-> H]; rewrite ?Forall_cons in H; destruct_and? H.

Ltac cells_fit :=
  lazymatch goal with
  | |- Forall _ [] => constructor
  | |- Forall _ (_ :: _) => constructor; [cells_fit|cells_fit]
  | |- Forall _ (_ ++ _) => apply Forall_app; split; cells_fit
  | |- cell_fits _ (Cell _ _ _) = true => eapply cell_fits_within; [limit| |eapply length_in_le; eassumption]; lia
  | |- Forall _ (optional "users" "email" _) => by apply email_optional_fits
  | |- Forall _ (optional _ _ _) => first [apply text_fits; limit | eapply optional_fits; [limit| |eassumption]; lia]
  end.

Lemma fits_send_otp : body_fits SendOtpRequest.
Proof.
  body_checks. constructor; [|constructor]. eapply (cell_fits_within _ _ _ 20 13); [limit|lia|].
  match goal with E : Ok (is_phone _) = Ok true |- _ => injection E as E; apply phone_length in E end. lia.
Qed.

Lemma fits_register : body_fits RegisterRequest.
Proof. body_checks. unfold stored, stored_register. cells_fit. Qed.

Lemma fits_user_update : body_fits UserUpdateRequest.
Proof. body_checks. unfold stored, stored_user_update. cells_fit. Qed.

Lemma fits_create_order : body_fits CreateOrderRequest.
Proof. body_checks. unfold stored, stored_create_order. cells_fit. Qed.

Lemma fits_cancel : body_fits CancelOrderRequest.
Proof. body_checks. unfold stored, stored_cancel. cells_fit. Qed.

Lemma fits_dispute : body_fits DisputeRequest.
Proof. body_checks. unfold stored, stored_dispute. cells_fit. Qed.

Lemma fits_resolution : body_fits ResolveDisputeRequest.
Proof. body_checks. unfold stored, stored_resolution. cells_fit. Qed.

Lemma fits_rating : body_fits RatingRequest.
Proof. body_checks. unfold stored, stored_rating. cells_fit. Qed.

Lemma fits_rejection : body_fits RejectWithdrawalRequest.
Proof. body_checks. unfold stored, stored_rejection. cells_fit. Qed.

Lemma fits_device : body_fits RegisterDeviceRequest.
Proof. body_checks. unfold stored, stored_device. cells_fit. Qed.

Lemma fits_line (l : InvoiceLineRequest) : line_checks l = Ok true → Forall (λ c, cell_fits schema_at_head c = true) (stored_line l).
Proof. unfold line_checks. intros H%fields_true. rewrite !Forall_cons in H. destruct_and? H. unfold stored_line. cells_fit. Qed.

Lemma fits_invoice : body_fits CreateInvoiceRequest.
Proof.
  body_checks. unfold stored, stored_invoice. apply Forall_app. split; [|cells_fit].
  match goal with E : fields _ = Ok true, L : Ok (_ && _)%nat = Ok true |- _ =>
    injection L as L; apply andb_true_iff in L as [_ L%Nat.leb_le]; rewrite take_ge in E by exact L; apply fields_true in E; rename E into HE end.
  apply Forall_fmap in HE. apply Forall_bind. eapply Forall_impl; [exact HE|]. intros l Hl. by apply fits_line.
Qed.

(** ** Ciphertexts *)

Section Ciphertexts.
Context `{AesGcm} `{!AesGcmLaws}.

(** AES-GCM adds its 16-byte tag to the plaintext and nothing else. *)
Hypothesis gcm_size : ∀ k iv pt aad, length (gcm_encrypt k iv pt aad) = (length pt + 16)%nat.

Lemma b64_length (n : nat) : ∀ l : bytes, (length l <= n)%nat → length (b64encode l) = (4 * ((length l + 2) / 3))%nat.
Proof.
  induction n as [n IH] using lt_wf_ind. intros [|x [|y [|z l]]] Hl; [reflexivity..|].
  cbn [b64encode length] in *. rewrite (IH (n - 3)%nat) by lia.
  replace (S (S (S (length l))) + 2)%nat with ((length l + 2) + 1 * 3)%nat by lia. rewrite Nat.div_add by lia. lia.
Qed.

Lemma sealed_length (c : FieldCipher) (key : bytes) (n : N) (text table column entity : string) :
  String.length (sealed c key n text table column entity) = (4 * ((String.length text + 31) / 3))%nat.
Proof.
  unfold sealed. rewrite <- length_chars. change (chars (to_text ?b)) with (of_text (to_text b)). rewrite of_to_text.
  rewrite (b64_length _ _ (le_n _)). cbn [length]. rewrite length_app, iv_length, gcm_size. unfold of_text. fold (chars text). rewrite length_chars.
  f_equal. f_equal. lia.
Qed.

(** A ciphertext column takes the ciphertext of at most 355 bytes. *)
Lemma sealed_fits (c : FieldCipher) (key : bytes) (n : N) (text table column entity : string) :
  (String.length (sealed c key n text table column entity) ≤ 512)%nat ↔ (String.length text ≤ 355)%nat.
Proof.
  rewrite sealed_length. pose proof (Nat.div_mod (String.length text + 31) 3 ltac:(lia)) as E.
  pose proof (Nat.mod_upper_bound (String.length text + 31) 3 ltac:(lia)). lia.
Qed.

(** The inbox preview cuts the text at 100 characters, not bytes: a hundred four-byte characters (emoji) are 400 bytes,
    and their ciphertext is too long for [last_message_preview_encrypted]. *)
Lemma preview_can_overflow (c : FieldCipher) (key : bytes) (n : N) (text entity : string) :
  String.length text = (4 * PREVIEW_CHARS)%nat →
  cell_fits schema_at_head (Cell "conversations" "last_message_preview_encrypted"
    (sealed c key n text "conversations" "last_message_preview" entity)) = false.
Proof.
  intros E. unfold cell_fits. cbn [ce_table ce_column ce_text].
  replace (text_limit schema_at_head _ _) with (Some (Some 512%nat)) by limit. apply Nat.leb_gt.
  rewrite sealed_length, E. vm_compute. lia.
Qed.
End Ciphertexts.

(** ** Properties *)

(** Accepted input fits the database.  Whatever a request schema accepts (the sign-in phone, registration and profile, orders, cancellations,
    disputes and their resolution, ratings, invoices with their lines and promo code, withdrawal rejections, device tokens) is
    within the length of every column of the migrated schema its texts are written to: no accepted body can fail on a [VARCHAR] limit. *)
Theorem accepted_input_fits :
  body_fits SendOtpRequest ∧ body_fits RegisterRequest ∧ body_fits UserUpdateRequest ∧ body_fits CreateOrderRequest ∧
  body_fits CancelOrderRequest ∧ body_fits DisputeRequest ∧ body_fits ResolveDisputeRequest ∧ body_fits RatingRequest ∧
  body_fits CreateInvoiceRequest ∧ body_fits RejectWithdrawalRequest ∧ body_fits RegisterDeviceRequest.
Proof.
  exact (conj fits_send_otp (conj fits_register (conj fits_user_update (conj fits_create_order (conj fits_cancel (conj fits_dispute
    (conj fits_resolution (conj fits_rating (conj fits_invoice (conj fits_rejection fits_device)))))))))).
Qed.
