(* ===== verification/AdminReads.v ===== *)
(** * Dashboard reads ([app/repositories/admin_read_repository.py], [PromoRepository.list_all],
      [list_redemptions])

    The lists behind the pages of the dashboard, and the browser over every table with its redaction
    of sensitive columns. *)

From Stdlib Require Import ZArith Lia Ascii.
From stdpp Require Import base list gmap strings numbers option pretty sorting.
From S2P Require Import Prelude Errors Enums Tables Database Promos AdminAuth Withdrawals.
Open Scope Z_scope.

(** ** Counters of the landing page *)

Definition ORDER_STATUSES : list order_status :=
  [OrderStatus.NEW; OrderStatus.ASSIGNED; OrderStatus.WAITING_PAYMENT; OrderStatus.IN_PROGRESS; OrderStatus.DELIVERED;
   OrderStatus.COMPLETED; OrderStatus.DISPUTED; OrderStatus.CANCELLED; OrderStatus.REFUNDED].

(** [count( * ) WHERE f]. *)
Definition count_rows {row} `{Table row} (f : row → bool) (d : db) : Z := map_total (λ r, if f r then 1 else 0) (rows d).

(** [GROUP BY status]: no entry for a status without orders. *)
Definition order_counts_by_status : M (list (order_status * Z)) := λ d,
  Ok (omap (λ st, let n := count_rows (λ o, same (ord_status o) st) d in if n =? 0 then None else Some (st, n)) ORDER_STATUSES, d).

Definition open_dispute_count : M Z := λ d, Ok (count_rows (λ x, same (dis_status x) DisputeStatus.OPEN) d, d).

Definition pending_withdrawal_count : M Z := λ d, Ok (count_rows (λ x, same (wd_status x) WithdrawalStatus.REQUESTED) d, d).

Definition system_wallet_balances : M (list (wallet_type * Z)) :=
  l ← select_rows (λ _ w, negb (not_null (w_user_id w)));
  mret ((λ p : uuid * Wallet, (w_type p.2, w_balance p.2)) <$> l).

(** ** Lists, newest first *)

Definition newest {row} `{Table row} (f : row → bool) (created : row → instant) (limit : nat) : M (list (uuid * row)) :=
  l ← select_rows (λ _ r, f r);
  mret (take limit (sort_on (λ p, - created p.2) l)).

Definition list_orders (status : option order_status) (limit : nat) : M (list (uuid * Order)) :=
  newest (λ o, opt_same status (ord_status o)) ord_created_at limit.

Definition get_order (order_id : uuid) : M (option Order) := get_row order_id.

Definition list_invoices (limit : nat) : M (list (uuid * Invoice)) := newest (λ _, true) inv_created_at limit.

Definition get_invoice (invoice_id : uuid) : M (option Invoice) := get_row invoice_id.

Definition list_disputes (status : option dispute_status) (limit : nat) : M (list (uuid * Dispute)) :=
  newest (λ x, opt_same status (dis_status x)) dis_created_at limit.

Definition get_dispute (dispute_id : uuid) : M (option Dispute) := get_row dispute_id.

Definition list_withdrawals (status : option withdrawal_status) (limit : nat) : M (list (uuid * Withdrawal)) :=
  newest (λ x, opt_same status (wd_status x)) wd_created_at limit.

Definition get_withdrawal (withdrawal_id : uuid) : M (option Withdrawal) := get_row withdrawal_id.

(** [ORDER BY user_id IS NULL DESC, created_at DESC]. *)
Definition list_wallets (limit : nat) : M (list (uuid * Wallet)) :=
  l ← select_rows (λ _ _, true);
  let by_date := sort_on (λ p, - w_created_at p.2) l in
  mret (take limit (sort_on (λ p, if not_null (w_user_id p.2) then 1 else 0) by_date)).

Definition get_wallet (wallet_id : uuid) : M (option Wallet) := get_row wallet_id.

Definition list_topups (limit : nat) : M (list (uuid * PaymentIntent)) :=
  newest (λ x, same (pin_purpose x) PaymentPurpose.WALLET_TOPUP) pin_created_at limit.

Definition list_all_promos (limit : nat) : M (list (uuid * Promo)) := newest (λ _, true) pm_created_at limit.

Definition list_redemptions (promo_id : uuid) (limit : nat) : M (list (uuid * PromoRedemption)) :=
  newest (λ x, same (rd_promo_id x) promo_id) rd_created_at limit.

(** ** The table browser *)

Definition PAGE_SIZE : nat := 50.

Definition EDITABLE_TABLES : list string := ["users"; "courier_profiles"; "orders"]%string.

Definition EDIT_URL_COLUMNS : list (string * string) := [("users", "id"); ("courier_profiles", "user_id"); ("orders", "id")]%string.

Definition ADMIN_VISIBLE_USER_COLUMNS : list string := ["phone"; "email"; "full_name"; "date_of_birth"]%string.

Definition REDACTED_MARKERS : list string := ["encrypted"; "token"; "secret"; "hash"; "fingerprint"; "password"]%string.

Definition REDACTED_COLUMNS : list string :=
  ["phone"; "email"; "full_name"; "date_of_birth"; "ip_address"; "user_agent"; "delivery_address_note"; "iban_last4";
   "streampay_payment_url"]%string.

(** [Base.metadata.tables]: the tables with their columns, sorted by name. *)
Definition metadata_tables : list (string * list string) :=
  [("admin_sessions", ["id"; "admin_user_id"; "session_token_hash"; "ip_address"; "user_agent"; "expires_at";
     "revoked_at"; "created_at"; "updated_at"]);
   ("audit_logs", ["id"; "actor_user_id"; "action"; "entity_type"; "entity_id"; "ip_address"; "metadata";
     "created_at"; "updated_at"]);
   ("conversations", ["id"; "order_id"; "customer_id"; "courier_id"; "last_message_preview_encrypted";
     "last_message_timestamp"; "customer_unread_count"; "courier_unread_count"; "is_closed"; "created_at";
     "updated_at"]);
   ("courier_portfolios", ["id"; "courier_id"; "storage_key"; "media_type"; "description"; "display_order";
     "created_at"; "updated_at"]);
   ("courier_profiles", ["user_id"; "passport_id_encrypted"; "national_id_encrypted"; "identity_fingerprint";
     "city_of_residence"; "bio"; "is_verified"; "verified_at"; "verified_by_admin_id"; "created_at"; "updated_at"]);
   ("device_tokens", ["id"; "user_id"; "device_os"; "token"; "last_seen_at"; "created_at"; "updated_at"]);
   ("disputes", ["id"; "order_id"; "raised_by_user_id"; "reason"; "status"; "resolution_note";
     "resolved_by_admin_id"; "resolved_at"; "created_at"; "updated_at"]);
   ("invoice_items", ["id"; "invoice_id"; "position"; "title"; "description"; "unit_price_amount"; "quantity";
     "tax_rate"; "line_net_amount"; "line_discount_amount"; "line_taxable_amount"; "line_tax_amount";
     "line_total_amount"; "created_at"; "updated_at"]);
   ("invoices", ["id"; "order_id"; "issued_by_courier_id"; "status"; "currency"; "items_net_amount";
     "courier_fee_amount"; "service_fee_amount"; "discount_amount"; "net_after_discount_amount"; "tax_amount";
     "total_amount"; "promo_id"; "promo_code_snapshot"; "payment_method"; "amount_from_wallet";
     "amount_from_gateway"; "pricing_breakdown"; "expires_at"; "issued_at"; "paid_at"; "receipt_email_sent_at";
     "created_at"; "updated_at"]);
   ("messages", ["id"; "conversation_id"; "sender_id"; "message_type"; "content_encrypted"; "is_read"; "read_at";
     "created_at"; "updated_at"]);
   ("order_media", ["id"; "order_id"; "uploaded_by_user_id"; "media_type"; "storage_key"; "content_type";
     "byte_size"; "capture_location"; "captured_at"; "created_at"; "updated_at"]);
   ("orders", ["id"; "customer_id"; "courier_id"; "description"; "delivery_city"; "delivery_location";
     "delivery_address_note"; "delivery_date"; "status"; "total_amount"; "commission_amount";
     "courier_payout_amount"; "assigned_at"; "delivered_at"; "completed_at"; "cancelled_reason"; "created_at";
     "updated_at"]);
   ("otp_attempts", ["id"; "phone_hash"; "ip_address"; "was_successful"; "created_at"; "updated_at"]);
   ("payment_intents", ["id"; "user_id"; "purpose"; "amount"; "currency"; "status"; "checkout_provider";
     "streampay_payment_link_id"; "streampay_payment_url"; "reference_invoice_id"; "expires_at"; "paid_at";
     "failure_reason"; "created_at"; "updated_at"]);
   ("promo_redemptions", ["id"; "promo_id"; "user_id"; "invoice_id"; "order_id"; "discount_amount"; "status";
     "released_at"; "consumed_at"; "created_at"; "updated_at"]);
   ("promos", ["id"; "code"; "description"; "discount_type"; "percent_value"; "fixed_amount";
     "max_discount_amount"; "min_order_amount"; "max_total_usages"; "max_usages_per_user"; "used_count";
     "is_active"; "starts_at"; "ends_at"; "created_by_admin_id"; "created_at"; "updated_at"]);
   ("ratings", ["id"; "order_id"; "rater_id"; "rated_user_id"; "score"; "comment"; "created_at"; "updated_at"]);
   ("refresh_tokens", ["id"; "user_id"; "token_hash"; "family_id"; "expires_at"; "used_at"; "revoked_at";
     "created_at"]);
   ("transactions", ["id"; "wallet_id"; "amount"; "type"; "status"; "reference_order_id"; "reference_invoice_id";
     "reference_intent_id"; "correlation_id"; "balance_after"; "idempotency_key"; "description"; "created_at";
     "updated_at"]);
   ("users", ["id"; "phone"; "email"; "full_name"; "date_of_birth"; "role"; "status"; "rating"; "rating_count";
     "deleted_at"; "created_at"; "updated_at"]);
   ("wallet_topups", ["id"; "user_id"; "wallet_id"; "payment_intent_id"; "amount"; "created_at"; "updated_at"]);
   ("wallets", ["id"; "user_id"; "type"; "balance"; "held_balance"; "currency"; "version"; "created_at";
     "updated_at"]);
   ("withdrawals", ["id"; "courier_id"; "wallet_id"; "amount"; "iban_encrypted"; "iban_last4"; "status";
     "processed_by_admin_id"; "rejection_reason"; "idempotency_key"; "created_at"; "updated_at"])]%string.

Definition find_table (name : string) : option (list string) := snd <$> find (λ t, bool_decide (t.1 = name)) metadata_tables.

Record AdminTableInfo := mk_AdminTableInfo { ti_name : string; ti_editable : bool }.

Record AdminTableRow := mk_AdminTableRow { cells : list string; edit_url : option string }.

Record AdminTablePage := mk_AdminTablePage {
  tp_table : AdminTableInfo;
  tp_columns : list string;
  tp_edit_column : option string;
  tp_rows : list AdminTableRow;
  tp_page : nat;
  tp_has_next : bool;
}.

(** A value read from the database, with the texts [str] and [json.dumps] give for it. *)
Inductive pyvalue :=
  | PNone
  | PEnum (value : string)
  | PAtom (text : string)        (* a date, datetime, UUID or Decimal *)
  | PJson (dumped : string)      (* a dict or list *)
  | PText (text : string).       (* anything else *)

Definition str_of (v : pyvalue) : string :=
  match v with PNone => "None"%string | PEnum s | PAtom s | PJson s | PText s => s end.

(** A row of a table: its [created_at], which every table has, and its columns. *)
Record raw_row := mk_raw_row { rr_created_at : instant; rr_values : gmap string pyvalue }.

Definition value_of (r : raw_row) (column : string) : pyvalue := default PNone (rr_values r !! column).

Definition mem (x : string) (l : list string) : bool := bool_decide (x ∈ l).

(** [marker in column]. *)
Definition contains (marker column : string) : bool := not_null (String.index 0 marker column).

Definition redacted (table_name column : string) : bool :=
  let normalized := casefold column in
  (mem normalized REDACTED_COLUMNS && negb (bool_decide (table_name = "users"%string) && mem normalized ADMIN_VISIBLE_USER_COLUMNS)) ||
  existsb (λ marker, contains marker normalized) REDACTED_MARKERS.

Definition MASK : string := "••••••".

Definition truncate (limit : nat) (value : string) : string :=
  if (String.length value <=? limit)%nat then value else String.substring 0 (limit - 1) value +:+ "…".

Definition display_value (table_name column : string) (value : pyvalue) : string :=
  if redacted table_name column then MASK
  else match value with
       | PNone => "—"
       | PEnum s | PAtom s => s
       | PJson s | PText s => truncate 160 s
       end.

Definition edit_column_of (table_name : string) : option string :=
  snd <$> find (λ p, bool_decide (p.1 = table_name)) EDIT_URL_COLUMNS.

Definition edit_url_of (table_name : string) (row : raw_row) : option string :=
  match edit_column_of table_name with
  | None => None
  | Some key =>
      match value_of row key with
      | PNone => None
      | v =>
          let plural := if bool_decide (table_name = "courier_profiles"%string) then "couriers"%string else table_name in
          Some ("/admin/" +:+ plural +:+ "/" +:+ str_of v)
      end
  end.

Definition list_table_catalog : list AdminTableInfo :=
  (λ t : string * list string, mk_AdminTableInfo t.1 (mem t.1 EDITABLE_TABLES)) <$> metadata_tables.

Definition show_row (table_name : string) (columns : list string) (row : raw_row) : AdminTableRow :=
  mk_AdminTableRow ((λ c, display_value table_name c (value_of row c)) <$> columns) (edit_url_of table_name row).

(** [rows]: the table's rows.  [LIMIT 51 OFFSET 50 * (page - 1)], the 51st only tells that there is more. *)
Definition list_table_page (rows : list raw_row) (table_name : string) (page : nat) : option AdminTablePage :=
  match find_table table_name with
  | None => None
  | Some columns =>
      let mappings := take (PAGE_SIZE + 1) (drop ((page - 1) * PAGE_SIZE) (sort_on (λ r, - rr_created_at r) rows)) in
      Some (mk_AdminTablePage (mk_AdminTableInfo table_name (mem table_name EDITABLE_TABLES)) columns
              (edit_column_of table_name) (show_row table_name columns <$> take PAGE_SIZE mappings) page
              (PAGE_SIZE <? length mappings)%nat)
  end.

(** ** Lemmas *)

(** A stable sort commutes with a change of the elements that keeps their keys. *)
Section SortMap.
Context {A B : Type} (f : A → B) (key : B → Z).
Notation RA := (le_on (λ a, key (f a))).
Notation RB := (le_on key).

Definition map_stack (st : list (option (list A))) : list (option (list B)) := option_map (map f) <$> st.

Lemma list_merge_fmap (l1 l2 : list A) : list_merge RB (f <$> l1) (f <$> l2) = f <$> list_merge RA l1 l2.
Proof.
  revert l2. induction l1 as [|x1 l1 IH1]; intros l2; [by destruct l2|].
  induction l2 as [|x2 l2 IH2]; [done|].
  change (f <$> x1 :: l1) with (f x1 :: (f <$> l1)) in *. change (f <$> x2 :: l2) with (f x2 :: (f <$> l2)).
  rewrite !list_merge_cons.
  destruct (decide (RB (f x1) (f x2))) as [H|H], (decide (RA x1 x2)) as [H'|H']; try (by destruct (H' H)); try (by destruct (H H')).
  - change (f x2 :: (f <$> l2)) with (f <$> x2 :: l2). by rewrite IH1.
  - by rewrite IH2.
Qed.

Lemma merge_list_to_stack_fmap (st : list (option (list A))) (l : list A) :
  merge_list_to_stack RB (map_stack st) (f <$> l) = map_stack (merge_list_to_stack RA st l).
Proof.
  revert l. induction st as [|[l'|] st IH]; intros l; [done| |done]. cbn.
  f_equal. change (option_map (map f) <$> st) with (map_stack st). rewrite <- IH. f_equal. apply list_merge_fmap.
Qed.

Lemma merge_stack_fmap (st : list (option (list A))) :
  merge_stack RB (map_stack st) = f <$> merge_stack RA st.
Proof.
  induction st as [|[l|] st IH]; [done| |exact IH]. cbn. change (option_map (map f) <$> st) with (map_stack st).
  rewrite IH. apply list_merge_fmap.
Qed.

Lemma sort_on_fmap (l : list A) : sort_on key (f <$> l) = f <$> sort_on (λ a, key (f a)) l.
Proof.
  unfold sort_on, merge_sort. change (@nil (option (list B))) with (map_stack []).
  generalize (@nil (option (list A))). induction l as [|x l IH]; intros st; [apply merge_stack_fmap|].
  cbn. rewrite <- IH. f_equal. apply (merge_list_to_stack_fmap st [x]).
Qed.
End SortMap.

(** What is left of a row without its redacted columns. *)
Definition scrub (table_name : string) (r : raw_row) : raw_row :=
  mk_raw_row (rr_created_at r) (filter (λ kv, redacted table_name kv.1 = false) (rr_values r)).

Lemma value_of_scrub (t : string) (r : raw_row) (c : string) : redacted t c = false → value_of (scrub t r) c = value_of r c.
Proof.
  intros Hc. unfold value_of, scrub. cbn. f_equal. destruct (rr_values r !! c) as [v|] eqn:E.
  - by apply map_lookup_filter_Some_2.
  - apply map_lookup_filter_None. by left.
Qed.

(** The columns that identify a row in a link are not redacted. *)
Lemma edit_column_visible (t c : string) : edit_column_of t = Some c → redacted t c = false.
Proof.
  unfold edit_column_of, EDIT_URL_COLUMNS. cbn [find fst]. intros H.
  repeat (case_bool_decide; [simplify_option_eq; vm_compute; reflexivity|]). done.
Qed.

Lemma show_row_scrub (t : string) (cs : list string) (r : raw_row) : show_row t cs (scrub t r) = show_row t cs r.
Proof.
  unfold show_row. f_equal.
  - apply list_fmap_ext. intros i c _. unfold display_value. destruct (redacted t c) eqn:E; [done|]. by rewrite value_of_scrub.
  - unfold edit_url_of. destruct (edit_column_of t) as [c|] eqn:E; [|done]. by rewrite value_of_scrub by (by apply edit_column_visible).
Qed.

Lemma list_table_page_scrub (rs : list raw_row) (t : string) (n : nat) :
  list_table_page (scrub t <$> rs) t n = list_table_page rs t n.
Proof.
  unfold list_table_page. destruct (find_table t) as [cs|]; [|done].
  rewrite (sort_on_fmap (scrub t) (λ r, - rr_created_at r)). cbn [scrub rr_created_at].
  rewrite <- fmap_drop, <- !fmap_take, length_fmap, <- list_fmap_compose. do 2 f_equal. apply list_fmap_ext. intros i r _. apply show_row_scrub.
Qed.

(** The masked columns of every table. *)
Definition masked_columns : list (string * list string) :=
  filter (λ t, t.2 ≠ []) ((λ t : string * list string, (t.1, filter (λ c, redacted t.1 c = true) t.2)) <$> metadata_tables).

(** The pages of a table up to the [n]-th, one after the other. *)
Definition page_rows (rs : list raw_row) (t : string) (n : nat) : list AdminTableRow :=
  match list_table_page rs t n with Some p => tp_rows p | None => [] end.

Lemma pages_concatenate (rs : list raw_row) (t : string) (cs : list string) (n : nat) : find_table t = Some cs →
  concat ((λ k, page_rows rs t (S k)) <$> seq 0 n) = show_row t cs <$> take (n * PAGE_SIZE) (sort_on (λ r, - rr_created_at r) rs).
Proof.
  intros Ht. induction n as [|n IH]; [done|]. rewrite seq_S, fmap_app, concat_app, IH. cbn [fmap list_fmap concat].
  rewrite app_nil_r. unfold page_rows, list_table_page. rewrite Ht. cbn [tp_rows]. rewrite take_take.
  replace (S (0 + n) - 1)%nat with n by lia. replace (PAGE_SIZE `min` (PAGE_SIZE + 1))%nat with PAGE_SIZE by lia.
  rewrite <- fmap_app. f_equal. replace (S n * PAGE_SIZE)%nat with (n * PAGE_SIZE + PAGE_SIZE)%nat by lia.
  apply take_take_drop.
Qed.

(** ** Property *)

(** The table browser hides what it must: exactly the columns listed are masked, the page of a table does not depend
    on their contents (two versions of a table that differ only there show the same page), an unknown table has no page,
    every page has at most fifty rows, and the pages one after the other are the whole table, newest
    row first. *)
Theorem table_browser_redacts (rs rs' : list raw_row) (t : string) (page : nat) :
  scrub t <$> rs = scrub t <$> rs' →
  masked_columns =
    [("admin_sessions", ["session_token_hash"; "ip_address"; "user_agent"]);
     ("audit_logs", ["ip_address"]);
     ("conversations", ["last_message_preview_encrypted"]);
     ("courier_profiles", ["passport_id_encrypted"; "national_id_encrypted"; "identity_fingerprint"]);
     ("device_tokens", ["token"]);
     ("messages", ["content_encrypted"]);
     ("orders", ["delivery_address_note"]);
     ("otp_attempts", ["phone_hash"; "ip_address"]);
     ("payment_intents", ["streampay_payment_url"]);
     ("refresh_tokens", ["token_hash"]);
     ("withdrawals", ["iban_encrypted"; "iban_last4"])]%string ∧
  list_table_page rs t page = list_table_page rs' t page ∧
  (∀ p, list_table_page rs t page = Some p → (length (tp_rows p) ≤ PAGE_SIZE)%nat) ∧
  match find_table t with
  | None => list_table_page rs t page = None
  | Some columns => ∀ n,
      concat ((λ k, page_rows rs t (S k)) <$> seq 0 n) = show_row t columns <$> take (n * PAGE_SIZE) (sort_on (λ r, - rr_created_at r) rs)
  end.
Proof.
  intros Hs. split; [vm_compute; reflexivity|]. split; [|split].
  - by rewrite <- (list_table_page_scrub rs), Hs, list_table_page_scrub.
  - unfold list_table_page. destruct (find_table t); [|done]. intros p [= <-]. cbn [tp_rows]. rewrite length_fmap, length_take. lia.
  - destruct (find_table t) as [cs|] eqn:E; [|unfold list_table_page; by rewrite E]. intros n. by apply pages_concatenate.
Qed.

(** Two states of the withdrawals table with different bank accounts. *)
Definition withdrawal_rows (iban : string) : list raw_row :=
  [mk_raw_row 5 {[ "id" := PAtom "1"; "amount" := PAtom "120.00"; "iban_encrypted" := PText iban; "iban_last4" := PText iban ]}%string].

Lemma table_browser_redacts_witness :
  withdrawal_rows "SA0380000000608010167519" ≠ withdrawal_rows "SA4420000001234567891234" ∧
  list_table_page (withdrawal_rows "SA0380000000608010167519") "withdrawals" 1 =
    list_table_page (withdrawal_rows "SA4420000001234567891234") "withdrawals" 1.
Proof.
  split; [intros [= H]; vm_compute in H; discriminate|].
  refine (proj1 (proj2 (table_browser_redacts _ _ "withdrawals" 1 _))). vm_compute. reflexivity.
Defined.
