(* ===== verification/Routes.v ===== *)
(** * The public API ([app/routers/*.py])

    One function per route: the authenticated caller ([Depends(require_auth)] or
    [Depends(require_role(...))], before anything else), the query and the body
    against their schemas, the service, the answer.  [header] is the Authorization header.  Ids,
    statuses and times of an answer are kept as values, amounts are printed by [money_str]
    as in the code.  [Deployment] is what a running instance is configured with and connected
    to. *)

From Stdlib Require Import ZArith Lia QArith Ascii.
From stdpp Require Import base list gmap strings numbers option.
From S2P Require Import Prelude Errors PyDecimal Money Pricing Enums Tables Database Redis RateLimit Ledger Users Promos Crypto Media Orders Invoices.
From S2P Require Import Config Fields Tokens Otp Auth Chat Ratings Receipts Payments Fulfillment Withdrawals AdminReads Schemas.
Open Scope Z_scope.

Class Deployment := {
  #[global] dp_storage :: StorageClient;
  #[global] dp_gateway :: StreamPayClient;
  #[global] dp_security :: SecurityLib;
  #[global] dp_sms :: SmsClient;
  #[global] dp_push :: PushClient;
  #[global] dp_email :: EmailClient;
  #[global] dp_gcm :: AesGcm;
  app : AppSettings;
  max_upload : Z;
  encrypt : string → string → res string;
  st_distance : point → point → Q;
  repr : json → string;
  json_loads : string → option json;
  json_dumps : json → string;
  json_text : string → option string;
  isoformat : instant → string;
  fromisoformat : string → option instant;
  type_name : message_type → string;
  uuid5 : string → uuid;
  table_rows : string → db → list raw_row;
  sign_webhook : string → string;
}.

Definition settings `{Deployment} : Settings := business app.

(** ** Values in a request *)

(** [OrderStatus(status)], [DisputeStatus(outcome)], [DeviceOs(device_os)]. *)
Definition parse_order_status (s : string) : option order_status :=
  snd <$> find (λ p, same s p.1)
    [("NEW", OrderStatus.NEW); ("ASSIGNED", OrderStatus.ASSIGNED); ("WAITING_PAYMENT", OrderStatus.WAITING_PAYMENT);
     ("IN_PROGRESS", OrderStatus.IN_PROGRESS); ("DELIVERED", OrderStatus.DELIVERED); ("COMPLETED", OrderStatus.COMPLETED);
     ("CANCELLED", OrderStatus.CANCELLED); ("DISPUTED", OrderStatus.DISPUTED); ("REFUNDED", OrderStatus.REFUNDED)]%string.

Definition parse_dispute_status (s : string) : option dispute_status :=
  snd <$> find (λ p, same s p.1)
    [("OPEN", DisputeStatus.OPEN); ("RESOLVED_CUSTOMER", DisputeStatus.RESOLVED_CUSTOMER);
     ("RESOLVED_COURIER", DisputeStatus.RESOLVED_COURIER); ("RESOLVED_SPLIT", DisputeStatus.RESOLVED_SPLIT)]%string.

Definition parse_device_os (s : string) : option device_os :=
  snd <$> find (λ p, same s p.1) [("IOS", DeviceOs.IOS); ("ANDROID", DeviceOs.ANDROID)]%string.

(** [uuid.UUID(cursor) if cursor else None]. *)
Definition parse_id_cursor (cursor : option string) : res (option uuid) :=
  if empty_str cursor then Ok None
  else match cursor ≫= parse_uuid with Some id => Ok (Some id) | None => Raise ValueError end.

(** [Query(ge=1, le=100)]. *)
Definition parse_limit (limit : Z) : res nat :=
  raise_if (negb (within 1 100 limit)) RequestValidationError;; Ok (Z.to_nat limit).

(** [rows[-1].id if len(rows) == limit else None]. *)
Definition next_id {A} (rows : list (uuid * A)) (limit : nat) : option uuid :=
  if (length rows =? limit)%nat then fst <$> head (rev rows) else None.

(** [cursor.partition("|")]: what precedes the first bar and what follows it. *)
Fixpoint partition_bar (l : list ascii) : option (list ascii * list ascii) :=
  match l with
  | [] => None
  | "|"%char :: l => Some ([], l)
  | c :: l => '(a, b) ← partition_bar l; Some (c :: a, b)
  end.

(** [_parse_cursor] of the inbox. *)
Definition parse_inbox_cursor `{Deployment} (cursor : option string) : option (instant * uuid) :=
  c ← cursor;
  '(ts_raw, id_raw) ← partition_bar (chars c);
  ts ← fromisoformat (to_text ts_raw);
  id ← parse_uuid (to_text id_raw);
  Some (ts, id).

(** ** Answers *)

Record OrderSummary := mk_OrderSummary {
  os_id : uuid; os_status : order_status; os_delivery_city : string; os_delivery_date : day;
  os_description : option string; os_created_at : instant }.

Record OrderDetail := mk_OrderDetail {
  od_id : uuid; od_status : order_status; od_customer_id : uuid; od_courier_id : option uuid; od_delivery_city : string;
  od_delivery_date : day; od_description : option string; od_latitude : option Z; od_longitude : option Z;
  od_total_amount : string; od_assigned_at : option instant; od_created_at : instant }.

Record DisputeResponse := mk_DisputeResponse {
  dr_id : uuid; dr_order_id : uuid; dr_status : dispute_status; dr_reason : string; dr_resolution_note : option string }.

Record InvoiceItemResponse := mk_InvoiceItemResponse {
  ir_position : Z; ir_title : string; ir_description : option string; ir_unit_price_amount : string; ir_quantity : Z;
  ir_tax_rate : rate4; ir_line_net_amount : string; ir_line_discount_amount : string; ir_line_taxable_amount : string;
  ir_line_tax_amount : string; ir_line_total_amount : string }.

Record InvoiceResponse := mk_InvoiceResponse {
  iv_id : uuid; iv_order_id : uuid; iv_status : invoice_status; iv_currency : string; iv_items_net_amount : string;
  iv_courier_fee_amount : string; iv_service_fee_amount : string; iv_discount_amount : string;
  iv_net_after_discount_amount : string; iv_tax_amount : string; iv_total_amount : string;
  iv_promo_code : option string; iv_issued_at : option instant; iv_expires_at : option instant;
  iv_items : list InvoiceItemResponse }.

Record PayInvoiceResponse := mk_PayInvoiceResponse {
  pi_invoice_id : uuid; pi_status : pay_status; pi_amount_from_wallet : string; pi_amount_from_gateway : string;
  pi_payment_url : option string }.

Record PromoPreviewResponse := mk_PromoPreviewResponse {
  po_code : string; po_discount_amount : string; po_original_total_amount : string; po_total_amount : string }.

Record WalletResponse := mk_WalletResponse {
  wr_balance : string; wr_held_balance : string; wr_available : string; wr_currency : string }.

Record TransactionResponse := mk_TransactionResponse {
  tn_id : uuid; tn_amount : string; tn_type : transaction_type; tn_status : transaction_status; tn_balance_after : string;
  tn_created_at : instant }.

Record WithdrawalResponse := mk_WithdrawalResponse {
  wl_id : uuid; wl_amount : string; wl_iban_last4 : string; wl_status : withdrawal_status; wl_rejection_reason : option string }.

Record UserMeResponse := mk_UserMeResponse {
  me_id : uuid; me_phone : string; me_role : user_role; me_status : user_status; me_full_name : option string;
  me_email : option string; me_rating : tenths; me_rating_count : Z }.

Inductive ApiResponse :=
  | RNothing
  | RSendOtp (expires_in : Z) (dev_otp : option string)
  | RVerifyOtp (r : VerifyResult)
  | RTokens (t : TokenPair)
  | RUser (u : UserMeResponse)
  | RWallet (w : WalletResponse)
  | RTopup (intent_id : uuid) (amount payment_url : string)
  | RWithdrawal (w : WithdrawalResponse)
  | RTransactions (items : list TransactionResponse) (next_cursor : option uuid)
  | RUploadUrl (upload_url storage_key : string) (expires_in : Z)
  | RConfirmed (storage_key : string)
  | RDetail (d : OrderDetail)
  | ROrders (items : list OrderSummary) (next_cursor : option uuid)
  | RDispute (d : DisputeResponse)
  | RInvoice (i : InvoiceResponse)
  | RPayment (p : PayInvoiceResponse)
  | RPromo (p : PromoPreviewResponse)
  | RWebhook (outcome : WebhookResult)
  | RRating (id : uuid) (r : Rating)
  | RSummary (user_id : uuid) (average : hundredths) (count : Z)
  | RInbox (items : list InboxItem) (next_cursor : option string)
  | RMessages (items : list ChatMessage) (next_cursor : option uuid)
  | RMessage (m : ChatMessage)
  | RDevice (token : string) (os : device_os).

Definition money_text (z : money) : res string := money_str (sar z).

(** [_summary], [_page] of routers/orders.py. *)
Definition summary (p : uuid * Order) : OrderSummary :=
  let '(id, o) := p in
  mk_OrderSummary id (ord_status o) (ord_delivery_city o) (ord_delivery_date o) (ord_description o) (ord_created_at o).

Definition order_page (rows : list (uuid * Order)) (limit : nat) : ApiResponse :=
  ROrders (summary <$> rows) (next_id rows limit).

(** [_detail]: the exact point is shown to the customer, and to a courier once assigned. *)
Definition show_coords (actor : Actor) (o : Order) : bool :=
  same (actor_role actor) UserRole.CUSTOMER || negb (same (ord_status o) OrderStatus.NEW).

Definition detail_of_order (id : uuid) (o : Order) (actor : Actor) : T ApiResponse :=
  row ← (if show_coords actor o then on_db (get_row id) else mret None);
  let coords := ord_delivery_location <$> (row : option Order) in
  total ← pure (money_text (ord_total_amount o));
  mret (RDetail (mk_OrderDetail id (ord_status o) (ord_customer_id o) (ord_courier_id o) (ord_delivery_city o)
    (ord_delivery_date o) (ord_description o) (lat <$> coords) (lng <$> coords) total (ord_assigned_at o)
    (ord_created_at o))).

Definition dispute_response (id : uuid) (x : Dispute) : ApiResponse :=
  RDispute (mk_DisputeResponse id (dis_order_id x) (dis_status x) (dis_reason x) (dis_resolution_note x)).

(** [_item], [_detail] of routers/invoices.py. *)
Definition item_response (p : uuid * InvoiceItem) : res InvoiceItemResponse :=
  let it := p.2 in
  price ← money_text (it_unit_price_amount it);
  net ← money_text (it_line_net_amount it);
  discount ← money_text (it_line_discount_amount it);
  taxable ← money_text (it_line_taxable_amount it);
  tax ← money_text (it_line_tax_amount it);
  total ← money_text (it_line_total_amount it);
  Ok (mk_InvoiceItemResponse (it_position it) (it_title it) (it_description it) price (it_quantity it) (it_tax_rate it)
        net discount taxable tax total).

Definition invoice_response (id : uuid) (i : Invoice) (items : list (uuid * InvoiceItem)) : res ApiResponse :=
  net ← money_text (inv_items_net_amount i);
  fee ← money_text (inv_courier_fee_amount i);
  service ← money_text (inv_service_fee_amount i);
  discount ← money_text (inv_discount_amount i);
  after_discount ← money_text (inv_net_after_discount_amount i);
  tax ← money_text (inv_tax_amount i);
  total ← money_text (inv_total_amount i);
  lines ← res_map item_response items;
  Ok (RInvoice (mk_InvoiceResponse id (inv_order_id i) (inv_status i) (inv_currency i) net fee service discount after_discount
        tax total (inv_promo_code_snapshot i) (inv_issued_at i) (inv_expires_at i) lines)).

Definition withdrawal_response (id : uuid) (row : Withdrawal) : res ApiResponse :=
  amount ← money_text (wd_amount row);
  Ok (RWithdrawal (mk_WithdrawalResponse id amount (wd_iban_last4 row) (wd_status row) (wd_rejection_reason row))).

Definition transaction_response (p : uuid * Transaction) : res TransactionResponse :=
  amount ← money_text (txn_amount p.2);
  after_ ← money_text (txn_balance_after p.2);
  Ok (mk_TransactionResponse p.1 amount (txn_type p.2) (txn_status p.2) after_ (txn_created_at p.2)).

(** [_to_response] of routers/users.py. *)
Definition user_response (id : uuid) (u : User) : ApiResponse :=
  RUser (mk_UserMeResponse id (usr_phone u) (usr_role u) (usr_status u) (usr_full_name u) (usr_email u) (usr_rating u)
    (usr_rating_count u)).

(** ** The routes *)

Section Routes.
Context `{Deployment}.

Definition auth_as (allowed : list user_role) (header : string) : T Actor :=
  actor ← require_auth app header;
  pure (require_role allowed actor).

Definition PARTICIPANT : list user_role := [UserRole.CUSTOMER; UserRole.COURIER].

(** *** routers/auth.py *)

Definition route_send_otp (body : SendOtpRequest) : T ApiResponse :=
  b ← pure (parse_body body);
  r ← send_otp app (so_phone b);
  mret (RSendOtp r.1 r.2).

Definition route_verify_otp (body : VerifyOtpRequest) : T ApiResponse :=
  b ← pure (parse_body body);
  r ← auth_verify_otp app (vo_phone b) (vo_otp b);
  mret (RVerifyOtp r).

Definition route_register (body : RegisterRequest) : T ApiResponse :=
  b ← pure (parse_body body);
  role ← required (parse_role (rq_role b)) ValueError;
  tokens ← register app (rq_registration_token b)
             (mk_RegisterInput role (rq_full_name b) (rq_email b) (rq_dob b) (rq_city b) (rq_national_id b) (rq_passport_id b));
  mret (RTokens tokens).

Definition route_refresh (body : RefreshRequest) : T ApiResponse :=
  b ← pure (parse_body body);
  tokens ← refresh app (rf_refresh_token b);
  mret (RTokens tokens).

Definition route_logout (header : string) : T ApiResponse :=
  actor ← require_auth app header;
  now ← clock;
  claims ← pure (decode_access_token app (strip (default EmptyString (after_prefix "Bearer " header))) now);
  logout (actor_jti actor) (ac_exp claims - now);;
  mret RNothing.

(** *** routers/users.py *)

Definition route_get_me (header : string) : T ApiResponse :=
  actor ← require_auth app header;
  u ← on_db (get_user (actor_id actor));
  user ← required u NotFoundError;
  mret (user_response (actor_id actor) user).

Definition route_update_me (header : string) (body : UserUpdateRequest) : T ApiResponse :=
  actor ← require_auth app header;
  b ← pure (parse_body body);
  u ← on_db (get_user (actor_id actor));
  user ← required u NotFoundError;
  let user := match uu_full_name b with Some n => user <| usr_full_name := Some n |> | None => user end in
  let user := match uu_email b with Some e => user <| usr_email := Some e |> | None => user end in
  let user := match uu_dob b with Some x => user <| usr_date_of_birth := Some x |> | None => user end in
  on_db (update_row (actor_id actor) user);;
  mret (user_response (actor_id actor) user).

(** *** routers/wallets.py *)

Definition route_get_my_wallet (header : string) : T ApiResponse :=
  actor ← auth_as PARTICIPANT header;
  w ← on_db (get_by_user (actor_id actor));
  wallet ← required w NotFoundError;
  balance ← pure (money_text (w_balance wallet.2));
  held ← pure (money_text (w_held_balance wallet.2));
  available ← pure (money_str (dsub (sar (w_balance wallet.2)) (sar (w_held_balance wallet.2))));
  mret (RWallet (mk_WalletResponse balance held available (w_currency wallet.2))).

Definition route_start_topup (header : string) (body : TopupRequest) : T ApiResponse :=
  actor ← auth_as PARTICIPANT header;
  b ← pure (parse_body body);
  amount ← pure (parse_money (InStr (tq_amount b)));
  r ← on_db (create_topup settings (actor_id actor) amount);
  text ← pure (money_str (tr_amount r));
  mret (RTopup (tr_intent_id r) text (tr_payment_url r)).

(** [Header(alias="Idempotency-Key", min_length=1, max_length=128)]. *)
Definition route_request_withdrawal (header idempotency_key : string) (body : WithdrawalRequest) : T ApiResponse :=
  actor ← auth_as [UserRole.COURIER] header;
  assert_ (negb (length_in 1 128 idempotency_key)) RequestValidationError;;
  b ← pure (parse_body body);
  amount ← pure (parse_money (InStr (wq_amount b)));
  row ← on_db (request_withdrawal settings encrypt (actor_id actor) amount (wq_iban b) idempotency_key);
  pure (withdrawal_response row.1 row.2).

Definition route_list_my_transactions (header : string) (cursor : option string) (limit : Z) : T ApiResponse :=
  actor ← auth_as PARTICIPANT header;
  limit ← pure (parse_limit limit);
  w ← on_db (get_by_user (actor_id actor));
  wallet ← required w NotFoundError;
  before ← pure (parse_id_cursor cursor);
  rows ← on_db (list_transactions wallet.1 limit before);
  items ← pure (res_map transaction_response rows);
  mret (RTransactions items (next_id rows limit)).

(** *** routers/media.py *)

Definition route_create_upload_url (header : string) (body : UploadUrlRequest) : T ApiResponse :=
  actor ← require_auth app header;
  b ← pure (parse_body body);
  r ← on_db (request_upload_url max_upload (up_purpose b) (up_content_type b) (up_byte_size b));
  mret (RUploadUrl r.1.1 r.1.2 r.2).

Definition route_confirm_upload (header : string) (body : ConfirmRequest) : T ApiResponse :=
  actor ← require_auth app header;
  b ← pure (parse_body body);
  pure (confirm max_upload (cf_storage_key b));;
  mret (RConfirmed (cf_storage_key b)).

(** *** routers/orders.py *)

Definition order_input (b : CreateOrderRequest) : NewOrderInput :=
  mk_NewOrderInput (co_description b) (co_delivery_city b) (co_latitude b) (co_longitude b) (co_delivery_date b)
    (co_request_media_keys b).

(** The service returns the row it inserted. *)
Definition route_create_order (header : string) (body : CreateOrderRequest) : T ApiResponse :=
  actor ← auth_as [UserRole.CUSTOMER] header;
  b ← pure (parse_body body);
  id ← on_db (create_order max_upload (actor_id actor) (order_input b));
  row ← on_db (get_row id);
  order ← required row NotFoundError;
  notify_city_couriers (ord_delivery_city order) "New gift request nearby" "A customer just posted a new order in your city.";;
  detail_of_order id order actor.

Definition route_list_orders (header : string) (status cursor : option string) (limit : Z) : T ApiResponse :=
  actor ← auth_as [UserRole.CUSTOMER] header;
  limit ← pure (parse_limit limit);
  status_enum ← (if empty_str status then mret None
                 else s ← required (status ≫= parse_order_status) ValueError; mret (Some s));
  before ← pure (parse_id_cursor cursor);
  rows ← on_db (list_for_customer (actor_id actor) status_enum limit before);
  mret (order_page rows limit).

Definition route_available_orders (header : string) (cursor : option string) (limit : Z) : T ApiResponse :=
  actor ← auth_as [UserRole.COURIER] header;
  limit ← pure (parse_limit limit);
  p ← on_db (get_courier (actor_id actor));
  profile ← required p ForbiddenError;
  before ← pure (parse_id_cursor cursor);
  rows ← on_db (list_available (cp_city_of_residence profile) limit before);
  mret (order_page rows limit).

Definition route_get_order (header : string) (order_id : uuid) : T ApiResponse :=
  actor ← auth_as PARTICIPANT header;
  o ← on_db (order_for_actor order_id (actor_id actor));
  order ← required o NotFoundError;
  detail_of_order order_id order actor.

Definition route_accept_order (header : string) (order_id : uuid) : T ApiResponse :=
  actor ← auth_as [UserRole.COURIER] header;
  order ← on_db (accept_order encrypt order_id (actor_id actor));
  detail_of_order order_id order actor.

Definition route_cancel_order (header : string) (order_id : uuid) (body : CancelOrderRequest) : T ApiResponse :=
  actor ← auth_as PARTICIPANT header;
  b ← pure (parse_body body);
  order ← on_db (cancel_order order_id (actor_id actor) (ca_reason b));
  detail_of_order order_id order actor.

Definition delivery_input (b : DeliverRequest) : DeliveryInput :=
  mk_DeliveryInput (dl_latitude b) (dl_longitude b) (dl_proof_media_keys b) (dl_note b).

Definition route_deliver_order (header : string) (order_id : uuid) (body : DeliverRequest) : T ApiResponse :=
  actor ← auth_as [UserRole.COURIER] header;
  b ← pure (parse_body body);
  order ← on_db (submit_delivery max_upload settings st_distance order_id (actor_id actor) (delivery_input b));
  detail_of_order order_id order actor.

Definition route_approve_order (header : string) (order_id : uuid) : T ApiResponse :=
  actor ← auth_as [UserRole.CUSTOMER] header;
  order ← on_db (approve_order settings order_id (actor_id actor));
  detail_of_order order_id order actor.

Definition route_dispute_order (header : string) (order_id : uuid) (body : DisputeRequest) : T ApiResponse :=
  actor ← auth_as PARTICIPANT header;
  b ← pure (parse_body body);
  id ← on_db (raise_dispute order_id (actor_id actor) (dq_reason b));
  row ← on_db (get_row id);
  dispute ← required row NotFoundError;
  mret (dispute_response id dispute).

(** *** routers/invoices.py, routers/promos.py *)

Definition line_input (l : InvoiceLineRequest) : res InvoiceLineInput :=
  price ← parse_money (InStr (ln_unit_price_amount l));
  rate ← parse_rate (InStr (default "0.15" (ln_tax_rate l)));
  Ok (mk_InvoiceLineInput (ln_title l) price (ln_quantity l) rate (ln_description l)).

Definition invoice_input (b : CreateInvoiceRequest) : res NewInvoiceInput :=
  items ← res_map line_input (ci_items b);
  fee ← parse_money (InStr (default "0.00" (ci_courier_fee_amount b)));
  Ok (mk_NewInvoiceInput items fee (ci_promo_code b)).

Definition route_create_invoice (header : string) (order_id : uuid) (body : CreateInvoiceRequest) : T ApiResponse :=
  actor ← auth_as [UserRole.COURIER] header;
  b ← pure (parse_body body);
  data ← pure (invoice_input b);
  id ← on_db (create_invoice settings order_id (actor_id actor) data);
  row ← on_db (get_row id);
  invoice ← required row NotFoundError;
  items ← on_db (list_items id);
  pure (invoice_response id invoice items).

(** [get_active_invoice_for_order], with the id of the invoice. *)
Definition route_get_order_invoice (header : string) (order_id : uuid) : T ApiResponse :=
  actor ← auth_as PARTICIPANT header;
  i ← on_db (get_active_for_order_for_actor order_id (actor_id actor));
  invoice ← required i NotFoundError;
  items ← on_db (list_items invoice.1);
  pure (invoice_response invoice.1 invoice.2 items).

Definition route_get_invoice (header : string) (invoice_id : uuid) : T ApiResponse :=
  actor ← auth_as PARTICIPANT header;
  r ← on_db (get_invoice_for_actor invoice_id (actor_id actor));
  pure (invoice_response invoice_id r.1 r.2).

Definition route_pay_invoice (header : string) (invoice_id : uuid) : T ApiResponse :=
  actor ← auth_as [UserRole.CUSTOMER] header;
  r ← on_db (pay_invoice settings invoice_id (actor_id actor));
  from_wallet ← pure (money_str (py_amount_from_wallet r));
  from_gateway ← pure (money_str (py_amount_from_gateway r));
  mret (RPayment (mk_PayInvoiceResponse (py_invoice_id r) (py_status r) from_wallet from_gateway (py_payment_url r))).

Definition route_cancel_invoice (header : string) (invoice_id : uuid) : T ApiResponse :=
  actor ← auth_as [UserRole.COURIER] header;
  invoice ← on_db (cancel_invoice invoice_id (actor_id actor));
  items ← on_db (list_items invoice_id);
  pure (invoice_response invoice_id invoice items).

Definition route_validate_promo (header : string) (body : PromoValidateRequest) : T ApiResponse :=
  actor ← auth_as [UserRole.CUSTOMER] header;
  b ← pure (parse_body body);
  order_id ← required (parse_uuid (pq_order_id b)) ValueError;
  p ← on_db (preview_promo settings order_id (pq_code b) (actor_id actor));
  discount ← pure (money_str (pp_discount_amount p));
  original ← pure (money_str (pp_original_total_amount p));
  total ← pure (money_str (pp_total_amount p));
  mret (RPromo (mk_PromoPreviewResponse (pp_code p) discount original total)).

(** *** routers/webhooks.py *)

Definition route_streampay_webhook (raw_body signature : string) : T ApiResponse :=
  r ← on_db (handle_webhook repr json_loads raw_body signature);
  mret (RWebhook r).

(** *** routers/ratings.py *)

Definition route_rate_order (header : string) (order_id : uuid) (body : RatingRequest) : T ApiResponse :=
  actor ← auth_as PARTICIPANT header;
  b ← pure (parse_body body);
  r ← on_db (rate order_id (actor_id actor) (rt_score b) (rt_comment b));
  mret (RRating r.1 r.2).

Definition route_user_rating_summary (header : string) (user_id : uuid) : T ApiResponse :=
  actor ← require_auth app header;
  r ← on_db (summary_for_user user_id);
  mret (RSummary user_id r.1 r.2).

(** *** routers/admin_api.py *)

Definition route_resolve_dispute (header : string) (dispute_id : uuid) (body : ResolveDisputeRequest) : T ApiResponse :=
  admin ← auth_as [UserRole.ADMIN] header;
  b ← pure (parse_body body);
  outcome ← required (parse_dispute_status (rs_outcome b)) ValidationDomainError;
  assert_ (same outcome DisputeStatus.OPEN) ValidationDomainError;;
  amount ← (if empty_str (rs_courier_amount b) then mret None
            else a ← pure (parse_money (InStr (default EmptyString (rs_courier_amount b)))); mret (Some a));
  x ← on_db (resolve_dispute settings dispute_id (actor_id admin) outcome (rs_note b) amount);
  mret (dispute_response dispute_id x).

Definition route_approve_withdrawal (header : string) (ip : option string) (withdrawal_id : uuid) : T ApiResponse :=
  admin ← auth_as [UserRole.ADMIN] header;
  row ← on_db (approve withdrawal_id (actor_id admin) ip);
  pure (withdrawal_response withdrawal_id row).

Definition route_reject_withdrawal (header : string) (ip : option string) (withdrawal_id : uuid)
    (body : RejectWithdrawalRequest) : T ApiResponse :=
  admin ← auth_as [UserRole.ADMIN] header;
  b ← pure (parse_body body);
  row ← on_db (reject withdrawal_id (actor_id admin) (rw_reason b) ip);
  pure (withdrawal_response withdrawal_id row).

Definition route_mark_withdrawal_paid (header : string) (ip : option string) (withdrawal_id : uuid) : T ApiResponse :=
  admin ← auth_as [UserRole.ADMIN] header;
  row ← on_db (mark_withdrawal_paid withdrawal_id (actor_id admin) ip);
  pure (withdrawal_response withdrawal_id row).

(** *** routers/chat.py, routers/devices.py *)

Definition route_list_conversations (header : string) (cursor : option string) (limit : Z) : T ApiResponse :=
  actor ← auth_as PARTICIPANT header;
  limit ← pure (parse_limit limit);
  items ← list_inbox app (actor_id actor) limit (parse_inbox_cursor cursor);
  mret (RInbox items
    (if (length items =? limit)%nat then
       (λ i, isoformat (ibx_last_message_timestamp i) +:+ "|" +:+ uuid_str (ibx_conversation_id i)) <$> head (rev items)
     else None)).

Definition route_list_messages (header : string) (conversation_id : uuid) (cursor : option string) (limit : Z) : T ApiResponse :=
  actor ← auth_as PARTICIPANT header;
  limit ← pure (parse_limit limit);
  before ← pure (parse_id_cursor cursor);
  items ← list_messages app conversation_id (actor_id actor) limit before;
  mret (RMessages items (if (length items =? limit)%nat then chm_id <$> head (rev items) else None)).

Definition route_send_message (header : string) (conversation_id : uuid) (body : SendMessageRequest) : T ApiResponse :=
  actor ← auth_as PARTICIPANT header;
  b ← pure (parse_body body);
  m ← post_message app isoformat type_name conversation_id actor (sq_text b);
  mret (RMessage m).

Definition route_mark_read (header : string) (conversation_id : uuid) : T ApiResponse :=
  actor ← auth_as PARTICIPANT header;
  mark_read conversation_id (actor_id actor);;
  mret RNothing.

Definition route_register_device (header : string) (body : RegisterDeviceRequest) : T ApiResponse :=
  actor ← auth_as PARTICIPANT header;
  b ← pure (parse_body body);
  os ← required (parse_device_os (rd_device_os b)) ValidationDomainError;
  row ← on_db (register_device (actor_id actor) (rd_token b) os);
  mret (RDevice (dt_token row) (dt_device_os row)).

Definition route_unregister_device (header : string) (body : UnregisterDeviceRequest) : T ApiResponse :=
  actor ← auth_as PARTICIPANT header;
  b ← pure (parse_body body);
  on_db (remove_device (actor_id actor) (ud_token b));;
  mret RNothing.

(** *** routers/dev.py, development only: a signed event for the real handler *)

Definition simulated_event (b : SimulatePaymentRequest) (amount : string) : json :=
  JObj [("event_type", JStr (if same (sm_status b) "PAID" then "PAYMENT_SUCCEEDED" else "PAYMENT_FAILED"));
        ("data", JObj [("payment_link", JObj [("id", JStr (sm_payment_link_id b))]);
                       ("payment", JObj [("status", JStr (sm_status b)); ("amount", JStr amount)])])]%string.

Definition route_simulate_payment (body : SimulatePaymentRequest) : T ApiResponse :=
  b ← pure (parse_body body);
  i ← on_db (lock_intent_by_payment_link (sm_payment_link_id b));
  intent ← required i NotFoundError;
  amount ← pure (money_text (pin_amount intent.2));
  let raw_body := json_dumps (simulated_event b amount) in
  r ← on_db (handle_webhook repr json_loads raw_body (sign_webhook raw_body));
  mret (RWebhook r).
End Routes.

(** ** Calls *)

(** An HTTP call of the API: path and query parameters, headers the route reads, body.  The one WebSocket route,
    [conversation_ws], authenticates its handshake in its own way, without the ban flag: it is [open_socket] of the chat and
    [connect] of the live sockets. *)
Inductive ApiCall :=
  | PostSendOtp (body : SendOtpRequest)
  | PostVerifyOtp (body : VerifyOtpRequest)
  | PostRegister (body : RegisterRequest)
  | PostRefresh (body : RefreshRequest)
  | PostLogout
  | GetMe
  | PatchMe (body : UserUpdateRequest)
  | GetMyWallet
  | PostTopup (body : TopupRequest)
  | PostWithdrawal (idempotency_key : string) (body : WithdrawalRequest)
  | GetMyTransactions (cursor : option string) (limit : Z)
  | PostUploadUrl (body : UploadUrlRequest)
  | PostConfirmUpload (body : ConfirmRequest)
  | PostOrder (body : CreateOrderRequest)
  | GetOrders (status cursor : option string) (limit : Z)
  | GetAvailableOrders (cursor : option string) (limit : Z)
  | GetOrder (order_id : uuid)
  | PostAccept (order_id : uuid)
  | PostCancelOrder (order_id : uuid) (body : CancelOrderRequest)
  | PostDeliver (order_id : uuid) (body : DeliverRequest)
  | PostApprove (order_id : uuid)
  | PostDispute (order_id : uuid) (body : DisputeRequest)
  | PostInvoice (order_id : uuid) (body : CreateInvoiceRequest)
  | GetOrderInvoice (order_id : uuid)
  | GetInvoice (invoice_id : uuid)
  | PostPayInvoice (invoice_id : uuid)
  | PostCancelInvoice (invoice_id : uuid)
  | PostValidatePromo (body : PromoValidateRequest)
  | PostWebhook (raw_body signature : string)
  | PostRating (order_id : uuid) (body : RatingRequest)
  | GetRatingSummary (user_id : uuid)
  | PostResolveDispute (dispute_id : uuid) (body : ResolveDisputeRequest)
  | PostApproveWithdrawal (withdrawal_id : uuid)
  | PostRejectWithdrawal (withdrawal_id : uuid) (body : RejectWithdrawalRequest)
  | PostWithdrawalPaid (withdrawal_id : uuid)
  | GetConversations (cursor : option string) (limit : Z)
  | GetMessages (conversation_id : uuid) (cursor : option string) (limit : Z)
  | PostMessageCall (conversation_id : uuid) (body : SendMessageRequest)
  | PostRead (conversation_id : uuid)
  | PostDevice (body : RegisterDeviceRequest)
  | DeleteDevice (body : UnregisterDeviceRequest)
  | PostSimulate (body : SimulatePaymentRequest).

(** The routers [create_app] includes; [header] is the Authorization header, [ip] the client. *)
Definition call_api `{Deployment} (header : string) (ip : option string) (c : ApiCall) : T ApiResponse :=
  match c with
  | PostSendOtp b => route_send_otp b
  | PostVerifyOtp b => route_verify_otp b
  | PostRegister b => route_register b
  | PostRefresh b => route_refresh b
  | PostLogout => route_logout header
  | GetMe => route_get_me header
  | PatchMe b => route_update_me header b
  | GetMyWallet => route_get_my_wallet header
  | PostTopup b => route_start_topup header b
  | PostWithdrawal key b => route_request_withdrawal header key b
  | GetMyTransactions cursor limit => route_list_my_transactions header cursor limit
  | PostUploadUrl b => route_create_upload_url header b
  | PostConfirmUpload b => route_confirm_upload header b
  | PostOrder b => route_create_order header b
  | GetOrders status cursor limit => route_list_orders header status cursor limit
  | GetAvailableOrders cursor limit => route_available_orders header cursor limit
  | GetOrder id => route_get_order header id
  | PostAccept id => route_accept_order header id
  | PostCancelOrder id b => route_cancel_order header id b
  | PostDeliver id b => route_deliver_order header id b
  | PostApprove id => route_approve_order header id
  | PostDispute id b => route_dispute_order header id b
  | PostInvoice id b => route_create_invoice header id b
  | GetOrderInvoice id => route_get_order_invoice header id
  | GetInvoice id => route_get_invoice header id
  | PostPayInvoice id => route_pay_invoice header id
  | PostCancelInvoice id => route_cancel_invoice header id
  | PostValidatePromo b => route_validate_promo header b
  | PostWebhook body signature => route_streampay_webhook body signature
  | PostRating id b => route_rate_order header id b
  | GetRatingSummary id => route_user_rating_summary header id
  | PostResolveDispute id b => route_resolve_dispute header id b
  | PostApproveWithdrawal id => route_approve_withdrawal header ip id
  | PostRejectWithdrawal id b => route_reject_withdrawal header ip id b
  | PostWithdrawalPaid id => route_mark_withdrawal_paid header ip id
  | GetConversations cursor limit => route_list_conversations header cursor limit
  | GetMessages id cursor limit => route_list_messages header id cursor limit
  | PostMessageCall id b => route_send_message header id b
  | PostRead id => route_mark_read header id
  | PostDevice b => route_register_device header b
  | DeleteDevice b => route_unregister_device header b
  | PostSimulate b => (* the route exists in development only *)
      if bool_decide (ENVIRONMENT app = DEVELOPMENT) then route_simulate_payment b else throw NotFoundError
  end.

(** ** Who may call what *)

(** The roles a call requires; [None] for the public ones. *)
Definition access (c : ApiCall) : option (list user_role) :=
  match c with
  | PostSendOtp _ | PostVerifyOtp _ | PostRegister _ | PostRefresh _ | PostWebhook _ _ | PostSimulate _ => None
  | PostLogout | GetMe | PatchMe _ | PostUploadUrl _ | PostConfirmUpload _ | GetRatingSummary _ =>
      Some [UserRole.CUSTOMER; UserRole.COURIER; UserRole.ADMIN]
  | PostOrder _ | GetOrders _ _ _ | PostApprove _ | PostPayInvoice _ | PostValidatePromo _ => Some [UserRole.CUSTOMER]
  | PostWithdrawal _ _ | GetAvailableOrders _ _ | PostAccept _ | PostDeliver _ _ | PostInvoice _ _ | PostCancelInvoice _ =>
      Some [UserRole.COURIER]
  | PostResolveDispute _ _ | PostApproveWithdrawal _ | PostRejectWithdrawal _ _ | PostWithdrawalPaid _ => Some [UserRole.ADMIN]
  | _ => Some [UserRole.CUSTOMER; UserRole.COURIER]
  end.

(** The caller a header authenticates: a live token, neither revoked nor of a banned account. *)
Record authenticated `{SecurityLib} (s : AppSettings) (header : string) (w : world) (a : Actor) : Prop := {
  au_claims : ∃ rest c, after_prefix "Bearer " header = Some rest ∧ decode_access_token s (strip rest) (w_now w) = Ok c ∧
    flagged (denylist_key (ac_jti c)) w = false ∧ flagged (banned_key (ac_sub c)) w = false ∧
    parse_role (ac_role c) = Some (actor_role a) ∧ parse_uuid (ac_sub c) = Some (actor_id a) ∧ ac_jti c = actor_jti a;
}.

Section Guards.
Context `{Deployment}.

(** Authentication only reads: it answers the caller, or one of three errors. *)
Lemma require_auth_cases (header : string) (w : world) :
  (∃ a, require_auth app header w = (Ok a, w) ∧ authenticated app header w a) ∨
  (∃ e, require_auth app header w = (Raise e, w) ∧ e ∈ [UnauthorizedError; RedisError; ValueError]).
Proof.
  unfold require_auth, redis_mget, redis_get, command, mbind, T_bind, required, clock, assert_, pure, raise_if, mret, T_ret, throw.
  destruct (after_prefix "Bearer " header) as [rest|] eqn:Eh; [|right; exists UnauthorizedError; split; [reflexivity|set_solver]].
  destruct (decode_access_token app (strip rest) (w_now w)) as [c|] eqn:Ec; [|right; exists UnauthorizedError; split; [reflexivity|set_solver]].
  destruct (w_up w) eqn:Eu; [|right; exists RedisError; split; [reflexivity|set_solver]]. cbn [fst snd]. rewrite ?Eu. cbn [fst snd].
  destruct (truthy (en_value <$> peek (denylist_key (ac_jti c)) w)) eqn:E1; [right; exists UnauthorizedError; split; [reflexivity|set_solver]|].
  destruct (truthy (en_value <$> peek (banned_key (ac_sub c)) w)) eqn:E2; [right; exists UnauthorizedError; split; [reflexivity|set_solver]|].
  destruct (parse_role (ac_role c)) as [r|] eqn:Er; [|right; exists UnauthorizedError; split; [reflexivity|set_solver]].
  destruct (parse_uuid (ac_sub c)) as [id|] eqn:Ei; [|right; exists ValueError; split; [reflexivity|set_solver]].
  left. eexists. split; [reflexivity|]. constructor. by exists rest, c.
Qed.

Definition any_role : list user_role := [UserRole.CUSTOMER; UserRole.COURIER; UserRole.ADMIN].

Lemma in_any_role (r : user_role) : r ∈ any_role.
Proof. destruct r; set_solver. Qed.

(** Every route that is not public starts by authenticating the caller for its roles. *)
Lemma call_api_guarded (header : string) (ip : option string) (c : ApiCall) (roles : list user_role) :
  access c = Some roles →
  ∃ k, call_api header ip c = (actor ← auth_as roles header; k actor) ∨
       (roles = any_role ∧ call_api header ip c = (actor ← require_auth app header; k actor)).
Proof. destruct c; cbn; intros [= <-]; eexists; first [left; reflexivity|right; split; reflexivity]. Qed.

Lemma auth_as_cases (roles : list user_role) (header : string) (w : world) :
  (∃ a, auth_as roles header w = (Ok a, w) ∧ authenticated app header w a ∧ actor_role a ∈ roles) ∨
  (∃ e, auth_as roles header w = (Raise e, w) ∧ e ∈ [UnauthorizedError; ForbiddenError; RedisError; ValueError]).
Proof.
  unfold auth_as. destruct (require_auth_cases header w) as [(a & E & Ha)|(e & E & He)].
  - erewrite tbind_ok by exact E. unfold pure, require_role, raise_if.
    destruct (bool_decide_reflect (actor_role a ∈ roles)); [left; by exists a|right]. exists ForbiddenError. split; [reflexivity|set_solver].
  - right. exists e. erewrite tbind_raise by exact E. split; [done|set_solver].
Qed.

Lemma auth_as_ok (roles : list user_role) (header : string) (w w1 : world) (a : Actor) :
  auth_as roles header w = (Ok a, w1) → w1 = w ∧ authenticated app header w a ∧ actor_role a ∈ roles.
Proof. destruct (auth_as_cases roles header w) as [(a' & -> & Ha & Hr)|(e & -> & _)]; intros [= <- <-]; done. Qed.

(** ** Details of orders *)

(** An order as it is shown to a caller: one of its two parties; every field of the stored row, the total as [money_str]
    prints it; and the exact point, longitude and latitude as stored, to the customer or once the order is no longer NEW,
    to nobody else. *)
Record shows (a : Actor) (d : OrderDetail) (x : db) : Prop := {
  sh_party : od_customer_id d = actor_id a ∨ od_courier_id d = Some (actor_id a);
  sh_row : ∃ o, tb_orders x !! od_id d = Some o ∧
    od_status d = ord_status o ∧ od_customer_id d = ord_customer_id o ∧ od_courier_id d = ord_courier_id o ∧
    od_delivery_city d = ord_delivery_city o ∧ od_delivery_date d = ord_delivery_date o ∧ od_description d = ord_description o ∧
    money_str (sar (ord_total_amount o)) = Ok (od_total_amount d) ∧
    od_assigned_at d = ord_assigned_at o ∧ od_created_at d = ord_created_at o ∧
    (od_latitude d, od_longitude d) =
      if decide (actor_role a = UserRole.CUSTOMER ∨ ord_status o ≠ OrderStatus.NEW)
      then (Some (lat (ord_delivery_location o)), Some (lng (ord_delivery_location o))) else (None, None);
}.

Lemma participant_party (u : uuid) (o : Order) : participant u o = true → ord_customer_id o = u ∨ ord_courier_id o = Some u.
Proof. unfold participant. intros [E|E]%orb_true_iff; apply (proj1 (same_true _ _)) in E; auto. Qed.

Lemma show_coords_ok (a : Actor) (o : Order) :
  show_coords a o = bool_decide (actor_role a = UserRole.CUSTOMER ∨ ord_status o ≠ OrderStatus.NEW).
Proof. unfold show_coords. by destruct (actor_role a), (ord_status o). Qed.

Lemma order_detail_shows (id : uuid) (o : Order) (a : Actor) (w w' : world) (r : ApiResponse) :
  tb_orders (w_db w) !! id = Some o → ord_customer_id o = actor_id a ∨ ord_courier_id o = Some (actor_id a) →
  detail_of_order id o a w = (Ok r, w') → w' = w ∧ ∃ d, r = RDetail d ∧ shows a d (w_db w).
Proof.
  intros Ho Hp Hr. unfold detail_of_order in Hr. apply tbind_inv in Hr as (row & w1 & Hrow & Hr).
  apply tbind_inv in Hr as (total & w2 & [Ht ->]%pure_ok & Hr). injection Hr as <- <-.
  assert (w1 = w ∧ row = if show_coords a o then Some o else None) as [-> ->].
  { destruct (show_coords a o); [|by injection Hrow as <- <-]. apply on_db_ok in Hrow as (x & [= <- <-] & ->).
    split; [by destruct w|exact Ho]. }
  split; [done|]. eexists. split; [reflexivity|]. constructor; [done|]. exists o. cbn. do 10 (split; [done|]).
  rewrite show_coords_ok. destruct (decide _); [by rewrite bool_decide_eq_true_2|by rewrite bool_decide_eq_false_2].
Qed.

(** The end of a route that runs an operation of the service and shows its order. *)
Lemma service_detail_shows (id : uuid) (a : Actor) (m : M Order) (w w' : world) (d : OrderDetail) :
  (∀ o' x, m (w_db w) = Ok (o', x) →
     tb_orders x !! id = Some o' ∧ (ord_customer_id o' = actor_id a ∨ ord_courier_id o' = Some (actor_id a))) →
  (order ← on_db m; detail_of_order id order a) w = (Ok (RDetail d), w') → shows a d (w_db w').
Proof.
  intros Hm Hr. apply tbind_inv in Hr as (o' & w1 & (x & Ex & ->)%on_db_ok & Hr). destruct (Hm o' x Ex) as [Ho Hp].
  apply order_detail_shows in Hr as (-> & d' & [= <-] & Hd); done.
Qed.
End Guards.

(** Answers that are not the detail of an order. *)
Ltac not_detail Hr :=
  repeat first
    [ discriminate Hr
    | apply tbind_inv in Hr as (? & ? & _ & Hr)
    | apply pure_ok in Hr as [Hr _]
    | apply res_bind_ok in Hr as (? & _ & Hr) ].

Ltac route_not_detail Hr :=
  unfold route_send_otp, route_verify_otp, route_register, route_refresh, route_logout, route_get_me, route_update_me,
    route_get_my_wallet, route_start_topup, route_request_withdrawal, route_list_my_transactions, route_create_upload_url,
    route_confirm_upload, route_list_orders, route_available_orders, route_dispute_order, route_create_invoice,
    route_get_order_invoice, route_get_invoice, route_pay_invoice, route_cancel_invoice, route_validate_promo,
    route_streampay_webhook, route_rate_order, route_user_rating_summary, route_resolve_dispute, route_approve_withdrawal,
    route_reject_withdrawal, route_mark_withdrawal_paid, route_list_conversations, route_list_messages, route_send_message,
    route_mark_read, route_register_device, route_unregister_device, route_simulate_payment, invoice_response,
    withdrawal_response in Hr;
  not_detail Hr.

Section Details.
Context `{Deployment} (header : string).

Lemma public_not_detail (ip : option string) (c : ApiCall) (w w' : world) (d : OrderDetail) :
  access c = None → call_api header ip c w ≠ (Ok (RDetail d), w').
Proof.
  destruct c; try discriminate; intros _ Hr; cbn [call_api] in Hr; try solve [route_not_detail Hr].
  destruct (bool_decide _); [route_not_detail Hr|discriminate Hr].
Qed.

Lemma create_order_shows (body : CreateOrderRequest) (w w' : world) (d : OrderDetail) :
  route_create_order header body w = (Ok (RDetail d), w') → ∃ a, authenticated app header w a ∧ shows a d (w_db w').
Proof.
  intros Hr. unfold route_create_order in Hr. apply tbind_inv in Hr as (a & w1 & (-> & Ha & _)%auth_as_ok & Hr).
  apply tbind_inv in Hr as (b & w1 & [_ ->]%pure_ok & Hr). apply tbind_inv in Hr as (id & w1 & (x & Ex & ->)%on_db_ok & Hr).
  apply create_order_ok in Ex as (_ & _ & Ex). apply tbind_inv in Hr as (row & w1 & (x' & [= Erow <-] & ->)%on_db_ok & Hr).
  apply tbind_inv in Hr as (o & w1 & [-> ->]%required_ok & Hr). apply tbind_inv in Hr as (n & w1 & Hn & Hr).
  destruct (preserves_notify_city (λ y, y = x) (ord_delivery_city o) "New gift request nearby"
    "A customer just posted a new order in your city." (w <| w_db := x |> <| w_db := x |>) ltac:(done)) as [En _].
  rewrite Hn in En. cbn in En. exists a. split; [done|]. cbn in Erow.
  apply order_detail_shows in Hr as (-> & d' & [= <-] & Hd); [done| |].
  - by rewrite En.
  - left. rewrite Ex, lookup_insert_eq in Erow. by injection Erow as <-.
Qed.

Lemma get_order_shows (id : uuid) (w w' : world) (d : OrderDetail) :
  route_get_order header id w = (Ok (RDetail d), w') → ∃ a, authenticated app header w a ∧ shows a d (w_db w').
Proof.
  intros Hr. unfold route_get_order in Hr. apply tbind_inv in Hr as (a & w1 & (-> & Ha & _)%auth_as_ok & Hr).
  apply tbind_inv in Hr as (o & w1 & (x & Ex & ->)%on_db_ok & Hr). rewrite order_for_actor_run in Ex. injection Ex as <- <-.
  apply tbind_inv in Hr as (o & w1 & [Ho ->]%required_ok & Hr). exists a. split; [done|].
  destruct (tb_orders (w_db w) !! id) as [o'|] eqn:E; [|done]. destruct (participant (actor_id a) o') eqn:Ep; [|done].
  injection Ho as <-. apply order_detail_shows in Hr as (-> & d' & [= <-] & Hd); [done|done|by apply participant_party].
Qed.

Lemma accept_order_shows (id : uuid) (w w' : world) (d : OrderDetail) :
  route_accept_order header id w = (Ok (RDetail d), w') → ∃ a, authenticated app header w a ∧ shows a d (w_db w').
Proof.
  intros Hr. unfold route_accept_order in Hr. apply tbind_inv in Hr as (a & w1 & (-> & Ha & _)%auth_as_ok & Hr).
  exists a. split; [done|]. apply (service_detail_shows id a (accept_order encrypt id (actor_id a)) w); [|exact Hr].
  intros o' x [(o & _ & _ & -> & E & _)%assign_locked_ok _]%accept_order_ok. rewrite E, lookup_insert_eq. split; [done|by right].
Qed.

Lemma cancel_order_shows (id : uuid) (body : CancelOrderRequest) (w w' : world) (d : OrderDetail) :
  route_cancel_order header id body w = (Ok (RDetail d), w') → ∃ a, authenticated app header w a ∧ shows a d (w_db w').
Proof.
  intros Hr. unfold route_cancel_order in Hr. apply tbind_inv in Hr as (a & w1 & (-> & Ha & _)%auth_as_ok & Hr).
  apply tbind_inv in Hr as (b & w1 & [_ ->]%pure_ok & Hr). exists a. split; [done|].
  apply (service_detail_shows id a (cancel_order id (actor_id a) (ca_reason b)) w); [|exact Hr].
  intros o' x (o & _ & Hp & _ & -> & ->)%cancel_order_ok. cbn. rewrite lookup_insert_eq. split; [done|by apply participant_party in Hp].
Qed.

Lemma deliver_order_shows (id : uuid) (body : DeliverRequest) (w w' : world) (d : OrderDetail) :
  route_deliver_order header id body w = (Ok (RDetail d), w') → ∃ a, authenticated app header w a ∧ shows a d (w_db w').
Proof.
  intros Hr. unfold route_deliver_order in Hr. apply tbind_inv in Hr as (a & w1 & (-> & Ha & _)%auth_as_ok & Hr).
  apply tbind_inv in Hr as (b & w1 & [_ ->]%pure_ok & Hr). exists a. split; [done|].
  apply (service_detail_shows id a (submit_delivery max_upload settings st_distance id (actor_id a) (delivery_input b)) w); [|exact Hr].
  intros o' x (o & _ & Hp & _ & _ & _ & _ & -> & E)%submit_delivery_ok. rewrite E, lookup_insert_eq.
  split; [done|by apply participant_party in Hp].
Qed.

Lemma approve_order_shows (id : uuid) (w w' : world) (d : OrderDetail) :
  route_approve_order header id w = (Ok (RDetail d), w') → ∃ a, authenticated app header w a ∧ shows a d (w_db w').
Proof.
  intros Hr. unfold route_approve_order in Hr. apply tbind_inv in Hr as (a & w1 & (-> & Ha & _)%auth_as_ok & Hr).
  exists a. split; [done|]. apply (service_detail_shows id a (approve_order settings id (actor_id a)) w); [|exact Hr].
  intros o' x (o & _ & Hp & (_ & _ & E1 & E2 & E)%complete_row)%approve_order_ok. rewrite E, lookup_insert_eq, E1, E2.
  split; [done|by apply participant_party in Hp].
Qed.
End Details.

(** ** Properties *)

(** [C27] Deny by default: a call of any HTTP route of the API but the public ones (OTP, registration, refresh, the
    signed webhook, the simulator of development) either was made by the holder of a live access token that
    is not revoked, of an account that is not banned and whose role the route allows, or it is refused
    with an authentication error and the request changes neither the database nor redis,
    and sends nothing. *)
Theorem api_calls_guarded `{Deployment} (header : string) (ip : option string) (c : ApiCall) (roles : list user_role)
    (w w' : world) (r : res ApiResponse) :
  access c = Some roles → request (call_api header ip c) w = (r, w') →
  (∃ a, authenticated app header w a ∧ actor_role a ∈ roles) ∨
  (∃ e, r = Raise e ∧ e ∈ [UnauthorizedError; ForbiddenError; RedisError; ValueError] ∧
     w_db w' = w_db w ∧ w_redis w' = w_redis w ∧ w_out w' = w_out w).
Proof.
  intros Hc Hr. destruct (call_api_guarded header ip c roles Hc) as (k & [E|[-> E]]); rewrite E in Hr; clear E.
  - destruct (auth_as_cases roles header (w <| w_saved := w_db w |>)) as [(a & _ & [Ha] & Hin)|(e & Ee & He)].
    + left. exists a. split; [by constructor|done].
    + right. exists e. erewrite request_raise in Hr by (by apply tbind_raise). by injection Hr as <- <-.
  - destruct (require_auth_cases header (w <| w_saved := w_db w |>)) as [(a & _ & [Ha])|(e & Ee & He)].
    + left. exists a. split; [by constructor|apply in_any_role].
    + right. exists e. erewrite request_raise in Hr by (by apply tbind_raise). injection Hr as <- <-.
      split; [done|]. split; [set_solver|done].
Qed.

(** [C29] Details of an order reach its two parties only: whenever a route answers with one, the caller holds a
    live token as its customer or its courier, every field of the answer is that of the stored row (the total as [money_str]
    prints it), and the answer has the stored latitude and longitude exactly when the caller is a customer or the order
    is no longer NEW, and neither otherwise. *)
Theorem order_details_private `{Deployment} (header : string) (ip : option string) (c : ApiCall) (w w' : world) (d : OrderDetail) :
  call_api header ip c w = (Ok (RDetail d), w') → ∃ a, authenticated app header w a ∧ shows a d (w_db w').
Proof.
  intros Hr. destruct (access c) as [roles|] eqn:Ea; [|by apply public_not_detail in Hr].
  destruct c; try discriminate Ea; try (exfalso; cbn [call_api] in Hr; solve [route_not_detail Hr]); clear roles Ea; cbn [call_api] in Hr.
  - by eapply create_order_shows.
  - by eapply get_order_shows.
  - by eapply accept_order_shows.
  - by eapply cancel_order_shows.
  - by eapply deliver_order_shows.
  - by eapply approve_order_shows.
Qed.

(** ** A deployment *)

(** A library that knows two tokens, of customer 70 and of courier 71. *)
Definition wire_lib : SecurityLib := {|
  sha256_hex s := "sha256:" +:+ s;
  hmac_hex v k := "hmac:" +:+ k +:+ ":" +:+ v;
  randbelow n k := Z.of_N n mod k;
  token_urlsafe n := "token-" +:+ uuid_str n;
  jwt_encode _ _ _ := "jwt-70";
  jwt_decode token _ _ _ _ _ now :=
    let claims (sub role : string) : payload :=
      {[ "sub" := CText sub; "role" := CText role; "jti" := CText sub; "exp" := CInt 3600 ]} in
    if (3600 <=? now)%Z then None
    else if same token "jwt-70" then Some (claims "70" "CUSTOMER")
    else if same token "jwt-71" then Some (claims "71" "COURIER")
    else None;
  jwt_pair a k k' := bool_decide (k = k')
|}%string.

Definition wire_deployment : Deployment := {|
  dp_storage := one_object; dp_gateway := gateway0; dp_security := wire_lib; dp_sms := {| send_otp_sms _ _ := Ok () |};
  dp_push := {| send_push _ _ _ := Ok () |}; dp_email := {| send_transactional _ _ _ := Ok () |}; dp_gcm := toy_gcm;
  app := app0; max_upload := 4096; encrypt := enc0; st_distance _ _ := inject_Z 20;
  repr := repr0; json_loads := loads0; json_dumps _ := EmptyString; json_text _ := None; isoformat _ := EmptyString;
  type_name _ := EmptyString; fromisoformat _ := None; sign_webhook _ := EmptyString; uuid5 _ := 99%N; table_rows _ _ := []
|}.

Definition world_wire : world := world_empty <| w_db := db_market |>.

Lemma api_calls_guarded_witness :
  ∃ r w', request (@call_api wire_deployment "Bearer jwt-70" None (GetOrder 50)) world_wire = (r, w') ∧
    ((∃ a, @authenticated wire_lib app0 "Bearer jwt-70" world_wire a ∧ actor_role a ∈ [UserRole.CUSTOMER; UserRole.COURIER]) ∨
     (∃ e, r = Raise e ∧ e ∈ [UnauthorizedError; ForbiddenError; RedisError; ValueError] ∧
        w_db w' = w_db world_wire ∧ w_redis w' = w_redis world_wire ∧ w_out w' = w_out world_wire)).
Proof.
  destruct (request (@call_api wire_deployment "Bearer jwt-70" None (GetOrder 50)) world_wire) as [r w'] eqn:E.
  exists r, w'. split; [reflexivity|].
  exact (@api_calls_guarded wire_deployment "Bearer jwt-70" None (GetOrder 50) _ world_wire w' r eq_refl E).
Defined.

Lemma order_details_private_witness :
  ∃ d w', @call_api wire_deployment "Bearer jwt-70" None (GetOrder 50) world_wire = (Ok (RDetail d), w') ∧
    od_latitude d ≠ None ∧ ∃ a, @authenticated wire_lib app0 "Bearer jwt-70" world_wire a ∧ shows a d (w_db w').
Proof.
  destruct (@call_api wire_deployment "Bearer jwt-70" None (GetOrder 50) world_wire) as [[[]|e] w'] eqn:E;
    try (exfalso; vm_compute in E; discriminate E).
  exists d, w'. split; [reflexivity|]. split; [vm_compute in E; injection E as <- _; discriminate|].
  exact (@order_details_private wire_deployment "Bearer jwt-70" None (GetOrder 50) world_wire w' d E).
Defined.
