(* ===== verification/Logging.v ===== *)
(** * Scrubbed logging ([app/core/logging.py])

    Log text is a list of Unicode code points.  The character classes of the regular expressions are written out for
    ASCII; what [\d], [\w] and [\s] match beyond it is the Unicode database of Python's [re], a parameter ([Unicode]).  A
    regular expression is a function that says what it matches at a position, given the character before it (for [\b]);
    [sub] is [re.sub]: leftmost, non-overlapping, the replacement is not scanned again. *)

From Stdlib Require Import ZArith Lia ZifyN ZifyBool Ascii.
From stdpp Require Import base list gmap strings numbers option pretty.
From S2P Require Import Prelude.
Local Open Scope N_scope.

Abbreviation text := (list N) (only parsing).

Definition points (s : string) : text := N_of_ascii <$> String.list_ascii_of_string s.

(** ** Character classes *)

Class Unicode := { uni_digit : N → bool; uni_word : N → bool; uni_space : N → bool }.

(** Beyond ASCII: a digit is a word character, a space is not, the bullet U+2022 is none of them, and the four characters
    that [[A-Za-z]] matches under [(?i)] are no spaces. *)
Class UnicodeLaws `{Unicode} : Prop := {
  uni_digit_word : ∀ c, uni_digit c = true → uni_word c = true;
  uni_bullet : uni_word 8226 = false;
  uni_space_word : ∀ c, uni_space c = true → uni_word c = false;
  uni_letter_space : ∀ c, c ∈ [304; 305; 383; 8490] → uni_space c = false;
}.

Definition between (lo hi c : N) : bool := (lo <=? c) && (c <=? hi).
Definition ascii_digit (c : N) : bool := between 48 57 c.
Definition ascii_alnum (c : N) : bool := ascii_digit c || between 65 90 c || between 97 122 c.

(** [[A-Za-z0-9_-]], and [[A-Za-z0-9._-]] under [(?i)], where the letter ranges match four characters beyond ASCII. *)
Definition token_char (c : N) : bool := ascii_alnum c || (c =? 95) || (c =? 45).
Definition bearer_char (c : N) : bool :=
  token_char c || (c =? 46) || existsb (N.eqb c) [304; 305; 383; 8490].

Definition lower_char (c : N) : N := if between 65 90 c then c + 32 else c.

Section Scrub.
Context `{Unicode}.

Definition digit (c : N) : bool := if c <? 128 then ascii_digit c else uni_digit c.
Definition word (c : N) : bool := if c <? 128 then ascii_alnum c || (c =? 95) else uni_word c.
Definition space (c : N) : bool := if c <? 128 then between 9 13 c || between 28 32 c else uni_space c.

Definition word_at (o : option N) : bool := match o with Some c => word c | None => false end.

(** [\b] between the character before and the text after. *)
Definition boundary (prev : option N) (l : text) : bool := xorb (word_at prev) (word_at (head l)).

(** The longest prefix of characters in a class, and the rest. *)
Fixpoint span (f : N → bool) (l : text) : text * text :=
  match l with
  | c :: l' => if f c then let '(a, b) := span f l' in (c :: a, b) else ([], l)
  | [] => ([], [])
  end.

(** The rest after a literal. *)
Fixpoint strip_lit (lit l : text) : option text :=
  match lit, l with
  | [], _ => Some l
  | a :: lit', b :: l' => if a =? b then strip_lit lit' l' else None
  | _ :: _, [] => None
  end.

(** ** The patterns

    [Some (m, rest)]: the pattern matches [m] here, [rest] follows. *)
Definition pattern : Type := option N → text → option (text * text).

(** A non-empty run of [token_char] of at least five characters followed by a dot. *)
Definition dot_segment (l : text) : option (text * text) :=
  let '(a, r) := span token_char l in
  match r with
  | 46 :: r' => if (5 <=? length a)%nat then Some (a ++ [46], r') else None
  | _ => None
  end.

(** The greedy [{5,}] gives characters back, one at a time, until [\b] holds. *)
Fixpoint back_to_boundary (n : nat) (l : text) : option nat :=
  if boundary (head (reverse (take n l))) (drop n l) then Some n
  else match n with S m => back_to_boundary m l | O => None end.

(** [\beyJ[A-Za-z0-9_-]{5,}\.[A-Za-z0-9_-]{5,}\.[A-Za-z0-9_-]{5,}\b]. *)
Definition JWT_RE : pattern := λ prev l,
  if boundary prev l then
    r0 ← strip_lit (points "eyJ") l;
    '(a, r1) ← dot_segment r0;
    '(b, r2) ← dot_segment r1;
    n ← back_to_boundary (length (span token_char r2).1) r2;
    if (5 <=? n)%nat then Some (points "eyJ" ++ a ++ b ++ take n r2, drop n r2) else None
  else None.

(** [(?i)bearer\s+[A-Za-z0-9._-]+]. *)
Definition BEARER_RE : pattern := λ _ l,
  r0 ← strip_lit (points "bearer") (lower_char <$> take 6 l);
  let '(s, r1) := span space (drop 6 l) in
  let '(a, r2) := span bearer_char r1 in
  match s, a with
  | _ :: _, _ :: _ => Some (take 6 l ++ s ++ a, r2)
  | _, _ => None
  end.

(** [\+9665\d{8}]. *)
Definition PHONE_RE : pattern := λ _ l,
  r ← strip_lit (points "+9665") l;
  if (8 <=? length r)%nat && forallb digit (take 8 r) then Some (take 13 l, drop 8 r) else None.

(** [\b\d{9,}\b]. *)
Definition LONG_DIGITS_RE : pattern := λ prev l,
  let '(a, r) := span digit l in
  if boundary prev l && (9 <=? length a)%nat && boundary (head (reverse a)) r then Some (a, r) else None.

(** ** [re.sub] *)

Fixpoint sub (fuel : nat) (re : pattern) (repl : text → text) (prev : option N) (l : text) : text :=
  match fuel, l with
  | S n, c :: l' =>
      match re prev l with
      | Some (m, rest) => repl m ++ sub n re repl (head (reverse m)) rest
      | None => c :: sub n re repl (Some c) l'
      end
  | _, _ => l
  end.

Definition re_sub (re : pattern) (repl : text → text) (l : text) : text := sub (length l) re repl None l.

Definition REDACTED : text := points "***REDACTED***".

(** [+9665•••••67]. *)
Definition mask_phone (phone : text) : text := take 5 phone ++ replicate 5 8226 ++ drop (length phone - 2) phone.

Definition scrub_text (t : text) : text :=
  re_sub LONG_DIGITS_RE (λ _, REDACTED)
    (re_sub PHONE_RE mask_phone
      (re_sub BEARER_RE (λ _, REDACTED)
        (re_sub JWT_RE (λ _, REDACTED) t))).

(** ** Payloads *)

(** A value on its way to [json.dumps(.., default=str)]; [PObject] is anything else, as its [str]. *)
Inductive pyvalue :=
  | PStr (t : text)
  | PInt (z : Z)
  | PBool (b : bool)
  | PNone
  | PObject (str : text)
  | PList (l : list pyvalue)
  | PDict (l : list (string * pyvalue)).

Definition SENSITIVE_KEYS : list string :=
  ["otp"; "password"; "secret"; "token"; "authorization"; "jwt"; "refresh"; "national_id"; "passport"; "iban";
   "encryption"; "api_key"; "webhook_secret"; "content_encrypted"; "session_token"; "pepper"]%string.

Fixpoint is_infix (needle l : text) : bool :=
  match strip_lit needle l with
  | Some _ => true
  | None => match l with [] => false | _ :: l' => is_infix needle l' end
  end.

(** [key.lower()], then the substring test. *)
Definition is_sensitive_key (key : string) : bool :=
  existsb (λ tok, is_infix (points tok) (lower_char <$> points key)) SENSITIVE_KEYS.

Fixpoint scrub_value (v : pyvalue) : pyvalue :=
  match v with
  | PDict l => PDict ((fix go l := match l with
                       | [] => []
                       | (k, x) :: l' => (k, if is_sensitive_key k then PStr REDACTED else scrub_value x) :: go l'
                       end) l)
  | PList l => PList ((fix go l := match l with [] => [] | x :: l' => scrub_value x :: go l' end) l)
  | PStr t => PStr (scrub_text t)
  | _ => v
  end.

(** [logging.LogRecord]: the formatted message, what [extra=] set, and the exception of [exc_info]. *)
Record LogRecord := mk_LogRecord {
  levelname : string;
  levelno : Z;
  name : string;
  get_message : text;
  request_id : option text;
  extra_fields : option pyvalue;
  exc_info : option text;
}.

(** The payload of [ScrubbingJsonFormatter.format]. *)
Definition format_payload (r : LogRecord) : pyvalue :=
  PDict ([("level"%string, PStr (points (levelname r))); ("logger"%string, PStr (points (name r)));
          ("message"%string, PStr (scrub_text (get_message r)))] ++
         match request_id r with Some t => [("request_id"%string, PStr t)] | None => [] end ++
         match extra_fields r with Some (PDict l) => [("fields"%string, scrub_value (PDict l))] | _ => [] end).

(** ** [json.dumps] with [ensure_ascii] *)

Definition hex_char (n : N) : N := if n <? 10 then 48 + n else 87 + n.
Definition u_escape (n : N) : text := points "\u" ++ (hex_char <$> [n / 4096 mod 16; n / 256 mod 16; n / 16 mod 16; n mod 16]).

Definition json_char (c : N) : text :=
  if c =? 34 then [92; 34] else if c =? 92 then [92; 92] else if c =? 10 then points "\n" else if c =? 13 then points "\r"
  else if c =? 9 then points "\t" else if c =? 8 then points "\b" else if c =? 12 then points "\f"
  else if between 32 126 c then [c]
  else if c <? 65536 then u_escape c
  else u_escape (55296 + (c - 65536) / 1024) ++ u_escape (56320 + (c - 65536) mod 1024).

Definition json_string (t : text) : text := [34] ++ (t ≫= json_char) ++ [34].

Fixpoint join_with (sep : text) (l : list text) : text :=
  match l with [] => [] | [x] => x | x :: l' => x ++ sep ++ join_with sep l' end.

Fixpoint json_dumps (v : pyvalue) : text :=
  match v with
  | PStr t | PObject t => json_string t
  | PInt z => points (pretty z)
  | PBool b => points (if b then "true" else "false")
  | PNone => points "null"
  | PList l => [91] ++ join_with [44; 32] ((fix go l := match l with [] => [] | x :: l' => json_dumps x :: go l' end) l) ++ [93]
  | PDict l => [123] ++ join_with [44; 32]
      ((fix go l := match l with [] => [] | (k, x) :: l' => (json_string (points k) ++ [58; 32] ++ json_dumps x) :: go l' end) l) ++ [125]
  end.

(** [ScrubbingJsonFormatter.format]. *)
Definition format (r : LogRecord) : text := json_dumps (format_payload r).

(** ** The root logger *)

Definition level_of (s : string) : option Z :=
  match List.find (λ kv, String.eqb kv.1 s)
    [("CRITICAL", 50%Z); ("FATAL", 50%Z); ("ERROR", 40%Z); ("WARN", 30%Z); ("WARNING", 30%Z); ("INFO", 20%Z); ("DEBUG", 10%Z); ("NOTSET", 0%Z)]%string with
  | Some kv => Some kv.2
  | None => None
  end.

(** A handler writes its format of the records of its level or above. *)
Record LogHandler := mk_LogHandler { h_level : Z; h_format : LogRecord → text }.

(** The root logger, and a logger below it: its own level (0 when unset), its own handlers, and whether its records go on to
    its parent. *)
Record RootLogger := mk_RootLogger { handlers : list LogHandler; root_level : Z }.
Record Logger := mk_Logger { lg_level : Z; lg_handlers : list LogHandler; lg_propagate : bool }.

(** [StreamHandler()], whose level is unset, with the scrubbing formatter. *)
Definition scrubbing_handler : LogHandler := mk_LogHandler 0 format.

Definition upper_ascii (c : ascii) : ascii :=
  let n := N_of_ascii c in if between 97 122 n then ascii_of_N (n - 32) else c.
Definition upper (s : string) : string := String.string_of_list_ascii (upper_ascii <$> String.list_ascii_of_string s).

(** [configure_logging]: the handlers are replaced before [setLevel] can raise [ValueError] on an unknown level. *)
Definition configure_logging (level : string) (root : RootLogger) : RootLogger * bool :=
  let installed := mk_RootLogger [scrubbing_handler] (root_level root) in
  match level_of (upper level) with
  | Some n => (mk_RootLogger [scrubbing_handler] n, true)
  | None => (installed, false)
  end.

(** *** How [logging] dispatches a record

    [loggers] are the record's logger and its ancestors below the root, nearest first.  The level that counts is the first one
    set on the way up; the handlers are those met on the way up to the first logger that does not propagate; when there
    are none, [logging.lastResort] prints the bare message of a warning or worse. *)
Fixpoint effective_level (loggers : list Logger) (root : RootLogger) : Z :=
  match loggers with
  | [] => root_level root
  | c :: loggers => if (lg_level c =? 0)%Z then effective_level loggers root else lg_level c
  end.

Fixpoint handlers_for (loggers : list Logger) (root : RootLogger) : list LogHandler :=
  match loggers with
  | [] => handlers root
  | c :: loggers => lg_handlers c ++ if lg_propagate c then handlers_for loggers root else []
  end.

Definition last_resort : LogHandler :=
  mk_LogHandler 30 (λ r, get_message r ++ match exc_info r with Some t => 10 :: t | None => [] end).

Definition log_lines (loggers : list Logger) (root : RootLogger) (r : LogRecord) : list text :=
  if (effective_level loggers root <=? levelno r)%Z then
    let hs := match handlers_for loggers root with [] => [last_resort] | hs => hs end in
    (λ h, h_format h r) <$> filter (λ h, (h_level h <=? levelno r)%Z = true) hs
  else [].

(** A logger that leaves its records to the root: no handler of its own and [propagate] on, as [getLogger] makes it. *)
Definition plain_logger (c : Logger) : Prop := lg_handlers c = [] ∧ lg_propagate c = true.
End Scrub.

(** ** Lemmas *)

Section ScrubLemmas.
Context `{Unicode} `{!UnicodeLaws}.

Lemma digit_word (c : N) : digit c = true → word c = true.
Proof. unfold digit, word. destruct (c <? 128); [|apply uni_digit_word]. unfold ascii_alnum. by intros ->. Qed.

Lemma span_app (f : N → bool) (l : text) : l = (span f l).1 ++ (span f l).2 ∧ Forall (λ c, f c = true) (span f l).1.
Proof.
  induction l as [|c l [IH1 IH2]]; cbn; [done|]. destruct (f c) eqn:E; [|by split; [|constructor]].
  destruct (span f l) as [a b]. cbn in *. subst. split; [done|by constructor].
Qed.

Lemma span_next (f : N → bool) (l : text) : match (span f l).2 with c :: _ => f c = false | [] => True end.
Proof. induction l as [|c l IH]; cbn; [done|]. destruct (f c) eqn:E; [|done]. by destruct (span f l). Qed.

Lemma strip_lit_Some (lit l r : text) : strip_lit lit l = Some r ↔ l = lit ++ r.
Proof.
  revert l. induction lit as [|a lit IH]; intros l; cbn; [naive_solver|]. destruct l as [|b l]; [done|].
  destruct (N.eqb_spec a b) as [->|Hne]; [rewrite IH; naive_solver|]. split; [done|]. by intros [= ->].
Qed.

(** Patterns whose replacement does not begin with a digit. *)
Definition breaks_digits (re : pattern) (repl : text → text) : Prop :=
  ∀ prev l m rest, re prev l = Some (m, rest) → ∃ x t, repl m = x :: t ∧ digit x = false.

(** Digits at the front of the result are digits of the text. *)
Lemma sub_digits (re : pattern) (repl : text → text) (ds : text) : breaks_digits re repl → Forall (λ c, digit c = true) ds →
  ∀ n prev l out, (length l ≤ n)%nat → sub n re repl prev l = ds ++ out → ∃ l', l = ds ++ l'.
Proof.
  intros Hre Hds. induction Hds as [|c ds Hc _ IH]; intros n prev l out Hn E; [by exists l|].
  destruct n as [|n], l as [|x l]; cbn in Hn; try done; try lia. cbn in E. destruct (re prev (x :: l)) as [[m rest]|] eqn:Em.
  - destruct (Hre _ _ _ _ Em) as (y & t & Ey & Hy). rewrite Ey in E. cbn in E. injection E as -> _. congruence.
  - injection E as -> E. destruct (IH n (Some c) l out ltac:(lia) E) as [l' ->]. by exists l'.
Qed.

(** ** Text without a match *)

(** No match at any position. *)
Fixpoint absent (re : pattern) (prev : option N) (l : text) : Prop :=
  re prev l = None ∧ match l with c :: l' => absent re (Some c) l' | [] => True end.

Lemma absent_suffix (re : pattern) (prev : option N) (a b : text) : a ≠ [] → absent re prev (a ++ b) → absent re (last a) b.
Proof.
  revert prev. induction a as [|c a IH]; intros prev Ha Hab; [done|]. destruct Hab as [_ Hab]. destruct a as [|d a]; [done|].
  rewrite last_cons_cons. by eapply IH.
Qed.

(** ** Phones *)

Lemma phone_re (prev : option N) (l m rest : text) : PHONE_RE prev l = Some (m, rest) ↔
  ∃ ds, length ds = 8%nat ∧ Forall (λ c, digit c = true) ds ∧ m = points "+9665" ++ ds ∧ l = m ++ rest.
Proof.
  assert (Ht : ∀ r, take 13 (points "+9665" ++ r) = points "+9665" ++ take 8 r) by done.
  unfold PHONE_RE. split.
  - destruct (strip_lit (points "+9665") l) as [r|] eqn:E; [|done]. cbn [mbind option_bind]. apply strip_lit_Some in E.
    destruct (8 <=? length r)%nat eqn:Hl; [|done]. destruct (forallb digit (take 8 r)) eqn:Hd; [|done]. intros [= <- <-].
    apply Nat.leb_le in Hl. exists (take 8 r). rewrite length_take. split; [lia|]. split.
    { apply Forall_forall. rewrite forallb_forall in Hd. intros c Hc. apply Hd. by apply list_elem_of_In. }
    subst l. rewrite Ht. split; [done|]. rewrite <- app_assoc. by rewrite take_drop.
  - intros (ds & Hl & Hd & -> & ->). rewrite <- app_assoc. rewrite (proj2 (strip_lit_Some _ _ (ds ++ rest))) by done. cbn [mbind option_bind].
    rewrite Ht, length_app, Hl, take_app_length' by lia. rewrite (proj2 (forallb_forall _ _)).
    + change (8 <=? 8 + length rest)%nat with true. cbn [andb]. by rewrite drop_app_length' by lia.
    + intros c Hc. rewrite Forall_forall in Hd. apply Hd. by apply list_elem_of_In.
Qed.

Lemma phone_other (prev : option N) (c : N) (l : text) : c ≠ 43 → PHONE_RE prev (c :: l) = None.
Proof. intros Hc. unfold PHONE_RE. change (points "+9665") with (43 :: points "9665"). cbn [strip_lit]. by destruct (N.eqb_spec 43 c) as [<-|]. Qed.

Lemma phone_digits (prev : option N) (c : N) (l : text) (m rest : text) : PHONE_RE prev (c :: l) = Some (m, rest) →
  ∃ ds, c = 43 ∧ m = 43 :: ds ∧ l = ds ++ rest ∧ Forall (λ d, digit d = true) ds ∧ ∀ prev' rest', PHONE_RE prev' (43 :: ds ++ rest') = Some (m, rest').
Proof.
  intros (ds & Hl & Hd & -> & E)%phone_re. exists (points "9665" ++ ds). injection E as -> ->. repeat split.
  - apply Forall_app. split; [|done]. repeat constructor.
  - intros prev' rest'. apply phone_re. by exists ds.
Qed.

(** A pass whose replacement neither starts with a digit nor brings a phone leaves no phone where the text at its
    kept positions had none. *)
Lemma sub_no_phone (re : pattern) (repl : text → text) : breaks_digits re repl →
  (∀ prev l m rest out prev', re prev l = Some (m, rest) → (∀ p, absent PHONE_RE p out) → absent PHONE_RE prev' (repl m ++ out)) →
  (∀ prev l m rest, re prev l = Some (m, rest) → ∃ k, (0 < k)%nat ∧ rest = drop k l) →
  ∀ n prev l, (length l ≤ n)%nat →
    (∀ a b p q, l = a ++ b → re p b = None → PHONE_RE q b = None) → ∀ p, absent PHONE_RE p (sub n re repl prev l).
Proof.
  intros Hbr Hrepl Hrest. induction n as [|n IH]; intros prev l Hn Hl p.
  { destruct l; [|cbn in Hn; lia]. done. }
  destruct l as [|c l]; [done|]. cbn [sub length] in *. destruct (re prev (c :: l)) as [[m rest]|] eqn:E.
  - eapply Hrepl; [done|]. intros p'. destruct (Hrest _ _ _ _ E) as (k & Hk & ->). apply IH.
    + rewrite length_drop. cbn. lia.
    + intros a b p1 q1 Ea. apply (Hl (take k (c :: l) ++ a) b). by rewrite <- app_assoc, <- Ea, take_drop.
  - split; [|apply IH; [lia|intros a b p1 q1 ->; by apply (Hl (c :: a) b)]].
    destruct (PHONE_RE p _) as [[m rest]|] eqn:Ep; [exfalso|done]. apply phone_digits in Ep as (ds & -> & -> & Eo & Hds & Hm).
    destruct (sub_digits re repl ds Hbr Hds n (Some 43) l rest ltac:(lia) Eo) as [l' ->].
    specialize (Hm None l'). by rewrite (Hl [] (43 :: ds ++ l') prev None eq_refl E) in Hm.
Qed.

Lemma absent_other (c : N) (out : text) : c ≠ 43 → (∀ p, absent PHONE_RE p out) → ∀ p, absent PHONE_RE p (c :: out).
Proof. intros Hc Hout p. split; [by apply phone_other|apply Hout]. Qed.

Lemma absent_app (a out : text) : Forall (λ c, c ≠ 43) a → (∀ p, absent PHONE_RE p out) → ∀ p, absent PHONE_RE p (a ++ out).
Proof. intros Ha Hout. induction Ha as [|c a Hc _ IH]; [done|]. by apply absent_other. Qed.

Lemma digit_not_plus (ds : text) : Forall (λ c, digit c = true) ds → Forall (λ c, c ≠ 43) ds.
Proof. intros Hds. eapply Forall_impl; [exact Hds|]. by intros c Hc ->. Qed.

Lemma mask_no_phone (prev : option N) (l m rest : text) : PHONE_RE prev l = Some (m, rest) →
  ∀ p out, (∀ p', absent PHONE_RE p' out) → absent PHONE_RE p (mask_phone m ++ out).
Proof.
  intros (ds & Hl & Hd & -> & _)%phone_re p out Hout. unfold mask_phone. rewrite length_app, Hl.
  change (take 5 (points "+9665" ++ ds)) with (points "+9665"). change (length (points "+9665") + 8 - 2)%nat with 11%nat.
  change (drop 11 (points "+9665" ++ ds)) with (drop 6 ds). split.
  - destruct (PHONE_RE p _) as [[m' rest']|] eqn:E; [exfalso|done]. apply phone_re in E as (ds' & Hl' & Hd' & -> & E).
    destruct ds' as [|d' ds']; [done|]. apply Forall_cons in Hd' as [Hd' _]. injection E as <- _.
    apply digit_word in Hd'. unfold word in Hd'. cbn in Hd'. by rewrite uni_bullet in Hd'.
  - apply (absent_app (points "9665" ++ replicate 5 8226 ++ drop 6 ds) out); [|done].
    apply Forall_app. split; [by apply (bool_decide_unpack _)|]. apply Forall_app. split; [by repeat constructor|].
    by apply digit_not_plus, Forall_drop.
Qed.

Lemma redacted_no_phone (p : option N) (out : text) : (∀ p', absent PHONE_RE p' out) → absent PHONE_RE p (REDACTED ++ out).
Proof. intros Hout. apply absent_app; [|done]. by apply (bool_decide_unpack _). Qed.

Lemma phone_pass (prev p : option N) (l : text) (n : nat) : (length l ≤ n)%nat → absent PHONE_RE p (sub n PHONE_RE mask_phone prev l).
Proof.
  intros Hn. apply sub_no_phone; [| | |done|by intros a b p1 q1 _].
  - intros ???? (ds & ? & ? & -> & _)%phone_re. by eexists 43, _.
  - intros. by eapply mask_no_phone.
  - intros ???? (ds & Hl & ? & -> & ->)%phone_re. exists 13%nat. split; [lia|].
    rewrite drop_app_length'; [done|]. rewrite length_app, Hl. done.
Qed.

(** ** Long runs of digits *)

Lemma long_rest (prev : option N) (l m rest : text) : LONG_DIGITS_RE prev l = Some (m, rest) →
  l = m ++ rest ∧ (9 ≤ length m)%nat ∧ word_at (head rest) = false ∧ Forall (λ c, digit c = true) m.
Proof.
  unfold LONG_DIGITS_RE. destruct (span_app digit l) as [Hl Ha]. destruct (span digit l) as [a r]. cbn [fst snd] in Hl, Ha.
  destruct (boundary prev l); [|done]. destruct (9 <=? length a)%nat eqn:H9; [|done]. cbn [andb].
  destruct (boundary (head (reverse a)) r) eqn:Hb; [|done]. intros [= <- <-]. apply Nat.leb_le in H9. split_and!; try done.
  revert Hb. unfold boundary. destruct a as [|c a _] using rev_ind; [cbn in H9; lia|]. rewrite reverse_app. cbn.
  apply Forall_app in Ha as [_ Ha]. apply Forall_cons in Ha as [Ha _]. rewrite (digit_word _ Ha). by destruct (word_at (head r)).
Qed.

Lemma long_after_word (c : N) (l : text) : word c = true → LONG_DIGITS_RE (Some c) l = None.
Proof.
  intros Hc. destruct (LONG_DIGITS_RE (Some c) l) as [[m rest]|] eqn:E; [exfalso|done]. pose proof (long_rest _ _ _ _ E) as (-> & H9 & _ & Hm).
  unfold LONG_DIGITS_RE in E. destruct m as [|d m]; [cbn in H9; lia|]. apply Forall_cons in Hm as [Hd _].
  destruct (span digit _). unfold boundary at 1 in E. cbn [app head word_at] in E. by rewrite Hc, (digit_word _ Hd) in E.
Qed.

Lemma long_nil (prev : option N) : LONG_DIGITS_RE prev [] = None.
Proof. unfold LONG_DIGITS_RE. cbn. by rewrite andb_false_r. Qed.

Lemma long_not_digit (prev : option N) (c : N) (l : text) : digit c = false → LONG_DIGITS_RE prev (c :: l) = None.
Proof. intros Hc. unfold LONG_DIGITS_RE. cbn [span]. rewrite Hc. cbn. by rewrite andb_false_r. Qed.

(** After a word character the pass keeps the digits that follow, and whether a word character follows them. *)
Lemma sub_span (repl : text → text) (n : nat) (c : N) (l : text) : word c = true →
  (span digit (sub n LONG_DIGITS_RE repl (Some c) l)).1 = (span digit l).1 ∧
  word_at (head (span digit (sub n LONG_DIGITS_RE repl (Some c) l)).2) = word_at (head (span digit l).2).
Proof.
  revert c l. induction n as [|n IH]; intros c l Hc; [by destruct l|]. destruct l as [|d l]; [done|]. cbn [sub].
  rewrite long_after_word by done. cbn [span]. destruct (digit d) eqn:Hd; [|done]. destruct (IH d l (digit_word _ Hd)) as [E1 E2].
  destruct (span digit (sub _ _ _ _ _)), (span digit l). cbn in *. by subst.
Qed.

Lemma long_pass (n : nat) (prev p : option N) (l : text) : (length l ≤ n)%nat → word_at p = word_at prev ∨ word_at (head l) = false →
  absent LONG_DIGITS_RE p (sub n LONG_DIGITS_RE (λ _, REDACTED) prev l).
Proof.
  revert prev p l. induction n as [|n IH]; intros prev p l Hn Hp; [destruct l; [by split; [apply long_nil|]|cbn in Hn; lia]|].
  destruct l as [|c l]; [by split; [apply long_nil|]|]. cbn [sub length] in *.
  destruct (LONG_DIGITS_RE prev (c :: l)) as [[m rest]|] eqn:E.
  - apply long_rest in E as (E & H9 & Hw & _). repeat (split; [by apply long_not_digit|]). apply IH; [|by right].
    apply (f_equal length) in E. rewrite length_app in E. cbn in E. lia.
  - split; [|apply IH; [lia|by left]]. destruct (digit c) eqn:Hc; [|by apply long_not_digit].
    destruct Hp as [Hp|Hp]; [|cbn in Hp; by rewrite (digit_word _ Hc) in Hp].
    destruct (sub_span (λ _, REDACTED) n c l (digit_word _ Hc)) as [E1 E2]. revert E. unfold LONG_DIGITS_RE. cbn [span]. rewrite Hc.
    fold LONG_DIGITS_RE. destruct (span digit (sub _ _ _ _ _)) as [a1 r1], (span digit l) as [a2 r2]. cbn in E1, E2. subst a2.
    unfold boundary. cbn [head word_at]. rewrite Hp, E2. by destruct (_ && _).
Qed.

(** ** Tokens *)

Lemma span_stop (f : N → bool) (a : text) (c : N) (r : text) :
  Forall (λ x, f x = true) a → f c = false → span f (a ++ c :: r) = (a, c :: r).
Proof. intros Ha Hc. induction Ha as [|x a Hx _ IH]; cbn; [by rewrite Hc|]. by rewrite Hx, IH. Qed.

Lemma span_longest (f : N → bool) (a r : text) : Forall (λ x, f x = true) a → (length a ≤ length (span f (a ++ r)).1)%nat.
Proof. induction 1 as [|x a Hx _ IH]; cbn; [lia|]. rewrite Hx. destruct (span f (a ++ r)). cbn in *. lia. Qed.

Lemma dot_segment_Some (l x r : text) : dot_segment l = Some (x, r) ↔
  ∃ a, x = a ++ [46] ∧ l = a ++ 46 :: r ∧ Forall (λ c, token_char c = true) a ∧ (5 ≤ length a)%nat.
Proof.
  unfold dot_segment. split.
  - destruct (span_app token_char l) as [El Ha]. destruct (span token_char l) as [a r0]. cbn [fst snd] in *.
    destruct r0 as [|c r0]; [done|]. destruct (decide (c = 46)) as [->|Hne]; [|by repeat case_match].
    destruct (Nat.leb_spec 5 (length a)); [|done]. intros [= <- <-]. by exists a.
  - intros (a & -> & -> & Ha & H5). rewrite span_stop by done. by rewrite (proj2 (Nat.leb_le _ _) H5).
Qed.

Lemma back_sound (n k : nat) (l : text) : back_to_boundary n l = Some k →
  (k ≤ n)%nat ∧ boundary (last (take k l)) (drop k l) = true.
Proof.
  induction n as [|n IH]; cbn [back_to_boundary]; rewrite head_reverse;
    (match goal with |- (if ?b then _ else _) = _ → _ => destruct b eqn:Hb end); intros E.
  1,3: by injection E as <-. 1: done. destruct (IH E). split; [lia|done].
Qed.

Lemma back_complete (n k : nat) (l : text) : (k ≤ n)%nat → boundary (last (take k l)) (drop k l) = true →
  ∃ k', back_to_boundary n l = Some k' ∧ (k ≤ k')%nat.
Proof.
  intros Hk Hb. induction n as [|n IH]; cbn [back_to_boundary]; rewrite head_reverse.
  - replace k with 0%nat in * by lia. rewrite Hb. eauto.
  - destruct (boundary (last (take (S n) l)) _) eqn:E; [eauto|]. apply IH.
    destruct (decide (k = S n)) as [->|]; [congruence|lia].
Qed.

(** What a JWT looks like to the pattern. *)
Definition jwt_shape (prev : option N) (l : text) : Prop :=
  ∃ a b c rest, l = points "eyJ" ++ a ++ 46 :: b ++ 46 :: c ++ rest ∧
    Forall (λ x, token_char x = true) a ∧ Forall (λ x, token_char x = true) b ∧ Forall (λ x, token_char x = true) c ∧
    (5 ≤ length a)%nat ∧ (5 ≤ length b)%nat ∧ (5 ≤ length c)%nat ∧
    boundary prev l = true ∧ boundary (last c) rest = true.

Lemma jwt_some (prev : option N) (l m rest : text) : JWT_RE prev l = Some (m, rest) →
  l = m ++ rest ∧ m ≠ [] ∧ head l = Some 101 ∧ boundary prev l = true ∧ boundary (last m) rest = true ∧ jwt_shape prev l.
Proof.
  unfold JWT_RE. destruct (boundary prev l) eqn:Hb; [|done].
  destruct (strip_lit (points "eyJ") l) as [r0|] eqn:E0; [|done]. cbn [mbind option_bind]. apply strip_lit_Some in E0.
  destruct (dot_segment r0) as [[x r1]|] eqn:E1; [|done]. cbn [mbind option_bind]. apply dot_segment_Some in E1 as (a & -> & -> & Ha & La).
  destruct (dot_segment r1) as [[y r2]|] eqn:E2; [|done]. cbn [mbind option_bind]. apply dot_segment_Some in E2 as (b & -> & -> & Hbt & Lb).
  destruct (back_to_boundary _ r2) as [n|] eqn:En; [|done]. cbn [mbind option_bind]. apply back_sound in En as [Hn Hend].
  destruct (Nat.leb_spec 5 n) as [H5|]; [|done]. intros [= <- <-].
  destruct (span_app token_char r2) as [Er2 Hs]. assert (take n r2 = take n (span token_char r2).1) as Et by (rewrite Er2 at 1; by rewrite take_app_le).
  assert (length (take n r2) = n) as Lc by (rewrite Et, length_take; lia).
  assert (l = (points "eyJ" ++ (a ++ [46]) ++ (b ++ [46]) ++ take n r2) ++ drop n r2) as El.
  { subst l. rewrite <- !app_assoc. cbn. do 3 f_equal. rewrite take_drop. done. }
  split; [exact El|]. split; [done|]. split; [by subst l|]. split; [done|]. split.
  { change (boundary (last (points "eyJ" ++ (a ++ [46]) ++ (b ++ [46]) ++ take n r2)) (drop n r2) = true).
    rewrite !last_app. destruct (last (take n r2)) as [z|] eqn:Ez; [done|]. apply last_None in Ez. rewrite Ez in Lc. cbn in Lc. lia. }
  exists a, b, (take n r2), (drop n r2). split; [by rewrite take_drop|]. split; [done|]. split; [done|].
  split; [rewrite Et; by apply Forall_take|]. split_and!; try done. lia.
Qed.

Lemma jwt_found (prev : option N) (l : text) : jwt_shape prev l → JWT_RE prev l ≠ None.
Proof.
  intros (a & b & c & rest & El & Ha & Hb & Hc & La & Lb & Lc & H1 & H2) HN. unfold JWT_RE in HN. rewrite H1 in HN.
  rewrite (proj2 (strip_lit_Some _ _ _) El) in HN. cbn [mbind option_bind] in HN.
  rewrite (proj2 (dot_segment_Some _ (a ++ [46]) (b ++ 46 :: c ++ rest))) in HN by by exists a. cbn [mbind option_bind] in HN.
  rewrite (proj2 (dot_segment_Some _ (b ++ [46]) (c ++ rest))) in HN by by exists b. cbn [mbind option_bind] in HN.
  destruct (back_complete (length (span token_char (c ++ rest)).1) (length c) (c ++ rest)) as (k & Ek & Hk);
    [by apply span_longest|by rewrite take_app_length, drop_app_length|].
  rewrite Ek in HN. cbn [mbind option_bind] in HN. by rewrite (proj2 (Nat.leb_le 5 k) ltac:(lia)) in HN.
Qed.

(** What a bearer token looks like to the pattern. *)
Definition bearer_shape (l : text) : Prop :=
  ∃ b s a rest, l = b ++ s ++ a :: rest ∧ lower_char <$> b = points "bearer" ∧ s ≠ [] ∧ Forall (λ c, space c = true) s ∧ bearer_char a = true.

Lemma bearer_not_space (c : N) : bearer_char c = true → space c = false.
Proof.
  unfold bearer_char. intros [Hb|Hb]%orb_true_iff.
  - unfold space, token_char, ascii_alnum, ascii_digit, between in *. assert ((c <? 128) = true) as -> by lia.
    apply not_true_iff_false. lia.
  - apply existsb_exists in Hb as (x & Hx & Ex%N.eqb_eq). subst x. apply list_elem_of_In in Hx. unfold space.
    assert (c <? 128 = false) as -> by (repeat (apply elem_of_cons in Hx as [->|Hx]; [done|]); by apply not_elem_of_nil in Hx).
    by apply uni_letter_space.
Qed.

Lemma space_not_word (c : N) : space c = true → word c = false.
Proof.
  unfold space, word, ascii_alnum, ascii_digit, between. destruct (c <? 128); [|apply uni_space_word].
  intros Hs. apply not_true_iff_false. intros Hw. lia.
Qed.

Lemma bearer_some (prev : option N) (l m rest : text) : BEARER_RE prev l = Some (m, rest) →
  l = m ++ rest ∧ m ≠ [] ∧ match rest with c :: _ => bearer_char c = false | [] => True end ∧ bearer_shape l.
Proof.
  unfold BEARER_RE. destruct (strip_lit _ _) as [r0|] eqn:E0; [|done]. cbn [mbind option_bind]. apply strip_lit_Some in E0.
  assert (length (take 6 l) = 6%nat ∧ r0 = []) as [L6 ->].
  { apply (f_equal length) in E0. rewrite length_fmap, length_app in E0. change (length (points "bearer")) with 6%nat in E0.
    rewrite length_take in E0 |- *. destruct r0 as [|? r0]; rewrite ?length_nil, ?length_cons in E0; [split; [lia|done]|lia]. }
  rewrite app_nil_r in E0. destruct (span_app space (drop 6 l)) as [Es Hs]. destruct (span space (drop 6 l)) as [s r1]. cbn [fst snd] in Es, Hs.
  destruct (span_app bearer_char r1) as [Ea Ha]. pose proof (span_next bearer_char r1) as Hn.
  destruct (span bearer_char r1) as [a r2]. cbn [fst snd] in Ea, Ha, Hn.
  destruct s as [|s0 s]; [done|]. destruct a as [|a0 a]; [done|]. intros [= <- <-].
  assert (l = take 6 l ++ (s0 :: s) ++ (a0 :: a) ++ r2) as El by (rewrite <- (take_drop 6 l) at 1; by rewrite Es, Ea).
  split; [etrans; [exact El|]; rewrite <- app_assoc; cbn [app]; by rewrite <- app_assoc|]. split; [by destruct (take 6 l)|]. split; [done|].
  exists (take 6 l), (s0 :: s), a0, (a ++ r2). split_and!; try done. by apply Forall_cons in Ha as [? _].
Qed.

Lemma bearer_found (prev : option N) (l : text) : bearer_shape l → BEARER_RE prev l ≠ None.
Proof.
  intros (b & s & a & rest & -> & Eb & Hs & Hsp & Ha). assert (length b = 6%nat) as L6 by (by apply (f_equal length) in Eb; rewrite length_fmap in Eb).
  unfold BEARER_RE. rewrite take_app_length', drop_app_length', Eb by done. rewrite (proj2 (strip_lit_Some _ _ [])) by by rewrite app_nil_r.
  cbn [mbind option_bind]. rewrite span_stop by (done || by apply bearer_not_space). cbn [span]. rewrite Ha.
  destruct (span bearer_char rest), s; done.
Qed.

(** ** Passes that bring no token *)

(** Text at the front of the result whose characters begin no replacement was at the front of the text, and the
    pass goes on behind it. *)
Lemma sub_keeps (f : N → bool) (re : pattern) (repl : text → text) (ds : text) :
  (∀ prev l m rest, re prev l = Some (m, rest) → ∃ x t, repl m = x :: t ∧ f x = false) → Forall (λ c, f c = true) ds →
  ∀ n prev l out, (length l ≤ n)%nat → sub n re repl prev l = ds ++ out →
  ∃ n' l', l = ds ++ l' ∧ (length l' ≤ n')%nat ∧ out = sub n' re repl (match last ds with Some c => Some c | None => prev end) l'.
Proof.
  intros Hre Hds. induction Hds as [|c ds Hc _ IH]; intros n prev l out Hn E; [by exists n, l|].
  destruct n as [|n], l as [|x l]; cbn in Hn; try done; try lia. cbn in E. destruct (re prev (x :: l)) as [[m rest]|] eqn:Em.
  - destruct (Hre _ _ _ _ Em) as (y & t & Ey & Hy). rewrite Ey in E. cbn in E. injection E as -> _. congruence.
  - injection E as -> E. destruct (IH n (Some c) l out ltac:(lia) E) as (n' & l' & -> & Hl & ->). exists n', l'.
    split; [done|]. split; [done|]. rewrite last_cons. by destruct (last ds).
Qed.

(** No match of [P] comes out of a pass: [R] relates the character before the result to the one before the text, [Q] is
    what is known of the text. *)
Lemma pass_absent (P re : pattern) (repl : text → text) (Q : option N → text → Prop) (R : option N → option N → text → Prop) :
  (∀ p, P p [] = None) → (∀ p l, R p p l) →
  (∀ n p prev x l, (length l ≤ n)%nat → R p prev (x :: l) → Q prev (x :: l) → re prev (x :: l) = None →
     P p (x :: sub n re repl (Some x) l) = None ∧ Q (Some x) l) →
  (∀ prev l m rest, re prev l = Some (m, rest) → l = m ++ rest ∧ m ≠ [] ∧ R (last (repl m)) (last m) rest ∧ (Q prev l → Q (last m) rest) ∧
     ∀ p out, absent P (last (repl m)) out → absent P p (repl m ++ out)) →
  ∀ n prev p l, (length l ≤ n)%nat → R p prev l → Q prev l → absent P p (sub n re repl prev l).
Proof.
  intros Hnil Hrefl Hkept Hmatch. induction n as [|n IH]; intros prev p l Hn HR HQ; [destruct l; [by split|cbn in Hn; lia]|].
  destruct l as [|x l]; [by split|]. cbn [sub length] in *. destruct (re prev (x :: l)) as [[m rest]|] eqn:E.
  - destruct (Hmatch _ _ _ _ E) as (El & Hm & HR' & HQ' & Habs). apply Habs. rewrite head_reverse. apply IH; [|done|by apply HQ'].
    apply (f_equal length) in El. rewrite length_app in El. destruct m; [done|]. cbn in El. lia.
  - destruct (Hkept n p prev x l ltac:(lia) HR HQ E) as [E1 HQ']. split; [exact E1|]. apply IH; [lia|apply Hrefl|exact HQ'].
Qed.

Lemma absent_over (P : pattern) (a : text) (out : text) : (∀ p c l, c ∈ a → P p (c :: l) = None) → a ≠ [] →
  absent P (last a) out → ∀ p, absent P p (a ++ out).
Proof.
  induction a as [|c a IH]; intros Ha Hne Hout p; [done|]. split; [apply Ha; by left|].
  destruct a as [|d a]; [done|]. apply IH; [|done|by rewrite last_cons_cons in Hout]. intros q x l Hx. apply Ha. by right.
Qed.

Lemma jwt_other (p : option N) (c : N) (l : text) : c ≠ 101 → JWT_RE p (c :: l) = None.
Proof.
  intros Hc. destruct (JWT_RE p (c :: l)) as [[m rest]|] eqn:E; [|done]. apply jwt_some in E as (_ & _ & [= ->] & _). done.
Qed.

Lemma bearer_other (p : option N) (c : N) (l : text) : lower_char c ≠ 98 → BEARER_RE p (c :: l) = None.
Proof.
  intros Hc. destruct (BEARER_RE p (c :: l)) as [[m rest]|] eqn:E; [|done].
  apply bearer_some in E as (_ & _ & _ & b & s & a & r & El & Eb & _). destruct b as [|x b]; [done|]. injection El as -> _. by injection Eb.
Qed.

(** A pass that breaks tokens up: the replacement starts with a character that is no part of a word or token, holds neither an
    [e] nor a [b], and what it ends on or stands behind makes no new word boundary before an [e] or behind a token. *)
Record token_safe (re : pattern) (repl : text → text) : Prop := {
  ts_split : ∀ prev l m rest, re prev l = Some (m, rest) → l = m ++ rest ∧ m ≠ [];
  ts_start : ∀ prev l m rest, re prev l = Some (m, rest) → ∃ x t, repl m = x :: t ∧ (x = 42 ∨ x = 43);
  ts_inside : ∀ prev l m rest, re prev l = Some (m, rest) → Forall (λ c, c ≠ 101 ∧ lower_char c ≠ 98) (repl m);
  ts_after : ∀ prev l m rest, re prev l = Some (m, rest) → head rest = Some 101 → word_at (last (repl m)) = word_at (last m);
  ts_end : ∀ c l m rest, re (Some c) l = Some (m, rest) → word c = true →
    ∃ a r, l = a ++ r ∧ Forall (λ x, token_char x = true) a ∧ boundary (last (c :: a)) r = true;
}.

Definition jwt_char (c : N) : bool := token_char c || (c =? 46).

Lemma token_jwt (l : text) : Forall (λ c, token_char c = true) l → Forall (λ c, jwt_char c = true) l.
Proof. intros Hl. eapply Forall_impl; [exact Hl|]. intros c Hc. unfold jwt_char. by rewrite Hc. Qed.

(** The pass leaves a boundary behind a token where the text had one, perhaps further on. *)
Lemma token_end (re : pattern) (repl : text → text) (n : nat) (z : N) (l : text) : token_safe re repl → (length l ≤ n)%nat →
  boundary (Some z) (sub n re repl (Some z) l) = true →
  ∃ a r, l = a ++ r ∧ Forall (λ x, token_char x = true) a ∧ boundary (last (z :: a)) r = true.
Proof.
  intros Hs Hn Hb. destruct n as [|n], l as [|y l]; cbn in Hn; try lia; try (by exists [], []). cbn [sub] in Hb.
  destruct (re (Some z) (y :: l)) as [[m rest]|] eqn:E; [|by exists [], (y :: l)].
  destruct (ts_start _ _ Hs _ _ _ _ E) as (x & t & Ex & Hx). rewrite Ex in Hb. unfold boundary in Hb. cbn [app head word_at] in Hb.
  apply (ts_end _ _ Hs _ _ _ _ E). destruct (word z); [done|]. by destruct Hx; subst x.
Qed.

Lemma kept_jwt (re : pattern) (repl : text → text) (n : nat) (p prev : option N) (x : N) (l : text) : token_safe re repl →
  (length l ≤ n)%nat → word_at p = word_at prev ∨ head (x :: l) ≠ Some 101 → JWT_RE prev (x :: l) = None →
  JWT_RE p (x :: sub n re repl (Some x) l) = None.
Proof.
  intros Hs Hn Hp HN. destruct (JWT_RE p _) as [[m0 rest0]|] eqn:E; [exfalso|done].
  apply jwt_some in E as (_ & _ & _ & _ & _ & a & b & c & rest & El & Ha & Hb & Hc & La & Lb & Lc & H1 & H2).
  injection El as Ex El. destruct Hp as [Hp|Hp]; [|by subst x].
  set (ds := points "yJ" ++ a ++ 46 :: b ++ 46 :: c).
  assert (sub n re repl (Some x) l = ds ++ rest) as El' by (rewrite El; unfold ds; cbn; do 2 f_equal; by rewrite <- !app_assoc; cbn; rewrite <- app_assoc).
  destruct (sub_keeps jwt_char re repl ds) with (n := n) (prev := Some x) (l := l) (out := rest) as (n' & l' & Hl & Hn' & Er); [| |done|done|].
  { intros ???? E. destruct (ts_start _ _ Hs _ _ _ _ E) as (y & t & Ey & Hy). exists y, t. split; [done|]. by destruct Hy; subst y. }
  { unfold ds. apply Forall_app. split; [by repeat constructor|]. apply Forall_app. split; [by apply token_jwt|]. constructor; [done|].
    apply Forall_app. split; [by apply token_jwt|]. constructor; [done|]. by apply token_jwt. }
  destruct (last c) as [z|] eqn:Ez; [|apply last_None in Ez; subst c; cbn in Lc; lia].
  assert (last ds = Some z) as Ed.
  { unfold ds. by rewrite !last_app, last_cons, last_app, last_cons, Ez. }
  rewrite Ed in Er. rewrite Er in H2. destruct (token_end re repl n' z l' Hs Hn' H2) as (a' & r' & -> & Ha' & Hb').
  apply (jwt_found prev (x :: l)); [|exact HN]. exists a, b, (c ++ a'), r'. split.
  { subst x l. unfold ds. cbn. do 3 f_equal. rewrite <- !app_assoc. cbn. by rewrite <- !app_assoc. }
  split_and!; try done; [by apply Forall_app|rewrite length_app; lia| |].
  - unfold boundary in *. cbn in *. by rewrite <- Hp.
  - rewrite last_app, Ez. by rewrite last_cons in Hb'.
Qed.

Lemma kept_bearer (re : pattern) (repl : text → text) (n : nat) (p prev : option N) (x : N) (l : text) : token_safe re repl →
  (length l ≤ n)%nat → BEARER_RE prev (x :: l) = None → BEARER_RE p (x :: sub n re repl (Some x) l) = None.
Proof.
  intros Hs Hn HN. destruct (BEARER_RE p _) as [[m0 rest0]|] eqn:E; [exfalso|done].
  apply bearer_some in E as (_ & _ & _ & b & s & a & rest & El & Eb & Hne & Hsp & Ha). destruct b as [|y b]; [done|]. injection El as <- El.
  set (f := λ c, negb (c =? 42) && negb (c =? 43)).
  assert (∀ c, lower_char c ∈ points "bearer" → f c = true) as Hlow.
  { intros c Hc. unfold f. apply not_false_iff_true. intros Hf. assert (c = 42 ∨ c = 43) as [-> | ->] by lia; vm_compute in Hc; set_solver. }
  destruct (sub_keeps f re repl (b ++ s ++ [a])) with (n := n) (prev := Some x) (l := l) (out := rest) as (n' & l' & -> & _ & _); [| |done| |].
  { intros ???? E. destruct (ts_start _ _ Hs _ _ _ _ E) as (y & t & Ey & Hy). exists y, t. split; [done|]. by destruct Hy; subst y. }
  { apply Forall_app. split; [|apply Forall_app; split].
    - apply Forall_forall. intros c Hc. apply Hlow. rewrite <- Eb. apply list_elem_of_fmap. exists c. split; [done|by right].
    - eapply Forall_impl; [exact Hsp|]. intros c Hc. apply not_false_iff_true. unfold f. intros Hf.
      assert (c = 42 ∨ c = 43) as [-> | ->] by lia; done.
    - constructor; [|done]. apply not_false_iff_true. unfold f. intros Hf. assert (a = 42 ∨ a = 43) as [-> | ->] by lia; done. }
  { rewrite El. by rewrite <- !app_assoc. }
  apply (bearer_found prev (x :: (b ++ s ++ [a]) ++ l')); [|exact HN]. exists (x :: b), s, a, l'. split; [|done].
  cbn. f_equal. by rewrite <- !app_assoc.
Qed.

(** *** The four passes are such *)

Lemma safe_jwt : token_safe JWT_RE (λ _, REDACTED).
Proof.
  constructor.
  - by intros ???? (? & ? & _)%jwt_some.
  - intros ???? _. by eexists 42, _; split; [|left].
  - intros ???? _. by apply (bool_decide_unpack _).
  - intros ???? (_ & _ & _ & _ & Hb & _)%jwt_some He. unfold boundary in Hb. rewrite He in Hb. cbn in *. by destruct (word_at (last m)).
  - intros c l m rest (_ & _ & He & Hb & _)%jwt_some Hc. unfold boundary in Hb. rewrite He in Hb. cbn in Hb. by rewrite Hc in Hb.
Qed.

Lemma safe_bearer : token_safe BEARER_RE (λ _, REDACTED).
Proof.
  constructor.
  - by intros ???? (? & ? & _)%bearer_some.
  - intros ???? _. by eexists 42, _; split; [|left].
  - intros ???? _. by apply (bool_decide_unpack _).
  - intros ???? (_ & _ & Hn & _)%bearer_some He. by destruct rest; [|injection He as ->].
  - intros c l m rest (_ & _ & _ & b & s & a & r & -> & Eb & Hne & Hsp & _)%bearer_some Hc. exists b, (s ++ a :: r). split; [done|].
    assert (∀ x, lower_char x ∈ points "bearer" → token_char x = true ∧ word x = true) as Hx.
    { intros x. unfold lower_char. destruct (between 65 90 x) eqn:Hx; intros Hin.
      - unfold token_char, word, ascii_alnum, between in *. assert (x <? 128 = true) as -> by lia. split; lia.
      - vm_compute in Hin. repeat (apply elem_of_cons in Hin as [->|Hin]; [done|]). by apply not_elem_of_nil in Hin. }
    assert (∀ x, x ∈ b → token_char x = true ∧ word x = true) as Hb.
    { intros x Hxb. apply Hx. rewrite <- Eb. apply list_elem_of_fmap. by exists x. }
    split; [apply Forall_forall; intros x Hxb; by apply Hb|]. rewrite last_cons. destruct (last b) as [z|] eqn:Ez.
    2:{ apply last_None in Ez. by subst b. }
    destruct (Hb z) as [_ Hw]; [by apply last_Some_elem_of|]. destruct s as [|s0 s]; [done|]. apply Forall_cons in Hsp as [Hs0 _].
    unfold boundary. cbn. by rewrite Hw, (space_not_word _ Hs0).
Qed.

Lemma mask_phone_ends (ds : text) : length ds = 8%nat → mask_phone (points "+9665" ++ ds) = points "+9665" ++ replicate 5 8226 ++ drop 6 ds.
Proof.
  intros Hl. unfold mask_phone. rewrite length_app, Hl. change (length (points "+9665") + 8 - 2)%nat with 11%nat. done.
Qed.

Lemma safe_phone : token_safe PHONE_RE mask_phone.
Proof.
  constructor.
  - intros ???? (ds & _ & _ & -> & ->)%phone_re. done.
  - intros ???? (ds & ? & ? & -> & _)%phone_re. by eexists 43, _; split; [|right].
  - intros ???? (ds & Hl & Hd & -> & _)%phone_re. rewrite mask_phone_ends by done.
    apply Forall_app. split; [by apply (bool_decide_unpack _)|]. apply Forall_app. split; [by apply (bool_decide_unpack _)|].
    apply Forall_drop. eapply Forall_impl; [exact Hd|]. intros c Hc. split; [by intros ->|]. unfold lower_char.
    destruct (between 65 90 c) eqn:Hc'; [|by intros ->]. unfold digit, ascii_digit, between in *.
    assert (c <? 128 = true) as E by lia. rewrite E in Hc. lia.
  - intros ???? (ds & Hl & Hd & -> & _)%phone_re _. rewrite mask_phone_ends, !last_app by done.
    assert (last ds = last (drop 6 ds)) as E by (rewrite <- (take_drop 6 ds) at 1; rewrite last_app; destruct (last (drop 6 ds)) eqn:En; [done|];
      apply last_None in En; apply (f_equal length) in En; rewrite length_drop, Hl in En; cbn in En; lia).
    rewrite E. destruct (last (drop 6 ds)) eqn:En; [done|]. apply last_None in En. apply (f_equal length) in En. rewrite length_drop, Hl in En. cbn in En. lia.
  - intros c l m rest (ds & _ & _ & -> & ->)%phone_re Hc. eexists [], _. split; [reflexivity|]. split; [constructor|]. unfold boundary. cbn. by rewrite Hc.
Qed.

Lemma safe_long : token_safe LONG_DIGITS_RE (λ _, REDACTED).
Proof.
  constructor.
  - intros ???? (-> & H9 & _)%long_rest. split; [done|]. by destruct m; [cbn in H9; lia|].
  - intros ???? _. by eexists 42, _; split; [|left].
  - intros ???? _. by apply (bool_decide_unpack _).
  - intros ???? (_ & _ & Hw & _)%long_rest He. by rewrite He in Hw.
  - intros c l m rest E Hc. by rewrite long_after_word in E.
Qed.

(** A safe pass over text without JWTs brings none, and [JWT_RE]'s own pass leaves none. *)
Lemma pass_no_jwt (re : pattern) (repl : text → text) (Q : option N → text → Prop) : token_safe re repl →
  (∀ prev x l, Q prev (x :: l) → re prev (x :: l) = None → JWT_RE prev (x :: l) = None ∧ Q (Some x) l) →
  (∀ prev a b, a ≠ [] → Q prev (a ++ b) → Q (last a) b) →
  ∀ l, Q None l → absent JWT_RE None (re_sub re repl l).
Proof.
  intros Hs HQ1 HQ2 l HQ. apply (pass_absent JWT_RE re repl Q (λ p prev l, word_at p = word_at prev ∨ head l ≠ Some 101));
    [intros p; unfold JWT_RE; by destruct (boundary p [])|by left| | |done|by left|exact HQ].
  - intros n p prev x l' Hn Hp Hq E. destruct (HQ1 _ _ _ Hq E) as [HN HQ']. split; [by eapply kept_jwt|done].
  - intros prev l' m rest E. destruct (ts_split _ _ Hs _ _ _ _ E) as [-> Hm]. split; [done|]. split; [done|]. split.
    { destruct (decide (head rest = Some 101)) as [He|He]; [left; by eapply ts_after|by right]. }
    split; [by apply HQ2|]. intros p out Hout. pose proof (ts_inside _ _ Hs _ _ _ _ E) as Hi. rewrite Forall_forall in Hi.
    apply absent_over; [|by destruct (ts_start _ _ Hs _ _ _ _ E) as (? & ? & -> & _)|done]. intros q c k Hc. apply jwt_other. by apply Hi.
Qed.

Lemma pass_no_bearer (re : pattern) (repl : text → text) (Q : option N → text → Prop) : token_safe re repl →
  (∀ prev x l, Q prev (x :: l) → re prev (x :: l) = None → BEARER_RE prev (x :: l) = None ∧ Q (Some x) l) →
  (∀ prev a b, a ≠ [] → Q prev (a ++ b) → Q (last a) b) →
  ∀ l, Q None l → absent BEARER_RE None (re_sub re repl l).
Proof.
  intros Hs HQ1 HQ2 l HQ. apply (pass_absent BEARER_RE re repl Q (λ _ _ _, True)); [done|done| | |done|done|exact HQ].
  - intros n p prev x l' Hn _ Hq E. destruct (HQ1 _ _ _ Hq E) as [HN HQ']. split; [by eapply kept_bearer|done].
  - intros prev l' m rest E. destruct (ts_split _ _ Hs _ _ _ _ E) as [-> Hm]. do 3 (split; [done|]).
    split; [by apply HQ2|]. intros p out Hout. pose proof (ts_inside _ _ Hs _ _ _ _ E) as Hi. rewrite Forall_forall in Hi.
    apply absent_over; [|by destruct (ts_start _ _ Hs _ _ _ _ E) as (? & ? & -> & _)|done]. intros q c k Hc. apply bearer_other. by apply Hi.
Qed.

Lemma jwt_kept_absent (re : pattern) (repl : text → text) (l : text) : token_safe re repl →
  absent JWT_RE None l → absent JWT_RE None (re_sub re repl l).
Proof.
  intros Hs. apply (pass_no_jwt re repl (absent JWT_RE) Hs); [by intros prev x k [? ?] _|]. intros prev a b Ha. by apply absent_suffix.
Qed.

Lemma bearer_kept_absent (re : pattern) (repl : text → text) (l : text) : token_safe re repl →
  absent BEARER_RE None l → absent BEARER_RE None (re_sub re repl l).
Proof.
  intros Hs. apply (pass_no_bearer re repl (absent BEARER_RE) Hs); [by intros prev x k [? ?] _|]. intros prev a b Ha. by apply absent_suffix.
Qed.

(** ** The whole of [scrub_text] *)

(** No JWT, no bearer token, no phone number and no run of nine digits or more that stands as a word of its own. *)
Record clean (t : text) : Prop := {
  no_jwt : absent JWT_RE None t;
  no_bearer : absent BEARER_RE None t;
  no_phone : absent PHONE_RE None t;
  no_long_digits : absent LONG_DIGITS_RE None t;
}.

Lemma absent_phone_any (p q : option N) (l : text) : absent PHONE_RE p l → absent PHONE_RE q l.
Proof. by destruct l. Qed.

Lemma absent_at (a b : text) (q : option N) : absent PHONE_RE None (a ++ b) → PHONE_RE q b = None.
Proof.
  intros Hab. destruct (decide (a = [])) as [->|Ha]; [by destruct b, Hab|]. apply absent_suffix in Hab; [|done]. by destruct b, Hab.
Qed.

Lemma scrub_text_clean (t : text) : clean (scrub_text t).
Proof.
  unfold scrub_text. constructor; [| | |by apply long_pass; [|left]].
  { apply jwt_kept_absent; [apply safe_long|]. apply jwt_kept_absent; [apply safe_phone|]. apply jwt_kept_absent; [apply safe_bearer|].
    by apply (pass_no_jwt JWT_RE _ (λ _ _, True) safe_jwt). }
  { apply bearer_kept_absent; [apply safe_long|]. apply bearer_kept_absent; [apply safe_phone|].
    by apply (pass_no_bearer BEARER_RE _ (λ _ _, True) safe_bearer). }
  set (u := re_sub BEARER_RE _ _). assert (Hu : absent PHONE_RE None (re_sub PHONE_RE mask_phone u)) by by apply phone_pass.
  apply sub_no_phone; [| | |done|].
  - intros ? ? ? ? _. by eexists _, _.
  - intros ? ? ? ? out p _ Hout. by apply redacted_no_phone.
  - intros ? ? m rest (-> & H9 & _)%long_rest. exists (length m). split; [lia|]. by rewrite drop_app_length.
  - intros a b _ q Ea _. rewrite Ea in Hu. by eapply absent_at.
Qed.

(** ** Payloads *)

Lemma pyvalue_nested (P : pyvalue → Prop) :
  (∀ t, P (PStr t)) → (∀ z, P (PInt z)) → (∀ b, P (PBool b)) → P PNone → (∀ t, P (PObject t)) →
  (∀ l, Forall P l → P (PList l)) → (∀ l, Forall (λ kx, P (snd kx)) l → P (PDict l)) → ∀ v, P v.
Proof.
  intros Hs Hi Hb Hn Ho Hl Hd. fix IH 1. intros [t|z|b| |t|l|l]; [apply Hs|apply Hi|apply Hb|apply Hn|apply Ho| |].
  - apply Hl. induction l as [|x l IHl]; constructor; [apply IH|done].
  - apply Hd. induction l as [|[k x] l IHl]; constructor; [apply IH|done].
Qed.

Definition scrub_entry (kx : string * pyvalue) : string * pyvalue :=
  (kx.1, if is_sensitive_key kx.1 then PStr REDACTED else scrub_value kx.2).

Lemma scrub_dict (l : list (string * pyvalue)) : scrub_value (PDict l) = PDict (scrub_entry <$> l).
Proof. cbn. f_equal. induction l as [|[k x] l IH]; [done|]. cbn. by rewrite IH. Qed.

Lemma scrub_list (l : list pyvalue) : scrub_value (PList l) = PList (scrub_value <$> l).
Proof. done. Qed.

(** The payload without what stands under a sensitive key. *)
Fixpoint erase (v : pyvalue) : pyvalue :=
  match v with
  | PDict l => PDict ((fix go l := match l with
                       | [] => []
                       | (k, x) :: l' => (k, if is_sensitive_key k then PNone else erase x) :: go l'
                       end) l)
  | PList l => PList ((fix go l := match l with [] => [] | x :: l' => erase x :: go l' end) l)
  | _ => v
  end.

Definition erase_entry (kx : string * pyvalue) : string * pyvalue :=
  (kx.1, if is_sensitive_key kx.1 then PNone else erase kx.2).

Lemma erase_dict (l : list (string * pyvalue)) : erase (PDict l) = PDict (erase_entry <$> l).
Proof. cbn. f_equal. induction l as [|[k x] l IH]; [done|]. cbn. by rewrite IH. Qed.

Lemma erase_list (l : list pyvalue) : erase (PList l) = PList (erase <$> l).
Proof. done. Qed.

Lemma scrub_erase (v : pyvalue) : scrub_value (erase v) = scrub_value v.
Proof.
  induction v as [| | | | |l IH|l IH] using pyvalue_nested; try done.
  - rewrite erase_list, !scrub_list. f_equal. rewrite <- list_fmap_compose. by apply Forall_fmap_ext_1.
  - rewrite erase_dict, !scrub_dict. f_equal. rewrite <- list_fmap_compose. apply Forall_fmap_ext_1.
    eapply Forall_impl; [exact IH|]. intros [k x]. unfold compose, scrub_entry, erase_entry. cbn [fst snd]. destruct (is_sensitive_key k); [done|]. by intros ->.
Qed.

(** Every text of the value is clean, and a sensitive key has the placeholder; an object printed by [default=str] is
    outside. *)
Inductive value_clean : pyvalue → Prop :=
  | clean_str t : clean t → value_clean (PStr t)
  | clean_int z : value_clean (PInt z)
  | clean_bool b : value_clean (PBool b)
  | clean_none : value_clean PNone
  | clean_object t : value_clean (PObject t)
  | clean_list l : Forall value_clean l → value_clean (PList l)
  | clean_dict l : Forall (λ kx, value_clean kx.2 ∧ (is_sensitive_key kx.1 = true → kx.2 = PStr REDACTED)) l → value_clean (PDict l).

Lemma redacted_clean : clean REDACTED.
Proof.
  constructor; [| | |by repeat (split; [by apply long_not_digit|])].
  1,2: by repeat (split; [first [by apply jwt_other|by apply bearer_other]|]).
  rewrite <- (app_nil_r REDACTED). apply redacted_no_phone. by intros p.
Qed.

Lemma scrub_value_clean (v : pyvalue) : value_clean (scrub_value v).
Proof.
  induction v as [t| | | | |l IH|l IH] using pyvalue_nested; try by constructor.
  - constructor. apply scrub_text_clean.
  - rewrite scrub_list. constructor. by apply Forall_fmap.
  - rewrite scrub_dict. constructor. apply Forall_fmap. eapply Forall_impl; [exact IH|]. intros [k x] Hx. unfold compose, scrub_entry. cbn [fst snd] in *.
    destruct (is_sensitive_key k); [|done]. split; [constructor; apply redacted_clean|done].
Qed.

(** What a reader of the log line may learn of a record. *)
Definition public (r : LogRecord) : string * string * text * option text * option pyvalue :=
  (levelname r, name r, scrub_text (get_message r), request_id r, erase <$> extra_fields r).

Lemma format_public (r r' : LogRecord) : public r = public r' → format r = format r'.
Proof.
  unfold public, format, format_payload. intros [= -> -> -> -> E]. f_equal. f_equal. f_equal. f_equal.
  destruct (extra_fields r) as [v|], (extra_fields r') as [v'|]; try done. injection E as E. apply (f_equal scrub_value) in E as Es.
  rewrite !scrub_erase in Es. destruct v, v'; try done. by rewrite Es.
Qed.

Lemma plain_handlers (loggers : list Logger) (root : RootLogger) : Forall plain_logger loggers → handlers_for loggers root = handlers root.
Proof. induction 1 as [|c loggers [Hh Hp] _ IH]; [done|]. cbn. by rewrite Hh, Hp, IH. Qed.

Lemma configured_lines (level : string) (root : RootLogger) (loggers : list Logger) (r : LogRecord) : Forall plain_logger loggers →
  log_lines loggers (configure_logging level root).1 r ∈ [[]; [format r]].
Proof.
  intros Hl. unfold log_lines. rewrite plain_handlers by done.
  assert (handlers (configure_logging level root).1 = [scrubbing_handler]) as ->
    by (unfold configure_logging; by destruct (level_of (upper level))).
  destruct (_ <=? _)%Z; [|by left]. rewrite filter_cons. cbn [filter list_filter]. destruct (decide _); [right; left|by left].
Qed.
End ScrubLemmas.

(** [C36] Scrubbing leaves no secret in the text it is given.
    Whatever the text, after [scrub_text] no position holds a JWT, a bearer token or a Saudi mobile number, and none starts a
    free-standing run of nine digits or more: each of the four passes removes its matches, and neither its placeholders or
    masks nor the text they join form a match of any of the four.  After [scrub_value] the same holds of every string of a
    nested payload, and every key whose name contains a sensitive word carries the placeholder (numbers, objects printed
    by [str], and key names are passed on as they are).  The formatted line depends on the message only through its scrubbed
    text and on nothing that stood under a sensitive key, at any depth; the request id is written as it came.  Once [configure_logging]
    ran, whatever handlers the root logger had before and whether or not the level was known, a record of a logger that
    leaves its records to the root (it and its ancestors have no handler of their own and propagate) is written at most
    once, as that line; loggers with handlers of their own are outside. *)
Theorem log_scrubbing `{Unicode} `{!UnicodeLaws} :
  (∀ t, clean (scrub_text t)) ∧ (∀ v, value_clean (scrub_value v)) ∧ (∀ r r', public r = public r' → format r = format r') ∧
  (∀ level root loggers r, Forall plain_logger loggers → log_lines loggers (configure_logging level root).1 r ∈ [[]; [format r]]).
Proof.
  split; [apply scrub_text_clean|]. split; [apply scrub_value_clean|]. split; [apply format_public|].
  intros level root loggers r. apply configured_lines.
Qed.

(** *** On a concrete database of characters *)
#[local] Instance ascii_only : Unicode := {| uni_digit _ := false; uni_word _ := false; uni_space _ := false |}.

#[local] Instance ascii_only_laws : UnicodeLaws.
Proof. by split. Qed.

(** Two tokens, a phone, a long number. *)
Definition sample : text := points "eyJhbGci.eyJzdWI0.c2lnbmF0, bearer abc.def to +966512345678, order 1234567890".

Definition sample_record (otp : string) : LogRecord :=
  mk_LogRecord "INFO" 20 "app" sample None (Some (PDict [("otp_code"%string, PStr (points otp)); ("n"%string, PInt 3)])) None.

Lemma log_scrubbing_witness :
  scrub_text sample = points "***REDACTED***, ***REDACTED*** to +9665" ++ replicate 5 8226 ++ points "78, order ***REDACTED***" ∧
  clean (scrub_text sample) ∧ format (sample_record "123456") = format (sample_record "654321").
Proof.
  split; [by vm_compute|]. split; [apply (proj1 log_scrubbing)|]. by apply (proj1 (proj2 (proj2 log_scrubbing))).
Defined.

(** ** What the formatter does not scrub *)

(** The traceback of [exc_info] is dropped: [logger.exception] logs its message only. *)
Lemma exc_info_dropped (r : LogRecord) (t : option text) :
  format (mk_LogRecord (levelname r) (levelno r) (name r) (get_message r) (request_id r) (extra_fields r) t) = format r.
Proof. done. Qed.

(** The request id, which the client may choose, is written as it came. *)
Lemma request_id_unscrubbed : ∃ r t, request_id r = Some t ∧ ¬ clean t ∧ format_payload r = PDict
  [("level", PStr (points "INFO")); ("logger", PStr (points "app")); ("message", PStr []); ("request_id", PStr t)]%string.
Proof.
  exists (mk_LogRecord "INFO" 20 "app" [] (Some (points "+966512345678")) None None), (points "+966512345678").
  split; [done|]. split; [|by vm_compute]. intros [_ _ [Hp _] _]. revert Hp. by vm_compute.
Qed.
