(* ===== verification/Http.v ===== *)
(** * The HTTP application ([app/main.py], [app/core/middleware.py], [app/routers/health.py])

    What happens to a request around its route: the size and throttle guards, the request id, the
    exception handlers and the security headers, in the order [create_app] installs them.
    Header names are in lower case; [hq_authorization] is empty when the header is absent.
    [CORSMiddleware] is the framework's: [preflight] is the answer it gives on its own to a preflight request,
    [cors_headers] what it adds to other answers.  Starlette runs the handler of [Exception] outside all
    other middleware and the other handlers inside. *)

From Stdlib Require Import ZArith Lia Ascii.
From stdpp Require Import base list gmap strings numbers option pretty.
From S2P Require Import Prelude Errors PyDecimal Money Enums Tables Database Redis RateLimit Ledger Media Orders Config Fields Tokens Auth Schemas Routes Receipts.
Open Scope Z_scope.

Record HttpRequest := mk_HttpRequest {
  hq_method : string;
  hq_path : string;
  hq_authorization : string;
  hq_content_length : option string;
  hq_transfer_encoding : string;
  hq_request_id : option string;
  hq_client : option string;
}.

(** What a client reads: the answer of a route, the error envelope, FastAPI's own report of a
    rejected request, or nothing but the headers. *)
Inductive HttpBody :=
  | Answer (r : ApiResponse)
  | Envelope (error_code request_id : string)
  | ValidationReport
  | NoBody.

Record HttpResponse := mk_HttpResponse {
  hr_status : Z;
  hr_headers : gmap string string;
  hr_body : HttpBody;
}.

Definition Handler : Type := HttpRequest → T HttpResponse.

(** ** core/middleware.py *)

(** [_request_id_ctx]'s default. *)
Definition NO_REQUEST_ID : string := "-".

(** [error_response] where the context variable holds [rid]. *)
Definition error_response (rid : string) (status : Z) (error_code : string) (headers : gmap string string) : HttpResponse :=
  mk_HttpResponse status headers (Envelope error_code rid).

(** [RequestIdMiddleware.dispatch]: the app below runs with the id bound. *)
Definition request_id_middleware (call_next : string → Handler) : Handler := λ q,
  rid ← (if empty_str (hq_request_id q) then n ← draw; mret (uuid_str n) else mret (default EmptyString (hq_request_id q)));
  response ← call_next rid q;
  mret (mk_HttpResponse (hr_status response) (<["x-request-id" := rid]> (hr_headers response)) (hr_body response)).

(** [_handle_domain], with the handler of [AdminRedirect] ([_register_admin]) and FastAPI's default for a
    request its schema rejects; anything else passes through. *)
Definition render_error (settings : AppSettings) (rid : string) (e : exn) : option HttpResponse :=
  if is_domain_error e then
    Some (error_response rid (status_code e) (code e)
      match e with RateLimitedError n => {[ "retry-after" := pretty n ]} | _ => ∅ end)
  else
    match e with
    | RequestValidationError => Some (mk_HttpResponse 422 ∅ ValidationReport)
    | AdminRedirect =>
        if ADMIN_DASHBOARD_ENABLED settings then Some (mk_HttpResponse 303 {[ "location" := "/admin/login" ]} NoBody) else None
    | _ => None
    end.

Definition exception_handlers (settings : AppSettings) (rid : string) (app : Handler) : Handler := λ q,
  catch (app q) (λ e, match render_error settings rid e with Some r => mret r | None => throw e end).

(** [_handle_unexpected], after every other layer has been left. *)
Definition handle_unexpected (app : Handler) : Handler := λ q,
  catch (app q) (λ _, mret (error_response NO_REQUEST_ID 500 "INTERNAL_ERROR" ∅)).

(** ** main.py *)

Definition SECURITY_HEADERS : gmap string string :=
  {[ "x-content-type-options" := "nosniff"; "x-frame-options" := "DENY"; "referrer-policy" := "no-referrer";
     "strict-transport-security" := "max-age=63072000; includeSubDomains" ]}.

Definition ADMIN_CSP : string :=
  "default-src 'self'; script-src 'self'; object-src 'none'; frame-ancestors 'none'; base-uri 'none'".

Definition starts_with (prefix s : string) : bool := not_null (after_prefix prefix s).

Definition stamp (path : string) (headers : gmap string string) : gmap string string :=
  let headers := SECURITY_HEADERS ∪ headers in
  let headers := if starts_with "/admin" path then <["content-security-policy" := ADMIN_CSP]> headers else headers in
  delete "x-powered-by" (delete "server" headers).

(** [_install_security_headers]. *)
Definition security_headers (call_next : Handler) : Handler := λ q,
  response ← call_next q;
  mret (mk_HttpResponse (hr_status response) (stamp (hq_path q) (hr_headers response)) (hr_body response)).

(** [int(s)]: white space around, a sign, digits with single underscores between them, at most 4300 of them. *)
Fixpoint int_digits (l : list ascii) : option (list ascii) :=
  match l with
  | [] => None
  | [c] => if is_digit c then Some [c] else None
  | c :: (("_"%char :: l) | l) => if is_digit c then ds ← int_digits l; Some (c :: ds) else None
  end.

Definition py_int (s : string) : option Z :=
  let unsigned (l : list ascii) :=
    ds ← int_digits l; if (length ds <=? 4300)%nat then Some (Money.digits_val ds) else None in
  match strip_spaces (chars s) with
  | "-"%char :: l => Z.opp <$> unsigned l
  | "+"%char :: l => unsigned l
  | l => unsigned l
  end.

(** ["chunked" in s.lower()]. *)
Fixpoint has_substring (needle l : list ascii) : bool :=
  match after needle l with
  | Some _ => true
  | None => match l with [] => false | _ :: l => has_substring needle l end
  end.

(** [_guard_body_size]: the status and code of the rejection. *)
Definition guard_body_size (settings : AppSettings) (q : HttpRequest) : option (Z * string) :=
  match hq_content_length q with
  | Some v =>
      if MAX_REQUEST_BODY_BYTES settings <? default 0 (py_int v) then Some (413, "PAYLOAD_TOO_LARGE"%string) else None
  | None =>
      if has_substring (chars "chunked") (lower <$> chars (hq_transfer_encoding q)) then Some (411, "LENGTH_REQUIRED"%string) else None
  end.

Section App.
Context `{SecurityLib} (settings : AppSettings).

(** [_client_identity]. *)
Definition client_identity (q : HttpRequest) : T string :=
  now ← clock;
  let by_ip := "ip:" +:+ default "unknown" (hq_client q) in
  match after_prefix "Bearer " (hq_authorization q) with
  | None => mret by_ip
  | Some rest =>
      match decode_access_token settings (strip rest) now with
      | Ok claims => mret ("user:" +:+ ac_sub claims)
      | Raise _ => mret by_ip
      end
  end.

Definition unthrottled (q : HttpRequest) : bool :=
  negb (RATE_LIMIT_ENABLED settings) || same (hq_method q) "OPTIONS" || starts_with "/api/health" (hq_path q).

(** [_request_guards]. *)
Definition request_guards (rid : string) (call_next : Handler) : Handler := λ q,
  match guard_body_size settings q with
  | Some (status, error_code) => mret (error_response rid status error_code ∅)
  | None =>
      if unthrottled q then call_next q
      else
        identity ← client_identity q;
        decision ← check (RATE_LIMIT_MAX_REQUESTS settings) (RATE_LIMIT_WINDOW_SECONDS settings) identity;
        if allowed decision then call_next q
        else mret (error_response rid 429 "RATE_LIMITED" {[ "retry-after" := pretty (retry_after_seconds decision) ]})
  end.

(** [_install_cors]: the origins and whether credentials are allowed. *)
Definition cors_config : list (list ascii) * bool :=
  if bool_decide (ENVIRONMENT settings = DEVELOPMENT) then ([chars "*"], false) else (cors_origins settings, true).

Context (preflight : HttpRequest → option HttpResponse) (cors_headers : HttpRequest → gmap string string).

Definition cors (call_next : Handler) : Handler := λ q,
  match preflight q with
  | Some r => mret r
  | None =>
      response ← call_next q;
      mret (mk_HttpResponse (hr_status response) (cors_headers q ∪ hr_headers response) (hr_body response))
  end.

(** [_install_middleware] around the routers: the layer added last is the outermost. *)
Definition http_app (router : Handler) : Handler :=
  handle_unexpected
    (security_headers
       (cors
          (request_id_middleware (λ rid, request_guards rid (exception_handlers settings rid router))))).
End App.

(** ** The routes behind it *)

(** The status of a successful call. *)
Definition success_status (c : ApiCall) : Z :=
  match c with
  | PostSendOtp _ => 202
  | PostRegister _ | PostTopup _ | PostWithdrawal _ _ | PostUploadUrl _ | PostOrder _ | PostDispute _ _ | PostInvoice _ _
  | PostRating _ _ | PostMessageCall _ _ | PostDevice _ => 201
  | PostLogout | PostRead _ | DeleteDevice _ => 204
  | _ => 200
  end.

(** A route in its session ([get_db]). *)
Definition endpoint `{Deployment} (c : ApiCall) : Handler := λ q,
  r ← request (call_api (hq_authorization q) (hq_client q) c);
  mret (mk_HttpResponse (success_status c) ∅ (Answer r)).

(** ** routers/health.py *)

(** [ready]: whether the database answers is up to it; [PING] is a command. *)
Definition check_redis : T bool := catch (command (λ w, (Ok true, w))) (λ _, mret false).

Definition ready (database_up : bool) : T (Z * (bool * bool)) :=
  redis_up ← check_redis;
  mret (if database_up && redis_up then 200 else 503, (database_up, redis_up)).

(** ** Lemmas *)

Lemma ready_run (database_up : bool) (w : world) :
  ready database_up w = (Ok (if database_up && w_up w then 200 else 503, (database_up, w_up w)), w).
Proof.
  unfold ready. erewrite tbind_ok; [reflexivity|]. unfold check_redis, catch, command. by destruct (w_up w).
Qed.

(** No configuration that boots lets a page of any origin act with credentials. *)
Lemma cors_no_wildcard_credentials (s : AppSettings) :
  ENVIRONMENT s ≠ TEST → (is_production s = true → ["*"%char] ∉ cors_origins s) →
  ¬ (["*"%char] ∈ (cors_config s).1 ∧ (cors_config s).2 = true).
Proof.
  unfold cors_config, is_production. intros Ht Hp [Ho Hc]. destruct (ENVIRONMENT s); [done|done|by apply Hp].
Qed.

(** The headers every answer of a layer below [security_headers] leaves with. *)
Record stamped (q : HttpRequest) (r : HttpResponse) : Prop := {
  sp_shared : ∀ k v, SECURITY_HEADERS !! k = Some v → hr_headers r !! k = Some v;
  sp_stripped : hr_headers r !! "server" = None ∧ hr_headers r !! "x-powered-by" = None;
  sp_admin : starts_with "/admin" (hq_path q) = true → hr_headers r !! "content-security-policy" = Some ADMIN_CSP;
}.

Lemma stamp_stamped (q : HttpRequest) (status : Z) (h : gmap string string) (b : HttpBody) :
  stamped q (mk_HttpResponse status (stamp (hq_path q) h) b).
Proof.
  assert (∀ k v, SECURITY_HEADERS !! k = Some v →
    k ≠ "server" ∧ k ≠ "x-powered-by" ∧ k ≠ "content-security-policy")%string as Hk.
  { intros k v. unfold SECURITY_HEADERS.
    intros [[<- _]|[_ [[<- _]|[_ [[<- _]|[_ [<- _]%lookup_singleton_Some]]%lookup_insert_Some]]%lookup_insert_Some]]%lookup_insert_Some; done. }
  constructor; cbn [hr_headers]; unfold stamp.
  - intros k v E. destruct (Hk k v E) as (N1 & N2 & N3). rewrite !lookup_delete_ne by congruence.
    destruct (starts_with _ _); [rewrite lookup_insert_ne by congruence|]; by apply lookup_union_Some_l.
  - split; [rewrite lookup_delete_ne by done|]; apply lookup_delete_eq.
  - intros ->. by rewrite !lookup_delete_ne, lookup_insert_eq by done.
Qed.

Lemma stamp_other (path : string) (h : gmap string string) : stamp path h !! "retry-after" = h !! "retry-after".
Proof.
  unfold stamp. rewrite !lookup_delete_ne by done.
  destruct (starts_with _ _); [rewrite lookup_insert_ne by done|]; by apply lookup_union_r.
Qed.

Section AppLemmas.
Context `{SecurityLib} (s : AppSettings).

Lemma check_runs (max window : Z) (id : string) (w : world) :
  ∃ d w1, check max window id w = (Ok d, w1) ∧ w_db w1 = w_db w.
Proof.
  assert (preserves (λ d, d = w_db w) (check max window id)) as Hp by (unfold check, window_lua; preserves_auto).
  destruct (Hp w eq_refl) as [E _]. destruct (check max window id w) as [[d|e] w1] eqn:Ec; [by exists d, w1|].
  unfold check, catch in Ec. by repeat case_match; simplify_eq.
Qed.

Lemma client_identity_runs (q : HttpRequest) (w : world) : ∃ id, client_identity s q w = (Ok id, w).
Proof.
  unfold client_identity. erewrite tbind_ok by reflexivity. destruct (after_prefix _ _) as [rest|]; [|by eexists].
  destruct (decode_access_token _ _ _); by eexists.
Qed.

(** What the throttle says of a request: [Some n] is a refusal for [n] seconds. *)
Definition throttle (q : HttpRequest) (w w1 : world) (verdict : option Z) : Prop :=
  if unthrottled s q then verdict = None ∧ w1 = w
  else ∃ id d, client_identity s q w = (Ok id, w) ∧
    check (RATE_LIMIT_MAX_REQUESTS s) (RATE_LIMIT_WINDOW_SECONDS s) id w = (Ok d, w1) ∧
    verdict = if allowed d then None else Some (retry_after_seconds d).

(** A guard answers on its own, or hands the request on with the database untouched. *)
Lemma request_guards_cases (rid : string) (k : Handler) (q : HttpRequest) (w : world) :
  (∃ status error_code, guard_body_size s q = Some (status, error_code) ∧ status ∈ [411; 413] ∧
     request_guards s rid k q w = (Ok (error_response rid status error_code ∅), w)) ∨
  (guard_body_size s q = None ∧ ∃ w1 verdict, w_db w1 = w_db w ∧ throttle q w w1 verdict ∧
     request_guards s rid k q w =
       match verdict with
       | Some n => (Ok (error_response rid 429 "RATE_LIMITED" {[ "retry-after" := pretty n ]}), w1)
       | None => k q w1
       end).
Proof.
  unfold request_guards, throttle. destruct (guard_body_size s q) as [[status c]|] eqn:Eg.
  - left. exists status, c. split; [done|]. split; [|done]. unfold guard_body_size in Eg.
    destruct (hq_content_length q); [destruct (_ <? _)|destruct (has_substring _ _)]; try done; injection Eg as <- _; set_solver.
  - right. split; [done|]. destruct (unthrottled s q) eqn:Eu; [by exists w, None|].
    destruct (client_identity_runs q w) as [id Ei]. erewrite tbind_ok by exact Ei.
    destruct (check_runs (RATE_LIMIT_MAX_REQUESTS s) (RATE_LIMIT_WINDOW_SECONDS s) id w) as (d & w1 & Ec & Ed).
    erewrite tbind_ok by exact Ec. exists w1, (if allowed d then None else Some (retry_after_seconds d)).
    split; [done|]. split; [by exists id, d|]. by destruct (allowed d).
Qed.

Context (preflight : HttpRequest → option HttpResponse) (cors_headers : HttpRequest → gmap string string).

(** The id a request runs under, and the world once it was chosen. *)
Definition request_id_of (q : HttpRequest) (w : world) : string :=
  if empty_str (hq_request_id q) then uuid_str (w_draws w) else default EmptyString (hq_request_id q).

Definition identified (q : HttpRequest) (w : world) : world :=
  if empty_str (hq_request_id q) then w <| w_draws := (w_draws w + 1)%N |> else w.

Lemma request_id_run (k : string → Handler) (q : HttpRequest) (w w1 : world) (r : res HttpResponse) :
  k (request_id_of q w) q (identified q w) = (r, w1) →
  request_id_middleware k q w =
    (match r with
     | Ok x => Ok (mk_HttpResponse (hr_status x) (<["x-request-id" := request_id_of q w]> (hr_headers x)) (hr_body x))
     | Raise e => Raise e
     end, w1).
Proof.
  intros Hr. unfold request_id_middleware. erewrite (tbind_ok _ _ w (identified q w) (request_id_of q w)).
  - destruct r; [by erewrite tbind_ok by exact Hr|by erewrite tbind_raise by exact Hr].
  - unfold request_id_of, identified. by destruct (empty_str _).
Qed.

(** The outer layers: an answer is stamped, an exception becomes the anonymous 500. *)
Lemma http_app_run (router : Handler) (q : HttpRequest) (w w1 : world) (r : res HttpResponse) :
  preflight q = None →
  request_guards s (request_id_of q w) (exception_handlers s (request_id_of q w) router) q (identified q w) = (r, w1) →
  ∃ resp, http_app s preflight cors_headers router q w = (Ok resp, w1) ∧
    match r with
    | Ok x => hr_status resp = hr_status x ∧ hr_body resp = hr_body x ∧ stamped q resp ∧
        (cors_headers q !! "retry-after" = None → hr_headers resp !! "retry-after" = hr_headers x !! "retry-after")
    | Raise _ => resp = error_response NO_REQUEST_ID 500 "INTERNAL_ERROR" ∅
    end.
Proof.
  intros Hp Hr. apply (request_id_run (λ rid, request_guards s rid (exception_handlers s rid router))) in Hr.
  unfold http_app, handle_unexpected, catch, security_headers, cors. rewrite Hp. destruct r as [x|e].
  - eexists. split; [erewrite tbind_ok by (erewrite tbind_ok by exact Hr; reflexivity); reflexivity|].
    split; [done|]. split; [done|]. split; [apply stamp_stamped|]. intros Hc. cbn [hr_headers].
    rewrite stamp_other, lookup_union_r by exact Hc. by rewrite lookup_insert_ne.
  - eexists. split; [erewrite tbind_raise by (erewrite tbind_raise by exact Hr; reflexivity); reflexivity|done].
Qed.
End AppLemmas.

(** ** Properties *)

(** What the client reads of the outcome of a route. *)
Definition outcome `{Deployment} (rid : string) (c : ApiCall) (r : res ApiResponse) (resp : HttpResponse) : Prop :=
  match r with
  | Ok a => hr_status resp = success_status c ∧ hr_body resp = Answer a
  | Raise e =>
      if is_domain_error e then hr_status resp = status_code e ∧ hr_body resp = Envelope (code e) rid
      else
        match e with
        | RequestValidationError => hr_status resp = 422 ∧ hr_body resp = ValidationReport
        | AdminRedirect => hr_status resp = 303 ∨ hr_status resp = 500
        | _ => resp = error_response NO_REQUEST_ID 500 "INTERNAL_ERROR" ∅
        end
  end.

(** What the handlers make of it. *)
Definition rendered `{Deployment} (rid : string) (c : ApiCall) (r : res ApiResponse) : res HttpResponse :=
  match r with
  | Ok a => Ok (mk_HttpResponse (success_status c) ∅ (Answer a))
  | Raise e => match render_error app rid e with Some x => Ok x | None => Raise e end
  end.

Lemma rendered_run `{Deployment} (rid : string) (c : ApiCall) (q : HttpRequest) (r : res ApiResponse) (w w' : world) :
  request (call_api (hq_authorization q) (hq_client q) c) w = (r, w') →
  exception_handlers app rid (endpoint c) q w = (rendered rid c r, w').
Proof.
  intros Ec. unfold exception_handlers, catch, endpoint, mbind, T_bind. rewrite Ec. destruct r as [a|e]; [done|].
  cbn. by destruct (render_error app rid e).
Qed.

Lemma rendered_outcome `{Deployment} (headers : HttpRequest → gmap string string) (rid : string) (c : ApiCall)
    (r : res ApiResponse) (resp : HttpResponse) (q : HttpRequest) :
  match rendered rid c r with
  | Ok x => hr_status resp = hr_status x ∧ hr_body resp = hr_body x ∧ stamped q resp ∧
      (headers q !! "retry-after" = None → hr_headers resp !! "retry-after" = hr_headers x !! "retry-after")
  | Raise _ => resp = error_response NO_REQUEST_ID 500 "INTERNAL_ERROR" ∅
  end →
  (stamped q resp ∨ resp = error_response NO_REQUEST_ID 500 "INTERNAL_ERROR" ∅) ∧ outcome rid c r resp.
Proof.
  destruct r as [a|e]; [cbn; naive_solver|]. unfold outcome, rendered, render_error.
  destruct e; cbn [is_domain_error]; try naive_solver.
  destruct (ADMIN_DASHBOARD_ENABLED app); [naive_solver|]. intros ->. split; [by right|by right].
Qed.

(** [C28] Every request is answered, and nothing internal leaks: a request that is too large or undeclared, or over the throttle, is
    answered 413, 411 or 429 (with the seconds to wait) before any route runs and with the database untouched; otherwise the throttle let it pass, its route runs in its
    transaction and the answer is the route's own, or the status and code of the domain error it raised under
    the id of the request, or the report of a rejected body, or, for every other exception alike, the same anonymous 500.
    All answers but that last one carry the security headers. *)
Theorem http_answers `{Deployment} (preflight : HttpRequest → option HttpResponse) (cors_headers : HttpRequest → gmap string string)
    (c : ApiCall) (q : HttpRequest) (w : world) :
  preflight q = None →
  ∃ resp w', http_app app preflight cors_headers (endpoint c) q w = (Ok resp, w') ∧
    (stamped q resp ∨ resp = error_response NO_REQUEST_ID 500 "INTERNAL_ERROR" ∅) ∧
    ((∃ error_code, guard_body_size app q = Some (hr_status resp, error_code) ∧ hr_status resp ∈ [411; 413] ∧
        hr_body resp = Envelope error_code (request_id_of q w) ∧ w_db w' = w_db w ∧ w_redis w' = w_redis w ∧ w_out w' = w_out w) ∨
     (guard_body_size app q = None ∧ ∃ n, throttle app q (identified q w) w' (Some n) ∧ hr_status resp = 429 ∧
        hr_body resp = Envelope "RATE_LIMITED" (request_id_of q w) ∧
        (cors_headers q !! "retry-after" = None → hr_headers resp !! "retry-after" = Some (pretty n)) ∧ w_db w' = w_db w) ∨
     (guard_body_size app q = None ∧ ∃ w1 r, throttle app q (identified q w) w1 None ∧ w_db w1 = w_db w ∧
        request (call_api (hq_authorization q) (hq_client q) c) w1 = (r, w') ∧ outcome (request_id_of q w) c r resp)).
Proof.
  intros Hp. set (rid := request_id_of q w).
  assert (w_db (identified q w) = w_db w ∧ w_redis (identified q w) = w_redis w ∧ w_out (identified q w) = w_out w) as (D & R & O)
    by (unfold identified; by destruct (empty_str _)).
  destruct (request_guards_cases app rid (exception_handlers app rid (endpoint c)) q (identified q w))
    as [(st & co & Eg & Hs & Er)|(Eg & w1 & [n|] & Ed & Ht & Er)].
  - destruct (http_app_run app preflight cors_headers _ _ _ _ _ Hp Er) as (resp & E & Est & Eb & Hst & _).
    exists resp, (identified q w). split; [done|]. split; [by left|]. left. cbn in Est, Eb. exists co. rewrite Est. naive_solver.
  - destruct (http_app_run app preflight cors_headers _ _ _ _ _ Hp Er) as (resp & E & Est & Eb & Hst & Ha). exists resp, w1.
    split; [done|]. split; [by left|]. right. left. split; [done|]. exists n. rewrite Ed, D. done.
  - destruct (request (call_api (hq_authorization q) (hq_client q) c) w1) as [r w'] eqn:Ec.
    rewrite (rendered_run rid c q r w1 w' Ec) in Er.
    destruct (http_app_run app preflight cors_headers _ _ _ _ _ Hp Er) as (resp & E & Hresp). exists resp, w'. split; [done|].
    destruct (rendered_outcome cors_headers rid c r resp q Hresp) as [H1 H2]. split; [done|]. right. right. split; [done|].
    exists w1, r. by rewrite Ed, D.
Qed.

(** A signed-in customer reads its profile. *)
Definition get_me : HttpRequest :=
  mk_HttpRequest "GET" "/api/users/me" "Bearer jwt-70" (Some "0"%string) EmptyString (Some "req-1"%string) (Some "10.0.0.1"%string).

Lemma http_answers_witness :
  ∃ resp w', @http_app wire_lib app0 (λ _, None) (λ _, ∅) (@endpoint wire_deployment GetMe) get_me world_wire = (Ok resp, w') ∧
    hr_status resp = 200.
Proof.
  destruct (@http_answers wire_deployment (λ _, None) (λ _, ∅) GetMe get_me world_wire eq_refl) as (resp & w' & E & _).
  exists resp, w'. split; [exact E|]. vm_compute in E. injection E as <- _. reflexivity.
Defined.

(** ** Where the answers differ from what the comments of the code say *)

(** The status and body of the answer to a call over the wire, and whether it carries the security headers. *)
Definition wire (bearer : string) (c : ApiCall) : option (Z * HttpBody * bool) :=
  let q := mk_HttpRequest "POST" "/api" bearer (Some "64"%string) EmptyString (Some "req-1"%string) None in
  match (@http_app wire_lib app0 (λ _, None) (λ _, ∅) (@endpoint wire_deployment c) q world_wire).1 with
  | Ok r => Some (hr_status r, hr_body r, bool_decide (hr_headers r !! "x-frame-options" = Some "DENY"%string))
  | Raise _ => None
  end.

(** A malformed cursor, status filter, order id or amount is a mistake of the client, but it raises a [ValueError], a
    [MoneyError] or an [InvalidOperation] that nothing maps: the client reads a 500 that carries neither the
    id of its request nor the security headers.  The same mistake in a field that has a validator is a 422. *)
Theorem client_mistakes_answered_500 :
  Forall (λ p, wire p.1 p.2 = Some (500, Envelope "INTERNAL_ERROR" "-", false))
    [("Bearer jwt-70", GetOrders None (Some "not-a-uuid") 20); ("Bearer jwt-70", GetOrders (Some "new") None 20);
     ("Bearer jwt-70", PostValidatePromo (mk_PromoValidateRequest "EID" "x"));
     ("Bearer jwt-70", PostTopup (mk_TopupRequest "1e27"));
     ("Bearer jwt-71", PostWithdrawal "key" (mk_WithdrawalRequest "ten" "sa03 8000 0000 6080 1016 7519"))]%string ∧
  wire "Bearer jwt-70" (PostTopup (mk_TopupRequest "ten")) = Some (422, ValidationReport, true).
Proof. split; [repeat (apply Forall_cons; split; [vm_compute; reflexivity|]); apply Forall_nil; done|vm_compute; reflexivity]. Qed.
