(* ===== verification/Admin.v ===== *)
(** * Dashboard operations ([app/services/admin_service.py], [OrderRepository.delete])

    What an administrator can do; each operation records itself in the audit log.  The
    routes that reach them are in Dashboard.v. *)

From Stdlib Require Import ZArith Lia Ascii.
From stdpp Require Import base list gmap strings numbers option pretty sorting.
From S2P Require Import Prelude Errors PyDecimal Money Pricing Enums OrderState Tables Database Constraints Redis RateLimit.
From S2P Require Import Ledger Users Promos Crypto Media Orders Invoices Config Fields Tokens Otp Auth AdminAuth Withdrawals AdminReads.
Open Scope Z_scope.

(** ** [OrderRepository.delete]

    [DELETE FROM orders WHERE id = ...] with the foreign keys of the schema: conversations (with
    their messages), invoices (with their items and redemptions), media and ratings cascade; a ledger row,
    a dispute, an intent or a redemption that would be left dangling refuses the statement. *)

Definition mentions {A} `{EqDecision A} (x : A) (y : option A) : bool := same y (Some x).

Definition any_row {row} `{Table row} (f : row → bool) : M bool := λ d,
  Ok (existsb (λ p, f p.2) (map_to_list (rows d)), d).

Definition delete_order_row (order_id : uuid) : M () :=
  invs ← select_rows (λ _ i, same (inv_order_id i) order_id);
  convs ← select_rows (λ _ c, same (cv_order_id c) order_id);
  let inv_ids := (fst : uuid * Invoice → uuid) <$> invs in
  let conv_ids := (fst : uuid * Conversation → uuid) <$> convs in
  let dangling (r : option uuid) := match r with Some i => bool_decide (i ∈ inv_ids) | None => false end in
  b1 ← any_row (λ x, same (dis_order_id x) order_id);
  b2 ← any_row (λ x, mentions order_id (txn_reference_order_id x) || dangling (txn_reference_invoice_id x));
  b3 ← any_row (λ x, dangling (pin_reference_invoice_id x));
  b4 ← any_row (λ x, same (rd_order_id x) order_id && negb (bool_decide (rd_invoice_id x ∈ inv_ids)));
  guard_ (b1 || b2 || b3 || b4) IntegrityError;;
  delete_where (λ x, bool_decide (msg_conversation_id x ∈ conv_ids));;
  delete_where (λ x, same (cv_order_id x) order_id);;
  delete_where (λ x, bool_decide (it_invoice_id x ∈ inv_ids));;
  delete_where (λ x, bool_decide (rd_invoice_id x ∈ inv_ids));;
  delete_where (λ x, same (inv_order_id x) order_id);;
  delete_where (λ x, same (om_order_id x) order_id);;
  delete_where (λ x, same (ra_order_id x) order_id);;
  delete_row (row := Order) order_id.

(** ** [AdminService] *)

Record Overview := mk_Overview {
  order_counts : list (order_status * Z);
  open_disputes : Z;
  pending_withdrawals : Z;
  system_balances : list (wallet_type * Z);
}.

Definition record_ (admin_id : uuid) (action entity_type : string) (entity_id : uuid) (ip : option string)
    (metadata : option (list (string * string))) : T () :=
  on_db (record (Some admin_id) action entity_type (Some entity_id) ip metadata);; mret ().

Definition overview : M Overview :=
  counts ← order_counts_by_status;
  disputes ← open_dispute_count;
  withdrawals ← pending_withdrawal_count;
  balances ← system_wallet_balances;
  mret (mk_Overview counts disputes withdrawals balances).

Definition verify_courier (admin_id courier_user_id : uuid) (approve : bool) (note ip : option string) : T CourierProfile :=
  p ← on_db (get_courier courier_user_id);
  profile ← required p NotFoundError;
  now ← clock;
  profile' ← on_db (set_verified courier_user_id profile approve admin_id now);
  u ← on_db (get_user courier_user_id);
  match u with
  | Some user =>
      if approve && same (usr_status user) UserStatus.PENDING_VERIFICATION
      then on_db (set_user_status courier_user_id user UserStatus.ACTIVE) else mret ()
  | None => mret ()
  end;;
  record_ admin_id (if approve then "COURIER_VERIFY" else "COURIER_REJECT") "courier_profiles" courier_user_id ip
    (match note with Some (String _ _ as n) => Some [("note"%string, n)] | _ => None end);;
  mret profile'.

Section Service.
Context `{SecurityLib} `{AesGcm} (settings : AppSettings).

(** [cipher.decrypt(blob, ...) if blob else None]. *)
Definition reveal_field (cipher : FieldCipher) (column : string) (user_id : uuid) (blob : option string) : T (option string) :=
  match blob with
  | Some (String _ _ as b) => x ← pure (unseal cipher b "courier_profiles" column (uuid_str user_id)); mret (Some x)
  | _ => mret None
  end.

Definition reveal_identity (admin_id courier_user_id : uuid) (ip : option string) : T (option string * option string) :=
  p ← on_db (get_courier courier_user_id);
  profile ← required p NotFoundError;
  cipher ← pure (settings_cipher settings);
  national ← reveal_field cipher "national_id" courier_user_id (cp_national_id_encrypted profile);
  passport ← reveal_field cipher "passport_id" courier_user_id (cp_passport_id_encrypted profile);
  record_ admin_id "IDENTITY_REVEAL" "courier_profiles" courier_user_id ip None;;
  mret (national, passport).

Definition reveal_iban (admin_id withdrawal_id : uuid) (withdrawal : Withdrawal) (ip : option string) : T string :=
  cipher ← pure (settings_cipher settings);
  iban ← pure (unseal cipher (wd_iban_encrypted withdrawal) "withdrawals" "iban" (uuid_str withdrawal_id));
  record_ admin_id "IBAN_REVEAL" "withdrawals" withdrawal_id ip None;;
  mret iban.

(** How long the flag in Redis blocks the access tokens of an account. *)
Definition ban_ttl : Z := JWT_ACCESS_TTL_MINUTES settings * 60 + 60.

Definition set_user_banned (admin_id user_id : uuid) (banned : bool) (ip : option string) : T () :=
  u ← on_db (get_user user_id);
  user ← required u NotFoundError;
  on_db (set_user_status user_id user (if banned then UserStatus.BANNED else UserStatus.ACTIVE));;
  (if banned then
     now ← clock;
     on_db (revoke_all_for_user user_id now);;
     redis_set (banned_key (uuid_str user_id)) "1" ban_ttl
   else redis_delete (banned_key (uuid_str user_id)));;
  record_ admin_id (if banned then "USER_BAN" else "USER_UNBAN") "users" user_id ip None.

(** [if x: owner = get(x); if owner is not None and owner.id != user_id: raise ConflictError]. *)
Definition taken_by_other (find : string → M (option (uuid * User))) (x : option string) (user_id : uuid) : T () :=
  match x with
  | Some (String _ _ as v) =>
      owner ← on_db (find v);
      assert_ (match owner with Some (id, _) => negb (same id user_id) | None => false end) ConflictError
  | _ => mret ()
  end.

Definition update_user_profile (admin_id user_id : uuid) (full_name email : option string) (ip phone : option string) : T () :=
  u ← on_db (get_user user_id);
  user ← required u NotFoundError;
  taken_by_other get_by_phone phone user_id;;
  taken_by_other get_by_email email user_id;;
  on_db (update_user_profile_row user_id user phone full_name email);;
  record_ admin_id "USER_PROFILE_UPDATE" "users" user_id ip None.

Definition create_user (admin_id : uuid) (phone : string) (full_name email : option string) (role : user_role)
    (ip : option string) : T uuid :=
  assert_ (same role UserRole.ADMIN) ValidationDomainError;;
  assert_ (bool_decide (phone = EmptyString)) ValidationDomainError;;
  p ← on_db (get_by_phone phone);
  assert_ (not_null p) ConflictError;;
  (match email with
   | Some (String _ _ as e) => owner ← on_db (get_by_email e); assert_ (not_null owner) ConflictError
   | _ => mret ()
   end);;
  user_id ← on_db (create_admin_user phone full_name email role);
  record_ admin_id "USER_CREATE" "users" user_id ip None;;
  mret user_id.

Definition delete_user (admin_id user_id : uuid) (ip : option string) : T () :=
  u ← on_db (get_user user_id);
  user ← required u NotFoundError;
  assert_ (same (usr_role user) UserRole.ADMIN) ValidationDomainError;;
  on_db (soft_delete user_id user);;
  now ← clock;
  on_db (revoke_all_for_user user_id now);;
  redis_set (banned_key (uuid_str user_id)) "1" ban_ttl;;
  record_ admin_id "USER_DELETE" "users" user_id ip None.

Definition update_courier_profile (admin_id courier_user_id : uuid) (city_of_residence : string) (bio ip : option string) : T () :=
  p ← on_db (get_courier courier_user_id);
  profile ← required p NotFoundError;
  assert_ (bool_decide (city_of_residence = EmptyString)) ValidationDomainError;;
  on_db (update_courier_row courier_user_id profile city_of_residence bio);;
  record_ admin_id "COURIER_PROFILE_UPDATE" "courier_profiles" courier_user_id ip None.

Definition create_courier_profile (admin_id user_id : uuid) (city_of_residence : string) (bio : option string)
    (identity_document identity_type : string) (ip : option string) : T CourierProfile :=
  u ← on_db (get_user user_id);
  assert_ (match u with Some user => negb (same (usr_role user) UserRole.COURIER) | None => true end) ValidationDomainError;;
  p ← on_db (get_courier user_id);
  assert_ (not_null p) ConflictError;;
  assert_ (bool_decide (city_of_residence = EmptyString)) ValidationDomainError;;
  assert_ (bool_decide (identity_document = EmptyString)) ValidationDomainError;;
  assert_ (negb (bool_decide (identity_type ∈ ["national_id"; "passport_id"]%string))) ValidationDomainError;;
  let fingerprint := hmac_hex identity_document (get_secret_value (IDENTITY_FINGERPRINT_PEPPER settings)) in
  dup ← on_db (fingerprint_exists fingerprint);
  assert_ dup ConflictError;;
  cipher ← pure (settings_cipher settings);
  let is_national := bool_decide (identity_type = "national_id"%string) in
  encrypted ← seal cipher identity_document "courier_profiles" (if is_national then "national_id" else "passport_id")
    (uuid_str user_id);
  profile ← on_db (create_courier_row user_id city_of_residence bio
    (if is_national then Some encrypted else None) (if is_national then None else Some encrypted) fingerprint);
  record_ admin_id "COURIER_PROFILE_CREATE" "courier_profiles" user_id ip None;;
  mret profile.

Definition delete_courier_profile (admin_id user_id : uuid) (ip : option string) : T () :=
  p ← on_db (get_courier user_id);
  required p NotFoundError;;
  on_db (delete_courier user_id);;
  record_ admin_id "COURIER_PROFILE_DELETE" "courier_profiles" user_id ip None.

(** [today <= delivery_date <= today + timedelta(days=180)]. *)
Definition in_delivery_window (today delivery_date : day) : bool :=
  (today <=? delivery_date) && (delivery_date <=? today + 180).

Definition date_today : T day := λ w, (Ok (current_date (w_db w)), w).

(** Coordinates in millionths of a degree. *)
Definition admin_create_order (admin_id customer_id : uuid) (description : option string) (delivery_city : string)
    (delivery_date : day) (longitude latitude : Z) (delivery_address_note ip : option string) : T uuid :=
  u ← on_db (get_user customer_id);
  assert_ match u with
          | Some c => negb (same (usr_role c) UserRole.CUSTOMER) || negb (same (usr_status c) UserStatus.ACTIVE) ||
                      not_null (usr_deleted_at c)
          | None => true
          end ValidationDomainError;;
  assert_ (bool_decide (delivery_city = EmptyString)) ValidationDomainError;;
  today ← date_today;
  assert_ (negb (in_delivery_window today delivery_date)) ValidationDomainError;;
  assert_ (negb ((-90000000 <=? latitude) && (latitude <=? 90000000)) ||
           negb ((-180000000 <=? longitude) && (longitude <=? 180000000))) ValidationDomainError;;
  order_id ← on_db (create_order_row customer_id description delivery_city longitude latitude delivery_date delivery_address_note);
  record_ admin_id "ORDER_CREATE" "orders" order_id ip None;;
  mret order_id.

Definition delete_order (admin_id order_id : uuid) (ip : option string) : T () :=
  o ← on_db (lock_order_row order_id);
  order ← required o NotFoundError;
  assert_ (negb (same (ord_status order) OrderStatus.NEW)) ConflictError;;
  on_db (delete_order_row order_id);;
  record_ admin_id "ORDER_DELETE" "orders" order_id ip None.

Definition update_order_details (admin_id order_id : uuid) (description : option string) (delivery_city : string)
    (delivery_date : day) (delivery_address_note ip : option string) : T () :=
  o ← on_db (lock_order_row order_id);
  order ← required o NotFoundError;
  assert_ (negb (bool_decide (ord_status order ∈ [OrderStatus.NEW; OrderStatus.ASSIGNED]))) ConflictError;;
  assert_ (bool_decide (delivery_city = EmptyString)) ValidationDomainError;;
  today ← date_today;
  assert_ (negb (in_delivery_window today delivery_date)) ValidationDomainError;;
  on_db (update_admin_details order_id order description delivery_city delivery_date delivery_address_note);;
  record_ admin_id "ORDER_DETAILS_UPDATE" "orders" order_id ip None.
End Service.

(** ** Lemmas *)

(** [m] appends one audit row, by this administrator and with this action. *)
Definition audits (admin : uuid) (action : string) {A} (m : T A) : Prop :=
  ∀ w a w', m w = (Ok a, w') →
  ∃ id row, tb_audit_logs (w_db w) !! id = None ∧ tb_audit_logs (w_db w') = <[id := row]> (tb_audit_logs (w_db w)) ∧
    al_actor_user_id row = Some admin ∧ al_action row = action.

(** [m] leaves the audit log alone. *)
Definition silent {A} (m : T A) : Prop := ∀ x, preserves (reads tb_audit_logs x) m.

Lemma silent_ok {A} (m : T A) (w w' : world) (a : A) :
  silent m → m w = (Ok a, w') → tb_audit_logs (w_db w') = tb_audit_logs (w_db w).
Proof. intros Hm E. destruct (Hm _ w eq_refl) as [H _]. by rewrite E in H. Qed.

Lemma audits_after {A B} admin action (m : T A) (k : A → T B) :
  silent m → (∀ a, audits admin action (k a)) → audits admin action (m ≫= k).
Proof.
  intros Hm Hk w b w' (a & w1 & E1 & E2)%tbind_inv. rewrite <- (silent_ok m w w1 a Hm E1). by apply (Hk a w1 b).
Qed.

Lemma audits_before {A B} admin action (m : T A) (k : A → T B) :
  audits admin action m → (∀ a, silent (k a)) → audits admin action (m ≫= k).
Proof.
  intros Hm Hk w b w' (a & w1 & E1 & E2)%tbind_inv. rewrite (silent_ok (k a) w1 w' b (Hk a) E2). by apply (Hm w a w1).
Qed.

Lemma audits_record admin action ty id ip md : audits admin action (record_ admin action ty id ip md).
Proof.
  intros w u w' (i & w1 & (d & Hr & ->)%on_db_ok & E)%tbind_inv. injection E as _ <-. unfold record in Hr. inv_run Hr. inv_writes.
  eexists _, _. split; [exact Hnew|]. split; [reflexivity|done].
Qed.

Lemma preserves_today P : preserves P date_today.
Proof. by apply preserves_pure. Qed.

Lemma frame_revoke_all (P : db → Prop) `{!FrameNext P} `{!Frame P RefreshToken} u t : keeps P (revoke_all_for_user u t).
Proof. unfold revoke_all_for_user. keeps_auto. Qed.

Lemma keeps_any_row {row} `{Table row} (P : db → Prop) (f : row → bool) : keeps P (any_row f).
Proof. intros d a d' Hd [= _ <-]. exact Hd. Qed.

#[export] Hint Resolve preserves_today frame_revoke_all keeps_any_row : giftly.

Section DeleteFrame.
Context (P : db → Prop) `{!Frame P Order} `{!Frame P OrderMedia} `{!Frame P Conversation} `{!Frame P Message}.
Context `{!Frame P Invoice} `{!Frame P InvoiceItem} `{!Frame P PromoRedemption} `{!Frame P Rating}.

Lemma frame_delete_order_row i : keeps P (delete_order_row i).
Proof. unfold delete_order_row. keeps_auto. Qed.
End DeleteFrame.
#[export] Hint Resolve frame_delete_order_row : giftly.

Ltac silent := intros ?; preserves_auto.

Ltac audits_step :=
  match goal with
  | |- audits _ _ (record_ _ _ _ _ _ _) => apply audits_record
  | |- audits _ _ (record_ _ _ _ _ _ _ ≫= _) => apply audits_before; [apply audits_record|intros ?; silent]
  | |- audits _ _ (_ ≫= _) => apply audits_after; [silent|intros ?]
  | |- audits _ _ (let _ := _ in _) => cbv zeta
  end.

Ltac audits_auto := repeat audits_step.

Section Audited.
Context `{SecurityLib} `{AesGcm} (s : AppSettings) (admin : uuid).

Lemma audits_verify_courier i (b : bool) n ip :
  audits admin (if b then "COURIER_VERIFY" else "COURIER_REJECT") (verify_courier admin i b n ip).
Proof. unfold verify_courier. audits_auto. Qed.

Lemma audits_reveal_identity i ip : audits admin "IDENTITY_REVEAL" (reveal_identity s admin i ip).
Proof. unfold reveal_identity, reveal_field. audits_auto. Qed.

Lemma audits_reveal_iban i wd ip : audits admin "IBAN_REVEAL" (reveal_iban s admin i wd ip).
Proof. unfold reveal_iban. audits_auto. Qed.

Lemma audits_set_banned u (b : bool) ip : audits admin (if b then "USER_BAN" else "USER_UNBAN") (set_user_banned s admin u b ip).
Proof. unfold set_user_banned. audits_auto. Qed.

Lemma audits_update_user u n e ip p : audits admin "USER_PROFILE_UPDATE" (update_user_profile admin u n e ip p).
Proof. unfold update_user_profile, taken_by_other. audits_auto. Qed.

Lemma audits_create_user p n e r ip : audits admin "USER_CREATE" (create_user admin p n e r ip).
Proof. unfold create_user. audits_auto. Qed.

Lemma audits_delete_user u ip : audits admin "USER_DELETE" (delete_user s admin u ip).
Proof. unfold delete_user. audits_auto. Qed.

Lemma audits_update_courier u c b ip : audits admin "COURIER_PROFILE_UPDATE" (update_courier_profile admin u c b ip).
Proof. unfold update_courier_profile. audits_auto. Qed.

Lemma audits_create_courier u c b d t ip : audits admin "COURIER_PROFILE_CREATE" (create_courier_profile s admin u c b d t ip).
Proof. unfold create_courier_profile. audits_auto. Qed.

Lemma audits_delete_courier u ip : audits admin "COURIER_PROFILE_DELETE" (delete_courier_profile admin u ip).
Proof. unfold delete_courier_profile. audits_auto. Qed.

Lemma audits_create_order c d city dt x y n ip : audits admin "ORDER_CREATE" (admin_create_order admin c d city dt x y n ip).
Proof. unfold admin_create_order, create_order_row. audits_auto. Qed.

Lemma audits_delete_order o ip : audits admin "ORDER_DELETE" (delete_order admin o ip).
Proof. unfold delete_order, lock_order_row. audits_auto. Qed.

Lemma audits_update_order o d city dt n ip : audits admin "ORDER_DETAILS_UPDATE" (update_order_details admin o d city dt n ip).
Proof. unfold update_order_details, lock_order_row, update_admin_details. audits_auto. Qed.
End Audited.

(** ** Properties *)

Section Ban.
Context `{SecurityLib} (s : AppSettings).

(** What a ban leaves behind. *)
Lemma ban_effect (admin u : uuid) (ip : option string) (w w1 : world) : table_ok RefreshToken (w_db w) →
  request (set_user_banned s admin u true ip) w = (Ok (), w1) →
  w_up w1 = true ∧
  w_redis w1 !! banned_key (uuid_str u) = Some (mk_entry (RText "1") (Some (w_now w + ban_ttl s))) ∧
  (∃ user, tb_users (w_db w1) !! u = Some user ∧ usr_status user = UserStatus.BANNED) ∧
  (∀ i user, tb_users (w_db w1) !! i = Some user → i ≠ u → tb_users (w_db w) !! i = Some user) ∧
  table_ok RefreshToken (w_db w1) ∧
  ∀ i t, tb_refresh_tokens (w_db w1) !! i = Some t → rt_user_id t = u → not_null (rt_revoked_at t) = true.
Proof.
  intros Hd Hr. unfold request in Hr. set (w0 := w <| w_saved := w_db w |>) in Hr.
  destruct (set_user_banned s admin u true ip w0) as [[[]|e] w2] eqn:E; [|done]. injection Hr as <-.
  unfold set_user_banned in E. apply tbind_inv in E as (o & w3 & (d3 & Hg & ->)%on_db_ok & E). injection Hg as Ho <-.
  apply tbind_inv in E as (user & w3 & [-> ->]%required_ok & E).
  apply tbind_inv in E as (? & w3 & (d3 & Hs & ->)%on_db_ok & E). unfold set_user_status in Hs. inv_writes.
  apply tbind_inv in E as (? & w4 & Hb & E). erewrite tbind_ok in Hb by reflexivity.
  apply tbind_inv in Hb as ([] & w5 & (d5 & Hv & ->)%on_db_ok & Hb).
  set (d3 := (w_db w0) <| tb_users := <[u := user <| usr_status := UserStatus.BANNED |>]> (tb_users (w_db w0)) |>) in *.
  assert (table_ok RefreshToken d3) as Hd3 by (destruct Hd as [Hc Hu]; constructor; [exact Hc|exact Hu]).
  pose (g := λ t : RefreshToken, t <| rt_revoked_at := Some (w_now w0) |>).
  pose (f := λ t : RefreshToken, same (rt_user_id t) u && negb (not_null (rt_revoked_at t))).
  destruct (update_where_run g ltac:(done) ltac:(done) f d3 Hd3 ltac:(done)) as [Ev Hok].
  assert (d5 = set_rows ((λ t : RefreshToken, if f t then g t else t) <$> rows d3) d3) as ->.
  { change (revoke_all_for_user u (w_now w0) d3 = Ok ((), d5)) in Hv. unfold revoke_all_for_user in Hv.
    change (update_where f g d3 = Ok ((), d5)) in Hv. rewrite Ev in Hv. by injection Hv as <-. }
  unfold redis_set, command in Hb. match type of Hb with context [if w_up ?x then _ else _] => change (w_up x) with (w_up w0) in Hb end.
  destruct (w_up w0) eqn:Hup; [|done]. destruct (Z.leb_spec (ban_ttl s) 0); [done|]. injection Hb as <-.
  apply tbind_inv in E as (aid & w6 & (d6 & Hrec & ->)%on_db_ok & E). injection E as <-.
  unfold record in Hrec. inv_run Hrec. inv_writes. cbn. split; [exact Hup|]. split; [by rewrite lookup_insert_eq|].
  split; [eexists; by rewrite lookup_insert_eq|]. split; [intros i y Hy Hne; by rewrite lookup_insert_ne in Hy|].
  split; [destruct Hok as [Hc Hu]; constructor; [exact Hc|exact Hu]|].
  intros i t (t0 & <- & Ht0)%lookup_fmap_Some Hu. unfold f, g in *.
  destruct (same (rt_user_id t0) u) eqn:Es; cbn in *; [by destruct (not_null (rt_revoked_at t0)) eqn:En|].
  by rewrite (proj2 (same_true _ _) Hu) in Es.
Qed.
End Ban.

(** [C21] A ban takes effect at once on the HTTP API: once the request that bans a user has committed, and however much
    time then passes without another operation, no access token issued to that user up to then passes the authentication of
    an HTTP request ([require_auth]), none of their refresh tokens can be exchanged, and no one-time password signs them
    in.  The handshake of the chat socket does not read the ban flag; there the ban is met by the first frame the user sends
    ([socket_ban_checked_on_send_only] of the chat). *)
Theorem ban_is_immediate `{SecurityLib} `{!JwtLaws} `{SmsClient} (s : AppSettings) (admin u : uuid) (ip : option string)
    (w w1 : world) (t : instant) :
  key_pair_ok s → table_ok RefreshToken (w_db w) → table_ok User (w_db w) →
  request (set_user_banned s admin u true ip) w = (Ok (), w1) → w_now w ≤ t →
  let w2 := (advance t w1).2 in
  (∀ role wi wi' tok jti ttl header rest, create_access_token s u role wi = (Ok (tok, jti, ttl), wi') →
     w_now wi ≤ w_now w → after_prefix "Bearer " header = Some rest → strip rest = tok →
     (require_auth s header w2).1 = Raise UnauthorizedError) ∧
  (∀ raw i tk, tb_refresh_tokens (w_db w2) !! i = Some tk → rt_token_hash tk = sha256_hex raw → rt_user_id tk = u →
     (request (refresh s raw) w2).1 = Raise UnauthorizedError) ∧
  (∀ user code r, tb_users (w_db w2) !! u = Some user → (auth_verify_otp s (usr_phone user) code w2).1 ≠ Ok r).
Proof.
  intros Hk Hd Hdu Hr Ht w2. destruct (ban_effect s admin u ip w w1 Hd Hr) as (Hup & Hflag & (user & Huser & Hban) & Hothers & Hd1 & Hrev).
  split; [|split].
  - intros role wi wi' tok jti ttl header rest Hc Hi Hh Hst.
    apply (require_auth_refused s header rest w2 Hh Hup). intros c Hdec. right. rewrite Hst in Hdec.
    apply create_access_token_run in Hc as (key & Hkey & -> & -> & ->). destruct Hk as (k & k' & Hsk & Hvk & Hpair).
    rewrite Hkey in Hsk. injection Hsk as ->. rewrite (access_token_decodes s u role _ k k' (w_now wi) _ Hvk Hpair) in Hdec.
    destruct (_ && _) eqn:Hb; [|done]. injection Hdec as <-. cbn [ac_sub]. apply andb_true_iff in Hb as [Hb _].
    apply (flag_lives _ w1 (w_now w + ban_ttl s)); [exact Hflag|]. change (w_now w2) with t in Hb. unfold ban_ttl. lia.
  - intros raw i tk Hi Hh Hu. destruct (request (refresh s raw) w2) as [r w3] eqn:E.
    assert (table_ok RefreshToken (w_db w2)) as Hd2 by (destruct Hd1 as [Hc Hun]; constructor; [exact Hc|exact Hun]).
    eapply (spent_presented (sha256_hex raw) (rt_family_id tk) (w_now w2) (w_db w2)); [exact Hd2| |exact (refresh_presented s raw w2 w3 r Hd2 E)].
    exists i, tk. unfold burnt. by rewrite (Hrev i tk Hi Hu).
  - intros x code r Hx Hv. change (tb_users (w_db w1) !! u = Some x) in Hx. rewrite Huser in Hx. injection Hx as <-.
    assert (table_ok User (w_db w1)) as Hu1.
    { pose proof (preserves_request (table_ok User) (set_user_banned s admin u true ip) w) as Hp. rewrite Hr in Hp. apply Hp; [|exact Hdu].
      unfold set_user_banned, record_, record. preserves_auto. }
    destruct (auth_verify_otp s (usr_phone user) code w2) as [a w3] eqn:E. cbn in Hv. subst a. unfold auth_verify_otp in E.
    apply tbind_inv in E as (ok & w4 & Hvo & E). apply tbind_inv in E as (? & w5 & [_ ->]%assert_ok & E).
    assert (w_db w4 = w_db w2) as E4.
    { assert (preserves (λ d, d = w_db w2) (verify_otp s (usr_phone user) code)) as Hp by (unfold verify_otp; preserves_auto).
      destruct (Hp w2 eq_refl) as [Hp1 _]. by rewrite Hvo in Hp1. }
    destruct (scalar_run (row := User) (λ _ x, same (usr_phone x) (usr_phone user)) (w_db w2)) as (o & Eo & Ho).
    apply tbind_inv in E as (o' & w6 & (d6 & Hg & ->)%on_db_ok & E). rewrite E4 in Hg. unfold get_by_phone in Hg.
    rewrite Eo in Hg. injection Hg as <- <-. destruct o as [[i y]|].
    + destruct Ho as [Hy Hph]. change (tb_users (w_db w1) !! i = Some y) in Hy. cbn in Hph. apply (proj1 (same_true _ _)) in Hph.
      assert (y = user) as ->.
      { destruct (decide (i = u)) as [->|Hne]; [by rewrite Huser in Hy; injection Hy as ->|].
        pose proof (tk_unique _ _ Hu1 i u y user Hy Huser Hne) as Hc. cbn in Hc. unfold conflicts_users in Hc.
        by rewrite (proj2 (same_true _ _) Hph) in Hc. }
      rewrite Hban in E. done.
    + specialize (Ho u user Huser). cbn in Ho. by rewrite (proj2 (same_true _ _) eq_refl) in Ho.
Qed.

(** A customer, and the operator at the dashboard. *)
Definition world_customer : world := (request (on_db (create_customer "+966500000071" None None None)) world_empty).2.

Lemma ban_is_immediate_witness :
  ∃ w1, request (set_user_banned app0 99 0 true None) world_customer = (Ok (), w1) ∧
    ∀ user code r, tb_users (w_db (advance 50 w1).2) !! 0%N = Some user →
      (@auth_verify_otp toy_lib app0 (usr_phone user) code (advance 50 w1).2).1 ≠ Ok r.
Proof.
  set (m := request (set_user_banned app0 99 0 true None) world_customer).
  assert (m = (Ok (), m.2)) as E by (vm_compute; reflexivity). exists m.2. split; [exact E|].
  assert (∀ P, (∀ u, keeps P (create_customer u None None None)) → P empty_db → P (w_db world_customer)) as HP.
  { intros P HP H0. apply (preserves_request P (on_db (create_customer "+966500000071" None None None)) world_empty); [|exact H0].
    apply preserves_on_db, HP. }
  refine (proj2 (proj2 (@ban_is_immediate toy_lib toy_laws sms0 app0 99 0 None world_customer m.2 50 _ _ _ E _))).
  - by apply hmac_keys_ok.
  - apply (HP (table_ok RefreshToken)); [|by apply table_ok_empty]. intros u. unfold create_customer. keeps_auto.
  - apply (HP (table_ok User)); [|by apply table_ok_empty]. intros u. unfold create_customer. keeps_auto.
  - vm_compute. discriminate.
Defined.
