(* ===== verification/Dashboard.v ===== *)
(** * Dashboard routes ([app/admin/router.py])

    Every route of the server-rendered dashboard, as one request: sign-in and sign-out, the pages, and the forms (session,
    CSRF token, for the sensitive ones a step-up grant, then the operation of Admin.v).  Form
    fields are those that passed FastAPI's length checks; the templates are not modelled: a page
    is the data given to its template. *)

From Stdlib Require Import ZArith Lia Ascii.
From stdpp Require Import base list gmap strings numbers option pretty sorting.
From S2P Require Import Prelude Errors PyDecimal Money Pricing Enums OrderState Tables Database Constraints Redis RateLimit.
From S2P Require Import Ledger Users Promos Crypto Media Orders Invoices Config Fields Tokens Otp Auth AdminAuth Withdrawals AdminReads Admin.
Open Scope Z_scope.

(** [x.strip() or None]. *)
Definition strip_or_none (x : string) : option string := match strip x with EmptyString => None | v => Some v end.

(** [x.strip().lower() or None], on ASCII. *)
Definition strip_lower_or_none (x : string) : option string :=
  match casefold (strip x) with EmptyString => None | v => Some v end.

(** [x or None]. *)
Definition or_none (x : string) : option string := match x with EmptyString => None | v => Some v end.

(** ** Responses *)

Inductive AdminResponse :=
  | RedirectTo (location : string)
  | SessionCookie (location token : string) (secure : bool) (max_age : Z)  (* httponly, samesite=strict, path=/admin *)
  | CookieCleared (location : string)
  | LoginPage (status : Z) (username : string)
  | StepUpPage (next_url : string)
  | OverviewPage (data : Overview)
  | CatalogPage (tables : list AdminTableInfo)
  | BrowserPage (data : option AdminTablePage)
  | BlankForm
  | CouriersPage (pending : list (uuid * CourierProfile))
  | CourierPage (profile : option CourierProfile) (user : option User) (revealed : option (option string * option string))
  | OrdersPage (orders : list (uuid * Order))
  | OrderPage (order : option Order) (can_edit : bool)
  | InvoicesPage (invoices : list (uuid * Invoice))
  | InvoicePage (invoice : option Invoice)
  | PromosPage (promos : list (uuid * Promo))
  | PromoPage (promo : option Promo)
  | RedemptionsPage (redemptions : list (uuid * PromoRedemption))
  | DisputesPage (disputes : list (uuid * Dispute))
  | DisputePage (dispute : option Dispute)
  | WithdrawalsPage (withdrawals : list (uuid * Withdrawal))
  | WalletsPage (wallets : list (uuid * Wallet))
  | WalletPage (wallet : option Wallet)
  | TopupsPage (topups : list (uuid * PaymentIntent))
  | UserPage (user : option User)
  | AuditPage (logs : list (uuid * AuditLog)).

(** The pages behind a session. *)
Inductive AdminPage :=
  | StepUpRequest (next_url : string)
  | Overview_ | TableCatalog | TableBrowser (table_name : string) (page : nat)
  | CourierNew | Couriers | CourierDetail (courier_id : uuid)
  | OrderNew | Orders_ | OrderDetail (order_id : uuid)
  | Invoices_ | InvoiceDetail (invoice_id : uuid)
  | Promos_ | PromoDetail (promo_id : uuid) | PromoRedemptions (promo_id : uuid)
  | Disputes | DisputeDetail (dispute_id : uuid)
  | Withdrawals_ | Wallets | WalletDetail (wallet_id : uuid) | Topups
  | UserNew | UserDetail (user_id : uuid)
  | AuditLogs.

(** The POST routes that carry a CSRF token, with the fields of their forms.  The other three are [login] and
    [dashboard_logout], and [step_up_request], a POST that only shows a page ([StepUpRequest]). *)
Inductive AdminForm :=
  | StepUpForm (password next_url : string)
  | CourierCreate (user_id : uuid) (city_of_residence identity_type identity_document bio : string)
  | CourierVerify (courier_id : uuid) (decision note : string)
  | CourierReveal (courier_id : uuid)
  | CourierEdit (courier_id : uuid) (city_of_residence bio : string)
  | CourierDelete (courier_id : uuid)
  | OrderCreate (customer_id : uuid) (delivery_city : string) (delivery_date : day) (longitude latitude : Z)
      (description delivery_address_note : string)
  | OrderEdit (order_id : uuid) (delivery_city : string) (delivery_date : day) (description delivery_address_note : string)
  | OrderDelete (order_id : uuid)
  | UserCreate (phone : string) (role : user_role) (full_name email : string)
  | UserBan (user_id : uuid)
  | UserUnban (user_id : uuid)
  | UserEdit (user_id : uuid) (phone full_name email : string)
  | UserDelete (user_id : uuid).

(** The routes that call [require_step_up]. *)
Definition needs_step_up (f : AdminForm) : bool :=
  match f with
  | CourierVerify _ _ _ | CourierReveal _ | OrderEdit _ _ _ _ _ | UserBan _ | UserUnban _ => true
  | _ => false
  end.

Section Routes.
Context `{SecurityLib} `{AesGcm} (settings : AppSettings).
Context (uuid5 : string → uuid).
(** The rows of a table, for the browser. *)
Context (table_rows : string → db → list raw_row).

(** ** Sign-in *)

(** [except (UnauthorizedError, RateLimitedError)]. *)
Definition login (username password user_agent : string) (ip : option string) : T AdminResponse :=
  catch
    (result ← complete_login settings uuid5 username password ip (or_none (String.substring 0 255 user_agent));
     mret (SessionCookie "/admin" (raw_session_token result) (is_production settings) (ADMIN_SESSION_TTL_MINUTES settings * 60)))
    (λ e, match e with
          | UnauthorizedError | RateLimitedError _ => mret (LoginPage (status_code e) username)
          | _ => throw e
          end).

Definition dashboard_logout (cookie : option string) : T AdminResponse :=
  (match cookie with Some (String _ _ as raw) => admin_logout raw | _ => mret () end);;
  mret (CookieCleared "/admin/login").

(** ** Forms *)

Section Form.
Context (cookie : option string) (csrf_token : string) (ip : option string).

Definition step_up_verify (password next_url : string) : T AdminResponse :=
  ctx ← require_admin settings cookie;
  pure (verify_csrf settings ctx csrf_token);;
  grant_step_up settings password (ads_session_token_hash (ctx_session ctx)) ip;;
  mret (RedirectTo (match after_prefix "/admin" next_url with Some _ => next_url | None => "/admin" end)).

Definition courier_create (user_id : uuid) (city_of_residence identity_type identity_document bio : string) : T AdminResponse :=
  ctx ← require_admin settings cookie;
  pure (verify_csrf settings ctx csrf_token);;
  create_courier_profile settings (ctx_admin_id ctx) user_id (strip city_of_residence) (strip_or_none bio) (strip identity_document)
    identity_type ip;;
  mret (RedirectTo ("/admin/couriers/" +:+ uuid_str user_id)).

Definition courier_verify (courier_id : uuid) (decision note : string) : T AdminResponse :=
  ctx ← require_admin settings cookie;
  pure (verify_csrf settings ctx csrf_token);;
  require_step_up ctx;;
  verify_courier (ctx_admin_id ctx) courier_id (bool_decide (decision = "approve"%string)) (or_none note) ip;;
  mret (RedirectTo ("/admin/couriers/" +:+ uuid_str courier_id)).

Definition courier_reveal (courier_id : uuid) : T AdminResponse :=
  ctx ← require_admin settings cookie;
  pure (verify_csrf settings ctx csrf_token);;
  require_step_up ctx;;
  revealed ← reveal_identity settings (ctx_admin_id ctx) courier_id ip;
  profile ← on_db (get_courier courier_id);
  user ← on_db (get_user courier_id);
  mret (CourierPage profile user (Some revealed)).

Definition courier_edit (courier_id : uuid) (city_of_residence bio : string) : T AdminResponse :=
  ctx ← require_admin settings cookie;
  pure (verify_csrf settings ctx csrf_token);;
  update_courier_profile (ctx_admin_id ctx) courier_id (strip city_of_residence) (strip_or_none bio) ip;;
  mret (RedirectTo ("/admin/couriers/" +:+ uuid_str courier_id)).

Definition courier_delete (courier_id : uuid) : T AdminResponse :=
  ctx ← require_admin settings cookie;
  pure (verify_csrf settings ctx csrf_token);;
  delete_courier_profile (ctx_admin_id ctx) courier_id ip;;
  mret (RedirectTo "/admin/tables/courier_profiles").

Definition order_create (customer_id : uuid) (delivery_city : string) (delivery_date : day) (longitude latitude : Z)
    (description delivery_address_note : string) : T AdminResponse :=
  ctx ← require_admin settings cookie;
  pure (verify_csrf settings ctx csrf_token);;
  order_id ← admin_create_order (ctx_admin_id ctx) customer_id (strip_or_none description) (strip delivery_city) delivery_date
               longitude latitude (strip_or_none delivery_address_note) ip;
  mret (RedirectTo ("/admin/orders/" +:+ uuid_str order_id)).

Definition order_edit (order_id : uuid) (delivery_city : string) (delivery_date : day) (description delivery_address_note : string)
    : T AdminResponse :=
  ctx ← require_admin settings cookie;
  pure (verify_csrf settings ctx csrf_token);;
  require_step_up ctx;;
  update_order_details (ctx_admin_id ctx) order_id (strip_or_none description) (strip delivery_city) delivery_date
    (strip_or_none delivery_address_note) ip;;
  mret (RedirectTo ("/admin/orders/" +:+ uuid_str order_id)).

Definition order_delete (order_id : uuid) : T AdminResponse :=
  ctx ← require_admin settings cookie;
  pure (verify_csrf settings ctx csrf_token);;
  delete_order (ctx_admin_id ctx) order_id ip;;
  mret (RedirectTo "/admin/tables/orders").

Definition user_create (phone : string) (role : user_role) (full_name email : string) : T AdminResponse :=
  ctx ← require_admin settings cookie;
  pure (verify_csrf settings ctx csrf_token);;
  user_id ← create_user (ctx_admin_id ctx) (strip phone) (strip_or_none full_name) (strip_lower_or_none email) role ip;
  mret (RedirectTo ("/admin/users/" +:+ uuid_str user_id)).

Definition user_ban (user_id : uuid) : T AdminResponse :=
  ctx ← require_admin settings cookie;
  pure (verify_csrf settings ctx csrf_token);;
  require_step_up ctx;;
  set_user_banned settings (ctx_admin_id ctx) user_id true ip;;
  mret (RedirectTo ("/admin/users/" +:+ uuid_str user_id)).

Definition user_unban (user_id : uuid) : T AdminResponse :=
  ctx ← require_admin settings cookie;
  pure (verify_csrf settings ctx csrf_token);;
  require_step_up ctx;;
  set_user_banned settings (ctx_admin_id ctx) user_id false ip;;
  mret (RedirectTo ("/admin/users/" +:+ uuid_str user_id)).

Definition user_edit (user_id : uuid) (phone full_name email : string) : T AdminResponse :=
  ctx ← require_admin settings cookie;
  pure (verify_csrf settings ctx csrf_token);;
  update_user_profile (ctx_admin_id ctx) user_id (strip_or_none full_name) (strip_lower_or_none email) ip (strip_or_none phone);;
  mret (RedirectTo ("/admin/users/" +:+ uuid_str user_id)).

Definition user_delete (user_id : uuid) : T AdminResponse :=
  ctx ← require_admin settings cookie;
  pure (verify_csrf settings ctx csrf_token);;
  delete_user settings (ctx_admin_id ctx) user_id ip;;
  mret (RedirectTo "/admin/tables/users").

(** One POST. *)
Definition serve_form (f : AdminForm) : T AdminResponse :=
  match f with
  | StepUpForm password next_url => step_up_verify password next_url
  | CourierCreate user_id city ty doc bio => courier_create user_id city ty doc bio
  | CourierVerify courier_id decision note => courier_verify courier_id decision note
  | CourierReveal courier_id => courier_reveal courier_id
  | CourierEdit courier_id city bio => courier_edit courier_id city bio
  | CourierDelete courier_id => courier_delete courier_id
  | OrderCreate customer_id city date lng lat description note => order_create customer_id city date lng lat description note
  | OrderEdit order_id city date description note => order_edit order_id city date description note
  | OrderDelete order_id => order_delete order_id
  | UserCreate phone role full_name email => user_create phone role full_name email
  | UserBan user_id => user_ban user_id
  | UserUnban user_id => user_unban user_id
  | UserEdit user_id phone full_name email => user_edit user_id phone full_name email
  | UserDelete user_id => user_delete user_id
  end.
End Form.

(** ** Pages *)

Section Page.
Context (cookie : option string).

(** [step_up_request] is a POST that only shows the password prompt. *)
Definition step_up_request (next_url : string) : T AdminResponse :=
  require_admin settings cookie;; mret (StepUpPage next_url).

Definition overview_page : T AdminResponse :=
  require_admin settings cookie;; data ← on_db overview; mret (OverviewPage data).

Definition table_catalog : T AdminResponse :=
  require_admin settings cookie;; mret (CatalogPage list_table_catalog).

Definition table_browser (table_name : string) (page : nat) : T AdminResponse :=
  require_admin settings cookie;;
  data ← on_db (λ d, Ok (list_table_page (table_rows table_name d) table_name page, d));
  mret (BrowserPage data).

Definition courier_new : T AdminResponse := require_admin settings cookie;; mret BlankForm.

Definition couriers : T AdminResponse :=
  require_admin settings cookie;; pending ← on_db (list_pending_couriers 50); mret (CouriersPage pending).

Definition courier_detail (courier_id : uuid) : T AdminResponse :=
  require_admin settings cookie;;
  profile ← on_db (get_courier courier_id);
  user ← on_db (get_user courier_id);
  mret (CourierPage profile user None).

Definition order_new : T AdminResponse := require_admin settings cookie;; mret BlankForm.

Definition orders_page : T AdminResponse :=
  require_admin settings cookie;; rows ← on_db (list_orders None 50); mret (OrdersPage rows).

Definition order_detail (order_id : uuid) : T AdminResponse :=
  ctx ← require_admin settings cookie;
  order ← on_db (get_order order_id);
  can_edit ← has_step_up (ads_session_token_hash (ctx_session ctx));
  mret (OrderPage order can_edit).

Definition invoices_page : T AdminResponse :=
  require_admin settings cookie;; rows ← on_db (list_invoices 50); mret (InvoicesPage rows).

Definition invoice_detail (invoice_id : uuid) : T AdminResponse :=
  require_admin settings cookie;; invoice ← on_db (get_invoice invoice_id); mret (InvoicePage invoice).

Definition promos_page : T AdminResponse :=
  require_admin settings cookie;; rows ← on_db (list_all_promos 100); mret (PromosPage rows).

Definition promo_detail (promo_id : uuid) : T AdminResponse :=
  require_admin settings cookie;; promo ← on_db (get_promo promo_id); mret (PromoPage promo).

Definition promo_redemptions (promo_id : uuid) : T AdminResponse :=
  require_admin settings cookie;; rows ← on_db (list_redemptions promo_id 100); mret (RedemptionsPage rows).

Definition disputes_page : T AdminResponse :=
  require_admin settings cookie;; rows ← on_db (list_disputes None 50); mret (DisputesPage rows).

Definition dispute_detail (dispute_id : uuid) : T AdminResponse :=
  require_admin settings cookie;; dispute ← on_db (get_dispute dispute_id); mret (DisputePage dispute).

Definition withdrawals_page : T AdminResponse :=
  require_admin settings cookie;; rows ← on_db (list_withdrawals None 50); mret (WithdrawalsPage rows).

Definition wallets_page : T AdminResponse :=
  require_admin settings cookie;; rows ← on_db (list_wallets 50); mret (WalletsPage rows).

Definition wallet_detail (wallet_id : uuid) : T AdminResponse :=
  require_admin settings cookie;; wallet ← on_db (get_wallet wallet_id); mret (WalletPage wallet).

Definition topups_page : T AdminResponse :=
  require_admin settings cookie;; rows ← on_db (list_topups 50); mret (TopupsPage rows).

Definition user_new : T AdminResponse := require_admin settings cookie;; mret BlankForm.

Definition user_detail (user_id : uuid) : T AdminResponse :=
  require_admin settings cookie;; user ← on_db (get_user user_id); mret (UserPage user).

Definition audit_logs : T AdminResponse :=
  require_admin settings cookie;; rows ← on_db (list_recent None None None 100); mret (AuditPage rows).

(** One page behind a session. *)
Definition serve_page (p : AdminPage) : T AdminResponse :=
  match p with
  | StepUpRequest next_url => step_up_request next_url
  | Overview_ => overview_page
  | TableCatalog => table_catalog
  | TableBrowser table_name page => table_browser table_name page
  | CourierNew => courier_new
  | Couriers => couriers
  | CourierDetail i => courier_detail i
  | OrderNew => order_new
  | Orders_ => orders_page
  | OrderDetail i => order_detail i
  | Invoices_ => invoices_page
  | InvoiceDetail i => invoice_detail i
  | Promos_ => promos_page
  | PromoDetail i => promo_detail i
  | PromoRedemptions i => promo_redemptions i
  | Disputes => disputes_page
  | DisputeDetail i => dispute_detail i
  | Withdrawals_ => withdrawals_page
  | Wallets => wallets_page
  | WalletDetail i => wallet_detail i
  | Topups => topups_page
  | UserNew => user_new
  | UserDetail i => user_detail i
  | AuditLogs => audit_logs
  end.
End Page.
End Routes.

(** ** Lemmas *)

(** The common shape of the forms: the checks, then what is particular to each. *)
Section Forms.
Context `{SecurityLib} `{AesGcm} (settings : AppSettings).

Definition run_form (ctx : AdminContext) (ip : option string) (f : AdminForm) : T AdminResponse :=
  let admin_id := ctx_admin_id ctx in
  match f with
  | StepUpForm password next_url =>
      grant_step_up settings password (ads_session_token_hash (ctx_session ctx)) ip;;
      mret (RedirectTo (match after_prefix "/admin" next_url with Some _ => next_url | None => "/admin" end))
  | CourierCreate user_id city ty doc bio =>
      create_courier_profile settings admin_id user_id (strip city) (strip_or_none bio) (strip doc) ty ip;;
      mret (RedirectTo ("/admin/couriers/" +:+ uuid_str user_id))
  | CourierVerify courier_id decision note =>
      verify_courier admin_id courier_id (bool_decide (decision = "approve"%string)) (or_none note) ip;;
      mret (RedirectTo ("/admin/couriers/" +:+ uuid_str courier_id))
  | CourierReveal courier_id =>
      revealed ← reveal_identity settings admin_id courier_id ip;
      profile ← on_db (get_courier courier_id);
      user ← on_db (get_user courier_id);
      mret (CourierPage profile user (Some revealed))
  | CourierEdit courier_id city bio =>
      update_courier_profile admin_id courier_id (strip city) (strip_or_none bio) ip;;
      mret (RedirectTo ("/admin/couriers/" +:+ uuid_str courier_id))
  | CourierDelete courier_id =>
      delete_courier_profile admin_id courier_id ip;; mret (RedirectTo "/admin/tables/courier_profiles")
  | OrderCreate customer_id city date lng lat description note =>
      order_id ← admin_create_order admin_id customer_id (strip_or_none description) (strip city) date lng lat (strip_or_none note) ip;
      mret (RedirectTo ("/admin/orders/" +:+ uuid_str order_id))
  | OrderEdit order_id city date description note =>
      update_order_details admin_id order_id (strip_or_none description) (strip city) date (strip_or_none note) ip;;
      mret (RedirectTo ("/admin/orders/" +:+ uuid_str order_id))
  | OrderDelete order_id => delete_order admin_id order_id ip;; mret (RedirectTo "/admin/tables/orders")
  | UserCreate phone role full_name email =>
      user_id ← create_user admin_id (strip phone) (strip_or_none full_name) (strip_lower_or_none email) role ip;
      mret (RedirectTo ("/admin/users/" +:+ uuid_str user_id))
  | UserBan user_id => set_user_banned settings admin_id user_id true ip;; mret (RedirectTo ("/admin/users/" +:+ uuid_str user_id))
  | UserUnban user_id => set_user_banned settings admin_id user_id false ip;; mret (RedirectTo ("/admin/users/" +:+ uuid_str user_id))
  | UserEdit user_id phone full_name email =>
      update_user_profile admin_id user_id (strip_or_none full_name) (strip_lower_or_none email) ip (strip_or_none phone);;
      mret (RedirectTo ("/admin/users/" +:+ uuid_str user_id))
  | UserDelete user_id => delete_user settings admin_id user_id ip;; mret (RedirectTo "/admin/tables/users")
  end.

Definition checked_form (cookie : option string) (csrf_token : string) (ip : option string) (f : AdminForm) : T AdminResponse :=
  ctx ← require_admin settings cookie;
  pure (verify_csrf settings ctx csrf_token);;
  (if needs_step_up f then require_step_up ctx else mret ());;
  run_form ctx ip f.

Lemma serve_form_checked (cookie : option string) (csrf_token : string) (ip : option string) (f : AdminForm) :
  serve_form settings cookie csrf_token ip f = checked_form cookie csrf_token ip f.
Proof. destruct f; reflexivity. Qed.
End Forms.

(** The action an operation records. *)
Definition form_action (f : AdminForm) : option string :=
  match f with
  | StepUpForm _ _ => None
  | CourierCreate _ _ _ _ _ => Some "COURIER_PROFILE_CREATE"
  | CourierVerify _ d _ => Some (if bool_decide (d = "approve"%string) then "COURIER_VERIFY" else "COURIER_REJECT")
  | CourierReveal _ => Some "IDENTITY_REVEAL"
  | CourierEdit _ _ _ => Some "COURIER_PROFILE_UPDATE"
  | CourierDelete _ => Some "COURIER_PROFILE_DELETE"
  | OrderCreate _ _ _ _ _ _ _ => Some "ORDER_CREATE"
  | OrderEdit _ _ _ _ _ => Some "ORDER_DETAILS_UPDATE"
  | OrderDelete _ => Some "ORDER_DELETE"
  | UserCreate _ _ _ _ => Some "USER_CREATE"
  | UserBan _ => Some "USER_BAN"
  | UserUnban _ => Some "USER_UNBAN"
  | UserEdit _ _ _ _ => Some "USER_PROFILE_UPDATE"
  | UserDelete _ => Some "USER_DELETE"
  end%string.

(** ** Properties *)

Section FormLemmas.
Context `{SecurityLib} `{AesGcm} (s : AppSettings).

Lemma verify_csrf_ok (ctx : AdminContext) (token : string) : verify_csrf s ctx token = Ok () →
  ∃ secret, ADMIN_SESSION_SECRET s = Some secret ∧
    token = make_csrf_token (ads_session_token_hash (ctx_session ctx)) (get_secret_value secret).
Proof.
  unfold verify_csrf. destruct (ADMIN_SESSION_SECRET s) as [secret|]; [|done].
  destruct (bool_decide _); [done|]. cbn. unfold verify_csrf_token, constant_time_equals.
  destruct (bool_decide_reflect (token = make_csrf_token (ads_session_token_hash (ctx_session ctx)) (get_secret_value secret))); [|done].
  by exists secret.
Qed.

Lemma run_form_audits (ctx : AdminContext) (ip : option string) (f : AdminForm) :
  match form_action f with
  | Some action => audits (ctx_admin_id ctx) action (run_form s ctx ip f)
  | None => silent (run_form s ctx ip f)
  end.
Proof.
  destruct f; cbn [form_action run_form];
    try match goal with |- audits _ _ (_ ≫= _) => apply audits_before; [|intros ?; silent] end.
  - intros x. unfold grant_step_up, check_login_throttle, clear_login_throttle. preserves_auto.
  - apply audits_create_courier.
  - apply audits_verify_courier.
  - apply audits_reveal_identity.
  - apply audits_update_courier.
  - apply audits_delete_courier.
  - apply audits_create_order.
  - apply audits_update_order.
  - apply audits_delete_order.
  - apply audits_create_user.
  - apply (audits_set_banned s _ _ true).
  - apply (audits_set_banned s _ _ false).
  - apply audits_update_user.
  - apply audits_delete_user.
Qed.

Lemma uncommitted_seal c t a b e : uncommitted (seal c t a b e).
Proof. unfold seal, draw. uncommitted_auto. Qed.
Hint Resolve uncommitted_seal : giftly.

Lemma uncommitted_form (cookie : option string) (csrf : string) (ip : option string) (f : AdminForm) :
  uncommitted (serve_form s cookie csrf ip f).
Proof.
  rewrite serve_form_checked. unfold checked_form. apply uncommitted_bind; [apply uncommitted_require_admin|intros ctx].
  apply uncommitted_bind; [apply uncommitted_pure|intros _].
  apply uncommitted_bind; [unfold require_step_up, has_step_up; uncommitted_auto|intros _].
  destruct f; cbn [run_form]; unfold grant_step_up, check_login_throttle, clear_login_throttle, create_courier_profile,
    verify_courier, reveal_identity, reveal_field, update_courier_profile, delete_courier_profile, admin_create_order, update_order_details,
    delete_order, create_user, set_user_banned, update_user_profile, taken_by_other, delete_user, record_, clock, date_today; uncommitted_auto.
Qed.
End FormLemmas.

(** The POST routes without a CSRF token leave the audit log alone. *)
Lemma other_posts_unaudited `{SecurityLib} (s : AppSettings) (uuid5 : string → uuid) (cookie ip : option string)
    (username password user_agent next_url : string) (m : T AdminResponse) (w : world) :
  m ∈ [login s uuid5 username password user_agent ip; dashboard_logout cookie; step_up_request s cookie next_url] →
  tb_audit_logs (w_db (request m w).2) = tb_audit_logs (w_db w).
Proof.
  intros Hm. apply (preserves_request (reads tb_audit_logs (tb_audit_logs (w_db w))) m w); [|done].
  repeat (apply elem_of_cons in Hm as [->|Hm]); [..|by apply not_elem_of_nil in Hm].
  - unfold login, complete_login, check_login_throttle, clear_login_throttle, generate_session_token, create_admin_session. preserves_auto.
  - unfold dashboard_logout, admin_logout, get_active, revoke_session. preserves_auto.
  - unfold step_up_request, require_admin, load_session, get_active, touch. preserves_auto.
Qed.

(** [C22] The forms of the dashboard are guarded and audited.  A form that carries a CSRF token (all the POST routes but
    sign-in, sign-out and the password prompt) and that succeeds came with the cookie of an active session of an active
    administrator and with that session's token, a sensitive one while the session held a step-up grant; it appended
    exactly one audit row that names the administrator and the action, save the password confirmation, which appends
    none; and one that fails leaves the database as it was.  The other three POST routes, [login], [dashboard_logout] and
    [step_up_request], append no audit row whether they succeed or fail. *)
Theorem admin_forms_guarded `{SecurityLib} `{AesGcm} (s : AppSettings) (uuid5 : string → uuid)
    (cookie : option string) (csrf : string) (ip : option string) (f : AdminForm) (w : world) :
  (∀ username password user_agent next_url m,
     m ∈ [login s uuid5 username password user_agent ip; dashboard_logout cookie; step_up_request s cookie next_url] →
     tb_audit_logs (w_db (request m w).2) = tb_audit_logs (w_db w)) ∧
  match request (serve_form s cookie csrf ip f) w with
  | (Raise _, w') => w_db w' = w_db w
  | (Ok _, w') =>
      ∃ raw id row admin secret,
        cookie = Some raw ∧ tb_admin_sessions (w_db w) !! id = Some row ∧
        session_active (sha256_hex raw) (w_now w) row = true ∧
        tb_users (w_db w) !! ads_admin_user_id row = Some admin ∧ active_admin admin = true ∧
        ADMIN_SESSION_SECRET s = Some secret ∧ csrf = make_csrf_token (sha256_hex raw) (get_secret_value secret) ∧
        (needs_step_up f = true → truthy (en_value <$> peek (stepup_key (sha256_hex raw)) w) = true) ∧
        match form_action f with
        | Some action =>
            ∃ aid log, tb_audit_logs (w_db w) !! aid = None ∧
              tb_audit_logs (w_db w') = <[aid := log]> (tb_audit_logs (w_db w)) ∧
              al_actor_user_id log = Some (ads_admin_user_id row) ∧ al_action log = action
        | None => tb_audit_logs (w_db w') = tb_audit_logs (w_db w)
        end
  end.
Proof.
  split; [intros username password user_agent next_url m Hm; by apply (other_posts_unaudited s uuid5 cookie ip username password user_agent next_url)|].
  set (w0 := w <| w_saved := w_db w |>). pose proof (uncommitted_form s cookie csrf ip f w0) as Hun.
  destruct (serve_form s cookie csrf ip f w0) as [[u|e] w1] eqn:E.
  2:{ rewrite (request_raise _ _ _ _ E). exact Hun. }
  rewrite (request_done _ _ _ _ E). rewrite serve_form_checked in E. unfold checked_form in E. apply tbind_inv in E as (ctx & w2 & Hc & E).
  apply require_admin_ok in Hc as (raw & id & row & admin & -> & Hrow & Hact & Hadm & Hok & Eid & Eh & ->).
  apply tbind_inv in E as ([] & w3 & [Hv ->]%pure_ok & E). apply verify_csrf_ok in Hv as (secret & Hs & ->).
  apply tbind_inv in E as ([] & w4 & Hst & E).
  exists raw, id, row, admin, secret. split; [done|]. split; [exact Hrow|]. split; [exact Hact|]. split; [exact Hadm|].
  split; [done|]. split; [done|]. split; [by rewrite Eh|].
  assert (w_db w4 = w_db (w0 <| w_db := (w_db w0) <| tb_admin_sessions := <[id := row <| ads_expires_at :=
      Z.min (w_now w0 + ADMIN_SESSION_TTL_MINUTES s * 60) (ads_created_at row + ABSOLUTE_CAP) |>]> (tb_admin_sessions (w_db w0)) |> |>) ∧
    (needs_step_up f = true → truthy (en_value <$> peek (stepup_key (sha256_hex raw)) w) = true)) as [E4 Hstep].
  { destruct (needs_step_up f); [|by injection Hst as <-]. unfold require_step_up, has_step_up in Hst. rewrite Eh in Hst.
    apply tbind_inv in Hst as (b & w5 & Hg & Hst). apply assert_ok in Hst as [Hb%negb_false_iff ->].
    apply tbind_inv in Hg as (v & w6 & Hg & Hr). injection Hr as <- <-. unfold redis_get, command in Hg.
    destruct (w_up _); [|done]. injection Hg as <- <-. split; [done|]. intros _. exact Hb. }
  split; [exact Hstep|]. pose proof (run_form_audits s ctx ip f) as Ha. destruct (form_action f) as [action|].
  - apply Ha in E as (aid & log & H1 & H2 & H3 & H4). rewrite E4 in H1, H2. exists aid, log. by rewrite <- Eid.
  - apply (silent_ok _ _ _ _ Ha) in E. rewrite E4 in E. exact E.
Qed.

(** A whole round at the dashboard: sign in, confirm the password, ban the customer. *)
Definition dashboard_run : list (option exn) :=
  let login := @complete_login opaque_lib app0 (λ _, 99%N) "operator" "correct horse battery" None None world_customer in
  let csrf := match login.1 with Ok l => login_csrf_token l | Raise _ => EmptyString end in
  let post f w := request (@serve_form opaque_lib toy_gcm app0 (Some "token-0"%string) csrf None f) w in
  let err (r : res AdminResponse * world) := match r.1 with Ok _ => None | Raise e => Some e end in
  let r1 := post (UserBan 0%N) login.2 in
  let r2 := post (StepUpForm "correct horse battery" "/admin") r1.2 in
  let r3 := post (UserBan 0%N) r2.2 in
  [err r1; err r2; err r3; err (request (@serve_form opaque_lib toy_gcm app0 (Some "token-0"%string) "forged" None (UserUnban 0%N)) r3.2)].

Example dashboard_run_answers : dashboard_run = [Some ForbiddenError; None; None; Some ForbiddenError].
Proof. vm_compute. reflexivity. Qed.

(** The operator has signed in and confirmed the password. *)
Definition dashboard_login := @complete_login opaque_lib app0 (λ _, 99%N) "operator" "correct horse battery" None None world_customer.
Definition operator_csrf : string := match dashboard_login.1 with Ok l => login_csrf_token l | Raise _ => EmptyString end.
Definition operator_posts (f : AdminForm) (w : world) : res AdminResponse * world :=
  request (@serve_form opaque_lib toy_gcm app0 (Some "token-0"%string) operator_csrf None f) w.
Definition world_stepped : world := (operator_posts (StepUpForm "correct horse battery" "/admin") dashboard_login.2).2.

Lemma admin_forms_guarded_witness :
  ∃ r w', operator_posts (UserBan 0%N) world_stepped = (Ok r, w') ∧
    ∃ aid log, tb_audit_logs (w_db world_stepped) !! aid = None ∧
      tb_audit_logs (w_db w') = <[aid := log]> (tb_audit_logs (w_db world_stepped)) ∧ al_action log = "USER_BAN"%string.
Proof.
  pose proof (@admin_forms_guarded opaque_lib toy_gcm app0 (λ _, 99%N) (Some "token-0"%string) operator_csrf None (UserBan 0%N)
    world_stepped) as [_ Hg]. unfold operator_posts.
  assert (is_ok (request (@serve_form opaque_lib toy_gcm app0 (Some "token-0"%string) operator_csrf None (UserBan 0%N)) world_stepped).1 = true)
    as Hok by (vm_compute; reflexivity).
  destruct (request _ world_stepped) as [[r|e] w']; [|discriminate Hok]. exists r, w'. split; [reflexivity|].
  destruct Hg as (raw & id & row & admin & secret & _ & _ & _ & _ & _ & _ & _ & _ & aid & log & H1 & H2 & _ & H3).
  exists aid, log. split; [exact H1|]. split; [exact H2|exact H3].
Defined.

(** ** Pages only read *)

(** [m] changes nothing. *)
Definition reading {A} (m : T A) : Prop := ∀ w, (m w).2 = w.

Lemma reading_pure {A} (r : res A) : reading (pure r).
Proof. done. Qed.

Lemma reading_ret {A} (a : A) : reading (mret a : T A).
Proof. done. Qed.

Lemma reading_bind {A B} (m : T A) (k : A → T B) : reading m → (∀ a, reading (k a)) → reading (m ≫= k).
Proof.
  intros Hm Hk w. specialize (Hm w). unfold mbind, T_bind. destruct (m w) as [[a|e] w']; [|exact Hm]. cbn in Hm. subst w'. apply Hk.
Qed.

Lemma reading_db {A} (m : M A) : (∀ d a d', m d = Ok (a, d') → d' = d) → reading (on_db m).
Proof.
  intros Hm w. unfold on_db. destruct (m (w_db w)) as [[a d]|e] eqn:E; [|done]. apply Hm in E as ->. by destruct w.
Qed.

Lemma reading_get {row} `{Table row} (i : uuid) : reading (on_db (get_row i : M (option row))).
Proof. apply reading_db. by intros d a d' [= _ <-]. Qed.

Lemma reading_newest {row} `{Table row} f (c : row → instant) n : reading (on_db (newest f c n)).
Proof. apply reading_db. by intros d a d' [= _ <-]. Qed.

Lemma reading_redis_get (key : string) : reading (redis_get key).
Proof. intros w. unfold redis_get, command. by destruct (w_up w). Qed.

Create HintDb reads.
#[export] Hint Resolve reading_pure reading_ret reading_get reading_newest reading_redis_get : reads.

Ltac reading :=
  repeat first [apply reading_bind; [|intros ?]
               | solve [auto with reads]
               | apply reading_db; by intros ? ? ? [= _ <-]].

Lemma page_reads `{SecurityLib} (s : AppSettings) (table_rows : string → db → list raw_row) (cookie : option string) (p : AdminPage) :
  ∃ k, serve_page s table_rows cookie p = (require_admin s cookie ≫= k) ∧ ∀ ctx, reading (k ctx).
Proof. destruct p; eexists; (split; [reflexivity|]); intros ctx; cbv beta; reading. Qed.

(** The pages of the dashboard only read, and only for an administrator: a page is shown to nobody without the
    cookie of an active session of an active administrator, and showing it changes nothing but the
    sliding expiry of that session; a refused page changes nothing in the database. *)
Theorem admin_pages_read_only `{SecurityLib} (s : AppSettings) (table_rows : string → db → list raw_row) (cookie : option string)
    (p : AdminPage) (w : world) :
  match request (serve_page s table_rows cookie p) w with
  | (Raise _, w') => w_db w' = w_db w
  | (Ok _, w') =>
      ∃ raw id row admin,
        cookie = Some raw ∧ tb_admin_sessions (w_db w) !! id = Some row ∧
        session_active (sha256_hex raw) (w_now w) row = true ∧
        tb_users (w_db w) !! ads_admin_user_id row = Some admin ∧ active_admin admin = true ∧
        w_redis w' = w_redis w ∧ w_out w' = w_out w ∧
        w_db w' = (w_db w) <| tb_admin_sessions := <[id := row <| ads_expires_at :=
          Z.min (w_now w + ADMIN_SESSION_TTL_MINUTES s * 60) (ads_created_at row + ABSOLUTE_CAP) |>]> (tb_admin_sessions (w_db w)) |>
  end.
Proof.
  destruct (page_reads s table_rows cookie p) as (k & Ek & Hk).
  rewrite Ek. set (w0 := w <| w_saved := w_db w |>). pose proof (uncommitted_require_admin s cookie w0) as Hun.
  unfold request. fold w0. unfold mbind, T_bind. destruct (require_admin s cookie w0) as [[ctx|e] w1] eqn:E; [|exact Hun].
  specialize (Hk ctx w1). destruct (k ctx w1) as [[a|e] w2]; cbn in Hk; subst w2; [|exact Hun].
  apply require_admin_ok in E as (raw & id & row & admin & -> & Hrow & Hact & Hadm & Hok & _ & _ & ->).
  by exists raw, id, row, admin.
Qed.
