(* ===== verification/KeyRotation.v ===== *)
(** * Key rotation ([app/services/key_rotation_service.py])

    Every mutable encrypted column is re-encrypted under the active key version, each value
    under its own AAD.  Messages are append-only and keep the version they were written under. *)

From Stdlib Require Import ZArith Lia Ascii.
From stdpp Require Import base list gmap strings numbers option pretty sorting.
From S2P Require Import Prelude Errors PyDecimal Money Pricing Enums OrderState Tables Database Constraints Redis RateLimit.
From S2P Require Import Ledger Crypto Invoices Config Fields.
Open Scope Z_scope.

Record RotationReport := mk_RotationReport {
  courier_national_id : Z;
  courier_passport_id : Z;
  conversation_preview : Z;
  withdrawal_iban : Z;
}.

Definition rotation_total (r : RotationReport) : Z :=
  courier_national_id r + courier_passport_id r + conversation_preview r + withdrawal_iban r.

Section Service.
Context `{AesGcm}.

(** [_reencrypt]: [None] when the value is already under the active version. *)
Definition reencrypt (cipher : FieldCipher) (blob table column entity : string) : T (option string) :=
  v ← pure (match blob_version (of_text blob) with CryptoOk v => Ok v | CryptoError => Raise CryptoExn end);
  if v =? fc_active_version cipher then mret None
  else
    plaintext ← pure (unseal cipher blob table column entity);
    new ← seal cipher plaintext table column entity;
    mret (Some new).

(** One nullable column of one row: the new value, and 1 when it changed. *)
Definition rotate_value (cipher : FieldCipher) (value : option string) (table column entity : string) : T (option string * Z) :=
  match value with
  | None => mret (None, 0)
  | Some blob =>
      new ← reencrypt cipher blob table column entity;
      mret match new with Some b => (Some b, 1) | None => (Some blob, 0) end
  end.

Definition rotate_profile (cipher : FieldCipher) (id : uuid) (p : CourierProfile) : T (CourierProfile * (Z * Z)) :=
  a ← rotate_value cipher (cp_national_id_encrypted p) "courier_profiles" "national_id" (uuid_str id);
  b ← rotate_value cipher (cp_passport_id_encrypted p) "courier_profiles" "passport_id" (uuid_str id);
  mret (p <| cp_national_id_encrypted := a.1 |> <| cp_passport_id_encrypted := b.1 |>, (a.2, b.2)).

Definition rotate_conversation (cipher : FieldCipher) (id : uuid) (c : Conversation) : T (Conversation * (Z * Z)) :=
  a ← rotate_value cipher (cv_last_message_preview_encrypted c) "conversations" "last_message_preview" (uuid_str id);
  mret (c <| cv_last_message_preview_encrypted := a.1 |>, (a.2, 0)).

Definition rotate_withdrawal (cipher : FieldCipher) (id : uuid) (x : Withdrawal) : T (Withdrawal * (Z * Z)) :=
  a ← rotate_value cipher (Some (wd_iban_encrypted x)) "withdrawals" "iban" (uuid_str id);
  mret (x <| wd_iban_encrypted := default (wd_iban_encrypted x) a.1 |>, (a.2, 0)).

(** The loop over a table; a row that did not change is not written. *)
Fixpoint rotate_rows {row} `{Table row} (f : uuid → row → T (row * (Z * Z))) (l : list (uuid * row)) : T (Z * Z) :=
  match l with
  | [] => mret (0, 0)
  | (id, r) :: l =>
      x ← f id r;
      (if x.2.1 + x.2.2 =? 0 then mret () else on_db (update_row id x.1));;
      n ← rotate_rows f l;
      mret (x.2.1 + n.1, x.2.2 + n.2)
  end.

Definition rotate_table {row} `{Table row} (f : uuid → row → T (row * (Z * Z))) : T (Z * Z) :=
  l ← on_db (select_rows (λ _ _, true));
  rotate_rows f l.

Definition rotate (settings : AppSettings) : T RotationReport :=
  cipher ← pure (settings_cipher settings);
  ids ← rotate_table (rotate_profile cipher);
  previews ← rotate_table (rotate_conversation cipher);
  ibans ← rotate_table (rotate_withdrawal cipher);
  mret (mk_RotationReport ids.1 ids.2 previews.1 ibans.1).
End Service.

(** ** Lemmas *)

(** [v'] holds what [v] held, under the active version: the active key is all it takes to read it. *)
Definition rotated `{AesGcm} (c : FieldCipher) (table column entity : string) (v v' : option string) : Prop :=
  match v, v' with
  | None, None => True
  | Some b, Some b' => ∃ pt, unseal c b table column entity = Ok pt ∧
      (∀ c', fc_keys c' !! fc_active_version c = fc_keys c !! fc_active_version c → unseal c' b' table column entity = Ok pt) ∧
      blob_version (of_text b') = CryptoOk (fc_active_version c)
  | _, _ => False
  end.

(** A value the cipher can read. *)
Definition legible `{AesGcm} (c : FieldCipher) (table column entity : string) (v : option string) : Prop :=
  ∀ b, v = Some b → is_ok (unseal c b table column entity) = true.

(** Only the number of draws differs. *)
Definition drew (w w' : world) : Prop := ∃ n, w' = w <| w_draws := n |>.

(** Decryption looks up the key of the blob's version only. *)
Lemma unseal_version `{AesGcm} (c c' : FieldCipher) (b table column e : string) (v : Z) :
  blob_version (of_text b) = CryptoOk v → fc_keys c' !! v = fc_keys c !! v → unseal c' b table column e = unseal c b table column e.
Proof.
  unfold blob_version, unseal, decrypt. destruct (b64decode (of_text b)) as [[|x l]|]; [done| |done]. intros [= <-] E. by rewrite E.
Qed.

Section Values.
Context `{AesGcm} `{!AesGcmLaws} (c : FieldCipher) (Hc : built c).

Lemma rotate_value_run (v : option string) (table column e : string) (w : world) : legible c table column e v →
  ∃ v' n w', rotate_value c v table column e w = (Ok (v', n), w') ∧ drew w w' ∧ rotated c table column e v v' ∧
    0 ≤ n ∧ (n = 0 → v' = v) ∧ (rotated c table column e v v → n = 0).
Proof.
  intros Hv. destruct v as [b|].
  2:{ exists None, 0, w. split; [done|]. split; [exists (w_draws w); by destruct w|]. split; [done|]. split; [lia|done]. }
  specialize (Hv b eq_refl). destruct (unseal c b table column e) as [pt|] eqn:Hpt; [|done]. clear Hv.
  assert (∃ ver, blob_version (of_text b) = CryptoOk ver) as [ver Hver].
  { unfold unseal, decrypt in Hpt. unfold blob_version. destruct (b64decode (of_text b)) as [[|x l]|]; [done| |done]. by eexists. }
  unfold rotate_value. destruct (Z.eqb_spec ver (fc_active_version c)) as [->|Hne].
  - exists (Some b), 0, w. split.
    { assert (reencrypt c b table column e w = (Ok None, w)) as Er; [|by erewrite tbind_ok by exact Er].
      unfold reencrypt. erewrite tbind_ok by (unfold pure; rewrite Hver; reflexivity). by rewrite Z.eqb_refl. }
    split; [exists (w_draws w); by destruct w|]. split; [exists pt; split; [done|]; split; [|done]|split; [lia|done]].
    intros c' Hk. by rewrite (unseal_version c c' _ _ _ _ _ Hver Hk).
  - destruct (seal_run c pt table column e w Hc) as (key & Hkey & Es). eexists (Some _), 1, _. split.
    { erewrite tbind_ok; [|unfold reencrypt; erewrite tbind_ok by (unfold pure; rewrite Hver; reflexivity);
        rewrite (proj2 (Z.eqb_neq _ _)) by done; erewrite tbind_ok by (unfold pure; rewrite Hpt; reflexivity);
        erewrite tbind_ok by exact Es; reflexivity]. reflexivity. }
    split; [by eexists|]. split.
    { exists pt. split; [done|]. pose proof (sealed_version c key (w_draws w) pt table column e Hc) as Hsv. split; [|done].
      intros c' Hk. rewrite (unseal_version c c' _ _ _ _ _ Hsv Hk).
      by rewrite (unseal_sealed c c key _ pt table column e e Hc Hkey), decide_True by done. }
    split; [lia|]. split; [done|]. intros (pt' & _ & _ & E). rewrite Hver in E. by injection E.
Qed.
End Values.

(** The loop, for a row function that reads only the row and the random source. *)
Section Loop.
Context {row : Type} `{TableLaws row} (f : uuid → row → T (row * (Z * Z))).
Context (good : uuid → row → Prop) (rel : uuid → row → row → Prop).
Context (Hf : ∀ id r w, good id r → ∃ r' n w', f id r w = (Ok (r', n), w') ∧ drew w w' ∧ rel id r r' ∧
  0 ≤ n.1 ∧ 0 ≤ n.2 ∧ (n = (0, 0) → r' = r) ∧ (rel id r r → n = (0, 0))).
Context (Hconf : ∀ id r r' b, rel id r r' → conflicts r' b = conflicts r b).
Context (Hchk : ∀ id r r' t t', rel id r r' → check_ok t r = true → check_ok t' r' = true).
Context (Htrig : ∀ d r r', trigger_ok d (Some r) (Some r') = true).

Lemma rotate_rows_run (l : list (uuid * row)) : ∀ w,
  NoDup l.*1 → (∀ p, p ∈ l → rows (w_db w) !! p.1 = Some p.2 ∧ good p.1 p.2) → table_ok row (w_db w) →
  ∃ n m k, rotate_rows f l w = (Ok n, w <| w_db := set_rows m (w_db w) |> <| w_draws := k |>) ∧
    table_ok row (set_rows m (w_db w)) ∧
    (∀ i, i ∉ l.*1 → m !! i = rows (w_db w) !! i) ∧ (∀ i r, (i, r) ∈ l → ∃ r', m !! i = Some r' ∧ rel i r r') ∧
    0 ≤ n.1 ∧ 0 ≤ n.2 ∧ ((∀ i r, (i, r) ∈ l → rel i r r) → n = (0, 0)).
Proof.
  induction l as [|[id r] l IH]; intros w Hnd Hl Hd.
  { exists (0, 0), (rows (w_db w)), (w_draws w). rewrite set_rows_id. split; [by destruct w|]. split; [done|]. split; [done|].
    split; [intros i r Hi; by apply not_elem_of_nil in Hi|]. cbn. done. }
  rewrite fmap_cons in Hnd. apply NoDup_cons in Hnd as [Hid Hnd]. cbn [fst] in Hid.
  destruct (Hl (id, r) ltac:(left)) as [Hr Hg]. cbn [fst snd] in Hr, Hg.
  destruct (Hf id r w Hg) as (r' & [n1 n2] & w1 & E1 & [k1 Hk1] & Hrel & Hn1 & Hn2 & Hsame & Hzero). cbn [fst snd] in *.
  set (d1 := set_rows (<[id := r']> (rows (w_db w))) (w_db w)).
  assert (update_row id r' (w_db w) = Ok ((), d1)) as Eu.
  { apply update_row_ok. rewrite Hr, Htrig. split; [done|]. destruct (tk_check _ _ Hd id r Hr) as [t Ht].
    split; [by eapply (Hchk id r)|]. split; [|done]. apply unique_ok_true. intros i x Hx Hne.
    rewrite (Hconf id r) by done. by apply (tk_unique _ _ Hd id i). }
  assert (n1 + n2 = 0 → d1 = w_db w) as Hd1.
  { intros E. unfold d1. assert (n1 = 0 ∧ n2 = 0) as [-> ->] by lia. rewrite (Hsame eq_refl), insert_id by done. apply set_rows_id. }
  assert (table_ok row d1) as Hok1.
  { pose proof frame_table_ok as F. exact (keeps_update (table_ok row) _ _ _ _ _ Hd Eu). }
  set (w2 := w <| w_db := d1 |> <| w_draws := k1 |>).
  destruct (IH w2 Hnd) as (n & m & k & E2 & Hok2 & Hout & Hin & Hp1 & Hp2 & Hz2).
  { intros p Hp. destruct (Hl p ltac:(by right)) as [Hp0 Hgp]. split; [|exact Hgp]. unfold w2, d1. cbn. rewrite rows_set, lookup_insert_ne; [done|].
    intros ->. apply Hid. by apply list_elem_of_fmap_2. }
  { exact Hok1. }
  exists (n1 + n.1, n2 + n.2), m, k. unfold w2 in E2, Hok2, Hout. cbn in E2, Hok2, Hout. unfold d1 in *. rewrite set_set in E2, Hok2.
  split.
  { cbn [rotate_rows]. erewrite tbind_ok by exact E1. cbn [fst snd]. subst w1.
    erewrite (tbind_ok _ _ _ w2 tt); [erewrite tbind_ok by exact E2; reflexivity|].
    destruct (Z.eqb_spec (n1 + n2) 0) as [E|E]; [unfold w2; rewrite Hd1 by done; by destruct w|].
    unfold on_db. cbn. rewrite Eu. by destruct w. }
  split; [exact Hok2|]. split.
  { intros i Hi. rewrite fmap_cons, not_elem_of_cons in Hi. destruct Hi as [Hi1 Hi2]. rewrite Hout by done.
    rewrite rows_set. by apply lookup_insert_ne. }
  split.
  { intros i x [[= -> ->]|Hx]%elem_of_cons; [|by apply Hin]. exists r'. rewrite Hout by done. rewrite rows_set, lookup_insert_eq. done. }
  cbn [fst snd]. split; [lia|]. split; [lia|]. intros Hall. rewrite (Hz2 (λ i x Hx, Hall i x ltac:(by right))).
  rewrite (Hzero (Hall id r ltac:(left))) in *. by injection (Hzero (Hall id r ltac:(left))) as -> ->.
Qed.

Lemma rotate_table_run (w : world) : (∀ i r, rows (w_db w) !! i = Some r → good i r) → table_ok row (w_db w) →
  ∃ n m k, rotate_table f w = (Ok n, w <| w_db := set_rows m (w_db w) |> <| w_draws := k |>) ∧
    table_ok row (set_rows m (w_db w)) ∧
    (∀ i, rows (w_db w) !! i = None → m !! i = None) ∧ (∀ i r, rows (w_db w) !! i = Some r → ∃ r', m !! i = Some r' ∧ rel i r r') ∧
    0 ≤ n.1 ∧ 0 ≤ n.2 ∧ ((∀ i r, rows (w_db w) !! i = Some r → rel i r r) → n = (0, 0)).
Proof.
  intros Hg Hd. unfold rotate_table, select_rows.
  set (l := filter (λ p : uuid * row, true = true) (map_to_list (rows (w_db w)))).
  assert (l = map_to_list (rows (w_db w))) as El by (apply filter_all; done).
  destruct (rotate_rows_run l w) as (n & m & k & E & Hok & Hout & Hin & Hz); [rewrite El; apply NoDup_fst_map_to_list| |done|].
  { rewrite El. intros [i r] Hi%elem_of_map_to_list. split; [done|by apply Hg]. }
  exists n, m, k. split; [erewrite tbind_ok; [exact E|]; unfold on_db; cbn; by destruct w|]. split; [done|]. rewrite El in *.
  split; [|split].
  - intros i Hi. rewrite Hout; [done|]. intros ([j r] & -> & Hj%elem_of_map_to_list)%list_elem_of_fmap. cbn in Hi. congruence.
  - intros i r Hi. by apply Hin, elem_of_map_to_list.
  - destruct Hz as (Hz1 & Hz2 & Hz3). split; [done|]. split; [done|]. intros Hall. apply Hz3. intros i r Hi%elem_of_map_to_list. by apply Hall.
Qed.
End Loop.

(** ** Property *)

(** The mutable encrypted columns, with their AAD. *)
Definition columns_rel (R : string → string → string → option string → option string → Prop) (d d' : db) : Prop :=
  (∀ i p, tb_courier_profiles d !! i = Some p → ∃ p', tb_courier_profiles d' !! i = Some p' ∧
     R "courier_profiles" "national_id" (uuid_str i) (cp_national_id_encrypted p) (cp_national_id_encrypted p') ∧
     R "courier_profiles" "passport_id" (uuid_str i) (cp_passport_id_encrypted p) (cp_passport_id_encrypted p')) ∧
  (∀ i x, tb_conversations d !! i = Some x → ∃ x', tb_conversations d' !! i = Some x' ∧
     R "conversations" "last_message_preview" (uuid_str i)
       (cv_last_message_preview_encrypted x) (cv_last_message_preview_encrypted x')) ∧
  (∀ i x, tb_withdrawals d !! i = Some x → ∃ x', tb_withdrawals d' !! i = Some x' ∧
     R "withdrawals" "iban" (uuid_str i) (Some (wd_iban_encrypted x)) (Some (wd_iban_encrypted x'))).

Definition rotatable `{AesGcm} (c : FieldCipher) (d : db) : Prop :=
  columns_rel (λ t col e v _, legible c t col e v) d d ∧
  table_ok CourierProfile d ∧ table_ok Conversation d ∧ table_ok Withdrawal d.

Section Rotate.
Context `{AesGcm} `{!AesGcmLaws} (c : FieldCipher) (Hc : built c).

Definition profile_rel (i : uuid) (p p' : CourierProfile) : Prop :=
  p' = p <| cp_national_id_encrypted := cp_national_id_encrypted p' |> <| cp_passport_id_encrypted := cp_passport_id_encrypted p' |> ∧
  rotated c "courier_profiles" "national_id" (uuid_str i) (cp_national_id_encrypted p) (cp_national_id_encrypted p') ∧
  rotated c "courier_profiles" "passport_id" (uuid_str i) (cp_passport_id_encrypted p) (cp_passport_id_encrypted p').

Lemma rotated_null t col e v v' : rotated c t col e v v' → not_null v' = not_null v.
Proof. by destruct v, v'. Qed.

Lemma rotate_profiles_run (w : world) :
  (∀ i p, tb_courier_profiles (w_db w) !! i = Some p →
     legible c "courier_profiles" "national_id" (uuid_str i) (cp_national_id_encrypted p) ∧
     legible c "courier_profiles" "passport_id" (uuid_str i) (cp_passport_id_encrypted p)) → table_ok CourierProfile (w_db w) →
  ∃ n m k, rotate_table (rotate_profile c) w = (Ok n, w <| w_db := (w_db w) <| tb_courier_profiles := m |> |> <| w_draws := k |>) ∧
    table_ok CourierProfile ((w_db w) <| tb_courier_profiles := m |>) ∧
    (∀ i p, tb_courier_profiles (w_db w) !! i = Some p → ∃ p', m !! i = Some p' ∧ profile_rel i p p') ∧
    (∀ i p', m !! i = Some p' → ∃ p, tb_courier_profiles (w_db w) !! i = Some p) ∧
    ((∀ i p, tb_courier_profiles (w_db w) !! i = Some p → profile_rel i p p) → n = (0, 0)).
Proof.
  intros Hg Hd.
  destruct (rotate_table_run (rotate_profile c) (λ i p, legible c "courier_profiles" "national_id" (uuid_str i) (cp_national_id_encrypted p) ∧
    legible c "courier_profiles" "passport_id" (uuid_str i) (cp_passport_id_encrypted p)) profile_rel) with (w := w)
    as (n & m & k & E & Hok & Hout & Hin & _ & _ & Hz); [..|exact Hg|exact Hd|].
  - intros i p v [G1 G2].
    destruct (rotate_value_run c Hc _ _ _ _ v G1) as (a & n1 & v1 & E1 & [k1 ->] & R1 & P1 & S1 & Z1).
    destruct (rotate_value_run c Hc _ _ _ _ (v <| w_draws := k1 |>) G2) as (b & n2 & v2 & E2 & [k2 ->] & R2 & P2 & S2 & Z2).
    eexists _, (n1, n2), _. split; [unfold rotate_profile; erewrite tbind_ok by exact E1; erewrite tbind_ok by exact E2; reflexivity|].
    split; [by exists k2|]. cbn. split; [by split; [|split]|]. split; [done|]. split; [done|]. split.
    + intros [= -> ->]. rewrite S1, S2 by done. by destruct p.
    + intros (_ & Q1 & Q2). by rewrite Z1, Z2.
  - intros i p p' b [-> _]. done.
  - intros i p p' t t' (_ & R1 & R2). cbn. unfold chk_identity_present. by rewrite (rotated_null _ _ _ _ _ R1), (rotated_null _ _ _ _ _ R2).
  - done.
  - exists n, m, k. split; [exact E|]. split; [exact Hok|]. split; [exact Hin|]. split; [|exact Hz].
    intros i p' Hp'. destruct (tb_courier_profiles (w_db w) !! i) as [p|] eqn:Ei; [by exists p|].
    pose proof (Hout i Ei). congruence.
Qed.

(** The tables with one encrypted column. *)
Section Column.
Context {row : Type} `{TableLaws row} (get : row → option string) (put_ : option string → row → row) (table column : string).
Context (f : uuid → row → T (row * (Z * Z))).
Context (Hf : ∀ i r w v n w', rotate_value c (get r) table column (uuid_str i) w = (Ok (v, n), w') →
  f i r w = (Ok (put_ v r, (n, 0)), w')).
Context (Hput : ∀ r v, not_null v = not_null (get r) → get (put_ v r) = v) (Hid : ∀ r, put_ (get r) r = r).
Context (Hconf : ∀ r v b, conflicts (put_ v r) b = conflicts r b).
Context (Hchk : ∀ r v t t', check_ok t r = true → check_ok t' (put_ v r) = true).
Context (Htrig : ∀ d r r', trigger_ok d (Some r) (Some r') = true).

Definition column_rel (i : uuid) (r r' : row) : Prop :=
  r' = put_ (get r') r ∧ rotated c table column (uuid_str i) (get r) (get r').

Lemma rotate_column_run (w : world) :
  (∀ i r, rows (w_db w) !! i = Some r → legible c table column (uuid_str i) (get r)) → table_ok row (w_db w) →
  ∃ n m k, rotate_table f w = (Ok n, w <| w_db := set_rows m (w_db w) |> <| w_draws := k |>) ∧
    table_ok row (set_rows m (w_db w)) ∧
    (∀ i r, rows (w_db w) !! i = Some r → ∃ r', m !! i = Some r' ∧ column_rel i r r') ∧
    (∀ i r', m !! i = Some r' → ∃ r, rows (w_db w) !! i = Some r) ∧
    ((∀ i r, rows (w_db w) !! i = Some r → column_rel i r r) → n = (0, 0)).
Proof.
  intros Hg Hd.
  destruct (rotate_table_run f (λ i r, legible c table column (uuid_str i) (get r)) column_rel) with (w := w)
    as (n & m & k & E & Hok & Hout & Hin & _ & _ & Hz); [..|exact Hg|exact Hd|].
  - intros i r v G. destruct (rotate_value_run c Hc _ _ _ _ v G) as (a & n & v1 & E1 & [k1 ->] & R1 & P1 & S1 & Z1).
    eexists _, (n, 0), _. split; [exact (Hf _ _ _ _ _ _ E1)|]. split; [by exists k1|].
    pose proof (Hput r a (rotated_null _ _ _ _ _ R1)) as Ea. unfold column_rel. rewrite Ea. split; [done|]. cbn. split; [done|].
    split; [done|]. split; [intros [= ->]; rewrite S1 by done; apply Hid|]. intros [_ Q]. by rewrite Z1.
  - intros i r r' b [-> _]. apply Hconf.
  - intros i r r' t t' [-> _]. apply Hchk.
  - exact Htrig.
  - exists n, m, k. split; [exact E|]. split; [exact Hok|]. split; [exact Hin|]. split; [|exact Hz].
    intros i r' Hr'. destruct (rows (w_db w) !! i) as [r|] eqn:Ei; [by exists r|]. pose proof (Hout i Ei). congruence.
Qed.
End Column.

Definition conversation_rel : uuid → Conversation → Conversation → Prop :=
  column_rel cv_last_message_preview_encrypted (λ v r, r <| cv_last_message_preview_encrypted := v |>) "conversations" "last_message_preview".

Definition withdrawal_rel : uuid → Withdrawal → Withdrawal → Prop :=
  column_rel (λ x, Some (wd_iban_encrypted x)) (λ v r, r <| wd_iban_encrypted := default (wd_iban_encrypted r) v |>) "withdrawals" "iban".

(** A whole run: every column rotated, every row accounted for. *)
Lemma rotate_run (s : AppSettings) (w : world) : settings_cipher s = Ok c → rotatable c (w_db w) →
  ∃ rep mp mc mw k, rotate s w = (Ok rep, w <| w_db := (w_db w) <| tb_courier_profiles := mp |>
      <| tb_conversations := mc |> <| tb_withdrawals := mw |> |> <| w_draws := k |>) ∧
    table_ok CourierProfile ((w_db w) <| tb_courier_profiles := mp |>) ∧
    table_ok Conversation ((w_db w) <| tb_conversations := mc |>) ∧ table_ok Withdrawal ((w_db w) <| tb_withdrawals := mw |>) ∧
    (∀ i p, tb_courier_profiles (w_db w) !! i = Some p → ∃ p', mp !! i = Some p' ∧ profile_rel i p p') ∧
    (∀ i x, tb_conversations (w_db w) !! i = Some x → ∃ x', mc !! i = Some x' ∧ conversation_rel i x x') ∧
    (∀ i x, tb_withdrawals (w_db w) !! i = Some x → ∃ x', mw !! i = Some x' ∧ withdrawal_rel i x x') ∧
    (∀ i p', mp !! i = Some p' → is_Some (tb_courier_profiles (w_db w) !! i)) ∧
    (∀ i x', mc !! i = Some x' → is_Some (tb_conversations (w_db w) !! i)) ∧
    (∀ i x', mw !! i = Some x' → is_Some (tb_withdrawals (w_db w) !! i)) ∧
    ((∀ i p, tb_courier_profiles (w_db w) !! i = Some p → profile_rel i p p) →
     (∀ i x, tb_conversations (w_db w) !! i = Some x → conversation_rel i x x) →
     (∀ i x, tb_withdrawals (w_db w) !! i = Some x → withdrawal_rel i x x) → rotation_total rep = 0).
Proof.
  intros Hs ((L1 & L2 & L3) & T1 & T2 & T3).
  destruct (rotate_profiles_run w) as (n1 & mp & k1 & E1 & O1 & I1 & B1 & Z1).
  { intros i p Hp. by destruct (L1 i p Hp) as (_ & _ & G). } { exact T1. }
  set (w1 := w <| w_db := (w_db w) <| tb_courier_profiles := mp |> |> <| w_draws := k1 |>) in *.
  destruct (rotate_column_run cv_last_message_preview_encrypted (λ v r, r <| cv_last_message_preview_encrypted := v |>)
    "conversations" "last_message_preview" (rotate_conversation c)) with (w := w1) as (n2 & mc & k2 & E2 & O2 & I2 & B2 & Z2); [..| |].
  { intros i r v a n v' E. unfold rotate_conversation. erewrite tbind_ok by exact E. reflexivity. }
  1-5: by try (intros []).
  { intros i x Hx. by destruct (L2 i x Hx) as (_ & _ & G). } { destruct T2 as [C U]. by constructor. }
  set (w2 := w1 <| w_db := set_rows mc (w_db w1) |> <| w_draws := k2 |>) in *.
  destruct (rotate_column_run (λ x, Some (wd_iban_encrypted x)) (λ v r, r <| wd_iban_encrypted := default (wd_iban_encrypted r) v |>)
    "withdrawals" "iban" (rotate_withdrawal c)) with (w := w2) as (n3 & mw & k3 & E3 & O3 & I3 & B3 & Z3); [..| |].
  { intros i r v a n v' E. unfold rotate_withdrawal. erewrite tbind_ok by exact E. reflexivity. }
  { intros r [v|]; [done|]. intros Hn. discriminate Hn. }
  1-4: by try (intros []).
  { intros i x Hx. by destruct (L3 i x Hx) as (_ & _ & G). } { destruct T3 as [C U]. by constructor. }
  exists (mk_RotationReport n1.1 n1.2 n2.1 n3.1), mp, mc, mw, k3. split.
  { unfold rotate. erewrite tbind_ok by (unfold pure; rewrite Hs; reflexivity). erewrite tbind_ok by exact E1.
    erewrite tbind_ok by exact E2. erewrite tbind_ok by exact E3. reflexivity. }
  split; [exact O1|]. split; [destruct O2 as [C U]; by constructor|]. split; [destruct O3 as [C U]; by constructor|].
  split; [exact I1|]. split; [exact I2|]. split; [exact I3|]. split; [exact B1|]. split; [exact B2|]. split; [exact B3|].
  intros A1 A2 A3. unfold rotation_total. cbn. by rewrite (Z1 A1), (Z2 A2), (Z3 A3).
Qed.
End Rotate.

Lemma rotated_again `{AesGcm} (c : FieldCipher) t col e v v' :
  rotated c t col e v v' → rotated c t col e v' v' ∧ legible c t col e v'.
Proof.
  destruct v as [b|], v' as [b'|]; try done. intros (pt & _ & Hall & Hv). pose proof (Hall c eq_refl) as Hc.
  split; [by exists pt|]. intros x [= <-]. by rewrite Hc.
Qed.

(** Key rotation changes keys and nothing else: when every stored value can be read, the run
    succeeds, every identity document, preview and IBAN decrypts to what it held before and now needs
    the active key only, messages are untouched, and a second run finds nothing left to do. *)
Theorem key_rotation_exact `{AesGcm} `{!AesGcmLaws} (s : AppSettings) (c : FieldCipher) (w : world) :
  settings_cipher s = Ok c → rotatable c (w_db w) →
  ∃ rep w', rotate s w = (Ok rep, w') ∧ columns_rel (rotated c) (w_db w) (w_db w') ∧
    tb_messages (w_db w') = tb_messages (w_db w) ∧
    ∃ rep' w'', rotate s w' = (Ok rep', w'') ∧ rotation_total rep' = 0.
Proof.
  intros Hs Hrot. destruct (settings_cipher_built s c Hs) as (Hc & _ & _).
  destruct (rotate_run c Hc s w Hs Hrot) as (rep & mp & mc & mw & k & E & O1 & O2 & O3 & I1 & I2 & I3 & B1 & B2 & B3 & _).
  eexists rep, _. split; [exact E|]. split.
  { split; [|split]; intros i x Hx; cbn.
    - destruct (I1 i x Hx) as (x' & Hx' & _ & R1 & R2). by exists x'.
    - destruct (I2 i x Hx) as (x' & Hx' & _ & R). by exists x'.
    - destruct (I3 i x Hx) as (x' & Hx' & _ & R). by exists x'. }
  split; [done|]. set (w' := w <| w_db := _ |> <| w_draws := k |>) in *.
  assert (∀ i p, tb_courier_profiles (w_db w') !! i = Some p → profile_rel c i p p ∧
    legible c "courier_profiles" "national_id" (uuid_str i) (cp_national_id_encrypted p) ∧
    legible c "courier_profiles" "passport_id" (uuid_str i) (cp_passport_id_encrypted p)) as A1.
  { cbn. intros i p' Hp'. destruct (B1 i p' Hp') as [p Hp]. destruct (I1 i p Hp) as (q & Hq & _ & R1 & R2).
    rewrite Hp' in Hq. injection Hq as <-. apply rotated_again in R1 as [R1 L1], R2 as [R2 L2].
    split; [|done]. split; [by destruct p'|done]. }
  assert (∀ i x, tb_conversations (w_db w') !! i = Some x → conversation_rel c i x x ∧
    legible c "conversations" "last_message_preview" (uuid_str i) (cv_last_message_preview_encrypted x)) as A2.
  { cbn. intros i x' Hx'. destruct (B2 i x' Hx') as [x Hx]. destruct (I2 i x Hx) as (y & Hy & _ & R).
    rewrite Hx' in Hy. injection Hy as <-. apply rotated_again in R as [R L]. split; [|done]. split; [by destruct x'|done]. }
  assert (∀ i x, tb_withdrawals (w_db w') !! i = Some x → withdrawal_rel c i x x ∧
    legible c "withdrawals" "iban" (uuid_str i) (Some (wd_iban_encrypted x))) as A3.
  { cbn. intros i x' Hx'. destruct (B3 i x' Hx') as [x Hx]. destruct (I3 i x Hx) as (y & Hy & _ & R).
    rewrite Hx' in Hy. injection Hy as <-. apply rotated_again in R as [R L]. split; [|done]. split; [by destruct x'|done]. }
  destruct (rotate_run c Hc s w' Hs) as (rep' & mp' & mc' & mw' & k' & E' & _ & _ & _ & _ & _ & _ & _ & _ & _ & Hz).
  { split; [|split; [|split]].
    - split; [|split]; intros i x Hx; exists x; (split; [exact Hx|]); [by apply A1|by apply A2|by apply A3].
    - destruct O1 as [C U]. by constructor.
    - destruct O2 as [C U]. by constructor.
    - destruct O3 as [C U]. by constructor. }
  eexists rep', _. split; [exact E'|]. apply Hz; intros i x Hx; [by apply A1|by apply A2|by apply A3].
Qed.

(** A conversation whose preview was written under version 1; version 2 is active. *)
Definition app_rotating : AppSettings :=
  mk_AppSettings settings0 DEVELOPMENT false (Some secret32) None None HS256 30 30 "safe-gift" "safe-gift"
    (Some keys2) 2 (SecretStr "pepper-pepper-pepper-pepper-pepper")
    None None None None None None None None None None None None None None None None None None
    (Some "operator") (Some (SecretStr "correct horse battery")) (Some secret32) 60 true EmptyString
    true 120 60 1048576 None 30 180 3 300 1800 4096 30 60.

Definition old_preview : string :=
  match (@seal toy_gcm (mk_FieldCipher keys1 1) "see you at six" "conversations" "last_message_preview" "7" world_empty).1 with
  | Ok b => b
  | Raise _ => EmptyString
  end.

Definition world_rotating : world :=
  world_empty <| w_db := empty_db <| tb_conversations := {[ 7%N := mk_Conversation 3 1 2 (Some old_preview) 0 0 0 false 0 ]} |> |>.

Lemma key_rotation_exact_witness :
  ∃ rep w' w'', @rotate toy_gcm app_rotating world_rotating = (Ok rep, w') ∧ rotation_total rep = 1 ∧
    ∃ rep', @rotate toy_gcm app_rotating w' = (Ok rep', w'') ∧ rotation_total rep' = 0.
Proof.
  assert (@rotatable toy_gcm (mk_FieldCipher keys2 2) (w_db world_rotating)) as Hr.
  { split; [|split; [|split]].
    - split; [intros i p; cbn; by rewrite lookup_empty|]. split; [|intros i p; cbn; by rewrite lookup_empty].
      intros i x Hx. exists x. split; [exact Hx|]. cbn in Hx. apply lookup_singleton_Some in Hx as [<- <-].
      intros b [= <-]. vm_compute. reflexivity.
    - by apply table_ok_empty.
    - constructor; cbn; [intros i x _; by exists 0|].
      intros i j a b [<- <-]%lookup_singleton_Some [<- <-]%lookup_singleton_Some. done.
    - by apply table_ok_empty. }
  assert (settings_cipher app_rotating = Ok (mk_FieldCipher keys2 2)) as Hs by (vm_compute; reflexivity).
  destruct (@key_rotation_exact toy_gcm toy_gcm_laws app_rotating (mk_FieldCipher keys2 2) world_rotating Hs Hr)
    as (rep & w' & E & _ & _ & rep' & w'' & E' & Hz).
  exists rep, w', w''. split; [exact E|]. split; [|by exists rep'].
  assert (match (@rotate toy_gcm app_rotating world_rotating).1 with Ok r => rotation_total r | Raise _ => -1 end = 1) as H1
    by (vm_compute; reflexivity).
  by rewrite E in H1.
Defined.
