(* ===== verification/Workers.v ===== *)
(** * Scheduled jobs ([app/workers/expiry.py], [app/workers/auto_approve.py],
      [app/workers/reconciliation.py])

    A sweep reads the due ids in one session and handles each in a session of its
    own: a failure rolls that item back and the sweep goes on. *)

From Stdlib Require Import ZArith Lia.
From stdpp Require Import base list gmap strings numbers option sorting.
From S2P Require Import Prelude Errors PyDecimal Money Pricing Enums OrderState Tables Database Ledger Movements Promos.
From S2P Require Import Crypto Media Orders Invoices Payments Fulfillment.
Open Scope Z_scope.

(** [try: m; commit / except Exception: rollback; return False]. *)
Definition or_rollback (m : M bool) : M bool := λ d,
  match m d with
  | Ok r => Ok r
  | Raise _ => Ok (false, d)
  end.

(** Run every item, counting the ones that report True. *)
Fixpoint count_sweep (f : uuid → M bool) (ids : list uuid) : M Z :=
  match ids with
  | [] => mret 0
  | id :: ids =>
      b ← f id;
      n ← count_sweep f ids;
      mret ((if (b : bool) then 1 else 0) + n)
  end.

(** ** Expiry *)

(** Release the held wallet portion and expire the open gateway intent, if any. *)
Definition close_intent (invoice_id : uuid) (invoice : Invoice) : M () :=
  intent ← get_open_intent_for_invoice invoice_id;
  match intent with
  | Some (intent_id, i) =>
      (if 0 <? inv_amount_from_wallet invoice then
         w ← get_by_user (pin_user_id i);
         match w with
         | Some (wid, _) => release_hold wid (sar (inv_amount_from_wallet invoice))
         | None => mret ()
         end
       else mret ());;
      mark_expired intent_id i
  | None => mret ()
  end.

Definition expire_invoice_body (invoice_id : uuid) (invoice : Invoice) : M bool :=
  close_intent invoice_id invoice;;
  release invoice_id;;
  update_row invoice_id (invoice <| inv_status := InvoiceStatus.EXPIRED |>);;
  o ← lock_order_row (inv_order_id invoice);
  match o with
  | Some order =>
      if same (ord_status order) OrderStatus.WAITING_PAYMENT then
        lift (assert_transition (ord_status order) OrderStatus.ASSIGNED);;
        update_row (inv_order_id invoice)
          (order <| ord_status := OrderStatus.ASSIGNED |> <| ord_total_amount := 0 |>)
      else mret ()
  | None => mret ()
  end;;
  mret true.

Definition expire_invoice (invoice_id : uuid) : M bool :=
  i ← lock_invoice invoice_id;
  match i with
  | Some invoice =>
      if negb (same (inv_status invoice) InvoiceStatus.ISSUED) then mret false
      else or_rollback (expire_invoice_body invoice_id invoice)
  | None => mret false
  end.

Definition expire_topup_intent (intent_id : uuid) : M bool :=
  i ← lock_intent intent_id;
  match i with
  | Some intent =>
      if negb (same (pin_purpose intent) PaymentPurpose.WALLET_TOPUP) then mret false
      else or_rollback (mark_expired intent_id intent;; mret true)
  | None => mret false
  end.

Definition expire_stale (limit : nat) : M (Z * Z) :=
  now ← get_now;
  invoices ← list_expired_issued now limit;
  intents ← list_expired_new now limit;
  let topups := filter (λ p, same (pin_purpose p.2) PaymentPurpose.WALLET_TOPUP = true) intents in
  a ← count_sweep expire_invoice (fst <$> invoices);
  b ← count_sweep expire_topup_intent (fst <$> topups);
  mret (a, b).

(** ** Auto-approval *)

Definition auto_approve_delivered (settings : Settings) (limit : nat) : M Z :=
  cutoff ← auto_approve_cutoff settings;
  due ← list_auto_approve_due cutoff limit;
  count_sweep (λ id, or_rollback (auto_approve settings id)) (fst <$> due).

(** ** Reconciliation, and the lock around every job *)

Definition run_reconciliation : M ReconcileReport := reconcile.

(** [redis_lock] around a job, and [except LockNotAcquiredError: log].  The items of the job commit in sessions of their own, so
    what they did stays also when the job fails: its outcome is a value.  The job is not started when redis does not answer or
    another worker holds the key, and fails at the end when redis does not answer the release. *)
Definition locked_job {A} (key : string) (m : M A) : M (res ()) := λ d,
  if negb (lk_acquire (db_locks d)) then Ok (Raise RedisError, d)
  else if bool_decide (key ∈ lk_keys (db_locks d)) then Ok (Ok (), d)
  else
    let '(r, d') := match m d with Ok (_, d') => (Ok (), d') | Raise e => (Raise e, d) end in
    Ok (if lk_release (db_locks d) then match r with Raise LockNotAcquiredError => Ok () | _ => r end else Raise RedisError, d').

Definition run_expire_stale : M (res ()) := locked_job "job:expire_stale" (expire_stale 200).

Definition run_auto_approve (settings : Settings) : M (res ()) :=
  locked_job "job:auto_approve" (auto_approve_delivered settings 100).

Definition reconcile_ledger : M (res ()) := locked_job "job:reconcile_ledger" run_reconciliation.

(** ** Framing *)

Lemma keeps_or_rollback P m : keeps P m → keeps P (or_rollback m).
Proof.
  intros Hm d b d' HP Hr. unfold or_rollback in Hr. destruct (m d) as [[x d1]|] eqn:E;
    injection Hr as <- <-; [by eapply Hm|done].
Qed.

Lemma keeps_count_sweep P f ids : (∀ id, keeps P (f id)) → keeps P (count_sweep f ids).
Proof. intros Hf. induction ids as [|id ids IH]; cbn; keeps_auto. Qed.

Lemma keeps_locked_job P {A} key (m : M A) : keeps P m → keeps P (locked_job key m).
Proof.
  intros Hm d u d' HP Hr. unfold locked_job in Hr. destruct (negb _); [by injection Hr as _ <-|].
  destruct (bool_decide _); [by injection Hr as _ <-|]. destruct (m d) as [[x d1]|] eqn:E; injection Hr as _ <-; [|done]. by eapply Hm.
Qed.

Lemma keeps_reconcile P : keeps P reconcile.
Proof.
  unfold reconcile, all_wallets, settled_sums_by_wallet, correlation_drift_sums, correlation_count.
  intros d r d' HP Hr. inv_run Hr. repeat match goal with E : _ = Ok _ |- _ => injection E as _ <- end. done.
Qed.

#[export] Hint Resolve keeps_or_rollback keeps_count_sweep keeps_locked_job keeps_reconcile : giftly.

Section WorkerFrame.
Context (P : db → Prop) `{!FrameNext P} `{!Frame P PaymentIntent} `{!Frame P Invoice} `{!Frame P Order}.
Context (Hrel : ∀ w a, keeps P (release_hold w a)) (Hpromo : ∀ i, keeps P (release i)).

Lemma frame_close_intent i inv : keeps P (close_intent i inv).
Proof. unfold close_intent. keeps_auto. Qed.

Lemma frame_expire_body i inv : keeps P (expire_invoice_body i inv).
Proof. pose proof frame_close_intent. unfold expire_invoice_body. keeps_auto. Qed.

Lemma frame_expire_invoice i : keeps P (expire_invoice i).
Proof. pose proof frame_expire_body. unfold expire_invoice. keeps_auto. Qed.

Lemma frame_expire_topup i : keeps P (expire_topup_intent i).
Proof. unfold expire_topup_intent, lock_intent. keeps_auto. Qed.

Lemma frame_expire_stale n : keeps P (expire_stale n).
Proof.
  pose proof frame_expire_invoice. pose proof frame_expire_topup.
  unfold expire_stale, list_expired_issued, list_expired_new. keeps_auto.
Qed.

Lemma frame_auto_approve_sweep s n : (∀ id, keeps P (auto_approve s id)) → keeps P (auto_approve_delivered s n).
Proof.
  intros Ha. unfold auto_approve_delivered, auto_approve_cutoff. keeps_auto.
  by intros d l d' HP [= _ <-].
Qed.
End WorkerFrame.

#[export] Hint Resolve frame_close_intent : giftly.

(** ** Expiring an invoice *)

Definition expired_row (i : Invoice) : Invoice := i <| inv_status := InvoiceStatus.EXPIRED |>.

Definition reopened (o : Order) : Order :=
  if same (ord_status o) OrderStatus.WAITING_PAYMENT
  then o <| ord_status := OrderStatus.ASSIGNED |> <| ord_total_amount := 0 |> else o.

Lemma open_intent_ok (iid : uuid) (d : db) (x : option (uuid * PaymentIntent)) (d' : db) :
  get_open_intent_for_invoice iid d = Ok (x, d') →
  d' = d ∧ match x with
           | Some (k, i) => tb_payment_intents d !! k = Some i ∧ pin_reference_invoice_id i = Some iid ∧
               pin_status i = PaymentIntentStatus.NEW
           | None => ∀ k i, tb_payment_intents d !! k = Some i → pin_reference_invoice_id i = Some iid →
               pin_status i ≠ PaymentIntentStatus.NEW
           end.
Proof.
  unfold get_open_intent_for_invoice. intros Hr.
  destruct (scalar_run (λ _ i, same (pin_reference_invoice_id i) (Some iid) && same (pin_status i) PaymentIntentStatus.NEW) d)
    as (y & E & Hy).
  rewrite E in Hr. injection Hr as <- <-. split; [done|]. destruct y as [[k i]|].
  - destruct Hy as [Hl [H1 H2]%andb_true_iff]. apply (proj1 (same_true _ _)) in H1, H2. done.
  - intros k i Hi Href Hst. specialize (Hy _ _ Hi). by rewrite !(proj2 (same_true _ _)) in Hy.
Qed.

Definition intent_closed (iid : uuid) (i : Invoice) (d d' : db) : Prop :=
  (∃ k n, tb_payment_intents d !! k = Some n ∧ pin_reference_invoice_id n = Some iid ∧
     pin_status n = PaymentIntentStatus.NEW ∧
     tb_payment_intents d' = <[k := n <| pin_status := PaymentIntentStatus.EXPIRED |>]> (tb_payment_intents d) ∧
     ∀ cw, user_wallet d (pin_user_id n) cw → ∀ j,
       held d' j = if same j cw && (0 <? inv_amount_from_wallet i)
                   then Z.max 0 (held d j - inv_amount_from_wallet i) else held d j) ∨
  ((∀ k n, tb_payment_intents d !! k = Some n → pin_reference_invoice_id n = Some iid → pin_status n ≠ PaymentIntentStatus.NEW) ∧
   tb_payment_intents d' = tb_payment_intents d ∧ ∀ j, held d' j = held d j).

Lemma user_wallet_unique (d : db) (uid a b : uuid) :
  ledger_ok d → user_wallet d uid a → user_wallet d uid b → a = b.
Proof.
  intros Hd (w & Hw & Hu) (w' & Hw' & Hu'). destruct (decide (a = b)) as [|Hne]; [done|].
  pose proof (lk_wunique _ Hd _ _ _ _ Hw Hw' Hne) as Hc. unfold conflicts_wallets in Hc.
  rewrite Hu, Hu' in Hc. unfold same_some, same in Hc. by rewrite bool_decide_eq_true_2 in Hc.
Qed.

Lemma close_intent_ok (iid : uuid) (i : Invoice) (d : db) (u : ()) (d' : db) :
  ledger_ok d → 0 ≤ inv_amount_from_wallet i < 10 ^ 12 → close_intent iid i d = Ok (u, d') →
  intent_closed iid i d d' ∧ (∀ j, bal d' j = bal d j) ∧ tb_transactions d' = tb_transactions d.
Proof.
  intros Hd Hi Hr. unfold close_intent in Hr. apply bind_ok in Hr as (x & d0 & [-> Hx]%open_intent_ok & Hr).
  destruct x as [[k n]|].
  2:{ injection Hr as _ <-. split; [by right|done]. }
  destruct Hx as (Hk & Href & Hst). apply bind_ok in Hr as (u1 & d1 & Hh & Hr). unfold mark_expired in Hr. inv_writes.
  assert (tb_payment_intents d1 = tb_payment_intents d ∧ (∀ j, bal d1 j = bal d j) ∧ tb_transactions d1 = tb_transactions d ∧
    ∀ cw, user_wallet d (pin_user_id n) cw → ∀ j, held d1 j = if same j cw && (0 <? inv_amount_from_wallet i)
                   then Z.max 0 (held d j - inv_amount_from_wallet i) else held d j) as (E1 & E2 & E3 & E4).
  { destruct (0 <? inv_amount_from_wallet i).
    2:{ injection Hh as _ <-. repeat (split; [done|]). intros cw _ j. by rewrite andb_false_r. }
    apply bind_ok in Hh as (w & d2 & [-> Hw]%get_by_user_ok & Hh). destruct w as [[wid w]|].
    - destruct Hw as [Hw Hu]. same_after tb_payment_intents Hh.
      destruct (release_hold_neutral _ _ _ _ _ Hd Hi Hh) as [Et Eb].
      pose proof (release_hold_held _ _ _ _ _ Hd Hi Hh) as Ehd. repeat (split; [done|]). intros cw Hcw j.
      assert (cw = wid) as -> by (eapply user_wallet_unique; [done|exact Hcw|by exists w]). by rewrite andb_true_r.
    - injection Hh as _ <-. repeat (split; [done|]). intros cw (w & Hcw & Hu). by destruct (Hw _ _ Hcw). }
  split; [|done]. left. exists k, n. do 3 (split; [done|]). split; [cbn; by rewrite E1|exact E4].
Qed.

Lemma intent_closed_frame (iid : uuid) (i : Invoice) (d d1 d' : db) :
  tb_wallets d' = tb_wallets d1 → tb_payment_intents d' = tb_payment_intents d1 →
  intent_closed iid i d d1 → intent_closed iid i d d'.
Proof. intros W N. unfold intent_closed, held. by rewrite W, N. Qed.

(** What a successful expiry does. *)
Record expired (iid : uuid) (i : Invoice) (d d' : db) : Prop := {
  ex_issued : inv_status i = InvoiceStatus.ISSUED;
  ex_invoice : tb_invoices d' = <[iid := expired_row i]> (tb_invoices d);
  ex_order : ∀ o, tb_orders d !! inv_order_id i = Some o →
    tb_orders d' = <[inv_order_id i := reopened o]> (tb_orders d) ∧
    (ord_status o ≠ OrderStatus.WAITING_PAYMENT ∨ order_step (ord_status o) (ord_status (reopened o)));
  ex_no_order : tb_orders d !! inv_order_id i = None → tb_orders d' = tb_orders d;
  ex_intent : intent_closed iid i d d';
  ex_money : (∀ j, bal d' j = bal d j) ∧ tb_transactions d' = tb_transactions d;
  ex_promo : slot_returned iid d d' ∧ promo_ok d';
}.

Lemma expire_returns_slot (iid : uuid) (i : Invoice) (d : db) (b : bool) (d' : db) :
  promo_ok d → expire_invoice_body iid i d = Ok (b, d') → slot_returned iid d d'.
Proof.
  intros Hp Hr. unfold expire_invoice_body, lock_order_row in Hr. apply bind_ok in Hr as (u1 & d1 & Hc & Hr).
  same_after tb_promos Hc. same_after tb_promo_redemptions Hc. same_after db_now Hc.
  assert (promo_ok d1) as Hp1 by by apply (promo_frame d).
  apply bind_ok in Hr as (u2 & d2 & Hrel & Hr). apply release_returns in Hrel as (x & Hx & H2); [|done].
  apply bind_ok in Hr as (u3 & d3 & Hu & Hr). inv_writes. erewrite bind_run in Hr by reflexivity. cbn in Hr.
  apply bind_ok in Hr as (u4 & d4 & Ho & Hr). injection Hr as _ <-.
  same_after tb_promos Ho. same_after tb_promo_redemptions Ho. unfold slot_returned. rewrite K2, K3. rewrite <- K, <- K0, <- K1.
  by exists x.
Qed.

Lemma expire_invoice_body_ok (iid : uuid) (i : Invoice) (d : db) (b : bool) (d' : db) :
  ledger_ok d → promo_ok d → 0 ≤ inv_amount_from_wallet i < 10 ^ 12 → inv_status i = InvoiceStatus.ISSUED →
  expire_invoice_body iid i d = Ok (b, d') → b = true ∧ expired iid i d d'.
Proof.
  intros Hd Hp Hi Hst Hr. assert (slot_returned iid d d') as Hslot by by eapply expire_returns_slot.
  assert (promo_ok d') as Hpromo.
  { eapply (frame_expire_body promo_ok); [..|exact Hp|exact Hr]; auto with giftly typeclass_instances. }
  unfold expire_invoice_body, lock_order_row in Hr. apply bind_ok in Hr as (u1 & d1 & Hc & Hr).
  same_after tb_invoices Hc. same_after tb_orders Hc. apply close_intent_ok in Hc as (Hint & Hbal & Htx); [|done..].
  apply bind_ok in Hr as (u2 & d2 & Hrel & Hr).
  same_after tb_invoices Hrel. same_after tb_orders Hrel. same_after tb_wallets Hrel. same_after tb_transactions Hrel.
  same_after tb_payment_intents Hrel.
  apply bind_ok in Hr as (u3 & d3 & Hu & Hr). inv_writes. erewrite bind_run in Hr by reflexivity. cbn in Hr.
  apply bind_ok in Hr as (u4 & d4 & Ho & Hr). injection Hr as <- <-. split; [done|].
  rewrite K2, K0 in Ho.
  assert (tb_wallets d4 = tb_wallets d1 ∧ tb_transactions d4 = tb_transactions d1 ∧ tb_payment_intents d4 = tb_payment_intents d1
    ∧ tb_invoices d4 = <[iid := expired_row i]> (tb_invoices d)) as (W & T & N & I).
  { same_after tb_wallets Ho. same_after tb_transactions Ho. same_after tb_payment_intents Ho. same_after tb_invoices Ho.
    rewrite K6, K7, K8, K9. unfold expired_row. rewrite K1, K. done. }
  constructor; [done|exact I| | |by eapply intent_closed_frame|split; [intros j; unfold bal at 1; rewrite W; apply Hbal|congruence]|done].
  - intros o Eo. rewrite Eo in Ho. unfold reopened. destruct (same (ord_status o) _) eqn:Es.
    + apply bind_ok in Ho as (u5 & d5 & [Hs%assert_transition_ok ->]%lift_ok & Ho). inv_writes. split; [cbn; by rewrite K2, K0|by right].
    + injection Ho as _ <-. apply bool_decide_eq_false in Es. split; [|by left]. cbn. rewrite K2, K0. symmetry. by apply insert_id.
  - intros Eo. rewrite Eo in Ho. injection Ho as _ <-. cbn. by rewrite K2, K0.
Qed.

(** ** What the sweeps do to the orders *)

(** An operation under which the orders only evolve. *)
Definition evolves {A} (m : M A) : Prop := ∀ d a d', m d = Ok (a, d') → orders_evolve d d'.

Lemma evolves_or_rollback m : evolves m → evolves (or_rollback m).
Proof.
  intros Hm d b d' Hr. unfold or_rollback in Hr. destruct (m d) as [[x d1]|] eqn:E; injection Hr as <- <-;
    [by eapply Hm|reflexivity].
Qed.

Lemma evolves_count_sweep f ids : (∀ id, evolves (f id)) → evolves (count_sweep f ids).
Proof.
  intros Hf. induction ids as [|id ids IH]; intros d n d' Hr; cbn in Hr; [injection Hr as _ <-; reflexivity|].
  inv_run Hr. etransitivity; [by eapply Hf|by eapply IH].
Qed.

Lemma evolves_locked_job {A} key (m : M A) : evolves m → evolves (locked_job key m).
Proof.
  intros Hm d u d' Hr. unfold locked_job in Hr. destruct (negb _); [injection Hr as _ <-; reflexivity|].
  destruct (bool_decide _); [injection Hr as _ <-; reflexivity|].
  destruct (m d) as [[x d1]|] eqn:E; injection Hr as _ <-; [|reflexivity]. by eapply Hm.
Qed.

Lemma evolves_expire_invoice iid : evolves (expire_invoice iid).
Proof.
  intros d b d' Hr. unfold expire_invoice, lock_invoice in Hr. erewrite bind_run in Hr by reflexivity. cbn in Hr.
  destruct (tb_invoices d !! iid) as [i|]; [|injection Hr as _ <-; reflexivity].
  destruct (negb _); [injection Hr as _ <-; reflexivity|].
  revert d b d' Hr. apply evolves_or_rollback. intros d b d' Hr. unfold expire_invoice_body, lock_order_row in Hr.
  apply bind_ok in Hr as (u1 & d1 & Hc & Hr). same_after tb_orders Hc.
  apply bind_ok in Hr as (u2 & d2 & Hrel & Hr). same_after tb_orders Hrel.
  apply bind_ok in Hr as (u3 & d3 & Hu & Hr). same_after tb_orders Hu. erewrite bind_run in Hr by reflexivity. cbn in Hr.
  transitivity d3; [apply evolve_same; congruence|].
  apply bind_ok in Hr as (u4 & d4 & Hmove & Hr). injection Hr as _ <-.
  destruct (tb_orders d3 !! inv_order_id i) as [o|] eqn:Ho; [|injection Hmove as _ <-; reflexivity].
  destruct (same _ _); [|injection Hmove as _ <-; reflexivity].
  apply bind_ok in Hmove as (u5 & d5 & [Hs%assert_transition_ok ->]%lift_ok & Hmove). inv_writes.
  by eapply evolve_move; [exact Ho|..|reflexivity].
Qed.

Lemma evolves_expire_topup k : evolves (expire_topup_intent k).
Proof.
  intros d b d' Hr. apply evolve_same. eapply (keeps_reads tb_orders); [|exact Hr].
  apply frame_expire_topup; auto with giftly typeclass_instances.
Qed.

Lemma evolves_expire_stale n : evolves (expire_stale n).
Proof.
  intros d r d' Hr. unfold expire_stale, list_expired_issued, list_expired_new in Hr.
  erewrite bind_run in Hr by reflexivity. erewrite bind_run in Hr by (erewrite bind_run by reflexivity; reflexivity).
  erewrite bind_run in Hr by (erewrite bind_run by reflexivity; reflexivity).
  apply bind_ok in Hr as (a & d1 & H1 & Hr). apply bind_ok in Hr as (b & d2 & H2 & Hr). injection Hr as _ <-.
  transitivity d1; [by eapply (evolves_count_sweep _ _ evolves_expire_invoice)|
    by eapply (evolves_count_sweep _ _ evolves_expire_topup)].
Qed.

Lemma evolves_auto_approve_sweep s n : evolves (auto_approve_delivered s n).
Proof.
  intros d r d' Hr. unfold auto_approve_delivered, auto_approve_cutoff in Hr.
  erewrite bind_run in Hr by (erewrite bind_run by reflexivity; reflexivity). erewrite bind_run in Hr by reflexivity.
  revert Hr. apply evolves_count_sweep. intros id. apply evolves_or_rollback. intros d0 b d1. apply auto_approve_evolve.
Qed.

(** ** Properties *)

(** [C25] Expiry gives everything back: a successful expiry of an invoice ISSUED until then
    marks it EXPIRED, closes its open gateway intent and releases exactly the wallet part
    on hold for it, turns its RESERVED promo redemption into RELEASED and takes one off that promo's counter
    (a redemption in another state, or none, changes nothing), reopens the order to ASSIGNED if it was waiting for the payment, and moves no money; an
    expiry that reports False leaves the database as it was. *)
Theorem expire_invoice_effect (iid : uuid) (d : db) (b : bool) (d' : db) :
  ledger_ok d → promo_ok d → (∀ i, tb_invoices d !! iid = Some i → invoice_range i) →
  expire_invoice iid d = Ok (b, d') →
  if b then ∃ i, tb_invoices d !! iid = Some i ∧ expired iid i d d' else d' = d.
Proof.
  intros Hd Hp Hrange Hr. unfold expire_invoice, lock_invoice in Hr. erewrite bind_run in Hr by reflexivity. cbn in Hr.
  destruct (tb_invoices d !! iid) as [i|] eqn:Ei; [|by injection Hr as <- <-].
  destruct (same (inv_status i) InvoiceStatus.ISSUED) eqn:Es; cbn in Hr; [|by injection Hr as <- <-].
  apply (proj1 (same_true _ _)) in Es. destruct (Hrange i eq_refl) as (_ & Hw & _).
  assert (∀ c d1, expire_invoice_body iid i d = Ok (c, d1) → c = true ∧ expired iid i d d1) as Hbody
    by (intros c d1; by apply expire_invoice_body_ok).
  unfold or_rollback in Hr. destruct (expire_invoice_body iid i d) as [[c d1]|] eqn:E; injection Hr as <- <-; [|done].
  destruct (Hbody c d1 eq_refl) as [-> Hx]. by exists i.
Qed.

(** The split payment of 507.15 was started, a slot of promo 80 reserved, and the window has lapsed. *)
Definition lapsed_slot : PromoRedemption := mk_PromoRedemption 80 70 40 50 1000 PromoRedemptionStatus.RESERVED None None 0.

Definition db_lapsed : db :=
  (state_after start_payment db_split)
  <| db_now := 90000 |>
  <| tb_promos := {[ 80%N := promo_row <| pm_used_count := 1 |> ]} |>
  <| tb_promo_redemptions := {[ 81%N := lapsed_slot ]} |>.

Lemma promo_ok_lapsed : promo_ok db_lapsed.
Proof.
  constructor.
  - intros pid p Hp. enum_lookup Hp. vm_compute. reflexivity.
  - intros pid p Hp. enum_lookup Hp. vm_compute. reflexivity.
  - intros pid p uid Hp. enum_lookup Hp.
    change (tb_promo_redemptions db_lapsed) with ({[ 81%N := lapsed_slot ]} : gmap uuid PromoRedemption).
    unfold user_uses. rewrite (map_total_delete _ _ 81%N lapsed_slot) by done.
    rewrite delete_singleton_eq, map_total_empty. cbn. destruct (same 70%N uid); vm_compute; discriminate.
  - intros rid r Hr. enum_lookup Hr. vm_compute. eauto.
Qed.

Lemma expire_invoice_effect_witness :
  ∃ d' i, expire_invoice 40 db_lapsed = Ok (true, d') ∧ tb_invoices db_lapsed !! 40%N = Some i ∧ expired 40 i db_lapsed d'.
Proof.
  destruct (answered (expire_invoice 40 db_lapsed) true) as [d' E]; [vm_compute; reflexivity|].
  assert (ledger_ok db_lapsed) as Hd.
  { unfold db_lapsed. assert (ledger_ok db_split) as H0 by (apply (ledger_frame db0); [done..|]; apply ledger_ok_db0).
    generalize (keeps_state_after ledger_ok _ _ (@keeps_ledger_pay gateway0 settings0 40 70) H0).
    fold start_payment. generalize (state_after start_payment db_split). intros d. by apply ledger_frame. }
  assert (∀ i, tb_invoices db_lapsed !! 40%N = Some i → invoice_range i) as Hi.
  { intros i Hi. vm_compute in Hi. injection Hi as <-. unfold invoice_range. cbn. lia. }
  destruct (expire_invoice_effect 40 db_lapsed true d' Hd promo_ok_lapsed Hi E) as (i & H1 & H2).
  exists d', i. split; [exact E|]. split; [exact H1|exact H2].
Defined.

Lemma count_sweep_total (f : uuid → M bool) (ids : list uuid) (d : db) :
  (∀ id d, ∃ b d', f id d = Ok (b, d')) → ∃ n d', count_sweep f ids d = Ok (n, d') ∧ 0 ≤ n ≤ Z.of_nat (length ids).
Proof.
  intros Hf. revert d. induction ids as [|id ids IH]; intros d; [by exists 0, d|]. cbn.
  destruct (Hf id d) as (b & d1 & E). destruct (IH d1) as (n & d2 & E2 & Hn). erewrite bind_run by exact E.
  erewrite bind_run by exact E2. eexists _, d2. split; [done|]. destruct b; lia.
Qed.

Lemma or_rollback_runs (m : M bool) (d : db) : ∃ b d', or_rollback m d = Ok (b, d').
Proof. unfold or_rollback. destruct (m d) as [[b d1]|]; eauto. Qed.

Lemma expire_invoice_total (iid : uuid) (d : db) : ∃ b d', expire_invoice iid d = Ok (b, d').
Proof.
  unfold expire_invoice, lock_invoice. erewrite bind_run by reflexivity. cbn.
  destruct (tb_invoices d !! iid) as [i|]; [|by exists false, d]. destruct (negb _); [by exists false, d|apply or_rollback_runs].
Qed.

Lemma expire_topup_total (k : uuid) (d : db) : ∃ b d', expire_topup_intent k d = Ok (b, d').
Proof.
  unfold expire_topup_intent, lock_intent. erewrite bind_run by reflexivity. cbn.
  destruct (tb_payment_intents d !! k) as [i|]; [|by exists false, d]. destruct (negb _); [by exists false, d|apply or_rollback_runs].
Qed.

(** What a job around a sweep that finishes does: nothing and an error when redis does not answer the acquisition, nothing when another
    worker holds the key, else all of the sweep, with an error only if redis does not answer the release. *)
Definition job_outcome {A} (key : string) (m : M A) (d : db) (r : res ()) (d' : db) : Prop :=
  if negb (lk_acquire (db_locks d)) then r = Raise RedisError ∧ d' = d
  else if bool_decide (key ∈ lk_keys (db_locks d)) then r = Ok () ∧ d' = d
  else (∃ a, m d = Ok (a, d')) ∧ r = if lk_release (db_locks d) then Ok () else Raise RedisError.

Lemma locked_job_runs {A} (key : string) (m : M A) (d : db) (a : A) (d1 : db) :
  m d = Ok (a, d1) → ∃ r d', locked_job key m d = Ok (r, d') ∧ job_outcome key m d r d'.
Proof.
  intros E. unfold locked_job, job_outcome. destruct (negb _); [eauto|]. destruct (bool_decide _); [eauto|]. rewrite E.
  destruct (lk_release _); eauto 6.
Qed.

(** [C26] The sweeps are total: whatever state they find, and whatever single items raise, the
    expiry sweep and the auto-approve sweep finish and count at most what they selected.  The scheduled jobs around them
    do all of the sweep or nothing: nothing when another worker holds the lock, and nothing but an error when redis does not answer
    the acquisition; a job whose release redis does not answer has done its sweep and fails. *)
Theorem sweeps_total (s : Settings) (limit : nat) (d : db) :
  (∃ a b d', expire_stale limit d = Ok ((a, b), d') ∧ 0 ≤ a ≤ Z.of_nat limit ∧ 0 ≤ b ≤ Z.of_nat limit) ∧
  (∃ n d', auto_approve_delivered s limit d = Ok (n, d') ∧ 0 ≤ n ≤ Z.of_nat limit) ∧
  (∃ r d', run_expire_stale d = Ok (r, d') ∧ job_outcome "job:expire_stale" (expire_stale 200) d r d') ∧
  (∃ r d', run_auto_approve s d = Ok (r, d') ∧ job_outcome "job:auto_approve" (auto_approve_delivered s 100) d r d').
Proof.
  assert (∀ limit, ∃ a b d', expire_stale limit d = Ok ((a, b), d') ∧ 0 ≤ a ≤ Z.of_nat limit ∧ 0 ≤ b ≤ Z.of_nat limit) as H1.
  { clear limit. intros limit. unfold expire_stale. erewrite bind_run by reflexivity.
    unfold list_expired_issued, list_expired_new. erewrite bind_run by (erewrite bind_run by reflexivity; reflexivity).
    erewrite bind_run by (erewrite bind_run by reflexivity; reflexivity).
    set (tops := fst <$> _). set (ids := fst <$> _).
    assert (length ids ≤ limit)%nat as L1 by (unfold ids; rewrite length_fmap, length_take; lia).
    assert (length tops ≤ limit)%nat as L2.
    { unfold tops. rewrite length_fmap. etransitivity; [apply length_filter|]. rewrite length_take. lia. }
    destruct (count_sweep_total expire_invoice ids d expire_invoice_total) as (a & d1 & E1 & Ha).
    destruct (count_sweep_total expire_topup_intent tops d1 expire_topup_total) as (b & d2 & E2 & Hb).
    erewrite bind_run by exact E1. erewrite bind_run by exact E2. exists a, b, d2. split; [done|]. lia. }
  assert (∀ limit, ∃ n d', auto_approve_delivered s limit d = Ok (n, d') ∧ 0 ≤ n ≤ Z.of_nat limit) as H2.
  { clear limit. intros limit. unfold auto_approve_delivered, auto_approve_cutoff.
    erewrite bind_run by (erewrite bind_run by reflexivity; reflexivity). erewrite bind_run by reflexivity.
    set (ids := fst <$> _).
    assert (length ids ≤ limit)%nat as L1 by (unfold ids; rewrite length_fmap, length_take; lia).
    destruct (count_sweep_total (λ id, or_rollback (auto_approve s id)) ids d) as (n & d1 & E1 & Hn).
    { intros id d0. apply or_rollback_runs. }
    exists n, d1. split; [done|]. lia. }
  split; [apply H1|]. split; [apply H2|]. split.
  - destruct (H1 200%nat) as (a & b & d' & E & _). by eapply locked_job_runs.
  - destruct (H2 100%nat) as (n & d' & E & _). by eapply locked_job_runs.
Qed.

(** A paid top-up can still be expired by the sweep that selected it before the
    payment: the status is not checked again under the lock. *)
Theorem paid_topup_expirable :
  let run := @handle_webhook gateway0 repr0 loads0 "paid" "ok";; expire_topup_intent 45 in
  match run db_topup with
  | Ok (b, d) => b = true ∧ bal d 5 = 35000 ∧ (pin_status <$> tb_payment_intents d !! 45%N) = Some PaymentIntentStatus.EXPIRED
  | Raise _ => False
  end.
Proof. vm_compute. repeat split; reflexivity. Qed.

(** After a failed payment and a retry the expiry of the invoice does not find the
    first hold either. *)
Theorem stranded_hold_survives_expiry :
  exposure ((start_payment;; deliver "PAYMENT_FAILED" "FAILED";; start_payment;; expire_invoice 40) db_split)
  = Some (30000, 30000, Some 0).
Proof. vm_compute. reflexivity. Qed.
