(* ===== verification/Footprints.v ===== *)
(** * Which tables an operation can touch

    The operations around the market (accounts, devices, chat, ratings, receipts, key rotation, the
    dashboard) keep every property that does not depend on the tables they write.  System.v
    instantiates these lemmas with the invariants of money, holds, promos and orders. *)

From Stdlib Require Import ZArith Lia.
From stdpp Require Import base list gmap strings numbers option pretty sorting.
From S2P Require Import Prelude Errors PyDecimal Money Pricing Enums OrderState Tables Database Constraints Redis RateLimit.
From S2P Require Import Ledger Users Promos Crypto Media Orders Invoices Config Fields Tokens Otp Auth AdminAuth Chat Ratings Receipts.
From S2P Require Import Withdrawals AdminReads Admin Dashboard KeyRotation.
Open Scope Z_scope.

(** A property of tables the account operations do not write. *)
Class AccountFrame (P : db → Prop) : Prop := {
  #[global] af_next :: FrameNext P;
  #[global] af_tokens :: Frame P RefreshToken;
  #[global] af_users :: Frame P User;
  #[global] af_couriers :: Frame P CourierProfile;
  #[global] af_devices :: Frame P DeviceToken;
  #[global] af_conversations :: Frame P Conversation;
  #[global] af_messages :: Frame P Message;
  #[global] af_ratings :: Frame P Rating;
  #[global] af_sessions :: Frame P AdminSession;
  #[global] af_audit :: Frame P AuditLog;
}.

Section Accounts.
Context `{SecurityLib} `{SmsClient} `{AesGcm} `{PushClient} (s : AppSettings) (P : db → Prop) `{!AccountFrame P}.

Lemma frame_send_otp phone : preserves P (send_otp s phone).
Proof. unfold send_otp, request_otp, generate_otp. preserves_auto. Qed.

Lemma frame_tokens u r : preserves P (issue_tokens s u r).
Proof. apply frame_issue_tokens; apply _. Qed.

Hint Resolve frame_tokens : giftly.

Lemma frame_otp_sign_in phone code : preserves P (auth_verify_otp s phone code).
Proof. unfold auth_verify_otp, verify_otp, create_registration_token. preserves_auto. Qed.

Lemma frame_new_refresh_ u f : preserves P (new_refresh s u f).
Proof. apply frame_new_refresh; apply _. Qed.

Hint Resolve frame_new_refresh_ preserves_access_token : giftly.

Context (Hwallet : ∀ u ty, keeps P (open_wallet u ty)).

Lemma frame_register token data : preserves P (register s token data).
Proof.
  unfold register, register_courier, encrypt_identity, create_customer, create_courier_user, add_courier_wallet_and_profile.
  preserves_auto.
Qed.

Lemma frame_require_auth header : preserves P (require_auth s header).
Proof. unfold require_auth. preserves_auto. Qed.

Hint Resolve frame_require_auth : giftly.

Lemma frame_logout header : preserves P (logout_handler s header).
Proof. unfold logout_handler, logout. preserves_auto. Qed.

Lemma frame_purge : keeps P (purge_refresh_tokens s).
Proof. unfold purge_refresh_tokens, purge_expired. keeps_auto. Qed.

(** ** Chat *)

Lemma frame_send_message k u text : preserves P (send_message s k u text).
Proof.
  unfold send_message, encrypt_content, encrypt_preview, require_conversation, conversation_for_actor, add_message. preserves_auto.
Qed.

Lemma frame_publish iso ty m : preserves P (publish_message iso ty m).
Proof.
  unfold publish_message. preserves_auto. intros w HP. unfold command. by destruct (w_up w).
Qed.

Hint Resolve frame_send_message frame_publish : giftly.

Lemma frame_post_message iso ty k a text : preserves P (post_message s iso ty k a text).
Proof. unfold post_message, conversation_for_actor. preserves_auto. Qed.

Lemma frame_mark_read k a : preserves P (mark_read k a).
Proof. unfold mark_read, require_conversation, conversation_for_actor, mark_read_rows. preserves_auto. Qed.

Lemma frame_handle_frame iso ty js k a r raw : preserves P (handle_frame s iso ty js k a r raw).
Proof. unfold handle_frame, check_guarded, guarded_window_lua, window_lua. preserves_auto. Qed.

Lemma frame_rate o r n c : keeps P (rate o r n c).
Proof. unfold rate, create_rating, exists_for_rater. keeps_auto. Qed.

(** ** Dashboard *)

Lemma frame_login uuid5 u p ua ip : preserves P (login s uuid5 u p ua ip).
Proof.
  unfold login, complete_login, check_login_throttle, clear_login_throttle, ensure_dashboard_admin, generate_session_token,
    create_admin_session. preserves_auto.
Qed.

Lemma frame_dashboard_logout c : preserves P (dashboard_logout c).
Proof. unfold dashboard_logout, admin_logout, get_active, revoke_session. preserves_auto. Qed.

Lemma frame_require_admin c : preserves P (require_admin s c).
Proof. unfold require_admin, load_session, get_active, touch. preserves_auto. Qed.

Hint Resolve frame_require_admin : giftly.

Lemma preserves_reading {A} (m : T A) : reading m → preserves P m.
Proof. intros Hm w HP. by rewrite Hm. Qed.

Lemma frame_page tr c p : preserves P (serve_page s tr c p).
Proof.
  destruct (page_reads s tr c p) as (k & -> & Hk). apply preserves_bind; [auto with giftly|]. intros ctx. apply preserves_reading, Hk.
Qed.

(** The forms, given what the three that write orders do. *)
Context (Hcreate : ∀ a c x city dt lng lat n ip, preserves P (admin_create_order a c x city dt lng lat n ip)).
Context (Hupdate : ∀ a o x city dt n ip, preserves P (update_order_details a o x city dt n ip)).
Context (Hdelete : ∀ a o ip, preserves P (delete_order a o ip)).

Lemma frame_form c t ip f : preserves P (serve_form s c t ip f).
Proof.
  rewrite serve_form_checked. unfold checked_form. apply preserves_bind; [auto with giftly|intros ctx].
  apply preserves_bind; [auto with giftly|intros _].
  apply preserves_bind; [unfold require_step_up, has_step_up; preserves_auto|intros _].
  destruct f; cbn [run_form]; unfold grant_step_up, check_login_throttle, clear_login_throttle, create_courier_profile,
    verify_courier, reveal_identity, reveal_field, update_courier_profile, delete_courier_profile, create_user, set_user_banned,
    update_user_profile, taken_by_other, delete_user, record_, record; preserves_auto.
Qed.
End Accounts.

(** ** Receipts and key rotation *)

Section Jobs.
Context `{EmailClient} `{AesGcm} (s : AppSettings) (P : db → Prop) `{!AccountFrame P}.

Lemma preserves_nested {A} (m : T A) : preserves P m → preserves P (request m).
Proof.
  intros Hm w HP. pose proof (Hm (w <| w_saved := w_db w |>)) as Hw. cbn in Hw. destruct (Hw HP) as [H1 H2]. specialize (H2 HP).
  unfold request. destruct (m _) as [[a|e] w']; cbn in *; done.
Qed.

Hint Resolve preserves_nested : giftly.

Lemma frame_receipt_sweep iso ids : (∀ i, preserves P (send_receipt s iso i)) → preserves P (receipt_sweep s iso ids).
Proof. intros Hs. induction ids as [|i ids IH]; cbn [receipt_sweep]; preserves_auto. Qed.

Lemma frame_receipts iso n : (∀ i, preserves P (send_receipt s iso i)) → preserves P (send_pending_receipts s iso n).
Proof. intros Hs. pose proof (λ ids, frame_receipt_sweep iso ids Hs). unfold send_pending_receipts, list_receipt_pending. preserves_auto. Qed.

Lemma frame_rotate_rows {row} `{Table row} `{!Frame P row} (f : uuid → row → T (row * (Z * Z))) l :
  (∀ i r, preserves P (f i r)) → preserves P (rotate_rows f l).
Proof. intros Hf. induction l as [|[i r] l IH]; cbn [rotate_rows]; preserves_auto. Qed.

Lemma frame_rotate_value c v t col e : preserves P (rotate_value c v t col e).
Proof. unfold rotate_value, reencrypt. preserves_auto. Qed.

Hint Resolve frame_rotate_value : giftly.

Lemma frame_rotate `{!Frame P Withdrawal} : preserves P (rotate s).
Proof.
  unfold rotate, rotate_table. preserves_auto; apply frame_rotate_rows; auto with typeclass_instances; intros i r;
    unfold rotate_profile, rotate_conversation, rotate_withdrawal; preserves_auto.
Qed.
End Jobs.

(** ** Operations whose effect depends on the row they read

    [keeps_at P m w]: [m], run in [w], keeps [P]. *)

Definition keeps_at (P : db → Prop) {A} (m : T A) (w : world) : Prop :=
  P (w_db w) → P (w_db (m w).2) ∧ (P (w_saved w) → P (w_saved (m w).2)).

Lemma reading_required {A} (o : option A) (e : exn) : reading (required o e).
Proof. by destruct o. Qed.

Lemma reading_assert (b : bool) (e : exn) : reading (assert_ b e).
Proof. done. Qed.

Lemma reading_clock : reading clock.
Proof. done. Qed.

Lemma reading_today : reading date_today.
Proof. done. Qed.

#[export] Hint Resolve reading_required reading_assert reading_clock reading_today : reads.

Section At.
Context (P : db → Prop).

Lemma keeps_at_all {A} (m : T A) (w : world) : preserves P m → keeps_at P m w.
Proof. intros Hm. exact (Hm w). Qed.

Lemma keeps_at_bind {A B} (m : T A) (k : A → T B) (w : world) :
  keeps_at P m w → (∀ a w', m w = (Ok a, w') → keeps_at P (k a) w') → keeps_at P (m ≫= k) w.
Proof.
  intros Hm Hk HP. specialize (Hm HP). unfold mbind, T_bind. destruct (m w) as [[a|e] w'] eqn:E; [|exact Hm].
  destruct Hm as [H1 H2]. destruct (Hk a w' eq_refl H1) as [H3 H4]. split; [done|]. intros Hs. by apply H4, H2.
Qed.

Lemma keeps_at_reading {A B} (m : T A) (k : A → T B) (w : world) :
  reading m → (∀ a, m w = (Ok a, w) → keeps_at P (k a) w) → keeps_at P (m ≫= k) w.
Proof.
  intros Hm Hk. apply keeps_at_bind; [intros HP; by rewrite Hm|].
  intros a w' E. pose proof (Hm w) as Hw. rewrite E in Hw. cbn in Hw. subst w'. by apply Hk.
Qed.

Lemma keeps_at_db {A} (m : M A) (w : world) : (∀ a d', P (w_db w) → m (w_db w) = Ok (a, d') → P d') → keeps_at P (on_db m) w.
Proof.
  intros Hm HP. unfold on_db. destruct (m (w_db w)) as [[a d']|e] eqn:E; [|done]. split; [|done]. by eapply Hm.
Qed.
End At.

Section Known.
Context (P : db → Prop) `{!AccountFrame P}.

(** A new order; the details of a stored order; the removal of a NEW order; the stamp on a stored invoice. *)
Lemma frame_admin_create a c x city dt lng lat n ip :
  (∀ o : Order, keeps P (insert_row o)) → preserves P (admin_create_order a c x city dt lng lat n ip).
Proof. intros Ho. unfold admin_create_order, create_order_row, record_, record. preserves_auto. Qed.

Lemma frame_admin_update a oid x city dt n ip :
  (∀ d o o' u d', P d → tb_orders d !! oid = Some o → ord_status o' = ord_status o → ord_customer_id o' = ord_customer_id o →
     ord_courier_id o' = ord_courier_id o → update_row oid o' d = Ok (u, d') → P d') →
  preserves P (update_order_details a oid x city dt n ip).
Proof.
  intros Hu w. apply keeps_at_reading; [apply reading_get|]. intros o Eo. injection Eo as Eo.
  apply keeps_at_reading; [apply reading_required|]. intros r [-> _]%required_ok.
  do 4 (apply keeps_at_reading; [reading|intros ? _]). apply keeps_at_bind.
  - apply keeps_at_db. intros u d' HP Hr. unfold update_admin_details in Hr. by eapply Hu in Hr.
  - intros _ w' _. apply keeps_at_all. unfold record_, record. preserves_auto.
Qed.

Lemma frame_admin_delete a oid ip :
  (∀ d o u d', P d → tb_orders d !! oid = Some o → ord_status o = OrderStatus.NEW → delete_order_row oid d = Ok (u, d') → P d') →
  preserves P (delete_order a oid ip).
Proof.
  intros Hu w. apply keeps_at_reading; [apply reading_get|]. intros o Eo. injection Eo as Eo.
  apply keeps_at_reading; [apply reading_required|]. intros r [-> _]%required_ok.
  apply keeps_at_reading; [reading|]. intros ? [Hn%negb_false_iff _]%assert_ok. apply (proj1 (same_true _ _)) in Hn. apply keeps_at_bind.
  - apply keeps_at_db. intros u d' HP Hr. by eapply Hu in Hr.
  - intros _ w' _. apply keeps_at_all. unfold record_, record. preserves_auto.
Qed.

Lemma frame_send_receipt `{EmailClient} s iso iid :
  (∀ d i t u d', P d → tb_invoices d !! iid = Some i → mark_receipt_sent iid i t d = Ok (u, d') → P d') →
  preserves P (send_receipt s iso iid).
Proof.
  intros Hu w. apply keeps_at_reading; [apply reading_get|]. intros o Eo. injection Eo as Eo.
  destruct o as [i|]; [|by apply keeps_at_all; auto with giftly]. destruct (negb _); [by apply keeps_at_all; auto with giftly|].
  apply keeps_at_reading; [apply reading_db; intros d a d'; unfold receipt_address; intros Hr; by same_after (λ x : db, x) Hr|].
  intros address _. apply keeps_at_reading; [reading|]. intros now _. destruct address as [email|].
  - do 2 (apply keeps_at_reading; [reading|intros ? _]). apply keeps_at_bind; [apply keeps_at_all; auto with giftly|]. intros [] w' Ew.
    assert (w_db w' = w_db w) as Ed by (by injection Ew as <-).
    apply keeps_at_bind; [|intros; apply keeps_at_all; auto with giftly]. apply keeps_at_db. rewrite Ed. intros u d' HP Hr. by eapply Hu in Hr.
  - apply keeps_at_bind; [|intros; apply keeps_at_all; auto with giftly]. apply keeps_at_db. intros u d' HP Hr. by eapply Hu in Hr.
Qed.
End Known.
