(* ===== verification/Holds.v ===== *)
(** * Holds are backed

    The state invariant of the running system beyond the ledger: the stored rows
    satisfy their constraints, every amount on hold is covered by the balance of the
    same wallet, system wallets hold nothing, and the wallet part recorded on an
    invoice is never negative.  Every operation keeps it; it discharges the
    hypotheses about stored rows of the component theorems. *)

From Stdlib Require Import ZArith Lia QArith.
From stdpp Require Import base list gmap strings numbers option sorting.
From S2P Require Import Prelude Errors PyDecimal Money Pricing Enums OrderState Tables Database Constraints Ledger Movements.
From S2P Require Import Promos Crypto Media Orders Invoices Payments Fulfillment Withdrawals Workers.
Open Scope Z_scope.

(** ** Wallets keep their owners *)

Definition owners (d : db) : gmap uuid (option uuid) := w_user_id <$> tb_wallets d.

Lemma owners_lookup (d : db) (wid : uuid) : owners d !! wid = w_user_id <$> tb_wallets d !! wid.
Proof. apply lookup_fmap. Qed.

Lemma owners_insert (d d' : db) (wid : uuid) (w w' : Wallet) :
  tb_wallets d !! wid = Some w → w_user_id w' = w_user_id w → tb_wallets d' = <[wid := w']> (tb_wallets d) →
  owners d' = owners d.
Proof.
  intros Hw E Ed. unfold owners. rewrite Ed, fmap_insert, E. apply insert_id. by rewrite lookup_fmap, Hw.
Qed.

(** The state is sound and its wallets belong to [o]. *)
Definition owned (o : gmap uuid (option uuid)) (d : db) : Prop := ledger_ok d ∧ owners d = o.

#[export] Instance owned_next o : FrameNext (owned o).
Proof. intros n d [Hd E]. split; [by apply ledger_next|exact E]. Qed.

Lemma owned_post_group o legs corr : two_place legs → keeps (owned o) (post_group legs corr).
Proof.
  intros Htp d b d' [Hd <-] Hr. split; [by eapply keeps_post_group|].
  apply post_group_ok in Hr as [(_ & -> & _)|(_ & _ & Hp)]; [done| |done|by apply ledger_balance_range].
  apply map_eq. intros wid. rewrite !owners_lookup, (po_wallets _ _ _ _ Hp). by destruct (tb_wallets d !! wid).
Qed.

Lemma owned_hold_funds o w a : keeps (owned o) (hold_funds w a).
Proof.
  intros d u d' [Hd <-] Hr. split; [by eapply keeps_hold_funds|]. unfold hold_funds in Hr. inv_run Hr.
  apply lock_one_ok in E0 as [-> Hw]. inv_writes. by eapply owners_insert; [exact Hw|..|reflexivity].
Qed.

Lemma owned_release_hold o w a : keeps (owned o) (release_hold w a).
Proof.
  intros d u d' [Hd <-] Hr. split; [by eapply keeps_release_hold|]. unfold release_hold in Hr. inv_run Hr.
  apply lock_one_ok in E0 as [-> Hw]. inv_writes. by eapply owners_insert; [exact Hw|..|reflexivity].
Qed.

(** The run [H] of a money operation on a sound state keeps the owners. *)
Ltac same_owners lem H := (* names the equation *)
  lazymatch type of H with
  | _ ?d = Ok (_, ?d') =>
      let O := fresh "O" in
      assert (owners d' = owners d) as O
        by (refine (proj2 (lem (owned (owners d)) _ _ _ d _ d' _ H)); [apply owned_post_group|split; done])
  end.

(** ** Covered holds *)

Definition covered (d : db) : Prop :=
  ∀ wid w, tb_wallets d !! wid = Some w →
    match w_user_id w with
    | Some _ => w_held_balance w ≤ w_balance w
    | None => w_held_balance w = 0
    end.

Lemma covered_user (d : db) (uid wid : uuid) : covered d → user_wallet d uid wid → held d wid ≤ bal d wid.
Proof. intros Hc (w & Hw & Hu). specialize (Hc _ _ Hw). rewrite Hu in Hc. unfold held, bal. by rewrite Hw. Qed.

Lemma covered_system (d : db) (ty : wallet_type) (wid : uuid) : covered d → system_wallet d ty wid → held d wid = 0.
Proof. intros Hc (w & Hw & _ & Hu). specialize (Hc _ _ Hw). rewrite Hu in Hc. unfold held. by rewrite Hw. Qed.

(** Pointwise: what has to be checked of the new balances and holds. *)
Lemma covered_by (d d' : db) :
  owners d' = owners d → (∀ uid wid, user_wallet d uid wid → held d' wid ≤ bal d' wid) →
  (∀ wid w, tb_wallets d !! wid = Some w → w_user_id w = None → held d' wid = 0) → covered d'.
Proof.
  intros Ho Hu Hs wid w' Hw'.
  assert (∃ w, tb_wallets d !! wid = Some w ∧ w_user_id w = w_user_id w') as (w & Hw & E).
  { assert (owners d' !! wid = Some (w_user_id w')) as E by (by rewrite owners_lookup, Hw').
    rewrite Ho, owners_lookup in E. destruct (tb_wallets d !! wid) as [w|]; [|done]. injection E as E. by exists w. }
  destruct (w_user_id w') as [uid|] eqn:Eu.
  - assert (user_wallet d uid wid) as Hw2 by (by exists w). specialize (Hu _ _ Hw2). unfold held, bal in Hu. by rewrite Hw' in Hu.
  - specialize (Hs _ _ Hw E). unfold held in Hs. by rewrite Hw' in Hs.
Qed.

Lemma covered_frame (d d' : db) : tb_wallets d' = tb_wallets d → covered d → covered d'.
Proof. intros E Hc wid w. rewrite E. apply Hc. Qed.

Lemma user_balance_nonneg (d : db) (uid wid : uuid) : ledger_ok d → user_wallet d uid wid → 0 ≤ bal d wid.
Proof.
  intros Hd (w & Hw & Hu). destruct (lk_range _ Hd _ _ Hw) as (_ & _ & Hc). pose proof (lk_pairing _ Hd _ _ Hw) as Hp.
  unfold bal. rewrite Hw. cbn. unfold chk_user_wallet_pairing, chk_balance_non_negative in *. rewrite Hu in Hp.
  destruct (w_type w); cbn in *; try done; lia.
Qed.

(** A movement of money, and of [z] out of the hold of [cw] when [f]: a user's wallet loses at
    most what leaves its hold. *)
Lemma covered_move (d d' : db) (ms : list (uuid * Z)) (cw : uuid) (z : Z) (f : bool) :
  ledger_ok d' → owners d' = owners d → covered d → moved d d' ms →
  (∀ i, held d' i = if same i cw && f then Z.max 0 (held d i - z) else held d i) → 0 ≤ z →
  (∀ uid i, user_wallet d uid i → - (if same i cw && f then z else 0) ≤ delta ms i) → covered d'.
Proof.
  intros Hd' Ho Hc Hm Hh Hz Hl. apply (covered_by d); [done|..].
  - intros uid i Hi. specialize (Hl _ _ Hi). rewrite Hh, (Hm i). pose proof (covered_user _ _ _ Hc Hi).
    destruct (same i cw && f); [|lia].
    assert (user_wallet d' uid i) as Hi'.
    { destruct Hi as (w & Hw & Hu). assert (owners d !! i = Some (Some uid)) as E by (by rewrite owners_lookup, Hw; cbn; rewrite Hu).
      rewrite <- Ho, owners_lookup in E. destruct (tb_wallets d' !! i) as [w'|] eqn:Hw'; [|done]. injection E as E. by exists w'. }
    pose proof (user_balance_nonneg _ _ _ Hd' Hi') as Hn. rewrite (Hm i) in Hn. lia.
  - intros i w Hw Hu. rewrite Hh. specialize (Hc _ _ Hw). rewrite Hu in Hc. unfold held. rewrite Hw. cbn.
    destruct (same i cw && f); lia.
Qed.

(** ** The invariant *)

(** The parts recorded on an invoice are not negative. *)
Definition invoice_parts (i : Invoice) : Prop := 0 ≤ inv_amount_from_wallet i ∧ 0 ≤ inv_amount_from_gateway i.

Definition parts_ok (d : db) : Prop := ∀ k i, tb_invoices d !! k = Some i → invoice_parts i.

Lemma parts_frame (d d' : db) : tb_invoices d' = tb_invoices d → parts_ok d → parts_ok d'.
Proof. intros E Hp k i. rewrite E. apply Hp. Qed.

Lemma parts_insert (d d' : db) (k : uuid) (i : Invoice) :
  parts_ok d → invoice_parts i → tb_invoices d' = <[k := i]> (tb_invoices d) → parts_ok d'.
Proof. intros Hp Hi E j x. rewrite E. intros [[<- <-]|[_ Hx]]%lookup_insert_Some; [done|by eapply Hp]. Qed.

Record sound (d : db) : Prop := {
  sd_ledger : ledger_ok d;
  sd_invoices : table_ok Invoice d;
  sd_intents : table_ok PaymentIntent d;
  sd_withdrawals : table_ok Withdrawal d;
  sd_covered : covered d;
  sd_parts : parts_ok d;
}.

#[export] Hint Extern 1 (Frame covered _) => frame_by covered_frame : typeclass_instances.
#[export] Hint Extern 1 (FrameNext covered) => frame_next_by covered_frame : typeclass_instances.
#[export] Hint Extern 1 (Frame parts_ok _) => frame_by parts_frame : typeclass_instances.
#[export] Hint Extern 1 (FrameNext parts_ok) => frame_next_by parts_frame : typeclass_instances.

Lemma frame_sound (row : Type) `{Table row} :
  Frame ledger_ok row → Frame (table_ok Invoice) row → Frame (table_ok PaymentIntent) row →
  Frame (table_ok Withdrawal) row → Frame covered row → Frame parts_ok row → Frame sound row.
Proof.
  intros F1 F2 F3 F4 F5 F6. constructor.
  - intros id old r d u d' [S1 S2 S3 S4 S5 S6] Hr. constructor; by eapply frame_write.
  - intros id d u d' [S1 S2 S3 S4 S5 S6] Hr. constructor; by eapply frame_delete.
Qed.

#[export] Hint Extern 1 (Frame sound _) => (apply frame_sound; apply _) : typeclass_instances.

#[export] Instance sound_next : FrameNext sound.
Proof. intros n d [S1 S2 S3 S4 S5 S6]. constructor; by apply frame_next. Qed.

(** An invoice row whose parts are not negative may be written. *)
Lemma sound_write_invoice (id : uuid) (old : option Invoice) (i : Invoice) :
  invoice_parts i → keeps sound (write_row id old i).
Proof.
  intros Hi d u d' [S1 S2 S3 S4 S5 S6] Hr.
  constructor; [exact (keeps_write _ _ _ _ _ _ _ S1 Hr)|exact (keeps_write _ _ _ _ _ _ _ S2 Hr)|
    exact (keeps_write _ _ _ _ _ _ _ S3 Hr)|exact (keeps_write _ _ _ _ _ _ _ S4 Hr)|
    exact (keeps_write _ _ _ _ _ _ _ S5 Hr)|].
  apply write_row_ok in Hr as (_ & _ & _ & ->). eapply parts_insert; [exact S6|exact Hi|reflexivity].
Qed.

Lemma sound_update_invoice (id : uuid) (i : Invoice) : invoice_parts i → keeps sound (update_row id i).
Proof. intros Hi d u d' Hd Hr. by eapply sound_write_invoice. Qed.

Lemma sound_insert_invoice (i : Invoice) : invoice_parts i → keeps sound (insert_row i).
Proof.
  intros Hi. unfold insert_row. apply keeps_bind; [auto with giftly typeclass_instances|]. intros id.
  apply keeps_bind; [|intros ?; apply keeps_ret]. intros d u d' Hd Hr. unfold insert_row_at in Hr.
  destruct (rows d !! id); [done|]. by eapply sound_write_invoice.
Qed.

(** A run that changes only wallets and ledger rows. *)
Lemma sound_money (d d' : db) :
  sound d → ledger_ok d' → covered d' → tb_invoices d' = tb_invoices d → tb_payment_intents d' = tb_payment_intents d →
  tb_withdrawals d' = tb_withdrawals d → sound d'.
Proof.
  intros [S1 [C1 U1] [C2 U2] [C3 U3] S5 S6] Hl Hc E1 E2 E3. constructor; [done|..|done|by eapply parts_frame];
    (constructor; cbn; rewrite ?E1, ?E2, ?E3; [exact C1 || exact C2 || exact C3|exact U1 || exact U2 || exact U3]).
Qed.

Ltac sound_money H :=
  same_after tb_invoices H; same_after tb_payment_intents H; same_after tb_withdrawals H;
  eapply sound_money; [eassumption|..|eassumption|eassumption|eassumption].

(** ** Operations on holds *)

Lemma sound_hold_funds (uid wid : uuid) (z : Z) (d : db) (u : ()) (d' : db) :
  sound d → user_wallet d uid wid → 0 ≤ z < 10 ^ 12 → hold_funds wid (sar z) d = Ok (u, d') → sound d'.
Proof.
  intros Hd Hw Hz Hr. pose proof (sd_ledger _ Hd) as Hl.
  destruct (owned_hold_funds (owners d) _ _ _ _ _ (conj Hl eq_refl) Hr) as [Hl' Ho].
  sound_money Hr; [done|]. apply hold_funds_ok in Hr as (_ & Hb & Hav & Hh); [|done..]. apply (covered_by d); [done|..].
  - intros uid' i Hi. rewrite Hh, Hb. pose proof (covered_user _ _ _ (sd_covered _ Hd) Hi).
    destruct (same i wid) eqn:E; [|done]. apply (proj1 (same_true _ _)) in E as ->. lia.
  - intros i w Hi Hu. rewrite Hh. destruct (same i wid) eqn:E.
    + apply (proj1 (same_true _ _)) in E as ->. destruct Hw as (w' & Hw' & Hu'). congruence.
    + specialize (sd_covered _ Hd _ _ Hi) as Hc. rewrite Hu in Hc. unfold held. by rewrite Hi.
Qed.

Lemma sound_release_hold (wid : uuid) (z : Z) : 0 ≤ z < 10 ^ 12 → keeps sound (release_hold wid (sar z)).
Proof.
  intros Hz d u d' Hd Hr. pose proof (sd_ledger _ Hd) as Hl.
  destruct (owned_release_hold (owners d) _ _ _ _ _ (conj Hl eq_refl) Hr) as [Hl' Ho].
  sound_money Hr; [done|]. apply (covered_move d d' [] wid z true); [done|done|by apply sd_covered|..|lia|].
  - intros i. rewrite Z.add_0_r. by apply (release_hold_neutral _ _ _ _ _ Hl Hz Hr).
  - intros i. rewrite andb_true_r. by apply (release_hold_held _ _ _ _ _ Hl Hz Hr).
  - intros uid i _. cbn. destruct (same i wid && true); cbn; lia.
Qed.

(** ** Transfers *)

Lemma sound_transferred (d d' : db) (key : string) (ms : list (uuid * Z)) (b : bool) (cw : uuid) (z : Z) (f : bool) :
  sound d → ledger_ok d' → owners d' = owners d → transferred key ms b d d' →
  (∀ i, held d' i = if same i cw && (b && f) then Z.max 0 (held d i - z) else held d i) → 0 ≤ z →
  (∀ uid i, user_wallet d uid i → - (if same i cw && f then z else 0) ≤ delta ms i) → covered d'.
Proof.
  intros Hd Hl Ho Ht Hh Hz Hm. destruct b.
  - destruct Ht as (_ & _ & Hmv). by apply (covered_move d d' ms cw z f); [..|apply sd_covered|exact Hmv|exact Hh| |].
  - destruct Ht as (_ & E & _). eapply covered_frame; [exact E|by apply sd_covered].
Qed.

(** A post-only run: owners and holds stay. *)
Definition posts_only (o : gmap uuid (option uuid)) (h : uuid → Z) (d : db) : Prop :=
  owned o d ∧ ∀ i, held d i = h i.

#[export] Instance posts_only_next o h : FrameNext (posts_only o h).
Proof. intros n d [Hd E]. split; [by apply frame_next|exact E]. Qed.

Lemma posts_only_post_group o h legs corr : two_place legs → keeps (posts_only o h) (post_group legs corr).
Proof.
  intros Htp d b d' [Hd E] Hr. split; [by eapply owned_post_group|]. intros i. rewrite <- E.
  destruct Hd as [Hd _]. by eapply post_group_held.
Qed.

Lemma posts_only_start (d : db) : ledger_ok d → posts_only (owners d) (held d) d.
Proof. intros Hd. split; [by split|done]. Qed.

(** System wallets are not user wallets: drop their legs from a user's change. *)
Ltac user_delta :=
  let uid := fresh "uid" in let i := fresh "i" in let Hi := fresh "Hi" in
  intros uid i Hi;
  repeat match goal with
  | S : system_wallet _ _ ?w |- _ =>
      assert (same w i = false) by (apply bool_decide_eq_false_2; by eapply system_user_ne); clear S
  end;
  rewrite ?delta_cons; cbn [fst snd];
  repeat match goal with |- context [same i ?w] => rewrite (same_comm i w) end;
  repeat match goal with E : same _ _ = false |- _ => rewrite E; clear E end;
  change (delta [] i) with 0; rewrite ?andb_false_r; repeat destruct (same _ _); cbn; lia.

Section PostOnly.
Context (d : db) (Hd : sound d).

Lemma sound_credit_topup (wid : uuid) (z : Z) (intent : uuid) (b : bool) (d' : db) :
  0 ≤ z < 10 ^ 12 → credit_topup wid (sar z) intent d = Ok (b, d') → sound d'.
Proof.
  intros Hz Hr. pose proof (sd_ledger _ Hd) as Hl.
  destruct (money_credit_topup (posts_only (owners d) (held d)) (posts_only_post_group _ _) _ _ _ _ _ _ (posts_only_start _ Hl) Hr)
    as [[Hl' Ho] Hh].
  sound_money Hr; [done|]. apply (credit_topup_transferred d Hl) in Hr as (gw & Hg & Ht); [|lia].
  apply (sound_transferred d d' _ _ b wid 0 false Hd Hl' Ho Ht); [|lia|].
  - intros i. by rewrite Hh, !andb_false_r.
  - user_delta.
Qed.

Lemma sound_refund_escrow (oid iid cw : uuid) (z : Z) (b : bool) (d' : db) :
  0 ≤ z < 10 ^ 12 → refund_escrow oid iid cw (sar z) d = Ok (b, d') → sound d'.
Proof.
  intros Hz Hr. pose proof (sd_ledger _ Hd) as Hl.
  destruct (money_refund_escrow (posts_only (owners d) (held d)) (posts_only_post_group _ _) _ _ _ _ _ _ _ (posts_only_start _ Hl) Hr)
    as [[Hl' Ho] Hh].
  sound_money Hr; [done|]. apply (refund_transferred d Hl) in Hr as (ew & He & Ht); [|lia].
  apply (sound_transferred d d' _ _ b cw 0 false Hd Hl' Ho Ht); [|lia|].
  - intros i. by rewrite Hh, !andb_false_r.
  - user_delta.
Qed.

Lemma sound_split_escrow (oid iid cw uw : uuid) (c r : Z) (b : bool) (d' : db) :
  0 ≤ c < 10 ^ 13 → 0 ≤ r < 10 ^ 13 → split_escrow oid iid cw uw (sar c) (sar r) d = Ok (b, d') → sound d'.
Proof.
  intros Hc Hz Hr. pose proof (sd_ledger _ Hd) as Hl.
  destruct (money_split_escrow (posts_only (owners d) (held d)) (posts_only_post_group _ _) _ _ _ _ _ _ _ _ _ (posts_only_start _ Hl) Hr)
    as [[Hl' Ho] Hh].
  sound_money Hr; [done|]. apply (split_transferred d Hl) in Hr as (ew & He & Ht); [|lia..].
  apply (sound_transferred d d' _ _ b cw 0 false Hd Hl' Ho Ht); [|lia|].
  - intros i. by rewrite Hh, !andb_false_r.
  - user_delta.
Qed.

Lemma sound_release_escrow (oid iid cw : uuid) (p t r : Z) (b : bool) (d' : db) :
  0 ≤ p < 10 ^ 13 → Z.abs t < 10 ^ 13 → Z.abs r < 10 ^ 13 →
  release_escrow_on_completion oid iid cw (sar p) (sar t) (sar r) d = Ok (b, d') → sound d'.
Proof.
  intros Hp Ht Hv Hr. pose proof (sd_ledger _ Hd) as Hl.
  destruct (money_release_escrow (posts_only (owners d) (held d)) (posts_only_post_group _ _) _ _ _ _ _ _ _ _ _ (posts_only_start _ Hl) Hr)
    as [[Hl' Ho] Hh].
  sound_money Hr; [done|]. apply (release_transferred d Hl) in Hr as (ew & tw & rw & He & Htw & Hrw & Htr); [|lia..].
  apply (sound_transferred d d' _ _ b cw 0 false Hd Hl' Ho Htr); [|lia|].
  - intros i. by rewrite Hh, !andb_false_r.
  - user_delta.
Qed.

(** Paying a withdrawal takes the same amount out of the balance and out of the hold. *)
Lemma sound_pay_withdrawal (cw : uuid) (z : Z) (wid : uuid) (b : bool) (d' : db) :
  0 ≤ z < 10 ^ 12 → pay_withdrawal cw (sar z) wid d = Ok (b, d') → sound d'.
Proof.
  intros Hz Hr. pose proof (sd_ledger _ Hd) as Hl.
  destruct (money_pay_withdrawal (owned (owners d)) (owned_post_group _) (owned_release_hold _) _ _ _ _ _ _ (conj Hl eq_refl) Hr)
    as [Hl' Ho].
  sound_money Hr; [done|]. apply (pay_withdrawal_transferred d Hl) in Hr as (gw & Hg & Ht & Hh); [|lia].
  apply (sound_transferred d d' _ _ b cw z true Hd Hl' Ho Ht); [|lia|].
  - intros i. by rewrite Hh, andb_true_r.
  - user_delta.
Qed.
End PostOnly.

Section Fund.
Context (d : db) (Hd : sound d) (cw iid oid : uuid) (intent : option uuid).

(** The held part of a payment leaves balance and hold together ... *)
Lemma sound_fund_held (wz gz : Z) (b : bool) (d' : db) :
  0 ≤ wz < 10 ^ 12 → 0 ≤ gz < 10 ^ 12 →
  fund_escrow_for_invoice cw (sar wz) (sar gz) iid oid intent (0 <? wz) d = Ok (b, d') → sound d'.
Proof.
  intros Hw Hg Hr. pose proof (sd_ledger _ Hd) as Hl.
  destruct (money_fund_escrow (owned (owners d)) (owned_post_group _) (owned_release_hold _) _ _ _ _ _ _ _ _ _ _ (conj Hl eq_refl) Hr)
    as [Hl' Ho].
  sound_money Hr; [done|]. apply (fund_transferred d Hl) in Hr as (ew & gw & He & Hgw & Ht & Hh); [|lia..].
  apply (sound_transferred d d' _ _ b cw wz (0 <? wz) Hd Hl' Ho Ht); [|lia|].
  - intros i. rewrite Hh. by destruct b, (0 <? wz).
  - destruct (Z.ltb_spec 0 wz); [user_delta|]. assert (wz = 0) as -> by lia. user_delta.
Qed.

(** ... and an unheld payment spends available funds only. *)
Lemma sound_fund_wallet (uid : uuid) (wz : Z) (b : bool) (d' : db) :
  user_wallet d uid cw → 0 ≤ wz < 10 ^ 12 → wz ≤ bal d cw - held d cw →
  fund_escrow_for_invoice cw (sar wz) (sar 0) iid oid intent false d = Ok (b, d') → sound d'.
Proof.
  intros Hcw Hw Hav Hr. pose proof (sd_ledger _ Hd) as Hl. pose proof (sd_covered _ Hd) as Hc.
  destruct (money_fund_escrow (owned (owners d)) (owned_post_group _) (owned_release_hold _) _ _ _ _ _ _ _ _ _ _ (conj Hl eq_refl) Hr)
    as [Hl' Ho].
  sound_money Hr; [done|]. apply (fund_transferred d Hl) in Hr as (ew & gw & He & Hgw & Ht & Hh); [|lia..].
  destruct b; [|destruct Ht as (_ & E & _); by eapply covered_frame]. destruct Ht as (_ & _ & Hm).
  assert (∀ i, held d' i = held d i) as Hh' by (intros i; by rewrite Hh, !andb_false_r).
  assert (∀ u i, user_wallet d u i → - (if same i cw then wz else 0) ≤ delta [(cw, - wz); (gw, - 0); (ew, wz + 0)] i)
    as Hdelta by user_delta.
  apply (covered_by d); [done|..].
  - intros u i Hi. rewrite Hh', (Hm i). pose proof (covered_user _ _ _ Hc Hi). specialize (Hdelta _ _ Hi).
    destruct (same i cw) eqn:E; [|lia]. apply (proj1 (same_true _ _)) in E as ->. lia.
  - intros i w Hi Hu. rewrite Hh'. specialize (Hc _ _ Hi). rewrite Hu in Hc. unfold held. by rewrite Hi.
Qed.
End Fund.

(** ** What the invariant says of stored rows *)

(** A stored invoice: its parts, its amounts in range and, once issued, its pricing identity. *)
Record invoice_good (i : Invoice) : Prop := {
  ig_parts : invoice_parts i;
  ig_range : invoice_range i;
  ig_stored : inv_status i ≠ InvoiceStatus.DRAFT → invoice_stored i;
}.

Lemma sound_invoice (d : db) (k : uuid) (i : Invoice) : sound d → tb_invoices d !! k = Some i → invoice_good i.
Proof.
  intros Hd Hi. pose proof (sd_parts _ Hd _ _ Hi) as Hp. destruct (tk_check _ _ (sd_invoices _ Hd) _ _ Hi) as [today Hc].
  assert (Hck := Hc). cbn in Hc. rewrite !andb_true_iff in Hc. unfold chk_invoice_amounts_non_negative in Hc.
  rewrite !andb_true_iff in Hc. unfold invoice_parts in Hp.
  constructor; [done|unfold invoice_range; lia|]. intros Hs.
  constructor; [by eapply invoice_checks|unfold AMT; lia].
Qed.

Lemma sound_intent (d : db) (k : uuid) (i : PaymentIntent) : sound d → tb_payment_intents d !! k = Some i → intent_range i.
Proof.
  intros Hd Hi. destruct (tk_check _ _ (sd_intents _ Hd) _ _ Hi) as [today Hc]. cbn in Hc. rewrite !andb_true_iff in Hc.
  unfold chk_intent_amount_positive in Hc. unfold intent_range. lia.
Qed.

Lemma sound_withdrawal (d : db) (k : uuid) (w : Withdrawal) :
  sound d → tb_withdrawals d !! k = Some w → 0 ≤ wd_amount w < 10 ^ 12.
Proof.
  intros Hd Hi. destruct (tk_check _ _ (sd_withdrawals _ Hd) _ _ Hi) as [today Hc]. cbn in Hc. rewrite !andb_true_iff in Hc.
  unfold chk_withdrawal_min in Hc. lia.
Qed.

(** ** Knowing what was read

    [yields P R m]: run in a [P] state, [m] ends in a [P] state with an [R] answer. *)
Definition yields (P : db → Prop) {A} (R : A → Prop) (m : M A) : Prop :=
  ∀ d a d', P d → m d = Ok (a, d') → P d' ∧ R a.

Lemma keeps_yields P {A B} (R : A → Prop) (m : M A) (k : A → M B) :
  yields P R m → (∀ a, R a → keeps P (k a)) → keeps P (m ≫= k).
Proof. intros Hm Hk d b d' HP (a & d1 & [HP1 HR]%Hm & H2)%bind_ok; [|done]. by eapply Hk. Qed.

Lemma keeps_unwrap_bind P {A B} (o : option A) (e : exn) (k : A → M B) :
  (∀ a, o = Some a → keeps P (k a)) → keeps P (unwrap o e ≫= k).
Proof. intros Hk d b d' HP (a & d1 & [E ->]%unwrap_ok & H2)%bind_ok. by eapply Hk. Qed.

(** A predicate on what an optional read found. *)
Definition found {A} (R : A → Prop) (o : option A) : Prop := match o with Some a => R a | None => True end.

Section Reads.
Context {row : Type} `{Table row} (P : db → Prop) (R : uuid → row → Prop).
Context (Hrow : ∀ d k r, P d → rows d !! k = Some r → R k r).

Lemma yields_get k : yields P (found (R k)) (get_row k : M (option row)).
Proof. intros d o d' HP [= <- <-]. split; [done|]. destruct (rows d !! k) eqn:E; [by eapply Hrow|done]. Qed.

Lemma yields_scalar_at (f : db → uuid → row → bool) : yields P (found (λ p, R p.1 p.2)) (λ d, scalar (f d) d).
Proof.
  intros d o d' HP Hr. assert (Hr' := Hr). apply scalar_ok in Hr' as [-> _]. split; [done|].
  destruct o as [[k r]|]; [|done]. apply scalar_some in Hr as [Hl _]. by eapply Hrow.
Qed.

Lemma yields_scalar f : yields P (found (λ p, R p.1 p.2)) (scalar f : M (option (uuid * row))).
Proof. apply (yields_scalar_at (λ _, f)). Qed.
End Reads.

Lemma yields_invoice k : yields sound (found invoice_good) (lock_invoice k).
Proof. exact (yields_get sound (λ _, invoice_good) sound_invoice k). Qed.

Lemma yields_get_locked k : yields sound (λ w, 0 ≤ wd_amount w < 10 ^ 12) (get_locked k).
Proof.
  intros d w d' Hd [-> Hw]%get_locked_ok. split; [done|]. by eapply sound_withdrawal.
Qed.

(** ** Invoices *)

Lemma sound_create_draft o c r p x : keeps sound (create_draft o c r p x).
Proof.
  unfold create_draft. do 8 (apply keeps_bind; [auto with giftly|intros ?]).
  apply sound_insert_invoice. by split; cbn; lia.
Qed.

Lemma sound_issue k a b : keeps sound (issue k a b).
Proof.
  unfold issue. eapply keeps_yields; [exact (yields_invoice k)|]. intros o Ho.
  apply keeps_unwrap_bind. intros i ->. apply sound_update_invoice, Ho.
Qed.

#[local] Hint Resolve sound_create_draft sound_issue : giftly.

Lemma sound_create_invoice s o c data : keeps sound (create_invoice s o c data).
Proof. unfold create_invoice. keeps_auto. Qed.

Lemma sound_cancel_invoice k c : keeps sound (cancel_invoice k c).
Proof.
  unfold cancel_invoice. eapply keeps_yields; [exact (yields_scalar sound (λ _, invoice_good) sound_invoice _)|]. intros x Hx.
  apply keeps_unwrap_bind. intros p ->. do 5 (apply keeps_bind; [auto with giftly typeclass_instances|intros ?]).
  apply keeps_bind; [apply sound_update_invoice, Hx|]. intros _. keeps_auto.
Qed.

(** ** Payments *)

Lemma lift_run {A B} (r : res A) (a : A) (k : A → M B) : r = Ok a → lift r ≫= k = k a.
Proof. intros ->. done. Qed.

Lemma sound_settle_record k i o m wz gz :
  0 ≤ wz < 10 ^ 12 → 0 ≤ gz < 10 ^ 12 → keeps sound (settle_invoice_record k i o m (sar wz) (sar gz)).
Proof.
  intros Hw Hg. unfold settle_invoice_record. apply keeps_bind; [auto with giftly|intros now].
  do 2 erewrite lift_run by (apply quantize_money_sar; unfold small; lia).
  apply keeps_bind; [auto with giftly|intros _]. do 2 erewrite lift_run by (apply numeric_sar; lia).
  apply keeps_bind; [apply sound_update_invoice; split; cbn; lia|]. intros _. keeps_auto.
Qed.

Lemma sound_settle_topup k i : intent_range i → keeps sound (settle_topup k i).
Proof.
  intros Hi. unfold intent_range in Hi. unfold settle_topup. keeps_auto. intros d b d' Hd Hr.
  eapply sound_credit_topup; [exact Hd| |exact Hr]. lia.
Qed.

Lemma sound_settle_invoice k i : intent_range i → keeps sound (settle_invoice k i).
Proof.
  intros Hi. unfold intent_range in Hi. unfold settle_invoice. apply keeps_unwrap_bind. intros iid _.
  eapply keeps_yields; [apply yields_invoice|]. intros x Hx. apply keeps_unwrap_bind. intros inv ->.
  destruct Hx as [_ (_ & Hw & _) _]. change ZERO with (sar 0). rewrite dltb_sar. keeps_auto.
  - intros d b d' Hd Hr. eapply sound_fund_held; [exact Hd| | |exact Hr]; lia.
  - apply sound_settle_record; lia.
Qed.

Lemma sound_webhook repr loads `{StreamPayClient} body sg : keeps sound (handle_webhook repr loads body sg).
Proof.
  unfold handle_webhook. apply keeps_bind; [auto with giftly|intros _]. apply keeps_bind; [auto with giftly|intros ev].
  apply keeps_with_lock. unfold settle_locked.
  eapply keeps_yields; [exact (yields_scalar sound (λ _, intent_range) sound_intent _)|]. intros x Hx.
  apply keeps_unwrap_bind. intros [k i] ->. cbn in Hx |- *.
  pose proof (sound_settle_topup k i Hx). pose proof (sound_settle_invoice k i Hx). keeps_auto.
Qed.

(** The part of [pay_invoice] after the hold opens a checkout. *)
Lemma sound_pay_pending `{StreamPayClient} (s : Settings) (d : db) (iid cid cw : uuid) (i : Invoice) (w g : Z)
    (r : PayResult) (d' : db) :
  sound d → user_wallet d cid cw → 0 ≤ w < 10 ^ 12 → 0 ≤ g < 10 ^ 12 →
  (let split := 0 <? w in
   when split (hold_funds cw (sar w));;
   wz ← lift (numeric_12_2 (sar w));
   gz ← lift (numeric_12_2 (sar g));
   update_row iid
     (i <| inv_amount_from_wallet := wz |> <| inv_amount_from_gateway := gz |>
        <| inv_payment_method := Some (if split then PaymentMethod.SPLIT else PaymentMethod.GATEWAY_ONLY) |>);;
   e ← expiry s;
   intent_id ← create_intent cid PaymentPurpose.ORDER_INVOICE (sar g) (Some iid) e;
   items ← list_items iid;
   lines ← lift (invoice_checkout_items iid (sar g) (snd <$> items));
   checkout ← create_checkout intent_id cid lines;
   attach_streampay intent_id (co_payment_link_id checkout) (co_payment_url checkout);;
   mret (mk_PayResult iid PAY_PENDING (sar w) (sar g) (Some (co_payment_url checkout)))) d = Ok (r, d') → sound d'.
Proof.
  intros Hd Hcw Hw Hg Hr. cbv zeta in Hr. apply bind_ok in Hr as (u & d1 & Hh & Hr).
  assert (sound d1) as Hd1.
  { destruct (Z.ltb_spec 0 w); cbn in Hh; [eapply sound_hold_funds; [exact Hd|exact Hcw|exact Hw|exact Hh]|by injection Hh as _ <-]. }
  clear Hd Hh Hcw. revert d1 r d' Hd1 Hr.
  match goal with |- ∀ d1 r d', sound d1 → ?m d1 = _ → _ => change (keeps sound m) end.
  do 2 erewrite lift_run by (apply numeric_sar; lia).
  apply keeps_bind; [apply sound_update_invoice; split; cbn; lia|]. intros _. keeps_auto.
Qed.

Lemma sound_pay_invoice `{StreamPayClient} (s : Settings) (iid cid : uuid) : keeps sound (pay_invoice s iid cid).
Proof.
  intros d r d' Hd Hr. unfold pay_invoice, lock_order_row in Hr.
  apply bind_ok in Hr as (x & d0 & [-> Hx]%invoice_for_actor_ok & Hr).
  apply bind_ok in Hr as ([k i] & d0 & [-> ->]%unwrap_ok & Hr). destruct Hx as (-> & Hi & _).
  destruct (sound_invoice _ _ _ Hd Hi) as [_ (Ht & _ & _) _].
  apply bind_ok in Hr as (? & d0 & [_ ->]%guard_ok & Hr). erewrite bind_run in Hr by reflexivity.
  apply bind_ok in Hr as (? & d0 & [_ ->]%guard_ok & Hr). erewrite bind_run in Hr by reflexivity.
  apply bind_ok in Hr as (o & d0 & [_ ->]%unwrap_ok & Hr). apply bind_ok in Hr as (? & d0 & [_ ->]%guard_ok & Hr).
  apply bind_ok in Hr as (wo & d0 & [-> Hw]%get_by_user_ok & Hr).
  apply bind_ok in Hr as ([cw w] & d0 & [-> ->]%unwrap_ok & Hr). destruct Hw as [Hw Hu].
  assert (user_wallet d cid cw) as Hcw by (by exists w). cbn [fst snd] in *.
  apply bind_ok in Hr as (total & d0 & [Htot ->]%lift_ok & Hr).
  rewrite quantize_money_sar in Htot by (unfold small; lia). injection Htot as <-.
  apply bind_ok in Hr as (av & d0 & Hav & Hr). assert (d0 = d) as -> by (by same_after (λ x : db, x) Hav).
  pose proof (available_balance_ok _ _ _ _ _ (sd_ledger _ Hd) Hw Hu Hav) as ->.
  pose proof (covered_user _ _ _ (sd_covered _ Hd) Hcw) as Hc. unfold held, bal in Hc. rewrite Hw in Hc. cbn in Hc.
  rewrite dmin_sar in Hr. rewrite dsub_sar in Hr by (unfold small; lia).
  set (wz := Z.min _ _) in Hr. set (gz := inv_total_amount i - wz) in Hr.
  apply bind_ok in Hr as (g & d0 & [Hgw ->]%lift_ok & Hr).
  rewrite quantize_money_sar in Hgw by (unfold small; lia). injection Hgw as <-.
  change ZERO with (sar 0) in Hr. rewrite dleb_sar, dltb_sar in Hr. destruct (Z.leb_spec gz 0).
  - apply bind_ok in Hr as (b & d1 & Hf & Hr).
    assert (sound d1) as Hd1.
    { eapply sound_fund_wallet; [exact Hd|exact Hcw| | |exact Hf]; [lia|]. unfold bal, held. rewrite Hw. cbn. lia. }
    apply bind_ok in Hr as (u & d2 & Hs & Hr). injection Hr as _ <-.
    eapply sound_settle_record; [| |exact Hd1|exact Hs]; lia.
  - apply bind_ok in Hr as (ex & d0 & Hex & Hr). assert (d0 = d) as -> by (by same_after (λ x : db, x) Hex).
    destruct (_ ≫= _) as [[e url]|]; [by injection Hr as _ <-|].
    eapply (sound_pay_pending s d iid cid cw i wz gz); [exact Hd|exact Hcw|lia|lia|exact Hr].
Qed.

(** ** Fulfilment *)

(** What the settings have to satisfy. *)
Record wf_settings (s : Settings) : Prop := {
  ws_rate : wf_rate (PLATFORM_COMMISSION_RATE s);
  ws_withdrawal : ∃ m, MIN_WITHDRAWAL_AMOUNT s = sar m ∧ 0 ≤ m;
  ws_withdrawal_max : ∃ m, MAX_WITHDRAWAL_AMOUNT s = sar m ∧ m < 10 ^ 12;
}.

Section Release.
Context (s : Settings) (Hs : wf_settings s).

Definition paid_good (p : uuid * Invoice) : Prop := invoice_stored p.2 ∧ invoice_range p.2.

Lemma yields_paid_invoice o : yields sound paid_good (paid_invoice o).
Proof.
  intros d p d' Hd (-> & Hi & _ & Hp)%paid_invoice_ok. split; [done|].
  destruct (sound_invoice _ _ _ Hd Hi) as [_ Hr Hst]. split; [|done]. apply Hst. by rewrite Hp.
Qed.

Lemma sound_release_payout o p w : paid_good p → keeps sound (release_payout s o p w).
Proof.
  intros [Hst _]. destruct (settlement_of_run s p.2 (ws_rate _ Hs) Hst) as [Hc E]. unfold release_payout.
  erewrite lift_run by exact E. cbn. destruct Hst as [[Hn Ht Hp Hnn _] Hb]. unfold AMT in Hb.
  apply keeps_bind; [|auto with giftly]. intros d b d' Hd Hr.
  eapply sound_release_escrow; [exact Hd| | | |exact Hr]; lia.
Qed.

#[local] Hint Resolve sound_release_payout : giftly.

Lemma sound_complete o x : keeps sound (complete_and_release s o x).
Proof.
  unfold complete_and_release. apply keeps_bind; [auto with giftly|intros _].
  eapply keeps_yields; [apply yields_paid_invoice|]. intros p Hp. keeps_auto.
Qed.

#[local] Hint Resolve sound_complete : giftly.

Lemma sound_approve_order o c : keeps sound (approve_order s o c).
Proof. unfold approve_order. keeps_auto. Qed.

Lemma sound_auto_approve o : keeps sound (auto_approve s o).
Proof. unfold auto_approve. keeps_auto. Qed.

Lemma sound_apply_outcome oid o p out a : paid_good p → keeps sound (apply_dispute_outcome s oid o p out a).
Proof.
  intros Hp. assert (Hp' := Hp). destruct Hp' as [_ (Ht & _ & _)]. unfold apply_dispute_outcome.
  do 5 (apply keeps_bind; [auto with giftly|intros ?]). cbv zeta. destruct out; [auto with giftly|..].
  - apply keeps_bind; [|auto with giftly]. intros d b d' Hd Hr. eapply sound_refund_escrow; [exact Hd| |exact Hr]; lia.
  - keeps_auto.
  - apply keeps_bind; [auto with giftly|intros amount].
    intros d b d' Hd (share & d0 & [Hq ->]%lift_ok & Hr)%bind_ok.
    destruct (quantize_money_ok_inv _ _ Hq) as (z & -> & _). revert d b d' Hd Hr.
    match goal with |- ∀ d1 r d', sound d1 → ?m d1 = _ → _ => change (keeps sound m) end.
    erewrite lift_run by (apply quantize_money_sar; unfold small; lia).
    intros d b d' Hd (u & d0 & [Hg ->]%guard_ok & Hr)%bind_ok. change ZERO with (sar 0) in Hg. rewrite !dltb_sar in Hg.
    rewrite dsub_sar in Hr by (unfold small; lia). revert d b d' Hd Hr.
    match goal with |- ∀ d1 r d', sound d1 → ?m d1 = _ → _ => change (keeps sound m) end.
    apply keeps_bind; [|intros ?; keeps_auto]. intros d b d' Hd Hr. eapply sound_split_escrow; [exact Hd| | |exact Hr]; lia.
Qed.

#[local] Hint Resolve sound_apply_outcome : giftly.

Lemma sound_resolve_dispute x a out note c : keeps sound (resolve_dispute s x a out note c).
Proof.
  unfold resolve_dispute, resolve. do 5 (apply keeps_bind; [auto with giftly|intros ?]).
  eapply keeps_yields; [apply yields_paid_invoice|]. intros p Hp. keeps_auto.
Qed.

(** ** Withdrawals *)

Lemma sound_request enc c a iban key : keeps sound (request_withdrawal s enc c a iban key).
Proof.
  intros d r d' Hd Hr. unfold request_withdrawal in Hr.
  apply bind_ok in Hr as (ex & d0 & [-> Hex]%get_by_idempotency_ok & Hr). destruct ex as [row|]; [by injection Hr as _ <-|].
  apply bind_ok in Hr as (q & d0 & [Ha ->]%lift_ok & Hr). destruct (quantize_money_ok_inv _ _ Ha) as (z & -> & _).
  apply bind_ok in Hr as (u & d0 & [Hg ->]%guard_ok & Hr). apply negb_false_iff, andb_true_iff in Hg as [G1 G2].
  destruct (ws_withdrawal _ Hs) as (m & Em & Hm), (ws_withdrawal_max _ Hs) as (m' & Em' & Hm').
  rewrite Em, dleb_sar in G1. rewrite Em', dleb_sar in G2.
  apply bind_ok in Hr as (x & d0 & [-> Hx]%get_by_user_ok & Hr).
  apply bind_ok in Hr as ([cw w] & d0 & [-> ->]%unwrap_ok & Hr). destruct Hx as [Hw Hu].
  apply bind_ok in Hr as (wid & d0 & Hid & Hr). injection Hid as <- <-. cbn [fst snd] in *.
  set (d1 := d <| db_next := (db_next d + 1)%N |>) in Hr. assert (sound d1) as Hd1 by (by apply sound_next).
  apply bind_ok in Hr as (sealed & d0 & [_ ->]%lift_ok & Hr). apply savepoint_catch_ok in Hr as [Hr|[_ Hr]].
  - apply bind_ok in Hr as (u1 & d2 & Hh & Hr).
    assert (sound d2) as Hd2.
    { eapply (sound_hold_funds c cw z); [exact Hd1|by exists w|lia|exact Hh]. }
    clear Hh. revert d2 r d' Hd2 Hr.
    match goal with |- ∀ d1 r d', sound d1 → ?m d1 = _ → _ => change (keeps sound m) end. keeps_auto.
  - apply bind_ok in Hr as (y & d2 & [-> Hy]%get_by_idempotency_ok & Hr). by apply unwrap_ok in Hr as [_ ->].
Qed.

Lemma sound_approve_withdrawal w a ip : keeps sound (approve w a ip).
Proof. apply frame_approve_withdrawal; auto with giftly typeclass_instances. Qed.

Lemma sound_reject w a r ip : keeps sound (reject w a r ip).
Proof.
  unfold reject. eapply keeps_yields; [apply yields_get_locked|]. intros row Hrow.
  pose proof (sound_release_hold (wd_wallet_id row) _ Hrow). keeps_auto.
Qed.

Lemma sound_mark_withdrawal_paid w a ip : keeps sound (mark_withdrawal_paid w a ip).
Proof.
  unfold mark_withdrawal_paid. eapply keeps_yields; [apply yields_get_locked|]. intros row Hrow. keeps_auto.
  intros d b d' Hd Hr. eapply sound_pay_withdrawal; [exact Hd|exact Hrow|exact Hr].
Qed.
End Release.

(** ** Scheduled jobs *)

Lemma sound_close_intent k i : invoice_range i → keeps sound (close_intent k i).
Proof.
  intros (_ & Hw & _). unfold close_intent. keeps_auto. by apply sound_release_hold.
Qed.

#[local] Hint Resolve sound_close_intent : giftly.

Lemma sound_expire_invoice k : keeps sound (expire_invoice k).
Proof.
  unfold expire_invoice. eapply keeps_yields; [apply yields_invoice|]. intros o Ho. destruct o as [i|]; [|auto with giftly].
  destruct Ho as [Hp Hr _]. apply keeps_if; [auto with giftly|]. apply keeps_or_rollback. unfold expire_invoice_body.
  do 2 (apply keeps_bind; [auto with giftly typeclass_instances|intros _]).
  apply keeps_bind; [by apply sound_update_invoice|intros _]. keeps_auto.
Qed.

Lemma sound_expire_stale n : keeps sound (expire_stale n).
Proof.
  pose proof sound_expire_invoice. assert (∀ i, keeps sound (expire_topup_intent i)).
  { intros i. apply frame_expire_topup; auto with giftly typeclass_instances. }
  unfold expire_stale, list_expired_issued, list_expired_new. keeps_auto.
Qed.

Lemma sound_auto_approve_sweep s n : wf_settings s → keeps sound (auto_approve_delivered s n).
Proof.
  intros Hs. apply frame_auto_approve_sweep. intros id. by apply sound_auto_approve.
Qed.
