(* ===== verification/Bookings.v ===== *)
(** * Promo bookings and the orders behind them

    Deleting an order from the dashboard cascades to its invoices and their redemptions.  That
    cannot take a promo slot away unseen: a redemption that occupies a slot belongs to an invoice of an
    order that has left NEW, and only NEW orders can be deleted.  This file shows that every operation
    keeps invoices with their order and live redemptions with their invoice. *)

From Stdlib Require Import ZArith Lia.
From stdpp Require Import base list gmap strings numbers option sorting relations.
From S2P Require Import Prelude Errors PyDecimal Money Pricing Enums OrderState Tables Database Constraints Ledger Movements Promos.
From S2P Require Import Crypto Media Orders Invoices Payments Fulfillment Withdrawals Redis Auth AdminAuth Admin Workers Holds.
Open Scope Z_scope.

(** ** Invoices stay with their order *)

(** [base]: the order of each invoice at some earlier time. *)
Definition anchored (base : uuid → option uuid) (d : db) : Prop :=
  ∀ k o, base k = Some o → ∃ i, tb_invoices d !! k = Some i ∧ inv_order_id i = o.

Definition tied (base : uuid → option uuid) (k : uuid) (i : Invoice) : Prop := ∀ o, base k = Some o → inv_order_id i = o.

Definition orders_of (d : db) (k : uuid) : option uuid := inv_order_id <$> tb_invoices d !! k.

Lemma anchored_start (d : db) : anchored (orders_of d) d.
Proof. intros k o Hk. unfold orders_of in Hk. destruct (tb_invoices d !! k) as [i|]; [|done]. injection Hk as <-. by exists i. Qed.

Lemma anchored_frame base (d d' : db) : tb_invoices d' = tb_invoices d → anchored base d → anchored base d'.
Proof. intros E Ha k o Hk. rewrite E. by apply Ha. Qed.

#[export] Hint Extern 1 (Frame (anchored _) _) => frame_by anchored_frame : typeclass_instances.
#[export] Hint Extern 1 (FrameNext (anchored _)) => frame_next_by anchored_frame : typeclass_instances.

Section Anchored.
Context (base : uuid → option uuid).
Notation A := (anchored base).

Lemma anchored_row (d : db) (k : uuid) (i : Invoice) : A d → tb_invoices d !! k = Some i → tied base k i.
Proof. intros Ha Hi o Ho. destruct (Ha k o Ho) as (i' & Hi' & <-). rewrite Hi in Hi'. by injection Hi' as <-. Qed.

Lemma anchored_update (k : uuid) (i : Invoice) : tied base k i → keeps A (update_row k i).
Proof.
  intros Ht d u d' Ha Hr. inv_writes. intros j o Hj. cbn. destruct (decide (j = k)) as [->|Hne].
  - exists i. split; [apply lookup_insert_eq|by apply Ht].
  - rewrite lookup_insert_ne by done. by apply Ha.
Qed.

Lemma anchored_insert (i : Invoice) : keeps A (insert_row i).
Proof.
  intros d k d' Ha Hr. inv_writes. intros j o Hj. cbn. destruct (Ha j o Hj) as (x & Hx & <-).
  exists x. split; [|done]. rewrite lookup_insert_ne; [done|]. intros <-.
  change (tb_invoices d !! db_next d = None) in Hnew. congruence.
Qed.

Lemma yields_tied k : yields A (found (tied base k)) (lock_invoice k).
Proof. exact (yields_get A (tied base) anchored_row k). Qed.

Lemma anchored_issue k a b : keeps A (issue k a b).
Proof.
  unfold issue. eapply keeps_yields; [exact (yields_tied k)|]. intros o Ho.
  apply keeps_unwrap_bind. intros i ->. apply anchored_update, Ho.
Qed.

Lemma anchored_create_draft o c r p x : keeps A (create_draft o c r p x).
Proof. pose proof anchored_insert. unfold create_draft. keeps_auto. Qed.

Hint Resolve anchored_issue anchored_create_draft : giftly.

Lemma anchored_create_invoice s o c data : keeps A (create_invoice s o c data).
Proof. unfold create_invoice. keeps_auto. Qed.

(** A query by key returns that key's row. *)
Lemma yields_keyed (k : uuid) (f : db → uuid → Invoice → bool) :
  yields A (found (λ p : uuid * Invoice, tied base k p.2)) (λ d, scalar (λ id i, same id k && f d id i) d).
Proof.
  intros d o d' HP Hr. assert (Hr' := Hr). apply scalar_ok in Hr' as [-> _]. split; [done|].
  destruct o as [[j i]|]; [|done]. apply scalar_some in Hr as [Hl Hf]. cbn in *. apply andb_true_iff in Hf as [Hf _].
  apply (proj1 (same_true _ _)) in Hf as ->. by apply (anchored_row d).
Qed.

Lemma anchored_cancel_invoice k c : keeps A (cancel_invoice k c).
Proof.
  unfold cancel_invoice. eapply keeps_yields; [exact (yields_keyed k (λ _ _ i, same (inv_issued_by_courier_id i) c))|]. intros x Hx.
  apply keeps_unwrap_bind. intros p ->. do 5 (apply keeps_bind; [auto with giftly typeclass_instances|intros ?]).
  apply keeps_bind; [apply anchored_update, Hx|]. intros _. keeps_auto.
Qed.

Lemma anchored_settle_record k i o m w g : tied base k i → keeps A (settle_invoice_record k i o m w g).
Proof. intros Ht. unfold settle_invoice_record. keeps_auto. by apply anchored_update. Qed.

Lemma anchored_settle_invoice k i : keeps A (settle_invoice k i).
Proof.
  unfold settle_invoice. apply keeps_unwrap_bind. intros iid _. eapply keeps_yields; [apply yields_tied|]. intros x Hx.
  apply keeps_unwrap_bind. intros inv ->. pose proof (λ o m w g, anchored_settle_record iid inv o m w g Hx). keeps_auto.
Qed.

Lemma anchored_webhook repr loads `{StreamPayClient} body sg : keeps A (handle_webhook repr loads body sg).
Proof.
  pose proof anchored_settle_invoice. unfold handle_webhook, settle_locked, settle_topup. keeps_auto.
  apply keeps_with_lock. keeps_auto.
Qed.

Lemma anchored_pay_invoice `{StreamPayClient} s k c : keeps A (pay_invoice s k c).
Proof.
  unfold pay_invoice. eapply keeps_yields; [exact (yields_keyed k (λ d _ i, actor_of_invoice d c i))|]. intros x Hx.
  apply keeps_unwrap_bind. intros [iid i] ->. cbn in Hx |- *. pose proof (λ o m w g, anchored_settle_record k i o m w g Hx).
  keeps_auto. apply anchored_update, Hx.
Qed.

Lemma anchored_expire_invoice k : keeps A (expire_invoice k).
Proof.
  unfold expire_invoice. eapply keeps_yields; [apply yields_tied|]. intros o Ho. destruct o as [i|]; [|auto with giftly].
  apply keeps_if; [auto with giftly|]. apply keeps_or_rollback. unfold expire_invoice_body, close_intent.
  keeps_auto. by apply anchored_update.
Qed.

Lemma anchored_expire_stale n : keeps A (expire_stale n).
Proof.
  pose proof anchored_expire_invoice. assert (∀ i, keeps A (expire_topup_intent i)).
  { intros i. apply frame_expire_topup; auto with giftly typeclass_instances. }
  unfold expire_stale, list_expired_issued, list_expired_new. keeps_auto.
Qed.
End Anchored.

(** ** Live redemptions *)

(** Every redemption that occupies a slot is for one of these invoices. *)
Definition live_within (S : uuid → Prop) (d : db) : Prop :=
  ∀ k r, tb_promo_redemptions d !! k = Some r → occupies r = true → S (rd_invoice_id r).

Lemma live_frame S (d d' : db) : tb_promo_redemptions d' = tb_promo_redemptions d → live_within S d → live_within S d'.
Proof. intros E Hl k r. rewrite E. apply Hl. Qed.

#[export] Hint Extern 1 (Frame (live_within _) _) => frame_by live_frame : typeclass_instances.
#[export] Hint Extern 1 (FrameNext (live_within _)) => frame_next_by live_frame : typeclass_instances.

Section Live.
Context (S : uuid → Prop).
Notation L := (live_within S).

Lemma live_update (k : uuid) (r : PromoRedemption) : (occupies r = true → S (rd_invoice_id r)) → keeps L (update_row k r).
Proof.
  intros Hr d u d' Hd Hw. inv_writes. intros j x. cbn. intros [[<- <-]|[_ Hx]]%lookup_insert_Some; [done|by eapply Hd].
Qed.

Lemma yields_redemption i : yields L (found (λ p, occupies p.2 = true → S (rd_invoice_id p.2))) (get_redemption_by_invoice i).
Proof. exact (yields_scalar L (λ _ r, occupies r = true → S (rd_invoice_id r)) (λ d k r Hd, Hd k r) _). Qed.

Lemma live_consume i : keeps L (consume i).
Proof.
  unfold consume. eapply keeps_yields; [apply yields_redemption|]. intros [[k r]|] Hr; [|auto with giftly]. cbn in Hr.
  destruct (same (rd_status r) PromoRedemptionStatus.RESERVED) eqn:E; [|auto with giftly]. apply (proj1 (same_true _ _)) in E.
  apply keeps_bind; [auto with giftly|intros now]. apply live_update. intros _. apply Hr. unfold occupies. by rewrite E.
Qed.

Lemma live_release i : keeps L (release i).
Proof.
  unfold release. eapply keeps_yields; [apply yields_redemption|]. intros [[k r]|] Hr; [|auto with giftly].
  apply keeps_if; [|auto with giftly]. apply keeps_bind; [auto with giftly|intros now].
  apply keeps_bind; [by apply live_update|]. intros _. unfold atomic_release. keeps_auto.
Qed.
End Live.
#[export] Hint Resolve live_consume live_release : giftly.

(** ** The invariant *)

(** The invoice is there, for an order that has left NEW. *)
Definition backed (d : db) (iid : uuid) : Prop :=
  ∃ i o, tb_invoices d !! iid = Some i ∧ tb_orders d !! inv_order_id i = Some o ∧ ord_status o ≠ OrderStatus.NEW.

Definition booked (d : db) : Prop := live_within (backed d) d.

Definition live_in (d : db) (iid : uuid) : Prop :=
  ∃ k r, tb_promo_redemptions d !! k = Some r ∧ occupies r = true ∧ rd_invoice_id r = iid.

Lemma live_start (d : db) : live_within (live_in d) d.
Proof. intros k r Hr Ho. by exists k, r. Qed.

(** Orders only leave NEW. *)
Lemma evolve_not_new (d d' : db) (k : uuid) (o : Order) :
  orders_evolve d d' → tb_orders d !! k = Some o → ord_status o ≠ OrderStatus.NEW →
  ∃ o', tb_orders d' !! k = Some o' ∧ ord_status o' ≠ OrderStatus.NEW.
Proof.
  intros He Ho Hn. destruct (oe_kept _ _ He _ _ Ho) as (o' & Ho' & [Hs _ _]). exists o'. split; [done|].
  intros E. by apply Hn, (steps_to_new _ _ Hs).
Qed.

Lemma backed_step (d d' : db) (iid : uuid) :
  anchored (orders_of d) d' → orders_evolve d d' → backed d iid → backed d' iid.
Proof.
  intros Ha He (i & o & Hi & Hord & Hn).
  destruct (Ha iid (inv_order_id i)) as (i' & Hi' & Ei); [unfold orders_of; by rewrite Hi|].
  destruct (evolve_not_new _ _ _ _ He Hord Hn) as (o' & Ho' & Hn'). exists i', o'. by rewrite Ei.
Qed.

Lemma booked_step (d d' : db) :
  booked d → anchored (orders_of d) d' → live_within (live_in d) d' → orders_evolve d d' → booked d'.
Proof.
  intros Hb Ha Hl He k r Hr Ho. destruct (Hl _ _ Hr Ho) as (k0 & r0 & Hr0 & Ho0 & E).
  apply (backed_step d); [done|done|]. rewrite <- E. by eapply Hb.
Qed.

(** The one operation that books a slot. *)
Lemma booked_create_invoice s oid cid data : keeps booked (create_invoice s oid cid data).
Proof.
  intros d iid d' Hb Hr. pose proof (anchored_create_invoice (orders_of d) s oid cid data d iid d' (anchored_start d) Hr) as Ha.
  pose proof (create_invoice_evolve _ _ _ _ _ _ _ Hr) as He.
  apply create_invoice_ok in Hr as (o & promo & result & i & d1 & d2 & d3 & u1 & u2 & u3 & Hord & _ & _ & _ & _ & Hpr
    & _ & Hdraft & Hitems & Hres & Hi & _ & d4 & Hiss & ->).
  destruct (create_draft_ok _ _ _ _ _ _ _ _ Hdraft) as (_ & i0 & _ & Eo & _ & _ & _ & _ & _ & _ & _ & Ei).
  destruct (issue_ok _ _ _ _ _ _ _ Hi Hiss) as (Einv & _ & _).
  same_after tb_promo_redemptions Hiss. same_after tb_promo_redemptions Hitems. same_after tb_promo_redemptions Hdraft.
  set (d' := d4 <| tb_orders := _ |>) in *.
  intros k r Hk Hocc. change (tb_promo_redemptions d4 !! k = Some r) in Hk. rewrite K in Hk.
  assert (tb_promo_redemptions d !! k = Some r ∨ rd_invoice_id r = iid ∧ tb_invoices d3 = tb_invoices d2) as [Hold|[-> E3]].
  { destruct promo as [[pid p]|]; [|left; congruence]. destruct Hpr as (_ & Hp & _). same_after tb_invoices Hres.
    assert (tb_promos d2 !! pid = Some p) as Hp2 by (same_after tb_promos Hitems; same_after tb_promos Hdraft; congruence).
    apply reserve_ok in Hres as (_ & _ & rid & z & n & _ & _ & _ & ->); [|exact Hp2].
    cbn in Hk. apply lookup_insert_Some in Hk as [[_ <-]|[_ Hk]]; [by right|left; congruence]. }
  - apply (backed_step d d'); [exact Ha|exact He|]. by eapply Hb.
  - same_after tb_invoices Hitems. rewrite E3, K2, Ei, lookup_insert_eq in Hi. injection Hi as <-.
    eexists _, _. split; [cbn; rewrite Einv; apply lookup_insert_eq|]. cbn. rewrite Eo. split; [apply lookup_insert_eq|done].
Qed.

(** ** Deleting an order *)

Lemma promo_ok_delete (d : db) (k : uuid) (r : PromoRedemption) :
  promo_ok d → tb_promo_redemptions d !! k = Some r → occupies r = false →
  promo_ok (d <| tb_promo_redemptions := delete k (tb_promo_redemptions d) |>).
Proof.
  intros [P1 P2 P3 P4] Hr Hocc.
  assert (∀ f, f r = 0 → map_total f (delete k (tb_promo_redemptions d)) = map_total f (tb_promo_redemptions d)) as Ht.
  { intros f Hf. rewrite (map_total_delete f _ _ _ Hr). lia. }
  constructor; cbn.
  - intros pid p Hp. unfold slots_used. rewrite Ht; [by apply P1|]. by rewrite Hocc, andb_false_r.
  - exact P2.
  - intros pid p uid Hp. unfold user_uses. rewrite Ht; [by apply P3|]. by rewrite Hocc, andb_false_r.
  - intros j x [_ Hx]%lookup_delete_Some. by eapply P4.
Qed.

(** While the rows of order [oid] are removed, no live redemption depends on it. *)
Definition elsewhere (oid : uuid) (d : db) (iid : uuid) : Prop :=
  ∃ i o, tb_invoices d !! iid = Some i ∧ inv_order_id i ≠ oid ∧ tb_orders d !! inv_order_id i = Some o ∧
    ord_status o ≠ OrderStatus.NEW.

Record spared (oid : uuid) (d : db) : Prop := {
  sp_promo : promo_ok d;
  sp_live : live_within (elsewhere oid d) d;
}.

Lemma spared_frame oid (d d' : db) :
  tb_promos d' = tb_promos d → tb_promo_redemptions d' = tb_promo_redemptions d → tb_invoices d' = tb_invoices d →
  tb_orders d' = tb_orders d → spared oid d → spared oid d'.
Proof.
  intros E1 E2 E3 E4 [Hp Hl]. constructor; [by apply (promo_frame d)|].
  intros k r. unfold elsewhere. rewrite E2, E3, E4. apply Hl.
Qed.

#[export] Hint Extern 1 (Frame (spared _) _) => frame_by spared_frame : typeclass_instances.
#[export] Hint Extern 1 (FrameNext (spared _)) => frame_next_by spared_frame : typeclass_instances.

Lemma spared_redemptions oid (inv : gmap uuid Invoice) (ids : list uuid) :
  (∀ iid, iid ∈ ids → ∃ i, inv !! iid = Some i ∧ inv_order_id i = oid) →
  keeps (λ d, spared oid d ∧ tb_invoices d = inv) (delete_where (λ x : PromoRedemption, bool_decide (rd_invoice_id x ∈ ids))).
Proof.
  intros Hids. apply keeps_delete_known. intros d k r [[Hp Hl] Hi] Hr Hf. apply bool_decide_eq_true in Hf. split; [|done].
  change (rows (row := PromoRedemption) d) with (tb_promo_redemptions d) in *.
  assert (occupies r = false) as Hocc.
  { destruct (occupies r) eqn:Ho; [|done]. destruct (Hl _ _ Hr Ho) as (i & o & H1 & H2 & _).
    destruct (Hids _ Hf) as (i' & H1' & H2'). rewrite Hi in H1. congruence. }
  constructor; [by apply (promo_ok_delete d k r)|]. intros j x Hx. cbn in Hx. apply lookup_delete_Some in Hx as [_ Hx]. apply (Hl j x Hx).
Qed.

Lemma spared_invoices oid : keeps (spared oid) (delete_where (λ x : Invoice, same (inv_order_id x) oid)).
Proof.
  apply keeps_delete_known. intros d k i [Hp Hl] Hi Hf. apply (proj1 (same_true _ _)) in Hf.
  constructor; [by apply (promo_frame d)|]. intros j r Hr Ho. destruct (Hl j r Hr Ho) as (x & o & H1 & H2 & H3).
  exists x, o. split; [|done]. cbn. rewrite lookup_delete_ne; [done|]. intros ->. change (tb_invoices d !! rd_invoice_id r = Some i) in Hi. congruence.
Qed.

Lemma spared_start (oid : uuid) (o : Order) (d : db) :
  promo_ok d → booked d → tb_orders d !! oid = Some o → ord_status o = OrderStatus.NEW → spared oid d.
Proof.
  intros Hp Hb Ho Hn. constructor; [done|]. intros k r Hr Hocc. destruct (Hb k r Hr Hocc) as (i & x & Hi & Hx & Hs).
  exists i, x. split; [done|]. split; [congruence|done].
Qed.

Lemma booked_delete_order_row (oid : uuid) (o : Order) (d : db) (u : ()) (d' : db) :
  promo_ok d → booked d → tb_orders d !! oid = Some o → ord_status o = OrderStatus.NEW →
  delete_order_row oid d = Ok (u, d') → promo_ok d' ∧ booked d'.
Proof.
  intros Hp Hb Ho Hn Hr. pose proof (spared_start oid o d Hp Hb Ho Hn) as Hs. unfold delete_order_row in Hr.
  do 2 (erewrite bind_run in Hr by reflexivity). cbv zeta in Hr.
  set (ids := fst <$> filter _ (map_to_list (rows (row := Invoice) d))) in Hr.
  assert (∀ iid, iid ∈ ids → ∃ i, tb_invoices d !! iid = Some i ∧ inv_order_id i = oid) as Hids.
  { intros iid ([k i] & -> & [Hf Hi]%list_elem_of_filter)%list_elem_of_fmap. apply elem_of_map_to_list in Hi.
    apply (proj1 (same_true _ _)) in Hf. by exists i. }
  do 4 (erewrite bind_run in Hr by reflexivity). apply bind_ok in Hr as (? & d0 & [_ ->]%guard_ok & Hr).
  apply bind_ok in Hr as (n1 & d1 & H1 & Hr). apply bind_ok in Hr as (n2 & d2 & H2 & Hr). apply bind_ok in Hr as (n3 & d3 & H3 & Hr).
  apply bind_ok in Hr as (n4 & d4 & H4 & Hr). apply bind_ok in Hr as (n5 & d5 & H5 & Hr). apply bind_ok in Hr as (n6 & d6 & H6 & Hr).
  apply bind_ok in Hr as (n7 & d7 & H7 & Hr).
  assert (spared oid d1) as Hs1 by exact (keeps_delete_where (row := Message) (spared oid) _ _ _ _ Hs H1).
  assert (spared oid d2) as Hs2 by exact (keeps_delete_where (row := Conversation) (spared oid) _ _ _ _ Hs1 H2).
  assert (spared oid d3) as Hs3 by exact (keeps_delete_where (row := InvoiceItem) (spared oid) _ _ _ _ Hs2 H3).
  same_after tb_invoices H1. same_after tb_invoices H2. same_after tb_invoices H3.
  assert (spared oid d4) as Hs4.
  { refine (proj1 (spared_redemptions oid (tb_invoices d) ids Hids d3 n4 d4 _ H4)). split; [exact Hs3|congruence]. }
  pose proof (spared_invoices oid _ _ _ Hs4 H5) as Hs5.
  assert (spared oid d6) as Hs6 by exact (keeps_delete_where (row := OrderMedia) (spared oid) _ _ _ _ Hs5 H6).
  assert (spared oid d7) as [Hp7 Hl7] by exact (keeps_delete_where (row := Rating) (spared oid) _ _ _ _ Hs6 H7).
  unfold delete_row in Hr. destruct (negb _); [done|]. injection Hr as _ <-. split; [by apply (promo_frame d7)|].
  intros k r Hk Hocc. destruct (Hl7 k r Hk Hocc) as (i & y & Hi & Hne & Hy & Hst). exists i, y. split; [exact Hi|]. split; [|exact Hst].
  cbn. by rewrite lookup_delete_ne.
Qed.

Lemma delete_order_row_orders (oid : uuid) (d : db) (u : ()) (d' : db) :
  delete_order_row oid d = Ok (u, d') → tb_orders d' = delete oid (tb_orders d).
Proof.
  intros Hr. unfold delete_order_row in Hr. do 2 (erewrite bind_run in Hr by reflexivity). cbv zeta in Hr.
  do 4 (erewrite bind_run in Hr by reflexivity). apply bind_ok in Hr as (? & d0 & [_ ->]%guard_ok & Hr).
  do 7 (let n := fresh "n" in let d1 := fresh "d" in let H1 := fresh "H1" in let E := fresh "E" in
        apply bind_ok in Hr as (n & d1 & H1 & Hr); same_after tb_orders H1; clear H1).
  unfold delete_row in Hr. destruct (negb _); [done|]. injection Hr as _ <-. cbn. congruence.
Qed.

(** The promo counters with what backs them. *)
Record bookings_ok (d : db) : Prop := {
  bk_promo : promo_ok d;
  bk_booked : booked d;
}.

Lemma bookings_frame (d d' : db) :
  tb_promos d' = tb_promos d → tb_promo_redemptions d' = tb_promo_redemptions d → tb_invoices d' = tb_invoices d →
  tb_orders d' = tb_orders d → bookings_ok d → bookings_ok d'.
Proof.
  intros E1 E2 E3 E4 [Hp Hb]. constructor; [by apply (promo_frame d)|]. intros k r. unfold backed. rewrite E2, E3, E4. apply Hb.
Qed.

#[export] Hint Extern 1 (Frame bookings_ok _) => frame_by bookings_frame : typeclass_instances.
#[export] Hint Extern 1 (FrameNext bookings_ok) => frame_next_by bookings_frame : typeclass_instances.

(** An order written in place with its status, or added. *)
Lemma bookings_write_order (d d' : db) (oid : uuid) (o : Order) :
  bookings_ok d → (∀ x, tb_orders d !! oid = Some x → ord_status x ≠ OrderStatus.NEW → ord_status o ≠ OrderStatus.NEW) →
  d' = d <| tb_orders := <[oid := o]> (tb_orders d) |> → bookings_ok d'.
Proof.
  intros [Hp Hb] Ho ->. constructor; [by apply (promo_frame d)|]. intros k r Hr Hocc. destruct (Hb k r Hr Hocc) as (i & x & Hi & Hx & Hn).
  destruct (decide (inv_order_id i = oid)) as [E|Hne].
  - exists i, o. split; [exact Hi|]. cbn. rewrite E, lookup_insert_eq. split; [done|]. rewrite E in Hx. by eapply Ho.
  - exists i, x. split; [exact Hi|]. cbn. by rewrite lookup_insert_ne.
Qed.

Lemma bookings_stamp (d d' : db) (iid : uuid) (i i' : Invoice) :
  bookings_ok d → tb_invoices d !! iid = Some i → inv_order_id i' = inv_order_id i →
  d' = d <| tb_invoices := <[iid := i']> (tb_invoices d) |> → bookings_ok d'.
Proof.
  intros [Hp Hb] Hi E ->. constructor; [by apply (promo_frame d)|]. intros k r Hr Hocc. destruct (Hb k r Hr Hocc) as (j & x & Hj & Hx & Hn).
  destruct (decide (rd_invoice_id r = iid)) as [<-|Hne].
  - exists i', x. cbn. rewrite lookup_insert_eq, E. split; [done|]. split; [|done]. cbn. congruence.
  - exists j, x. cbn. by rewrite lookup_insert_ne.
Qed.
