(* ===== verification/Cutover.v ===== *)
(** * The StreamPay cutover on live data ([migrations/versions/b7c8d9e0f1a2])

    The last revision changes rows: it marks every payment intent as legacy, takes the wallet parts of the open legacy
    checkouts off hold and cancels their intents.  This file runs it on an arbitrary sound database: it
    succeeds, the state stays sound, and each wallet and intent is accounted for.  A newly
    migrated database is sound too, so the theorems on reachable states apply to it. *)

From Stdlib Require Import ZArith Lia.
From stdpp Require Import base list gmap strings numbers option sorting.
From S2P Require Import Prelude Errors PyDecimal Money Enums Tables Database Constraints Ledger Movements Sql Ddl Models Migrations.
From S2P Require Import Payments Withdrawals Holds.
Open Scope Z_scope.

(** ** The state between the steps *)

(** [ADD COLUMN checkout_provider .. DEFAULT 'LEGACY']. *)
Definition marked (d : db) : db := fill_column "payment_intents" "checkout_provider" (sa_literal "LEGACY") d.

Definition mark (i : PaymentIntent) : PaymentIntent := i <| pin_checkout_provider := "LEGACY"%string |>.

Lemma marked_intents (d : db) : marked d = d <| tb_payment_intents := mark <$> tb_payment_intents d |>.
Proof. reflexivity. Qed.

(** What a wallet looks like after its legacy holds are released. *)
Definition freed (d : db) (w : Wallet) : Wallet :=
  match w_user_id w ≫= legacy_hold d with
  | Some z => w <| w_held_balance := Z.max 0 (w_held_balance w - z) |>
  | None => w
  end.

Definition closed (i : PaymentIntent) : PaymentIntent := if legacy_open i then cancel_intent i else i.

(** The three steps as one function on the tables. *)
Definition cut_over (d : db) : db :=
  d <| tb_wallets := freed (marked d) <$> tb_wallets d |>
    <| tb_payment_intents := (λ i, closed (mark i)) <$> tb_payment_intents d |>.

(** ** Lemmas *)

Lemma sum_nonneg (l : list Z) : Forall (λ z, 0 ≤ z) l → 0 ≤ sum_Z l.
Proof. unfold sum_Z. induction 1; cbn; lia. Qed.

Lemma legacy_hold_nonneg (d : db) (u : uuid) (z : Z) : parts_ok d → legacy_hold d u = Some z → 0 ≤ z.
Proof.
  intros Hp. unfold legacy_hold. destruct (legacy_amounts d u) as [|x l] eqn:E; [done|]. intros [= <-].
  apply (sum_nonneg (x :: l)), Forall_forall. intros y Hy. unfold legacy_amounts in E. rewrite <- E in Hy.
  apply list_elem_of_omap in Hy as ([k i] & _ & Hy). destruct (_ && _); [|done].
  destruct (pin_reference_invoice_id (k, i).2) as [j|]; [|done]. cbn in Hy. destruct (tb_invoices d !! j) as [inv|] eqn:Hj; [|done].
  injection Hy as <-. by apply (Hp j inv).
Qed.

Lemma wallets_ok (d : db) : ledger_ok d → table_ok Wallet d.
Proof.
  intros Hl. constructor.
  - intros k w Hw. exists 0. cbn. rewrite (lk_pairing _ Hl _ _ Hw). by apply (lk_range _ Hl k w).
  - intros i j a b. apply (lk_wunique _ Hl).
Qed.

Lemma freed_held (d : db) (w : Wallet) : parts_ok d → 0 ≤ w_held_balance w → 0 ≤ w_held_balance (freed d w) ≤ w_held_balance w.
Proof.
  intros Hp Hw. unfold freed. destruct (w_user_id w ≫= legacy_hold d) as [z|] eqn:E; [|lia]. cbn.
  apply bind_Some in E as (u & _ & Hz). apply legacy_hold_nonneg in Hz; [lia|done].
Qed.

(** A release changes the hold and nothing else of a wallet. *)
Lemma freed_same (d : db) (w : Wallet) :
  w_user_id (freed d w) = w_user_id w ∧ w_type (freed d w) = w_type w ∧ w_balance (freed d w) = w_balance w.
Proof. unfold freed. by destruct (w_user_id w ≫= legacy_hold d). Qed.

(** The hold of a wallet that is not an overdraftable system account is not negative. *)
Lemma freed_check (d : db) (k : uuid) (w : Wallet) :
  ledger_ok d → parts_ok d → tb_wallets d !! k = Some w → chk_balance_non_negative (freed d w) = true.
Proof.
  intros Hl Hp Hw. destruct (lk_range _ Hl _ _ Hw) as (_ & _ & Hc). unfold freed.
  destruct (w_user_id w ≫= legacy_hold d) as [z|]; [|done]. unfold chk_balance_non_negative in *. cbn. destruct (w_type w); try done; lia.
Qed.

Lemma marked_sound (d : db) : sound d → sound (marked d).
Proof.
  intros [S1 S2 [C U] S4 S5 S6]. rewrite marked_intents. constructor; try (by destruct S1; constructor); try (by destruct S2; constructor);
    try (by destruct S4; constructor); [|exact S5|exact S6].
  constructor; cbn.
  - intros k i. rewrite lookup_fmap, fmap_Some. intros (j & Hj & ->). exact (C k j Hj).
  - intros k l a b. rewrite !lookup_fmap, !fmap_Some. intros (a' & Ha & ->) (b' & Hb & ->). exact (U k l a' b' Ha Hb).
Qed.

Lemma release_run (d : db) : sound d →
  release_legacy_holds d = Ok ((), d <| tb_wallets := freed d <$> tb_wallets d |>).
Proof.
  intros Hd. unfold release_legacy_holds. cbv zeta.
  set (g := λ w : Wallet, w <| w_held_balance := Z.max 0 (w_held_balance w - default 0 (w_user_id w ≫= legacy_hold d)) |>).
  destruct (update_where_run g ltac:(done) ltac:(done) (λ w, not_null (w_user_id w ≫= legacy_hold d)) d (wallets_ok _ (sd_ledger _ Hd))) as [E _].
  - intros k w Hw Hf. cbn. unfold not_null in Hf. pose proof (freed_check d k w (sd_ledger _ Hd) (sd_parts _ Hd) Hw) as Hc.
    pose proof (lk_pairing _ (sd_ledger _ Hd) _ _ Hw) as Hp. unfold freed in Hc. subst g. cbn beta.
    destruct (w_user_id w ≫= legacy_hold d) as [z|]; [|done]. apply andb_true_iff. by split.
  - rewrite E. f_equal. f_equal. cbn. f_equal. apply map_eq. intros k. rewrite !lookup_fmap. destruct (tb_wallets d !! k) as [w|]; [|done].
    cbn. f_equal. unfold freed, not_null, g. by destruct (w_user_id w ≫= legacy_hold d).
Qed.

Lemma cancel_run (d : db) : table_ok PaymentIntent d →
  cancel_legacy_intents d = Ok ((), d <| tb_payment_intents := closed <$> tb_payment_intents d |>) ∧
  table_ok PaymentIntent (d <| tb_payment_intents := closed <$> tb_payment_intents d |>).
Proof.
  intros Hd. apply (update_where_run cancel_intent ltac:(done) ltac:(done) legacy_open d Hd).
  intros k i Hi _. destruct (tk_check _ _ Hd k i Hi) as [today Hc]. exact Hc.
Qed.

(** Releasing the holds keeps the ledger: no balance and no ledger row moves. *)
Lemma freed_sound (d : db) : sound d → sound (d <| tb_wallets := freed d <$> tb_wallets d |>).
Proof.
  intros Hd. pose proof (sd_ledger _ Hd) as Hl. pose proof (sd_parts _ Hd) as Hp.
  eapply sound_money; [exact Hd|..|reflexivity|reflexivity|reflexivity].
  - destruct Hl as [L1 L2 L3 L4 L5 L6 L7]. constructor; cbn; try done.
    + intros k w'. rewrite lookup_fmap, fmap_Some. intros (w & Hw & ->). destruct (freed_same d w) as (_ & _ & ->). by apply L1.
    + intros k t Ht. rewrite lookup_fmap. apply fmap_is_Some. by eapply L3.
    + intros k w'. rewrite lookup_fmap, fmap_Some. intros (w & Hw & ->). destruct (L5 _ _ Hw) as (B & H & _).
      destruct (freed_same d w) as (_ & _ & ->). split; [done|]. split; [|by eapply freed_check; [exact (sd_ledger _ Hd)|..]].
      unfold freed. destruct (w_user_id w ≫= legacy_hold d) as [z|] eqn:E; [|done]. cbn.
      apply bind_Some in E as (u & _ & Hz). apply legacy_hold_nonneg in Hz; [lia|done].
    + intros k w'. rewrite lookup_fmap, fmap_Some. intros (w & Hw & ->). specialize (L6 _ _ Hw).
      destruct (freed_same d w) as (E1 & E2 & _). unfold chk_user_wallet_pairing in *. by rewrite E1, E2.
    + intros i j a b. rewrite !lookup_fmap, !fmap_Some. intros (a' & Ha & ->) (b' & Hb & ->) Hij. specialize (L7 _ _ _ _ Ha Hb Hij).
      destruct (freed_same d a') as (E1 & E2 & _), (freed_same d b') as (E3 & E4 & _). unfold conflicts_wallets in *. by rewrite E1, E2, E3, E4.
  - intros k w'. cbn. rewrite lookup_fmap, fmap_Some. intros (w & Hw & ->). destruct (freed_same d w) as (-> & _ & ->).
    pose proof (sd_covered _ Hd _ _ Hw) as Hc. destruct (w_user_id w) as [u|] eqn:Hu.
    + pose proof (freed_held d w Hp (held_nonneg _ _ _ Hl Hw ltac:(congruence))). lia.
    + unfold freed. by rewrite Hu.
Qed.

Lemma cutover_rows (d : db) : sound d → run_rows cutover_upgrade d = Ok ((), cut_over d) ∧ sound (cut_over d).
Proof.
  intros Hd. apply marked_sound in Hd as Hm. set (d1 := marked d) in *.
  pose proof (freed_sound _ Hm) as Hf. set (d2 := d1 <| tb_wallets := freed d1 <$> tb_wallets d1 |>) in *.
  destruct (cancel_run d2 (sd_intents _ Hf)) as [Ec Hc].
  assert (d2 <| tb_payment_intents := closed <$> tb_payment_intents d2 |> = cut_over d) as E3.
  { unfold cut_over, d2, d1. rewrite marked_intents. cbn. by rewrite <- map_fmap_compose. }
  split.
  - change (run_rows cutover_upgrade) with
      (for_each id [λ x, Ok ((), fill_column "payment_intents" "checkout_provider" (sa_literal "LEGACY") x);
                    release_legacy_holds; cancel_legacy_intents]).
    rewrite (for_each_step _ _ _ _ d1) by reflexivity. rewrite (for_each_step _ _ _ _ d2) by exact (release_run _ Hm).
    rewrite (for_each_step _ _ _ _ (cut_over d)) by (unfold id; rewrite Ec, E3; reflexivity). reflexivity.
  - rewrite <- E3. destruct Hf as [S1 S2 _ S4 S5 S6]. constructor; try (by destruct S1; constructor); try (by destruct S2; constructor);
      try (by destruct S4; constructor); done.
Qed.

Lemma seeded_sound (now : instant) (next : uuid) : sound (seeded_db now next).
Proof.
  assert (∀ k w, tb_wallets (seeded_db now next) !! k = Some w → ∃ ty, w = system_row now ty ∧ ty ∉ [WalletType.CUSTOMER; WalletType.COURIER] ∧
    k = (next + match ty with WalletType.SYSTEM_ESCROW => 0 | WalletType.SYSTEM_REVENUE => 1 | WalletType.SYSTEM_GATEWAY => 2 | _ => 3 end)%N) as Hw.
  { intros k w. cbn. rewrite !lookup_insert_Some, lookup_singleton_Some.
    intros [[<- <-]|[_ [[<- <-]|[_ [[<- <-]|[_ [<- <-]]]]]]]; eexists; (split; [reflexivity|split; [set_solver|lia]]). }
  constructor; try (apply table_ok_empty; reflexivity).
  - constructor; try done.
    + intros k w (ty & -> & _)%Hw. reflexivity.
    + intros k w (ty & -> & _)%Hw. cbn. repeat split; try lia. by destruct ty.
    + intros k w (ty & -> & Hty & _)%Hw. destruct ty; set_solver.
    + intros i j a b (t1 & -> & H1 & ->)%Hw (t2 & -> & H2 & ->)%Hw Hij. cbn. unfold conflicts_wallets. cbn.
      destruct t1, t2; try done; exfalso; (set_solver || lia).
  - intros k w (ty & -> & _)%Hw. reflexivity.
  - intros k i. cbn. by rewrite lookup_empty.
Qed.

(** ** The amounts *)

(** The wallet parts of the user's open invoice payments. *)
Definition open_part (d : db) (u : uuid) (i : PaymentIntent) : option Z :=
  if same (pin_status i) PaymentIntentStatus.NEW && same (pin_purpose i) PaymentPurpose.ORDER_INVOICE && same (pin_user_id i) u
  then inv_amount_from_wallet <$> (pin_reference_invoice_id i ≫= λ k, tb_invoices d !! k) else None.

Definition open_parts (d : db) (u : uuid) : Z := sum_Z (omap (λ p, open_part d u p.2) (map_to_list (tb_payment_intents d))).

Lemma sum_perm (l k : list Z) : l ≡ₚ k → sum_Z l = sum_Z k.
Proof. unfold sum_Z. induction 1; cbn; lia. Qed.

Lemma omap_fmap_list {A B C} (f : A → B) (g : B → option C) (l : list A) : omap g (f <$> l) = omap (λ x, g (f x)) l.
Proof. induction l as [|x l IH]; [done|]. cbn. destruct (g (f x)); [f_equal|]; exact IH. Qed.

Lemma legacy_marked (d : db) (u : uuid) : sum_Z (legacy_amounts (marked d) u) = open_parts d u.
Proof.
  unfold legacy_amounts, open_parts. rewrite marked_intents. cbn. apply sum_perm.
  rewrite (map_to_list_fmap mark (tb_payment_intents d)), omap_fmap_list. apply reflexive_eq, list_omap_ext, Forall_Forall2_diag, Forall_forall.
  intros [k i] _. cbn. unfold open_part, legacy_open. cbn. by rewrite andb_true_r.
Qed.

Lemma freed_open (d : db) (w : Wallet) (u : uuid) : w_user_id w = Some u → 0 ≤ w_held_balance w →
  w_held_balance (freed (marked d) w) = Z.max 0 (w_held_balance w - open_parts d u).
Proof.
  intros Hu Hw. unfold freed. rewrite Hu. cbn [mbind option_bind]. rewrite <- legacy_marked. unfold legacy_hold.
  destruct (legacy_amounts (marked d) u); [|reflexivity]. change (sum_Z []) with 0. lia.
Qed.

(** ** Properties *)

(** [C34] The cutover revision is safe on live data.  On any sound database at the previous revision it succeeds and leaves the schema
    at head and the state sound: no balance and no ledger row changes, every user's hold shrinks by the wallet parts of the invoice payments
    they had open, never below zero, system wallets keep theirs; every open intent is cancelled and has lost its link, every other intent only gains the
    [LEGACY] mark, so no webhook for an old link can settle anything. *)
Theorem cutover_safe (d : db) : sound d →
  run cutover_upgrade (schema_after 4, d) = inr (schema_at_head, cut_over d) ∧
  sound (cut_over d) ∧
  (∀ k, tb_payment_intents (cut_over d) !! k =
     (λ i, if same (pin_status i) PaymentIntentStatus.NEW then cancel_intent (mark i) else mark i) <$> tb_payment_intents d !! k) ∧
  (∀ k i, tb_payment_intents (cut_over d) !! k = Some i → pin_status i ≠ PaymentIntentStatus.NEW) ∧
  (∀ k i, tb_payment_intents d !! k = Some i → pin_status i = PaymentIntentStatus.NEW →
     ∃ i', tb_payment_intents (cut_over d) !! k = Some i' ∧ pin_status i' = PaymentIntentStatus.CANCELLED ∧
       pin_streampay_payment_link_id i' = None ∧ pin_streampay_payment_url i' = None ∧ pin_amount i' = pin_amount i) ∧
  (∀ k w, tb_wallets d !! k = Some w → ∃ w', tb_wallets (cut_over d) !! k = Some w' ∧ w_balance w' = w_balance w ∧
     w_held_balance w' = match w_user_id w with Some u => Z.max 0 (w_held_balance w - open_parts d u) | None => w_held_balance w end) ∧
  (cut_over d) <| tb_wallets := tb_wallets d |> <| tb_payment_intents := tb_payment_intents d |> = d.
Proof.
  intros Hd. destruct (cutover_rows d Hd) as [Hr Hs].
  assert (∀ i, closed (mark i) = if same (pin_status i) PaymentIntentStatus.NEW then cancel_intent (mark i) else mark i) as Hc.
  { intros i. unfold closed, legacy_open. cbn. by rewrite andb_true_r. }
  split; [|split; [done|split; [|split; [|split; [|split]]]]].
  - eapply run_split; [|exact Hr]. compute_schema.
  - intros k. cbn. rewrite lookup_fmap. destruct (tb_payment_intents d !! k); [|done]. cbn. by rewrite Hc.
  - intros k i. cbn. rewrite lookup_fmap, fmap_Some. intros (j & _ & ->). rewrite Hc.
    destruct (same (pin_status j) PaymentIntentStatus.NEW) eqn:E; [done|].
    intros Hn. change (pin_status j = PaymentIntentStatus.NEW) in Hn. by rewrite Hn in E.
  - intros k i Hk Hn. exists (cancel_intent (mark i)). cbn. rewrite lookup_fmap, Hk. cbn. rewrite Hc, Hn. by repeat split.
  - intros k w Hw. exists (freed (marked d) w). cbn. rewrite lookup_fmap, Hw. split; [done|].
    destruct (freed_same (marked d) w) as (_ & _ & Eb). split; [exact Eb|]. destruct (w_user_id w) as [u|] eqn:Hu.
    + apply freed_open; [done|]. eapply held_nonneg; [exact (sd_ledger _ Hd)|exact Hw|congruence].
    + unfold freed. by rewrite Hu.
  - by destruct d.
Qed.

(** Example data: customer 70 has 20.00 of 300.00 on hold for an invoice whose link was never paid. *)
Definition live_db : db :=
  db0 <| tb_wallets := <[5%N := (seed_wallet (Some 70%N) WalletType.CUSTOMER 30000) <| w_held_balance := 2000 |>]> (tb_wallets db0) |>
      <| tb_invoices := {[ 90%N := invoice_issued <| inv_amount_from_wallet := 2000 |> ]} |>
      <| tb_payment_intents := {[ 91%N := mk_PaymentIntent 70 PaymentPurpose.ORDER_INVOICE 9000 "SAR" PaymentIntentStatus.NEW EmptyString
           (Some "pl_old"%string) (Some "https://old"%string) (Some 90%N) 0 None None 0 ]} |>.

Lemma ledger_ok_live : ledger_ok live_db.
Proof.
  pose proof ledger_ok_db0 as [L1 L2 L3 L4 L5 L6 L7]. constructor; [|exact L2| |exact L4|..].
  - intros wid w Hw. enum_lookup Hw; vm_compute; reflexivity.
  - intros tid t Ht. enum_lookup Ht; vm_compute; eauto.
  - intros wid w Hw. enum_lookup Hw; vm_compute; done.
  - intros wid w Hw. enum_lookup Hw; done.
  - intros i j a b Ha Hb Hij. enum_lookup Ha; enum_lookup Hb; done.
Qed.

Lemma sound_live : sound live_db.
Proof.
  constructor; [exact ledger_ok_live|..].
  - constructor; [intros k i Hi; enum_lookup Hi; exists 0; vm_compute; reflexivity|].
    intros i j a b Ha Hb Hij. enum_lookup Ha; enum_lookup Hb; done.
  - constructor; [intros k i Hi; enum_lookup Hi; exists 0; vm_compute; reflexivity|].
    intros i j a b Ha Hb Hij. enum_lookup Ha; enum_lookup Hb; done.
  - by apply table_ok_empty.
  - intros k w Hw. enum_lookup Hw; vm_compute; first [reflexivity|discriminate].
  - intros k i Hi. enum_lookup Hi. vm_compute. split; discriminate.
Qed.

Lemma cutover_safe_witness :
  ∃ w i, tb_wallets (cut_over live_db) !! 5%N = Some w ∧ w_balance w = 30000 ∧ w_held_balance w = 0 ∧
    tb_payment_intents (cut_over live_db) !! 91%N = Some i ∧ pin_status i = PaymentIntentStatus.CANCELLED.
Proof.
  destruct (cutover_safe live_db sound_live) as (_ & _ & Hi & _ & _ & Hw & _).
  destruct (Hw 5%N _ eq_refl) as (w & Ew & Eb & Eh). exists w. eexists.
  split; [exact Ew|]. split; [rewrite Eb; reflexivity|]. split; [rewrite Eh; vm_compute; reflexivity|].
  split; [rewrite Hi; vm_compute; reflexivity|reflexivity].
Defined.

(** A newly migrated database is sound. *)
Lemma new_database_sound (now : instant) (next : uuid) :
  ∃ d, upgrade_head (None, (empty_schema, fresh_db now next)) = ((Some "b7c8d9e0f1a2"%string, (schema_at_head, d)), None) ∧ sound d.
Proof.
  exists (seeded_db now next). split; [|apply seeded_sound]. unfold upgrade_head, do_run_migrations. cbn [fst]. rewrite chain_is_path.
  by rewrite (upgrades_split _ _ _ _ _ _ _ chain_schema (chain_rows now next)).
Qed.
