(* ===== verification/Boot.v ===== *)
(** * What boot validation guarantees ([Settings._validate_boot], [build_clients])

    The services rely on their settings without checking them again: keys of the right length, a
    signing key, a session secret, rates between 0 and 1, withdrawal bounds in order, real
    clients in production.  This file derives each of these from a boot that was not refused. *)

From Stdlib Require Import ZArith Lia Ascii.
From stdpp Require Import base list gmap strings numbers option sorting.
From S2P Require Import Prelude Errors PyDecimal Money Pricing Enums OrderState Tables Database Redis Ledger Promos.
From S2P Require Import Crypto Media Orders Invoices Config Fields Tokens Clients Holds Logging.
Open Scope Z_scope.

(** ** Lemmas *)

Lemma first_refusal_none (l : list (option string)) : first_refusal l = None ↔ Forall (λ x, x = None) l.
Proof.
  induction l as [|[e|] l IH]; cbn; [by split|..].
  - split; [done|]. by intros [? _]%Forall_cons.
  - rewrite IH, Forall_cons. naive_solver.
Qed.

Lemma refuse_if_none (b : bool) (n : string) : refuse_if b n = None ↔ b = false.
Proof. by destruct b. Qed.

(** Split a list of validators that all passed. *)
Ltac passed H :=
  rewrite first_refusal_none in H; repeat rewrite Forall_cons in H; rewrite ?refuse_if_none in H;
  decompose [and] H; clear H.

Lemma boot_parts (s : AppSettings) : validate_boot s = None →
  validate_encryption_keys s = None ∧ validate_jwt s = None ∧ validate_rates s = None ∧ validate_admin s = None ∧
  (is_production s = true → validate_production_interlock s = None).
Proof. intros H. unfold validate_boot in H. passed H. repeat (split; [done|]). by destruct (is_production s). Qed.

Lemma inside_unit (r : dec) : outside_unit r = false → -10 ≤ dexp r ≤ 0 → wf_rate r.
Proof.
  unfold outside_unit. rewrite negb_false_iff, andb_true_iff. intros [H0 H1] He. split; [done|].
  unfold dleb, dcmp, dint, rescale_down in *. cbn [coef dexp] in *.
  rewrite Z.min_r in H0 by lia. rewrite Z.min_l in H1 by lia. rewrite Z.sub_diag, Z.pow_0_r, Z.mul_1_r in H0, H1.
  rewrite Z.mul_1_l, Z.sub_0_l in H1. split.
  - destruct (Z.compare_spec (0 * 10 ^ (0 - dexp r)) (coef r)); [lia..|done].
  - destruct (Z.compare_spec (coef r) (10 ^ (- dexp r))); [lia..|done].
Qed.

(** How the decimals of the environment have to be written: at most ten places for the rate,
    two for the amounts. *)
Record written (s : Settings) : Prop := {
  wr_rate : -10 ≤ dexp (PLATFORM_COMMISSION_RATE s) ≤ 0;
  wr_min : ∃ m, MIN_WITHDRAWAL_AMOUNT s = sar m;
  wr_max : ∃ m, MAX_WITHDRAWAL_AMOUNT s = sar m ∧ m < 10 ^ 12;
}.

Lemma rates_wf (s : AppSettings) : validate_rates s = None → written (business s) → wf_settings (business s).
Proof.
  intros H [Hr [m Hm] [x [Hx Hlt]]]. unfold validate_rates in H. passed H. constructor; [by apply inside_unit| |by exists x].
  exists m. split; [done|]. rewrite Hm in *. rewrite dltb_sar in *. match goal with E : (m <? 5000) = false |- _ => apply Z.ltb_ge in E end. lia.
Qed.

Lemma jwt_keys (s : AppSettings) : validate_jwt s = None →
  ∃ k k', signing_key s = Ok k ∧ verify_key s = Ok k' ∧ (JWT_ALGORITHM s = HS256 → k' = k ∧ (32 ≤ String.length k)%nat).
Proof.
  unfold validate_jwt, signing_key, verify_key. destruct (JWT_ALGORITHM s).
  - destruct (JWT_SECRET s) as [k|]; [|done]. intros H%refuse_if_none. eexists _, _. split; [done|]. split; [done|]. intros _.
    split; [done|]. unfold utf8_length in H. apply Nat.ltb_ge in H. done.
  - intros H%refuse_if_none. apply orb_false_iff in H as [H1 H2]. destruct (JWT_PRIVATE_KEY s), (JWT_PUBLIC_KEY s); try done.
    by eexists _, _.
Qed.

(** The pepper as bytes. *)
Definition pepper_bytes (s : AppSettings) : list ascii := String.list_ascii_of_string (get_secret_value (IDENTITY_FINGERPRINT_PEPPER s)).

Lemma field_keys (s : AppSettings) : validate_encryption_keys s = None →
  ∃ keys, encryption_keys s = Some keys ∧ is_Some (keys !! FIELD_ENCRYPTION_KEY_VERSION s) ∧
    (∀ v key, keys !! v = Some key → length key = 32%nat ∧ key ≠ pepper_bytes s) ∧
    ((∃ c, settings_cipher s = Ok c) ↔ ∀ v, is_Some (keys !! v) → 0 ≤ v ≤ 255).
Proof.
  unfold validate_encryption_keys, settings_cipher. destruct (encryption_keys s) as [keys|]; [|done]. intros H. passed H. exists keys.
  assert (is_Some (keys !! FIELD_ENCRYPTION_KEY_VERSION s)) as [k Hk].
  { destruct (keys !! FIELD_ENCRYPTION_KEY_VERSION s); [by eexists|done]. }
  assert (∀ v key, keys !! v = Some key → length key = 32%nat ∧ key ≠ pepper_bytes s) as Hkeys.
  { intros v key Hv. apply elem_of_map_to_list in Hv. split.
    - match goal with E : existsb (λ p, negb (length p.2 =? 32)%nat) _ = false |- _ => rename E into E1 end.
      destruct (length key =? 32)%nat eqn:El; [by apply Nat.eqb_eq|]. exfalso. rewrite <- not_true_iff_false in E1. apply E1.
      apply existsb_exists. exists (v, key). split; [by apply list_elem_of_In|]. cbn. by rewrite El.
    - intros ->. match goal with E : existsb (λ p, bool_decide _) _ = false |- _ => rewrite <- not_true_iff_false in E; apply E end.
      apply existsb_exists. exists (v, pepper_bytes s). split; [by apply list_elem_of_In|]. by apply bool_decide_eq_true. }
  split; [done|]. split; [by exists k|]. split; [exact Hkeys|]. unfold build_cipher. rewrite Hk.
  assert (forallb (λ p, (length p.2 =? 32)%nat && (0 <=? p.1) && (p.1 <=? 255)) (map_to_list keys) = true ↔
    ∀ v, is_Some (keys !! v) → 0 ≤ v ≤ 255) as Hb.
  { rewrite forallb_forall. split.
    - intros Hall v [key Hv]. apply elem_of_map_to_list, list_elem_of_In, Hall in Hv. cbn in Hv.
      apply andb_true_iff in Hv as [[_ Ha]%andb_true_iff Hz]. apply Z.leb_le in Ha, Hz. done.
    - intros Hall [v key] Hv. apply list_elem_of_In, elem_of_map_to_list in Hv. cbn.
      destruct (Hall v ltac:(by exists key)) as [Ha Hz]. destruct (Hkeys v key Hv) as [-> _].
      rewrite Nat.eqb_refl, (proj2 (Z.leb_le _ _) Ha), (proj2 (Z.leb_le _ _) Hz). done. }
  rewrite <- Hb. destruct (forallb _ _); split; try done; [by intros _; eexists|by intros [c Hc]].
Qed.

Lemma dashboard_credentials (s : AppSettings) : validate_admin s = None → ADMIN_DASHBOARD_ENABLED s = true →
  ∃ u p k, ADMIN_USERNAME s = Some u ∧ u ≠ EmptyString ∧ ADMIN_PASSWORD s = Some p ∧ get_secret_value p ≠ EmptyString ∧
    ADMIN_SESSION_SECRET s = Some k ∧ (32 ≤ String.length (get_secret_value k))%nat ∧
    (is_production s = true → (12 ≤ String.length (get_secret_value p))%nat).
Proof.
  unfold validate_admin. intros H Hon. rewrite Hon in H. cbn [negb] in H.
  destruct (ADMIN_USERNAME s) as [[|c u]|]; [done| |done]. destruct (ADMIN_PASSWORD s) as [p|]; [|done]. passed H.
  destruct (ADMIN_SESSION_SECRET s) as [k|]; [|done].
  match goal with E : refuse_if _ _ = None |- _ => apply refuse_if_none, Nat.ltb_ge in E; rename E into E1 end.
  match goal with E : bool_decide (get_secret_value p = EmptyString) = false |- _ => apply bool_decide_eq_false in E end.
  exists (String c u), p, k. repeat (split; [done|]). intros Hprod. rewrite Hprod in *.
  match goal with E : true && _ = false |- _ => rewrite andb_true_l in E; apply orb_false_iff in E; destruct E as [_ Hlen] end. by apply Nat.ltb_ge in Hlen.
Qed.

Lemma production_clients (s : AppSettings) : validate_boot s = None →
  build_clients s = Some (if is_production s then Real else Fake) ∧
  (is_production s = true → DEBUG s = false ∧ docs_enabled s = false ∧ cors_origins s ≠ [] ∧ ["*"%char] ∉ cors_origins s).
Proof.
  intros (_ & _ & _ & _ & Hp)%boot_parts. unfold build_clients. destruct (is_production s) eqn:Hprod.
  - specialize (Hp eq_refl). unfold validate_production_interlock in Hp. passed Hp.
    match goal with E : require_production_fields s = None |- _ => unfold require_production_fields in E; passed E end.
    repeat match goal with E : empty_secret _ = false |- _ => rewrite E; clear E end. split; [done|]. intros _.
    split; [done|]. split; [done|]. split; [by destruct (cors_origins s)|]. by eapply bool_decide_eq_false_1.
  - split; [|done]. unfold forbid_in_production, is_production in *. by rewrite Hprod.
Qed.

(** ** Property *)

(** What boot validation does guarantee (and [boot_accepts_unusable_secrets] below what it does not): there are signing and
    verification keys (one secret of at least 32 bytes under HS256); every field key has 32 bytes and differs from the pepper, the active one is among them, and the
    cipher can be built exactly when the versions fit a byte; the dashboard, if enabled, has credentials and a session secret of
    at least 32 bytes; rates and withdrawal bounds are those the settlement and the holds rely on; production runs the real
    clients without debugging, documentation or a wildcard origin, and every other environment runs the doubles.  The clients
    are then constructed: outside production the empty doubles, in production the real ones exactly when the CloudFront
    key parses as an RSA key, which boot validation does not look into. *)
Theorem boot_well_formed (s : AppSettings) :
  validate_boot s = None →
  (∃ k k', signing_key s = Ok k ∧ verify_key s = Ok k' ∧ (JWT_ALGORITHM s = HS256 → k' = k ∧ (32 ≤ String.length k)%nat)) ∧
  (∃ keys, encryption_keys s = Some keys ∧ is_Some (keys !! FIELD_ENCRYPTION_KEY_VERSION s) ∧
     (∀ v key, keys !! v = Some key → length key = 32%nat ∧ key ≠ pepper_bytes s) ∧
     ((∃ c, settings_cipher s = Ok c) ↔ ∀ v, is_Some (keys !! v) → 0 ≤ v ≤ 255)) ∧
  (ADMIN_DASHBOARD_ENABLED s = true → ∃ u p k, ADMIN_USERNAME s = Some u ∧ u ≠ EmptyString ∧ ADMIN_PASSWORD s = Some p ∧
     get_secret_value p ≠ EmptyString ∧ ADMIN_SESSION_SECRET s = Some k ∧ (32 ≤ String.length (get_secret_value k))%nat ∧
     (is_production s = true → (12 ≤ String.length (get_secret_value p))%nat)) ∧
  (written (business s) → wf_settings (business s)) ∧
  build_clients s = Some (if is_production s then Real else Fake) ∧
  (is_production s = true → DEBUG s = false ∧ docs_enabled s = false ∧ cors_origins s ≠ [] ∧ ["*"%char] ∉ cors_origins s) ∧
  (∀ `{Aws} (b64encode : string → string),
     if is_production s then
       (∃ c, construct_clients b64encode s = Ok (inl c)) ↔
       ∃ k pem, CLOUDFRONT_PRIVATE_KEY s = Some k ∧
         load_pem_private_key (to_text (unescape_newlines (of_text (get_secret_value k)))) = Ok (RSAPrivateKey pem)
     else construct_clients b64encode s = Ok (inr (mk_FakeClients 1 [] ∅ [] ∅))).
Proof.
  intros Hb. destruct (boot_parts s Hb) as (Hk & Hj & Hr & Ha & _). destruct (production_clients s Hb) as [Hc Hp].
  split; [by apply jwt_keys|]. split; [by apply field_keys|]. split; [by apply dashboard_credentials|].
  split; [by apply rates_wf|]. split; [exact Hc|]. split; [exact Hp|].
  intros aws b64encode. destruct (is_production s) eqn:E; [by apply construct_real|by apply construct_doubles].
Qed.

(** The production configuration: every integration present. *)
Definition app_production (webhook_secret : string) (keys : gmap Z (list ascii)) : AppSettings :=
  let k := Some (SecretStr "key") in let v := Some "value"%string in
  mk_AppSettings settings0 PRODUCTION false (Some secret32) None None HS256 30 30 "safe-gift" "safe-gift"
    (Some keys) 1 (SecretStr "pepper-pepper-pepper-pepper-pepper")
    v k k v v v k k k (Some (SecretStr webhook_secret)) k v v v v k v k
    (Some "operator") (Some (SecretStr "correct horse battery")) (Some secret32) 60 true "https://gift.example"
    true 120 60 1048576 None 30 180 3 300 1800 4096 30 60.

Lemma boot_well_formed_witness :
  build_clients (app_production "whsec" keys1) = Some Real ∧ build_clients app0 = Some Fake ∧ wf_settings (business app0).
Proof.
  destruct (boot_well_formed (app_production "whsec" keys1)) as (_ & _ & _ & _ & H1 & _); [vm_compute; reflexivity|].
  destruct (boot_well_formed app0) as (_ & _ & _ & H2 & H3 & _); [vm_compute; reflexivity|].
  split; [exact H1|]. split; [exact H3|]. apply H2.
  constructor; [vm_compute; split; discriminate|by eexists|eexists; split; [reflexivity|lia]].
Defined.

(** What boot validation lets through: an empty webhook secret in production (a [SecretStr] is never equal to the empty
    string), and a key version that does not fit the version byte, with which no field can be encrypted. *)
Theorem boot_accepts_unusable_secrets :
  validate_boot (app_production EmptyString keys1) = None ∧
  validate_boot (app_production "whsec" (<[300 := replicate 32 "k"%char]> keys1)) = None ∧
  settings_cipher (app_production "whsec" (<[300 := replicate 32 "k"%char]> keys1)) = Raise CryptoExn.
Proof. vm_compute. done. Qed.

(** ** The application ([main.py], [create_app]) *)

Inductive router :=
  | HealthRouter | AuthRouter | UsersRouter | WalletsRouter | MediaRouter | OrdersRouter | InvoicesRouter | PromosRouter
  | WebhooksRouter | RatingsRouter | AdminApiRouter | ChatRouter | DevicesRouter
  | AdminDashboard  (* [_register_admin]: its router, its static files and the redirect handler *)
  | DevRouter.

#[export] Instance router_eq_dec : EqDecision router.
Proof. solve_decision. Defined.

(** The layers around the routes, innermost first, as [add_middleware] stacks them. *)
Inductive middleware :=
  | RequestGuards
  | RequestIds
  | Cors (origins : list (list ascii)) (allow_credentials : bool)
  | SecurityHeaders.

Record App := mk_App {
  docs_url : option string;
  redoc_url : option string;
  openapi_url : option string;
  app_clients : RealClients + FakeClients;
  app_middleware : list middleware;
  app_routers : list router;
}.

Definition install_cors (settings : AppSettings) : middleware :=
  if bool_decide (ENVIRONMENT settings = DEVELOPMENT) then Cors [["*"%char]] false else Cors (cors_origins settings) true.

Definition install_middleware (settings : AppSettings) : list middleware :=
  [RequestGuards; RequestIds; install_cors settings; SecurityHeaders].

Definition api_routers : list router :=
  [HealthRouter; AuthRouter; UsersRouter; WalletsRouter; MediaRouter; OrdersRouter; InvoicesRouter; PromosRouter; WebhooksRouter;
   RatingsRouter; AdminApiRouter; ChatRouter; DevicesRouter].

(** [create_app] of a process whose root logger is [root]: the logger as it leaves it, and the application or the error that
    stops the boot.  The connection pools are lazy: building them reaches nothing. *)
Definition create_app `{Unicode} `{Aws} (b64encode : string → string) (settings : AppSettings) (log_level : string) (root : RootLogger)
    : RootLogger * res App :=
  let '(root', known) := configure_logging log_level root in
  (root',
   raise_if (negb known) ValueError;;
   clients ← construct_clients b64encode settings;
   let docs (url : string) := if docs_enabled settings then Some url else None in
   Ok (mk_App (docs "/docs") (docs "/redoc") (docs "/openapi.json") clients (install_middleware settings)
         (api_routers ++ (if ADMIN_DASHBOARD_ENABLED settings then [AdminDashboard] else []) ++
          (if bool_decide (ENVIRONMENT settings = DEVELOPMENT) then [DevRouter] else [])))).

(** No origin is a wildcard while credentials are allowed. *)
Definition cors_safe (l : list middleware) : bool :=
  forallb (λ m, match m with Cors origins true => negb (bool_decide (["*"%char] ∈ origins)) | _ => true end) l.

Lemma create_app_ok `{Unicode} `{Aws} (b64encode : string → string) (s : AppSettings) (log_level : string) (root root' : RootLogger) (app : App) :
  create_app b64encode s log_level root = (root', Ok app) →
  is_Some (level_of (upper log_level)) ∧ construct_clients b64encode s = Ok (app_clients app) ∧
  app_middleware app = install_middleware s ∧
  app_routers app = api_routers ++ (if ADMIN_DASHBOARD_ENABLED s then [AdminDashboard] else []) ++
    (if bool_decide (ENVIRONMENT s = DEVELOPMENT) then [DevRouter] else []) ∧
  openapi_url app = (if docs_enabled s then Some "/openapi.json"%string else None).
Proof.
  unfold create_app, configure_logging. destruct (level_of (upper log_level)); [|done]. cbn [negb raise_if mbind res_bind].
  destruct (construct_clients b64encode s) as [c|e]; [|done]. cbn [mbind res_bind]. intros [= <- <-]. by repeat split.
Qed.

Lemma dev_router_only (s : AppSettings) :
  DevRouter ∈ api_routers ++ (if ADMIN_DASHBOARD_ENABLED s then [AdminDashboard] else []) ++
    (if bool_decide (ENVIRONMENT s = DEVELOPMENT) then [DevRouter] else []) ↔ ENVIRONMENT s = DEVELOPMENT.
Proof.
  rewrite !elem_of_app. case_bool_decide as He; destruct (ADMIN_DASHBOARD_ENABLED s); cbn;
    (split; [|intros Hd; try done; right; right; by left]); intros [H|[H|H]]; try done; set_solver.
Qed.

(** The application that boots keeps the environments apart: the development routes and the generated documentation are
    there exactly in development, the dashboard exactly when enabled; in production the clients are the real ones and no
    wildcard origin is allowed credentials; everywhere else the clients are the doubles; and every record logged from then on writes
    at most one line, the scrubbed one. *)
Theorem created_app_interlocked `{Unicode} `{Aws} (b64encode : string → string) (s : AppSettings) (log_level : string) (root root' : RootLogger) (app : App) :
  validate_boot s = None → create_app b64encode s log_level root = (root', Ok app) →
  (DevRouter ∈ app_routers app ↔ ENVIRONMENT s = DEVELOPMENT) ∧
  (AdminDashboard ∈ app_routers app ↔ ADMIN_DASHBOARD_ENABLED s = true) ∧
  (is_Some (openapi_url app) ↔ ENVIRONMENT s = DEVELOPMENT) ∧
  (if is_production s then (∃ c, app_clients app = inl c) ∧ cors_safe (app_middleware app) = true
   else app_clients app = inr (mk_FakeClients 1 [] ∅ [] ∅)) ∧
  (∀ loggers r, Forall plain_logger loggers → log_lines loggers root' r ∈ [[]; [format r]]).
Proof.
  intros Hb Hc. destruct (create_app_ok _ _ _ _ _ _ Hc) as (_ & Hcl & Hm & Hr & Ho). rewrite Hr, Hm, Ho.
  split; [apply dev_router_only|]. split; [|split; [|split]].
  - rewrite !elem_of_app. destruct (ADMIN_DASHBOARD_ENABLED s), (bool_decide (ENVIRONMENT s = DEVELOPMENT)); split; try done;
      try (intros _; right; left; by left); set_solver.
  - unfold docs_enabled. case_bool_decide; split; try done; by intros [].
  - destruct (production_clients s Hb) as [_ Hp]. destruct (is_production s) eqn:E.
    + destruct (Hp eq_refl) as (_ & _ & _ & Hw). split.
      * unfold construct_clients in Hcl. rewrite E in Hcl. destruct (build_production_clients b64encode s); [|done]. injection Hcl as <-. by eexists.
      * unfold install_middleware, install_cors. unfold is_production in E. apply bool_decide_eq_true in E. rewrite E.
        rewrite (bool_decide_false (PRODUCTION = DEVELOPMENT)) by done. unfold cors_safe. cbn [forallb]. by rewrite bool_decide_false.
    + rewrite (construct_doubles b64encode s E) in Hcl. by injection Hcl as <-.
  - intros loggers r Hpl. unfold create_app in Hc. pose proof (configured_lines log_level root loggers r Hpl) as Hl.
    destruct (configure_logging log_level root) as [root1 known]. injection Hc as <- _. exact Hl.
Qed.

Lemma created_app_interlocked_witness :
  ∃ app, (create_app (H := ascii_only) (H0 := aws_with ∅) (λ x, x) (app_production "whsec" keys1) "info" (mk_RootLogger [] 30)).2 = Ok app ∧
    ¬ DevRouter ∈ app_routers app ∧ cors_safe (app_middleware app) = true.
Proof.
  assert (is_ok (create_app (H := ascii_only) (H0 := aws_with ∅) (λ x, x) (app_production "whsec" keys1) "info" (mk_RootLogger [] 30)).2 = true) as Hok
    by (vm_compute; reflexivity).
  destruct (create_app _ _ _ _) as [root' [app|e]] eqn:E; [|discriminate]. exists app. split; [done|].
  destruct (created_app_interlocked (H := ascii_only) (H0 := aws_with ∅) (λ x, x) (app_production "whsec" keys1) "info"
    (mk_RootLogger [] 30) root' app ltac:(vm_compute; reflexivity) E) as (Hd & _ & _ & Hc & _).
  split; [by rewrite Hd|]. apply Hc.
Defined.
