(* ===== verification/System.v ===== *)
(** * The whole system

    Every operation of the modelled services, routes (of the public API and of the dashboard) and workers as a request, the transaction
    that serves it, and the step relation of the running system: a request (committed, or rolled
    back when it raises), or a change around it (the clock, the advisory locks other processes
    hold, anything in redis).  The theorems hold in every state the system can reach, whatever
    requests are served in whatever order, one transaction after the other. *)

From Stdlib Require Import ZArith Lia QArith.
From stdpp Require Import base list gmap strings numbers option sorting relations.
From S2P Require Import Prelude Errors PyDecimal Money Pricing Enums OrderState Tables Database Constraints Redis RateLimit.
From S2P Require Import Ledger Movements Users Promos Crypto Media Orders Invoices Config Fields Tokens Otp Auth AdminAuth Chat Ratings Receipts.
From S2P Require Import Payments Fulfillment Withdrawals Schemas AdminReads Routes Admin Dashboard KeyRotation Workers Footprints Holds Bookings Boot.
Open Scope Z_scope.

(** ** Requests *)

(** The operations of the market: orders, invoices, payments, fulfilment, payouts, scheduled jobs. *)
Inductive MarketRequest :=
  | CreateOrder (customer_id : uuid) (data : NewOrderInput)
  | AcceptOrder (order_id courier_id : uuid)
  | CancelOrder (order_id actor_id : uuid) (reason : option string)
  | CreateInvoice (order_id courier_id : uuid) (data : NewInvoiceInput)
  | CancelInvoice (invoice_id courier_id : uuid)
  | CreateTopup (user_id : uuid) (amount : dec)
  | PayInvoice (invoice_id customer_id : uuid)
  | Webhook (raw_body signature : string)
  | SubmitDelivery (order_id courier_id : uuid) (data : DeliveryInput)
  | ApproveOrder (order_id customer_id : uuid)
  | RaiseDispute (order_id actor_id : uuid) (reason : string)
  | ResolveDispute (dispute_id admin_id : uuid) (outcome : dispute_status) (note : option string)
      (courier_amount : option dec)
  | RequestWithdrawal (courier_id : uuid) (amount : dec) (iban idempotency_key : string)
  | ApproveWithdrawal (withdrawal_id admin_id : uuid) (ip : option string)
  | RejectWithdrawal (withdrawal_id admin_id : uuid) (reason : string) (ip : option string)
  | MarkWithdrawalPaid (withdrawal_id admin_id : uuid) (ip : option string)
  | ExpireStale
  | AutoApprove
  | ReconcileLedger.

(** Everything else: accounts, devices, chat, ratings, the dashboard, receipts, maintenance, and the routes of the
    public API (which reach the operations above for an authenticated caller). *)
Inductive Request :=
  | Market (r : MarketRequest)
  | SendOtp (phone : string)
  | OtpSignIn (phone code : string)
  | Register (registration_token : string) (data : RegisterInput)
  | Refresh (raw_refresh : string)
  | Logout (header : string)
  | RegisterDevice (user_id : uuid) (token : string) (os : device_os)
  | RemoveDevice (user_id : uuid) (token : string)
  | PostMessage (conversation_id : uuid) (actor : Actor) (text : string)
  | SocketFrame (conversation_id : uuid) (actor : Actor) (recipient_id : uuid) (raw : string)
  | MarkRead (conversation_id actor_id : uuid)
  | Rate (order_id rater_id : uuid) (score : Z) (comment : option string)
  | DashboardLogin (username password user_agent : string) (ip : option string)
  | DashboardLogout (cookie : option string)
  | DashboardForm (cookie : option string) (csrf_token : string) (ip : option string) (f : AdminForm)
  | DashboardPage (cookie : option string) (p : AdminPage)
  | SendReceipts
  | PurgeTokens
  | RotateKeys
  | SeedWallets
  | Api (header : string) (ip : option string) (c : ApiCall).

Definition void {A} (m : M A) : M () := m ;; mret ().

Definition drop_result {A} (m : T A) : T () := m ;; mret ().

(** A scheduled task that reaches other services: skipped while another worker holds its lock, failed when redis does not answer. *)
Definition locked_task {A} (key : string) (m : T A) : T () := λ w,
  let locks := db_locks (w_db w) in
  if negb (lk_acquire locks) then (Raise RedisError, w)
  else if bool_decide (key ∈ lk_keys locks) then (Ok (), w)
  else
    let '(r, w') := m w in
    (if lk_release locks then match r with Ok _ | Raise LockNotAcquiredError => Ok () | Raise e => Raise e end else Raise RedisError, w').

Section System.
Context `{Deployment}.

Definition run_purge_refresh_tokens : M (res ()) := locked_job "job:purge_refresh_tokens" (purge_refresh_tokens app).

Definition deliver_pending_receipts : T () := locked_task "job:send_receipts" (send_pending_receipts app isoformat 100).

Definition serve_market (r : MarketRequest) : M () :=
  match r with
  | CreateOrder c data => void (create_order max_upload c data)
  | AcceptOrder o c => void (accept_order encrypt o c)
  | CancelOrder o a reason => void (cancel_order o a reason)
  | CreateInvoice o c data => void (create_invoice settings o c data)
  | CancelInvoice i c => void (cancel_invoice i c)
  | CreateTopup u a => void (create_topup settings u a)
  | PayInvoice i c => void (pay_invoice settings i c)
  | Webhook body sg => void (handle_webhook repr json_loads body sg)
  | SubmitDelivery o c data => void (submit_delivery max_upload settings st_distance o c data)
  | ApproveOrder o c => void (approve_order settings o c)
  | RaiseDispute o a reason => void (raise_dispute o a reason)
  | ResolveDispute x a out note amount => void (resolve_dispute settings x a out note amount)
  | RequestWithdrawal c a iban key => void (request_withdrawal settings encrypt c a iban key)
  | ApproveWithdrawal w a ip => void (approve w a ip)
  | RejectWithdrawal w a reason ip => void (reject w a reason ip)
  | MarkWithdrawalPaid w a ip => void (mark_withdrawal_paid w a ip)
  | ExpireStale => void run_expire_stale
  | AutoApprove => void (run_auto_approve settings)
  | ReconcileLedger => void reconcile_ledger
  end.

Definition serve (r : Request) : T () :=
  match r with
  | Market r => on_db (serve_market r)
  | SendOtp phone => drop_result (send_otp app phone)
  | OtpSignIn phone code => drop_result (auth_verify_otp app phone code)
  | Register token data => drop_result (register app token data)
  | Refresh raw => drop_result (refresh app raw)
  | Logout header => logout_handler app header
  | RegisterDevice u t os => on_db (void (register_device u t os))
  | RemoveDevice u t => on_db (remove_device u t)
  | PostMessage k a text => drop_result (post_message app isoformat type_name k a text)
  | SocketFrame k a to raw => drop_result (handle_frame app isoformat type_name json_text k a to raw)
  | MarkRead k a => mark_read k a
  | Rate o u n c => on_db (void (rate o u n c))
  | DashboardLogin u p ua ip => drop_result (login app uuid5 u p ua ip)
  | DashboardLogout c => drop_result (dashboard_logout c)
  | DashboardForm c t ip f => drop_result (serve_form app c t ip f)
  | DashboardPage c p => drop_result (serve_page app table_rows c p)
  | SendReceipts => deliver_pending_receipts
  | PurgeTokens => on_db (void run_purge_refresh_tokens)
  | RotateKeys => drop_result (rotate app)
  | SeedWallets => on_db (void seed_system_wallets)
  | Api header ip c => drop_result (call_api header ip c)
  end.

(** The clock moves, locks of other processes come and go, redis changes or fails. *)
Definition environment (w w' : world) : Prop :=
  ∃ t l, w_db w' = (w_db w) <| db_now := t |> <| db_locks := l |>.

Inductive sys_step : world → world → Prop :=
  | step_request r w : sys_step w (request (serve r) w).2
  | step_environment w w' : environment w w' → sys_step w w'.

(** ** What keeps an invariant *)

Lemma keeps_void P {A} (m : M A) : keeps P m → keeps P (void m).
Proof. intros Hm. unfold void. keeps_auto. Qed.

Lemma keeps_unvoid P {A} (m : M A) : keeps P (void m) → keeps P m.
Proof. intros Hm d a d' HP Hr. apply (Hm d () d' HP). unfold void. by rewrite (bind_run _ _ _ _ _ Hr). Qed.

(** A property every market operation keeps, and that the other operations keep by their footprints,
    is an invariant of the system. *)
Section Invariant.
Context (P : db → Prop) `{!AccountFrame P} `{!Frame P Withdrawal}.
Context (Hclock : ∀ d t l, P d → P (d <| db_now := t |> <| db_locks := l |>)).
Context (Hmarket : ∀ r, keeps P (serve_market r)).
Context (Hwallet : ∀ u ty, keeps P (open_wallet u ty)).
Context (Hcreate : ∀ o : Order, keeps P (insert_row o)).
Context (Hupdate : ∀ oid d o o' u d', P d → tb_orders d !! oid = Some o → ord_status o' = ord_status o →
  ord_customer_id o' = ord_customer_id o → ord_courier_id o' = ord_courier_id o → update_row oid o' d = Ok (u, d') → P d').
Context (Hdelete : ∀ oid d o u d', P d → tb_orders d !! oid = Some o → ord_status o = OrderStatus.NEW →
  delete_order_row oid d = Ok (u, d') → P d').
Context (Hstamp : ∀ iid d i t u d', P d → tb_invoices d !! iid = Some i → mark_receipt_sent iid i t d = Ok (u, d') → P d').

(** The routes of the public API. *)
Lemma market_op r {A} (m : M A) : serve_market r = void m → keeps P m.
Proof. intros E. apply keeps_unvoid. rewrite <- E. apply Hmarket. Qed.

Lemma auth_preserves roles header : preserves P (auth_as roles header).
Proof. unfold auth_as. preserves_auto. apply frame_require_auth; apply _. Qed.

Lemma detail_preserves id o a : preserves P (detail_of_order id o a).
Proof. unfold detail_of_order. preserves_auto. Qed.

Hint Resolve auth_preserves detail_preserves : giftly.
Hint Extern 1 (preserves _ (require_auth _ _)) => apply frame_require_auth; apply _ : giftly.

Lemma keeps_paged {A} (f : db → A) : keeps P (λ d, Ok (f d, d)).
Proof. intros d x d' HP [= _ <-]. exact HP. Qed.

Tactic Notation "op" uconstr(r) := eapply (market_op r); cbn [serve_market]; reflexivity.

Ltac route := preserves_auto; try solve [eauto with giftly|apply keeps_paged].

Lemma order_routes_preserve header ip c :
  match c with
  | PostOrder _ | GetOrders _ _ _ | GetAvailableOrders _ _ | GetOrder _ | PostAccept _ | PostCancelOrder _ _ | PostDeliver _ _
  | PostApprove _ | PostDispute _ _ => preserves P (call_api header ip c)
  | _ => True
  end.
Proof.
  destruct c; try exact I; cbn [call_api].
  - unfold route_create_order. route; op (CreateOrder _ _).
  - unfold route_list_orders. route.
  - unfold route_available_orders. route.
  - unfold route_get_order. route.
  - unfold route_accept_order. route; op (AcceptOrder _ _).
  - unfold route_cancel_order. route; op (CancelOrder _ _ _).
  - unfold route_deliver_order. route; op (SubmitDelivery _ _ _).
  - unfold route_approve_order. route; op (ApproveOrder _ _).
  - unfold route_dispute_order. route; op (RaiseDispute _ _ _).
Qed.

Lemma money_routes_preserve header ip c :
  match c with
  | GetMyWallet | PostTopup _ | PostWithdrawal _ _ | GetMyTransactions _ _ | PostInvoice _ _ | GetOrderInvoice _ | GetInvoice _
  | PostPayInvoice _ | PostCancelInvoice _ | PostValidatePromo _ | PostWebhook _ _ | PostResolveDispute _ _
  | PostApproveWithdrawal _ | PostRejectWithdrawal _ _ | PostWithdrawalPaid _ | PostSimulate _ => preserves P (call_api header ip c)
  | _ => True
  end.
Proof.
  destruct c; try exact I; cbn [call_api].
  - unfold route_get_my_wallet. route.
  - unfold route_start_topup. route; op (CreateTopup _ _).
  - unfold route_request_withdrawal. route; op (RequestWithdrawal _ _ _ _).
  - unfold route_list_my_transactions. route.
  - unfold route_create_invoice. route; op (CreateInvoice _ _ _).
  - unfold route_get_order_invoice. route.
  - unfold route_get_invoice, get_invoice_for_actor. route.
  - unfold route_pay_invoice. route; op (PayInvoice _ _).
  - unfold route_cancel_invoice. route; op (CancelInvoice _ _).
  - unfold route_validate_promo, preview_promo. route.
  - unfold route_streampay_webhook. route; op (Webhook _ _).
  - unfold route_resolve_dispute. route; op (ResolveDispute _ _ _ _ _).
  - unfold route_approve_withdrawal. route; op (ApproveWithdrawal _ _ _).
  - unfold route_reject_withdrawal. route; op (RejectWithdrawal _ _ _ _).
  - unfold route_mark_withdrawal_paid. route; op (MarkWithdrawalPaid _ _ _).
  - unfold route_simulate_payment. route; op (Webhook _ _).
Qed.

Lemma account_routes_preserve header ip c :
  match c with
  | PostSendOtp _ | PostVerifyOtp _ | PostRegister _ | PostRefresh _ | PostLogout | GetMe | PatchMe _ | PostUploadUrl _
  | PostConfirmUpload _ | PostRating _ _ | GetRatingSummary _ | GetConversations _ _ | GetMessages _ _ _ | PostMessageCall _ _
  | PostRead _ | PostDevice _ | DeleteDevice _ => preserves P (call_api header ip c)
  | _ => True
  end.
Proof.
  destruct c; try exact I; cbn [call_api].
  - unfold route_send_otp. route. apply frame_send_otp; apply _.
  - unfold route_verify_otp. route. apply frame_otp_sign_in; apply _.
  - unfold route_register. route. apply frame_register; [apply _|exact Hwallet].
  - unfold route_refresh. route. apply frame_refresh; apply _.
  - unfold route_logout, logout. route.
  - unfold route_get_me. route.
  - unfold route_update_me. route.
  - unfold route_create_upload_url, request_upload_url. route.
  - unfold route_confirm_upload. route.
  - unfold route_rate_order. route. apply frame_rate; apply _.
  - unfold route_user_rating_summary. route.
  - unfold route_list_conversations, list_inbox, list_for_user. route.
  - unfold route_list_messages, list_messages, require_conversation, conversation_for_actor. route.
  - unfold route_send_message. route. apply frame_post_message; apply _.
  - unfold route_mark_read. route. apply frame_mark_read; apply _.
  - unfold route_register_device. route.
  - unfold route_unregister_device. route.
Qed.

Lemma api_preserves header ip c : preserves P (call_api header ip c).
Proof.
  pose proof (order_routes_preserve header ip c) as H1. pose proof (money_routes_preserve header ip c) as H2.
  pose proof (account_routes_preserve header ip c) as H3. destruct c; first [exact H1|exact H2|exact H3].
Qed.

Lemma serve_preserves r : preserves P (serve r).
Proof.
  assert (∀ A (m : T A), preserves P m → preserves P (drop_result m)) as Hdrop.
  { intros A m Hm. unfold drop_result. preserves_auto. }
  assert (∀ A key (m : T A), preserves P m → preserves P (locked_task key m)) as Htask.
  { intros A key m Hm w HP. specialize (Hm w HP). unfold locked_task. destruct (negb _); [done|]. destruct (bool_decide _); [done|]. by destruct (m w) as [x w1]. }
  destruct r; cbn [serve]; try apply Hdrop; try apply preserves_on_db.
  - apply Hmarket.
  - apply frame_send_otp; apply _.
  - apply frame_otp_sign_in; apply _.
  - apply frame_register; [apply _|exact Hwallet].
  - apply frame_refresh; apply _.
  - apply frame_logout; apply _.
  - apply keeps_void, frame_register_device; apply _.
  - apply frame_remove_device; apply _.
  - apply frame_post_message; apply _.
  - apply frame_handle_frame; apply _.
  - apply frame_mark_read; apply _.
  - apply keeps_void, frame_rate; apply _.
  - apply frame_login; apply _.
  - apply frame_dashboard_logout; apply _.
  - apply frame_form; [apply _|..]; intros; [by apply frame_admin_create|by apply frame_admin_update, Hupdate|by apply frame_admin_delete, Hdelete].
  - apply frame_page; apply _.
  - apply Htask, frame_receipts. intros i. by apply frame_send_receipt, Hstamp.
  - apply keeps_void, keeps_locked_job, frame_purge; apply _.
  - apply frame_rotate; apply _.
  - by apply keeps_void, keeps_seed_wallets.
  - apply api_preserves.
Qed.

Lemma step_preserves (w w' : world) : sys_step w w' → P (w_db w) → P (w_db w').
Proof.
  intros [r x|x x' (t & l & E)] HP.
  - apply preserves_request; [apply serve_preserves|exact HP].
  - rewrite E. by apply Hclock.
Qed.

Lemma reachable_preserves (w w' : world) : rtc sys_step w w' → P (w_db w) → P (w_db w').
Proof. induction 1 as [|w w1 w' Hs _ IH]; [done|]. intros HP. by eapply IH, step_preserves. Qed.
End Invariant.

Ltac account_frame := constructor; apply _.

(** ** Money *)

Lemma market_keeps_ledger (r : MarketRequest) : keeps ledger_ok (serve_market r).
Proof.
  destruct r; cbn; try apply keeps_void; auto with giftly typeclass_instances.
  - apply frame_create_topup; auto with giftly typeclass_instances.
  - apply keeps_ledger_pay.
  - apply keeps_ledger_webhook.
  - apply keeps_locked_job, frame_expire_stale; auto with giftly typeclass_instances.
  - apply keeps_locked_job, frame_auto_approve_sweep; auto with giftly typeclass_instances.
  - apply keeps_locked_job, keeps_reconcile.
Qed.

#[local] Instance ledger_accounts : AccountFrame ledger_ok.
Proof. account_frame. Qed.

Lemma reachable_ledger (w w' : world) : rtc sys_step w w' → ledger_ok (w_db w) → ledger_ok (w_db w').
Proof.
  apply (reachable_preserves ledger_ok).
  - intros d t l. by apply ledger_frame.
  - apply market_keeps_ledger.
  - apply keeps_open_wallet.
  - intros o. apply keeps_insert; apply _.
  - intros oid d o o' u d' Hd _ _ _ _ Hr. exact (keeps_update ledger_ok _ _ _ _ _ Hd Hr).
  - intros oid d o u d' Hd _ _ Hr. exact (frame_delete_order_row ledger_ok oid _ _ _ Hd Hr).
  - intros iid d i t u d' Hd _ Hr. exact (keeps_update (row := Invoice) ledger_ok _ _ _ _ _ Hd Hr).
Qed.

(** ** Holds *)

Lemma market_keeps_sound (Hs : wf_settings settings) (r : MarketRequest) : keeps sound (serve_market r).
Proof.
  destruct r; cbn; try apply keeps_void; auto with giftly typeclass_instances.
  - apply sound_create_invoice.
  - apply sound_cancel_invoice.
  - apply frame_create_topup; auto with giftly typeclass_instances.
  - apply sound_pay_invoice.
  - apply sound_webhook.
  - by apply sound_approve_order.
  - by apply sound_resolve_dispute.
  - by apply sound_request.
  - apply sound_reject.
  - apply sound_mark_withdrawal_paid.
  - apply keeps_locked_job, sound_expire_stale.
  - by apply keeps_locked_job, sound_auto_approve_sweep.
  - apply keeps_locked_job, keeps_reconcile.
Qed.

#[local] Instance sound_accounts : AccountFrame sound.
Proof. account_frame. Qed.

Lemma sound_clock (d : db) (t : instant) (l : lock_service) : sound d → sound (d <| db_now := t |> <| db_locks := l |>).
Proof.
  intros [S1 [I1 I2] [P1 P2] [W1 W2] S5 S6]. constructor; [by apply (ledger_frame d)|..|exact S5|exact S6]; by constructor.
Qed.

Lemma sound_open_wallet u ty : keeps sound (open_wallet u ty).
Proof.
  intros d wid d' [S1 S2 S3 S4 S5 S6] Hr. pose proof (keeps_open_wallet u ty _ _ _ S1 Hr) as H1.
  pose proof (frame_open_wallet (table_ok Invoice) u ty _ _ _ S2 Hr) as H2.
  pose proof (frame_open_wallet (table_ok PaymentIntent) u ty _ _ _ S3 Hr) as H3.
  pose proof (frame_open_wallet (table_ok Withdrawal) u ty _ _ _ S4 Hr) as H4.
  pose proof (frame_open_wallet parts_ok u ty _ _ _ S6 Hr) as H6.
  constructor; [exact H1|exact H2|exact H3|exact H4| |exact H6]. apply open_wallet_ok in Hr as (_ & _ & _ & ->).
  intros k x. cbn. intros [[<- <-]|[_ Hx]]%lookup_insert_Some; [by destruct u|by apply S5 in Hx].
Qed.

Lemma sound_delete_order_row oid : keeps sound (delete_order_row oid).
Proof.
  assert (∀ f, keeps sound (delete_where (row := Invoice) f)) as Hi.
  { intros f. apply keeps_delete_known. intros d k i [S1 [I1 I2] S3 S4 S5 S6] _ _. constructor.
    - by apply (ledger_frame d).
    - constructor; cbn; [intros j x [_ Hx]%lookup_delete_Some; by eapply I1|].
      intros j j' a b [_ Ha]%lookup_delete_Some [_ Hb]%lookup_delete_Some. by eapply I2.
    - destruct S3. by constructor.
    - destruct S4. by constructor.
    - exact S5.
    - intros j x Hx. cbn in Hx. apply lookup_delete_Some in Hx as [_ Hx]. by eapply S6. }
  unfold delete_order_row. keeps_auto.
Qed.

Lemma reachable_sound (w w' : world) : wf_settings settings → rtc sys_step w w' → sound (w_db w) → sound (w_db w').
Proof.
  intros Hs. apply (reachable_preserves sound).
  - intros d t l. apply sound_clock.
  - by apply market_keeps_sound.
  - apply sound_open_wallet.
  - intros o. apply keeps_insert; apply _.
  - intros oid d o o' u d' Hd _ _ _ _ Hr. exact (keeps_update (row := Order) sound _ _ _ _ _ Hd Hr).
  - intros oid d o u d' Hd _ _ Hr. exact (sound_delete_order_row oid _ _ _ Hd Hr).
  - intros iid d i t u d' Hd Hi Hr. refine (sound_update_invoice _ _ _ _ _ _ Hd Hr). exact (sd_parts _ Hd _ _ Hi).
Qed.

(** ** Orders *)

Lemma evolves_void {A} (m : M A) : evolves m → evolves (void m).
Proof. intros Hm d u d' Hr. unfold void in Hr. inv_run Hr. by eapply Hm. Qed.

Lemma evolves_frame {A} (m : M A) : (∀ t, keeps (reads tb_orders t) m) → evolves m.
Proof. intros Hm d a d' Hr. apply evolve_same. by eapply (Hm (tb_orders d)). Qed.

Lemma market_evolves (r : MarketRequest) : evolves (serve_market r).
Proof.
  destruct r; cbn; try apply evolves_void.
  - intros d x d'. apply create_order_evolve.
  - intros d x d'. apply accept_order_evolve.
  - intros d x d'. apply cancel_order_evolve.
  - intros d x d'. apply create_invoice_evolve.
  - intros d x d'. apply cancel_invoice_evolve.
  - apply evolves_frame. intros t. apply frame_create_topup; auto with giftly typeclass_instances.
  - intros d x d'. apply pay_invoice_evolve.
  - intros d x d'. apply handle_webhook_evolve.
  - intros d x d'. apply submit_delivery_evolve.
  - intros d x d'. apply approve_evolve.
  - intros d x d'. apply raise_dispute_evolve.
  - intros d x d'. apply resolve_dispute_evolve.
  - apply evolves_frame. intros t. apply frame_request; auto with giftly typeclass_instances.
  - apply evolves_frame. intros t. apply frame_approve_withdrawal; auto with giftly typeclass_instances.
  - apply evolves_frame. intros t. apply frame_reject; auto with giftly typeclass_instances.
  - apply evolves_frame. intros t. apply frame_mark_withdrawal_paid; auto with giftly typeclass_instances.
  - apply evolves_locked_job, evolves_expire_stale.
  - apply evolves_locked_job, evolves_auto_approve_sweep.
  - apply evolves_frame. intros t. apply keeps_locked_job, keeps_reconcile.
Qed.

(** Accepted orders stay and move forward. *)
Definition advanced (d0 d : db) : Prop :=
  ∀ oid o, tb_orders d0 !! oid = Some o → ord_status o ≠ OrderStatus.NEW →
    ∃ o', tb_orders d !! oid = Some o' ∧ order_evolves o o'.

Lemma advanced_frame d0 (d d' : db) : tb_orders d' = tb_orders d → advanced d0 d → advanced d0 d'.
Proof. intros E Ha oid o. rewrite E. apply Ha. Qed.

#[local] Hint Extern 1 (Frame (advanced _) _) => frame_by advanced_frame : typeclass_instances.
#[local] Hint Extern 1 (FrameNext (advanced _)) => frame_next_by advanced_frame : typeclass_instances.

Lemma not_new_evolved (o o' : Order) : order_evolves o o' → ord_status o ≠ OrderStatus.NEW → ord_status o' ≠ OrderStatus.NEW.
Proof. intros [Hs _ _] Hn E. by apply Hn, (steps_to_new _ _ Hs). Qed.

(** A row changed in place to one it may evolve to. *)
Lemma advanced_write d0 (d d' : db) (oid : uuid) (o' : Order) :
  advanced d0 d → (∀ o, tb_orders d !! oid = Some o → order_evolves o o') → tb_orders d' = <[oid := o']> (tb_orders d) → advanced d0 d'.
Proof.
  intros Ha Ho E k x Hx Hn. destruct (Ha k x Hx Hn) as (x' & Hx' & Hev). rewrite E. destruct (decide (k = oid)) as [->|Hne].
  - exists o'. split; [apply lookup_insert_eq|]. etransitivity; [exact Hev|by apply Ho].
  - exists x'. by rewrite lookup_insert_ne.
Qed.

Lemma advanced_market d0 r : keeps (advanced d0) (serve_market r).
Proof.
  intros d u d' Ha Hr. pose proof (market_evolves r d u d' Hr) as He. intros oid o Ho Hn.
  destruct (Ha oid o Ho Hn) as (o1 & Ho1 & H1). destruct (oe_kept _ _ He _ _ Ho1) as (o2 & Ho2 & H2). exists o2. split; [done|]. by etransitivity.
Qed.

Lemma reachable_advanced (w w' : world) : rtc sys_step w w' → advanced (w_db w) (w_db w').
Proof.
  intros Hs. assert (AccountFrame (advanced (w_db w))) as Hf by account_frame.
  apply (reachable_preserves (advanced (w_db w)) ) with (w := w); [..|exact Hs|].
  - intros d t l. by apply advanced_frame.
  - apply advanced_market.
  - intros u ty. apply frame_open_wallet; apply _.
  - intros o d k d' Ha Hr. inv_writes. eapply (advanced_write _ d); [exact Ha| |reflexivity]. intros x Hx. change (tb_orders d !! db_next d = None) in Hnew. congruence.
  - intros oid d o o' u d' Ha Ho E1 E2 E3 Hr. inv_writes. eapply (advanced_write _ d); [exact Ha| |reflexivity].
    intros x Hx. rewrite Ho in Hx. injection Hx as <-. constructor; [by rewrite E1|done|by left].
  - intros oid d o u d' Ha Ho Hn Hr k x Hx Hnx. destruct (Ha k x Hx Hnx) as (x' & Hx' & Hev).
    exists x'. split; [|done]. rewrite (delete_order_row_orders _ _ _ _ Hr). rewrite lookup_delete_ne; [done|].
    intros ->. rewrite Ho in Hx'. injection Hx' as <-. by apply (not_new_evolved x o).
  - intros iid d i t u d' Ha _ Hr. exact (keeps_update (row := Invoice) (advanced (w_db w)) _ _ _ _ _ Ha Hr).
  - intros oid o Ho _. by exists o.
Qed.

(** ** Promo bookings *)

Lemma market_keeps_promo (r : MarketRequest) : keeps promo_ok (serve_market r).
Proof.
  destruct r; cbn; try apply keeps_void; auto with giftly typeclass_instances.
  - apply frame_create_topup; auto with giftly typeclass_instances.
  - apply keeps_promo_pay.
  - apply keeps_promo_webhook.
  - apply keeps_locked_job, frame_expire_stale; auto with giftly typeclass_instances.
  - apply keeps_locked_job, frame_auto_approve_sweep; auto with giftly typeclass_instances.
  - apply keeps_locked_job, keeps_reconcile.
Qed.


Lemma market_keeps_anchored base (r : MarketRequest) : keeps (anchored base) (serve_market r).
Proof.
  destruct r; cbn; try apply keeps_void; auto with giftly typeclass_instances.
  - apply anchored_create_invoice.
  - apply anchored_cancel_invoice.
  - apply frame_create_topup; auto with giftly typeclass_instances.
  - apply anchored_pay_invoice.
  - apply anchored_webhook.
  - apply keeps_locked_job, anchored_expire_stale.
  - apply keeps_locked_job, frame_auto_approve_sweep; auto with giftly typeclass_instances.
  - apply keeps_locked_job, keeps_reconcile.
Qed.

(** Only [create_invoice] books a slot. *)
Lemma market_keeps_live S (r : MarketRequest) :
  match r with CreateInvoice _ _ _ => True | _ => keeps (live_within S) (serve_market r) end.
Proof.
  destruct r; cbn; try apply keeps_void; auto with giftly typeclass_instances.
  - unfold cancel_invoice. keeps_auto.
  - apply frame_create_topup; auto with giftly typeclass_instances.
  - apply frame_pay_invoice; auto with giftly typeclass_instances.
  - apply frame_handle_webhook; auto with giftly typeclass_instances.
  - apply keeps_locked_job, frame_expire_stale; auto with giftly typeclass_instances.
  - apply keeps_locked_job, frame_auto_approve_sweep; auto with giftly typeclass_instances.
  - apply keeps_locked_job, keeps_reconcile.
Qed.

Lemma market_keeps_bookings (r : MarketRequest) : keeps bookings_ok (serve_market r).
Proof.
  intros d u d' [Hp Hb] Hr. constructor; [exact (market_keeps_promo r d u d' Hp Hr)|].
  pose proof (market_keeps_live (live_in d) r) as Hl. pose proof (market_evolves r d u d' Hr) as He.
  pose proof (market_keeps_anchored (orders_of d) r d u d' (anchored_start d) Hr) as Ha.
  destruct r; try exact (booked_step d d' Hb Ha (Hl d u d' (live_start d) Hr) He).
  cbn in Hr. apply bind_ok in Hr as (iid & d1 & Hr & [= _ <-]). exact (booked_create_invoice _ _ _ _ _ _ _ Hb Hr).
Qed.

#[local] Instance bookings_accounts : AccountFrame bookings_ok.
Proof. account_frame. Qed.

Lemma reachable_bookings (w w' : world) : rtc sys_step w w' → bookings_ok (w_db w) → bookings_ok (w_db w').
Proof.
  apply (reachable_preserves bookings_ok).
  - intros d t l. by apply bookings_frame.
  - apply market_keeps_bookings.
  - intros u ty. apply frame_open_wallet; apply _.
  - intros o d k d' Hd Hr. inv_writes. eapply (bookings_write_order (d <| db_next := (db_next d + 1)%N |>)); [by apply (bookings_frame d)| |reflexivity].
    intros x Hx. change (tb_orders d !! db_next d = Some x) in Hx. change (tb_orders d !! db_next d = None) in Hnew. congruence.
  - intros oid d o o' u d' Hd Ho E1 _ _ Hr. inv_writes. eapply (bookings_write_order d); [exact Hd| |reflexivity]. intros x Hx. congruence.
  - intros oid d o u d' [Hp Hb] Ho Hn Hr. destruct (booked_delete_order_row oid o d u d' Hp Hb Ho Hn Hr). by constructor.
  - intros iid d i t u d' Hd Hi Hr. unfold mark_receipt_sent in Hr. inv_writes.
    eapply (bookings_stamp d); [exact Hd|exact Hi| |reflexivity]. reflexivity.
Qed.

(** ** Properties *)

(** [C1] Money is safe in every reachable state, whatever requests of users, operators and workers were served in
    whatever order: the ledger stays sound (every balance is the sum of its settled
    entries, every correlation group sums to zero, idempotency keys are unique), the
    balances of all wallets still sum to zero, no customer, courier, escrow or tax
    wallet is ever negative, and the nightly reconciliation, run at any time, reports
    no drift. *)
Theorem reachable_money_safe (w w' : world) :
  ledger_ok (w_db w) → rtc sys_step w w' →
  ledger_ok (w_db w') ∧ map_total w_balance (tb_wallets (w_db w')) = 0 ∧
  (∀ wid x, tb_wallets (w_db w') !! wid = Some x →
     w_type x ≠ WalletType.SYSTEM_GATEWAY → w_type x ≠ WalletType.SYSTEM_REVENUE → 0 ≤ w_balance x) ∧
  ∃ r, reconcile (w_db w') = Ok (r, w_db w') ∧ report_ok r = true.
Proof.
  intros Hd Hs. pose proof (reachable_ledger _ _ Hs Hd) as Hl.
  split; [done|]. split; [by apply ledger_total|]. split; [|by apply reconcile_clean].
  intros wid x Hw Hg Hv. destruct (lk_range _ Hl _ _ Hw) as (_ & _ & Hc). unfold chk_balance_non_negative in Hc.
  destruct (w_type x); try done; apply andb_true_iff in Hc as [Hc%Z.leb_le _]; done.
Qed.

(** [C9] Holds are covered in every reachable state of a process that boots: no customer or courier ever has more on hold than they own, so
    what they can spend is never negative, and no system wallet carries a hold. *)
Theorem reachable_holds_covered (w w' : world) (wid : uuid) (x : Wallet) :
  validate_boot app = None → written settings → sound (w_db w) → rtc sys_step w w' → tb_wallets (w_db w') !! wid = Some x →
  match w_user_id x with
  | Some u => 0 ≤ w_held_balance x ≤ w_balance x ∧
      available_balance u (w_db w') = Ok (sar (w_balance x - w_held_balance x), w_db w')
  | None => w_held_balance x = 0
  end.
Proof.
  intros Hb Hwr Hd Hs Hx. destruct (boot_parts _ Hb) as (_ & _ & Hr & _). pose proof (reachable_sound _ _ (rates_wf _ Hr Hwr) Hs Hd) as Hd'. pose proof (sd_covered _ Hd' _ _ Hx) as Hc.
  destruct (lk_range _ (sd_ledger _ Hd') _ _ Hx) as (_ & _ & Hn). pose proof (lk_pairing _ (sd_ledger _ Hd') _ _ Hx) as Hp.
  destruct (w_user_id x) as [u|] eqn:Hu; [|done]. split; [|exact (available_balance_run u wid x _ (sd_ledger _ Hd') Hx Hu)].
  split; [|done]. unfold chk_user_wallet_pairing in Hp. unfold chk_balance_non_negative in Hn. rewrite Hu in Hp.
  destruct (w_type x); try done; apply andb_true_iff in Hn as [_ Hn%Z.leb_le]; done.
Qed.

(** [C15] Promo caps hold in every reachable state: each promo's usage counter is the
    number of its reserved and consumed redemptions and within the global cap, and no
    user has more live redemptions than the per-user cap. *)
Theorem reachable_promo_caps (w w' : world) (pid : uuid) (p : Promo) :
  bookings_ok (w_db w) → rtc sys_step w w' → tb_promos (w_db w') !! pid = Some p →
  pm_used_count p = slots_used (tb_promo_redemptions (w_db w')) pid ∧
  (∀ n, pm_max_total_usages p = Some n → slots_used (tb_promo_redemptions (w_db w')) pid ≤ n) ∧
  ∀ uid, user_uses (tb_promo_redemptions (w_db w')) pid uid ≤ pm_max_usages_per_user p.
Proof.
  intros Hd Hs Hp. pose proof (bk_promo _ (reachable_bookings _ _ Hs Hd)) as Hk.
  pose proof (pk_count _ Hk _ _ Hp) as Hc. split; [done|]. split; [|intros uid; by apply (pk_user _ Hk)].
  intros n Hn. pose proof (pk_cap _ Hk _ _ Hp) as Hb. unfold chk_promo_usage_bounds in Hb. rewrite Hn in Hb.
  apply andb_true_iff in Hb as [[_ Hb]%andb_true_iff _]. apply Z.leb_le in Hb. lia.
Qed.

(** [C8] Orders only move forward, whatever requests of users, operators and workers are served in whatever order, each one a
    transaction of its own (statements of two requests do not mix here; [cancel_overwrites_payment] of the races shows what a
    cancellation that read the order before a payment committed can do): an order that has left NEW never disappears or changes its customer or its courier; its status is
    reached from the earlier one by legal transitions; a COMPLETED, CANCELLED or REFUNDED order never changes status
    again, and an order whose escrow is funded can afterwards only be in escrow or settled. *)
Theorem reachable_orders_evolve (w w' : world) (oid : uuid) (o : Order) :
  rtc sys_step w w' → tb_orders (w_db w) !! oid = Some o → ord_status o ≠ OrderStatus.NEW →
  ∃ o', tb_orders (w_db w') !! oid = Some o' ∧ ord_customer_id o' = ord_customer_id o ∧ ord_courier_id o' = ord_courier_id o ∧
    rtc order_step (ord_status o) (ord_status o') ∧
    (terminal (ord_status o) = true → ord_status o' = ord_status o) ∧
    (in_escrow (ord_status o) = true → in_escrow (ord_status o') = true ∨ settled (ord_status o') = true).
Proof.
  intros Hs Ho Hn. destruct (reachable_advanced _ _ Hs _ _ Ho Hn) as (o' & Ho' & [Hst Hc Hk]).
  exists o'. split; [done|]. split; [done|]. split; [by destruct Hk as [Hk|[Hk _]]|]. split; [done|]. split.
  - intros Ht. apply rtc_inv in Hst as [<-|(b & Hb & _)]; [done|]. by apply terminal_no_step in Hb.
  - intros He. assert (∀ a b, rtc order_step a b → in_escrow a = true ∨ settled a = true →
      in_escrow b = true ∨ settled b = true) as Hgen; [|by eapply Hgen; [exact Hst|left]].
    induction 1 as [|a b c Hab _ IH]; [done|]. intros Ha. apply IH. destruct a, b; cbn in *; auto; by destruct Ha.
Qed.
End System.

(** ** A day of the market

    The customer of order 50 signs in; its courier invoices it with a promo, the customer pays from the wallet, the
    order is delivered and approved, the customer rates it, the operator signs in at the dashboard and tries to delete
    the order, and the jobs run. *)
Definition day_deployment : Deployment := {|
  dp_storage := one_object; dp_gateway := gateway0; dp_security := opaque_lib; dp_sms := sms0;
  dp_push := {| send_push _ _ _ := Ok () |}; dp_email := {| send_transactional _ _ _ := Ok () |}; dp_gcm := toy_gcm;
  app := app0; max_upload := 4096; encrypt := enc0; st_distance _ _ := inject_Z 20;
  repr := repr0; json_loads := loads0; json_dumps _ := EmptyString; json_text _ := None; isoformat _ := EmptyString; type_name _ := EmptyString;
  fromisoformat _ := None; sign_webhook _ := EmptyString; uuid5 _ := 99%N; table_rows _ _ := []
|}.

#[local] Existing Instance day_deployment.

Definition day_requests : list Request :=
  [SendOtp "+966500000070";
   Market (CreateInvoice 50 71 invoice_data); Market (PayInvoice 1000 70);
   Market (SubmitDelivery 50 71 (mk_DeliveryInput 24713600 46675300 [good_key] None));
   Market (ApproveOrder 50 70); Rate 50 70 5 None;
   DashboardLogin "operator" "correct horse battery" "browser" None;
   DashboardForm (Some "token-1") (make_csrf_token (sha256_hex "token-1") "0123456789abcdef0123456789abcdef") None (OrderDelete 50);
   SeedWallets; Market ExpireStale; Market AutoApprove; Market ReconcileLedger]%string.

Fixpoint run (rs : list Request) (w : world) : list (option exn) * world :=
  match rs with
  | [] => ([], w)
  | r :: rs =>
      let '(x, w1) := request (serve r) w in
      let '(l, w2) := run rs w1 in
      (match x with Ok _ => None | Raise e => Some e end :: l, w2)
  end.

Lemma run_reachable rs : ∀ w, rtc sys_step w (run rs w).2.
Proof.
  induction rs as [|r rs IH]; intros w; [apply rtc_refl|]. cbn. destruct (request (serve r) w) as [x w1] eqn:E.
  specialize (IH w1). destruct (run rs w1) as [l w2]. eapply rtc_l; [|exact IH].
  replace w1 with (request (serve r) w).2 by (by rewrite E). apply step_request.
Qed.

Definition world_market : world := world_empty <| w_db := db_assigned |>.

Definition day_end : world := (run day_requests world_market).2.

Example day_answers : (run day_requests world_market).1 =
  [None; None; None; None; None; None; None; Some ConflictError; None; None; None; None].
Proof. vm_compute. reflexivity. Qed.

Lemma day_reachable : rtc sys_step world_market day_end.
Proof. apply run_reachable. Qed.

Lemma ledger_ok_assigned : ledger_ok (w_db world_market).
Proof. by apply (ledger_frame db0), ledger_ok_db0. Qed.

Lemma bookings_ok_assigned : bookings_ok (w_db world_market).
Proof.
  constructor; [by apply (promo_frame db_promo), promo_ok_db_promo|]. intros k r Hr Hocc. enum_lookup Hr.
Qed.

Lemma sound_assigned : sound (w_db world_market).
Proof.
  constructor; [exact ledger_ok_assigned|by apply table_ok_empty..| |].
  - intros k x Hx. enum_lookup Hx; vm_compute; first [reflexivity|discriminate].
  - intros k i Hi. enum_lookup Hi.
Qed.

Lemma written_settings0 : written settings0.
Proof. constructor; [vm_compute; split; discriminate|by eexists|eexists; split; [reflexivity|lia]]. Qed.

Lemma reachable_money_safe_witness :
  map_total w_balance (tb_wallets (w_db day_end)) = 0 ∧ ∃ r, reconcile (w_db day_end) = Ok (r, w_db day_end) ∧ report_ok r = true.
Proof.
  destruct (reachable_money_safe world_market day_end ledger_ok_assigned day_reachable) as (_ & Ht & _ & Hr). split; [exact Ht|exact Hr].
Defined.

Lemma reachable_holds_covered_witness :
  ∃ x, tb_wallets (w_db day_end) !! 5%N = Some x ∧ w_user_id x = Some 70%N ∧ 0 ≤ w_held_balance x ≤ w_balance x.
Proof.
  assert (∃ x, tb_wallets (w_db day_end) !! 5%N = Some x ∧ w_user_id x = Some 70%N) as (x & Hx & Hu)
    by (eexists; split; [vm_compute; reflexivity|reflexivity]).
  pose proof (reachable_holds_covered world_market day_end 5 x app0_boots written_settings0 sound_assigned day_reachable Hx) as Hc.
  rewrite Hu in Hc. destruct Hc as [Hc _]. exists x. split; [exact Hx|]. split; [exact Hu|exact Hc].
Defined.

Lemma reachable_promo_caps_witness :
  ∃ p, tb_promos (w_db day_end) !! 80%N = Some p ∧ pm_used_count p = slots_used (tb_promo_redemptions (w_db day_end)) 80 ∧
    slots_used (tb_promo_redemptions (w_db day_end)) 80 = 1.
Proof.
  assert (is_Some (tb_promos (w_db day_end) !! 80%N)) as [p Hp] by (vm_compute; eauto). exists p.
  destruct (reachable_promo_caps world_market day_end 80 p bookings_ok_assigned day_reachable Hp) as (H1 & _ & _).
  split; [exact Hp|]. split; [exact H1|]. vm_compute. reflexivity.
Defined.

Lemma reachable_orders_evolve_witness :
  ∃ o', tb_orders (w_db day_end) !! 50%N = Some o' ∧ ord_status o' = OrderStatus.COMPLETED ∧ ord_courier_id o' = Some 71%N.
Proof.
  destruct (reachable_orders_evolve world_market day_end 50 order_assigned day_reachable) as (o' & H1 & _ & H2 & _);
    [vm_compute; reflexivity|discriminate|].
  exists o'. split; [exact H1|]. split; [|exact H2].
  assert (ord_status <$> tb_orders (w_db day_end) !! 50%N = Some OrderStatus.COMPLETED) as E by (vm_compute; reflexivity).
  rewrite H1 in E. by injection E.
Defined.
