(* ===== verification/Locking.v ===== *)
(** * Row locks

    PostgreSQL keeps the lock of a row, taken by [SELECT ... FOR UPDATE] or by the first UPDATE of it, until the transaction
    ends; a transaction that wants a row another one holds waits.  This file is that machine for transactions that take a given
    sequence of rows, and the proof that transactions which take rows in ascending order never wait for each other in a circle
    and all finish.  LockPlans.v has the sequences of the operations of the market.  Not represented: the share locks of foreign
    keys, and waits for a unique key another transaction has inserted. *)

From Stdlib Require Import ZArith Lia ZifyBool.
From stdpp Require Import base list gmap numbers option relations.
From S2P Require Import Prelude Tables.
Local Open Scope Z_scope.

(** ** Rows and their order *)

Inductive lock_table := WithdrawalRows | DisputeRows | IntentRows | InvoiceRows | OrderRows | WalletRows | RedemptionRows | PromoRows.

Definition lock_rank (t : lock_table) : N :=
  match t with
  | WithdrawalRows => 0 | DisputeRows => 1 | IntentRows => 2 | InvoiceRows => 3 | OrderRows => 4 | WalletRows => 5
  | RedemptionRows => 6 | PromoRows => 7
  end.

Abbreviation row_id := (lock_table * uuid)%type.

#[export] Instance lock_table_eq_dec : EqDecision lock_table.
Proof. solve_decision. Defined.

(** By table, then by id. *)
Definition row_ltb (a b : row_id) : bool :=
  (lock_rank a.1 <? lock_rank b.1)%N || (lock_rank a.1 =? lock_rank b.1)%N && (a.2 <? b.2)%N.

(** ** The machine *)

Abbreviation pid := N (only parsing).

(** What a request still has to lock, and what it holds. *)
Record locker := mk_locker { lk_todo : list row_id; lk_held : list row_id }.

Definition start_locker (plan : list row_id) : locker := mk_locker plan [].

(** No request but [p] holds [r]. *)
Definition lock_available (r : row_id) (p : pid) (m : gmap pid locker) : bool :=
  forallb (λ x, same x.1 p || negb (bool_decide (r ∈ lk_held x.2))) (map_to_list m).

(** The next lock if it is available; the commit, which releases all, when there is none left. *)
Definition advance_locker (p : pid) (m : gmap pid locker) : option (gmap pid locker) :=
  match m !! p with
  | Some (mk_locker (r :: todo) held) => if lock_available r p m then Some (<[p := mk_locker todo (r :: held)]> m) else None
  | Some (mk_locker [] _) => Some (delete p m)
  | None => None
  end.

(** A request may also pass over a row, on a branch that does not need it, and may end early, by an exception or because
    there is nothing to do. *)
Inductive lock_step : gmap pid locker → gmap pid locker → Prop :=
  | lock_advance p m m' : advance_locker p m = Some m' → lock_step m m'
  | lock_skip p r todo held m : m !! p = Some (mk_locker (r :: todo) held) → lock_step m (<[p := mk_locker todo held]> m)
  | lock_exit p x m : m !! p = Some x → lock_step m (delete p m).

(** Requests are left, and none can take its next row or commit. *)
Definition deadlocked (m : gmap pid locker) : Prop := m ≠ ∅ ∧ ∀ p, advance_locker p m = None.

(** Each row is above those taken before. *)
Fixpoint ascending (held plan : list row_id) : bool :=
  match plan with
  | [] => true
  | r :: plan => forallb (λ h, row_ltb h r) held && ascending (r :: held) plan
  end.

(** ** Progress *)

Lemma row_ltb_trans (a b c : row_id) : row_ltb a b = true → row_ltb b c = true → row_ltb a c = true.
Proof. unfold row_ltb. intros. lia. Qed.

Lemma row_ltb_irrefl (a : row_id) : row_ltb a a = false.
Proof. unfold row_ltb. lia. Qed.

Lemma row_max (l : list row_id) : l ≠ [] → ∃ x, x ∈ l ∧ ∀ y, y ∈ l → row_ltb x y = false.
Proof.
  induction l as [|a l IH]; [done|]. intros _. destruct l as [|b l].
  { exists a. split; [by left|]. intros y ->%list_elem_of_singleton. apply row_ltb_irrefl. }
  destruct (IH ltac:(done)) as (x & Hx & Hmax). destruct (row_ltb x a) eqn:E.
  - exists a. split; [by left|]. intros y [->|Hy]%elem_of_cons; [apply row_ltb_irrefl|]. specialize (Hmax y Hy).
    destruct (row_ltb a y) eqn:F; [|done]. by rewrite (row_ltb_trans _ _ _ E F) in Hmax.
  - exists x. split; [by right|]. by intros y [->|Hy]%elem_of_cons; [|apply Hmax].
Qed.

Definition all_ascending (m : gmap pid locker) : Prop := map_Forall (λ _ x, ascending (lk_held x) (lk_todo x) = true) m.

Lemma ascending_fewer (h : row_id) (pre held plan : list row_id) :
  ascending (pre ++ h :: held) plan = true → ascending (pre ++ held) plan = true.
Proof.
  revert pre. induction plan as [|r plan IH]; [done|]. cbn. intros pre [H1 H2]%andb_true_iff. apply andb_true_iff. split; [|by apply (IH (r :: pre))].
  rewrite forallb_app in *. cbn in H1. rewrite !andb_true_iff in *. naive_solver.
Qed.

Lemma lock_step_ascending (m m' : gmap pid locker) : lock_step m m' → all_ascending m → all_ascending m'.
Proof.
  intros [p u u' E|p r todo held u Ep|p x u _] Hu; [unfold advance_locker in E| |by apply map_Forall_delete].
  - destruct (u !! p) as [[[|r todo] held]|] eqn:Ep; [|destruct (lock_available r p u)|done]; simplify_eq; [by apply map_Forall_delete|].
    apply map_Forall_insert_2; [|done]. specialize (Hu p _ Ep). cbn in *. by apply andb_true_iff in Hu as [_ Hu].
  - apply map_Forall_insert_2; [|done]. specialize (Hu p _ Ep). cbn in *. apply andb_true_iff in Hu as [_ Hu]. by apply (ascending_fewer r []).
Qed.

(** A row that is not available is held by another request. *)
Lemma lock_holder (r : row_id) (p : pid) (m : gmap pid locker) : lock_available r p m = false →
  ∃ q y, m !! q = Some y ∧ q ≠ p ∧ r ∈ lk_held y.
Proof.
  unfold lock_available. intros H. apply not_true_iff_false in H. rewrite forallb_forall in H.
  destruct (list_find (λ x : pid * locker, x.1 ≠ p ∧ r ∈ lk_held x.2) (map_to_list m)) as [[i [q y]]|] eqn:E.
  - apply list_find_Some in E as (E & [Hq Hr] & _). exists q, y. split; [|done]. apply elem_of_map_to_list. by eapply list_elem_of_lookup_2.
  - exfalso. apply H. intros [q y] Hin. apply list_find_None in E. rewrite Forall_forall in E. apply list_elem_of_In in Hin.
    specialize (E _ Hin). cbn in *. destruct (same q p) eqn:Es; [done|]. cbn. apply negb_true_iff, bool_decide_eq_false.
    intros Hr. apply E. split; [|done]. intros ->. by rewrite (proj2 (same_true _ _) eq_refl) in Es.
Qed.

(** A row has one holder. *)
Definition exclusive (m : gmap pid locker) : Prop :=
  ∀ p q x y r, m !! p = Some x → m !! q = Some y → r ∈ lk_held x → r ∈ lk_held y → p = q.

Lemma exclusive_delete (p : pid) (m : gmap pid locker) : exclusive m → exclusive (delete p m).
Proof. intros Hm a b x y r [_ Ha]%lookup_delete_Some [_ Hb]%lookup_delete_Some. by eapply Hm. Qed.

Lemma available_spec (r : row_id) (p : pid) (m : gmap pid locker) :
  lock_available r p m = true ↔ ∀ q y, m !! q = Some y → q ≠ p → r ∉ lk_held y.
Proof.
  split.
  - unfold lock_available. rewrite forallb_forall. intros H q y Hq Hne Hr. apply elem_of_map_to_list, list_elem_of_In, H in Hq. cbn in Hq.
    apply orb_true_iff in Hq as [Hq|Hq]; [by apply (proj1 (same_true _ _)) in Hq|]. by rewrite bool_decide_true in Hq.
  - intros H. destruct (lock_available r p m) eqn:E; [done|]. apply lock_holder in E as (q & y & Hq & Hne & Hr). by destruct (H q y Hq Hne).
Qed.

Lemma lock_step_exclusive (m m' : gmap pid locker) : lock_step m m' → exclusive m → exclusive m'.
Proof.
  intros [p u u' E|p r todo held u Ep|p x u _] Hu; [unfold advance_locker in E| |by apply exclusive_delete].
  - destruct (u !! p) as [[[|r todo] held]|] eqn:Ep; [|destruct (lock_available r p u) eqn:Ea|done]; simplify_eq; [by apply exclusive_delete|].
    rewrite available_spec in Ea. intros a b x y s.
    rewrite !lookup_insert_Some. intros [[<- <-]|[Hap Ha]] [[<- <-]|[Hbp Hb]]; cbn; [done| | |by apply Hu].
    + intros [->|Hs]%elem_of_cons Hy; [by destruct (Ea b y Hb ltac:(done))|]. by apply (Hu p b _ y s Ep Hb).
    + intros Hx [->|Hs]%elem_of_cons; [by destruct (Ea a x Ha ltac:(done))|]. by apply (Hu a p x _ s Ha Ep).
  - intros a b x y s. rewrite !lookup_insert_Some. intros [[<- <-]|[Hap Ha]] [[<- <-]|[Hbp Hb]]; cbn; [done| | |by apply Hu].
    + by apply (Hu p b _ y s Ep Hb).
    + by apply (Hu a p x _ s Ha Ep).
Qed.

Lemma ascending_progress (m : gmap pid locker) : all_ascending m → ¬ deadlocked m.
Proof.
  intros Ha [Hm Hstuck]. set (wanted := omap (λ x : pid * locker, head (lk_todo x.2)) (map_to_list m)).
  assert (∀ p x, m !! p = Some x → ∃ r todo, lk_todo x = r :: todo ∧ lock_available r p m = false ∧ r ∈ wanted) as Hwait.
  { intros p x Hp. specialize (Hstuck p). unfold advance_locker in Hstuck. rewrite Hp in Hstuck.
    destruct x as [[|r todo] held]; [done|]. exists r, todo. split; [done|]. split; [by destruct (lock_available r p m)|].
    apply list_elem_of_omap. exists (p, mk_locker (r :: todo) held). split; [by apply elem_of_map_to_list|done]. }
  assert (wanted ≠ []) as Hne.
  { apply map_choose in Hm as (p & x & Hp). destruct (Hwait p x Hp) as (r & todo & _ & _ & Hr). by intros E; rewrite E in Hr; apply not_elem_of_nil in Hr. }
  destruct (row_max wanted Hne) as (r & Hr & Hmax). apply list_elem_of_omap in Hr as ([p x] & Hp & Hr).
  apply elem_of_map_to_list in Hp. destruct (Hwait p x Hp) as (r' & todo & Ex & Hb & _). cbn in Hr. rewrite Ex in Hr. injection Hr as ->.
  destruct (lock_holder r p m Hb) as (q & y & Hq & _ & Hheld). destruct (Hwait q y Hq) as (s & todo' & Ey & _ & Hs).
  specialize (Ha q y Hq). cbn in Ha. rewrite Ey in Ha. cbn in Ha. apply andb_true_iff in Ha as [Ha _].
  rewrite forallb_forall in Ha. specialize (Ha r ltac:(by apply list_elem_of_In)). by rewrite (Hmax s Hs) in Ha.
Qed.

(** ** Termination *)

Definition lock_work (m : gmap pid locker) : nat := map_fold (λ _ x n, S (length (lk_todo x)) + n)%nat 0%nat m.

Lemma lock_work_delete (p : pid) (x : locker) (m : gmap pid locker) : m !! p = Some x →
  lock_work m = (S (length (lk_todo x)) + lock_work (delete p m))%nat.
Proof. intros Hp. unfold lock_work. apply (map_fold_delete_L (λ _ x n, S (length (lk_todo x)) + n)%nat); [|done]. intros. lia. Qed.

Lemma lock_work_insert (p : pid) (x : locker) (m : gmap pid locker) : m !! p = None →
  lock_work (<[p := x]> m) = (S (length (lk_todo x)) + lock_work m)%nat.
Proof. intros Hp. unfold lock_work. apply (map_fold_insert_L (λ _ x n, S (length (lk_todo x)) + n)%nat); [|done]. intros. lia. Qed.

Lemma lock_work_replace (p : pid) (x y : locker) (m : gmap pid locker) : m !! p = Some x →
  (length (lk_todo y) < length (lk_todo x))%nat → (lock_work (<[p := y]> m) < lock_work m)%nat.
Proof.
  intros Hp. rewrite (lock_work_delete _ _ _ Hp), <- insert_delete_eq, lock_work_insert by apply lookup_delete_eq. lia.
Qed.

Lemma lock_step_work (m m' : gmap pid locker) : lock_step m m' → (lock_work m' < lock_work m)%nat.
Proof.
  intros [p u u' E|p r todo held u Ep|p x u Hp]; [|by apply (lock_work_replace _ _ _ _ Ep); cbn; lia|rewrite (lock_work_delete _ _ _ Hp); lia].
  unfold advance_locker in E.
  destruct (u !! p) as [[[|r todo] held]|] eqn:Ep; [|destruct (lock_available r p u)|done]; simplify_eq.
  - rewrite (lock_work_delete _ _ _ Ep). lia.
  - apply (lock_work_replace _ _ _ _ Ep). cbn. lia.
Qed.

(** Requests that take rows in ascending order keep doing so, hold no row together, never wait in a circle and take a bounded
    number of steps. *)
Lemma ascending_runs (m m' : gmap pid locker) (n : nat) : all_ascending m → exclusive m → nsteps lock_step n m m' →
  all_ascending m' ∧ exclusive m' ∧ (lock_work m' + n ≤ lock_work m)%nat.
Proof.
  intros Ha He Hn. induction Hn as [m|n x y z Hs _ IH]; [split_and!; [done|done|lia]|].
  destruct IH as (Ha' & He' & Hw); [by eapply lock_step_ascending|by eapply lock_step_exclusive|]. apply lock_step_work in Hs.
  split_and!; [done|done|lia].
Qed.
