(* ===== verification/LockPlans.v ===== *)
(** * The rows the operations lock

    The sequence of rows each operation of the market locks, computed from the database it finds: [FOR UPDATE] reads and the
    UPDATEs of rows it has not locked before, in the order of the code.  An operation changes no other row of the eight tables
    that are locked; all but three take their rows in one order (withdrawal or dispute, payment intent, invoice, order, wallets
    by id, redemption, promo), so these never wait for each other in a circle.  Paying an invoice, expiring one and issuing one
    do not follow the order; two schedules in which the first two deadlock with other requests are at the end. *)

From Stdlib Require Import ZArith Lia QArith ZifyBool.
From stdpp Require Import base list gmap strings numbers option sorting relations.
From S2P Require Import Prelude Errors PyDecimal Money Pricing Enums OrderState Tables Database Constraints Redis RateLimit.
From S2P Require Import Ledger Movements Users Promos Crypto Media Orders Invoices Config Fields.
From S2P Require Import Tokens Otp Auth AdminAuth Receipts Payments Fulfillment Withdrawals Routes Workers Boot System Locking.
Local Open Scope Z_scope.

(** ** Plans *)

(** One transaction: a request, or an item of a sweep (each has a session of its own). *)
Inductive txn :=
  | Serve (r : MarketRequest)
  | ExpireInvoice (invoice_id : uuid)
  | ExpireTopup (intent_id : uuid)
  | ApproveDue (order_id : uuid).

Definition wallet_of_user (user_id : uuid) (d : db) : list uuid :=
  match get_by_user user_id d with Ok (Some (k, _), _) => [k] | _ => [] end.

Definition wallet_of_system (ty : wallet_type) (d : db) : list uuid :=
  match get_system ty d with Ok ((k, _), _) => [k] | _ => [] end.

(** [lock_wallets]: sorted by id. *)
Definition wallet_rows (ids : list uuid) : list row_id := (λ k, (WalletRows, k)) <$> lock_order ids.

Definition redemption_rows (invoice_id : uuid) (d : db) : list row_id :=
  match get_redemption_by_invoice invoice_id d with Ok (Some (k, _), _) => [(RedemptionRows, k)] | _ => [] end.

(** [PromoService.release]: the redemption, then the counter of its promo. *)
Definition promo_release_rows (invoice_id : uuid) (d : db) : list row_id :=
  match get_redemption_by_invoice invoice_id d with
  | Ok (Some (k, r), _) => [(RedemptionRows, k); (PromoRows, rd_promo_id r)]
  | _ => []
  end.

(** The legs of [release_escrow_on_completion]; a leg of amount zero is left out. *)
Definition release_wallets (order : Order) (d : db) : list uuid :=
  wallet_of_system WalletType.SYSTEM_ESCROW d ++ match ord_courier_id order with Some c => wallet_of_user c d | None => [] end ++
  wallet_of_system WalletType.SYSTEM_TAX_PAYABLE d ++ wallet_of_system WalletType.SYSTEM_REVENUE d.

(** [_complete_and_release]. *)
Definition completion_rows (order_id : uuid) (d : db) : list row_id :=
  (OrderRows, order_id) :: match tb_orders d !! order_id with Some o => wallet_rows (release_wallets o d) | None => [] end.

(** [_settle_invoice]. *)
Definition settlement_rows (invoice_id user_id : uuid) (d : db) : list row_id :=
  (InvoiceRows, invoice_id) ::
  match tb_invoices d !! invoice_id with
  | Some i =>
      (OrderRows, inv_order_id i) ::
      wallet_rows (wallet_of_user user_id d ++ wallet_of_system WalletType.SYSTEM_GATEWAY d ++ wallet_of_system WalletType.SYSTEM_ESCROW d) ++
      redemption_rows invoice_id d
  | None => []
  end.

(** [_settle_locked]. *)
Definition webhook_rows (event : WebhookEvent) (d : db) : list row_id :=
  match lock_intent_by_payment_link (ev_payment_link_id event) d with
  | Ok (Some (k, intent), _) =>
      (IntentRows, k) ::
      match pin_purpose intent, pin_reference_invoice_id intent with
      | PaymentPurpose.WALLET_TOPUP, _ =>
          wallet_rows (wallet_of_user (pin_user_id intent) d ++ wallet_of_system WalletType.SYSTEM_GATEWAY d)
      | _, Some i => settlement_rows i (pin_user_id intent) d
      | _, None => []
      end
  | _ => []
  end.

(** [cancel_invoice]. *)
Definition cancellation_rows (invoice_id : uuid) (d : db) : list row_id :=
  (InvoiceRows, invoice_id) ::
  match tb_invoices d !! invoice_id with
  | Some i => (OrderRows, inv_order_id i) :: promo_release_rows invoice_id d
  | None => []
  end.

(** [resolve_dispute]: the release, the refund or the split. *)
Definition resolution_rows (dispute_id : uuid) (d : db) : list row_id :=
  (DisputeRows, dispute_id) ::
  match tb_disputes d !! dispute_id with
  | Some x =>
      (OrderRows, dis_order_id x) ::
      match tb_orders d !! dis_order_id x with
      | Some o => wallet_rows (release_wallets o d ++ wallet_of_user (ord_customer_id o) d)
      | None => []
      end
  | None => []
  end.

(** [reject] and [mark_paid] of a withdrawal. *)
Definition payout_rows (withdrawal_id : uuid) (system : list uuid) (d : db) : list row_id :=
  (WithdrawalRows, withdrawal_id) ::
  match tb_withdrawals d !! withdrawal_id with Some x => wallet_rows (wd_wallet_id x :: system) | None => [] end.

(** [pay_invoice]: the invoice is read without a lock and updated last. *)
Definition payment_rows (invoice_id customer_id : uuid) (d : db) : list row_id :=
  match tb_invoices d !! invoice_id with
  | Some i =>
      (OrderRows, inv_order_id i) ::
      wallet_rows (wallet_of_user customer_id d ++ wallet_of_system WalletType.SYSTEM_ESCROW d) ++
      (InvoiceRows, invoice_id) :: redemption_rows invoice_id d
  | None => []
  end.

(** [_expire_invoice]: the hold, the open intent, the promo, the order. *)
Definition expiry_rows (invoice_id : uuid) (d : db) : list row_id :=
  (InvoiceRows, invoice_id) ::
  match tb_invoices d !! invoice_id with
  | Some i =>
      match get_open_intent_for_invoice invoice_id d with
      | Ok (Some (k, intent), _) => wallet_rows (wallet_of_user (pin_user_id intent) d) ++ [(IntentRows, k)]
      | _ => []
      end ++ promo_release_rows invoice_id d ++ [(OrderRows, inv_order_id i)]
  | None => []
  end.

(** [create_invoice]: the counter of the promo, then the order. *)
Definition issue_rows (order_id : uuid) (data : NewInvoiceInput) (d : db) : list row_id :=
  match promo_code_of data with
  | Some code => match get_by_code code d with Ok (Some (k, _), _) => [(PromoRows, k)] | _ => [] end
  | None => []
  end ++ [(OrderRows, order_id)].

Section Plans.
Context `{Deployment}.

Definition run_txn (t : txn) : M () :=
  match t with
  | Serve r => serve_market r
  | ExpireInvoice i => void (expire_invoice i)
  | ExpireTopup k => void (expire_topup_intent k)
  | ApproveDue o => void (or_rollback (auto_approve settings o))
  end.

(** The rows a transaction may lock, in the order in which it does.  A sweep only lists; its items are transactions. *)
Definition lock_plan (t : txn) (d : db) : list row_id :=
  match t with
  | Serve (AcceptOrder o _ | CancelOrder o _ _ | SubmitDelivery o _ _ | RaiseDispute o _ _) => [(OrderRows, o)]
  | Serve (ApproveOrder o _) | ApproveDue o => completion_rows o d
  | Serve (ResolveDispute x _ _ _ _) => resolution_rows x d
  | Serve (CancelInvoice i _) => cancellation_rows i d
  | Serve (Webhook body _) => match parse repr json_loads body with Ok event => webhook_rows event d | Raise _ => [] end
  | Serve (RequestWithdrawal c _ _ _) => wallet_rows (wallet_of_user c d)
  | Serve (ApproveWithdrawal w _ _) => [(WithdrawalRows, w)]
  | Serve (RejectWithdrawal w _ _ _) => payout_rows w [] d
  | Serve (MarkWithdrawalPaid w _ _) => payout_rows w (wallet_of_system WalletType.SYSTEM_GATEWAY d) d
  | Serve (CreateInvoice o _ data) => issue_rows o data d
  | Serve (PayInvoice i c) => payment_rows i c d
  | ExpireInvoice i => expiry_rows i d
  | ExpireTopup k => [(IntentRows, k)]
  | Serve (CreateOrder _ _ | CreateTopup _ _ | ExpireStale | AutoApprove | ReconcileLedger) => []
  end.

(** The transactions that follow the common order. *)
Definition follows_order (t : txn) : bool :=
  match t with Serve (PayInvoice _ _ | CreateInvoice _ _ _) | ExpireInvoice _ => false | _ => true end.

(** Not one transaction. *)
Definition is_sweep (t : txn) : bool := match t with Serve (ExpireStale | AutoApprove) => true | _ => false end.
End Plans.

(** ** The plans are ascending *)

(** Rows of tables below rank [n]. *)
Definition below (n : N) (held : list row_id) : Prop := ∀ h, h ∈ held → (lock_rank h.1 < n)%N.

(** Ascending after any rows of lower tables. *)
Definition ascends_from (n : N) (plan : list row_id) : Prop := ∀ held, below n held → ascending held plan = true.

Lemma ascending_cons (held : list row_id) (r : row_id) (plan : list row_id) :
  (∀ h, h ∈ held → row_ltb h r = true) → ascending (r :: held) plan = true → ascending held (r :: plan) = true.
Proof. intros Hh Hp. cbn. rewrite Hp, andb_true_r. apply forallb_forall. intros h Hin. apply Hh. by apply list_elem_of_In. Qed.

Lemma from_nil (n : N) : ascends_from n [].
Proof. done. Qed.

Lemma from_row (n : N) (t : lock_table) (k : uuid) (plan : list row_id) :
  (n <= lock_rank t)%N → ascends_from (N.succ (lock_rank t)) plan → ascends_from n ((t, k) :: plan).
Proof.
  intros Hn Hp held Hh. apply ascending_cons.
  - intros h Hin. specialize (Hh h Hin). unfold row_ltb. cbn. lia.
  - apply Hp. intros h [->|Hin]%elem_of_cons; cbn; [lia|]. specialize (Hh h Hin). lia.
Qed.

Lemma lock_order_sorted (ids : list uuid) : StronglySorted N.lt (lock_order ids).
Proof.
  pose proof (lock_order_NoDup ids) as Hn. unfold lock_order in *.
  pose proof (StronglySorted_merge_sort N.le (remove_dups ids)) as Hs. revert Hn Hs. generalize (merge_sort N.le (remove_dups ids)).
  intros l Hn Hs. induction Hs as [|x l Hs IH Hx]; [constructor|]. apply NoDup_cons in Hn as [Hni Hn]. constructor; [by apply IH|].
  rewrite Forall_forall in *. intros y Hy. specialize (Hx y Hy). assert (x ≠ y) by (by intros ->). lia.
Qed.

Lemma from_sorted (n : N) (t : lock_table) (l : list uuid) (plan : list row_id) :
  (n <= lock_rank t)%N → StronglySorted N.lt l → ascends_from (N.succ (lock_rank t)) plan →
  ascends_from n (((λ k, (t, k)) <$> l) ++ plan).
Proof.
  intros Hn Hs Hp held Hh.
  assert (∀ h, h ∈ held → (lock_rank h.1 <= lock_rank t)%N ∧ (∀ k, k ∈ l → row_ltb h (t, k) = true)) as Hheld.
  { intros h Hin. specialize (Hh h Hin). split; [lia|]. intros k _. unfold row_ltb. cbn. lia. }
  clear Hn Hh. revert held Hheld. induction Hs as [|k l Hs IH Hk]; intros held Hheld; cbn [fmap list_fmap app].
  - apply Hp. intros h Hin. destruct (Hheld h Hin) as [? _]. lia.
  - apply ascending_cons; [intros h Hin; apply Hheld; [done|left]|]. apply IH. rewrite Forall_forall in Hk.
    intros h [->|Hin]%elem_of_cons.
    + split; [cbn; lia|]. intros k' Hk'. specialize (Hk k' Hk'). unfold row_ltb. cbn. lia.
    + destruct (Hheld h Hin) as [? Hl]. split; [done|]. intros k' Hk'. apply Hl. by right.
Qed.

Lemma from_wallets (n : N) (ids : list uuid) (plan : list row_id) :
  (n <= 5)%N → ascends_from 6 plan → ascends_from n (wallet_rows ids ++ plan).
Proof. intros. by apply from_sorted; [|apply lock_order_sorted|]. Qed.

Lemma from_wallets_only (n : N) (ids : list uuid) : (n <= 5)%N → ascends_from n (wallet_rows ids).
Proof. intros. rewrite <- (app_nil_r (wallet_rows ids)). by apply from_wallets; [|apply from_nil]. Qed.

Ltac ascends :=
  repeat (match goal with
  | |- ascends_from _ (match ?x with _ => _ end) => destruct x
  | |- ascends_from _ [] => apply from_nil
  | |- ascends_from _ (_ :: _) => apply from_row; [by vm_compute|cbn [lock_rank N.succ]]
  | |- ascends_from _ (wallet_rows _ ++ _) => apply from_wallets; [by vm_compute|]
  | |- ascends_from _ (wallet_rows _) => apply from_wallets_only; by vm_compute
  end).

Lemma plan_ascends `{Deployment} (t : txn) (d : db) : follows_order t = true → ascends_from 0 (lock_plan t d).
Proof.
  intros Ht. destruct t as [[]| | |]; try discriminate Ht; cbn [lock_plan];
    unfold completion_rows, resolution_rows, cancellation_rows, promo_release_rows, webhook_rows, settlement_rows, redemption_rows, payout_rows;
    ascends.
Qed.

(** ** A transaction changes no other row *)

(** A row of a locked table that exists in [d] is the same in [d']. *)
Definition row_unchanged (r : row_id) (d d' : db) : Prop :=
  match r.1 with
  | WithdrawalRows => ∀ x, tb_withdrawals d !! r.2 = Some x → tb_withdrawals d' !! r.2 = Some x
  | DisputeRows => ∀ x, tb_disputes d !! r.2 = Some x → tb_disputes d' !! r.2 = Some x
  | IntentRows => ∀ x, tb_payment_intents d !! r.2 = Some x → tb_payment_intents d' !! r.2 = Some x
  | InvoiceRows => ∀ x, tb_invoices d !! r.2 = Some x → tb_invoices d' !! r.2 = Some x
  | OrderRows => ∀ x, tb_orders d !! r.2 = Some x → tb_orders d' !! r.2 = Some x
  | WalletRows => ∀ x, tb_wallets d !! r.2 = Some x → tb_wallets d' !! r.2 = Some x
  | RedemptionRows => ∀ x, tb_promo_redemptions d !! r.2 = Some x → tb_promo_redemptions d' !! r.2 = Some x
  | PromoRows => ∀ x, tb_promos d !! r.2 = Some x → tb_promos d' !! r.2 = Some x
  end.

(** From [d0] to [d] only rows of [plan] have changed. *)
Definition changes_only (plan : list row_id) (d0 d : db) : Prop := ∀ r, r ∉ plan → row_unchanged r d0 d.

(** The table of a lock. *)
Class Locked (row : Type) `{Table row} := {
  locked_as : lock_table;
  locked_row : ∀ k d d', row_unchanged (locked_as, k) d d' ↔ ∀ x : row, rows d !! k = Some x → rows d' !! k = Some x;
  locked_set : ∀ t k d0 d (m : gmap uuid row), t ≠ locked_as → row_unchanged (t, k) d0 d → row_unchanged (t, k) d0 (set_rows m d);
  locked_rows : ∀ (m : gmap uuid row) d, rows (set_rows m d) = m;
}.

Ltac locked_table tag := refine {| locked_as := tag |}; [by intros| |by intros]; by intros [] k d0 d m Hne Hr; try done.

#[export] Instance locked_withdrawals : Locked Withdrawal. Proof. locked_table WithdrawalRows. Defined.
#[export] Instance locked_disputes : Locked Dispute. Proof. locked_table DisputeRows. Defined.
#[export] Instance locked_intents : Locked PaymentIntent. Proof. locked_table IntentRows. Defined.
#[export] Instance locked_invoices : Locked Invoice. Proof. locked_table InvoiceRows. Defined.
#[export] Instance locked_orders : Locked Order. Proof. locked_table OrderRows. Defined.
#[export] Instance locked_wallets : Locked Wallet. Proof. locked_table WalletRows. Defined.
#[export] Instance locked_redemptions : Locked PromoRedemption. Proof. locked_table RedemptionRows. Defined.
#[export] Instance locked_promos : Locked Promo. Proof. locked_table PromoRows. Defined.

Lemma changes_refl (plan : list row_id) (d : db) : changes_only plan d d.
Proof. intros [[] k] _; by cbn. Qed.

Lemma changes_frame (plan : list row_id) (d0 d d' : db) :
  (∀ r, row_unchanged r d0 d → row_unchanged r d0 d') → changes_only plan d0 d → changes_only plan d0 d'.
Proof. intros Hr Hc r Hin. by apply Hr, Hc. Qed.

(** The other tables. *)
Ltac frame_changes := apply frame_of_rows; intros ? ?; apply changes_frame; by intros [[] ?].
#[export] Hint Extern 1 (Frame (changes_only _ _) _) => frame_changes : typeclass_instances.
#[export] Hint Extern 1 (FrameNext (changes_only _ _)) => (intros ? ?; apply changes_frame; by intros [[] ?]) : typeclass_instances.

Section Rows.
Context {row : Type} `{Locked row} (plan : list row_id) (d0 : db).

(** A row the plan has, or one that is new. *)
Definition may_write (k : uuid) : Prop := (locked_as, k) ∈ plan ∨ rows (row := row) d0 !! k = None.

Lemma changes_set (k : uuid) (x : row) (d : db) : may_write k → changes_only plan d0 d → changes_only plan d0 (set_rows (<[k := x]> (rows d)) d).
Proof.
  intros Hk Hc [t j] Hin. specialize (Hc (t, j) Hin). destruct (decide (t = locked_as)) as [->|Hne]; [|by apply locked_set].
  rewrite locked_row in Hc |- *. intros y Hy. rewrite locked_rows. destruct (decide (j = k)) as [->|Hjk].
  - destruct Hk as [Hk|Hk]; [done|]. congruence.
  - rewrite lookup_insert_ne by done. by apply Hc.
Qed.

Lemma keeps_locked_update (k : uuid) (x : row) : may_write k → keeps (changes_only plan d0) (update_row k x).
Proof. intros Hk d u d' Hd (_ & _ & _ & ->)%update_row_ok. by apply changes_set. Qed.

(** A row that is not there is new. *)
Lemma absent_new (k : uuid) (d : db) : changes_only plan d0 d → rows (row := row) d !! k = None → may_write k.
Proof.
  intros Hc Hk. destruct (decide ((locked_as, k) ∈ plan)) as [|Hin]; [by left|]. right. specialize (Hc _ Hin). rewrite locked_row in Hc.
  destruct (rows d0 !! k) as [y|]; [|done]. by rewrite (Hc y eq_refl) in Hk.
Qed.

Lemma keeps_locked_insert_at (k : uuid) (x : row) : keeps (changes_only plan d0) (insert_row_at k x).
Proof.
  intros d u d' Hd (Hk & _ & _ & _ & ->)%insert_row_at_ok. apply changes_set; [|done]. by eapply absent_new.
Qed.

Lemma insert_new (x : row) (d : db) (k : uuid) (d' : db) : changes_only plan d0 d → insert_row x d = Ok (k, d') →
  changes_only plan d0 d' ∧ may_write k.
Proof.
  intros Hd Hi. unfold insert_row in Hi. apply bind_ok in Hi as (j & d1 & [= <- <-] & Hi). apply bind_ok in Hi as ([] & d2 & Hi & [= <- <-]).
  assert (changes_only plan d0 (d <| db_next := (db_next d + 1)%N |>)) as Hd1 by (revert Hd; apply changes_frame; by intros [[] ?]).
  split; [by eapply keeps_locked_insert_at|]. apply insert_row_at_ok in Hi as (Hk & _). by eapply absent_new.
Qed.

Lemma keeps_locked_insert (x : row) : keeps (changes_only plan d0) (insert_row x).
Proof. intros d k d' Hd Hi. by apply (insert_new x d k d'). Qed.

(** What follows an INSERT may write the new row. *)
Lemma keeps_after_insert {A} (c : M uuid) (m : uuid → M A) :
  (∀ d k d', changes_only plan d0 d → c d = Ok (k, d') → changes_only plan d0 d' ∧ may_write k) →
  (∀ k, may_write k → keeps (changes_only plan d0) (m k)) → keeps (changes_only plan d0) (c ≫= m).
Proof. intros Hc Hm d a d' Hd (k & d1 & Hi & Hr)%bind_ok. destruct (Hc d k d1 Hd Hi) as [Hd1 Hk]. by eapply Hm. Qed.
End Rows.

Arguments may_write row {_ _} plan d0 k.

#[export] Hint Resolve keeps_locked_update keeps_locked_insert_at keeps_locked_insert : giftly.

(** *** Transactions *)

(** What [m], run in [d0], changes. *)
Definition covered_by {A} (plan : list row_id) (d0 : db) (m : M A) : Prop := ∀ a d', m d0 = Ok (a, d') → changes_only plan d0 d'.

Section Covered.
Context (plan : list row_id) (d0 : db).

Lemma covered_keeps {A} (m : M A) : keeps (changes_only plan d0) m → covered_by plan d0 m.
Proof. intros Hm a d'. apply Hm, changes_refl. Qed.

(** A read: the rest runs in the same state. *)
Lemma covered_read {A B} (m : M A) (k : A → M B) :
  keeps (eq d0) m → (∀ a, m d0 = Ok (a, d0) → covered_by plan d0 (k a)) → covered_by plan d0 (m ≫= k).
Proof. intros Hm Hk b d' (a & d1 & Ha & Hr)%bind_ok. assert (d0 = d1) as <- by (by eapply Hm). by eapply Hk. Qed.

Lemma covered_then {A B} (m : M A) (k : A → M B) :
  covered_by plan d0 m → (∀ a, keeps (changes_only plan d0) (k a)) → covered_by plan d0 (m ≫= k).
Proof. intros Hm Hk b d' (a & d1 & Ha & Hr)%bind_ok. eapply Hk; [|done]. by eapply Hm. Qed.

Lemma covered_void {A} (m : M A) : covered_by plan d0 m → covered_by plan d0 (void m).
Proof. intros Hm. apply covered_then; [done|]. intros. apply keeps_ret. Qed.

Lemma covered_rollback (m : M bool) : covered_by plan d0 m → covered_by plan d0 (or_rollback m).
Proof. intros Hm b d'. unfold or_rollback. destruct (m d0) as [[]|] eqn:E; intros [= <- <-]; [by eapply Hm|apply changes_refl]. Qed.

Lemma covered_savepoint {A} (m h : M A) : covered_by plan d0 m → covered_by plan d0 h → covered_by plan d0 (savepoint_catch m h).
Proof. intros Hm Hh a d' [E|[_ E]]%savepoint_catch_ok; [by eapply Hm|by eapply Hh]. Qed.

Lemma covered_raise {A} (e : exn) : covered_by plan d0 (raise e : M A).
Proof. done. Qed.
End Covered.

Lemma keeps_for_each_in (P : db → Prop) {A} (f : A → M ()) (l : list A) : (∀ x, x ∈ l → keeps P (f x)) → keeps P (for_each f l).
Proof.
  induction l as [|x l IH]; intros Hf; [apply keeps_ret|].
  apply keeps_bind; [apply Hf; left|]. intros _. apply IH. intros y Hy. apply Hf. by right.
Qed.

Lemma keeps_lock_wallets (P : db → Prop) (ids : list uuid) : keeps P (lock_wallets ids).
Proof. intros d m d' HP Hr. destruct (lock_wallets_run ids d) as (m' & E & _). by rewrite E in Hr; injection Hr as _ <-. Qed.

Lemma keeps_any_key (P : db → Prop) (legs : list Leg) : keeps P (any_key_exists legs).
Proof. intros d b d' HP Hr. destruct (any_key_exists_run legs d) as (b' & E & _). by rewrite E in Hr; injection Hr as _ <-. Qed.

Lemma keeps_count_redemptions (P : db → Prop) (p u : uuid) : keeps P (count_user_redemptions p u).
Proof. intros d n d' HP [= _ <-]. done. Qed.

#[export] Hint Resolve keeps_lock_wallets keeps_any_key keeps_get_system keeps_count_redemptions : giftly.
#[export] Hint Extern 1 (keeps _ (get_redemption_by_invoice _)) => apply keeps_scalar : giftly.
#[export] Hint Extern 1 (keeps _ (get_by_user _)) => apply keeps_scalar : giftly.
#[export] Hint Extern 1 (keeps _ (get_by_code _)) => apply keeps_scalar : giftly.
#[export] Hint Extern 1 (keeps _ (lock_for_courier _ _)) => apply keeps_scalar : giftly.
#[export] Hint Extern 1 (keeps _ (get_active_for_order _)) => apply keeps_scalar : giftly.
#[export] Hint Extern 1 (keeps _ (get_dispute_for_order _)) => apply keeps_scalar : giftly.
#[export] Hint Extern 1 (keeps _ (lock_invoice _)) => apply keeps_get : giftly.
#[export] Hint Extern 1 (keeps _ (lock_dispute _)) => apply keeps_get : giftly.
#[export] Hint Extern 1 (keeps _ (lock_intent _)) => apply keeps_get : giftly.

(** *** Money *)

Section Money.
Context (plan : list row_id) (d0 : db).

(** The wallet may be locked. *)
Definition planned_wallet (k : uuid) : Prop := (WalletRows, k) ∈ plan.

Lemma keeps_planned_hold (k : uuid) (a : dec) : planned_wallet k → keeps (changes_only plan d0) (hold_funds k a).
Proof. intros Hk. unfold hold_funds, lock_one. keeps_auto. apply keeps_locked_update. by left. Qed.

Lemma keeps_planned_release (k : uuid) (a : dec) : planned_wallet k → keeps (changes_only plan d0) (release_hold k a).
Proof. intros Hk. unfold release_hold, lock_one. keeps_auto. apply keeps_locked_update. by left. Qed.

Lemma keeps_planned_flush (locked : gmap uuid Wallet) (mem : memory) (ids : list uuid) : Forall planned_wallet ids →
  keeps (changes_only plan d0) (for_each (flush_wallet locked mem) (lock_order ids)).
Proof.
  intros Hl. apply keeps_for_each_in. intros k Hk. rewrite lock_order_elem in Hk. rewrite Forall_forall in Hl.
  unfold flush_wallet. keeps_auto. apply keeps_locked_update. left. by apply Hl.
Qed.

Lemma keeps_planned_post (legs : list Leg) (c : uuid) : Forall planned_wallet (leg_wallet_id <$> legs) →
  keeps (changes_only plan d0) (post_group legs c).
Proof.
  intros Hl. assert (∀ locked mem, keeps (changes_only plan d0) (for_each (flush_wallet locked mem) (lock_order (leg_wallet_id <$> legs)))) as Hf
    by (intros; by apply keeps_planned_flush).
  unfold post_group, post_locked, flush_pending, append_transaction. repeat (apply Hf || keeps_step).
Qed.

(** Read in [d0]. *)
Lemma user_wallet_read (u k : uuid) (w : Wallet) (d : db) : get_by_user u d = Ok (Some (k, w), d) → wallet_of_user u d = [k].
Proof. unfold wallet_of_user. by intros ->. Qed.

Lemma system_wallet_read (ty : wallet_type) (p : uuid * Wallet) (d : db) : get_system ty d = Ok (p, d) → wallet_of_system ty d = [p.1].
Proof. unfold wallet_of_system. intros ->. by destruct p. Qed.
End Money.

(** Follow the reads of a transaction in [d0]. *)
Ltac cov_step :=
  match goal with
  | |- covered_by _ _ (match ?x with _ => _ end) => destruct x eqn:?
  | |- covered_by _ _ (let _ := _ in _) => cbv zeta
  | |- covered_by _ _ (_ ≫= _) => apply covered_read; [solve [keeps_auto]|intros ? ?]
  end.
Ltac cov := repeat cov_step.

(** What was read. *)
Ltac reads_done :=
  repeat match goal with
  | E : unwrap _ _ _ = Ok _ |- _ => apply unwrap_ok in E as [E _]; try subst
  | E : guard_ _ _ _ = Ok _ |- _ => apply guard_ok in E as [E _]
  | E : lock_order_row _ _ = Ok _ |- _ => unfold lock_order_row in E
  | E : lock_invoice _ _ = Ok _ |- _ => unfold lock_invoice in E
  | E : lock_dispute _ _ = Ok _ |- _ => unfold lock_dispute in E
  | E : get_row _ _ = Ok _ |- _ => injection E as E; cbn in E
  | E : scalar _ _ = Ok (Some (_, _), _) |- _ => apply scalar_some in E as [E ?]; cbn in E
  end.

(** Name the wallets that were read. *)
Ltac wallets_read :=
  repeat match goal with
  | E : get_system _ ?d = Ok (_, ?d) |- _ => apply system_wallet_read in E
  | E : get_by_user _ ?d = Ok (Some (_, _), ?d) |- _ => apply user_wallet_read in E
  end.

(** Every wallet of the legs is planned. *)
Ltac planned_wallets Hp :=
  apply Hp;
  repeat match goal with E : wallet_of_system _ _ = [_] |- _ => rewrite E | E : wallet_of_user _ _ = [_] |- _ => rewrite E end; set_solver.
Ltac planned_legs Hp :=
  apply keeps_planned_post;
  repeat match goal with |- context [if ?b then _ else _] => destruct b end;
  cbn [fmap list_fmap app leg_wallet_id]; repeat apply Forall_cons_2; try apply Forall_nil_2; planned_wallets Hp.

Section Transfers.
Context (plan : list row_id) (d0 : db).

Definition planned_wallets (ids : list uuid) : Prop := ∀ k, k ∈ ids → planned_wallet plan k.

Lemma covered_release_escrow (o i cw : uuid) (p t r : dec) :
  planned_wallets (cw :: wallet_of_system WalletType.SYSTEM_ESCROW d0 ++ wallet_of_system WalletType.SYSTEM_TAX_PAYABLE d0 ++
    wallet_of_system WalletType.SYSTEM_REVENUE d0) →
  covered_by plan d0 (release_escrow_on_completion o i cw p t r).
Proof. intros Hp. unfold release_escrow_on_completion. cov. wallets_read. apply covered_keeps. keeps_auto. planned_legs Hp. Qed.

Lemma covered_refund_escrow (o i uw : uuid) (a : dec) :
  planned_wallets (uw :: wallet_of_system WalletType.SYSTEM_ESCROW d0) → covered_by plan d0 (refund_escrow o i uw a).
Proof. intros Hp. unfold refund_escrow. cov. wallets_read. apply covered_keeps. keeps_auto. planned_legs Hp. Qed.

Lemma covered_split_escrow (o i cw uw : uuid) (a b : dec) :
  planned_wallets (cw :: uw :: wallet_of_system WalletType.SYSTEM_ESCROW d0) → covered_by plan d0 (split_escrow o i cw uw a b).
Proof. intros Hp. unfold split_escrow. cov. wallets_read. apply covered_keeps. keeps_auto. planned_legs Hp. Qed.

Lemma covered_credit_topup (w : uuid) (a : dec) (i : uuid) :
  planned_wallets (w :: wallet_of_system WalletType.SYSTEM_GATEWAY d0) → covered_by plan d0 (credit_topup w a i).
Proof. intros Hp. unfold credit_topup. cov. wallets_read. apply covered_keeps. keeps_auto. planned_legs Hp. Qed.

Lemma covered_pay_withdrawal (w : uuid) (a : dec) (i : uuid) :
  planned_wallets (w :: wallet_of_system WalletType.SYSTEM_GATEWAY d0) → covered_by plan d0 (pay_withdrawal w a i).
Proof.
  intros Hp. unfold pay_withdrawal. cov. wallets_read. apply covered_keeps. keeps_auto; [planned_legs Hp|].
  apply keeps_planned_release. planned_wallets Hp.
Qed.

(** The gateway is locked if it pays. *)
Lemma covered_fund_escrow (w : uuid) (wa ga : dec) (i o : uuid) (n : option uuid) (h : bool) :
  planned_wallets (w :: wallet_of_system WalletType.SYSTEM_ESCROW d0) →
  (∀ q, quantize_money ga = Ok q → dltb ZERO q = true → planned_wallets (wallet_of_system WalletType.SYSTEM_GATEWAY d0)) →
  covered_by plan d0 (fund_escrow_for_invoice w wa ga i o n h).
Proof.
  intros Hp Hg. unfold fund_escrow_for_invoice. cov. wallets_read.
  match goal with E : lift (quantize_money ga) _ = _ |- _ => apply lift_ok in E as [E _]; specialize (Hg _ E) end.
  apply covered_keeps. keeps_auto; [|apply keeps_planned_release; planned_wallets Hp]. destruct (dltb ZERO a0); [specialize (Hg eq_refl)|]; [|planned_legs Hp].
  apply keeps_planned_post. destruct (dltb ZERO a); cbn [fmap list_fmap app leg_wallet_id]; repeat apply Forall_cons_2; try apply Forall_nil_2;
    first [planned_wallets Hp|planned_wallets Hg].
Qed.
End Transfers.

(** *** Promos *)

Section PromoRows.
Context (plan : list row_id) (d0 : db).

(** The redemptions are those of [d0]. *)
Lemma redemption_read (i : uuid) (d : db) (o : option (uuid * PromoRedemption)) (d1 : db) :
  tb_promo_redemptions d = tb_promo_redemptions d0 → get_redemption_by_invoice i d = Ok (o, d1) →
  d1 = d ∧ get_redemption_by_invoice i d0 = Ok (o, d0).
Proof. intros Hrd [-> ->]%scalar_ok. split; [done|]. apply scalar_ok. split; [done|]. cbn. by rewrite Hrd. Qed.

Lemma release_changes (i : uuid) (d : db) (u : ()) (d' : db) : (∀ r, r ∈ promo_release_rows i d0 → r ∈ plan) →
  tb_promo_redemptions d = tb_promo_redemptions d0 → changes_only plan d0 d → release i d = Ok (u, d') → changes_only plan d0 d'.
Proof.
  intros Hp Hrd Hd Hr. unfold release in Hr. apply bind_ok in Hr as (o & d1 & Hg & Hr). apply redemption_read in Hg as [-> Hg]; [|done].
  unfold promo_release_rows in Hp. rewrite Hg in Hp.
  revert Hd Hr. destruct o as [[k r]|]; [|by intros ? [= _ <-]]. destruct (same (rd_status r) _); [|by intros ? [= _ <-]].
  match goal with |- _ → ?m _ = _ → _ => assert (keeps (changes_only plan d0) m) as Hk; [|by apply Hk] end.
  unfold set_redemption_status, atomic_release. keeps_auto; apply keeps_locked_update; left; apply Hp; set_solver.
Qed.

Lemma covered_release (i : uuid) : (∀ r, r ∈ promo_release_rows i d0 → r ∈ plan) → covered_by plan d0 (release i).
Proof. intros Hp u d' Hr. eapply release_changes; [done|done|apply changes_refl|done]. Qed.

Lemma consume_changes (i : uuid) (d : db) (u : ()) (d' : db) : (∀ r, r ∈ redemption_rows i d0 → r ∈ plan) →
  tb_promo_redemptions d = tb_promo_redemptions d0 → changes_only plan d0 d → consume i d = Ok (u, d') → changes_only plan d0 d'.
Proof.
  intros Hp Hrd Hd Hr. unfold consume in Hr. apply bind_ok in Hr as (o & d1 & Hg & Hr). apply redemption_read in Hg as [-> Hg]; [|done].
  unfold redemption_rows in Hp. rewrite Hg in Hp.
  revert Hd Hr. destruct o as [[k r]|]; [|by intros ? [= _ <-]]. destruct (same (rd_status r) _); [|by intros ? [= _ <-]].
  match goal with |- _ → ?m _ = _ → _ => assert (keeps (changes_only plan d0) m) as Hk; [|by apply Hk] end.
  unfold set_redemption_status. keeps_auto. apply keeps_locked_update. left. apply Hp. set_solver.
Qed.
End PromoRows.

(** *** The operations *)

Section Operations.
Context `{Deployment} (plan : list row_id) (d0 : db).

Lemma planned_rows (ids : list uuid) : (∀ r, r ∈ wallet_rows ids → r ∈ plan) → planned_wallets plan ids.
Proof.
  intros Hp k Hk. apply Hp. unfold wallet_rows. apply list_elem_of_fmap. exists k. split; [done|]. by apply lock_order_elem.
Qed.

Lemma covered_accept (o c : uuid) : (OrderRows, o) ∈ plan → covered_by plan d0 (accept_order encrypt o c).
Proof.
  intros Hp. unfold accept_order, require_active_verified_courier. cov. intros r d' [_ E]%lock_or_assigned_ok%with_lock_ok.
  revert E. apply (covered_keeps plan d0). unfold assign_locked, create_conversation, write_system_message, add_system_message.
  keeps_auto. apply keeps_locked_update. by left.
Qed.

Lemma covered_cancel_order (o a : uuid) (reason : option string) : (OrderRows, o) ∈ plan → covered_by plan d0 (cancel_order o a reason).
Proof. intros Hp. apply covered_keeps. unfold cancel_order. keeps_auto. apply keeps_locked_update. by left. Qed.

Lemma covered_delivery (o c : uuid) (data : DeliveryInput) : (OrderRows, o) ∈ plan →
  covered_by plan d0 (submit_delivery max_upload settings st_distance o c data).
Proof. intros Hp. apply covered_keeps. unfold submit_delivery, distance_to_delivery, add_media. keeps_auto. apply keeps_locked_update. by left. Qed.

Lemma covered_raise_dispute (o a : uuid) (reason : string) : (OrderRows, o) ∈ plan → covered_by plan d0 (raise_dispute o a reason).
Proof. intros Hp. apply covered_keeps. unfold raise_dispute, create_dispute. keeps_auto. apply keeps_locked_update. by left. Qed.

Lemma covered_cancel_invoice (i c : uuid) : (∀ r, r ∈ cancellation_rows i d0 → r ∈ plan) → covered_by plan d0 (cancel_invoice i c).
Proof.
  intros Hp. unfold cancel_invoice. cov. unfold lock_for_courier in *. reads_done. destruct a0 as [k inv]. reads_done.
  match goal with E : _ && _ = true |- _ => apply andb_true_iff in E as [E _]; apply (proj1 (same_true _ _)) in E; subst end.
  unfold cancellation_rows in Hp. rewrite H0 in Hp. apply covered_then; [apply covered_release; set_solver|].
  intros. keeps_auto; apply keeps_locked_update; left; apply Hp; set_solver.
Qed.

Lemma covered_payout (o : uuid) (p : uuid * Invoice) (cw : uuid) :
  planned_wallets plan (cw :: wallet_of_system WalletType.SYSTEM_ESCROW d0 ++ wallet_of_system WalletType.SYSTEM_TAX_PAYABLE d0 ++
    wallet_of_system WalletType.SYSTEM_REVENUE d0) → covered_by plan d0 (release_payout settings o p cw).
Proof. intros Hw. unfold release_payout. cov. apply covered_then; [by apply covered_release_escrow|]. intros. apply keeps_ret. Qed.

Lemma covered_complete (o : uuid) (order : Order) : tb_orders d0 !! o = Some order →
  (∀ r, r ∈ completion_rows o d0 → r ∈ plan) → covered_by plan d0 (complete_and_release settings o order).
Proof.
  intros Ho Hp. unfold completion_rows in Hp. rewrite Ho in Hp.
  assert (planned_wallets plan (release_wallets order d0)) as Hw by (apply planned_rows; intros; apply Hp; by right).
  unfold complete_and_release, paid_invoice. cov. reads_done. destruct a3 as [cw w]. wallets_read.
  apply covered_then; [apply covered_payout; intros k Hk; apply Hw; unfold release_wallets; rewrite H2, H3; set_solver|].
  intros. keeps_auto. apply keeps_locked_update. left. apply Hp. set_solver.
Qed.

Lemma covered_approve (o c : uuid) : (∀ r, r ∈ completion_rows o d0 → r ∈ plan) → covered_by plan d0 (approve_order settings o c).
Proof. intros Hp. unfold approve_order. cov. reads_done. by apply covered_complete. Qed.

Lemma covered_auto_approve (o : uuid) : (∀ r, r ∈ completion_rows o d0 → r ∈ plan) → covered_by plan d0 (auto_approve settings o).
Proof.
  intros Hp. unfold auto_approve. cov; try (apply covered_keeps; keeps_auto; fail). reads_done. subst.
  apply covered_then; [by apply covered_complete|]. intros. apply keeps_ret.
Qed.

Lemma covered_outcome (o : uuid) (order : Order) (p : uuid * Invoice) (outcome : dispute_status) (amount : option dec) :
  planned_wallets plan (release_wallets order d0 ++ wallet_of_user (ord_customer_id order) d0) →
  covered_by plan d0 (apply_dispute_outcome settings o order p outcome amount).
Proof.
  intros Hw. unfold apply_dispute_outcome. cov; reads_done; try (apply covered_raise; fail).
  all: match goal with E : get_by_user _ _ = Ok (Some ?x, _), E' : get_by_user _ _ = Ok (Some ?y, _) |- _ => destruct x, y end; wallets_read.
  all: apply covered_then; [|intros; keeps_auto].
  all: first [apply covered_refund_escrow|apply covered_payout|apply covered_split_escrow].
  all: intros k Hk; apply Hw; unfold release_wallets;
    repeat match goal with E : ord_courier_id _ = _ |- _ => rewrite E | E : wallet_of_user _ _ = _ |- _ => rewrite E end; set_solver.
Qed.

Lemma covered_resolve (x a : uuid) (outcome : dispute_status) (note : option string) (amount : option dec) :
  (∀ r, r ∈ resolution_rows x d0 → r ∈ plan) → covered_by plan d0 (resolve_dispute settings x a outcome note amount).
Proof.
  intros Hp. unfold resolve_dispute, paid_invoice. cov. reads_done. unfold resolution_rows in Hp. rewrite H0, H3 in Hp.
  apply covered_then; [apply covered_outcome, planned_rows; intros; apply Hp; by do 2 right|].
  intros. unfold resolve. keeps_auto; apply keeps_locked_update; left; apply Hp; set_solver.
Qed.

(** The record of a payment, after writes to other tables. *)
Lemma settle_record_changes (i : uuid) (invoice : Invoice) (order : Order) (method : payment_method) (wa ga : dec) (d d' : db) (u : ()) :
  (InvoiceRows, i) ∈ plan → (OrderRows, inv_order_id invoice) ∈ plan → (∀ r, r ∈ redemption_rows i d0 → r ∈ plan) →
  tb_promo_redemptions d = tb_promo_redemptions d0 → changes_only plan d0 d →
  settle_invoice_record i invoice order method wa ga d = Ok (u, d') → changes_only plan d0 d'.
Proof.
  intros Hi Ho Hrd Hd0 Hd Hr. unfold settle_invoice_record in Hr. inv_run Hr.
  pose proof (keeps_locked_update (row := Invoice) plan d0 i _ (or_introl Hi) _ _ _ Hd E4) as C.
  pose proof (keeps_locked_update (row := Order) plan d0 _ _ (or_introl Ho) _ _ _ C E5) as C'.
  same_after tb_promo_redemptions E4. same_after tb_promo_redemptions E5. eapply consume_changes; [done| |exact C'|exact Hr]. congruence.
Qed.

Lemma covered_funded {A} (w : uuid) (wa ga wa' ga' : dec) (i o : uuid) (n : option uuid) (h : bool) (invoice : Invoice) (order : Order)
    (method : payment_method) (rest : M A) :
  planned_wallets plan (w :: wallet_of_system WalletType.SYSTEM_ESCROW d0) →
  (∀ q, quantize_money ga = Ok q → dltb ZERO q = true → planned_wallets plan (wallet_of_system WalletType.SYSTEM_GATEWAY d0)) →
  (InvoiceRows, i) ∈ plan → (OrderRows, inv_order_id invoice) ∈ plan → (∀ r, r ∈ redemption_rows i d0 → r ∈ plan) →
  keeps (changes_only plan d0) rest →
  covered_by plan d0 (fund_escrow_for_invoice w wa ga i o n h;; settle_invoice_record i invoice order method wa' ga';; rest).
Proof.
  intros Hw Hg Hi Ho Hrd Hk a d' (b & d1 & Hf & (u & d2 & Hs & Hr)%bind_ok)%bind_ok.
  eapply Hk; [|exact Hr]. eapply settle_record_changes; [done|done|done| | |exact Hs]; [|by eapply covered_fund_escrow].
  same_after tb_promo_redemptions Hf. done.
Qed.

Lemma covered_settle_invoice (k : uuid) (intent : PaymentIntent) (i : uuid) : pin_reference_invoice_id intent = Some i →
  (∀ r, r ∈ settlement_rows i (pin_user_id intent) d0 → r ∈ plan) → covered_by plan d0 (settle_invoice k intent).
Proof.
  intros Hi Hp. unfold settle_invoice. rewrite Hi. cov; try (apply covered_keeps; keeps_auto; fail). reads_done. simplify_eq.
  destruct a5 as [w wr]. wallets_read. unfold settlement_rows in Hp. rewrite H1 in Hp.
  match type of Hp with ∀ r, r ∈ _ :: _ :: wallet_rows ?ids ++ _ → _ =>
    assert (planned_wallets plan ids) as Hw by (apply planned_rows; intros; apply Hp; do 2 right; apply elem_of_app; by left)
  end. intros u d' Hr. refine (covered_funded _ _ _ _ _ _ _ _ _ a1 _ _ (mret ()) _ _ _ _ _ _ u d' _).
  7: { apply bind_ok in Hr as (x & d1 & Hf & Hr). apply bind_ok. exists x, d1. split; [exact Hf|]. apply bind_ok. exists u, d'. split; [exact Hr|]. by destruct u. }
  - intros j Hj. apply Hw. rewrite H5. set_solver.
  - intros q _ _ j Hj. apply Hw. set_solver.
  - apply Hp. set_solver.
  - apply Hp. set_solver.
  - intros r Hr'. apply Hp. do 2 right. apply elem_of_app. by right.
  - apply keeps_ret.
Qed.

Lemma covered_webhook (body sg : string) : (∀ r, r ∈ lock_plan (Serve (Webhook body sg)) d0 → r ∈ plan) →
  covered_by plan d0 (handle_webhook repr json_loads body sg).
Proof.
  intros Hp. unfold handle_webhook. cov. intros u d' [_ Hs]%with_lock_ok. revert u d' Hs.
  change (covered_by plan d0 (settle_locked a0)). apply lift_ok in H1 as [H1 _]. cbn [lock_plan] in Hp. rewrite H1 in Hp.
  unfold settle_locked. cov; reads_done; try (apply covered_keeps; keeps_auto; fail).
  all: destruct a2 as [k intent]; cbn [fst snd] in *; unfold webhook_rows in Hp; rewrite H2 in Hp.
  { apply covered_keeps. unfold mark_failed. keeps_auto. apply keeps_locked_update. left. apply Hp. set_solver. }
  apply covered_then; [|intros; unfold mark_paid; keeps_auto; apply keeps_locked_update; left; apply Hp; set_solver].
  destruct (same (pin_purpose intent) PaymentPurpose.WALLET_TOPUP) eqn:Et.
  - apply (proj1 (same_true _ _)) in Et. rewrite Et in Hp. unfold settle_topup. cov. reads_done. destruct a2 as [w wr]. wallets_read.
    apply covered_then; [apply covered_credit_topup|intros; apply keeps_ret].
    intros j Hj. eapply planned_rows; [intros; apply Hp; by right|]. rewrite H3. set_solver.
  - destruct (pin_reference_invoice_id intent) as [i|] eqn:Ei; [|unfold settle_invoice; by rewrite Ei].
    apply (covered_settle_invoice k intent i Ei). intros r Hr. apply Hp. right. destruct (pin_purpose intent); first [by vm_compute in Et|exact Hr].
Qed.

Lemma covered_request_withdrawal (c : uuid) (a : dec) (iban key : string) : (∀ r, r ∈ wallet_rows (wallet_of_user c d0) → r ∈ plan) →
  covered_by plan d0 (request_withdrawal settings encrypt c a iban key).
Proof.
  intros Hp. apply planned_rows in Hp. unfold request_withdrawal. cov; try (apply covered_keeps; keeps_auto; fail).
  reads_done. destruct a4 as [w wr]. wallets_read. rewrite H3 in Hp. apply covered_keeps. unfold create_withdrawal. keeps_auto.
  apply keeps_planned_hold. apply Hp. set_solver.
Qed.

Lemma covered_approve_withdrawal (w a : uuid) (ip : option string) : (WithdrawalRows, w) ∈ plan → covered_by plan d0 (approve w a ip).
Proof.
  intros Hp. apply covered_keeps. unfold approve, set_status, record_decision, record. keeps_auto. apply keeps_locked_update. by left.
Qed.

Lemma get_locked_read (w : uuid) (x : Withdrawal) : get_locked w d0 = Ok (x, d0) → tb_withdrawals d0 !! w = Some x.
Proof. intros (o & d1 & [= <- <-] & [E _]%unwrap_ok)%bind_ok. exact E. Qed.

(** The wallet of the withdrawal, and the row itself. *)
Lemma payout_planned (w : uuid) (x : Withdrawal) (system : list uuid) : tb_withdrawals d0 !! w = Some x →
  (∀ r, r ∈ payout_rows w system d0 → r ∈ plan) → (WithdrawalRows, w) ∈ plan ∧ planned_wallets plan (wd_wallet_id x :: system).
Proof.
  intros Hx Hp. unfold payout_rows in Hp. rewrite Hx in Hp. split; [apply Hp; left|]. apply planned_rows. intros. apply Hp. by right.
Qed.

Lemma covered_reject (w a : uuid) (reason : string) (ip : option string) : (∀ r, r ∈ payout_rows w [] d0 → r ∈ plan) →
  covered_by plan d0 (reject w a reason ip).
Proof.
  intros Hp. unfold reject. cov; try (apply covered_keeps; keeps_auto; fail). apply get_locked_read in H0.
  destruct (payout_planned w a0 [] H0 Hp) as [Hr Hw]. apply covered_keeps. unfold set_status, record_decision, record. keeps_auto.
  - apply keeps_planned_release. apply Hw. set_solver.
  - apply keeps_locked_update. by left.
Qed.

Lemma covered_mark_paid (w a : uuid) (ip : option string) :
  (∀ r, r ∈ payout_rows w (wallet_of_system WalletType.SYSTEM_GATEWAY d0) d0 → r ∈ plan) → covered_by plan d0 (mark_withdrawal_paid w a ip).
Proof.
  intros Hp. unfold mark_withdrawal_paid. cov; try (apply covered_keeps; keeps_auto; fail). apply get_locked_read in H0.
  destruct (payout_planned w a0 _ H0 Hp) as [Hr Hw]. apply covered_then; [by apply covered_pay_withdrawal|].
  intros. unfold set_status, record_decision, record. keeps_auto. apply keeps_locked_update. by left.
Qed.

Lemma covered_expire_topup (k : uuid) : (IntentRows, k) ∈ plan → covered_by plan d0 (expire_topup_intent k).
Proof.
  intros Hp. unfold expire_topup_intent. cov; try (apply covered_keeps; keeps_auto; fail). apply covered_rollback, covered_keeps.
  unfold mark_expired. keeps_auto. apply keeps_locked_update. by left.
Qed.

Lemma covered_close_intent (i : uuid) (invoice : Invoice) :
  (∀ k intent d', get_open_intent_for_invoice i d0 = Ok (Some (k, intent), d') →
     (IntentRows, k) ∈ plan ∧ planned_wallets plan (wallet_of_user (pin_user_id intent) d0)) →
  covered_by plan d0 (close_intent i invoice).
Proof.
  intros Hp. unfold close_intent. apply covered_read; [keeps_auto|]. intros [[k intent]|] E; [|apply covered_keeps; keeps_auto].
  destruct (Hp k intent d0 E) as [Hk Hw]. apply covered_then; [|intros; by apply keeps_locked_update; left].
  cov; try (apply covered_keeps; keeps_auto; fail). subst. wallets_read. apply covered_keeps, keeps_planned_release, Hw.
  match goal with E : wallet_of_user _ _ = _ |- _ => rewrite E end. set_solver.
Qed.

Lemma covered_expire_invoice (i : uuid) : (∀ r, r ∈ expiry_rows i d0 → r ∈ plan) → covered_by plan d0 (expire_invoice i).
Proof.
  intros Hp. unfold expire_invoice. cov; try (apply covered_keeps; keeps_auto; fail). reads_done. unfold expiry_rows in Hp. subst. rewrite H0 in Hp.
  apply covered_rollback. intros b d' (u & d1 & Hc & (u2 & d2 & Hr & Hb)%bind_ok)%bind_ok.
  assert (changes_only plan d0 d1) as Hd1.
  { eapply covered_close_intent; [|exact Hc]. intros k intent d3 E. rewrite E in Hp. split; [apply Hp; set_solver|].
    apply planned_rows. intros r Hr'. apply Hp. right. apply elem_of_app. left. apply elem_of_app. by left. }
  assert (changes_only plan d0 d2) as Hd2.
  { eapply release_changes; [|  |exact Hd1|exact Hr]; [intros r Hr'; apply Hp; set_solver|]. unfold close_intent in Hc. same_after tb_promo_redemptions Hc. done. }
  revert Hd2 Hb. match goal with |- _ → ?m _ = _ → _ => assert (keeps (changes_only plan d0) m) as Hk; [|by apply Hk] end.
  keeps_auto; apply keeps_locked_update; left; apply Hp; set_solver.
Qed.

(** A new row is its transaction's. *)
Lemma create_intent_new (u : uuid) (purpose : payment_purpose) (amount : dec) (ref : option uuid) (e : instant) (d d' : db) (k : uuid) :
  changes_only plan d0 d → create_intent u purpose amount ref e d = Ok (k, d') → changes_only plan d0 d' ∧ may_write PaymentIntent plan d0 k.
Proof. intros Hd Hr. unfold create_intent in Hr. inv_run Hr. by eapply insert_new. Qed.

Lemma create_draft_new (o c : uuid) (result : PricingResult) (promo : option uuid) (code : option string) (d d' : db) (k : uuid) :
  changes_only plan d0 d → create_draft o c result promo code d = Ok (k, d') → changes_only plan d0 d' ∧ may_write Invoice plan d0 k.
Proof. intros Hd Hr. unfold create_draft in Hr. inv_run Hr. by eapply insert_new. Qed.

Ltac keeps_new :=
  repeat first [apply (keeps_after_insert (row := PaymentIntent) plan d0); [intros ? ? ?; apply create_intent_new|intros ? ?]
               |apply (keeps_after_insert (row := Invoice) plan d0); [intros ? ? ?; apply create_draft_new|intros ? ?]
               |keeps_step].

Lemma covered_create_topup (u : uuid) (a : dec) : covered_by plan d0 (create_topup settings u a).
Proof.
  apply covered_keeps. unfold create_topup, create_topup_row, attach_streampay. keeps_new. by apply keeps_locked_update.
Qed.

Lemma covered_pay (i c : uuid) : (∀ r, r ∈ payment_rows i c d0 → r ∈ plan) → covered_by plan d0 (pay_invoice settings i c).
Proof.
  intros Hp. unfold pay_invoice. cov; try (apply covered_keeps; keeps_auto; fail). all: reads_done.
  all: destruct a0 as [j inv], a8 as [w wr]; cbn [fst snd] in *; wallets_read; unfold payment_rows in Hp.
  all: apply invoice_for_actor_ok in H0 as (_ & -> & Hi & _); rewrite Hi in Hp.
  all: match type of Hp with ∀ r, r ∈ _ :: wallet_rows ?ids ++ _ → _ =>
    assert (planned_wallets plan ids) as Hw by (apply planned_rows; intros; apply Hp; right; apply elem_of_app; by left) end.
  - apply covered_funded; [| |apply Hp; set_solver|apply Hp; set_solver| |apply keeps_ret].
    + intros k Hk. apply Hw. rewrite H8. set_solver.
    + intros q [= <-]. by vm_compute.
    + intros r Hr. apply Hp. set_solver.
  - apply covered_keeps. unfold attach_streampay. keeps_new.
    + apply keeps_planned_hold, Hw. rewrite H8. set_solver.
    + apply keeps_locked_update. left. apply Hp. set_solver.
    + by apply keeps_locked_update.
Qed.

Lemma covered_create_order (c : uuid) (data : NewOrderInput) : covered_by plan d0 (create_order max_upload c data).
Proof. apply covered_keeps. unfold create_order, create_order_row, add_media. keeps_auto. Qed.

(** The promo of the code. *)
Lemma validate_promo (code : string) (base : dec) (u : uuid) (v : PromoValidation) (d' : db) : validate code base u d0 = Ok (v, d') →
  ∃ p d1, get_by_code code d0 = Ok (Some (pv_promo_id v, p), d1).
Proof. intros Hr. unfold validate in Hr. inv_run Hr. destruct v1 as [k p]. by exists p, d1. Qed.

Lemma covered_create_invoice (o c : uuid) (data : NewInvoiceInput) : (∀ r, r ∈ issue_rows o data d0 → r ∈ plan) →
  covered_by plan d0 (create_invoice settings o c data).
Proof.
  intros Hp. unfold create_invoice. cov. all: reads_done. unfold issue_rows in Hp.
  assert (∀ k p, a5 = Some (k, p) → may_write Promo plan d0 k) as Hk.
  { intros k p ->. destruct (promo_code_of data) as [code|]; [|done]. apply bind_ok in H6 as (base & d1 & [_ ->]%lift_ok & H6).
    apply bind_ok in H6 as (v & d1 & Hv & [= <- <- _]). apply validate_promo in Hv as (p' & d2 & Hv). rewrite Hv in Hp. left. apply Hp. set_solver. }
  assert (may_write Order plan d0 o) as Ho by (left; apply Hp; set_solver).
  apply covered_keeps. destruct a5 as [[k p]|]; [specialize (Hk k p eq_refl)|clear Hk];
    unfold add_item, reserve, atomic_reserve, insert_redemption, issue; keeps_new; by apply keeps_locked_update.
Qed.
End Operations.

(** A transaction changes no row of the locked tables that is not in its plan. *)
Lemma covered_txn `{Deployment} (t : txn) (d : db) : is_sweep t = false → covered_by (lock_plan t d) d (run_txn t).
Proof.
  intros Ht. destruct t as [r|i|k|o]; [destruct r; try discriminate Ht| | |]; cbn [run_txn serve_market]; try apply covered_void.
  - apply covered_create_order.
  - apply covered_accept. cbn. left.
  - apply covered_cancel_order. cbn. left.
  - by apply covered_create_invoice.
  - by apply covered_cancel_invoice.
  - apply covered_create_topup.
  - by apply covered_pay.
  - by apply covered_webhook.
  - apply covered_delivery. cbn. left.
  - by apply covered_approve.
  - apply covered_raise_dispute. cbn. left.
  - by apply covered_resolve.
  - by apply covered_request_withdrawal.
  - apply covered_approve_withdrawal. cbn. left.
  - by apply covered_reject.
  - by apply covered_mark_paid.
  - apply covered_keeps, keeps_locked_job, keeps_reconcile.
  - by apply covered_expire_invoice.
  - apply covered_expire_topup. cbn. left.
  - by apply covered_rollback, covered_auto_approve.
Qed.

(** ** Transactions side by side *)

(** Each with the database it finds. *)
Definition start_txns `{Deployment} (ts : gmap pid (txn * db)) : gmap pid locker := (λ x, start_locker (lock_plan x.1 x.2)) <$> ts.

Lemma start_ascending `{Deployment} (ts : gmap pid (txn * db)) :
  map_Forall (λ _ x, follows_order x.1 = true) ts → all_ascending (start_txns ts).
Proof.
  intros Hts p x Hp. apply lookup_fmap_Some in Hp as ([t d] & <- & Hp). cbn. apply (plan_ascends t d); [by apply (Hts p _ Hp)|].
  intros h Hh. by apply not_elem_of_nil in Hh.
Qed.

Lemma start_exclusive `{Deployment} (ts : gmap pid (txn * db)) : exclusive (start_txns ts).
Proof. intros p q x y r (? & <- & _)%lookup_fmap_Some _ Hr. by apply not_elem_of_nil in Hr. Qed.

(** [C19] Transactions that follow the common order, any number of them, each with the rows its code locks in the database it
    finds (every request and sweep item but paying, issuing and expiring an invoice): whatever the interleaving, and wherever one of them
    skips rows or gives up, no two hold the same row, some transaction can always go on until all have ended (there is no deadlock), and
    the number of steps is bounded.  And the rows considered are all that matter: every transaction, also the other three, changes no row of the
    locked tables outside its plan. *)
Theorem locks_never_deadlock `{Deployment} (ts : gmap pid (txn * db)) (n : nat) (m : gmap pid locker) :
  map_Forall (λ _ x, follows_order x.1 = true) ts → nsteps lock_step n (start_txns ts) m →
  ¬ deadlocked m ∧ exclusive m ∧ (lock_work m + n ≤ lock_work (start_txns ts))%nat ∧
  (∀ t d d', is_sweep t = false → run_txn t d = Ok ((), d') → changes_only (lock_plan t d) d d').
Proof.
  intros Hts Hn. destruct (ascending_runs _ _ _ (start_ascending ts Hts) (start_exclusive ts) Hn) as (Ha & He & Hw).
  split_and!; [by apply ascending_progress|done|done|]. intros t d d' Ht. by apply covered_txn.
Qed.

(** ** Schedules *)

(** The transactions of the list take their next row, one after the other. *)
Fixpoint schedule (ps : list pid) (m : gmap pid locker) : option (gmap pid locker) :=
  match ps with [] => Some m | p :: ps => m' ← advance_locker p m; schedule ps m' end.

Definition stuck (m : gmap pid locker) : bool :=
  negb (bool_decide (map_to_list m = [])) && forallb (λ x, negb (not_null (advance_locker x.1 m))) (map_to_list m).

Lemma schedule_steps (ps : list pid) (m m' : gmap pid locker) : schedule ps m = Some m' → rtc lock_step m m'.
Proof.
  revert m. induction ps as [|p ps IH]; intros m; [intros [= ->]; apply rtc_refl|]. cbn. intros (m1 & E & Hs)%bind_Some.
  eapply rtc_l; [by apply (lock_advance p)|by apply IH].
Qed.

Lemma stuck_deadlocked (m : gmap pid locker) : stuck m = true → deadlocked m.
Proof.
  unfold stuck. intros [Hm Hs]%andb_true_iff. split.
  - intros ->. by vm_compute in Hm.
  - intros p. destruct (m !! p) as [x|] eqn:Ep; [|by unfold advance_locker; rewrite Ep]. rewrite forallb_forall in Hs.
    specialize (Hs (p, x)). cbn in Hs. destruct (advance_locker p m); [|done]. discriminate Hs. by apply list_elem_of_In, elem_of_map_to_list.
Qed.

(** The gateway reports the 207.15 that are due on invoice 40 (the payment link is the one its checkout created). *)
Definition paid_event : json := event_json "PAYMENT_SUCCEEDED" "pl_1000" "PAID" "207.15".

Definition lock_deployment : Deployment := {|
  dp_storage := one_object; dp_gateway := gateway0; dp_security := opaque_lib; dp_sms := sms0;
  dp_push := {| send_push _ _ _ := Ok () |}; dp_email := {| send_transactional _ _ _ := Ok () |}; dp_gcm := toy_gcm;
  app := app0; max_upload := 4096; encrypt := enc0; st_distance _ _ := inject_Z 20;
  repr := repr0; json_loads _ := Some paid_event; json_dumps _ := EmptyString; json_text _ := None; isoformat _ := EmptyString;
  type_name _ := EmptyString; fromisoformat _ := None; sign_webhook _ := EmptyString; uuid5 _ := 99%N; table_rows _ _ := []
|}.

#[local] Existing Instance lock_deployment.

Definition gateway_webhook : txn := Serve (Webhook EmptyString "ok").

(** A webhook, an approval of a delivered order and a withdrawal request, after the first has locked a row. *)
Definition ordered_txns : gmap pid (txn * db) :=
  {[ 1%N := (gateway_webhook, db_lapsed); 2%N := (Serve (ApproveOrder 50 70), db_delivered);
     3%N := (Serve (RequestWithdrawal 71 (sar 1000) "SA0380000000608010167519" "k1"), db_courier) ]}.

Lemma locks_never_deadlock_witness : ∃ m, schedule [1%N] (start_txns ordered_txns) = Some m ∧ ¬ deadlocked m ∧ exclusive m.
Proof.
  destruct (advance_locker 1 (start_txns ordered_txns)) as [m|] eqn:E; [|exfalso; by vm_compute in E].
  exists m. split; [cbn; by rewrite E|].
  destruct (@locks_never_deadlock lock_deployment ordered_txns 1 m) as (H1 & H2 & _).
  - apply (bool_decide_unpack _). vm_compute. exact I.
  - apply nsteps_once. by apply (lock_advance 1).
  - by split.
Defined.

(** The expiry sweep takes the invoice and then updates its payment intent; the webhook takes the intent and then the invoice. *)
Theorem expiry_webhook_deadlock :
  is_ok (run_txn gateway_webhook db_lapsed) = true ∧ is_ok (run_txn (ExpireInvoice 40) db_lapsed) = true ∧
  ∃ m, rtc lock_step (start_txns {[ 1%N := (gateway_webhook, db_lapsed); 2%N := (ExpireInvoice 40, db_lapsed) ]}) m ∧ deadlocked m.
Proof.
  split; [vm_compute; reflexivity|]. split; [vm_compute; reflexivity|].
  match goal with |- context [rtc lock_step ?x] => destruct (schedule [1; 2; 2]%N x) as [m|] eqn:E; [|exfalso; by vm_compute in E];
    assert (from_option stuck false (schedule [1; 2; 2]%N x) = true) as Hs by (vm_compute; reflexivity) end.
  rewrite E in Hs. exists m. split; [by eapply schedule_steps|by apply stuck_deadlocked].
Qed.

(** Paying takes the order and then updates the invoice, which it has read without a lock; cancelling takes the invoice and then the order. *)
Theorem pay_cancel_deadlock :
  is_ok (run_txn (Serve (PayInvoice 40 70)) db_waiting) = true ∧ is_ok (run_txn (Serve (CancelInvoice 40 71)) db_waiting) = true ∧
  ∃ m, rtc lock_step (start_txns {[ 1%N := (Serve (PayInvoice 40 70), db_waiting); 2%N := (Serve (CancelInvoice 40 71), db_waiting) ]}) m ∧ deadlocked m.
Proof.
  split; [vm_compute; reflexivity|]. split; [vm_compute; reflexivity|].
  match goal with |- context [rtc lock_step ?x] => destruct (schedule [1; 2; 1; 1]%N x) as [m|] eqn:E; [|exfalso; by vm_compute in E];
    assert (from_option stuck false (schedule [1; 2; 1; 1]%N x) = true) as Hs by (vm_compute; reflexivity) end.
  rewrite E in Hs. exists m. split; [by eapply schedule_steps|by apply stuck_deadlocked].
Qed.
